(* ===== verification/_CoqProject ===== *)
-Q . S2P
Prelude.v
Libc.v
Platform.v
StanzaScan.v
Yxml.v
SlotMap.v
XmppCore.v
StanzaParse.v
RxBuffer.v
Persist.v
Logic.v
Store.v
Tls.v
Sasl.v
Sm.v
Iq.v
Muc.v
Message.v
MucPresence.v
Presence.v
Frame.v
Router.v
Server.v
Reach.v
Upkeep.v
Lifetime.v
Wire.v
Ledger.v
Pmm.v
Vmm.v
E1000.v
Idt.v
Pci.v
NetGlue.v
Timers.v
Pbuf.v
PbufData.v
Chksum.v
Heap.v
Gate.v
Isr.v
Serial.v
TlsInit.v
Block.v
Ata.v
Ahci.v
Disk.v
Boot.v
