(* ===== verification/Prelude.v ===== *)
(** * AngelicKernel: a verification library for its XMPP server and its kernel

    AngelicKernel is a unikernel: one image that boots on bare hardware, brings
    up memory, interrupts, a disk and a network card, and runs an XMPP server
    on the lwIP TCP stack with TLS by mbedTLS.  This library translates the
    server, the C library it is linked with and the kernel below it into
    executable definitions and proves the properties that make them correct.  This file is the root: it
    also holds the notations, tactics and generic lemmas all others share.

    ** The program and the files

    Bytes arrive from lwIP in src/xmpp/xmpp_server.c, go through TLS
    (xmpp_tls.c) into the receive buffer of the connection, are cut into
    stanzas (yxml_sse.c), parsed (xmpp_parser.c over yxml.c, with the pool of
    xmpp_memory.c), dispatched (xmpp_router.c) to the handlers
    (xmpp_handlers.c, xmpp_sm.c), which answer with [send_raw] and keep the
    stores (xmpp_store.c), which are saved to disk (xmpp_persist.c).

    - [Libc]: src/net/libc_glue.c, the freestanding C library (mem and str
      functions, atoi, vsnprintf, the random generator);
    - [StanzaScan]: src/xmpp/yxml_sse.c, the three stanza framers and their
      dispatcher;
    - [Yxml]: src/xmpp/yxml.c, the XML tokenizer, every state;
    - [SlotMap]: no code, but the interface (class [Slotted]) of the arrays of
      slots the server keeps its data in, and the proof that such an array is a
      finite map;
    - [XmppCore]: src/xmpp/xmpp_core.h, the globals, [send_raw];
    - [StanzaParse]: src/xmpp/xmpp_parser.c and xmpp_memory.c;
    - [RxBuffer]: the receive buffer as xmpp_server.c, xmpp_tls.c and xmpp_sm.c
      use it;
    - [Persist]: src/xmpp/xmpp_persist.c, the disk layout, saving and loading;
    - [Logic]: the program logic for handlers;
    - [Store]: src/xmpp/xmpp_store.c and the two tables at the top of
      xmpp_handlers.c;
    - [Tls]: src/xmpp/xmpp_tls.c;
    - [Sasl], [Iq], [Muc], [Message], [MucPresence], [Presence]: the handlers
      of src/xmpp/xmpp_handlers.c, in this order authentication; roster,
      private storage, binding and small queries; room administration; service
      discovery and messages; joining and leaving rooms; presence and
      subscriptions;
    - [Sm]: src/xmpp/xmpp_sm.c, stream management;
    - [Frame]: what the stanza handlers leave alone, the interface through which
      the connection server reasons about them;
    - [Router]: src/xmpp/xmpp_router.c and the stream negotiation of
      xmpp_server.c;
    - [Server]: src/xmpp/xmpp_server.c, the callbacks lwIP makes, and the part
      of the main loop of src/kernel.c that serves connections;
    - [Reach]: no code, but the transition relation of the whole server, the
      steps being the callbacks and the rounds of the main loop, and what holds
      in every reachable state;
    - [Upkeep], [Lifetime]: no code, but the invariants of the stores and of the
      rooms under every operation, that every handler saves what it changes, and
      the life of a server: a first start, steps, and reboots from its disk;
    - [Wire]: no code, but what may be written to a connection in plain;
    - [Ledger]: no code, but the accounts the receive path keeps with lwIP;
    - [Pmm], [Vmm]: src/mm/pmm.c and src/mm/vmm.c, the page allocator and the
      page tables, with the check of the tables in src/mpk_diagnostic.c;
    - [E1000]: src/drivers/e1000.c, the rings of the network card;
    - [Idt], [Pci]: src/arch/idt.c and src/drivers/pci.c;
    - [Timers]: src/lwip/src/core/timeouts.c on the clock of
      src/net/lwip_glue.c; [Platform]: the stubs of src/xmpp/mbedtls_port.c and
      include/ctype.h;
    - [Pbuf]: src/lwip/src/core/pbuf.c over the pools of memp.c, and the way of a
      received frame into a packet buffer; [PbufData]: reading, writing and
      searching through a chain; [Chksum]:
      src/lwip/src/core/inet_chksum.c; [Heap]: the allocator of
      src/lwip/src/core/mem.c;
    - [NetGlue]: src/net/lwip_glue.c and the polling part of the main loop;
    - [Gate]: src/arch/mpk.asm and include/sys/mpk_gate.h, an interpreter for the
      instructions of the protection-key gates;
    - [Isr]: src/arch/interrupts.asm, an interrupt from the instruction it strikes
      to the one that goes on, and the self-test of src/mpk_diagnostic.c;
    - [Serial]: the console, the printers of src/kernel.c and [printf];
    - [TlsInit]: the set-up of the server in src/xmpp/xmpp_tls.c;
    - [Block]: sectors, and the contract of src/drivers/disk.h as a type class;
    - [Ata], [Ahci]: src/drivers/ata.c and ahci.c over machines for the channel
      and the controller, the instances of the contract;
    - [Disk]: src/drivers/disk.c, and the flat array [Persist] sees;
    - [Boot]: [efi_main] of src/kernel.c up to the main loop, all of the above put
      together, with src/xmpp/mpk_benchmark.c.

    ** How the code is modelled

    A [char] array is the list of its bytes (numbers 0..255 in [Z]), a pointer
    into it the rest of the list, a C string what precedes the first NUL
    ([cstr]).  Integers are [Z] with the wrap-around of their width written out
    where the code can reach it ([u8], [u32], [s32], ...).  A struct is a record
    with the fields of the C declaration.

    The globals are one record, [XmppCore.srv]: the connections, the rooms, the
    five stores, the disk, and a trace of what the server did to the outside
    (TCP writes, closes).  A handler is a function of the state monad [M] over
    it, with the arguments of the C function; a pointer to a connection or a
    room is its index, so a handler that reads through a pointer after another
    call changed the object sees the change.

    mbedTLS, lwIP and the devices are outside the server.  What they answer to it
    is the class [XmppCore.Env]: a result per call, in the order the code
    makes the calls, so the theorems hold for every behaviour of theirs; the
    witnesses use the instance [good_env].

    The kernel's components have states of their own: physical memory is a map
    from the address of a 64-bit word to its value ([Pmm.mm]); the network card's
    rings and registers are [E1000.nic], and what the card does on its own is a
    function that may act before every read the driver makes; the interrupt
    controllers and the PCI ports are small devices.

    Log output (printf to the serial port) is left out of the definitions.

    ** What is proved

    - Authentication: a connection becomes authenticated only under TLS and with
      a password of the table, or by the path of the finding below; base64
      decoding inverts encoding.
    - Framing: the three framers agree, and return the end of the first complete
      element; none leaves its buffer.
    - Parsing: yxml never leaves the memory it was given on input it accepts;
      the stanza parser always returns, consumes no more than it was given, and
      fills only its fields.
    - Stores: a roster and the private storage refine finite maps, offline
      messages are delivered exactly once, whole payloads keep the invariants.
    - Persistence: what was saved is what is loaded after a reboot; every change
      of a single byte is detected by the checksum.
    - Rooms: presence keeps the occupants of every room distinct by nick and by
      address; requests refine functions on the list of rooms; a ban takes
      effect and the banned stay out.
    - Messages: a message is delivered to every session of its addressee, or
      stored, or answered with an error.
    - Subscriptions: the transition moves the two directions independently, and
      the state written into an item is the one read back.
    - Stream management and TLS: the staging buffer is a queue, acknowledgements
      count the received stanzas, an element is consumed exactly once.
    - The server as a whole: in every state reachable by any sequence of
      accepted connections, received data, failures and rounds of the main loop,
      who logs in or is logged in talks through TLS, buffers and tables are well
      formed, the stanza pool is free; the receive callback always terminates
      and leaves nothing behind that it could have handled.
    - The life of a server, through any number of reboots of a machine whose disk
      works: between callbacks the disk holds the five stores as they are in
      memory, the stores and the rooms are well formed and hold nothing twice,
      and no stanza touches a private document of another user.
    - The wire: whatever the server writes to a connection outside TLS is one of
      the fixed texts of the stream negotiation.
    - Accounts: of every packet the receive callback is given, it acknowledges all
      bytes once and frees the buffers once, on every path.
    - Routing: without a session no stanza reaches a handler that needs one.
    - Memory: the allocator hands out the pages of the largest segment, zeroed,
      each once; mapping a page is a map update; the start-up code builds the
      identity map of 4 GiB in 2054 pages; locking the driver tags its pages and
      no others.
    - Devices: the receive ring of the network card is a queue of 31 frames, a
      frame is sent only through descriptors the card has handed back; the
      descriptor table and the interrupt controllers are set up; the PCI scan is
      a search; a round of the main loop takes four frames.
    - Timers: the list of timeouts is a queue ordered by due time, also around the
      wrap of 32-bit time; it keeps each timer once and never runs out of its
      pool; a check runs what is due and ends; and with the kernel's clock, which
      wraps too early, the timers stop.
    - Packets: the reference counts of the packet buffers are sound, no element of
      a pool is lost or freed twice; a received frame fits its buffer; copying out
      of a chain is a slice of its bytes, writing a splice, and searching is
      searching its bytes; the checksum is that of the bytes,
      however a packet is divided into buffers and wherever they lie.
    - The heap of lwIP is a row of blocks; what is in use never overlaps, and when
      everything has been given back the heap is whole again.
    - Disks: both drivers, down to the registers, make the disk the flat array of
      bytes [Persist] takes it for, and a write that works is permanent; a write
      never leaves its range of sectors, whatever the drive does; the start-up
      finds the controllers and chooses a disk.  Errors the drivers overlook are
      theorems too.
    - Protection: a gate is a lock around one call; an interrupt leaves the program
      it strikes as it was, keys included; from a machine that can be booted the
      kernel reaches its main loop with the driver, and nothing else, closed to it.
    - Console and TLS: the number printers stay in their buffers and print the
      number; [printf] prints what [snprintf] renders; the TLS set-up reports
      success only when a handshake can be served.
    - C library: strstr, memmove, vsnprintf, atoi against their specifications.
    - Divergences: theorems of kind error prove what the code does where it does
      not do what it means to (unchecked rights, skipped password test, and so
      on); each is a finding with its source line.

    ** Fuel and bounds

    Loops over arrays are folds over their indices.  The other loops take fuel,
    and give [None] (or stop) without it; the callers provide enough: the scan
    loops one more than the bytes of the buffer, since every round takes at
    least one; the receive loop the size of the receive buffer, since every
    round that goes on consumes at least one byte; [tls_send] the length of its
    data, since a write that takes nothing ends it; [decrypt_loop] the size of
    the receive buffer; the check of the timers six rounds; the loops over a chain
    of packet buffers the number of buffers in use; the loops over the heap one
    more than the blocks of 24 bytes that fit into it; the waits of the
    network and disk drivers the number of reads the code allows, a number that
    is never computed with;
    [roster_items_loop] the length of the payload; the number conversions of
    vsnprintf 20 digits.  The theorems on these functions are about results with
    that fuel, never about runs that ended by chance.

    ** Proof automation

    [Logic] declares the hint database [handlers] with the rules that say which
    part of the state each operation may change, so that a frame property of a
    handler is one [eauto]; the tactic [run] executes a monadic program
    symbolically.  The notations for the monad are in [XmppCore].

    ** What is not modelled

    What the start-up prints on the way is left out of [Boot].
    Log output of the server has no state it depends on.  mbedTLS and, but for its
    timers, packet buffers, heap and checksums, lwIP are third-party code whose
    answers are parameters. *)

From Stdlib Require Import ZArith Lia String Ascii Bool.
From stdpp Require Import base list numbers option sets.

#[export] Set Default Goal Selector "!".

Open Scope Z_scope.

(** Tests on integers are case-split with their [spec] lemmas, so [simpl] only
    evaluates them on literals. *)
#[global] Arguments Z.eqb !x !y : simpl nomatch.
#[global] Arguments Z.ltb !x !y : simpl nomatch.
#[global] Arguments Z.leb !x !y : simpl nomatch.

(** ** Machine integers

    A [w]-bit unsigned C integer is a [Z]; every place where the C code can
    wrap writes the wrap-around out with one of these functions. *)

Definition u8 (x : Z) : Z := x mod 2 ^ 8.
Definition u16 (x : Z) : Z := x mod 2 ^ 16.
Definition u32 (x : Z) : Z := x mod 2 ^ 32.
Definition u64 (x : Z) : Z := x mod 2 ^ 64.

(** Signed 32-bit value of a 32-bit pattern (two's complement). *)
Definition s32 (x : Z) : Z := (x + 2 ^ 31) mod 2 ^ 32 - 2 ^ 31.

(** ** C literals

    A C string literal is the list of its bytes.  [qstr] is for the literals
    that contain double quotes: the backtick stands for the quote (no literal
    of the code contains a backtick). *)

Fixpoint str (s : string) : list Z :=
  match s with
  | EmptyString => []
  | String a s' => Z.of_N (N_of_ascii a) :: str s'
  end.

Definition qstr (s : string) : list Z :=
  map (fun c => if c =? 96 then 34 else c) (str s).

(** The byte of a one-character literal. *)
Definition chr (a : ascii) : Z := Z.of_N (N_of_ascii a).

(** ** Boolean helpers *)

(** Equality test on byte strings. *)
Fixpoint bytes_eqb (a b : list Z) : bool :=
  match a, b with
  | [], [] => true
  | x :: a', y :: b' => (x =? y) && bytes_eqb a' b'
  | _, _ => false
  end.

(** C truth value of an [int]. *)
Definition truth (x : Z) : bool := negb (x =? 0).

(** C result of a comparison. *)
Definition of_bool (b : bool) : Z := if b then 1 else 0.

Lemma bytes_eqb_spec (a b : list Z) : bytes_eqb a b = true <-> a = b.
Proof.
  revert b; induction a as [|x a IH]; intros [|y b]; simpl; try easy.
  rewrite andb_true_iff, Z.eqb_eq, IH. naive_solver.
Qed.

Lemma bytes_eqb_refl (a : list Z) : bytes_eqb a a = true.
Proof. by apply bytes_eqb_spec. Qed.

Lemma bytes_eqb_neq (a b : list Z) : bytes_eqb a b = false <-> a <> b.
Proof.
  destruct (bytes_eqb a b) eqn:E.
  - apply bytes_eqb_spec in E. naive_solver.
  - split; [|done]. intros _ ->. by rewrite bytes_eqb_refl in E.
Qed.

(** ** Bits *)

Lemma testbit_above (n x i : Z) : 0 <= x < 2 ^ n -> 0 <= n <= i -> Z.testbit x i = false.
Proof.
  intros Hx Hi. rewrite <- (Z.mod_small x (2 ^ n)) by lia. apply Z.mod_pow2_bits_high. lia.
Qed.

Lemma lxor_bound (n x y : Z) :
  0 <= n -> 0 <= x < 2 ^ n -> 0 <= y < 2 ^ n -> 0 <= Z.lxor x y < 2 ^ n.
Proof.
  intros Hn Hx Hy. assert (0 <= Z.lxor x y) as Hnn by (apply Z.lxor_nonneg; lia).
  split; [done|].
  replace (Z.lxor x y) with (Z.lxor x y mod 2 ^ n); [apply Z.mod_pos_bound; lia|].
  apply Z.bits_inj'. intros i Hi. destruct (Z_lt_dec i n).
  - by rewrite Z.mod_pow2_bits_low by lia.
  - by rewrite Z.mod_pow2_bits_high, Z.lxor_spec, !(testbit_above n) by lia.
Qed.

(** ** Lists *)

(** Two updates of one element in a row. *)
Lemma alter_alter {A} (f g : A -> A) (i : nat) (l : list A) :
  alter f i (alter g i l) = alter (fun x => f (g x)) i l.
Proof.
  apply list_eq. intros k. destruct (decide (k = i)) as [->|].
  - rewrite !list_lookup_alter_eq. by destruct (l !! i).
  - by rewrite !list_lookup_alter_ne.
Qed.

Lemma alter_insert {A} (f : A -> A) (i : nat) (l : list A) (x : A) :
  l !! i = Some x -> alter f i l = <[i := f x]> l.
Proof.
  intros Hx. apply list_eq. intros k. destruct (decide (k = i)) as [->|].
  - rewrite list_lookup_alter_eq, Hx, list_lookup_insert_eq; [done|by eapply lookup_lt_Some].
  - by rewrite list_lookup_alter_ne, list_lookup_insert_ne.
Qed.
