(* ===== verification/Libc.v ===== *)
(** The freestanding C library of the kernel: src/net/libc_glue.c.

    A [char] array is the list of its bytes; a pointer into an array is the
    rest of the array from that position on, and the difference of two
    pointers into the same array is the difference of the lengths of their
    rests.  A read past the last element of an array yields 0; a write past it
    makes the list longer than the array, so a length lemma on a written array
    says that no write left it. *)

From Stdlib Require Import ZArith Lia String Ascii Bool.
From stdpp Require Import base list numbers option sets.
From S2P Require Import Prelude.

Open Scope Z_scope.

(** ** Reading through pointers *)

(** [*p] *)
Definition deref (p : list Z) : Z := match p with [] => 0 | c :: _ => c end.

(** [p[i]] *)
Definition at_ (p : list Z) (i : nat) : Z := deref (drop i p).

(** [q - p] for [q] a rest of [p] *)
Definition ptr_diff (q p : list Z) : Z :=
  Z.of_nat (length p) - Z.of_nat (length q).

(** The C string an array holds: its bytes up to the first NUL. *)
Fixpoint cstr (b : list Z) : list Z :=
  match b with
  | [] => []
  | c :: b' => if c =? 0 then [] else c :: cstr b'
  end.

(** The array has a terminator. *)
Definition terminated (b : list Z) : Prop := 0 ∈ b.

(** No byte of the list is a terminator. *)
Definition nul_free (s : list Z) : Prop := Forall (fun c => c <> 0) s.

(** ** mem* functions *)

Fixpoint memset (s : list Z) (c : Z) (n : nat) : list Z :=
  match n with
  | O => s
  | S n' => u8 c :: memset (tail s) c n'
  end.

Fixpoint memcpy (d s : list Z) (n : nat) : list Z :=
  match n with
  | O => d
  | S n' => deref s :: memcpy (tail d) (tail s) n'
  end.

(** The two loops of [memmove]; source and destination are offsets into one
    array [m], so that the copy sees its own writes when they overlap. *)
Fixpoint memmove_fwd (m : list Z) (d s n : nat) : list Z :=
  match n with
  | O => m
  | S n' => memmove_fwd (<[d := at_ m s]> m) (S d) (S s) n'
  end.

Fixpoint memmove_bwd (m : list Z) (d s n : nat) : list Z :=
  match n with
  | O => m
  | S n' => memmove_bwd (<[(d + n')%nat := at_ m (s + n')]> m) d s n'
  end.

Definition memmove (m : list Z) (d s n : nat) : list Z :=
  if (d =? s)%nat then m
  else if (d <? s)%nat then memmove_fwd m d s n
  else memmove_bwd m d s n.

Fixpoint memcmp (s1 s2 : list Z) (n : nat) : Z :=
  match n with
  | O => 0
  | S n' =>
      if negb (deref s1 =? deref s2) then deref s1 - deref s2
      else memcmp (tail s1) (tail s2) n'
  end.

Fixpoint memchr (s : list Z) (c : Z) (n : nat) : option (list Z) :=
  match n with
  | O => None
  | S n' => if deref s =? u8 c then Some s else memchr (tail s) c n'
  end.

(** ** str* functions *)

Fixpoint strlen (s : list Z) : nat :=
  match s with
  | [] => 0
  | c :: s' => if c =? 0 then 0 else S (strlen s')
  end.

Fixpoint strncmp (s1 s2 : list Z) (n : nat) : Z :=
  match n with
  | O => 0
  | S n' =>
      if negb (deref s1 =? deref s2) then deref s1 - deref s2
      else if deref s1 =? 0 then 0
      else strncmp (tail s1) (tail s2) n'
  end.

Fixpoint strcmp (s1 s2 : list Z) : Z :=
  match s1 with
  | [] => 0 - deref s2
  | c :: s1' =>
      if negb (c =? 0) && (c =? deref s2) then strcmp s1' (tail s2)
      else c - deref s2
  end.

(** The second loop of [strncpy]: NUL padding. *)
Fixpoint strncpy_pad (dest : list Z) (n : nat) : list Z :=
  match n with
  | O => dest
  | S n' => 0 :: strncpy_pad (tail dest) n'
  end.

Fixpoint strncpy (dest src : list Z) (n : nat) : list Z :=
  match n with
  | O => dest
  | S n' =>
      if deref src =? 0 then strncpy_pad dest n
      else deref src :: strncpy (tail dest) (tail src) n'
  end.

(** The inner loop of [strstr]: the needle left over when it stops. *)
Fixpoint strstr_rest (h n : list Z) : list Z :=
  match h, n with
  | x :: h', y :: n' =>
      if negb (x =? 0) && negb (y =? 0) && (x =? y) then strstr_rest h' n' else n
  | _, _ => n
  end.

Fixpoint strstr_loop (haystack needle : list Z) : option (list Z) :=
  match haystack with
  | [] => None
  | x :: h' =>
      if x =? 0 then None
      else if negb (x =? deref needle) then strstr_loop h' needle
      else if deref (strstr_rest haystack needle) =? 0 then Some haystack
      else strstr_loop h' needle
  end.

Definition strstr (haystack needle : list Z) : option (list Z) :=
  if deref needle =? 0 then Some haystack else strstr_loop haystack needle.

Fixpoint strcpy (dest src : list Z) : list Z :=
  match src with
  | [] => 0 :: tail dest
  | c :: src' => if c =? 0 then 0 :: tail dest else c :: strcpy (tail dest) src'
  end.

Fixpoint strchr (s : list Z) (c : Z) : option (list Z) :=
  match s with
  | [] => if 0 =? u8 c then Some [] else None
  | x :: s' => if x =? u8 c then Some s else if x =? 0 then None else strchr s' c
  end.

Fixpoint strrchr (s : list Z) (c : Z) : option (list Z) :=
  match s with
  | [] => if 0 =? u8 c then Some [] else None
  | x :: s' =>
      let last := if x =? u8 c then Some s else None in
      if x =? 0 then last
      else match strrchr s' c with Some r => Some r | None => last end
  end.

(** The copying loop of [strncat], started at the terminator of [dest]. *)
Fixpoint strncat_copy (d src : list Z) (n : nat) : list Z :=
  match n with
  | O => 0 :: tail d
  | S n' =>
      if deref src =? 0 then 0 :: tail d
      else deref src :: strncat_copy (tail d) (tail src) n'
  end.

Fixpoint strncat (dest src : list Z) (n : nat) : list Z :=
  match dest with
  | [] => strncat_copy [] src n
  | c :: d' => if c =? 0 then strncat_copy dest src n else c :: strncat d' src n
  end.

Fixpoint strcat (dest src : list Z) : list Z :=
  match dest with
  | [] => strcpy [] src
  | c :: d' => if c =? 0 then strcpy dest src else c :: strcat d' src
  end.

(** ** atoi *)

Fixpoint atoi_skip (s : list Z) : list Z :=
  match s with
  | c :: s' =>
      if (c =? 32) || (c =? 9) || (c =? 10) then atoi_skip s' else s
  | [] => []
  end.

Fixpoint atoi_digits (res : Z) (s : list Z) : Z :=
  match s with
  | c :: s' =>
      if (48 <=? c) && (c <=? 57) then atoi_digits (s32 (res * 10 + (c - 48))) s'
      else res
  | [] => res
  end.

Definition atoi (s : list Z) : Z :=
  let s := atoi_skip s in
  let '(sign, s) :=
    if deref s =? 45 then (-1, tail s)
    else if deref s =? 43 then (1, tail s)
    else (1, s) in
  s32 (atoi_digits 0 s * sign).

(** ** Formatted output *)

(** One argument of a variadic call. *)
Inductive arg :=
| AInt (v : Z)                (** int *)
| AUint (v : Z)               (** unsigned int *)
| ALong (v : Z)               (** long *)
| AUlong (v : Z)              (** unsigned long, size_t *)
| APtr (v : Z)                (** any pointer printed with %p *)
| AStr (s : option (list Z)). (** const char *, [None] for NULL *)

(** The value [va_arg] reads at an integer type; at a mismatched argument it
    is 0 (C leaves it undefined and no call of the code does it). *)
Definition arg_int (a : option arg) : Z :=
  match a with
  | Some (AInt v) | Some (AUint v) | Some (ALong v) | Some (AUlong v) | Some (APtr v) => v
  | _ => 0
  end.

Definition arg_str (a : option arg) : list Z :=
  match a with
  | Some (AStr (Some s)) => cstr s
  | Some (AStr None) => str "(null)"
  | _ => []
  end.

(** Both digit writers append to [*buf] while [*limit > 1]: the result is the
    bytes appended and the limit left.  Twenty digits hold every 64-bit value
    in base 10, sixteen in base 16. *)
Fixpoint simple_append_int (fuel : nat) (limit n : Z) : list Z * Z :=
  match fuel with
  | O => ([], limit)
  | S fuel' =>
      let '(out, limit) :=
        if 10 <=? n then simple_append_int fuel' limit (n / 10) else ([], limit) in
      if 1 <? limit then (out ++ [n mod 10 + 48], limit - 1) else (out, limit)
  end.

Definition hex_digits : list Z := str "0123456789ABCDEF".

Fixpoint simple_append_hex (fuel : nat) (limit n : Z) : list Z * Z :=
  match fuel with
  | O => ([], limit)
  | S fuel' =>
      let '(out, limit) :=
        if 16 <=? n then simple_append_hex fuel' limit (n / 16) else ([], limit) in
      if 1 <? limit then (out ++ [at_ hex_digits (Z.to_nat (n mod 16))], limit - 1)
      else (out, limit)
  end.

(** The [%s] loop. *)
Fixpoint append_str (limit : Z) (s : list Z) : list Z * Z :=
  match s with
  | [] => ([], limit)
  | c :: s' =>
      if negb (c =? 0) && (1 <? limit) then
        let '(out, l) := append_str (limit - 1) s' in (c :: out, l)
      else ([], limit)
  end.

(** A run of single-byte writes, each guarded by [remaining > 1]. *)
Fixpoint append_raw (limit : Z) (s : list Z) : list Z * Z :=
  match s with
  | [] => ([], limit)
  | c :: s' =>
      if 1 <? limit then
        let '(out, l) := append_raw (limit - 1) s' in (c :: out, l)
      else append_raw limit s'
  end.

(** The two-byte prefix of [%p]. *)
Definition append_0x (limit : Z) : list Z * Z :=
  if 2 <? limit then (str "0x", limit - 2) else ([], limit).

(** One conversion: [mode] is the length modifier read ([l], [z] or 0), [c]
    the conversion character, [a] the argument [va_arg] would give. *)
Definition convert (mode c : Z) (a : option arg) (limit : Z) : list Z * Z :=
  if (c =? 100) || (c =? 105) then                                  (* d i *)
    let val := if mode =? 108 then arg_int a else s32 (arg_int a) in
    if (val <? 0) && (1 <? limit) then
      let '(out, l) := simple_append_int 20 (limit - 1) (u64 (- val)) in (45 :: out, l)
    else simple_append_int 20 limit (u64 val)
  else if c =? 117 then                                             (* u *)
    let val := if negb (mode =? 0) then u64 (arg_int a) else u32 (arg_int a) in
    simple_append_int 20 limit val
  else if (c =? 120) || (c =? 88) then                              (* x X *)
    let val := if negb (mode =? 0) then u64 (arg_int a) else u32 (arg_int a) in
    simple_append_hex 16 limit val
  else if c =? 112 then                                             (* p *)
    let '(o1, l1) := append_0x limit in
    let '(o2, l2) := simple_append_hex 16 l1 (u64 (arg_int a)) in (o1 ++ o2, l2)
  else if c =? 115 then append_str limit (arg_str a)                (* s *)
  else if c =? 99 then append_raw limit [u8 (arg_int a)]            (* c *)
  else if c =? 37 then append_raw limit [37]                        (* % *)
  else append_raw limit [37; c].                                    (* default *)

(** Whether the conversion consumes an argument. *)
Definition takes_arg (c : Z) : bool :=
  existsb (Z.eqb c) [100; 105; 117; 120; 88; 112; 115; 99].

(** The loop of [vsnprintf]: the bytes written before the final NUL, for a
    buffer with [remaining] bytes left. *)
Fixpoint vsn_loop (format : list Z) (args : list arg) (remaining : Z) : list Z :=
  match format with
  | [] => []
  | f :: rest =>
      if f =? 0 then []
      else if remaining <=? 1 then []
      else if negb (f =? 37) then f :: vsn_loop rest args (remaining - 1)
      else
        match rest with
        | [] => fst (convert 0 0 None remaining)
        | m :: rest1 =>
            if (m =? 108) || (m =? 122) then
              match rest1 with
              | [] => fst (convert m 0 None remaining)
              | c :: rest2 =>
                  let '(out, l) := convert m c (head args) remaining in
                  out ++ vsn_loop rest2 (if takes_arg c then tail args else args) l
              end
            else
              let '(out, l) := convert 0 m (head args) remaining in
              out ++ vsn_loop rest1 (if takes_arg m then tail args else args) l
        end
  end.

(** [vsnprintf(str, size, format, args)] for [size >= 1]: the C string left in
    [str] and the value returned. *)
Definition vsnprintf (size : Z) (format : list Z) (args : list arg) : list Z * Z :=
  let out := vsn_loop format args size in (out, Z.of_nat (length out)).

(** [snprintf] into a local buffer of [size] bytes, as the string it holds. *)
Definition snprintf (size : Z) (format : list Z) (args : list arg) : list Z :=
  fst (vsnprintf size format args).

(** [snprintf] into an array that already has contents. *)
Definition snprintf_into (dest : list Z) (size : Z) (format : list Z) (args : list arg) : list Z :=
  let out := snprintf size format args in out ++ 0 :: drop (S (length out)) dest.

(** ** Random numbers *)

(** The [rdrand] instruction: each execution gives either a value with the
    carry flag set or a failure; [rd] is the sequence of the answers still to
    come, an exhausted sequence failing for ever. *)
Definition rdrand := list (option Z).

(** Up to [attempts] tries; the value read, if any, and the answers left. *)
Fixpoint hw_trng_loop (attempts : nat) (rd : rdrand) : option Z * rdrand :=
  match attempts with
  | O => (None, rd)
  | S attempts' =>
      match rd with
      | Some val :: rd' => (Some (u32 val), rd')
      | None :: rd' => hw_trng_loop attempts' rd'
      | [] => (None, [])
      end
  end.

Definition hw_trng_read (rd : rdrand) : option Z * rdrand := hw_trng_loop 10 rd.

(** The static variables of [secure_random_u32]. *)
Record rng := { rng_state : Z; rng_seeded : bool }.

(** The three xorshift assignments on the 64-bit state. *)
Definition xorshift (state : Z) : Z :=
  let state := Z.lxor state (Z.shiftr state 12) in
  let state := Z.lxor state (u64 (Z.shiftl state 25)) in
  Z.lxor state (Z.shiftr state 27).

(** The seeding block; [addr] is the address of the static [state]. *)
Definition rng_seed (addr : Z) (rd : rdrand) : Z * rdrand :=
  let '(got_hi, rd) := hw_trng_read rd in
  let '(got_lo, rd) := hw_trng_read rd in
  let state :=
    match got_hi, got_lo with
    | Some seed_hi, Some seed_lo => Z.lor (u64 (Z.shiftl seed_hi 32)) seed_lo
    | _, _ => Z.lxor 0xDEADBEEFCAFEBABE (u64 addr)
    end in
  (if state =? 0 then 0x123456789ABCDEF0 else state, rd).

Definition secure_random_u32 (addr : Z) (g : rng) (rd : rdrand) : Z * rng * rdrand :=
  let '(hw, rd) := hw_trng_read rd in
  match hw with
  | Some hw => (hw, g, rd)
  | None =>
      let '(state, rd) :=
        if rng_seeded g then (rng_state g, rd) else rng_seed addr rd in
      let state := xorshift state in
      (u32 (Z.shiftr (u64 (state * 0x2545F4914F6CDD1D)) 32),
       {| rng_state := state; rng_seeded := true |}, rd)
  end.

(** [rand]: the value returned and the next [next]. *)
Definition rand (next : Z) : Z * Z :=
  let next := u64 (next * 1103515245 + 12345) in
  (u32 (next / 65536) mod 32768, next).

(** * Facts *)

(** ** C strings *)

Lemma cstr_nul_free (b : list Z) : nul_free (cstr b).
Proof.
  induction b as [|c b IH]; simpl; [constructor|].
  destruct (c =? 0) eqn:E; [constructor|]. constructor; [lia|done].
Qed.

Lemma cstr_app_nul (s t : list Z) : nul_free s -> cstr (s ++ 0 :: t) = s.
Proof.
  induction 1 as [|c s Hc _ IH]; simpl; [done|].
  destruct (Z.eqb_spec c 0); [done|]. by rewrite IH.
Qed.

Lemma cstr_id (s : list Z) : nul_free s -> cstr s = s.
Proof.
  induction 1 as [|c s Hc _ IH]; simpl; [done|].
  destruct (Z.eqb_spec c 0); [done|]. by rewrite IH.
Qed.

Lemma cstr_idemp (b : list Z) : cstr (cstr b) = cstr b.
Proof. apply cstr_id, cstr_nul_free. Qed.

Lemma cstr_split (b : list Z) :
  b = cstr b \/ exists t, b = cstr b ++ 0 :: t.
Proof.
  induction b as [|c b IH]; simpl; [by left|].
  destruct (Z.eqb_spec c 0) as [->|]; [right; by exists b|].
  destruct IH as [IH|[t IH]]; [left; by rewrite <- IH|].
  right; exists t. simpl. by rewrite <- IH.
Qed.

Lemma terminated_split (b : list Z) :
  terminated b <-> exists t, b = cstr b ++ 0 :: t.
Proof.
  unfold terminated; split.
  - intros H. destruct (cstr_split b) as [E|?]; [|done].
    exfalso. rewrite E in H. pose proof (cstr_nul_free b) as F.
    unfold nul_free in F. rewrite list.Forall_forall in F. exact (F 0 H eq_refl).
  - intros [t ->]. apply elem_of_app; right; left.
Qed.

Lemma cstr_length_terminated (b : list Z) :
  terminated b -> (length (cstr b) < length b)%nat.
Proof.
  intros [t E]%terminated_split. rewrite E at 2.
  rewrite length_app; simpl; lia.
Qed.

Lemma cstr_length_le (b : list Z) : (length (cstr b) <= length b)%nat.
Proof. induction b as [|c b IH]; simpl; [lia|]. destruct (c =? 0); simpl; lia. Qed.

Lemma deref_cstr (b : list Z) : deref (cstr b) = deref b.
Proof. destruct b as [|c b]; simpl; [done|]. destruct (Z.eqb_spec c 0); simpl; congruence. Qed.

Lemma deref_cstr_nil (b : list Z) : deref b = 0 <-> cstr b = [].
Proof. destruct b as [|c b]; simpl; [done|]. by destruct (Z.eqb_spec c 0). Qed.

Lemma strlen_cstr (s : list Z) : strlen s = length (cstr s).
Proof. induction s as [|c s IH]; simpl; [done|]. destruct (c =? 0); simpl; congruence. Qed.

Lemma take_nul_free n (s : list Z) : nul_free s -> nul_free (take n s).
Proof. apply Forall_take. Qed.

Lemma cstr_tail (s : list Z) : deref s <> 0 -> cstr s = deref s :: cstr (tail s).
Proof. destruct s as [|c s]; simpl; [done|]. intros. by destruct (Z.eqb_spec c 0). Qed.

(** ** Comparison *)

Lemma strcmp_eq0 (s1 s2 : list Z) : strcmp s1 s2 = 0 <-> cstr s1 = cstr s2.
Proof.
  revert s2; induction s1 as [|c s1 IH]; intros s2; simpl.
  - pose proof (deref_cstr_nil s2) as H. split; intros E; [symmetry; apply H; lia|].
    symmetry in E; apply H in E. lia.
  - destruct (Z.eqb_spec c 0) as [->|Hc]; simpl.
    + pose proof (deref_cstr_nil s2) as H. split; intros E; [symmetry; apply H; lia|].
      symmetry in E; apply H in E. lia.
    + destruct s2 as [|d s2]; simpl.
      * destruct (Z.eqb_spec c 0); [done|]. split; [lia|done].
      * destruct (Z.eqb_spec c d) as [->|Hd]; simpl.
        { rewrite IH. destruct (Z.eqb_spec d 0); [lia|]. split; congruence. }
        { destruct (Z.eqb_spec d 0); (split; [lia|congruence]). }
Qed.

Lemma strcmp_eqb (s1 s2 : list Z) : (strcmp s1 s2 =? 0) = bytes_eqb (cstr s1) (cstr s2).
Proof.
  apply eq_true_iff_eq. by rewrite Z.eqb_eq, bytes_eqb_spec, strcmp_eq0.
Qed.

Lemma strncmp_eq0 (n : nat) (s1 s2 : list Z) :
  strncmp s1 s2 n = 0 <-> take n (cstr s1) = take n (cstr s2).
Proof.
  revert s1 s2; induction n as [|n IH]; intros s1 s2; simpl; [done|].
  destruct (Z.eqb_spec (deref s1) (deref s2)) as [E|E]; simpl.
  - destruct (Z.eqb_spec (deref s1) 0) as [Z|Z].
    + rewrite (proj1 (deref_cstr_nil s1)), (proj1 (deref_cstr_nil s2)) by lia. done.
    + rewrite IH, (cstr_tail s1), (cstr_tail s2), E by lia. simpl. split; congruence.
  - split; [lia|]. intros H. exfalso; apply E.
    rewrite <- (deref_cstr s1), <- (deref_cstr s2).
    destruct (cstr s1), (cstr s2); simpl in *; congruence.
Qed.

(** ** Copying *)

Lemma memset_eq (n : nat) (s : list Z) c : memset s c n = replicate n (u8 c) ++ drop n s.
Proof.
  revert s; induction n as [|n IH]; intros s; simpl; [done|].
  rewrite IH. by destruct s; simpl; rewrite ?drop_nil.
Qed.

Lemma memcpy_eq (n : nat) (d s : list Z) :
  (n <= length s)%nat -> memcpy d s n = take n s ++ drop n d.
Proof.
  revert d s; induction n as [|n IH]; intros d s Hn; simpl; [done|].
  destruct s as [|c s]; simpl in *; [lia|].
  rewrite IH by lia. by destruct d; simpl; rewrite ?drop_nil.
Qed.

Lemma strncpy_pad_eq (n : nat) (d : list Z) : strncpy_pad d n = replicate n 0 ++ drop n d.
Proof.
  revert d; induction n as [|n IH]; intros d; simpl; [done|].
  rewrite IH. by destruct d; simpl; rewrite ?drop_nil.
Qed.

Lemma strncpy_eq (n : nat) (dest src : list Z) :
  strncpy dest src n =
  take n (cstr src) ++ replicate (n - length (cstr src)) 0 ++ drop n dest.
Proof.
  revert dest src; induction n as [|n IH]; intros dest src; [done|].
  cbn [strncpy]. destruct (Z.eqb_spec (deref src) 0) as [E|E].
  - rewrite (proj1 (deref_cstr_nil src)) by done.
    by rewrite strncpy_pad_eq, take_nil, Nat.sub_0_r.
  - rewrite IH, (cstr_tail src) by done. simpl.
    by destruct dest; simpl; rewrite ?drop_nil.
Qed.

Lemma strncpy_length (n : nat) (dest src : list Z) :
  (n <= length dest)%nat -> length (strncpy dest src n) = length dest.
Proof.
  intros Hn. rewrite strncpy_eq, !length_app, length_take, length_replicate, length_drop. lia.
Qed.

(** [strncpy] leaves the first [n] bytes of the source string. *)
Lemma strncpy_cstr (n : nat) (dest src : list Z) :
  at_ dest n = 0 -> cstr (strncpy dest src n) = take n (cstr src).
Proof.
  intros Hn. rewrite strncpy_eq.
  pose proof (take_nul_free n _ (cstr_nul_free src)) as F.
  destruct (decide (n < length (cstr src) \/ n = length (cstr src))%nat) as [L|L].
  - replace (n - length (cstr src))%nat with O by lia. simpl.
    unfold at_ in Hn. destruct (drop n dest) as [|c r]; simpl in *; subst.
    + rewrite app_nil_r. by apply cstr_id.
    + by apply cstr_app_nul.
  - destruct (n - length (cstr src))%nat eqn:E; [lia|]. simpl. by apply cstr_app_nul.
Qed.

(** The idiom [strncpy(d, s, n); d[n] = 0]. *)
Lemma strncpy_nul_cstr (n : nat) (dest src : list Z) :
  (n < length dest)%nat ->
  cstr (<[n := 0]> (strncpy dest src n)) = take n (cstr src).
Proof.
  intros Hn. rewrite strncpy_eq.
  pose proof (take_nul_free n _ (cstr_nul_free src)) as F.
  assert (length (take n (cstr src) ++ replicate (n - length (cstr src)) 0) = n) as L.
  { rewrite length_app, length_take, length_replicate. lia. }
  rewrite app_assoc, insert_app_r_alt, L, Nat.sub_diag by lia.
  destruct (drop n dest) as [|c r] eqn:E.
  { exfalso. apply (f_equal length) in E. rewrite length_drop in E. simpl in E. lia. }
  simpl. rewrite <- app_assoc.
  destruct (n - length (cstr src))%nat; simpl; by apply cstr_app_nul.
Qed.

Lemma strcpy_eq (src dest : list Z) :
  strcpy dest src = cstr src ++ 0 :: drop (S (length (cstr src))) dest.
Proof.
  revert dest; induction src as [|c src IH]; intros dest; simpl; [by destruct dest|].
  destruct (c =? 0); simpl; [by destruct dest|]. rewrite IH.
  by destruct dest; simpl; rewrite ?drop_nil.
Qed.

Lemma strncat_copy_eq (n : nat) (d src : list Z) :
  strncat_copy d src n =
  take n (cstr src) ++ 0 :: drop (S (length (take n (cstr src)))) d.
Proof.
  revert d src; induction n as [|n IH]; intros d src; [by destruct d|].
  cbn [strncat_copy]. destruct (Z.eqb_spec (deref src) 0) as [E|E].
  - rewrite (proj1 (deref_cstr_nil src)) by done. by destruct d.
  - rewrite IH, (cstr_tail src) by done. simpl.
    by destruct d; simpl; rewrite ?drop_nil.
Qed.

Lemma strncat_eq (n : nat) (dest src : list Z) :
  strncat dest src n =
  cstr dest ++ take n (cstr src) ++
  0 :: drop (S (length (cstr dest) + length (take n (cstr src)))) dest.
Proof.
  induction dest as [|c d IH]; simpl.
  - rewrite strncat_copy_eq. by rewrite !drop_nil.
  - destruct (c =? 0); [by rewrite strncat_copy_eq|]. by rewrite IH.
Qed.

Lemma strncat_cstr (n : nat) (dest src : list Z) :
  cstr (strncat dest src n) = cstr dest ++ take n (cstr src).
Proof.
  rewrite strncat_eq, app_assoc. apply cstr_app_nul.
  apply Forall_app; split; [apply cstr_nul_free|apply take_nul_free, cstr_nul_free].
Qed.

(** The bounded append of the parser: [strncat(d, s, sizeof d - strlen d - 1)]
    neither overruns the array nor drops its terminator. *)
Lemma strncat_length (n : nat) (dest src : list Z) :
  (length (cstr dest) + n < length dest)%nat ->
  length (strncat dest src n) = length dest.
Proof.
  intros H. rewrite strncat_eq, !length_app. simpl.
  rewrite length_drop, length_take. lia.
Qed.

Lemma strcat_eq (dest src : list Z) :
  strcat dest src =
  cstr dest ++ cstr src ++ 0 :: drop (S (length (cstr dest) + length (cstr src))) dest.
Proof.
  induction dest as [|c d IH]; simpl.
  - rewrite strcpy_eq. by rewrite !drop_nil.
  - destruct (c =? 0); [by rewrite strcpy_eq|]. by rewrite IH.
Qed.

(** ** Searching *)

(** [strchr] for a byte other than NUL: the rest from its first occurrence in
    the string. *)
Lemma strchr_Some (s r : list Z) (c : Z) :
  0 < c < 256 ->
  strchr s c = Some r <->
  exists pre post, s = pre ++ c :: post /\ r = c :: post /\ nul_free pre /\ c ∉ pre.
Proof.
  intros Hc. induction s as [|x s IH]; simpl.
  - unfold u8. rewrite Z.mod_small by lia. destruct (Z.eqb_spec 0 c); [lia|].
    split; [intros; discriminate|]. intros (pre & ? & E & _). by destruct pre.
  - unfold u8 in *. rewrite Z.mod_small by lia.
    destruct (Z.eqb_spec x c) as [->|Hx].
    + split.
      * intros [= <-]. exists [], s. split_and!; try done; [constructor|set_solver].
      * intros ([|y pre] & post & E & -> & F & N); simplify_eq/=; [done|]. set_solver.
    + destruct (Z.eqb_spec x 0) as [->|H0].
      * split; [done|]. intros ([|y pre] & post & E & -> & F & N); simplify_eq/=.
        apply Forall_cons in F as [F _]. done.
      * rewrite IH. split; intros (pre & post & E & -> & F & N).
        { exists (x :: pre), post. subst. split_and!; try done; [by constructor|set_solver]. }
        { destruct pre as [|y pre]; simplify_eq/=. apply Forall_cons in F as [_ F].
          exists pre, post. split_and!; try done. set_solver. }
Qed.

Lemma strchr_None (s : list Z) (c : Z) :
  0 < c < 256 -> strchr s c = None <-> c ∉ cstr s.
Proof.
  intros Hc. induction s as [|x s IH]; simpl.
  - unfold u8. rewrite Z.mod_small by lia. destruct (Z.eqb_spec 0 c); [lia|]. set_solver.
  - unfold u8 in *. rewrite Z.mod_small by lia.
    destruct (Z.eqb_spec x c) as [->|Hx].
    + destruct (Z.eqb_spec c 0); [lia|]. split; [done|]. set_solver.
    + destruct (Z.eqb_spec x 0) as [->|H0]; [set_solver|]. rewrite IH.
      rewrite not_elem_of_cons. naive_solver.
Qed.

(** The result of a search is a rest of the string searched. *)
Lemma strchr_suffix (s r : list Z) (c : Z) : strchr s c = Some r -> exists pre, s = pre ++ r.
Proof.
  revert r; induction s as [|x s IH]; intros r; cbn [strchr].
  - destruct (0 =? u8 c); [intros [= <-]; by exists []|done].
  - destruct (x =? u8 c); [intros [= <-]; by exists []|]. destruct (x =? 0); [done|].
    intros [pre ->]%IH. by exists (x :: pre).
Qed.

(** ** strstr against the notion of a substring *)

(** [n] occurs in [h] at offset [i]. *)
Definition occurs_at (n h : list Z) (i : nat) : Prop :=
  exists pre post, h = pre ++ n ++ post /\ length pre = i.

Lemma strstr_rest_prefix (h n : list Z) :
  deref (strstr_rest h n) = 0 <-> exists post, cstr h = cstr n ++ post.
Proof.
  revert n; induction h as [|x h IH]; intros n; simpl.
  - rewrite deref_cstr_nil. split; [intros ->; by exists []|].
    intros [post E]. by destruct (cstr n).
  - destruct n as [|y n]; simpl; [split; [eauto|done]|].
    destruct (Z.eqb_spec y 0) as [->|Hy]; [rewrite andb_false_r; simpl; split; [eauto|done]|].
    destruct (Z.eqb_spec x 0) as [->|Hx]; simpl.
    + split; [done|]. by intros [post E].
    + destruct (Z.eqb_spec x y) as [->|Hxy]; simpl.
      * rewrite IH. split; intros [post E]; exists post; simplify_eq/=; congruence.
      * split; [done|]. intros [post E]. simplify_eq/=.
Qed.

Lemma cstr_cons (c : Z) (b : list Z) : c <> 0 -> cstr (c :: b) = c :: cstr b.
Proof. intros. simpl. by destruct (Z.eqb_spec c 0). Qed.

Lemma occurs_at_0 (n h : list Z) : occurs_at n h 0 <-> exists post, h = n ++ post.
Proof.
  split.
  - intros ([|] & post & -> & L); [by exists post|done].
  - intros [post ->]. by exists [], post.
Qed.

Lemma occurs_at_S (n h : list Z) (x : Z) (j : nat) :
  occurs_at n (x :: h) (S j) <-> occurs_at n h j.
Proof.
  split.
  - intros ([|y pre] & post & E & L); [done|]. simplify_eq/=. by exists pre, post.
  - intros (pre & post & -> & <-). by exists (x :: pre), post.
Qed.

(** One iteration of the search loop: either the needle is here, or it is not
    here and the loop goes on with the next byte. *)
Lemma strstr_loop_step (x : Z) (h n : list Z) :
  deref n <> 0 -> x <> 0 ->
  (occurs_at (cstr n) (cstr (x :: h)) 0 /\ strstr_loop (x :: h) n = Some (x :: h)) \/
  (~ occurs_at (cstr n) (cstr (x :: h)) 0 /\ strstr_loop (x :: h) n = strstr_loop h n).
Proof.
  intros Hn Hx. rewrite occurs_at_0, <- strstr_rest_prefix. cbn [strstr_loop].
  destruct (Z.eqb_spec x 0); [done|].
  destruct (Z.eqb_spec x (deref n)) as [E|E]; cbn [negb].
  - destruct (Z.eqb_spec (deref (strstr_rest (x :: h) n)) 0); auto.
  - right. split; [|done]. rewrite strstr_rest_prefix, cstr_cons, (cstr_tail n) by done.
    intros [post P]. simplify_eq/=.
Qed.

(** Found: the result is the rest of the haystack at the first place where the
    needle occurs. *)
Lemma strstr_Some (h n r : list Z) :
  deref n <> 0 ->
  strstr h n = Some r ->
  exists pre, h = pre ++ r /\ occurs_at (cstr n) (cstr h) (length pre) /\
              (forall j, (j < length pre)%nat -> ~ occurs_at (cstr n) (cstr h) j).
Proof.
  intros Hn. unfold strstr. destruct (Z.eqb_spec (deref n) 0); [done|].
  induction h as [|x h IH]; [done|].
  destruct (decide (x = 0)) as [->|Hx]; [done|].
  destruct (strstr_loop_step x h n) as [[H ->]|[H ->]]; try done.
  - intros [= <-]. exists []. split_and!; [done|done|simpl; lia].
  - intros (pre & E & Hocc & Hmin)%IH. exists (x :: pre). rewrite cstr_cons in * by done.
    split_and!; [by rewrite E|simpl; by apply occurs_at_S|].
    intros [|j] Hj; [done|]. rewrite occurs_at_S. apply Hmin. simpl in Hj; lia.
Qed.

Lemma strstr_suffix (h n r : list Z) : strstr h n = Some r -> exists pre, h = pre ++ r.
Proof.
  intros E. destruct (decide (deref n = 0)) as [Hn|Hn].
  - unfold strstr in E. rewrite Hn in E. simplify_eq/=. by exists [].
  - apply strstr_Some in E as (pre & E & _); [|done]. by exists pre.
Qed.

(** Not found: the needle occurs nowhere. *)
Lemma strstr_None (h n : list Z) :
  strstr h n = None -> forall j, ~ occurs_at (cstr n) (cstr h) j.
Proof.
  unfold strstr. destruct (Z.eqb_spec (deref n) 0) as [|Hn]; [done|].
  assert (cstr n <> []) as Hne by (rewrite (cstr_tail n); done).
  assert (forall j, ~ occurs_at (cstr n) [] j) as Hnil.
  { intros j (p1 & p2 & E & _). destruct p1, (cstr n); done. }
  induction h as [|x h IH]; [done|].
  destruct (decide (x = 0)) as [->|Hx]; [done|].
  destruct (strstr_loop_step x h n) as [[H ->]|[H ->]]; try done.
  intros E [|j]; [done|]. rewrite cstr_cons, occurs_at_S by done. by apply IH.
Qed.

(** ** memmove *)

(** The reference: the destination range gets the bytes the source range had
    before the call, everything else stays. *)
Definition moved (m : list Z) (d s n : nat) : list Z :=
  take d m ++ take n (drop s m) ++ drop (d + n) m.

Lemma at_lookup (m : list Z) (i : nat) : (i < length m)%nat -> m !! i = Some (at_ m i).
Proof.
  intros H. unfold at_. destruct (drop i m) as [|c r] eqn:E.
  - apply (f_equal length) in E. rewrite length_drop in E. simpl in E. lia.
  - rewrite <- (Nat.add_0_r i), <- lookup_drop, E. done.
Qed.

Lemma moved_lookup (m : list Z) (d s n i : nat) :
  (d + n <= length m)%nat -> (s + n <= length m)%nat ->
  moved m d s n !! i =
  if decide (d <= i < d + n)%nat then m !! (s + (i - d))%nat else m !! i.
Proof.
  intros Hd Hs. unfold moved.
  assert (length (take d m) = d) as L1 by (rewrite length_take; lia).
  assert (length (take n (drop s m)) = n) as L2 by (rewrite length_take, length_drop; lia).
  destruct (decide (i < d)%nat).
  - rewrite lookup_app_l, lookup_take_lt by lia. by rewrite decide_False by lia.
  - rewrite lookup_app_r, L1 by lia. destruct (decide (i < d + n)%nat).
    + rewrite decide_True, lookup_app_l, lookup_take_lt, lookup_drop by lia. done.
    + rewrite decide_False, lookup_app_r, L2, lookup_drop by lia. f_equal. lia.
Qed.

Lemma memmove_fwd_lookup (n : nat) (m : list Z) (d s i : nat) :
  (d < s)%nat -> (s + n <= length m)%nat ->
  memmove_fwd m d s n !! i =
  if decide (d <= i < d + n)%nat then m !! (s + (i - d))%nat else m !! i.
Proof.
  revert m d s; induction n as [|n IH]; intros m d s Hds Hs; simpl.
  - by rewrite decide_False by lia.
  - rewrite IH by (rewrite ?length_insert; lia).
    destruct (decide (i = d)) as [->|Hi].
    + rewrite decide_False, decide_True, list_lookup_insert_eq by lia.
      rewrite Nat.sub_diag, Nat.add_0_r. symmetry. apply at_lookup. lia.
    + case_decide; case_decide; try lia; rewrite list_lookup_insert_ne by lia; [|done].
      f_equal. lia.
Qed.

Lemma memmove_bwd_lookup (n : nat) (m : list Z) (d s i : nat) :
  (s < d)%nat -> (d + n <= length m)%nat ->
  memmove_bwd m d s n !! i =
  if decide (d <= i < d + n)%nat then m !! (s + (i - d))%nat else m !! i.
Proof.
  revert m; induction n as [|n IH]; intros m Hds Hs; simpl.
  - by rewrite decide_False by lia.
  - rewrite IH by (rewrite ?length_insert; lia).
    destruct (decide (i = d + n)%nat) as [->|Hi].
    + rewrite decide_False, decide_True, list_lookup_insert_eq by lia.
      replace (s + (d + n - d))%nat with (s + n)%nat by lia.
      symmetry. apply at_lookup. lia.
    + case_decide; case_decide; try lia; by rewrite list_lookup_insert_ne by lia.
Qed.

Lemma memmove_moved (m : list Z) (d s n : nat) :
  (d + n <= length m)%nat -> (s + n <= length m)%nat -> memmove m d s n = moved m d s n.
Proof.
  intros Hd Hs. apply list_eq. intros i. rewrite moved_lookup by done. unfold memmove.
  destruct (Nat.eqb_spec d s) as [->|]; [|destruct (Nat.ltb_spec d s)].
  - case_decide; [f_equal; lia|done].
  - by apply memmove_fwd_lookup.
  - apply memmove_bwd_lookup; lia.
Qed.

(** ** Formatted output against its unlimited rendering *)

(** The digits of a number without a limit. *)
Fixpoint digits (base : Z) (fuel : nat) (n : Z) : list Z :=
  match fuel with
  | O => []
  | S fuel' =>
      (if base <=? n then digits base fuel' (n / base) else []) ++
      [at_ hex_digits (Z.to_nat (n mod base))]
  end.

(** What one conversion prints when nothing limits it. *)
Definition render1 (mode c : Z) (a : option arg) : list Z :=
  if (c =? 100) || (c =? 105) then
    let val := if mode =? 108 then arg_int a else s32 (arg_int a) in
    if val <? 0 then 45 :: digits 10 20 (u64 (- val)) else digits 10 20 (u64 val)
  else if c =? 117 then
    digits 10 20 (if negb (mode =? 0) then u64 (arg_int a) else u32 (arg_int a))
  else if (c =? 120) || (c =? 88) then
    digits 16 16 (if negb (mode =? 0) then u64 (arg_int a) else u32 (arg_int a))
  else if c =? 112 then str "0x" ++ digits 16 16 (u64 (arg_int a))
  else if c =? 115 then arg_str a
  else if c =? 99 then [u8 (arg_int a)]
  else if c =? 37 then [37]
  else [37; c].

Fixpoint render (format : list Z) (args : list arg) : list Z :=
  match format with
  | [] => []
  | f :: rest =>
      if f =? 0 then []
      else if negb (f =? 37) then f :: render rest args
      else
        match rest with
        | [] => render1 0 0 None
        | m :: rest1 =>
            if (m =? 108) || (m =? 122) then
              match rest1 with
              | [] => render1 m 0 None
              | c :: rest2 =>
                  render1 m c (head args) ++
                  render rest2 (if takes_arg c then tail args else args)
              end
            else
              render1 0 m (head args) ++
              render rest1 (if takes_arg m then tail args else args)
        end
  end.

(** A writer that prints [full], cut to what the limit leaves room for (one
    byte is kept for the terminator), and accounts for what it wrote. *)
Definition emits (w : Z -> list Z * Z) (full : list Z) : Prop :=
  forall limit, 1 <= limit ->
    w limit = (take (Z.to_nat (limit - 1)) full,
               limit - Z.of_nat (length (take (Z.to_nat (limit - 1)) full))).

Lemma emits_left (full : list Z) (limit : Z) :
  1 <= limit -> 1 <= limit - Z.of_nat (length (take (Z.to_nat (limit - 1)) full)).
Proof. intros. rewrite length_take. lia. Qed.

(** Writers in sequence print the concatenation. *)
Lemma emits_app (w1 w2 : Z -> list Z * Z) (f1 f2 : list Z) :
  emits w1 f1 -> emits w2 f2 ->
  emits (fun l => let '(o1, l1) := w1 l in let '(o2, l2) := w2 l1 in (o1 ++ o2, l2)) (f1 ++ f2).
Proof.
  intros H1 H2 l Hl. rewrite (H1 l Hl), H2 by (by apply emits_left).
  rewrite take_app, !length_app, !length_take. f_equal; [|lia].
  do 2 f_equal. lia.
Qed.

Lemma emits_byte (c : Z) :
  emits (fun l => if 1 <? l then ([c], l - 1) else ([], l)) [c].
Proof.
  intros l Hl. destruct (Z.ltb_spec 1 l).
  - rewrite take_ge by (simpl; lia). f_equal.
  - replace (Z.to_nat (l - 1)) with O by lia. simpl. f_equal. lia.
Qed.

Lemma emits_nil : emits (fun l => ([], l)) [].
Proof. intros l Hl. rewrite take_nil. simpl. f_equal. lia. Qed.

Lemma emits_ext (w w' : Z -> list Z * Z) full :
  (forall l, w l = w' l) -> emits w full -> emits w' full.
Proof. intros E H l Hl. by rewrite <- E, H. Qed.

Lemma digit_at (n : Z) : 0 <= n -> at_ hex_digits (Z.to_nat (n mod 10)) = n mod 10 + 48.
Proof.
  intros Hn. pose proof (Z.mod_pos_bound n 10 ltac:(lia)) as B.
  destruct (n mod 10) as [|p|p]; [done| |lia].
  do 4 (destruct p as [p|p|]; try done; try lia).
Qed.

Lemma simple_append_int_emits (fuel : nat) (n : Z) :
  0 <= n -> emits (fun l => simple_append_int fuel l n) (digits 10 fuel n).
Proof.
  revert n; induction fuel as [|fuel IH]; intros n Hn; [apply emits_nil|].
  cbn [simple_append_int digits]. rewrite digit_at by done.
  eapply emits_ext; [|apply emits_app; [|apply (emits_byte (n mod 10 + 48))]].
  - intros l. instantiate (1 := fun l => if 10 <=? n then simple_append_int fuel l (n / 10) else ([], l)).
    simpl. destruct (10 <=? n).
    + destruct (simple_append_int fuel l (n / 10)) as [o l']. by destruct (1 <? l'); rewrite ?app_nil_r.
    + by destruct (1 <? l).
  - destruct (10 <=? n); [apply IH; apply Z.div_pos; lia|apply emits_nil].
Qed.

Lemma simple_append_hex_emits (fuel : nat) (n : Z) :
  emits (fun l => simple_append_hex fuel l n) (digits 16 fuel n).
Proof.
  revert n; induction fuel as [|fuel IH]; intros n; [apply emits_nil|].
  cbn [simple_append_hex digits].
  eapply emits_ext; [|apply emits_app; [|apply (emits_byte (at_ hex_digits (Z.to_nat (n mod 16))))]].
  - intros l. instantiate (1 := fun l => if 16 <=? n then simple_append_hex fuel l (n / 16) else ([], l)).
    simpl. destruct (16 <=? n).
    + destruct (simple_append_hex fuel l (n / 16)) as [o l']. by destruct (1 <? l'); rewrite ?app_nil_r.
    + by destruct (1 <? l).
  - destruct (16 <=? n); [apply IH|apply emits_nil].
Qed.

Lemma append_raw_emits (s : list Z) : emits (fun l => append_raw l s) s.
Proof.
  induction s as [|c s IH]; [apply emits_nil|]. cbn [append_raw].
  eapply emits_ext; [|apply (emits_app _ _ _ _ (emits_byte c) IH)].
  intros l. simpl. destruct (1 <? l); [|by destruct (append_raw l s)].
  by destruct (append_raw (l - 1) s).
Qed.

Lemma append_str_raw (s : list Z) (l : Z) : nul_free s -> append_str l s = append_raw l s.
Proof.
  intros F. revert l. induction F as [|c s Hc F IH]; intros l; simpl; [done|].
  destruct (Z.eqb_spec c 0); [done|]. simpl. rewrite IH.
  destruct (Z.ltb_spec 1 l) as [|Hl]; [done|].
  clear -Hl. induction s as [|d s IH]; simpl; [done|]. by destruct (Z.ltb_spec 1 l); [lia|].
Qed.

Lemma arg_str_nul_free (a : option arg) : nul_free (arg_str a).
Proof.
  destruct a as [[| | | | |[s|]]|]; simpl; try constructor; [apply cstr_nul_free|lia|].
  repeat (constructor; [lia|]); constructor.
Qed.

Lemma append_str_emits (a : option arg) : emits (fun l => append_str l (arg_str a)) (arg_str a).
Proof.
  eapply emits_ext; [|apply append_raw_emits]. intros l.
  by rewrite append_str_raw by apply arg_str_nul_free.
Qed.

Lemma u64_nonneg x : 0 <= u64 x.
Proof. unfold u64. apply Z.mod_pos_bound. lia. Qed.

Lemma u32_nonneg x : 0 <= u32 x.
Proof. unfold u32. apply Z.mod_pos_bound. lia. Qed.

Lemma convert_d_emits (val : Z) :
  emits (fun limit =>
           if (val <? 0) && (1 <? limit) then
             let '(out, l) := simple_append_int 20 (limit - 1) (u64 (- val)) in (45 :: out, l)
           else simple_append_int 20 limit (u64 val))
        (if val <? 0 then 45 :: digits 10 20 (u64 (- val)) else digits 10 20 (u64 val)).
Proof.
  destruct (val <? 0); cbn [andb].
  - change (45 :: digits 10 20 (u64 (- val))) with ([45] ++ digits 10 20 (u64 (- val))).
    pose proof (emits_app _ _ _ _ (emits_byte 45)
                  (simple_append_int_emits 20 (u64 (- val)) (u64_nonneg _))) as H.
    intros l Hl. rewrite <- (H l Hl). destruct (Z.ltb_spec 1 l); [done|].
    pose proof (simple_append_int_emits 20 (u64 val) (u64_nonneg _) l Hl) as E1.
    pose proof (simple_append_int_emits 20 (u64 (- val)) (u64_nonneg _) l Hl) as E2.
    cbv beta in E1, E2. rewrite E1, E2. by replace (Z.to_nat (l - 1)) with O by lia.
  - apply simple_append_int_emits, u64_nonneg.
Qed.

Lemma convert_emits (mode c : Z) (a : option arg) :
  c <> 112 -> emits (convert mode c a) (render1 mode c a).
Proof.
  intros Hp. unfold convert, render1.
  destruct ((c =? 100) || (c =? 105)); [apply convert_d_emits|].
  destruct (c =? 117).
  { apply simple_append_int_emits. destruct (negb _); [apply u64_nonneg|apply u32_nonneg]. }
  destruct ((c =? 120) || (c =? 88)); [apply simple_append_hex_emits|].
  destruct (Z.eqb_spec c 112); [done|].
  destruct (c =? 115); [apply append_str_emits|].
  destruct (c =? 99); [apply append_raw_emits|].
  destruct (c =? 37); apply append_raw_emits.
Qed.

(** No [%p] in a format: its two-byte prefix is dropped as a whole when it does
    not fit, so it is the one conversion that is not cut byte by byte. *)
Fixpoint no_pointer (format : list Z) : bool :=
  match format with
  | [] => true
  | f :: rest =>
      (if f =? 37 then
         match rest with
         | m :: c :: _ => negb (m =? 112) && negb (((m =? 108) || (m =? 122)) && (c =? 112))
         | [m] => negb (m =? 112)
         | [] => true
         end
       else true) && no_pointer rest
  end.

Lemma no_pointer_tail (f : Z) (rest : list Z) :
  no_pointer (f :: rest) = true -> no_pointer rest = true.
Proof. simpl. intros [_ H]%andb_prop. done. Qed.

Lemma vsn_loop_render (format : list Z) (args : list arg) (size : Z) :
  no_pointer format = true -> 1 <= size ->
  vsn_loop format args size = take (Z.to_nat (size - 1)) (render format args).
Proof.
  revert args size.
  induction format as [format IH] using (induction_ltof1 _ (@length Z)); unfold ltof in IH.
  intros args size Hp Hs. destruct format as [|f rest]; simpl; [by rewrite take_nil|].
  destruct (f =? 0); [by rewrite take_nil|].
  destruct (Z.leb_spec size 1); [by replace (Z.to_nat (size - 1)) with O by lia|].
  destruct (Z.eqb_spec f 37) as [->|_]; cbn [negb]; swap 1 2.
  { rewrite IH by (simpl; lia || eauto using no_pointer_tail).
    by replace (Z.to_nat (size - 1)) with (S (Z.to_nat (size - 1 - 1))) by lia. }
  assert (forall m c rest' args', c <> 112 -> (length rest' < S (length rest))%nat ->
    no_pointer rest' = true ->
    (let '(out, l) := convert m c (head args) size in out ++ vsn_loop rest' args' l) =
    take (Z.to_nat (size - 1)) (render1 m c (head args) ++ render rest' args')) as Step.
  { intros m c rest' args' Hc Hl Hp'. rewrite (convert_emits m c (head args) Hc size Hs).
    rewrite IH, take_app by (done || by apply emits_left).
    f_equal. f_equal. rewrite length_take. lia. }
  destruct rest as [|m rest1]; [by rewrite (convert_emits 0 0 None ltac:(lia) size Hs)|].
  pose proof (no_pointer_tail _ _ Hp) as Hp1. apply andb_prop in Hp as [Hm _].
  simpl in Step. destruct ((m =? 108) || (m =? 122)) eqn:Em.
  - destruct rest1 as [|c rest2]; [by rewrite (convert_emits m 0 None ltac:(lia) size Hs)|].
    apply Step; [|simpl; lia|eauto using no_pointer_tail].
    intros ->. by assert (m = 108 \/ m = 122) as [-> | ->] by lia.
  - apply Step; [|simpl; lia|eauto using no_pointer_tail].
    intros ->. by destruct rest1.
Qed.

Lemma snprintf_render (format : list Z) (args : list arg) (size : Z) :
  no_pointer format = true -> 1 <= size ->
  snprintf size format args = take (Z.to_nat (size - 1)) (render format args).
Proof. apply vsn_loop_render. Qed.

(** ** Reading back what was printed *)

Lemma s32_small x : - 2 ^ 31 <= x < 2 ^ 31 -> s32 x = x.
Proof. intros. unfold s32. rewrite Z.mod_small by lia. lia. Qed.

Lemma u64_small x : 0 <= x < 2 ^ 64 -> u64 x = x.
Proof. apply Z.mod_small. Qed.

Lemma digit_range (n : Z) : 0 <= n -> 48 <= at_ hex_digits (Z.to_nat (n mod 10)) <= 57.
Proof. intros. rewrite digit_at by done. pose proof (Z.mod_pos_bound n 10). lia. Qed.

Lemma atoi_digits_print (fuel : nat) (n : Z) (t : list Z) :
  0 <= n < 2 ^ 31 -> n < 10 ^ Z.of_nat fuel ->
  atoi_digits 0 (digits 10 fuel n ++ t) = atoi_digits n t.
Proof.
  revert n t; induction fuel as [|fuel IH]; intros n t Hn Hf; [simpl in Hf; by replace n with 0 by lia|].
  cbn [digits]. rewrite <- app_assoc.
  pose proof (Z.div_mod n 10 ltac:(lia)) as Hdm. pose proof (Z.mod_pos_bound n 10 ltac:(lia)) as Hm.
  assert (forall acc, acc = n / 10 ->
    atoi_digits acc ([at_ hex_digits (Z.to_nat (n mod 10))] ++ t) = atoi_digits n t) as Step.
  { intros acc ->. simpl. pose proof (digit_range n ltac:(lia)).
    rewrite digit_at in * by lia. rewrite (proj2 (Z.leb_le 48 _)), (proj2 (Z.leb_le _ 57)) by lia.
    simpl. f_equal. rewrite s32_small; lia. }
  destruct (Z.leb_spec 10 n).
  - rewrite IH; [by apply Step| |].
    + split; [apply Z.div_pos; lia|]. apply Z.div_lt_upper_bound; lia.
    + apply Z.div_lt_upper_bound; [lia|]. rewrite Nat2Z.inj_succ, Z.pow_succ_r in Hf by lia. lia.
  - apply Step. rewrite Z.div_small; lia.
Qed.

Lemma digits_head (fuel : nat) (n : Z) :
  0 <= n -> (0 < fuel)%nat -> exists c r, digits 10 fuel n = c :: r /\ 48 <= c <= 57.
Proof.
  revert n; induction fuel as [|[|fuel] IH]; intros n Hn Hf; [lia| |].
  - exists (at_ hex_digits (Z.to_nat (n mod 10))), [].
    split; [|by apply digit_range]. cbn. by destruct (10 <=? n).
  - cbn [digits] in *. destruct (10 <=? n).
    + destruct (IH (n / 10)) as (c & r & E & R); [apply Z.div_pos; lia|lia|].
      rewrite E. by exists c, (r ++ [at_ hex_digits (Z.to_nat (n mod 10))]).
    + exists (at_ hex_digits (Z.to_nat (n mod 10))), []. split; [done|by apply digit_range].
Qed.

(** [atoi] reads back what ["%d"] printed, whatever follows it. *)
Lemma atoi_printed (v : Z) (t : list Z) :
  - 2 ^ 31 < v < 2 ^ 31 -> ~ 48 <= deref t <= 57 ->
  atoi (render1 0 100 (Some (AInt v)) ++ t) = v.
Proof.
  intros Hv Ht.
  assert (render1 0 100 (Some (AInt v)) =
    if v <? 0 then 45 :: digits 10 20 (u64 (- v)) else digits 10 20 (u64 v)) as ->.
  { transitivity (if s32 v <? 0 then 45 :: digits 10 20 (u64 (- s32 v))
                  else digits 10 20 (u64 (s32 v))); [done|]. by rewrite s32_small by lia. }
  assert (forall n, 0 <= n < 2 ^ 31 -> atoi_digits 0 (digits 10 20 n ++ t) = n) as Hd.
  { intros n Hn. rewrite atoi_digits_print by lia. destruct t as [|c t]; [done|]. simpl in *.
    destruct (Z.leb_spec 48 c), (Z.leb_spec c 57); simpl; lia. }
  destruct (Z.ltb_spec v 0).
  - change (atoi ((45 :: digits 10 20 (u64 (- v))) ++ t))
      with (s32 (atoi_digits 0 (digits 10 20 (u64 (- v)) ++ t) * -1)).
    rewrite u64_small, Hd by lia. rewrite s32_small; lia.
  - rewrite u64_small by lia. unfold atoi.
    destruct (digits_head 20 v) as (c & r & E & R); [lia|lia|].
    assert (atoi_skip (digits 10 20 v ++ t) = digits 10 20 v ++ t) as ->.
    { rewrite E. simpl.
      destruct (Z.eqb_spec c 32), (Z.eqb_spec c 9), (Z.eqb_spec c 10); (lia || done). }
    assert (deref (digits 10 20 v ++ t) = c) as -> by (by rewrite E).
    destruct (Z.eqb_spec c 45); [lia|]. destruct (Z.eqb_spec c 43); [lia|].
    rewrite Hd by lia. rewrite s32_small; lia.
Qed.

(** ** The fallback generator never sticks at zero *)

Lemma lxor_shiftr_nonzero (x k : Z) : 0 < k -> 0 < x -> 0 < Z.lxor x (Z.shiftr x k).
Proof.
  intros Hk Hx.
  assert (0 <= Z.lxor x (Z.shiftr x k)) as Hnn.
  { apply Z.lxor_nonneg. rewrite Z.shiftr_nonneg. lia. }
  destruct (Z.eq_dec (Z.lxor x (Z.shiftr x k)) 0) as [E|]; [|lia].
  apply Z.lxor_eq in E. rewrite Z.shiftr_div_pow2 in E by lia.
  pose proof (Z.div_lt x (2 ^ k)) as H. pose proof (Z.pow_gt_1 2 k). lia.
Qed.

Lemma lxor_shiftl_nonzero (x k : Z) :
  0 < k -> 0 < x < 2 ^ 64 -> 0 < Z.lxor x (u64 (Z.shiftl x k)).
Proof.
  intros Hk Hx.
  assert (0 <= Z.lxor x (u64 (Z.shiftl x k))) as Hnn.
  { apply Z.lxor_nonneg. pose proof (u64_nonneg (Z.shiftl x k)). lia. }
  destruct (Z.eq_dec (Z.lxor x (u64 (Z.shiftl x k))) 0) as [E|]; [|lia].
  apply Z.lxor_eq in E. exfalso.
  (* the lowest set bit of x is not set in the shifted value *)
  assert (forall n, 0 <= n -> forall i, 0 <= i < n -> Z.testbit x i = false) as Hbits.
  { intros n Hn. pattern n. apply natlike_ind; [intros; lia| |done].
    clear n Hn. intros n Hn IH i Hi. destruct (Z.eq_dec i n) as [->|]; [|apply IH; lia].
    rewrite E. unfold u64. destruct (Z_lt_dec n 64) as [L|L].
    - rewrite Z.mod_pow2_bits_low, Z.shiftl_spec by lia.
      destruct (Z_lt_dec n k); [apply Z.testbit_neg_r; lia|apply IH; lia].
    - apply Z.mod_pow2_bits_high. lia. }
  pose proof (Hbits (Z.log2 x + 1) ltac:(pose proof (Z.log2_nonneg x); lia) (Z.log2 x)) as H.
  rewrite Z.bit_log2 in H by lia. pose proof (Z.log2_nonneg x). specialize (H ltac:(lia)). done.
Qed.

Lemma lxor_u64_bound (x y : Z) :
  0 <= x < 2 ^ 64 -> 0 <= y < 2 ^ 64 -> Z.lxor x y < 2 ^ 64.
Proof. intros Hx Hy. by apply (lxor_bound 64). Qed.

Lemma shiftr_bound (x k : Z) : 0 <= k -> 0 <= x < 2 ^ 64 -> 0 <= Z.shiftr x k < 2 ^ 64.
Proof.
  intros Hk Hx. rewrite Z.shiftr_div_pow2 by done.
  pose proof (Z.pow_pos_nonneg 2 k ltac:(lia) Hk).
  split; [apply Z.div_pos; lia|]. apply Z.div_lt_upper_bound; nia.
Qed.

Lemma u64_bound x : 0 <= u64 x < 2 ^ 64.
Proof. unfold u64. apply Z.mod_pos_bound. lia. Qed.

Lemma xorshift_nonzero (x : Z) : 0 < x < 2 ^ 64 -> 0 < xorshift x < 2 ^ 64.
Proof.
  intros Hx. unfold xorshift.
  set (y := Z.lxor x (Z.shiftr x 12)).
  assert (0 < y < 2 ^ 64) as Hy.
  { split; [apply lxor_shiftr_nonzero; lia|apply lxor_u64_bound; [lia|apply shiftr_bound; lia]]. }
  set (z := Z.lxor y (u64 (Z.shiftl y 25))).
  assert (0 < z < 2 ^ 64) as Hz.
  { split; [apply lxor_shiftl_nonzero; lia|apply lxor_u64_bound; [lia|apply u64_bound]]. }
  split; [apply lxor_shiftr_nonzero; lia|apply lxor_u64_bound; [lia|apply shiftr_bound; lia]].
Qed.

(** The generator's invariant: once seeded, the state is a nonzero 64-bit value. *)
Definition rng_ok (g : rng) : Prop := rng_seeded g = true -> 0 < rng_state g < 2 ^ 64.

Lemma hw_trng_loop_bound (k : nat) (rd rd' : rdrand) (v : Z) :
  hw_trng_loop k rd = (Some v, rd') -> 0 <= v < 2 ^ 32.
Proof.
  revert rd; induction k as [|k IH]; intros rd; simpl; [done|].
  destruct rd as [|[x|] rd]; [done| |apply IH].
  intros [= <- _]. unfold u32. apply Z.mod_pos_bound. lia.
Qed.

Lemma rng_seed_nonzero (addr : Z) (rd : rdrand) : 0 < fst (rng_seed addr rd) < 2 ^ 64.
Proof.
  unfold rng_seed, hw_trng_read.
  destruct (hw_trng_loop 10 rd) as [hi rd1] eqn:E1.
  destruct (hw_trng_loop 10 rd1) as [lo rd2] eqn:E2. simpl.
  assert (forall s, 0 <= s < 2 ^ 64 ->
    0 < (if s =? 0 then 0x123456789ABCDEF0 else s) < 2 ^ 64) as H.
  { intros s Hs. destruct (Z.eqb_spec s 0); lia. }
  apply H. destruct hi as [hi|], lo as [lo|].
  2-4: split; [apply Z.lxor_nonneg; pose proof (u64_nonneg addr); lia
              |apply lxor_u64_bound; [lia|apply u64_bound]].
  apply hw_trng_loop_bound in E1, E2.
  rewrite Z.shiftl_mul_pow2, u64_small by lia.
  rewrite <- Z.add_nocarry_lor.
  - lia.
  - apply Z.bits_inj'. intros i Hi. rewrite Z.land_spec, Z.bits_0.
    destruct (Z_lt_dec i 32); [rewrite Z.mul_pow2_bits_low by lia; done|].
    rewrite <- (Z.mod_small lo (2 ^ 32)), Z.mod_pow2_bits_high by lia. apply andb_false_r.
Qed.

Lemma digits_length (fuel k : nat) (n : Z) :
  0 <= n < 10 ^ Z.of_nat (S k) -> (length (digits 10 fuel n) <= S k)%nat.
Proof.
  revert k n; induction fuel as [|fuel IH]; intros k n Hn; simpl; [lia|].
  rewrite length_app. simpl. destruct (Z.leb_spec 10 n); simpl; [|lia].
  destruct k as [|k]; [simpl in Hn; lia|].
  cut (length (digits 10 fuel (n / 10)) <= S k)%nat; [lia|]. apply IH.
  split; [apply Z.div_pos; lia|]. apply Z.div_lt_upper_bound; [lia|].
  rewrite Nat2Z.inj_succ, Z.pow_succ_r in Hn by lia. lia.
Qed.

Lemma render_d (v : Z) :
  - 2 ^ 31 < v < 2 ^ 31 ->
  render (str "%d") [AInt v] = render1 0 100 (Some (AInt v)) /\
  (length (render1 0 100 (Some (AInt v))) <= 11)%nat.
Proof.
  intros Hv. split; [exact (app_nil_r _)|].
  change (render1 0 100 (Some (AInt v))) with
    (if s32 v <? 0 then 45 :: digits 10 20 (u64 (- s32 v)) else digits 10 20 (u64 (s32 v))).
  rewrite s32_small by lia. destruct (Z.ltb_spec v 0); cbn [length].
  - rewrite u64_small by lia. pose proof (digits_length 20 9 (- v) ltac:(lia)). lia.
  - rewrite u64_small by lia. pose proof (digits_length 20 9 v ltac:(lia)). lia.
Qed.

(** Calls with literal sizes are rewritten with the lemmas above, not unfolded. *)
#[global] Arguments strncpy : simpl never.
#[global] Arguments strncat : simpl never.
#[global] Arguments strcpy : simpl never.
#[global] Arguments memcpy : simpl never.
#[global] Arguments memset : simpl never.
#[global] Arguments snprintf : simpl never.
#[global] Arguments strstr : simpl never.
#[global] Arguments strchr : simpl never.
#[global] Arguments str : simpl never.

(** * Properties *)

(** [strstr] (on which every stanza handler relies to find a tag or a
    namespace) is a correct substring search: it returns the rest of the
    haystack at the first place the needle occurs, and NULL only when the
    needle occurs nowhere. *)
Theorem strstr_correct (haystack needle : list Z) :
  deref needle <> 0 ->
  match strstr haystack needle with
  | Some r =>
      exists pre, haystack = pre ++ r /\
        occurs_at (cstr needle) (cstr haystack) (length pre) /\
        (forall j, (j < length pre)%nat -> ~ occurs_at (cstr needle) (cstr haystack) j)
  | None => forall j, ~ occurs_at (cstr needle) (cstr haystack) j
  end.
Proof.
  intros Hn. destruct (strstr haystack needle) as [r|] eqn:E.
  - by apply strstr_Some.
  - by apply strstr_None.
Qed.

Lemma strstr_correct_witness :
  strstr (str "<iq><bind/></iq>" ++ [0]) (str "<bind") = Some (str "<bind/></iq>" ++ [0]) /\
  exists pre, (str "<iq><bind/></iq>" ++ [0]) = pre ++ str "<bind/></iq>" ++ [0] /\
    occurs_at (cstr (str "<bind")) (cstr (str "<iq><bind/></iq>" ++ [0])) (length pre) /\
    (forall j, (j < length pre)%nat ->
       ~ occurs_at (cstr (str "<bind")) (cstr (str "<iq><bind/></iq>" ++ [0])) j).
Proof.
  split; [reflexivity|].
  exact (strstr_correct (str "<iq><bind/></iq>" ++ [0]) (str "<bind") ltac:(done)).
Defined.

(** [memmove] gives the destination range the bytes the source range had
    before the call, also when the two ranges overlap, and changes nothing
    else (the receive buffer is compacted with it after every stanza). *)
Theorem memmove_correct (m : list Z) (d s n : nat) :
  (d + n <= length m)%nat -> (s + n <= length m)%nat ->
  memmove m d s n = moved m d s n /\ length (memmove m d s n) = length m.
Proof.
  intros Hd Hs. rewrite memmove_moved by done. split; [done|].
  unfold moved. rewrite !length_app, !length_take, !length_drop. lia.
Qed.

Lemma memmove_correct_witness :
  memmove [1; 2; 3; 4; 5] 1 0 3 = [1; 1; 2; 3; 5] /\ length (memmove [1; 2; 3; 4; 5] 1 0 3) = 5%nat.
Proof. apply (memmove_correct [1; 2; 3; 4; 5] 1 0 3); simpl; lia. Defined.

(** [vsnprintf] writes the unlimited rendering of its format cut to
    [size - 1] bytes, never more than the buffer holds, and its result is the
    number of bytes it wrote: unlike the C standard's, it is always below
    [size], so a caller's truncation test [written >= size] never fires. *)
Theorem vsnprintf_truncates (size : Z) (format : list Z) (args : list arg) :
  no_pointer format = true -> 1 <= size ->
  vsnprintf size format args =
    (take (Z.to_nat (size - 1)) (render format args),
     Z.min (size - 1) (Z.of_nat (length (render format args)))) /\
  snd (vsnprintf size format args) < size.
Proof.
  intros Hp Hs. unfold vsnprintf. rewrite vsn_loop_render by done.
  rewrite length_take. split; [f_equal; lia|]. simpl. lia.
Qed.

Lemma vsnprintf_truncates_witness :
  vsnprintf 8 (str "id=%d;%s") [AInt (-42); AStr (Some (str "abc"))] = (str "id=-42;", 7) /\
  snd (vsnprintf 8 (str "id=%d;%s") [AInt (-42); AStr (Some (str "abc"))]) < 8.
Proof.
  exact (vsnprintf_truncates 8 (str "id=%d;%s") [AInt (-42); AStr (Some (str "abc"))]
           eq_refl ltac:(lia)).
Defined.

(** The kernel's integer printing and parsing are inverse: [atoi] of what
    [snprintf] printed for ["%d"] is the value again, for every [int] but the
    smallest. *)
Theorem atoi_snprintf_roundtrip (v : Z) :
  - 2 ^ 31 < v < 2 ^ 31 -> atoi (snprintf 12 (str "%d") [AInt v] ++ [0]) = v.
Proof.
  intros Hv. destruct (render_d v Hv) as [E L].
  rewrite snprintf_render, E, take_ge by (done || lia).
  apply atoi_printed; [done|simpl; lia].
Qed.

Lemma atoi_snprintf_roundtrip_witness :
  atoi (snprintf 12 (str "%d") [AInt (-1907)] ++ [0]) = -1907.
Proof. apply (atoi_snprintf_roundtrip (-1907)). lia. Defined.

(** The random generator behind every identifier and nonce: when the
    processor's generator fails ten times, the software fallback is seeded
    with a nonzero state and its xorshift steps never reach the absorbing
    state zero; every result is a 32-bit value. *)
Theorem secure_random_ok (addr : Z) (g : rng) (rd : rdrand) :
  rng_ok g ->
  let '(v, g', _) := secure_random_u32 addr g rd in rng_ok g' /\ 0 <= v < 2 ^ 32.
Proof.
  intros Hg. unfold secure_random_u32, hw_trng_read.
  destruct (hw_trng_loop 10 rd) as [[hw|] rd1] eqn:E.
  { split; [done|]. by eapply hw_trng_loop_bound. }
  destruct (rng_seeded g) eqn:Hs.
  - split; [intros _; simpl; apply xorshift_nonzero, Hg, Hs|].
    unfold u32. apply Z.mod_pos_bound. lia.
  - pose proof (rng_seed_nonzero addr rd1) as Hseed. destruct (rng_seed addr rd1) as [st rd2].
    split; [intros _; simpl in *; apply xorshift_nonzero, Hseed|].
    unfold u32. apply Z.mod_pos_bound. lia.
Qed.

Lemma secure_random_ok_witness :
  rng_ok {| rng_state := 0; rng_seeded := false |} /\
  let '(v, g', _) := secure_random_u32 4096 {| rng_state := 0; rng_seeded := false |} [None] in
  rng_ok g' /\ 0 <= v < 2 ^ 32.
Proof.
  split; [done|].
  apply (secure_random_ok 4096 {| rng_state := 0; rng_seeded := false |} [None]). done.
Defined.
