(* ===== verification/Platform.v ===== *)
(** The stubs that let mbedTLS and lwIP compile without a C library:
    include/ctype.h and src/xmpp/mbedtls_port.c.  [calloc] and [free] forward to
    mbedTLS and [exit] halts the processor; they are left out. *)

From Stdlib Require Import ZArith Lia Bool.
From stdpp Require Import base list numbers.
From S2P Require Import Prelude.
From S2P Require Import Libc.

Local Open Scope Z_scope.

(** * Characters *)

Definition isdigit (c : Z) : Z := Z.b2z ((48 <=? c) && (c <=? 57)).

Definition isxdigit (c : Z) : Z :=
  Z.b2z (((48 <=? c) && (c <=? 57)) || ((97 <=? c) && (c <=? 102)) || ((65 <=? c) && (c <=? 70))).

Definition isspace (c : Z) : Z :=
  Z.b2z ((c =? 32) || (c =? 12) || (c =? 10) || (c =? 13) || (c =? 9) || (c =? 11)).

Definition islower (c : Z) : Z := Z.b2z ((97 <=? c) && (c <=? 122)).

Definition isupper (c : Z) : Z := Z.b2z ((65 <=? c) && (c <=? 90)).

Definition tolower (c : Z) : Z := if negb (isupper c =? 0) then c + 32 else c.

Definition toupper (c : Z) : Z := if negb (islower c =? 0) then c - 32 else c.

(** * Memory and addresses *)

(** [n] bytes from [p] on, one at a time. *)
Fixpoint explicit_bzero (p : list Z) (n : nat) : list Z :=
  match n with
  | O => p
  | S n' => 0 :: explicit_bzero (tail p) n'
  end.

(** No text is ever a valid address. *)
Definition inet_pton (af : Z) (src : list Z) (dst : list Z) : Z * list Z := (0, dst).

(** * Lemmas *)

Lemma islower_spec c : negb (islower c =? 0) = (97 <=? c) && (c <=? 122).
Proof. unfold islower. by destruct ((97 <=? c) && (c <=? 122)). Qed.

Lemma isupper_spec c : negb (isupper c =? 0) = (65 <=? c) && (c <=? 90).
Proof. unfold isupper. by destruct ((65 <=? c) && (c <=? 90)). Qed.

(** The two case conversions undo each other on letters, and comparing without
    regard to case may convert either way. *)
Lemma case_conversion c d :
  (isupper c <> 0 -> toupper (tolower c) = c) /\ (islower c <> 0 -> tolower (toupper c) = c) /\
  (tolower c = tolower d <-> toupper c = toupper d).
Proof.
  unfold tolower, toupper. rewrite !islower_spec, !isupper_spec.
  split_and!; [intros H; apply Z.eqb_neq, negb_true_iff in H..|].
  - rewrite isupper_spec in H. rewrite H. apply andb_prop in H as [H1 H2].
    destruct (Z.leb_spec 97 (c + 32)), (Z.leb_spec (c + 32) 122); cbn; lia.
  - rewrite islower_spec in H. rewrite H. apply andb_prop in H as [H1 H2].
    destruct (Z.leb_spec 65 (c - 32)), (Z.leb_spec (c - 32) 90); cbn; lia.
  - destruct (Z.leb_spec 65 c), (Z.leb_spec c 90), (Z.leb_spec 65 d), (Z.leb_spec d 90),
      (Z.leb_spec 97 c), (Z.leb_spec c 122), (Z.leb_spec 97 d), (Z.leb_spec d 122); cbn; lia.
Qed.

(** Clearing a secret is [memset] with zero, which a compiler may not remove. *)
Lemma explicit_bzero_memset p n : explicit_bzero p n = memset p 0 n.
Proof. revert p. induction n as [|n IH]; intros p; [done|]. cbn [explicit_bzero]. by rewrite IH. Qed.
