(* ===== verification/StanzaScan.v ===== *)
(** The stanza framer: src/xmpp/yxml_sse.c.

    The receive path cuts the byte stream of a connection into stanzas with
    [find_stanza_end_dispatch]: the offset just past the first complete
    top-level element of the buffer, or -1 when the element is not complete.
    The file has three implementations: one with the SSE4.2 string
    instruction, the scalar loop used on processors without it, and the loop
    compiled when the compiler does not target SSE4.2 at all.

    The bytes [xml .. end) are a list; the loop variable [p] is the rest of
    that list.  A loop takes fuel and gives [None] when it runs out, so that
    termination is a statement about the model. *)

From Stdlib Require Import ZArith Lia String Ascii Bool.
From stdpp Require Import base list numbers option sets.
From S2P Require Import Prelude.
From S2P Require Import Libc.

Open Scope Z_scope.

(** * The implementations *)

(** [*(gt - 1)] for [gt] a rest of [p] *)
Definition before (gt p : list Z) : Z := at_ p (length p - length gt - 1).

(** The loop of [find_stanza_end_scalar]; [len] is the length of the buffer. *)
Fixpoint scalar_loop (fuel : nat) (len : Z) (p : list Z) (depth : Z) : option Z :=
  match fuel with
  | O => None
  | S fuel' =>
      match p with
      | [] => Some (-1)
      | c :: p' =>
          if negb (c =? 60) then scalar_loop fuel' len p' depth
          else if (1 <? Z.of_nat (length p)) && ((at_ p 1 =? 63) || (at_ p 1 =? 33)) then
            match memchr p 62 (length p) with
            | None => Some (-1)
            | Some gt => scalar_loop fuel' len (tail gt) depth
            end
          else if (1 <? Z.of_nat (length p)) && (at_ p 1 =? 47) then
            match memchr p 62 (length p) with
            | None => Some (-1)
            | Some gt =>
                let depth := depth - 1 in
                if depth =? 0 then Some (len - Z.of_nat (length (tail gt)))
                else scalar_loop fuel' len (tail gt) depth
            end
          else
            match memchr p 62 (length p) with
            | None => Some (-1)
            | Some gt =>
                if before gt p =? 47 then
                  if depth =? 0 then Some (len - Z.of_nat (length (tail gt)))
                  else scalar_loop fuel' len (tail gt) depth
                else scalar_loop fuel' len (tail gt) (depth + 1)
            end
      end
  end.

Definition find_stanza_end_scalar (xml : list Z) : option Z :=
  scalar_loop (S (length xml)) (Z.of_nat (length xml)) xml 0.

(** [while (gt < end && *gt != '>') gt++;] from [gt]: the rest at which it
    stops. *)
Fixpoint scan_gt (gt : list Z) : list Z :=
  match gt with
  | [] => []
  | c :: gt' => if c =? 62 then gt else scan_gt gt'
  end.

(** The loop of the variant built without SSE4.2. *)
Fixpoint portable_loop (fuel : nat) (len : Z) (p : list Z) (depth : Z) : option Z :=
  match fuel with
  | O => None
  | S fuel' =>
      match p with
      | [] => Some (-1)
      | c :: p' =>
          if negb (c =? 60) then portable_loop fuel' len p' depth
          else if (1 <? Z.of_nat (length p)) && ((at_ p 1 =? 63) || (at_ p 1 =? 33)) then
            match scan_gt p' with
            | [] => Some (-1)
            | _ :: rest => portable_loop fuel' len rest depth
            end
          else if (1 <? Z.of_nat (length p)) && (at_ p 1 =? 47) then
            match scan_gt p' with
            | [] => Some (-1)
            | _ :: rest =>
                let depth := depth - 1 in
                if depth =? 0 then Some (len - Z.of_nat (length rest))
                else portable_loop fuel' len rest depth
            end
          else
            match scan_gt p' with
            | [] => Some (-1)
            | g :: rest =>
                if before (g :: rest) p =? 47 then
                  if depth =? 0 then Some (len - Z.of_nat (length rest))
                  else portable_loop fuel' len rest depth
                else portable_loop fuel' len rest (depth + 1)
            end
      end
  end.

Definition find_stanza_end_portable (xml : list Z) : option Z :=
  portable_loop (S (length xml)) (Z.of_nat (length xml)) xml 0.

(** The bytes of [XML_NEEDLE] before its first NUL: the operand has implicit
    length. *)
Definition XML_NEEDLE : list Z := [60; 62; 47; 33; 63].

(** [_mm_cmpistri(needle, chunk, UBYTE | EQUAL_ANY | LEAST_SIGNIFICANT)]: the
    index of the first byte of the chunk that is in the needle, 16 when there
    is none.  Both operands have implicit length: bytes of the chunk from its
    first NUL on are not compared. *)
Fixpoint cmpistri_from (i : Z) (chunk : list Z) : Z :=
  match chunk with
  | [] => 16
  | c :: chunk' =>
      if c =? 0 then 16
      else if existsb (Z.eqb c) XML_NEEDLE then i
      else cmpistri_from (i + 1) chunk'
  end.

Definition cmpistri (chunk : list Z) : Z := cmpistri_from 0 (take 16 chunk).

(** The part of the SSE loop body after the vector skip. *)
Definition sse_body (loop : list Z -> Z -> option Z) (len : Z) (p : list Z) (depth : Z) : option Z :=
  if negb (deref p =? 60) then loop (tail p) depth
  else if Z.of_nat (length p) <=? 1 then Some (-1)
  else
    let next := at_ p 1 in
    if (next =? 63) || (next =? 33) then
      match memchr p 62 (length p) with
      | None => Some (-1)
      | Some gt => loop (tail gt) depth
      end
    else if next =? 47 then
      match memchr p 62 (length p) with
      | None => Some (-1)
      | Some gt =>
          let depth := depth - 1 in
          if depth =? 0 then Some (len - Z.of_nat (length (tail gt))) else loop (tail gt) depth
      end
    else
      match memchr p 62 (length p) with
      | None => Some (-1)
      | Some gt =>
          if before gt p =? 47 then
            if depth =? 0 then Some (len - Z.of_nat (length (tail gt))) else loop (tail gt) depth
          else loop (tail gt) (depth + 1)
      end.

(** The loop of [find_stanza_end_sse]. *)
Fixpoint sse_loop (fuel : nat) (len : Z) (p : list Z) (depth : Z) : option Z :=
  match fuel with
  | O => None
  | S fuel' =>
      match p with
      | [] => Some (-1)
      | _ :: _ =>
          if 16 <=? Z.of_nat (length p) then
            let idx := cmpistri p in
            if idx =? 16 then sse_loop fuel' len (drop 16 p) depth
            else sse_body (sse_loop fuel' len) len (drop (Z.to_nat idx) p) depth
          else sse_body (sse_loop fuel' len) len p depth
      end
  end.

Definition find_stanza_end_sse (xml : list Z) : option Z :=
  sse_loop (S (length xml)) (Z.of_nat (length xml)) xml 0.

(** The function pointer [impl] is chosen once, from bit 20 of [ecx] of the
    [cpuid] leaf 1. *)
Definition cpu_has_sse42 (ecx : Z) : bool := truth (Z.land (Z.shiftr ecx 20) 1).

Definition find_stanza_end_dispatch (ecx : Z) (xml : list Z) : option Z :=
  if cpu_has_sse42 ecx then find_stanza_end_sse xml else find_stanza_end_scalar xml.

(** * Facts *)

Lemma memchr_suffix (c : Z) (n : nat) (p gt : list Z) :
  0 < c < 256 -> memchr p c n = Some gt ->
  exists pre, p = pre ++ gt /\ deref gt = c /\ (length pre < n)%nat /\ c ∉ pre /\ gt <> [].
Proof.
  intros Hc. revert p; induction n as [|n IH]; intros p; simpl; [done|].
  unfold u8 at 1. rewrite Z.mod_small by lia.
  destruct (Z.eqb_spec (deref p) c) as [E|E].
  - intros [= <-]. exists []. split_and!; [done|done|simpl; lia|set_solver|].
    intros ->. simpl in E. lia.
  - intros H. destruct p as [|x p].
    + exfalso. simpl in H. clear -H Hc. induction n as [|n IH]; simpl in *; [done|].
      unfold u8 in H at 1. rewrite Z.mod_small in H by lia. destruct (Z.eqb_spec 0 c); [lia|auto].
    + simpl in H, E. apply IH in H as (pre & -> & ? & ? & ? & ?).
      exists (x :: pre). split_and!; [done|done|simpl; lia|set_solver|done].
Qed.

(** A proper rest: a later position in the same array. *)
Definition later (q p : list Z) : Prop := q `suffix_of` p /\ (length q < length p)%nat.

Lemma memchr_later (c : Z) (p gt : list Z) :
  0 < c < 256 -> memchr p c (length p) = Some gt -> later (tail gt) p.
Proof.
  intros Hc (pre & E & _ & _ & _ & Hne)%memchr_suffix; [|done].
  destruct gt as [|g gt]; [done|]. rewrite E. split; simpl.
  - exists (pre ++ [g]). by rewrite <- app_assoc.
  - rewrite length_app. simpl. lia.
Qed.

Lemma scan_gt_suffix (p : list Z) : exists pre, p = pre ++ scan_gt p /\ 62 ∉ pre.
Proof.
  induction p as [|c p (pre & E & N)]; simpl; [exists []; set_solver|].
  destruct (Z.eqb_spec c 62); [exists []; set_solver|].
  exists (c :: pre). simpl. rewrite <- E. set_solver.
Qed.

(** The hand-written inner loop of the portable variant is [memchr]. *)
Lemma scan_gt_memchr (p : list Z) :
  memchr p 62 (length p) = match scan_gt p with [] => None | g :: r => Some (g :: r) end.
Proof.
  induction p as [|c p IH]; [done|]. simpl. change (u8 62) with 62.
  destruct (Z.eqb_spec c 62); [done|]. exact IH.
Qed.

(** ** Fuel

    One step of the scalar loop, as a function of what the loop does on
    shorter rests: the loop with enough fuel satisfies this equation. *)
Definition scalar_step (loop : list Z -> Z -> option Z) (len : Z) (p : list Z) (depth : Z)
  : option Z :=
  match p with
  | [] => Some (-1)
  | c :: p' => if negb (c =? 60) then loop p' depth else sse_body loop len p depth
  end.

Lemma scalar_loop_step (fuel : nat) (len : Z) (p : list Z) (depth : Z) :
  scalar_loop (S fuel) len p depth = scalar_step (scalar_loop fuel len) len p depth.
Proof.
  cbn [scalar_loop]. unfold scalar_step. destruct p as [|c p]; [done|].
  destruct (Z.eqb_spec c 60) as [->|]; cbn [negb]; [|done].
  unfold sse_body. change (deref (60 :: p) =? 60) with true. cbn [negb].
  destruct (Z.leb_spec (Z.of_nat (length (60 :: p))) 1) as [L|L].
  - destruct p; [done|simpl in L; lia].
  - rewrite (proj2 (Z.ltb_lt 1 _)) by lia. done.
Qed.

Lemma sse_body_ext (l1 l2 : list Z -> Z -> option Z) (len : Z) (p : list Z) (depth : Z) :
  p <> [] ->
  (forall q d, later q p -> l1 q d = l2 q d) ->
  sse_body l1 len p depth = sse_body l2 len p depth.
Proof.
  intros Hp H. unfold sse_body. destruct (negb (deref p =? 60)).
  { apply H. destruct p as [|c p]; [done|]. split; simpl; [by exists [c]|lia]. }
  destruct (memchr p 62 (length p)) as [gt|] eqn:E; [|done].
  assert (later (tail gt) p) by (by apply (memchr_later 62)).
  repeat case_match; auto.
Qed.

(** Enough fuel is as good as more, for the scalar loop. *)
Lemma scalar_loop_fuel (f1 f2 : nat) (len : Z) (p : list Z) (depth : Z) :
  (length p < f1)%nat -> (length p < f2)%nat ->
  scalar_loop f1 len p depth = scalar_loop f2 len p depth.
Proof.
  revert f2 p depth; induction f1 as [|f1 IH]; intros [|f2] p depth H1 H2; try lia.
  rewrite !scalar_loop_step. destruct p as [|c p]; [done|]. unfold scalar_step.
  destruct (negb (c =? 60)); simpl in *; [apply IH; lia|].
  apply sse_body_ext; [done|]. intros q d [_ Hq]. simpl in Hq. apply IH; lia.
Qed.

(** ** The vector skip *)

Lemma cmpistri_from_spec (chunk : list Z) (i : Z) :
  nul_free chunk -> 0 <= i -> i + Z.of_nat (length chunk) <= 16 ->
  cmpistri_from i chunk = 16 /\ 60 ∉ chunk \/
  exists k, cmpistri_from i chunk = i + Z.of_nat k /\ (k < length chunk)%nat /\ 60 ∉ take k chunk.
Proof.
  intros F; revert i; induction F as [|c chunk Hc F IH]; intros i Hi Hl.
  { left. split; [done|]. set_solver. }
  cbn [cmpistri_from]. destruct (Z.eqb_spec c 0); [done|].
  destruct (existsb (Z.eqb c) XML_NEEDLE) eqn:E.
  { right. exists O. split_and!; [lia|simpl; lia|set_solver]. }
  assert (c <> 60) as Hlt by (intros ->; done). simpl in Hl.
  destruct (IH (i + 1)) as [[-> N]|(k & -> & Hk & N)]; [lia|lia| |].
  - left. split; [done|]. set_solver.
  - right. exists (S k). simpl. split_and!; [lia|lia|set_solver].
Qed.

(** The scalar loop passes over bytes that are not an opening bracket. *)
Lemma scalar_skip (pre q : list Z) (len depth : Z) (f : nat) :
  60 ∉ pre -> (length (pre ++ q) < f)%nat ->
  scalar_loop f len (pre ++ q) depth = scalar_loop f len q depth.
Proof.
  revert f; induction pre as [|c pre IH]; intros f N Hf; [done|].
  destruct f as [|f]; [lia|]. simpl in Hf.
  cbn [app]. rewrite scalar_loop_step. cbn [scalar_step].
  destruct (Z.eqb_spec c 60) as [->|]; [set_solver|]. cbn [negb].
  rewrite IH by (set_solver || lia). apply scalar_loop_fuel; rewrite length_app in Hf; lia.
Qed.

Lemma sse_body_scalar (f : nat) (len : Z) (q : list Z) (depth : Z) :
  q <> [] -> sse_body (scalar_loop f len) len q depth = scalar_loop (S f) len q depth.
Proof.
  intros Hq. rewrite scalar_loop_step. destruct q as [|c q]; [done|]. unfold scalar_step.
  destruct (negb (c =? 60)) eqn:E; [|done]. unfold sse_body. simpl. by rewrite E.
Qed.

Lemma sse_loop_scalar (f : nat) (len : Z) (p : list Z) (depth : Z) :
  nul_free p -> (length p < f)%nat -> sse_loop f len p depth = scalar_loop f len p depth.
Proof.
  revert p depth; induction f as [|f IH]; intros p depth F Hf; [lia|].
  assert (forall k, (k < length p)%nat -> 60 ∉ take k p ->
    sse_body (sse_loop f len) len (drop k p) depth = scalar_loop (S f) len p depth) as Body.
  { intros k Hk N. assert (drop k p <> []) as Hne.
    { intros E. apply (f_equal length) in E. rewrite length_drop in E. simpl in E. lia. }
    rewrite (sse_body_ext _ (scalar_loop f len)), sse_body_scalar; try done.
    - rewrite <- (take_drop k p) at 2. rewrite scalar_skip; [done|done|]. by rewrite take_drop.
    - intros q d [Hs Hl]. rewrite length_drop in Hl. apply IH; [|lia].
      destruct Hs as [pre E]. rewrite <- (take_drop k p), E in F.
      by apply Forall_app in F as [_ [_ F]%Forall_app]. }
  cbn [sse_loop]. destruct p as [|c p]; [done|]. set (xs := c :: p) in *.
  destruct (Z.leb_spec 16 (Z.of_nat (length xs))) as [L|L].
  - assert (length (take 16 xs) = 16%nat) as L16 by (rewrite length_take; lia).
    unfold cmpistri. destruct (cmpistri_from_spec (take 16 xs) 0) as [[-> N]|(k & -> & Hk & N)].
    + by apply Forall_take.
    + lia.
    + lia.
    + rewrite Z.eqb_refl, IH; [|by apply Forall_drop|rewrite length_drop; lia].
      rewrite <- (take_drop 16 xs) at 2. rewrite scalar_skip; [|done|by rewrite take_drop].
      apply scalar_loop_fuel; rewrite length_drop; lia.
    + destruct (Z.eqb_spec (0 + Z.of_nat k) 16); [lia|].
      replace (Z.to_nat (0 + Z.of_nat k)) with k by lia.
      apply Body; [lia|]. by rewrite take_take, Nat.min_l in N by lia.
  - change xs with (drop 0 xs) at 1. apply Body; [simpl; lia|]. set_solver.
Qed.

(** ** The portable loop *)

Lemma portable_loop_scalar (f : nat) (len : Z) (p : list Z) (depth : Z) :
  portable_loop f len p depth = scalar_loop f len p depth.
Proof.
  revert p depth; induction f as [|f IH]; intros p depth; [done|].
  cbn [portable_loop scalar_loop]. destruct p as [|c p]; [done|].
  destruct (Z.eqb_spec c 60) as [->|]; cbn [negb]; [|apply IH].
  assert (memchr (60 :: p) 62 (length (60 :: p)) =
          match scan_gt p with [] => None | g :: r => Some (g :: r) end) as ->
    by exact (scan_gt_memchr (60 :: p)).
  destruct (scan_gt p) as [|g rest]; [done|]. simpl tail. by rewrite !IH.
Qed.

(** ** Termination and bounds *)

(** A result is -1 or an offset past at least one byte of [p]. *)
Definition in_bounds (len : Z) (p : list Z) (res : option Z) : Prop :=
  exists r, res = Some r /\ (r = -1 \/ len - Z.of_nat (length p) < r <= len).

Lemma in_bounds_later (len : Z) (q p : list Z) (res : option Z) :
  later q p -> in_bounds len q res -> in_bounds len p res.
Proof. intros [_ Hq] (r & -> & Hr). exists r. split; [done|lia]. Qed.

(** The common body, when the rest of the loop is in bounds. *)
Lemma sse_body_bounds (loop : list Z -> Z -> option Z) (len : Z) (p : list Z) (depth : Z) :
  p <> [] -> Z.of_nat (length p) <= len ->
  (forall q d, later q p -> in_bounds len q (loop q d)) ->
  in_bounds len p (sse_body loop len p depth).
Proof.
  intros Hp Hl Hloop.
  assert (forall q d, later q p -> in_bounds len p (loop q d)) as Rec.
  { intros q d Hq. eapply in_bounds_later; eauto. }
  assert (forall z, z = -1 \/ len - Z.of_nat (length p) < z <= len -> in_bounds len p (Some z)) as Ret.
  { intros z Hz. by exists z. }
  unfold sse_body. destruct (negb _).
  { apply Rec. destruct p as [|c p]; [done|]. split; simpl; [by exists [c]|lia]. }
  destruct (memchr p 62 (length p)) as [gt|] eqn:E.
  - apply memchr_later in E as Hlat; [|lia]. assert (Hlat' := Hlat). destruct Hlat' as [_ Hq].
    assert (Hd := Rec (tail gt)). repeat case_match; auto; apply Ret; lia.
  - repeat case_match; apply Ret; lia.
Qed.

Lemma scalar_loop_bounds (f : nat) (len : Z) (p : list Z) (depth : Z) :
  (length p < f)%nat -> Z.of_nat (length p) <= len -> in_bounds len p (scalar_loop f len p depth).
Proof.
  revert p depth; induction f as [|f IH]; intros p depth Hf Hl; [lia|].
  rewrite scalar_loop_step. destruct p as [|c p]; [eexists; split; [done|by left]|].
  assert (forall q d, later q (c :: p) -> in_bounds len q (scalar_loop f len q d)) as Rec.
  { intros q d [_ Hq]. apply IH; lia. }
  cbn [scalar_step]. destruct (negb (c =? 60)); [|by apply sse_body_bounds].
  assert (later p (c :: p)) as Hlat by (split; simpl; [by exists [c]|lia]).
  eapply in_bounds_later; [exact Hlat|]. by apply Rec.
Qed.

Lemma cmpistri_from_range (chunk : list Z) (i : Z) :
  0 <= i -> cmpistri_from i chunk = 16 \/ i <= cmpistri_from i chunk < i + Z.of_nat (length chunk).
Proof.
  revert i; induction chunk as [|c chunk IH]; intros i Hi; [by left|].
  cbn [cmpistri_from]. destruct (c =? 0); [by left|].
  destruct (existsb _ _); [right; simpl; lia|].
  destruct (IH (i + 1)) as [->|H]; [lia|by left|]. right. simpl. lia.
Qed.

Lemma drop_later (k : nat) (p : list Z) : (0 < k <= length p)%nat -> later (drop k p) p.
Proof. intros H. split; [exists (take k p); by rewrite take_drop|rewrite length_drop; lia]. Qed.

Lemma sse_loop_bounds (f : nat) (len : Z) (p : list Z) (depth : Z) :
  (length p < f)%nat -> Z.of_nat (length p) <= len -> in_bounds len p (sse_loop f len p depth).
Proof.
  revert p depth; induction f as [|f IH]; intros p depth Hf Hl; [lia|].
  cbn [sse_loop]. destruct p as [|c p]; [eexists; split; [done|by left]|]. set (xs := c :: p) in *.
  assert (0 < length xs)%nat as Hne by (simpl; lia). clearbody xs.
  assert (forall k, (k < length xs)%nat ->
    in_bounds len xs (sse_body (sse_loop f len) len (drop k xs) depth)) as Body.
  { intros k Hk.
    assert (in_bounds len (drop k xs) (sse_body (sse_loop f len) len (drop k xs) depth)) as H.
    { apply sse_body_bounds.
      - intros E. apply (f_equal length) in E. rewrite length_drop in E. simpl in E. lia.
      - rewrite length_drop. lia.
      - intros q d [_ Hq]. rewrite length_drop in Hq. apply IH; lia. }
    destruct H as (r & E & Hr). exists r. split; [done|]. rewrite length_drop in Hr. lia. }
  destruct (Z.leb_spec 16 (Z.of_nat (length xs))) as [L|L].
  - unfold cmpistri. destruct (cmpistri_from_range (take 16 xs) 0 ltac:(lia)) as [->|H].
    + rewrite Z.eqb_refl. eapply in_bounds_later; [apply (drop_later 16); lia|].
      apply IH; rewrite length_drop; lia.
    + rewrite length_take in H. destruct (Z.eqb_spec (cmpistri_from 0 (take 16 xs)) 16); [lia|].
      apply Body. lia.
  - change xs with (drop 0 xs) at 2. by apply Body.
Qed.

(** Whichever implementation is selected, on any buffer. *)
Lemma dispatch_bounds (ecx : Z) (xml : list Z) :
  exists r, find_stanza_end_dispatch ecx xml = Some r /\
            (r = -1 \/ 0 < r <= Z.of_nat (length xml)).
Proof.
  unfold find_stanza_end_dispatch, find_stanza_end_sse, find_stanza_end_scalar.
  assert (in_bounds (Z.of_nat (length xml)) xml
    (if cpu_has_sse42 ecx then sse_loop (S (length xml)) (Z.of_nat (length xml)) xml 0
     else scalar_loop (S (length xml)) (Z.of_nat (length xml)) xml 0)) as (r & E & Hr).
  { destruct (cpu_has_sse42 ecx); [apply sse_loop_bounds|apply scalar_loop_bounds]; lia. }
  exists r. split; [exact E|lia].
Qed.

(** ** Documents

    The elements a stanza is made of, as the framer sees them: text without
    angle brackets, self-closing tags, and elements with content. *)
Inductive node :=
| Text (s : list Z)
| Empty (tag : list Z)
| Elem (tag : list Z) (content : forest) (close : list Z)
with forest :=
| FNil
| FCons (n : node) (f : forest).

Scheme node_mut := Induction for node Sort Prop
with forest_mut := Induction for forest Sort Prop.

Fixpoint print_node (n : node) : list Z :=
  match n with
  | Text s => s
  | Empty tag => [60] ++ tag ++ [47; 62]
  | Elem tag content close => [60] ++ tag ++ [62] ++ print_forest content ++ [60; 47] ++ close ++ [62]
  end
with print_forest (f : forest) : list Z :=
  match f with
  | FNil => []
  | FCons n f' => print_node n ++ print_forest f'
  end.

(** The inside of a start tag: a name and attributes without a closing
    bracket, not starting like an end tag, a comment or a declaration. *)
Definition tag_ok (tag : list Z) : Prop :=
  62 ∉ tag /\ tag <> [] /\ deref tag <> 47 /\ deref tag <> 63 /\ deref tag <> 33.

Definition text_ok (s : list Z) : Prop := 60 ∉ s.

Fixpoint node_ok (n : node) : Prop :=
  match n with
  | Text s => text_ok s
  | Empty tag => tag_ok tag
  | Elem tag content close =>
      tag_ok tag /\ last tag <> Some 47 /\ forest_ok content /\ 62 ∉ close
  end
with forest_ok (f : forest) : Prop :=
  match f with
  | FNil => True
  | FCons n f' => node_ok n /\ forest_ok f'
  end.

Lemma memchr_app (c : Z) (pre rest : list Z) (n : nat) :
  0 < c < 256 -> c ∉ pre -> (length pre < n)%nat -> memchr (pre ++ c :: rest) c n = Some (c :: rest).
Proof.
  intros Hc. revert n; induction pre as [|x pre IH]; intros [|n] N Hn; simpl in *; try lia.
  - unfold u8. rewrite Z.mod_small, Z.eqb_refl by lia. done.
  - unfold u8. rewrite Z.mod_small by lia. destruct (Z.eqb_spec x c); [set_solver|].
    apply IH; [set_solver|lia].
Qed.

(** The loop on a whole tag [<body>] followed by [rest]. *)
Lemma scalar_tag (f : nat) (len : Z) (body rest : list Z) (depth : Z) :
  62 ∉ body -> body <> [] ->
  scalar_loop (S f) len ([60] ++ body ++ [62] ++ rest) depth =
  if (deref body =? 63) || (deref body =? 33) then scalar_loop f len rest depth
  else if deref body =? 47 then
    if depth - 1 =? 0 then Some (len - Z.of_nat (length rest)) else scalar_loop f len rest (depth - 1)
  else if bool_decide (last body = Some 47) then
    if depth =? 0 then Some (len - Z.of_nat (length rest)) else scalar_loop f len rest depth
  else scalar_loop f len rest (depth + 1).
Proof.
  intros N Hne.
  assert (memchr ([60] ++ body ++ [62] ++ rest) 62 (length ([60] ++ body ++ [62] ++ rest))
          = Some (62 :: rest)) as Em.
  { change ([60] ++ body ++ [62] ++ rest) with ((60 :: body) ++ 62 :: rest).
    apply memchr_app; [lia|set_solver|rewrite length_app; simpl; lia]. }
  assert (at_ ([60] ++ body ++ [62] ++ rest) 1 = deref body) as Ea.
  { unfold at_. simpl. by destruct body. }
  assert (1 <? Z.of_nat (length ([60] ++ body ++ [62] ++ rest)) = true) as El.
  { apply Z.ltb_lt. rewrite !length_app. simpl. lia. }
  assert (before (62 :: rest) ([60] ++ body ++ [62] ++ rest) = List.last body 0) as Eb.
  { unfold before. rewrite !length_app. simpl length.
    replace (1 + (length body + (1 + length rest)) - S (length rest) - 1)%nat
      with (length body) by lia.
    destruct body as [|b0 bs _] using rev_ind; [done|].
    rewrite List.last_last, length_app. simpl. rewrite Nat.add_1_r.
    unfold at_. simpl. rewrite <- app_assoc, drop_app_length. done. }
  assert (bool_decide (last body = Some 47) = (List.last body 0 =? 47)) as ->.
  { destruct body as [|b0 bs _] using rev_ind; [done|].
    rewrite List.last_last, last_snoc. destruct (Z.eqb_spec b0 47).
    - apply bool_decide_eq_true. congruence.
    - apply bool_decide_eq_false. congruence. }
  cbn [scalar_loop]. change ([60] ++ body ++ [62] ++ rest) with (60 :: (body ++ [62] ++ rest)) in *.
  cbv iota. rewrite Em, Ea, El, Eb. cbn [negb andb tail]. done.
Qed.

(** The loop with the fuel it needs. *)
Definition scan (len : Z) (p : list Z) (depth : Z) : option Z :=
  scalar_loop (S (length p)) len p depth.

Lemma scan_skip (len : Z) (s rest : list Z) (depth : Z) :
  text_ok s -> scan len (s ++ rest) depth = scan len rest depth.
Proof.
  intros H. unfold scan. rewrite scalar_skip by (done || lia).
  apply scalar_loop_fuel; rewrite ?length_app; lia.
Qed.

Lemma scan_tag (len : Z) (body rest : list Z) (depth : Z) :
  62 ∉ body -> body <> [] ->
  scan len ([60] ++ body ++ [62] ++ rest) depth =
  if (deref body =? 63) || (deref body =? 33) then scan len rest depth
  else if deref body =? 47 then
    if depth - 1 =? 0 then Some (len - Z.of_nat (length rest)) else scan len rest (depth - 1)
  else if bool_decide (last body = Some 47) then
    if depth =? 0 then Some (len - Z.of_nat (length rest)) else scan len rest depth
  else scan len rest (depth + 1).
Proof.
  intros N Hne. unfold scan. rewrite scalar_tag by done.
  assert (forall d, scalar_loop (length ([60] ++ body ++ [62] ++ rest)) len rest d =
                    scalar_loop (S (length rest)) len rest d) as E.
  { intros d. apply scalar_loop_fuel; rewrite ?length_app; simpl; lia. }
  by rewrite !E.
Qed.

Lemma scan_open (len : Z) (tag rest : list Z) (depth : Z) :
  tag_ok tag -> last tag <> Some 47 ->
  scan len ([60] ++ tag ++ [62] ++ rest) depth = scan len rest (depth + 1).
Proof.
  intros (N & Hne & H1 & H2 & H3) Hl. rewrite scan_tag by done.
  destruct (Z.eqb_spec (deref tag) 63), (Z.eqb_spec (deref tag) 33), (Z.eqb_spec (deref tag) 47);
    try done. cbn [orb]. by rewrite bool_decide_false.
Qed.

Lemma scan_empty (len : Z) (tag rest : list Z) (depth : Z) :
  tag_ok tag ->
  scan len ([60] ++ (tag ++ [47]) ++ [62] ++ rest) depth =
  if depth =? 0 then Some (len - Z.of_nat (length rest)) else scan len rest depth.
Proof.
  intros (N & Hne & H1 & H2 & H3). rewrite scan_tag; [|set_solver|by destruct tag].
  assert (deref (tag ++ [47]) = deref tag) as -> by (by destruct tag).
  destruct (Z.eqb_spec (deref tag) 63), (Z.eqb_spec (deref tag) 33), (Z.eqb_spec (deref tag) 47);
    try done. cbn [orb]. by rewrite bool_decide_true by apply last_snoc.
Qed.

Lemma scan_close (len : Z) (close rest : list Z) (depth : Z) :
  62 ∉ close ->
  scan len ([60] ++ (47 :: close) ++ [62] ++ rest) depth =
  if depth - 1 =? 0 then Some (len - Z.of_nat (length rest)) else scan len rest (depth - 1).
Proof. intros N. rewrite scan_tag; [done|set_solver|done]. Qed.

(** Inside an element, a node leaves the depth as it found it. *)
Lemma scan_forest (f : forest) :
  forest_ok f -> forall len rest depth, 1 <= depth ->
  scan len (print_forest f ++ rest) depth = scan len rest depth.
Proof.
  induction f as [s|tag|tag content IH close| |n IHn f IHf]
    using forest_mut with (P := fun n => node_ok n -> forall len rest depth, 1 <= depth ->
        scan len (print_node n ++ rest) depth = scan len rest depth);
    cbn [node_ok forest_ok print_node print_forest].
  - intros Hs len rest depth _. by apply scan_skip.
  - intros Ht len rest depth Hd.
    replace (([60] ++ tag ++ [47; 62]) ++ rest) with ([60] ++ (tag ++ [47]) ++ [62] ++ rest)
      by (by rewrite <- !app_assoc).
    rewrite scan_empty by done. destruct (Z.eqb_spec depth 0); [lia|done].
  - intros (Ht & Hl & Hc & N) len rest depth Hd.
    rewrite <- !app_assoc. rewrite scan_open by done.
    rewrite IH by (done || lia).
    change ([60; 47] ++ close ++ [62] ++ rest) with ([60] ++ (47 :: close) ++ [62] ++ rest).
    rewrite scan_close by done. replace (depth + 1 - 1) with depth by lia.
    destruct (Z.eqb_spec depth 0); [lia|done].
  - done.
  - intros [Hn Hf] len rest depth Hd. rewrite <- app_assoc.
    rewrite IHn, IHf by done. done.
Qed.

(** An element node is a stanza. *)
Definition is_element (n : node) : Prop := match n with Text _ => False | _ => True end.

Lemma scan_element (n : node) :
  node_ok n -> is_element n -> forall len rest,
  scan len (print_node n ++ rest) 0 = Some (len - Z.of_nat (length rest)).
Proof.
  destruct n as [s|tag|tag content close]; cbn [node_ok is_element print_node]; [done| |].
  - intros Ht _ len rest.
    replace (([60] ++ tag ++ [47; 62]) ++ rest) with ([60] ++ (tag ++ [47]) ++ [62] ++ rest)
      by (by rewrite <- !app_assoc).
    by rewrite scan_empty.
  - intros (Ht & Hl & Hc & N) _ len rest. rewrite <- !app_assoc, scan_open by done.
    rewrite (scan_forest content Hc) by lia.
    change ([60; 47] ++ close ++ [62] ++ rest) with ([60] ++ (47 :: close) ++ [62] ++ rest).
    by rewrite scan_close.
Qed.

(** * Properties *)

(** C18: on a buffer without NUL bytes the SSE4.2 scan, the scalar scan and the
    scan compiled without SSE4.2 return the same offset, so which one the
    processor check selects does not matter. *)
Theorem stanza_scan_variants_agree (xml : list Z) (ecx : Z) :
  nul_free xml ->
  find_stanza_end_sse xml = find_stanza_end_scalar xml /\
  find_stanza_end_portable xml = find_stanza_end_scalar xml /\
  find_stanza_end_dispatch ecx xml = find_stanza_end_scalar xml.
Proof.
  intros F. unfold find_stanza_end_dispatch, find_stanza_end_sse, find_stanza_end_portable.
  rewrite sse_loop_scalar, portable_loop_scalar by (done || lia).
  split_and!; try done. by destruct (cpu_has_sse42 ecx).
Qed.

Lemma stanza_scan_variants_agree_witness :
  nul_free (str "<message to='a@b'>  <body>hello world</body></message>") /\
  find_stanza_end_sse (str "<message to='a@b'>  <body>hello world</body></message>") = Some 54 /\
  find_stanza_end_dispatch 0 (str "<message to='a@b'>  <body>hello world</body></message>") =
  find_stanza_end_scalar (str "<message to='a@b'>  <body>hello world</body></message>").
Proof.
  split; [|split; [reflexivity|]].
  - repeat (constructor; [vm_compute; discriminate|]). constructor.
  - apply (stanza_scan_variants_agree (str "<message to='a@b'>  <body>hello world</body></message>") 0).
    repeat (constructor; [vm_compute; discriminate|]). constructor.
Defined.

(** The scan terminates on every buffer (the loop never runs out of its
    fuel), with or without SSE4.2, and a nonnegative result is an offset inside
    the buffer, past at least one byte: the receive loop always makes progress
    and never consumes bytes it does not have. *)
Theorem stanza_scan_bounds (ecx : Z) (xml : list Z) :
  exists r, find_stanza_end_dispatch ecx xml = Some r /\
            (r = -1 \/ 0 < r <= Z.of_nat (length xml)).
Proof. apply dispatch_bounds. Qed.



(** On a processor with SSE4.2 a NUL byte in the buffer hides the rest of
    its 16-byte chunk from the scan, because the string instruction takes its
    operands as NUL-terminated: the vector and the scalar scan disagree. *)
Theorem stanza_scan_nul_divergence :
  let xml := [0] ++ str "<presence/>" ++ str "    " in
  find_stanza_end_scalar xml = Some 12 /\ find_stanza_end_sse xml = Some (-1).
Proof. vm_compute. split; reflexivity. Qed.
