(* ===== verification/Yxml.v ===== *)
(** The pull parser the server reads stanzas with: src/xmpp/yxml.c.

    [yxml_parse] consumes one byte and returns a token code.  Its state is a
    [yxml] record; the pointers [elem], [attr] and [pi] into the stack buffer
    are offsets into it.  Every access to the stack buffer and to the 8-byte
    [data] array is checked: an operation that would leave its array gives
    [None], so that "the result is [Some]" says that the call stays inside the
    memory it was given. *)

From Stdlib Require Import ZArith Lia String Ascii Bool.
From stdpp Require Import base list numbers option sets.
From S2P Require Import Prelude.
From S2P Require Import Libc.

Open Scope Z_scope.

(** * Data *)

Inductive yxml_state_t :=
| YXMLS_string | YXMLS_attr0 | YXMLS_attr1 | YXMLS_attr2 | YXMLS_attr3 | YXMLS_attr4
| YXMLS_cd0 | YXMLS_cd1 | YXMLS_cd2 | YXMLS_comment0 | YXMLS_comment1 | YXMLS_comment2
| YXMLS_comment3 | YXMLS_comment4 | YXMLS_dt0 | YXMLS_dt1 | YXMLS_dt2 | YXMLS_dt3
| YXMLS_dt4 | YXMLS_elem0 | YXMLS_elem1 | YXMLS_elem2 | YXMLS_elem3 | YXMLS_enc0
| YXMLS_enc1 | YXMLS_enc2 | YXMLS_enc3 | YXMLS_etag0 | YXMLS_etag1 | YXMLS_etag2
| YXMLS_init | YXMLS_le0 | YXMLS_le1 | YXMLS_le2 | YXMLS_le3 | YXMLS_lee1
| YXMLS_lee2 | YXMLS_leq0 | YXMLS_misc0 | YXMLS_misc1 | YXMLS_misc2 | YXMLS_misc2a
| YXMLS_misc3 | YXMLS_pi0 | YXMLS_pi1 | YXMLS_pi2 | YXMLS_pi3 | YXMLS_pi4
| YXMLS_std0 | YXMLS_std1 | YXMLS_std2 | YXMLS_std3 | YXMLS_ver0 | YXMLS_ver1
| YXMLS_ver2 | YXMLS_ver3 | YXMLS_xmldecl0 | YXMLS_xmldecl1 | YXMLS_xmldecl2 | YXMLS_xmldecl3
| YXMLS_xmldecl4 | YXMLS_xmldecl5 | YXMLS_xmldecl6 | YXMLS_xmldecl7 | YXMLS_xmldecl8 | YXMLS_xmldecl9.

Inductive yxml_ret_t :=
| YXML_EEOF | YXML_EREF | YXML_ECLOSE | YXML_ESTACK | YXML_ESYN | YXML_OK
| YXML_ELEMSTART | YXML_CONTENT | YXML_ELEMEND | YXML_ATTRSTART | YXML_ATTRVAL
| YXML_ATTREND | YXML_PISTART | YXML_PICONTENT | YXML_PIEND.

(** The numeric value of a token code. *)
Definition yxml_code (r : yxml_ret_t) : Z :=
  match r with
  | YXML_EEOF => -5 | YXML_EREF => -4 | YXML_ECLOSE => -3 | YXML_ESTACK => -2
  | YXML_ESYN => -1 | YXML_OK => 0 | YXML_ELEMSTART => 1 | YXML_CONTENT => 2
  | YXML_ELEMEND => 3 | YXML_ATTRSTART => 4 | YXML_ATTRVAL => 5 | YXML_ATTREND => 6
  | YXML_PISTART => 7 | YXML_PICONTENT => 8 | YXML_PIEND => 9
  end.

#[export] Instance yxml_state_eq_dec : EqDecision yxml_state_t.
Proof. solve_decision. Defined.

#[export] Instance yxml_ret_eq_dec : EqDecision yxml_ret_t.
Proof. solve_decision. Defined.

Record yxml := mk_yxml {
  x_elem : nat;
  x_data : list Z;
  x_attr : nat;
  x_pi : nat;
  x_byte : Z;
  x_total : Z;
  x_line : Z;
  x_state : yxml_state_t;
  x_stack : list Z;
  x_stacksize : nat;
  x_stacklen : nat;
  x_reflen : nat;
  x_quote : Z;
  x_nextstate : yxml_state_t;
  x_ignore : Z;
  x_string : list Z
}.

(** Field updates. *)
Definition set_elem v x := mk_yxml v (x_data x) (x_attr x) (x_pi x) (x_byte x) (x_total x) (x_line x) (x_state x) (x_stack x) (x_stacksize x) (x_stacklen x) (x_reflen x) (x_quote x) (x_nextstate x) (x_ignore x) (x_string x).
Definition set_data v x := mk_yxml (x_elem x) v (x_attr x) (x_pi x) (x_byte x) (x_total x) (x_line x) (x_state x) (x_stack x) (x_stacksize x) (x_stacklen x) (x_reflen x) (x_quote x) (x_nextstate x) (x_ignore x) (x_string x).
Definition set_attr v x := mk_yxml (x_elem x) (x_data x) v (x_pi x) (x_byte x) (x_total x) (x_line x) (x_state x) (x_stack x) (x_stacksize x) (x_stacklen x) (x_reflen x) (x_quote x) (x_nextstate x) (x_ignore x) (x_string x).
Definition set_pi v x := mk_yxml (x_elem x) (x_data x) (x_attr x) v (x_byte x) (x_total x) (x_line x) (x_state x) (x_stack x) (x_stacksize x) (x_stacklen x) (x_reflen x) (x_quote x) (x_nextstate x) (x_ignore x) (x_string x).
Definition set_pos b t l x := mk_yxml (x_elem x) (x_data x) (x_attr x) (x_pi x) b t l (x_state x) (x_stack x) (x_stacksize x) (x_stacklen x) (x_reflen x) (x_quote x) (x_nextstate x) (x_ignore x) (x_string x).
Definition set_state v x := mk_yxml (x_elem x) (x_data x) (x_attr x) (x_pi x) (x_byte x) (x_total x) (x_line x) v (x_stack x) (x_stacksize x) (x_stacklen x) (x_reflen x) (x_quote x) (x_nextstate x) (x_ignore x) (x_string x).
Definition set_stack v n x := mk_yxml (x_elem x) (x_data x) (x_attr x) (x_pi x) (x_byte x) (x_total x) (x_line x) (x_state x) v (x_stacksize x) n (x_reflen x) (x_quote x) (x_nextstate x) (x_ignore x) (x_string x).
Definition set_reflen v x := mk_yxml (x_elem x) (x_data x) (x_attr x) (x_pi x) (x_byte x) (x_total x) (x_line x) (x_state x) (x_stack x) (x_stacksize x) (x_stacklen x) v (x_quote x) (x_nextstate x) (x_ignore x) (x_string x).
Definition set_quote v x := mk_yxml (x_elem x) (x_data x) (x_attr x) (x_pi x) (x_byte x) (x_total x) (x_line x) (x_state x) (x_stack x) (x_stacksize x) (x_stacklen x) (x_reflen x) v (x_nextstate x) (x_ignore x) (x_string x).
Definition set_nextstate v x := mk_yxml (x_elem x) (x_data x) (x_attr x) (x_pi x) (x_byte x) (x_total x) (x_line x) (x_state x) (x_stack x) (x_stacksize x) (x_stacklen x) (x_reflen x) (x_quote x) v (x_ignore x) (x_string x).
Definition set_ignore v x := mk_yxml (x_elem x) (x_data x) (x_attr x) (x_pi x) (x_byte x) (x_total x) (x_line x) (x_state x) (x_stack x) (x_stacksize x) (x_stacklen x) (x_reflen x) (x_quote x) (x_nextstate x) v (x_string x).
Definition set_string v x := mk_yxml (x_elem x) (x_data x) (x_attr x) (x_pi x) (x_byte x) (x_total x) (x_line x) (x_state x) (x_stack x) (x_stacksize x) (x_stacklen x) (x_reflen x) (x_quote x) (x_nextstate x) (x_ignore x) v.

(** A call: [None] when it would access memory outside its arrays. *)
Definition result : Type := option (yxml_ret_t * yxml).

Definition ret (r : yxml_ret_t) (x : yxml) : result := Some (r, x).

(** * Operations *)

(** ** Character classes; [ch] is an unsigned 32-bit value *)

Definition yxml_isChar (c : Z) : bool := true.
Definition yxml_isSP (c : Z) : bool := (c =? 0x20) || (c =? 0x09) || (c =? 0x0a).
Definition yxml_isAlpha (c : Z) : bool := u32 (Z.lor c 32 - 97) <? 26.
Definition yxml_isNum (c : Z) : bool := u32 (c - 48) <? 10.
Definition yxml_isHex (c : Z) : bool := yxml_isNum c || (u32 (Z.lor c 32 - 97) <? 6).
Definition yxml_isEncName (c : Z) : bool :=
  yxml_isAlpha c || yxml_isNum c || (c =? 46) || (c =? 95) || (c =? 45).
Definition yxml_isNameStart (c : Z) : bool :=
  yxml_isAlpha c || (c =? 58) || (c =? 95) || (128 <=? c).
Definition yxml_isName (c : Z) : bool :=
  yxml_isNameStart c || yxml_isNum c || (c =? 45) || (c =? 46).
Definition yxml_isAttValue (x : yxml) (c : Z) : bool :=
  yxml_isChar c && negb (c =? x_quote x) && negb (c =? 60) && negb (c =? 38).
Definition yxml_isRef (c : Z) : bool := yxml_isNum c || yxml_isAlpha c || (c =? 35).

(** ** Arrays *)

(** A checked store. *)
Definition store (a : list Z) (i : nat) (v : Z) : option (list Z) :=
  if (i <? length a)%nat then Some (<[i := v]> a) else None.

(** Stores of consecutive bytes from offset [i]. *)
Fixpoint stores (a : list Z) (i : nat) (vs : list Z) : option (list Z) :=
  match vs with
  | [] => Some a
  | v :: vs' => a' ← store a i v; stores a' (S i) vs'
  end.

(** [yxml_setchar] for each byte, then the terminator. *)
Definition setdata (x : yxml) (bs : list Z) (r : yxml_ret_t) : result :=
  d ← stores (x_data x) 0 (map u8 bs ++ [0]); ret r (set_data d x).

Definition utf8 (ch : Z) : list Z :=
  if ch <=? 0x7F then [ch]
  else if ch <=? 0x7FF then
    [Z.lor 0xC0 (Z.shiftr ch 6); Z.lor 0x80 (Z.land ch 0x3F)]
  else if ch <=? 0xFFFF then
    [Z.lor 0xE0 (Z.shiftr ch 12); Z.lor 0x80 (Z.land (Z.shiftr ch 6) 0x3F);
     Z.lor 0x80 (Z.land ch 0x3F)]
  else
    [Z.lor 0xF0 (Z.shiftr ch 18); Z.lor 0x80 (Z.land (Z.shiftr ch 12) 0x3F);
     Z.lor 0x80 (Z.land (Z.shiftr ch 6) 0x3F); Z.lor 0x80 (Z.land ch 0x3F)].

Definition yxml_setutf8 (x : yxml) (ch : Z) (r : yxml_ret_t) : result := setdata x (utf8 ch) r.

Definition yxml_datacontent x ch := setdata x [ch] YXML_CONTENT.
Definition yxml_datapi1 x ch := setdata x [ch] YXML_PICONTENT.
Definition yxml_datapi2 x ch := setdata x [63; ch] YXML_PICONTENT.
Definition yxml_datacd1 x ch := setdata x [93; ch] YXML_CONTENT.
Definition yxml_datacd2 x ch := setdata x [93; 93; ch] YXML_CONTENT.
Definition yxml_dataattr x ch :=
  setdata x [if (ch =? 0x9) || (ch =? 0xa) then 0x20 else ch] YXML_ATTRVAL.

(** ** The name stack *)

(** [yxml_pushstack]: [set_ptr] is the pointer variable [*res]. *)
Definition yxml_pushstack (set_ptr : nat -> yxml -> yxml) (x : yxml) (ch : Z) : result :=
  if (x_stacksize x <=? x_stacklen x + 2)%nat then ret YXML_ESTACK x
  else
    let n := S (x_stacklen x) in
    st ← store (x_stack x) n ch;
    st ← store st (S n) 0;
    ret YXML_OK (set_ptr n (set_stack st (S n) x)).

Definition yxml_pushstackc (x : yxml) (ch : Z) : result :=
  if (x_stacksize x <=? x_stacklen x + 1)%nat then ret YXML_ESTACK x
  else
    st ← store (x_stack x) (x_stacklen x) ch;
    st ← store st (S (x_stacklen x)) 0;
    ret YXML_OK (set_stack st (S (x_stacklen x)) x).

(** [do stacklen--; while (stack[stacklen]);]; decrementing 0 would wrap and
    read far outside. *)
Fixpoint pop_loop (stack : list Z) (stacklen : nat) : option nat :=
  match stacklen with
  | O => None
  | S n => c ← stack !! n; if c =? 0 then Some n else pop_loop stack n
  end.

Definition yxml_popstack (x : yxml) : option yxml :=
  n ← pop_loop (x_stack x) (x_stacklen x); Some (set_stack (x_stack x) n x).

(** [while ( *(elem-1)) elem--;] *)
Fixpoint elem_back (stack : list Z) (elem : nat) : option nat :=
  match elem with
  | O => None
  | S e => c ← stack !! e; if c =? 0 then Some elem else elem_back stack e
  end.

Definition yxml_elemstart (x : yxml) (ch : Z) : result := yxml_pushstack set_elem x ch.
Definition yxml_elemname (x : yxml) (ch : Z) : result := yxml_pushstackc x ch.
Definition yxml_elemnameend (x : yxml) (ch : Z) : result := ret YXML_ELEMSTART x.

Definition yxml_selfclose (x : yxml) (ch : Z) : result :=
  x ← yxml_popstack x;
  if negb (x_stacklen x =? 0)%nat then
    e ← elem_back (x_stack x) (x_stacklen x - 1);
    ret YXML_ELEMEND (set_elem e x)
  else ret YXML_ELEMEND (set_state YXMLS_misc3 (set_elem 0 x)).

Definition yxml_elemclose (x : yxml) (ch : Z) : result :=
  c ← x_stack x !! x_elem x;
  if negb (c =? ch) then ret YXML_ECLOSE x else ret YXML_OK (set_elem (S (x_elem x)) x).

Definition yxml_elemcloseend (x : yxml) (ch : Z) : result :=
  c ← x_stack x !! x_elem x;
  if negb (c =? 0) then ret YXML_ECLOSE x else yxml_selfclose x ch.

Definition yxml_attrstart (x : yxml) (ch : Z) : result := yxml_pushstack set_attr x ch.
Definition yxml_attrname (x : yxml) (ch : Z) : result := yxml_pushstackc x ch.
Definition yxml_attrnameend (x : yxml) (ch : Z) : result := ret YXML_ATTRSTART x.
Definition yxml_attrvalend (x : yxml) (ch : Z) : result :=
  x ← yxml_popstack x; ret YXML_ATTREND x.

Definition yxml_pistart (x : yxml) (ch : Z) : result := yxml_pushstack set_pi x ch.
Definition yxml_piname (x : yxml) (ch : Z) : result := yxml_pushstackc x ch.
Definition yxml_piabort (x : yxml) (ch : Z) : result :=
  x ← yxml_popstack x; ret YXML_OK x.

(** The target [xml], in any case, is an error; [&&] stops reading at the
    first difference. *)
Definition yxml_pinameend (x : yxml) (ch : Z) : result :=
  c0 ← x_stack x !! x_pi x;
  if negb (Z.lor c0 32 =? 120) then ret YXML_PISTART x
  else
    c1 ← x_stack x !! (x_pi x + 1)%nat;
    if negb (Z.lor c1 32 =? 109) then ret YXML_PISTART x
    else
      c2 ← x_stack x !! (x_pi x + 2)%nat;
      if negb (Z.lor c2 32 =? 108) then ret YXML_PISTART x
      else
        c3 ← x_stack x !! (x_pi x + 3)%nat;
        if c3 =? 0 then ret YXML_ESYN x else ret YXML_PISTART x.

Definition yxml_pivalend (x : yxml) (ch : Z) : result :=
  x ← yxml_popstack x; ret YXML_PIEND (set_pi 0 x).

(** ** References *)

Definition yxml_refstart (x : yxml) (ch : Z) : result :=
  ret YXML_OK (set_reflen 0 (set_data (replicate 8 0) x)).

Definition yxml_ref (x : yxml) (ch : Z) : result :=
  if (7 <=? x_reflen x)%nat then ret YXML_EREF x
  else
    d ← store (x_data x) (x_reflen x) (u8 ch);
    ret YXML_OK (set_reflen (S (x_reflen x)) (set_data d x)).

(** The two digit loops of [yxml_refend], from the rest [r] of [data]: the
    code point and the byte they stop at; [None] past the end of [data]. *)
Fixpoint ref_hex (r : list Z) (ch : Z) : option (Z * Z) :=
  match r with
  | [] => None
  | c :: r' =>
      if yxml_isHex c then
        ref_hex r' (u32 (u32 (Z.shiftl ch 4) + (if c <=? 57 then c - 48 else Z.lor c 32 - 97 + 10)))
      else Some (ch, c)
  end.

Fixpoint ref_dec (r : list Z) (ch : Z) : option (Z * Z) :=
  match r with
  | [] => None
  | c :: r' => if yxml_isNum c then ref_dec r' (u32 (ch * 10 + (c - 48))) else Some (ch, c)
  end.

Definition INTFROM5CHARS (a b c d e : Z) : Z :=
  Z.lor (Z.lor (Z.lor (Z.lor (Z.shiftl a 32) (Z.shiftl b 24)) (Z.shiftl c 16)) (Z.shiftl d 8)) e.

Definition ref_entity (r : list Z) : Z :=
  let i := INTFROM5CHARS (at_ r 0) (at_ r 1) (at_ r 2) (at_ r 3) (at_ r 4) in
  if i =? INTFROM5CHARS 108 116 0 0 0 then 60
  else if i =? INTFROM5CHARS 103 116 0 0 0 then 62
  else if i =? INTFROM5CHARS 97 109 112 0 0 then 38
  else if i =? INTFROM5CHARS 97 112 111 115 0 then 39
  else if i =? INTFROM5CHARS 113 117 111 116 0 then 34
  else 0.

Definition yxml_refend (x : yxml) (r : yxml_ret_t) : result :=
  let d := x_data x in
  ch ←
    (if at_ d 0 =? 35 then
       p ← (if at_ d 1 =? 120 then ref_hex (drop 2 d) 0 else ref_dec (drop 1 d) 0);
       Some (if truth (snd p) then 0 else fst p)
     else Some (ref_entity d));
  if (ch =? 0) || (0x10FFFF <? ch) || (ch =? 0xFFFE) || (ch =? 0xFFFF) ||
     (u32 (ch - 0xDFFF) <? 0x7FF)
  then ret YXML_EREF x
  else yxml_setutf8 x ch r.

Definition yxml_refcontent (x : yxml) (ch : Z) : result := yxml_refend x YXML_CONTENT.
Definition yxml_refattrval (x : yxml) (ch : Z) : result := yxml_refend x YXML_ATTRVAL.

(** ** The parser *)

(** [yxml_init] on the buffer [stack]. *)
Definition yxml_init (stack : list Z) : yxml :=
  {| x_elem := 0; x_data := replicate 8 0; x_attr := 0; x_pi := 0; x_byte := 0; x_total := 0;
     x_line := 1; x_state := YXMLS_init; x_stack := <[0%nat := 0]> stack;
     x_stacksize := length stack; x_stacklen := 0; x_reflen := 0; x_quote := 0;
     x_nextstate := YXMLS_string; x_ignore := 0; x_string := [] |}.

(** The cases of the [switch] of [yxml_parse], in groups of related states. *)

Definition yxml_parse_attr (x : yxml) (ch : Z) : result :=
  match x_state x with
  | YXMLS_string =>
      if ch =? deref (x_string x) then
        let x := set_string (tail (x_string x)) x in
        ret YXML_OK (if deref (x_string x) =? 0 then set_state (x_nextstate x) x else x)
      else ret YXML_ESYN x
  | YXMLS_attr0 =>
      if yxml_isName ch then yxml_attrname x ch
      else if yxml_isSP ch then yxml_attrnameend (set_state YXMLS_attr1 x) ch
      else if ch =? 61 then yxml_attrnameend (set_state YXMLS_attr2 x) ch
      else ret YXML_ESYN x
  | YXMLS_attr1 =>
      if yxml_isSP ch then ret YXML_OK x
      else if ch =? 61 then ret YXML_OK (set_state YXMLS_attr2 x)
      else ret YXML_ESYN x
  | YXMLS_attr2 =>
      if yxml_isSP ch then ret YXML_OK x
      else if (ch =? 39) || (ch =? 34) then ret YXML_OK (set_quote ch (set_state YXMLS_attr3 x))
      else ret YXML_ESYN x
  | YXMLS_attr3 =>
      if yxml_isAttValue x ch then yxml_dataattr x ch
      else if ch =? 38 then yxml_refstart (set_state YXMLS_attr4 x) ch
      else if x_quote x =? ch then yxml_attrvalend (set_state YXMLS_elem2 x) ch
      else ret YXML_ESYN x
  | YXMLS_attr4 =>
      if yxml_isRef ch then yxml_ref x ch
      else if ch =? 59 then yxml_refattrval (set_state YXMLS_attr3 x) ch
      else ret YXML_ESYN x
  | _ => ret YXML_ESYN x
  end.

Definition yxml_parse_cdata (x : yxml) (ch : Z) : result :=
  match x_state x with
  | YXMLS_cd0 =>
      if ch =? 93 then ret YXML_OK (set_state YXMLS_cd1 x)
      else if yxml_isChar ch then yxml_datacontent x ch
      else ret YXML_ESYN x
  | YXMLS_cd1 =>
      if ch =? 93 then ret YXML_OK (set_state YXMLS_cd2 x)
      else if yxml_isChar ch then yxml_datacd1 (set_state YXMLS_cd0 x) ch
      else ret YXML_ESYN x
  | YXMLS_cd2 =>
      if ch =? 93 then yxml_datacontent x ch
      else if ch =? 62 then ret YXML_OK (set_state YXMLS_misc2 x)
      else if yxml_isChar ch then yxml_datacd2 (set_state YXMLS_cd0 x) ch
      else ret YXML_ESYN x
  | YXMLS_comment0 =>
      if ch =? 45 then ret YXML_OK (set_state YXMLS_comment1 x)
      else ret YXML_ESYN x
  | YXMLS_comment1 =>
      if ch =? 45 then ret YXML_OK (set_state YXMLS_comment2 x)
      else ret YXML_ESYN x
  | YXMLS_comment2 =>
      if ch =? 45 then ret YXML_OK (set_state YXMLS_comment3 x)
      else if yxml_isChar ch then ret YXML_OK x
      else ret YXML_ESYN x
  | YXMLS_comment3 =>
      if ch =? 45 then ret YXML_OK (set_state YXMLS_comment4 x)
      else if yxml_isChar ch then ret YXML_OK (set_state YXMLS_comment2 x)
      else ret YXML_ESYN x
  | YXMLS_comment4 =>
      if ch =? 62 then ret YXML_OK (set_state (x_nextstate x) x)
      else ret YXML_ESYN x
  | _ => ret YXML_ESYN x
  end.

Definition yxml_parse_doctype (x : yxml) (ch : Z) : result :=
  match x_state x with
  | YXMLS_dt0 =>
      if ch =? 62 then ret YXML_OK (set_state YXMLS_misc1 x)
      else if (ch =? 39) || (ch =? 34) then
        ret YXML_OK (set_nextstate YXMLS_dt0 (set_quote ch (set_state YXMLS_dt1 x)))
      else if ch =? 60 then ret YXML_OK (set_state YXMLS_dt2 x)
      else if yxml_isChar ch then ret YXML_OK x
      else ret YXML_ESYN x
  | YXMLS_dt1 =>
      if x_quote x =? ch then ret YXML_OK (set_state (x_nextstate x) x)
      else if yxml_isChar ch then ret YXML_OK x
      else ret YXML_ESYN x
  | YXMLS_dt2 =>
      if ch =? 63 then ret YXML_OK (set_nextstate YXMLS_dt0 (set_state YXMLS_pi0 x))
      else if ch =? 33 then ret YXML_OK (set_state YXMLS_dt3 x)
      else ret YXML_ESYN x
  | YXMLS_dt3 =>
      if ch =? 45 then ret YXML_OK (set_nextstate YXMLS_dt0 (set_state YXMLS_comment1 x))
      else if yxml_isChar ch then ret YXML_OK (set_state YXMLS_dt4 x)
      else ret YXML_ESYN x
  | YXMLS_dt4 =>
      if (ch =? 39) || (ch =? 34) then
        ret YXML_OK (set_nextstate YXMLS_dt4 (set_quote ch (set_state YXMLS_dt1 x)))
      else if ch =? 62 then ret YXML_OK (set_state YXMLS_dt0 x)
      else if yxml_isChar ch then ret YXML_OK x
      else ret YXML_ESYN x
  | _ => ret YXML_ESYN x
  end.

Definition yxml_parse_elem (x : yxml) (ch : Z) : result :=
  match x_state x with
  | YXMLS_elem0 =>
      if yxml_isName ch then yxml_elemname x ch
      else if yxml_isSP ch then yxml_elemnameend (set_state YXMLS_elem1 x) ch
      else if ch =? 47 then yxml_elemnameend (set_state YXMLS_elem3 x) ch
      else if ch =? 62 then yxml_elemnameend (set_state YXMLS_misc2 x) ch
      else ret YXML_ESYN x
  | YXMLS_elem1 =>
      if yxml_isSP ch then ret YXML_OK x
      else if ch =? 47 then ret YXML_OK (set_state YXMLS_elem3 x)
      else if ch =? 62 then ret YXML_OK (set_state YXMLS_misc2 x)
      else if yxml_isNameStart ch then yxml_attrstart (set_state YXMLS_attr0 x) ch
      else ret YXML_ESYN x
  | YXMLS_elem2 =>
      if yxml_isSP ch then ret YXML_OK (set_state YXMLS_elem1 x)
      else if ch =? 47 then ret YXML_OK (set_state YXMLS_elem3 x)
      else if ch =? 62 then ret YXML_OK (set_state YXMLS_misc2 x)
      else ret YXML_ESYN x
  | YXMLS_elem3 =>
      if ch =? 62 then yxml_selfclose (set_state YXMLS_misc2 x) ch
      else ret YXML_ESYN x
  | _ => ret YXML_ESYN x
  end.

Definition yxml_parse_enc (x : yxml) (ch : Z) : result :=
  match x_state x with
  | YXMLS_enc0 =>
      if yxml_isSP ch then ret YXML_OK x
      else if ch =? 61 then ret YXML_OK (set_state YXMLS_enc1 x)
      else ret YXML_ESYN x
  | YXMLS_enc1 =>
      if yxml_isSP ch then ret YXML_OK x
      else if (ch =? 39) || (ch =? 34) then ret YXML_OK (set_quote ch (set_state YXMLS_enc2 x))
      else ret YXML_ESYN x
  | YXMLS_enc2 =>
      if yxml_isAlpha ch then ret YXML_OK (set_state YXMLS_enc3 x)
      else ret YXML_ESYN x
  | YXMLS_enc3 =>
      if yxml_isEncName ch then ret YXML_OK x
      else if x_quote x =? ch then ret YXML_OK (set_state YXMLS_xmldecl6 x)
      else ret YXML_ESYN x
  | _ => ret YXML_ESYN x
  end.

Definition yxml_parse_etag (x : yxml) (ch : Z) : result :=
  match x_state x with
  | YXMLS_etag0 =>
      if yxml_isNameStart ch then yxml_elemclose (set_state YXMLS_etag1 x) ch
      else ret YXML_ESYN x
  | YXMLS_etag1 =>
      if yxml_isName ch then yxml_elemclose x ch
      else if yxml_isSP ch then yxml_elemcloseend (set_state YXMLS_etag2 x) ch
      else if ch =? 62 then yxml_elemcloseend (set_state YXMLS_misc2 x) ch
      else ret YXML_ESYN x
  | YXMLS_etag2 =>
      if yxml_isSP ch then ret YXML_OK x
      else if ch =? 62 then ret YXML_OK (set_state YXMLS_misc2 x)
      else ret YXML_ESYN x
  | _ => ret YXML_ESYN x
  end.

Definition yxml_parse_markup (x : yxml) (ch : Z) : result :=
  match x_state x with
  | YXMLS_init =>
      if ch =? 239 then
        ret YXML_OK (set_string [187; 191] (set_nextstate YXMLS_misc0 (set_state YXMLS_string x)))
      else if yxml_isSP ch then ret YXML_OK (set_state YXMLS_misc0 x)
      else if ch =? 60 then ret YXML_OK (set_state YXMLS_le0 x)
      else ret YXML_ESYN x
  | YXMLS_le0 =>
      if ch =? 33 then ret YXML_OK (set_state YXMLS_lee1 x)
      else if ch =? 63 then ret YXML_OK (set_state YXMLS_leq0 x)
      else if yxml_isNameStart ch then yxml_elemstart (set_state YXMLS_elem0 x) ch
      else ret YXML_ESYN x
  | YXMLS_le1 =>
      if ch =? 33 then ret YXML_OK (set_state YXMLS_lee1 x)
      else if ch =? 63 then ret YXML_OK (set_nextstate YXMLS_misc1 (set_state YXMLS_pi0 x))
      else if yxml_isNameStart ch then yxml_elemstart (set_state YXMLS_elem0 x) ch
      else ret YXML_ESYN x
  | YXMLS_le2 =>
      if ch =? 33 then ret YXML_OK (set_state YXMLS_lee2 x)
      else if ch =? 63 then ret YXML_OK (set_nextstate YXMLS_misc2 (set_state YXMLS_pi0 x))
      else if ch =? 47 then ret YXML_OK (set_state YXMLS_etag0 x)
      else if yxml_isNameStart ch then yxml_elemstart (set_state YXMLS_elem0 x) ch
      else ret YXML_ESYN x
  | YXMLS_le3 =>
      if ch =? 33 then ret YXML_OK (set_nextstate YXMLS_misc3 (set_state YXMLS_comment0 x))
      else if ch =? 63 then ret YXML_OK (set_nextstate YXMLS_misc3 (set_state YXMLS_pi0 x))
      else ret YXML_ESYN x
  | YXMLS_lee1 =>
      if ch =? 45 then ret YXML_OK (set_nextstate YXMLS_misc1 (set_state YXMLS_comment1 x))
      else if ch =? 68 then
        ret YXML_OK (set_string (str "OCTYPE") (set_nextstate YXMLS_dt0 (set_state YXMLS_string x)))
      else ret YXML_ESYN x
  | YXMLS_lee2 =>
      if ch =? 45 then ret YXML_OK (set_nextstate YXMLS_misc2 (set_state YXMLS_comment1 x))
      else if ch =? 91 then
        ret YXML_OK (set_string (str "CDATA[") (set_nextstate YXMLS_cd0 (set_state YXMLS_string x)))
      else ret YXML_ESYN x
  | YXMLS_leq0 =>
      if ch =? 120 then yxml_pistart (set_nextstate YXMLS_misc1 (set_state YXMLS_xmldecl0 x)) ch
      else if yxml_isNameStart ch then
        yxml_pistart (set_nextstate YXMLS_misc1 (set_state YXMLS_pi1 x)) ch
      else ret YXML_ESYN x
  | _ => ret YXML_ESYN x
  end.

Definition yxml_parse_misc (x : yxml) (ch : Z) : result :=
  match x_state x with
  | YXMLS_misc0 =>
      if yxml_isSP ch then ret YXML_OK x
      else if ch =? 60 then ret YXML_OK (set_state YXMLS_le0 x)
      else ret YXML_ESYN x
  | YXMLS_misc1 =>
      if yxml_isSP ch then ret YXML_OK x
      else if ch =? 60 then ret YXML_OK (set_state YXMLS_le1 x)
      else ret YXML_ESYN x
  | YXMLS_misc2 =>
      if ch =? 60 then ret YXML_OK (set_state YXMLS_le2 x)
      else if ch =? 38 then yxml_refstart (set_state YXMLS_misc2a x) ch
      else if yxml_isChar ch then yxml_datacontent x ch
      else ret YXML_ESYN x
  | YXMLS_misc2a =>
      if yxml_isRef ch then yxml_ref x ch
      else if ch =? 59 then yxml_refcontent (set_state YXMLS_misc2 x) ch
      else ret YXML_ESYN x
  | YXMLS_misc3 =>
      if yxml_isSP ch then ret YXML_OK x
      else if ch =? 60 then ret YXML_OK (set_state YXMLS_le3 x)
      else ret YXML_ESYN x
  | _ => ret YXML_ESYN x
  end.

Definition yxml_parse_pi (x : yxml) (ch : Z) : result :=
  match x_state x with
  | YXMLS_pi0 =>
      if yxml_isNameStart ch then yxml_pistart (set_state YXMLS_pi1 x) ch
      else ret YXML_ESYN x
  | YXMLS_pi1 =>
      if yxml_isName ch then yxml_piname x ch
      else if ch =? 63 then yxml_pinameend (set_state YXMLS_pi4 x) ch
      else if yxml_isSP ch then yxml_pinameend (set_state YXMLS_pi2 x) ch
      else ret YXML_ESYN x
  | YXMLS_pi2 =>
      if ch =? 63 then ret YXML_OK (set_state YXMLS_pi3 x)
      else if yxml_isChar ch then yxml_datapi1 x ch
      else ret YXML_ESYN x
  | YXMLS_pi3 =>
      if ch =? 62 then yxml_pivalend (set_state (x_nextstate x) x) ch
      else if yxml_isChar ch then yxml_datapi2 (set_state YXMLS_pi2 x) ch
      else ret YXML_ESYN x
  | YXMLS_pi4 =>
      if ch =? 62 then yxml_pivalend (set_state (x_nextstate x) x) ch
      else ret YXML_ESYN x
  | _ => ret YXML_ESYN x
  end.

Definition yxml_parse_standalone (x : yxml) (ch : Z) : result :=
  match x_state x with
  | YXMLS_std0 =>
      if yxml_isSP ch then ret YXML_OK x
      else if ch =? 61 then ret YXML_OK (set_state YXMLS_std1 x)
      else ret YXML_ESYN x
  | YXMLS_std1 =>
      if yxml_isSP ch then ret YXML_OK x
      else if (ch =? 39) || (ch =? 34) then ret YXML_OK (set_quote ch (set_state YXMLS_std2 x))
      else ret YXML_ESYN x
  | YXMLS_std2 =>
      if ch =? 121 then
        ret YXML_OK (set_string (str "es") (set_nextstate YXMLS_std3 (set_state YXMLS_string x)))
      else if ch =? 110 then
        ret YXML_OK (set_string (str "o") (set_nextstate YXMLS_std3 (set_state YXMLS_string x)))
      else ret YXML_ESYN x
  | YXMLS_std3 =>
      if x_quote x =? ch then ret YXML_OK (set_state YXMLS_xmldecl8 x)
      else ret YXML_ESYN x
  | _ => ret YXML_ESYN x
  end.

Definition yxml_parse_version (x : yxml) (ch : Z) : result :=
  match x_state x with
  | YXMLS_ver0 =>
      if yxml_isSP ch then ret YXML_OK x
      else if ch =? 61 then ret YXML_OK (set_state YXMLS_ver1 x)
      else ret YXML_ESYN x
  | YXMLS_ver1 =>
      if yxml_isSP ch then ret YXML_OK x
      else if (ch =? 39) || (ch =? 34) then
        ret YXML_OK (set_string (str "1.") (set_nextstate YXMLS_ver2 (set_quote ch (set_state YXMLS_string x))))
      else ret YXML_ESYN x
  | YXMLS_ver2 =>
      if yxml_isNum ch then ret YXML_OK (set_state YXMLS_ver3 x)
      else ret YXML_ESYN x
  | YXMLS_ver3 =>
      if yxml_isNum ch then ret YXML_OK x
      else if x_quote x =? ch then ret YXML_OK (set_state YXMLS_xmldecl4 x)
      else ret YXML_ESYN x
  | _ => ret YXML_ESYN x
  end.

Definition yxml_parse_xmldecl (x : yxml) (ch : Z) : result :=
  match x_state x with
  | YXMLS_xmldecl0 =>
      if ch =? 109 then yxml_piname (set_state YXMLS_xmldecl1 x) ch
      else if yxml_isName ch then yxml_piname (set_state YXMLS_pi1 x) ch
      else if ch =? 63 then yxml_pinameend (set_state YXMLS_pi4 x) ch
      else if yxml_isSP ch then yxml_pinameend (set_state YXMLS_pi2 x) ch
      else ret YXML_ESYN x
  | YXMLS_xmldecl1 =>
      if ch =? 108 then yxml_piname (set_state YXMLS_xmldecl2 x) ch
      else if yxml_isName ch then yxml_piname (set_state YXMLS_pi1 x) ch
      else if ch =? 63 then yxml_pinameend (set_state YXMLS_pi4 x) ch
      else if yxml_isSP ch then yxml_pinameend (set_state YXMLS_pi2 x) ch
      else ret YXML_ESYN x
  | YXMLS_xmldecl2 =>
      if yxml_isSP ch then yxml_piabort (set_state YXMLS_xmldecl3 x) ch
      else if yxml_isName ch then yxml_piname (set_state YXMLS_pi1 x) ch
      else ret YXML_ESYN x
  | YXMLS_xmldecl3 =>
      if yxml_isSP ch then ret YXML_OK x
      else if ch =? 118 then
        ret YXML_OK (set_string (str "ersion") (set_nextstate YXMLS_ver0 (set_state YXMLS_string x)))
      else ret YXML_ESYN x
  | YXMLS_xmldecl4 =>
      if yxml_isSP ch then ret YXML_OK (set_state YXMLS_xmldecl5 x)
      else if ch =? 63 then ret YXML_OK (set_state YXMLS_xmldecl9 x)
      else ret YXML_ESYN x
  | YXMLS_xmldecl5 =>
      if yxml_isSP ch then ret YXML_OK x
      else if ch =? 63 then ret YXML_OK (set_state YXMLS_xmldecl9 x)
      else if ch =? 101 then
        ret YXML_OK (set_string (str "ncoding") (set_nextstate YXMLS_enc0 (set_state YXMLS_string x)))
      else if ch =? 115 then
        ret YXML_OK (set_string (str "tandalone") (set_nextstate YXMLS_std0 (set_state YXMLS_string x)))
      else ret YXML_ESYN x
  | YXMLS_xmldecl6 =>
      if yxml_isSP ch then ret YXML_OK (set_state YXMLS_xmldecl7 x)
      else if ch =? 63 then ret YXML_OK (set_state YXMLS_xmldecl9 x)
      else ret YXML_ESYN x
  | YXMLS_xmldecl7 =>
      if yxml_isSP ch then ret YXML_OK x
      else if ch =? 63 then ret YXML_OK (set_state YXMLS_xmldecl9 x)
      else if ch =? 115 then
        ret YXML_OK (set_string (str "tandalone") (set_nextstate YXMLS_std0 (set_state YXMLS_string x)))
      else ret YXML_ESYN x
  | YXMLS_xmldecl8 =>
      if yxml_isSP ch then ret YXML_OK x
      else if ch =? 63 then ret YXML_OK (set_state YXMLS_xmldecl9 x)
      else ret YXML_ESYN x
  | YXMLS_xmldecl9 =>
      if ch =? 62 then ret YXML_OK (set_state YXMLS_misc1 x)
      else ret YXML_ESYN x
  | _ => ret YXML_ESYN x
  end.

(** The [switch] on the state. *)
Definition yxml_switch (x : yxml) (ch : Z) : result :=
  match x_state x with
  | YXMLS_string | YXMLS_attr0 | YXMLS_attr1 | YXMLS_attr2 | YXMLS_attr3 | YXMLS_attr4 =>
    yxml_parse_attr x ch
  | YXMLS_cd0 | YXMLS_cd1 | YXMLS_cd2 | YXMLS_comment0 | YXMLS_comment1 | YXMLS_comment2 |
    YXMLS_comment3 | YXMLS_comment4 => yxml_parse_cdata x ch
  | YXMLS_dt0 | YXMLS_dt1 | YXMLS_dt2 | YXMLS_dt3 | YXMLS_dt4 => yxml_parse_doctype x ch
  | YXMLS_elem0 | YXMLS_elem1 | YXMLS_elem2 | YXMLS_elem3 => yxml_parse_elem x ch
  | YXMLS_enc0 | YXMLS_enc1 | YXMLS_enc2 | YXMLS_enc3 => yxml_parse_enc x ch
  | YXMLS_etag0 | YXMLS_etag1 | YXMLS_etag2 => yxml_parse_etag x ch
  | YXMLS_init | YXMLS_le0 | YXMLS_le1 | YXMLS_le2 | YXMLS_le3 | YXMLS_lee1 | YXMLS_lee2 |
    YXMLS_leq0 => yxml_parse_markup x ch
  | YXMLS_misc0 | YXMLS_misc1 | YXMLS_misc2 | YXMLS_misc2a | YXMLS_misc3 => yxml_parse_misc x ch
  | YXMLS_pi0 | YXMLS_pi1 | YXMLS_pi2 | YXMLS_pi3 | YXMLS_pi4 => yxml_parse_pi x ch
  | YXMLS_std0 | YXMLS_std1 | YXMLS_std2 | YXMLS_std3 => yxml_parse_standalone x ch
  | YXMLS_ver0 | YXMLS_ver1 | YXMLS_ver2 | YXMLS_ver3 => yxml_parse_version x ch
  | YXMLS_xmldecl0 | YXMLS_xmldecl1 | YXMLS_xmldecl2 | YXMLS_xmldecl3 | YXMLS_xmldecl4 |
    YXMLS_xmldecl5 | YXMLS_xmldecl6 | YXMLS_xmldecl7 | YXMLS_xmldecl8 | YXMLS_xmldecl9 =>
    yxml_parse_xmldecl x ch
  end.

Definition yxml_parse (x : yxml) (_ch : Z) : result :=
  let ch := Z.land (u32 (_ch + 256)) 0xff in
  if ch =? 0 then ret YXML_ESYN x
  else
    let x := set_pos (x_byte x) (u64 (x_total x + 1)) (x_line x) x in
    if x_ignore x =? ch then ret YXML_OK (set_ignore 0 x)
    else
      let x := set_ignore (if ch =? 0xd then 0xa else 0) x in
      let nl := (ch =? 0xa) || (ch =? 0xd) in
      let ch := if nl then 0xa else ch in
      let x := if nl then set_pos 0 (x_total x) (u32 (x_line x + 1)) x else x in
      let x := set_pos (u64 (x_byte x + 1)) (x_total x) (x_line x) x in
      yxml_switch x ch.

Definition yxml_eof (x : yxml) : yxml_ret_t :=
  if decide (x_state x = YXMLS_misc3) then YXML_OK else YXML_EEOF.

(** * The invariant *)

(** The stack buffer holds the open names, outermost first, each between NULs. *)
Fixpoint enc (names : list (list Z)) : list Z :=
  match names with
  | [] => [0]
  | n :: names' => enc names' ++ n ++ [0]
  end.

Definition name_ok (n : list Z) : Prop := n <> [] /\ nul_free n.

(** States in which an attribute or processing-instruction name is on top of
    the element names. *)
Definition name_open (s : yxml_state_t) : bool :=
  match s with
  | YXMLS_attr0 | YXMLS_attr1 | YXMLS_attr2 | YXMLS_attr3 | YXMLS_attr4
  | YXMLS_pi1 | YXMLS_pi2 | YXMLS_pi3 | YXMLS_pi4
  | YXMLS_xmldecl0 | YXMLS_xmldecl1 | YXMLS_xmldecl2 => true
  | _ => false
  end.

(** States in which the [pi] pointer is read. *)
Definition pi_named (s : yxml_state_t) : bool :=
  match s with
  | YXMLS_pi1 | YXMLS_pi2 | YXMLS_pi3 | YXMLS_pi4
  | YXMLS_xmldecl0 | YXMLS_xmldecl1 | YXMLS_xmldecl2 => true
  | _ => false
  end.

(** States inside an element. *)
Definition in_elem (s : yxml_state_t) : bool :=
  match s with
  | YXMLS_attr0 | YXMLS_attr1 | YXMLS_attr2 | YXMLS_attr3 | YXMLS_attr4
  | YXMLS_cd0 | YXMLS_cd1 | YXMLS_cd2
  | YXMLS_elem0 | YXMLS_elem1 | YXMLS_elem2 | YXMLS_elem3
  | YXMLS_etag0 | YXMLS_etag1 | YXMLS_etag2
  | YXMLS_le2 | YXMLS_lee2 | YXMLS_misc2 | YXMLS_misc2a => true
  | _ => false
  end.

(** States that will continue in [nextstate]. *)
Definition uses_next (s : yxml_state_t) : bool :=
  match s with
  | YXMLS_string | YXMLS_comment0 | YXMLS_comment1 | YXMLS_comment2 | YXMLS_comment3
  | YXMLS_comment4 | YXMLS_dt1 | YXMLS_pi0 | YXMLS_pi1 | YXMLS_pi2 | YXMLS_pi3 | YXMLS_pi4
  | YXMLS_xmldecl0 | YXMLS_xmldecl1 | YXMLS_xmldecl2 => true
  | _ => false
  end.

Definition in_ref (s : yxml_state_t) : bool :=
  match s with YXMLS_attr4 | YXMLS_misc2a => true | _ => false end.

(** The states [nextstate] may name while it is used. *)
Definition plain (s : yxml_state_t) : bool :=
  negb (name_open s) && negb (uses_next s) && negb (in_ref s).

(** What the control state requires: [opened] says whether a name is on top
    of the element names, [nested] whether there are element names. *)
Definition ctl_ok (s next : yxml_state_t) (opened nested : bool) : bool :=
  eqb (name_open s) opened &&
  (if in_elem s then nested else true) &&
  (if uses_next s then plain next && (if in_elem next then nested else true) else true).

Definition is_some {A} (o : option A) : bool := match o with Some _ => true | None => false end.
Definition nonempty {A} (l : list A) : bool := match l with [] => false | _ => true end.

(** The stack buffer holds exactly [names]. *)
Record stk (names : list (list Z)) (x : yxml) : Prop := {
  stk_size : length (x_stack x) = x_stacksize x;
  stk_len : (x_stacklen x < x_stacksize x)%nat;
  stk_enc : take (S (x_stacklen x)) (x_stack x) = enc names;
  stk_names : Forall name_ok names
}.

(** The memory part of the invariant, for the open attribute or
    processing-instruction name [o] and the element names [names]. *)
Record mem_ok (o : option (list Z)) (names : list (list Z)) (x : yxml) : Prop := {
  mo_stk : stk (option_list o ++ names) x;
  mo_data : length (x_data x) = 8%nat;
  mo_elem : (x_elem x < length (enc names))%nat
}.

(** The reference collected so far fits in [data] and is NUL-padded. *)
Definition ref_ok (x : yxml) : Prop :=
  (x_reflen x <= 7)%nat /\ drop (x_reflen x) (x_data x) = replicate (8 - x_reflen x) 0.

Record inv (x : yxml) : Prop := {
  inv_mem : exists o names, mem_ok o names x /\
            ctl_ok (x_state x) (x_nextstate x) (is_some o) (nonempty names) = true;
  inv_pi : pi_named (x_state x) = true -> (x_pi x <= x_stacklen x)%nat;
  inv_ref : in_ref (x_state x) = true -> ref_ok x
}.

(** A call that stays inside its arrays and, unless it reports an error,
    leaves the invariant. *)
Definition good (r : result) : Prop :=
  exists c x', r = Some (c, x') /\ (0 <= yxml_code c -> inv x').

(** * Facts *)

(** ** Checked stores *)

Lemma store_Some (a : list Z) (i : nat) (v : Z) :
  (i < length a)%nat -> store a i v = Some (<[i := v]> a).
Proof. intros H. unfold store. by destruct (Nat.ltb_spec i (length a)); [|lia]. Qed.

Lemma stores_Some (vs a : list Z) (i : nat) :
  (i + length vs <= length a)%nat -> exists a', stores a i vs = Some a' /\ length a' = length a.
Proof.
  revert a i; induction vs as [|v vs IH]; intros a i H; simpl in *; [eauto|].
  rewrite store_Some by lia. simpl.
  destruct (IH (<[i := v]> a) (S i)) as (a' & -> & L); [rewrite length_insert; lia|].
  exists a'. by rewrite length_insert in L.
Qed.

Lemma utf8_length (ch : Z) : (1 <= length (utf8 ch) <= 4)%nat.
Proof. unfold utf8. repeat case_match; simpl; lia. Qed.

(** ** The encoded stack *)

Lemma enc_length (names : list (list Z)) : (1 <= length (enc names))%nat.
Proof. destruct names; simpl; rewrite ?length_app; simpl; lia. Qed.

Lemma enc_last (names : list (list Z)) : exists l, enc names = l ++ [0].
Proof. destruct names as [|n names]; [by exists []|]. exists (enc names ++ n). by rewrite <- app_assoc. Qed.

Lemma enc_push (names : list (list Z)) (ch : Z) : enc ([ch] :: names) = enc names ++ [ch; 0].
Proof. done. Qed.

Lemma stk_enc_length names x : stk names x -> length (enc names) = S (x_stacklen x).
Proof.
  intros [Hs Hl He _]. rewrite <- He, length_take, Hs. lia.
Qed.

Lemma stk_split names x : stk names x -> exists junk, x_stack x = enc names ++ junk.
Proof. intros [_ _ He _]. exists (drop (S (x_stacklen x)) (x_stack x)). by rewrite <- He, take_drop. Qed.

(** The buffer in front of and including the top NUL. *)
Lemma stk_lookup names x (i : nat) :
  stk names x -> (i <= x_stacklen x)%nat -> exists c, x_stack x !! i = Some c /\ enc names !! i = Some c.
Proof.
  intros H Hi. pose proof (stk_enc_length _ _ H) as L.
  destruct (lookup_lt_is_Some_2 (enc names) i) as [c Ec]; [lia|]. exists c. split; [|done].
  destruct (stk_split _ _ H) as [junk ->]. by rewrite lookup_app_l by lia.
Qed.

Lemma stk_top_nul names x : stk names x -> x_stack x !! x_stacklen x = Some 0.
Proof.
  intros H. pose proof (stk_enc_length _ _ H) as L.
  destruct (stk_lookup _ _ (x_stacklen x) H) as (c & -> & Ec); [lia|].
  destruct (enc_last names) as [l El]. rewrite El in Ec, L. rewrite length_app in L. simpl in L.
  rewrite lookup_app_r in Ec by lia. by replace (x_stacklen x - length l)%nat with O in Ec by lia.
Qed.

Lemma pop_loop_enc (names : list (list Z)) (n suffix : list Z) (k : nat) :
  nul_free n -> (k <= length n)%nat ->
  pop_loop (enc names ++ n ++ suffix) (length (enc names) + k) = Some (length (enc names) - 1)%nat.
Proof.
  intros F Hk. destruct (enc_last names) as [l El].
  induction k as [|k IH].
  - rewrite El, Nat.add_0_r, length_app. simpl. rewrite Nat.add_1_r. cbn [pop_loop].
    rewrite <- !app_assoc, (lookup_app_r l) by lia. rewrite Nat.sub_diag. simpl.
    f_equal. lia.
  - rewrite Nat.add_succ_r. cbn [pop_loop].
    rewrite lookup_app_r by lia. replace (length (enc names) + k - length (enc names))%nat with k by lia.
    rewrite lookup_app_l by lia. destruct (lookup_lt_is_Some_2 n k) as [c Ec]; [lia|].
    rewrite Ec. simpl. assert (c <> 0) as Hc by (by eapply (Forall_lookup_1 _ _ _ _ F)).
    destruct (Z.eqb_spec c 0); [done|]. apply IH. lia.
Qed.

Lemma elem_back_enc (names : list (list Z)) (n suffix : list Z) (k : nat) :
  nul_free n -> (k <= length n)%nat ->
  elem_back (enc names ++ n ++ suffix) (length (enc names) + k) = Some (length (enc names)).
Proof.
  intros F Hk. destruct (enc_last names) as [l El].
  induction k as [|k IH].
  - rewrite El, Nat.add_0_r, length_app. simpl. rewrite Nat.add_1_r. cbn [elem_back].
    rewrite <- !app_assoc, (lookup_app_r l) by lia. by rewrite Nat.sub_diag.
  - rewrite Nat.add_succ_r. cbn [elem_back].
    rewrite lookup_app_r by lia. replace (length (enc names) + k - length (enc names))%nat with k by lia.
    rewrite lookup_app_l by lia. destruct (lookup_lt_is_Some_2 n k) as [c Ec]; [lia|].
    rewrite Ec. simpl. assert (c <> 0) as Hc by (by eapply (Forall_lookup_1 _ _ _ _ F)).
    destruct (Z.eqb_spec c 0); [done|]. apply IH. lia.
Qed.

(** ** The stack operations *)

Lemma stk_ext names x x' :
  x_stack x' = x_stack x -> x_stacksize x' = x_stacksize x -> x_stacklen x' = x_stacklen x ->
  stk names x -> stk names x'.
Proof. intros E1 E2 E3 []. split; congruence. Qed.

(** Two stores at the end of the used part replace what was there. *)
Lemma two_stores (a rest : list Z) (v w : Z) :
  (2 <= length rest)%nat ->
  <[S (length a) := w]> (<[length a := v]> (a ++ rest)) = a ++ [v; w] ++ drop 2 rest.
Proof.
  intros H. rewrite (insert_app_r_alt a rest), Nat.sub_diag, insert_app_r_alt by lia.
  replace (S (length a) - length a)%nat with 1%nat by lia.
  destruct rest as [|r0 [|r1 rest]]; simpl in *; try lia. done.
Qed.

Lemma stk_push names x (ch : Z) :
  stk names x -> ch <> 0 -> (x_stacklen x + 2 < x_stacksize x)%nat ->
  exists st,
    (st ← store (x_stack x) (S (x_stacklen x)) ch; store st (S (S (x_stacklen x))) 0) = Some st /\
    stk ([ch] :: names) (set_stack st (S (S (x_stacklen x))) x).
Proof.
  intros H Hch Hlen. destruct (stk_split _ _ H) as [junk E].
  pose proof (stk_enc_length _ _ H) as L. pose proof (stk_size _ _ H) as S1.
  assert (2 <= length junk)%nat as J by (rewrite E, length_app in S1; lia).
  eexists. split.
  - rewrite store_Some by lia. simpl. by rewrite store_Some by (rewrite length_insert; lia).
  - rewrite E, <- L, two_stores by done.
    split; cbn [x_stack x_stacksize x_stacklen set_stack].
    + rewrite <- S1, E, !length_app, length_drop. simpl. lia.
    + lia.
    + rewrite enc_push, app_assoc. apply take_app_length'. rewrite length_app. simpl. lia.
    + constructor; [|apply H]. split; [done|by repeat constructor].
Qed.

Lemma stk_pushc n names x (ch : Z) :
  stk (n :: names) x -> ch <> 0 -> (x_stacklen x + 1 < x_stacksize x)%nat ->
  exists st,
    (st ← store (x_stack x) (x_stacklen x) ch; store st (S (x_stacklen x)) 0) = Some st /\
    stk ((n ++ [ch]) :: names) (set_stack st (S (x_stacklen x)) x).
Proof.
  intros H Hch Hlen. destruct (stk_split _ _ H) as [junk E].
  pose proof (stk_enc_length _ _ H) as L. pose proof (stk_size _ _ H) as S1.
  simpl in E, L. rewrite <- !app_assoc in E. rewrite !length_app in L. simpl in L.
  assert (1 <= length junk)%nat as J by (rewrite E, !length_app in S1; simpl in S1; lia).
  assert (x_stacklen x = length (enc names ++ n)) as Ll by (rewrite length_app; lia).
  eexists. split.
  - rewrite store_Some by lia. simpl. by rewrite store_Some by (rewrite length_insert; lia).
  - rewrite E, Ll, app_assoc, two_stores by (simpl; lia).
    split; cbn [x_stack x_stacksize x_stacklen set_stack].
    + rewrite <- S1, E, !length_app, length_drop. simpl. lia.
    + lia.
    + replace ((enc names ++ n) ++ [ch; 0] ++ drop 2 ([0] ++ junk))
        with (enc ((n ++ [ch]) :: names) ++ drop 2 ([0] ++ junk)) by (simpl; by rewrite <- !app_assoc).
      apply take_app_length'. simpl. rewrite !length_app. simpl. lia.
    + pose proof (stk_names _ _ H) as N. apply Forall_cons in N as [[N1 N2] N3].
      constructor; [|done]. split; [by destruct n|]. apply Forall_app. split; [done|by repeat constructor].
Qed.

Lemma stk_pop n names x :
  stk (n :: names) x ->
  exists x', yxml_popstack x = Some x' /\ x' = set_stack (x_stack x) (length (enc names) - 1) x /\
             stk names x'.
Proof.
  intros H. destruct (stk_split _ _ H) as [junk E]. pose proof (stk_enc_length _ _ H) as L.
  simpl in E, L. rewrite <- !app_assoc in E. rewrite !length_app in L. simpl in L.
  pose proof (stk_names _ _ H) as N. apply Forall_cons in N as [[N1 N2] N3].
  pose proof (enc_length names). pose proof (stk_size _ _ H). pose proof (stk_len _ _ H).
  exists (set_stack (x_stack x) (length (enc names) - 1) x). split_and!; [|done|].
  - unfold yxml_popstack. replace (x_stacklen x) with (length (enc names) + length n)%nat by lia.
    rewrite E, pop_loop_enc by (done || lia). done.
  - split; cbn [x_stack x_stacksize x_stacklen set_stack]; [done|lia| |done].
    rewrite E. replace (S (length (enc names) - 1)) with (length (enc names)) by lia.
    by rewrite take_app_length.
Qed.

(** ** What each operation leaves *)

Lemma mem_ok_ext o names x x' :
  x_stack x' = x_stack x -> x_stacksize x' = x_stacksize x -> x_stacklen x' = x_stacklen x ->
  x_data x' = x_data x -> x_elem x' = x_elem x ->
  mem_ok o names x -> mem_ok o names x'.
Proof. intros E1 E2 E3 E4 E5 [? ? ?]. split; [by eapply stk_ext; [..|done]|congruence|by rewrite E5]. Qed.

Definition ctl (o : option (list Z)) (names : list (list Z)) (x : yxml) : Prop :=
  ctl_ok (x_state x) (x_nextstate x) (is_some o) (nonempty names) = true.

Definition side_ok (x : yxml) : Prop :=
  pi_named (x_state x) = true -> (x_pi x <= x_stacklen x)%nat.

Lemma good_err c x : yxml_code c < 0 -> good (ret c x).
Proof. intros H. exists c, x. split; [done|lia]. Qed.

Lemma good_ret c x o names :
  mem_ok o names x -> ctl o names x -> side_ok x -> (in_ref (x_state x) = true -> ref_ok x) ->
  good (ret c x).
Proof. intros Hm Hc Hp Hr. exists c, x. split; [done|]. intros _. split; eauto. Qed.

Lemma good_setdata x bs r o names :
  mem_ok o names x -> ctl o names x -> side_ok x -> in_ref (x_state x) = false ->
  (length bs <= 7)%nat -> good (setdata x bs r).
Proof.
  intros Hm Hc Hp Hr Hl. unfold setdata.
  destruct (stores_Some (map u8 bs ++ [0]) (x_data x) 0) as (d & -> & Ld).
  { rewrite (mo_data _ _ _ Hm), length_app, length_map. simpl. lia. }
  simpl. eapply (good_ret _ _ o names); [|done|done|simpl; by rewrite Hr].
  destruct Hm as [Hs Hd He]. split; [by apply (stk_ext _ x)|simpl; congruence|done].
Qed.

Lemma good_push set_ptr x (ch : Z) o o' names names' :
  (forall n y, x_stack (set_ptr n y) = x_stack y /\ x_stacksize (set_ptr n y) = x_stacksize y /\
     x_stacklen (set_ptr n y) = x_stacklen y /\ x_data (set_ptr n y) = x_data y /\
     x_state (set_ptr n y) = x_state y /\ x_nextstate (set_ptr n y) = x_nextstate y) ->
  (forall y, x_elem (set_ptr (length (enc (option_list o ++ names))) y) <
             length (enc names') \/
             x_elem (set_ptr (length (enc (option_list o ++ names))) y) = x_elem y /\
             names' = names)%nat ->
  (pi_named (x_state x) = true -> forall n y, x_pi (set_ptr n y) = n) ->
  mem_ok o names x -> ch <> 0 ->
  [ch] :: option_list o ++ names = option_list o' ++ names' ->
  ctl o' names' x -> in_ref (x_state x) = false ->
  good (yxml_pushstack set_ptr x ch).
Proof.
  intros Hset Hel Hpi Hm Hch Hn Hc Hr. unfold yxml_pushstack.
  destruct (Nat.leb_spec (x_stacksize x) (x_stacklen x + 2)); [by apply good_err|].
  destruct Hm as [Hs Hd He]. pose proof (stk_enc_length _ _ Hs) as L.
  destruct (stk_push _ _ ch Hs Hch) as (st & E & Hs'); [lia|].
  destruct (store (x_stack x) (S (x_stacklen x)) ch) as [st1|]; [|done]. simpl in E |- *.
  rewrite E. simpl.
  set (y := set_stack st (S (S (x_stacklen x))) x) in *.
  destruct (Hset (S (x_stacklen x)) y) as (E1 & E2 & E3 & E4 & E5 & E6).
  eapply (good_ret _ _ o' names').
  - split; [rewrite <- Hn; by eapply (stk_ext _ y)|by rewrite E4|].
    specialize (Hel y). rewrite L in Hel. destruct Hel as [Hel|[-> ->]]; [done|exact He].
  - unfold ctl. rewrite E5, E6. exact Hc.
  - unfold side_ok. rewrite E5. intros Hp. rewrite Hpi, E3 by done. simpl. lia.
  - rewrite E5. simpl. by rewrite Hr.
Qed.

Lemma good_elemstart x (ch : Z) names :
  mem_ok None names x -> ch <> 0 -> ctl None ([ch] :: names) x ->
  pi_named (x_state x) = false -> in_ref (x_state x) = false -> good (yxml_elemstart x ch).
Proof.
  intros Hm Hch Hc Hp Hr.
  apply (good_push set_elem x ch None None names ([ch] :: names)); try done.
  - intros y. left. simpl. rewrite !length_app. simpl. lia.
  - by rewrite Hp.
Qed.

Lemma good_attrstart x (ch : Z) names :
  mem_ok None names x -> ch <> 0 -> ctl (Some [ch]) names x ->
  pi_named (x_state x) = false -> in_ref (x_state x) = false -> good (yxml_attrstart x ch).
Proof.
  intros Hm Hch Hc Hp Hr.
  apply (good_push set_attr x ch None (Some [ch]) names names); try done.
  - intros y. by right.
  - by rewrite Hp.
Qed.

Lemma good_pistart x (ch : Z) names :
  mem_ok None names x -> ch <> 0 -> ctl (Some [ch]) names x ->
  in_ref (x_state x) = false -> good (yxml_pistart x ch).
Proof.
  intros Hm Hch Hc Hr.
  apply (good_push set_pi x ch None (Some [ch]) names names); try done.
  intros y. by right.
Qed.

(** A further byte of the name on top of the stack. *)
Lemma good_pushc x (ch : Z) o o' n rest names names' :
  mem_ok o names x -> ch <> 0 ->
  option_list o ++ names = n :: rest -> option_list o' ++ names' = (n ++ [ch]) :: rest ->
  (length (enc names) <= length (enc names'))%nat ->
  ctl o' names' x -> side_ok x -> in_ref (x_state x) = false -> good (yxml_pushstackc x ch).
Proof.
  intros Hm Hch E1 E2 Hle Hc Hp Hr. unfold yxml_pushstackc.
  destruct (Nat.leb_spec (x_stacksize x) (x_stacklen x + 1)); [by apply good_err|].
  destruct Hm as [Hs Hd He]. rewrite E1 in Hs.
  destruct (stk_pushc _ _ _ ch Hs Hch) as (st & E & Hs'); [lia|].
  destruct (store (x_stack x) (x_stacklen x) ch) as [st1|]; [|done]. simpl in E |- *.
  rewrite E. simpl. eapply (good_ret _ _ o' names'); try done.
  - split; [by rewrite E2|done|]. simpl. lia.
  - unfold side_ok in *. simpl. intros Hp'. specialize (Hp Hp'). lia.
  - simpl. by rewrite Hr.
Qed.

Lemma good_pushc_open x (ch : Z) n names :
  mem_ok (Some n) names x -> ch <> 0 -> ctl (Some (n ++ [ch])) names x -> side_ok x ->
  in_ref (x_state x) = false -> good (yxml_pushstackc x ch).
Proof. intros. by eapply (good_pushc x ch (Some n) (Some (n ++ [ch])) n names names names). Qed.

Lemma good_elemname x (ch : Z) n names :
  mem_ok None (n :: names) x -> ch <> 0 -> ctl None ((n ++ [ch]) :: names) x -> side_ok x ->
  in_ref (x_state x) = false -> good (yxml_elemname x ch).
Proof.
  intros. eapply (good_pushc x ch None None n names (n :: names) ((n ++ [ch]) :: names)); try done.
  simpl. rewrite !length_app. simpl. lia.
Qed.

(** The name on top is dropped at the end of an attribute or a processing
    instruction. *)
Lemma pop_open x n names :
  mem_ok (Some n) names x ->
  exists y, yxml_popstack x = Some y /\ mem_ok None names y /\
            x_state y = x_state x /\ x_nextstate y = x_nextstate x.
Proof.
  intros [Hs Hd He]. destruct (stk_pop _ _ _ Hs) as (y & E & Ey & Hs').
  exists y. split; [done|]. rewrite Ey in Hs' |- *. by split.
Qed.

Lemma good_selfclose x (ch : Z) n names :
  mem_ok None (n :: names) x -> ctl None (n :: names) x ->
  pi_named (x_state x) = false -> in_ref (x_state x) = false -> good (yxml_selfclose x ch).
Proof.
  intros [Hs Hd He] Hc Hp Hr. unfold yxml_selfclose.
  destruct (stk_pop _ _ _ Hs) as (y & -> & Ey & Hs'). simpl.
  pose proof (stk_enc_length _ _ Hs') as L.
  destruct (Nat.eqb_spec (x_stacklen y) 0) as [E0|E0]; cbn [negb].
  - destruct names as [|m names].
    + eapply (good_ret _ _ None []); [|done|done|done].
      split; [by apply (stk_ext _ y)|by rewrite Ey|simpl; lia].
    + simpl in L. pose proof (enc_length names). rewrite !length_app in L. simpl in L. lia.
  - destruct names as [|m names]; [simpl in L; lia|].
    destruct (stk_split _ _ Hs') as [junk Ej].
    pose proof (stk_names _ _ Hs') as N. apply Forall_cons in N as [[N1 N2] _].
    simpl in Ej, L. rewrite <- !app_assoc in Ej. rewrite !length_app in L. simpl in L.
    rewrite Ej. replace (x_stacklen y - 1)%nat with (length (enc names) + (length m - 1))%nat.
    2: { destruct m; [done|simpl in *; lia]. }
    rewrite elem_back_enc by (done || lia). simpl.
    eapply (good_ret _ _ None (m :: names)).
    + split; [by apply (stk_ext _ y)|by rewrite Ey|]. simpl. rewrite !length_app. simpl.
      destruct m; [done|simpl; lia].
    + unfold ctl in *. rewrite Ey. exact Hc.
    + unfold side_ok. rewrite Ey. simpl. by rewrite Hp.
    + rewrite Ey. simpl. by rewrite Hr.
Qed.

(** A byte of a closing tag, compared with the name it closes. *)
Lemma elem_lookup o names x :
  mem_ok o names x -> exists c, x_stack x !! x_elem x = Some c /\
    (c <> 0 -> (S (x_elem x) < length (enc names))%nat).
Proof.
  intros [Hs Hd He]. pose proof (stk_enc_length _ _ Hs) as L.
  assert (length (enc names) <= length (enc (option_list o ++ names)))%nat as Hle.
  { destruct o; simpl; rewrite ?length_app; lia. }
  destruct (stk_lookup _ _ (x_elem x) Hs) as (c & E1 & E2); [lia|].
  exists c. split; [done|]. intros Hc. destruct (enc_last names) as [l El].
  assert (enc names !! x_elem x = Some c) as E3.
  { destruct o; [|done]. simpl in E2. by rewrite lookup_app_l in E2 by done. }
  rewrite El in He, E3 |- *. rewrite length_app in He |- *. simpl in *.
  destruct (decide (x_elem x = length l)) as [Eq|]; [|lia].
  rewrite Eq, lookup_app_r, Nat.sub_diag in E3 by lia. simpl in E3. congruence.
Qed.

Lemma good_elemclose x (ch : Z) names :
  mem_ok None names x -> ch <> 0 -> ctl None names x -> side_ok x ->
  in_ref (x_state x) = false -> good (yxml_elemclose x ch).
Proof.
  intros Hm Hch Hc Hp Hr. unfold yxml_elemclose.
  destruct (elem_lookup _ _ _ Hm) as (c & -> & Hlt). simpl.
  destruct (Z.eqb_spec c ch) as [->|]; cbn [negb]; [|by apply good_err].
  eapply (good_ret _ _ None names); try done; [|by simpl; rewrite Hr].
  destruct Hm as [Hs Hd He]. split; [by apply (stk_ext _ x)|done|]. simpl. by apply Hlt.
Qed.

Lemma good_elemcloseend x (ch : Z) n names :
  mem_ok None (n :: names) x -> ctl None (n :: names) x ->
  pi_named (x_state x) = false -> in_ref (x_state x) = false -> good (yxml_elemcloseend x ch).
Proof.
  intros Hm Hc Hp Hr. unfold yxml_elemcloseend.
  destruct (elem_lookup _ _ _ Hm) as (c & -> & _). simpl.
  destruct (negb (c =? 0)); [by apply good_err|]. by eapply good_selfclose.
Qed.

Lemma good_pop_open x n names (f : yxml -> yxml) c :
  mem_ok (Some n) names x -> ctl None names x ->
  pi_named (x_state x) = false -> in_ref (x_state x) = false ->
  (forall y, mem_ok None names y -> mem_ok None names (f y)) ->
  (forall y, x_state (f y) = x_state y /\ x_nextstate (f y) = x_nextstate y) ->
  good (y ← yxml_popstack x; ret c (f y)).
Proof.
  intros Hm Hc Hp Hr Hf1 Hf2. destruct (pop_open _ _ _ Hm) as (y & -> & Hy & E1 & E2). simpl.
  destruct (Hf2 y) as [E3 E4].
  eapply (good_ret _ _ None names); [by apply Hf1| | |].
  - unfold ctl. by rewrite E3, E4, E1, E2.
  - unfold side_ok. by rewrite E3, E1, Hp.
  - by rewrite E3, E1, Hr.
Qed.

(** The four reads of the target of a processing instruction. *)
Lemma good_pinameend x (ch : Z) o names :
  mem_ok o names x -> ctl o names x -> side_ok x -> pi_named (x_state x) = true ->
  in_ref (x_state x) = false -> good (yxml_pinameend x ch).
Proof.
  intros Hm Hc Hp Hpi Hr. unfold yxml_pinameend. specialize (Hp Hpi) as Hle.
  assert (good (ret YXML_PISTART x)) as Hg by (eapply good_ret; eauto; by rewrite Hr).
  assert (forall i, (i <= x_stacklen x)%nat -> exists c, x_stack x !! i = Some c /\
            (c <> 0 -> (S i <= x_stacklen x)%nat)) as Read.
  { intros i Hi. destruct (stk_lookup _ _ i (mo_stk _ _ _ Hm) Hi) as (c & E & _).
    exists c. split; [done|]. intros Hne. destruct (decide (i = x_stacklen x)) as [->|]; [|lia].
    rewrite (stk_top_nul _ _ (mo_stk _ _ _ Hm)) in E. congruence. }
  assert (forall c k, Z.lor c 32 =? k = true -> k <> 32 -> c <> 0) as Hlor.
  { intros c k E Hk ->. apply Z.eqb_eq in E. by simpl in E. }
  destruct (Read (x_pi x) Hle) as (c0 & -> & H0). simpl.
  destruct (Z.lor c0 32 =? 120) eqn:E0; cbn [negb]; [|done].
  destruct (Read (x_pi x + 1)%nat) as (c1 & -> & H1); [apply Hlor in E0; lia|]. simpl.
  destruct (Z.lor c1 32 =? 109) eqn:E1; cbn [negb]; [|done].
  destruct (Read (x_pi x + 2)%nat) as (c2 & -> & H2); [apply Hlor in E1; lia|]. simpl.
  destruct (Z.lor c2 32 =? 108) eqn:E2; cbn [negb]; [|done].
  destruct (Read (x_pi x + 3)%nat) as (c3 & -> & _); [apply Hlor in E2; lia|]. simpl.
  destruct (c3 =? 0); [by apply good_err|done].
Qed.

(** ** References *)

Lemma good_refstart x (ch : Z) o names :
  mem_ok o names x -> ctl o names x -> side_ok x -> good (yxml_refstart x ch).
Proof.
  intros Hm Hc Hp. eapply (good_ret _ _ o names); try done.
  - destruct Hm as [Hs Hd He]. split; [by apply (stk_ext _ x)|done|done].
  - intros _. split; [simpl; lia|done].
Qed.

Lemma good_ref x (ch : Z) o names :
  mem_ok o names x -> ctl o names x -> side_ok x -> ref_ok x -> good (yxml_ref x ch).
Proof.
  intros Hm Hc Hp [Hl Hz]. unfold yxml_ref.
  destruct (Nat.leb_spec 7 (x_reflen x)); [by apply good_err|].
  pose proof (mo_data _ _ _ Hm) as Hd. rewrite store_Some by lia. simpl.
  eapply (good_ret _ _ o names); try done.
  - destruct Hm as [Hs _ He]. split; [by apply (stk_ext _ x)| |done]. simpl. by rewrite length_insert.
  - intros _. split; [simpl; lia|]. cbn [x_reflen x_data set_reflen set_data].
    rewrite drop_insert_lt by lia.
    replace (drop (S (x_reflen x)) (x_data x)) with (drop 1 (drop (x_reflen x) (x_data x)))
      by (rewrite drop_drop; f_equal; lia).
    rewrite Hz, drop_replicate. f_equal. lia.
Qed.

Lemma isHex_0 : yxml_isHex 0 = false. Proof. reflexivity. Qed.
Lemma isNum_0 : yxml_isNum 0 = false. Proof. reflexivity. Qed.

Lemma ref_hex_Some (r : list Z) (ch : Z) : terminated r -> is_Some (ref_hex r ch).
Proof.
  revert ch; induction r as [|c r IH]; intros ch H; [by apply not_elem_of_nil in H|].
  cbn [ref_hex]. destruct (yxml_isHex c) eqn:E; [|eauto].
  apply IH. apply elem_of_cons in H as [<-|H]; [by rewrite isHex_0 in E|done].
Qed.

Lemma ref_dec_Some (r : list Z) (ch : Z) : terminated r -> is_Some (ref_dec r ch).
Proof.
  revert ch; induction r as [|c r IH]; intros ch H; [by apply not_elem_of_nil in H|].
  cbn [ref_dec]. destruct (yxml_isNum c) eqn:E; [|eauto].
  apply IH. apply elem_of_cons in H as [<-|H]; [by rewrite isNum_0 in E|done].
Qed.

Lemma ref_terminated x (k : nat) :
  length (x_data x) = 8%nat -> ref_ok x -> (k <= 7)%nat -> terminated (drop k (x_data x)).
Proof.
  intros Hd [Hl Hz] Hk. unfold terminated.
  assert (x_data x !! 7%nat = Some 0) as E.
  { replace 7%nat with (x_reflen x + (7 - x_reflen x))%nat by lia.
    rewrite <- lookup_drop, Hz. apply lookup_replicate. lia. }
  apply list_elem_of_lookup. exists (7 - k)%nat. rewrite lookup_drop.
  by replace (k + (7 - k))%nat with 7%nat by lia.
Qed.

Lemma good_refend x r o names :
  mem_ok o names x -> ctl o names x -> side_ok x -> in_ref (x_state x) = false -> ref_ok x ->
  good (yxml_refend x r).
Proof.
  intros Hm Hc Hp Hr Href. unfold yxml_refend.
  pose proof (ref_terminated x 2 (mo_data _ _ _ Hm) Href) as T2.
  pose proof (ref_terminated x 1 (mo_data _ _ _ Hm) Href) as T1.
  assert (forall ch, good
    (if (ch =? 0) || (0x10FFFF <? ch) || (ch =? 0xFFFE) || (ch =? 0xFFFF) ||
        (u32 (ch - 0xDFFF) <? 0x7FF)
     then ret YXML_EREF x else yxml_setutf8 x ch r)) as Fin.
  { intros ch. destruct (_ || _); [by apply good_err|].
    eapply good_setdata; eauto. pose proof (utf8_length ch). lia. }
  destruct (at_ (x_data x) 0 =? 35); [|apply Fin].
  destruct (at_ (x_data x) 1 =? 120).
  - destruct (ref_hex_Some _ 0 (T2 ltac:(lia))) as [p ->]. apply Fin.
  - destruct (ref_dec_Some _ 0 (T1 ltac:(lia))) as [p ->]. apply Fin.
Qed.

(** ** Every state *)

(** A state that [nextstate] names while it is used needs nothing but the
    elements around it. *)
Lemma ctl_next (next : yxml_state_t) (nested : bool) :
  plain next && (if in_elem next then nested else true) = true ->
  (forall next', ctl_ok next next' false nested = true) /\
  pi_named next = false /\ in_ref next = false.
Proof. destruct next, nested; done. Qed.

(** Case analysis on the tests of a state, and one rule per operation. *)
Ltac fields :=
  cbn [x_state x_nextstate x_pi x_stacklen x_reflen x_data x_stack x_stacksize x_elem
       set_state set_nextstate set_quote set_string set_elem set_data set_pi set_attr].

Ltac mem_leaf :=
  match goal with
  | H : mem_ok ?o ?names ?x |- _ =>
      apply (mem_ok_ext o names x); [reflexivity|reflexivity|reflexivity|reflexivity|reflexivity|exact H]
  end.

Ltac ctl_leaf :=
  unfold ctl; fields;
  repeat match goal with E : x_state _ = _ |- _ => rewrite E end;
  first [ reflexivity | assumption
        | match goal with N : forall _, ctl_ok _ _ false _ = true |- _ => apply N end ].

Ltac side_leaf :=
  unfold side_ok; fields;
  repeat match goal with E : x_state _ = _ |- _ => rewrite E end;
  first [ assumption | discriminate | intros; congruence ].

Ltac ref_leaf :=
  fields; repeat match goal with E : x_state _ = _ |- _ => rewrite E end;
  first [ assumption | reflexivity | discriminate | intros; congruence ].

Ltac op_leaf :=
  unfold yxml_attrname, yxml_piname, yxml_datacontent, yxml_datapi1, yxml_datapi2, yxml_datacd1,
    yxml_datacd2, yxml_dataattr, yxml_elemnameend, yxml_attrnameend, yxml_attrvalend,
    yxml_piabort, yxml_pivalend, yxml_refcontent, yxml_refattrval;
  lazymatch goal with
  | |- good (ret YXML_ESYN _) => by apply good_err
  | |- good (ret _ _) => eapply good_ret; [mem_leaf|ctl_leaf|side_leaf|ref_leaf]
  | |- good (setdata _ _ _) =>
      eapply good_setdata; [mem_leaf|ctl_leaf|side_leaf|ref_leaf|simpl; lia]
  | |- good (yxml_elemstart _ _) =>
      eapply good_elemstart; [mem_leaf|done|ctl_leaf|ref_leaf|ref_leaf]
  | |- good (yxml_attrstart _ _) =>
      eapply good_attrstart; [mem_leaf|done|ctl_leaf|ref_leaf|ref_leaf]
  | |- good (yxml_pistart _ _) => eapply good_pistart; [mem_leaf|done|ctl_leaf|ref_leaf]
  | |- good (yxml_elemname _ _) =>
      eapply good_elemname; [mem_leaf|done|ctl_leaf|side_leaf|ref_leaf]
  | |- good (yxml_pushstackc _ _) =>
      eapply good_pushc_open; [mem_leaf|done|ctl_leaf|side_leaf|ref_leaf]
  | |- good (yxml_selfclose _ _) =>
      eapply good_selfclose; [mem_leaf|ctl_leaf|ref_leaf|ref_leaf]
  | |- good (yxml_elemclose _ _) =>
      eapply good_elemclose; [mem_leaf|done|ctl_leaf|side_leaf|ref_leaf]
  | |- good (yxml_elemcloseend _ _) =>
      eapply good_elemcloseend; [mem_leaf|ctl_leaf|ref_leaf|ref_leaf]
  | |- good (yxml_pinameend _ _) =>
      eapply good_pinameend; [mem_leaf|ctl_leaf|side_leaf|ref_leaf|ref_leaf]
  | |- good (yxml_refstart _ _) => eapply good_refstart; [mem_leaf|ctl_leaf|side_leaf]
  | |- good (yxml_ref _ _) => eapply good_ref; [mem_leaf|ctl_leaf|side_leaf|auto]
  | |- good (yxml_refend _ _) =>
      eapply good_refend; [mem_leaf|ctl_leaf|side_leaf|ref_leaf|auto]
  | |- good (yxml_popstack _ ≫= fun y => ret ?c (set_pi 0 y)) =>
      eapply (good_pop_open _ _ _ (set_pi 0) c);
      [mem_leaf|ctl_leaf|ref_leaf|ref_leaf|intros; mem_leaf|done]
  | |- good (yxml_popstack _ ≫= fun y => ret ?c y) =>
      eapply (good_pop_open _ _ _ (fun y => y) c);
      [mem_leaf|ctl_leaf|ref_leaf|ref_leaf|done|done]
  | |- _ => fail 1 "unhandled"
  end.

Ltac branches :=
  repeat match goal with
         | |- good (if ?b then _ else _) => destruct b eqn:?
         | |- good (ret _ (if ?b then _ else _)) => destruct b eqn:?
         end.

(** One state: read the requirements of the state off the invariant, then go
    through its branches. *)
Ltac state_case :=
  lazymatch goal with
  | St : x_state ?x = _, Hc : ctl ?o ?names ?x |- _ =>
      unfold ctl in Hc; rewrite St in Hc; cbn in Hc;
      destruct o as [top|]; cbn in Hc; try discriminate Hc;
      try (destruct names as [|name names]; [discriminate Hc|]; cbn in Hc);
      try (pose proof (ctl_next _ _ Hc) as (Hctl & Hnp & Hnr));
      branches; op_leaf
  end.

Ltac group :=
  match goal with
  | |- inv ?x -> _ =>
      intros [(o & names & Hm & Hc) Hpi Hrf] Hch; change (ctl o names x) in Hc
  end.

Lemma good_attr x ch : inv x -> ch <> 0 -> good (yxml_parse_attr x ch).
Proof.
  group. unfold yxml_parse_attr.
  destruct (x_state x) eqn:St; try by apply good_err.
  all: state_case.
Qed.

Lemma good_cdata x ch : inv x -> ch <> 0 -> good (yxml_parse_cdata x ch).
Proof.
  group. unfold yxml_parse_cdata.
  destruct (x_state x) eqn:St; try by apply good_err.
  all: state_case.
Qed.

Lemma good_doctype x ch : inv x -> ch <> 0 -> good (yxml_parse_doctype x ch).
Proof.
  group. unfold yxml_parse_doctype.
  destruct (x_state x) eqn:St; try by apply good_err.
  all: state_case.
Qed.

Lemma good_elem x ch : inv x -> ch <> 0 -> good (yxml_parse_elem x ch).
Proof.
  group. unfold yxml_parse_elem.
  destruct (x_state x) eqn:St; try by apply good_err.
  all: state_case.
Qed.

Lemma good_enc x ch : inv x -> ch <> 0 -> good (yxml_parse_enc x ch).
Proof.
  group. unfold yxml_parse_enc.
  destruct (x_state x) eqn:St; try by apply good_err.
  all: state_case.
Qed.

Lemma good_etag x ch : inv x -> ch <> 0 -> good (yxml_parse_etag x ch).
Proof.
  group. unfold yxml_parse_etag.
  destruct (x_state x) eqn:St; try by apply good_err.
  all: state_case.
Qed.

Lemma good_markup x ch : inv x -> ch <> 0 -> good (yxml_parse_markup x ch).
Proof.
  group. unfold yxml_parse_markup.
  destruct (x_state x) eqn:St; try by apply good_err.
  all: state_case.
Qed.

Lemma good_misc x ch : inv x -> ch <> 0 -> good (yxml_parse_misc x ch).
Proof.
  group. unfold yxml_parse_misc.
  destruct (x_state x) eqn:St; try by apply good_err.
  all: state_case.
Qed.

Lemma good_pi x ch : inv x -> ch <> 0 -> good (yxml_parse_pi x ch).
Proof.
  group. unfold yxml_parse_pi.
  destruct (x_state x) eqn:St; try by apply good_err.
  all: state_case.
Qed.

Lemma good_standalone x ch : inv x -> ch <> 0 -> good (yxml_parse_standalone x ch).
Proof.
  group. unfold yxml_parse_standalone.
  destruct (x_state x) eqn:St; try by apply good_err.
  all: state_case.
Qed.

Lemma good_version x ch : inv x -> ch <> 0 -> good (yxml_parse_version x ch).
Proof.
  group. unfold yxml_parse_version.
  destruct (x_state x) eqn:St; try by apply good_err.
  all: state_case.
Qed.

Lemma good_xmldecl x ch : inv x -> ch <> 0 -> good (yxml_parse_xmldecl x ch).
Proof.
  group. unfold yxml_parse_xmldecl.
  destruct (x_state x) eqn:St; try by apply good_err.
  all: state_case.
Qed.

Lemma good_switch x ch : inv x -> ch <> 0 -> good (yxml_switch x ch).
Proof.
  intros Hi Hch. unfold yxml_switch.
  destruct (x_state x);
    eauto using good_attr, good_cdata, good_doctype, good_elem, good_enc, good_etag, good_markup,
      good_misc, good_pi, good_standalone, good_version, good_xmldecl.
Qed.

(** The bookkeeping fields are not part of the invariant. *)
Lemma inv_ext x x' :
  x_stack x' = x_stack x -> x_stacksize x' = x_stacksize x -> x_stacklen x' = x_stacklen x ->
  x_data x' = x_data x -> x_elem x' = x_elem x -> x_state x' = x_state x ->
  x_nextstate x' = x_nextstate x -> x_pi x' = x_pi x -> x_reflen x' = x_reflen x ->
  inv x -> inv x'.
Proof.
  intros E1 E2 E3 E4 E5 E6 E7 E8 E9 [(o & names & Hm & Hc) Hp Hr]. split.
  - exists o, names. rewrite E6, E7. split; [|done]. by apply (mem_ok_ext o names x).
  - by rewrite E3, E6, E8.
  - unfold ref_ok. by rewrite E4, E6, E9.
Qed.

Lemma yxml_init_inv (stack : list Z) : stack <> [] -> inv (yxml_init stack).
Proof.
  intros Hs. split; [|done|done]. exists None, []. split; [|done].
  destruct stack as [|c stack]; [done|].
  split; [split|done|simpl; lia]; simpl; [done|lia|by rewrite take_0|constructor].
Qed.

Lemma good_parse x ch : inv x -> good (yxml_parse x ch).
Proof.
  intros Hi. unfold yxml_parse.
  destruct (Z.eqb_spec (Z.land (u32 (ch + 256)) 255) 0) as [|Hne]; [by apply good_err|].
  destruct (_ =? _).
  - eexists _, _. split; [done|]. intros _. by apply (inv_ext x).
  - apply good_switch.
    + destruct (_ || _); by apply (inv_ext x).
    + destruct (_ || _); done.
Qed.

(** * Whole inputs *)

(** The caller's loop: feed bytes until the first error; the tokens returned,
    the error if there was one, and the final state.  [None]: an access outside
    the arrays. *)
Fixpoint yxml_run (x : yxml) (bytes : list Z) : option (list yxml_ret_t * option yxml_ret_t * yxml) :=
  match bytes with
  | [] => Some ([], None, x)
  | b :: bytes' =>
      p ← yxml_parse x b;
      if yxml_code (fst p) <? 0 then Some ([], Some (fst p), snd p)
      else
        q ← yxml_run (snd p) bytes';
        Some (fst p :: fst (fst q), snd (fst q), snd q)
  end.

Lemma yxml_run_safe (bytes : list Z) (x : yxml) :
  inv x -> exists toks err x', yxml_run x bytes = Some (toks, err, x') /\ (err = None -> inv x').
Proof.
  revert x; induction bytes as [|b bytes IH]; intros x Hi; [by eexists _, _, _|].
  destruct (good_parse x b Hi) as (c & y & E & Hy). cbn [yxml_run]. rewrite E. simpl.
  destruct (Z.ltb_spec (yxml_code c) 0) as [Hc|Hc]; [by eexists _, _, _|].
  destruct (IH y (Hy Hc)) as (toks & err & x' & -> & Hx'). simpl. by eexists _, _, _.
Qed.

(** * Properties *)



(** Character references are validated against the wrong range: the test
    [(ch-0xDFFF) < 0x7FF] was meant to reject the surrogates D800-DFFF, but it
    accepts them (the reference D800 becomes three bytes that are not UTF-8)
    and rejects valid characters from E000 on. *)
Theorem yxml_surrogates_accepted :
  let x0 := yxml_init (replicate 16 0) in
  match yxml_run x0 (str "<a>&#xD800;"), yxml_run x0 (str "<a>&#xE000;") with
  | Some (_, None, x1), Some (_, Some e, _) =>
      cstr (x_data x1) = [0xED; 0xA0; 0x80] /\ e = YXML_EREF
  | _, _ => False
  end.
Proof. vm_compute. split; reflexivity. Qed.

(** A space before the closing bracket of the root's end tag, which XML
    allows, is a syntax error: the root is popped at the space and the parser
    is then in the state after the document. *)
Theorem yxml_root_close_space :
  let x0 := yxml_init (replicate 16 0) in
  match yxml_run x0 (str "<a></a>"), yxml_run x0 (str "<a></a >"), yxml_run x0 (str "<r><a></a ></r>") with
  | Some (_, None, x1), Some (_, Some e, _), Some (_, None, _) => yxml_eof x1 = YXML_OK /\ e = YXML_ESYN
  | _, _, _ => False
  end.
Proof. vm_compute. split; reflexivity. Qed.
