(* ===== verification/SlotMap.v ===== *)
(** Arrays of slots as finite maps.

    The server keeps its data in arrays whose elements have an [active] flag
    and a key.  The class [Slotted] states what such an element type offers;
    the theorems say that such an array implements a partial map from keys to
    elements, as long as no key is active twice.  The roster and the private
    storage are instances. *)

From Stdlib Require Import ZArith Lia Bool.
From stdpp Require Import base list numbers option sets.
From S2P Require Import Prelude.

Open Scope Z_scope.

(** A [for] loop that leaves with [break] at the first element with [p]: the
    index of that element. *)
Fixpoint first_index {A} (p : A -> bool) (l : list A) : option nat :=
  match l with
  | [] => None
  | x :: l' => if p x then Some O else S <$> first_index p l'
  end.

Lemma first_index_Some {A} (p : A -> bool) (l : list A) (i : nat) :
  first_index p l = Some i ->
  exists x, l !! i = Some x /\ p x = true /\ forall j y, (j < i)%nat -> l !! j = Some y -> p y = false.
Proof.
  revert i; induction l as [|x l IH]; intros i; simpl; [done|].
  destruct (p x) eqn:E; [intros [= <-]; exists x; split_and!; [done|done|lia]|].
  destruct (first_index p l) as [k|]; [|done]. intros [= <-].
  destruct (IH k eq_refl) as (y & H1 & H2 & H3). exists y. split_and!; [done|done|].
  intros [|j] z Hj Hz; simpl in Hz; [congruence|]. apply (H3 j z); [lia|done].
Qed.

Lemma first_index_None {A} (p : A -> bool) (l : list A) :
  first_index p l = None <-> forall i x, l !! i = Some x -> p x = false.
Proof.
  induction l as [|y l IH]; simpl; [done|]. destruct (p y) eqn:E.
  - split; [done|]. intros H. specialize (H O y eq_refl). congruence.
  - destruct (first_index p l) as [k|].
    + split; [done|]. intros H. exfalso.
      assert (None = Some k) as [=]; symmetry. apply IH. intros i x. apply (H (S i) x).
    + split; [|done]. intros _ [|i] x Hx; simpl in Hx; [congruence|]. by eapply (proj1 IH).
Qed.

Lemma first_index_ext {A} (p q : A -> bool) (l : list A) :
  (forall x, p x = q x) -> first_index p l = first_index q l.
Proof. intros H. induction l as [|x l IH]; simpl; [done|]. by rewrite H, IH. Qed.

Class Slotted (A K : Type) := {
  slot_active : A -> bool;
  slot_key : A -> K
}.

Section slots.
Context {A K : Type} `{!Slotted A K} `{!EqDecision K}.

Definition holds (k : K) (e : A) : bool := slot_active e && bool_decide (slot_key e = k).

(** The map an array stands for. *)
Definition get (l : list A) (k : K) : option A := i ← first_index (holds k) l; l !! i.

(** No key is active twice. *)
Definition unique (l : list A) : Prop :=
  forall i j a b, l !! i = Some a -> l !! j = Some b -> slot_active a = true ->
    slot_active b = true -> slot_key a = slot_key b -> i = j.

Lemma holds_spec k e : holds k e = true <-> slot_active e = true /\ slot_key e = k.
Proof. unfold holds. by rewrite andb_true_iff, bool_decide_eq_true. Qed.

Lemma get_Some l k e :
  unique l -> get l k = Some e <-> exists i, l !! i = Some e /\ slot_active e = true /\ slot_key e = k.
Proof.
  intros Hu. unfold get. split.
  - destruct (first_index (holds k) l) as [i|] eqn:E; [|done]. simpl. intros Hi.
    apply first_index_Some in E as (x & Hx & Hh & _). simplify_eq.
    apply holds_spec in Hh as [Ha Hk]. eauto.
  - intros (i & Hi & Ha & Hk). destruct (first_index (holds k) l) as [j|] eqn:E; simpl.
    + apply first_index_Some in E as (x & Hx & Hh & _). apply holds_spec in Hh as [Hax Hkx].
      assert (i = j) as -> by (eapply Hu; eauto; congruence). done.
    + rewrite first_index_None in E. specialize (E i e Hi).
      assert (holds k e = true) by (by apply holds_spec). congruence.
Qed.

Lemma get_None l k :
  get l k = None <-> first_index (holds k) l = None.
Proof.
  unfold get. destruct (first_index (holds k) l) as [i|] eqn:E; simpl; [|done].
  apply first_index_Some in E as (x & -> & _). done.
Qed.

Lemma get_ext l l' :
  unique l -> unique l' ->
  (forall k e, (exists i, l !! i = Some e /\ slot_active e = true /\ slot_key e = k) <->
               (exists i, l' !! i = Some e /\ slot_active e = true /\ slot_key e = k)) ->
  forall k, get l k = get l' k.
Proof.
  intros Hu Hu' H k. apply option_eq. intros e. rewrite !get_Some by done. apply H.
Qed.

(** Writing an active entry of key [k] to a slot that was free, or held [k],
    while no other slot holds [k]. *)
Lemma put_slot (f : A -> A) (l : list A) (i : nat) (e : A) (k : K) :
  unique l -> l !! i = Some e -> slot_active (f e) = true -> slot_key (f e) = k ->
  (holds k e = true \/ slot_active e = false /\ first_index (holds k) l = None) ->
  unique (alter f i l) /\
  forall k', get (alter f i l) k' = if decide (k' = k) then Some (f e) else get l k'.
Proof.
  intros Hu Hi Ha Hk Hslot.
  assert (forall j x, alter f i l !! j = Some x ->
            (j = i /\ x = f e) \/ (j <> i /\ l !! j = Some x)) as Hl.
  { intros j x Hx. destruct (decide (j = i)) as [->|Hne].
    - rewrite list_lookup_alter_eq, Hi in Hx. simplify_eq/=. by left.
    - rewrite list_lookup_alter_ne in Hx by done. by right. }
  assert (forall j x, j <> i -> l !! j = Some x -> slot_active x = true -> slot_key x <> k) as Hother.
  { intros j x Hne Hx Hax Hkx. destruct Hslot as [Hh|[_ Hnone]].
    - apply holds_spec in Hh as [Hae Hke]. apply Hne. eapply Hu; eauto. congruence.
    - rewrite first_index_None in Hnone. specialize (Hnone j x Hx).
      assert (holds k x = true) by (by apply holds_spec). congruence. }
  assert (unique (alter f i l)) as Hu'.
  { intros j1 j2 a b H1 H2 Ha1 Ha2 Hk12.
    destruct (Hl _ _ H1) as [[-> ->]|[N1 L1]], (Hl _ _ H2) as [[-> ->]|[N2 L2]]; [done| | |].
    - exfalso. eapply (Hother j2 b); eauto. congruence.
    - exfalso. eapply (Hother j1 a); eauto. congruence.
    - eapply Hu; eauto. }
  split; [done|]. intros k'. apply option_eq. intros x. rewrite get_Some by done.
  destruct (decide (k' = k)) as [->|Hkk].
  - split.
    + intros (j & Hx & Hax & Hkx). destruct (Hl _ _ Hx) as [[-> ->]|[N L]]; [done|].
      exfalso. by eapply (Hother j x).
    + intros [= <-]. exists i. split; [|done]. by rewrite list_lookup_alter_eq, Hi.
  - rewrite get_Some by done. split.
    + intros (j & Hx & Hax & Hkx). destruct (Hl _ _ Hx) as [[-> ->]|[N L]]; [congruence|]. eauto.
    + intros (j & Hx & Hax & Hkx). exists j. split; [|done].
      rewrite list_lookup_alter_ne; [done|]. intros ->. simplify_eq.
      destruct Hslot as [Hh|[Hf _]]; [|congruence]. apply holds_spec in Hh as [_ Hke]. congruence.
Qed.

(** Clearing the active flag of the slot that holds [k]. *)
Lemma clear_slot (f : A -> A) (l : list A) (i : nat) (k : K) :
  unique l -> first_index (holds k) l = Some i -> (forall e, slot_active (f e) = false) ->
  unique (alter f i l) /\
  forall k', get (alter f i l) k' = if decide (k' = k) then None else get l k'.
Proof.
  intros Hu Hi Hf. apply first_index_Some in Hi as (e & Hi & Hh & _).
  apply holds_spec in Hh as [Hae Hke].
  assert (forall j x, alter f i l !! j = Some x -> slot_active x = true -> j <> i /\ l !! j = Some x) as Hl.
  { intros j x Hx Hax. destruct (decide (j = i)) as [->|Hne].
    - rewrite list_lookup_alter_eq, Hi in Hx. simplify_eq/=. by rewrite Hf in Hax.
    - rewrite list_lookup_alter_ne in Hx by done. done. }
  assert (unique (alter f i l)) as Hu'.
  { intros j1 j2 a b H1 H2 Ha1 Ha2 Hk12.
    destruct (Hl _ _ H1 Ha1) as [_ L1], (Hl _ _ H2 Ha2) as [_ L2]. eapply Hu; eauto. }
  split; [done|]. intros k'. apply option_eq. intros x. rewrite get_Some by done.
  destruct (decide (k' = k)) as [->|Hkk].
  - split; [|done]. intros (j & Hx & Hax & Hkx). destruct (Hl _ _ Hx Hax) as [N L].
    exfalso. apply N. eapply Hu; eauto. congruence.
  - rewrite get_Some by done. split.
    + intros (j & Hx & Hax & Hkx). destruct (Hl _ _ Hx Hax) as [N L]. eauto.
    + intros (j & Hx & Hax & Hkx). exists j. split; [|done].
      rewrite list_lookup_alter_ne; [done|]. intros ->. simplify_eq.
Qed.

(** Changing one slot keeps the keys distinct when no other active slot has the
    new key. *)
Lemma unique_alter (f : A -> A) (l : list A) (i : nat) :
  unique l ->
  (forall e j b, l !! i = Some e -> slot_active (f e) = true -> j <> i -> l !! j = Some b ->
     slot_active b = true -> slot_key b <> slot_key (f e)) ->
  unique (alter f i l).
Proof.
  intros Hu Hf.
  assert (forall j x, alter f i l !! j = Some x ->
            (exists e, j = i /\ l !! i = Some e /\ x = f e) \/ (j <> i /\ l !! j = Some x)) as Hl.
  { intros j x Hx. destruct (decide (j = i)) as [->|Hne].
    - rewrite list_lookup_alter_eq in Hx. destruct (l !! i) as [e|]; simplify_eq/=. left. eauto.
    - rewrite list_lookup_alter_ne in Hx by done. by right. }
  intros j1 j2 a b H1 H2 Ha1 Ha2 Hk.
  destruct (Hl _ _ H1) as [(e1 & -> & L1 & ->)|[N1 L1]], (Hl _ _ H2) as [(e2 & -> & L2 & ->)|[N2 L2]].
  - done.
  - exfalso. by eapply (Hf e1 j2 b).
  - exfalso. by eapply (Hf e2 j1 a).
  - eapply Hu; eauto.
Qed.

Lemma unique_replicate n e : slot_active e = false -> unique (replicate n e).
Proof.
  intros He i j a b Hi _ Ha. apply lookup_replicate in Hi as [-> _]. congruence.
Qed.

End slots.
