(* ===== verification/XmppCore.v ===== *)
(** The server's data and its effects: src/xmpp/xmpp_core.h, the globals of the
    src/xmpp files, and [send_raw] (src/xmpp/xmpp_handlers.c).

    Every [struct] of xmpp_core.h is a record, a [char] array the list of its
    bytes.  The global variables are the fields of one record, [srv], and a
    handler is a function of the state monad [M] over it.  A pointer to an
    element of a global array is its index.

    What the server does to the outside is appended to the trace; what the
    outside answers comes from the class [Env]: the results of the TLS and
    disk calls, one per call, in the order the code makes them. *)

From Stdlib Require Import ZArith Lia String Ascii Bool.
From stdpp Require Import base list numbers option sets.
From S2P Require Import Prelude.
From S2P Require Import Libc.

Open Scope Z_scope.

(** * Constants *)

Definition MAX_ROOMS : nat := 4.
Definition MAX_USERS_PER_ROOM : nat := 8.
Definition MAX_USERS : nat := 20.
Definition MAX_BANNED_PER_ROOM : nat := 8.
Definition SASL_MAX_FAILURES : Z := 5.
Definition MAX_OFFLINE_MSGS : nat := 32.
Definition MAX_PENDING_SUBS : nat := 32.
Definition PRIVATE_STORAGE_SLOTS : nat := 20.
Definition MAX_ROSTER_ENTRIES : nat := 80.
Definition ROSTER_ITEM_MAX_LEN : nat := 256.
Definition XMPP_DOMAIN : list Z := str "angelic.local".
Definition RX_BUFFER_SIZE : nat := Z.to_nat 32768.

(** * Types *)

Inductive stanza_type_t :=
| XMPP_UNKNOWN | XMPP_IQ_GET | XMPP_IQ_SET | XMPP_IQ_RESULT | XMPP_IQ_ERROR | XMPP_MESSAGE
| XMPP_PRESENCE | XMPP_PRESENCE_UNAVAILABLE | XMPP_PRESENCE_SUBSCRIBE | XMPP_PRESENCE_SUBSCRIBED
| XMPP_PRESENCE_UNSUBSCRIBE | XMPP_PRESENCE_UNSUBSCRIBED | XMPP_PRESENCE_PROBE.

#[export] Instance stanza_type_eq_dec : EqDecision stanza_type_t.
Proof. solve_decision. Defined.

Inductive client_state_t :=
| STATE_CONNECTED | STATE_STARTTLS | STATE_SASL | STATE_AUTHENTICATED | STATE_BIND
| STATE_SESSION | STATE_READY.

#[export] Instance client_state_eq_dec : EqDecision client_state_t.
Proof. solve_decision. Defined.

(** The value of the enumeration constant, for the comparisons of states. *)
Definition state_num (s : client_state_t) : Z :=
  match s with
  | STATE_CONNECTED => 0 | STATE_STARTTLS => 1 | STATE_SASL => 2 | STATE_AUTHENTICATED => 3
  | STATE_BIND => 4 | STATE_SESSION => 5 | STATE_READY => 6
  end.

(** [s < t] *)
Definition state_lt (s t : client_state_t) : bool := state_num s <? state_num t.

(** A parsed stanza. *)
Record xmpp_stanza_t := mk_stanza {
  st_type : stanza_type_t;
  st_from : list Z;
  st_to : list Z;
  st_id : list Z;
  st_xmlns : list Z;
  st_payload : list Z;
  st_mechanism : list Z;
  st_is_used : Z
}.

Definition set_st_type (v : stanza_type_t) (x : xmpp_stanza_t) : xmpp_stanza_t :=
  mk_stanza v (st_from x) (st_to x) (st_id x) (st_xmlns x) (st_payload x) (st_mechanism x)
    (st_is_used x).
Definition set_st_from (v : list Z) (x : xmpp_stanza_t) : xmpp_stanza_t :=
  mk_stanza (st_type x) v (st_to x) (st_id x) (st_xmlns x) (st_payload x) (st_mechanism x)
    (st_is_used x).
Definition set_st_to (v : list Z) (x : xmpp_stanza_t) : xmpp_stanza_t :=
  mk_stanza (st_type x) (st_from x) v (st_id x) (st_xmlns x) (st_payload x) (st_mechanism x)
    (st_is_used x).
Definition set_st_id (v : list Z) (x : xmpp_stanza_t) : xmpp_stanza_t :=
  mk_stanza (st_type x) (st_from x) (st_to x) v (st_xmlns x) (st_payload x) (st_mechanism x)
    (st_is_used x).
Definition set_st_xmlns (v : list Z) (x : xmpp_stanza_t) : xmpp_stanza_t :=
  mk_stanza (st_type x) (st_from x) (st_to x) (st_id x) v (st_payload x) (st_mechanism x)
    (st_is_used x).
Definition set_st_payload (v : list Z) (x : xmpp_stanza_t) : xmpp_stanza_t :=
  mk_stanza (st_type x) (st_from x) (st_to x) (st_id x) (st_xmlns x) v (st_mechanism x)
    (st_is_used x).
Definition set_st_mechanism (v : list Z) (x : xmpp_stanza_t) : xmpp_stanza_t :=
  mk_stanza (st_type x) (st_from x) (st_to x) (st_id x) (st_xmlns x) (st_payload x) v
    (st_is_used x).
Definition set_st_is_used (v : Z) (x : xmpp_stanza_t) : xmpp_stanza_t :=
  mk_stanza (st_type x) (st_from x) (st_to x) (st_id x) (st_xmlns x) (st_payload x)
    (st_mechanism x) v.

(** A connection.  [pcb] is the lwIP control block, [None] for NULL; the mbedTLS
    context belongs to the library and is not part of the record. *)
Record xmpp_client_ctx_t := mk_client {
  pcb : option nat;
  state : client_state_t;
  full_jid : list Z;
  username : list Z;
  authenticated : Z;
  rx_buffer : list Z;
  rx_pos : Z;
  client_from : list Z;
  presence_payload : list Z;
  sasl_failures : Z;
  tls_rx_buf : list Z;
  tls_rx_len : Z;
  tls_rx_pos : Z;
  tls_established : Z;
  tls_initialised : Z;
  tls_want_write : Z;
  initial_presence_sent : Z;
  sm_enabled : Z;
  sm_want_ack : Z;
  sm_inbound_h : Z;
  sm_outbound_count : Z
}.

Definition set_pcb (v : option nat) (x : xmpp_client_ctx_t) : xmpp_client_ctx_t :=
  mk_client v (state x) (full_jid x) (username x) (authenticated x) (rx_buffer x) (rx_pos x)
    (client_from x) (presence_payload x) (sasl_failures x) (tls_rx_buf x) (tls_rx_len x)
    (tls_rx_pos x) (tls_established x) (tls_initialised x) (tls_want_write x)
    (initial_presence_sent x) (sm_enabled x) (sm_want_ack x) (sm_inbound_h x) (sm_outbound_count
    x).
Definition set_state (v : client_state_t) (x : xmpp_client_ctx_t) : xmpp_client_ctx_t :=
  mk_client (pcb x) v (full_jid x) (username x) (authenticated x) (rx_buffer x) (rx_pos x)
    (client_from x) (presence_payload x) (sasl_failures x) (tls_rx_buf x) (tls_rx_len x)
    (tls_rx_pos x) (tls_established x) (tls_initialised x) (tls_want_write x)
    (initial_presence_sent x) (sm_enabled x) (sm_want_ack x) (sm_inbound_h x) (sm_outbound_count
    x).
Definition set_full_jid (v : list Z) (x : xmpp_client_ctx_t) : xmpp_client_ctx_t :=
  mk_client (pcb x) (state x) v (username x) (authenticated x) (rx_buffer x) (rx_pos x)
    (client_from x) (presence_payload x) (sasl_failures x) (tls_rx_buf x) (tls_rx_len x)
    (tls_rx_pos x) (tls_established x) (tls_initialised x) (tls_want_write x)
    (initial_presence_sent x) (sm_enabled x) (sm_want_ack x) (sm_inbound_h x) (sm_outbound_count
    x).
Definition set_username (v : list Z) (x : xmpp_client_ctx_t) : xmpp_client_ctx_t :=
  mk_client (pcb x) (state x) (full_jid x) v (authenticated x) (rx_buffer x) (rx_pos x)
    (client_from x) (presence_payload x) (sasl_failures x) (tls_rx_buf x) (tls_rx_len x)
    (tls_rx_pos x) (tls_established x) (tls_initialised x) (tls_want_write x)
    (initial_presence_sent x) (sm_enabled x) (sm_want_ack x) (sm_inbound_h x) (sm_outbound_count
    x).
Definition set_authenticated (v : Z) (x : xmpp_client_ctx_t) : xmpp_client_ctx_t :=
  mk_client (pcb x) (state x) (full_jid x) (username x) v (rx_buffer x) (rx_pos x)
    (client_from x) (presence_payload x) (sasl_failures x) (tls_rx_buf x) (tls_rx_len x)
    (tls_rx_pos x) (tls_established x) (tls_initialised x) (tls_want_write x)
    (initial_presence_sent x) (sm_enabled x) (sm_want_ack x) (sm_inbound_h x) (sm_outbound_count
    x).
Definition set_rx_buffer (v : list Z) (x : xmpp_client_ctx_t) : xmpp_client_ctx_t :=
  mk_client (pcb x) (state x) (full_jid x) (username x) (authenticated x) v (rx_pos x)
    (client_from x) (presence_payload x) (sasl_failures x) (tls_rx_buf x) (tls_rx_len x)
    (tls_rx_pos x) (tls_established x) (tls_initialised x) (tls_want_write x)
    (initial_presence_sent x) (sm_enabled x) (sm_want_ack x) (sm_inbound_h x) (sm_outbound_count
    x).
Definition set_rx_pos (v : Z) (x : xmpp_client_ctx_t) : xmpp_client_ctx_t :=
  mk_client (pcb x) (state x) (full_jid x) (username x) (authenticated x) (rx_buffer x) v
    (client_from x) (presence_payload x) (sasl_failures x) (tls_rx_buf x) (tls_rx_len x)
    (tls_rx_pos x) (tls_established x) (tls_initialised x) (tls_want_write x)
    (initial_presence_sent x) (sm_enabled x) (sm_want_ack x) (sm_inbound_h x) (sm_outbound_count
    x).
Definition set_client_from (v : list Z) (x : xmpp_client_ctx_t) : xmpp_client_ctx_t :=
  mk_client (pcb x) (state x) (full_jid x) (username x) (authenticated x) (rx_buffer x)
    (rx_pos x) v (presence_payload x) (sasl_failures x) (tls_rx_buf x) (tls_rx_len x)
    (tls_rx_pos x) (tls_established x) (tls_initialised x) (tls_want_write x)
    (initial_presence_sent x) (sm_enabled x) (sm_want_ack x) (sm_inbound_h x) (sm_outbound_count
    x).
Definition set_presence_payload (v : list Z) (x : xmpp_client_ctx_t) : xmpp_client_ctx_t :=
  mk_client (pcb x) (state x) (full_jid x) (username x) (authenticated x) (rx_buffer x)
    (rx_pos x) (client_from x) v (sasl_failures x) (tls_rx_buf x) (tls_rx_len x) (tls_rx_pos x)
    (tls_established x) (tls_initialised x) (tls_want_write x) (initial_presence_sent x)
    (sm_enabled x) (sm_want_ack x) (sm_inbound_h x) (sm_outbound_count x).
Definition set_sasl_failures (v : Z) (x : xmpp_client_ctx_t) : xmpp_client_ctx_t :=
  mk_client (pcb x) (state x) (full_jid x) (username x) (authenticated x) (rx_buffer x)
    (rx_pos x) (client_from x) (presence_payload x) v (tls_rx_buf x) (tls_rx_len x) (tls_rx_pos
    x) (tls_established x) (tls_initialised x) (tls_want_write x) (initial_presence_sent x)
    (sm_enabled x) (sm_want_ack x) (sm_inbound_h x) (sm_outbound_count x).
Definition set_tls_rx_buf (v : list Z) (x : xmpp_client_ctx_t) : xmpp_client_ctx_t :=
  mk_client (pcb x) (state x) (full_jid x) (username x) (authenticated x) (rx_buffer x)
    (rx_pos x) (client_from x) (presence_payload x) (sasl_failures x) v (tls_rx_len x)
    (tls_rx_pos x) (tls_established x) (tls_initialised x) (tls_want_write x)
    (initial_presence_sent x) (sm_enabled x) (sm_want_ack x) (sm_inbound_h x) (sm_outbound_count
    x).
Definition set_tls_rx_len (v : Z) (x : xmpp_client_ctx_t) : xmpp_client_ctx_t :=
  mk_client (pcb x) (state x) (full_jid x) (username x) (authenticated x) (rx_buffer x)
    (rx_pos x) (client_from x) (presence_payload x) (sasl_failures x) (tls_rx_buf x) v
    (tls_rx_pos x) (tls_established x) (tls_initialised x) (tls_want_write x)
    (initial_presence_sent x) (sm_enabled x) (sm_want_ack x) (sm_inbound_h x) (sm_outbound_count
    x).
Definition set_tls_rx_pos (v : Z) (x : xmpp_client_ctx_t) : xmpp_client_ctx_t :=
  mk_client (pcb x) (state x) (full_jid x) (username x) (authenticated x) (rx_buffer x)
    (rx_pos x) (client_from x) (presence_payload x) (sasl_failures x) (tls_rx_buf x) (tls_rx_len
    x) v (tls_established x) (tls_initialised x) (tls_want_write x) (initial_presence_sent x)
    (sm_enabled x) (sm_want_ack x) (sm_inbound_h x) (sm_outbound_count x).
Definition set_tls_established (v : Z) (x : xmpp_client_ctx_t) : xmpp_client_ctx_t :=
  mk_client (pcb x) (state x) (full_jid x) (username x) (authenticated x) (rx_buffer x)
    (rx_pos x) (client_from x) (presence_payload x) (sasl_failures x) (tls_rx_buf x) (tls_rx_len
    x) (tls_rx_pos x) v (tls_initialised x) (tls_want_write x) (initial_presence_sent x)
    (sm_enabled x) (sm_want_ack x) (sm_inbound_h x) (sm_outbound_count x).
Definition set_tls_initialised (v : Z) (x : xmpp_client_ctx_t) : xmpp_client_ctx_t :=
  mk_client (pcb x) (state x) (full_jid x) (username x) (authenticated x) (rx_buffer x)
    (rx_pos x) (client_from x) (presence_payload x) (sasl_failures x) (tls_rx_buf x) (tls_rx_len
    x) (tls_rx_pos x) (tls_established x) v (tls_want_write x) (initial_presence_sent x)
    (sm_enabled x) (sm_want_ack x) (sm_inbound_h x) (sm_outbound_count x).
Definition set_tls_want_write (v : Z) (x : xmpp_client_ctx_t) : xmpp_client_ctx_t :=
  mk_client (pcb x) (state x) (full_jid x) (username x) (authenticated x) (rx_buffer x)
    (rx_pos x) (client_from x) (presence_payload x) (sasl_failures x) (tls_rx_buf x) (tls_rx_len
    x) (tls_rx_pos x) (tls_established x) (tls_initialised x) v (initial_presence_sent x)
    (sm_enabled x) (sm_want_ack x) (sm_inbound_h x) (sm_outbound_count x).
Definition set_initial_presence_sent (v : Z) (x : xmpp_client_ctx_t) : xmpp_client_ctx_t :=
  mk_client (pcb x) (state x) (full_jid x) (username x) (authenticated x) (rx_buffer x)
    (rx_pos x) (client_from x) (presence_payload x) (sasl_failures x) (tls_rx_buf x) (tls_rx_len
    x) (tls_rx_pos x) (tls_established x) (tls_initialised x) (tls_want_write x) v (sm_enabled
    x) (sm_want_ack x) (sm_inbound_h x) (sm_outbound_count x).
Definition set_sm_enabled (v : Z) (x : xmpp_client_ctx_t) : xmpp_client_ctx_t :=
  mk_client (pcb x) (state x) (full_jid x) (username x) (authenticated x) (rx_buffer x)
    (rx_pos x) (client_from x) (presence_payload x) (sasl_failures x) (tls_rx_buf x) (tls_rx_len
    x) (tls_rx_pos x) (tls_established x) (tls_initialised x) (tls_want_write x)
    (initial_presence_sent x) v (sm_want_ack x) (sm_inbound_h x) (sm_outbound_count x).
Definition set_sm_want_ack (v : Z) (x : xmpp_client_ctx_t) : xmpp_client_ctx_t :=
  mk_client (pcb x) (state x) (full_jid x) (username x) (authenticated x) (rx_buffer x)
    (rx_pos x) (client_from x) (presence_payload x) (sasl_failures x) (tls_rx_buf x) (tls_rx_len
    x) (tls_rx_pos x) (tls_established x) (tls_initialised x) (tls_want_write x)
    (initial_presence_sent x) (sm_enabled x) v (sm_inbound_h x) (sm_outbound_count x).
Definition set_sm_inbound_h (v : Z) (x : xmpp_client_ctx_t) : xmpp_client_ctx_t :=
  mk_client (pcb x) (state x) (full_jid x) (username x) (authenticated x) (rx_buffer x)
    (rx_pos x) (client_from x) (presence_payload x) (sasl_failures x) (tls_rx_buf x) (tls_rx_len
    x) (tls_rx_pos x) (tls_established x) (tls_initialised x) (tls_want_write x)
    (initial_presence_sent x) (sm_enabled x) (sm_want_ack x) v (sm_outbound_count x).
Definition set_sm_outbound_count (v : Z) (x : xmpp_client_ctx_t) : xmpp_client_ctx_t :=
  mk_client (pcb x) (state x) (full_jid x) (username x) (authenticated x) (rx_buffer x)
    (rx_pos x) (client_from x) (presence_payload x) (sasl_failures x) (tls_rx_buf x) (tls_rx_len
    x) (tls_rx_pos x) (tls_established x) (tls_initialised x) (tls_want_write x)
    (initial_presence_sent x) (sm_enabled x) (sm_want_ack x) (sm_inbound_h x) v.

(** An occupant of a room. *)
Record participant_t := mk_participant {
  pt_pcb : option nat;
  nick : list Z;
  pt_jid : list Z;
  pt_active : Z
}.

Definition set_pt_pcb (v : option nat) (x : participant_t) : participant_t :=
  mk_participant v (nick x) (pt_jid x) (pt_active x).
Definition set_nick (v : list Z) (x : participant_t) : participant_t :=
  mk_participant (pt_pcb x) v (pt_jid x) (pt_active x).
Definition set_pt_jid (v : list Z) (x : participant_t) : participant_t :=
  mk_participant (pt_pcb x) (nick x) v (pt_active x).
Definition set_pt_active (v : Z) (x : participant_t) : participant_t :=
  mk_participant (pt_pcb x) (nick x) (pt_jid x) v.

(** A chat room. *)
Record room_t := mk_room {
  room_name : list Z;
  users : list participant_t;
  creator_jid : list Z;
  semi_anon : Z;
  locked : Z;
  room_active : Z;
  persistent : Z;
  moderated : Z;
  members_only : Z;
  banned_jids : list (list Z);
  banned_count : Z;
  subject : list Z
}.

Definition set_room_name (v : list Z) (x : room_t) : room_t :=
  mk_room v (users x) (creator_jid x) (semi_anon x) (locked x) (room_active x) (persistent x)
    (moderated x) (members_only x) (banned_jids x) (banned_count x) (subject x).
Definition set_users (v : list participant_t) (x : room_t) : room_t :=
  mk_room (room_name x) v (creator_jid x) (semi_anon x) (locked x) (room_active x) (persistent
    x) (moderated x) (members_only x) (banned_jids x) (banned_count x) (subject x).
Definition set_creator_jid (v : list Z) (x : room_t) : room_t :=
  mk_room (room_name x) (users x) v (semi_anon x) (locked x) (room_active x) (persistent x)
    (moderated x) (members_only x) (banned_jids x) (banned_count x) (subject x).
Definition set_semi_anon (v : Z) (x : room_t) : room_t :=
  mk_room (room_name x) (users x) (creator_jid x) v (locked x) (room_active x) (persistent x)
    (moderated x) (members_only x) (banned_jids x) (banned_count x) (subject x).
Definition set_locked (v : Z) (x : room_t) : room_t :=
  mk_room (room_name x) (users x) (creator_jid x) (semi_anon x) v (room_active x) (persistent
    x) (moderated x) (members_only x) (banned_jids x) (banned_count x) (subject x).
Definition set_room_active (v : Z) (x : room_t) : room_t :=
  mk_room (room_name x) (users x) (creator_jid x) (semi_anon x) (locked x) v (persistent x)
    (moderated x) (members_only x) (banned_jids x) (banned_count x) (subject x).
Definition set_persistent (v : Z) (x : room_t) : room_t :=
  mk_room (room_name x) (users x) (creator_jid x) (semi_anon x) (locked x) (room_active x) v
    (moderated x) (members_only x) (banned_jids x) (banned_count x) (subject x).
Definition set_moderated (v : Z) (x : room_t) : room_t :=
  mk_room (room_name x) (users x) (creator_jid x) (semi_anon x) (locked x) (room_active x)
    (persistent x) v (members_only x) (banned_jids x) (banned_count x) (subject x).
Definition set_members_only (v : Z) (x : room_t) : room_t :=
  mk_room (room_name x) (users x) (creator_jid x) (semi_anon x) (locked x) (room_active x)
    (persistent x) (moderated x) v (banned_jids x) (banned_count x) (subject x).
Definition set_banned_jids (v : list (list Z)) (x : room_t) : room_t :=
  mk_room (room_name x) (users x) (creator_jid x) (semi_anon x) (locked x) (room_active x)
    (persistent x) (moderated x) (members_only x) v (banned_count x) (subject x).
Definition set_banned_count (v : Z) (x : room_t) : room_t :=
  mk_room (room_name x) (users x) (creator_jid x) (semi_anon x) (locked x) (room_active x)
    (persistent x) (moderated x) (members_only x) (banned_jids x) v (subject x).
Definition set_subject (v : list Z) (x : room_t) : room_t :=
  mk_room (room_name x) (users x) (creator_jid x) (semi_anon x) (locked x) (room_active x)
    (persistent x) (moderated x) (members_only x) (banned_jids x) (banned_count x) v.

(** A message kept for an absent user. *)
Record offline_msg_t := mk_offline {
  om_from : list Z;
  to_bare : list Z;
  om_to_user : list Z;
  om_id : list Z;
  om_payload : list Z;
  om_active : Z
}.

Definition set_om_from (v : list Z) (x : offline_msg_t) : offline_msg_t :=
  mk_offline v (to_bare x) (om_to_user x) (om_id x) (om_payload x) (om_active x).
Definition set_to_bare (v : list Z) (x : offline_msg_t) : offline_msg_t :=
  mk_offline (om_from x) v (om_to_user x) (om_id x) (om_payload x) (om_active x).
Definition set_om_to_user (v : list Z) (x : offline_msg_t) : offline_msg_t :=
  mk_offline (om_from x) (to_bare x) v (om_id x) (om_payload x) (om_active x).
Definition set_om_id (v : list Z) (x : offline_msg_t) : offline_msg_t :=
  mk_offline (om_from x) (to_bare x) (om_to_user x) v (om_payload x) (om_active x).
Definition set_om_payload (v : list Z) (x : offline_msg_t) : offline_msg_t :=
  mk_offline (om_from x) (to_bare x) (om_to_user x) (om_id x) v (om_active x).
Definition set_om_active (v : Z) (x : offline_msg_t) : offline_msg_t :=
  mk_offline (om_from x) (to_bare x) (om_to_user x) (om_id x) (om_payload x) v.

(** A subscription request kept for an absent user. *)
Record pending_sub_t := mk_pending {
  ps_type : list Z;
  ps_from : list Z;
  ps_to_user : list Z;
  ps_active : Z
}.

Definition set_ps_type (v : list Z) (x : pending_sub_t) : pending_sub_t :=
  mk_pending v (ps_from x) (ps_to_user x) (ps_active x).
Definition set_ps_from (v : list Z) (x : pending_sub_t) : pending_sub_t :=
  mk_pending (ps_type x) v (ps_to_user x) (ps_active x).
Definition set_ps_to_user (v : list Z) (x : pending_sub_t) : pending_sub_t :=
  mk_pending (ps_type x) (ps_from x) v (ps_active x).
Definition set_ps_active (v : Z) (x : pending_sub_t) : pending_sub_t :=
  mk_pending (ps_type x) (ps_from x) (ps_to_user x) v.

(** An entry of the private XML storage. *)
Record private_store_entry_t := mk_private {
  pv_username : list Z;
  ns : list Z;
  xml : list Z;
  pv_active : Z
}.

Definition set_pv_username (v : list Z) (x : private_store_entry_t) : private_store_entry_t :=
  mk_private v (ns x) (xml x) (pv_active x).
Definition set_ns (v : list Z) (x : private_store_entry_t) : private_store_entry_t :=
  mk_private (pv_username x) v (xml x) (pv_active x).
Definition set_xml (v : list Z) (x : private_store_entry_t) : private_store_entry_t :=
  mk_private (pv_username x) (ns x) v (pv_active x).
Definition set_pv_active (v : Z) (x : private_store_entry_t) : private_store_entry_t :=
  mk_private (pv_username x) (ns x) (xml x) v.

(** A roster item. *)
Record roster_entry_t := mk_roster {
  re_username : list Z;
  re_jid : list Z;
  item_xml : list Z;
  re_active : Z
}.

Definition set_re_username (v : list Z) (x : roster_entry_t) : roster_entry_t :=
  mk_roster v (re_jid x) (item_xml x) (re_active x).
Definition set_re_jid (v : list Z) (x : roster_entry_t) : roster_entry_t :=
  mk_roster (re_username x) v (item_xml x) (re_active x).
Definition set_item_xml (v : list Z) (x : roster_entry_t) : roster_entry_t :=
  mk_roster (re_username x) (re_jid x) v (re_active x).
Definition set_re_active (v : Z) (x : roster_entry_t) : roster_entry_t :=
  mk_roster (re_username x) (re_jid x) (item_xml x) v.

(** The all-zero values a [memset] leaves. *)
Definition zeros (n : nat) : list Z := replicate n 0.

#[global] Arguments zeros : simpl never.

Definition stanza0 : xmpp_stanza_t :=
  mk_stanza XMPP_UNKNOWN (zeros 64) (zeros 64) (zeros 64) (zeros 128) (zeros (Z.to_nat 4096)) (zeros 32) 0.
Definition client0 : xmpp_client_ctx_t :=
  mk_client None STATE_CONNECTED (zeros 64) (zeros 32) 0 (zeros RX_BUFFER_SIZE) 0 (zeros 64)
    (zeros (Z.to_nat 1024)) 0 (zeros RX_BUFFER_SIZE) 0 0 0 0 0 0 0 0 0 0.
Definition participant0 : participant_t := mk_participant None (zeros 32) (zeros 64) 0.
Definition room0 : room_t :=
  mk_room (zeros 32) (replicate MAX_USERS_PER_ROOM participant0) (zeros 64) 0 0 0 0 0 0
    (replicate MAX_BANNED_PER_ROOM (zeros 64)) 0 (zeros 256).
Definition offline0 : offline_msg_t :=
  mk_offline (zeros 64) (zeros 64) (zeros 32) (zeros 64) (zeros (Z.to_nat 1024)) 0.
Definition pending0 : pending_sub_t := mk_pending (zeros 16) (zeros 64) (zeros 32) 0.
Definition private0 : private_store_entry_t := mk_private (zeros 32) (zeros 128) (zeros (Z.to_nat 900)) 0.
Definition roster0 : roster_entry_t := mk_roster (zeros 32) (zeros 64) (zeros 256) 0.

(** * The world *)

(** What the server does to a connection; [i] is the index of its client. *)
Inductive event :=
| EvTls (i : nat) (data : list Z)      (** accepted by [mbedtls_ssl_write] *)
| EvTcp (p : option nat) (data : list Z)  (** given to [tcp_write] *)
| EvOutput (p : option nat)            (** [tcp_output] *)
| EvClose (p : option nat)             (** [tcp_close] *)
| EvCloseNotify (i : nat)              (** [mbedtls_ssl_close_notify] *)
| EvTlsFree (i : nat)                  (** [mbedtls_ssl_free] *)
| EvRecved (p : option nat) (n : Z)    (** [tcp_recved] *)
| EvPbufFree.                          (** [pbuf_free] of the received chain *)

(** The global variables, the disk, the answers of [rdrand] still to come, the
    number of external calls made and the events so far, latest last. *)
Record srv := mk_srv {
  client_registry : list xmpp_client_ctx_t;
  rooms : list room_t;
  roster_store : list roster_entry_t;
  roster_version : Z;
  offline_store : list offline_msg_t;
  pending_subs : list pending_sub_t;
  private_store : list private_store_entry_t;
  stanza_pool : list xmpp_stanza_t;
  disk : list Z;
  rng_g : rng;
  rdrands : rdrand;
  calls : nat;
  trace : list event
}.

Definition set_client_registry (v : list xmpp_client_ctx_t) (x : srv) : srv :=
  mk_srv v (rooms x) (roster_store x) (roster_version x) (offline_store x) (pending_subs x)
    (private_store x) (stanza_pool x) (disk x) (rng_g x) (rdrands x) (calls x) (trace x).
Definition set_rooms (v : list room_t) (x : srv) : srv :=
  mk_srv (client_registry x) v (roster_store x) (roster_version x) (offline_store x)
    (pending_subs x) (private_store x) (stanza_pool x) (disk x) (rng_g x) (rdrands x) (calls x)
    (trace x).
Definition set_roster_store (v : list roster_entry_t) (x : srv) : srv :=
  mk_srv (client_registry x) (rooms x) v (roster_version x) (offline_store x) (pending_subs x)
    (private_store x) (stanza_pool x) (disk x) (rng_g x) (rdrands x) (calls x) (trace x).
Definition set_roster_version (v : Z) (x : srv) : srv :=
  mk_srv (client_registry x) (rooms x) (roster_store x) v (offline_store x) (pending_subs x)
    (private_store x) (stanza_pool x) (disk x) (rng_g x) (rdrands x) (calls x) (trace x).
Definition set_offline_store (v : list offline_msg_t) (x : srv) : srv :=
  mk_srv (client_registry x) (rooms x) (roster_store x) (roster_version x) v (pending_subs x)
    (private_store x) (stanza_pool x) (disk x) (rng_g x) (rdrands x) (calls x) (trace x).
Definition set_pending_subs (v : list pending_sub_t) (x : srv) : srv :=
  mk_srv (client_registry x) (rooms x) (roster_store x) (roster_version x) (offline_store x) v
    (private_store x) (stanza_pool x) (disk x) (rng_g x) (rdrands x) (calls x) (trace x).
Definition set_private_store (v : list private_store_entry_t) (x : srv) : srv :=
  mk_srv (client_registry x) (rooms x) (roster_store x) (roster_version x) (offline_store x)
    (pending_subs x) v (stanza_pool x) (disk x) (rng_g x) (rdrands x) (calls x) (trace x).
Definition set_stanza_pool (v : list xmpp_stanza_t) (x : srv) : srv :=
  mk_srv (client_registry x) (rooms x) (roster_store x) (roster_version x) (offline_store x)
    (pending_subs x) (private_store x) v (disk x) (rng_g x) (rdrands x) (calls x) (trace x).
Definition set_disk (v : list Z) (x : srv) : srv :=
  mk_srv (client_registry x) (rooms x) (roster_store x) (roster_version x) (offline_store x)
    (pending_subs x) (private_store x) (stanza_pool x) v (rng_g x) (rdrands x) (calls x) (trace
    x).
Definition set_rng_g (v : rng) (x : srv) : srv :=
  mk_srv (client_registry x) (rooms x) (roster_store x) (roster_version x) (offline_store x)
    (pending_subs x) (private_store x) (stanza_pool x) (disk x) v (rdrands x) (calls x) (trace
    x).
Definition set_rdrands (v : rdrand) (x : srv) : srv :=
  mk_srv (client_registry x) (rooms x) (roster_store x) (roster_version x) (offline_store x)
    (pending_subs x) (private_store x) (stanza_pool x) (disk x) (rng_g x) v (calls x) (trace x).
Definition set_calls (v : nat) (x : srv) : srv :=
  mk_srv (client_registry x) (rooms x) (roster_store x) (roster_version x) (offline_store x)
    (pending_subs x) (private_store x) (stanza_pool x) (disk x) (rng_g x) (rdrands x) v (trace
    x).
Definition set_trace (v : list event) (x : srv) : srv :=
  mk_srv (client_registry x) (rooms x) (roster_store x) (roster_version x) (offline_store x)
    (pending_subs x) (private_store x) (stanza_pool x) (disk x) (rng_g x) (rdrands x) (calls x)
    v.

(** * External code

    The code behind these calls is not part of the kernel's sources: mbedTLS
    and the disk hardware.  Each field gives the answer to the [n]-th external
    call. *)
Class Env := {
  (** [mbedtls_ssl_write] on client [i]: the number of bytes taken or an error *)
  ssl_write : nat -> nat -> list Z -> Z;
  (** the result of a disk transfer, 0 for success *)
  disk_result : nat -> Z;
  (** what a failed transfer leaves on the disk *)
  disk_torn : nat -> list Z -> list Z;
  (** [mbedtls_ssl_setup] and friends in [xmpp_tls_client_init], 0 for success *)
  tls_setup : nat -> Z;
  (** during a handshake or read: the sizes the library asks its receive
      callback for, and the records it hands to its send callback *)
  ssl_pulls : nat -> list nat;
  ssl_pushes : nat -> list (list Z);
  (** the result of [tcp_write] in the send callback, 0 for [ERR_OK] *)
  tcp_write_result : nat -> Z;
  (** the result of [mbedtls_ssl_handshake] *)
  ssl_handshake : nat -> Z;
  (** the result of [mbedtls_ssl_read] and the bytes it decrypted *)
  ssl_read : nat -> Z * list Z;
  (** the address of the static state of [secure_random_u32] *)
  rng_addr : Z;
  (** what an uninitialised local array of the given size happens to hold *)
  uninit : nat -> list Z;
  (** the feature word [cpuid] leaves in ECX for leaf 1 *)
  cpuid_ecx : Z
}.

(** What the documentation of [mbedtls_ssl_write] promises: it never takes more
    bytes than it was given. *)
Definition ssl_write_ok `{Env} : Prop :=
  forall n i data, ssl_write n i data <= Z.of_nat (length data).

(** * The monad *)

Definition M (A : Type) : Type := srv -> A * srv.

#[export] Instance M_ret : MRet M := fun A a s => (a, s).
#[export] Instance M_bind : MBind M := fun A B f m s => let '(a, s') := m s in f a s'.

Definition gets {A} (f : srv -> A) : M A := fun s => (f s, s).
Definition modify (f : srv -> srv) : M unit := fun s => (tt, f s).
Definition skip : M unit := mret tt.

Definition when (b : bool) (m : M unit) : M unit := if b then m else skip.

(** [for (i = 0; i < n; i++) body]; [loop_from] starts at [i]. *)
Fixpoint loop_from (i n : nat) (body : nat -> M unit) : M unit :=
  match n with
  | O => skip
  | S n' => body i ;; loop_from (S i) n' body
  end.

Definition loop (n : nat) (body : nat -> M unit) : M unit := loop_from 0 n body.

(** A loop that carries a local variable. *)
Fixpoint loop_acc_from {A} (i n : nat) (body : nat -> A -> M A) (a : A) : M A :=
  match n with
  | O => mret a
  | S n' => a ← body i a; loop_acc_from (S i) n' body a
  end.

Definition loop_acc {A} (n : nat) (body : nat -> A -> M A) (a : A) : M A := loop_acc_from 0 n body a.

(** The number of an external call. *)
Definition call : M nat := n ← gets calls; modify (set_calls (S n)) ;; mret n.

Definition emit (e : event) : M unit := modify (fun s => set_trace (trace s ++ [e]) s).

(** ** Connections *)

Definition client_of (s : srv) (i : nat) : xmpp_client_ctx_t := default client0 (client_registry s !! i).

Definition client (i : nat) : M xmpp_client_ctx_t := gets (fun s => client_of s i).

Definition upd_client (i : nat) (f : xmpp_client_ctx_t -> xmpp_client_ctx_t) : M unit :=
  modify (fun s => set_client_registry (alter f i (client_registry s)) s).

(** [secure_random_u32] on the globals. *)
Definition random_u32 `{Env} : M Z := fun s =>
  let '(v, g, rd) := secure_random_u32 rng_addr (rng_g s) (rdrands s) in
  (v, set_rdrands rd (set_rng_g g s)).

(** * Sending *)

Definition MBEDTLS_ERR_SSL_WANT_READ : Z := -0x6900.
Definition MBEDTLS_ERR_SSL_WANT_WRITE : Z := -0x6880.
Definition SM_ACK_INTERVAL : Z := 10.

(** [xmpp_sm_on_stanza_sent] (src/xmpp/xmpp_sm.c). *)
Definition xmpp_sm_on_stanza_sent (ctx : nat) : M unit :=
  c ← client ctx;
  if sm_enabled c =? 0 then skip
  else
    upd_client ctx (set_sm_outbound_count (u32 (sm_outbound_count c + 1))) ;;
    c ← client ctx;
    when (sm_outbound_count c mod SM_ACK_INTERVAL =? 0) (upd_client ctx (set_sm_want_ack 1)).

(** One call of [mbedtls_ssl_write]. *)
Definition ssl_write_call `{Env} (ctx : nat) (p : list Z) : M Z :=
  n ← call;
  let written := ssl_write n ctx p in
  when (0 <? written) (emit (EvTls ctx (take (Z.to_nat written) p))) ;;
  mret written.

(** Whether a pointer is not NULL. *)
Definition is_Some_b {A} (o : option A) : bool := match o with Some _ => true | None => false end.

Definition output (ctx : nat) : M unit :=
  c ← client ctx; when (is_Some_b (pcb c)) (emit (EvOutput (pcb c))).

(** The sending loop; every round takes at least one byte, so the length of
    the data is enough fuel. *)
Fixpoint tls_send `{Env} (fuel : nat) (ctx : nat) (p : list Z) : M unit :=
  match fuel, p with
  | O, _ | _, [] => skip
  | S fuel', _ =>
      written ← ssl_write_call ctx p;
      if (written =? MBEDTLS_ERR_SSL_WANT_WRITE) || (written =? MBEDTLS_ERR_SSL_WANT_READ) then
        output ctx ;;
        written ← ssl_write_call ctx p;
        if written <=? 0 then skip else tls_send fuel' ctx (drop (Z.to_nat written) p)
      else if written <=? 0 then skip
      else tls_send fuel' ctx (drop (Z.to_nat written) p)
  end.

Definition send_raw `{Env} (ctx : nat) (data : list Z) : M unit :=
  c ← client ctx;
  let data := cstr data in
  (if truth (tls_established c) then
     tls_send (length data) ctx data ;; output ctx
   else
     emit (EvTcp (pcb c) data) ;; emit (EvOutput (pcb c))) ;;
  xmpp_sm_on_stanza_sent ctx.
