(* ===== verification/StanzaParse.v ===== *)
(** From bytes to stanzas: src/xmpp/xmpp_parser.c and the stanza pool of
    src/xmpp/xmpp_memory.c.

    [parse_xml_stream] frames the first element of the receive buffer, takes a
    stanza from the pool and fills it while the element runs through yxml.
    The loop goes on after a yxml error, so the result is [None] when the yxml
    state it continues in makes yxml leave its arrays. *)

From Stdlib Require Import ZArith Lia String Ascii Bool.
From stdpp Require Import base list numbers option sets.
From S2P Require Import Prelude.
From S2P Require Import Libc.
From S2P Require Import StanzaScan.
From S2P Require Import Yxml.
From S2P Require Import SlotMap.
From S2P Require Import XmppCore.

Open Scope Z_scope.

(** * The stanza pool *)

Definition MAX_POOL_STANZAS : nat := 16.

(** [xmpp_alloc_stanza]: the index of the stanza given out and the new pool. *)
Definition xmpp_alloc_stanza (pool : list xmpp_stanza_t) : option (nat * list xmpp_stanza_t) :=
  match first_index (fun s => st_is_used s =? 0) pool with
  | Some i => Some (i, <[i := set_st_is_used 1 stanza0]> pool)
  | None => None
  end.

Definition xmpp_free_stanza (i : nat) (pool : list xmpp_stanza_t) : list xmpp_stanza_t :=
  alter (set_st_is_used 0) i pool.

(** * Filling the stanza *)

(** The local variables of the token loop. *)
Record pstate := mk_pstate {
  p_depth : Z;
  p_attr : list Z;
  p_iq_type : list Z;
  p_pres_type : list Z;
  p_is_iq : bool;
  p_is_pres : bool;
  p_locked : bool;
  p_stanza : xmpp_stanza_t
}.

Definition pstate0 (s : xmpp_stanza_t) : pstate :=
  mk_pstate 0 (zeros 64) (zeros 16) (zeros 16) false false false s.

(** A C string read through a pointer into the yxml stack. *)
Definition x_name (x : yxml) (p : nat) : list Z := drop p (x_stack x).

(** [strcmp(a, lit) == 0] *)
Definition is_str (a lit : list Z) : bool := strcmp a lit =? 0.

(** [strncat(dst, src, sizeof(dst) - strlen(dst) - 1)] *)
Definition append_str (dst src : list Z) : list Z :=
  strncat dst src (length dst - strlen dst - 1).

(** The start of an element. *)
Definition on_elemstart (x : yxml) (p : pstate) : pstate :=
  let '(mk_pstate depth attr iq pres is_iq is_pres locked s) := p in
  let depth := depth + 1 in
  let name := x_name x (x_elem x) in
  if depth =? 1 then
    if is_str name (str "message") then
      mk_pstate depth attr iq pres is_iq is_pres locked
        (set_st_xmlns (strcpy (st_xmlns s) (str "jabber:client")) (set_st_type XMPP_MESSAGE s))
    else if is_str name (str "iq") then
      mk_pstate depth attr iq pres true is_pres locked (set_st_type XMPP_UNKNOWN s)
    else if is_str name (str "presence") then
      mk_pstate depth attr iq pres is_iq true locked
        (set_st_xmlns (strcpy (st_xmlns s) (str "jabber:client")) (set_st_type XMPP_PRESENCE s))
    else if is_str name (str "auth") then
      mk_pstate depth attr iq pres is_iq is_pres locked
        (set_st_xmlns (strcpy (st_xmlns s) (str "urn:ietf:params:xml:ns:xmpp-sasl")) s)
    else mk_pstate depth attr iq pres is_iq is_pres locked s
  else if depth =? 2 then
    if is_str name (str "bind") then
      mk_pstate depth attr iq pres is_iq is_pres true
        (set_st_xmlns (strcpy (st_xmlns s) (str "urn:ietf:params:xml:ns:xmpp-bind")) s)
    else if is_str name (str "session") then
      mk_pstate depth attr iq pres is_iq is_pres true
        (set_st_xmlns (strcpy (st_xmlns s) (str "urn:ietf:params:xml:ns:xmpp-session")) s)
    else mk_pstate depth attr iq pres is_iq is_pres locked s
  else mk_pstate depth attr iq pres is_iq is_pres locked s.

(** The start of an attribute. *)
Definition on_attrstart (x : yxml) (p : pstate) : pstate :=
  let '(mk_pstate depth attr iq pres is_iq is_pres locked s) := p in
  mk_pstate depth (<[63%nat := 0]> (strncpy attr (x_name x (x_attr x)) 63)) iq pres is_iq is_pres locked s.

(** A piece of an attribute value. *)
Definition on_attrval (x : yxml) (p : pstate) : pstate :=
  let '(mk_pstate depth attr iq pres is_iq is_pres locked s) := p in
  if depth =? 1 then
    if is_str attr (str "to") then
      mk_pstate depth attr iq pres is_iq is_pres locked (set_st_to (append_str (st_to s) (x_data x)) s)
    else if is_str attr (str "from") then
      mk_pstate depth attr iq pres is_iq is_pres locked (set_st_from (append_str (st_from s) (x_data x)) s)
    else if is_str attr (str "id") then
      mk_pstate depth attr iq pres is_iq is_pres locked (set_st_id (append_str (st_id s) (x_data x)) s)
    else if is_str attr (str "type") && is_iq then
      mk_pstate depth attr (append_str iq (x_data x)) pres is_iq is_pres locked s
    else if is_str attr (str "type") && is_pres then
      mk_pstate depth attr iq (append_str pres (x_data x)) is_iq is_pres locked s
    else if is_str attr (str "mechanism") && is_str (x_name x (x_elem x)) (str "auth") then
      mk_pstate depth attr iq pres is_iq is_pres locked
        (set_st_mechanism (append_str (st_mechanism s) (x_data x)) s)
    else p
  else if depth =? 2 then
    if is_str attr (str "xmlns") && negb locked then
      mk_pstate depth attr iq pres is_iq is_pres locked
        (set_st_xmlns (append_str (st_xmlns s) (x_data x)) s)
    else p
  else p.

Definition on_token (r : yxml_ret_t) (x : yxml) (p : pstate) : pstate :=
  match r with
  | YXML_ELEMSTART => on_elemstart x p
  | YXML_ATTRSTART => on_attrstart x p
  | YXML_ATTRVAL => on_attrval x p
  | _ => p
  end.

(** The token loop over the bytes of the stanza. *)
Fixpoint token_loop (x : yxml) (p : pstate) (bytes : list Z) : option pstate :=
  match bytes with
  | [] => Some p
  | b :: bytes' =>
      r ← yxml_parse x b;
      token_loop (snd r) (on_token (fst r) (snd r) p) bytes'
  end.

(** The stanza type from the [type] attribute. *)
Definition final_type (p : pstate) : xmpp_stanza_t :=
  let s := p_stanza p in
  let s :=
    if p_is_iq p then
      if is_str (p_iq_type p) (str "get") then set_st_type XMPP_IQ_GET s
      else if is_str (p_iq_type p) (str "set") then set_st_type XMPP_IQ_SET s
      else if is_str (p_iq_type p) (str "result") then set_st_type XMPP_IQ_RESULT s
      else if is_str (p_iq_type p) (str "error") then set_st_type XMPP_IQ_ERROR s
      else s
    else s in
  if p_is_pres p && negb (deref (p_pres_type p) =? 0) then
    if is_str (p_pres_type p) (str "unavailable") then set_st_type XMPP_PRESENCE_UNAVAILABLE s
    else if is_str (p_pres_type p) (str "subscribe") then set_st_type XMPP_PRESENCE_SUBSCRIBE s
    else if is_str (p_pres_type p) (str "subscribed") then set_st_type XMPP_PRESENCE_SUBSCRIBED s
    else if is_str (p_pres_type p) (str "unsubscribe") then set_st_type XMPP_PRESENCE_UNSUBSCRIBE s
    else if is_str (p_pres_type p) (str "unsubscribed") then set_st_type XMPP_PRESENCE_UNSUBSCRIBED s
    else if is_str (p_pres_type p) (str "probe") then set_st_type XMPP_PRESENCE_PROBE s
    else s
  else s.

(** [strstr(temp_buf, lit) != NULL] *)
Definition has (buf lit : list Z) : bool := is_Some_b (strstr buf lit).

Definition put_xmlns (lit : list Z) (s : xmpp_stanza_t) : xmpp_stanza_t :=
  set_st_xmlns (strcpy (st_xmlns s) lit) s.

(** The namespace guessed from the text of the stanza. *)
Definition guess_xmlns (temp_buf : list Z) (s : xmpp_stanza_t) : xmpp_stanza_t :=
  if deref (st_xmlns s) =? 0 then
    if has temp_buf (str "jabber:iq:roster") then put_xmlns (str "jabber:iq:roster") s
    else if has temp_buf (str "muc#owner") then put_xmlns (str "http://jabber.org/protocol/muc#owner") s
    else if has temp_buf (str "muc#admin") then put_xmlns (str "http://jabber.org/protocol/muc#admin") s
    else if has temp_buf (str "disco#info") then put_xmlns (str "http://jabber.org/protocol/disco#info") s
    else if has temp_buf (str "disco#items") then put_xmlns (str "http://jabber.org/protocol/disco#items") s
    else if has temp_buf (str "urn:xmpp:blocking") then put_xmlns (str "urn:xmpp:blocking") s
    else if has temp_buf (str "http://jabber.org/protocol/pubsub") then
      put_xmlns (str "http://jabber.org/protocol/pubsub") s
    else if has temp_buf (str "http://jabber.org/protocol/muc") then
      put_xmlns (str "http://jabber.org/protocol/muc") s
    else s
  else if bool_decide (st_type s = XMPP_PRESENCE) || bool_decide (st_type s = XMPP_PRESENCE_UNAVAILABLE) then
    if has temp_buf (str "muc#owner") then put_xmlns (str "http://jabber.org/protocol/muc#owner") s
    else if has temp_buf (str "muc#admin") then put_xmlns (str "http://jabber.org/protocol/muc#admin") s
    else if has temp_buf (str "http://jabber.org/protocol/muc") then
      put_xmlns (str "http://jabber.org/protocol/muc") s
    else s
  else s.

(** [while ( *p && *p != ' ' && *p != '>' && t < 31)] *)
Fixpoint tag_name (t : nat) (p : list Z) : list Z :=
  match t, p with
  | S t', c :: p' =>
      if (c =? 0) || (c =? 32) || (c =? 62) then [] else c :: tag_name t' p'
  | _, _ => []
  end.

Definition put_payload_nul (n : nat) (s : xmpp_stanza_t) : xmpp_stanza_t :=
  set_st_payload (<[n := 0]> (st_payload s)) s.

(** The payload: the text between the end of the start tag and the first end
    tag of the same name, in the first 1023 bytes of the stanza. *)
Definition extract_payload (temp_buf : list Z) (copy_len : Z) (s : xmpp_stanza_t) : xmpp_stanza_t :=
  let header_end := strchr temp_buf 62 in
  match header_end with
  | None => s
  | Some h =>
      let off := ptr_diff h temp_buf in
      if (0 <? off) && (at_ temp_buf (Z.to_nat off - 1) =? 47) then put_payload_nul 0 s
      else if off <? copy_len then
        let inner_start := tail h in
        let closer := snprintf 40 (str "</%s>") [AStr (Some (tag_name 31 (tail temp_buf)))] in
        match strstr inner_start closer with
        | Some inner_end =>
            let n := ptr_diff inner_end inner_start in
            let n := Z.to_nat (if 4096 <=? n then 4095 else n) in
            put_payload_nul n (set_st_payload (strncpy (st_payload s) inner_start n) s)
        | None => put_payload_nul 0 s
        end
      else s
  end.

(** Everything the function does to the stanza, for the framed bytes; [stack]
    is what the local array [stack] holds before it is used. *)
Definition fill_stanza (stack xml : list Z) (s : xmpp_stanza_t) : option xmpp_stanza_t :=
  p ← token_loop (yxml_init stack) (pstate0 s) xml;
  let s := final_type p in
  let copy_len := if Z.of_nat (length xml) <? 1023 then Z.of_nat (length xml) else 1023 in
  let temp_buf := take (Z.to_nat copy_len) xml ++ [0] in
  let s := guess_xmlns temp_buf s in
  Some (extract_payload temp_buf copy_len s).

(** * The parser *)

Inductive parse_null_reason_t := PARSE_INCOMPLETE | PARSE_NO_MEMORY.

(** What the function returns: the index of the stanza, or NULL with the
    reason. *)
Inductive parse_result :=
| Parsed (i : nat)
| NotParsed (reason : parse_null_reason_t).

(** The leading white space. *)
Fixpoint skip_space (payload : list Z) : nat :=
  match payload with
  | c :: p => if (c =? 32) || (c =? 13) || (c =? 10) || (c =? 9) then S (skip_space p) else O
  | [] => O
  end.

(** [parse_xml_stream] on the [len] bytes of the payload: the result, the bytes
    consumed and the new pool; [ecx] is the processor's feature word. *)
Definition parse_xml_stream (ecx : Z) (stack payload : list Z) (pool : list xmpp_stanza_t)
  : option (parse_result * Z * list xmpp_stanza_t) :=
  let len := Z.of_nat (length payload) in
  let offset := skip_space payload in
  if len <=? Z.of_nat offset then Some (NotParsed PARSE_INCOMPLETE, Z.of_nat offset, pool)
  else
    let xml_start := drop offset payload in
    if len - Z.of_nat offset <? 4 then Some (NotParsed PARSE_INCOMPLETE, Z.of_nat offset, pool)
    else
      stanza_len ← find_stanza_end_dispatch ecx xml_start;
      if stanza_len <? 0 then Some (NotParsed PARSE_INCOMPLETE, Z.of_nat offset, pool)
      else
        let consumed := Z.of_nat offset + stanza_len in
        match xmpp_alloc_stanza pool with
        | None => Some (NotParsed PARSE_NO_MEMORY, consumed, pool)
        | Some (i, pool) =>
            s ← fill_stanza stack (take (Z.to_nat stanza_len) xml_start) (set_st_is_used 1 stanza0);
            Some (Parsed i, consumed, <[i := s]> pool)
        end.

(** * Facts *)

(** ** The token loop *)

(** As long as yxml reports no error, it stays inside its arrays. *)
Fixpoint no_error (x : yxml) (bytes : list Z) : Prop :=
  match bytes with
  | [] => True
  | b :: bytes' =>
      match yxml_parse x b with
      | Some (r, x') => 0 <= yxml_code r /\ no_error x' bytes'
      | None => True
      end
  end.

Lemma token_loop_safe bytes x p : inv x -> no_error x bytes -> is_Some (token_loop x p bytes).
Proof.
  revert x p; induction bytes as [|b bytes IH]; intros x p Hi Hn; [by eexists|].
  destruct (good_parse x b Hi) as (r & x' & E & Hx'). cbn [token_loop no_error] in *.
  rewrite E in *. destruct Hn as [Hr Hn]. simpl. apply IH; auto.
Qed.

(** Array sizes and terminators of a stanza. *)
Record stanza_ok (s : xmpp_stanza_t) : Prop := {
  sok_from : length (st_from s) = 64%nat /\ terminated (st_from s);
  sok_to : length (st_to s) = 64%nat /\ terminated (st_to s);
  sok_id : length (st_id s) = 64%nat /\ terminated (st_id s);
  sok_xmlns : length (st_xmlns s) = 128%nat /\ terminated (st_xmlns s);
  sok_payload : length (st_payload s) = Z.to_nat 4096 /\ terminated (st_payload s);
  sok_mech : length (st_mechanism s) = 32%nat /\ terminated (st_mechanism s)
}.

Definition buf_ok (n : nat) (b : list Z) : Prop := length b = n /\ terminated b.

Lemma append_str_ok n dst src : buf_ok n dst -> buf_ok n (append_str dst src).
Proof.
  intros [Hl Ht]. pose proof (cstr_length_terminated _ Ht) as Hlt.
  unfold append_str. rewrite strlen_cstr. split.
  - rewrite strncat_length; [done|lia].
  - rewrite strncat_eq. unfold terminated. rewrite !elem_of_app. right; right. left.
Qed.

Lemma strcpy_ok n dst lit :
  buf_ok n dst -> (length (cstr lit) < n)%nat -> buf_ok n (strcpy dst lit).
Proof.
  intros [Hl _] Hlit. rewrite strcpy_eq. split.
  - rewrite length_app. simpl. rewrite length_drop. lia.
  - unfold terminated. rewrite elem_of_app. right; left.
Qed.

Lemma zeros_ok n : (0 < n)%nat -> buf_ok n (zeros n).
Proof.
  intros Hn. split; [apply length_replicate|]. unfold terminated, zeros.
  apply elem_of_replicate. lia.
Qed.

Record pstate_ok (p : pstate) : Prop := {
  pk_attr : buf_ok 64 (p_attr p);
  pk_iq : buf_ok 16 (p_iq_type p);
  pk_pres : buf_ok 16 (p_pres_type p);
  pk_stanza : stanza_ok (p_stanza p)
}.

Lemma put_xmlns_ok lit s :
  (length (cstr lit) < 128)%nat -> stanza_ok s -> stanza_ok (put_xmlns lit s).
Proof.
  intros Hl [H1 H2 H3 H4 H5 H6]. split; [done|done|done| |done|done]. by apply (strcpy_ok 128).
Qed.

Lemma set_type_ok t s : stanza_ok s -> stanza_ok (set_st_type t s).
Proof. by intros []. Qed.

#[local] Hint Resolve append_str_ok set_type_ok : core.

Ltac lit_small := vm_compute; lia.

Lemma on_elemstart_ok x p : pstate_ok p -> pstate_ok (on_elemstart x p).
Proof.
  intros [H1 H2 H3 H4]. destruct p as [d a i pr bi bp l s]; simpl in H1, H2, H3, H4.
  unfold on_elemstart.
  repeat match goal with |- context [if ?b then _ else _] => destruct b end;
    split; cbn [p_attr p_iq_type p_pres_type p_stanza]; auto;
    first [ by apply (put_xmlns_ok (str "jabber:client") (set_st_type _ s)); [lit_small|auto]
          | by apply put_xmlns_ok; [lit_small|auto] ].
Qed.

Lemma on_attrstart_ok x p : pstate_ok p -> pstate_ok (on_attrstart x p).
Proof.
  intros [[L1 _] H2 H3 H4]. destruct p as [d a i pr bi bp l s]; simpl in L1, H2, H3, H4.
  split; cbn [p_attr p_iq_type p_pres_type p_stanza on_attrstart]; auto. split.
  - rewrite length_insert, strncpy_length; lia.
  - unfold terminated. apply list_elem_of_lookup. exists 63%nat.
    apply list_lookup_insert_eq. rewrite strncpy_length; lia.
Qed.

Lemma set_field_ok s :
  stanza_ok s ->
  (forall b, buf_ok 64 b -> stanza_ok (set_st_to b s)) /\
  (forall b, buf_ok 64 b -> stanza_ok (set_st_from b s)) /\
  (forall b, buf_ok 64 b -> stanza_ok (set_st_id b s)) /\
  (forall b, buf_ok 32 b -> stanza_ok (set_st_mechanism b s)) /\
  (forall b, buf_ok 128 b -> stanza_ok (set_st_xmlns b s)) /\
  (forall b, buf_ok (Z.to_nat 4096) b -> stanza_ok (set_st_payload b s)).
Proof. intros [H1 H2 H3 H4 H5 H6]. split_and!; by split. Qed.

Lemma on_attrval_ok x p : pstate_ok p -> pstate_ok (on_attrval x p).
Proof.
  intros Hp. pose proof Hp as [H1 H2 H3 H4].
  destruct (set_field_ok _ H4) as (F1 & F2 & F3 & F4 & F5 & _).
  destruct p as [d a i pr bi bp l s]; cbn [p_attr p_iq_type p_pres_type p_stanza] in *.
  destruct H4 as [G1 G2 G3 G4 G5 G6] eqn:EH4. unfold on_attrval.
  repeat match goal with |- context [if ?b then _ else _] => destruct b end; try done;
    split; cbn [p_attr p_iq_type p_pres_type p_stanza]; auto.
Qed.

Lemma on_token_ok r x p : pstate_ok p -> pstate_ok (on_token r x p).
Proof.
  intros Hp. destruct r; cbn [on_token];
    auto using on_elemstart_ok, on_attrstart_ok, on_attrval_ok.
Qed.

Lemma token_loop_ok bytes x p p' :
  pstate_ok p -> token_loop x p bytes = Some p' -> pstate_ok p'.
Proof.
  revert x p; induction bytes as [|b bytes IH]; intros x p Hp; cbn [token_loop]; [by intros [= <-]|].
  destruct (yxml_parse x b) as [[r x']|]; [|done]. simpl. apply IH, on_token_ok, Hp.
Qed.

Lemma final_type_ok p : pstate_ok p -> stanza_ok (final_type p).
Proof.
  intros [_ _ _ Hs]. unfold final_type.
  repeat match goal with |- context [if ?b then _ else _] => destruct b end; auto.
Qed.

Lemma guess_xmlns_ok buf s : stanza_ok s -> stanza_ok (guess_xmlns buf s).
Proof.
  intros Hs. unfold guess_xmlns.
  repeat match goal with |- context [if ?b then _ else _] => destruct b end;
    try done; by apply put_xmlns_ok; [lit_small|].
Qed.

Lemma put_payload_ok n b s :
  stanza_ok s -> length b = Z.to_nat 4096 -> (n < Z.to_nat 4096)%nat ->
  stanza_ok (put_payload_nul n (set_st_payload b s)).
Proof.
  intros Hs Hb Hn. destruct (set_field_ok s Hs) as (_ & _ & _ & _ & _ & F).
  change (put_payload_nul n (set_st_payload b s)) with (set_st_payload (<[n := 0]> b) s).
  apply F. split; [by rewrite length_insert|]. unfold terminated. apply list_elem_of_lookup. exists n.
  apply list_lookup_insert_eq. by rewrite Hb.
Qed.

Lemma extract_payload_ok buf n s : stanza_ok s -> stanza_ok (extract_payload buf n s).
Proof.
  intros Hs. pose proof (sok_payload _ Hs) as [Lp _].
  assert (stanza_ok (put_payload_nul 0 s)) as H0.
  { assert (s = set_st_payload (st_payload s) s) as E by (by destruct s). rewrite E.
    apply put_payload_ok; [done|done|lia]. }
  unfold extract_payload. destruct (strchr buf 62) as [h|]; [|done].
  destruct (_ && _); [done|]. destruct (_ <? n); [|done].
  destruct (strstr _ _) as [e|] eqn:Ee; [|done].
  apply put_payload_ok; [done| |].
  - rewrite strncpy_length; [done|]. rewrite Lp.
    destruct (Z.leb_spec 4096 (ptr_diff e (tail h))); lia.
  - destruct (Z.leb_spec 4096 (ptr_diff e (tail h))); lia.
Qed.

Lemma stanza0_ok : stanza_ok (set_st_is_used 1 stanza0).
Proof. split; (apply zeros_ok; lia). Qed.

Lemma pstate0_ok s : stanza_ok s -> pstate_ok (pstate0 s).
Proof. intros Hs. split; [apply zeros_ok; lia..|done]. Qed.

Lemma fill_stanza_ok stack xml s s' : stanza_ok s -> fill_stanza stack xml s = Some s' -> stanza_ok s'.
Proof.
  intros Hs. unfold fill_stanza.
  destruct (token_loop _ _ xml) as [p|] eqn:E; [|done]. cbn [mbind option_bind]. intros [= <-].
  apply extract_payload_ok, guess_xmlns_ok, final_type_ok.
  eapply token_loop_ok; [|exact E]. by apply pstate0_ok.
Qed.

(** ** The pool *)

Lemma alloc_spec pool i pool' :
  xmpp_alloc_stanza pool = Some (i, pool') ->
  (exists s, pool !! i = Some s /\ st_is_used s = 0) /\
  pool' = <[i := set_st_is_used 1 stanza0]> pool.
Proof.
  unfold xmpp_alloc_stanza. destruct (first_index _ pool) as [k|] eqn:E; [|done].
  intros [= <- <-]. apply first_index_Some in E as (s & Hs & Hu & _).
  split; [|done]. exists s. split; [done|lia].
Qed.

Lemma alloc_None pool : xmpp_alloc_stanza pool = None <-> Forall (fun s => st_is_used s <> 0) pool.
Proof.
  unfold xmpp_alloc_stanza. destruct (first_index _ pool) as [k|] eqn:E.
  - apply first_index_Some in E as (s & Hs & Hu & _). split; [done|].
    intros F. rewrite Forall_lookup in F. specialize (F k s Hs). lia.
  - split; [|done]. intros _. rewrite first_index_None in E. apply Forall_lookup.
    intros i s Hs. specialize (E i s Hs). lia.
Qed.

Lemma skip_space_le payload : (skip_space payload <= length payload)%nat.
Proof. induction payload as [|c p IH]; simpl; [lia|]. destruct (_ || _); simpl; lia. Qed.

(** ** The whole parser *)

(** As long as yxml reports no error on the framed bytes, filling the stanza
    stays inside yxml's arrays. *)
Lemma fill_stanza_safe (stack xml : list Z) (s : xmpp_stanza_t) :
  stack <> [] -> no_error (yxml_init stack) xml -> is_Some (fill_stanza stack xml s).
Proof.
  intros Hs Hn. unfold fill_stanza.
  destruct (token_loop_safe xml (yxml_init stack) (pstate0 s)) as [p ->]; [by apply yxml_init_inv|done|].
  by eexists.
Qed.

(** yxml reports no error on the stanza at the head of the buffer. *)
Definition accepted (ecx : Z) (stack payload : list Z) : Prop :=
  let xml_start := drop (skip_space payload) payload in
  match find_stanza_end_dispatch ecx xml_start with
  | Some n => no_error (yxml_init stack) (take (Z.to_nat n) xml_start)
  | None => True
  end.

Lemma alloc_none pool : xmpp_alloc_stanza pool = None -> Forall (fun s => st_is_used s <> 0) pool.
Proof.
  unfold xmpp_alloc_stanza. destruct (first_index _ pool) eqn:E; [done|]. intros _.
  rewrite first_index_None in E. apply Forall_lookup. intros i x Hi. specialize (E i x Hi).
  by apply Z.eqb_neq in E.
Qed.

(** What a result of the parser says. *)
Definition parse_spec (payload : list Z) (pool : list xmpp_stanza_t)
    (res : parse_result) (consumed : Z) (pool' : list xmpp_stanza_t) : Prop :=
  0 <= consumed <= Z.of_nat (length payload) /\
  match res with
  | NotParsed PARSE_INCOMPLETE => pool' = pool /\ consumed = Z.of_nat (skip_space payload)
  | NotParsed PARSE_NO_MEMORY => pool' = pool /\ Forall (fun s => st_is_used s <> 0) pool
  | Parsed i =>
      0 < consumed /\
      (exists s, pool !! i = Some s /\ st_is_used s = 0) /\
      exists s, stanza_ok s /\ pool' = <[i := s]> pool
  end.

Lemma parse_result_ok ecx stack payload pool res consumed pool' :
  parse_xml_stream ecx stack payload pool = Some (res, consumed, pool') ->
  parse_spec payload pool res consumed pool'.
Proof.
  unfold parse_xml_stream, parse_spec. pose proof (skip_space_le payload) as Hsp.
  destruct (Z.leb_spec (Z.of_nat (length payload)) (Z.of_nat (skip_space payload))).
  { intros [= <- <- <-]. split; [lia|done]. }
  destruct (_ <? 4).
  { intros [= <- <- <-]. split; [lia|done]. }
  destruct (dispatch_bounds ecx (drop (skip_space payload) payload)) as (r & E & Hr).
  rewrite E. rewrite length_drop in Hr. cbn [mbind option_bind]. destruct (Z.ltb_spec r 0).
  { intros [= <- <- <-]. split; [lia|done]. }
  destruct (xmpp_alloc_stanza pool) as [[i pool1]|] eqn:Ea.
  2: { intros [= <- <- <-]. split; [lia|]. split; [done|by apply alloc_none]. }
  destruct (fill_stanza _ _ _) as [s|] eqn:Ef; [|done]. cbn [mbind option_bind]. intros [= <- <- <-].
  apply alloc_spec in Ea as [Hfree ->]. split; [lia|]. split_and!; [lia|exact Hfree|].
  exists s. split; [eapply fill_stanza_ok; [apply stanza0_ok|exact Ef]|]. by rewrite list_insert_insert_eq.
Qed.

(** The first stanza of the bytes has not arrived in full. *)
Definition unfinished (ecx : Z) (payload : list Z) : Prop :=
  let xml_start := drop (skip_space payload) payload in
  (length xml_start < 4)%nat \/ exists r, find_stanza_end_dispatch ecx xml_start = Some r /\ r < 0.

Lemma parse_incomplete ecx stack payload pool consumed pool' :
  parse_xml_stream ecx stack payload pool = Some (NotParsed PARSE_INCOMPLETE, consumed, pool') ->
  unfinished ecx payload.
Proof.
  unfold parse_xml_stream, unfinished. rewrite length_drop.
  destruct (Z.leb_spec (Z.of_nat (length payload)) (Z.of_nat (skip_space payload))); [left; lia|].
  destruct (Z.ltb_spec (Z.of_nat (length payload) - Z.of_nat (skip_space payload)) 4); [left; lia|].
  destruct (find_stanza_end_dispatch _ _) as [r|] eqn:E; [|done]. cbn [mbind option_bind].
  destruct (Z.ltb_spec r 0); [by right; exists r|]. destruct (xmpp_alloc_stanza pool) as [[i pool1]|]; [|done].
  by destruct (fill_stanza _ _ _).
Qed.

(** It returns when yxml accepts the stanza. *)
Lemma parse_returns ecx stack payload pool :
  stack <> [] -> accepted ecx stack payload -> is_Some (parse_xml_stream ecx stack payload pool).
Proof.
  intros Hst Hacc. unfold parse_xml_stream. destruct (_ <=? _); [by eexists|]. destruct (_ <? 4); [by eexists|].
  unfold accepted in Hacc. destruct (dispatch_bounds ecx (drop (skip_space payload) payload)) as (r & E & Hr).
  rewrite E in Hacc |- *. cbn [mbind option_bind]. destruct (r <? 0); [by eexists|].
  destruct (xmpp_alloc_stanza pool) as [[i pool1]|]; [|by eexists].
  destruct (fill_stanza_safe stack _ (set_st_is_used 1 stanza0) Hst Hacc) as [s Ef]. rewrite Ef. by eexists.
Qed.

(** * Properties *)



(** A start tag whose name almost fills the 1024-byte stack, with one
    attribute. *)
Definition overlong_tag : list Z := str "<" ++ replicate (Z.to_nat 1021) 97 ++ str " b='c'/>".

(** The parser is not memory safe on stanzas yxml rejects: the loop ignores
    yxml's errors.  The attribute of an element whose name fills the stack is
    not pushed (YXML_ESTACK is ignored), its end pops the element's name
    instead, and the end of the element then pops the empty stack, reading
    below the array. *)
Theorem parser_ignores_yxml_errors :
  match yxml_run (yxml_init (replicate (Z.to_nat 1024) 0)) overlong_tag with
  | Some (_, Some e, _) => e = YXML_ESTACK
  | _ => False
  end /\
  find_stanza_end_scalar overlong_tag = Some 1030 /\
  fill_stanza (replicate (Z.to_nat 1024) 0) overlong_tag stanza0 = None.
Proof. vm_compute. split; [|split]; reflexivity. Qed.

(** The payload of a stanza longer than 1023 bytes is lost, although the
    stanza has room for 4095: the end tag is looked for in a 1023-byte copy. *)
Theorem long_payload_is_dropped :
  let body n := str "<message to='a@b'><body>" ++ replicate n 120 ++ str "</body></message>" in
  option_map (fun s => length (cstr (st_payload s)))
    (fill_stanza (replicate 64 0) (body 20%nat) stanza0) = Some 33%nat /\
  option_map (fun s => cstr (st_payload s))
    (fill_stanza (replicate 64 0) (body (Z.to_nat 1000)) stanza0) = Some [].
Proof. vm_compute. split; reflexivity. Qed.
