(* ===== verification/RxBuffer.v ===== *)
(** The receive buffer of a connection, [rx_buffer] with its fill mark [rx_pos]:
    the two ways src/xmpp changes it, appending what arrived (xmpp_server.c,
    xmpp_tls.c) and consuming a handled prefix (xmpp_server.c, xmpp_sm.c), and
    the invariant that lets the string functions run on it. *)

From Stdlib Require Import ZArith Lia String Ascii Bool.
From stdpp Require Import base list numbers option sets.
From S2P Require Import Prelude.
From S2P Require Import Libc.
From S2P Require Import XmppCore.

Open Scope Z_scope.

(** [memcpy(rx_buffer + rx_pos, dec, ret); rx_pos += ret; rx_buffer[rx_pos] = 0;] *)
Definition rx_append (data : list Z) (c : xmpp_client_ctx_t) : xmpp_client_ctx_t :=
  let n := Z.to_nat (rx_pos c) in
  let b := take n (rx_buffer c) ++ memcpy (drop n (rx_buffer c)) data (length data) in
  set_rx_pos (rx_pos c + Z.of_nat (length data))
    (set_rx_buffer (<[Z.to_nat (rx_pos c + Z.of_nat (length data)) := 0]> b) c).

(** [memmove(rx_buffer, rx_buffer + n, rx_pos - n); rx_pos -= n;
    rx_buffer[rx_pos] = 0;] *)
Definition rx_consume (n : Z) (c : xmpp_client_ctx_t) : xmpp_client_ctx_t :=
  set_rx_pos (rx_pos c - n)
    (set_rx_buffer (<[Z.to_nat (rx_pos c - n) := 0]>
       (memmove (rx_buffer c) 0 (Z.to_nat n) (Z.to_nat (rx_pos c - n)))) c).

(** * Facts *)

(** The receive buffer's invariant and its contents. *)
Record rx_ok (c : xmpp_client_ctx_t) : Prop := {
  rk_size : length (rx_buffer c) = RX_BUFFER_SIZE;
  rk_pos : 0 <= rx_pos c < 32768;
  rk_nul : rx_buffer c !! Z.to_nat (rx_pos c) = Some 0
}.

Definition rx_data (c : xmpp_client_ctx_t) : list Z := take (Z.to_nat (rx_pos c)) (rx_buffer c).

Lemma rx_append_ok c data :
  rx_ok c -> rx_pos c + Z.of_nat (length data) < 32767 ->
  rx_ok (rx_append data c) /\ rx_data (rx_append data c) = rx_data c ++ data.
Proof.
  intros [Hs Hp Hz] Hd. unfold RX_BUFFER_SIZE in *. unfold rx_append.
  set (n := Z.to_nat (rx_pos c)).
  assert (length (take n (rx_buffer c) ++ memcpy (drop n (rx_buffer c)) data (length data)) = Z.to_nat 32768) as L.
  { rewrite memcpy_eq, !length_app, length_take, firstn_all, length_drop, length_drop by lia. lia. }
  split.
  - split; cbn [rx_buffer rx_pos set_rx_pos set_rx_buffer]; unfold RX_BUFFER_SIZE.
    + by rewrite length_insert.
    + lia.
    + apply list_lookup_insert_eq. rewrite L. lia.
  - unfold rx_data. cbn [rx_buffer rx_pos set_rx_pos set_rx_buffer].
    rewrite take_insert_ge by lia. fold n.
    rewrite memcpy_eq, firstn_all by lia. rewrite app_assoc.
    rewrite take_app_length'; [done|]. rewrite length_app, length_take. lia.
Qed.

Lemma rx_consume_ok c n :
  rx_ok c -> 0 <= n <= rx_pos c ->
  rx_ok (rx_consume n c) /\ rx_data (rx_consume n c) = drop (Z.to_nat n) (rx_data c).
Proof.
  intros [Hs Hp Hz] Hn. unfold RX_BUFFER_SIZE in *. unfold rx_consume.
  set (k := Z.to_nat (rx_pos c - n)). set (p := Z.to_nat n).
  assert (memmove (rx_buffer c) 0 p k = take k (drop p (rx_buffer c)) ++ drop k (rx_buffer c)) as Em.
  { rewrite memmove_moved by lia. done. }
  assert (length (memmove (rx_buffer c) 0 p k) = Z.to_nat 32768) as L.
  { rewrite Em, length_app, length_take, !length_drop. lia. }
  split.
  - split; cbn [rx_buffer rx_pos set_rx_pos set_rx_buffer]; unfold RX_BUFFER_SIZE.
    + by rewrite length_insert.
    + lia.
    + apply list_lookup_insert_eq. rewrite L. lia.
  - unfold rx_data. cbn [rx_buffer rx_pos set_rx_pos set_rx_buffer].
    fold k. rewrite take_insert_ge by lia. rewrite Em, take_app_length' by (rewrite length_take, length_drop; lia).
    rewrite skipn_firstn_comm. f_equal. lia.
Qed.

(** The C string in the buffer is a prefix of the received bytes. *)
Lemma rx_cstr c : rx_ok c -> cstr (rx_buffer c) = cstr (rx_data c).
Proof.
  intros [Hs Hp Hz]. unfold rx_data.
  rewrite <- (take_drop_middle _ _ _ Hz) at 1.
  induction (take _ _) as [|x l IH]; simpl; [done|]. by rewrite IH.
Qed.

(** A character found in the buffer lies before the fill mark. *)
Lemma rx_find c ch q :
  rx_ok c -> 0 < ch < 256 -> strchr (rx_buffer c) ch = Some q ->
  0 <= ptr_diff q (rx_buffer c) /\ ptr_diff q (rx_buffer c) + 1 <= rx_pos c.
Proof.
  intros Hc Hch E. apply strchr_Some in E as (pre & post & E & -> & F & _); [|done].
  unfold ptr_diff. rewrite E, length_app. split; [lia|].
  assert (Z.of_nat (S (length pre)) <= rx_pos c); [|simpl; lia].
  pose proof (rx_cstr c Hc) as R. pose proof (cstr_length_le (rx_data c)) as L. rewrite <- R in L.
  unfold rx_data in L. rewrite E in L. 
  assert (cstr (pre ++ ch :: post) = pre ++ ch :: cstr post) as Ec.
  { clear -F Hch. induction F as [|x l Hx F IH]; cbn [app].
    - by rewrite cstr_cons by lia.
    - rewrite cstr_cons by done. by rewrite IH. }
  rewrite Ec, length_app, length_take in L. simpl in L. lia.
Qed.

(** Fields the two operations leave alone. *)
Lemma rx_consume_keeps {V} (v : xmpp_client_ctx_t -> V) n c :
  (forall x y, v (set_rx_pos x y) = v y) -> (forall x y, v (set_rx_buffer x y) = v y) ->
  v (rx_consume n c) = v c.
Proof. intros H1 H2. unfold rx_consume. by rewrite H1, H2. Qed.
