(* ===== verification/Persist.v ===== *)
(** Persistence of the stores: src/xmpp/xmpp_persist.c.

    The five stores are written to fixed regions of the disk, each a whole
    number of 512-byte sectors, and a header sector carries the CRC of all of
    them.  A C structure on the disk is the concatenation of the bytes of its
    fields (none of these structures has padding), integers little-endian. *)

From Stdlib Require Import ZArith Lia String Ascii Bool.
From stdpp Require Import base list numbers option sets.
From S2P Require Import Prelude.
From S2P Require Import Libc.
From S2P Require Import XmppCore.

Open Scope Z_scope.

(** * Layout *)

Definition SECTOR : nat := 512.

Definition PERSIST_MAGIC : Z := 0xA6E71C3D.
Definition PERSIST_VERSION : Z := 5.

Definition LBA_HEADER : nat := 0.
Definition LBA_PRIVATE_START : nat := 1.
Definition LBA_PRIVATE_SECTORS : nat := 42.
Definition LBA_ROSTER_START : nat := 43.
Definition LBA_ROSTER_SECTORS : nat := 56.
Definition LBA_ROOMS_START : nat := 99.
Definition LBA_ROOMS_SECTORS : nat := 8.
Definition LBA_OFFLINE_START : nat := 107.
Definition LBA_OFFLINE_SECTORS : nat := 79.
Definition LBA_PENDING_SUBS_START : nat := 186.
Definition LBA_PENDING_SUBS_SECTORS : nat := 8.

(** * Images of the structures *)

(** Four little-endian bytes of a 32-bit integer, and back, signed. *)
Definition le32 (x : Z) : list Z :=
  [Z.land x 0xff; Z.land (Z.shiftr x 8) 0xff; Z.land (Z.shiftr x 16) 0xff;
   Z.land (Z.shiftr x 24) 0xff].

Definition of_le32 (b : list Z) : Z :=
  at_ b 0 + 2 ^ 8 * at_ b 1 + 2 ^ 16 * at_ b 2 + 2 ^ 24 * at_ b 3.

Definition of_le32s (b : list Z) : Z := s32 (of_le32 b).

Definition enc_private (e : private_store_entry_t) : list Z :=
  pv_username e ++ ns e ++ xml e ++ le32 (pv_active e).

Definition enc_roster (e : roster_entry_t) : list Z :=
  re_username e ++ re_jid e ++ item_xml e ++ le32 (re_active e).

Definition enc_offline (e : offline_msg_t) : list Z :=
  om_from e ++ to_bare e ++ om_to_user e ++ om_id e ++ om_payload e ++ le32 (om_active e).

Definition enc_pending (e : pending_sub_t) : list Z :=
  ps_type e ++ ps_from e ++ ps_to_user e ++ le32 (ps_active e).

(** The field of [n] bytes at offset [o] of an image. *)
Definition field (b : list Z) (o n : nat) : list Z := take n (drop o b).

Definition PRIVATE_SIZE : nat := Z.to_nat 1064.
Definition ROSTER_SIZE : nat := Z.to_nat 356.
Definition OFFLINE_SIZE : nat := Z.to_nat 1252.
Definition PENDING_SIZE : nat := Z.to_nat 116.
Definition ROOM_SIZE : nat := Z.to_nat 892.

Definition dec_private (b : list Z) : private_store_entry_t :=
  mk_private (field b 0 32) (field b 32 128) (field b 160 900) (of_le32s (drop 1060 b)).

Definition dec_roster (b : list Z) : roster_entry_t :=
  mk_roster (field b 0 32) (field b 32 64) (field b 96 256) (of_le32s (drop 352 b)).

Definition dec_offline (b : list Z) : offline_msg_t :=
  mk_offline (field b 0 64) (field b 64 64) (field b 128 32) (field b 160 64) (field b 224 1024)
    (of_le32s (drop 1248 b)).

Definition dec_pending (b : list Z) : pending_sub_t :=
  mk_pending (field b 0 16) (field b 16 64) (field b 80 32) (of_le32s (drop 112 b)).

(** The packed room entry the code fills from a room: strings are copied up to
    one byte less than their field, over zeros; only the banned names in use
    are copied. *)
Definition room_banned (r : room_t) : list (list Z) :=
  map (fun bi => if Z.of_nat bi <? banned_count r
                 then strncpy (zeros 64) (default (zeros 64) (banned_jids r !! bi)) 63
                 else zeros 64)
      (seq 0 MAX_BANNED_PER_ROOM).

Definition enc_room (r : room_t) : list Z :=
  strncpy (zeros 32) (room_name r) 31 ++ strncpy (zeros 64) (creator_jid r) 63 ++
  le32 (semi_anon r) ++ le32 (locked r) ++ le32 (room_active r) ++ le32 (persistent r) ++
  le32 (moderated r) ++ le32 (members_only r) ++ le32 (banned_count r) ++
  concat (room_banned r) ++ strncpy (zeros 256) (subject r) 255.

(** The room rebuilt from its entry. *)
Definition dec_room (b : list Z) : room_t :=
  let bc := of_le32s (drop 120 b) in
  let bc := if 8 <? bc then 8 else bc in
  mk_room (strncpy (zeros 32) (field b 0 32) 31) (replicate MAX_USERS_PER_ROOM participant0)
    (strncpy (zeros 64) (field b 32 64) 63)
    (of_le32s (drop 96 b)) (of_le32s (drop 100 b)) (of_le32s (drop 104 b))
    (of_le32s (drop 108 b)) (of_le32s (drop 112 b)) (of_le32s (drop 116 b))
    (map (fun bi => if Z.of_nat bi <? bc
                    then strncpy (zeros 64) (field b (124 + 64 * bi) 64) 63 else zeros 64)
         (seq 0 MAX_BANNED_PER_ROOM))
    bc (strncpy (zeros 256) (field b 636 256) 255).

(** The images of whole arrays. *)
Definition private_image (s : srv) : list Z := concat (map enc_private (private_store s)).
Definition roster_image (s : srv) : list Z := concat (map enc_roster (roster_store s)).
Definition rooms_image (s : srv) : list Z := concat (map enc_room (rooms s)).
Definition offline_image (s : srv) : list Z := concat (map enc_offline (offline_store s)).
Definition pending_image (s : srv) : list Z := concat (map enc_pending (pending_subs s)).

(** The [n] entries of [size] bytes of a region. *)
Fixpoint entries (size n : nat) (b : list Z) : list (list Z) :=
  match n with
  | O => []
  | S n' => take size b :: entries size n' (drop size b)
  end.

(** * CRC *)

Definition crc_bit (crc : Z) : Z :=
  let mask := u32 (- Z.land crc 1) in
  Z.lxor (Z.shiftr crc 1) (Z.land 0xEDB88320 mask).

Definition crc_byte (crc b : Z) : Z := Nat.iter 8 crc_bit (Z.lxor crc (u8 b)).

Definition crc_run (crc : Z) (bytes : list Z) : Z := fold_left crc_byte bytes crc.

(** The five loops over the stores. *)
Definition compute_full_crc (s : srv) : Z :=
  let crc := 0xFFFFFFFF in
  let crc := crc_run crc (private_image s) in
  let crc := crc_run crc (roster_image s) in
  let crc := crc_run crc (rooms_image s) in
  let crc := crc_run crc (offline_image s) in
  let crc := crc_run crc (pending_image s) in
  Z.lxor crc 0xFFFFFFFF.

(** * Disk access *)

(** [buf] written at byte [o]. *)
Definition splice (o : nat) (buf d : list Z) : list Z := take o d ++ buf ++ drop (o + length buf) d.

Section with_env.
Context `{Env}.

Definition disk_write_sectors (lba : nat) (buf : list Z) : M Z :=
  n ← call;
  let r := disk_result n in
  (if r =? 0 then modify (fun s => set_disk (splice (lba * SECTOR) buf (disk s)) s)
   else modify (fun s => set_disk (disk_torn n (disk s)) s)) ;;
  mret r.

Definition disk_read_sectors (lba count : nat) : M (option (list Z)) :=
  n ← call;
  d ← gets disk;
  mret (if disk_result n =? 0 then Some (field d (lba * SECTOR) (count * SECTOR)) else None).

(** * Saving *)

Definition header (crc : Z) : list Z :=
  le32 PERSIST_MAGIC ++ le32 PERSIST_VERSION ++ le32 crc ++ le32 0 ++ zeros 496.

Definition write_header : M unit :=
  s ← gets id;
  disk_write_sectors LBA_HEADER (header (compute_full_crc s)) ;; skip.

(** [memset(buf, 0, sizeof buf); memcpy(buf, store, size)] *)
Definition padded (sectors : nat) (image : list Z) : list Z :=
  image ++ zeros (sectors * SECTOR - length image).

Definition save (lba sectors : nat) (image : srv -> list Z) : M unit :=
  s ← gets id;
  r ← disk_write_sectors lba (padded sectors (image s));
  if negb (r =? 0) then skip else write_header.

Definition xmpp_persist_save_private : M unit :=
  save LBA_PRIVATE_START LBA_PRIVATE_SECTORS private_image.
Definition xmpp_persist_save_roster : M unit :=
  save LBA_ROSTER_START LBA_ROSTER_SECTORS roster_image.
Definition xmpp_persist_save_rooms : M unit :=
  save LBA_ROOMS_START LBA_ROOMS_SECTORS rooms_image.
Definition xmpp_persist_save_offline : M unit :=
  save LBA_OFFLINE_START LBA_OFFLINE_SECTORS offline_image.
Definition xmpp_persist_save_pending_subs : M unit :=
  save LBA_PENDING_SUBS_START LBA_PENDING_SUBS_SECTORS pending_image.

(** * Loading *)

Definition clear_stores (s : srv) : srv :=
  set_private_store (replicate PRIVATE_STORAGE_SLOTS private0)
    (set_roster_store (replicate MAX_ROSTER_ENTRIES roster0)
      (set_rooms (replicate MAX_ROOMS room0)
        (set_offline_store (replicate MAX_OFFLINE_MSGS offline0)
          (set_pending_subs (replicate MAX_PENDING_SUBS pending0) s)))).

Definition fresh_start : M unit :=
  modify clear_stores ;;
  disk_write_sectors LBA_PRIVATE_START (zeros (LBA_PRIVATE_SECTORS * SECTOR)) ;;
  disk_write_sectors LBA_ROSTER_START (zeros (LBA_ROSTER_SECTORS * SECTOR)) ;;
  disk_write_sectors LBA_ROOMS_START (zeros (LBA_ROOMS_SECTORS * SECTOR)) ;;
  disk_write_sectors LBA_OFFLINE_START (zeros (LBA_OFFLINE_SECTORS * SECTOR)) ;;
  disk_write_sectors LBA_PENDING_SUBS_START (zeros (LBA_PENDING_SUBS_SECTORS * SECTOR)) ;;
  write_header.

(** The stores read from the five region buffers. *)
Definition load_stores (pv ro rm off pe : list Z) (s : srv) : srv :=
  set_private_store (map dec_private (entries PRIVATE_SIZE PRIVATE_STORAGE_SLOTS pv))
    (set_roster_store (map dec_roster (entries ROSTER_SIZE MAX_ROSTER_ENTRIES ro))
      (set_rooms (map dec_room (entries ROOM_SIZE MAX_ROOMS rm))
        (set_offline_store (map dec_offline (entries OFFLINE_SIZE MAX_OFFLINE_MSGS off))
          (set_pending_subs (map dec_pending (entries PENDING_SIZE MAX_PENDING_SUBS pe)) s)))).

(** One of the guarded reads of [try_load]. *)
Definition read_or_fail (lba sectors : nat) (k : list Z -> M bool) : M bool :=
  r ← disk_read_sectors lba sectors;
  match r with
  | None => mret false
  | Some b => k b
  end.

Definition try_load : M bool :=
  read_or_fail LBA_HEADER 1 (fun hdr =>
  if negb (of_le32 hdr =? PERSIST_MAGIC) then mret false
  else if negb (of_le32 (drop 4 hdr) =? PERSIST_VERSION) then mret false
  else
  read_or_fail LBA_PRIVATE_START LBA_PRIVATE_SECTORS (fun pv =>
  read_or_fail LBA_ROSTER_START LBA_ROSTER_SECTORS (fun ro =>
  read_or_fail LBA_ROOMS_START LBA_ROOMS_SECTORS (fun rm =>
  read_or_fail LBA_OFFLINE_START LBA_OFFLINE_SECTORS (fun off =>
  read_or_fail LBA_PENDING_SUBS_START LBA_PENDING_SUBS_SECTORS (fun pe =>
    modify (load_stores pv ro rm off pe) ;;
    actual ← gets compute_full_crc;
    mret (of_le32 (drop 8 hdr) =? actual))))))).

Definition xmpp_persist_load_all : M unit :=
  ok ← try_load;
  if (ok : bool) then skip else fresh_start.

End with_env.

(** * Facts *)

(** ** Integers as bytes *)

Lemma land_byte x : Z.land x 0xff = x mod 256.
Proof. change 0xff with (Z.ones 8). by rewrite Z.land_ones by lia. Qed.

Lemma le32_bytes x :
  le32 x = [x mod 256; x / 2 ^ 8 mod 256; x / 2 ^ 16 mod 256; x / 2 ^ 24 mod 256].
Proof. unfold le32. rewrite !land_byte, !Z.shiftr_div_pow2 by lia. done. Qed.

Lemma of_le32_le32 x post : of_le32 (le32 x ++ post) = x mod 2 ^ 32.
Proof.
  rewrite le32_bytes. unfold of_le32, at_. cbn [app drop deref].
  change (2 ^ 8) with 256. change (2 ^ 16) with 65536. change (2 ^ 24) with 16777216.
  change (2 ^ 32) with 4294967296.
  Z.to_euclidean_division_equations. lia.
Qed.

Definition int32 (x : Z) : Prop := - 2 ^ 31 <= x < 2 ^ 31.

Lemma of_le32s_le32 x post : int32 x -> of_le32s (le32 x ++ post) = x.
Proof.
  intros Hx. unfold of_le32s, int32 in *. rewrite of_le32_le32. unfold s32.
  rewrite Zplus_mod_idemp_l, Z.mod_small by lia. lia.
Qed.

Lemma le32_length x : length (le32 x) = 4%nat.
Proof. done. Qed.

(** ** Fields *)

Lemma field_app (pre f post : list Z) (o n : nat) :
  length pre = o -> length f = n -> field (pre ++ f ++ post) o n = f.
Proof. intros <- <-. unfold field. by rewrite drop_app_length, take_app_length. Qed.

Lemma field_head (f post : list Z) (n : nat) : length f = n -> field (f ++ post) 0 n = f.
Proof. intros <-. unfold field. rewrite drop_0. by rewrite take_app_length. Qed.

(** Array lengths of the structures, and their integers in range: what the C
    types guarantee. *)
Record private_ok (e : private_store_entry_t) : Prop := {
  pvo_user : length (pv_username e) = 32%nat;
  pvo_ns : length (ns e) = 128%nat;
  pvo_xml : length (xml e) = Z.to_nat 900;
  pvo_active : int32 (pv_active e)
}.

Record roster_ok (e : roster_entry_t) : Prop := {
  ro_user : length (re_username e) = 32%nat;
  ro_jid : length (re_jid e) = 64%nat;
  ro_xml : length (item_xml e) = 256%nat;
  ro_active : int32 (re_active e)
}.

Record offline_ok (e : offline_msg_t) : Prop := {
  oo_from : length (om_from e) = 64%nat;
  oo_bare : length (to_bare e) = 64%nat;
  oo_user : length (om_to_user e) = 32%nat;
  oo_id : length (om_id e) = 64%nat;
  oo_payload : length (om_payload e) = Z.to_nat 1024;
  oo_active : int32 (om_active e)
}.

Record pending_ok (e : pending_sub_t) : Prop := {
  po_type : length (ps_type e) = 16%nat;
  po_from : length (ps_from e) = 64%nat;
  po_user : length (ps_to_user e) = 32%nat;
  po_active : int32 (ps_active e)
}.

(** Peel the fields of an image off, one after the other. *)
Ltac lens := rewrite ?length_app, ?le32_length; cbn [length]; lia.

Ltac unfield :=
  repeat match goal with
  | |- context [field (?f ++ ?post) 0 ?n] => rewrite (field_head f post n) by lens
  end.

Lemma field_skip (f b : list Z) (o n : nat) :
  (length f <= o)%nat -> field (f ++ b) o n = field b (o - length f) n.
Proof. intros H. unfold field. by rewrite drop_app_ge by done. Qed.

Lemma drop_skip (f b : list Z) (o : nat) :
  (length f <= o)%nat -> drop o (f ++ b) = drop (o - length f) b.
Proof. intros H. by rewrite drop_app_ge by done. Qed.

Lemma enc_private_length e : private_ok e -> length (enc_private e) = PRIVATE_SIZE.
Proof. intros []. unfold enc_private, PRIVATE_SIZE. rewrite !length_app, le32_length. lia. Qed.

Lemma enc_roster_length e : roster_ok e -> length (enc_roster e) = ROSTER_SIZE.
Proof. intros []. unfold enc_roster, ROSTER_SIZE. rewrite !length_app, le32_length. lia. Qed.

Lemma enc_offline_length e : offline_ok e -> length (enc_offline e) = OFFLINE_SIZE.
Proof. intros []. unfold enc_offline, OFFLINE_SIZE. rewrite !length_app, le32_length. lia. Qed.

Lemma enc_pending_length e : pending_ok e -> length (enc_pending e) = PENDING_SIZE.
Proof. intros []. unfold enc_pending, PENDING_SIZE. rewrite !length_app, le32_length. lia. Qed.

Lemma dec_enc_private e : private_ok e -> dec_private (enc_private e) = e.
Proof.
  intros [H1 H2 H3 H4]. destruct e as [u n x a]; simpl in *. unfold dec_private, enc_private.
  cbn [pv_username ns xml pv_active]. rewrite <- (app_nil_r (le32 a)).
  f_equal.
  - by apply field_head.
  - by apply (field_app u).
  - rewrite (app_assoc u). apply (field_app (u ++ n)); rewrite ?length_app; lia.
  - rewrite !drop_skip by lia. replace (1060 - length u - length n - length x)%nat with O by lia.
    by apply of_le32s_le32.
Qed.

Lemma dec_enc_roster e : roster_ok e -> dec_roster (enc_roster e) = e.
Proof.
  intros [H1 H2 H3 H4]. destruct e as [u n x a]; simpl in *. unfold dec_roster, enc_roster.
  cbn [re_username re_jid item_xml re_active]. rewrite <- (app_nil_r (le32 a)).
  f_equal.
  - by apply field_head.
  - by apply (field_app u).
  - rewrite (app_assoc u). apply (field_app (u ++ n)); rewrite ?length_app; lia.
  - rewrite !drop_skip by lia. replace (352 - length u - length n - length x)%nat with O by lia.
    by apply of_le32s_le32.
Qed.

Lemma dec_enc_pending e : pending_ok e -> dec_pending (enc_pending e) = e.
Proof.
  intros [H1 H2 H3 H4]. destruct e as [u n x a]; simpl in *. unfold dec_pending, enc_pending.
  cbn [ps_type ps_from ps_to_user ps_active]. rewrite <- (app_nil_r (le32 a)).
  f_equal.
  - by apply field_head.
  - by apply (field_app u).
  - rewrite (app_assoc u). apply (field_app (u ++ n)); rewrite ?length_app; lia.
  - rewrite !drop_skip by lia. replace (112 - length u - length n - length x)%nat with O by lia.
    by apply of_le32s_le32.
Qed.

Lemma dec_enc_offline e : offline_ok e -> dec_offline (enc_offline e) = e.
Proof.
  intros [H1 H2 H3 H4 H5 H6]. destruct e as [f b u i p a]; simpl in *.
  unfold dec_offline, enc_offline.
  cbn [om_from to_bare om_to_user om_id om_payload om_active]. rewrite <- (app_nil_r (le32 a)).
  f_equal.
  - by apply field_head.
  - by apply (field_app f).
  - rewrite (app_assoc f). apply (field_app (f ++ b)); rewrite ?length_app; lia.
  - rewrite (app_assoc f), (app_assoc (f ++ b)).
    apply (field_app ((f ++ b) ++ u)); rewrite ?length_app; lia.
  - rewrite (app_assoc f), (app_assoc (f ++ b)), (app_assoc ((f ++ b) ++ u)).
    apply (field_app (((f ++ b) ++ u) ++ i)); rewrite ?length_app; lia.
  - rewrite !drop_skip by lia.
    replace (1248 - length f - length b - length u - length i - length p)%nat with O by lia.
    by apply of_le32s_le32.
Qed.

(** ** Arrays *)

Lemma concat_length (size : nat) (ls : list (list Z)) :
  Forall (fun l => length l = size) ls -> length (concat ls) = (size * length ls)%nat.
Proof.
  induction 1 as [|l ls Hl _ IH]; simpl; [lia|]. rewrite length_app, IH, Hl. lia.
Qed.

Lemma entries_concat (size : nat) (ls : list (list Z)) (pad : list Z) :
  Forall (fun l => length l = size) ls -> entries size (length ls) (concat ls ++ pad) = ls.
Proof.
  induction 1 as [|l ls <- _ IH]; simpl; [done|].
  rewrite <- app_assoc, take_app_length, drop_app_length. by rewrite IH.
Qed.

(** An array survives the way to its region and back. *)
Lemma array_roundtrip {A} (enc : A -> list Z) (dec : list Z -> A) (ok : A -> Prop) (size n : nat)
    (l : list A) (pad : list Z) :
  (forall e, ok e -> length (enc e) = size) -> (forall e, ok e -> dec (enc e) = e) ->
  Forall ok l -> length l = n ->
  map dec (entries size n (concat (map enc l) ++ pad)) = l.
Proof.
  intros Hlen Hdec Hok <-. rewrite <- (length_map enc), entries_concat.
  - rewrite map_map. induction Hok as [|e l He _ IH]; simpl; [done|]. rewrite Hdec by done. by f_equal.
  - apply Forall_map. by eapply Forall_impl.
Qed.

Lemma image_length {A} (enc : A -> list Z) (ok : A -> Prop) (size : nat) (l : list A) :
  (forall e, ok e -> length (enc e) = size) -> Forall ok l ->
  length (concat (map enc l)) = (size * length l)%nat.
Proof.
  intros Hlen Hok. rewrite (concat_length size), length_map; [done|].
  apply Forall_map. by eapply Forall_impl.
Qed.

(** ** Rooms *)

(** A string copied over zeros, leaving the last byte. *)
Lemma strncpy_zeros_idemp (k : nat) (s : list Z) :
  strncpy (zeros (S k)) (strncpy (zeros (S k)) s k) k = strncpy (zeros (S k)) s k.
Proof.
  assert (cstr (strncpy (zeros (S k)) s k) = take k (cstr s)) as E.
  { apply strncpy_cstr. unfold at_, zeros. rewrite drop_replicate.
    by replace (S k - k)%nat with 1%nat by lia. }
  rewrite (strncpy_eq k _ (strncpy _ _ _)), E, strncpy_eq.
  rewrite take_take, Nat.min_id, length_take.
  by replace (k - Nat.min k (length (cstr s)))%nat with (k - length (cstr s))%nat by lia.
Qed.

Lemma strncpy_zeros_length (k n : nat) (s : list Z) :
  (k <= n)%nat -> length (strncpy (zeros n) s k) = n.
Proof.
  intros Hk. rewrite strncpy_length; unfold zeros; rewrite length_replicate; done.
Qed.

Record room_ok (r : room_t) : Prop := {
  rmo_ints : Forall int32 [semi_anon r; locked r; room_active r; persistent r; moderated r;
                           members_only r];
  rmo_banned : 0 <= banned_count r <= 8
}.

(** What is kept of a room across a restart: everything but its occupants. *)
Definition room_kept (r : room_t) : room_t :=
  mk_room (strncpy (zeros 32) (room_name r) 31) (replicate MAX_USERS_PER_ROOM participant0)
    (strncpy (zeros 64) (creator_jid r) 63) (semi_anon r) (locked r) (room_active r)
    (persistent r) (moderated r) (members_only r) (room_banned r) (banned_count r)
    (strncpy (zeros 256) (subject r) 255).

Lemma room_banned_lengths r : Forall (fun l => length l = 64%nat) (room_banned r).
Proof.
  unfold room_banned. apply Forall_map, Forall_forall. intros bi _.
  destruct (_ <? _); [|done]. apply strncpy_zeros_length. lia.
Qed.

Lemma room_banned_length r : length (room_banned r) = 8%nat.
Proof. unfold room_banned. by rewrite length_map, length_seq. Qed.

Lemma enc_room_length r : length (enc_room r) = ROOM_SIZE.
Proof.
  unfold enc_room, ROOM_SIZE. rewrite !length_app, !le32_length, !strncpy_zeros_length by lia.
  rewrite (concat_length 64) by apply room_banned_lengths. rewrite room_banned_length. lia.
Qed.

Lemma room_banned_kept r : 0 <= banned_count r <= 8 -> room_banned (room_kept r) = room_banned r.
Proof.
  intros _. unfold room_banned at 1. cbn [banned_count banned_jids room_kept].
  unfold room_banned. apply map_ext_in. intros bi Hbi.
  apply in_seq in Hbi. rewrite list_lookup_fmap. rewrite lookup_seq_lt by (unfold MAX_BANNED_PER_ROOM in *; lia).
  cbn [fmap option_fmap option_map default].
  unfold id. rewrite Nat.add_0_l. destruct (_ <? _); [|done]. apply (strncpy_zeros_idemp 63).
Qed.

(** Saving the restored room gives the same image. *)
Lemma enc_room_kept r : room_ok r -> enc_room (room_kept r) = enc_room r.
Proof.
  intros [_ Hb]. unfold enc_room at 1. rewrite room_banned_kept by done.
  cbn [room_name creator_jid semi_anon locked room_active persistent moderated members_only
       banned_count subject room_kept].
  by rewrite (strncpy_zeros_idemp 31), (strncpy_zeros_idemp 63), (strncpy_zeros_idemp 255).
Qed.

Lemma field_concat (ls : list (list Z)) (post : list Z) (k i : nat) (f : list Z) :
  Forall (fun l => length l = k) ls -> ls !! i = Some f ->
  field (concat ls ++ post) (k * i) k = f.
Proof.
  revert i; induction ls as [|l ls IH]; intros i F E; [done|].
  apply Forall_cons in F as [Hl F]. destruct i as [|i]; simpl in *.
  - simplify_eq. rewrite Nat.mul_0_r, <- app_assoc. by apply field_head.
  - rewrite <- app_assoc, field_skip by lia.
    replace (k * S i - length l)%nat with (k * i)%nat by lia. by apply IH.
Qed.

(** The integer at a literal offset of the room image. *)
Ltac int_at := rewrite !drop_skip by (rewrite ?le32_length; lia);
  match goal with |- of_le32s (drop ?k _) = _ => replace k with O by (rewrite ?le32_length; lia) end;
  rewrite drop_0; apply of_le32s_le32.

Lemma dec_enc_room r : room_ok r -> dec_room (enc_room r) = room_kept r.
Proof.
  intros [Hi Hb]. apply Forall_cons in Hi as [I1 Hi]. apply Forall_cons in Hi as [I2 Hi].
  apply Forall_cons in Hi as [I3 Hi]. apply Forall_cons in Hi as [I4 Hi].
  apply Forall_cons in Hi as [I5 Hi]. apply Forall_cons in Hi as [I6 _].
  assert (int32 (banned_count r)) as I7 by (unfold int32; lia).
  pose proof (strncpy_zeros_length 31 32 (room_name r) ltac:(lia)) as L1.
  pose proof (strncpy_zeros_length 63 64 (creator_jid r) ltac:(lia)) as L2.
  pose proof (strncpy_zeros_length 255 256 (subject r) ltac:(lia)) as L3.
  assert (of_le32s (drop 120 (enc_room r)) = banned_count r) as Ebc.
  { unfold enc_room. int_at. done. }
  unfold dec_room, room_kept. rewrite Ebc.
  replace (if 8 <? banned_count r then 8 else banned_count r) with (banned_count r)
    by (destruct (Z.ltb_spec 8 (banned_count r)); lia).
  f_equal; try (unfold enc_room; int_at; done).
  - unfold enc_room. rewrite field_head by done. apply (strncpy_zeros_idemp 31).
  - unfold enc_room. rewrite (field_app (strncpy (zeros 32) (room_name r) 31)) by done.
    apply (strncpy_zeros_idemp 63).
  - unfold room_banned at 1. apply map_ext_in. intros bi Hbi. apply in_seq in Hbi.
    destruct (Z.of_nat bi <? banned_count r) eqn:E; [|done].
    replace (field (enc_room r) (124 + 64 * bi) 64)
      with (strncpy (zeros 64) (default (zeros 64) (banned_jids r !! bi)) 63);
      [apply (strncpy_zeros_idemp 63)|].
    unfold enc_room. rewrite !field_skip by (rewrite ?le32_length; lia). symmetry.
    match goal with |- field _ ?o _ = _ => replace o with (64 * bi)%nat by (rewrite ?le32_length; lia) end.
    apply field_concat; [apply room_banned_lengths|].
    unfold room_banned. rewrite list_lookup_fmap, lookup_seq_lt by (unfold MAX_BANNED_PER_ROOM in *; lia).
    cbn [fmap option_fmap option_map]. by rewrite Nat.add_0_l, E.
  - unfold enc_room. rewrite !field_skip by (rewrite ?le32_length, ?(concat_length 64), ?room_banned_length by apply room_banned_lengths; lia).
    rewrite (concat_length 64), room_banned_length by apply room_banned_lengths.
    rewrite <- (app_nil_r (strncpy (zeros 256) (subject r) 255)).
    match goal with |- context [field _ ?o _] => replace o with O by (rewrite ?le32_length; lia) end.
    rewrite field_head, app_nil_r by done. apply (strncpy_zeros_idemp 255).
Qed.

(** ** The checksum *)

Definition word32 (x : Z) : Prop := 0 <= x < 2 ^ 32.

Lemma crc_bit_even_odd (x : Z) :
  crc_bit x = if Z.testbit x 0 then Z.lxor (Z.shiftr x 1) 0xEDB88320 else Z.shiftr x 1.
Proof.
  unfold crc_bit. change 1 with (Z.ones 1) at 2. rewrite Z.land_ones by lia.
  rewrite Z.bit0_odd, Zodd_mod. change (2 ^ 1) with 2.
  pose proof (Z.mod_pos_bound x 2 ltac:(lia)).
  destruct (Z.eq_dec (x mod 2) 1) as [->|].
  - done.
  - replace (x mod 2) with 0 by lia. simpl. by rewrite Z.lxor_0_r.
Qed.

Lemma crc_bit_word (x : Z) : word32 x -> word32 (crc_bit x).
Proof.
  unfold word32. intros Hx. rewrite crc_bit_even_odd.
  assert (0 <= Z.shiftr x 1 < 2 ^ 32).
  { rewrite Z.shiftr_div_pow2 by lia. change (2 ^ 1) with 2.
    Z.to_euclidean_division_equations. lia. }
  destruct (Z.testbit x 0); [|done]. apply (lxor_bound 32); lia.
Qed.

(** A checksum step loses nothing: the bit shifted out comes back in the top
    bit, because the polynomial has its top bit set. *)
Lemma crc_bit_inj (x y : Z) : word32 x -> word32 y -> crc_bit x = crc_bit y -> x = y.
Proof.
  unfold word32. intros Hx Hy. rewrite !crc_bit_even_odd. intros E.
  assert (forall z, 0 <= z < 2 ^ 32 -> Z.testbit (Z.shiftr z 1) 31 = false) as Htop.
  { intros z Hz. rewrite Z.shiftr_spec by lia. by apply (testbit_above 32); lia. }
  assert (Z.testbit x 0 = Z.testbit y 0) as E0.
  { apply (f_equal (fun z => Z.testbit z 31)) in E.
    destruct (Z.testbit x 0), (Z.testbit y 0); try done; exfalso; revert E;
      rewrite ?Z.lxor_spec, ?Htop by done; done. }
  assert (Z.shiftr x 1 = Z.shiftr y 1) as E1.
  { rewrite E0 in E. destruct (Z.testbit y 0); [|done].
    apply (f_equal (fun z => Z.lxor z 0xEDB88320)) in E.
    by rewrite !Z.lxor_assoc, !Z.lxor_nilpotent, !Z.lxor_0_r in E. }
  apply Z.bits_inj'. intros i Hi. destruct (Z.eq_dec i 0) as [->|]; [done|].
  replace i with ((i - 1) + 1) by lia. rewrite <- !Z.shiftr_spec by lia. by rewrite E1.
Qed.

Lemma crc_iter_word (n : nat) (x : Z) : word32 x -> word32 (Nat.iter n crc_bit x).
Proof. intros Hx. induction n; simpl; [done|by apply crc_bit_word]. Qed.

Lemma crc_iter_inj (n : nat) (x y : Z) :
  word32 x -> word32 y -> Nat.iter n crc_bit x = Nat.iter n crc_bit y -> x = y.
Proof.
  intros Hx Hy. induction n as [|n IH]; simpl; [done|].
  intros E. apply IH. apply crc_bit_inj; [by apply crc_iter_word..|done].
Qed.

#[local] Opaque crc_bit.

Lemma u8_word b : word32 (u8 b).
Proof. unfold word32, u8. pose proof (Z.mod_pos_bound b (2 ^ 8) ltac:(lia)). lia. Qed.

Lemma lxor_word x y : word32 x -> word32 y -> word32 (Z.lxor x y).
Proof. apply (lxor_bound 32). lia. Qed.

Lemma crc_byte_word c b : word32 c -> word32 (crc_byte c b).
Proof. intros Hc. unfold crc_byte. apply crc_iter_word, lxor_word; [done|apply u8_word]. Qed.

Lemma crc_byte_inj c c' b b' :
  word32 c -> word32 c' -> crc_byte c b = crc_byte c' b' -> Z.lxor c (u8 b) = Z.lxor c' (u8 b').
Proof.
  intros Hc Hc' E. unfold crc_byte in E.
  apply crc_iter_inj in E; [done|apply lxor_word; [done|apply u8_word]..].
Qed.

Lemma crc_byte_inj_state c c' b :
  word32 c -> word32 c' -> crc_byte c b = crc_byte c' b -> c = c'.
Proof.
  intros Hc Hc' E. apply crc_byte_inj in E; [|done..].
  apply (f_equal (fun z => Z.lxor z (u8 b))) in E.
  by rewrite !Z.lxor_assoc, !Z.lxor_nilpotent, !Z.lxor_0_r in E.
Qed.

Lemma crc_byte_inj_byte c b b' :
  word32 c -> crc_byte c b = crc_byte c b' -> u8 b = u8 b'.
Proof.
  intros Hc E. apply crc_byte_inj in E; [|done..].
  apply (f_equal (fun z => Z.lxor c z)) in E.
  by rewrite <- !Z.lxor_assoc, !Z.lxor_nilpotent, !Z.lxor_0_l in E.
Qed.

#[local] Opaque crc_byte.

Lemma crc_run_cons c b l : crc_run c (b :: l) = crc_run (crc_byte c b) l.
Proof. reflexivity. Qed.

Lemma crc_run_word l c : word32 c -> word32 (crc_run c l).
Proof.
  revert c; induction l as [|b l IH]; intros c Hc; [done|].
  rewrite crc_run_cons. by apply IH, crc_byte_word.
Qed.

Lemma crc_run_inj l c c' : word32 c -> word32 c' -> crc_run c l = crc_run c' l -> c = c'.
Proof.
  revert c c'; induction l as [|b l IH]; intros c c' Hc Hc' E; [done|].
  rewrite !crc_run_cons in E.
  apply IH in E; [|by apply crc_byte_word..]. by apply crc_byte_inj_state in E.
Qed.

Lemma crc_run_app c l1 l2 : crc_run c (l1 ++ l2) = crc_run (crc_run c l1) l2.
Proof. apply fold_left_app. Qed.

(** All the bytes under the checksum, in order. *)
Definition all_images (s : srv) : list Z :=
  private_image s ++ roster_image s ++ rooms_image s ++ offline_image s ++ pending_image s.

Lemma compute_full_crc_eq s :
  compute_full_crc s = Z.lxor (crc_run 0xFFFFFFFF (all_images s)) 0xFFFFFFFF.
Proof. unfold compute_full_crc, all_images. by rewrite !crc_run_app. Qed.

Lemma compute_full_crc_word s : word32 (compute_full_crc s).
Proof.
  rewrite compute_full_crc_eq. apply (lxor_bound 32); [lia| |lia].
  apply crc_run_word. unfold word32. lia.
Qed.

(** Two byte strings that differ in exactly one byte have different checksums. *)
Lemma crc_single_byte (pre post : list Z) (b b' : Z) :
  u8 b <> u8 b' ->
  crc_run 0xFFFFFFFF (pre ++ b :: post) <> crc_run 0xFFFFFFFF (pre ++ b' :: post).
Proof.
  intros Hne E. rewrite !crc_run_app, !crc_run_cons in E.
  assert (word32 (crc_run 0xFFFFFFFF pre)) as Hw by (apply crc_run_word; unfold word32; lia).
  apply crc_run_inj in E; [|by apply crc_byte_word..]. by apply crc_byte_inj_byte in E.
Qed.

(** ** Regions *)

Inductive region := RPrivate | RRoster | RRooms | ROffline | RPending.

#[export] Instance region_eq_dec : EqDecision region.
Proof. solve_decision. Defined.

Definition start (r : region) : nat :=
  match r with
  | RPrivate => LBA_PRIVATE_START | RRoster => LBA_ROSTER_START | RRooms => LBA_ROOMS_START
  | ROffline => LBA_OFFLINE_START | RPending => LBA_PENDING_SUBS_START
  end.

Definition sectors (r : region) : nat :=
  match r with
  | RPrivate => LBA_PRIVATE_SECTORS | RRoster => LBA_ROSTER_SECTORS | RRooms => LBA_ROOMS_SECTORS
  | ROffline => LBA_OFFLINE_SECTORS | RPending => LBA_PENDING_SUBS_SECTORS
  end.

Definition image (r : region) : srv -> list Z :=
  match r with
  | RPrivate => private_image | RRoster => roster_image | RRooms => rooms_image
  | ROffline => offline_image | RPending => pending_image
  end.

(** The size of the part of the disk the server uses. *)
Definition DISK_SIZE : nat := 194 * SECTOR.

(** The five saving functions, by region. *)
Definition save_region `{Env} (r : region) : M unit :=
  match r with
  | RPrivate => xmpp_persist_save_private | RRoster => xmpp_persist_save_roster
  | RRooms => xmpp_persist_save_rooms | ROffline => xmpp_persist_save_offline
  | RPending => xmpp_persist_save_pending_subs
  end.

(** What the C declarations of the stores guarantee. *)
Record stores_ok (s : srv) : Prop := {
  so_private : Forall private_ok (private_store s) /\ length (private_store s) = PRIVATE_STORAGE_SLOTS;
  so_roster : Forall roster_ok (roster_store s) /\ length (roster_store s) = MAX_ROSTER_ENTRIES;
  so_rooms : Forall room_ok (rooms s) /\ length (rooms s) = MAX_ROOMS;
  so_offline : Forall offline_ok (offline_store s) /\ length (offline_store s) = MAX_OFFLINE_MSGS;
  so_pending : Forall pending_ok (pending_subs s) /\ length (pending_subs s) = MAX_PENDING_SUBS
}.

(** A region of the disk holds the store of [s]. *)
Definition region_saved (d : list Z) (s : srv) (r : region) : Prop :=
  field d (start r * SECTOR) (sectors r * SECTOR) = padded (sectors r) (image r s).

Definition header_saved (d : list Z) (s : srv) : Prop :=
  field d 0 SECTOR = header (compute_full_crc s).

(** The disk holds the stores of [s]. *)
Record saved (d : list Z) (s : srv) : Prop := {
  sv_size : (DISK_SIZE <= length d)%nat;
  sv_header : header_saved d s;
  sv_regions : forall r, region_saved d s r
}.

Lemma image_fits s r : stores_ok s -> (length (image r s) <= sectors r * SECTOR)%nat.
Proof.
  intros [[P1 P2] [R1 R2] [M1 M2] [O1 O2] [Q1 Q2]].
  destruct r; cbn [image sectors];
    unfold private_image, roster_image, rooms_image, offline_image, pending_image.
  - rewrite (image_length _ private_ok PRIVATE_SIZE), P2; [|apply enc_private_length|done].
    unfold PRIVATE_SIZE, PRIVATE_STORAGE_SLOTS, LBA_PRIVATE_SECTORS, SECTOR. lia.
  - rewrite (image_length _ roster_ok ROSTER_SIZE), R2; [|apply enc_roster_length|done].
    unfold ROSTER_SIZE, MAX_ROSTER_ENTRIES, LBA_ROSTER_SECTORS, SECTOR. lia.
  - rewrite (image_length _ room_ok ROOM_SIZE), M2; [|intros; apply enc_room_length|done].
    unfold ROOM_SIZE, MAX_ROOMS, LBA_ROOMS_SECTORS, SECTOR. lia.
  - rewrite (image_length _ offline_ok OFFLINE_SIZE), O2; [|apply enc_offline_length|done].
    unfold OFFLINE_SIZE, MAX_OFFLINE_MSGS, LBA_OFFLINE_SECTORS, SECTOR. lia.
  - rewrite (image_length _ pending_ok PENDING_SIZE), Q2; [|apply enc_pending_length|done].
    unfold PENDING_SIZE, MAX_PENDING_SUBS, LBA_PENDING_SUBS_SECTORS, SECTOR. lia.
Qed.

Lemma padded_length n img : (length img <= n * SECTOR)%nat -> length (padded n img) = (n * SECTOR)%nat.
Proof. intros Hl. unfold padded, zeros. rewrite length_app, length_replicate. lia. Qed.

(** The regions and the header sector do not overlap and lie on the disk. *)
Lemma regions_disjoint r r' :
  r <> r' -> (start r + sectors r <= start r' \/ start r' + sectors r' <= start r)%nat.
Proof.
  intros Hne. destruct r, r'; try done; cbn [start sectors];
    unfold LBA_PRIVATE_START, LBA_PRIVATE_SECTORS, LBA_ROSTER_START, LBA_ROSTER_SECTORS,
      LBA_ROOMS_START, LBA_ROOMS_SECTORS, LBA_OFFLINE_START, LBA_OFFLINE_SECTORS,
      LBA_PENDING_SUBS_START, LBA_PENDING_SUBS_SECTORS; lia.
Qed.

Lemma region_bounds r : (1 <= start r /\ start r + sectors r <= 194)%nat.
Proof.
  destruct r; cbn [start sectors];
    unfold LBA_PRIVATE_START, LBA_PRIVATE_SECTORS, LBA_ROSTER_START, LBA_ROSTER_SECTORS,
      LBA_ROOMS_START, LBA_ROOMS_SECTORS, LBA_OFFLINE_START, LBA_OFFLINE_SECTORS,
      LBA_PENDING_SUBS_START, LBA_PENDING_SUBS_SECTORS; lia.
Qed.

Lemma splice_same (o n : nat) (buf d : list Z) :
  length buf = n -> (o + n <= length d)%nat -> field (splice o buf d) o n = buf.
Proof.
  intros Hb Hd. unfold splice. apply field_app; [rewrite length_take; lia|done].
Qed.

Lemma splice_other (o o' n : nat) (buf d : list Z) :
  (o + length buf <= length d)%nat -> (o' + n <= o \/ o + length buf <= o')%nat ->
  field (splice o buf d) o' n = field d o' n.
Proof.
  intros Hd Hdis. unfold splice, field. destruct Hdis as [Hl|Hr].
  - rewrite drop_app_le by (rewrite length_take; lia).
    rewrite take_app_le by (rewrite length_drop, length_take; lia).
    rewrite <- (take_drop o d) at 2. rewrite drop_app_le by (rewrite length_take; lia).
    by rewrite take_app_le by (rewrite length_drop, length_take; lia).
  - rewrite drop_app_ge by (rewrite length_take; lia). rewrite drop_app_ge; rewrite length_take; [|lia].
    rewrite drop_drop. do 2 f_equal. lia.
Qed.

Lemma splice_length (o : nat) (buf d : list Z) :
  (o + length buf <= length d)%nat -> length (splice o buf d) = length d.
Proof. intros Hd. unfold splice. rewrite !length_app, length_take, length_drop. lia. Qed.

(** ** Saving *)

Lemma disk_write_ok `{Env} (lba : nat) (buf : list Z) (s : srv) :
  disk_result (calls s) = 0 ->
  disk_write_sectors lba buf s =
  (0, set_calls (S (calls s)) (set_disk (splice (lba * SECTOR) buf (disk s)) s)).
Proof.
  intros E. unfold disk_write_sectors, call, gets, modify, mbind, M_bind, mret, M_ret.
  cbv beta iota. rewrite E. reflexivity.
Qed.

(** What a save that meets no disk error leaves: the same stores, the region
    and the header rewritten. *)
Lemma save_region_ok `{Env} (r : region) (s : srv) :
  disk_result (calls s) = 0 -> disk_result (S (calls s)) = 0 ->
  save_region r s =
  (tt, set_calls (S (S (calls s)))
        (set_disk (splice 0 (header (compute_full_crc s))
                    (splice (start r * SECTOR) (padded (sectors r) (image r s)) (disk s))) s)).
Proof.
  intros E1 E2.
  assert (forall lba n img, save lba n img s =
    (tt, set_calls (S (S (calls s)))
        (set_disk (splice 0 (header (compute_full_crc s))
                    (splice (lba * SECTOR) (padded n (img s)) (disk s))) s))) as Hsave.
  { intros lba n img. unfold save, write_header. unfold mbind, M_bind, gets.
    rewrite disk_write_ok by done. cbn [negb Z.eqb]. unfold id.
    rewrite disk_write_ok by done. reflexivity. }
  destruct r; apply Hsave.
Qed.

Lemma header_length crc : length (header crc) = SECTOR.
Proof. reflexivity. Qed.

Lemma save_region_saved `{Env} (r : region) (s : srv) :
  stores_ok s -> (DISK_SIZE <= length (disk s))%nat ->
  (forall r', r' <> r -> region_saved (disk s) s r') ->
  disk_result (calls s) = 0 -> disk_result (S (calls s)) = 0 ->
  saved (disk (snd (save_region r s))) s.
Proof.
  intros Hok Hsz Hother E1 E2. rewrite save_region_ok by done. cbn [snd disk set_calls set_disk].
  pose proof (padded_length (sectors r) (image r s) (image_fits s r Hok)) as Lp.
  pose proof (region_bounds r) as Br. unfold DISK_SIZE in Hsz.
  assert (start r * SECTOR + length (padded (sectors r) (image r s)) <= length (disk s))%nat as Hfit
    by (rewrite Lp; unfold SECTOR in *; lia).
  pose proof (splice_length _ _ _ Hfit) as Ls.
  split.
  - rewrite splice_length; rewrite Ls; unfold DISK_SIZE; [done|rewrite header_length; unfold SECTOR in *; lia].
  - apply splice_same; [apply header_length|rewrite Ls; unfold SECTOR in *; lia].
  - intros r'. unfold region_saved. pose proof (region_bounds r').
    rewrite splice_other; [|rewrite Ls, header_length; unfold SECTOR in *; lia|right; rewrite header_length; unfold SECTOR in *; lia].
    destruct (decide (r' = r)) as [->|Hne].
    + apply splice_same; [by rewrite Lp|rewrite Lp in Hfit; lia].
    + rewrite splice_other; [by apply Hother|done|]. rewrite Lp.
      pose proof (regions_disjoint r' r Hne). unfold SECTOR in *. lia.
Qed.

(** ** Loading *)

Lemma read_or_fail_ok `{Env} (lba n : nat) (k : list Z -> M bool) (s : srv) :
  (forall m, disk_result m = 0) ->
  read_or_fail lba n k s = k (field (disk s) (lba * SECTOR) (n * SECTOR)) (set_calls (S (calls s)) s).
Proof.
  intros E. unfold read_or_fail, disk_read_sectors, call, gets, modify, mbind, M_bind, mret, M_ret.
  cbv beta iota. rewrite E. reflexivity.
Qed.

(** The stores of [s] as a restart brings them back. *)
Definition restored (s s' : srv) : Prop :=
  private_store s' = private_store s /\ roster_store s' = roster_store s /\
  rooms s' = map room_kept (rooms s) /\ offline_store s' = offline_store s /\
  pending_subs s' = pending_subs s.

Lemma load_stores_restored (d : list Z) (s boot : srv) :
  stores_ok s -> saved d s ->
  let get r := field d (start r * SECTOR) (sectors r * SECTOR) in
  restored s (load_stores (get RPrivate) (get RRoster) (get RRooms) (get ROffline) (get RPending) boot).
Proof.
  intros [[P1 P2] [R1 R2] [M1 M2] [O1 O2] [Q1 Q2]] [_ _ Hr]. cbv zeta. rewrite !Hr.
  unfold restored, load_stores, padded.
  cbn [private_store roster_store rooms offline_store pending_subs image sectors
       set_private_store set_roster_store set_rooms set_offline_store set_pending_subs].
  split_and!.
  - by apply (array_roundtrip _ _ private_ok); [apply enc_private_length|apply dec_enc_private|..].
  - by apply (array_roundtrip _ _ roster_ok); [apply enc_roster_length|apply dec_enc_roster|..].
  - unfold rooms_image. rewrite <- M2, <- (length_map enc_room), entries_concat.
    + rewrite map_map. clear -M1. induction M1 as [|e l He _ IH]; simpl; [done|].
      rewrite dec_enc_room by done. by f_equal.
    + apply Forall_map, Forall_forall. intros. apply enc_room_length.
  - by apply (array_roundtrip _ _ offline_ok); [apply enc_offline_length|apply dec_enc_offline|..].
  - by apply (array_roundtrip _ _ pending_ok); [apply enc_pending_length|apply dec_enc_pending|..].
Qed.

Lemma restored_crc s s' : stores_ok s -> restored s s' -> compute_full_crc s' = compute_full_crc s.
Proof.
  intros [_ _ [M1 _] _ _] (E1 & E2 & E3 & E4 & E5). unfold compute_full_crc.
  assert (rooms_image s' = rooms_image s) as ->.
  { unfold rooms_image. rewrite E3, map_map. f_equal. clear -M1.
    induction M1 as [|r l Hr _ IH]; simpl; [done|]. rewrite enc_room_kept by done. by f_equal. }
  unfold private_image, roster_image, offline_image, pending_image. by rewrite E1, E2, E4, E5.
Qed.

(** [try_load] when no read fails. *)
Lemma try_load_ok `{Env} (s : srv) :
  (forall m, disk_result m = 0) ->
  let hdr := field (disk s) 0 SECTOR in
  let get r := field (disk s) (start r * SECTOR) (sectors r * SECTOR) in
  let s' := load_stores (get RPrivate) (get RRoster) (get RRooms) (get ROffline) (get RPending)
              (set_calls (6 + calls s) s) in
  of_le32 hdr = PERSIST_MAGIC -> of_le32 (drop 4 hdr) = PERSIST_VERSION ->
  try_load s = (of_le32 (drop 8 hdr) =? compute_full_crc s', s').
Proof.
  cbv zeta. intros E E1 E2. unfold try_load. rewrite read_or_fail_ok by done.
  change (LBA_HEADER * SECTOR)%nat with O. change (1 * SECTOR)%nat with SECTOR.
  rewrite E1, E2. change (negb (PERSIST_MAGIC =? PERSIST_MAGIC)) with false.
  change (negb (PERSIST_VERSION =? PERSIST_VERSION)) with false. cbv iota.
  rewrite !read_or_fail_ok by done. reflexivity.
Qed.

Lemma header_fields crc :
  word32 crc ->
  of_le32 (header crc) = PERSIST_MAGIC /\ of_le32 (drop 4 (header crc)) = PERSIST_VERSION /\
  of_le32 (drop 8 (header crc)) = crc.
Proof.
  intros Hc. unfold header. split_and!.
  - rewrite of_le32_le32. reflexivity.
  - rewrite drop_skip by (rewrite le32_length; lia). rewrite le32_length.
    change (4 - 4)%nat with O. rewrite drop_0, of_le32_le32. reflexivity.
  - rewrite !drop_skip by (rewrite !le32_length; lia). rewrite !le32_length.
    change (8 - 4 - 4)%nat with O. rewrite drop_0, of_le32_le32. by apply Z.mod_small.
Qed.

Lemma load_all_saved `{Env} (s boot : srv) :
  (forall m, disk_result m = 0) -> stores_ok s -> saved (disk boot) s ->
  restored s (snd (xmpp_persist_load_all boot)) /\
  disk (snd (xmpp_persist_load_all boot)) = disk boot.
Proof.
  intros E Hok Hs. pose proof (sv_header _ _ Hs) as Hh. unfold header_saved in Hh.
  destruct (header_fields _ (compute_full_crc_word s)) as (F1 & F2 & F3).
  pose proof (load_stores_restored _ _ (set_calls (6 + calls boot) boot) Hok Hs) as Hr.
  unfold xmpp_persist_load_all, mbind, M_bind.
  rewrite try_load_ok; [|done|by rewrite Hh|by rewrite Hh].
  rewrite Hh, F3. rewrite (restored_crc _ _ Hok Hr), Z.eqb_refl. split; [exact Hr|done].
Qed.

(** ** Power loss between the region and its header *)

Lemma fresh_start_clears `{Env} (s : srv) :
  (forall m, disk_result m = 0) ->
  let s' := snd (fresh_start s) in
  private_store s' = replicate PRIVATE_STORAGE_SLOTS private0 /\
  roster_store s' = replicate MAX_ROSTER_ENTRIES roster0 /\
  rooms s' = replicate MAX_ROOMS room0 /\
  offline_store s' = replicate MAX_OFFLINE_MSGS offline0 /\
  pending_subs s' = replicate MAX_PENDING_SUBS pending0.
Proof.
  intros E. unfold fresh_start, write_header. unfold mbind, M_bind, modify, gets.
  rewrite !disk_write_ok by apply E. done.
Qed.

Lemma load_all_mismatch `{Env} (s0 s boot : srv) :
  (forall m, disk_result m = 0) -> stores_ok s -> header_saved (disk boot) s0 ->
  (DISK_SIZE <= length (disk boot))%nat -> (forall r, region_saved (disk boot) s r) ->
  compute_full_crc s0 <> compute_full_crc s ->
  let s' := snd (xmpp_persist_load_all boot) in
  private_store s' = replicate PRIVATE_STORAGE_SLOTS private0 /\
  roster_store s' = replicate MAX_ROSTER_ENTRIES roster0 /\
  rooms s' = replicate MAX_ROOMS room0 /\
  offline_store s' = replicate MAX_OFFLINE_MSGS offline0 /\
  pending_subs s' = replicate MAX_PENDING_SUBS pending0.
Proof.
  intros E Hok Hh Hsz Hreg Hne. cbv zeta.
  assert (restored s (load_stores
    (field (disk boot) (start RPrivate * SECTOR) (sectors RPrivate * SECTOR))
    (field (disk boot) (start RRoster * SECTOR) (sectors RRoster * SECTOR))
    (field (disk boot) (start RRooms * SECTOR) (sectors RRooms * SECTOR))
    (field (disk boot) (start ROffline * SECTOR) (sectors ROffline * SECTOR))
    (field (disk boot) (start RPending * SECTOR) (sectors RPending * SECTOR))
    (set_calls (6 + calls boot) boot))) as Hr.
  { (* the header plays no part in the stores read back *)
    set (d := splice 0 (header (compute_full_crc s)) (disk boot)).
    assert (saved d s) as Hsv.
    { unfold DISK_SIZE in Hsz. split.
      - unfold d. rewrite splice_length; [done|rewrite header_length; unfold SECTOR in *; lia].
      - apply splice_same; [apply header_length|unfold SECTOR in *; lia].
      - intros r. unfold region_saved, d. pose proof (region_bounds r).
        rewrite splice_other; [apply Hreg|rewrite header_length; unfold SECTOR in *; lia|].
        right. rewrite header_length. unfold SECTOR. lia. }
    clearbody d.
    pose proof (load_stores_restored d s (set_calls (6 + calls boot) boot) Hok Hsv) as R.
    assert (forall r, field d (start r * SECTOR) (sectors r * SECTOR) =
                      field (disk boot) (start r * SECTOR) (sectors r * SECTOR)) as Ed.
    { intros r. rewrite (sv_regions _ _ Hsv r). symmetry. apply Hreg. }
    cbv beta zeta in R. rewrite (Ed RPrivate), (Ed RRoster), (Ed RRooms), (Ed ROffline), (Ed RPending) in R.
    exact R. }
  unfold header_saved in Hh.
  destruct (header_fields _ (compute_full_crc_word s0)) as (F1 & F2 & F3).
  unfold xmpp_persist_load_all, mbind, M_bind.
  rewrite try_load_ok; [|done|by rewrite Hh|by rewrite Hh].
  rewrite Hh, F3, (restored_crc _ _ Hok Hr).
  destruct (Z.eqb_spec (compute_full_crc s0) (compute_full_crc s)); [done|].
  by apply fresh_start_clears.
Qed.

(** ** The empty stores *)

Lemma concat_zeros (n k : nat) : concat (replicate n (zeros k)) = zeros (n * k).
Proof.
  unfold zeros. induction n as [|n IH]; simpl; [done|]. by rewrite IH, replicate_add.
Qed.

Lemma map_replicate' {A B} (f : A -> B) n x : map f (replicate n x) = replicate n (f x).
Proof. induction n as [|n IH]; simpl; [done|]. by rewrite IH. Qed.

Lemma cleared_image s r : exists k, image r (clear_stores s) = zeros k.
Proof.
  destruct r; cbn [image];
    unfold private_image, roster_image, rooms_image, offline_image, pending_image;
    cbn [private_store roster_store rooms offline_store pending_subs clear_stores
         set_private_store set_roster_store set_rooms set_offline_store set_pending_subs];
    rewrite map_replicate'; eexists.
  - change (enc_private private0) with (zeros PRIVATE_SIZE). apply concat_zeros.
  - change (enc_roster roster0) with (zeros ROSTER_SIZE). apply concat_zeros.
  - replace (enc_room room0) with (zeros ROOM_SIZE) by (vm_compute; reflexivity). apply concat_zeros.
  - change (enc_offline offline0) with (zeros OFFLINE_SIZE). apply concat_zeros.
  - change (enc_pending pending0) with (zeros PENDING_SIZE). apply concat_zeros.
Qed.

Lemma cleared_ok s : stores_ok (clear_stores s).
Proof.
  split; (split; [|done]); apply Forall_replicate; split; try done;
    try (unfold int32; simpl; lia); unfold zeros; rewrite ?length_replicate; try done.
  repeat constructor; unfold int32; simpl; lia.
Qed.

Lemma cleared_saved s r :
  (DISK_SIZE <= length (disk s))%nat -> Forall (fun b => b = 0) (disk s) ->
  region_saved (disk s) (clear_stores s) r.
Proof.
  intros Hsz Hz. unfold region_saved, padded. pose proof (image_fits _ r (cleared_ok s)) as Hf.
  destruct (cleared_image s r) as [k Ek]. rewrite Ek in *. unfold zeros in *.
  rewrite length_replicate in *. rewrite <- replicate_add.
  replace (k + (sectors r * SECTOR - k))%nat with (sectors r * SECTOR)%nat by lia.
  pose proof (region_bounds r). unfold DISK_SIZE, SECTOR in *.
  assert (length (field (disk s) (start r * 512) (sectors r * 512)) = (sectors r * 512)%nat) as L.
  { unfold field. rewrite length_take, length_drop. lia. }
  symmetry. apply replicate_as_Forall. split; [done|].
  apply Forall_take, Forall_drop. by eapply Forall_impl; [exact Hz|].
Qed.

(** A concrete machine: every disk transfer succeeds. *)
Definition good_env : Env :=
  {| ssl_write := fun _ _ d => Z.of_nat (length d); disk_result := fun _ => 0;
     disk_torn := fun _ d => d; tls_setup := fun _ => 0; ssl_pulls := fun _ => [];
     ssl_pushes := fun _ => []; tcp_write_result := fun _ => 0; ssl_handshake := fun _ => 0;
     ssl_read := fun _ => (-0x6900, []); rng_addr := 4096; uninit := zeros;
     cpuid_ecx := 2 ^ 20 |}.

(** The server at power-on, with an empty disk. *)
Definition srv0 : srv :=
  clear_stores (mk_srv [] [] [] 0 [] [] [] [] (zeros DISK_SIZE) {| rng_state := 0; rng_seeded := false |}
                  [] 0 []).

Lemma srv0_regions r : region_saved (disk srv0) srv0 r.
Proof.
  apply (cleared_saved srv0).
  - cbn [disk srv0 clear_stores set_private_store set_roster_store set_rooms set_offline_store
         set_pending_subs]. unfold zeros. by rewrite length_replicate.
  - by apply Forall_replicate.
Qed.

Lemma srv0_disk : (DISK_SIZE <= length (disk srv0))%nat.
Proof.
  cbn [disk srv0 clear_stores set_private_store set_roster_store set_rooms set_offline_store
       set_pending_subs]. unfold zeros. by rewrite length_replicate.
Qed.

(** Two byte strings of the same length that differ in one byte. *)
Definition one_byte_apart (l l' : list Z) : Prop :=
  exists pre b b' post, l = pre ++ b :: post /\ l' = pre ++ b' :: post /\ u8 b <> u8 b'.

Lemma one_byte_crc s s' :
  one_byte_apart (all_images s) (all_images s') -> compute_full_crc s <> compute_full_crc s'.
Proof.
  intros (pre & b & b' & post & E & E' & Hne) Hc. rewrite !compute_full_crc_eq, E, E' in Hc.
  apply (f_equal (fun z => Z.lxor z 0xFFFFFFFF)) in Hc.
  rewrite !Z.lxor_assoc, !Z.lxor_nilpotent, !Z.lxor_0_r in Hc.
  by apply (crc_single_byte pre post b b') in Hne.
Qed.

(** All five stores are empty. *)
Definition all_cleared (s' : srv) : Prop :=
  private_store s' = replicate PRIVATE_STORAGE_SLOTS private0 /\
  roster_store s' = replicate MAX_ROSTER_ENTRIES roster0 /\
  rooms s' = replicate MAX_ROOMS room0 /\
  offline_store s' = replicate MAX_OFFLINE_MSGS offline0 /\
  pending_subs s' = replicate MAX_PENDING_SUBS pending0.

(** The disk after the region of a save was written, before its header. *)
Definition region_written (r : region) (s : srv) (d : list Z) : list Z :=
  splice (start r * SECTOR) (padded (sectors r) (image r s)) d.

Lemma region_written_saved r s s0 :
  stores_ok s -> saved (disk s0) s0 -> (forall r', r' <> r -> image r' s = image r' s0) ->
  (DISK_SIZE <= length (region_written r s (disk s0)))%nat /\
  header_saved (region_written r s (disk s0)) s0 /\
  forall r', region_saved (region_written r s (disk s0)) s r'.
Proof.
  intros Hok [Hsz Hh Hreg] Him. unfold region_written.
  pose proof (padded_length (sectors r) (image r s) (image_fits s r Hok)) as Lp.
  pose proof (region_bounds r) as Br.
  assert (start r * SECTOR + length (padded (sectors r) (image r s)) <= length (disk s0))%nat as Hfit
    by (rewrite Lp; unfold DISK_SIZE, SECTOR in *; lia).
  split_and!.
  - by rewrite splice_length.
  - unfold header_saved. rewrite splice_other; [done|done|]. unfold SECTOR. lia.
  - intros r'. unfold region_saved. destruct (decide (r' = r)) as [->|Hne].
    + apply splice_same; [by rewrite Lp|rewrite Lp in Hfit; done].
    + rewrite splice_other; [rewrite Him by done; apply Hreg|done|]. rewrite Lp.
      pose proof (regions_disjoint r' r Hne). unfold SECTOR. lia.
Qed.

Lemma saved_set_disk d d' s : saved d s -> saved d (set_disk d' s).
Proof.
  intros [H1 H2 H3]. split; [exact H1|exact H2|]. intros r. specialize (H3 r). by destruct r.
Qed.

Lemma image_set_pending r v s : r <> RPending -> image r (set_pending_subs v s) = image r s.
Proof. by destruct r. Qed.

Lemma stores_ok_set_pending v d s :
  stores_ok s -> Forall pending_ok v -> length v = MAX_PENDING_SUBS ->
  stores_ok (set_pending_subs v (set_disk d s)).
Proof. intros [H1 H2 H3 H4 _] Hv Hl. split; [exact H1|exact H2|exact H3|exact H4|by split]. Qed.

(** One byte changed in the first entry of the pending requests. *)
Lemma one_byte_pending s e e' b b' rest l :
  enc_pending e = b :: rest -> enc_pending e' = b' :: rest -> u8 b <> u8 b' ->
  pending_subs s = e :: l ->
  one_byte_apart (all_images s) (all_images (set_pending_subs (e' :: l) s)).
Proof.
  intros E E' Hne Hp.
  exists (private_image s ++ roster_image s ++ rooms_image s ++ offline_image s), b, b',
    (rest ++ concat (map enc_pending l)).
  unfold all_images, pending_image. rewrite Hp. cbn [pending_subs set_pending_subs map concat].
  rewrite E, E', <- !app_assoc. done.
Qed.

(** * Properties *)

(** Durability: when the disk holds the other four stores and a store has
    been changed in memory and saved without a disk error, then a restart that
    meets no disk error brings back all five stores as they were (the rooms
    without their occupants, who are not saved). *)
Theorem persist_survives_reboot (env : Env) (r : region) (s boot : srv) :
  (forall m, disk_result m = 0) -> stores_ok s -> (DISK_SIZE <= length (disk s))%nat ->
  (forall r', r' <> r -> region_saved (disk s) s r') ->
  disk boot = disk (snd (save_region r s)) ->
  restored s (snd (xmpp_persist_load_all boot)).
Proof.
  intros E Hok Hsz Hother Hb. apply load_all_saved; [done..|]. rewrite Hb.
  by apply save_region_saved.
Qed.

Lemma persist_survives_reboot_witness :
  let s := set_roster_store
             (<[0%nat := mk_roster (strncpy (zeros 32) (str "admin") 31)
                          (strncpy (zeros 64) (str "user1@angelic.local") 63)
                          (strncpy (zeros 256) (str "<item jid='user1@angelic.local'/>") 255) 1]>
                (roster_store srv0)) srv0 in
  restored s (snd (@xmpp_persist_load_all good_env
                     (set_disk (disk (snd (@save_region good_env RRoster s))) srv0))).
Proof.
  intros s. apply (persist_survives_reboot good_env RRoster s).
  - done.
  - destruct (cleared_ok srv0) as [H1 H2 H3 H4 H5]. split; [exact H1| |exact H3|exact H4|exact H5].
    split; [|reflexivity]. apply Forall_insert; [exact (proj1 H2)|].
    split; cbn [re_username re_jid item_xml re_active]; [apply strncpy_zeros_length; lia..|].
    unfold int32. lia.
  - exact srv0_disk.
  - intros r' Hr'. destruct r'; try done;
      first [ exact (srv0_regions RPrivate) | exact (srv0_regions RRooms)
            | exact (srv0_regions ROffline) | exact (srv0_regions RPending) ].
  - reflexivity.
Defined.

(** The checksum in the header detects every change of a single byte of
    the five stores. *)
Theorem crc_detects_single_byte (s s' : srv) :
  one_byte_apart (all_images s) (all_images s') -> compute_full_crc s <> compute_full_crc s'.
Proof. apply one_byte_crc. Qed.

Definition tiny (b : Z) : srv := set_pending_subs [mk_pending [b] [7] [] 1] (mk_srv [] [] [] 0 [] [] [] [] []
  {| rng_state := 0; rng_seeded := false |} [] 0 []).

Lemma crc_detects_single_byte_witness : compute_full_crc (tiny 65) <> compute_full_crc (tiny 66).
Proof.
  apply (crc_detects_single_byte (tiny 65) (tiny 66)).
  exists [], 65, 66, (7 :: le32 1). split_and!; [reflexivity..|vm_compute; discriminate].
Defined.

(** Power loss between the write of a region and the write of the header:
    the restart finds a checksum that does not match and clears all five
    stores, also the four that were not being written. *)
Theorem power_loss_clears_all (env : Env) (r : region) (s0 s boot : srv) :
  (forall m, disk_result m = 0) -> stores_ok s -> saved (disk s0) s0 ->
  (forall r', r' <> r -> image r' s = image r' s0) ->
  one_byte_apart (all_images s0) (all_images s) ->
  disk boot = region_written r s (disk s0) ->
  all_cleared (snd (xmpp_persist_load_all boot)).
Proof.
  intros E Hok Hs Him Hd Hb.
  destruct (region_written_saved r s s0 Hok Hs Him) as (H1 & H2 & H3).
  apply (load_all_mismatch s0 s); rewrite ?Hb; try done. by apply one_byte_crc.
Qed.

Lemma power_loss_clears_all_witness :
  let s0 := set_disk (disk (snd (@save_region good_env RRoster srv0))) srv0 in
  let s := set_pending_subs (mk_pending (1 :: zeros 15) (zeros 64) (zeros 32) 0 ::
                               replicate 31 pending0) s0 in
  all_cleared (snd (@xmpp_persist_load_all good_env
                      (set_disk (region_written RPending s (disk s0)) srv0))).
Proof.
  intros s0 s. apply (power_loss_clears_all good_env RPending s0 s).
  - reflexivity.
  - apply stores_ok_set_pending; [apply cleared_ok| |reflexivity].
    constructor; [|apply Forall_replicate]; (split; [reflexivity..|]); cbn; unfold int32; lia.
  - apply saved_set_disk.
    exact (@save_region_saved good_env RRoster srv0 (cleared_ok srv0) srv0_disk
             (fun r' _ => srv0_regions r') eq_refl eq_refl).
  - intros r' Hr. by apply image_set_pending.
  - apply (one_byte_pending s0 pending0 (mk_pending (1 :: zeros 15) (zeros 64) (zeros 32) 0) 0 1
             (tail (enc_pending pending0)) (replicate 31 pending0));
      [reflexivity|reflexivity|vm_compute; discriminate|reflexivity].
  - reflexivity.
Defined.
