(* ===== verification/Logic.v ===== *)
(** Reasoning about handlers: what a monadic program may change ([within]) and
    which fields of the connections it leaves alone ([keeps]), with the rules
    for the monad's operations in the hint database [handlers]. *)

From Stdlib Require Import ZArith Lia String Ascii Bool.
From stdpp Require Import base list numbers option sets.
From S2P Require Import Prelude.
From S2P Require Import Libc.
From S2P Require Import XmppCore.

Open Scope Z_scope.

Create HintDb handlers discriminated.
#[global] Hint Constants Opaque : handlers.

(** ** Evaluating the monad *)

Lemma bind_eq {A B} (m : M A) (f : A -> M B) (s : srv) :
  (m ≫= f) s = f (fst (m s)) (snd (m s)).
Proof. unfold mbind, M_bind. by destruct (m s). Qed.

Lemma ret_eq {A} (a : A) (s : srv) : (mret a : M A) s = (a, s).
Proof. done. Qed.

Lemma gets_eq {A} (f : srv -> A) (s : srv) : gets f s = (f s, s).
Proof. done. Qed.

Lemma modify_eq (f : srv -> srv) (s : srv) : modify f s = (tt, f s).
Proof. done. Qed.

Lemma client_eq i s : client i s = (client_of s i, s).
Proof. done. Qed.

(** ** Changes allowed by a relation

    [within R m]: running [m] leads from a state to one related by [R].  For a
    preorder [R] it goes through sequences, branches and loops. *)
Definition within {A} (R : srv -> srv -> Prop) (m : M A) : Prop := forall s, R s (snd (m s)).

Section within.
Context (R : srv -> srv -> Prop) `{!PreOrder R}.

Lemma within_ret {A} (a : A) : within R (mret a : M A).
Proof. intros s. simpl. reflexivity. Qed.

Lemma within_skip : within R skip.
Proof. apply within_ret. Qed.

Lemma within_gets {A} (f : srv -> A) : within R (gets f).
Proof. intros s. simpl. reflexivity. Qed.

Lemma within_client i : within R (client i).
Proof. apply within_gets. Qed.

Lemma within_bind {A B} (m : M A) (f : A -> M B) :
  within R m -> (forall a, within R (f a)) -> within R (m ≫= f).
Proof. intros Hm Hf s. rewrite bind_eq. etransitivity; [apply Hm|apply Hf]. Qed.

Lemma within_modify f : (forall s, R s (f s)) -> within R (modify f).
Proof. intros H s. apply H. Qed.

Lemma within_when b m : within R m -> within R (when b m).
Proof. intros H. destruct b; simpl; [done|apply within_skip]. Qed.

Lemma within_loop_from i n body : (forall k, within R (body k)) -> within R (loop_from i n body).
Proof.
  intros H. revert i; induction n as [|n IH]; intros i; simpl; [apply within_skip|].
  apply within_bind; [apply H|intros _; apply IH].
Qed.

Lemma within_loop n body : (forall k, within R (body k)) -> within R (loop n body).
Proof. apply within_loop_from. Qed.

Lemma within_loop_acc_from {A} i n (body : nat -> A -> M A) a :
  (forall k x, within R (body k x)) -> within R (loop_acc_from i n body a).
Proof.
  intros H. revert i a; induction n as [|n IH]; intros i a; simpl; [apply within_ret|].
  apply within_bind; [apply H|intros x; apply IH].
Qed.

Lemma within_loop_acc {A} n (body : nat -> A -> M A) a :
  (forall k x, within R (body k x)) -> within R (loop_acc n body a).
Proof. apply within_loop_acc_from. Qed.

Lemma within_foldr {A} (f : A -> M unit) (l : list A) :
  (forall a, within R (f a)) -> within R (foldr (fun a k => f a ;; k) skip l).
Proof.
  intros H. induction l as [|a l IH]; simpl; [apply within_skip|].
  apply within_bind; [apply H|intros _; apply IH].
Qed.

End within.

(** Branches are split, everything else goes by the database. *)
Ltac within_step :=
  match goal with
  | |- within _ (_ ≫= _) => apply within_bind; [typeclasses eauto| |intros ?]
  | |- within _ (mret _) => apply within_ret; typeclasses eauto
  | |- within _ skip => apply within_skip; typeclasses eauto
  | |- within _ (gets _) => apply within_gets; typeclasses eauto
  | |- within _ (client _) => apply within_client; typeclasses eauto
  | |- within _ (when _ _) => apply within_when; [typeclasses eauto|]
  | |- within _ (loop _ _) => apply within_loop; [typeclasses eauto|intros ?]
  | |- within _ (loop_acc _ _ _) => apply within_loop_acc; [typeclasses eauto|intros ? ?]
  | |- within _ (foldr _ skip _) => apply within_foldr; [typeclasses eauto|intros ?]
  | |- within _ (if ?b then _ else _) => destruct b
  | |- within _ (match ?x with _ => _ end) => destruct x
  | |- within _ (let _ := _ in _) => cbv zeta
  end.

Ltac within_auto := repeat first [ within_step | solve [eauto with handlers] ].

(** A view [f] of the state is unchanged. *)
Definition same {V} (f : srv -> V) (s s' : srv) : Prop := f s' = f s.

#[export] Instance same_preorder {V} (f : srv -> V) : PreOrder (same f).
Proof. split; [by intros s|]. unfold same. intros s1 s2 s3 ? ?. congruence. Qed.

(** ** Which fields of the connections a program leaves alone *)

(** Connection [i] is unchanged in the view [v], for every [i]. *)
Definition keeps {V} (v : xmpp_client_ctx_t -> V) (s s' : srv) : Prop :=
  length (client_registry s') = length (client_registry s) /\
  forall i, v (client_of s' i) = v (client_of s i).

#[export] Instance keeps_preorder {V} (v : xmpp_client_ctx_t -> V) : PreOrder (keeps v).
Proof.
  split.
  - by intros s.
  - intros s1 s2 s3 [L1 H1] [L2 H2]. split; [congruence|]. intros i. by rewrite H2, H1.
Qed.

Lemma keeps_same {V} (v : xmpp_client_ctx_t -> V) s s' :
  client_registry s' = client_registry s -> keeps v s s'.
Proof. intros E. unfold keeps, client_of. by rewrite E. Qed.

Lemma client_of_alter s i j f :
  client_of (set_client_registry (alter f i (client_registry s)) s) j =
  if decide (i = j /\ (i < length (client_registry s))%nat) then f (client_of s i) else client_of s j.
Proof.
  unfold client_of. cbn [client_registry set_client_registry].
  destruct (decide (i = j)) as [->|Hij].
  - rewrite list_lookup_alter_eq. destruct (client_registry s !! j) as [c|] eqn:E; simpl.
    + rewrite decide_True; [done|]. split; [done|]. by apply lookup_lt_Some in E.
    + rewrite decide_False; [done|]. intros [_ Hl]. apply lookup_ge_None in E. lia.
  - rewrite list_lookup_alter_ne by done. by rewrite decide_False by naive_solver.
Qed.

Lemma within_upd_keeps {V} (v : xmpp_client_ctx_t -> V) i f :
  (forall c, v (f c) = v c) -> within (keeps v) (upd_client i f).
Proof.
  intros H s. split; cbn [snd upd_client modify client_registry set_client_registry].
  - apply length_alter.
  - intros j. rewrite client_of_alter. case_decide as D; [|done]. destruct D as [-> _]. apply H.
Qed.

Lemma within_keeps_modify {V} (v : xmpp_client_ctx_t -> V) f :
  (forall s, client_registry (f s) = client_registry s) -> within (keeps v) (modify f).
Proof. intros H s. apply keeps_same, H. Qed.

Lemma within_call {V} (v : xmpp_client_ctx_t -> V) : within (keeps v) call.
Proof. intros s. by apply keeps_same. Qed.

Lemma within_emit {V} (v : xmpp_client_ctx_t -> V) e : within (keeps v) (emit e).
Proof. intros s. by apply keeps_same. Qed.

Lemma within_random `{Env} {V} (v : xmpp_client_ctx_t -> V) : within (keeps v) random_u32.
Proof.
  intros s. apply keeps_same. unfold random_u32.
  by destruct (secure_random_u32 _ _ _) as [[? ?] ?].
Qed.

#[export] Hint Resolve within_call within_emit within_random : handlers.

(** Sending changes nothing of a connection but its acknowledgement counters. *)
Section sending.
Context `{Env} {V : Type} (v : xmpp_client_ctx_t -> V).
Context (v_count : forall n c, v (set_sm_outbound_count n c) = v c).
Context (v_want : forall n c, v (set_sm_want_ack n c) = v c).

Lemma within_output i : within (keeps v) (output i).
Proof. unfold output. within_auto. Qed.

Lemma within_ssl_write_call i p : within (keeps v) (ssl_write_call i p).
Proof. unfold ssl_write_call. within_auto. Qed.

Lemma within_tls_send fuel i p : within (keeps v) (tls_send fuel i p).
Proof.
  revert p; induction fuel as [|fuel IH]; intros p; simpl; [within_auto|].
  destruct p as [|b p]; [within_auto|].
  apply within_bind; [typeclasses eauto|apply within_ssl_write_call|intros w].
  destruct (_ || _); [|destruct (_ <=? 0); [within_auto|apply IH]].
  apply within_bind; [typeclasses eauto|apply within_output|intros _].
  apply within_bind; [typeclasses eauto|apply within_ssl_write_call|intros w'].
  destruct (_ <=? 0); [within_auto|apply IH].
Qed.

Lemma within_sm_sent i : within (keeps v) (xmpp_sm_on_stanza_sent i).
Proof.
  unfold xmpp_sm_on_stanza_sent. within_auto; apply within_upd_keeps; intros; auto.
Qed.

Lemma within_send_raw i data : within (keeps v) (send_raw i data).
Proof.
  unfold send_raw. within_auto.
  - apply within_tls_send.
  - apply within_output.
  - apply within_sm_sent.
Qed.

End sending.

Lemma within_send `{Env} {V} (v : xmpp_client_ctx_t -> V) i d :
  (forall n c, v (set_sm_outbound_count n c) = v c) -> (forall n c, v (set_sm_want_ack n c) = v c) ->
  within (keeps v) (send_raw i d).
Proof. intros. by apply within_send_raw. Qed.

Lemma keeps_at {V} (v : xmpp_client_ctx_t -> V) s s' i :
  keeps v s s' -> v (client_of s' i) = v (client_of s i).
Proof. intros [_ Hk]. apply Hk. Qed.

Lemma keeps_length {V} (v : xmpp_client_ctx_t -> V) s s' :
  keeps v s s' -> length (client_registry s') = length (client_registry s).
Proof. by intros [Hk _]. Qed.

Lemma upd_at i f s :
  (i < length (client_registry s))%nat ->
  client_of (snd (upd_client i f s)) i = f (client_of s i).
Proof. intros Hi. cbn [snd upd_client modify]. rewrite client_of_alter. by rewrite decide_True. Qed.

Lemma upd_length i f s :
  length (client_registry (snd (upd_client i f s))) = length (client_registry s).
Proof. cbn [snd upd_client modify client_registry set_client_registry]. apply length_alter. Qed.

(** Splitting a run of a handler at its first step. *)
Ltac run := rewrite bind_eq; cbn [fst snd].

(** Sending leaves every global but the connections alone. *)
Section sending_same.
Context `{Env} {V : Type} (f : srv -> V).
Context (f_calls : forall n s, f (set_calls n s) = f s).
Context (f_trace : forall l s, f (set_trace l s) = f s).
Context (f_clients : forall l s, f (set_client_registry l s) = f s).

Lemma same_call : within (same f) call.
Proof. intros s. apply f_calls. Qed.

Lemma same_emit e : within (same f) (emit e).
Proof. intros s. apply f_trace. Qed.

Lemma same_upd i g : within (same f) (upd_client i g).
Proof. intros s. apply f_clients. Qed.

Hint Resolve same_call same_emit same_upd : handlers.

Lemma same_output i : within (same f) (output i).
Proof. unfold output. within_auto. Qed.

Lemma same_ssl_write_call i p : within (same f) (ssl_write_call i p).
Proof. unfold ssl_write_call. within_auto. Qed.

Hint Resolve same_output same_ssl_write_call : handlers.

Lemma same_tls_send fuel i p : within (same f) (tls_send fuel i p).
Proof. revert p; induction fuel as [|fuel IH]; intros [|b p]; simpl; within_auto. Qed.

Hint Resolve same_tls_send : handlers.

Lemma same_send_raw i data : within (same f) (send_raw i data).
Proof. unfold send_raw, xmpp_sm_on_stanza_sent. within_auto. Qed.

End sending_same.

(** ** Loops *)

Lemma loop_from_inv (P : nat -> srv -> Prop) (body : nat -> M unit) n i s :
  P i s -> (forall k t, (i <= k < i + n)%nat -> P k t -> P (S k) (snd (body k t))) ->
  P (i + n)%nat (snd (loop_from i n body s)).
Proof.
  revert i s; induction n as [|n IH]; intros i s Hi Hstep; [by rewrite Nat.add_0_r|].
  simpl. rewrite bind_eq. replace (i + S n)%nat with (S i + n)%nat by lia. apply IH.
  - apply Hstep; [lia|done].
  - intros k t Hk. apply Hstep. lia.
Qed.

(** An invariant of the rounds holds after the loop. *)
Lemma loop_inv (P : nat -> srv -> Prop) (body : nat -> M unit) n s :
  P O s -> (forall k t, (k < n)%nat -> P k t -> P (S k) (snd (body k t))) ->
  P n (snd (loop n body s)).
Proof. intros H0 Hs. apply (loop_from_inv P body n 0 s H0). intros k t Hk. apply Hs. lia. Qed.

(** Programs that touch no connection but [i]. *)
Definition only (i : nat) (s s' : srv) : Prop :=
  length (client_registry s') = length (client_registry s) /\
  forall j, j <> i -> client_of s' j = client_of s j.

#[export] Instance only_preorder i : PreOrder (only i).
Proof.
  split; [by intros s|]. intros s1 s2 s3 [L1 H1] [L2 H2]. split; [congruence|].
  intros j Hj. by rewrite H2, H1.
Qed.

Lemma only_upd i f : within (only i) (upd_client i f).
Proof.
  intros s. split; [apply upd_length|]. intros j Hj. cbn [snd upd_client modify].
  rewrite client_of_alter. by rewrite decide_False by naive_solver.
Qed.

Lemma only_same i s s' : client_registry s' = client_registry s -> only i s s'.
Proof. intros E. unfold only, client_of. by rewrite E. Qed.

Lemma only_call i : within (only i) call.
Proof. intros s. by apply only_same. Qed.

Lemma only_emit i e : within (only i) (emit e).
Proof. intros s. by apply only_same. Qed.

#[export] Hint Resolve only_upd only_call only_emit : handlers.

Lemma only_output i : within (only i) (output i).
Proof. unfold output. within_auto. Qed.

Lemma only_ssl_write_call `{Env} i p : within (only i) (ssl_write_call i p).
Proof. unfold ssl_write_call. within_auto. Qed.

#[export] Hint Resolve only_output only_ssl_write_call : handlers.

Lemma only_tls_send `{Env} fuel i p : within (only i) (tls_send fuel i p).
Proof. revert p; induction fuel as [|fuel IH]; intros [|b p]; simpl; within_auto. Qed.

#[export] Hint Resolve only_tls_send : handlers.

Lemma only_send_raw `{Env} i data : within (only i) (send_raw i data).
Proof. unfold send_raw, xmpp_sm_on_stanza_sent. within_auto. Qed.

#[export] Hint Resolve only_send_raw : handlers.
