(* ===== verification/Store.v ===== *)
(** The stores of the server: src/xmpp/xmpp_store.c (offline messages and
    rosters), and the pending subscriptions and the private XML storage of
    src/xmpp/xmpp_handlers.c.

    Each store is an array of slots with an [active] flag.  An operation that
    only works on its array is a function from the array to the new array; the
    monadic operation around it works on the global variable and saves it to
    disk where the code does. *)

From Stdlib Require Import ZArith Lia String Ascii Bool.
From stdpp Require Import base list numbers option sets.
From S2P Require Import Prelude.
From S2P Require Import Libc.
From S2P Require Import SlotMap.
From S2P Require Import XmppCore.
From S2P Require Import Logic.
From S2P Require Import Persist.

Open Scope Z_scope.

(** * Idioms of the code *)

(** [strncpy(dst, src, n); dst[n] = '\0';] *)
Definition copy_str (dst src : list Z) (n : nat) : list Z := <[n := 0]> (strncpy dst src n).

(** [if (len >= max) len = max - 1;] *)
Definition cap (len max : Z) : Z := if max <=? len then max - 1 else len.

(** * Offline messages *)

(** The part of the address before the at sign, in a 32-byte array. *)
Definition offline_to_user (to_bare : list Z) : list Z :=
  match strchr to_bare 64 with
  | Some at_sign => strncpy (zeros 32) to_bare (Z.to_nat (cap (ptr_diff at_sign to_bare) 32))
  | None => strncpy (zeros 32) to_bare 31
  end.

(** The slot filled by [offline_msg_enqueue]. *)
Definition offline_fill (e : offline_msg_t) (to from_jid msg_id payload : list Z) : offline_msg_t :=
  mk_offline (copy_str (om_from e) from_jid 63) (copy_str (to_bare e) to 63)
    (copy_str (om_to_user e) (offline_to_user to) 31) (copy_str (om_id e) msg_id 63)
    (copy_str (om_payload e) payload 1023) 1.

Definition offline_put (store : list offline_msg_t) (to from_jid msg_id payload : list Z)
  : option (list offline_msg_t) :=
  match first_index (fun e => om_active e =? 0) store with
  | Some i => Some (alter (fun e => offline_fill e to from_jid msg_id payload) i store)
  | None => None
  end.

Definition offline_msg_enqueue `{Env} (to from_jid msg_id payload : list Z) : M Z :=
  s ← gets id;
  match offline_put (offline_store s) to from_jid msg_id payload with
  | Some st => modify (set_offline_store st) ;; xmpp_persist_save_offline ;; mret 0
  | None => mret (-1)
  end.

(** The stanza a stored message is delivered in. *)
Definition delay_element : list Z :=
  str "<delay xmlns='urn:xmpp:delay'" ++ str " from='" ++ XMPP_DOMAIN ++ str "'" ++
  str " stamp='2024-01-01T00:00:00Z'>" ++ str "Offline Storage" ++ str "</delay>".

Definition offline_stanza (m : offline_msg_t) (full_jid : list Z) : list Z * Z :=
  if negb (deref (om_id m) =? 0) then
    vsnprintf 1400
      (str "<message from='%s' to='%s' type='chat' id='%s'>" ++ str "%s" ++ delay_element ++
       str "</message>")
      [AStr (Some (om_from m)); AStr (Some full_jid); AStr (Some (om_id m));
       AStr (Some (om_payload m))]
  else
    vsnprintf 1400
      (str "<message from='%s' to='%s' type='chat'>" ++ str "%s" ++ delay_element ++
       str "</message>")
      [AStr (Some (om_from m)); AStr (Some full_jid); AStr (Some (om_payload m))].

Definition offline_msg_drain `{Env} (ctx : nat) : M unit :=
  loop MAX_OFFLINE_MSGS (fun i =>
    s ← gets id;
    let m := default offline0 (offline_store s !! i) in
    let c := client_of s ctx in
    if om_active m =? 0 then skip
    else if negb (strcmp (om_to_user m) (username c) =? 0) then skip
    else
      let '(out, written) := offline_stanza m (full_jid c) in
      when ((0 <? written) && (written <? 1400)) (send_raw ctx out) ;;
      modify (fun s => set_offline_store (alter (set_om_active 0) i (offline_store s)) s)) ;;
  xmpp_persist_save_offline.

Definition offline_count (store : list offline_msg_t) (to_user : list Z) : Z :=
  Z.of_nat (length (filter (fun e => negb (om_active e =? 0) && (strcmp (om_to_user e) to_user =? 0) = true)
                      store)).

Definition offline_msg_is_full (store : list offline_msg_t) (to_user : list Z) : bool :=
  Z.of_nat MAX_OFFLINE_MSGS / 2 <=? offline_count store to_user.

(** * Rosters *)

(** The value of the [jid] attribute of an item, in the array [jid_out] of
    [jid_max] bytes; [None] when the function returns 0. *)
Definition roster_extract_jid (item_xml jid_out : list Z) (jid_max : Z) : option (list Z) :=
  match strstr item_xml (str "jid=") with
  | None => None
  | Some p =>
      let p := drop 4 p in
      let q := deref p in
      if negb (q =? 39) && negb (q =? 34) then None
      else
        let p := tail p in
        match strchr p q with
        | None => None
        | Some stop =>
            let len := Z.to_nat (cap (ptr_diff stop p) jid_max) in
            Some (<[len := 0]> (strncpy jid_out p len))
        end
  end.

(** The entry of a user for a contact. *)
Definition roster_match (user contact_jid : list Z) (e : roster_entry_t) : bool :=
  negb (re_active e =? 0) && (strncmp (re_username e) user 32 =? 0) &&
  (strncmp (re_jid e) contact_jid 64 =? 0).

Definition is_remove (item : list Z) : bool :=
  is_Some_b (strstr item (str "subscription='remove'")) ||
  is_Some_b (strstr item (qstr "subscription=`remove`")).

(** The slot written by an upsert. *)
Definition roster_fill (e : roster_entry_t) (user contact_jid item : list Z) : roster_entry_t :=
  let xml_len := Z.to_nat (cap (Z.of_nat (strlen item)) 256) in
  mk_roster (copy_str (re_username e) user 31) (copy_str (re_jid e) contact_jid 63)
    (copy_str (item_xml e) item xml_len) 1.

(** [roster_store_upsert_item] on the array: its result and the new array. *)
Definition roster_upsert (roster : list roster_entry_t) (user item : list Z)
  : Z * list roster_entry_t :=
  match roster_extract_jid item (zeros 64) 64 with
  | None => (-1, roster)
  | Some contact_jid =>
      let slot := first_index (roster_match user contact_jid) roster in
      if is_remove item then
        match slot with
        | Some i => (0, alter (set_re_active 0) i roster)
        | None => (0, roster)
        end
      else
        let slot :=
          match slot with
          | Some i => Some i
          | None => first_index (fun e => re_active e =? 0) roster
          end in
        match slot with
        | Some i => (0, alter (fun e => roster_fill e user contact_jid item) i roster)
        | None => (-1, roster)
        end
  end.

Definition roster_store_upsert_item (user item : list Z) : M Z :=
  roster ← gets roster_store;
  let '(r, roster) := roster_upsert roster user item in
  modify (set_roster_store roster) ;; mret r.

(** The item cut out of the payload at [p], whose tag ends at [stop]; a start
    tag is turned into an empty element. *)
Definition roster_item (item_buf p stop : list Z) : list Z :=
  let len := cap (ptr_diff stop p + 1) 256 in
  let n := Z.to_nat len in
  let item_buf := <[n := 0]> (strncpy item_buf p n) in
  if (2 <=? len) && negb (at_ item_buf (n - 2) =? 47) then
    if len <? 255 then <[(n + 1)%nat := 0]> (<[n := 62]> (<[(n - 1)%nat := 47]> item_buf))
    else item_buf
  else item_buf.

(** The loop over the items of a roster query; each round leaves at least one
    byte behind, so the length of the payload is enough fuel. *)
Fixpoint roster_items_loop (fuel : nat) (roster : list roster_entry_t) (user p item_buf : list Z)
  : list roster_entry_t :=
  match fuel with
  | O => roster
  | S fuel' =>
      match strstr p (str "<item ") with
      | None => roster
      | Some p =>
          match strchr p 62 with
          | None => roster
          | Some stop =>
              let item_buf := roster_item item_buf p stop in
              roster_items_loop fuel' (snd (roster_upsert roster user item_buf)) user (tail stop) item_buf
          end
      end
  end.

Definition roster_set (roster : list roster_entry_t) (user payload : list Z) : list roster_entry_t :=
  roster_items_loop (S (length payload)) roster user payload (zeros 256).

Definition roster_store_set_from_payload (user payload : list Z) : M unit :=
  modify (fun s => set_roster_store (roster_set (roster_store s) user payload) s).

(** The items of a user one after the other, as far as they fit in [buf_len]
    bytes: the string left in the buffer and the number of items. *)
Fixpoint roster_get_loop (roster : list roster_entry_t) (user : list Z) (buf_len : Z)
    (buf : list Z) (count : Z) : list Z * Z :=
  match roster with
  | [] => (buf, count)
  | e :: roster' =>
      if re_active e =? 0 then roster_get_loop roster' user buf_len buf count
      else if negb (strncmp (re_username e) user 32 =? 0) then
        roster_get_loop roster' user buf_len buf count
      else
        let item_len := Z.of_nat (strlen (item_xml e)) in
        if buf_len - 1 <=? Z.of_nat (length buf) + item_len then (buf, count)
        else roster_get_loop roster' user buf_len (buf ++ cstr (item_xml e)) (count + 1)
  end.

Definition roster_store_get_items (roster : list roster_entry_t) (user : list Z) (buf_len : Z)
  : list Z * Z := roster_get_loop roster user buf_len [] 0.

(** * Pending subscriptions *)

Definition pending_same (type from to_user : list Z) (e : pending_sub_t) : bool :=
  negb (ps_active e =? 0) && (strcmp (ps_type e) type =? 0) && (strcmp (ps_from e) from =? 0) &&
  (strcmp (ps_to_user e) to_user =? 0).

(** The slot a new request goes to: a free one, else one of the same
    recipient, else the first. *)
Definition pending_slot (store : list pending_sub_t) (to_user : list Z) : nat :=
  match first_index (fun e => ps_active e =? 0) store with
  | Some i => i
  | None =>
      match first_index (fun e => strcmp (ps_to_user e) to_user =? 0) store with
      | Some i => i
      | None => O
      end
  end.

Definition pending_fill (e : pending_sub_t) (type from to_user : list Z) : pending_sub_t :=
  mk_pending (copy_str (ps_type e) type 15) (copy_str (ps_from e) from 63)
    (copy_str (ps_to_user e) to_user 31) 1.

Definition pending_put (store : list pending_sub_t) (type from to_user : list Z)
  : option (list pending_sub_t) :=
  match first_index (pending_same type from to_user) store with
  | Some _ => None
  | None => Some (alter (fun e => pending_fill e type from to_user) (pending_slot store to_user) store)
  end.

Definition pending_sub_enqueue `{Env} (type from to_user : list Z) : M unit :=
  s ← gets id;
  match pending_put (pending_subs s) type from to_user with
  | None => skip
  | Some st => modify (set_pending_subs st) ;; xmpp_persist_save_pending_subs
  end.

Definition pending_sub_drain `{Env} (ctx : nat) : M unit :=
  loop MAX_PENDING_SUBS (fun i =>
    s ← gets id;
    let p := default pending0 (pending_subs s !! i) in
    let c := client_of s ctx in
    if ps_active p =? 0 then skip
    else if negb (strcmp (ps_to_user p) (username c) =? 0) then skip
    else
      send_raw ctx (snprintf 256 (str "<presence type='%s' from='%s' to='%s'/>")
                      [AStr (Some (ps_type p)); AStr (Some (ps_from p)); AStr (Some (full_jid c))]) ;;
      modify (fun s => set_pending_subs (alter (set_ps_active 0) i (pending_subs s)) s)) ;;
  xmpp_persist_save_pending_subs.

(** * Private XML storage *)

Definition private_match (user space : list Z) (e : private_store_entry_t) : bool :=
  negb (pv_active e =? 0) && (strncmp (pv_username e) user 32 =? 0) &&
  (strncmp (ns e) space 128 =? 0).

Definition private_store_find (store : list private_store_entry_t) (user space : list Z) : option nat :=
  first_index (private_match user space) store.

Definition private_fill (e : private_store_entry_t) (user space xml_data : list Z) (xml_len : Z)
  : private_store_entry_t :=
  let n := Z.to_nat (cap xml_len 900) in
  mk_private (copy_str (pv_username e) user 31) (copy_str (ns e) space 127)
    (<[n := 0]> (memcpy (xml e) xml_data n)) 1.

Definition private_store_upsert (store : list private_store_entry_t) (user space xml_data : list Z)
    (xml_len : Z) : Z * list private_store_entry_t :=
  let slot :=
    match private_store_find store user space with
    | Some i => Some i
    | None => first_index (fun e => pv_active e =? 0) store
    end in
  match slot with
  | None => (-1, store)
  | Some i => (0, alter (fun e => private_fill e user space xml_data xml_len) i store)
  end.

(** * Facts *)

Lemma cap_bound len max : 0 <= len -> 0 < max -> 0 <= cap len max < max.
Proof. intros. unfold cap. destruct (Z.leb_spec max len); lia. Qed.

Lemma copy_str_cstr (dst src : list Z) (n : nat) :
  (n < length dst)%nat -> cstr (copy_str dst src n) = take n (cstr src).
Proof. apply strncpy_nul_cstr. Qed.

Lemma copy_str_length (dst src : list Z) (n : nat) :
  (n < length dst)%nat -> length (copy_str dst src n) = length dst.
Proof. intros Hn. unfold copy_str. rewrite length_insert, strncpy_length; [done|lia]. Qed.

Lemma copy_str_terminated (dst src : list Z) (n : nat) :
  (n < length dst)%nat -> terminated (copy_str dst src n).
Proof.
  intros Hn. unfold terminated, copy_str. apply list_elem_of_lookup. exists n.
  apply list_lookup_insert_eq. by rewrite strncpy_length by lia.
Qed.

(** ** Rosters *)

#[export] Instance roster_slotted : Slotted roster_entry_t (list Z * list Z) := {|
  slot_active e := negb (re_active e =? 0);
  slot_key e := (take 32 (cstr (re_username e)), take 64 (cstr (re_jid e)))
|}.

(** The key of a user's contact. *)
Definition roster_key (user contact : list Z) : list Z * list Z :=
  (take 32 (cstr user), take 64 (cstr contact)).

Lemma strncmp_eqb (n : nat) (a b : list Z) :
  (strncmp a b n =? 0) = bool_decide (take n (cstr a) = take n (cstr b)).
Proof.
  destruct (Z.eqb_spec (strncmp a b n) 0) as [E|E]; rewrite strncmp_eq0 in E.
  - by rewrite bool_decide_true.
  - by rewrite bool_decide_false.
Qed.

Lemma bool_decide_pair {A B} `{!EqDecision A, !EqDecision B} (a a' : A) (b b' : B) :
  bool_decide (a = a') && bool_decide (b = b') = bool_decide ((a, b) = (a', b')).
Proof.
  apply eq_true_iff_eq. rewrite andb_true_iff, !bool_decide_eq_true. split; [by intros [-> ->]|by intros [= -> ->]].
Qed.

Lemma roster_match_holds user contact e :
  roster_match user contact e = holds (roster_key user contact) e.
Proof.
  unfold roster_match, holds, roster_key. rewrite !strncmp_eqb, <- andb_assoc.
  simpl. by rewrite bool_decide_pair.
Qed.

Lemma first_match_holds user contact roster :
  first_index (roster_match user contact) roster = first_index (holds (roster_key user contact)) roster.
Proof. apply first_index_ext. intros e. apply roster_match_holds. Qed.

(** The contact found in an item is a C string of at most 63 bytes. *)
Lemma roster_extract_jid_bound item cj :
  roster_extract_jid item (zeros 64) 64 = Some cj ->
  length cj = 64%nat /\ (length (cstr cj) <= 63)%nat.
Proof.
  unfold roster_extract_jid. destruct (strstr item (str "jid=")) as [p|]; [|done].
  destruct (_ && _); [done|]. set (q := tail (drop 4 p)).
  destruct (strchr q _) as [stop|] eqn:E; [|done].
  assert (0 <= cap (ptr_diff stop q) 64 < 64) as Hc.
  { apply cap_bound; [|lia]. unfold ptr_diff.
    apply strchr_suffix in E as [pre ->]. rewrite length_app. lia. }
  intros [= <-]. change (length (copy_str (zeros 64) q (Z.to_nat (cap (ptr_diff stop q) 64))) = 64%nat /\
    (length (cstr (copy_str (zeros 64) q (Z.to_nat (cap (ptr_diff stop q) 64)))) <= 63)%nat).
  assert (length (zeros 64) = 64%nat) as L by done.
  rewrite copy_str_length, copy_str_cstr, L by lia. rewrite length_take. lia.
Qed.

Lemma take_take_cstr (n k : nat) (s : list Z) :
  (length (cstr s) <= n)%nat -> (n <= k)%nat -> take k (take n (cstr s)) = take k (cstr s).
Proof. intros H1 H2. by rewrite (take_ge (cstr s) n). Qed.

Lemma roster_fill_ok e user cj item :
  roster_ok e -> (length (cstr user) <= 31)%nat -> (length (cstr cj) <= 63)%nat ->
  roster_ok (roster_fill e user cj item) /\
  slot_active (roster_fill e user cj item) = true /\
  slot_key (roster_fill e user cj item) = roster_key user cj /\
  cstr (item_xml (roster_fill e user cj item)) = take 255 (cstr item).
Proof.
  intros [H1 H2 H3 H4] Hu Hj. unfold roster_fill.
  assert (0 <= cap (Z.of_nat (strlen item)) 256 < 256) as Hc by (apply cap_bound; lia).
  split_and!.
  - split; cbn [re_username re_jid item_xml re_active];
      [rewrite copy_str_length; lia..|unfold int32; lia].
  - done.
  - cbn [slot_key roster_slotted re_username re_jid]. unfold roster_key.
    rewrite !copy_str_cstr by lia. by rewrite !take_take_cstr by lia.
  - cbn [item_xml]. rewrite copy_str_cstr by lia. rewrite strlen_cstr. unfold cap.
    destruct (Z.leb_spec 256 (Z.of_nat (length (cstr item)))); [done|].
    rewrite Nat2Z.id, firstn_all, take_ge by lia. done.
Qed.

Lemma roster_set_inactive_ok e : roster_ok e -> roster_ok (set_re_active 0 e).
Proof. intros [H1 H2 H3 H4]. split; cbn; [done..|unfold int32; lia]. Qed.

(** The roster as a map from (user, contact) to the item's text. *)
Definition roster_get (roster : list roster_entry_t) (k : list Z * list Z) : option (list Z) :=
  (fun e => cstr (item_xml e)) <$> get roster k.

(** What an upsert promises: with a contact in the item, the map is updated or
    the contact removed; only a full array refuses. *)
Definition roster_upsert_spec (roster : list roster_entry_t) (k : list Z * list Z) (item : list Z)
    (res : Z * list roster_entry_t) : Prop :=
  let '(r, roster') := res in
  if is_remove item then
    r = 0 /\ forall k', roster_get roster' k' = if decide (k' = k) then None else roster_get roster k'
  else
    (r = 0 /\ forall k', roster_get roster' k' =
                         if decide (k' = k) then Some (take 255 (cstr item)) else roster_get roster k') \/
    (r = -1 /\ roster' = roster /\ roster_get roster k = None /\
     Forall (fun e => re_active e <> 0) roster).

Lemma roster_put_at roster user cj item (i : nat) :
  Forall roster_ok roster -> unique roster -> (length (cstr user) <= 31)%nat ->
  (length (cstr cj) <= 63)%nat ->
  (exists e, roster !! i = Some e /\
     (holds (roster_key user cj) e = true \/
      slot_active e = false /\ first_index (holds (roster_key user cj)) roster = None)) ->
  let roster' := alter (fun e => roster_fill e user cj item) i roster in
  Forall roster_ok roster' /\ unique roster' /\
  forall k', roster_get roster' k' =
    if decide (k' = roster_key user cj) then Some (take 255 (cstr item)) else roster_get roster k'.
Proof.
  intros Hok Hu Hlu Hlj (e & Hi & Hslot) roster'.
  assert (roster_ok e) as He by (by eapply Forall_lookup_1).
  destruct (roster_fill_ok e user cj item He Hlu Hlj) as (F1 & F2 & F3 & F4).
  destruct (put_slot (fun e => roster_fill e user cj item) roster i e _ Hu Hi F2 F3 Hslot) as [Hu' Hg].
  split_and!; [|done|].
  - apply Forall_alter; [done|]. intros x Hx Hox. by apply roster_fill_ok.
  - intros k'. unfold roster_get, roster'. rewrite Hg. case_decide; [|done]. cbn [fmap option_fmap option_map]. by rewrite F4.
Qed.

Lemma roster_upsert_refines roster user item cj :
  Forall roster_ok roster -> unique roster -> (length (cstr user) <= 31)%nat ->
  roster_extract_jid item (zeros 64) 64 = Some cj ->
  Forall roster_ok (snd (roster_upsert roster user item)) /\
  unique (snd (roster_upsert roster user item)) /\
  roster_upsert_spec roster (roster_key user cj) item (roster_upsert roster user item).
Proof.
  intros Hok Hu Hlu Hj. destruct (roster_extract_jid_bound _ _ Hj) as [_ Hlj].
  unfold roster_upsert. rewrite Hj, first_match_holds. set (k := roster_key user cj).
  unfold roster_upsert_spec. destruct (is_remove item).
  - destruct (first_index (holds k) roster) as [i|] eqn:E; simpl.
    + destruct (clear_slot (set_re_active 0) roster i k Hu E) as [Hu' Hg]; [done|].
      split_and!; [|done|done|].
      * apply Forall_alter; [done|]. intros x _. apply roster_set_inactive_ok.
      * intros k'. unfold roster_get. rewrite Hg. by case_decide.
    + split_and!; try done. intros k'. case_decide as D; [|done]. subst.
      unfold roster_get. by rewrite (proj2 (get_None roster k) E).
  - destruct (first_index (holds k) roster) as [i|] eqn:E.
    + apply first_index_Some in E as (e & Hi & Hh & _).
      destruct (roster_put_at roster user cj item i) as (A1 & A2 & A3); eauto.
    + destruct (first_index (fun e => re_active e =? 0) roster) as [i|] eqn:F.
      * apply first_index_Some in F as (e & Hi & Hh & _).
        destruct (roster_put_at roster user cj item i) as (A1 & A2 & A3); eauto.
        exists e. split; [done|]. right. split; [|done]. cbn. by rewrite Hh.
      * split_and!; [done..|]. right. split_and!; [done|done| |].
        { unfold roster_get. by rewrite (proj2 (get_None roster k) E). }
        { rewrite first_index_None in F. apply Forall_lookup. intros i x Hx.
          specialize (F i x Hx). lia. }
Qed.

Lemma roster_upsert_inv roster user item :
  Forall roster_ok roster -> unique roster -> (length (cstr user) <= 31)%nat ->
  Forall roster_ok (snd (roster_upsert roster user item)) /\
  unique (snd (roster_upsert roster user item)) /\
  length (snd (roster_upsert roster user item)) = length roster.
Proof.
  intros Hok Hu Hlu.
  assert (length (snd (roster_upsert roster user item)) = length roster) as L.
  { unfold roster_upsert. repeat case_match; simpl; rewrite ?length_alter; done. }
  destruct (roster_extract_jid item (zeros 64) 64) as [cj|] eqn:E.
  - by destruct (roster_upsert_refines roster user item cj) as (A1 & A2 & _).
  - unfold roster_upsert in *. by rewrite E in *.
Qed.

Lemma roster_items_inv fuel roster user p buf :
  Forall roster_ok roster -> unique roster -> (length (cstr user) <= 31)%nat ->
  Forall roster_ok (roster_items_loop fuel roster user p buf) /\
  unique (roster_items_loop fuel roster user p buf) /\
  length (roster_items_loop fuel roster user p buf) = length roster.
Proof.
  revert roster p buf; induction fuel as [|fuel IH]; intros roster p buf Hok Hu Hlu; [done|].
  cbn [roster_items_loop]. destruct (strstr p _) as [q|]; [|done].
  destruct (strchr q 62) as [stop|]; [|done].
  destruct (roster_upsert_inv roster user (roster_item buf q stop)) as (A1 & A2 & A3); [done..|].
  rewrite <- A3. by apply IH.
Qed.

(** The loop never needs more rounds than the payload has bytes. *)
Lemma roster_items_fuel f1 f2 roster user p buf :
  (length p < f1)%nat -> (length p < f2)%nat ->
  roster_items_loop f1 roster user p buf = roster_items_loop f2 roster user p buf.
Proof.
  revert f2 roster p buf; induction f1 as [|f1 IH]; intros [|f2] roster p buf H1 H2; try lia.
  cbn [roster_items_loop]. destruct (strstr p _) as [q|] eqn:E1; [|done].
  destruct (strchr q 62) as [stop|] eqn:E2; [|done].
  apply strstr_suffix in E1 as [a ->]. apply strchr_Some in E2 as (b & c & -> & -> & _); [|lia].
  rewrite !length_app in *. simpl in *. apply IH; lia.
Qed.

(** ** Private storage *)

#[export] Instance private_slotted : Slotted private_store_entry_t (list Z * list Z) := {|
  slot_active e := negb (pv_active e =? 0);
  slot_key e := (take 32 (cstr (pv_username e)), take 128 (cstr (ns e)))
|}.

Definition private_key (user space : list Z) : list Z * list Z :=
  (take 32 (cstr user), take 128 (cstr space)).

Lemma private_find_holds store user space :
  private_store_find store user space = first_index (holds (private_key user space)) store.
Proof.
  apply first_index_ext. intros e. unfold private_match, holds, private_key.
  rewrite !strncmp_eqb, <- andb_assoc. simpl. by rewrite bool_decide_pair.
Qed.

Lemma private_fill_ok e user space data len :
  private_ok e -> (length (cstr user) <= 31)%nat -> (length (cstr space) <= 127)%nat ->
  0 <= len <= Z.of_nat (length data) -> nul_free (take (Z.to_nat len) data) ->
  private_ok (private_fill e user space data len) /\
  slot_active (private_fill e user space data len) = true /\
  slot_key (private_fill e user space data len) = private_key user space /\
  cstr (xml (private_fill e user space data len)) = take 899 (take (Z.to_nat len) data).
Proof.
  intros [H1 H2 H3 H4] Hu Hs Hlen Hnf. unfold private_fill.
  assert (0 <= cap len 900 < 900 /\ cap len 900 <= len) as [Hc Hc2].
  { split; [apply cap_bound; lia|]. unfold cap. destruct (Z.leb_spec 900 len); lia. }
  set (n := Z.to_nat (cap len 900)).
  assert (<[n := 0]> (memcpy (xml e) data n) = take n data ++ 0 :: drop (S n) (xml e)) as Ex.
  { rewrite memcpy_eq by lia.
    rewrite insert_app_r_alt; rewrite length_take, Nat.min_l by lia; [|lia]. rewrite Nat.sub_diag.
    destruct (drop n (xml e)) as [|x r] eqn:E.
    - apply (f_equal length) in E. rewrite length_drop, H3 in E. simpl in E. lia.
    - replace (S n) with (n + 1)%nat by lia. rewrite <- drop_drop, E. done. }
  assert (take n data = take 899 (take (Z.to_nat len) data)) as En.
  { rewrite take_take. f_equal. unfold n, cap. destruct (Z.leb_spec 900 len); lia. }
  split_and!.
  - split; cbn [pv_username ns xml pv_active]; [rewrite copy_str_length; lia..| |unfold int32; lia].
    rewrite Ex, length_app. simpl. rewrite length_take, length_drop. lia.
  - done.
  - cbn [slot_key private_slotted pv_username ns]. unfold private_key.
    rewrite !copy_str_cstr by lia. by rewrite !take_take_cstr by lia.
  - cbn [xml]. rewrite Ex, En. apply cstr_app_nul. by apply take_nul_free.
Qed.

(** The storage as a map from (user, namespace) to the stored text. *)
Definition private_get (store : list private_store_entry_t) (k : list Z * list Z) : option (list Z) :=
  (fun e => cstr (xml e)) <$> get store k.

Lemma private_upsert_refines store user space data len :
  Forall private_ok store -> unique store -> (length (cstr user) <= 31)%nat ->
  (length (cstr space) <= 127)%nat -> 0 <= len <= Z.of_nat (length data) ->
  nul_free (take (Z.to_nat len) data) ->
  let '(r, store') := private_store_upsert store user space data len in
  Forall private_ok store' /\ unique store' /\
  ((r = 0 /\ forall k', private_get store' k' =
      if decide (k' = private_key user space) then Some (take 899 (take (Z.to_nat len) data))
      else private_get store k') \/
   (r = -1 /\ store' = store /\ Forall (fun e => pv_active e <> 0) store /\
    private_get store (private_key user space) = None)).
Proof.
  intros Hok Hu Hlu Hls Hlen Hnf. unfold private_store_upsert. rewrite private_find_holds.
  set (k := private_key user space).
  assert (forall i e, store !! i = Some e ->
    (holds k e = true \/ slot_active e = false /\ first_index (holds k) store = None) ->
    let store' := alter (fun e => private_fill e user space data len) i store in
    Forall private_ok store' /\ unique store' /\
    forall k', private_get store' k' =
      if decide (k' = k) then Some (take 899 (take (Z.to_nat len) data)) else private_get store k') as Put.
  { intros i e Hi Hslot store'.
    assert (private_ok e) as He by (by eapply Forall_lookup_1).
    destruct (private_fill_ok e user space data len He Hlu Hls Hlen Hnf) as (F1 & F2 & F3 & F4).
    destruct (put_slot (fun e => private_fill e user space data len) store i e k Hu Hi F2 F3 Hslot)
      as [Hu' Hg].
    split_and!; [|done|].
    - apply Forall_alter; [done|]. intros x Hx Hox. by apply private_fill_ok.
    - intros k'. unfold private_get, store'. rewrite Hg. case_decide; [|done]. cbn [fmap option_fmap option_map]. by rewrite F4. }
  destruct (first_index (holds k) store) as [i|] eqn:E.
  - pose proof E as E'. apply first_index_Some in E as (e & Hi & Hh & _).
    destruct (Put i e Hi (or_introl Hh)) as (A1 & A2 & A3). split_and!; [done|done|]. left. done.
  - destruct (first_index (fun e => pv_active e =? 0) store) as [i|] eqn:F.
    + apply first_index_Some in F as (e & Hi & Hh & _).
      destruct (Put i e Hi) as (A1 & A2 & A3).
      { right. split; [|done]. cbn. by rewrite Hh. }
      split_and!; [done|done|]. left. done.
    + split_and!; [done..|]. right. split_and!; [done|done| |].
      * rewrite first_index_None in F. apply Forall_lookup. intros i x Hx. specialize (F i x Hx). lia.
      * unfold private_get. by rewrite (proj2 (get_None store k) E).
Qed.

(** ** Delivering the offline messages *)

(** A program that does not see a change [f] of the state. *)
Definition blind {A} (f : srv -> srv) (m : M A) : Prop := forall s, m (f s) = (fst (m s), f (snd (m s))).

Lemma blind_ret {A} f (a : A) : blind f (mret a : M A).
Proof. done. Qed.

Lemma blind_bind {A B} f (m : M A) (k : A -> M B) :
  blind f m -> (forall a, blind f (k a)) -> blind f (m ≫= k).
Proof. intros Hm Hk s. rewrite !bind_eq, Hm. simpl. by rewrite Hk. Qed.

Lemma blind_gets {A} f (g : srv -> A) : (forall s, g (f s) = g s) -> blind f (gets g).
Proof. intros E s. rewrite !gets_eq. simpl. by rewrite E. Qed.

Lemma blind_modify f g : (forall s, g (f s) = f (g s)) -> blind f (modify g).
Proof. intros E s. rewrite !modify_eq. simpl. by rewrite E. Qed.

Lemma blind_when f b m : blind f m -> blind f (when b m).
Proof. intros Hm. destruct b; [done|apply blind_ret]. Qed.

Section blind_send.
Context `{Env} (st : list offline_msg_t).

(** Sending does not look at the offline store. *)
Lemma blind_client i : blind (set_offline_store st) (client i).
Proof. by apply blind_gets. Qed.

Lemma blind_emit e : blind (set_offline_store st) (emit e).
Proof. by apply blind_modify. Qed.

Lemma blind_upd i f : blind (set_offline_store st) (upd_client i f).
Proof. by apply blind_modify. Qed.

Lemma blind_call : blind (set_offline_store st) call.
Proof. done. Qed.

Lemma blind_output i : blind (set_offline_store st) (output i).
Proof. apply blind_bind; [apply blind_client|intros c; apply blind_when, blind_emit]. Qed.

Lemma blind_ssl_write_call i p : blind (set_offline_store st) (ssl_write_call i p).
Proof.
  apply blind_bind; [apply blind_call|intros n].
  apply blind_bind; [apply blind_when, blind_emit|intros _; apply blind_ret].
Qed.

Lemma blind_tls_send fuel i p : blind (set_offline_store st) (tls_send fuel i p).
Proof.
  revert p; induction fuel as [|fuel IH]; intros [|b p]; try apply blind_ret.
  apply blind_bind; [apply blind_ssl_write_call|intros w].
  destruct (_ || _); [|destruct (_ <=? 0); [apply blind_ret|apply IH]].
  apply blind_bind; [apply blind_output|intros _].
  apply blind_bind; [apply blind_ssl_write_call|intros w'].
  destruct (_ <=? 0); [apply blind_ret|apply IH].
Qed.

Lemma blind_send_raw i d : blind (set_offline_store st) (send_raw i d).
Proof.
  apply blind_bind; [apply blind_client|intros c].
  apply blind_bind.
  - destruct (truth _).
    + apply blind_bind; [apply blind_tls_send|intros _; apply blind_output].
    + apply blind_bind; [apply blind_emit|intros _; apply blind_emit].
  - intros _. apply blind_bind; [apply blind_client|intros c'].
    destruct (_ =? 0); [apply blind_ret|].
    apply blind_bind; [apply blind_upd|intros _].
    apply blind_bind; [apply blind_client|intros c'']. apply blind_when, blind_upd.
Qed.

End blind_send.

(** Sending the given texts one after the other. *)
Definition send_all `{Env} (ctx : nat) (texts : list (list Z)) : M unit :=
  foldr (fun d k => send_raw ctx d ;; k) skip texts.

(** The messages of a store for a user, and the store once they are gone. *)
Definition is_for (user : list Z) (m : offline_msg_t) : bool :=
  negb (om_active m =? 0) && (strcmp (om_to_user m) user =? 0).

Definition delivered (user jid : list Z) (store : list offline_msg_t) : list (list Z) :=
  map (fun m => fst (offline_stanza m jid)) (filter (fun m => is_for user m = true) store).

Definition drained (user : list Z) (store : list offline_msg_t) : list offline_msg_t :=
  map (fun m => if is_for user m then set_om_active 0 m else m) store.

Lemma blind_send_all `{Env} st ctx texts : blind (set_offline_store st) (send_all ctx texts).
Proof.
  induction texts as [|d texts IH]; [apply blind_ret|].
  apply blind_bind; [apply blind_send_raw|intros _; apply IH].
Qed.

Lemma set_offline_id s : set_offline_store (offline_store s) s = s.
Proof. by destruct s. Qed.

Lemma send_raw_offline `{Env} ctx d s : offline_store (snd (send_raw ctx d s)) = offline_store s.
Proof.
  rewrite <- (set_offline_id s) at 1. rewrite blind_send_raw. done.
Qed.

Lemma send_raw_user `{Env} ctx d s i :
  username (client_of (snd (send_raw ctx d s)) i) = username (client_of s i) /\
  full_jid (client_of (snd (send_raw ctx d s)) i) = full_jid (client_of s i).
Proof.
  pose proof (within_send_raw (fun c => (username c, full_jid c)) ltac:(done) ltac:(done) ctx d s)
    as [_ Hk]. specialize (Hk i). by simplify_eq.
Qed.

Lemma vsnprintf_render (size : Z) (format : list Z) (args : list arg) :
  no_pointer format = true -> 1 <= size ->
  vsnprintf size format args =
    (take (Z.to_nat (size - 1)) (render format args),
     Z.min (size - 1) (Z.of_nat (length (render format args)))).
Proof.
  intros Hp Hs. unfold vsnprintf. rewrite vsn_loop_render, length_take by done. f_equal. lia.
Qed.

Lemma render_cons (c : Z) (f : list Z) (args : list arg) :
  c <> 0 -> c <> 37 -> render (c :: f) args = c :: render f args.
Proof. intros H0 H1. cbn [render]. by destruct (Z.eqb_spec c 0), (Z.eqb_spec c 37). Qed.

(** The delivery stanza always fits the test of its caller. *)
Lemma offline_stanza_written m jid : 0 < snd (offline_stanza m jid) < 1400.
Proof.
  assert (forall f args, no_pointer (60 :: f) = true -> 0 < snd (vsnprintf 1400 (60 :: f) args) < 1400) as Hv.
  { intros f args Hp. rewrite vsnprintf_render by (done || lia). cbn [snd].
    rewrite render_cons by lia. cbn [length]. lia. }
  unfold offline_stanza. destruct (negb _); apply Hv; reflexivity.
Qed.

(** One round of the delivery loop. *)
Definition drain_body `{Env} (ctx i : nat) : M unit :=
  s ← gets id;
  let m := default offline0 (offline_store s !! i) in
  let c := client_of s ctx in
  if om_active m =? 0 then skip
  else if negb (strcmp (om_to_user m) (username c) =? 0) then skip
  else
    let '(out, written) := offline_stanza m (full_jid c) in
    when ((0 <? written) && (written <? 1400)) (send_raw ctx out) ;;
    modify (fun s => set_offline_store (alter (set_om_active 0) i (offline_store s)) s).

Lemma drain_body_eq `{Env} ctx s pre m todo :
  offline_store s = pre ++ m :: todo ->
  let user := username (client_of s ctx) in
  let jid := full_jid (client_of s ctx) in
  drain_body ctx (length pre) s =
  (tt, set_offline_store (pre ++ (if is_for user m then set_om_active 0 m else m) :: todo)
         (snd (send_all ctx (delivered user jid [m]) s))).
Proof.
  intros E user jid. unfold drain_body, delivered. rewrite bind_eq, gets_eq. cbn [fst snd]. unfold id.
  rewrite E, (list_lookup_middle pre todo m _ eq_refl). cbn [default]. unfold is_for.
  rewrite filter_cons. fold user jid. unfold is_for.
  destruct (om_active m =? 0) eqn:Ha; cbn [negb andb].
  { rewrite decide_False by done. cbn. by rewrite <- E, set_offline_id. }
  destruct (strcmp (om_to_user m) user =? 0) eqn:Hu; cbn [negb].
  2: { rewrite decide_False by done. cbn. by rewrite <- E, set_offline_id. }
  rewrite decide_True by done. cbn [filter list_filter map send_all foldr].
  unfold id. pose proof (offline_stanza_written m jid) as Hw.
  destruct (offline_stanza m jid) as [out written] eqn:Eo. cbn [fst snd] in *.
  rewrite (proj2 (Z.ltb_lt 0 written)), (proj2 (Z.ltb_lt written 1400)) by lia. cbn [andb when].
  rewrite !bind_eq, modify_eq. cbn [fst snd]. rewrite send_raw_offline, E.
  rewrite alter_app_r_alt by lia. rewrite Nat.sub_diag. reflexivity.
Qed.

Lemma send_all_cons `{Env} ctx d l s :
  send_all ctx (d :: l) s = send_all ctx l (snd (send_raw ctx d s)).
Proof. exact (bind_eq (send_raw ctx d) (fun _ => send_all ctx l) s). Qed.

Lemma send_all_app `{Env} ctx l1 l2 s :
  send_all ctx (l1 ++ l2) s = send_all ctx l2 (snd (send_all ctx l1 s)).
Proof.
  revert s; induction l1 as [|d l1 IH]; intros s; [done|].
  cbn [app]. rewrite !send_all_cons. apply IH.
Qed.

Lemma send_all_user `{Env} ctx l s i :
  username (client_of (snd (send_all ctx l s)) i) = username (client_of s i) /\
  full_jid (client_of (snd (send_all ctx l s)) i) = full_jid (client_of s i).
Proof.
  revert s; induction l as [|d l IH]; intros s; [done|].
  rewrite send_all_cons. destruct (IH (snd (send_raw ctx d s))) as [-> ->].
  apply send_raw_user.
Qed.

Lemma drain_loop_eq `{Env} ctx todo pre s :
  offline_store s = pre ++ todo ->
  let user := username (client_of s ctx) in
  let jid := full_jid (client_of s ctx) in
  loop_from (length pre) (length todo) (drain_body ctx) s =
  (tt, set_offline_store (pre ++ drained user todo) (snd (send_all ctx (delivered user jid todo) s))).
Proof.
  revert pre s; induction todo as [|m todo IH]; intros pre s E user jid.
  { cbn. by rewrite <- E, set_offline_id. }
  cbn [loop_from length]. rewrite bind_eq, (drain_body_eq ctx s pre m todo E). cbn [fst snd].
  fold user jid. set (m' := if is_for user m then set_om_active 0 m else m).
  set (s1 := snd (send_all ctx (delivered user jid [m]) s)).
  destruct (send_all_user ctx (delivered user jid [m]) s ctx) as [Eu Ej]. fold s1 in Eu, Ej.
  replace (S (length pre)) with (length (pre ++ [m'])) by (rewrite length_app; simpl; lia).
  rewrite (IH (pre ++ [m'])) by (cbn; by rewrite <- app_assoc).
  change (client_of (set_offline_store (pre ++ m' :: todo) s1) ctx) with (client_of s1 ctx).
  rewrite Eu, Ej, blind_send_all. cbn [fst snd].
  assert (delivered user jid (m :: todo) = delivered user jid [m] ++ delivered user jid todo) as ->.
  { unfold delivered. rewrite <- map_app, <- filter_app. done. }
  rewrite send_all_app. fold s1. f_equal. rewrite <- app_assoc. reflexivity.
Qed.

(** Saving touches the disk and the call counter only. *)
Section saving.
Context `{Env} {V : Type} (f : srv -> V).
Context (f_disk : forall d s, f (set_disk d s) = f s) (f_calls : forall n s, f (set_calls n s) = f s).

Lemma within_disk_write lba buf : within (same f) (disk_write_sectors lba buf).
Proof.
  unfold disk_write_sectors, call. within_auto; apply within_modify; intros s; unfold same; auto.
Qed.

Lemma within_write_header : within (same f) write_header.
Proof. unfold write_header. within_auto. apply within_disk_write. Qed.

Lemma within_save lba n img : within (same f) (save lba n img).
Proof. unfold save. within_auto; [apply within_disk_write|apply within_write_header]. Qed.

Lemma within_save_region r : within (same f) (save_region r).
Proof. destruct r; apply within_save. Qed.
End saving.

Lemma offline_drain_eq `{Env} ctx s :
  length (offline_store s) = MAX_OFFLINE_MSGS ->
  let user := username (client_of s ctx) in
  let jid := full_jid (client_of s ctx) in
  let s' := snd (offline_msg_drain ctx s) in
  offline_store s' = drained user (offline_store s) /\
  trace s' = trace (snd (send_all ctx (delivered user jid (offline_store s)) s)) /\
  client_registry s' = client_registry (snd (send_all ctx (delivered user jid (offline_store s)) s)).
Proof.
  intros L user jid s'.
  assert (s' = snd (xmpp_persist_save_offline (set_offline_store (drained user (offline_store s))
            (snd (send_all ctx (delivered user jid (offline_store s)) s))))) as ->.
  { subst s'. unfold offline_msg_drain. rewrite bind_eq. unfold loop. rewrite <- L.
    change (fun i => _) with (drain_body ctx).
    pose proof (drain_loop_eq ctx (offline_store s) [] s eq_refl) as E.
    cbn [length app] in E. cbv zeta in E. fold user jid in E. rewrite E. done. }
  pose proof (within_save_region (fun s => (offline_store s, trace s, client_registry s))
                ltac:(done) ltac:(done) ROffline
                (set_offline_store (drained user (offline_store s))
                  (snd (send_all ctx (delivered user jid (offline_store s)) s)))) as W.
  unfold same in W. cbn [save_region] in W. injection W as -> -> ->. done.
Qed.

(** * Properties *)

(** C36: the roster array implements a map: an item with a contact address
    either removes that contact of that user, or sets its entry to the item
    (cut to 255 bytes) and leaves every other entry of every user alone; it is
    refused only when every slot is in use and the contact is new.  The array
    never gets two entries for one contact. *)
Theorem roster_upsert_implements_map (roster : list roster_entry_t) (user item cj : list Z) :
  Forall roster_ok roster -> unique roster -> (length (cstr user) <= 31)%nat ->
  roster_extract_jid item (zeros 64) 64 = Some cj ->
  Forall roster_ok (snd (roster_upsert roster user item)) /\
  unique (snd (roster_upsert roster user item)) /\
  roster_upsert_spec roster (roster_key user cj) item (roster_upsert roster user item).
Proof. apply roster_upsert_refines. Qed.

Lemma roster_upsert_implements_map_witness :
  let roster := replicate MAX_ROSTER_ENTRIES roster0 in
  let item := str "<item jid='user1@angelic.local' name='U'/>" in
  roster_upsert_spec roster (roster_key (str "admin") (str "user1@angelic.local")) item
    (roster_upsert roster (str "admin") item).
Proof.
  intros roster item.
  apply (roster_upsert_implements_map roster (str "admin") item
           (copy_str (zeros 64) (str "user1@angelic.local") 63)).
  - apply Forall_replicate. split; [reflexivity..|]. cbn. unfold int32. lia.
  - by apply unique_replicate.
  - vm_compute. lia.
  - vm_compute. reflexivity.
Defined.

(** Whatever payload a client sends in a roster update, the roster stays
    well formed and without duplicates, keeps its size, and the loop over the
    items ends within the length of the payload. *)
Theorem roster_payload_keeps_invariant (roster : list roster_entry_t) (user payload : list Z) :
  Forall roster_ok roster -> unique roster -> (length (cstr user) <= 31)%nat ->
  Forall roster_ok (roster_set roster user payload) /\ unique (roster_set roster user payload) /\
  length (roster_set roster user payload) = length roster /\
  forall fuel, (length payload < fuel)%nat ->
    roster_items_loop fuel roster user payload (zeros 256) = roster_set roster user payload.
Proof.
  intros Hok Hu Hl.
  destruct (roster_items_inv (S (length payload)) roster user payload (zeros 256) Hok Hu Hl) as (A & B & C).
  split_and!; try done. intros fuel Hf. apply roster_items_fuel; lia.
Qed.

Lemma roster_payload_keeps_invariant_witness :
  unique (roster_set (replicate MAX_ROSTER_ENTRIES roster0) (str "admin")
            (str "<item jid='a@b'><item jid='a@b'/><item jid='c@d'/>")).
Proof.
  apply (roster_payload_keeps_invariant (replicate MAX_ROSTER_ENTRIES roster0) (str "admin")
           (str "<item jid='a@b'><item jid='a@b'/><item jid='c@d'/>")).
  - apply Forall_replicate. split; [reflexivity..|]. cbn. unfold int32. lia.
  - by apply unique_replicate.
  - vm_compute. lia.
Defined.

(** The private storage implements a map from (user, namespace) to XML: an
    upsert stores the text (cut to 899 bytes) under its key and changes no
    other entry; it fails only when all slots are taken and the key is new. *)
Theorem private_upsert_implements_map (store : list private_store_entry_t) (user space data : list Z)
    (len : Z) :
  Forall private_ok store -> unique store -> (length (cstr user) <= 31)%nat ->
  (length (cstr space) <= 127)%nat -> 0 <= len <= Z.of_nat (length data) ->
  nul_free (take (Z.to_nat len) data) ->
  let '(r, store') := private_store_upsert store user space data len in
  Forall private_ok store' /\ unique store' /\
  ((r = 0 /\ forall k', private_get store' k' =
      if decide (k' = private_key user space) then Some (take 899 (take (Z.to_nat len) data))
      else private_get store k') \/
   (r = -1 /\ store' = store /\ Forall (fun e => pv_active e <> 0) store /\
    private_get store (private_key user space) = None)).
Proof. apply private_upsert_refines. Qed.

Lemma private_upsert_implements_map_witness :
  let '(r, store') := private_store_upsert (replicate PRIVATE_STORAGE_SLOTS private0) (str "user1")
                        (str "storage:bookmarks") (str "<storage/>") 10 in
  Forall private_ok store' /\ unique store' /\
  ((r = 0 /\ forall k', private_get store' k' =
      if decide (k' = private_key (str "user1") (str "storage:bookmarks"))
      then Some (take 899 (take (Z.to_nat 10) (str "<storage/>")))
      else private_get (replicate PRIVATE_STORAGE_SLOTS private0) k') \/
   (r = -1 /\ store' = replicate PRIVATE_STORAGE_SLOTS private0 /\
    Forall (fun e => pv_active e <> 0) (replicate PRIVATE_STORAGE_SLOTS private0) /\
    private_get (replicate PRIVATE_STORAGE_SLOTS private0)
      (private_key (str "user1") (str "storage:bookmarks")) = None)).
Proof.
  apply (private_upsert_implements_map (replicate PRIVATE_STORAGE_SLOTS private0) (str "user1")
           (str "storage:bookmarks") (str "<storage/>") 10).
  - apply Forall_replicate. split; [reflexivity..|]. cbn. unfold int32. lia.
  - by apply unique_replicate.
  - vm_compute. lia.
  - vm_compute. lia.
  - vm_compute. split; discriminate.
  - vm_compute. repeat (constructor; [discriminate|]). constructor.
Defined.

(** Offline delivery: when a user comes online, exactly the messages kept
    for that user are sent, each once and in the order of the store, and they
    are the only ones removed from it. *)
Theorem offline_drain_exactly_once (env : Env) (ctx : nat) (s : srv) :
  length (offline_store s) = MAX_OFFLINE_MSGS ->
  let user := username (client_of s ctx) in
  let jid := full_jid (client_of s ctx) in
  let s' := snd (offline_msg_drain ctx s) in
  offline_store s' = drained user (offline_store s) /\
  trace s' = trace (snd (send_all ctx (delivered user jid (offline_store s)) s)) /\
  client_registry s' = client_registry (snd (send_all ctx (delivered user jid (offline_store s)) s)).
Proof. apply offline_drain_eq. Qed.

Lemma offline_drain_exactly_once_witness :
  let s := set_offline_store (mk_offline (str "a@b") (str "user1@angelic.local") (str "user1")
             (str "m1") (str "<body>hi</body>") 1 :: replicate 31 offline0)
             (set_client_registry [set_username (str "user1") client0] srv0) in
  offline_store (snd (@offline_msg_drain good_env 0 s)) = drained (str "user1") (offline_store s).
Proof.
  intros s. apply (offline_drain_exactly_once good_env 0 s). reflexivity.
Defined.
