(* ===== verification/Tls.v ===== *)
(** The TLS glue: src/xmpp/xmpp_tls.c.

    Encrypted bytes from the network wait in the staging buffer [tls_rx_buf]
    between [tls_rx_pos] and [tls_rx_len]; mbedTLS pulls them out through the
    callback [tls_net_recv] and hands its records to [tls_net_send].  The
    library itself is not part of the sources: how it calls back during a
    handshake or a read, and what it returns, comes from [Env]. *)

From Stdlib Require Import ZArith Lia String Ascii Bool.
From stdpp Require Import base list numbers option sets.
From S2P Require Import Prelude.
From S2P Require Import Libc.
From S2P Require Import XmppCore.
From S2P Require Import RxBuffer.
From S2P Require Import Logic.
From S2P Require Import Persist.

Open Scope Z_scope.

(** * The staging buffer *)

Definition TLS_RX_BUF_SIZE : Z := 32768.

(** [tls_staging_compact] on the connection. *)
Definition staging_compact (c : xmpp_client_ctx_t) : xmpp_client_ctx_t :=
  if tls_rx_len c <=? tls_rx_pos c then set_tls_rx_len 0 (set_tls_rx_pos 0 c)
  else if 0 <? tls_rx_pos c then
    set_tls_rx_pos 0 (set_tls_rx_len (tls_rx_len c - tls_rx_pos c)
      (set_tls_rx_buf (memmove (tls_rx_buf c) 0 (Z.to_nat (tls_rx_pos c))
                         (Z.to_nat (tls_rx_len c - tls_rx_pos c))) c))
  else c.

(** [memcpy(tls_rx_buf + tls_rx_len, data, len); tls_rx_len += len;] *)
Definition staging_append (data : list Z) (c : xmpp_client_ctx_t) : xmpp_client_ctx_t :=
  let n := Z.to_nat (tls_rx_len c) in
  set_tls_rx_len (tls_rx_len c + Z.of_nat (length data))
    (set_tls_rx_buf (take n (tls_rx_buf c) ++ memcpy (drop n (tls_rx_buf c)) data (length data)) c).

(** [tls_net_recv]: the bytes given to the library, or WANT_READ. *)
Definition net_recv (len : Z) (c : xmpp_client_ctx_t) : option (list Z) * xmpp_client_ctx_t :=
  let avail := tls_rx_len c - tls_rx_pos c in
  if avail <=? 0 then (None, c)
  else
    let n := if len <? avail then len else avail in
    (Some (take (Z.to_nat n) (drop (Z.to_nat (tls_rx_pos c)) (tls_rx_buf c))),
     set_tls_rx_pos (tls_rx_pos c + n) c).

(** * Connections *)

Section with_env.
Context `{Env}.

Definition tls_staging_compact (ctx : nat) : M unit := upd_client ctx staging_compact.

Definition tls_net_recv (ctx : nat) (len : nat) : M unit :=
  upd_client ctx (fun c => snd (net_recv (Z.of_nat len) c)).

(** The record goes to the network unless the connection is gone. *)
Definition tls_net_send (ctx : nat) (buf : list Z) : M unit :=
  c ← client ctx;
  if negb (is_Some_b (pcb c)) then skip
  else n ← call; when (tcp_write_result n =? 0) (emit (EvTcp (pcb c) buf)).

(** The callbacks made by the [n]-th library call. *)
Definition ssl_callbacks (ctx n : nat) : M unit :=
  foldr (fun len k => tls_net_recv ctx len ;; k) skip (ssl_pulls n) ;;
  foldr (fun buf k => tls_net_send ctx buf ;; k) skip (ssl_pushes n).

(** [if (ctx->pcb) { tcp_close(ctx->pcb); ctx->pcb = NULL; }] *)
Definition close_pcb (ctx : nat) : M unit :=
  c ← client ctx;
  if is_Some_b (pcb c) then emit (EvClose (pcb c)) ;; upd_client ctx (set_pcb None) else skip.

Definition xmpp_tls_client_init (ctx : nat) : M Z :=
  upd_client ctx (set_tls_want_write 0) ;;
  n ← call;
  let r := tls_setup n in
  if negb (r =? 0) then emit (EvTlsFree ctx) ;; mret r
  else
    upd_client ctx (fun c => set_tls_rx_len 0 (set_tls_rx_pos 0
                               (set_tls_established 0 (set_tls_initialised 1 c)))) ;;
    mret 0.

Definition xmpp_tls_client_free (ctx : nat) : M unit :=
  c ← client ctx;
  if truth (tls_initialised c) then
    emit (EvTlsFree ctx) ;;
    upd_client ctx (fun c => set_tls_established 0 (set_tls_initialised 0
                               (set_tls_rx_len 0 (set_tls_rx_pos 0 c))))
  else skip.

Definition xmpp_tls_handshake_step (ctx : nat) (data : list Z) : M unit :=
  tls_staging_compact ctx ;;
  c ← client ctx;
  let space := TLS_RX_BUF_SIZE - tls_rx_len c in
  if space <? Z.of_nat (length data) then
    close_pcb ctx ;;
    upd_client ctx (fun c => set_state STATE_CONNECTED (set_tls_established 0 c))
  else
    when (0 <? Z.of_nat (length data)) (upd_client ctx (staging_append data)) ;;
    n ← call;
    ssl_callbacks ctx n ;;
    let r := ssl_handshake n in
    output ctx ;;
    tls_staging_compact ctx ;;
    if r =? 0 then
      upd_client ctx (fun c => set_tls_established 1 (set_tls_want_write 0
                                 (set_state STATE_CONNECTED (set_rx_pos 0 c))))
    else if r =? MBEDTLS_ERR_SSL_WANT_READ then upd_client ctx (set_tls_want_write 0)
    else if r =? MBEDTLS_ERR_SSL_WANT_WRITE then upd_client ctx (set_tls_want_write 1)
    else
      upd_client ctx (set_tls_want_write 0) ;;
      close_pcb ctx ;;
      upd_client ctx (fun c => set_state STATE_CONNECTED (set_tls_established 0 c)).

Definition policy_violation : list Z :=
  str "<stream:error>" ++ str "<policy-violation" ++
  str " xmlns='urn:ietf:params:xml:ns:xmpp-stanzas'/>" ++ str "</stream:error>" ++
  str "</stream:stream>".

(** The read loop: a round that goes on has put at least one byte in the
    receive buffer, so the size of that buffer is enough fuel. *)
Fixpoint decrypt_loop (fuel ctx : nat) : M unit :=
  match fuel with
  | O => skip
  | S fuel' =>
      n ← call;
      ssl_callbacks ctx n ;;
      let '(r, dec) := ssl_read n in
      c ← client ctx;
      if 0 <? r then
        if rx_pos c + r <? 32767 then
          upd_client ctx (rx_append (take (Z.to_nat r) dec)) ;; decrypt_loop fuel' ctx
        else if is_Some_b (pcb c) then
          ssl_write_call ctx policy_violation ;;
          emit (EvOutput (pcb c)) ;; emit (EvClose (pcb c)) ;; upd_client ctx (set_pcb None)
        else skip
      else if r =? 0 then close_pcb ctx
      else if negb (r =? MBEDTLS_ERR_SSL_WANT_READ) && negb (r =? MBEDTLS_ERR_SSL_WANT_WRITE) then
        close_pcb ctx ;; upd_client ctx (set_tls_established 0)
      else tls_staging_compact ctx
  end.

Definition xmpp_tls_decrypt (ctx : nat) (data : list Z) : M unit :=
  tls_staging_compact ctx ;;
  c ← client ctx;
  let space := TLS_RX_BUF_SIZE - tls_rx_len c in
  if space <? Z.of_nat (length data) then close_pcb ctx
  else
    when (0 <? Z.of_nat (length data)) (upd_client ctx (staging_append data)) ;;
    decrypt_loop RX_BUFFER_SIZE ctx.

End with_env.

(** * Entropy *)

(** [tls_entropy_func] fills its output with 32-bit random values, the last one
    cut. *)
Fixpoint tls_entropy `{Env} (fuel len : nat) : M (list Z) :=
  match fuel with
  | O => mret []
  | S fuel' =>
      if (4 <=? len)%nat then
        r ← random_u32;
        rest ← tls_entropy fuel' (len - 4);
        mret (le32 r ++ rest)
      else if (0 <? len)%nat then r ← random_u32; mret (take len (le32 r))
      else mret []
  end.

Definition tls_entropy_func `{Env} (len : nat) : M (list Z) := tls_entropy (S len) len.

(** * Facts *)

(** The staging buffer's invariant and the bytes that wait in it. *)
Record staging_ok (c : xmpp_client_ctx_t) : Prop := {
  sk_size : Z.of_nat (length (tls_rx_buf c)) = TLS_RX_BUF_SIZE;
  sk_pos : 0 <= tls_rx_pos c <= tls_rx_len c;
  sk_len : tls_rx_len c <= TLS_RX_BUF_SIZE
}.

Definition unread (c : xmpp_client_ctx_t) : list Z :=
  take (Z.to_nat (tls_rx_len c - tls_rx_pos c)) (drop (Z.to_nat (tls_rx_pos c)) (tls_rx_buf c)).

Lemma staging_compact_ok c :
  staging_ok c -> staging_ok (staging_compact c) /\ tls_rx_pos (staging_compact c) = 0 /\
                  unread (staging_compact c) = unread c.
Proof.
  intros [Hs Hp Hl]. unfold TLS_RX_BUF_SIZE in *. unfold staging_compact, unread.
  destruct (Z.leb_spec (tls_rx_len c) (tls_rx_pos c)).
  { split_and!; [split; cbn; unfold TLS_RX_BUF_SIZE; lia|done|]. cbn.
    by replace (Z.to_nat (tls_rx_len c - tls_rx_pos c)) with O by lia. }
  destruct (Z.ltb_spec 0 (tls_rx_pos c)).
  2: { split_and!; [by split|lia|done]. }
  set (n := Z.to_nat (tls_rx_len c - tls_rx_pos c)). set (p := Z.to_nat (tls_rx_pos c)).
  assert (memmove (tls_rx_buf c) 0 p n = take n (drop p (tls_rx_buf c)) ++ drop n (tls_rx_buf c)) as Em.
  { rewrite memmove_moved by lia. done. }
  split_and!; [|done|].
  - split; cbn [tls_rx_buf tls_rx_pos tls_rx_len set_tls_rx_pos set_tls_rx_len set_tls_rx_buf];
      unfold TLS_RX_BUF_SIZE; [|lia|lia].
    rewrite Em, length_app, length_take, !length_drop. lia.
  - cbn [tls_rx_buf tls_rx_pos tls_rx_len set_tls_rx_pos set_tls_rx_len set_tls_rx_buf].
    rewrite Em, Z.sub_0_r. fold n. change (Z.to_nat 0) with O. rewrite drop_0.
    rewrite take_app_le by (rewrite length_take, length_drop; lia).
    by rewrite take_take, Nat.min_id.
Qed.

Lemma staging_append_ok c data :
  staging_ok c -> Z.of_nat (length data) <= TLS_RX_BUF_SIZE - tls_rx_len c ->
  staging_ok (staging_append data c) /\ unread (staging_append data c) = unread c ++ data.
Proof.
  intros [Hs Hp Hl] Hd. unfold TLS_RX_BUF_SIZE in *. unfold staging_append, unread.
  cbn [tls_rx_buf tls_rx_pos tls_rx_len set_tls_rx_len set_tls_rx_buf].
  set (n := Z.to_nat (tls_rx_len c)). set (p := Z.to_nat (tls_rx_pos c)).
  rewrite memcpy_eq, firstn_all, drop_drop by lia. split.
  - split; cbn [tls_rx_buf tls_rx_pos tls_rx_len set_tls_rx_len set_tls_rx_buf];
      unfold TLS_RX_BUF_SIZE; [|lia|lia].
    rewrite !length_app, length_take, length_drop. lia.
  - rewrite drop_app_le by (rewrite length_take; lia).
    replace (Z.to_nat (tls_rx_len c + Z.of_nat (length data) - tls_rx_pos c))
      with (length (drop p (take n (tls_rx_buf c))) + length data)%nat
      by (rewrite length_drop, length_take; lia).
    rewrite app_assoc, take_app_le by (rewrite length_app; lia).
    rewrite take_ge by (rewrite length_app; lia). f_equal.
    rewrite skipn_firstn_comm. f_equal. lia.
Qed.

Lemma net_recv_ok c len :
  staging_ok c -> 0 <= len ->
  let '(r, c') := net_recv len c in
  staging_ok c' /\ unread c = default [] r ++ unread c' /\ (r = None -> unread c = []) /\
  Z.of_nat (length (default [] r)) <= len.
Proof.
  intros [Hs Hp Hl] Hlen. unfold TLS_RX_BUF_SIZE in *. unfold net_recv.
  destruct (Z.leb_spec (tls_rx_len c - tls_rx_pos c) 0) as [L|L].
  { assert (unread c = []) as E.
    { unfold unread. by replace (Z.to_nat (tls_rx_len c - tls_rx_pos c)) with O by lia. }
    split_and!; [by split|done|done|simpl; lia]. }
  set (n := if len <? tls_rx_len c - tls_rx_pos c then len else tls_rx_len c - tls_rx_pos c).
  assert (0 <= n <= tls_rx_len c - tls_rx_pos c /\ n <= len) as [Hn Hnl].
  { unfold n. destruct (Z.ltb_spec len (tls_rx_len c - tls_rx_pos c)); lia. }
  clearbody n. split_and!.
  - split; cbn; unfold TLS_RX_BUF_SIZE; lia.
  - cbn [default]. unfold unread. cbn [tls_rx_buf tls_rx_pos tls_rx_len set_tls_rx_pos].
    replace (Z.to_nat (tls_rx_len c - tls_rx_pos c))
      with (Z.to_nat n + Z.to_nat (tls_rx_len c - (tls_rx_pos c + n)))%nat by lia.
    rewrite <- (take_take_drop _ (Z.to_nat n)), drop_drop. unfold id. do 3 f_equal. lia.
  - done.
  - cbn [default]. unfold id. rewrite length_take. lia.
Qed.

(** * Properties *)

(** The staging buffer between lwIP and mbedTLS is a queue: compaction
    keeps the waiting bytes, a segment that fits is added at the end, and a
    pull takes a prefix; no operation leaves the buffer. *)
Theorem tls_staging_is_queue (c : xmpp_client_ctx_t) (data : list Z) (len : Z) :
  staging_ok c -> Z.of_nat (length data) <= TLS_RX_BUF_SIZE - tls_rx_len c -> 0 <= len ->
  (staging_ok (staging_compact c) /\ unread (staging_compact c) = unread c) /\
  (staging_ok (staging_append data c) /\ unread (staging_append data c) = unread c ++ data) /\
  (let '(r, c') := net_recv len c in
   staging_ok c' /\ unread c = default [] r ++ unread c' /\ (r = None -> unread c = []) /\
   Z.of_nat (length (default [] r)) <= len).
Proof.
  intros Hc Hd Hl. destruct (staging_compact_ok c Hc) as (A & _ & B).
  split_and!; try done; [by apply staging_append_ok..|by apply net_recv_ok].
Qed.

Lemma tls_staging_is_queue_witness :
  let c := staging_append [1; 2; 3] client0 in
  let '(r, c') := net_recv 2 c in
  staging_ok c' /\ unread c = default [] r ++ unread c' /\ (r = None -> unread c = []) /\
  Z.of_nat (length (default [] r)) <= 2.
Proof.
  intros c. apply (tls_staging_is_queue c [] 2).
  - apply staging_append_ok; [|vm_compute; discriminate].
    split; vm_compute; [reflexivity|split; discriminate|discriminate].
  - vm_compute. discriminate.
  - lia.
Defined.
