(* ===== verification/Sasl.v ===== *)
(** Authentication: [b64decode] and [handle_sasl] of src/xmpp/xmpp_handlers.c. *)

From Stdlib Require Import ZArith Lia String Ascii Bool.
From stdpp Require Import base list numbers option sets.
From S2P Require Import Prelude.
From S2P Require Import Libc.
From S2P Require Import SlotMap.
From S2P Require Import XmppCore.
From S2P Require Import Logic.
From S2P Require Import Persist.

Open Scope Z_scope.

(** * Base64 *)

Definition b64_chars : list Z := str "ABCDEFGHIJKLMNOPQRSTUVWXYZabcdefghijklmnopqrstuvwxyz0123456789+/".

(** The inner search loop. *)
Definition b64_val (c : Z) : option Z := Z.of_nat <$> first_index (Z.eqb c) b64_chars.

(** The decoding loop: [out] is what [dst] holds so far; [None] is the result
    -1 for a byte outside the alphabet. *)
Fixpoint b64_loop (src : list Z) (buf bits dst_len : Z) (out : list Z) : option (list Z) :=
  match src with
  | [] => Some out
  | c :: src' =>
      if (c =? 0) || (c =? 61) then Some out
      else
        match b64_val c with
        | None => None
        | Some val =>
            let buf := Z.lor (u32 (Z.shiftl buf 6)) val in
            let bits := bits + 6 in
            if 8 <=? bits then
              let bits := bits - 8 in
              let out := if Z.of_nat (length out) <? dst_len
                         then out ++ [Z.land (Z.shiftr buf bits) 0xFF] else out in
              b64_loop src' buf bits dst_len out
            else b64_loop src' buf bits dst_len out
        end
  end.

Definition b64decode (src : list Z) (dst_len : Z) : option (list Z) := b64_loop src 0 0 dst_len [].

(** * Authentication *)

Definition xmpp_credentials : list (list Z * list Z) :=
  [(str "admin", str "admin"); (str "user1", str "pass1"); (str "user2", str "pass2")].

(** [while (i < len && d[i] != 0) i++; i++;] on the decoded bytes from [i] on. *)
Fixpoint after_nul (d : list Z) : list Z :=
  match d with
  | [] => []
  | c :: d' => if c =? 0 then d' else after_nul d'
  end.

(** The second and the third field of [authzid NUL authcid NUL passwd]. *)
Definition sasl_username (d : list Z) : list Z :=
  if 1 <? Z.of_nat (length d) then take 31 (cstr (after_nul d)) else [].

Definition sasl_password (d : list Z) : list Z := take 63 (cstr (after_nul (after_nul d))).

(** [username[0] = 0], then the bytes of the name and a terminator. *)
Definition put_username (name : list Z) (c : xmpp_client_ctx_t) : xmpp_client_ctx_t :=
  set_username (name ++ 0 :: drop (S (length name)) (username c)) c.

(** The characters a user name may not contain. *)
Definition bad_username_char (c : Z) : bool := existsb (Z.eqb c) [64; 47; 60; 62; 32; 39; 34].

Definition sasl_failure (reason : list Z) : list Z :=
  str "<failure xmlns='urn:ietf:params:xml:ns:xmpp-sasl'>" ++ reason ++ str "</failure>".

Definition pol_vio : list Z :=
  str "<stream:error>" ++ str "<policy-violation xmlns='urn:ietf:params:xml:ns:xmpp-stanzas'/>" ++
  str "</stream:error>" ++ str "</stream:stream>".

Section with_env.
Context `{Env}.

(** A refused login: the failure is counted and the fifth one closes the
    connection. *)
Definition sasl_refuse (ctx : nat) : M unit :=
  send_raw ctx (sasl_failure (str "<not-authorized/>")) ;;
  upd_client ctx (fun c => set_sasl_failures (sasl_failures c + 1) c) ;;
  c ← client ctx;
  if SASL_MAX_FAILURES <=? sasl_failures c then
    send_raw ctx pol_vio ;;
    emit (EvClose (pcb c)) ;;
    upd_client ctx (fun c => set_state STATE_CONNECTED (set_pcb None c))
  else skip.

Definition authorized (user password : list Z) : bool :=
  existsb (fun cr => (strcmp (fst cr) user =? 0) && (strcmp (snd cr) password =? 0)) xmpp_credentials.

Definition handle_sasl (ctx : nat) (stanza : xmpp_stanza_t) : M unit :=
  c ← client ctx;
  if negb (truth (tls_established c)) then send_raw ctx (sasl_failure (str "<encryption-required/>"))
  else if negb (deref (st_mechanism stanza) =? 0) &&
          negb (strcmp (st_mechanism stanza) (str "PLAIN") =? 0) &&
          negb (strcmp (st_mechanism stanza) (str "ANONYMOUS") =? 0) then
    send_raw ctx (sasl_failure (str "<invalid-mechanism/>"))
  else
    match b64decode (st_payload stanza) 127 with
    | None => send_raw ctx (sasl_failure (str "<incorrect-encoding/>"))
    | Some d =>
        upd_client ctx (put_username (sasl_username d)) ;;
        if existsb bad_username_char (sasl_username d) then sasl_refuse ctx
        else
          when (bytes_eqb (sasl_username d) [])
            (upd_client ctx (fun c => set_username (strncpy (username c) (str "user") 31) c)) ;;
          c ← client ctx;
          if (strcmp (st_mechanism stanza) (str "PLAIN") =? 0) &&
             negb (authorized (username c) (sasl_password d))
          then sasl_refuse ctx
          else
            send_raw ctx (str "<success xmlns='urn:ietf:params:xml:ns:xmpp-sasl'/>") ;;
            upd_client ctx (fun c => set_state STATE_AUTHENTICATED (set_authenticated 1 c))
    end.

End with_env.

(** * Facts *)

(** ** What a refused login leaves alone *)

Lemma within_refuse `{Env} {V} (v : xmpp_client_ctx_t -> V) ctx :
  (forall n c, v (set_sm_outbound_count n c) = v c) -> (forall n c, v (set_sm_want_ack n c) = v c) ->
  (forall n c, v (set_sasl_failures n c) = v c) ->
  (forall c, v (set_state STATE_CONNECTED (set_pcb None c)) = v c) ->
  within (keeps v) (sasl_refuse ctx).
Proof.
  intros H1 H2 H3 H4. unfold sasl_refuse.
  within_auto; try (by apply within_send); apply within_upd_keeps; auto.
Qed.

Lemma authorized_spec user password :
  nul_free password ->
  authorized user password = true <-> (cstr user, password) ∈ xmpp_credentials.
Proof.
  intros Hp. unfold authorized. rewrite existsb_exists. split.
  - intros ((u, p) & Hin & Hc). apply andb_prop in Hc as [E1 E2]. cbn [fst snd] in *.
    rewrite strcmp_eqb in E1, E2. apply bytes_eqb_spec in E1, E2. rewrite (cstr_id password) in E2 by done.
    apply list_elem_of_In. rewrite <- E1, <- E2.
    assert (cstr u = u /\ cstr p = p) as [-> ->]; [|done].
    repeat (destruct Hin as [Hin|Hin]; [simplify_eq; done|]); done.
  - intros Hin. apply list_elem_of_In in Hin. exists (cstr user, password). split; [done|]. cbn [fst snd].
    rewrite !strcmp_eqb, cstr_idemp. by rewrite !bytes_eqb_refl.
Qed.

Lemma sasl_password_nul_free d : nul_free (sasl_password d).
Proof. apply take_nul_free, cstr_nul_free. Qed.

Section authentication.
Context `{Env} (ctx : nat) (stanza : xmpp_stanza_t) (s : srv).
Let s' := snd (handle_sasl ctx stanza s).
Context (Hctx : (ctx < length (client_registry s))%nat).
Context (Hauth : authenticated (client_of s ctx) = 0) (Hauth' : authenticated (client_of s' ctx) <> 0).

(** A login that ends authenticated went through TLS, a known mechanism and,
    for PLAIN, the credential table. *)
Lemma sasl_success :
  tls_established (client_of s ctx) <> 0 /\
  exists d, b64decode (st_payload stanza) 127 = Some d /\
    (cstr (st_mechanism stanza) = str "PLAIN" ->
     (cstr (username (client_of s' ctx)), sasl_password d) ∈ xmpp_credentials).
Proof.
  assert (forall i d t, authenticated (client_of (snd (send_raw i d t)) ctx) = authenticated (client_of t ctx)) as Hsend.
  { intros i d t. by apply (keeps_at authenticated), within_send. }
  assert (forall i t, authenticated (client_of (snd (sasl_refuse i t)) ctx) = authenticated (client_of t ctx)) as Href.
  { intros i t. by apply (keeps_at authenticated), within_refuse. }
  assert (forall d t, authenticated (client_of (snd (upd_client ctx (put_username d) t)) ctx) =
                      authenticated (client_of t ctx)) as Hput.
  { intros d t. by apply (keeps_at authenticated), within_upd_keeps. }
  revert Hauth'. unfold s', handle_sasl. run. rewrite client_eq. cbn [fst snd].
  destruct (negb (truth (tls_established (client_of s ctx)))) eqn:Et.
  { rewrite Hsend. by rewrite Hauth. }
  destruct (_ && _); [by rewrite Hsend, Hauth|].
  destruct (b64decode (st_payload stanza) 127) as [d|]; [|by rewrite Hsend, Hauth].
  run. set (s1 := snd (upd_client ctx (put_username (sasl_username d)) s)).
  assert (authenticated (client_of s1 ctx) = 0) as A1 by (unfold s1; by rewrite Hput).
  destruct (existsb _ _); [by rewrite Href, A1|].
  run. set (m2 := when _ _). set (s2 := snd (m2 s1)).
  assert (authenticated (client_of s2 ctx) = 0 /\ (ctx < length (client_registry s2))%nat) as [A2 L2].
  { assert (within (keeps authenticated) m2) as W.
    { unfold m2. apply within_when; [typeclasses eauto|]. by apply within_upd_keeps. }
    split; [unfold s2; by rewrite (keeps_at _ _ _ ctx (W s1))|].
    unfold s2. rewrite (keeps_length _ _ _ (W s1)). unfold s1. by rewrite upd_length. }
  run. rewrite client_eq. cbn [fst snd].
  destruct (_ && _) eqn:Ep; [by rewrite Href, A2|]. intros _.
  split.
  { unfold truth in Et. destruct (Z.eqb_spec (tls_established (client_of s ctx)) 0); [done|done]. }
  exists d. split; [done|]. intros Hplain.
  assert (strcmp (st_mechanism stanza) (str "PLAIN") =? 0 = true) as Em.
  { rewrite strcmp_eqb, Hplain. reflexivity. }
  rewrite Em in Ep. cbn [andb] in Ep. apply negb_false_iff in Ep.
  apply authorized_spec in Ep; [|apply sasl_password_nul_free].
  run. set (s3 := snd (send_raw ctx _ s2)).
  assert (keeps username s2 s3) as W by (by apply within_send).
  rewrite upd_at by (by rewrite (keeps_length _ _ _ W)).
  cbn [username set_state set_authenticated]. by rewrite (keeps_at _ _ _ _ W).
Qed.
End authentication.

(** ** Base64 against its encoder *)

Definition b64_char (v : Z) : Z := at_ b64_chars (Z.to_nat v).

(** The standard encoding, with padding. *)
Fixpoint b64encode (l : list Z) : list Z :=
  match l with
  | [] => []
  | [a] => [b64_char (a / 4); b64_char (a mod 4 * 16); 61; 61]
  | [a; b] => [b64_char (a / 4); b64_char (a mod 4 * 16 + b / 16); b64_char (b mod 16 * 4); 61]
  | a :: b :: c :: l' =>
      b64_char (a / 4) :: b64_char (a mod 4 * 16 + b / 16) ::
      b64_char (b mod 16 * 4 + c / 64) :: b64_char (c mod 64) :: b64encode l'
  end.

Lemma b64_char_val (v : Z) :
  0 <= v < 64 -> b64_val (b64_char v) = Some v /\ (b64_char v =? 0) || (b64_char v =? 61) = false.
Proof.
  intros Hv.
  assert (forallb (fun k => bool_decide (b64_val (b64_char (Z.of_nat k)) = Some (Z.of_nat k)) &&
            negb ((b64_char (Z.of_nat k) =? 0) || (b64_char (Z.of_nat k) =? 61))) (seq 0 64) = true) as Hall
    by (vm_compute; reflexivity).
  rewrite forallb_forall in Hall. specialize (Hall (Z.to_nat v)).
  rewrite Z2Nat.id in Hall by lia. rewrite in_seq in Hall. specialize (Hall ltac:(lia)).
  apply andb_prop in Hall as [H1 H2]. apply bool_decide_eq_true in H1. by apply negb_true_iff in H2.
Qed.

(** One character shifts six bits in. *)
Definition b64_step (buf v : Z) : Z := u32 (buf * 64) + v.

Lemma b64_step_lor buf v : 0 <= v < 64 -> Z.lor (u32 (Z.shiftl buf 6)) v = b64_step buf v.
Proof.
  intros Hv. unfold b64_step, u32. rewrite Z.shiftl_mul_pow2 by lia. change (2 ^ 6) with 64.
  symmetry. apply Z.add_nocarry_lor. apply Z.bits_inj'. intros i Hi.
  rewrite Z.land_spec, Z.bits_0. destruct (Z_lt_dec i 6).
  - rewrite Z.mod_pow2_bits_low by lia. change 64 with (2 ^ 6). by rewrite Z.mul_pow2_bits_low by lia.
  - rewrite (testbit_above 6 v i) by lia. apply andb_false_r.
Qed.

Lemma b64_step_mod buf v k :
  0 <= v < 64 -> 0 <= k <= 26 -> b64_step buf v mod 2 ^ (6 + k) = buf mod 2 ^ k * 64 + v.
Proof.
  intros Hv Hk. unfold b64_step, u32.
  assert (exists q, 2 ^ 32 = 2 ^ (6 + k) * q) as [q Hq].
  { exists (2 ^ (26 - k)). rewrite <- Z.pow_add_r by lia. f_equal. lia. }
  pose proof (Z.pow_pos_nonneg 2 k ltac:(lia) ltac:(lia)) as Hpk.
  assert (2 ^ (6 + k) = 64 * 2 ^ k) as H6 by (rewrite Z.pow_add_r by lia; done).
  rewrite <- Zplus_mod_idemp_l, <- Znumtheory.Zmod_div_mod.
  - rewrite Zplus_mod_idemp_l, H6.
    pose proof (Z.div_mod buf (2 ^ k) ltac:(lia)) as E.
    pose proof (Z.mod_pos_bound buf (2 ^ k) ltac:(lia)) as B.
    replace (buf * 64 + v) with (buf mod 2 ^ k * 64 + v + buf / 2 ^ k * (64 * 2 ^ k)) by nia.
    rewrite Z_mod_plus_full. apply Z.mod_small. nia.
  - lia.
  - lia.
  - exists q. rewrite Hq. lia.
Qed.

Lemma b64_loop_char v src buf bits n out :
  0 <= v < 64 ->
  b64_loop (b64_char v :: src) buf bits n out =
  if 8 <=? bits + 6 then
    b64_loop src (b64_step buf v) (bits + 6 - 8) n
      (if Z.of_nat (length out) <? n
       then out ++ [Z.shiftr (b64_step buf v) (bits + 6 - 8) mod 256] else out)
  else b64_loop src (b64_step buf v) (bits + 6) n out.
Proof.
  intros Hv. destruct (b64_char_val v Hv) as [E1 E2]. cbn [b64_loop].
  rewrite E1, E2, b64_step_lor by done. change 0xFF with (Z.ones 8).
  by rewrite Z.land_ones by lia.
Qed.

(** The three bytes of a group come out again. *)
Lemma b64_bytes buf a b c :
  0 <= a < 256 -> 0 <= b < 256 -> 0 <= c < 256 ->
  let x2 := b64_step (b64_step buf (a / 4)) (a mod 4 * 16 + b / 16) in
  let x3 := b64_step x2 (b mod 16 * 4 + c / 64) in
  let x4 := b64_step x3 (c mod 64) in
  Z.shiftr x2 4 mod 256 = a /\ Z.shiftr x3 2 mod 256 = b /\ Z.shiftr x4 0 mod 256 = c.
Proof.
  intros Ha Hb Hc. cbv zeta.
  assert (0 <= a / 4 < 64 /\ 0 <= a mod 4 * 16 + b / 16 < 64 /\
          0 <= b mod 16 * 4 + c / 64 < 64 /\ 0 <= c mod 64 < 64) as (V1 & V2 & V3 & V4)
    by (Z.to_euclidean_division_equations; lia).
  set (x1 := b64_step buf (a / 4)). set (x2 := b64_step x1 _). set (x3 := b64_step x2 _).
  set (x4 := b64_step x3 _).
  assert (x1 mod 64 = a / 4) as M1.
  { pose proof (b64_step_mod buf (a / 4) 0 V1 ltac:(lia)) as E. fold x1 in E.
    change (2 ^ (6 + 0)) with 64 in E. change (2 ^ 0) with 1 in E. rewrite Z.mod_1_r in E. lia. }
  pose proof (b64_step_mod x1 _ 6 V2 ltac:(lia)) as M2. fold x2 in M2.
  pose proof (b64_step_mod x2 _ 4 V3 ltac:(lia)) as M3. fold x3 in M3.
  pose proof (b64_step_mod x3 _ 2 V4 ltac:(lia)) as M4. fold x4 in M4.
  change (2 ^ (6 + 6)) with 4096 in M2. change (2 ^ 6) with 64 in M2. rewrite M1 in M2.
  change (2 ^ (6 + 4)) with 1024 in M3. change (2 ^ 4) with 16 in M3.
  change (2 ^ (6 + 2)) with 256 in M4. change (2 ^ 2) with 4 in M4.
  rewrite !Z.shiftr_div_pow2 by lia. change (2 ^ 4) with 16. change (2 ^ 2) with 4. change (2 ^ 0) with 1.
  clearbody x1 x2 x3 x4. rewrite Z.div_1_r.
  split_and!; Z.to_euclidean_division_equations; lia.
Qed.

Lemma b64_loop_encode (l : list Z) (buf n : Z) (out rest : list Z) :
  Forall (fun b => 0 <= b < 256) l -> Z.of_nat (length out + length l) <= n ->
  deref rest = 0 ->
  b64_loop (b64encode l ++ rest) buf 0 n out = Some (out ++ l).
Proof.
  revert buf out. induction l as [l IH] using (induction_ltof1 _ (@length Z)); unfold ltof in IH.
  intros buf out F Hn Hr.
  assert (forall x y z, x <? n = true -> (if x <? n then y else z) = (y : list Z)) as Yes
    by (by intros x y z ->).
  destruct l as [|a [|b [|c l]]].
  - rewrite app_nil_r. destruct rest as [|r rest]; [done|]. simpl in Hr. by subst.
  - apply Forall_cons in F as [Ha _]. cbn [b64encode app].
    assert (0 <= a / 4 < 64 /\ 0 <= a mod 4 * 16 < 64) as [V1 V2] by (Z.to_euclidean_division_equations; lia).
    destruct (b64_bytes buf a 0 0 Ha ltac:(lia) ltac:(lia)) as (E & _ & _).
    rewrite !b64_loop_char by done. cbn [Z.leb Z.add Z.sub Z.pos_sub Pos.compare].
    change (8 <=? 0 + 6) with false. change (8 <=? 0 + 6 + 6) with true. cbv iota.
    change (0 + 6 + 6 - 8) with 4. change (0 / 16) with 0 in E. rewrite Z.add_0_r in E. rewrite E.
    rewrite Yes by (apply Z.ltb_lt; simpl in Hn; lia). reflexivity.
  - apply Forall_cons in F as [Ha F]. apply Forall_cons in F as [Hb _]. cbn [b64encode app].
    assert (0 <= a / 4 < 64 /\ 0 <= a mod 4 * 16 + b / 16 < 64 /\ 0 <= b mod 16 * 4 < 64)
      as (V1 & V2 & V3) by (Z.to_euclidean_division_equations; lia).
    destruct (b64_bytes buf a b 0 Ha Hb ltac:(lia)) as (E1 & E2 & _).
    change (0 / 64) with 0 in E2. rewrite Z.add_0_r in E2.
    rewrite !b64_loop_char by done.
    change (8 <=? 0 + 6) with false. change (8 <=? 0 + 6 + 6) with true.
    change (8 <=? 0 + 6 + 6 - 8 + 6) with true. cbv iota.
    change (0 + 6 + 6 - 8) with 4. change (4 + 6 - 8) with 2. rewrite E1, E2.
    simpl in Hn. rewrite !Yes by (apply Z.ltb_lt; rewrite ?Yes by (apply Z.ltb_lt; lia);
                                  rewrite ?length_app; simpl; lia).
    rewrite <- app_assoc. reflexivity.
  - apply Forall_cons in F as [Ha F]. apply Forall_cons in F as [Hb F].
    apply Forall_cons in F as [Hc F]. cbn [b64encode app].
    assert (0 <= a / 4 < 64 /\ 0 <= a mod 4 * 16 + b / 16 < 64 /\
            0 <= b mod 16 * 4 + c / 64 < 64 /\ 0 <= c mod 64 < 64) as (V1 & V2 & V3 & V4)
      by (Z.to_euclidean_division_equations; lia).
    destruct (b64_bytes buf a b c Ha Hb Hc) as (E1 & E2 & E3).
    rewrite !b64_loop_char by done.
    change (8 <=? 0 + 6) with false. change (8 <=? 0 + 6 + 6) with true.
    change (8 <=? 0 + 6 + 6 - 8 + 6) with true. change (8 <=? 0 + 6 + 6 - 8 + 6 - 8 + 6) with true.
    cbv iota. change (0 + 6 + 6 - 8) with 4. change (4 + 6 - 8) with 2. change (2 + 6 - 8) with 0.
    rewrite E1, E2, E3. simpl in Hn.
    rewrite (Yes (Z.of_nat (length out))) by (apply Z.ltb_lt; lia).
    rewrite (Yes (Z.of_nat (length (out ++ [a])))) by (apply Z.ltb_lt; rewrite length_app; simpl; lia).
    rewrite Yes by (apply Z.ltb_lt; rewrite !length_app; simpl; lia).
    rewrite IH; [by rewrite <- !app_assoc|simpl; lia|done|rewrite !length_app; simpl; lia|done].
Qed.

(** * Properties *)

(** C14: a connection becomes authenticated only over an established TLS
    session, and with the mechanism PLAIN only when the user name it ends up
    with and the password it sent are an entry of the credential table. *)
Theorem sasl_success_needs_tls_and_credentials (env : Env) (ctx : nat) (stanza : xmpp_stanza_t) (s : srv) :
  (ctx < length (client_registry s))%nat ->
  authenticated (client_of s ctx) = 0 ->
  authenticated (client_of (snd (handle_sasl ctx stanza s)) ctx) <> 0 ->
  tls_established (client_of s ctx) <> 0 /\
  exists d, b64decode (st_payload stanza) 127 = Some d /\
    (cstr (st_mechanism stanza) = str "PLAIN" ->
     (cstr (username (client_of (snd (handle_sasl ctx stanza s)) ctx)), sasl_password d)
       ∈ xmpp_credentials).
Proof. apply sasl_success. Qed.

(** A server with one connection over TLS, and an [auth] stanza. *)
Definition tls_client : xmpp_client_ctx_t := set_tls_established 1 (set_pcb (Some 7%nat) client0).

Definition one_client (c : xmpp_client_ctx_t) : srv :=
  mk_srv [c] [] [] 0 [] [] [] [] [] {| rng_state := 0; rng_seeded := false |} [] 0 [].

Definition auth_stanza (mechanism payload : list Z) : xmpp_stanza_t :=
  mk_stanza XMPP_UNKNOWN [] [] [] [] (payload ++ [0]) (mechanism ++ [0]) 1.

Lemma sasl_success_needs_tls_and_credentials_witness :
  let stanza := auth_stanza (str "PLAIN") (b64encode ([0] ++ str "user1" ++ [0] ++ str "pass1")) in
  tls_established (client_of (one_client tls_client) 0) <> 0 /\
  exists d, b64decode (st_payload stanza) 127 = Some d /\
    (cstr (st_mechanism stanza) = str "PLAIN" ->
     (cstr (username (client_of (snd (@handle_sasl good_env 0 stanza (one_client tls_client))) 0)),
      sasl_password d) ∈ xmpp_credentials).
Proof.
  intros stanza.
  apply (sasl_success_needs_tls_and_credentials good_env 0 stanza (one_client tls_client)).
  - simpl. lia.
  - reflexivity.
  - vm_compute. discriminate.
Defined.



(** The decoder inverts Base64: the encoding of at most 127 bytes, as a C
    string, decodes to the bytes. *)
Theorem b64decode_encode (l : list Z) :
  Forall (fun b => 0 <= b < 256) l -> (length l <= 127)%nat ->
  b64decode (b64encode l ++ [0]) 127 = Some l.
Proof. intros F Hl. unfold b64decode. rewrite b64_loop_encode; [done|done|simpl; lia|done]. Qed.

Lemma b64decode_encode_witness :
  b64decode (b64encode (str "any carnal pleas") ++ [0]) 127 = Some (str "any carnal pleas").
Proof.
  apply (b64decode_encode (str "any carnal pleas")).
  - vm_compute. repeat (constructor; [split; [discriminate|reflexivity]|]). constructor.
  - vm_compute. lia.
Defined.
