(* ===== verification/Sm.v ===== *)
(** Stream management (XEP-0198): src/xmpp/xmpp_sm.c.

    [xmpp_sm_on_stanza_sent] is in [XmppCore], next to [send_raw], which calls
    it. *)

From Stdlib Require Import ZArith Lia String Ascii Bool.
From stdpp Require Import base list numbers option sets.
From S2P Require Import Prelude.
From S2P Require Import Libc.
From S2P Require Import XmppCore.
From S2P Require Import RxBuffer.
From S2P Require Import Logic.
From S2P Require Import Persist.
From S2P Require Import Sasl.

Open Scope Z_scope.

Definition SM_NS : list Z := str "urn:xmpp:sm:3".

Section with_env.
Context `{Env}.

Definition xmpp_sm_send_enabled (ctx : nat) : M unit :=
  r ← random_u32;
  let token := r mod 0xFFFFFF in
  let response :=
    snprintf 256 (str "<enabled xmlns='" ++ SM_NS ++ str "'" ++ str " id='angelic%06x'" ++
                  str " resume='false'/>") [AUint token] in
  upd_client ctx (fun c => set_sm_outbound_count 0 (set_sm_inbound_h 0 (set_sm_enabled 1 c))) ;;
  send_raw ctx response.

Definition xmpp_sm_send_ack (ctx : nat) : M unit :=
  c ← client ctx;
  send_raw ctx (snprintf 128 (str "<a xmlns='" ++ SM_NS ++ str "' h='%u'/>") [AUint (sm_inbound_h c)]).

Definition xmpp_sm_request_ack (ctx : nat) : M unit :=
  c ← client ctx;
  if sm_enabled c =? 0 then skip else send_raw ctx (str "<r xmlns='" ++ SM_NS ++ str "'/>").

Definition xmpp_sm_on_stanza_received (ctx : nat) : M unit :=
  c ← client ctx;
  when (truth (sm_enabled c)) (upd_client ctx (set_sm_inbound_h (u32 (sm_inbound_h c + 1)))).

(** [consumed = (int)(gt - buf) + 1] *)
Definition through (gt buf : list Z) : Z := ptr_diff gt buf + 1.

(** The three tests on the head of the buffer. *)
Definition is_enable (buf : list Z) : bool :=
  (strncmp buf (str "<enable") 7 =? 0) && is_Some_b (strstr buf SM_NS).

Definition is_request (buf : list Z) : bool :=
  (((strncmp buf (str "<r") 2 =? 0) && (at_ buf 2 =? 32)) || (strncmp buf (str "<r/>") 4 =? 0)) &&
  is_Some_b (strstr buf SM_NS).

Definition is_answer (buf : list Z) : bool :=
  ((strncmp buf (str "<a") 2 =? 0) && (at_ buf 2 =? 32)) &&
  (is_Some_b (strstr buf SM_NS) && is_Some_b (strstr buf (str "h="))).

(** The value of [h] in an answer is read into a local variable that nothing
    uses. *)
Definition xmpp_sm_handle_element (ctx : nat) : M Z :=
  c ← client ctx;
  let buf := rx_buffer c in
  if state_lt (state c) STATE_SESSION then mret 0
  else if is_enable buf then
    match strchr buf (chr ">") with
    | None => mret 0
    | Some gt =>
        xmpp_sm_send_enabled ctx ;; upd_client ctx (rx_consume (through gt buf)) ;; mret 1
    end
  else if is_request buf then
    match strchr buf (chr ">") with
    | None => mret 0
    | Some gt => xmpp_sm_send_ack ctx ;; upd_client ctx (rx_consume (through gt buf)) ;; mret 1
    end
  else if is_answer buf then
    match strchr buf (chr ">") with
    | None => mret 0
    | Some gt => upd_client ctx (rx_consume (through gt buf)) ;; mret 1
    end
  else mret 0.

End with_env.

(** * Facts *)

(** The receive buffer and the state of a connection. *)
Definition rx_view (c : xmpp_client_ctx_t) : list Z * Z * client_state_t := (rx_buffer c, rx_pos c, state c).

Lemma rx_view_ok c c' : rx_view c' = rx_view c -> rx_ok c -> rx_ok c'.
Proof. intros [= E1 E2 _] [H1 H2 H3]. split; by rewrite ?E1, ?E2. Qed.

Lemma rx_view_data c c' : rx_view c' = rx_view c -> rx_data c' = rx_data c.
Proof. intros [= E1 E2 _]. unfold rx_data. by rewrite E1, E2. Qed.

Lemma within_sm_send_enabled `{Env} {V} (v : xmpp_client_ctx_t -> V) ctx :
  (forall n c, v (set_sm_outbound_count n c) = v c) -> (forall n c, v (set_sm_want_ack n c) = v c) ->
  (forall n c, v (set_sm_inbound_h n c) = v c) -> (forall n c, v (set_sm_enabled n c) = v c) ->
  within (keeps v) (xmpp_sm_send_enabled ctx).
Proof.
  intros H1 H2 H3 H4. unfold xmpp_sm_send_enabled. within_auto; try (by apply within_send).
  apply within_upd_keeps. intros c. by rewrite H1, H3, H4.
Qed.

Lemma within_sm_send_ack `{Env} {V} (v : xmpp_client_ctx_t -> V) ctx :
  (forall n c, v (set_sm_outbound_count n c) = v c) -> (forall n c, v (set_sm_want_ack n c) = v c) ->
  within (keeps v) (xmpp_sm_send_ack ctx).
Proof. intros. unfold xmpp_sm_send_ack. within_auto. by apply within_send. Qed.

(** The identifier in the answer to [enable] does not depend on the token: the
    formatter has no field widths and prints the conversion as it stands. *)
Lemma enabled_text token :
  snprintf 256 (str "<enabled xmlns='" ++ SM_NS ++ str "'" ++ str " id='angelic%06x'" ++
                str " resume='false'/>") [AUint token] =
  str "<enabled xmlns='urn:xmpp:sm:3' id='angelic%06x' resume='false'/>".
Proof. reflexivity. Qed.

Section element.
Context `{Env} (ctx : nat).

(** Sending an answer and then consuming the element, for any sender that
    keeps the receive buffer. *)
Lemma answer_and_consume (m : M unit) (buf gt : list Z) (s : srv) :
  within (keeps rx_view) m ->
  (ctx < length (client_registry s))%nat -> rx_ok (client_of s ctx) ->
  buf = rx_buffer (client_of s ctx) -> strchr buf (chr ">") = Some gt ->
  let '(r, s') := (m ;; upd_client ctx (rx_consume (through gt buf)) ;; mret 1 : M Z) s in
  r = 1 /\ rx_ok (client_of s' ctx) /\ state (client_of s' ctx) = state (client_of s ctx) /\
  0 < through gt buf <= rx_pos (client_of s ctx) /\
  rx_data (client_of s' ctx) = drop (Z.to_nat (through gt buf)) (rx_data (client_of s ctx)).
Proof.
  intros Hm Hc Hrx -> Eg.
  destruct (rx_find _ (chr ">") gt Hrx ltac:(vm_compute; split; reflexivity) Eg) as [B1 B2].
  pose proof (Hm s) as K. pose proof (keeps_at _ _ _ ctx K) as Kv. pose proof (keeps_length _ _ _ K) as Kl.
  rewrite bind_eq. set (s1 := snd (m s)) in *. rewrite bind_eq.
  set (n := through gt (rx_buffer (client_of s ctx))).
  assert (0 < n <= rx_pos (client_of s ctx)) as Hn by (unfold n, through; lia).
  pose proof (rx_view_ok _ _ Kv Hrx) as Hrx1. pose proof (rx_view_data _ _ Kv) as Hd1.
  assert (rx_pos (client_of s1 ctx) = rx_pos (client_of s ctx) /\
          state (client_of s1 ctx) = state (client_of s ctx)) as [Hp1 Hst1] by (by injection Kv).
  rewrite ret_eq. cbn [fst snd]. rewrite upd_at by lia.
  destruct (rx_consume_ok _ n Hrx1 ltac:(lia)) as [R1 R2].
  split_and!; [done|done|by rewrite (rx_consume_keeps state)|lia|lia|by rewrite R2, Hd1].
Qed.

End element.

(** ** Counting *)

Lemma u32_idemp x : u32 (u32 x) = u32 x.
Proof. unfold u32. by rewrite Z.mod_mod. Qed.

Lemma u32_succ x : u32 (u32 x + 1) = u32 (x + 1).
Proof. unfold u32. by rewrite Zplus_mod_idemp_l. Qed.

(** The acknowledgement's text never gets near the size of its buffer. *)
Lemma ack_text h :
  snprintf 128 (str "<a xmlns='" ++ SM_NS ++ str "' h='%u'/>") [AUint h] =
  str "<a xmlns='urn:xmpp:sm:3' h='" ++ digits 10 20 (u32 h) ++ str "'/>".
Proof.
  rewrite snprintf_render by done.
  transitivity (take 127 (str "<a xmlns='urn:xmpp:sm:3' h='" ++ digits 10 20 (u32 h) ++ str "'/>")).
  { reflexivity. }
  apply take_ge. rewrite !length_app. change (length (str "'/>")) with 3%nat.
  change (length (str "<a xmlns='urn:xmpp:sm:3' h='")) with 28%nat.
  pose proof (digits_length 20 9 (u32 h)) as L.
  assert (0 <= u32 h < 10 ^ Z.of_nat 10) as B.
  { unfold u32. pose proof (Z.mod_pos_bound h (2 ^ 32) ltac:(lia)) as B.
    change (10 ^ Z.of_nat 10) with 10000000000. change (2 ^ 32) with 4294967296 in *. lia. }
  specialize (L B). lia.
Qed.

(** The stream is managed and has counted [n] stanzas. *)
Definition sm_count (ctx n : nat) (s : srv) : Prop :=
  (ctx < length (client_registry s))%nat /\ sm_enabled (client_of s ctx) = 1 /\
  sm_inbound_h (client_of s ctx) = u32 (Z.of_nat n).

Lemma sm_count_enabled `{Env} ctx s :
  (ctx < length (client_registry s))%nat -> sm_count ctx 0 (snd (xmpp_sm_send_enabled ctx s)).
Proof.
  intros Hc. unfold xmpp_sm_send_enabled. rewrite bind_eq. cbv zeta. rewrite bind_eq.
  set (s1 := snd (random_u32 s)).
  assert (length (client_registry s1) = length (client_registry s)) as L1
    by (apply (keeps_length id), within_random).
  set (s2 := snd (upd_client ctx _ s1)).
  set (v := fun c => (sm_enabled c, sm_inbound_h c)).
  rewrite enabled_text. set (t := str _).
  assert (keeps v s2 (snd (send_raw ctx t s2))) as K by (by apply within_send).
  pose proof (keeps_at _ _ _ ctx K) as E. pose proof (keeps_length _ _ _ K) as L. clear K.
  assert (v (client_of s2 ctx) = (1, 0)) as E2 by (unfold s2; rewrite upd_at by lia; done).
  rewrite E2 in E. injection E as E3 E4.
  split_and!; [rewrite L; unfold s2; rewrite upd_length; lia|done|done].
Qed.

Lemma sm_count_received ctx n s :
  sm_count ctx n s -> sm_count ctx (S n) (snd (xmpp_sm_on_stanza_received ctx s)).
Proof.
  intros (L & E & Eh). unfold xmpp_sm_on_stanza_received. rewrite bind_eq, client_eq. cbn [fst snd].
  rewrite E. change (truth 1) with true. cbn [when].
  split_and!; [by rewrite upd_length|by rewrite upd_at|].
  rewrite upd_at by done. cbn [sm_inbound_h set_sm_inbound_h]. rewrite Eh, u32_succ. f_equal. lia.
Qed.

(** ** One element *)

Lemma sm_element_spec (env : Env) (ctx : nat) (s : srv) :
  (ctx < length (client_registry s))%nat -> rx_ok (client_of s ctx) ->
  let '(r, s') := xmpp_sm_handle_element ctx s in
  (r = 0 /\ s' = s) \/
  (r = 1 /\ state_lt (state (client_of s ctx)) STATE_SESSION = false /\
   state (client_of s' ctx) = state (client_of s ctx) /\ rx_ok (client_of s' ctx) /\
   exists n, 0 < n <= rx_pos (client_of s ctx) /\
     rx_data (client_of s' ctx) = drop (Z.to_nat n) (rx_data (client_of s ctx))).
Proof.
  intros Hc Hrx. unfold xmpp_sm_handle_element. rewrite bind_eq, client_eq. cbn [fst snd].
  set (c := client_of s ctx). destruct (state_lt (state c) STATE_SESSION); [by left|].
  assert (forall (m : M unit) gt, within (keeps rx_view) m -> strchr (rx_buffer c) (chr ">") = Some gt ->
    let '(r, s') := (m ;; upd_client ctx (rx_consume (through gt (rx_buffer c))) ;; mret 1 : M Z) s in
    (r = 0 /\ s' = s) \/
    (r = 1 /\ false = false /\ state (client_of s' ctx) = state c /\ rx_ok (client_of s' ctx) /\
     exists n, 0 < n <= rx_pos c /\ rx_data (client_of s' ctx) = drop (Z.to_nat n) (rx_data c))) as Hgo.
  { intros m gt Hm Eg. pose proof (answer_and_consume ctx m _ gt s Hm Hc Hrx eq_refl Eg) as A.
    fold c in A. destruct ((m ;; _) s) as [r s']. right.
    destruct A as (A1 & A2 & A3 & A4 & A5). eauto 10. }
  destruct (strchr (rx_buffer c) (chr ">")) as [gt|] eqn:Eg.
  2: { destruct (is_enable _); [by left|]. destruct (is_request _); [by left|]. destruct (is_answer _); by left. }
  destruct (is_enable _); [apply Hgo; [by apply within_sm_send_enabled|done]|].
  destruct (is_request _); [apply Hgo; [by apply within_sm_send_ack|done]|].
  destruct (is_answer _); [|by left].
  apply (Hgo skip); [apply within_skip; typeclasses eauto|done].
Qed.

(** * Properties *)

(** An element of stream management is taken from the receive buffer whole:
    when [xmpp_sm_handle_element] says it handled one, the stream had reached
    its session, at least one received byte and nothing beyond the received
    bytes was consumed, the rest stays in place, and the buffer's invariant
    holds again; otherwise nothing at all happened. *)
Theorem sm_element_consumed (env : Env) (ctx : nat) (s : srv) :
  (ctx < length (client_registry s))%nat -> rx_ok (client_of s ctx) ->
  let '(r, s') := xmpp_sm_handle_element ctx s in
  (r = 0 /\ s' = s) \/
  (r = 1 /\ state_lt (state (client_of s ctx)) STATE_SESSION = false /\
   state (client_of s' ctx) = state (client_of s ctx) /\ rx_ok (client_of s' ctx) /\
   exists n, 0 < n <= rx_pos (client_of s ctx) /\
     rx_data (client_of s' ctx) = drop (Z.to_nat n) (rx_data (client_of s ctx))).
Proof. apply sm_element_spec. Qed.

(** A connection in its session with [data] in the receive buffer. *)
Definition in_session (data : list Z) : xmpp_client_ctx_t :=
  rx_append data (set_state STATE_SESSION (set_authenticated 1 tls_client)).

Lemma in_session_rx data : (length data < 100)%nat -> rx_ok (in_session data).
Proof.
  intros L. unfold in_session. apply rx_append_ok.
  - split; [apply length_replicate|split; [done|done]|].
    apply lookup_replicate_2. unfold RX_BUFFER_SIZE. cbn [rx_pos set_state]. change (rx_pos _) with 0. lia.
  - change (rx_pos _) with 0. lia.
Qed.

Lemma sm_element_consumed_witness :
  let s := one_client (in_session (str "<r xmlns='urn:xmpp:sm:3'/><iq/>")) in
  let '(r, s') := @xmpp_sm_handle_element good_env 0 s in
  (r = 0 /\ s' = s) \/
  (r = 1 /\ state_lt (state (client_of s 0)) STATE_SESSION = false /\
   state (client_of s' 0) = state (client_of s 0) /\ rx_ok (client_of s' 0) /\
   exists n, 0 < n <= rx_pos (client_of s 0) /\
     rx_data (client_of s' 0) = drop (Z.to_nat n) (rx_data (client_of s 0))).
Proof.
  intros s. apply (sm_element_consumed good_env 0 s).
  - simpl. lia.
  - apply in_session_rx. simpl. lia.
Defined.

(** The acknowledgement counts: after [enable], [n] stanzas received and
    anything sent in between, the answer to a request is the text with [n],
    modulo 2^32, in decimal. *)
Theorem sm_ack_counts (env : Env) (ctx n : nat) (s : srv) :
  (ctx < length (client_registry s))%nat ->
  let s' := Nat.iter n (fun t => snd (xmpp_sm_on_stanza_received ctx t))
              (snd (xmpp_sm_send_enabled ctx s)) in
  sm_inbound_h (client_of s' ctx) = u32 (Z.of_nat n) /\
  xmpp_sm_send_ack ctx s' =
    send_raw ctx (str "<a xmlns='urn:xmpp:sm:3' h='" ++ digits 10 20 (u32 (Z.of_nat n)) ++ str "'/>") s'.
Proof.
  intros Hc s'. assert (sm_count ctx n s') as (_ & _ & E).
  { unfold s'. clear s'. induction n as [|n IH]; [by apply sm_count_enabled|].
    cbn [Nat.iter]. by apply sm_count_received. }
  split; [done|]. unfold xmpp_sm_send_ack. rewrite bind_eq, client_eq. cbn [fst snd].
  by rewrite ack_text, E, u32_idemp.
Qed.

Lemma sm_ack_counts_witness :
  let s := one_client (in_session []) in
  let s' := Nat.iter 12 (fun t => snd (xmpp_sm_on_stanza_received 0 t))
              (snd (@xmpp_sm_send_enabled good_env 0 s)) in
  sm_inbound_h (client_of s' 0) = u32 12 /\
  @xmpp_sm_send_ack good_env 0 s' =
    @send_raw good_env 0 (str "<a xmlns='urn:xmpp:sm:3' h='" ++ digits 10 20 (u32 12) ++ str "'/>") s'.
Proof. intros s. apply (sm_ack_counts good_env 0 12 s). simpl. lia. Defined.

(** Every stream gets the same stream-management identifier: the random
    token never reaches the answer, which says [angelic%06x] literally. *)
Theorem sm_id_is_constant (env : Env) (ctx : nat) (s : srv) :
  snd (xmpp_sm_send_enabled ctx s) =
  snd (send_raw ctx (str "<enabled xmlns='urn:xmpp:sm:3' id='angelic%06x' resume='false'/>")
    (snd (upd_client ctx (fun c => set_sm_outbound_count 0 (set_sm_inbound_h 0 (set_sm_enabled 1 c)))
      (snd (random_u32 s))))).
Proof. unfold xmpp_sm_send_enabled. rewrite bind_eq. cbv zeta. by rewrite enabled_text, bind_eq. Qed.
