(* ===== verification/Iq.v ===== *)
(** The handlers of src/xmpp/xmpp_handlers.c that answer queries of one
    connection: roster, private storage, version, ping and the like, resource
    binding and session, and the initial presence. *)

From Stdlib Require Import ZArith Lia String Ascii Bool.
From stdpp Require Import base list numbers option sets.
From S2P Require Import Prelude.
From S2P Require Import Libc.
From S2P Require Import SlotMap.
From S2P Require Import XmppCore.
From S2P Require Import Logic.
From S2P Require Import Persist.
From S2P Require Import Store.
From S2P Require Import Tls.
From S2P Require Import Sasl.

Open Scope Z_scope.

(** A [%s] argument. *)
Definition S_ (s : list Z) : arg := AStr (Some s).

(** A connection in its session: [pcb != NULL && state >= STATE_SESSION]. *)
Definition live (c : xmpp_client_ctx_t) : bool :=
  is_Some_b (pcb c) && negb (state_lt (state c) STATE_SESSION).

(** The test of [find_client_by_jid] on one connection. *)
Definition client_has_jid (bare_jid : list Z) (c : xmpp_client_ctx_t) : bool :=
  let bare_len := strlen bare_jid in
  live c && ((strncmp (full_jid c) bare_jid bare_len =? 0) &&
             ((at_ (full_jid c) bare_len =? 47) || (at_ (full_jid c) bare_len =? 0))).

Definition find_client_by_jid (clients : list xmpp_client_ctx_t) (bare_jid : list Z) : option nat :=
  first_index (client_has_jid bare_jid) clients.

(** [if (jid[0] != 0) jid else "unknown"] and the like. *)
Definition or_else (s t : list Z) : list Z := if deref s =? 0 then t else s.

(** * Private storage *)

Fixpoint skip_blank (p : list Z) : list Z :=
  match p with
  | c :: p' => if (c =? 32) || (c =? 9) || (c =? 10) || (c =? 13) then skip_blank p' else p
  | [] => []
  end.

(** [while ( *name_end && *name_end is not a blank, '/' or '>') name_end++] *)
Fixpoint name_end (p : list Z) : list Z :=
  match p with
  | c :: p' => if (c =? 0) || (c =? 32) || (c =? 47) || (c =? 62) then p else name_end p'
  | [] => []
  end.

(** The name of the child element, in a 64-byte array that holds [storage]. *)
Definition private_child (after_query : list Z) : list Z :=
  let child_elem := strncpy (zeros 64) (str "storage") 64 in
  let p := skip_blank after_query in
  if deref p =? 60 then
    let p := tail p in
    let nlen := ptr_diff (name_end p) p in
    if (0 <? nlen) && (nlen <? 63) then copy_str child_elem p (Z.to_nat nlen) else child_elem
  else child_elem.

(** The namespace of the child element, in a 128-byte array. *)
Definition private_ns (after_query : list Z) : list Z :=
  let inner_ns := zeros 128 in
  match strstr after_query (str "xmlns=") with
  | None => inner_ns
  | Some xmlns_attr =>
      let xmlns_attr := drop 6 xmlns_attr in
      let quote := deref xmlns_attr in
      if (quote =? 39) || (quote =? 34) then
        let xmlns_attr := tail xmlns_attr in
        match strchr xmlns_attr quote with
        | None => inner_ns
        | Some stop =>
            let ns_len := ptr_diff stop xmlns_attr in
            if (0 <? ns_len) && (ns_len <? 127) then copy_str inner_ns xmlns_attr (Z.to_nat ns_len)
            else inner_ns
        end
      else inner_ns
  end.

(** Both, for a payload: the code leaves the defaults without an end of the
    [query] tag. *)
Definition private_names (payload : list Z) : list Z * list Z :=
  match strchr payload (chr ">") with
  | None => (strncpy (zeros 64) (str "storage") 64, zeros 128)
  | Some gt => (private_child (tail gt), private_ns (tail gt))
  end.

(** The document inside the [query] element: where it starts and its length. *)
Definition private_doc (payload : list Z) : option (list Z * Z) :=
  match strchr payload (chr ">") with
  | None => None
  | Some gt =>
      let xml_start := tail gt in
      match strstr payload (str "</query>") with
      | None => None
      | Some xml_end =>
          let xml_len := ptr_diff xml_end xml_start in
          if 0 <? xml_len then Some (xml_start, xml_len) else None
      end
  end.

Definition iq_result (size : Z) (id to : list Z) : list Z :=
  snprintf size (str "<iq type='result' id='%s' to='%s'/>") [S_ id; S_ to].

Definition resource_constraint (id to : list Z) : list Z :=
  snprintf 512 (str "<iq type='error' id='%s' to='%s'>" ++ str "<error type='wait' code='500'>" ++
                str "<resource-constraint" ++ str " xmlns='urn:ietf:params:xml:ns:xmpp-stanzas'/>" ++
                str "</error>" ++ str "</iq>") [S_ id; S_ to].

Section with_env.
Context `{Env}.

(** [handle_private_storage] for a set request, after the namespace is known. *)
Definition private_set (ctx : nat) (stanza : xmpp_stanza_t) (inner_ns : list Z) : M unit :=
  c ← client ctx;
  let finish := send_raw ctx (iq_result 256 (st_id stanza) (full_jid c)) in
  match private_doc (st_payload stanza) with
  | None => finish
  | Some (xml_start, xml_len) =>
      store ← gets private_store;
      let '(r, store) := private_store_upsert store (username c) inner_ns xml_start xml_len in
      modify (set_private_store store) ;;
      if negb (r =? 0) then send_raw ctx (resource_constraint (st_id stanza) (full_jid c))
      else xmpp_persist_save_private ;; finish
  end.

(** The document a get request answers with: the stored one or an empty
    element. *)
Definition private_answer (store : list private_store_entry_t) (user child_elem inner_ns : list Z) : list Z :=
  match private_store_find store user inner_ns with
  | Some i => xml (default private0 (store !! i))
  | None => snprintf 192 (str "<%s xmlns='%s'/>") [S_ child_elem; S_ inner_ns]
  end.

Definition handle_private_storage (ctx : nat) (stanza : xmpp_stanza_t) : M unit :=
  c ← client ctx;
  let '(child_elem, inner_ns) := private_names (st_payload stanza) in
  if deref inner_ns =? 0 then
    send_raw ctx
      (snprintf 512 (str "<iq type='error' id='%s' to='%s'>" ++ str "<query xmlns='jabber:iq:private'/>" ++
                     str "<error code='406' type='modify'>" ++ str "<not-acceptable" ++
                     str " xmlns='urn:ietf:params:xml:ns:xmpp-stanzas'/>" ++ str "</error>" ++ str "</iq>")
         [S_ (st_id stanza); S_ (full_jid c)])
  else if decide (st_type stanza = XMPP_IQ_SET) then private_set ctx stanza inner_ns
  else
    store ← gets private_store;
    let inner_xml := private_answer store (username c) child_elem inner_ns in
    let '(response, written) :=
      vsnprintf 1300 (str "<iq type='result' id='%s' to='%s'>" ++
                      str "<query xmlns='jabber:iq:private'>%s</query>" ++ str "</iq>")
        [S_ (st_id stanza); S_ (full_jid c); S_ inner_xml] in
    if (written <? 0) || (1300 <=? written) then
      send_raw ctx (resource_constraint (st_id stanza) (full_jid c))
    else send_raw ctx response.

(** * Rosters *)

(** A roster set: stored, answered and pushed to the other sessions of the
    user. *)
Definition roster_push (ctx : nat) (stanza : xmpp_stanza_t) : M unit :=
  loop MAX_USERS (fun i =>
    c ← client ctx; ci ← client i;
    if negb (live ci) then skip
    else if (i =? ctx)%nat then skip
    else if negb (strcmp (username ci) (username c) =? 0) then skip
    else send_raw i
           (snprintf 1200 (str "<iq type='set' to='%s'>" ++
                           str "<query xmlns='jabber:iq:roster'>%s</query>" ++ str "</iq>")
              [S_ (full_jid ci); S_ (st_payload stanza)])).

Definition handle_roster_request (ctx : nat) (stanza : xmpp_stanza_t) : M unit :=
  c ← client ctx;
  if decide (st_type stanza = XMPP_IQ_SET) then
    roster_store_set_from_payload (username c) (st_payload stanza) ;;
    xmpp_persist_save_roster ;;
    modify (fun s => set_roster_version (s32 (roster_version s + 1)) s) ;;
    send_raw ctx (iq_result 1024 (st_id stanza) (full_jid c)) ;;
    roster_push ctx stanza
  else
    s ← gets id;
    let has_ver := is_Some_b (strstr (st_payload stanza) (str "ver=")) ||
                   is_Some_b (strstr (st_payload stanza) (str "ver ")) in
    let roster_items := fst (roster_store_get_items (roster_store s) (username c) 2048) in
    send_raw ctx
      (if has_ver then
         snprintf 2300 (str "<iq type='result' id='%s' to='%s'>" ++
                        str "<query xmlns='jabber:iq:roster' ver='%d'>%s</query>" ++ str "</iq>")
           [S_ (st_id stanza); S_ (full_jid c); AInt (roster_version s); S_ roster_items]
       else
         snprintf 2300 (str "<iq type='result' id='%s' to='%s'>" ++
                        str "<query xmlns='jabber:iq:roster'>%s</query>" ++ str "</iq>")
           [S_ (st_id stanza); S_ (full_jid c); S_ roster_items]).

(** * Initial presence *)

(** The new presence goes to every session, the sender's own included. *)
Definition announce_presence (ctx : nat) : M unit :=
  loop MAX_USERS (fun i =>
    c ← client ctx; ci ← client i;
    if negb (live ci) then skip
    else
      send_raw i
        (if negb (deref (presence_payload c) =? 0) then
           snprintf 1024 (str "<presence from='%s' to='%s' xml:lang='en'>%s</presence>")
             [S_ (full_jid c); S_ (full_jid ci); S_ (presence_payload c)]
         else
           snprintf 1024 (str "<presence from='%s' to='%s' xml:lang='en'/>")
             [S_ (full_jid c); S_ (full_jid ci)])).

(** The presence of every other session goes to the sender. *)
Definition probe_presence (ctx : nat) : M unit :=
  loop MAX_USERS (fun i =>
    c ← client ctx; ci ← client i;
    if negb (live ci) then skip
    else if (i =? ctx)%nat then skip
    else
      send_raw ctx
        (if negb (deref (presence_payload ci) =? 0) then
           snprintf 1024 (str "<presence from='%s' to='%s'>%s</presence>")
             [S_ (full_jid ci); S_ (full_jid c); S_ (presence_payload ci)]
         else
           snprintf 1024 (str "<presence from='%s' to='%s'/>") [S_ (full_jid ci); S_ (full_jid c)])).

Definition handle_initial_presence (ctx : nat) (stanza : xmpp_stanza_t) : M unit :=
  upd_client ctx (fun c =>
    if negb (deref (st_payload stanza) =? 0) then
      set_presence_payload (copy_str (presence_payload c) (st_payload stanza) 1023) c
    else set_presence_payload (<[O := 0]> (presence_payload c)) c) ;;
  announce_presence ctx ;;
  probe_presence ctx ;;
  pending_sub_drain ctx ;;
  offline_msg_drain ctx.

(** * Fixed answers *)

Definition handle_blocklist (ctx : nat) (stanza : xmpp_stanza_t) : M unit :=
  c ← client ctx;
  send_raw ctx
    (if decide (st_type stanza = XMPP_IQ_GET) then
       snprintf 256 (str "<iq type='result' id='%s' to='%s'>" ++
                     str "<blocklist xmlns='urn:xmpp:blocking'/>" ++ str "</iq>")
         [S_ (st_id stanza); S_ (full_jid c)]
     else iq_result 256 (st_id stanza) (full_jid c)).

Definition handle_version (ctx : nat) (stanza : xmpp_stanza_t) : M unit :=
  c ← client ctx;
  send_raw ctx
    (snprintf 1024 (str "<iq type='result' id='%s' from='angelic.local' to='%s'>" ++
                    str "<query xmlns='jabber:iq:version'>" ++ str "<name>AngelicKernel xmpp</name>" ++
                    str "<version>1.0</version>" ++ str "<os>bare metal uefi</os>" ++ str "</query>" ++
                    str "</iq>") [S_ (st_id stanza); S_ (full_jid c)]).

Definition handle_last (ctx : nat) (stanza : xmpp_stanza_t) : M unit :=
  c ← client ctx;
  send_raw ctx
    (snprintf 256 (str "<iq type='result' id='%s' from='angelic.local' to='%s'>" ++
                   str "<query xmlns='jabber:iq:last' seconds='0'/>" ++ str "</iq>")
       [S_ (st_id stanza); S_ (full_jid c)]).

Definition handle_ping (ctx : nat) (stanza : xmpp_stanza_t) : M unit :=
  c ← client ctx; send_raw ctx (iq_result 256 (st_id stanza) (full_jid c)).

Definition handle_general_success (ctx : nat) (stanza : xmpp_stanza_t) : M unit :=
  c ← client ctx; send_raw ctx (iq_result 1024 (st_id stanza) (full_jid c)).

(** * Binding and session *)

Definition conflict_err : list Z :=
  str "<stream:error>" ++ str "<conflict xmlns='urn:ietf:params:xml:ns:xmpp-stanzas'/>" ++
  str "</stream:error>" ++ str "</stream:stream>".

(** The body of the loop for another connection of the same user. *)
Definition evict (i : nat) : M unit :=
  ci ← client i;
  (if truth (tls_established ci) then
     ssl_write_call i conflict_err ;; output i
   else if is_Some_b (pcb ci) then emit (EvTcp (pcb ci) conflict_err) ;; emit (EvOutput (pcb ci))
   else skip) ;;
  xmpp_tls_client_free i ;;
  emit (EvClose (pcb ci)) ;;
  upd_client i (fun _ => client0).

Definition evict_others (ctx : nat) : M unit :=
  loop MAX_USERS (fun i =>
    c ← client ctx; ci ← client i;
    if (i =? ctx)%nat then skip
    else if negb (is_Some_b (pcb ci)) then skip
    else if strcmp (username ci) (username c) =? 0 then evict i
    else skip).

Definition jid_format : list Z := str "%s@%s/unikernel-%d".

Definition bind_refused (stanza : xmpp_stanza_t) (full_jid : list Z) : list Z :=
  let from_jid := or_else (st_to stanza) XMPP_DOMAIN in
  let to_jid := or_else full_jid (str "unknown") in
  if negb (deref (st_id stanza) =? 0) then
    snprintf 512 (str "<iq type='error' from='%s' to='%s' id='%s'>" ++ str "<error type='cancel'>" ++
                  str "<unexpected-request" ++ str " xmlns='urn:ietf:params:xml:ns:xmpp-stanzas'/>" ++
                  str "</error>" ++ str "</iq>") [S_ from_jid; S_ to_jid; S_ (st_id stanza)]
  else
    snprintf 512 (str "<iq type='error' from='%s' to='%s'>" ++ str "<error type='cancel'>" ++
                  str "<unexpected-request" ++ str " xmlns='urn:ietf:params:xml:ns:xmpp-stanzas'/>" ++
                  str "</error>" ++ str "</iq>") [S_ from_jid; S_ to_jid].

Definition bind_result (id full_jid : list Z) : list Z :=
  snprintf 1024 (str "<iq type='result' id='%s'>" ++
                 str "<bind xmlns='urn:ietf:params:xml:ns:xmpp-bind'>" ++ str "<jid>%s</jid>" ++
                 str "</bind>" ++ str "</iq>") [S_ id; S_ full_jid].

Definition handle_core_bind (ctx : nat) (stanza : xmpp_stanza_t) : M unit :=
  c ← client ctx;
  if bool_decide (state c = STATE_BIND) then
    r ← random_u32;
    let resource_id := r mod 9999 in
    upd_client ctx (fun c =>
      set_full_jid (snprintf_into (full_jid c) 64 jid_format
                      [S_ (username c); S_ XMPP_DOMAIN; AUint resource_id]) c) ;;
    evict_others ctx ;;
    c ← client ctx;
    send_raw ctx (bind_result (st_id stanza) (full_jid c)) ;;
    upd_client ctx (set_state STATE_SESSION)
  else send_raw ctx (bind_refused stanza (full_jid c)).

Definition handle_core_session (ctx : nat) (stanza : xmpp_stanza_t) : M unit :=
  send_raw ctx (snprintf 256 (str "<iq type='result' id='%s'/>") [S_ (st_id stanza)]) ;;
  upd_client ctx (set_state STATE_READY).

End with_env.

(** * Facts *)

(** ** Binding *)

(** The address a user gets with resource number [n]. *)
Definition bound_jid (user : list Z) (n : Z) : list Z :=
  cstr user ++ str "@angelic.local/unikernel-" ++ digits 10 20 n.

Lemma snprintf_into_cstr dest size format args :
  no_pointer format = true -> 1 <= size -> nul_free (render format args) ->
  Z.of_nat (length (render format args)) < size ->
  cstr (snprintf_into dest size format args) = render format args.
Proof.
  intros Hp Hs Hn Hl. unfold snprintf_into. rewrite snprintf_render by done.
  rewrite take_ge by lia. by apply cstr_app_nul.
Qed.

Lemma digits_nul_free fuel n : 0 <= n -> nul_free (digits 10 fuel n).
Proof.
  revert n; induction fuel as [|fuel IH]; intros n Hn; cbn [digits]; [constructor|].
  apply Forall_app. split.
  - destruct (Z.leb_spec 10 n); [|constructor]. apply IH. apply Z.div_pos; lia.
  - constructor; [|constructor]. pose proof (digit_range n Hn). lia.
Qed.

(** The address fits its array whatever the user name and the number are. *)
Lemma bound_jid_written dest user n :
  (length (cstr user) <= 31)%nat -> 0 <= n < 9999 ->
  cstr (snprintf_into dest 64 jid_format [S_ user; S_ XMPP_DOMAIN; AUint n]) = bound_jid user n.
Proof.
  intros Hu Hn.
  assert (render jid_format [S_ user; S_ XMPP_DOMAIN; AUint n] = bound_jid user n) as E.
  { transitivity (cstr user ++ str "@angelic.local/unikernel-" ++ render1 0 100 (Some (AUint n)) ++ []).
    { reflexivity. }
    rewrite app_nil_r. unfold render1, bound_jid. cbn [Z.eqb orb Pos.eqb arg_int].
    change (0 =? 108) with false. cbv iota. rewrite s32_small by lia.
    destruct (Z.ltb_spec n 0); [lia|]. by rewrite u64_small by lia. }
  pose proof (digits_length 20 3 n) as L. change (10 ^ Z.of_nat 4) with 10000 in L. specialize (L ltac:(lia)).
  rewrite <- E. apply snprintf_into_cstr; [done|lia| |]; rewrite E; unfold bound_jid.
  - apply Forall_app. split; [apply cstr_nul_free|]. apply Forall_app. split.
    + vm_compute. repeat (constructor; [discriminate|]). constructor.
    + apply digits_nul_free. lia.
  - rewrite !length_app. change (length (str "@angelic.local/unikernel-")) with 25%nat. lia.
Qed.

Section binding.
Context `{Env}.

Lemma evict_at i s :
  (i < length (client_registry s))%nat ->
  only i s (snd (evict i s)) /\ client_of (snd (evict i s)) i = client0.
Proof.
  intros Hi.
  assert (within (only i) (xmpp_tls_client_free i)) as Wf by (unfold xmpp_tls_client_free; within_auto).
  split.
  - assert (within (only i) (evict i)) as W by (unfold evict; within_auto). apply W.
  - unfold evict. run. rewrite client_eq. cbn [fst snd]. run. set (s1 := snd (_ s)).
    assert (only i s s1) as [L1 _].
    { unfold s1. match goal with |- only i s (snd (?m s)) => assert (within (only i) m) as W by within_auto end.
      apply W. }
    run. pose proof (Wf s1) as [L2 _]. set (s2 := snd (xmpp_tls_client_free i s1)) in *.
    run. rewrite upd_at; [done|]. cbn [emit modify snd client_registry set_trace]. lia.
Qed.

(** What the loop of [handle_core_bind] leaves of connection [i]. *)
Definition evicted (user : list Z) (c : xmpp_client_ctx_t) : xmpp_client_ctx_t :=
  if is_Some_b (pcb c) && (strcmp (username c) user =? 0) then client0 else c.

Lemma evict_others_at ctx s :
  (ctx < length (client_registry s))%nat -> length (client_registry s) = MAX_USERS ->
  let s' := snd (evict_others ctx s) in
  length (client_registry s') = length (client_registry s) /\ client_of s' ctx = client_of s ctx /\
  forall i, (i < MAX_USERS)%nat -> i <> ctx ->
    client_of s' i = evicted (username (client_of s ctx)) (client_of s i).
Proof.
  intros Hc Hl s'. set (u := username (client_of s ctx)).
  set (P := fun (k : nat) t => length (client_registry t) = length (client_registry s) /\
    client_of t ctx = client_of s ctx /\
    forall i, i <> ctx -> client_of t i = if decide (i < k)%nat then evicted u (client_of s i) else client_of s i).
  assert (P MAX_USERS s') as (P1 & P2 & P3).
  { apply (loop_inv P); [by unfold P|]. intros k t Hk (T1 & T2 & T3). subst P.
    rewrite bind_eq, client_eq. cbn [fst snd]. rewrite bind_eq, client_eq. cbn [fst snd].
    assert (forall t', only k t t' -> (k <> ctx -> client_of t' k = evicted u (client_of s k)) ->
              (k = ctx -> client_of t' k = client_of t k) ->
              length (client_registry t') = length (client_registry s) /\ client_of t' ctx = client_of s ctx /\
              forall i, i <> ctx -> client_of t' i =
                if decide (i < S k)%nat then evicted u (client_of s i) else client_of s i) as Done.
    { intros t' [O1 O2] Ek Ec. split_and!; [congruence| |].
      - destruct (decide (ctx = k)) as [<-|]; [by rewrite Ec, T2|by rewrite O2, T2].
      - intros i Hi. destruct (decide (i = k)) as [->|Hne].
        + rewrite decide_True by lia. by apply Ek.
        + rewrite O2, T3 by done. do 2 case_decide; done || lia. }
    assert (k <> ctx -> client_of t k = client_of s k) as Tk.
    { intros Hkc. rewrite T3 by done. by rewrite decide_False by lia. }
    destruct (Nat.eqb_spec k ctx) as [->|Hkc]; [apply Done; [done|done|done]|].
    rewrite (Tk Hkc), T2. fold u.
    destruct (is_Some_b (pcb (client_of s k))) eqn:Ep; cbn [negb].
    2: { apply Done; [done| |done]. intros _. change (snd (skip t)) with t. rewrite (Tk Hkc). unfold evicted. by rewrite Ep. }
    destruct (strcmp (username (client_of s k)) u =? 0) eqn:Eu.
    - destruct (evict_at k t) as [O E]; [lia|]. apply Done; [done| |done]. intros _. unfold evicted. by rewrite Ep, Eu.
    - apply Done; [done| |done]. intros _. change (snd (skip t)) with t. rewrite (Tk Hkc). unfold evicted. by rewrite Ep, Eu. }
  split_and!; [done|done|]. intros i Hi Hne. rewrite P3 by done. by rewrite decide_True.
Qed.

End binding.

(** ** Private storage *)

Lemma private_ns_bound after_query : (length (cstr (private_ns after_query)) <= 127)%nat.
Proof.
  assert (length (cstr (zeros 128)) <= 127)%nat as H0 by (vm_compute; lia).
  unfold private_ns. destruct (strstr after_query _) as [a|]; [|done].
  destruct (_ || _); [|done]. destruct (strchr _ _) as [e|]; [|done].
  set (n := ptr_diff e (tail (drop 6 a))).
  destruct (Z.ltb_spec 0 n), (Z.ltb_spec n 127); cbn [andb]; try done.
  rewrite copy_str_cstr by (unfold zeros; rewrite length_replicate; lia).
  rewrite length_take. lia.
Qed.

Lemma private_names_bound payload : (length (cstr (snd (private_names payload))) <= 127)%nat.
Proof.
  unfold private_names. destruct (strchr _ _); [apply private_ns_bound|]. vm_compute. lia.
Qed.

(** The document lies in the payload and holds no terminator. *)
Lemma private_doc_ok payload doc len :
  private_doc payload = Some (doc, len) ->
  0 <= len <= Z.of_nat (length doc) /\ nul_free (take (Z.to_nat len) doc).
Proof.
  unfold private_doc. destruct (strchr payload (chr ">")) as [gt|] eqn:Eg; [|done].
  destruct (strstr payload (str "</query>")) as [e|] eqn:Ee; [|done].
  destruct (Z.ltb_spec 0 (ptr_diff e (tail gt))) as [Hlt|]; [|done]. intros [= <- <-].
  apply strchr_suffix in Eg as [pre Eg]. apply strstr_Some in Ee as (pre' & Ee & (p1 & p2 & Eo & Lp) & _); [|done].
  unfold ptr_diff in *. split; [lia|].
  assert (payload = (pre ++ take 1 gt) ++ tail gt) as Et.
  { rewrite Eg. rewrite <- app_assoc. f_equal. by destruct gt. }
  assert (nul_free pre') as Hn.
  { assert (pre' = take (length pre') (cstr payload)) as ->; [|apply take_nul_free, cstr_nul_free].
    assert (take (length pre') payload = pre') as E0 by (rewrite Ee; apply take_app_length).
    destruct (cstr_split payload) as [E|[t E]]; [by rewrite <- E|].
    assert (length pre' <= length (cstr payload))%nat as L by (rewrite Eo, length_app; lia).
    rewrite <- (take_app_le (cstr payload) (0 :: t)) by done. by rewrite <- E. }
  set (q := pre ++ take 1 gt) in *.
  assert (length payload = length q + length (tail gt))%nat as L1 by (rewrite Et; apply length_app).
  assert (length payload = length pre' + length e)%nat as L2 by (rewrite Ee; apply length_app).
  replace (take (Z.to_nat _) (tail gt)) with (drop (length q) pre').
  { rewrite <- (take_drop (length q) pre') in Hn. by apply Forall_app in Hn as [_ Hn]. }
  assert (drop (length q) payload = tail gt) as E1 by (rewrite Et; by rewrite drop_app_length).
  replace (take _ (tail gt)) with (take (length pre' - length q) (drop (length q) (pre' ++ e)))
    by (rewrite <- Ee, E1; f_equal; lia).
  rewrite drop_app_le by lia. rewrite take_app_length'; [done|]. rewrite length_drop. lia.
Qed.

Lemma private_answer_get store user child space doc :
  private_get store (private_key user space) = Some doc ->
  cstr (private_answer store user child space) = doc.
Proof.
  unfold private_get, private_answer, get. rewrite private_find_holds.
  destruct (first_index _ store) as [i|]; [|done]. simpl.
  destruct (store !! i); simpl; intros [= <-]; done.
Qed.

(** The answer to a get request with the document [doc]. *)
Definition private_result (id to doc : list Z) : list Z :=
  str "<iq type='result' id='" ++ cstr id ++ str "' to='" ++ cstr to ++
  str "'><query xmlns='jabber:iq:private'>" ++ doc ++ str "</query></iq>".

Lemma private_result_text id to doc :
  vsnprintf 1300 (str "<iq type='result' id='%s' to='%s'>" ++
                  str "<query xmlns='jabber:iq:private'>%s</query>" ++ str "</iq>") [S_ id; S_ to; S_ doc] =
  (take (Z.to_nat 1299) (private_result id to (cstr doc)),
   Z.min 1299 (Z.of_nat (length (private_result id to (cstr doc))))).
Proof. rewrite vsnprintf_render by done. reflexivity. Qed.

Section private.
Context `{Env}.

(** A set request that finds room. *)
Lemma private_set_stores ctx stanza space doc len s :
  private_doc (st_payload stanza) = Some (doc, len) ->
  let c := client_of s ctx in
  let '(r, store') := private_store_upsert (private_store s) (username c) space doc len in
  r = 0 ->
  let s' := snd (private_set ctx stanza space s) in
  private_store s' = store' /\ username (client_of s' ctx) = username c /\
  full_jid (client_of s' ctx) = full_jid c.
Proof.
  intros Ed c. destruct (private_store_upsert _ _ _ _ _) as [r store'] eqn:Eu. intros ->.
  unfold private_set. run. rewrite client_eq. cbn [fst snd]. fold c. rewrite Ed. cbv zeta.
  run. rewrite gets_eq. cbn [fst snd]. rewrite Eu. change (negb (0 =? 0)) with false. run. cbv iota. run.
  set (s1 := set_private_store store' s). change (snd (modify _ s)) with s1. cbv iota.
  set (s2 := snd (xmpp_persist_save_private s1)).
  assert (private_store s2 = store' /\ client_registry s2 = client_registry s) as [E1 E2].
  { pose proof (within_save_region (fun s => (private_store s, client_registry s)) ltac:(done) ltac:(done)
                  RPrivate s1) as W. unfold same in W. cbn [save_region] in W. by injection W. }
  set (t := iq_result _ _ _).
  pose proof (same_send_raw private_store ltac:(done) ltac:(done) ltac:(done) ctx t s2) as Ep.
  destruct (send_raw_user ctx t s2 ctx) as [U1 U2]. unfold same in Ep.
  assert (client_of s2 ctx = c) as E3 by (unfold client_of, c; by rewrite E2).
  by rewrite Ep, U1, U2, E1, E3.
Qed.

Lemma private_get_answer ctx stanza child space doc s :
  private_names (st_payload stanza) = (child, space) -> deref space <> 0 ->
  st_type stanza <> XMPP_IQ_SET ->
  private_get (private_store s) (private_key (username (client_of s ctx)) space) = Some doc ->
  handle_private_storage ctx stanza s =
  send_raw ctx (take (Z.to_nat 1299) (private_result (st_id stanza) (full_jid (client_of s ctx)) doc)) s.
Proof.
  intros En Hn Ht Hg. unfold handle_private_storage. run. rewrite client_eq. cbn [fst snd]. rewrite En.
  rewrite (proj2 (Z.eqb_neq _ _) Hn). rewrite decide_False by done. run. rewrite gets_eq.
  cbn [fst snd]. cbv zeta. rewrite private_result_text, (private_answer_get _ _ _ _ _ Hg).
  assert ((Z.min 1299 (Z.of_nat (length (private_result (st_id stanza) (full_jid (client_of s ctx)) doc))) <? 0) ||
          (1300 <=? Z.min 1299 (Z.of_nat (length (private_result (st_id stanza) (full_jid (client_of s ctx)) doc))))
          = false) as ->; [|done].
  apply orb_false_intro; [apply Z.ltb_ge|apply Z.leb_gt]; lia.
Qed.

End private.

(** Conversion need not look into the formatter from here on. *)
Local Strategy opaque [snprintf_into snprintf].

(** * Properties *)


(** A server with [n] connections: the first one of user1, ready to bind, and a
    second one that is also user1's. *)
Definition binding_client : xmpp_client_ctx_t :=
  set_state STATE_BIND (set_authenticated 1 (set_username (str "user1" ++ zeros 27) tls_client)).

Definition two_logins : srv :=
  set_client_registry
    (binding_client :: set_state STATE_SESSION (set_pcb (Some 8%nat) binding_client) :: replicate 18 client0)
    (one_client client0).


(** C37: private storage returns what was stored: after a set request that
    found room, a get request of the same user for the same namespace is
    answered with the stored document (cut to 899 bytes, the whole answer to
    1299). *)
Theorem private_set_then_get (env : Env) (ctx : nat) (set_st get_st : xmpp_stanza_t) (s : srv)
    (child child' space space' doc : list Z) (len : Z) :
  (ctx < length (client_registry s))%nat ->
  Forall private_ok (private_store s) -> unique (private_store s) ->
  (length (cstr (username (client_of s ctx))) <= 31)%nat ->
  st_type set_st = XMPP_IQ_SET -> st_type get_st <> XMPP_IQ_SET ->
  private_names (st_payload set_st) = (child, space) ->
  private_names (st_payload get_st) = (child', space') ->
  deref space <> 0 -> cstr space' = cstr space ->
  private_doc (st_payload set_st) = Some (doc, len) ->
  fst (private_store_upsert (private_store s) (username (client_of s ctx)) space doc len) = 0 ->
  let s' := snd (handle_private_storage ctx set_st s) in
  handle_private_storage ctx get_st s' =
  send_raw ctx (take (Z.to_nat 1299)
    (private_result (st_id get_st) (full_jid (client_of s ctx)) (take 899 (take (Z.to_nat len) doc)))) s'.
Proof.
  intros Hc Hok Hu Hname Ht Ht' En En' Hns Hsp Hd Hr s'.
  assert (s' = snd (private_set ctx set_st space s)) as Es.
  { unfold s', handle_private_storage. run. rewrite client_eq. cbn [fst snd]. rewrite En.
    rewrite (proj2 (Z.eqb_neq _ _) Hns). by rewrite decide_True. }
  pose proof (private_names_bound (st_payload set_st)) as Hb. rewrite En in Hb. cbn [snd] in Hb.
  destruct (private_doc_ok _ _ _ Hd) as [Hlen Hnf].
  pose proof (private_set_stores ctx set_st space doc len s Hd) as P.
  pose proof (private_upsert_refines (private_store s) _ space doc len Hok Hu Hname Hb Hlen Hnf) as U.
  cbv zeta in P. destruct (private_store_upsert _ _ _ _ _) as [r store']. cbn [fst] in Hr. subst r.
  specialize (P eq_refl). rewrite <- Es in P. destruct P as (P1 & P2 & P3).
  destruct U as (_ & _ & [[_ U] | [? _]]); [|done].
  rewrite <- P3. eapply (private_get_answer ctx get_st); [exact En'| |done|].
  - intros E. apply Hns. rewrite <- deref_cstr, <- Hsp, deref_cstr. done.
  - rewrite P1, P2. unfold private_key in *. rewrite Hsp, U. by rewrite decide_True.
Qed.

Definition private_payload : list Z :=
  str "<query xmlns='jabber:iq:private'><storage xmlns='storage:bookmarks'><x/></storage></query>" ++ [0].

Definition private_request (t : stanza_type_t) : xmpp_stanza_t :=
  mk_stanza t [] [] (str "q1" ++ [0]) [] private_payload [] 1.

Definition private_server : srv :=
  set_private_store (replicate 3 private0) (one_client binding_client).

Lemma private_set_then_get_witness :
  let s' := snd (@handle_private_storage good_env 0 (private_request XMPP_IQ_SET) private_server) in
  @handle_private_storage good_env 0 (private_request XMPP_IQ_GET) s' =
  @send_raw good_env 0 (take (Z.to_nat 1299)
    (private_result (str "q1" ++ [0]) (zeros 64)
       (take 899 (take (Z.to_nat 49) (drop 33 private_payload))))) s'.
Proof.
  apply (private_set_then_get good_env 0 (private_request XMPP_IQ_SET) (private_request XMPP_IQ_GET)
           private_server (fst (private_names private_payload)) (fst (private_names private_payload))
           (snd (private_names private_payload)) (snd (private_names private_payload))
           (drop 33 private_payload) 49).
  - simpl. lia.
  - unfold private_server. cbn [private_store set_private_store]. apply Forall_replicate.
    split; [done|done|apply length_replicate|]. unfold int32. cbn. lia.
  - by apply unique_replicate.
  - vm_compute. lia.
  - reflexivity.
  - discriminate.
  - apply surjective_pairing.
  - apply surjective_pairing.
  - vm_compute. discriminate.
  - reflexivity.
  - reflexivity.
  - vm_compute. reflexivity.
Defined.
