(* ===== verification/Muc.v ===== *)
(** Room administration: [handle_muc_admin] and [handle_muc_owner] of
    src/xmpp/xmpp_handlers.c.

    A request is translated in two layers: the functions on [room_t] say what
    it does to the room, the handlers find the room, inform the occupants and
    answer. *)

From Stdlib Require Import ZArith Lia String Ascii Bool.
From stdpp Require Import base list numbers option sets.
From S2P Require Import Prelude.
From S2P Require Import Libc.
From S2P Require Import SlotMap.
From S2P Require Import XmppCore.
From S2P Require Import Logic.
From S2P Require Import Persist.
From S2P Require Import Store.
From S2P Require Import Sasl.
From S2P Require Import Iq.

Open Scope Z_scope.

(** * Reading a request *)

(** The part of the address before the at sign, in a 32-byte array. *)
Definition room_part (to : list Z) : list Z :=
  match strchr to (chr "@") with
  | Some at_sign => strncpy (zeros 32) to (Z.to_nat (cap (ptr_diff at_sign to) 32))
  | None => zeros 32
  end.

(** The text of the [reason] element, in a 128-byte array. *)
Definition reason_text (payload : list Z) : list Z :=
  match strstr payload (str "<reason>") with
  | None => zeros 128
  | Some p =>
      let p := drop 8 p in
      match strstr p (str "</reason>") with
      | None => zeros 128
      | Some stop => strncpy (zeros 128) p (Z.to_nat (cap (ptr_diff stop p) 128))
      end
  end.

(** The value of the [nick] attribute, in a 32-byte array; [p] starts at the
    attribute, its quote is the byte before the value. *)
Definition nick_attr (payload : list Z) : list Z :=
  let p := match strstr payload (str "nick='") with
           | Some p => Some p
           | None => strstr payload (qstr "nick=`")
           end in
  match p with
  | None => zeros 32
  | Some p =>
      let q := at_ p 5 in
      let p := drop 6 p in
      match strchr p q with
      | None => zeros 32
      | Some stop => strncpy (zeros 32) p (Z.to_nat (cap (ptr_diff stop p) 32))
      end
  end.

(** Either spelling of an attribute. *)
Definition has_either (payload a b : list Z) : bool :=
  is_Some_b (strstr payload a) || is_Some_b (strstr payload b).

(** [char *slash = strchr(jid, '/'); if (slash) *slash = 0;] *)
Definition cut_slash (jid : list Z) : list Z :=
  match strchr jid (chr "/") with
  | Some slash => <[Z.to_nat (ptr_diff slash jid) := 0]> jid
  | None => jid
  end.

(** * Rooms *)

Definition room_of (s : srv) (i : nat) : room_t := default room0 (rooms s !! i).

Definition user_of (r : room_t) (k : nat) : participant_t := default participant0 (users r !! k).

Definition upd_room (i : nat) (f : room_t -> room_t) : M unit :=
  modify (fun s => set_rooms (alter f i (rooms s)) s).

(** The loop over the rooms stops at the first active one of that name. *)
Definition is_room (name : list Z) (r : room_t) : bool :=
  negb (room_active r =? 0) && (strcmp (room_name r) name =? 0).

Definition find_room (rs : list room_t) (name : list Z) : option nat := first_index (is_room name) rs.

(** The occupant a kick is for: the first one, or the first of that nick. *)
Definition is_target (target_nick : list Z) (u : participant_t) : bool :=
  negb (pt_active u =? 0) &&
  negb (negb (deref target_nick =? 0) && negb (strcmp (nick u) target_nick =? 0)).

(** [memset(&r->users[j], 0, sizeof(participant_t))] *)
Definition drop_user (j : nat) (r : room_t) : room_t :=
  set_users (alter (fun _ => participant0) j (users r)) r.

(** A ban is entered while the list has room. *)
Definition add_ban (kicked_bare : list Z) (r : room_t) : room_t :=
  set_banned_count (banned_count r + 1)
    (set_banned_jids (alter (fun b => copy_str b kicked_bare 63) (Z.to_nat (banned_count r))
                        (banned_jids r)) r).

Definition has_ban_room (r : room_t) : bool := banned_count r <? Z.of_nat MAX_BANNED_PER_ROOM.

(** ** Configuration *)

(** [PARSE_BOOL_FIELD]: the new value, or the old one without the field. *)
Definition config_bool (payload var : list Z) (old : Z) : Z :=
  match strstr payload var with
  | None => old
  | Some vp =>
      match strstr vp (str "<value>") with
      | None => old
      | Some val =>
          let val := drop 7 val in
          of_bool ((deref val =? 49) || (strncmp val (str "true") 4 =? 0))
      end
  end.

Definition config_whois (payload : list Z) (old : Z) : Z :=
  match strstr payload (str "muc#roomconfig_whois") with
  | None => old
  | Some wp =>
      match strstr wp (str "<value>") with
      | None => old
      | Some wv => of_bool (strncmp (drop 7 wv) (str "moderators") 10 =? 0)
      end
  end.

Definition configure (payload : list Z) (r : room_t) : room_t :=
  set_semi_anon (config_whois payload (semi_anon r))
    (set_members_only (config_bool payload (str "muc#roomconfig_membersonly") (members_only r))
      (set_moderated (config_bool payload (str "muc#roomconfig_moderatedroom") (moderated r))
        (set_persistent (config_bool payload (str "muc#roomconfig_persistentroom") (persistent r))
          (set_locked 0 r)))).

Section with_env.
Context `{Env}.

(** * Kicking and banning *)

(** The texts for the other occupants and for the one who leaves. *)
Definition kick_msg (bare_jid kicked_nick to reason : list Z) (want_ban : bool) : list Z :=
  let affiliation := if want_ban then str "outcast" else str "none" in
  let status_code := if want_ban then 301 else 307 in
  if negb (deref reason =? 0) then
    snprintf 512 (str "<presence type='unavailable' from='%s/%s' to='%s'>" ++
                  str "<x xmlns='http://jabber.org/protocol/muc#user'>" ++
                  str "<item affiliation='%s' role='none'>" ++ str "<reason>%s</reason>" ++ str "</item>" ++
                  str "<status code='%d'/>" ++ str "</x>" ++ str "</presence>")
      [S_ bare_jid; S_ kicked_nick; S_ to; S_ affiliation; S_ reason; AInt status_code]
  else
    snprintf 512 (str "<presence type='unavailable' from='%s/%s' to='%s'>" ++
                  str "<x xmlns='http://jabber.org/protocol/muc#user'>" ++
                  str "<item affiliation='%s' role='none'/>" ++
                  str "<status code='%d'/>" ++ str "</x>" ++ str "</presence>")
      [S_ bare_jid; S_ kicked_nick; S_ to; S_ affiliation; AInt status_code].

Definition kicked_msg (bare_jid kicked_nick to reason : list Z) (want_ban : bool) : list Z :=
  let affiliation := if want_ban then str "outcast" else str "none" in
  let status_code := if want_ban then 301 else 307 in
  if negb (deref reason =? 0) then
    snprintf 640 (str "<presence type='unavailable' from='%s/%s' to='%s'>" ++
                  str "<x xmlns='http://jabber.org/protocol/muc#user'>" ++
                  str "<item affiliation='%s' role='none'>" ++ str "<reason>%s</reason>" ++ str "</item>" ++
                  str "<status code='110'/>" ++ str "<status code='%d'/>" ++ str "</x>" ++ str "</presence>")
      [S_ bare_jid; S_ kicked_nick; S_ to; S_ affiliation; S_ reason; AInt status_code]
  else
    snprintf 640 (str "<presence type='unavailable' from='%s/%s' to='%s'>" ++
                  str "<x xmlns='http://jabber.org/protocol/muc#user'>" ++
                  str "<item affiliation='%s' role='none'/>" ++
                  str "<status code='110'/>" ++ str "<status code='%d'/>" ++ str "</x>" ++ str "</presence>")
      [S_ bare_jid; S_ kicked_nick; S_ to; S_ affiliation; AInt status_code].

(** [kicked_nick] and [kicked_jid] are uninitialised before the copy. *)
Definition kicked_nick_of (u : participant_t) : list Z := strncpy (uninit 32) (nick u) 31.
Definition kicked_jid_of (u : participant_t) : list Z := strncpy (uninit 64) (pt_jid u) 63.

Definition kicked_bare_of (u : participant_t) : list Z :=
  cut_slash (strncpy (zeros 64) (kicked_jid_of u) 63).

(** Sending to the connection of an occupant, if there is one. *)
Definition send_to_jid (jid text : list Z) : M unit :=
  clients ← gets client_registry;
  match find_client_by_jid clients jid with
  | Some t => send_raw t text
  | None => skip
  end.

(** The loop over the other occupants. *)
Definition tell_others (i j : nat) (text : participant_t -> list Z) : M unit :=
  loop MAX_USERS_PER_ROOM (fun k =>
    s ← gets id;
    let u := user_of (room_of s i) k in
    if (pt_active u =? 0) || (k =? j)%nat then skip else send_to_jid (pt_jid u) (text u)).

(** Occupant [j] of room [i] is made to leave. *)
Definition kick (stanza : xmpp_stanza_t) (want_ban : bool) (i j : nat) : M unit :=
  s ← gets id;
  let reason := reason_text (st_payload stanza) in
  let bare_jid := strncpy (zeros 64) (st_to stanza) 63 in
  let u := user_of (room_of s i) j in
  let kicked_nick := kicked_nick_of u in
  let kicked_jid := kicked_jid_of u in
  tell_others i j (fun v => kick_msg bare_jid kicked_nick (pt_jid v) reason want_ban) ;;
  send_to_jid kicked_jid (kicked_msg bare_jid kicked_nick kicked_jid reason want_ban) ;;
  (if want_ban && has_ban_room (room_of s i) then
     upd_room i (add_ban (kicked_bare_of u)) ;; xmpp_persist_save_rooms
   else skip) ;;
  upd_room i (drop_user j).

Definition want_kick (payload : list Z) : bool :=
  has_either payload (str "role='none'") (qstr "role=`none`").

Definition want_ban (payload : list Z) : bool :=
  has_either payload (str "affiliation='outcast'") (qstr "affiliation=`outcast`").

(** The address shown as the owner: the creator, else the first occupant, else
    the one who asks. *)
Definition owner_jid (rs : list room_t) (to full_jid : list Z) : list Z :=
  let owner :=
    match strchr to (chr "@") with
    | None => zeros 64
    | Some _ =>
        match find_room rs (room_part to) with
        | None => zeros 64
        | Some i =>
            let r := default room0 (rs !! i) in
            if negb (deref (creator_jid r) =? 0) then strncpy (zeros 64) (creator_jid r) 63
            else
              match first_index (fun u => negb (pt_active u =? 0)) (users r) with
              | None => zeros 64
              | Some j => cut_slash (strncpy (zeros 64) (pt_jid (user_of r j)) 63)
              end
        end
    end in
  if deref owner =? 0 then strncpy owner full_jid 63 else owner.

Definition muc_admin_list (stanza : xmpp_stanza_t) (rs : list room_t) (full_jid : list Z) : list Z :=
  if has_either (st_payload stanza) (str "affiliation='owner'") (qstr "affiliation=`owner`") then
    snprintf 1024 (str "<iq type='result' id='%s' to='%s'>" ++
                   str "<query xmlns='http://jabber.org/protocol/muc#admin'>" ++
                   str "<item affiliation='owner' jid='%s' role='moderator'/>" ++ str "</query>" ++ str "</iq>")
      [S_ (st_id stanza); S_ full_jid; S_ (owner_jid rs (st_to stanza) full_jid)]
  else
    snprintf 1024 (str "<iq type='result' id='%s' to='%s'>" ++
                   str "<query xmlns='http://jabber.org/protocol/muc#admin'/>" ++ str "</iq>")
      [S_ (st_id stanza); S_ full_jid].

Definition handle_muc_admin (ctx : nat) (stanza : xmpp_stanza_t) : M unit :=
  let payload := st_payload stanza in
  if decide (st_type stanza = XMPP_IQ_SET) then
    (if want_kick payload || want_ban payload then
       rs ← gets rooms;
       match find_room rs (room_part (st_to stanza)) with
       | None => skip
       | Some i =>
           match first_index (is_target (nick_attr payload)) (users (default room0 (rs !! i))) with
           | None => skip
           | Some j => kick stanza (want_ban payload) i j
           end
       end
     else skip) ;;
    c ← client ctx;
    send_raw ctx (iq_result 1024 (st_id stanza) (full_jid c))
  else
    c ← client ctx;
    rs ← gets rooms;
    send_raw ctx (muc_admin_list stanza rs (full_jid c)).

(** * Destroying and configuring *)

(** The [jid] attribute of the [destroy] element, in a 64-byte array. *)
Definition alt_jid_of (payload : list Z) : list Z :=
  match strstr payload (str "<destroy") with
  | None => zeros 64
  | Some d =>
      match strstr d (str "jid=") with
      | None => zeros 64
      | Some p =>
          let p := drop 4 p in
          let q := deref p in
          let p := tail p in
          match strchr p q with
          | None => zeros 64
          | Some stop => strncpy (zeros 64) p (Z.to_nat (cap (ptr_diff stop p) 64))
          end
      end
  end.

(** The first copy, of the part before the slash, is overwritten by the
    second. *)
Definition destroyed_jid (to : list Z) : list Z :=
  let bl := match strchr to (chr "/") with
            | Some slash => ptr_diff slash to
            | None => Z.of_nat (strlen to)
            end in
  strncpy (strncpy (zeros 64) to (Z.to_nat (cap bl 64))) to 63.

Definition destroy_msg (bare_jid alt_jid reason : list Z) (u : participant_t) : list Z :=
  if negb (deref alt_jid =? 0) && negb (deref reason =? 0) then
    snprintf 640 (str "<presence type='unavailable' from='%s/%s' to='%s'>" ++
                  str "<x xmlns='http://jabber.org/protocol/muc#user'>" ++
                  str "<item affiliation='none' role='none'/>" ++ str "<destroy jid='%s'>" ++
                  str "<reason>%s</reason>" ++ str "</destroy>" ++ str "</x>" ++ str "</presence>")
      [S_ bare_jid; S_ (nick u); S_ (pt_jid u); S_ alt_jid; S_ reason]
  else if negb (deref alt_jid =? 0) then
    snprintf 640 (str "<presence type='unavailable' from='%s/%s' to='%s'>" ++
                  str "<x xmlns='http://jabber.org/protocol/muc#user'>" ++
                  str "<item affiliation='none' role='none'/>" ++ str "<destroy jid='%s'/>" ++
                  str "</x>" ++ str "</presence>")
      [S_ bare_jid; S_ (nick u); S_ (pt_jid u); S_ alt_jid]
  else
    snprintf 640 (str "<presence type='unavailable' from='%s/%s' to='%s'>" ++
                  str "<x xmlns='http://jabber.org/protocol/muc#user'>" ++
                  str "<item affiliation='none' role='none'/>" ++ str "<destroy/>" ++
                  str "</x>" ++ str "</presence>")
      [S_ bare_jid; S_ (nick u); S_ (pt_jid u)].

Definition destroy_room (stanza : xmpp_stanza_t) (i : nat) : M unit :=
  loop MAX_USERS_PER_ROOM (fun k =>
    s ← gets id;
    let u := user_of (room_of s i) k in
    if pt_active u =? 0 then skip
    else send_to_jid (pt_jid u)
           (destroy_msg (destroyed_jid (st_to stanza)) (alt_jid_of (st_payload stanza))
              (reason_text (st_payload stanza)) u)) ;;
  upd_room i (fun _ => room0) ;;
  xmpp_persist_save_rooms.

(** The configuration form. *)
Definition room_form (stanza : xmpp_stanza_t) (rs : list room_t) (full_jid : list Z) : list Z :=
  let name := room_part (st_to stanza) in
  let room_label := or_else name (str "unnamed room") in
  let '(semi, pers, mode, memb) :=
    match find_room rs name with
    | Some i => let r := default room0 (rs !! i) in (semi_anon r, persistent r, moderated r, members_only r)
    | None => (1, 0, 0, 0)
    end in
  snprintf 2048
    (str "<iq type='result' id='%s' to='%s' from='%s'>" ++
     str "<query xmlns='http://jabber.org/protocol/muc#owner'>" ++
     str "<x xmlns='jabber:x:data' type='form'>" ++
     str "<field type='hidden' var='FORM_TYPE'>" ++
     str "<value>http://jabber.org/protocol/muc#roomconfig</value>" ++ str "</field>" ++
     str "<field type='text-single'" ++ str " var='muc#roomconfig_roomname'" ++ str " label='room name'>" ++
     str "<value>%s</value>" ++ str "</field>" ++
     str "<field type='text-single'" ++ str " var='muc#roomconfig_roomdesc'" ++
     str " label='short description of room'>" ++ str "<value></value>" ++ str "</field>" ++
     str "<field type='boolean'" ++ str " var='muc#roomconfig_persistentroom'" ++
     str " label='make room persistent'>" ++ str "<value>%d</value>" ++ str "</field>" ++
     str "<field type='boolean'" ++ str " var='muc#roomconfig_publicroom'" ++
     str " label='make room publicly listed'>" ++ str "<value>%d</value>" ++ str "</field>" ++
     str "<field type='boolean'" ++ str " var='muc#roomconfig_moderatedroom'" ++
     str " label='enable moderation'>" ++ str "<value>%d</value>" ++ str "</field>" ++
     str "<field type='boolean'" ++ str " var='muc#roomconfig_membersonly'" ++
     str " label='make room members-only'>" ++ str "<value>%d</value>" ++ str "</field>" ++
     str "<field type='boolean'" ++ str " var='muc#roomconfig_allowinvites'" ++
     str " label='allow occupants to invite others'>" ++ str "<value>%d</value>" ++ str "</field>" ++
     str "<field type='list-single'" ++ str " var='muc#roomconfig_whois'" ++
     str " label='who can see occupant real jids'>" ++ str "<value>%s</value>" ++
     str "<option label='moderators only'>" ++ str "<value>moderators</value>" ++ str "</option>" ++
     str "<option label='anyone'>" ++ str "<value>anyone</value>" ++ str "</option>" ++ str "</field>" ++
     str "</x>" ++ str "</query>" ++ str "</iq>")
    [S_ (st_id stanza); S_ full_jid; S_ (st_to stanza); S_ room_label; AInt pers; AInt 1; AInt mode;
     AInt memb; AInt 1; S_ (if truth semi then str "moderators" else str "anyone")].

Definition handle_muc_owner (ctx : nat) (stanza : xmpp_stanza_t) : M unit :=
  let payload := st_payload stanza in
  let is_set := bool_decide (st_type stanza = XMPP_IQ_SET) in
  c ← client ctx;
  rs ← gets rooms;
  let room := find_room rs (room_part (st_to stanza)) in
  if is_set && is_Some_b (strstr payload (str "<destroy")) then
    match room with Some i => destroy_room stanza i | None => skip end ;;
    send_raw ctx (iq_result 256 (st_id stanza) (full_jid c))
  else if is_set || has_either payload (str "type='submit'") (qstr "type=`submit`") then
    match room with
    | Some i => upd_room i (configure payload) ;; xmpp_persist_save_rooms
    | None => skip
    end ;;
    send_raw ctx (snprintf 1024 (str "<iq type='result' id='%s' to='%s' from='%s'/>")
                    [S_ (st_id stanza); S_ (full_jid c); S_ (st_to stanza)])
  else send_raw ctx (room_form stanza rs (full_jid c)).

End with_env.

(** * Facts *)

(** What a request does to a room. *)
Definition kicked_room `{Env} (ban : bool) (j : nat) (r : room_t) : room_t :=
  drop_user j (if ban && has_ban_room r then add_ban (kicked_bare_of (user_of r j)) r else r).

(** What the two handlers do to the rooms: the specification, which does not
    mention the connection the request came from. *)
Definition admin_rooms `{Env} (stanza : xmpp_stanza_t) (rs : list room_t) : list room_t :=
  let payload := st_payload stanza in
  if decide (st_type stanza = XMPP_IQ_SET) then
    if want_kick payload || want_ban payload then
      match find_room rs (room_part (st_to stanza)) with
      | None => rs
      | Some i =>
          match first_index (is_target (nick_attr payload)) (users (default room0 (rs !! i))) with
          | None => rs
          | Some j => alter (kicked_room (want_ban payload) j) i rs
          end
      end
    else rs
  else rs.

Definition owner_rooms (stanza : xmpp_stanza_t) (rs : list room_t) : list room_t :=
  let payload := st_payload stanza in
  let is_set := bool_decide (st_type stanza = XMPP_IQ_SET) in
  match find_room rs (room_part (st_to stanza)) with
  | None => rs
  | Some i =>
      if is_set && is_Some_b (strstr payload (str "<destroy")) then alter (fun _ => room0) i rs
      else if is_set || has_either payload (str "type='submit'") (qstr "type=`submit`") then
        alter (configure payload) i rs
      else rs
  end.

Section rooms.
Context `{Env}.

Lemma rooms_send t d : within (same rooms) (send_raw t d).
Proof. by apply same_send_raw. Qed.

Lemma rooms_save : within (same rooms) xmpp_persist_save_rooms.
Proof. by apply within_save. Qed.

Hint Resolve rooms_send rooms_save : handlers.

Lemma rooms_send_to_jid jid d : within (same rooms) (send_to_jid jid d).
Proof. unfold send_to_jid. within_auto. Qed.

Hint Resolve rooms_send_to_jid : handlers.

Lemma rooms_tell_others i j f : within (same rooms) (tell_others i j f).
Proof. unfold tell_others. within_auto. Qed.

Hint Resolve rooms_tell_others : handlers.

Lemma upd_room_rooms i f s : rooms (snd (upd_room i f s)) = alter f i (rooms s).
Proof. done. Qed.

Lemma kick_rooms stanza ban i j s :
  rooms (snd (kick stanza ban i j s)) = alter (kicked_room ban j) i (rooms s).
Proof.
  unfold kick. run. rewrite gets_eq. cbn [fst snd id]. unfold id. run. run. run.
  set (u := user_of (room_of s i) j).
  set (s1 := snd (tell_others i j _ s)). assert (rooms s1 = rooms s) as E1 by apply rooms_tell_others.
  set (s2 := snd (send_to_jid _ _ s1)). assert (rooms s2 = rooms s) as E2.
  { rewrite <- E1. apply rooms_send_to_jid. }
  rewrite upd_room_rooms.
  destruct (ban && has_ban_room (room_of s i)) eqn:Eb.
  - run. rewrite rooms_save, upd_room_rooms, E2, alter_alter. apply list_alter_ext; [|done].
    intros r Er. assert (room_of s i = r) as R by (unfold room_of; by rewrite Er).
    subst u. rewrite R in *. unfold kicked_room. by rewrite Eb.
  - change (snd (skip s2)) with s2. rewrite E2. apply list_alter_ext; [|done].
    intros r Er. assert (room_of s i = r) as R by (unfold room_of; by rewrite Er).
    rewrite R in Eb. unfold kicked_room. by rewrite Eb.
Qed.

Lemma admin_rooms_eq ctx stanza s :
  rooms (snd (handle_muc_admin ctx stanza s)) = admin_rooms stanza (rooms s).
Proof.
  unfold handle_muc_admin, admin_rooms. destruct (decide _).
  - run. run. rewrite rooms_send, client_eq. cbn [fst snd].
    destruct (_ || _); [|done]. run. rewrite gets_eq. cbn [fst snd].
    destruct (find_room _ _) as [i|]; [|done].
    destruct (first_index _ _) as [j|]; [|done]. apply kick_rooms.
  - run. run. rewrite rooms_send. done.
Qed.

Lemma destroy_rooms stanza i s :
  rooms (snd (destroy_room stanza i s)) = alter (fun _ => room0) i (rooms s).
Proof.
  unfold destroy_room. run. run. rewrite rooms_save, upd_room_rooms. f_equal.
  match goal with |- rooms (snd (?m s)) = _ => assert (within (same rooms) m) as W by within_auto end.
  apply W.
Qed.

Lemma owner_rooms_eq ctx stanza s :
  rooms (snd (handle_muc_owner ctx stanza s)) = owner_rooms stanza (rooms s).
Proof.
  unfold handle_muc_owner, owner_rooms. cbv zeta. run. run. rewrite client_eq. cbn [fst snd].
  rewrite gets_eq. cbn [fst snd]. destruct (find_room (rooms s) _) as [i|].
  - destruct (_ && _); [run; rewrite rooms_send; apply destroy_rooms|].
    destruct (_ || _); [|apply rooms_send]. run. rewrite rooms_send. run. by rewrite rooms_save, upd_room_rooms.
  - destruct (_ && _); [run; by rewrite rooms_send|].
    destruct (_ || _); [run; by rewrite rooms_send|apply rooms_send].
Qed.

End rooms.

(** ** The invariant of rooms *)

Lemma of_bool_int32 b : int32 (of_bool b).
Proof. destruct b; cbn [of_bool]; unfold int32; lia. Qed.

Lemma config_bool_int32 payload var old : int32 old -> int32 (config_bool payload var old).
Proof.
  intros Ho. unfold config_bool. destruct (strstr payload var); [|done].
  destruct (strstr _ _); [apply of_bool_int32|done].
Qed.

Lemma config_whois_int32 payload old : int32 old -> int32 (config_whois payload old).
Proof.
  intros Ho. unfold config_whois. destruct (strstr payload _); [|done].
  destruct (strstr _ _); [apply of_bool_int32|done].
Qed.

Lemma room0_ok : room_ok room0.
Proof. split; [repeat constructor; unfold int32; cbn; lia|cbn; lia]. Qed.

Lemma configure_ok payload r : room_ok r -> room_ok (configure payload r).
Proof.
  intros [Hi Hb]. apply Forall_cons in Hi as [I1 Hi]. apply Forall_cons in Hi as [I2 Hi].
  apply Forall_cons in Hi as [I3 Hi]. apply Forall_cons in Hi as [I4 Hi].
  apply Forall_cons in Hi as [I5 Hi]. apply Forall_cons in Hi as [I6 _].
  split; [|exact Hb].
  apply Forall_cons; split; [exact (config_whois_int32 payload _ I1)|].
  apply Forall_cons; split; [unfold int32; cbn; lia|].
  apply Forall_cons; split; [exact I3|].
  apply Forall_cons; split; [exact (config_bool_int32 payload _ _ I4)|].
  apply Forall_cons; split; [exact (config_bool_int32 payload _ _ I5)|].
  apply Forall_cons; split; [exact (config_bool_int32 payload _ _ I6)|constructor].
Qed.

Lemma kicked_room_ok `{Env} ban j r : room_ok r -> room_ok (kicked_room ban j r).
Proof.
  intros [Hi Hb]. unfold kicked_room, has_ban_room, MAX_BANNED_PER_ROOM.
  destruct ban; cbn [andb]; [|by split].
  destruct (Z.ltb_spec (banned_count r) (Z.of_nat 8)); [|by split].
  split; [done|]. cbn [banned_count drop_user set_users add_ban set_banned_count]. lia.
Qed.

Lemma Forall_alter_ok (f : room_t -> room_t) i rs :
  (forall r, room_ok r -> room_ok (f r)) -> Forall room_ok rs -> Forall room_ok (alter f i rs).
Proof. intros Hf H. apply Forall_alter; [done|]. intros r Hr. apply Hf. Qed.

(** ** Addresses *)

(** The address without its resource. *)
Fixpoint bare_part (jid : list Z) : list Z :=
  match jid with
  | [] => []
  | c :: jid' => if c =? 47 then [] else c :: bare_part jid'
  end.

Lemma bare_part_app pre post : 47 ∉ pre -> bare_part (pre ++ 47 :: post) = pre.
Proof.
  induction pre as [|c pre IH]; simpl; intros Hn; [done|].
  destruct (Z.eqb_spec c 47) as [->|]; [set_solver|]. rewrite IH; [done|set_solver].
Qed.

Lemma bare_part_none jid : 47 ∉ jid -> bare_part jid = jid.
Proof.
  induction jid as [|c jid IH]; simpl; intros Hn; [done|].
  destruct (Z.eqb_spec c 47) as [->|]; [set_solver|]. rewrite IH; [done|set_solver].
Qed.

Lemma cstr_app_nul_free pre post : nul_free pre -> cstr (pre ++ post) = pre ++ cstr post.
Proof. induction 1 as [|c pre Hc F IH]; cbn [app]; [done|]. by rewrite cstr_cons, IH. Qed.

Lemma cut_slash_cstr b : cstr (cut_slash b) = bare_part (cstr b).
Proof.
  unfold cut_slash. destruct (strchr b (chr "/")) as [p|] eqn:E.
  - apply strchr_Some in E as (pre & post & -> & -> & F & Hn); [|vm_compute; done].
    unfold ptr_diff. rewrite length_app.
    replace (Z.to_nat _) with (length pre) by lia.
    change (chr "/") with 47 in *.
    rewrite insert_app_r_alt, Nat.sub_diag by lia. cbn [insert list_insert].
    rewrite cstr_app_nul by done. rewrite cstr_app_nul_free, cstr_cons by done || lia.
    by rewrite bare_part_app.
  - apply strchr_None in E; [|vm_compute; done]. by rewrite bare_part_none.
Qed.

(** The copies through the uninitialised array lose nothing of an address of at
    most 62 bytes. *)
Lemma kicked_bare_cstr `{Env} u :
  (length (cstr (pt_jid u)) <= 62)%nat -> cstr (kicked_bare_of u) = bare_part (cstr (pt_jid u)).
Proof.
  intros L. unfold kicked_bare_of. rewrite cut_slash_cstr. f_equal.
  rewrite strncpy_cstr by done. unfold kicked_jid_of.
  rewrite strncpy_eq, (take_ge (cstr (pt_jid u))) by lia.
  replace (63 - length (cstr (pt_jid u)))%nat with (S (62 - length (cstr (pt_jid u))))%nat by lia.
  cbn [replicate app]. rewrite cstr_app_nul by apply cstr_nul_free. by rewrite take_ge by lia.
Qed.

(** * Properties *)


(** A room with an owner and a guest, and a third connection that is in no
    room. *)
Definition occupant (jid nickname : string) : participant_t :=
  mk_participant None (strncpy (zeros 32) (str nickname) 31) (strncpy (zeros 64) (str jid) 63) 1.

Definition demo_room : room_t :=
  set_users (occupant "admin@angelic.local" "boss" :: occupant "user1@angelic.local" "guest" ::
             replicate 6 participant0)
    (set_creator_jid (strncpy (zeros 64) (str "admin@angelic.local") 63)
      (set_room_active 1 (set_room_name (strncpy (zeros 32) (str "lobby") 31) room0))).

Definition demo_server : srv := set_rooms (demo_room :: replicate 3 room0) (one_client binding_client).

Definition ban_request (nickname : string) : xmpp_stanza_t :=
  mk_stanza XMPP_IQ_SET [] (strncpy (zeros 64) (str "lobby@conference.angelic.local") 63) (str "b1" ++ [0]) []
    (str "<query><item affiliation='outcast' nick='" ++ str nickname ++ str "'/></query>" ++ [0]) [] 1.

Lemma demo_rooms_ok : Forall room_ok (rooms demo_server).
Proof.
  constructor; [split; [|cbn; lia]|apply Forall_replicate, room0_ok].
  repeat (apply Forall_cons; split; [unfold int32; cbn; lia|]). constructor.
Qed.


(** A ban takes effect: the occupant leaves the room, the address without
    its resource is entered at the end of the ban list, and no other occupant
    and no other room changes. *)
Theorem muc_ban_takes_effect (env : Env) (ctx i j : nat) (stanza : xmpp_stanza_t) (s : srv)
    (r : room_t) (u : participant_t) :
  st_type stanza = XMPP_IQ_SET -> want_ban (st_payload stanza) = true ->
  find_room (rooms s) (room_part (st_to stanza)) = Some i -> rooms s !! i = Some r ->
  first_index (is_target (nick_attr (st_payload stanza))) (users r) = Some j -> users r !! j = Some u ->
  0 <= banned_count r < 8 -> length (banned_jids r) = 8%nat ->
  Forall (fun b => length b = 64%nat) (banned_jids r) -> (length (cstr (pt_jid u)) <= 62)%nat ->
  let rs' := rooms (snd (handle_muc_admin ctx stanza s)) in
  exists r', rs' !! i = Some r' /\ users r' = <[j := participant0]> (users r) /\
    banned_count r' = banned_count r + 1 /\
    cstr <$> banned_jids r' !! Z.to_nat (banned_count r) = Some (bare_part (cstr (pt_jid u))) /\
    (forall k, k <> Z.to_nat (banned_count r) -> banned_jids r' !! k = banned_jids r !! k) /\
    (forall k, k <> i -> rs' !! k = rooms s !! k).
Proof.
  intros Ht Hw Hf Hr Hj Hu Hb Hl H64 Hjid rs'. unfold rs'. rewrite admin_rooms_eq. unfold admin_rooms.
  rewrite decide_True by done. rewrite Hw, orb_true_r, Hf, Hr. cbn [default]. unfold id. rewrite Hj.
  assert (kicked_room true j r = drop_user j (add_ban (kicked_bare_of u) r)) as Ek.
  { unfold kicked_room, has_ban_room, MAX_BANNED_PER_ROOM. cbn [andb].
    rewrite (proj2 (Z.ltb_lt _ _)) by lia. unfold user_of. by rewrite Hu. }
  assert (Z.to_nat (banned_count r) < length (banned_jids r))%nat as Hk by lia.
  destruct (lookup_lt_is_Some_2 _ _ Hk) as [b Eb].
  exists (drop_user j (add_ban (kicked_bare_of u) r)).
  split_and!; [by rewrite list_lookup_alter_eq, Hr, <- Ek| |done| | |].
  - cbn [users drop_user set_users add_ban set_banned_count set_banned_jids].
    by apply (alter_insert (fun _ => participant0)) with (x := u).
  - cbn [banned_jids drop_user set_users add_ban set_banned_count set_banned_jids].
    rewrite list_lookup_alter_eq, Eb. cbn [fmap option_fmap option_map]. f_equal.
    rewrite copy_str_cstr by (rewrite (Forall_lookup_1 _ _ _ _ H64 Eb); lia).
    rewrite kicked_bare_cstr by done. apply take_ge.
    assert (forall l, length (bare_part l) <= length l)%nat as Lb.
    { induction l as [|x l IH]; simpl; [lia|]. destruct (x =? 47); simpl; lia. }
    pose proof (Lb (cstr (pt_jid u))). lia.
  - intros k Hne. cbn [banned_jids drop_user set_users add_ban set_banned_count set_banned_jids].
    by rewrite list_lookup_alter_ne.
  - intros k Hne. by rewrite list_lookup_alter_ne.
Qed.

Lemma muc_ban_takes_effect_witness :
  let rs' := rooms (snd (@handle_muc_admin good_env 0 (ban_request "guest") demo_server)) in
  exists r', rs' !! O = Some r' /\ users r' = <[1%nat := participant0]> (users demo_room) /\
    banned_count r' = banned_count demo_room + 1 /\
    cstr <$> banned_jids r' !! Z.to_nat (banned_count demo_room) =
      Some (bare_part (cstr (pt_jid (occupant "user1@angelic.local" "guest")))) /\
    (forall k, k <> Z.to_nat (banned_count demo_room) -> banned_jids r' !! k = banned_jids demo_room !! k) /\
    (forall k, k <> O -> rs' !! k = rooms demo_server !! k).
Proof.
  apply (muc_ban_takes_effect good_env 0 0 1 (ban_request "guest") demo_server demo_room
           (occupant "user1@angelic.local" "guest")).
  - reflexivity.
  - vm_compute. reflexivity.
  - vm_compute. reflexivity.
  - reflexivity.
  - vm_compute. reflexivity.
  - reflexivity.
  - cbn. lia.
  - reflexivity.
  - apply Forall_replicate. reflexivity.
  - vm_compute. lia.
Defined.

(** No room request checks the rights of its sender: whatever a request
    does to the rooms (kick, ban, destroy, configure), it does for every
    connection alike; here a connection that is in no room bans the owner. *)
Theorem muc_rights_unchecked (env : Env) (ctx ctx' : nat) (stanza : xmpp_stanza_t) (s : srv) :
  rooms (snd (handle_muc_admin ctx stanza s)) = rooms (snd (handle_muc_admin ctx' stanza s)) /\
  rooms (snd (handle_muc_owner ctx stanza s)) = rooms (snd (handle_muc_owner ctx' stanza s)) /\
  (pt_active (user_of (room_of demo_server 0) 0) = 1 /\
   pt_active (user_of (room_of (snd (@handle_muc_admin good_env 0 (ban_request "boss") demo_server)) 0) 0) = 0).
Proof.
  split_and!; [by rewrite !admin_rooms_eq|by rewrite !owner_rooms_eq|reflexivity|vm_compute; reflexivity].
Qed.
