(* ===== verification/Message.v ===== *)
(** Service discovery and messages: [handle_disco_info], [handle_disco_items]
    and [handle_chat_message] of src/xmpp/xmpp_handlers.c. *)

From Stdlib Require Import ZArith Lia String Ascii Bool.
From stdpp Require Import base list numbers option sets.
From S2P Require Import Prelude.
From S2P Require Import Libc.
From S2P Require Import SlotMap.
From S2P Require Import XmppCore.
From S2P Require Import Logic.
From S2P Require Import Persist.
From S2P Require Import Store.
From S2P Require Import Sasl.
From S2P Require Import Iq.
From S2P Require Import Muc.

Open Scope Z_scope.

Definition conference : list Z := str "conference.angelic.local".

(** [char b[64] = {0}; strncpy(b, jid, 63);] and the slash cut off. *)
Definition bare64 (jid : list Z) : list Z := cut_slash (strncpy (zeros 64) jid 63).

(** A session whose address without the resource is [bare]. *)
Definition has_bare (bare : list Z) (c : xmpp_client_ctx_t) : bool :=
  live c && (strcmp bare (bare64 (full_jid c)) =? 0).

(** * Service discovery *)

(** The room name in [handle_disco_info] is left empty when it is too long. *)
Definition info_room_name (to at_sign : list Z) : list Z :=
  let room_len := ptr_diff at_sign to in
  if room_len <? 32 then strncpy (zeros 32) to (Z.to_nat room_len) else zeros 32.

Definition room_info (r : room_t) (to full_jid id name : list Z) : list Z :=
  let anon_feature := if truth (semi_anon r) then str "<feature var='muc_semianonymous'/>"
                      else str "<feature var='muc_nonanonymous'/>" in
  let persist_feat := if truth (persistent r) then str "<feature var='muc_persistent'/>"
                      else str "<feature var='muc_temporary'/>" in
  let mod_feat := if truth (moderated r) then str "<feature var='muc_moderated'/>"
                  else str "<feature var='muc_unmoderated'/>" in
  let open_feat := if truth (members_only r) then str "<feature var='muc_membersonly'/>"
                   else str "<feature var='muc_open'/>" in
  snprintf 1280 (str "<iq type='result' from='%s' to='%s' id='%s'>" ++
                 str "<query xmlns='http://jabber.org/protocol/disco#info'>" ++
                 str "<identity category='conference' type='text' name='%s'/>" ++
                 str "<feature var='http://jabber.org/protocol/muc'/>" ++ str "%s%s%s%s" ++
                 str "</query>" ++ str "</iq>")
    [S_ to; S_ full_jid; S_ id; S_ name; S_ anon_feature; S_ persist_feat; S_ mod_feat; S_ open_feat].

Definition item_not_found (size : Z) (to full_jid id : list Z) : list Z :=
  snprintf size (str "<iq type='error' from='%s' to='%s' id='%s'>" ++ str "<error type='cancel'>" ++
                 str "<item-not-found xmlns='urn:ietf:params:xml:ns:xmpp-stanzas'/>" ++
                 str "</error>" ++ str "</iq>") [S_ to; S_ full_jid; S_ id].

Definition info_result (identity to full_jid id : list Z) : list Z :=
  snprintf 1024 (str "<iq type='result' from='%s' to='%s' id='%s'>" ++
                 str "<query xmlns='http://jabber.org/protocol/disco#info'>" ++ identity ++
                 str "</query>" ++ str "</iq>") [S_ to; S_ full_jid; S_ id].

Section with_env.
Context `{Env}.

(** A capabilities query goes on to the first session of the address. *)
Definition forward_caps (ctx : nat) (stanza : xmpp_stanza_t) : M unit :=
  s ← gets id;
  let c := client_of s ctx in
  match first_index (has_bare (bare64 (st_to stanza))) (client_registry s) with
  | Some i =>
      send_raw i
        (snprintf 1024 (str "<iq type='get' from='%s' to='%s' id='%s'>" ++
                        str "<query xmlns='http://jabber.org/protocol/disco#info'" ++ str " %s/>" ++ str "</iq>")
           [S_ (full_jid c); S_ (full_jid (client_of s i)); S_ (st_id stanza);
            S_ (if deref (st_payload stanza) =? 60 then [] else st_payload stanza)])
  | None =>
      send_raw ctx
        (snprintf 1024 (str "<iq type='error' from='%s' to='%s' id='%s'>" ++
                        str "<error type='cancel' code='503'>" ++ str "<service-unavailable" ++
                        str " xmlns='urn:ietf:params:xml:ns:xmpp-stanzas'/>" ++ str "</error>" ++ str "</iq>")
           [S_ (st_to stanza); S_ (full_jid c); S_ (st_id stanza)])
  end.

Definition handle_disco_info (ctx : nat) (stanza : xmpp_stanza_t) : M unit :=
  s ← gets id;
  let jid := full_jid (client_of s ctx) in
  let to := st_to stanza in
  let id := st_id stanza in
  let at_sign := strchr to (chr "@") in
  match at_sign, strstr to conference with
  | Some a, Some _ =>
      let name := info_room_name to a in
      match find_room (rooms s) name with
      | Some i => send_raw ctx (room_info (room_of s i) to jid id name)
      | None => send_raw ctx (item_not_found 1024 to jid id)
      end
  | _, _ =>
      if strcmp to conference =? 0 then
        send_raw ctx
          (info_result (str "<identity category='conference' type='text' name='chat service'/>" ++
                        str "<feature var='http://jabber.org/protocol/muc'/>") to jid id)
      else if is_Some_b at_sign && negb (is_Some_b (strstr to (str "conference"))) then
        if is_Some_b (strstr (st_payload stanza) (str "node=")) then forward_caps ctx stanza
        else send_raw ctx (info_result (str "<identity category='account' type='registered'/>") to jid id)
      else
        send_raw ctx
          (info_result (str "<identity category='server' type='im' name='unikernel xmpp'/>" ++
                        str "<feature var='http://jabber.org/protocol/muc'/>" ++
                        str "<feature var='jabber:iq:register'/>" ++ str "<feature var='msgoffline'/>") to jid id)
  end.

(** [if (strlen(items) + strlen(item) < 1535) strcat(items, item);] *)
Definition add_item (items item : list Z) : list Z :=
  if (Z.of_nat (strlen items) + Z.of_nat (strlen item) <? 1535) then strcat items item else items.

(** The occupants of a room and the list of rooms, in a 1536-byte array. *)
Definition occupant_items (r : room_t) (to : list Z) : list Z :=
  foldl (fun items u =>
    if pt_active u =? 0 then items
    else add_item items (snprintf 256 (str "<item jid='%s/%s' name='%s'/>") [S_ to; S_ (nick u); S_ (nick u)]))
    (zeros (Z.to_nat 1536)) (users r).

Definition room_items (rs : list room_t) : list Z :=
  foldl (fun items r =>
    if room_active r =? 0 then items
    else add_item items (snprintf 256 (str "<item jid='%s@conference.angelic.local' name='%s'/>")
                           [S_ (room_name r); S_ (room_name r)]))
    (zeros (Z.to_nat 1536)) rs.

Definition items_result (items to full_jid id : list Z) : list Z :=
  snprintf 2048 (str "<iq type='result' from='%s' to='%s' id='%s'>" ++
                 str "<query xmlns='http://jabber.org/protocol/disco#items'>" ++ str "%s" ++
                 str "</query>" ++ str "</iq>") [S_ to; S_ full_jid; S_ id; S_ items].

Definition handle_disco_items (ctx : nat) (stanza : xmpp_stanza_t) : M unit :=
  s ← gets id;
  let jid := full_jid (client_of s ctx) in
  let to := st_to stanza in
  let id := st_id stanza in
  send_raw ctx
    (if is_Some_b (strstr to conference) then
       match strchr to (chr "@") with
       | Some a =>
           if 0 <? ptr_diff a to then
             match find_room (rooms s) (room_part to) with
             | None => item_not_found 2048 to jid id
             | Some i => items_result (occupant_items (room_of s i) to) to jid id
             end
           else items_result (room_items (rooms s)) to jid id
       | None => items_result (room_items (rooms s)) to jid id
       end
     else
       snprintf 2048 (str "<iq type='result' from='%s' to='%s' id='%s'>" ++
                      str "<query xmlns='http://jabber.org/protocol/disco#items'>" ++
                      str "<item jid='conference.angelic.local' name='chatroom service'/>" ++
                      str "</query>" ++ str "</iq>")
         [S_ (if (0 <? strlen to)%nat then to else str "angelic.local"); S_ jid; S_ id]).

(** * Messages to rooms *)

(** The payload as it is when it is an element, in a [body] otherwise. *)
Definition body_format (payload : list Z) : list Z :=
  if deref payload =? 60 then str "%s" else str "<body>%s</body>".

(** The nick a message to one occupant is sent under. *)
Definition pm_sender_nick (r : room_t) (jid : list Z) : list Z :=
  match first_index (fun u => negb (pt_active u =? 0) && (strcmp (pt_jid u) jid =? 0)) (users r) with
  | Some k => strncpy (strncpy (zeros 32) (str "unknown") 32) (nick (user_of r k)) 31
  | None => strncpy (zeros 32) (str "unknown") 32
  end.

(** A message to one occupant. *)
Definition private_message (ctx i : nat) (stanza : xmpp_stanza_t) (to_slash : list Z) : M unit :=
  s ← gets id;
  let c := client_of s ctx in
  let r := room_of s i in
  let to := st_to stanza in
  let target_nick := tail to_slash in
  if has_either (rx_buffer c) (str "type='groupchat'") (qstr "type=`groupchat`") then
    send_raw ctx
      (snprintf 512 (str "<message from='%s' to='%s' type='error' id='%s'>" ++
                     str "<error type='modify' by='%s@conference.angelic.local'>" ++ str "<bad-request" ++
                     str " xmlns='urn:ietf:params:xml:ns:xmpp-stanzas'/>" ++ str "</error>" ++ str "</message>")
         [S_ to; S_ (full_jid c); S_ (st_id stanza); S_ (room_name r)])
  else
    let sender_nick := pm_sender_nick r (full_jid c) in
    let recipient :=
      match first_index (fun u => negb (pt_active u =? 0) && (strcmp (nick u) target_nick =? 0)) (users r) with
      | Some k => find_client_by_jid (client_registry s) (pt_jid (user_of r k))
      | None => None
      end in
    match recipient with
    | None =>
        send_raw ctx
          (snprintf 512 (str "<message from='%s' to='%s' type='error' id='%s'>" ++ str "<error type='cancel'>" ++
                         str "<item-not-found" ++ str " xmlns='urn:ietf:params:xml:ns:xmpp-stanzas'/>" ++
                         str "</error>" ++ str "</message>") [S_ to; S_ (full_jid c); S_ (st_id stanza)])
    | Some t =>
        let broom_len := Z.min 63 (ptr_diff to_slash to) in
        let bare_room := copy_str (uninit 64) to (Z.to_nat broom_len) in
        let '(pm_out, written) :=
          vsnprintf 2400 (str "<message from='%s/%s' to='%s' type='chat' id='%s'>" ++
                          str "<x xmlns='http://jabber.org/protocol/muc#user'/>" ++
                          body_format (st_payload stanza) ++ str "</message>")
            [S_ bare_room; S_ sender_nick; S_ (full_jid (client_of s t)); S_ (st_id stanza);
             S_ (st_payload stanza)] in
        when ((0 <? written) && (written <? 2400)) (send_raw t pm_out)
    end.

(** The [subject] element of a message to the room sets its subject. *)
Definition subject_of (payload : list Z) : option (list Z * Z) :=
  match strstr payload (str "<subject>") with
  | None => None
  | Some p =>
      let p := drop 9 p in
      match strstr p (str "</subject>") with
      | None => None
      | Some stop => Some (p, cap (ptr_diff stop p) 256)
      end
  end.

Definition set_room_subject (i : nat) (stanza : xmpp_stanza_t) : M unit :=
  match subject_of (st_payload stanza) with
  | None => skip
  | Some (p, slen) =>
      upd_room i (fun r => set_subject (copy_str (subject r) p (Z.to_nat slen)) r) ;;
      xmpp_persist_save_rooms
  end.

(** A message to the whole room; the sender's nick is looked up by the address
    without the resource. *)
Definition group_message (ctx i : nat) (stanza : xmpp_stanza_t) : M unit :=
  set_room_subject i stanza ;;
  s ← gets id;
  let c := client_of s ctx in
  let r := room_of s i in
  let ctx_bare := bare64 (full_jid c) in
  let sender_nick :=
    match first_index (fun u => negb (pt_active u =? 0) && (strcmp (pt_jid u) ctx_bare =? 0)) (users r) with
    | Some k => strcpy (strncpy (zeros 32) (str "unknown") 32) (nick (user_of r k))
    | None => strncpy (zeros 32) (str "unknown") 32
    end in
  loop MAX_USERS_PER_ROOM (fun k =>
    s ← gets id;
    let u := user_of (room_of s i) k in
    if pt_active u =? 0 then skip
    else
      match find_client_by_jid (client_registry s) (pt_jid u) with
      | None => skip
      | Some t =>
          let '(gc_response, written) :=
            vsnprintf 2400 (str "<message from='%s/%s' to='%s' type='groupchat' id='%s'>" ++
                            body_format (st_payload stanza) ++ str "</message>")
              [S_ (st_to stanza); S_ sender_nick; S_ (pt_jid u); S_ (st_id stanza); S_ (st_payload stanza)] in
          if (written <? 0) || (2400 <=? written) then skip else send_raw t gc_response
      end).

Definition room_message (ctx : nat) (stanza : xmpp_stanza_t) : M unit :=
  rs ← gets rooms;
  match strchr (st_to stanza) (chr "@") with
  | None => skip
  | Some a =>
      match find_room rs (room_part (st_to stanza)) with
      | None => skip
      | Some i =>
          match strchr a (chr "/") with
          | Some to_slash => private_message ctx i stanza to_slash
          | None => group_message ctx i stanza
          end
      end
  end.

(** * Messages to users *)

Definition chat_text (full_jid to payload : list Z) : list Z :=
  snprintf 2048 (str "<message from='%s' to='%s' type='chat'>" ++ body_format payload ++ str "</message>")
    [S_ full_jid; S_ to; S_ payload].

(** The text goes to every session of the address; whether there was one. *)
Definition deliver (bare_target response : list Z) : M bool :=
  loop_acc MAX_USERS (fun i delivered =>
    ci ← client i;
    if has_bare bare_target ci then send_raw i response ;; mret true else mret delivered) false.

Definition undeliverable (to full_jid : list Z) : list Z :=
  snprintf 512 (str "<message type='error' from='%s' to='%s'>" ++ str "<error type='cancel' code='503'>" ++
                str "<service-unavailable" ++ str " xmlns='urn:ietf:params:xml:ns:xmpp-stanzas'/>" ++
                str "</error>" ++ str "</message>") [S_ to; S_ full_jid].

Definition user_message (ctx : nat) (stanza : xmpp_stanza_t) : M unit :=
  c ← client ctx;
  let response := chat_text (full_jid c) (st_to stanza) (st_payload stanza) in
  let bare_target := bare64 (st_to stanza) in
  delivered ← deliver bare_target response;
  if (delivered : bool) then skip
  else
    store ← gets offline_store;
    full ← (if offline_msg_is_full store (offline_to_user bare_target) then mret true
            else r ← offline_msg_enqueue bare_target (full_jid c) (st_id stanza) (st_payload stanza);
                 mret (negb (r =? 0)));
    when full (send_raw ctx (undeliverable (st_to stanza) (full_jid c))).

Definition handle_chat_message (ctx : nat) (stanza : xmpp_stanza_t) : M unit :=
  if is_Some_b (strstr (st_to stanza) conference) then room_message ctx stanza
  else user_message ctx stanza.

End with_env.

(** * Facts *)

(** The sessions a message goes to, in order, and sending to them. *)
Definition targets (bare : list Z) (s : srv) : list nat :=
  filter (fun i => has_bare bare (client_of s i) = true) (seq 0 MAX_USERS).

Definition send_each `{Env} (l : list nat) (text : list Z) : M unit :=
  foldr (fun i k => send_raw i text ;; k) skip l.

(** What decides whether a connection is a target. *)
Definition addr_view (c : xmpp_client_ctx_t) : option nat * client_state_t * list Z :=
  (pcb c, state c, full_jid c).

Lemma has_bare_view bare c c' : addr_view c' = addr_view c -> has_bare bare c' = has_bare bare c.
Proof. intros [= E1 E2 E3]. unfold has_bare, live. by rewrite E1, E2, E3. Qed.

Lemma deliver_from `{Env} bare text (p : nat -> bool) n i a s :
  (forall k, has_bare bare (client_of s k) = p k) ->
  loop_acc_from i n (fun i delivered =>
    ci ← client i;
    if has_bare bare ci then send_raw i text ;; mret true else mret delivered) a s =
  (a || existsb p (seq i n), snd (send_each (filter (fun k => p k = true) (seq i n)) text s)).
Proof.
  revert i a s; induction n as [|n IH]; intros i a s Hp; [by rewrite orb_false_r|].
  cbn [loop_acc_from seq existsb]. run. run. rewrite client_eq. cbn [fst snd]. rewrite Hp, filter_cons.
  destruct (p i) eqn:Ep.
  - rewrite decide_True by done. rewrite bind_eq, ret_eq. cbn [fst snd].
    rewrite IH.
    + rewrite orb_true_r. cbn [send_each foldr]. rewrite bind_eq. done.
    + intros k. rewrite <- Hp. apply has_bare_view. by apply (keeps_at addr_view), within_send.
  - rewrite decide_False by done. rewrite ret_eq. cbn [fst snd].
    rewrite IH by done. by rewrite orb_false_l.
Qed.

Lemma existsb_filter (p : nat -> bool) l :
  existsb p l = false <-> filter (fun k => p k = true) l = [].
Proof.
  induction l as [|x l IH]; [done|]. cbn [existsb]. rewrite filter_cons. destruct (p x).
  - by rewrite decide_True.
  - by rewrite decide_False.
Qed.

Lemma deliver_eq `{Env} bare text s :
  deliver bare text s =
  (negb (bool_decide (targets bare s = [])), snd (send_each (targets bare s) text s)).
Proof.
  unfold deliver, loop_acc.
  rewrite (deliver_from bare text (fun k => has_bare bare (client_of s k))) by done.
  cbn [orb]. f_equal. unfold targets. symmetry. case_bool_decide as E.
  - apply existsb_filter in E. by rewrite E.
  - destruct (existsb _ _) eqn:Ex; [done|]. apply existsb_filter in Ex. done.
Qed.

(** * Properties *)


Definition chat_stanza (to : string) : xmpp_stanza_t :=
  mk_stanza XMPP_MESSAGE [] (strncpy (zeros 64) (str to) 63) (str "m1" ++ [0]) [] (str "<body>hi</body>" ++ [0]) [] 1.

Definition chat_server : srv := set_offline_store (replicate 2 offline0) (one_client binding_client).


(** A private message in a room always comes from the nick [unknown]: a
    room keeps the addresses of its occupants without the resource, and the
    sender is looked up by the full address. *)
Theorem pm_sender_unknown (r : room_t) (jid : list Z) :
  Forall (fun u => 47 ∉ cstr (pt_jid u)) (users r) -> 47 ∈ cstr jid ->
  cstr (pm_sender_nick r jid) = str "unknown".
Proof.
  intros Hr Hj. unfold pm_sender_nick. destruct (first_index _ (users r)) as [k|] eqn:E; [|reflexivity].
  apply first_index_Some in E as (u & Hu & Hp & _). apply andb_prop in Hp as [_ Hp].
  rewrite strcmp_eqb in Hp. apply bytes_eqb_spec in Hp.
  pose proof (Forall_lookup_1 _ _ _ _ Hr Hu) as Hn. cbv beta in Hn. by rewrite Hp in Hn.
Qed.

Lemma pm_sender_unknown_witness :
  cstr (pm_sender_nick demo_room (str "user1@angelic.local/unikernel-2" ++ [0])) = str "unknown".
Proof.
  apply (pm_sender_unknown demo_room (str "user1@angelic.local/unikernel-2" ++ [0])).
  - apply Forall_lookup. intros k u Hk.
    assert (forallb (fun u => negb (bool_decide (47 ∈ cstr (pt_jid u)))) (users demo_room) = true) as Hall
      by (vm_compute; reflexivity).
    rewrite forallb_forall in Hall. apply list_elem_of_lookup_2 in Hk. apply list_elem_of_In in Hk.
    specialize (Hall u Hk). apply negb_true_iff, bool_decide_eq_false in Hall. done.
  - apply (bool_decide_eq_true_1 _). vm_compute. reflexivity.
Defined.
