(* ===== verification/MucPresence.v ===== *)
(** Joining, leaving and renaming in rooms: [handle_muc_presence] of
    src/xmpp/xmpp_handlers.c. *)

From Stdlib Require Import ZArith Lia String Ascii Bool.
From stdpp Require Import base list numbers option sets.
From S2P Require Import Prelude.
From S2P Require Import Libc.
From S2P Require Import SlotMap.
From S2P Require Import XmppCore.
From S2P Require Import Logic.
From S2P Require Import Persist.
From S2P Require Import Store.
From S2P Require Import Sasl.
From S2P Require Import Iq.
From S2P Require Import Muc.
From S2P Require Import Message.

Open Scope Z_scope.

(** * What happens to a room *)

(** A free slot becomes a room of the sender. *)
Definition open_room (name full_jid : list Z) (r : room_t) : room_t :=
  set_locked 0 (set_semi_anon 1
    (set_creator_jid (cut_slash (copy_str (creator_jid r) full_jid 63))
      (set_room_name (strcpy (room_name r) name) (set_room_active 1 r)))).

Definition has_nick (nickname : list Z) (u : participant_t) : bool :=
  negb (pt_active u =? 0) && (strcmp (nick u) nickname =? 0).

Definition has_jid (jid : list Z) (u : participant_t) : bool :=
  negb (pt_active u =? 0) && (strcmp (pt_jid u) jid =? 0).

Definition nick_taken_by_other (k : nat) (nickname : list Z) (r : room_t) : bool :=
  existsb (fun i => has_nick nickname (user_of r i) && negb (i =? k)%nat) (seq 0 MAX_USERS_PER_ROOM).

Definition occupied (r : room_t) : bool := existsb (fun u => negb (pt_active u =? 0)) (users r).

(** An empty room that is not persistent is given up. *)
Definition close_room (r : room_t) : room_t :=
  if persistent r =? 0 then
    set_members_only 0 (set_moderated 0 (set_persistent 0 (set_banned_count 0
      (set_subject (<[O := 0]> (subject r))
        (set_creator_jid (memset (creator_jid r) 0 64)
          (set_room_name (memset (room_name r) 0 32) (set_room_active 0 r)))))))
  else r.

Definition leave_room (i : nat) (r : room_t) : room_t :=
  let r := drop_user i r in if occupied r then r else close_room r.

Definition rename_user (nickname : list Z) (u : participant_t) : participant_t :=
  set_nick (copy_str (nick u) nickname 31) u.

Definition rename_in (i : nat) (nickname : list Z) (r : room_t) : room_t :=
  set_users (alter (rename_user nickname) i (users r)) r.

(** The slot of a new occupant; the last byte of the nick is left as it is. *)
Definition join_user (nickname full_jid : list Z) (p : option nat) (u : participant_t) : participant_t :=
  mk_participant p (strncpy (nick u) nickname 31) (cut_slash (copy_str (pt_jid u) full_jid 63)) 1.

(** Without a free slot nothing happens. *)
Definition join_room (nickname full_jid : list Z) (p : option nat) (r : room_t) : room_t :=
  match first_index (fun u => pt_active u =? 0) (users r) with
  | Some i => set_users (alter (join_user nickname full_jid p) i (users r)) r
  | None => r
  end.

Definition is_banned (jid : list Z) (r : room_t) : bool :=
  existsb (fun b => strcmp b jid =? 0) (take (Z.to_nat (banned_count r)) (banned_jids r)).

(** * Texts *)

Definition muc_x (inner : list Z) : list Z :=
  str "<x xmlns='http://jabber.org/protocol/muc#user'>" ++ inner ++ str "</x>" ++ str "</presence>".

Definition locked_err (bare_jid nickname full_jid : list Z) : list Z :=
  snprintf 512 (str "<presence type='error' from='%s/%s' to='%s'>" ++ str "<error type='cancel' code='404'>" ++
                str "<item-not-found" ++ str " xmlns='urn:ietf:params:xml:ns:xmpp-stanzas'/>" ++
                str "</error>" ++ str "</presence>") [S_ bare_jid; S_ nickname; S_ full_jid].

Definition leave_msg (bare_jid nickname to : list Z) (self : bool) : list Z :=
  snprintf 1024 (str "<presence type='unavailable' from='%s/%s' to='%s'>" ++
                 muc_x (str "<item affiliation='member' role='none'/>" ++
                        (if self then str "<status code='110'/>" else [])))
    [S_ bare_jid; S_ nickname; S_ to].

Definition avail_msg (bare_jid nickname to inner aff role : list Z) (self : bool) : list Z :=
  snprintf 2400 (str "<presence from='%s/%s' to='%s'>" ++ str "%s" ++
                 muc_x (str "<item affiliation='%s' role='%s'/>" ++
                        (if self then str "<status code='110'/>" else [])))
    [S_ bare_jid; S_ nickname; S_ to; S_ inner; S_ aff; S_ role].

Definition nick_conflict (bare_jid nickname full_jid : list Z) : list Z :=
  snprintf 512 (str "<presence type='error' from='%s/%s' to='%s'>" ++
                str "<x xmlns='http://jabber.org/protocol/muc'/>" ++ str "<error type='cancel'" ++
                str " by='%s'>" ++ str "<conflict" ++ str " xmlns='urn:ietf:params:xml:ns:xmpp-stanzas'/>" ++
                str "</error>" ++ str "</presence>") [S_ bare_jid; S_ nickname; S_ full_jid; S_ bare_jid].

Definition rename_unav (bare_jid old_nick to nickname : list Z) (self : bool) : list Z :=
  snprintf 512 (str "<presence type='unavailable' from='%s/%s' to='%s'>" ++
                muc_x (str "<item affiliation='member' role='participant'" ++ str " nick='%s'/>" ++
                       str "<status code='303'/>" ++ (if self then str "<status code='110'/>" else [])))
    [S_ bare_jid; S_ old_nick; S_ to; S_ nickname].

Definition rename_pres (bare_jid nickname to : list Z) (self : bool) : list Z :=
  snprintf 512 (str "<presence from='%s/%s' to='%s'>" ++
                muc_x (str "<item affiliation='member' role='participant'/>" ++
                       (if self then str "<status code='110'/>" else [])))
    [S_ bare_jid; S_ nickname; S_ to].

Definition ban_err (bare_jid nickname full_jid : list Z) : list Z :=
  snprintf 512 (str "<presence type='error' from='%s/%s' to='%s'>" ++ str "<error type='auth' code='403'>" ++
                str "<forbidden xmlns='urn:ietf:params:xml:ns:xmpp-stanzas'/>" ++ str "</error>" ++
                str "</presence>") [S_ bare_jid; S_ nickname; S_ full_jid].

Definition join_conflict (bare_jid nickname full_jid : list Z) : list Z :=
  snprintf 512 (str "<presence type='error' from='%s/%s' to='%s'>" ++ str "<error type='cancel' code='409'>" ++
                str "<conflict xmlns='urn:ietf:params:xml:ns:xmpp-stanzas'/>" ++ str "</error>" ++
                str "</presence>") [S_ bare_jid; S_ nickname; S_ full_jid].

(** The presence of an occupant, with the address when it may be shown. *)
Definition occupant_pres (bare_jid nickname to jid : list Z) (expose : bool) : list Z :=
  if expose then
    snprintf 1024 (str "<presence from='%s/%s' to='%s'>" ++
                   muc_x (str "<item affiliation='member' role='participant' jid='%s'/>"))
      [S_ bare_jid; S_ nickname; S_ to; S_ jid]
  else
    snprintf 1024 (str "<presence from='%s/%s' to='%s'>" ++
                   muc_x (str "<item affiliation='member' role='participant'/>"))
      [S_ bare_jid; S_ nickname; S_ to].

Definition self_pres (bare_jid nickname full_jid : list Z) (is_new_room : bool) : list Z :=
  snprintf 1024 (str "<presence from='%s/%s' to='%s'>" ++
                 muc_x (if is_new_room
                        then str "<item affiliation='owner' role='moderator'/>" ++
                             str "<status code='110'/>" ++ str "<status code='201'/>"
                        else str "<item affiliation='member' role='participant'/>" ++
                             str "<status code='110'/>"))
    [S_ bare_jid; S_ nickname; S_ full_jid].

Definition subject_msg (bare_jid full_jid subj : list Z) : list Z :=
  snprintf 1024 (str "<message from='%s' to='%s' type='groupchat'>" ++ str "<subject>%s</subject>" ++
                 str "</message>") [S_ bare_jid; S_ full_jid; S_ (or_else subj (str "unikernel lobby"))].

Section with_env.
Context `{Env}.

(** A text for every occupant that has a connection. *)
Definition tell_all (i : nat) (text : participant_t -> list Z) : M unit :=
  loop MAX_USERS_PER_ROOM (fun k =>
    s ← gets id;
    let u := user_of (room_of s i) k in
    if pt_active u =? 0 then skip else send_to_jid (pt_jid u) (text u)).

Definition muc_leave (ctx i : nat) (bare_jid nickname : list Z) : M unit :=
  s ← gets id;
  match first_index (has_nick nickname) (users (room_of s i)) with
  | None => skip
  | Some k =>
      tell_others i k (fun v => leave_msg bare_jid nickname (pt_jid v) false) ;;
      c ← client ctx;
      send_raw ctx (leave_msg bare_jid nickname (full_jid c) true) ;;
      upd_room i (leave_room k) ;;
      when (negb (occupied (drop_user k (room_of s i)))) xmpp_persist_save_rooms
  end.

(** Presence of an occupant (slot [k]) under the nick it already has. *)
Definition muc_available (ctx i k : nat) (stanza : xmpp_stanza_t) (bare_jid nickname : list Z) : M unit :=
  s ← gets id;
  let c := client_of s ctx in
  let r := room_of s i in
  let owner := strcmp (pt_jid (user_of r k)) (creator_jid r) =? 0 in
  tell_all i (fun u =>
    avail_msg bare_jid nickname (pt_jid u) (st_payload stanza)
      (if owner then str "owner" else str "member") (if owner then str "moderator" else str "participant")
      (strcmp (pt_jid u) (full_jid c) =? 0)).

Definition muc_rename (ctx i k : nat) (bare_jid nickname : list Z) : M unit :=
  s ← gets id;
  let c := client_of s ctx in
  let r := room_of s i in
  let old_nick := nick (user_of r k) in
  if nick_taken_by_other k nickname r then send_raw ctx (nick_conflict bare_jid nickname (full_jid c))
  else
    tell_all i (fun u => rename_unav bare_jid old_nick (pt_jid u) nickname (strcmp (pt_jid u) (full_jid c) =? 0)) ;;
    upd_room i (rename_in k nickname) ;;
    tell_all i (fun u => rename_pres bare_jid nickname (pt_jid u) (strcmp (pt_jid u) (full_jid c) =? 0)).

(** The exchange of presences after a join. *)
Definition muc_welcome (ctx i : nat) (bare_jid nickname : list Z) (is_new_room : bool) : M unit :=
  s ← gets id;
  let c := client_of s ctx in
  let self := bare64 (full_jid c) in
  let self_is_owner := strcmp self (creator_jid (room_of s i)) =? 0 in
  loop MAX_USERS_PER_ROOM (fun k =>
    s ← gets id;
    let r := room_of s i in
    let u := user_of r k in
    if (pt_active u =? 0) || (strcmp (pt_jid u) self =? 0) then skip
    else send_raw ctx (occupant_pres bare_jid (nick u) (full_jid c) (pt_jid u)
                         ((semi_anon r =? 0) || self_is_owner))) ;;
  loop MAX_USERS_PER_ROOM (fun k =>
    s ← gets id;
    let r := room_of s i in
    let u := user_of r k in
    if (pt_active u =? 0) || (strcmp (pt_jid u) self =? 0) then skip
    else send_to_jid (pt_jid u)
           (occupant_pres bare_jid nickname (pt_jid u) (full_jid c)
              ((semi_anon r =? 0) || (strcmp (pt_jid u) (creator_jid r) =? 0)))) ;;
  send_raw ctx (self_pres bare_jid nickname (full_jid c) is_new_room) ;;
  s ← gets id;
  send_raw ctx (subject_msg bare_jid (full_jid c) (subject (room_of s i))).

Definition muc_join (ctx i : nat) (bare_jid nickname : list Z) (is_new_room : bool) : M unit :=
  s ← gets id;
  let c := client_of s ctx in
  let r := room_of s i in
  if is_banned (bare64 (full_jid c)) r then send_raw ctx (ban_err bare_jid nickname (full_jid c))
  else if existsb (has_nick nickname) (users r) then send_raw ctx (join_conflict bare_jid nickname (full_jid c))
  else
    upd_room i (join_room nickname (full_jid c) (pcb c)) ;;
    muc_welcome ctx i bare_jid nickname is_new_room.

(** The room of that name, or a new one in a free slot. *)
Definition get_room (ctx : nat) (name : list Z) : M (option (nat * bool)) :=
  s ← gets id;
  match find_room (rooms s) name with
  | Some i => mret (Some (i, false))
  | None =>
      match first_index (fun r => room_active r =? 0) (rooms s) with
      | Some i =>
          upd_room i (open_room name (full_jid (client_of s ctx))) ;;
          xmpp_persist_save_rooms ;;
          mret (Some (i, true))
      | None => mret None
      end
  end.

Definition muc_presence_in (ctx i : nat) (stanza : xmpp_stanza_t) (bare_jid nickname : list Z)
    (is_new_room : bool) : M unit :=
  s ← gets id;
  let c := client_of s ctx in
  let r := room_of s i in
  if truth (locked r) && negb (strcmp (bare64 (full_jid c)) (creator_jid r) =? 0) then
    send_raw ctx (locked_err bare_jid nickname (full_jid c))
  else if decide (st_type stanza = XMPP_PRESENCE_UNAVAILABLE) then muc_leave ctx i bare_jid nickname
  else
    match first_index (has_jid (bare64 (full_jid c))) (users r) with
    | Some k =>
        if strcmp (nick (user_of r k)) nickname =? 0 then muc_available ctx i k stanza bare_jid nickname
        else muc_rename ctx i k bare_jid nickname
    | None => muc_join ctx i bare_jid nickname is_new_room
    end.

Definition handle_muc_presence (ctx : nat) (stanza : xmpp_stanza_t) : M unit :=
  let to := st_to stanza in
  match strchr to (chr "/"), strchr to (chr "@") with
  | Some slash, Some _ =>
      let nickname := copy_str (uninit 32) (tail slash) 31 in
      let bare_jid := copy_str (uninit 64) to (Z.to_nat (Z.min 63 (ptr_diff slash to))) in
      found ← get_room ctx (room_part to);
      match found with
      | None => skip
      | Some (i, is_new_room) => muc_presence_in ctx i stanza bare_jid nickname is_new_room
      end
  | _, _ => skip
  end.

End with_env.

(** * Facts *)

(** What a presence does to its room, for the sender's address and connection:
    the specification. *)
Definition presence_room (unavailable : bool) (nickname full_jid : list Z) (p : option nat) (r : room_t)
  : room_t :=
  if truth (locked r) && negb (strcmp (bare64 full_jid) (creator_jid r) =? 0) then r
  else if unavailable then
    match first_index (has_nick nickname) (users r) with Some k => leave_room k r | None => r end
  else
    match first_index (has_jid (bare64 full_jid)) (users r) with
    | Some k =>
        if strcmp (nick (user_of r k)) nickname =? 0 then r
        else if nick_taken_by_other k nickname r then r
        else rename_in k nickname r
    | None =>
        if is_banned (bare64 full_jid) r then r
        else if existsb (has_nick nickname) (users r) then r
        else join_room nickname full_jid p r
    end.

Definition presence_rooms (unavailable : bool) (name nickname full_jid : list Z) (p : option nat)
    (rs : list room_t) : list room_t :=
  match find_room rs name with
  | Some i => alter (presence_room unavailable nickname full_jid p) i rs
  | None =>
      match first_index (fun r => room_active r =? 0) rs with
      | Some i => alter (fun r => presence_room unavailable nickname full_jid p (open_room name full_jid r)) i rs
      | None => rs
      end
  end.

Section rooms.
Context `{Env}.

Lemma rooms_tell_all i f : within (same rooms) (tell_all i f).
Proof.
  unfold tell_all. pose proof rooms_send_to_jid. within_auto.
Qed.

Lemma rooms_welcome ctx i b n new : within (same rooms) (muc_welcome ctx i b n new).
Proof.
  unfold muc_welcome. pose proof rooms_send_to_jid. pose proof rooms_send. within_auto.
Qed.

Lemma alter_room i f s r :
  rooms s !! i = Some r -> f r = r -> alter f i (rooms s) = rooms s.
Proof. intros Hr Hf. rewrite (alter_insert _ _ _ _ Hr), Hf. by apply list_insert_id. Qed.

Lemma presence_in_rooms ctx i stanza b n new s r :
  rooms s !! i = Some r ->
  let c := client_of s ctx in
  rooms (snd (muc_presence_in ctx i stanza b n new s)) =
  alter (presence_room (bool_decide (st_type stanza = XMPP_PRESENCE_UNAVAILABLE)) n (full_jid c) (pcb c)) i
    (rooms s).
Proof.
  intros Hr c. rewrite (alter_insert _ _ _ _ Hr).
  assert (room_of s i = r) as R by (unfold room_of; by rewrite Hr).
  assert (forall t, rooms t = rooms s -> rooms t = <[i := r]> (rooms s)) as Same.
  { intros t ->. symmetry. by apply list_insert_id. }
  assert (forall (f : room_t -> room_t) t, rooms t = rooms s -> rooms (snd (upd_room i f t)) = <[i := f r]> (rooms s)) as Upd.
  { intros f t Et. rewrite upd_room_rooms, Et. by apply alter_insert. }
  unfold muc_presence_in, presence_room. run. rewrite gets_eq. cbn [fst snd id]. unfold id. rewrite R. fold c.
  destruct (truth (locked r) && _); [apply Same, rooms_send|].
  destruct (decide (st_type stanza = XMPP_PRESENCE_UNAVAILABLE)) as [Eu|Eu].
  - rewrite bool_decide_true by done. unfold muc_leave. run. rewrite gets_eq. cbn [fst snd]. unfold id. rewrite R.
    destruct (first_index (has_nick n) (users r)) as [k|]; [|by apply Same].
    run. run. rewrite client_eq. cbn [fst snd]. run. run.
    match goal with |- rooms (snd (when ?x ?m ?t)) = _ =>
      assert (rooms (snd (when x m t)) = rooms t) as -> by (apply (within_when (same rooms)), rooms_save) end.
    apply Upd. rewrite rooms_send. apply rooms_tell_others.
  - rewrite bool_decide_false by done.
    destruct (first_index (has_jid _) (users r)) as [k|].
    + destruct (strcmp _ n =? 0).
      { unfold muc_available. run. apply Same, rooms_tell_all. }
      unfold muc_rename. run. rewrite gets_eq. cbn [fst snd]. unfold id. rewrite R.
      destruct (nick_taken_by_other k n r); [apply Same, rooms_send|].
      run. run. rewrite rooms_tell_all. apply Upd. apply rooms_tell_all.
    + unfold muc_join. run. rewrite gets_eq. cbn [fst snd]. unfold id. rewrite R. fold c.
      destruct (is_banned _ r); [apply Same, rooms_send|].
      destruct (existsb _ _); [apply Same, rooms_send|].
      run. rewrite rooms_welcome. by apply Upd.
Qed.

Lemma presence_rooms_eq ctx stanza s slash :
  strchr (st_to stanza) (chr "/") = Some slash -> strchr (st_to stanza) (chr "@") <> None ->
  let c := client_of s ctx in
  rooms (snd (handle_muc_presence ctx stanza s)) =
  presence_rooms (bool_decide (st_type stanza = XMPP_PRESENCE_UNAVAILABLE)) (room_part (st_to stanza))
    (copy_str (uninit 32) (tail slash) 31) (full_jid c) (pcb c) (rooms s).
Proof.
  intros Es Ea c. unfold handle_muc_presence. rewrite Es. destruct (strchr _ (chr "@")); [|done].
  run. unfold get_room, presence_rooms. run. rewrite gets_eq. cbn [fst snd]. unfold id.
  destruct (find_room (rooms s) _) as [i|] eqn:Ef.
  - rewrite ret_eq. cbn [fst snd]. apply first_index_Some in Ef as (r & Hr & _).
    by eapply presence_in_rooms.
  - destruct (first_index _ (rooms s)) as [i|] eqn:Ei; [|done].
    apply first_index_Some in Ei as (r & Hr & _). run. run. rewrite ret_eq. cbn [fst snd]. fold c.
    set (s1 := snd (upd_room i _ s)). set (s2 := snd (xmpp_persist_save_rooms s1)).
    assert (rooms s2 = alter (open_room (room_part (st_to stanza)) (full_jid c)) i (rooms s) /\
            client_registry s2 = client_registry s) as [E1 E2].
    { pose proof (within_save_region (fun s => (rooms s, client_registry s)) ltac:(done) ltac:(done)
                    RRooms s1) as W. unfold same in W. cbn [save_region] in W. by injection W. }
    assert (client_of s2 ctx = c) as E3 by (unfold client_of, c; by rewrite E2).
    erewrite presence_in_rooms.
    + rewrite E1, E3. apply alter_alter.
    + rewrite E1, list_lookup_alter_eq, Hr. done.
Qed.

End rooms.

(** ** The occupants *)

Definition nick_slot : Slotted participant_t (list Z) :=
  {| slot_active u := negb (pt_active u =? 0); slot_key u := cstr (nick u) |}.

Definition jid_slot : Slotted participant_t (list Z) :=
  {| slot_active u := negb (pt_active u =? 0); slot_key u := cstr (pt_jid u) |}.

(** The arrays of an occupant have their C sizes, and the last byte of the nick
    is a terminator. *)
Definition occupant_ok (u : participant_t) : Prop :=
  length (nick u) = 32%nat /\ at_ (nick u) 31 = 0 /\ length (pt_jid u) = 64%nat.

(** No two occupants share a nick or an address. *)
Record occupants_ok (r : room_t) : Prop := {
  oc_size : length (users r) = MAX_USERS_PER_ROOM;
  oc_shape : Forall occupant_ok (users r);
  oc_nicks : @unique _ _ nick_slot (users r);
  oc_jids : @unique _ _ jid_slot (users r)
}.

Lemma has_nick_false n u : has_nick n u = false -> pt_active u <> 0 -> cstr (nick u) <> cstr n.
Proof.
  unfold has_nick. intros Hh Ha E. rewrite strcmp_eqb, E, bytes_eqb_refl, andb_true_r in Hh.
  apply negb_false_iff, Z.eqb_eq in Hh. done.
Qed.

Lemma has_jid_false j u : has_jid j u = false -> pt_active u <> 0 -> cstr (pt_jid u) <> cstr j.
Proof.
  unfold has_jid. intros Hh Ha E. rewrite strcmp_eqb, E, bytes_eqb_refl, andb_true_r in Hh.
  apply negb_false_iff, Z.eqb_eq in Hh. done.
Qed.

Lemma at_insert (l : list Z) n : (n < length l)%nat -> at_ (<[n := 0]> l) n = 0.
Proof.
  intros Hn. pose proof (at_lookup (<[n := 0]> l) n) as E. rewrite length_insert in E. specialize (E Hn).
  rewrite list_lookup_insert_eq in E by done. injection E as E. exact (eq_sym E).
Qed.

Lemma cut_slash_length b : length (cut_slash b) = length b.
Proof. unfold cut_slash. destruct (strchr b (chr "/")); [apply length_insert|done]. Qed.

(** The address stored for a new occupant is the one the tests compare with. *)
Lemma joined_jid u full_jid :
  length (pt_jid u) = 64%nat -> cstr (cut_slash (copy_str (pt_jid u) full_jid 63)) = cstr (bare64 full_jid).
Proof.
  intros L. unfold bare64. rewrite !cut_slash_cstr. f_equal.
  rewrite copy_str_cstr by lia. by rewrite strncpy_cstr.
Qed.

Lemma strncpy31_nick u n :
  occupant_ok u -> (length (cstr n) <= 31)%nat -> cstr (strncpy (nick u) n 31) = cstr n.
Proof. intros (_ & Hz & _) Hn. rewrite strncpy_cstr by done. by apply take_ge. Qed.

Lemma at_strncpy31 d n : length d = 32%nat -> at_ d 31 = 0 -> at_ (strncpy d n 31) 31 = 0.
Proof.
  intros Ld Hz.
  pose proof (at_lookup (strncpy d n 31) 31) as E. rewrite strncpy_length in E by lia. specialize (E ltac:(lia)).
  pose proof (at_lookup d 31 ltac:(lia)) as Ed. rewrite Hz in Ed.
  rewrite strncpy_eq, app_assoc in E.
  rewrite lookup_app_r in E by (rewrite length_app, length_take, length_replicate; lia).
  rewrite lookup_drop, length_app, length_take, length_replicate in E.
  replace (31 + (31 - _))%nat with 31%nat in E by lia. rewrite Ed in E. injection E as E.
  rewrite strncpy_eq, app_assoc. exact (eq_sym E).
Qed.

Lemma drop_user_ok k r : occupants_ok r -> occupants_ok (drop_user k r).
Proof.
  intros [H1 H2 H3 H4]. split; cbn [users drop_user set_users].
  - by rewrite length_alter.
  - apply Forall_alter; [done|]. intros u _ _. split_and!; reflexivity.
  - apply unique_alter; [done|]. intros e j b _ Ha. discriminate Ha.
  - apply unique_alter; [done|]. intros e j b _ Ha. discriminate Ha.
Qed.

Lemma same_users_ok r r' : users r' = users r -> occupants_ok r -> occupants_ok r'.
Proof. intros E [H1 H2 H3 H4]. split; by rewrite E. Qed.

Lemma leave_room_ok k r : occupants_ok r -> occupants_ok (leave_room k r).
Proof.
  intros Hr. unfold leave_room. pose proof (drop_user_ok k r Hr) as Hd.
  destruct (occupied _); [done|]. apply (same_users_ok (drop_user k r)); [|done].
  unfold close_room. by destruct (persistent _ =? 0).
Qed.

Lemma rename_ok k n r :
  occupants_ok r -> (length (cstr n) <= 31)%nat -> nick_taken_by_other k n r = false ->
  occupants_ok (rename_in k n r).
Proof.
  intros [H1 H2 H3 H4] Hn Ht. split; cbn [users rename_in set_users].
  - by rewrite length_alter.
  - apply Forall_alter; [done|]. intros u _ (L1 & L2 & L3). split_and!; cbn [nick pt_jid rename_user set_nick].
    + rewrite copy_str_length by lia. done.
    + unfold copy_str. apply at_insert. rewrite strncpy_length by lia. lia.
    + done.
  - apply unique_alter; [done|]. intros e j b He _ Hj Hb Ha. cbn [slot_key nick_slot nick rename_user set_nick].
    destruct (Forall_lookup_1 _ _ _ _ H2 He) as (L1 & _ & _).
    rewrite copy_str_cstr by lia. rewrite take_ge by lia.
    apply has_nick_false; [|by apply negb_true_iff, Z.eqb_neq in Ha].
    unfold nick_taken_by_other in Ht.
    destruct (has_nick n b) eqn:Eb; [|done]. exfalso. rewrite <- not_true_iff_false in Ht. apply Ht.
    apply existsb_exists. exists j. split.
    + apply in_seq. apply lookup_lt_Some in Hb. lia.
    + unfold user_of. rewrite Hb. cbn [default]. unfold id. rewrite Eb. cbn [andb].
      apply negb_true_iff, Nat.eqb_neq. done.
  - apply unique_alter; [done|]. intros e j b He Ha Hj Hb Hab Ek.
    apply Hj. symmetry. eapply H4; [exact He|exact Hb|exact Ha|exact Hab|]. by symmetry.
Qed.

Lemma join_ok n full_jid p r :
  occupants_ok r -> (length (cstr n) <= 31)%nat ->
  existsb (has_nick n) (users r) = false -> first_index (has_jid (bare64 full_jid)) (users r) = None ->
  occupants_ok (join_room n full_jid p r).
Proof.
  intros Hr Hn Hex Hj0. unfold join_room. destruct (first_index (fun u => _) (users r)) as [i|]; [|done].
  destruct Hr as [H1 H2 H3 H4].
  split; cbn [users set_users].
  - by rewrite length_alter.
  - apply Forall_alter; [done|]. intros u _ (L1 & L2 & L3). split_and!; cbn [nick pt_jid join_user].
    + by rewrite strncpy_length by lia.
    + by apply at_strncpy31.
    + rewrite cut_slash_length. by rewrite copy_str_length by lia.
  - apply unique_alter; [done|]. intros e j b He _ Hj Hb Ha. cbn [slot_key nick_slot nick join_user].
    rewrite strncpy31_nick; [|by eapply Forall_lookup_1|done].
    apply has_nick_false; [|by apply negb_true_iff, Z.eqb_neq in Ha].
    destruct (has_nick n b) eqn:Eb; [|done]. exfalso. rewrite <- not_true_iff_false in Hex. apply Hex.
    apply existsb_exists. exists b. split; [|done]. apply list_elem_of_In. by eapply list_elem_of_lookup_2.
  - apply unique_alter; [done|]. intros e j b He _ Hj Hb Ha. cbn [slot_key jid_slot pt_jid join_user].
    destruct (Forall_lookup_1 _ _ _ _ H2 He) as (_ & _ & L3). rewrite joined_jid by done.
    rewrite first_index_None in Hj0. apply has_jid_false; [by eapply Hj0|by apply negb_true_iff, Z.eqb_neq in Ha].
Qed.

Lemma presence_room_ok un n full_jid p r :
  (length (cstr n) <= 31)%nat -> occupants_ok r -> occupants_ok (presence_room un n full_jid p r).
Proof.
  intros Hn Hr. unfold presence_room. destruct (_ && _); [done|]. destruct un.
  - destruct (first_index _ _); [by apply leave_room_ok|done].
  - destruct (first_index _ _) as [k|] eqn:Ej.
    + destruct (_ =? 0); [done|]. destruct (nick_taken_by_other k n r) eqn:Et; [done|]. by apply rename_ok.
    + destruct (is_banned _ _); [done|]. destruct (existsb _ _) eqn:Ee; [done|]. by apply join_ok.
Qed.

Lemma presence_rooms_ok un name n full_jid p rs :
  (length (cstr n) <= 31)%nat -> Forall occupants_ok rs ->
  Forall occupants_ok (presence_rooms un name n full_jid p rs).
Proof.
  intros Hn Hrs. unfold presence_rooms. destruct (find_room rs name) as [i|].
  - apply Forall_alter; [done|]. intros r _ Hr. by apply presence_room_ok.
  - destruct (first_index _ rs) as [i|]; [|done]. apply Forall_alter; [done|]. intros r _ Hr.
    apply presence_room_ok; [done|]. by apply (same_users_ok r).
Qed.

(** * Properties *)

(** In every room no two occupants share a nick and no user is twice in a
    room, whatever presences arrive: joining, leaving and renaming keep the
    invariant of the occupant table. *)
Theorem muc_occupants_unique (env : Env) (ctx : nat) (stanza : xmpp_stanza_t) (s : srv) :
  length (uninit 32) = 32%nat -> Forall occupants_ok (rooms s) ->
  Forall occupants_ok (rooms (snd (handle_muc_presence ctx stanza s))).
Proof.
  intros Hu Hrs. destruct (strchr (st_to stanza) (chr "/")) as [slash|] eqn:Es.
  2: { unfold handle_muc_presence. by rewrite Es. }
  destruct (strchr (st_to stanza) (chr "@")) as [a|] eqn:Ea.
  2: { unfold handle_muc_presence. by rewrite Es, Ea. }
  rewrite (presence_rooms_eq ctx stanza s slash); [|done|by rewrite Ea].
  apply presence_rooms_ok; [|done].
  rewrite copy_str_cstr by (rewrite Hu; lia). rewrite length_take. lia.
Qed.

Lemma participant0_ok : occupant_ok participant0.
Proof. split_and!; reflexivity. Qed.

Lemma room0_occupants : occupants_ok room0.
Proof.
  split; cbn [users room0].
  - apply length_replicate.
  - apply Forall_replicate, participant0_ok.
  - by apply unique_replicate.
  - by apply unique_replicate.
Qed.

(** The presence a client sends to enter or leave a room. *)
Definition room_presence (t : stanza_type_t) (to : string) : xmpp_stanza_t :=
  mk_stanza t [] (strncpy (zeros 64) (str to) 63) (str "p1" ++ [0]) [] [0] [] 1.

Definition session_client (jid : string) : xmpp_client_ctx_t :=
  set_state STATE_SESSION (set_full_jid (strncpy (zeros 64) (str jid) 63) binding_client).

Definition empty_server : srv :=
  set_rooms (replicate 4 room0) (one_client (session_client "user2@angelic.local/unikernel-3")).

Lemma muc_occupants_unique_witness :
  Forall occupants_ok (rooms (snd (@handle_muc_presence good_env 0
    (room_presence XMPP_PRESENCE "lobby@conference.angelic.local/neo") empty_server))).
Proof.
  apply (muc_occupants_unique good_env 0
           (room_presence XMPP_PRESENCE "lobby@conference.angelic.local/neo") empty_server).
  - reflexivity.
  - apply Forall_replicate, room0_occupants.
Defined.

(** A banned user stays out: a join by an address on the ban list of an
    unlocked room changes no room, and the sender is told it is forbidden. *)
Theorem muc_banned_stay_out (env : Env) (ctx i : nat) (stanza : xmpp_stanza_t) (s : srv) (r : room_t)
    (slash : list Z) :
  strchr (st_to stanza) (chr "/") = Some slash -> strchr (st_to stanza) (chr "@") <> None ->
  st_type stanza <> XMPP_PRESENCE_UNAVAILABLE ->
  find_room (rooms s) (room_part (st_to stanza)) = Some i -> rooms s !! i = Some r -> locked r = 0 ->
  first_index (has_jid (bare64 (full_jid (client_of s ctx)))) (users r) = None ->
  is_banned (bare64 (full_jid (client_of s ctx))) r = true ->
  let s' := snd (handle_muc_presence ctx stanza s) in
  rooms s' = rooms s /\
  s' = snd (send_raw ctx (ban_err (copy_str (uninit 64) (st_to stanza)
                                     (Z.to_nat (Z.min 63 (ptr_diff slash (st_to stanza)))))
                            (copy_str (uninit 32) (tail slash) 31) (full_jid (client_of s ctx))) s).
Proof.
  intros Es Ea Ht Hf Hr Hl Hj Hb s'.
  assert (s' = snd (send_raw ctx (ban_err (copy_str (uninit 64) (st_to stanza)
            (Z.to_nat (Z.min 63 (ptr_diff slash (st_to stanza))))) (copy_str (uninit 32) (tail slash) 31)
            (full_jid (client_of s ctx))) s)) as E.
  { unfold s', handle_muc_presence. rewrite Es. destruct (strchr _ (chr "@")); [|done].
    run. unfold get_room. run. rewrite gets_eq. cbn [fst snd]. unfold id. rewrite Hf, ret_eq. cbn [fst snd].
    assert (room_of s i = r) as R by (unfold room_of; by rewrite Hr).
    unfold muc_presence_in. run. rewrite gets_eq. cbn [fst snd]. unfold id. rewrite R, Hl.
    change (truth 0) with false. cbn [andb]. rewrite decide_False by done. rewrite Hj.
    unfold muc_join. run. rewrite gets_eq. cbn [fst snd]. unfold id. by rewrite R, Hb. }
  split; [|done]. rewrite E. apply rooms_send.
Qed.

Definition banned_server : srv :=
  set_rooms (add_ban (str "user2@angelic.local" ++ [0]) demo_room :: replicate 3 room0)
    (one_client (session_client "user2@angelic.local/unikernel-3")).

Lemma muc_banned_stay_out_witness :
  let stanza := room_presence XMPP_PRESENCE "lobby@conference.angelic.local/neo" in
  let s' := snd (@handle_muc_presence good_env 0 stanza banned_server) in
  rooms s' = rooms banned_server /\
  s' = snd (@send_raw good_env 0
              (ban_err (copy_str (zeros 64) (st_to stanza) (Z.to_nat (Z.min 63 30)))
                 (copy_str (zeros 32) (str "neo" ++ zeros 30) 31)
                 (full_jid (client_of banned_server 0))) banned_server).
Proof.
  apply (muc_banned_stay_out good_env 0 0
           (room_presence XMPP_PRESENCE "lobby@conference.angelic.local/neo") banned_server
           (add_ban (str "user2@angelic.local" ++ [0]) demo_room) (chr "/" :: str "neo" ++ zeros 30)).
  - vm_compute. reflexivity.
  - vm_compute. discriminate.
  - discriminate.
  - vm_compute. reflexivity.
  - reflexivity.
  - reflexivity.
  - vm_compute. reflexivity.
  - vm_compute. reflexivity.
Defined.

(** Leaving is not checked against the sender: in an unlocked room an
    unavailable presence removes the occupant of the nick it names, whoever
    sends it; here a user who is in no room puts the guest out. *)
Theorem muc_leave_unchecked (n jid jid' : list Z) (p p' : option nat) (r : room_t) :
  locked r = 0 ->
  presence_room true n jid p r = presence_room true n jid' p' r /\
  let before := set_rooms (demo_room :: replicate 3 room0)
                  (one_client (session_client "user2@angelic.local/unikernel-3")) in
  let after := snd (@handle_muc_presence good_env 0
    (room_presence XMPP_PRESENCE_UNAVAILABLE "lobby@conference.angelic.local/guest") before) in
  pt_active (user_of (room_of before 0) 1) = 1 /\ pt_active (user_of (room_of after 0) 1) = 0.
Proof.
  intros Hl. split; [|vm_compute; split; reflexivity].
  unfold presence_room. by rewrite Hl.
Qed.

Lemma muc_leave_unchecked_witness :
  presence_room true (str "guest") (str "a@b") None demo_room =
  presence_room true (str "guest") (str "admin@angelic.local/x") None demo_room /\
  let before := set_rooms (demo_room :: replicate 3 room0)
                  (one_client (session_client "user2@angelic.local/unikernel-3")) in
  let after := snd (@handle_muc_presence good_env 0
    (room_presence XMPP_PRESENCE_UNAVAILABLE "lobby@conference.angelic.local/guest") before) in
  pt_active (user_of (room_of before 0) 1) = 1 /\ pt_active (user_of (room_of after 0) 1) = 0.
Proof.
  apply (muc_leave_unchecked (str "guest") (str "a@b") (str "admin@angelic.local/x") None None demo_room).
  reflexivity.
Defined.
