(* ===== verification/Presence.v ===== *)
(** Presence and subscriptions: [subscription_update_roster] and
    [handle_broadcast_presence] of src/xmpp/xmpp_handlers.c. *)

From Stdlib Require Import ZArith Lia String Ascii Bool.
From stdpp Require Import base list numbers option sets.
From S2P Require Import Prelude.
From S2P Require Import Libc.
From S2P Require Import SlotMap.
From S2P Require Import XmppCore.
From S2P Require Import Logic.
From S2P Require Import Persist.
From S2P Require Import Store.
From S2P Require Import Sasl.
From S2P Require Import Iq.
From S2P Require Import Muc.
From S2P Require Import Message.

Open Scope Z_scope.

(** * Subscriptions *)

(** The strings [none], [to], [from] and [both] the code compares. *)
Inductive sub_t := SubNone | SubTo | SubFrom | SubBoth.

#[export] Instance sub_eq_dec : EqDecision sub_t.
Proof. solve_decision. Defined.

Definition sub_name (s : sub_t) : list Z :=
  match s with
  | SubNone => str "none" | SubTo => str "to" | SubFrom => str "from" | SubBoth => str "both"
  end.

(** The state a roster item records. *)
Definition sub_of_item (item : list Z) : sub_t :=
  if has_either item (str "subscription='both'") (qstr "subscription=`both`") then SubBoth
  else if has_either item (str "subscription='to'") (qstr "subscription=`to`") then SubTo
  else if has_either item (str "subscription='from'") (qstr "subscription=`from`") then SubFrom
  else SubNone.

(** The transition, for a presence of type [ptype] that goes out from, or comes
    in for, the owner of the roster. *)
Definition next_sub (ptype : stanza_type_t) (inbound : bool) (cur : sub_t) : sub_t :=
  match ptype with
  | XMPP_PRESENCE_SUBSCRIBED =>
      if inbound then match cur with SubNone => SubTo | SubFrom => SubBoth | s => s end
      else match cur with SubNone => SubFrom | SubTo => SubBoth | s => s end
  | XMPP_PRESENCE_UNSUBSCRIBED =>
      if inbound then match cur with SubBoth => SubFrom | SubTo => SubNone | s => s end
      else match cur with SubBoth => SubTo | SubFrom => SubNone | s => s end
  | _ => cur
  end.

(** An attribute value of at most 63 bytes, in a 64-byte array; the byte after
    [key] is taken for the quote. *)
Definition attr_value (item key : list Z) : option (list Z) :=
  match strstr item key with
  | None => None
  | Some p =>
      let p := drop (length key) p in
      let qc := deref p in
      let p := tail p in
      match strchr p qc with
      | None => None
      | Some stop => Some (strncpy (zeros 64) p (Z.to_nat (cap (ptr_diff stop p) 64)))
      end
  end.

(** Its address: that of the old item, or the contact's. *)
Definition sub_jid (old_item contact_jid : list Z) : list Z :=
  let jid_val := default (zeros 64) (attr_value old_item (str "jid=")) in
  if deref jid_val =? 0 then strncpy jid_val contact_jid 63 else jid_val.

(** Its name attribute, when the old item has one. *)
Definition sub_name_attr (old_item : list Z) : list Z :=
  match attr_value old_item (str "name=") with
  | Some name_val => snprintf 128 (str " name='%s'") [S_ name_val]
  | None => []
  end.

(** The item written back. *)
Definition sub_item (old_item contact_jid : list Z) (new_sub : sub_t) : list Z :=
  snprintf 256 (str "<item jid='%s'%s subscription='%s'/>")
    [S_ (sub_jid old_item contact_jid); S_ (sub_name_attr old_item); S_ (sub_name new_sub)].

(** A new slot before the item is written. *)
Definition sub_slot (e : roster_entry_t) (owner contact : list Z) : roster_entry_t :=
  mk_roster (copy_str (re_username e) owner 31) (copy_str (re_jid e) contact 63) (<[O := 0]> (item_xml e)) 1.

Definition sub_write (e : roster_entry_t) (contact : list Z) (new_sub : sub_t) : roster_entry_t :=
  set_item_xml (copy_str (item_xml e) (sub_item (item_xml e) contact new_sub) 255) e.

(** [subscription_update_roster] on the array: the new array and the item, or
    [None] when it returns early. *)
Definition sub_update (roster : list roster_entry_t) (owner contact : list Z) (inbound : bool)
    (ptype : stanza_type_t) : option (list roster_entry_t * list Z) :=
  match first_index (roster_match owner contact) roster with
  | Some i =>
      let e := default roster0 (roster !! i) in
      let cur := sub_of_item (item_xml e) in
      let new := next_sub ptype inbound cur in
      if decide (new = cur) then None
      else Some (alter (fun e => sub_write e contact new) i roster, sub_item (item_xml e) contact new)
  | None =>
      let new := next_sub ptype inbound SubNone in
      if decide (new = SubNone) then None
      else
        match first_index (fun e => re_active e =? 0) roster with
        | None => None
        | Some i =>
            let e := sub_slot (default roster0 (roster !! i)) owner contact in
            Some (alter (fun e => sub_write (sub_slot e owner contact) contact new) i roster,
                  sub_item (item_xml e) contact new)
        end
  end.

Section with_env.
Context `{Env}.

Definition subscription_update_roster (owner contact : list Z) (inbound : bool) (ptype : stanza_type_t)
  : M unit :=
  roster ← gets roster_store;
  match sub_update roster owner contact inbound ptype with
  | None => skip
  | Some (roster, new_xml) =>
      modify (set_roster_store roster) ;;
      xmpp_persist_save_roster ;;
      loop MAX_USERS (fun i =>
        ci ← client i;
        if negb (live ci) then skip
        else if negb (strcmp (username ci) owner =? 0) then skip
        else send_raw i
               (snprintf 512 (str "<iq type='set' to='%s'>" ++ str "<query xmlns='jabber:iq:roster'>" ++
                              str "%s" ++ str "</query>" ++ str "</iq>") [S_ (full_jid ci); S_ new_xml]))
  end.

(** * Presence *)

Definition presence_text (size : Z) (from to payload : list Z) : list Z :=
  if negb (deref payload =? 0) then
    snprintf size (str "<presence from='%s' to='%s'>%s</presence>") [S_ from; S_ to; S_ payload]
  else snprintf size (str "<presence from='%s' to='%s'/>") [S_ from; S_ to].

Definition presence_probe (ctx : nat) (stanza : xmpp_stanza_t) : M unit :=
  loop MAX_USERS (fun i =>
    c ← client ctx; ci ← client i;
    if has_bare (bare64 (st_to stanza)) ci then
      send_raw ctx (presence_text 512 (full_jid ci) (full_jid c) (presence_payload ci))
    else skip).

Definition ptype_name (t : stanza_type_t) : list Z :=
  match t with
  | XMPP_PRESENCE_SUBSCRIBE => str "subscribe"
  | XMPP_PRESENCE_SUBSCRIBED => str "subscribed"
  | XMPP_PRESENCE_UNSUBSCRIBE => str "unsubscribe"
  | _ => str "unsubscribed"
  end.

Definition is_subscription (t : stanza_type_t) : bool :=
  match t with
  | XMPP_PRESENCE_SUBSCRIBE | XMPP_PRESENCE_SUBSCRIBED | XMPP_PRESENCE_UNSUBSCRIBE
  | XMPP_PRESENCE_UNSUBSCRIBED => true
  | _ => false
  end.

Definition presence_subscription (ctx : nat) (stanza : xmpp_stanza_t) : M unit :=
  c ← client ctx;
  let ptype := ptype_name (st_type stanza) in
  let bare_from := bare64 (full_jid c) in
  let bare_target := bare64 (st_to stanza) in
  delivered ← loop_acc MAX_USERS (fun i delivered =>
    ci ← client i;
    if has_bare bare_target ci then
      send_raw i (snprintf 512 (str "<presence type='%s' from='%s' to='%s'/>")
                    [S_ ptype; S_ bare_from; S_ (full_jid ci)]) ;;
      mret true
    else mret delivered) false;
  when (negb delivered) (pending_sub_enqueue ptype bare_from (offline_to_user bare_target)) ;;
  when (bool_decide (st_type stanza = XMPP_PRESENCE_SUBSCRIBED) ||
        bool_decide (st_type stanza = XMPP_PRESENCE_UNSUBSCRIBED))
    (subscription_update_roster (offline_to_user bare_from) bare_target false (st_type stanza) ;;
     subscription_update_roster (offline_to_user bare_target) bare_from true (st_type stanza)).

(** Presence for one address. *)
Definition presence_directed (ctx : nat) (stanza : xmpp_stanza_t) : M unit :=
  loop MAX_USERS (fun i =>
    c ← client ctx; ci ← client i;
    if has_bare (bare64 (st_to stanza)) ci then
      send_raw i (presence_text 512 (full_jid c) (full_jid ci) (presence_payload c))
    else skip).

(** Presence for every session. *)
Definition presence_all (ctx : nat) (stanza : xmpp_stanza_t) : M unit :=
  loop MAX_USERS (fun i =>
    ci ← client i;
    if negb (live ci) then skip
    else if decide (st_type stanza = XMPP_PRESENCE_UNAVAILABLE) then
      c ← client ctx;
      send_raw i (snprintf 1024 (str "<presence from='%s' to='%s' type='unavailable'>" ++
                                 str "<status>Offline</status>" ++ str "</presence>")
                    [S_ (full_jid c); S_ (full_jid ci)])
    else
      when (negb (deref (st_payload stanza) =? 0))
        (upd_client ctx (fun c =>
           set_presence_payload (copy_str (presence_payload c) (st_payload stanza) 1023) c)) ;;
      c ← client ctx;
      send_raw i
        (if negb (deref (presence_payload c) =? 0) then
           snprintf 1024 (str "<presence from='%s' to='%s' id='%s'>%s</presence>")
             [S_ (full_jid c); S_ (full_jid ci); S_ (st_id stanza); S_ (presence_payload c)]
         else
           snprintf 1024 (str "<presence from='%s' to='%s' id='%s'/>")
             [S_ (full_jid c); S_ (full_jid ci); S_ (st_id stanza)])).

Definition handle_broadcast_presence (ctx : nat) (stanza : xmpp_stanza_t) : M unit :=
  c ← client ctx;
  when (negb (state_lt (state c) STATE_SESSION) && state_lt (state c) STATE_READY)
    (upd_client ctx (set_state STATE_READY)) ;;
  if decide (st_type stanza = XMPP_PRESENCE_PROBE) then presence_probe ctx stanza
  else if is_subscription (st_type stanza) then presence_subscription ctx stanza
  else if negb (bool_decide (st_type stanza = XMPP_PRESENCE_UNAVAILABLE)) &&
          negb (deref (st_to stanza) =? 0) && negb (is_Some_b (strstr (st_to stanza) conference)) then
    presence_directed ctx stanza
  else presence_all ctx stanza.

End with_env.

(** * Facts *)

(** The two directions of a subscription: the owner sees the contact, the
    contact sees the owner. *)
Definition sub_to (s : sub_t) : bool := match s with SubTo | SubBoth => true | _ => false end.
Definition sub_from (s : sub_t) : bool := match s with SubFrom | SubBoth => true | _ => false end.

(** ** Reading back what was written *)

(** A needle with an equals sign, in a text cut at its first equals sign: it ends
    the left part and starts the right one, or lies in the right one. *)
Lemma occurs_eq_split (n t a b p q : list Z) :
  61 ∉ n -> 61 ∉ a -> p ++ (n ++ 61 :: t) ++ q = a ++ 61 :: b ->
  (exists p', a = p' ++ n /\ b = t ++ q) \/ (exists p', p' ++ (n ++ 61 :: t) ++ q = b).
Proof.
  revert a; induction p as [|x p IH]; intros a Hn Ha E.
  - left. exists []. simpl in *. revert a Ha E. induction n as [|y n IHn]; intros a Ha E.
    + destruct a as [|z a]; simplify_eq/=; [done|set_solver].
    + destruct a as [|z a]; simpl in E; injection E as -> E; [set_solver|].
      destruct (IHn ltac:(set_solver) a ltac:(set_solver) E) as [-> ->]. done.
  - destruct a as [|z a]; simpl in E; injection E as -> E.
    + right. by exists p.
    + destruct (IH a Hn ltac:(set_solver) E) as [(p' & -> & ->)|(p' & Ep)].
      * left. by exists (z :: p').
      * right. by exists p'.
Qed.

Lemma occurs_needs_eq (n t b p q : list Z) : 61 ∉ b -> p ++ (n ++ 61 :: t) ++ q = b -> False.
Proof. intros Hb <-. apply Hb. set_solver. Qed.

(** The text of an item with address [j], name attribute [na] and state [x]. *)
Definition item_text (j na x : list Z) : list Z :=
  str "<item jid='" ++ j ++ str "'" ++ na ++ str " subscription='" ++ x ++ str "'/>".

Definition name_text (name : option (list Z)) : list Z :=
  match name with Some v => str " name='" ++ v ++ str "'" | None => [] end.

(** A needle [subscription=t] occurs in an item exactly where its state starts. *)
Lemma item_occurs (j x t p q : list Z) (name : option (list Z)) :
  61 ∉ j -> 61 ∉ default [] name -> 61 ∉ x ->
  p ++ (str "subscription" ++ 61 :: t) ++ q = item_text j (name_text name) x ->
  str "'" ++ x ++ str "'/>" = t ++ q.
Proof.
  intros Hj Hna Hx E.
  assert (61 ∉ str "subscription") as Hs by (apply (bool_decide_eq_true_1 _); reflexivity).
  assert (forall l, 61 ∉ l -> 61 ∉ str "'" ++ l ++ str "' name") as Hmid.
  { intros l Hl. rewrite !not_elem_of_app. split_and!; [|done|]; apply (bool_decide_eq_true_1 _); reflexivity. }
  assert (forall l, 61 ∉ l -> 61 ∉ str "'" ++ l ++ str "' subscription") as Hmid'.
  { intros l Hl. rewrite !not_elem_of_app. split_and!; [|done|]; apply (bool_decide_eq_true_1 _); reflexivity. }
  assert (61 ∉ str "'" ++ x ++ str "'/>") as Hlast.
  { rewrite !not_elem_of_app. split_and!; [|done|]; apply (bool_decide_eq_true_1 _); reflexivity. }
  unfold item_text in E.
  assert (exists b, str "<item jid='" ++ j ++ str "'" ++ name_text name ++ str " subscription='" ++ x ++ str "'/>"
            = str "<item jid" ++ 61 :: b /\
          b = str "'" ++ j ++ str "'" ++ name_text name ++ str " subscription='" ++ x ++ str "'/>") as (b & E1 & Eb).
  { eexists. split; [|reflexivity]. reflexivity. }
  rewrite E1 in E. assert (61 ∉ str "<item jid") as Hi by (apply (bool_decide_eq_true_1 _); reflexivity).
  destruct (occurs_eq_split _ _ _ _ _ _ Hs Hi E) as [(p' & Ea & _)|(p' & E')].
  { exfalso. apply (f_equal length) in Ea. rewrite length_app in Ea.
    change (length (str "<item jid")) with 9%nat in Ea. change (length (str "subscription")) with 12%nat in Ea. lia. }
  clear E. rename E' into E. rewrite Eb in E. clear E1 Eb b. destruct name as [v|]; cbn [name_text default] in *.
  - replace (str "'" ++ j ++ str "'" ++ (str " name='" ++ v ++ str "'") ++ str " subscription='" ++ x ++ str "'/>")
      with ((str "'" ++ j ++ str "' name") ++ 61 :: (str "'" ++ v ++ str "' subscription") ++ 61 ::
            str "'" ++ x ++ str "'/>") in E
      by (rewrite <- !app_assoc; reflexivity).
    destruct (occurs_eq_split _ _ _ _ _ _ Hs (Hmid j Hj) E) as [(p'' & Ea & _)|(p'' & E')].
    { exfalso. apply (f_equal (@rev Z)) in Ea. rewrite !rev_app_distr in Ea. discriminate Ea. }
    destruct (occurs_eq_split _ _ _ _ _ _ Hs (Hmid' v Hna) E') as [(p3 & _ & Eb)|(p3 & E3)]; [done|].
    exfalso. exact (occurs_needs_eq _ _ _ _ _ Hlast E3).
  - replace (str "'" ++ j ++ str "'" ++ [] ++ str " subscription='" ++ x ++ str "'/>")
      with ((str "'" ++ j ++ str "' subscription") ++ 61 :: str "'" ++ x ++ str "'/>") in E
      by (rewrite <- !app_assoc; reflexivity).
    destruct (occurs_eq_split _ _ _ _ _ _ Hs (Hmid' j Hj) E) as [(p3 & _ & Eb)|(p3 & E3)]; [done|].
    exfalso. exact (occurs_needs_eq _ _ _ _ _ Hlast E3).
Qed.

Lemma found_iff (h n : list Z) :
  deref n <> 0 -> is_Some_b (strstr h n) = true <-> exists j, occurs_at (cstr n) (cstr h) j.
Proof.
  intros Hn. destruct (strstr h n) as [r|] eqn:E.
  - split; [|done]. intros _. apply strstr_Some in E as (pre & _ & Ho & _); eauto.
  - split; [done|]. intros [j Hj]. by destruct (strstr_None h n E j).
Qed.

Lemma found_cstr (h n : list Z) :
  deref n <> 0 -> is_Some_b (strstr (cstr h) n) = is_Some_b (strstr h n).
Proof. intros Hn. apply eq_true_iff_eq. by rewrite !found_iff, cstr_idemp. Qed.

Lemma sub_of_item_cstr (h : list Z) : sub_of_item (cstr h) = sub_of_item h.
Proof. unfold sub_of_item, has_either. by rewrite !found_cstr. Qed.

(** The attribute that states [t], in either quotes, is found exactly when the
    item's state is [t]. *)
Lemma has_sub (h j : list Z) (name : option (list Z)) (s t : sub_t) (q : Z) :
  61 ∉ j -> 61 ∉ default [] name -> cstr h = item_text j (name_text name) (sub_name s) ->
  q = 39 \/ q = 34 ->
  is_Some_b (strstr h (str "subscription" ++ 61 :: q :: sub_name t ++ [q])) =
  bool_decide (q = 39 /\ s = t).
Proof.
  intros Hj Hn Eh Hq. apply eq_true_iff_eq. rewrite bool_decide_eq_true, found_iff by done.
  assert (cstr (str "subscription" ++ 61 :: q :: sub_name t ++ [q]) =
          str "subscription" ++ 61 :: q :: sub_name t ++ [q]) as En
    by (destruct Hq as [-> | ->], t; reflexivity).
  rewrite En, Eh. split.
  - intros (i & pre & post & E & _). symmetry in E. apply item_occurs in E; [|done|done|].
    + destruct Hq as [-> | ->], s, t; try discriminate E; done.
    + destruct s; apply (bool_decide_eq_true_1 _); reflexivity.
  - intros [-> ->]. eexists _, (str "<item jid='" ++ j ++ str "'" ++ name_text name ++ str " "), (str "/>").
    split; [|reflexivity]. unfold item_text. rewrite <- !app_assoc. by destruct t.
Qed.

(** The state written is the state read. *)
Lemma sub_of_item_text (h j : list Z) (name : option (list Z)) (s : sub_t) :
  61 ∉ j -> 61 ∉ default [] name -> cstr h = item_text j (name_text name) (sub_name s) ->
  sub_of_item h = s.
Proof.
  intros Hj Hn Eh. pose proof (fun t q => has_sub h j name s t q Hj Hn Eh) as Hs.
  unfold sub_of_item, has_either.
  pose proof (Hs SubBoth 39 ltac:(by left)) as B. pose proof (Hs SubBoth 34 ltac:(by right)) as B'.
  pose proof (Hs SubTo 39 ltac:(by left)) as T. pose proof (Hs SubTo 34 ltac:(by right)) as T'.
  pose proof (Hs SubFrom 39 ltac:(by left)) as F. pose proof (Hs SubFrom 34 ltac:(by right)) as F'.
  change (str "subscription='both'") with (str "subscription" ++ 61 :: 39 :: sub_name SubBoth ++ [39]).
  change (qstr "subscription=`both`") with (str "subscription" ++ 61 :: 34 :: sub_name SubBoth ++ [34]).
  change (str "subscription='to'") with (str "subscription" ++ 61 :: 39 :: sub_name SubTo ++ [39]).
  change (qstr "subscription=`to`") with (str "subscription" ++ 61 :: 34 :: sub_name SubTo ++ [34]).
  change (str "subscription='from'") with (str "subscription" ++ 61 :: 39 :: sub_name SubFrom ++ [39]).
  change (qstr "subscription=`from`") with (str "subscription" ++ 61 :: 34 :: sub_name SubFrom ++ [34]).
  rewrite B, B', T, T', F, F'. by destruct s.
Qed.

(** An item whose address and name hold no equals sign. *)
Definition plain_item (item : list Z) : Prop :=
  forall key v, key = str "jid=" \/ key = str "name=" -> attr_value item key = Some v -> 61 ∉ cstr v.

Lemma at_zeros n m : at_ (zeros n) m = 0.
Proof.
  unfold at_, zeros. rewrite drop_replicate. by destruct (n - m)%nat.
Qed.

Lemma at_strncpy (d s : list Z) (n m : nat) :
  (n <= m)%nat -> (n <= length d)%nat -> at_ (strncpy d s n) m = at_ d m.
Proof.
  intros Hm Hd. unfold at_. f_equal. rewrite strncpy_eq, app_assoc.
  assert (length (take n (cstr s) ++ replicate (n - length (cstr s)) 0) = n) as L.
  { rewrite length_app, length_take, length_replicate. lia. }
  rewrite drop_app_ge, L, drop_drop by lia. f_equal. lia.
Qed.

Lemma attr_value_bound (item key v : list Z) :
  attr_value item key = Some v -> (length (cstr v) <= 63)%nat /\ at_ v 63 = 0 /\ length v = 64%nat.
Proof.
  unfold attr_value. destruct (strstr item key) as [p|]; [|done]. cbv zeta. set (q := tail (drop _ p)).
  destruct (strchr q _) as [stop|] eqn:E; [|done]. intros [= <-].
  assert (0 <= cap (ptr_diff stop q) 64 < 64) as Hc.
  { apply cap_bound; [|lia]. unfold ptr_diff.
    apply strchr_suffix in E as [pre ->]. rewrite length_app. lia. }
  assert (length (zeros 64) = 64%nat) as L by reflexivity.
  rewrite strncpy_cstr, at_strncpy, strncpy_length, L, length_take by (rewrite ?at_zeros, ?L; lia).
  rewrite at_zeros. lia.
Qed.

Lemma item_render (a b c : list Z) :
  render (str "<item jid='%s'%s subscription='%s'/>") [S_ a; S_ b; S_ c] =
  item_text (cstr a) (cstr b) (cstr c).
Proof. reflexivity. Qed.

Lemma name_render (v : list Z) : render (str " name='%s'") [S_ v] = name_text (Some (cstr v)).
Proof. reflexivity. Qed.

Lemma nul_free_app (a b : list Z) : nul_free a -> nul_free b -> nul_free (a ++ b).
Proof. apply Forall_app_2. Qed.

(** The name attribute of the item written. *)
Lemma name_attr_text (old : list Z) :
  plain_item old ->
  exists name, 61 ∉ default [] name /\ (length (name_text name) <= 71)%nat /\ nul_free (name_text name) /\
    sub_name_attr old = name_text name.
Proof.
  intros Hp. unfold sub_name_attr. destruct (attr_value old (str "name=")) as [v|] eqn:E.
  - exists (Some (cstr v)). destruct (attr_value_bound _ _ _ E) as (L & _).
    assert (length (name_text (Some (cstr v))) <= 71)%nat as Hl.
    { cbn [name_text]. rewrite !length_app. change (length (str " name='")) with 7%nat.
      change (length (str "'")) with 1%nat. lia. }
    split_and!; [by eapply Hp; eauto|done| |].
    + cbn [name_text]. apply nul_free_app; [by repeat constructor|].
      apply nul_free_app; [apply cstr_nul_free|by repeat constructor].
    + rewrite snprintf_render, name_render by (reflexivity || lia). apply take_ge. lia.
  - exists None. split_and!; [set_solver|simpl; lia|constructor|done].
Qed.

(** Its address. *)
Lemma jid_val_ok (old contact : list Z) :
  plain_item old -> 61 ∉ cstr contact ->
  61 ∉ cstr (sub_jid old contact) /\ (length (cstr (sub_jid old contact)) <= 63)%nat.
Proof.
  intros Hp Hc. unfold sub_jid. cbv zeta.
  assert (61 ∉ take 63 (cstr contact) /\ (length (take 63 (cstr contact)) <= 63)%nat) as [T1 T2].
  { rewrite length_take. split; [|lia]. intros Hin. apply Hc. rewrite <- (take_drop 63 (cstr contact)).
    apply elem_of_app. by left. }
  destruct (attr_value old (str "jid=")) as [v|] eqn:E; cbn [from_option id].
  - destruct (attr_value_bound _ _ _ E) as (L & Ha & _).
    destruct (deref v =? 0); [by rewrite strncpy_cstr|]. split; [exact (Hp _ v (or_introl eq_refl) E)|done].
  - change (deref (zeros 64) =? 0) with true. cbv iota. by rewrite strncpy_cstr by apply at_zeros.
Qed.

(** What is written: an item of the form above, never cut. *)
Lemma sub_item_text (old contact : list Z) (new : sub_t) :
  plain_item old -> 61 ∉ cstr contact ->
  exists j name, 61 ∉ j /\ 61 ∉ default [] name /\
    sub_item old contact new = item_text j (name_text name) (sub_name new) /\
    (length (sub_item old contact new) <= 255)%nat /\ nul_free (sub_item old contact new).
Proof.
  intros Hp Hc. destruct (name_attr_text old Hp) as (name & Hn & Ln & Fn & En).
  destruct (jid_val_ok old contact Hp Hc) as [Hj Lj]. unfold sub_item. rewrite En. clear En.
  set (jv := sub_jid old contact) in *.
  rewrite snprintf_render, item_render by (reflexivity || lia). rewrite (cstr_id (name_text name)) by done.
  replace (cstr (sub_name new)) with (sub_name new) by (destruct new; reflexivity).
  assert (length (item_text (cstr jv) (name_text name) (sub_name new)) <= 255)%nat as L.
  { unfold item_text. rewrite !length_app. change (length (str "<item jid='")) with 11%nat.
    change (length (str " subscription='")) with 15%nat. change (length (str "'")) with 1%nat.
    change (length (str "'/>")) with 3%nat. assert (length (sub_name new) <= 4)%nat by (by destruct new; compute; lia). lia. }
  rewrite take_ge by lia. exists (cstr jv), name. split_and!; try done.
  unfold item_text. repeat apply nul_free_app; try done; try apply cstr_nul_free; try (by repeat constructor).
  destruct new; by repeat constructor.
Qed.

(** ** The roster as a map of subscriptions *)

Definition sub_in (roster : list roster_entry_t) (k : list Z * list Z) : sub_t :=
  from_option sub_of_item SubNone (roster_get roster k).

Lemma sub_write_ok (e : roster_entry_t) (contact : list Z) (new : sub_t) :
  roster_ok e -> plain_item (item_xml e) -> 61 ∉ cstr contact ->
  roster_ok (sub_write e contact new) /\ sub_of_item (cstr (item_xml (sub_write e contact new))) = new.
Proof.
  intros [H1 H2 H3 H4] Hp Hc. unfold sub_write.
  destruct (sub_item_text (item_xml e) contact new Hp Hc) as (j & name & Hj & Hn & E & L & F).
  split.
  - split; cbn; [done..| |done]. rewrite copy_str_length; lia.
  - cbn [item_xml set_item_xml]. rewrite copy_str_cstr by lia. rewrite cstr_id by done.
    rewrite take_ge by done. eapply sub_of_item_text; [exact Hj|exact Hn|]. rewrite cstr_id by done. done.
Qed.

Lemma new_slot_plain (e : roster_entry_t) (owner contact : list Z) :
  roster_ok e -> plain_item (item_xml (sub_slot e owner contact)).
Proof.
  intros [_ _ H3 _] key v Hk E. exfalso. revert E. unfold attr_value.
  destruct (strstr _ key) as [p|] eqn:Es; [|done].
  assert (deref key <> 0) as Hd by (by destruct Hk as [-> | ->]).
  apply strstr_Some in Es as (pre & _ & (p1 & p2 & Eo & _) & _); [|done].
  assert (cstr (item_xml (sub_slot e owner contact)) = []) as En.
  { apply deref_cstr_nil. cbn. by destruct (item_xml e). }
  rewrite En in Eo. assert (cstr key <> []) by (by rewrite <- deref_cstr_nil). by destruct p1, (cstr key).
Qed.

Lemma sub_slot_ok (e : roster_entry_t) (owner contact : list Z) :
  roster_ok e -> (length (cstr owner) <= 31)%nat -> (length (cstr contact) <= 63)%nat ->
  roster_ok (sub_slot e owner contact) /\ slot_key (sub_slot e owner contact) = roster_key owner contact.
Proof.
  intros [H1 H2 H3 H4] Lo Lc. split.
  - split; cbn [sub_slot re_username re_jid item_xml re_active]; [rewrite copy_str_length; lia..| |].
    + by rewrite length_insert.
    + unfold int32; lia.
  - cbn [slot_key roster_slotted sub_slot re_username re_jid]. unfold roster_key.
    rewrite !copy_str_cstr by lia. by rewrite !take_take_cstr by lia.
Qed.

(** Writing a state through one slot. *)
Lemma sub_put (f : roster_entry_t -> roster_entry_t) (roster : list roster_entry_t) (i : nat)
    (e : roster_entry_t) (k : list Z * list Z) (new : sub_t) :
  Forall roster_ok roster -> unique roster -> roster !! i = Some e ->
  roster_ok (f e) -> slot_active (f e) = true -> slot_key (f e) = k ->
  sub_of_item (cstr (item_xml (f e))) = new ->
  (holds k e = true \/ slot_active e = false /\ first_index (holds k) roster = None) ->
  Forall roster_ok (alter f i roster) /\ unique (alter f i roster) /\
  sub_in (alter f i roster) k = new /\
  forall k', k' <> k -> roster_get (alter f i roster) k' = roster_get roster k'.
Proof.
  intros Hok Hu Hi Hf Ha Hk Hs Hslot.
  destruct (put_slot f roster i e k Hu Hi Ha Hk Hslot) as [Hu' Hg]. split_and!; [|done| |].
  - apply Forall_alter; [done|]. intros x Hx _. congruence.
  - unfold sub_in, roster_get. rewrite Hg, decide_True by done. done.
  - intros k' Hk'. unfold roster_get. by rewrite Hg, decide_False by done.
Qed.

(** * Properties *)

(** The subscription states move as the protocol says: of the two
    directions, an approval (subscribed) sets and a cancellation (unsubscribed)
    clears the one it is about, that of the owner when the presence comes in,
    that of the contact when it goes out, and the other direction stays. *)
Theorem subscription_directions (inbound : bool) (cur : sub_t) :
  let granted := next_sub XMPP_PRESENCE_SUBSCRIBED inbound cur in
  let revoked := next_sub XMPP_PRESENCE_UNSUBSCRIBED inbound cur in
  (sub_to granted = (if inbound then true else sub_to cur) /\
   sub_from granted = (if inbound then sub_from cur else true)) /\
  (sub_to revoked = (if inbound then false else sub_to cur) /\
   sub_from revoked = (if inbound then sub_from cur else false)).
Proof. by destruct inbound, cur. Qed.

(** The roster keeps the subscription states it is told. Seen as a map
    from user and contact to a state, an update moves the entry of its user and
    contact by the transition, leaves every other item as it is, keeps every
    slot well formed and no contact twice; the array is left alone only when
    the state does not change, or when the contact is new and no slot is free.
    So the state that was written into the item's text is the one read back from
    it, provided the address and the name in it hold no equals sign. *)
Theorem subscription_recorded (roster : list roster_entry_t) (owner contact : list Z) (inbound : bool)
    (ptype : stanza_type_t) :
  Forall roster_ok roster -> unique roster ->
  (length (cstr owner) <= 31)%nat -> (length (cstr contact) <= 63)%nat -> 61 ∉ cstr contact ->
  (forall e, get roster (roster_key owner contact) = Some e -> plain_item (item_xml e)) ->
  let k := roster_key owner contact in
  match sub_update roster owner contact inbound ptype with
  | Some (roster', _) =>
      Forall roster_ok roster' /\ unique roster' /\
      sub_in roster' k = next_sub ptype inbound (sub_in roster k) /\
      (forall k', k' <> k -> roster_get roster' k' = roster_get roster k')
  | None =>
      next_sub ptype inbound (sub_in roster k) = sub_in roster k \/
      (roster_get roster k = None /\ Forall (fun e => re_active e <> 0) roster)
  end.
Proof.
  intros Hok Hu Lo Lc Hc Hp k. unfold sub_update. rewrite first_match_holds.
  destruct (first_index (holds (roster_key owner contact)) roster) as [i|] eqn:E.
  - pose proof E as Ei. apply first_index_Some in Ei as (e & Hi & Hh & _).
    assert (get roster k = Some e) as Hg by (unfold get, k; rewrite E; exact Hi).
    assert (sub_in roster k = sub_of_item (item_xml e)) as ->.
    { unfold sub_in, roster_get. rewrite Hg. apply sub_of_item_cstr. }
    rewrite Hi. cbn [from_option id]. case_decide as D; [by left|].
    pose proof (Forall_lookup_1 _ _ _ _ Hok Hi) as Ho.
    destruct (sub_write_ok e contact (next_sub ptype inbound (sub_of_item (item_xml e))) Ho (Hp e Hg) Hc) as [W1 W2].
    apply holds_spec in Hh as [Ha Hk]. by eapply sub_put; eauto; left; apply holds_spec.
  - assert (roster_get roster k = None) as Hn by (unfold roster_get; by rewrite (proj2 (get_None roster k) E)).
    assert (sub_in roster k = SubNone) as -> by (unfold sub_in; by rewrite Hn).
    case_decide as D; [by left|].
    destruct (first_index (fun e => re_active e =? 0) roster) as [i|] eqn:F.
    + apply first_index_Some in F as (e & Hi & Hh & _).
      pose proof (Forall_lookup_1 _ _ _ _ Hok Hi) as Ho.
      destruct (sub_slot_ok e owner contact Ho Lo Lc) as [S1 S2].
      destruct (sub_write_ok _ contact (next_sub ptype inbound SubNone) S1 (new_slot_plain e owner contact Ho) Hc) as [W1 W2].
      eapply (sub_put (fun e => sub_write (sub_slot e owner contact) contact _)); eauto.
      right. split; [|exact E]. cbn. by rewrite Hh.
    + right. split; [done|]. rewrite first_index_None in F. apply Forall_lookup. intros i x Hx.
      specialize (F i x Hx). lia.
Qed.

(** Approving a first contact, in an empty roster. *)
Lemma subscription_recorded_witness :
  let roster := [roster0] in
  let owner := str "alice" in let contact := str "bob@angelic.local" in
  exists roster' xml,
    sub_update roster owner contact false XMPP_PRESENCE_SUBSCRIBED = Some (roster', xml) /\
    sub_in roster' (roster_key owner contact) = SubFrom.
Proof.
  set (roster := [roster0]).
  assert (Forall roster_ok roster) as Hok.
  { repeat constructor. all: unfold int32; cbn; lia. }
  assert (unique roster) as Hu by (by apply (unique_replicate 1)).
  pose proof (subscription_recorded roster (str "alice") (str "bob@angelic.local") false XMPP_PRESENCE_SUBSCRIBED
    Hok Hu ltac:(vm_compute; lia) ltac:(vm_compute; lia) ltac:(apply (bool_decide_eq_true_1 _); reflexivity)
    ltac:(intros e He; vm_compute in He; discriminate He)) as Hs.
  cbv zeta in *. destruct (sub_update _ _ _ _ _) as [[r x]|] eqn:E.
  - exists r, x. split; [done|]. destruct Hs as (_ & _ & -> & _). reflexivity.
  - exfalso. vm_compute in E. discriminate E.
Defined.
