(* ===== verification/Frame.v ===== *)
(** What the stanza handlers leave alone.

    A handler called for connection [ctx] never touches the network side of any
    connection: the control block, the receive and staging buffers, the TLS
    flags and the authentication flag stay as they are, except that binding a
    resource closes other connections of the same user for good.  The relation
    [gentle] states this; it is the interface through which the receive loop
    reasons about the handlers. *)

From Stdlib Require Import ZArith Lia String Ascii Bool.
From stdpp Require Import base list numbers option sets.
From S2P Require Import Prelude.
From S2P Require Import Libc.
From S2P Require Import SlotMap.
From S2P Require Import XmppCore.
From S2P Require Import Logic.
From S2P Require Import Persist.
From S2P Require Import Store.
From S2P Require Import Tls.
From S2P Require Import Sasl.
From S2P Require Import Sm.
From S2P Require Import Iq.
From S2P Require Import Muc.
From S2P Require Import Message.
From S2P Require Import MucPresence.
From S2P Require Import Presence.

Open Scope Z_scope.

(** * The relation *)

(** [ctx->state >= STATE_AUTHENTICATED] *)
Definition authed (c : xmpp_client_ctx_t) : bool := negb (state_lt (state c) STATE_AUTHENTICATED).

(** The network side of a connection. *)
Definition conn_view (c : xmpp_client_ctx_t) :=
  (pcb c, authenticated c, (rx_buffer c, rx_pos c), (tls_rx_buf c, tls_rx_len c, tls_rx_pos c),
   (tls_established c, tls_initialised c, tls_want_write c)).

(** It is the same, and the state only moves among those after a login. *)
Definition calm (c c' : xmpp_client_ctx_t) : Prop :=
  conn_view c' = conn_view c /\ (state c' = state c \/ (authed c = true /\ authed c' = true)).

#[export] Instance calm_preorder : PreOrder calm.
Proof.
  split.
  - intros c. by split; [|left].
  - intros c1 c2 c3 [V1 S1] [V2 S2]. split; [congruence|].
    unfold authed in *. destruct S1 as [E1|[A1 B1]], S2 as [E2|[A2 B2]].
    + left. congruence.
    + right. by rewrite E1 in A2.
    + right. by rewrite E2.
    + by right.
Qed.

(** A stanza stays in its slot of the pool while a handler runs. *)
Definition gentle (ctx : nat) (s s' : srv) : Prop :=
  length (client_registry s') = length (client_registry s) /\ stanza_pool s' = stanza_pool s /\
  forall i, calm (client_of s i) (client_of s' i) \/ (i <> ctx /\ calm client0 (client_of s' i)).

#[export] Instance gentle_preorder ctx : PreOrder (gentle ctx).
Proof.
  split.
  - intros s. split_and!; [done..|]. by left.
  - intros s1 s2 s3 (L1 & P1 & H1) (L2 & P2 & H2). split_and!; [congruence..|]. intros i.
    destruct (H2 i) as [C2|C2]; [|by right]. destruct (H1 i) as [C1|[N C1]].
    + left. by etransitivity.
    + right. split; [done|]. by etransitivity.
Qed.

(** The connections and the pool, for the views of [same]. *)
Definition conns (s : srv) := (client_registry s, stanza_pool s).

Lemma gentle_within_same {A} ctx (m : M A) : within (same conns) m -> within (gentle ctx) m.
Proof.
  intros Hm s. pose proof (Hm s) as E. injection E as E1 E2. split_and!; [by rewrite E1|done|].
  intros i. left. unfold client_of. by rewrite E1.
Qed.

(** The network side together with the state, for the views of [keeps]. *)
Definition calm_view (c : xmpp_client_ctx_t) := (conn_view c, state c).

Lemma gentle_keeps {A} ctx (m : M A) :
  within (keeps calm_view) m -> within (same stanza_pool) m -> within (gentle ctx) m.
Proof.
  intros Hm Hp s. destruct (Hm s) as [L Hk]. split_and!; [done|apply Hp|]. intros i. left. specialize (Hk i).
  injection Hk as E1 E2. split; [|by left]. unfold conn_view. congruence.
Qed.

Lemma gentle_modify ctx f : (forall s, conns (f s) = conns s) -> within (gentle ctx) (modify f).
Proof. intros Hf. apply gentle_within_same. intros s. apply Hf. Qed.

Lemma gentle_upd ctx i f :
  (forall c, conn_view (f c) = conn_view c /\ state (f c) = state c) -> within (gentle ctx) (upd_client i f).
Proof.
  intros Hf. apply gentle_keeps; [|done]. apply within_upd_keeps. intros c. unfold calm_view.
  by destruct (Hf c) as [-> ->].
Qed.

Lemma gentle_call ctx : within (gentle ctx) call.
Proof. by apply gentle_modify. Qed.

Lemma gentle_emit ctx e : within (gentle ctx) (emit e).
Proof. by apply gentle_modify. Qed.

Lemma gentle_random `{Env} ctx : within (gentle ctx) random_u32.
Proof.
  apply gentle_within_same. intros s. unfold random_u32, same.
  by destruct (secure_random_u32 _ _ _) as [[? ?] ?].
Qed.

Lemma gentle_send `{Env} ctx i d : within (gentle ctx) (send_raw i d).
Proof. apply gentle_keeps; [by apply within_send|by apply same_send_raw]. Qed.

Lemma gentle_save `{Env} ctx r : within (gentle ctx) (save_region r).
Proof. apply gentle_within_same. by apply within_save_region. Qed.

#[export] Hint Resolve gentle_call gentle_emit gentle_random gentle_send : handlers.
#[export] Hint Extern 1 (within (gentle _) (modify _)) => apply gentle_modify; done : handlers.
#[export] Hint Extern 1 (within (gentle _) (upd_client _ _)) =>
  apply gentle_upd; intros ?; first [case_match; split; reflexivity | split; reflexivity] : handlers.
#[export] Hint Extern 1 (within (gentle _) xmpp_persist_save_private) => apply (gentle_save _ RPrivate) : handlers.
#[export] Hint Extern 1 (within (gentle _) xmpp_persist_save_roster) => apply (gentle_save _ RRoster) : handlers.
#[export] Hint Extern 1 (within (gentle _) xmpp_persist_save_rooms) => apply (gentle_save _ RRooms) : handlers.
#[export] Hint Extern 1 (within (gentle _) xmpp_persist_save_offline) => apply (gentle_save _ ROffline) : handlers.
#[export] Hint Extern 1 (within (gentle _) xmpp_persist_save_pending_subs) => apply (gentle_save _ RPending) : handlers.

(** * The handlers *)

Section handlers.
Context `{Env}.

Lemma gentle_offline_enqueue ctx a b c d : within (gentle ctx) (offline_msg_enqueue a b c d).
Proof. unfold offline_msg_enqueue. within_auto. Qed.

Lemma gentle_offline_drain ctx : within (gentle ctx) (offline_msg_drain ctx).
Proof. unfold offline_msg_drain. within_auto. Qed.

Lemma gentle_pending_enqueue ctx a b c : within (gentle ctx) (pending_sub_enqueue a b c).
Proof. unfold pending_sub_enqueue. within_auto. Qed.

Lemma gentle_pending_drain ctx : within (gentle ctx) (pending_sub_drain ctx).
Proof. unfold pending_sub_drain. within_auto. Qed.

Hint Resolve gentle_offline_enqueue gentle_offline_drain gentle_pending_enqueue gentle_pending_drain : handlers.

Lemma gentle_private_storage ctx stanza : within (gentle ctx) (handle_private_storage ctx stanza).
Proof. unfold handle_private_storage, private_set. within_auto. Qed.

Lemma gentle_roster_request ctx stanza : within (gentle ctx) (handle_roster_request ctx stanza).
Proof. unfold handle_roster_request, roster_push, roster_store_set_from_payload. within_auto. Qed.

Lemma gentle_initial_presence ctx stanza : within (gentle ctx) (handle_initial_presence ctx stanza).
Proof. unfold handle_initial_presence, announce_presence, probe_presence. within_auto. Qed.

Lemma gentle_fixed ctx stanza :
  within (gentle ctx) (handle_blocklist ctx stanza) /\ within (gentle ctx) (handle_version ctx stanza) /\
  within (gentle ctx) (handle_last ctx stanza) /\ within (gentle ctx) (handle_ping ctx stanza) /\
  within (gentle ctx) (handle_general_success ctx stanza).
Proof.
  unfold handle_blocklist, handle_version, handle_last, handle_ping, handle_general_success.
  split_and!; within_auto.
Qed.

Lemma gentle_disco_info ctx stanza : within (gentle ctx) (handle_disco_info ctx stanza).
Proof. unfold handle_disco_info, forward_caps. within_auto. Qed.

Lemma gentle_disco_items ctx stanza : within (gentle ctx) (handle_disco_items ctx stanza).
Proof. unfold handle_disco_items. within_auto. Qed.

Lemma gentle_muc_admin ctx stanza : within (gentle ctx) (handle_muc_admin ctx stanza).
Proof. unfold handle_muc_admin, kick, tell_others, send_to_jid, upd_room. within_auto. Qed.

Lemma gentle_muc_owner ctx stanza : within (gentle ctx) (handle_muc_owner ctx stanza).
Proof. unfold handle_muc_owner, destroy_room, tell_others, send_to_jid, upd_room. within_auto. Qed.

Lemma gentle_chat_message ctx stanza : within (gentle ctx) (handle_chat_message ctx stanza).
Proof.
  unfold handle_chat_message, room_message, private_message, group_message, set_room_subject, user_message,
    deliver, send_to_jid, upd_room. within_auto.
Qed.

Lemma gentle_muc_presence ctx stanza : within (gentle ctx) (handle_muc_presence ctx stanza).
Proof.
  unfold handle_muc_presence, muc_presence_in, get_room, muc_leave, muc_available, muc_rename, muc_join,
    muc_welcome, tell_all, tell_others, send_to_jid, upd_room. within_auto.
Qed.

Lemma gentle_subscription ctx a b c d : within (gentle ctx) (subscription_update_roster a b c d).
Proof. unfold subscription_update_roster. within_auto. Qed.

End handlers.

#[export] Hint Resolve gentle_offline_enqueue gentle_offline_drain gentle_pending_enqueue gentle_pending_drain
  gentle_subscription : handlers.

Lemma gentle_sm_sent_received `{Env} ctx : within (gentle ctx) (xmpp_sm_on_stanza_received ctx).
Proof. unfold xmpp_sm_on_stanza_received. within_auto. Qed.

(** Presence moves a bound session to ready, and no other. *)
Lemma gentle_ready `{Env} ctx :
  within (gentle ctx)
    (c ← client ctx;
     when (negb (state_lt (state c) STATE_SESSION) && state_lt (state c) STATE_READY)
       (upd_client ctx (set_state STATE_READY))).
Proof.
  intros s. run. rewrite client_eq. cbn [fst snd]. set (c := client_of s ctx).
  destruct (_ && _) eqn:E; [|reflexivity]. cbn [when]. apply andb_prop in E as [E _].
  split_and!; [apply upd_length|done|]. intros i. left. cbn [snd upd_client modify]. rewrite client_of_alter.
  case_decide as D; [|reflexivity]. destruct D as [<- _]. split; [done|]. right. split; [|done].
  fold c. unfold authed. by destruct (state c).
Qed.

Lemma gentle_broadcast `{Env} ctx stanza : within (gentle ctx) (handle_broadcast_presence ctx stanza).
Proof.
  intros s. pose proof (gentle_ready ctx s) as G. unfold handle_broadcast_presence.
  rewrite bind_eq in G |- *. rewrite client_eq in G |- *. cbn [fst snd] in G |- *. run.
  etransitivity; [exact G|]. generalize (snd (when (negb (state_lt (state (client_of s ctx)) STATE_SESSION) &&
    state_lt (state (client_of s ctx)) STATE_READY) (upd_client ctx (set_state STATE_READY)) s)). clear G s.
  match goal with |- forall s, gentle _ s (snd (?m s)) => change (within (gentle ctx) m) end.
  unfold presence_probe, presence_subscription, presence_directed, presence_all.
  within_auto.
Qed.

(** ** Binding *)

Lemma pool_evict_others `{Env} ctx : within (same stanza_pool) (evict_others ctx).
Proof.
  assert (forall i f, within (same stanza_pool) (upd_client i f)) as Hupd by (by intros ? ? ?).
  assert (forall e, within (same stanza_pool) (emit e)) as Hemit by (by intros ? ?).
  assert (forall i p, within (same stanza_pool) (ssl_write_call i p)) as Hw
    by (intros; by apply same_ssl_write_call).
  assert (forall i, within (same stanza_pool) (output i)) as Ho by (intros; by apply same_output).
  unfold evict_others, evict, xmpp_tls_client_free. within_auto.
Qed.

Lemma gentle_evict_others `{Env} ctx s :
  length (client_registry s) = MAX_USERS -> (ctx < MAX_USERS)%nat ->
  gentle ctx s (snd (evict_others ctx s)).
Proof.
  intros Hlen Hctx. destruct (evict_others_at ctx s ltac:(lia) Hlen) as (L & Ec & Eo).
  split_and!; [done|apply pool_evict_others|]. intros i.
  destruct (decide (i = ctx)) as [->|Hne]; [left; rewrite Ec; reflexivity|].
  destruct (decide (i < MAX_USERS)%nat) as [Hi|Hi].
  - rewrite Eo by done. unfold evicted. destruct (_ && _); [right; split; [done|reflexivity]|left; reflexivity].
  - left. unfold client_of. rewrite !(proj2 (lookup_ge_None _ _)) by lia. reflexivity.
Qed.

Lemma gentle_bind `{Env} ctx stanza s :
  length (client_registry s) = MAX_USERS -> (ctx < MAX_USERS)%nat ->
  gentle ctx s (snd (handle_core_bind ctx stanza s)).
Proof.
  intros Hlen Hctx. unfold handle_core_bind. run. rewrite client_eq. cbn [fst snd].
  destruct (bool_decide _) eqn:E; [|apply gentle_send]. apply bool_decide_eq_true in E.
  run. pose proof (gentle_random ctx s) as G1. set (s1 := snd (random_u32 s)) in *.
  set (r := fst (random_u32 s)). run.
  set (s2 := snd (upd_client ctx _ s1)).
  assert (gentle ctx s1 s2) as G2 by (apply gentle_upd; intros c; split; reflexivity).
  assert (gentle ctx s s2) as G by (by etransitivity). pose proof (proj1 G) as L2.
  run. pose proof (gentle_evict_others ctx s2 ltac:(lia) Hctx) as G3.
  set (s3 := snd (evict_others ctx s2)) in *. run. rewrite client_eq. cbn [fst snd]. run.
  set (text := bind_result _ _). pose proof (gentle_send ctx ctx text s3) as G4.
  set (s4 := snd (send_raw ctx text s3)) in *.
  assert (gentle ctx s s4) as (L4 & P4 & H4) by (by repeat (etransitivity; [eassumption|])).
  split_and!; [by rewrite upd_length|done|]. intros i. destruct (H4 i) as [C|[N C]].
  - left. etransitivity; [exact C|]. cbn [snd upd_client modify]. rewrite client_of_alter.
    case_decide as D; [|reflexivity]. destruct D as [<- _]. split; [done|]. right. split; [|done].
    destruct C as [_ [Es|[_ A]]]; [|done]. unfold authed. by rewrite Es, E.
  - right. split; [done|]. etransitivity; [exact C|]. cbn [snd upd_client modify]. rewrite client_of_alter.
    case_decide as D; [naive_solver|reflexivity].
Qed.

Lemma gentle_session `{Env} ctx stanza s :
  authed (client_of s ctx) = true -> gentle ctx s (snd (handle_core_session ctx stanza s)).
Proof.
  intros Ha. unfold handle_core_session. run. set (text := snprintf _ _ _).
  pose proof (gentle_send ctx ctx text s) as G. set (s1 := snd (send_raw ctx text s)) in *.
  etransitivity; [exact G|]. split_and!; [apply upd_length|done|]. intros i. left.
  cbn [snd upd_client modify]. rewrite client_of_alter.
  case_decide as D; [|reflexivity]. destruct D as [<- _]. split; [done|]. right. split; [|done].
  destruct G as (_ & _ & H4). destruct (H4 ctx) as [[_ [Es|[_ A]]]|[N _]]; [|done|done].
  unfold authed in *. by rewrite Es.
Qed.
