(* ===== verification/Router.v ===== *)
(** The stanza router, src/xmpp/xmpp_router.c, and the stream negotiation it
    falls back to, [handle_handshake_logic] of src/xmpp/xmpp_server.c.

    A stanza is known by its slot in the pool; the router writes the sender's
    address into it and hands its contents to the handler of its name space. *)

From Stdlib Require Import ZArith Lia String Ascii Bool.
From stdpp Require Import base list numbers option sets.
From S2P Require Import Prelude.
From S2P Require Import Libc.
From S2P Require Import SlotMap.
From S2P Require Import XmppCore.
From S2P Require Import Logic.
From S2P Require Import Persist.
From S2P Require Import Store.
From S2P Require Import Sasl.
From S2P Require Import Iq.
From S2P Require Import Muc.
From S2P Require Import Message.
From S2P Require Import MucPresence.
From S2P Require Import Presence.
From S2P Require Import Frame.

Open Scope Z_scope.

#[local] Strategy opaque [snprintf snprintf_into].

(** * Stream negotiation *)

(** The stream header with the features of the given text. *)
Definition stream_header (features to_attr : list Z) (stream_id : Z) : list Z :=
  snprintf 512
    (str "<?xml version='1.0'?>" ++
     str "<stream:stream from='%s'%s id='%u' version='1.0' " ++ str "xml:lang='en' " ++
     str "xmlns='jabber:client' " ++ str "xmlns:stream='http://etherx.jabber.org/streams'>" ++
     str "<stream:features>" ++ features ++ str "</stream:features>")
    [S_ XMPP_DOMAIN; S_ to_attr; AUint stream_id].

Definition bind_features : list Z :=
  str "<bind xmlns='urn:ietf:params:xml:ns:xmpp-bind'/>" ++
  str "<session xmlns='urn:ietf:params:xml:ns:xmpp-session'/>" ++ str "<sm xmlns='urn:xmpp:sm:3'/>".

Definition sasl_features : list Z :=
  str "<mechanisms xmlns='urn:ietf:params:xml:ns:xmpp-sasl'>" ++ str "<mechanism>PLAIN</mechanism>" ++
  str "</mechanisms>".

Definition starttls_features : list Z :=
  str "<starttls xmlns='urn:ietf:params:xml:ns:xmpp-tls'>" ++ str "<required/>" ++ str "</starttls>".

(** An element of the stanza pool. *)
Definition stanza_of (s : srv) (k : nat) : xmpp_stanza_t := default stanza0 (stanza_pool s !! k).

Definition upd_stanza (k : nat) (f : xmpp_stanza_t -> xmpp_stanza_t) : M unit :=
  modify (fun s => set_stanza_pool (alter f k (stanza_pool s)) s).

Section with_env.
Context `{Env}.

Definition handle_handshake_logic (ctx : nat) : M unit :=
  stream_id ← random_u32;
  c ← client ctx;
  let to_attr :=
    if negb (deref (client_from c) =? 0) then snprintf 96 (str " to='%s'") [S_ (client_from c)] else [] in
  when (truth (authenticated c)) (upd_client ctx (set_state STATE_BIND)) ;;
  let response :=
    if truth (authenticated c) then stream_header bind_features to_attr stream_id
    else if truth (tls_established c) then stream_header sasl_features to_attr stream_id
    else stream_header starttls_features to_attr stream_id in
  send_raw ctx response ;;
  c ← client ctx;
  when (negb (truth (authenticated c)) && truth (tls_established c)) (upd_client ctx (set_state STATE_SASL)).

(** * Routing *)

Record route_entry := mk_route {
  rt_xmlns : list Z;
  rt_handler : nat -> xmpp_stanza_t -> M unit;
  min_state : client_state_t
}.

Definition router : list route_entry := [
  mk_route (str "urn:ietf:params:xml:ns:xmpp-bind") handle_core_bind STATE_BIND;
  mk_route (str "urn:ietf:params:xml:ns:xmpp-session") handle_core_session STATE_AUTHENTICATED;
  mk_route (str "jabber:iq:roster") handle_roster_request STATE_SESSION;
  mk_route (str "http://jabber.org/protocol/disco#info") handle_disco_info STATE_SESSION;
  mk_route (str "http://jabber.org/protocol/disco#items") handle_disco_items STATE_SESSION;
  mk_route (str "http://jabber.org/protocol/muc") handle_muc_presence STATE_SESSION;
  mk_route (str "http://jabber.org/protocol/muc#owner") handle_muc_owner STATE_SESSION;
  mk_route (str "jabber:iq:private") handle_private_storage STATE_SESSION;
  mk_route (str "http://jabber.org/protocol/muc#admin") handle_muc_admin STATE_SESSION;
  mk_route (str "urn:xmpp:blocking") handle_blocklist STATE_SESSION;
  mk_route (str "vcard-temp") handle_general_success STATE_SESSION;
  mk_route (str "jabber:iq:version") handle_version STATE_SESSION;
  mk_route (str "jabber:iq:last") handle_last STATE_SESSION;
  mk_route (str "urn:ietf:params:xml:ns:xmpp-ping") handle_ping STATE_SESSION
].

(** An error answer, with the id when the request has one. *)
Definition iq_error (kind inner from to id : list Z) : list Z :=
  if negb (deref id =? 0) then
    snprintf 512 (str "<iq type='error' from='%s' to='%s' id='%s'>" ++ str "<error type='" ++ kind ++ str ">" ++
                  inner ++ str "xmlns='urn:ietf:params:xml:ns:xmpp-stanzas'/>" ++ str "</error>" ++ str "</iq>")
      [S_ from; S_ to; S_ id]
  else
    snprintf 512 (str "<iq type='error' from='%s' to='%s'>" ++ str "<error type='" ++ kind ++ str ">" ++
                  inner ++ str "xmlns='urn:ietf:params:xml:ns:xmpp-stanzas'/>" ++ str "</error>" ++ str "</iq>")
      [S_ from; S_ to].

Definition unexpected_request (stanza : xmpp_stanza_t) (full_jid : list Z) : list Z :=
  iq_error (str "wait'") (str "<unexpected-request ") (or_else (st_to stanza) XMPP_DOMAIN)
    (or_else full_jid (str "unknown")) (st_id stanza).

Definition service_unavailable (stanza : xmpp_stanza_t) (full_jid : list Z) : list Z :=
  iq_error (str "cancel' code='503'") (str "<service-unavailable ") (or_else (st_to stanza) XMPP_DOMAIN)
    full_jid (st_id stanza).

Definition bad_request (stanza : xmpp_stanza_t) (full_jid : list Z) : list Z :=
  iq_error (str "modify'") (str "<bad-request ") (or_else (st_to stanza) XMPP_DOMAIN)
    (or_else full_jid (str "unknown")) (st_id stanza).

Definition is_request_iq (t : stanza_type_t) : bool :=
  match t with XMPP_IQ_GET | XMPP_IQ_SET => true | _ => false end.

Definition is_presence (t : stanza_type_t) : bool :=
  match t with
  | XMPP_PRESENCE | XMPP_PRESENCE_UNAVAILABLE | XMPP_PRESENCE_SUBSCRIBE | XMPP_PRESENCE_SUBSCRIBED
  | XMPP_PRESENCE_UNSUBSCRIBE | XMPP_PRESENCE_UNSUBSCRIBED | XMPP_PRESENCE_PROBE => true
  | _ => false
  end.

(** A stanza whose name space is in the table. *)
Definition dispatch (ctx : nat) (stanza : xmpp_stanza_t) (r : route_entry) : M unit :=
  c ← client ctx;
  if state_lt (state c) (min_state r) then
    when (is_request_iq (st_type stanza)) (send_raw ctx (unexpected_request stanza (full_jid c)))
  else rt_handler r ctx stanza.

Definition route_presence (ctx : nat) (stanza : xmpp_stanza_t) : M unit :=
  c ← client ctx;
  if is_Some_b (strstr (st_to stanza) conference) then handle_muc_presence ctx stanza
  else if decide (st_type stanza = XMPP_PRESENCE) then
    if initial_presence_sent c =? 0 then
      upd_client ctx (set_initial_presence_sent 1) ;; handle_initial_presence ctx stanza
    else handle_broadcast_presence ctx stanza
  else handle_broadcast_presence ctx stanza.

(** Malformed input of a logged-in client that carries an id. *)
Definition route_unknown (ctx : nat) (stanza : xmpp_stanza_t) : M unit :=
  c ← client ctx;
  when (bool_decide (st_type stanza = XMPP_UNKNOWN) && negb (deref (st_id stanza) =? 0) &&
        negb (state_lt (state c) STATE_AUTHENTICATED))
    (send_raw ctx (bad_request stanza (full_jid c))).

(** One whose name space is not: by its type. *)
Definition route_by_type (ctx : nat) (stanza : xmpp_stanza_t) : M unit :=
  c ← client ctx;
  if negb (state_lt (state c) STATE_SESSION) then
    if decide (st_type stanza = XMPP_MESSAGE) then handle_chat_message ctx stanza
    else if is_presence (st_type stanza) then route_presence ctx stanza
    else if is_request_iq (st_type stanza) then
      if is_Some_b (strstr (st_payload stanza) (str "http://jabber.org/protocol/muc#owner")) then
        handle_muc_owner ctx stanza
      else
        send_raw ctx (service_unavailable stanza (full_jid c)) ;; route_unknown ctx stanza
    else route_unknown ctx stanza
  else route_unknown ctx stanza.

(** The entry of a name space. *)
Definition find_route (xmlns : list Z) : option route_entry :=
  i ← first_index (fun r => strcmp xmlns (rt_xmlns r) =? 0) router; router !! i.

Definition xmpp_route_stanza (ctx k : nat) : M unit :=
  c ← client ctx;
  when (negb (deref (full_jid c) =? 0))
    (upd_stanza k (fun st => set_st_from (copy_str (st_from st) (full_jid c) 63) st)) ;;
  stanza ← gets (fun s => stanza_of s k);
  if negb (deref (st_xmlns stanza) =? 0) && is_Some_b (strstr (st_xmlns stanza) (str "stream")) then
    handle_handshake_logic ctx
  else
    match find_route (st_xmlns stanza) with
    | Some r => dispatch ctx stanza r
    | None => route_by_type ctx stanza
    end.

End with_env.

(** * Facts *)

(** ** The network side *)

Section frame.
Context `{Env} (ctx : nat).

(** A new stream header of a connection that has logged in. *)
Lemma gentle_handshake s :
  authed (client_of s ctx) = true -> authenticated (client_of s ctx) <> 0 ->
  gentle ctx s (snd (handle_handshake_logic ctx s)).
Proof.
  intros Ha Hauth. unfold handle_handshake_logic. run.
  pose proof (gentle_random ctx s) as G1. set (s1 := snd (random_u32 s)) in *.
  assert (client_of s1 ctx = client_of s ctx) as Ec.
  { unfold s1, random_u32. by destruct (secure_random_u32 _ _ _) as [[? ?] ?]. }
  run. rewrite client_eq. cbn [fst snd]. rewrite Ec.
  assert (truth (authenticated (client_of s ctx)) = true) as -> by (unfold truth; by apply negb_true_iff, Z.eqb_neq).
  cbn [when]. run. set (s2 := snd (upd_client ctx _ s1)).
  assert (gentle ctx s1 s2) as G2.
  { split_and!; [apply upd_length|done|]. intros i. left. unfold s2. cbn [snd upd_client modify].
    rewrite client_of_alter. case_decide as D; [|reflexivity]. destruct D as [<- _]. split; [done|].
    right. split; [|done]. by rewrite Ec. }
  run. set (text := stream_header _ _ _). pose proof (gentle_send ctx ctx text s2) as G3.
  set (s3 := snd (send_raw ctx text s2)) in *. run. rewrite client_eq. cbn [fst snd].
  assert (gentle ctx s s3) as G by (by repeat (etransitivity; [eassumption|])).
  destruct (proj2 (proj2 G) ctx) as [[V _]|[N _]]; [|done]. injection V as _ Ea _ _ _ _ _ _ _ _.
  rewrite Ea. assert (truth (authenticated (client_of s ctx)) = true) as -> by (unfold truth; by apply negb_true_iff, Z.eqb_neq).
  exact G.
Qed.

Lemma gentle_routes stanza r s :
  length (client_registry s) = MAX_USERS -> (ctx < MAX_USERS)%nat -> authed (client_of s ctx) = true ->
  r ∈ router -> gentle ctx s (snd (rt_handler r ctx stanza s)).
Proof.
  intros Hlen Hctx Ha Hr. destruct (gentle_fixed ctx stanza) as (F1 & F2 & F3 & F4 & F5).
  unfold router in Hr. repeat (apply elem_of_cons in Hr as [-> |Hr]; [cbn [rt_handler]|]);
    [by apply gentle_bind|by apply gentle_session|apply gentle_roster_request|apply gentle_disco_info|
     apply gentle_disco_items|apply gentle_muc_presence|apply gentle_muc_owner|apply gentle_private_storage|
     apply gentle_muc_admin|apply F1|apply F5|apply F2|apply F3|apply F4|].
  by apply elem_of_nil in Hr.
Qed.

Lemma gentle_unknown stanza : within (gentle ctx) (route_unknown ctx stanza).
Proof. unfold route_unknown. within_auto. Qed.

Lemma gentle_by_type stanza : within (gentle ctx) (route_by_type ctx stanza).
Proof.
  pose proof (gentle_unknown stanza). pose proof (gentle_chat_message ctx stanza).
  pose proof (gentle_muc_presence ctx stanza). pose proof (gentle_initial_presence ctx stanza).
  pose proof (gentle_broadcast ctx stanza). pose proof (gentle_muc_owner ctx stanza).
  unfold route_by_type, route_presence. within_auto.
Qed.

Lemma find_route_in xmlns r : find_route xmlns = Some r -> r ∈ router.
Proof.
  unfold find_route. destruct (first_index _ router) as [i|]; [|done]. simpl. apply list_elem_of_lookup_2.
Qed.

Lemma find_route_cstr xmlns : find_route (cstr xmlns) = find_route xmlns.
Proof.
  unfold find_route. rewrite (first_index_ext _ (fun r => strcmp xmlns (rt_xmlns r) =? 0)); [done|].
  intros r. by rewrite !strcmp_eqb, cstr_idemp.
Qed.

(** The stanza with the sender's address, as the handlers see it. *)
Definition stamped (s : srv) (k : nat) : srv :=
  if negb (deref (full_jid (client_of s ctx)) =? 0) then
    snd (upd_stanza k (fun st => set_st_from (copy_str (st_from st) (full_jid (client_of s ctx)) 63) st) s)
  else s.

(** Routing is gentle, once the sender's address is in the stanza. *)
Lemma gentle_route k s :
  length (client_registry s) = MAX_USERS -> (ctx < MAX_USERS)%nat -> authed (client_of s ctx) = true ->
  authenticated (client_of s ctx) <> 0 ->
  gentle ctx (stamped s k) (snd (xmpp_route_stanza ctx k s)).
Proof.
  intros Hlen Hctx Ha Hauth. unfold xmpp_route_stanza. run. rewrite client_eq. cbn [fst snd]. run.
  assert (snd (when (negb (deref (full_jid (client_of s ctx)) =? 0))
    (upd_stanza k (fun st => set_st_from (copy_str (st_from st) (full_jid (client_of s ctx)) 63) st)) s)
    = stamped s k) as -> by (unfold stamped; by destruct (negb _)).
  assert (client_registry (stamped s k) = client_registry s) as Er by (unfold stamped; by destruct (negb _)).
  assert (client_of (stamped s k) ctx = client_of s ctx) as Ec by (unfold client_of; by rewrite Er).
  run. rewrite gets_eq. cbn [fst snd].
  set (stanza := stanza_of (stamped s k) k). set (t := stamped s k) in *.
  destruct (_ && _); [apply gentle_handshake; by rewrite Ec|].
  destruct (find_route _) as [r|] eqn:Ef; [|apply gentle_by_type].
  unfold dispatch. run. rewrite client_eq. cbn [fst snd]. destruct (state_lt _ _).
  - destruct (is_request_iq _); cbn [when]; [apply gentle_send|reflexivity].
  - apply gentle_routes; rewrite ?Er, ?Ec; try done. by eapply find_route_in.
Qed.

End frame.

(** ** Before a session *)

(** What the server keeps: rooms, stores and the disk. *)
Definition server_data (s : srv) :=
  (rooms s, (roster_store s, roster_version s), offline_store s, pending_subs s, private_store s, disk s).

Section before_session.
Context `{Env} (ctx : nat).

Lemma data_send i d : within (same server_data) (send_raw i d).
Proof. by apply same_send_raw. Qed.

Lemma data_upd i f : within (same server_data) (upd_client i f).
Proof. by intros s. Qed.

Lemma data_emit e : within (same server_data) (emit e).
Proof. by intros s. Qed.

Lemma data_output i : within (same server_data) (output i).
Proof. by apply same_output. Qed.

Lemma data_ssl_write i p : within (same server_data) (ssl_write_call i p).
Proof. by apply same_ssl_write_call. Qed.

Lemma data_random : within (same server_data) random_u32.
Proof. intros s. unfold random_u32, same. by destruct (secure_random_u32 _ _ _) as [[? ?] ?]. Qed.

Hint Resolve data_send data_upd data_emit data_output data_ssl_write data_random : handlers.

Lemma data_handshake : within (same server_data) (handle_handshake_logic ctx).
Proof. unfold handle_handshake_logic. within_auto. Qed.

Lemma data_bind stanza : within (same server_data) (handle_core_bind ctx stanza).
Proof. unfold handle_core_bind, evict_others, evict, Tls.xmpp_tls_client_free. within_auto. Qed.

Lemma data_session stanza : within (same server_data) (handle_core_session ctx stanza).
Proof. unfold handle_core_session. within_auto. Qed.

Lemma data_unknown stanza : within (same server_data) (route_unknown ctx stanza).
Proof. unfold route_unknown. within_auto. Qed.

(** Only binding and session have an entry below the session state. *)
Lemma data_dispatch stanza r s :
  state_lt (state (client_of s ctx)) STATE_SESSION = true -> r ∈ router ->
  server_data (snd (dispatch ctx stanza r s)) = server_data s.
Proof.
  intros Hs Hr. unfold dispatch. run. rewrite client_eq. cbn [fst snd]. destruct (state_lt _ (min_state r)) eqn:E.
  - destruct (is_request_iq _); cbn [when]; [apply data_send|done].
  - unfold router in Hr. repeat (apply elem_of_cons in Hr as [-> |Hr]; [cbn [rt_handler min_state] in *; try congruence|]);
      [apply data_bind|apply data_session|]. by apply elem_of_nil in Hr.
Qed.

End before_session.

(** * Properties *)


(** A login that has not bound a resource, and a message in the pool. *)
Definition unbound_server : srv :=
  set_stanza_pool [chat_stanza "bob@angelic.local"]
    (one_client (set_authenticated 1 (set_state STATE_AUTHENTICATED binding_client))).


(** The session request does not need a bound resource: a client that has
    only logged in becomes ready with whatever address its connection holds, so
    with none at all when it never bound one. *)
Theorem session_without_bind (env : Env) (ctx k : nat) (s : srv) :
  (ctx < length (client_registry s))%nat ->
  state (client_of s ctx) = STATE_AUTHENTICATED -> deref (full_jid (client_of s ctx)) = 0 ->
  cstr (st_xmlns (stanza_of s k)) = str "urn:ietf:params:xml:ns:xmpp-session" ->
  let c := client_of (snd (xmpp_route_stanza ctx k s)) ctx in
  state c = STATE_READY /\ full_jid c = full_jid (client_of s ctx).
Proof.
  intros Hc Hs Hj Hx. unfold xmpp_route_stanza. run. rewrite client_eq. cbn [fst snd]. run.
  rewrite Hj. change (negb (0 =? 0)) with false. cbn [when skip mret M_ret snd]. run. rewrite gets_eq. cbn [fst snd].
  set (stanza := stanza_of s k) in *. rewrite <- found_cstr, Hx by done.
  change (is_Some_b (strstr (str "urn:ietf:params:xml:ns:xmpp-session") (str "stream"))) with false.
  rewrite andb_false_r, <- find_route_cstr, Hx.
  change (find_route (str "urn:ietf:params:xml:ns:xmpp-session"))
    with (Some (mk_route (str "urn:ietf:params:xml:ns:xmpp-session") handle_core_session STATE_AUTHENTICATED)).
  cbv iota. unfold dispatch. run. rewrite client_eq. cbn [fst snd min_state rt_handler]. rewrite Hs.
  change (state_lt STATE_AUTHENTICATED STATE_AUTHENTICATED) with false. cbv iota.
  unfold handle_core_session. run. set (text := snprintf _ _ _).
  pose proof (within_send full_jid ctx text ltac:(done) ltac:(done) s) as K. set (s1 := snd (send_raw ctx text s)) in *.
  pose proof (keeps_length _ _ _ K) as L. rewrite upd_at by lia.
  split; [done|]. exact (keeps_at _ _ _ ctx K).
Qed.

Definition session_request : xmpp_stanza_t :=
  mk_stanza XMPP_IQ_SET (zeros 64) (zeros 64) (str "s1" ++ zeros 62)
    (str "urn:ietf:params:xml:ns:xmpp-session" ++ zeros 93) (zeros 4) (zeros 32) 1.

Lemma session_without_bind_witness :
  let s := set_stanza_pool [session_request] unbound_server in
  let c := client_of (snd (xmpp_route_stanza (H := good_env) 0 0 s)) 0 in
  state c = STATE_READY /\ full_jid c = full_jid (client_of s 0).
Proof.
  apply (session_without_bind good_env 0 0); [vm_compute; lia|reflexivity|reflexivity|vm_compute; reflexivity].
Defined.
