(* ===== verification/Server.v ===== *)
(** The connection server: src/xmpp/xmpp_server.c, and the part of the main loop
    of src/kernel.c that serves connections.

    lwIP calls the server back: when a connection is accepted, when data or the
    end of the stream arrives, when a connection has failed.  The receive
    callback decrypts, appends to the receive buffer and works off the stanzas
    in it.  It is not structurally recursive: the loop takes fuel and says so
    when it runs out; and it says so when the parser leaves its arrays, which
    yxml errors can make it do (see [StanzaParse]). *)

From Stdlib Require Import ZArith Lia String Ascii Bool.
From stdpp Require Import base list numbers option sets.
From S2P Require Import Prelude.
From S2P Require Import Libc.
From S2P Require Import StanzaScan.
From S2P Require Import SlotMap.
From S2P Require Import XmppCore.
From S2P Require Import StanzaParse.
From S2P Require Import RxBuffer.
From S2P Require Import Logic.
From S2P Require Import Persist.
From S2P Require Import Store.
From S2P Require Import Tls.
From S2P Require Import Sasl.
From S2P Require Import Sm.
From S2P Require Import Iq.
From S2P Require Import Muc.
From S2P Require Import Frame.
From S2P Require Import Router.

Open Scope Z_scope.

#[local] Strategy opaque [snprintf snprintf_into].

(** * Texts *)

(** The value of an attribute of the stream header, in an array of [out_max]
    bytes; the array stays as it is without one. *)
Definition extract_stream_attr (buf attr_name out : list Z) (out_max : Z) : list Z :=
  let key := snprintf 64 (str " %s=") [S_ attr_name] in
  match strstr buf key with
  | None => out
  | Some p =>
      let p := drop (strlen key) p in
      let q := deref p in
      if negb (q =? 39) && negb (q =? 34) then out
      else
        let p := tail p in
        match strchr p q with
        | None => out
        | Some stop => copy_str out p (Z.to_nat (cap (ptr_diff stop p) out_max))
        end
  end.

Definition close_tag : list Z := str "</stream:stream>".

Definition plain_policy_violation : list Z :=
  str "<stream:error>" ++ str "<policy-violation xmlns='urn:ietf:params:xml:ns:xmpp-stanzas'/>" ++
  str "</stream:error>" ++ str "</stream:stream>".

Definition resource_constraint_err : list Z :=
  str "<stream:error>" ++ str "<resource-constraint xmlns='urn:ietf:params:xml:ns:xmpp-stanzas'/>" ++
  str "</stream:error>" ++ str "</stream:stream>".

Definition proceed : list Z := str "<proceed xmlns='urn:ietf:params:xml:ns:xmpp-tls'/>".

Definition tls_failure : list Z := str "<failure xmlns='urn:ietf:params:xml:ns:xmpp-tls'/>".

Definition host_unknown : list Z :=
  str "<?xml version='1.0'?>" ++ str "<stream:stream from='" ++ XMPP_DOMAIN ++ str "' id='0'" ++
  str " version='1.0' xml:lang='en'" ++ str " xmlns='jabber:client'" ++
  str " xmlns:stream='http://etherx.jabber.org/streams'>" ++ str "<stream:error>" ++ str "<host-unknown" ++
  str " xmlns='urn:ietf:params:xml:ns:xmpp-streams'/>" ++ str "</stream:error>" ++ str "</stream:stream>".

(** The refusal of a stream header. *)
Definition stream_error (name : list Z) : list Z :=
  str "<?xml version='1.0'?>" ++ str "<stream:stream from='" ++ XMPP_DOMAIN ++ str "' id='0' version='1.0' " ++
  str "xmlns='jabber:client' " ++ str "xmlns:stream='http://etherx.jabber.org/streams'>" ++
  str "<stream:error>" ++ str "<" ++ name ++ str " " ++
  str "xmlns='urn:ietf:params:xml:ns:xmpp-stanzas'/>" ++ str "</stream:error>" ++ str "</stream:stream>".

Definition sasl_aborted : list Z :=
  str "<failure xmlns='urn:ietf:params:xml:ns:xmpp-sasl'>" ++ str "<aborted/>" ++ str "</failure>".

(** * Closing *)

(** How a call of the receive callback ends. *)
Inductive outcome := Returned | OutOfFuel | Undefined.

(** How a round of the receive loop ends: [continue], [break] or [return]. *)
Inductive round := Continue | Finished | Broken.

Section with_env.
Context `{Env}.

(** [tcp_write(p, data, ...); tcp_output(p);] *)
Definition tcp_say (p : option nat) (data : list Z) : M unit := emit (EvTcp p data) ;; emit (EvOutput p).

(** The closing tag under TLS. *)
Definition tls_say_close (ctx : nat) : M unit :=
  ssl_write_call ctx close_tag ;; output ctx ;; emit (EvCloseNotify ctx).

Definition send_stream_close_and_free (ctx : nat) : M unit :=
  c ← client ctx;
  (if truth (tls_established c) then tls_say_close ctx
   else when (is_Some_b (pcb c) && negb (state_lt (state c) STATE_SASL)) (tcp_say (pcb c) close_tag)) ;;
  xmpp_tls_client_free ctx ;;
  c ← client ctx;
  when (is_Some_b (pcb c)) (emit (EvClose (pcb c))) ;;
  upd_client ctx (fun c => set_state STATE_CONNECTED (set_pcb None c)).

(** * The receive loop *)

(** The white space at the head of the received bytes. *)
Fixpoint space_prefix (data : list Z) : Z :=
  match data with
  | [] => 0
  | c :: data' => if (c =? 32) || (c =? 10) || (c =? 13) || (c =? 9) then 1 + space_prefix data' else 0
  end.

(** [STARTTLS] is answered and the TLS session set up; the rest of the buffer is
    dropped. *)
Definition start_tls (ctx : nat) : M round :=
  c ← client ctx;
  match strchr (rx_buffer c) (chr ">") with
  | None => mret Finished
  | Some _ =>
      tcp_say (pcb c) proceed ;;
      r ← xmpp_tls_client_init ctx;
      c ← client ctx;
      if negb (r =? 0) then
        tcp_say (pcb c) tls_failure ;;
        emit (EvClose (pcb c)) ;;
        upd_client ctx (fun c => set_rx_pos 0 (set_state STATE_CONNECTED (set_pcb None c))) ;;
        mret Finished
      else
        upd_client ctx (fun c => set_rx_pos 0 (set_state STATE_STARTTLS c)) ;; mret Finished
  end.

(** The client closes its stream. *)
Definition close_stream (ctx : nat) : M round :=
  c ← client ctx;
  (if truth (tls_established c) then tls_say_close ctx else tcp_say (pcb c) close_tag) ;;
  xmpp_tls_client_free ctx ;;
  emit (EvClose (pcb c)) ;;
  upd_client ctx (fun c => set_rx_pos 0 (set_state STATE_CONNECTED (set_pcb None c))) ;;
  mret Finished.

(** A refused stream header: the connection is closed, but its control block
    stays in the table. *)
Definition refuse_stream (ctx : nat) (text : list Z) : M round :=
  c ← client ctx;
  tcp_say (pcb c) text ;; emit (EvClose (pcb c)) ;;
  upd_client ctx (set_rx_pos 0) ;; mret Finished.

Definition bad_namespace (buf : list Z) : bool :=
  negb (has_either buf (str "xmlns='jabber:client'") (qstr "xmlns=`jabber:client`")) ||
  negb (has_either buf (str "xmlns:stream='http://etherx.jabber.org/streams'")
          (qstr "xmlns:stream=`http://etherx.jabber.org/streams`")).

Definition bad_version (buf : list Z) : bool :=
  negb (has_either buf (str "version='1.0'") (qstr "version=`1.0`")).

(** A stream header. *)
Definition open_stream (ctx : nat) : M round :=
  c ← client ctx;
  let buf := rx_buffer c in
  if is_Some_b (strstr buf (str "<stream:stream")) then
    upd_client ctx (fun c => set_client_from
      (extract_stream_attr buf (str "from") (<[O := 0]> (client_from c)) 64) c) ;;
    let stream_to := extract_stream_attr buf (str "to") (zeros 64) 64 in
    if negb (truth (tls_established c)) && negb (truth (authenticated c)) &&
       (negb (deref stream_to =? 0) && negb (strcmp stream_to XMPP_DOMAIN =? 0)) then
      tcp_say (pcb c) host_unknown ;; emit (EvClose (pcb c)) ;;
      upd_client ctx (fun c => set_rx_pos 0 (set_pcb None c)) ;; mret Finished
    else if bad_namespace buf then refuse_stream ctx (stream_error (str "invalid-namespace"))
    else if bad_version buf then refuse_stream ctx (stream_error (str "unsupported-version"))
    else handle_handshake_logic ctx ;; upd_client ctx (set_rx_pos 0) ;; mret Finished
  else mret Finished.

(** The client aborts its login. *)
Definition abort_login (ctx : nat) : M round :=
  c ← client ctx;
  match strchr (rx_buffer c) (chr ">") with
  | None => mret Finished
  | Some gt =>
      send_raw ctx sasl_aborted ;;
      upd_client ctx (rx_consume (ptr_diff gt (rx_buffer c) + 1)) ;; mret Continue
  end.

(** The stanza in slot [k] of the pool goes to authentication or to the router. *)
Definition handle_stanza (ctx k : nat) : M unit :=
  c ← client ctx;
  if bool_decide (state c = STATE_CONNECTED) || bool_decide (state c = STATE_SASL) then
    stanza ← gets (fun s => stanza_of s k);
    when (strcmp (st_xmlns stanza) (str "urn:ietf:params:xml:ns:xmpp-sasl") =? 0) (handle_sasl ctx stanza)
  else xmpp_route_stanza ctx k ;; xmpp_sm_on_stanza_received ctx.

(** The next stanza of the buffer. *)
Definition next_stanza (ctx p : nat) : M round :=
  c ← client ctx;
  pool ← gets stanza_pool;
  match parse_xml_stream cpuid_ecx (uninit (Z.to_nat 1024)) (rx_data c) pool with
  | None => mret Broken
  | Some (Parsed k, consumed, pool) =>
      modify (set_stanza_pool pool) ;;
      handle_stanza ctx k ;;
      modify (fun s => set_stanza_pool (xmpp_free_stanza k (stanza_pool s)) s) ;;
      when (0 <? consumed) (upd_client ctx (rx_consume consumed)) ;;
      mret Continue
  | Some (NotParsed PARSE_NO_MEMORY, _, _) =>
      tcp_say (Some p) resource_constraint_err ;; emit (EvClose (Some p)) ;;
      upd_client ctx (fun c => set_state STATE_CONNECTED (set_pcb None c)) ;; mret Finished
  | Some (NotParsed PARSE_INCOMPLETE, _, _) => mret Finished
  end.

Definition is_stream_close (buf : list Z) : bool :=
  (strncmp buf (str "</stream:stream") 15 =? 0) || (strncmp buf (str "</stream>") 9 =? 0).

Definition is_stream_open (buf : list Z) : bool :=
  (strncmp buf (str "<?xml") 5 =? 0) || is_Some_b (strstr buf (str "<stream:stream")).

(** One round, after the leading white space. *)
Definition rx_dispatch (ctx p : nat) : M round :=
  c ← client ctx;
  let buf := rx_buffer c in
  if rx_pos c =? 0 then mret Finished
  else if bool_decide (state c = STATE_CONNECTED) && negb (truth (tls_established c)) &&
          (strncmp buf (str "<starttls") 9 =? 0) then start_tls ctx
  else if is_stream_close buf then close_stream ctx
  else if (bool_decide (state c = STATE_CONNECTED) || bool_decide (state c = STATE_AUTHENTICATED)) &&
          is_stream_open buf then open_stream ctx
  else if (bool_decide (state c = STATE_CONNECTED) || bool_decide (state c = STATE_SASL)) &&
          (strncmp buf (str "<abort") 6 =? 0) then abort_login ctx
  else
    done ← (if negb (state_lt (state c) STATE_SESSION) then xmpp_sm_handle_element ctx else mret 0);
    if negb (done =? 0) then mret Continue else next_stanza ctx p.

Definition rx_round (ctx p : nat) : M round :=
  c ← client ctx;
  let shift := space_prefix (rx_data c) in
  when (0 <? shift) (upd_client ctx (rx_consume shift)) ;;
  rx_dispatch ctx p.

Fixpoint rx_loop (fuel ctx p : nat) : M outcome :=
  match fuel with
  | O => mret OutOfFuel
  | S fuel' =>
      c ← client ctx;
      if rx_pos c <=? 0 then mret Returned
      else
        r ← rx_round ctx p;
        match r with
        | Continue => rx_loop fuel' ctx p
        | Finished => mret Returned
        | Broken => mret Undefined
        end
  end.

(** * Callbacks *)

Definition tot_len (bufs : list (list Z)) : Z := Z.of_nat (sum_list (length <$> bufs)).

(** [for (q = p; q != NULL && ctx->pcb != NULL; q = q->next)] *)
Fixpoint feed (f : list Z -> M unit) (ctx : nat) (bufs : list (list Z)) : M unit :=
  match bufs with
  | [] => skip
  | q :: bufs' => c ← client ctx; if is_Some_b (pcb c) then f q ;; feed f ctx bufs' else skip
  end.

(** The plain bytes go to the receive buffer; whether one did not fit. *)
Fixpoint copy_plain (ctx : nat) (bufs : list (list Z)) : M bool :=
  match bufs with
  | [] => mret false
  | q :: bufs' =>
      c ← client ctx;
      if rx_pos c + Z.of_nat (length q) <? 32767 then upd_client ctx (rx_append q) ;; copy_plain ctx bufs'
      else mret true
  end.

(** [xmpp_recv_callback] for the data of a chain of buffers. *)
Definition recv_data (ctx p : nat) (bufs : list (list Z)) : M outcome :=
  c ← client ctx;
  if bool_decide (state c = STATE_STARTTLS) then
    emit (EvRecved (Some p) (tot_len bufs)) ;;
    feed (xmpp_tls_handshake_step ctx) ctx bufs ;; emit EvPbufFree ;; mret Returned
  else if truth (tls_established c) then
    emit (EvRecved (Some p) (tot_len bufs)) ;;
    feed (xmpp_tls_decrypt ctx) ctx bufs ;; emit EvPbufFree ;; rx_loop RX_BUFFER_SIZE ctx p
  else
    overflow ← copy_plain ctx bufs;
    if (overflow : bool) then
      emit (EvRecved (Some p) (tot_len bufs)) ;; emit EvPbufFree ;;
      tcp_say (Some p) plain_policy_violation ;; emit (EvClose (Some p)) ;;
      upd_client ctx (fun c => set_state STATE_CONNECTED (set_pcb None c)) ;; mret Returned
    else emit (EvRecved (Some p) (tot_len bufs)) ;; emit EvPbufFree ;; rx_loop RX_BUFFER_SIZE ctx p.

(** The end of the stream is [None]. *)
Definition xmpp_recv_callback (ctx p : nat) (data : option (list (list Z))) : M outcome :=
  match data with
  | None =>
      c ← client ctx;
      when (negb (is_Some_b (pcb c))) (upd_client ctx (set_pcb (Some p))) ;;
      send_stream_close_and_free ctx ;;
      upd_client ctx (fun c => set_state STATE_CONNECTED (set_pcb None c)) ;; mret Returned
  | Some bufs => recv_data ctx p bufs
  end.

Definition xmpp_err_callback (ctx : nat) : M unit :=
  upd_client ctx (set_pcb None) ;; xmpp_tls_client_free ctx ;; upd_client ctx (fun _ => client0).

(** [client_idx] is the static variable of the callback; the new value is
    returned. *)
Definition xmpp_accept_callback (client_idx newpcb : nat) : M nat :=
  let ctx := client_idx in
  c ← client ctx;
  (if is_Some_b (pcb c) then xmpp_tls_client_free ctx ;; emit (EvClose (pcb c)) else skip) ;;
  upd_client ctx (fun _ => client0) ;;
  upd_client ctx (fun c => set_authenticated 0 (set_state STATE_CONNECTED (set_pcb (Some newpcb) c))) ;;
  mret ((client_idx + 1) mod MAX_USERS)%nat.

(** [tls_init] is the result of [xmpp_tls_server_init]; whether the server goes
    on to listen, instead of halting. *)
Definition xmpp_init_server (tls_init : Z) : M bool := xmpp_persist_load_all ;; mret (tls_init =? 0).

(** * The main loop of the kernel *)

(** Handshakes that wait to write, and acknowledgement requests. *)
Definition serve_connections : M unit :=
  loop MAX_USERS (fun i =>
    c ← client i;
    when (is_Some_b (pcb c) && bool_decide (state c = STATE_STARTTLS) && truth (tls_want_write c))
      (xmpp_tls_handshake_step i [])) ;;
  loop MAX_USERS (fun i =>
    c ← client i;
    when (is_Some_b (pcb c) && truth (sm_want_ack c))
      (upd_client i (set_sm_want_ack 0) ;; xmpp_sm_request_ack i)).

End with_env.

(** The zeroed global variables, a disk and the answers of [rdrand] to come. *)
Definition globals0 (d : list Z) (r : rdrand) : srv :=
  clear_stores (mk_srv (replicate MAX_USERS client0) [] [] 0 [] [] []
    (replicate MAX_POOL_STANZAS stanza0) d {| rng_state := 0; rng_seeded := false |} r 0 []).
