(* ===== verification/Reach.v ===== *)
(** Every reachable state of the server.

    The events of the outside world, lwIP's callbacks and the rounds of the main
    loop, are the steps of a transition relation; what holds in every reachable
    state is proved by induction over the steps. *)

From Stdlib Require Import ZArith Lia String Ascii Bool.
From stdpp Require Import base list numbers option sets relations.
From S2P Require Import Prelude.
From S2P Require Import Libc.
From S2P Require Import StanzaScan.
From S2P Require Import SlotMap.
From S2P Require Import XmppCore.
From S2P Require Import StanzaParse.
From S2P Require Import RxBuffer.
From S2P Require Import Logic.
From S2P Require Import Persist.
From S2P Require Import Store.
From S2P Require Import Tls.
From S2P Require Import Sasl.
From S2P Require Import Sm.
From S2P Require Import Iq.
From S2P Require Import Frame.
From S2P Require Import Router.
From S2P Require Import Server.

Open Scope Z_scope.

#[local] Strategy opaque [snprintf snprintf_into].

(** * The invariant of a connection *)

(** The receive buffer: [rx_ok] as soon as it holds something.  (Dropping the
    buffer with [rx_pos = 0] leaves its first byte.) *)
Record rx_fits (c : xmpp_client_ctx_t) : Prop := {
  rf_size : length (rx_buffer c) = RX_BUFFER_SIZE;
  rf_pos : 0 <= rx_pos c < 32768;
  rf_nul : 0 < rx_pos c -> rx_buffer c !! Z.to_nat (rx_pos c) = Some 0
}.

(** Beyond the login is only who has authenticated. *)
Definition logged (c : xmpp_client_ctx_t) : Prop := authed c = true -> authenticated c <> 0.

(** Who logs in, or is authenticated, on an open connection talks through TLS. *)
Definition secure (c : xmpp_client_ctx_t) : Prop :=
  logged c /\
  (pcb c <> None ->
   (state_lt (state c) STATE_SASL = false -> tls_established c <> 0) /\
   (authenticated c <> 0 -> tls_established c <> 0)).

Record conn_ok (c : xmpp_client_ctx_t) : Prop := {
  co_rx : rx_fits c;
  co_staging : staging_ok c;
  co_secure : secure c
}.

(** The buffers alone. *)
Definition bufs_ok (c : xmpp_client_ctx_t) : Prop := rx_fits c /\ staging_ok c /\ logged c.

Definition net_view (c : xmpp_client_ctx_t) := (conn_view c, state c).

Lemma rx_fits_view c c' : (rx_buffer c', rx_pos c') = (rx_buffer c, rx_pos c) -> rx_fits c -> rx_fits c'.
Proof. intros [= E1 E2] [H1 H2 H3]. split; by rewrite ?E1, ?E2. Qed.

Lemma staging_view c c' :
  (tls_rx_buf c', tls_rx_len c', tls_rx_pos c') = (tls_rx_buf c, tls_rx_len c, tls_rx_pos c) ->
  staging_ok c -> staging_ok c'.
Proof. intros [= E1 E2 E3] [H1 H2 H3]. split; by rewrite ?E1, ?E2, ?E3. Qed.

Definition auth_view (c : xmpp_client_ctx_t) := (pcb c, state c, authenticated c, tls_established c).

Lemma secure_view c c' : auth_view c' = auth_view c -> secure c -> secure c'.
Proof. intros [= E1 E2 E3 E4]. unfold secure, logged, authed. by rewrite E1, E2, E3, E4. Qed.

Lemma conn_ok_calm c c' : calm c c' -> conn_ok c -> conn_ok c'.
Proof.
  intros [V S] [H1 H2 H3]. unfold conn_view in V. injection V as E1 E2 E3 E4 E5 E6 E7 E8 E9 E10. split.
  - apply (rx_fits_view c); [congruence|done].
  - apply (staging_view c); [congruence|done].
  - destruct H3 as [B H3]. unfold secure, logged, authed in *. rewrite E1, E2, E8.
    destruct S as [->|[A1 A2]]; [done|]. split; [auto|]. intros Hp. destruct (H3 Hp) as [A C]. auto.
Qed.

Lemma client0_ok : conn_ok client0.
Proof.
  split.
  - split; cbn [client0 rx_buffer rx_pos]; [apply length_replicate|lia|lia].
  - split; cbn [client0 tls_rx_buf tls_rx_pos tls_rx_len]; unfold TLS_RX_BUF_SIZE; [|lia|lia].
    unfold zeros. rewrite length_replicate. unfold RX_BUFFER_SIZE. lia.
  - by split; intros Hp.
Qed.

Lemma calm0_ok c : calm client0 c -> conn_ok c.
Proof. intros H. eapply conn_ok_calm; [exact H|apply client0_ok]. Qed.

(** A change of fields outside the network side. *)
Lemma conn_ok_net c c' : net_view c' = net_view c -> conn_ok c -> conn_ok c'.
Proof.
  intros E. apply conn_ok_calm. unfold net_view in E. split; [|left]; congruence.
Qed.

(** * Steps of one connection *)

(** From a run in one state to the program as a whole. *)
Ltac as_within :=
  match goal with
  | |- ?R ?t (snd (?m ?t)) => let W := fresh in enough (within R m) as W by exact (W t)
  end.

(** Only connection [ctx] changes, and it keeps the property [P]. *)
Definition upholds (P : xmpp_client_ctx_t -> Prop) (ctx : nat) (s s' : srv) : Prop :=
  only ctx s s' /\ stanza_pool s' = stanza_pool s /\ (P (client_of s ctx) -> P (client_of s' ctx)).

#[export] Instance upholds_preorder P ctx : PreOrder (upholds P ctx).
Proof.
  split; [intros s; by split_and!|].
  intros s1 s2 s3 (O1 & P1 & K1) (O2 & P2 & K2). split_and!; [by etransitivity|congruence|auto].
Qed.

Notation okstep := (upholds conn_ok).

Section upholds.
Context `{Env} (P : xmpp_client_ctx_t -> Prop) (ctx : nat).

Lemma upholds_same {A} (m : M A) : within (same conns) m -> within (upholds P ctx) m.
Proof.
  intros Hm s. pose proof (Hm s) as E. injection E as E1 E2.
  split_and!; [by apply only_same|done|]. unfold client_of. by rewrite E1.
Qed.

Lemma upholds_upd f : (forall c, P c -> P (f c)) -> within (upholds P ctx) (upd_client ctx f).
Proof.
  intros Hf s. split_and!; [apply only_upd|done|]. cbn [snd upd_client modify]. rewrite client_of_alter.
  case_decide; auto.
Qed.

(** The same with what is known of the connection. *)
Lemma upholds_upd_at f s :
  (P (client_of s ctx) -> P (f (client_of s ctx))) -> upholds P ctx s (snd (upd_client ctx f s)).
Proof.
  intros Hf. split_and!; [apply only_upd|done|]. cbn [snd upd_client modify]. rewrite client_of_alter.
  case_decide; auto.
Qed.

Lemma upholds_emit e : within (upholds P ctx) (emit e).
Proof. by apply upholds_same. Qed.

Lemma upholds_call : within (upholds P ctx) call.
Proof. by apply upholds_same. Qed.

Lemma upholds_random : within (upholds P ctx) random_u32.
Proof.
  apply upholds_same. intros s. unfold random_u32, same. by destruct (secure_random_u32 _ _ _) as [[? ?] ?].
Qed.

End upholds.

#[export] Hint Resolve upholds_emit upholds_call upholds_random : handlers.

Lemma upholds_output P ctx : within (upholds P ctx) (output ctx).
Proof. unfold output. within_auto. Qed.

Lemma upholds_ssl_write `{Env} P ctx p : within (upholds P ctx) (ssl_write_call ctx p).
Proof. unfold ssl_write_call. within_auto. Qed.

Lemma upholds_say P ctx p d : within (upholds P ctx) (tcp_say p d).
Proof. unfold tcp_say. within_auto. Qed.

#[export] Hint Resolve upholds_output upholds_ssl_write upholds_say : handlers.

Lemma upholds_say_close `{Env} P ctx : within (upholds P ctx) (tls_say_close ctx).
Proof. unfold tls_say_close. within_auto. Qed.

#[export] Hint Resolve upholds_say_close : handlers.

Section steps.
Context `{Env} (ctx : nat).

(** Sending is gentle and touches no other connection. *)
Lemma okstep_gentle {A} (m : M A) : within (only ctx) m -> within (gentle ctx) m -> within (okstep ctx) m.
Proof.
  intros Ho Hg s. destruct (Hg s) as (_ & P & Hc). split_and!; [apply Ho|done|].
  destruct (Hc ctx) as [C|[N _]]; [|done]. by apply conn_ok_calm.
Qed.

Lemma okstep_send d : within (okstep ctx) (send_raw ctx d).
Proof. apply okstep_gentle; [apply only_send_raw|apply gentle_send]. Qed.

(** Fields the invariant does not look at. *)
Lemma okstep_net f : (forall c, net_view (f c) = net_view c) -> within (okstep ctx) (upd_client ctx f).
Proof. intros Hf. apply upholds_upd. intros c. by apply conn_ok_net. Qed.

Lemma okstep_want n : within (okstep ctx) (upd_client ctx (set_tls_want_write n)).
Proof.
  apply upholds_upd. intros c [H1 H2 H3].
  split; [by revert H1; apply rx_fits_view|by revert H2; apply staging_view|by revert H3; apply secure_view].
Qed.

Lemma drop_pcb_ok c c' :
  pcb c' = None -> (authed c' = true -> authed c = true) -> authenticated c' = authenticated c ->
  (rx_buffer c', rx_pos c') = (rx_buffer c, rx_pos c) ->
  (tls_rx_buf c', tls_rx_len c', tls_rx_pos c') = (tls_rx_buf c, tls_rx_len c, tls_rx_pos c) ->
  conn_ok c -> conn_ok c'.
Proof.
  intros Ep Ea Eb Er Et [H1 H2 [H3 _]]. split; [by eapply rx_fits_view|by eapply staging_view|].
  split; [intros A; rewrite Eb; auto|]. intros Hp. by rewrite Ep in Hp.
Qed.

Lemma okstep_close_pcb : within (okstep ctx) (close_pcb ctx).
Proof.
  unfold close_pcb. within_auto. apply upholds_upd. intros c. by apply drop_pcb_ok.
Qed.

Lemma okstep_compact : within (okstep ctx) (tls_staging_compact ctx).
Proof.
  apply upholds_upd. intros c [H1 H2 H3]. split; [|by apply staging_compact_ok|].
  - revert H1. apply rx_fits_view. unfold staging_compact. by repeat case_match.
  - revert H3. apply secure_view. unfold staging_compact. by repeat case_match.
Qed.

Lemma okstep_net_recv len : within (okstep ctx) (tls_net_recv ctx len).
Proof.
  apply upholds_upd. intros c [H1 H2 H3]. pose proof (net_recv_ok c (Z.of_nat len) H2 ltac:(lia)) as Hn.
  split.
  - revert H1. apply rx_fits_view. unfold net_recv. cbv zeta. by destruct (_ <=? 0).
  - destruct (net_recv _ c). naive_solver.
  - revert H3. apply secure_view. unfold net_recv. cbv zeta. by destruct (_ <=? 0).
Qed.

Hint Resolve okstep_send okstep_close_pcb okstep_compact okstep_net_recv : handlers.

Lemma okstep_callbacks n : within (okstep ctx) (ssl_callbacks ctx n).
Proof. unfold ssl_callbacks, tls_net_send. within_auto. Qed.

Hint Resolve okstep_callbacks : handlers.

(** After the control block is gone the TLS flag may go too. *)
Lemma okstep_close_drop f :
  (forall c, pcb (f c) = pcb c) -> (forall c, authed (f c) = true -> authed c = true) ->
  (forall c, authenticated (f c) = authenticated c) -> (forall c, (rx_buffer (f c), rx_pos (f c)) = (rx_buffer c, rx_pos c)) ->
  (forall c, (tls_rx_buf (f c), tls_rx_len (f c), tls_rx_pos (f c)) = (tls_rx_buf c, tls_rx_len c, tls_rx_pos c)) ->
  within (okstep ctx) (close_pcb ctx ;; upd_client ctx f).
Proof.
  intros Hp Ha Hb Hr Ht s. run. pose proof (okstep_close_pcb s) as (O & P & K). set (s1 := snd (close_pcb ctx s)) in *.
  assert (pcb (client_of s1 ctx) = None) as Ep.
  { unfold s1, close_pcb. run. rewrite client_eq. cbn [fst snd].
    destruct (pcb (client_of s ctx)) as [q|] eqn:E; cbn [is_Some_b]; [|done]. run.
    cbn [snd upd_client modify emit]. rewrite client_of_alter. case_decide as D; [done|].
    change (pcb (client_of s ctx) = None). unfold client_of. rewrite (proj2 (lookup_ge_None _ _)); [done|].
    change (client_registry (set_trace (trace s ++ [EvClose (Some q)]) s)) with (client_registry s) in D.
    apply not_and_l in D. destruct D; [done|lia]. }
  split_and!; [etransitivity; [exact O|apply only_upd]|done|].
  intros Hc. apply K in Hc. cbn [snd upd_client modify]. rewrite client_of_alter.
  case_decide; [|done]. revert Hc. apply drop_pcb_ok; [by rewrite Hp|apply Ha|apply Hb|apply Hr|apply Ht].
Qed.

Lemma within_client_dep {A} R i (f : xmpp_client_ctx_t -> M A) :
  (forall s, R s (snd (f (client_of s i) s))) -> within R (client i ≫= f).
Proof. intros Hf s. run. apply Hf. Qed.

(** A segment that fits goes to the staging buffer. *)
Lemma okstep_append data s :
  Z.of_nat (length data) <= TLS_RX_BUF_SIZE - tls_rx_len (client_of s ctx) ->
  okstep ctx s (snd (when (0 <? Z.of_nat (length data)) (upd_client ctx (staging_append data)) s)).
Proof.
  intros Hd. destruct (0 <? _); [|reflexivity]. cbn [when]. apply upholds_upd_at.
  intros [H1 H2 H3]. split; [|by apply staging_append_ok|].
  - by revert H1; apply rx_fits_view.
  - by revert H3; apply secure_view.
Qed.

Lemma handshake_done_ok c :
  conn_ok c ->
  conn_ok (set_tls_established 1 (set_tls_want_write 0 (set_state STATE_CONNECTED (set_rx_pos 0 c)))).
Proof.
  intros [[H1 H2 H3] H4 H5]. split.
  - split; cbn; [done|lia|lia].
  - by revert H4; apply staging_view.
  - by split; [|intros _; split_and!].
Qed.

Lemma okstep_handshake data : within (okstep ctx) (xmpp_tls_handshake_step ctx data).
Proof.
  unfold xmpp_tls_handshake_step. apply within_bind; [typeclasses eauto|apply okstep_compact|intros _].
  apply within_client_dep. intros s. destruct (Z.ltb_spec (TLS_RX_BUF_SIZE - tls_rx_len (client_of s ctx)) (Z.of_nat (length data))).
  { by apply okstep_close_drop. }
  run. etransitivity; [by apply okstep_append|].
  as_within. apply within_bind; [typeclasses eauto|apply upholds_call|intros n].
  apply within_bind; [typeclasses eauto|apply okstep_callbacks|intros _].
  do 2 (apply within_bind; [typeclasses eauto|eauto with handlers|intros _]).
  destruct (_ =? 0); [apply upholds_upd, handshake_done_ok|].
  destruct (_ =? _); [apply okstep_want|]. destruct (_ =? _); [apply okstep_want|].
  apply within_bind; [typeclasses eauto|apply okstep_want|intros _]. by apply okstep_close_drop.
Qed.

(** Decrypted bytes are appended to the receive buffer when they fit. *)
Lemma rx_append_fits data c :
  rx_fits c -> rx_pos c + Z.of_nat (length data) < 32767 -> rx_fits (rx_append data c).
Proof.
  intros [Hs Hp _] Hd. unfold RX_BUFFER_SIZE in *. unfold rx_append. set (n := Z.to_nat (rx_pos c)).
  assert (length (take n (rx_buffer c) ++ memcpy (drop n (rx_buffer c)) data (length data)) = Z.to_nat 32768) as L.
  { rewrite memcpy_eq, !length_app, length_take, firstn_all, length_drop, length_drop by lia. lia. }
  split; cbn [rx_buffer rx_pos set_rx_pos set_rx_buffer]; unfold RX_BUFFER_SIZE.
  - by rewrite length_insert.
  - lia.
  - intros _. apply list_lookup_insert_eq. rewrite L. lia.
Qed.

Lemma okstep_rx_append data s :
  rx_pos (client_of s ctx) + Z.of_nat (length data) < 32767 ->
  okstep ctx s (snd (upd_client ctx (rx_append data) s)).
Proof.
  intros Hd. apply upholds_upd_at. intros [H1 H2 H3].
  split; [by apply rx_append_fits|by revert H2; apply staging_view|by revert H3; apply secure_view].
Qed.

Lemma okstep_decrypt_loop fuel : within (okstep ctx) (decrypt_loop fuel ctx).
Proof.
  induction fuel as [|fuel IH]; cbn [decrypt_loop]; [within_auto|].
  apply within_bind; [typeclasses eauto|apply upholds_call|intros n].
  apply within_bind; [typeclasses eauto|apply okstep_callbacks|intros _].
  destruct (ssl_read n) as [r dec]. apply within_client_dep. intros s. destruct (Z.ltb_spec 0 r).
  - destruct (Z.ltb_spec (rx_pos (client_of s ctx) + r) 32767).
    + run. etransitivity; [|apply IH]. apply okstep_rx_append. rewrite length_take. lia.
    + as_within. within_auto. apply upholds_upd. intros c'. by apply drop_pcb_ok.
  - destruct (_ =? 0); [apply okstep_close_pcb|]. destruct (_ && _); [by apply okstep_close_drop|apply okstep_compact].
Qed.

Lemma okstep_decrypt data : within (okstep ctx) (xmpp_tls_decrypt ctx data).
Proof.
  unfold xmpp_tls_decrypt. apply within_bind; [typeclasses eauto|apply okstep_compact|intros _].
  apply within_client_dep. intros s. destruct (Z.ltb_spec (TLS_RX_BUF_SIZE - tls_rx_len (client_of s ctx)) (Z.of_nat (length data))).
  { apply okstep_close_pcb. }
  run. etransitivity; [by apply okstep_append|apply okstep_decrypt_loop].
Qed.

(** ** Closing *)

(** A run that may break [secure], but not the buffers: dropping the control
    block afterwards makes it a step. *)
Lemma memstep_free : within (upholds bufs_ok ctx) (xmpp_tls_client_free ctx).
Proof.
  unfold xmpp_tls_client_free. within_auto. apply upholds_upd. intros c (H1 & [H2 H3 H4] & H5). split_and!; [| |done].
  - by revert H1; apply rx_fits_view.
  - split; [done|cbn; lia|cbn; unfold TLS_RX_BUF_SIZE; lia].
Qed.

Hint Resolve memstep_free : handlers.

Lemma memstep_drop f s s1 :
  (forall c, pcb (f c) = None) -> (forall c, authed (f c) = true -> authed c = true) ->
  (forall c, authenticated (f c) = authenticated c) -> (forall c, rx_fits c -> rx_fits (f c)) ->
  (forall c, (tls_rx_buf (f c), tls_rx_len (f c), tls_rx_pos (f c)) = (tls_rx_buf c, tls_rx_len c, tls_rx_pos c)) ->
  upholds bufs_ok ctx s s1 -> okstep ctx s (snd (upd_client ctx f s1)).
Proof.
  intros Hp Ha Hb Hr Ht (O & P & K). split_and!; [etransitivity; [exact O|apply only_upd]|done|].
  intros [H1 H2 [H3 _]]. destruct (K (conj H1 (conj H2 H3))) as (K1 & K2 & K3). clear H1 H2 H3. cbn [snd upd_client modify]. rewrite client_of_alter.
  case_decide as D.
  - split; [by apply Hr|by revert K2; apply staging_view|]. split; [|intros Hn; by rewrite Hp in Hn].
    intros A. rewrite Hb. auto.
  - split; [done|done|]. split; [done|]. intros Hn.
    assert (client_of s1 ctx = client0) as E0.
    { unfold client_of. rewrite (proj2 (lookup_ge_None _ _)); [done|].
      apply not_and_l in D. destruct D; [done|lia]. }
    by rewrite E0 in Hn.
Qed.

Lemma rx_fits_reset c : rx_fits c -> rx_fits (set_rx_pos 0 c).
Proof. intros [H1 H2 H3]. split; cbn; [done|lia|lia]. Qed.

Lemma okstep_close_stream : within (okstep ctx) (close_stream ctx).
Proof.
  intros s. unfold close_stream. run. rewrite client_eq. cbn [fst snd]. set (c := client_of s ctx). run.
  set (s1 := snd (_ s)).
  assert (upholds bufs_ok ctx s s1) as M1 by (unfold s1; as_within; within_auto).
  run. pose proof (memstep_free s1) as M2. set (s2 := snd (xmpp_tls_client_free ctx s1)) in *. run.
  pose proof (upholds_emit bufs_ok ctx (EvClose (pcb c)) s2) as M3. set (s3 := snd (emit _ s2)) in *. run.
  apply memstep_drop; [done|done|done| |done|by repeat (etransitivity; [eassumption|])].
  intros c' Hc. apply (rx_fits_reset c') in Hc. by revert Hc; apply rx_fits_view.
Qed.

Lemma okstep_stream_close s0 s :
  upholds bufs_ok ctx s0 s -> okstep ctx s0 (snd (send_stream_close_and_free ctx s)).
Proof.
  intros M0. unfold send_stream_close_and_free. run. rewrite client_eq. cbn [fst snd]. set (c := client_of s ctx). run.
  set (s1 := snd (_ s)).
  assert (upholds bufs_ok ctx s s1) as M1 by (unfold s1; as_within; within_auto).
  run. pose proof (memstep_free s1) as M2. set (s2 := snd (xmpp_tls_client_free ctx s1)) in *. run.
  rewrite client_eq. cbn [fst snd]. run. set (s3 := snd (when _ _ s2)).
  assert (upholds bufs_ok ctx s2 s3) as M3 by (unfold s3; as_within; within_auto).
  apply memstep_drop; [done|done|done| |done|by repeat (etransitivity; [eassumption|])].
  intros c' Hc. by revert Hc; apply rx_fits_view.
Qed.

(** ** Logging in *)

Lemma okstep_refuse : within (okstep ctx) (sasl_refuse ctx).
Proof.
  unfold sasl_refuse. within_auto; [by apply okstep_net|]. apply upholds_upd. intros c. by apply drop_pcb_ok.
Qed.

Lemma login_ok c :
  tls_established c <> 0 -> conn_ok c -> conn_ok (set_state STATE_AUTHENTICATED (set_authenticated 1 c)).
Proof.
  intros He [H1 H2 H3]. split; [by revert H1; apply rx_fits_view|by revert H2; apply staging_view|].
  by split; [|intros Hp; split_and!].
Qed.

Lemma okstep_sasl stanza : within (okstep ctx) (handle_sasl ctx stanza).
Proof.
  unfold handle_sasl. apply within_client_dep. intros s. destruct (truth (tls_established (client_of s ctx))) eqn:Et.
  2: { apply okstep_send. }
  cbn [negb]. destruct (_ && _); [apply okstep_send|]. destruct (b64decode _ _) as [d|]; [|apply okstep_send].
  run. set (f := put_username _). assert (within (keeps calm_view) (upd_client ctx f)) as Kf.
  { by apply within_upd_keeps. }
  assert (okstep ctx s (snd (upd_client ctx f s))) as O1 by (by apply okstep_net).
  pose proof (keeps_at _ _ _ ctx (Kf s)) as V1. set (s1 := snd (upd_client ctx f s)) in *.
  etransitivity; [exact O1|]. clear O1. destruct (existsb _ _); [apply okstep_refuse|].
  run. set (m := when _ _). assert (within (keeps calm_view) m) as Km.
  { unfold m. apply within_when; [typeclasses eauto|]. by apply within_upd_keeps. }
  assert (okstep ctx s1 (snd (m s1))) as O2.
  { as_within. unfold m. apply within_when; [typeclasses eauto|]. by apply okstep_net. }
  pose proof (keeps_at _ _ _ ctx (Km s1)) as V2. set (s2 := snd (m s1)) in *.
  etransitivity; [exact O2|]. clear O2. run. rewrite client_eq. cbn [fst snd].
  destruct (_ && _); [apply okstep_refuse|]. run. set (text := str _).
  pose proof (okstep_send text s2) as O3. pose proof (within_send calm_view ctx text ltac:(done) ltac:(done) s2) as K3.
  pose proof (keeps_at _ _ _ ctx K3) as V3. set (s3 := snd (send_raw ctx text s2)) in *.
  etransitivity; [exact O3|]. apply upholds_upd_at, login_ok.
  rewrite V2, V1 in V3. assert (tls_established (client_of s3 ctx) = tls_established (client_of s ctx)) as ->.
  { unfold calm_view, conn_view in V3. by injection V3. }
  unfold truth in Et. by apply negb_true_iff, Z.eqb_neq in Et.
Qed.

Lemma truth_spec z : truth z = true <-> z <> 0.
Proof. unfold truth. by rewrite negb_true_iff, Z.eqb_neq. Qed.

Lemma to_bind_ok c : authenticated c <> 0 -> conn_ok c -> conn_ok (set_state STATE_BIND c).
Proof.
  intros Ha [H1 H2 H3]. split; [by revert H1; apply rx_fits_view|by revert H2; apply staging_view|].
  destruct H3 as [A B]. split; [intros _; exact Ha|]. intros Hp. destruct (B Hp) as [C D]. split; cbn; auto.
Qed.

Lemma to_sasl_ok c :
  authenticated c = 0 -> tls_established c <> 0 -> conn_ok c -> conn_ok (set_state STATE_SASL c).
Proof.
  intros Ha He [H1 H2 H3]. split; [by revert H1; apply rx_fits_view|by revert H2; apply staging_view|].
  by split; [|intros Hp; split_and!; cbn; auto].
Qed.

Lemma okstep_negotiate : within (okstep ctx) (handle_handshake_logic ctx).
Proof.
  unfold handle_handshake_logic. apply within_bind; [typeclasses eauto|apply upholds_random|intros stream_id].
  apply within_client_dep. intros s. run. set (m := when _ _).
  assert (okstep ctx s (snd (m s))) as O1.
  { unfold m. destruct (truth _) eqn:E; [|reflexivity]. cbn [when]. apply upholds_upd_at, to_bind_ok. by apply truth_spec. }
  etransitivity; [exact O1|]. as_within. clear. apply within_bind; [typeclasses eauto|apply okstep_send|intros _].
  apply within_client_dep. clear s. intros s. destruct (_ && _) eqn:E; [|reflexivity].
  apply andb_prop in E as [E1 E2]. apply truth_spec in E2. cbn [when]. apply upholds_upd_at, to_sasl_ok; [|done].
  destruct (Z.eq_dec (authenticated (client_of s ctx)) 0) as [|N]; [done|]. apply truth_spec in N. by rewrite N in E1.
Qed.
End steps.

(** ** STARTTLS *)

(** A connection before its TLS session. *)
Definition plain_ok (c : xmpp_client_ctx_t) : Prop :=
  bufs_ok c /\ (pcb c <> None -> authenticated c = 0 /\ state_lt (state c) STATE_SASL = true).

Lemma plain_conn_ok c : plain_ok c -> conn_ok c.
Proof.
  intros [(H1 & H2 & H4) H3]. split; [done|done|]. split; [done|]. intros Hp. destruct (H3 Hp) as [A B].
  split; congruence.
Qed.

Lemma conn_plain_ok c :
  conn_ok c -> tls_established c = 0 -> state c = STATE_CONNECTED -> plain_ok c.
Proof.
  intros [H1 H2 [H4 H3]] He Hs. split; [by split_and!|]. intros Hp. destruct (H3 Hp) as [_ C]. rewrite Hs. split; [|done].
  destruct (Z.eq_dec (authenticated c) 0); [done|]. by destruct C.
Qed.

(** [plain_ok] only looks at these fields. *)
Lemma plain_view c c' :
  (rx_fits c -> rx_fits c') -> (staging_ok c -> staging_ok c') -> (logged c -> logged c') ->
  (pcb c' <> None -> pcb c <> None /\ authenticated c' = authenticated c /\
     (state c' = state c \/ state_lt (state c') STATE_SASL = true)) -> plain_ok c -> plain_ok c'.
Proof.
  intros Hr Hs Hl Hv [(H1 & H2 & H4) H3]. split; [split_and!; auto|]. intros Hp. destruct (Hv Hp) as (A & B & C).
  destruct (H3 A) as [D E]. split; [congruence|]. by destruct C as [-> |C].
Qed.

Lemma staging_reset c : staging_ok c -> staging_ok (set_tls_rx_len 0 (set_tls_rx_pos 0 c)).
Proof. intros [H1 H2 H3]. split; [done|cbn; lia|cbn; unfold TLS_RX_BUF_SIZE; lia]. Qed.

Lemma plain_start_tls `{Env} ctx : within (upholds plain_ok ctx) (start_tls ctx).
Proof.
  unfold start_tls, xmpp_tls_client_init.
  within_auto; apply upholds_upd; intros c; apply plain_view; intros Hc; try done; try (by split_and!; [..|left]).
  all: try (apply rx_fits_reset in Hc; revert Hc; by apply rx_fits_view).
  all: try (revert Hc; by apply rx_fits_view).
  all: try (revert Hc; by apply staging_view).
  - apply staging_reset in Hc. revert Hc. by apply staging_view.
  - split_and!; [done|done|by right].
Qed.

(** * Rounds of the receive loop *)

(** The whole server: every connection, and the stanza pool free between
    stanzas. *)
Record sys_ok (s : srv) : Prop := {
  sy_users : length (client_registry s) = MAX_USERS;
  sy_conn : forall i, conn_ok (client_of s i);
  sy_pool : Forall (fun st => st_is_used st = 0) (stanza_pool s) /\ stanza_pool s <> []
}.

Lemma sys_okstep ctx s s' : okstep ctx s s' -> sys_ok s -> sys_ok s'.
Proof.
  intros ([L O] & P & K) [H1 H2 H3]. split; [congruence| |by rewrite P].
  intros i. destruct (decide (i = ctx)) as [->|N]; [auto|]. by rewrite O.
Qed.

Lemma sys_gentle ctx s s' : gentle ctx s s' -> sys_ok s -> sys_ok s'.
Proof.
  intros (L & P & C) [H1 H2 H3]. split; [congruence| |by rewrite P].
  intros i. destruct (C i) as [Ci|[_ Ci]]; [by eapply conn_ok_calm|by apply calm0_ok].
Qed.

Section rounds.
Context `{Env} (ctx : nat).

(** The receive buffer of a connection. *)
Definition rxv (c : xmpp_client_ctx_t) := (rx_buffer c, rx_pos c).

Lemma rx_ready c : conn_ok c -> 0 < rx_pos c -> rx_ok c.
Proof. intros [[H1 H2 H3] _ _] Hp. split; auto. Qed.

Lemma rx_consume_conn n c : 0 < rx_pos c -> 0 <= n <= rx_pos c -> conn_ok c -> conn_ok (rx_consume n c).
Proof.
  intros Hp Hn Hc. pose proof (rx_ready c Hc Hp) as Hr. destruct (rx_consume_ok c n Hr Hn) as [[R1 R2 R3] _].
  destruct Hc as [_ H2 H3]. split; [by split|by revert H2; apply staging_view|by revert H3; apply secure_view].
Qed.

(** Less is left to do: the buffer holds a proper end of what it held. *)
Definition went_on (s s' : srv) : Prop :=
  rx_pos (client_of s' ctx) < rx_pos (client_of s ctx) /\
  rx_data (client_of s' ctx) `suffix_of` rx_data (client_of s ctx).

(** A run that keeps the receive buffer, followed by the consumption of [n]
    bytes. *)
Lemma consume_after s s1 n :
  conn_ok (client_of s ctx) ->
  (ctx < length (client_registry s1))%nat -> rxv (client_of s1 ctx) = rxv (client_of s ctx) ->
  0 < n <= rx_pos (client_of s ctx) ->
  okstep ctx s1 (snd (upd_client ctx (rx_consume n) s1)) /\
  went_on s (snd (upd_client ctx (rx_consume n) s1)) /\
  state (client_of (snd (upd_client ctx (rx_consume n) s1)) ctx) = state (client_of s1 ctx).
Proof.
  intros Hc Hl [= E1 E2] Hn. assert (rx_data (client_of s1 ctx) = rx_data (client_of s ctx)) as Ed.
  { unfold rx_data. by rewrite E1, E2. }
  split_and!.
  - apply upholds_upd_at. apply rx_consume_conn; rewrite E2; lia.
  - split; rewrite upd_at by done; [cbn [rx_consume rx_pos set_rx_pos]; lia|].
    apply rx_ready in Hc; [|lia]. destruct (rx_consume_ok (client_of s1 ctx) n) as [_ ->]; [|lia|].
    + destruct Hc as [R1 R2 R3]. split; congruence.
    + rewrite Ed. exists (take (Z.to_nat n) (rx_data (client_of s ctx))). by rewrite take_drop.
  - by rewrite upd_at by done.
Qed.

(** yxml reports an error on a stanza that some end of [data] starts with. *)
Definition rejected (data : list Z) : Prop :=
  exists payload, payload `suffix_of` data /\ ~ accepted cpuid_ecx (uninit (Z.to_nat 1024)) payload.

(** The bytes in the buffer are the beginning of something longer: of a tag, of
    a stream header after an XML declaration, of a stanza. *)
Definition partial (c : xmpp_client_ctx_t) : Prop :=
  strchr (rx_buffer c) (chr ">") = None \/
  (is_stream_open (rx_buffer c) = true /\ strstr (rx_buffer c) (str "<stream:stream") = None) \/
  unfinished cpuid_ecx (rx_data c).

(** There is nothing to do for the connection before more bytes arrive. *)
Definition settled (c : xmpp_client_ctx_t) : Prop := pcb c = None \/ rx_pos c = 0 \/ partial c.

(** What a round owes: the server's invariant, and, to go on, a shorter buffer;
    it ends the loop when nothing is left to do and breaks off only when yxml
    rejects. *)
Definition round_ok (s : srv) (r : round) (s' : srv) : Prop :=
  sys_ok s' /\
  (r = Continue -> went_on s s' /\ state (client_of s' ctx) <> STATE_STARTTLS) /\
  (r = Finished -> settled (client_of s' ctx)) /\
  (r = Broken -> uninit (Z.to_nat 1024) <> [] -> rejected (rx_data (client_of s ctx))).

Lemma round_finished s s' : sys_ok s' -> settled (client_of s' ctx) -> round_ok s Finished s'.
Proof. by split. Qed.

Lemma round_continue s s' :
  sys_ok s' -> went_on s s' -> state (client_of s' ctx) <> STATE_STARTTLS -> round_ok s Continue s'.
Proof. by split. Qed.

(** Programs that end the loop. *)
Definition ends (m : M round) : Prop := forall s, fst (m s) = Finished /\ settled (client_of (snd (m s)) ctx).

Lemma ends_bind {A} (m : M A) (f : A -> M round) : (forall a, ends (f a)) -> ends (m ≫= f).
Proof. intros Hf s. run. apply Hf. Qed.

Lemma ends_upd f : (forall c, settled (f c)) -> ends (upd_client ctx f ;; mret Finished).
Proof.
  intros Hf s. run. split; [done|]. cbn [snd mret M_ret upd_client modify]. rewrite client_of_alter.
  case_decide as D; [done|]. right. left. unfold client_of. rewrite (proj2 (lookup_ge_None _ _)); [done|].
  apply not_and_l in D. destruct D; [done|lia].
Qed.

Lemma settled_reset c : settled (set_rx_pos 0 c).
Proof. right. by left. Qed.

Ltac ends_auto :=
  repeat match goal with
  | |- ends (upd_client _ _ ≫= _) => apply ends_upd; intros ?; apply settled_reset
  | |- ends (_ ≫= _) => apply ends_bind; intros ?
  | |- ends (if ?b then _ else _) => destruct b
  | |- ends (match ?x with _ => _ end) => destruct x
  end.

Lemma round_ends (m : M round) s : ends m -> sys_ok (snd (m s)) -> round_ok s (fst (m s)) (snd (m s)).
Proof. intros He Hs. destruct (He s) as [-> ?]. by apply round_finished. Qed.

Lemma start_tls_round s :
  sys_ok s -> state (client_of s ctx) = STATE_CONNECTED -> tls_established (client_of s ctx) = 0 ->
  round_ok s (fst (start_tls ctx s)) (snd (start_tls ctx s)).
Proof.
  intros Hs Hc He. assert (sys_ok (snd (start_tls ctx s))) as Hs'.
  { pose proof (plain_start_tls ctx s) as (O & P & K). eapply sys_okstep; [|exact Hs]. split_and!; [done|done|].
    intros Hk. by apply plain_conn_ok, K, conn_plain_ok. }
  revert Hs'. unfold start_tls. rewrite bind_eq, client_eq. cbn [fst snd]. destruct (strchr _ _) eqn:E.
  - apply (round_ends (_ ;; _)). unfold xmpp_tls_client_init. ends_auto.
  - intros _. apply round_finished; [done|]. right. right. by left.
Qed.

Lemma okstep_rx_reset f :
  (forall c, conn_ok c -> conn_ok (f c)) -> within (okstep ctx) (upd_client ctx (fun c => set_rx_pos 0 (f c))).
Proof.
  intros Hf. apply upholds_upd. intros c Hc. destruct (Hf c Hc) as [H1 H2 H3].
  split; [by apply rx_fits_reset|by revert H2; apply staging_view|by revert H3; apply secure_view].
Qed.

Lemma okstep_refuse_stream text : within (okstep ctx) (refuse_stream ctx text).
Proof. unfold refuse_stream. within_auto. by apply (okstep_rx_reset (fun c => c)). Qed.

Lemma open_stream_round s :
  is_stream_open (rx_buffer (client_of s ctx)) = true -> sys_ok s -> round_ok s (fst (open_stream ctx s)) (snd (open_stream ctx s)).
Proof.
  intros Ho Hs. assert (sys_ok (snd (open_stream ctx s))) as Hs'.
  { eapply sys_okstep; [|exact Hs]. as_within. unfold open_stream.
    pose proof okstep_refuse_stream. pose proof (okstep_negotiate ctx). within_auto.
    - by apply okstep_net.
    - apply okstep_rx_reset. intros c. by apply drop_pcb_ok.
    - by apply (okstep_rx_reset (fun c => c)). }
  revert Hs'. unfold open_stream. rewrite bind_eq, client_eq. cbn [fst snd].
  destruct (strstr (rx_buffer (client_of s ctx)) (str "<stream:stream")) eqn:E; cbn [is_Some_b].
  - apply (round_ends (_ ;; _)). unfold refuse_stream. ends_auto.
  - intros _. apply round_finished; [done|]. right. right. right. by left.
Qed.

Lemma close_stream_round s :
  sys_ok s -> round_ok s (fst (close_stream ctx s)) (snd (close_stream ctx s)).
Proof.
  intros Hs. apply round_ends.
  { unfold close_stream. ends_auto. }
  eapply sys_okstep; [apply okstep_close_stream|exact Hs].
Qed.

(** A found bracket lies in the received bytes. *)
Lemma bracket_bound s gt :
  sys_ok s -> 0 < rx_pos (client_of s ctx) -> strchr (rx_buffer (client_of s ctx)) (chr ">") = Some gt ->
  0 < ptr_diff gt (rx_buffer (client_of s ctx)) + 1 <= rx_pos (client_of s ctx).
Proof.
  intros Hs Hp Eg. pose proof (rx_ready _ (sy_conn s Hs ctx) Hp) as Hr.
  destruct (rx_find _ (chr ">") gt Hr ltac:(vm_compute; split; reflexivity) Eg). lia.
Qed.

Lemma client_in s : sys_ok s -> 0 < rx_pos (client_of s ctx) -> (ctx < length (client_registry s))%nat.
Proof.
  intros Hs Hp. destruct (decide (ctx < length (client_registry s))%nat) as [|N]; [done|].
  unfold client_of in Hp. rewrite (proj2 (lookup_ge_None _ _)) in Hp by lia. simpl in Hp. lia.
Qed.

(** An answer and then the consumption of an element. *)
Lemma answer_round {A} (m : M unit) (n : Z) (a : A) s :
  sys_ok s -> 0 < n <= rx_pos (client_of s ctx) -> state (client_of s ctx) <> STATE_STARTTLS ->
  within (okstep ctx) m -> within (keeps rx_view) m ->
  let s' := snd ((m ;; upd_client ctx (rx_consume n) ;; mret a : M A) s) in
  sys_ok s' /\ went_on s s' /\
  state (client_of s' ctx) <> STATE_STARTTLS.
Proof.
  intros Hs Hn Hst Hm Hk. pose proof (client_in s Hs ltac:(lia)) as Hl. run. pose proof (Hm s) as O1. pose proof (Hk s) as K1.
  set (s1 := snd (m s)) in *. run. pose proof (keeps_at _ _ _ ctx K1) as V. pose proof (keeps_length _ _ _ K1) as L.
  unfold rx_view in V. injection V as V1 V2 V3.
  destruct (consume_after s s1 n) as (O2 & R & S); [apply Hs|lia|unfold rxv; congruence|done|].
  split_and!; [|exact R|cbn [fst snd mret M_ret] in *; congruence].
  eapply sys_okstep; [exact O2|]. by eapply sys_okstep.
Qed.

Lemma abort_round s :
  sys_ok s -> 0 < rx_pos (client_of s ctx) -> state (client_of s ctx) <> STATE_STARTTLS ->
  round_ok s (fst (abort_login ctx s)) (snd (abort_login ctx s)).
Proof.
  intros Hs Hp Hst. unfold abort_login. run. rewrite client_eq. cbn [fst snd].
  destruct (strchr _ _) as [gt|] eqn:Eg; [|by apply round_finished; [|right; right; left]].
  pose proof (answer_round (send_raw ctx sasl_aborted) _ Continue s Hs (bracket_bound s gt Hs Hp Eg) Hst
    (okstep_send ctx _) ltac:(by apply within_send)) as (A & B & C).
  rewrite !bind_eq in A, B, C. rewrite !bind_eq. exact (round_continue _ _ A B C).
Qed.

Lemma okstep_sm_enabled : within (okstep ctx) (xmpp_sm_send_enabled ctx).
Proof. pose proof (okstep_send ctx). unfold xmpp_sm_send_enabled. within_auto. by apply okstep_net. Qed.

Lemma okstep_sm_ack : within (okstep ctx) (xmpp_sm_send_ack ctx).
Proof. pose proof (okstep_send ctx). unfold xmpp_sm_send_ack. within_auto. Qed.

(** An element of stream management is handled, or nothing happens. *)
Lemma sm_round s :
  sys_ok s -> 0 < rx_pos (client_of s ctx) -> state (client_of s ctx) <> STATE_STARTTLS ->
  let '(r, s') := xmpp_sm_handle_element ctx s in
  (r = 0 /\ s' = s) \/
  (r = 1 /\ sys_ok s' /\ went_on s s' /\
   state (client_of s' ctx) <> STATE_STARTTLS).
Proof.
  intros Hs Hp Hst. unfold xmpp_sm_handle_element. rewrite bind_eq, client_eq. cbn [fst snd].
  set (c := client_of s ctx) in *. destruct (state_lt _ _); [by left|].
  destruct (strchr (rx_buffer c) (chr ">")) as [gt|] eqn:Eg.
  2: { destruct (is_enable _); [by left|]. destruct (is_request _); [by left|]. destruct (is_answer _); by left. }
  assert (forall m : M unit, within (okstep ctx) m -> within (keeps rx_view) m ->
    let '(r, s') := (m ;; upd_client ctx (rx_consume (through gt (rx_buffer c))) ;; mret 1 : M Z) s in
    (r = 0 /\ s' = s) \/
    (r = 1 /\ sys_ok s' /\ went_on s s' /\ state (client_of s' ctx) <> STATE_STARTTLS)) as Hgo.
  { intros m H1 H2. pose proof (answer_round m (through gt (rx_buffer c)) 1 s Hs (bracket_bound s gt Hs Hp Eg) Hst H1 H2) as A.
    cbv zeta in A. rewrite !bind_eq in A. rewrite !bind_eq. right. split; [reflexivity|exact A]. }
  destruct (is_enable _); [apply Hgo; [apply okstep_sm_enabled|by apply within_sm_send_enabled]|].
  destruct (is_request _); [apply Hgo; [apply okstep_sm_ack|by apply within_sm_send_ack]|].
  destruct (is_answer _); [|by left].
  apply (Hgo skip); apply within_skip; typeclasses eauto.
Qed.

(** ** Stanzas *)

(** What a handler called for the stanza in slot [k] may do. *)
Definition stanza_step (k : nat) (s s' : srv) : Prop :=
  length (client_registry s') = length (client_registry s) /\
  (forall i, conn_ok (client_of s i) -> conn_ok (client_of s' i)) /\
  rxv (client_of s' ctx) = rxv (client_of s ctx) /\
  (state (client_of s ctx) <> STATE_STARTTLS -> state (client_of s' ctx) <> STATE_STARTTLS) /\
  length (stanza_pool s') = length (stanza_pool s) /\
  (forall j, j <> k -> stanza_pool s' !! j = stanza_pool s !! j).

Lemma gentle_stanza_step k s s' : gentle ctx s s' -> stanza_step k s s'.
Proof.
  intros (L & P & C). split_and!; [done| | | |by rewrite P|by rewrite P].
  - intros i. destruct (C i) as [Ci|[_ Ci]]; [by apply conn_ok_calm|by intros; apply calm0_ok].
  - destruct (C ctx) as [[V _]|[N _]]; [|done]. unfold conn_view in V. injection V as _ _ E1 E2 _ _ _ _ _ _.
    unfold rxv. congruence.
  - destruct (C ctx) as [[_ [E|[_ A]]]|[N _]]; [by rewrite E| |done]. intros _ E. unfold authed in A. by rewrite E in A.
Qed.

Lemma rxv_sasl stanza : within (keeps rxv) (handle_sasl ctx stanza).
Proof.
  assert (forall d, within (keeps rxv) (send_raw ctx d)) by (intros; by apply within_send).
  assert (within (keeps rxv) (sasl_refuse ctx)) by (by apply within_refuse).
  unfold handle_sasl. within_auto; by apply within_upd_keeps.
Qed.

Definition not_starttls (c : xmpp_client_ctx_t) : Prop := state c <> STATE_STARTTLS.

Lemma state_sasl stanza : within (upholds not_starttls ctx) (handle_sasl ctx stanza).
Proof.
  assert (forall d, within (upholds not_starttls ctx) (send_raw ctx d)) as Hsend.
  { intros d s. split_and!; [apply only_send_raw|by apply same_send_raw|].
    pose proof (keeps_at _ _ _ ctx (within_send state ctx d ltac:(done) ltac:(done) s)) as E. unfold not_starttls. by rewrite E. }
  assert (within (upholds not_starttls ctx) (sasl_refuse ctx)).
  { unfold sasl_refuse. within_auto; by apply upholds_upd. }
  unfold handle_sasl. within_auto; by apply upholds_upd.
Qed.

Lemma sasl_stanza_step k stanza s : stanza_step k s (snd (handle_sasl ctx stanza s)).
Proof.
  destruct (okstep_sasl ctx stanza s) as ([L O] & P & K). destruct (state_sasl stanza s) as (_ & _ & S).
  split_and!; [done| |apply (keeps_at _ _ _ ctx (rxv_sasl stanza s))|exact S|by rewrite P|by rewrite P].
  intros i. destruct (decide (i = ctx)) as [->|N]; [done|]. by rewrite O.
Qed.

#[local] Instance stanza_step_trans k : Transitive (stanza_step k).
Proof.
  intros s1 s2 s3 (A1 & A2 & A3 & A4 & A5 & A6) (B1 & B2 & B3 & B4 & B5 & B6).
  split_and!; [congruence|auto|congruence|auto|congruence|]. intros j Hj. rewrite B6 by done. auto.
Qed.

Lemma stamped_stanza_step k s : stanza_step k s (stamped ctx s k).
Proof.
  unfold stamped. destruct (negb _); [|by split_and!].
  split_and!; try done; cbn [snd upd_stanza modify stanza_pool set_stanza_pool].
  - apply length_alter.
  - intros j Hj. by apply list_lookup_alter_ne.
Qed.

Lemma handle_stanza_step k s :
  length (client_registry s) = MAX_USERS -> (ctx < MAX_USERS)%nat -> logged (client_of s ctx) ->
  state (client_of s ctx) <> STATE_STARTTLS ->
  stanza_step k s (snd (handle_stanza ctx k s)).
Proof.
  intros Hl Hc Hlog Hst. unfold handle_stanza. run. rewrite client_eq. cbn [fst snd].
  destruct (_ || _) eqn:E.
  - run. rewrite gets_eq. cbn [fst snd]. destruct (_ =? 0); cbn [when]; [apply sasl_stanza_step|by split_and!].
  - apply orb_false_iff in E as [E1 E2]. apply bool_decide_eq_false in E1, E2.
    assert (authed (client_of s ctx) = true) as Ha by (unfold authed; by destruct (state (client_of s ctx))).
    run. etransitivity; [apply stamped_stanza_step|]. etransitivity.
    + apply gentle_stanza_step, gentle_route; auto.
    + apply gentle_stanza_step, gentle_sm_sent_received.
Qed.

Lemma next_stanza_round p s :
  sys_ok s -> 0 < rx_pos (client_of s ctx) -> state (client_of s ctx) <> STATE_STARTTLS ->
  round_ok s (fst (next_stanza ctx p s)) (snd (next_stanza ctx p s)).
Proof.
  intros Hs Hp Hst. pose proof (client_in s Hs Hp) as Hin. destruct Hs as [H1 H2 [H3 H4]].
  unfold next_stanza. run. rewrite client_eq. cbn [fst snd]. run. rewrite gets_eq. cbn [fst snd].
  destruct (parse_xml_stream _ _ _ _) as [[[res consumed] pool']|] eqn:E.
  2: { split_and!; [by split|done|done|]. intros _ Hu. exists (rx_data (client_of s ctx)). split; [done|]. intros Ha.
       destruct (parse_returns _ _ _ (stanza_pool s) Hu Ha) as [x Ex]. congruence. }
  pose proof E as Ei. apply parse_result_ok in E as [Hcons Hres]. destruct res as [k|[]].
  - destruct Hres as (Hpos & (st0 & Hk & Hfree) & st & _ & ->). run. set (s1 := snd (modify _ s)). run.
    assert (stanza_step k s1 (snd (handle_stanza ctx k s1))) as (A1 & A2 & A3 & A4 & A5 & A6).
    { apply handle_stanza_step; [done|lia|apply (H2 ctx)|done]. }
    set (s2 := snd (handle_stanza ctx k s1)) in *. run. set (s3 := snd (modify _ s2)). run.
    assert (0 < consumed <= rx_pos (client_of s ctx)) as Hc.
    { split; [done|]. destruct (H2 ctx) as [[R1 R2 R3] _ _]. unfold rx_data in Hcons.
      rewrite length_take in Hcons. lia. }
    assert ((0 <? consumed) = true) as -> by lia. cbn [when].
    destruct (consume_after s s3 consumed) as (O & R & S); [apply H2|cbn; rewrite A1; exact Hin|exact A3|exact Hc|].
    assert (sys_ok s3) as Hs3.
    { split; [cbn; rewrite A1; exact H1|intros i; apply A2, H2|]. cbn [s3 snd modify stanza_pool set_stanza_pool].
      unfold xmpp_free_stanza. split.
      - apply Forall_lookup. intros j x. destruct (decide (j = k)) as [->|N].
        + rewrite list_lookup_alter_eq. intros (y & _ & ->)%fmap_Some. done.
        + rewrite list_lookup_alter_ne, A6 by done. cbn [s1 snd modify stanza_pool set_stanza_pool].
          rewrite list_lookup_insert_ne by done. intros Hx. exact (Forall_lookup_1 _ _ _ _ H3 Hx).
      - intros E0. apply (f_equal length) in E0. rewrite length_alter, A5 in E0.
        cbn [s1 snd modify stanza_pool set_stanza_pool] in E0. rewrite length_insert in E0. by destruct (stanza_pool s). }
    apply round_continue; [by eapply sys_okstep|exact R|]. intros Es. apply (A4 Hst). rewrite <- Es. exact (eq_sym S).
  - apply round_finished; [by split|]. right. right. right. right. by eapply parse_incomplete.
  - exfalso. destruct Hres as [_ F]. destruct (stanza_pool s) as [|x l]; [done|]. inversion H3; inversion F; by subst.
Qed.

(** ** The loop *)

Lemma dispatch_round p s :
  sys_ok s -> state (client_of s ctx) <> STATE_STARTTLS ->
  round_ok s (fst (rx_dispatch ctx p s)) (snd (rx_dispatch ctx p s)).
Proof.
  intros Hs Hst. unfold rx_dispatch. run. rewrite client_eq. cbn [fst snd].
  destruct (Z.eqb_spec (rx_pos (client_of s ctx)) 0) as [|Hp0]; [by apply round_finished; [|right; left]|].
  assert (0 < rx_pos (client_of s ctx)) as Hp by (destruct (sy_conn s Hs ctx) as [[_ R _] _ _]; lia).
  destruct (_ && (strncmp _ _ 9 =? 0)) eqn:E.
  { apply andb_prop in E as [E _]. apply andb_prop in E as [E1 E2]. apply bool_decide_eq_true in E1.
    apply start_tls_round; [done|done|]. apply negb_true_iff in E2.
    destruct (Z.eq_dec (tls_established (client_of s ctx)) 0) as [|N]; [done|]. apply truth_spec in N. congruence. }
  clear E. destruct (is_stream_close _); [by apply close_stream_round|].
  destruct (_ && is_stream_open _) eqn:E.
  { apply andb_prop in E as [_ E]. by apply open_stream_round. }
  clear E.
  destruct (_ && (strncmp _ _ 6 =? 0)); [by apply abort_round|]. run.
  destruct (negb (state_lt _ _)).
  - pose proof (sm_round s Hs Hp Hst) as Hsm. destruct (xmpp_sm_handle_element ctx s) as [r s'] eqn:E. cbn [fst snd].
    destruct Hsm as [[-> ->]|(-> & A & B & C)].
    + by apply next_stanza_round.
    + by apply round_continue.
  - cbn [fst snd mret M_ret]. by apply next_stanza_round.
Qed.

Lemma space_prefix_bound l : 0 <= space_prefix l <= Z.of_nat (length l).
Proof. induction l as [|c l IH]; simpl; [lia|]. destruct (_ || _); lia. Qed.

Lemma rejected_suffix data data' : data' `suffix_of` data -> rejected data' -> rejected data.
Proof. intros Hd (pl & Hp & Ha). exists pl. split; [by etransitivity|done]. Qed.

Lemma round_spec p s :
  sys_ok s -> 0 < rx_pos (client_of s ctx) -> state (client_of s ctx) <> STATE_STARTTLS ->
  round_ok s (fst (rx_round ctx p s)) (snd (rx_round ctx p s)).
Proof.
  intros Hs Hp Hst. pose proof (client_in s Hs Hp) as Hin. unfold rx_round. run. rewrite client_eq. cbn [fst snd]. run.
  pose proof (space_prefix_bound (rx_data (client_of s ctx))) as Hb. set (shift := space_prefix _) in *.
  destruct (Z.ltb_spec 0 shift) as [Hsh|Hsh]; cbn [when].
  - destruct (consume_after s s shift) as (O & [R1 R2] & S); [apply Hs|done|done| |].
    { destruct (sy_conn s Hs ctx) as [[F1 F2 F3] _ _]. unfold rx_data in Hb. rewrite length_take in Hb. lia. }
    set (s1 := snd (upd_client ctx (rx_consume shift) s)) in *.
    assert (sys_ok s1) as Hs1 by (by eapply sys_okstep). destruct (dispatch_round p s1 Hs1) as (A & B & F & C); [congruence|].
    split_and!; [done| |done|].
    + intros E. destruct (B E) as [[B1 B2] B3]. split; [|done]. split; [lia|by etransitivity].
    + intros E Hu. by apply (rejected_suffix _ _ R2), C.
  - cbn [snd skip mret M_ret]. by apply dispatch_round.
Qed.

(** The loop ends, with the invariant. *)
Lemma rx_loop_ok fuel p s :
  sys_ok s -> state (client_of s ctx) <> STATE_STARTTLS -> rx_pos (client_of s ctx) < Z.of_nat fuel ->
  fst (rx_loop fuel ctx p s) <> OutOfFuel /\ sys_ok (snd (rx_loop fuel ctx p s)) /\
  (fst (rx_loop fuel ctx p s) = Returned -> settled (client_of (snd (rx_loop fuel ctx p s)) ctx)) /\
  (fst (rx_loop fuel ctx p s) = Undefined -> uninit (Z.to_nat 1024) <> [] -> rejected (rx_data (client_of s ctx))).
Proof.
  revert s; induction fuel as [|fuel IH]; intros s Hs Hst Hf.
  { destruct (sy_conn s Hs ctx) as [[_ R _] _ _]. lia. }
  cbn [rx_loop]. run. rewrite client_eq. cbn [fst snd].
  destruct (Z.leb_spec (rx_pos (client_of s ctx)) 0).
  { split_and!; [done|done| |done]. intros _. right. left. cbn [snd mret M_ret]. destruct (sy_conn s Hs ctx) as [[_ R _] _ _]. lia. }
  run.
  destruct (round_spec p s Hs ltac:(lia) Hst) as (A & B & F & C). destruct (rx_round ctx p s) as [r s1] eqn:E. cbn [fst snd] in *.
  destruct r; [|by split_and!; auto..]. destruct (B eq_refl) as [[B1 B2] B3].
  destruct (IH s1) as (I1 & I2 & I4 & I3); [done|done|lia|]. split_and!; [done..|].
  intros Eu Hu. by apply (rejected_suffix _ _ B2), I3.
Qed.

End rounds.

(** * Callbacks *)

Section callbacks.
Context `{Env} (ctx : nat).

Lemma okstep_feed f bufs : (forall q, within (okstep ctx) (f q)) -> within (okstep ctx) (feed f ctx bufs).
Proof. intros Hf. induction bufs as [|q bufs IH]; cbn [feed]; within_auto. Qed.

Lemma okstep_copy_plain bufs : within (okstep ctx) (copy_plain ctx bufs).
Proof.
  induction bufs as [|q bufs IH]; cbn [copy_plain]; [within_auto|].
  apply within_client_dep. intros s. destruct (Z.ltb_spec (rx_pos (client_of s ctx) + Z.of_nat (length q)) 32767).
  - run. etransitivity; [by apply okstep_rx_append|apply IH].
  - reflexivity.
Qed.

(** Decryption and copying leave the state of the connection alone. *)
Lemma state_decrypt data : within (keeps state) (xmpp_tls_decrypt ctx data).
Proof.
  assert (forall f, (forall c, state (f c) = state c) -> within (keeps state) (upd_client ctx f)) as Hupd
    by (intros; by apply within_upd_keeps).
  assert (forall n, within (keeps state) (ssl_callbacks ctx n)) as Hcb.
  { intros n. unfold ssl_callbacks, tls_net_recv, tls_net_send. within_auto. apply Hupd.
    intros c. unfold net_recv. cbv zeta. by destruct (_ <=? 0). }
  assert (within (keeps state) (tls_staging_compact ctx)) as Hcp.
  { apply Hupd. intros c. unfold staging_compact. by repeat case_match. }
  assert (within (keeps state) (close_pcb ctx)) as Hcl by (unfold close_pcb; within_auto; by apply Hupd).
  assert (forall p, within (keeps state) (ssl_write_call ctx p)) as Hw by (intros; by apply within_ssl_write_call).
  assert (forall fuel, within (keeps state) (decrypt_loop fuel ctx)) as Hloop.
  { induction fuel as [|fuel IH]; cbn [decrypt_loop]; within_auto; by apply Hupd. }
  unfold xmpp_tls_decrypt. within_auto.
Qed.

Lemma state_feed f bufs : (forall q, within (keeps state) (f q)) -> within (keeps state) (feed f ctx bufs).
Proof. intros Hf. induction bufs as [|q bufs IH]; cbn [feed]; within_auto. Qed.

Lemma state_copy_plain bufs : within (keeps state) (copy_plain ctx bufs).
Proof. induction bufs as [|q bufs IH]; cbn [copy_plain]; within_auto. by apply within_upd_keeps. Qed.

(** What a call of the receive callback owes. *)
Definition recv_done (P : Prop) (m : M outcome) (s : srv) : Prop :=
  fst (m s) <> OutOfFuel /\ sys_ok (snd (m s)) /\ (P -> fst (m s) = Returned -> settled (client_of (snd (m s)) ctx)).

Lemma rx_loop_fuel P p s :
  sys_ok s -> state (client_of s ctx) <> STATE_STARTTLS -> recv_done P (rx_loop RX_BUFFER_SIZE ctx p) s.
Proof.
  intros Hs Hst. destruct (rx_loop_ok ctx RX_BUFFER_SIZE p s) as (A & B & F & _); [done|done| |by split_and!]. destruct (sy_conn s Hs ctx) as [[_ R _] _ _].
  unfold RX_BUFFER_SIZE. lia.
Qed.

Lemma closed_settled f s :
  (forall c, pcb (f c) = None) -> settled (client_of (snd (upd_client ctx f s)) ctx).
Proof.
  intros Hf. destruct (ends_upd ctx f (fun c => or_introl (Hf c)) s) as [_ E]. rewrite bind_eq in E. exact E.
Qed.

Lemma recv_data_ok p bufs s :
  sys_ok s -> recv_done (state (client_of s ctx) <> STATE_STARTTLS) (recv_data ctx p bufs) s.
Proof.
  intros Hs. unfold recv_done, recv_data. run. rewrite client_eq. cbn [fst snd].
  pose proof (okstep_feed (xmpp_tls_handshake_step ctx) bufs (okstep_handshake ctx)) as Hhs.
  pose proof (okstep_feed (xmpp_tls_decrypt ctx) bufs (okstep_decrypt ctx)) as Hdec.
  destruct (bool_decide _) eqn:E.
  { apply bool_decide_eq_true in E. do 3 run. split_and!; [done| |by intros].
    eapply (sys_okstep ctx); [|exact Hs]. etransitivity; [apply upholds_emit|]. etransitivity; [apply Hhs|]. apply upholds_emit. }
  apply bool_decide_eq_false in E. destruct (truth _).
  - do 2 run. set (s1 := snd (emit _ s)). pose proof (Hdec s1) as O. pose proof (state_feed _ bufs state_decrypt s1) as K.
    set (s2 := snd (feed _ _ _ s1)) in *. run. apply rx_loop_fuel.
    + eapply (sys_okstep ctx); [apply upholds_emit|]. eapply (sys_okstep ctx); [exact O|]. eapply (sys_okstep ctx); [apply upholds_emit|exact Hs].
    + change (state (client_of s2 ctx) <> STATE_STARTTLS). by rewrite (keeps_at _ _ _ ctx K).
  - run. pose proof (okstep_copy_plain bufs s) as O. pose proof (state_copy_plain bufs s) as K.
    destruct (copy_plain ctx bufs s) as [b s1]. cbn [fst snd] in *.
    assert (sys_ok s1) as Hs1 by (by eapply (sys_okstep ctx)). destruct b.
    + do 5 run. split_and!; [done| |by intros; apply closed_settled].
      eapply (sys_okstep ctx); [|exact Hs1]. do 2 (etransitivity; [apply upholds_emit|]).
      etransitivity; [apply upholds_say|]. etransitivity; [apply upholds_emit|]. apply upholds_upd. intros c. by apply drop_pcb_ok.
    + do 2 run. apply rx_loop_fuel.
      * do 2 (eapply (sys_okstep ctx); [apply upholds_emit|]). exact Hs1.
      * intros Es. apply E. rewrite <- (keeps_at _ _ _ ctx K). exact Es.
Qed.

Lemma recv_ok p data s :
  sys_ok s -> recv_done (state (client_of s ctx) <> STATE_STARTTLS) (xmpp_recv_callback ctx p data) s.
Proof.
  intros Hs. destruct data as [bufs|]; [by apply recv_data_ok|]. unfold recv_done. cbn [xmpp_recv_callback].
  run. rewrite client_eq. cbn [fst snd]. run. set (s1 := snd (when _ _ s)).
  assert (upholds bufs_ok ctx s s1) as M1.
  { unfold s1. as_within. within_auto. apply upholds_upd. intros c (H1 & H2 & H3).
    split_and!; [by revert H1; apply rx_fits_view|by revert H2; apply staging_view|done]. }
  do 2 run. split_and!; [done| |by intros; apply closed_settled]. eapply (sys_okstep ctx); [|exact Hs].
  etransitivity; [by apply okstep_stream_close|]. apply upholds_upd. intros c. by apply drop_pcb_ok.
Qed.

(** A connection that is overwritten, whatever happened to it before. *)
Lemma overwrite_ok c0 s s1 :
  conn_ok c0 -> (only ctx s s1 /\ stanza_pool s1 = stanza_pool s) -> sys_ok s ->
  sys_ok (snd (upd_client ctx (fun _ => c0) s1)).
Proof.
  intros Hf [[L O] P] [H1 H2 H3]. split; [rewrite upd_length; congruence| |cbn; by rewrite P].
  intros i. cbn [snd upd_client modify]. rewrite client_of_alter. case_decide as D; [done|].
  destruct (decide (i = ctx)) as [->|N]; [|by rewrite O].
  unfold client_of. rewrite (proj2 (lookup_ge_None _ _)); [apply client0_ok|]. apply not_and_l in D. destruct D; [done|lia].
Qed.

Lemma upd_upd f g s : snd (upd_client ctx f (snd (upd_client ctx g s))) = snd (upd_client ctx (fun c => f (g c)) s).
Proof. unfold upd_client, modify. cbn. by rewrite alter_alter. Qed.

Lemma only_free : within (only ctx) (xmpp_tls_client_free ctx).
Proof. unfold xmpp_tls_client_free. within_auto. Qed.

Lemma pool_free : within (same stanza_pool) (xmpp_tls_client_free ctx).
Proof. unfold xmpp_tls_client_free. within_auto; by intros s. Qed.

Lemma err_ok s : sys_ok s -> sys_ok (snd (xmpp_err_callback ctx s)).
Proof.
  intros Hs. unfold xmpp_err_callback. do 2 run.
  set (s1 := snd (upd_client ctx _ s)). set (s2 := snd (xmpp_tls_client_free ctx s1)).
  apply (overwrite_ok _ s); [apply client0_ok| |done].
  split; [etransitivity; [apply only_upd|apply only_free]|]. unfold s2. by rewrite (pool_free s1).
Qed.

Lemma accept_ok p s : (ctx < MAX_USERS)%nat -> sys_ok s -> sys_ok (snd (xmpp_accept_callback ctx p s)).
Proof.
  intros Hctx Hs. unfold xmpp_accept_callback. run. rewrite client_eq. cbn [fst snd]. run. set (s1 := snd (_ s)).
  assert (only ctx s s1 /\ stanza_pool s1 = stanza_pool s) as Ho.
  { unfold s1. destruct (is_Some_b _); [|by split]. run. split.
    - etransitivity; [apply only_free|apply only_emit].
    - exact (pool_free s). }
  do 2 run. rewrite upd_upd. apply (overwrite_ok _ s); [|done|done]. destruct client0_ok as [H1 H2 H3].
  split; [by revert H1; apply rx_fits_view|by revert H2; apply staging_view|]. by split; [|intros _; split].
Qed.

End callbacks.

(** The main loop serves every connection in turn. *)
Lemma serve_ok `{Env} s : sys_ok s -> sys_ok (snd (serve_connections s)).
Proof.
  intros Hs. unfold serve_connections. run.
  apply (loop_inv (fun _ => sys_ok)).
  - apply (loop_inv (fun _ => sys_ok)); [done|]. intros k t _ Ht. run. rewrite client_eq. cbn [fst snd].
    destruct (_ && _); cbn [when]; [|done]. eapply sys_okstep; [apply okstep_handshake|done].
  - intros k t _ Ht. run. rewrite client_eq. cbn [fst snd]. destruct (_ && _); cbn [when]; [|done]. run.
    apply (sys_gentle k t); [|exact Ht]. set (t1 := snd (upd_client k _ t)).
    transitivity t1; [by apply gentle_upd|]. assert (within (gentle k) (xmpp_sm_request_ack k)) as W; [|apply W].
    unfold xmpp_sm_request_ack. within_auto.
Qed.

(** * Runs of the server *)

(** The events of the outside world: a new connection, data or the end of a
    stream, a failed connection, a round of the main loop.  lwIP may pass any
    connection and any control block, so the steps include calls on behalf of a
    control block that the connection no longer has.  A call that leaves an
    array has no step. *)
Inductive step `{Env} : nat * srv -> nat * srv -> Prop :=
| step_accept idx s newpcb :
    step (idx, s) (xmpp_accept_callback idx newpcb s)
| step_recv idx s ctx p data s' :
    (ctx < MAX_USERS)%nat -> xmpp_recv_callback ctx p data s = (Returned, s') -> step (idx, s) (idx, s')
| step_err idx s ctx :
    (ctx < MAX_USERS)%nat -> step (idx, s) (idx, snd (xmpp_err_callback ctx s))
| step_main idx s :
    step (idx, s) (idx, snd (serve_connections s)).

(** The server listens once its start succeeded. *)
Inductive reachable `{Env} : nat * srv -> Prop :=
| reachable_from d r w :
    rtc step (O, snd (xmpp_init_server 0 (globals0 d r))) w -> reachable w.

Section runs.
Context `{Env}.

Lemma conns_load_all : within (same conns) xmpp_persist_load_all.
Proof.
  assert (forall lba n k, (forall b, within (same conns) (k b)) -> within (same conns) (read_or_fail lba n k)) as Hr.
  { intros lba n k Hk. unfold read_or_fail, disk_read_sectors. within_auto. by intros s. }
  assert (forall lba b, within (same conns) (disk_write_sectors lba b)) as Hw.
  { intros lba b. unfold disk_write_sectors. within_auto; by intros s. }
  assert (within (same conns) fresh_start) as Hf.
  { unfold fresh_start, write_header. within_auto; by intros s. }
  unfold xmpp_persist_load_all, try_load. within_auto; apply Hr; intros; within_auto.
  do 5 (apply Hr; intros). within_auto; by intros s.
Qed.

Lemma boot_ok d r : sys_ok (snd (xmpp_init_server 0 (globals0 d r))).
Proof.
  unfold xmpp_init_server. run. pose proof (conns_load_all (globals0 d r)) as E.
  assert (client_registry (snd (xmpp_persist_load_all (globals0 d r))) = replicate MAX_USERS client0) as E1
    by exact (f_equal fst E).
  assert (stanza_pool (snd (xmpp_persist_load_all (globals0 d r))) = replicate MAX_POOL_STANZAS stanza0) as E2
    by exact (f_equal snd E). clear E.
  split; cbn [snd mret M_ret].
  - by rewrite E1.
  - intros i. unfold client_of. rewrite E1. destruct (_ !! i) as [c|] eqn:E; [|apply client0_ok].
    apply lookup_replicate in E as [-> _]. apply client0_ok.
  - rewrite E2. split; [by apply Forall_replicate|done].
Qed.

(** The invariant of a run. *)
Definition world_ok (w : nat * srv) : Prop := (fst w < MAX_USERS)%nat /\ sys_ok (snd w).

Lemma step_ok w w' : step w w' -> world_ok w -> world_ok w'.
Proof.
  intros Hst [Hi Hs]. destruct Hst as [idx s p|idx s ctx p data s' Hc E|idx s ctx Hc|idx s]; cbn [fst snd] in *.
  - split; [|by apply accept_ok]. unfold xmpp_accept_callback. do 4 run. apply Nat.mod_upper_bound. done.
  - split; [done|]. pose proof (recv_ok ctx p data s Hs) as (_ & R & _). by rewrite E in R.
  - split; [done|by apply err_ok].
  - split; [done|by apply serve_ok].
Qed.

Lemma reachable_ok w : reachable w -> world_ok w.
Proof.
  intros [d r w' Hr]. revert Hr. apply rtc_ind_r; [|intros ? ? _ Hs Hw; by eapply step_ok].
  split; [unfold MAX_USERS; cbn; lia|apply boot_ok].
Qed.

(** ** Playing a run *)

Inductive stimulus := Accept (newpcb : nat) | Receive (ctx p : nat) (data : option (list (list Z))) | Broke (ctx : nat) | Tick.

Definition react (e : stimulus) (w : nat * srv) : option (nat * srv) :=
  match e with
  | Accept newpcb => Some (xmpp_accept_callback (fst w) newpcb (snd w))
  | Receive ctx p data =>
      if (ctx <? MAX_USERS)%nat then
        match xmpp_recv_callback ctx p data (snd w) with
        | (Returned, s') => Some (fst w, s')
        | _ => None
        end
      else None
  | Broke ctx => if (ctx <? MAX_USERS)%nat then Some (fst w, snd (xmpp_err_callback ctx (snd w))) else None
  | Tick => Some (fst w, snd (serve_connections (snd w)))
  end.

Fixpoint play (es : list stimulus) (w : nat * srv) : option (nat * srv) :=
  match es with
  | [] => Some w
  | e :: es' => w' ← react e w; play es' w'
  end.

Lemma react_step e w w' : react e w = Some w' -> step w w'.
Proof.
  destruct w as [idx s]. destruct e as [p|ctx p data|ctx|]; cbn [react fst snd].
  - intros [= <-]. constructor.
  - destruct (Nat.ltb_spec ctx MAX_USERS); [|done]. destruct (xmpp_recv_callback ctx p data s) as [[] s'] eqn:E; [|done..].
    intros [= <-]. by econstructor.
  - destruct (Nat.ltb_spec ctx MAX_USERS); [|done]. intros [= <-]. by constructor.
  - intros [= <-]. constructor.
Qed.

Lemma play_reachable es d r w : play es (O, snd (xmpp_init_server 0 (globals0 d r))) = Some w -> reachable w.
Proof.
  intros Hp. apply (reachable_from d r). revert Hp. generalize (O, snd (xmpp_init_server 0 (globals0 d r))).
  induction es as [|e es IH]; intros w0; cbn [play].
  - intros [= ->]. constructor.
  - destruct (react e w0) as [w1|] eqn:E; cbn [mbind option_bind]; [|done]. intros Hp.
    eapply rtc_l; [by eapply react_step|by apply IH].
Qed.

(** What sending puts on the wire: records of connection [i]. *)
Definition on_tls (i : nat) (e : event) : Prop :=
  match e with EvTls j _ => j = i | EvOutput _ => True | _ => False end.

Definition private (i : nat) (s s' : srv) : Prop :=
  exists evs, trace s' = trace s ++ evs /\ Forall (on_tls i) evs.

#[export] Instance private_preorder i : PreOrder (private i).
Proof.
  split.
  - intros s. exists []. by rewrite app_nil_r.
  - intros s1 s2 s3 (e1 & E1 & F1) (e2 & E2 & F2). exists (e1 ++ e2). rewrite E2, E1, app_assoc. split; [done|].
    by apply Forall_app.
Qed.

Lemma private_same {A} i (m : M A) : within (same trace) m -> within (private i) m.
Proof. intros Hm s. exists []. rewrite app_nil_r. by split; [apply Hm|]. Qed.

Lemma private_emit i e : on_tls i e -> within (private i) (emit e).
Proof. intros He s. exists [e]. split; [done|]. by constructor. Qed.

Lemma private_output i : within (private i) (output i).
Proof. unfold output. within_auto. by apply private_emit. Qed.

Lemma private_ssl_write i d : within (private i) (ssl_write_call i d).
Proof. unfold ssl_write_call. within_auto; first [by apply private_emit | by apply private_same]. Qed.

Lemma private_tls_send i fuel d : within (private i) (tls_send fuel i d).
Proof.
  pose proof (private_output i). pose proof (private_ssl_write i).
  revert d; induction fuel as [|fuel IH]; intros [|b d]; cbn [tls_send]; within_auto.
Qed.

Lemma private_send i d s : tls_established (client_of s i) <> 0 -> private i s (snd (send_raw i d s)).
Proof.
  intros Ht%truth_spec. unfold send_raw. run. rewrite client_eq. cbn [fst snd]. rewrite Ht. as_within.
  pose proof (private_output i). pose proof (private_tls_send i). unfold xmpp_sm_on_stanza_sent. within_auto.
  all: by apply private_same.
Qed.

End runs.

(** ** A login, for the witnesses *)

Definition stream_open : list Z :=
  str "<stream:stream to='angelic.local' xmlns='jabber:client' " ++
  str "xmlns:stream='http://etherx.jabber.org/streams' version='1.0'>".

Definition plain_login : list Z :=
  str "<auth xmlns='urn:ietf:params:xml:ns:xmpp-sasl' mechanism='PLAIN'>" ++
  b64encode ([0] ++ str "user1" ++ [0] ++ str "pass1") ++ str "</auth>".

(** The disk is dead, TLS works, and what it decrypts is a stream header and a
    login. *)
Definition login_env : Env :=
  {| ssl_write := fun _ _ d => Z.of_nat (length d); disk_result := fun _ => 1;
     disk_torn := fun _ d => d; tls_setup := fun _ => 0; ssl_pulls := fun _ => [];
     ssl_pushes := fun _ => []; tcp_write_result := fun _ => 0; ssl_handshake := fun _ => 0;
     ssl_read := fun n =>
       let d := if (n =? 9)%nat then stream_open else if (n =? 12)%nat then plain_login else [] in
       (if (0 <? length d)%nat then Z.of_nat (length d) else MBEDTLS_ERR_SSL_WANT_READ, d);
     rng_addr := 4096; uninit := zeros; cpuid_ecx := 2 ^ 20 |}.

Definition powered_on : nat * srv := (O, snd (xmpp_init_server (H := login_env) 0 (globals0 [] []))).

(** One connection: the header, STARTTLS, the handshake, the header, the login. *)
Definition login_run : list stimulus :=
  Accept 7 :: map (fun d => Receive 0 7 (Some [d])) [stream_open; str "<starttls/>"; [1]; [1]; [1]].

(** The connection after a run. *)
Definition summary (w : nat * srv) := (fun c => (pcb c, state c, authenticated c)) <$> client_registry (snd w) !! O.

#[local] Strategy transparent [snprintf snprintf_into].

Lemma login_state :
  play (H := login_env) login_run powered_on ≫= summary = Some (Some 7%nat, STATE_AUTHENTICATED, 1).
Proof. lazy. reflexivity. Qed.

Lemma login_reachable :
  exists idx s c, reachable (H := login_env) (idx, s) /\ client_registry s !! O = Some c /\
    pcb c = Some 7%nat /\ state c = STATE_AUTHENTICATED /\ authenticated c = 1.
Proof.
  pose proof login_state as R. destruct (play login_run powered_on) as [[idx s]|] eqn:E; [|done].
  unfold summary in R. cbn [mbind option_bind snd] in R.
  destruct (client_registry s !! O) as [c|] eqn:Ec; [|done].
  injection R as H1 H2 H3. exists idx, s, c. split_and!; [|done..].
  exact (play_reachable (H := login_env) login_run [] [] (idx, s) E).
Qed.

(** * Properties *)









(** Whether the server closed a connection. *)
Definition closed (w : nat * srv) : bool :=
  existsb (fun e => match e with EvClose _ => true | _ => false end) (trace (snd w)).

(** A stream header that arrives in two segments is refused: the header is
    acted on as soon as its tag name is there, and without the rest the
    namespaces are missing, so the connection is closed after the first segment;
    the same bytes in one segment are welcome. *)
Theorem split_header_refused :
  closed <$> play (H := login_env) [Accept 7; Receive 0 7 (Some [take 33 stream_open])] powered_on = Some true /\
  closed <$> play (H := login_env) [Accept 7; Receive 0 7 (Some [stream_open])] powered_on = Some false.
Proof. split; lazy; reflexivity. Qed.
