(* ===== verification/Upkeep.v ===== *)
(** What holds of the server's stores all the time.

    Every array has the size of its C declaration, every string fits its array,
    and no key is stored twice: one roster entry for a contact, one document
    for a name space, one pending request of a kind, one room of a name, one
    occupant under a nick or address.  The lemmas say that the operations of
    src/xmpp/xmpp_logic.c on each store keep it that way. *)

From Stdlib Require Import ZArith Lia String Ascii Bool.
From stdpp Require Import base list numbers option sets.
From S2P Require Import Prelude.
From S2P Require Import Libc.
From S2P Require Import SlotMap.
From S2P Require Import XmppCore.
From S2P Require Import Persist.
From S2P Require Import Logic.
From S2P Require Import Store.
From S2P Require Import Sasl.
From S2P Require Import Iq.
From S2P Require Import Muc.
From S2P Require Import Message.
From S2P Require Import MucPresence.
From S2P Require Import Presence.

Open Scope Z_scope.

#[local] Strategy opaque [snprintf snprintf_into].

(** * Strings in their arrays *)

(** A C string of at most [n] bytes. *)
Definition short (n : nat) (b : list Z) : Prop := (length (cstr b) <= n)%nat.

Lemma short_copy n d s : (n < length d)%nat -> short n (copy_str d s n).
Proof. intros Hn. unfold short. rewrite copy_str_cstr by done. rewrite length_take. lia. Qed.

Lemma short_mono n m b : (n <= m)%nat -> short n b -> short m b.
Proof. unfold short. lia. Qed.

Lemma short_strncpy_zeros n k s : (n < k)%nat -> short n (strncpy (zeros k) s n).
Proof.
  intros Hn. unfold short. rewrite strncpy_cstr.
  - rewrite length_take. lia.
  - unfold at_, zeros. rewrite drop_replicate. by destruct (k - n)%nat eqn:E; [lia|].
Qed.

(** The two places that cut an address before its at sign. *)
Lemma cap_at (p s : list Z) (c : Z) : strchr s c = Some p -> 0 <= cap (ptr_diff p s) 32 < 32.
Proof.
  intros [pre ->]%strchr_suffix. apply cap_bound; [|lia]. unfold ptr_diff. rewrite length_app. lia.
Qed.

Lemma short_user jid : short 31 (offline_to_user jid).
Proof.
  unfold offline_to_user. destruct (strchr jid 64) as [p|] eqn:E.
  - apply cap_at in E. eapply short_mono; [|apply short_strncpy_zeros]; lia.
  - apply short_strncpy_zeros. lia.
Qed.

Lemma short_room_part to : short 31 (room_part to).
Proof.
  unfold room_part. destruct (strchr to (chr "@")) as [p|] eqn:E; [|vm_compute; lia].
  apply cap_at in E. eapply short_mono; [|apply short_strncpy_zeros]; lia.
Qed.

Lemma bare_part_length l : (length (bare_part l) <= length l)%nat.
Proof. induction l as [|c l IH]; simpl; [lia|]. destruct (_ =? _); simpl; lia. Qed.

Lemma short_cut n b : short n b -> short n (cut_slash b).
Proof. unfold short. rewrite cut_slash_cstr. pose proof (bare_part_length (cstr b)). lia. Qed.

Lemma short_bare64 jid : short 63 (bare64 jid).
Proof. apply short_cut, short_strncpy_zeros. lia. Qed.

(** * Pending requests *)

#[export] Instance pending_slotted : Slotted pending_sub_t (list Z * list Z * list Z) := {|
  slot_active e := negb (ps_active e =? 0);
  slot_key e := (cstr (ps_type e), cstr (ps_from e), cstr (ps_to_user e))
|}.

Definition pending_inv (v : list pending_sub_t) : Prop :=
  (Forall pending_ok v /\ length v = MAX_PENDING_SUBS) /\ unique v.

Lemma pending_same_holds t f u e : pending_same t f u e = holds (cstr t, cstr f, cstr u) e.
Proof.
  apply eq_true_iff_eq. rewrite holds_spec. unfold pending_same. rewrite !andb_true_iff, !strcmp_eqb, !bytes_eqb_spec.
  cbn [slot_active slot_key pending_slotted]. naive_solver congruence.
Qed.

Lemma pending_fill_ok e t f u :
  pending_ok e -> short 15 t -> short 63 f -> short 31 u ->
  pending_ok (pending_fill e t f u) /\ slot_key (pending_fill e t f u) = (cstr t, cstr f, cstr u).
Proof.
  unfold short. intros [L1 L2 L3 L4] Ht Hf Hu. unfold pending_fill. split.
  - split; cbn [ps_type ps_from ps_to_user ps_active]; [rewrite copy_str_length; lia..|unfold int32; lia].
  - cbn [slot_key pending_slotted ps_type ps_from ps_to_user].
    rewrite !copy_str_cstr by lia. by rewrite !take_ge.
Qed.

Lemma pending_put_inv v v' t f u :
  pending_inv v -> short 15 t -> short 63 f -> short 31 u -> pending_put v t f u = Some v' -> pending_inv v'.
Proof.
  intros [[Hok Hl] Hu] Ht Hf Hsu. unfold pending_put.
  destruct (first_index _ v) eqn:E; [done|]. intros [= <-].
  rewrite (first_index_ext _ _ _ (pending_same_holds t f u)) in E. rewrite first_index_None in E.
  split; [split; [|by rewrite length_alter]|].
  - apply Forall_alter; [done|]. intros e _ He. by apply pending_fill_ok.
  - apply unique_alter; [done|]. intros e j b He _ _ Hb Ha Ek.
    pose proof (Forall_lookup_1 _ _ _ _ Hok He) as Hok'.
    rewrite (proj2 (pending_fill_ok e t f u Hok' Ht Hf Hsu)) in Ek. specialize (E j b Hb).
    assert (holds (cstr t, cstr f, cstr u) b = true) by (by apply holds_spec). congruence.
Qed.

Lemma pending_clear_inv v i : pending_inv v -> pending_inv (alter (set_ps_active 0) i v).
Proof.
  intros [[Hok Hl] Hu]. split; [split; [|by rewrite length_alter]|].
  - apply Forall_alter; [done|]. intros e _ [L1 L2 L3 L4]. split; cbn; [done..|unfold int32; lia].
  - apply unique_alter; [done|]. intros e j b _ Ha. discriminate Ha.
Qed.

(** * Offline messages *)

Definition offline_inv (v : list offline_msg_t) : Prop := Forall offline_ok v /\ length v = MAX_OFFLINE_MSGS.

Lemma offline_fill_ok e a b c d : offline_ok e -> offline_ok (offline_fill e a b c d).
Proof.
  intros [L1 L2 L3 L4 L5 L6]. unfold offline_fill.
  split; cbn [om_from to_bare om_to_user om_id om_payload om_active];
    [rewrite copy_str_length; lia..|unfold int32; lia].
Qed.

Lemma offline_put_inv v v' a b c d : offline_inv v -> offline_put v a b c d = Some v' -> offline_inv v'.
Proof.
  intros [Hok Hl]. unfold offline_put. destruct (first_index _ v); [|done]. intros [= <-].
  split; [|by rewrite length_alter]. apply Forall_alter; [done|]. intros e _. apply offline_fill_ok.
Qed.

Lemma offline_clear_inv v i : offline_inv v -> offline_inv (alter (set_om_active 0) i v).
Proof.
  intros [Hok Hl]. split; [|by rewrite length_alter]. apply Forall_alter; [done|].
  intros e _ [L1 L2 L3 L4 L5 L6]. split; cbn; [done..|unfold int32; lia].
Qed.

(** * Rosters *)

Definition roster_inv (v : list roster_entry_t) : Prop :=
  (Forall roster_ok v /\ length v = MAX_ROSTER_ENTRIES) /\ unique v.

Lemma roster_set_inv v user payload : roster_inv v -> short 31 user -> roster_inv (roster_set v user payload).
Proof.
  intros [[Hok Hl] Hu] Hs. unfold roster_set.
  destruct (roster_items_inv (S (length payload)) v user payload (zeros 256) Hok Hu Hs) as (R1 & R2 & R3).
  split; [split; [done|congruence]|done].
Qed.

Lemma sub_write_tame e contact new : roster_ok e -> roster_ok (sub_write e contact new).
Proof.
  intros [L1 L2 L3 L4]. unfold sub_write.
  split; cbn [re_username re_jid item_xml re_active set_item_xml]; [done|done|rewrite copy_str_length; lia|done].
Qed.

Lemma sub_slot_tame e owner contact : roster_ok e -> roster_ok (sub_slot e owner contact).
Proof.
  intros [L1 L2 L3 L4]. unfold sub_slot.
  split; cbn [re_username re_jid item_xml re_active];
    [rewrite copy_str_length; lia|rewrite copy_str_length; lia|by rewrite length_insert|unfold int32; lia].
Qed.

Lemma sub_update_inv v owner contact inbound pt v' item :
  roster_inv v -> short 31 owner -> short 63 contact -> sub_update v owner contact inbound pt = Some (v', item) ->
  roster_inv v'.
Proof.
  intros [[Hok Hl] Hu] Ho Hc. unfold sub_update. rewrite first_match_holds.
  destruct (first_index (holds _) v) as [i|] eqn:E.
  - destruct (decide _); [done|]. intros [= <- _]. split; [split; [|by rewrite length_alter]|].
    + apply Forall_alter; [done|]. intros e _. apply sub_write_tame.
    + apply unique_alter; [done|]. intros e j b He Ha Hne Hb Hab Ek. apply Hne. eapply Hu; eauto.
  - destruct (decide _); [done|]. destruct (first_index (fun e => re_active e =? 0) v) as [i|]; [|done].
    intros [= <- _]. split; [split; [|by rewrite length_alter]|].
    + apply Forall_alter; [done|]. intros e _ He. by apply sub_write_tame, sub_slot_tame.
    + apply unique_alter; [done|]. intros e j b He _ _ Hb Hab Ek.
      rewrite first_index_None in E. specialize (E j b Hb).
      destruct (Forall_lookup_1 _ _ _ _ Hok He) as [L1 L2 _ _].
      assert (holds (roster_key owner contact) b = true); [|congruence].
      apply holds_spec. split; [done|]. rewrite Ek. cbn [slot_key roster_slotted].
      unfold roster_key. cbn [re_username re_jid sub_write set_item_xml sub_slot].
      rewrite !copy_str_cstr by lia. by rewrite !take_take_cstr by (unfold short in *; lia).
Qed.

(** * Private documents *)

Definition private_inv (v : list private_store_entry_t) : Prop :=
  (Forall private_ok v /\ length v = PRIVATE_STORAGE_SLOTS) /\ unique v.

Lemma private_upsert_length v user space doc len :
  length (snd (private_store_upsert v user space doc len)) = length v.
Proof. unfold private_store_upsert. by repeat case_match; cbn [snd]; rewrite ?length_alter. Qed.

(** A refused document leaves the store as it is. *)
Lemma private_upsert_inv v user space payload doc len r v' :
  private_inv v -> short 31 user -> short 127 space -> private_doc payload = Some (doc, len) ->
  private_store_upsert v user space doc len = (r, v') -> private_inv v' /\ (r <> 0 -> v' = v).
Proof.
  intros [[Hok Hl] Hu] Hs Hn Hd E. destruct (private_doc_ok _ _ _ Hd) as [B F].
  pose proof (private_upsert_refines v user space doc len Hok Hu Hs Hn B F) as R.
  pose proof (private_upsert_length v user space doc len) as L. rewrite E in R, L.
  destruct R as (R1 & R2 & R3). split; [split; [split; [done|cbn in L; congruence]|done]|].
  intros Hr. by destruct R3 as [[? _]|(_ & ? & _)].
Qed.

(** * Rooms *)

(** The arrays of a room, its counters and its occupants. *)
Record room_inv (r : room_t) : Prop := {
  ri_name : length (room_name r) = 32%nat;
  ri_name_short : short 31 (room_name r);
  ri_creator : length (creator_jid r) = 64%nat;
  ri_bans : length (banned_jids r) = MAX_BANNED_PER_ROOM /\ Forall (fun b => length b = 64%nat) (banned_jids r);
  ri_subject : length (subject r) = 256%nat;
  ri_ints : room_ok r;
  ri_users : occupants_ok r
}.

#[export] Instance room_slotted : Slotted room_t (list Z) := {|
  slot_active r := negb (room_active r =? 0);
  slot_key r := cstr (room_name r)
|}.

Definition rooms_inv (rs : list room_t) : Prop := (Forall room_inv rs /\ length rs = MAX_ROOMS) /\ unique rs.

(** What happens to a room in place: it keeps its name, or is given up. *)
Definition tame (f : room_t -> room_t) : Prop :=
  forall r, (room_active (f r) = room_active r /\ room_name (f r) = room_name r) \/ room_active (f r) = 0.

Lemma rooms_alter_inv f i rs :
  rooms_inv rs -> tame f -> (forall r, rs !! i = Some r -> room_inv r -> room_inv (f r)) -> rooms_inv (alter f i rs).
Proof.
  intros [[Hok Hl] Hu] Hf Hr. split; [split; [|by rewrite length_alter]|].
  - by apply Forall_alter.
  - apply unique_alter; [done|]. intros e j b He Ha Hne Hb Hab Ek. apply Hne. symmetry.
    cbn [slot_active slot_key room_slotted] in *. destruct (Hf e) as [[E1 E2]|E1]; rewrite E1 in Ha; [|done].
    rewrite E2 in Ek. by eapply Hu.
Qed.

Lemma is_room_holds name r : is_room name r = holds (cstr name) r.
Proof.
  apply eq_true_iff_eq. rewrite holds_spec. unfold is_room. by rewrite andb_true_iff, strcmp_eqb, bytes_eqb_spec.
Qed.

(** ** The operations *)

Lemma strcpy_length d s : (length (cstr s) < length d)%nat -> length (strcpy d s) = length d.
Proof. intros Hs. rewrite strcpy_eq, length_app. cbn [length]. rewrite length_drop. lia. Qed.

Lemma strcpy_cstr d s : cstr (strcpy d s) = cstr s.
Proof. rewrite strcpy_eq. apply cstr_app_nul, cstr_nul_free. Qed.

Lemma open_room_inv name jid r : short 31 name -> room_inv r -> room_inv (open_room name jid r).
Proof.
  unfold short. intros Hn [H1 H2 H3 H4 H5 [Hi Hb] H7].
  assert (room_ok (open_room name jid r)) as Hok.
  { split; [|exact Hb]. cbn [semi_anon locked room_active persistent moderated members_only open_room
      set_locked set_semi_anon set_creator_jid set_room_name set_room_active].
    rewrite !Forall_cons in Hi |- *. unfold int32 in *. split_and!; naive_solver lia. }
  split; [..|done|by apply (same_users_ok r)];
    cbn [room_name creator_jid banned_jids subject open_room set_locked set_semi_anon set_creator_jid
      set_room_name set_room_active]; try done.
  - rewrite strcpy_length; lia.
  - unfold short. by rewrite strcpy_cstr.
  - rewrite cut_slash_length, copy_str_length; lia.
Qed.

(** A new room takes a free slot, under a name that no room has. *)
Lemma open_rooms_inv name jid i rs :
  rooms_inv rs -> short 31 name -> find_room rs name = None -> rooms_inv (alter (open_room name jid) i rs).
Proof.
  intros [[Hok Hl] Hu] Hn Hf. split; [split; [|by rewrite length_alter]|].
  - apply Forall_alter; [done|]. intros r _ Hr. by apply open_room_inv.
  - apply unique_alter; [done|]. intros e j b He _ _ Hb Ha Ek.
    cbn [slot_key room_slotted room_name open_room set_locked set_semi_anon set_creator_jid set_room_name
      set_room_active] in Ek.
    rewrite strcpy_cstr in Ek. unfold find_room in Hf. rewrite first_index_None in Hf. specialize (Hf j b Hb).
    rewrite is_room_holds in Hf. assert (holds (cstr name) b = true) by (by apply holds_spec). congruence.
Qed.

Lemma add_ban_inv jid r : room_inv r -> has_ban_room r = true -> room_inv (add_ban jid r).
Proof.
  intros [H1 H2 H3 [H4 H4'] H5 [Hi Hb] H7] Hroom. unfold has_ban_room in Hroom. apply Z.ltb_lt in Hroom.
  split; cbn [room_name creator_jid banned_jids subject add_ban set_banned_count set_banned_jids]; try done.
  - split; [by rewrite length_alter|]. apply Forall_alter; [done|]. intros b _ L. rewrite copy_str_length; lia.
  - split; [exact Hi|]. cbn [banned_count add_ban set_banned_count]. unfold MAX_BANNED_PER_ROOM in Hroom. lia.
  - by apply (same_users_ok r).
Qed.

(** Changes of the occupants only. *)
Lemma users_inv r r' :
  (exists v, r' = set_users v r) -> occupants_ok r' -> room_inv r -> room_inv r'.
Proof. intros [v ->] Hu [H1 H2 H3 H4 H5 [Hi Hb] H7]. by split. Qed.

Lemma drop_user_inv k r : room_inv r -> room_inv (drop_user k r).
Proof. intros Hr. apply (users_inv r); [by eexists|apply drop_user_ok, Hr|done]. Qed.

Lemma rename_in_inv k n r :
  room_inv r -> short 31 n -> nick_taken_by_other k n r = false -> room_inv (rename_in k n r).
Proof. intros Hr Hn Ht. apply (users_inv r); [by eexists|by apply rename_ok; [apply Hr|..]|done]. Qed.

Lemma join_room_users n jid p r : exists v, join_room n jid p r = set_users v r.
Proof.
  unfold join_room. destruct (first_index _ (users r)); [by eexists|]. exists (users r). by destruct r.
Qed.

Lemma join_room_inv n jid p r :
  room_inv r -> short 31 n -> existsb (has_nick n) (users r) = false ->
  first_index (has_jid (bare64 jid)) (users r) = None -> room_inv (join_room n jid p r).
Proof. intros Hr Hn He Hj. apply (users_inv r); [apply join_room_users|by apply join_ok; [apply Hr|..]|done]. Qed.

Lemma memset_length (s : list Z) c n : (n <= length s)%nat -> length (memset s c n) = length s.
Proof. intros Hn. rewrite memset_eq, length_app, length_replicate, length_drop. lia. Qed.

Lemma close_room_inv r : room_inv r -> room_inv (close_room r).
Proof.
  intros [H1 H2 H3 H4 H5 [Hi Hb] H7]. unfold close_room. destruct (persistent r =? 0); [|by split].
  split; cbn [room_name creator_jid banned_jids subject set_members_only set_moderated set_persistent
    set_banned_count set_subject set_creator_jid set_room_name set_room_active]; try done.
  - rewrite memset_length; lia.
  - unfold short. replace (cstr (memset (room_name r) 0 32)) with (@nil Z); [simpl; lia|].
    rewrite memset_eq. reflexivity.
  - rewrite memset_length; lia.
  - by rewrite length_insert.
  - split; [|cbn; lia]. cbn [semi_anon locked room_active persistent moderated members_only set_members_only
      set_moderated set_persistent set_banned_count set_subject set_creator_jid set_room_name set_room_active].
    rewrite !Forall_cons in Hi |- *. unfold int32 in *. split_and!; naive_solver lia.
  - by apply (same_users_ok r).
Qed.

Lemma leave_room_inv k r : room_inv r -> room_inv (leave_room k r).
Proof.
  intros Hr. unfold leave_room. apply (drop_user_inv k) in Hr. destruct (occupied _); [done|by apply close_room_inv].
Qed.

Lemma configure_inv payload r : room_inv r -> room_inv (configure payload r).
Proof.
  intros [H1 H2 H3 H4 H5 H6 H7]. split; try done; [by apply configure_ok|by apply (same_users_ok r)].
Qed.

Lemma subject_inv p n r : (n < 256)%nat -> room_inv r -> room_inv (set_subject (copy_str (subject r) p n) r).
Proof.
  intros Hn [H1 H2 H3 H4 H5 H6 H7].
  split; cbn [room_name creator_jid banned_jids subject set_subject]; try done.
  - rewrite copy_str_length; lia.
  - by destruct H6 as [Hi Hb].
  - by apply (same_users_ok r).
Qed.

Lemma subject_of_bound payload p n : subject_of payload = Some (p, n) -> (Z.to_nat n < 256)%nat.
Proof.
  unfold subject_of. destruct (strstr payload _) as [q|]; [|done].
  destruct (strstr (drop 9 q) _) as [e|] eqn:E; [|done]. intros [= <- <-].
  apply strstr_suffix in E as [pre E]. pose proof (cap_bound (ptr_diff e (drop 9 q)) 256) as B.
  assert (0 <= ptr_diff e (drop 9 q)) by (unfold ptr_diff; rewrite E, length_app; lia). lia.
Qed.

Lemma room0_inv : room_inv room0.
Proof.
  split; try reflexivity; [vm_compute; lia| |apply room0_ok|apply room0_occupants].
  split; [done|]. by apply Forall_replicate.
Qed.

(** None of them gives a room a name. *)
Ltac tame := intros ?r; first [right; reflexivity | left; split; reflexivity].

Lemma tame_leave k : tame (leave_room k).
Proof.
  intros r. unfold leave_room, close_room. destruct (occupied _); [by left|]. destruct (persistent _ =? 0); [by right|by left].
Qed.

Lemma tame_join n jid p : tame (join_room n jid p).
Proof. intros r. left. by destruct (join_room_users n jid p r) as [v ->]. Qed.
