(* ===== verification/Lifetime.v ===== *)
(** The life of a server: boots, runs and reboots.

    As long as the disk works, every change of a store reaches the disk in the
    callback that makes it: between two callbacks the disk holds the stores as
    they are in memory, so that a reboot at that point restores them.  The
    invariants of the stores ([Upkeep]) therefore hold for good, not only until
    the next reboot.

    A handler may change one store for a while ([dirty]) as long as it saves
    it before it returns ([clean]). *)

From Stdlib Require Import ZArith Lia String Ascii Bool.
From stdpp Require Import base list numbers option sets relations.
From S2P Require Import Prelude.
From S2P Require Import Libc.
From S2P Require Import SlotMap.
From S2P Require Import XmppCore.
From S2P Require Import StanzaParse.
From S2P Require Import Persist.
From S2P Require Import Logic.
From S2P Require Import Store.
From S2P Require Import Tls.
From S2P Require Import Sasl.
From S2P Require Import Sm.
From S2P Require Import Iq.
From S2P Require Import Muc.
From S2P Require Import Message.
From S2P Require Import MucPresence.
From S2P Require Import Presence.
From S2P Require Import Router.
From S2P Require Import Server.
From S2P Require Import Reach.
From S2P Require Import Upkeep.

Open Scope Z_scope.

#[local] Strategy opaque [snprintf snprintf_into].

(** * Invariants *)

Record data_inv (s : srv) : Prop := {
  di_private : private_inv (private_store s);
  di_roster : roster_inv (roster_store s);
  di_rooms : rooms_inv (rooms s);
  di_offline : offline_inv (offline_store s);
  di_pending : pending_inv (pending_subs s)
}.

(** The user names fit their arrays. *)
Definition names (s : srv) : Prop := forall i, short 31 (username (client_of s i)).

(** The stores are well formed and the disk holds them. *)
Record clean (s : srv) : Prop := {
  cl_names : names s;
  cl_data : data_inv s;
  cl_saved : saved (disk s) s
}.

(** The store of region [r] may differ from the disk. *)
Record dirty (r : region) (s : srv) : Prop := {
  di_names : names s;
  di_data : data_inv s;
  di_size : (DISK_SIZE <= length (disk s))%nat;
  di_others : forall r', r' <> r -> region_saved (disk s) s r'
}.

Lemma data_stores_ok s : data_inv s -> stores_ok s.
Proof.
  intros [[P _] [R _] [[M1 M2] _] O [Q _]]. split; [done|done| |done|done].
  split; [|done]. eapply Forall_impl; [exact M1|]. by intros r [].
Qed.

Lemma clean_dirty r s : clean s -> dirty r s.
Proof. intros [H1 H2 [H3 _ H4]]. split; [done..|]. intros r' _. apply H4. Qed.

(** What the server keeps. *)
Definition core (s : srv) :=
  (private_store s, roster_store s, rooms s, offline_store s, pending_subs s, disk s).

(** The stores and the disk stay, and the user names still fit. *)
Definition steady (s s' : srv) : Prop := core s' = core s /\ (names s -> names s').

#[export] Instance steady_preorder : PreOrder steady.
Proof.
  split; [by intros s|]. intros s1 s2 s3 [E1 N1] [E2 N2]. split; [congruence|auto].
Qed.

Definition kept (s s' : srv) : Prop := clean s -> clean s'.
Definition soils (r : region) (s s' : srv) : Prop := dirty r s -> dirty r s'.

#[export] Instance kept_preorder : PreOrder kept.
Proof. split; [by intros s Hs|]. unfold kept. intros s1 s2 s3. auto. Qed.

#[export] Instance soils_preorder r : PreOrder (soils r).
Proof. split; [by intros s Hs|]. unfold soils. intros s1 s2 s3. auto. Qed.

Lemma core_data s s' : core s' = core s -> data_inv s -> data_inv s'.
Proof. intros [= E1 E2 E3 E4 E5 E6] [H1 H2 H3 H4 H5]. split; congruence. Qed.

Lemma core_image s s' r : core s' = core s -> image r s' = image r s.
Proof.
  intros [= E1 E2 E3 E4 E5 E6].
  destruct r; cbn [image]; unfold private_image, roster_image, rooms_image, offline_image, pending_image; congruence.
Qed.

Lemma crc_images s s' : (forall r, image r s' = image r s) -> compute_full_crc s' = compute_full_crc s.
Proof.
  intros Hi. rewrite !compute_full_crc_eq. unfold all_images.
  pose proof (Hi RPrivate) as E1. pose proof (Hi RRoster) as E2. pose proof (Hi RRooms) as E3.
  pose proof (Hi ROffline) as E4. pose proof (Hi RPending) as E5. cbn [image] in *. by rewrite E1, E2, E3, E4, E5.
Qed.

(** The disk holds whatever has the same images. *)
Lemma saved_images d s s' : (forall r, image r s' = image r s) -> saved d s -> saved d s'.
Proof.
  intros Hi [H1 H2 H3]. split; [done|unfold header_saved in *; by rewrite (crc_images s)|].
  intros r. unfold region_saved. rewrite Hi. apply H3.
Qed.

Lemma steady_kept s s' : steady s s' -> kept s s'.
Proof.
  intros [E N] [H1 H2 H3]. split; [by apply N|by apply (core_data s)|].
  assert (disk s' = disk s) as -> by (by injection E). apply (saved_images _ s); [|done].
  intros r. by apply core_image.
Qed.

Lemma steady_soils r s s' : steady s s' -> soils r s s'.
Proof.
  intros [E N] [H1 H2 H3 H4]. assert (disk s' = disk s) as Ed by (by injection E).
  split; [by apply N|by apply (core_data s)|by rewrite Ed|]. intros r' Hr. unfold region_saved.
  rewrite Ed, (core_image s s' r' E). by apply H4.
Qed.

Lemma kept_steady {A} (m : M A) : within steady m -> within kept m.
Proof. intros Hm s. apply steady_kept, Hm. Qed.

Lemma soils_steady {A} r (m : M A) : within steady m -> within (soils r) m.
Proof. intros Hm s. apply steady_soils, Hm. Qed.

#[export] Hint Resolve kept_steady soils_steady : handlers.

(** * The steady operations *)

Lemma steady_same {A} (m : M A) :
  within (same core) m -> within (keeps username) m -> within steady m.
Proof.
  intros Hc Hk s. split; [apply Hc|]. intros Hn i. rewrite (keeps_at _ _ _ i (Hk s)). apply Hn.
Qed.

Lemma steady_modify f :
  (forall s, core (f s) = core s) -> (forall s, client_registry (f s) = client_registry s) -> within steady (modify f).
Proof. intros Hc Hr s. split; [apply Hc|]. intros Hn i. unfold client_of. cbn [snd modify]. rewrite Hr. apply Hn. Qed.

Lemma steady_upd i f :
  (forall c, short 31 (username c) -> short 31 (username (f c))) -> within steady (upd_client i f).
Proof.
  intros Hf s. split; [done|]. intros Hn j. cbn [snd upd_client modify]. rewrite client_of_alter.
  case_decide as D; [|apply Hn]. destruct D as [-> _]. apply Hf, Hn.
Qed.

Lemma steady_call : within steady call.
Proof. by apply steady_modify. Qed.

Lemma steady_emit e : within steady (emit e).
Proof. by apply steady_modify. Qed.

Lemma steady_random `{Env} : within steady random_u32.
Proof.
  apply steady_same; [|apply within_random]. intros s. unfold random_u32, same.
  by destruct (secure_random_u32 _ _ _) as [[? ?] ?].
Qed.

Lemma steady_output i : within steady (output i).
Proof. apply steady_same; [by apply same_output|by apply within_output]. Qed.

Lemma steady_ssl_write `{Env} i p : within steady (ssl_write_call i p).
Proof. apply steady_same; [by apply same_ssl_write_call|by apply within_ssl_write_call]. Qed.

Lemma steady_send `{Env} i d : within steady (send_raw i d).
Proof. apply steady_same; [by apply same_send_raw|by apply within_send]. Qed.

#[export] Hint Resolve steady_call steady_emit steady_random steady_output steady_ssl_write steady_send : handlers.
#[export] Hint Extern 1 (within steady (modify _)) => apply steady_modify; done : handlers.
#[export] Hint Extern 1 (within steady (upd_client _ _)) =>
  apply steady_upd; intros ? ?; first [done | by case_match] : handlers.

(** ** The network side *)

Section network.
Context `{Env} (ctx : nat).

Lemma username_net_recv n c : username (snd (net_recv n c)) = username c.
Proof. unfold net_recv. by destruct (_ <=? 0). Qed.

Lemma username_compact c : username (staging_compact c) = username c.
Proof. unfold staging_compact. destruct (_ <=? _); [done|]. by destruct (_ <? _). Qed.

Lemma steady_compact : within steady (tls_staging_compact ctx).
Proof. apply steady_upd. intros c Hc. by rewrite username_compact. Qed.

Lemma steady_callbacks n : within steady (ssl_callbacks ctx n).
Proof.
  unfold ssl_callbacks, tls_net_recv, tls_net_send. within_auto.
  apply steady_upd. intros c Hc. by rewrite username_net_recv.
Qed.

Lemma steady_close_pcb : within steady (close_pcb ctx).
Proof. unfold close_pcb. within_auto. Qed.

Hint Resolve steady_compact steady_callbacks steady_close_pcb : handlers.

Lemma steady_client_init : within steady (xmpp_tls_client_init ctx).
Proof. unfold xmpp_tls_client_init. within_auto. Qed.

Lemma steady_client_free : within steady (xmpp_tls_client_free ctx).
Proof. unfold xmpp_tls_client_free. within_auto. Qed.

Lemma steady_handshake_step data : within steady (xmpp_tls_handshake_step ctx data).
Proof. unfold xmpp_tls_handshake_step. within_auto. Qed.

Lemma steady_decrypt_loop fuel : within steady (decrypt_loop fuel ctx).
Proof. induction fuel as [|fuel IH]; cbn [decrypt_loop]; within_auto. Qed.

Lemma steady_decrypt data : within steady (xmpp_tls_decrypt ctx data).
Proof. pose proof steady_decrypt_loop. unfold xmpp_tls_decrypt. within_auto. Qed.

Lemma steady_say p d : within steady (tcp_say p d).
Proof. unfold tcp_say. within_auto. Qed.

Lemma steady_say_close : within steady (tls_say_close ctx).
Proof. unfold tls_say_close. within_auto. Qed.

Hint Resolve steady_client_init steady_client_free steady_say steady_say_close : handlers.

Lemma steady_close_and_free : within steady (send_stream_close_and_free ctx).
Proof. unfold send_stream_close_and_free. within_auto. Qed.

Lemma steady_negotiate : within steady (handle_handshake_logic ctx).
Proof. unfold handle_handshake_logic. within_auto. Qed.

Hint Resolve steady_negotiate : handlers.

Lemma steady_start_tls : within steady (start_tls ctx).
Proof. unfold start_tls. within_auto. Qed.

Lemma steady_close_stream : within steady (close_stream ctx).
Proof. unfold close_stream. within_auto. Qed.

Lemma steady_open_stream : within steady (open_stream ctx).
Proof. unfold open_stream, refuse_stream. within_auto. Qed.

Lemma steady_abort_login : within steady (abort_login ctx).
Proof. unfold abort_login. within_auto. Qed.

Lemma steady_sm_element : within steady (xmpp_sm_handle_element ctx).
Proof. unfold xmpp_sm_handle_element, xmpp_sm_send_enabled, xmpp_sm_send_ack. within_auto. Qed.

Lemma steady_sm_received : within steady (xmpp_sm_on_stanza_received ctx).
Proof. unfold xmpp_sm_on_stanza_received. within_auto. Qed.

Lemma steady_copy_plain bufs : within steady (copy_plain ctx bufs).
Proof. induction bufs as [|q bufs IH]; cbn [copy_plain]; within_auto. Qed.

Lemma steady_feed f bufs : (forall q, within steady (f q)) -> within steady (feed f ctx bufs).
Proof. intros Hf. induction bufs as [|q bufs IH]; cbn [feed]; within_auto. Qed.

(** ** Logging in *)

Lemma short_put_username d c : short 31 (username (put_username (sasl_username d) c)).
Proof.
  unfold short, put_username. cbn [username set_username].
  assert (nul_free (sasl_username d) /\ (length (sasl_username d) <= 31)%nat) as [Hf Hl].
  { unfold sasl_username. destruct (_ <? _); [|split; [constructor|simpl; lia]].
    split; [apply take_nul_free, cstr_nul_free|rewrite length_take; lia]. }
  by rewrite cstr_app_nul.
Qed.

Lemma short_default c : short 31 (username (set_username (strncpy (username c) (str "user") 31) c)).
Proof.
  unfold short. cbn [username set_username]. rewrite strncpy_eq.
  change (cstr (str "user")) with (str "user"). change (take 31 (str "user")) with (str "user").
  change (31 - length (str "user"))%nat with 27%nat. cbn [replicate]. rewrite <- app_comm_cons.
  rewrite cstr_app_nul; [simpl; lia|]. repeat constructor; done.
Qed.

Lemma steady_sasl stanza : within steady (handle_sasl ctx stanza).
Proof.
  assert (forall d, within steady (upd_client ctx (put_username (sasl_username d)))) as Hp
    by (intros d; apply steady_upd; intros c _; apply short_put_username).
  assert (within steady (upd_client ctx (fun c => set_username (strncpy (username c) (str "user") 31) c))) as Hd
    by (apply steady_upd; intros c _; apply short_default).
  unfold handle_sasl, sasl_refuse. within_auto.
Qed.

(** ** Binding *)

Lemma short_client0 : short 31 (username client0).
Proof. vm_compute. lia. Qed.

End network.

(** * Changing a store and saving it *)

(** [s'] differs from [s] in the store of region [r] only. *)
Record touches (r : region) (s s' : srv) : Prop := {
  to_clients : client_registry s' = client_registry s;
  to_disk : disk s' = disk s;
  to_others : forall r', r' <> r -> image r' s' = image r' s
}.

Lemma touch_dirty r s s' : touches r s s' -> data_inv s' -> dirty r s -> dirty r s'.
Proof.
  intros [E1 E2 E3] Hd [H1 H2 H3 H4]. split; [|done|by rewrite E2|].
  - intros i. unfold client_of. rewrite E1. apply H1.
  - intros r' Hr. unfold region_saved. rewrite E2, E3 by done. by apply H4.
Qed.

(** A change that does not show in the image needs no saving. *)
Lemma touch_clean r s s' : touches r s s' -> image r s' = image r s -> data_inv s' -> clean s -> clean s'.
Proof.
  intros [E1 E2 E3] Ei Hd [H1 H2 H3]. split; [|done|].
  - intros i. unfold client_of. rewrite E1. apply H1.
  - rewrite E2. apply (saved_images _ s); [|done]. intros r'. destruct (decide (r' = r)) as [->|]; [done|by apply E3].
Qed.

Section saving.
Context `{Env} (Hdisk : forall n, disk_result n = 0).

Lemma save_cleans r s : dirty r s -> clean (snd (save_region r s)).
Proof.
  intros [H1 H2 H3 H4].
  pose proof (save_region_saved r s (data_stores_ok _ H2) H3 H4 (Hdisk _) (Hdisk _)) as Hs.
  pose proof (save_region_ok r s (Hdisk _) (Hdisk _)) as E. rewrite E in Hs |- *. cbn [snd] in *. split.
  - intros i. apply H1.
  - by destruct H2.
  - revert Hs. apply saved_images. by intros [].
Qed.

Lemma kept_save r : within kept (save_region r).
Proof. intros s Hs. by apply save_cleans, clean_dirty. Qed.

(** A program that dirties one store and then saves it. *)
Lemma kept_soil {A} r (m : M unit) (k : M A) :
  within (soils r) m -> within kept k -> within kept (m ;; save_region r ;; k).
Proof.
  intros Hm Hk s Hs. run. run. apply Hk, save_cleans, Hm. by apply clean_dirty.
Qed.

Lemma kept_soil_end r (m : M unit) : within (soils r) m -> within kept (m ;; save_region r).
Proof. intros Hm s Hs. run. apply save_cleans, Hm. by apply clean_dirty. Qed.

(** What the store holds is known while the program looks at it. *)
Lemma kept_gets {A B} (g : srv -> A) (f : A -> M B) :
  (forall s, clean s -> clean (snd (f (g s) s))) -> within kept (gets g ≫= f).
Proof. intros Hf s Hs. run. by apply Hf. Qed.

Lemma kept_client {A} i (f : xmpp_client_ctx_t -> M A) :
  (forall c, short 31 (username c) -> within kept (f c)) -> within kept (client i ≫= f).
Proof. intros Hf s Hs. run. rewrite client_eq. cbn [fst snd]. apply Hf; [|done]. apply (cl_names _ Hs). Qed.

End saving.

(** ** The five stores *)

Lemma touch_private v s : touches RPrivate s (set_private_store v s).
Proof. split; [done|done|]. by intros []. Qed.

Lemma touch_roster v s : touches RRoster s (set_roster_store v s).
Proof. split; [done|done|]. by intros []. Qed.

Lemma touch_rooms v s : touches RRooms s (set_rooms v s).
Proof. split; [done|done|]. by intros []. Qed.

Lemma touch_offline v s : touches ROffline s (set_offline_store v s).
Proof. split; [done|done|]. by intros []. Qed.

Lemma touch_pending v s : touches RPending s (set_pending_subs v s).
Proof. split; [done|done|]. by intros []. Qed.

Lemma data_private v s : private_inv v -> data_inv s -> data_inv (set_private_store v s).
Proof. by intros Hv []. Qed.

Lemma data_roster v s : roster_inv v -> data_inv s -> data_inv (set_roster_store v s).
Proof. by intros Hv []. Qed.

Lemma data_rooms v s : rooms_inv v -> data_inv s -> data_inv (set_rooms v s).
Proof. by intros Hv []. Qed.

Lemma data_offline v s : offline_inv v -> data_inv s -> data_inv (set_offline_store v s).
Proof. by intros Hv []. Qed.

Lemma data_pending v s : pending_inv v -> data_inv s -> data_inv (set_pending_subs v s).
Proof. by intros Hv []. Qed.

(** * The handlers *)

Section handlers.
Context `{Env} (Hdisk : forall n, disk_result n = 0) (Huninit : forall n, length (uninit n) = n).

Lemma save_after r s s' : touches r s s' -> data_inv s' -> clean s -> clean (snd (save_region r s')).
Proof. intros Ht Hd Hs. apply save_cleans; [done|]. apply (touch_dirty r s); [done|done|by apply clean_dirty]. Qed.

Lemma kept_enqueue a b c d : within kept (offline_msg_enqueue a b c d).
Proof.
  unfold offline_msg_enqueue. apply kept_gets. intros s Hs. unfold id.
  destruct (offline_put _ _ _ _ _) as [v|] eqn:E; [|done]. run. run.
  apply (save_after ROffline s); [apply touch_offline| |done].
  apply data_offline; [|apply Hs]. eapply offline_put_inv; [apply Hs|exact E].
Qed.

Lemma kept_drain ctx : within kept (offline_msg_drain ctx).
Proof.
  apply (kept_soil_end Hdisk ROffline). within_auto. intros s Hs. apply (touch_dirty _ s); [apply touch_offline| |done].
  apply data_offline; [|apply Hs]. apply offline_clear_inv, Hs.
Qed.

Lemma kept_pending_enqueue t f u :
  short 15 t -> short 63 f -> short 31 u -> within kept (pending_sub_enqueue t f u).
Proof.
  intros Ht Hf Hu. unfold pending_sub_enqueue. apply kept_gets. intros s Hs. unfold id.
  destruct (pending_put _ _ _ _) as [v|] eqn:E; [|done]. run.
  apply (save_after RPending s); [apply touch_pending| |done].
  apply data_pending; [|apply Hs]. eapply pending_put_inv; [apply Hs|exact Ht|exact Hf|exact Hu|exact E].
Qed.

Lemma kept_pending_drain ctx : within kept (pending_sub_drain ctx).
Proof.
  apply (kept_soil_end Hdisk RPending). within_auto. intros s Hs. apply (touch_dirty _ s); [apply touch_pending| |done].
  apply data_pending; [|apply Hs]. apply pending_clear_inv, Hs.
Qed.

Hint Resolve kept_enqueue kept_drain kept_pending_drain : handlers.

Lemma kept_private ctx stanza : within kept (handle_private_storage ctx stanza).
Proof.
  unfold handle_private_storage. apply kept_client. intros c Hc. destruct (private_names _) as [child space] eqn:En.
  pose proof (private_names_bound (st_payload stanza)) as Hn. rewrite En in Hn. cbn [snd] in Hn.
  destruct (_ =? 0); [within_auto|]. destruct (decide _); [|within_auto].
  clear c Hc. unfold private_set. apply kept_client. intros c Hc.
  destruct (private_doc _) as [[doc len]|] eqn:Ed; [|within_auto]. apply kept_gets. intros s Hs.
  destruct (private_store_upsert _ _ _ _ _) as [r v] eqn:Eu.
  destruct (private_upsert_inv _ _ _ _ _ _ _ _ (di_private _ (cl_data _ Hs)) Hc Hn Ed Eu) as [Hv Hr].
  run. change (snd (modify _ s)) with (set_private_store v s). destruct (Z.eqb_spec r 0) as [->|Hne]; cbn [negb].
  - run. apply (kept_steady _ (steady_send _ _)).
    apply (save_after RPrivate s); [apply touch_private|by apply data_private, Hs|done].
  - apply (kept_steady _ (steady_send _ _)). rewrite (Hr Hne). by destruct s.
Qed.

Lemma kept_roster ctx stanza : within kept (handle_roster_request ctx stanza).
Proof.
  unfold handle_roster_request. apply kept_client. intros c Hc. destruct (decide _); [|within_auto].
  apply (kept_soil Hdisk RRoster); [|unfold roster_push; within_auto]. intros s Hs.
  apply (touch_dirty _ s); [apply touch_roster| |done]. apply data_roster; [|apply Hs].
  apply roster_set_inv; [apply Hs|done].
Qed.

Lemma kept_initial ctx stanza : within kept (handle_initial_presence ctx stanza).
Proof. unfold handle_initial_presence, announce_presence, probe_presence. within_auto. Qed.

Lemma steady_fixed ctx stanza :
  within steady (handle_blocklist ctx stanza) /\ within steady (handle_version ctx stanza) /\
  within steady (handle_last ctx stanza) /\ within steady (handle_ping ctx stanza) /\
  within steady (handle_general_success ctx stanza).
Proof.
  unfold handle_blocklist, handle_version, handle_last, handle_ping, handle_general_success.
  split_and!; within_auto.
Qed.

Lemma steady_disco ctx stanza :
  within steady (handle_disco_info ctx stanza) /\ within steady (handle_disco_items ctx stanza).
Proof. unfold handle_disco_info, forward_caps, handle_disco_items. split; within_auto. Qed.

Lemma steady_bind ctx stanza : within steady (handle_core_bind ctx stanza).
Proof.
  assert (forall i, within steady (upd_client i (fun _ => client0))) as H0
    by (intros i; apply steady_upd; intros c _; apply short_client0).
  pose proof steady_client_free. unfold handle_core_bind, evict_others, evict. within_auto.
Qed.

Lemma steady_session ctx stanza : within steady (handle_core_session ctx stanza).
Proof. unfold handle_core_session. within_auto. Qed.

Lemma kept_subscription owner contact inbound pt :
  short 31 owner -> short 63 contact -> within kept (subscription_update_roster owner contact inbound pt).
Proof.
  intros Ho Hc. unfold subscription_update_roster. apply kept_gets. intros s Hs.
  destruct (sub_update _ _ _ _ _) as [[v item]|] eqn:E; [|done]. run. run.
  assert (clean (snd (xmpp_persist_save_roster (set_roster_store v s)))) as Hs1.
  { apply (save_after RRoster s); [apply touch_roster| |done]. apply data_roster; [|apply Hs].
    eapply sub_update_inv; [apply Hs|exact Ho|exact Hc|exact E]. }
  revert Hs1. apply steady_kept. match goal with |- steady ?t (snd (?m _)) => cut (within steady m); [intros W; apply W|] end.
  within_auto.
Qed.

Lemma short_ptype t : short 15 (ptype_name t).
Proof. destruct t; vm_compute; lia. Qed.

Lemma kept_broadcast ctx stanza : within kept (handle_broadcast_presence ctx stanza).
Proof.
  pose proof (kept_pending_enqueue (ptype_name (st_type stanza))) as Hp.
  pose proof (fun a b => kept_subscription (offline_to_user a) (bare64 b)) as Hs.
  pose proof short_user. pose proof short_bare64. pose proof short_ptype.
  unfold handle_broadcast_presence, presence_probe, presence_subscription, presence_directed, presence_all.
  within_auto.
Qed.

End handlers.

(** ** Rooms *)

Section rooms.
Context `{Env} (Hdisk : forall n, disk_result n = 0) (Huninit : forall n, length (uninit n) = n).

Lemma steady_to_jid j t : within steady (send_to_jid j t).
Proof. unfold send_to_jid. within_auto. Qed.

Hint Resolve steady_to_jid : handlers.

Lemma steady_tell_others i j f : within steady (tell_others i j f).
Proof. unfold tell_others. within_auto. Qed.

Lemma steady_tell_all i f : within steady (tell_all i f).
Proof. unfold tell_all. within_auto. Qed.

Lemma steady_welcome ctx i b n new : within steady (muc_welcome ctx i b n new).
Proof. unfold muc_welcome. within_auto. Qed.

Hint Resolve steady_tell_others steady_tell_all steady_welcome : handlers.

Lemma steady_rooms {A} (m : M A) s : within steady m -> rooms (snd (m s)) = rooms s.
Proof. intros Hm. destruct (Hm s) as [E _]. by injection E. Qed.

Lemma steady_clean {A} (m : M A) s : within steady m -> clean s -> clean (snd (m s)).
Proof. intros Hm. apply steady_kept, Hm. Qed.

Section upd.
Context (i : nat) (f : room_t -> room_t) (s : srv) (Hf : tame f).
Context (Hr : forall r, rooms s !! i = Some r -> room_inv r -> room_inv (f r)).

Lemma upd_data : data_inv s -> data_inv (snd (upd_room i f s)).
Proof. intros Hd. apply data_rooms; [|done]. apply rooms_alter_inv; [apply Hd|done|done]. Qed.

Lemma upd_dirty : dirty RRooms s -> dirty RRooms (snd (upd_room i f s)).
Proof. intros Hs. apply (touch_dirty _ s); [apply touch_rooms|apply upd_data, Hs|done]. Qed.

Lemma upd_saved : clean s -> clean (snd (save_region RRooms (snd (upd_room i f s)))).
Proof. intros Hs. apply save_cleans; [done|]. by apply upd_dirty, clean_dirty. Qed.

(** What is not saved of a room need not be saved. *)
Lemma upd_clean : (forall r, rooms s !! i = Some r -> enc_room (f r) = enc_room r) -> clean s -> clean (snd (upd_room i f s)).
Proof.
  intros He Hs. apply (touch_clean RRooms s); [apply touch_rooms| |apply upd_data, Hs|done].
  cbn [image]. unfold rooms_image. f_equal. cbn [snd upd_room modify rooms set_rooms].
  apply list_eq. intros j. rewrite !list_lookup_fmap. destruct (decide (i = j)) as [<-|Hne].
  - rewrite list_lookup_alter_eq. destruct (rooms s !! i) as [r|]; [|done]. cbn. by rewrite He.
  - by rewrite list_lookup_alter_ne.
Qed.

End upd.

Lemma room_of_lookup s i r : rooms s !! i = Some r -> room_of s i = r.
Proof. intros E. unfold room_of. by rewrite E. Qed.

Lemma kept_drop i j : within kept (upd_room i (drop_user j)).
Proof. intros s Hs. apply upd_clean; [by left|intros r _; apply drop_user_inv|done|done]. Qed.

Lemma kept_kick stanza ban i j : within kept (kick stanza ban i j).
Proof.
  unfold kick. apply kept_gets. intros s Hs. unfold id. run. set (s1 := snd (tell_others _ _ _ s)).
  run. set (s2 := snd (send_to_jid _ _ s1)). run. apply kept_drop.
  assert (clean s2) as H2 by (apply steady_clean, steady_clean; auto with handlers).
  assert (rooms s2 = rooms s) as E2 by (unfold s2, s1; rewrite !steady_rooms; auto with handlers).
  destruct (ban && has_ban_room _) eqn:E; [|done]. apply andb_prop in E as [_ E]. run.
  apply (upd_saved i _ s2); [by left| |done]. intros r Hr Hi. rewrite E2 in Hr.
  rewrite (room_of_lookup _ _ _ Hr) in E. by apply add_ban_inv.
Qed.

Lemma kept_muc_admin ctx stanza : within kept (handle_muc_admin ctx stanza).
Proof. pose proof kept_kick. unfold handle_muc_admin. within_auto. Qed.

Lemma soils_upd i f : tame f -> (forall r, room_inv r -> room_inv (f r)) -> within (soils RRooms) (upd_room i f).
Proof. intros Hf Hr s Hs. apply upd_dirty; [done| |done]. intros r _. apply Hr. Qed.

Lemma kept_destroy stanza i : within kept (destroy_room stanza i).
Proof.
  unfold destroy_room. apply within_bind; [typeclasses eauto|within_auto|intros _].
  apply (kept_soil_end Hdisk RRooms), soils_upd; [by right|]. intros r _. apply room0_inv.
Qed.

Lemma kept_configure i payload : within kept (upd_room i (configure payload) ;; xmpp_persist_save_rooms).
Proof. apply (kept_soil_end Hdisk RRooms), soils_upd; [by left|apply configure_inv]. Qed.

Lemma kept_muc_owner ctx stanza : within kept (handle_muc_owner ctx stanza).
Proof.
  pose proof kept_destroy as Hd. pose proof kept_configure as Hc. unfold handle_muc_owner.
  do 2 (apply within_bind; [typeclasses eauto|within_auto|intros ?]). cbv zeta.
  destruct (_ && _); [|destruct (_ || _); [|within_auto]];
    (apply within_bind; [typeclasses eauto|destruct (find_room _ _); [auto|within_auto]|intros _; within_auto]).
Qed.

Lemma kept_subject i stanza : within kept (set_room_subject i stanza).
Proof.
  unfold set_room_subject. destruct (subject_of _) as [[p n]|] eqn:E; [|within_auto]. apply subject_of_bound in E.
  apply (kept_soil_end Hdisk RRooms), soils_upd; [by left|]. intros r. by apply subject_inv.
Qed.

Lemma kept_chat ctx stanza : within kept (handle_chat_message ctx stanza).
Proof.
  pose proof kept_subject. pose proof (kept_enqueue Hdisk).
  unfold handle_chat_message, room_message, private_message, group_message, user_message, deliver. within_auto.
Qed.

(** ** Presence in rooms *)

Lemma kept_leave ctx i b n : within kept (muc_leave ctx i b n).
Proof.
  unfold muc_leave. apply kept_gets. intros s Hs. unfold id.
  destruct (first_index _ _) as [k|]; [|done]. run. set (s1 := snd (tell_others _ _ _ s)). run. rewrite client_eq.
  cbn [fst snd]. run. set (s2 := snd (send_raw _ _ s1)). run.
  assert (clean s2) as H2 by (apply steady_clean, steady_clean; auto with handlers).
  assert (rooms s2 = rooms s) as E2 by (unfold s2, s1; rewrite !steady_rooms; auto with handlers).
  assert (forall r, rooms s2 !! i = Some r -> room_inv r -> room_inv (leave_room k r)) as Hl
    by (intros r _; apply leave_room_inv).
  destruct (occupied _) eqn:Eo; cbn [negb when].
  - apply (upd_clean i _ s2); [apply tame_leave|done| |done]. intros r Hr. rewrite E2 in Hr.
    rewrite (room_of_lookup _ _ _ Hr) in Eo. unfold leave_room. by rewrite Eo.
  - apply (upd_saved i _ s2); [apply tame_leave|done|done].
Qed.

Lemma kept_rename ctx i k b n : short 31 n -> within kept (muc_rename ctx i k b n).
Proof.
  intros Hn. unfold muc_rename. apply kept_gets. intros s Hs. unfold id.
  destruct (nick_taken_by_other _ _ _) eqn:Et; [apply steady_clean; [auto with handlers|done]|].
  run. set (s1 := snd (tell_all _ _ s)). run. apply steady_clean; [auto with handlers|].
  assert (clean s1) as H1 by (apply steady_clean; auto with handlers).
  assert (rooms s1 = rooms s) as E1 by (unfold s1; rewrite !steady_rooms; auto with handlers).
  apply (upd_clean i _ s1); [by left| |done|done]. intros r Hr Hi. rewrite E1 in Hr.
  rewrite (room_of_lookup _ _ _ Hr) in Et. by apply rename_in_inv.
Qed.

Lemma kept_join ctx i b n new s :
  short 31 n -> clean s ->
  first_index (has_jid (bare64 (full_jid (client_of s ctx)))) (users (room_of s i)) = None ->
  clean (snd (muc_join ctx i b n new s)).
Proof.
  intros Hn Hs Hj. unfold muc_join. run. rewrite gets_eq. cbn [fst snd]. unfold id.
  destruct (is_banned _ _); [apply steady_clean; [auto with handlers|done]|].
  destruct (existsb _ _) eqn:Ee; [apply steady_clean; [auto with handlers|done]|].
  run. apply steady_clean; [auto with handlers|].
  apply (upd_clean i _ s); [apply tame_join| | |done].
  - intros r Hr Hi. rewrite (room_of_lookup _ _ _ Hr) in Ee, Hj. by apply join_room_inv.
  - intros r _. by destruct (join_room_users n (full_jid (client_of s ctx)) (pcb (client_of s ctx)) r) as [v ->].
Qed.

Lemma kept_presence_in ctx i stanza b n new : short 31 n -> within kept (muc_presence_in ctx i stanza b n new).
Proof.
  intros Hn. unfold muc_presence_in. apply kept_gets. intros s Hs. unfold id.
  destruct (truth _ && _); [apply steady_clean; [auto with handlers|done]|].
  destruct (decide _); [by apply kept_leave|]. destruct (first_index _ _) as [k|] eqn:Ej; [|by apply kept_join].
  destruct (_ =? 0); [|by apply kept_rename]. apply steady_clean; [|done]. unfold muc_available. within_auto.
Qed.

Lemma kept_get_room ctx to : within kept (get_room ctx (room_part to)).
Proof.
  unfold get_room. apply kept_gets. intros s Hs. unfold id. destruct (find_room _ _) eqn:Ef; [done|].
  destruct (first_index _ (rooms s)) as [i|]; [|done]. run. run. cbn [snd mret M_ret].
  apply (save_after Hdisk RRooms s); [apply touch_rooms| |done]. apply data_rooms; [|apply Hs].
  apply open_rooms_inv; [apply Hs|apply short_room_part|done].
Qed.

Lemma kept_muc_presence ctx stanza : within kept (handle_muc_presence ctx stanza).
Proof.
  assert (forall l, short 31 (copy_str (uninit 32) l 31)) as Hn by (intros l; apply short_copy; rewrite Huninit; lia).
  pose proof (kept_get_room ctx). pose proof kept_presence_in. unfold handle_muc_presence. within_auto.
Qed.

End rooms.

(** * The router and the callbacks *)

Section server.
Context `{Env} (Hdisk : forall n, disk_result n = 0) (Huninit : forall n, length (uninit n) = n).
Context (ctx : nat).

Lemma kept_routes stanza r : r ∈ router -> within kept (rt_handler r ctx stanza).
Proof.
  destruct (steady_fixed ctx stanza) as (F1 & F2 & F3 & F4 & F5). destruct (steady_disco ctx stanza) as [D1 D2].
  intros Hr. unfold router in Hr. repeat (apply elem_of_cons in Hr as [-> |Hr]; [cbn [rt_handler]|]);
    [exact (kept_steady _ (steady_bind ctx stanza))|exact (kept_steady _ (steady_session ctx stanza))|
     exact (kept_roster Hdisk ctx stanza)|exact (kept_steady _ D1)|exact (kept_steady _ D2)|
     exact (kept_muc_presence Hdisk Huninit ctx stanza)|exact (kept_muc_owner Hdisk ctx stanza)|
     exact (kept_private Hdisk ctx stanza)|exact (kept_muc_admin Hdisk ctx stanza)|
     exact (kept_steady _ F1)|exact (kept_steady _ F5)|exact (kept_steady _ F2)|exact (kept_steady _ F3)|
     exact (kept_steady _ F4)|]. by apply elem_of_nil in Hr.
Qed.

Lemma kept_by_type stanza : within kept (route_by_type ctx stanza).
Proof.
  pose proof (kept_chat Hdisk ctx stanza). pose proof (kept_muc_presence Hdisk Huninit ctx stanza).
  pose proof (kept_initial Hdisk ctx stanza). pose proof (kept_broadcast Hdisk ctx stanza).
  pose proof (kept_muc_owner Hdisk ctx stanza).
  unfold route_by_type, route_presence, route_unknown. within_auto.
Qed.

Lemma kept_route k : within kept (xmpp_route_stanza ctx k).
Proof.
  pose proof (steady_negotiate ctx). unfold xmpp_route_stanza, upd_stanza.
  do 3 (apply within_bind; [typeclasses eauto|within_auto|intros ?]). destruct (_ && _); [within_auto|].
  destruct (find_route _) as [r|] eqn:Ef; [|apply kept_by_type]. apply find_route_in in Ef.
  pose proof (fun st => kept_routes st r Ef). unfold dispatch. within_auto.
Qed.

Lemma kept_handle_stanza k : within kept (handle_stanza ctx k).
Proof.
  pose proof kept_route. pose proof (steady_sasl ctx). pose proof (steady_sm_received ctx).
  unfold handle_stanza. within_auto.
Qed.

Lemma kept_next_stanza p : within kept (next_stanza ctx p).
Proof.
  pose proof kept_handle_stanza. pose proof steady_say. unfold next_stanza. within_auto.
Qed.

Lemma kept_round p : within kept (rx_round ctx p).
Proof.
  pose proof (kept_next_stanza p). pose proof (steady_start_tls ctx). pose proof (steady_close_stream ctx).
  pose proof (steady_open_stream ctx). pose proof (steady_abort_login ctx). pose proof (steady_sm_element ctx).
  unfold rx_round, rx_dispatch. within_auto.
Qed.

Lemma kept_rx_loop fuel p : within kept (rx_loop fuel ctx p).
Proof. pose proof (kept_round p). induction fuel as [|fuel IH]; cbn [rx_loop]; within_auto. Qed.

Lemma kept_recv p data : within kept (xmpp_recv_callback ctx p data).
Proof.
  pose proof (kept_rx_loop RX_BUFFER_SIZE p). pose proof (steady_close_and_free ctx). pose proof steady_say.
  pose proof (steady_feed ctx (xmpp_tls_handshake_step ctx)). pose proof (steady_feed ctx (xmpp_tls_decrypt ctx)).
  pose proof (steady_handshake_step ctx). pose proof (steady_decrypt ctx). pose proof (steady_copy_plain ctx).
  unfold xmpp_recv_callback, recv_data. within_auto.
Qed.

Lemma steady_blank : within steady (upd_client ctx (fun _ => client0)).
Proof. apply steady_upd. intros c _. apply short_client0. Qed.

Lemma kept_err : within kept (xmpp_err_callback ctx).
Proof.
  pose proof steady_blank. pose proof (steady_client_free ctx). unfold xmpp_err_callback. within_auto.
Qed.

Lemma kept_accept newpcb : within kept (xmpp_accept_callback ctx newpcb).
Proof.
  pose proof steady_blank. pose proof (steady_client_free ctx). unfold xmpp_accept_callback. within_auto.
Qed.

End server.

Lemma kept_serve `{Env} : within kept serve_connections.
Proof.
  pose proof steady_handshake_step. unfold serve_connections, xmpp_sm_request_ack. within_auto.
Qed.

(** * Boots *)

(** ** Fresh stores *)

Lemma cleared_data s : data_inv (clear_stores s).
Proof.
  destruct (cleared_ok s) as [P R _ O Q]. split.
  - split; [exact P|by apply unique_replicate].
  - split; [exact R|by apply unique_replicate].
  - split; [split; [apply Forall_replicate, room0_inv|done]|by apply unique_replicate].
  - exact O.
  - split; [exact Q|by apply unique_replicate].
Qed.

(** The empty store fills its region with zeros. *)
Lemma cleared_padded s r : padded (sectors r) (image r (clear_stores s)) = zeros (sectors r * SECTOR).
Proof.
  pose proof (image_fits _ r (cleared_ok s)) as Hf. destruct (cleared_image s r) as [k Ek]. rewrite Ek in *.
  unfold padded, zeros in *. rewrite length_replicate in *. rewrite <- replicate_add. f_equal. lia.
Qed.

Definition wipe (r : region) (d : list Z) : list Z := splice (start r * SECTOR) (zeros (sectors r * SECTOR)) d.

Lemma wipe_fits r (d : list Z) :
  (DISK_SIZE <= length d)%nat -> (start r * SECTOR + length (zeros (sectors r * SECTOR)) <= length d)%nat.
Proof. pose proof (region_bounds r). unfold zeros, DISK_SIZE, SECTOR in *. rewrite length_replicate. lia. Qed.

Lemma wipe_length r d : (DISK_SIZE <= length d)%nat -> length (wipe r d) = length d.
Proof. intros Hd. by apply splice_length, wipe_fits. Qed.

Lemma wipe_size r d : (DISK_SIZE <= length d)%nat -> (DISK_SIZE <= length (wipe r d))%nat.
Proof. intros Hd. by rewrite wipe_length. Qed.

Lemma wipe_field r r' d :
  (DISK_SIZE <= length d)%nat ->
  field (wipe r d) (start r' * SECTOR) (sectors r' * SECTOR) =
  if decide (r' = r) then zeros (sectors r' * SECTOR) else field d (start r' * SECTOR) (sectors r' * SECTOR).
Proof.
  intros Hd. pose proof (wipe_fits r d Hd) as Hf. unfold wipe.
  assert (length (zeros (sectors r * SECTOR)) = (sectors r * SECTOR)%nat) as Lz by (unfold zeros; apply length_replicate).
  case_decide as D.
  - subst r'. apply splice_same; [done|by rewrite Lz in Hf].
  - apply splice_other; [done|]. rewrite Lz. pose proof (regions_disjoint r' r D). unfold SECTOR. lia.
Qed.

Definition wiped (d : list Z) : list Z := wipe RPending (wipe ROffline (wipe RRooms (wipe RRoster (wipe RPrivate d)))).

Lemma wiped_length d : (DISK_SIZE <= length d)%nat -> length (wiped d) = length d.
Proof. intros Hd. unfold wiped. by rewrite !wipe_length by auto using wipe_size. Qed.

Lemma wiped_field r d :
  (DISK_SIZE <= length d)%nat ->
  field (wiped d) (start r * SECTOR) (sectors r * SECTOR) = zeros (sectors r * SECTOR).
Proof.
  intros Hd. unfold wiped. rewrite !wipe_field by auto using wipe_size.
  destruct r; repeat (case_decide; try done).
Qed.

Lemma fresh_start_eq `{Env} s :
  (forall n, disk_result n = 0) ->
  snd (fresh_start s) =
  set_calls (6 + calls s) (set_disk (splice 0 (header (compute_full_crc (clear_stores s))) (wiped (disk s)))
    (clear_stores s)).
Proof.
  intros E. unfold fresh_start, write_header. unfold mbind, M_bind, modify, gets, skip.
  rewrite !disk_write_ok by apply E. unfold id. rewrite (crc_images (clear_stores s)) by (by intros []).
  reflexivity.
Qed.

Lemma fresh_clean `{Env} s :
  (forall n, disk_result n = 0) -> (DISK_SIZE <= length (disk s))%nat -> names s -> clean (snd (fresh_start s)).
Proof.
  intros E Hd Hn. rewrite fresh_start_eq by done. pose proof (wiped_length _ Hd) as Lw.
  assert (0 + length (header (compute_full_crc (clear_stores s))) <= length (wiped (disk s)))%nat as Hh
    by (rewrite header_length, Lw; unfold DISK_SIZE, SECTOR in *; lia).
  split; [done|by destruct (cleared_data s)|]. apply (saved_images _ (clear_stores s)); [by intros []|].
  cbn [disk set_calls set_disk]. split.
  - by rewrite splice_length, Lw.
  - apply splice_same; [apply header_length|by rewrite header_length in Hh].
  - intros r. unfold region_saved. rewrite splice_other; [|done|].
    + by rewrite cleared_padded, wiped_field.
    + right. rewrite header_length. pose proof (region_bounds r). unfold SECTOR. lia.
Qed.

Lemma disk_try_load `{Env} : within (same disk) try_load.
Proof.
  assert (forall lba n k, (forall b, within (same disk) (k b)) -> within (same disk) (read_or_fail lba n k)) as Hr.
  { intros lba n k Hk. unfold read_or_fail, disk_read_sectors. within_auto. by intros s. }
  unfold try_load. apply Hr. intros hdr. within_auto. do 5 (apply Hr; intros ?). within_auto. by intros s.
Qed.

Lemma conns_try_load `{Env} : within (same client_registry) try_load.
Proof.
  assert (forall lba n k, (forall b, within (same client_registry) (k b)) ->
            within (same client_registry) (read_or_fail lba n k)) as Hr.
  { intros lba n k Hk. unfold read_or_fail, disk_read_sectors. within_auto. by intros s. }
  unfold try_load. apply Hr. intros hdr. within_auto. do 5 (apply Hr; intros ?). within_auto. by intros s.
Qed.

Lemma names_fresh s : client_registry s = replicate MAX_USERS client0 -> names s.
Proof.
  intros E i. unfold client_of. rewrite E. destruct (_ !! i) as [c|] eqn:El; [|apply short_client0].
  apply lookup_replicate in El as [-> _]. apply short_client0.
Qed.

(** Whatever was on the disk, a start that does not accept it starts clean. *)
Lemma boot_fresh `{Env} d r :
  (forall n, disk_result n = 0) -> (DISK_SIZE <= length d)%nat -> fst (try_load (globals0 d r)) = false ->
  clean (snd (xmpp_init_server 0 (globals0 d r))).
Proof.
  intros E Hd Hf. unfold xmpp_init_server, xmpp_persist_load_all. run. cbn [snd mret M_ret]. run. rewrite Hf.
  apply fresh_clean; [done| |].
  - by rewrite (disk_try_load (globals0 d r)).
  - apply names_fresh. exact (conns_try_load (globals0 d r)).
Qed.

(** ** Reboots *)

Lemma room_kept_inv r : room_inv r -> room_inv (room_kept r).
Proof.
  intros [H1 H2 H3 H4 H5 [Hi Hb] H7].
  split; cbn [room_name creator_jid banned_jids subject room_kept].
  - by apply strncpy_zeros_length; lia.
  - apply short_strncpy_zeros. lia.
  - apply strncpy_zeros_length. lia.
  - split; [apply room_banned_length|apply room_banned_lengths].
  - apply strncpy_zeros_length. lia.
  - by split.
  - by apply (same_users_ok room0), room0_occupants.
Qed.

Lemma room_kept_key r : room_inv r -> slot_key (room_kept r) = slot_key r.
Proof.
  intros Hr. cbn [slot_key room_slotted room_name room_kept]. rewrite strncpy_cstr; [|reflexivity].
  apply take_ge, (ri_name_short _ Hr).
Qed.

Lemma rooms_kept_inv rs : rooms_inv rs -> rooms_inv (map room_kept rs).
Proof.
  intros [[Hok Hl] Hu]. split; [split; [|by rewrite length_map]|].
  - apply Forall_map. eapply Forall_impl; [exact Hok|]. intros r. apply room_kept_inv.
  - intros i j a b Hi Hj Ha Hb Hk. rewrite list_lookup_fmap in Hi, Hj.
    destruct (rs !! i) as [a'|] eqn:Ei; [|done]. destruct (rs !! j) as [b'|] eqn:Ej; [|done].
    injection Hi as <-. injection Hj as <-. rewrite !room_kept_key in Hk by (by eapply Forall_lookup_1).
    by eapply Hu.
Qed.

Lemma restored_data s s' : restored s s' -> data_inv s -> data_inv s'.
Proof.
  intros (E1 & E2 & E3 & E4 & E5) [H1 H2 H3 H4 H5]. split; [congruence|congruence| |congruence|congruence].
  rewrite E3. by apply rooms_kept_inv.
Qed.

Lemma restored_images s s' r : restored s s' -> data_inv s -> image r s' = image r s.
Proof.
  intros (E1 & E2 & E3 & E4 & E5) Hd. destruct r; cbn [image];
    unfold private_image, roster_image, rooms_image, offline_image, pending_image; try congruence.
  rewrite E3, map_map. f_equal. destruct (data_stores_ok _ Hd) as [_ _ [M1 _] _ _]. clear -M1.
  induction M1 as [|x l Hx _ IH]; simpl; [done|]. rewrite enc_room_kept by done. by f_equal.
Qed.

(** A reboot restores the stores, and all is clean again. *)
Lemma boot_again `{Env} s r :
  (forall n, disk_result n = 0) -> clean s -> clean (snd (xmpp_init_server 0 (globals0 (disk s) r))).
Proof.
  intros E [Hn Hd Hs]. unfold xmpp_init_server. run. cbn [snd mret M_ret].
  destruct (load_all_saved s (globals0 (disk s) r) E (data_stores_ok _ Hd) Hs) as [Hr Ed].
  pose proof (conns_load_all (globals0 (disk s) r)) as Ec. split.
  - apply names_fresh. exact (f_equal fst Ec).
  - by apply (restored_data s).
  - rewrite Ed. apply (saved_images _ s); [|exact Hs]. intros r'. by apply restored_images.
Qed.

(** * Lives of the server *)

(** A machine on which every disk transfer succeeds; what an uninitialised array
    holds is arbitrary, but it has the array's size. *)
Record sound (E : Env) : Prop := {
  so_disk : forall n, @disk_result E n = 0;
  so_uninit : forall n, length (@uninit E n) = n
}.

(** The first start finds no stores on the disk; then callbacks and rounds of
    the main loop alternate with reboots, of which the disk alone survives.
    The outside world may be another one after every step. *)
Inductive lifetime : nat * srv -> Prop :=
| life_first (E : Env) d r :
    sound E -> (DISK_SIZE <= length d)%nat -> fst (try_load (globals0 d r)) = false ->
    lifetime (O, snd (xmpp_init_server 0 (globals0 d r)))
| life_step (E : Env) w w' : sound E -> lifetime w -> step w w' -> lifetime w'
| life_reboot (E : Env) w r :
    sound E -> lifetime w -> lifetime (O, snd (xmpp_init_server 0 (globals0 (disk (snd w)) r))).

Lemma step_clean `{E : Env} w w' : sound E -> step w w' -> clean (snd w) -> clean (snd w').
Proof.
  intros [Hd Hu] Hst Hw. destruct Hst as [idx s p|idx s ctx p data s' Hc Er|idx s ctx Hc|idx s]; cbn [snd] in *.
  - by apply kept_accept.
  - pose proof (kept_recv Hd Hu ctx p data s Hw) as Hr. by rewrite Er in Hr.
  - by apply kept_err.
  - by apply kept_serve.
Qed.

Lemma lifetime_clean w : lifetime w -> clean (snd w).
Proof.
  induction 1 as [E d r [Hd Hu] Hsz Hf|E w w' HE _ IH Hst|E w r [Hd Hu] _ IH].
  - by apply boot_fresh.
  - by apply (step_clean w).
  - by apply boot_again.
Qed.

Lemma play_lifetime `{E : Env} es w w' : sound E -> lifetime w -> play es w = Some w' -> lifetime w'.
Proof.
  intros HE. revert w. induction es as [|e es IH]; intros w Hw; cbn [play].
  - by intros [= <-].
  - destruct (react e w) as [w1|] eqn:Er; cbn [mbind option_bind]; [|done].
    apply IH. by eapply life_step; [exact HE|exact Hw|eapply react_step].
Qed.

(** ** Private documents *)

(** Only the handler of private storage touches the documents. *)
Section documents.
Context `{Env} (ctx : nat).

Lemma docs_send i d : within (same private_store) (send_raw i d).
Proof. by apply same_send_raw. Qed.

Lemma docs_upd i f : within (same private_store) (upd_client i f).
Proof. by intros s. Qed.

Lemma docs_emit e : within (same private_store) (emit e).
Proof. by intros s. Qed.

Lemma docs_output i : within (same private_store) (output i).
Proof. by apply same_output. Qed.

Lemma docs_ssl_write i p : within (same private_store) (ssl_write_call i p).
Proof. by apply same_ssl_write_call. Qed.

Lemma docs_random : within (same private_store) random_u32.
Proof. intros s. unfold random_u32, same. by destruct (secure_random_u32 _ _ _) as [[? ?] ?]. Qed.

Lemma docs_save r : within (same private_store) (save_region r).
Proof. by apply within_save_region. Qed.

Hint Resolve docs_send docs_upd docs_emit docs_output docs_ssl_write docs_random : handlers.
Hint Extern 1 (within (same private_store) (modify _)) => (intros ?; reflexivity) : handlers.
Hint Extern 1 (within (same private_store) xmpp_persist_save_roster) => apply (docs_save RRoster) : handlers.
Hint Extern 1 (within (same private_store) xmpp_persist_save_rooms) => apply (docs_save RRooms) : handlers.
Hint Extern 1 (within (same private_store) xmpp_persist_save_offline) => apply (docs_save ROffline) : handlers.
Hint Extern 1 (within (same private_store) xmpp_persist_save_pending_subs) => apply (docs_save RPending) : handlers.

Lemma docs_negotiate : within (same private_store) (handle_handshake_logic ctx).
Proof. unfold handle_handshake_logic. within_auto. Qed.

Lemma docs_bind stanza : within (same private_store) (handle_core_bind ctx stanza).
Proof. unfold handle_core_bind, evict_others, evict, xmpp_tls_client_free. within_auto. Qed.

Lemma docs_roster stanza : within (same private_store) (handle_roster_request ctx stanza).
Proof. unfold handle_roster_request, roster_push, roster_store_set_from_payload. within_auto. Qed.

Lemma docs_disco stanza :
  within (same private_store) (handle_disco_info ctx stanza) /\ within (same private_store) (handle_disco_items ctx stanza).
Proof. unfold handle_disco_info, forward_caps, handle_disco_items. split; within_auto. Qed.

Lemma docs_muc stanza :
  within (same private_store) (handle_muc_admin ctx stanza) /\
  within (same private_store) (handle_muc_owner ctx stanza) /\
  within (same private_store) (handle_muc_presence ctx stanza).
Proof.
  unfold handle_muc_admin, kick, handle_muc_owner, destroy_room, handle_muc_presence, muc_presence_in, get_room,
    muc_leave, muc_available, muc_rename, muc_join, muc_welcome, tell_all, tell_others, send_to_jid, upd_room.
  split_and!; within_auto.
Qed.

Lemma docs_fixed stanza :
  within (same private_store) (handle_blocklist ctx stanza) /\ within (same private_store) (handle_version ctx stanza) /\
  within (same private_store) (handle_last ctx stanza) /\ within (same private_store) (handle_ping ctx stanza) /\
  within (same private_store) (handle_general_success ctx stanza) /\
  within (same private_store) (handle_core_session ctx stanza).
Proof.
  unfold handle_blocklist, handle_version, handle_last, handle_ping, handle_general_success, handle_core_session.
  split_and!; within_auto.
Qed.

Lemma docs_by_type stanza : within (same private_store) (route_by_type ctx stanza).
Proof.
  destruct (docs_muc stanza) as (_ & Ho & Hp).
  assert (within (same private_store) (handle_chat_message ctx stanza)) as Hc.
  { unfold handle_chat_message, room_message, private_message, group_message, set_room_subject, user_message,
      deliver, offline_msg_enqueue, upd_room. within_auto. }
  assert (within (same private_store) (handle_initial_presence ctx stanza)) as Hi.
  { unfold handle_initial_presence, announce_presence, probe_presence, pending_sub_drain, offline_msg_drain. within_auto. }
  assert (within (same private_store) (handle_broadcast_presence ctx stanza)) as Hb.
  { unfold handle_broadcast_presence, presence_probe, presence_subscription, presence_directed, presence_all,
      pending_sub_enqueue, subscription_update_roster. within_auto. }
  unfold route_by_type, route_presence, route_unknown. within_auto.
Qed.

(** The documents of the others, for a client whose name fits its array. *)
Definition others_docs (user : list Z) (s s' : srv) : Prop :=
  forall key, fst key <> take 32 (cstr user) -> private_get (private_store s') key = private_get (private_store s) key.

Lemma docs_private stanza s :
  private_inv (private_store s) -> short 31 (username (client_of s ctx)) ->
  others_docs (username (client_of s ctx)) s (snd (handle_private_storage ctx stanza s)).
Proof.
  intros Hi Hu. unfold handle_private_storage. run. rewrite client_eq. cbn [fst snd].
  destruct (private_names _) as [child space] eqn:En.
  pose proof (private_names_bound (st_payload stanza)) as Hn. rewrite En in Hn. cbn [snd] in Hn.
  assert (forall d, others_docs (username (client_of s ctx)) s (snd (send_raw ctx d s))) as Hsend
    by (intros d key _; by rewrite (docs_send ctx d s)).
  destruct (_ =? 0); [apply Hsend|]. destruct (decide _).
  2: { run. rewrite gets_eq. cbn [fst snd]. destruct (vsnprintf _ _ _) as [out written]. destruct (_ || _); apply Hsend. }
  unfold private_set. run. rewrite client_eq. cbn [fst snd].
  destruct (private_doc _) as [[doc len]|] eqn:Ed; [|apply Hsend]. run. rewrite gets_eq. cbn [fst snd].
  destruct (private_doc_ok _ _ _ Ed) as [B F]. destruct Hi as [[Hok _] Hq].
  pose proof (private_upsert_refines _ _ _ _ _ Hok Hq Hu Hn B F) as R.
  destruct (private_store_upsert _ _ _ _ _) as [r v]. destruct R as (_ & _ & R). run.
  change (snd (modify _ s)) with (set_private_store v s). intros key Hk. destruct (negb _).
  - rewrite (docs_send ctx _ (set_private_store v s)).
    destruct R as [[_ R]|(_ & -> & _)]; [|done]. cbn [private_store set_private_store].
    rewrite R, decide_False; [done|]. intros ->. by apply Hk.
  - run. set (s1 := snd (xmpp_persist_save_private _)). rewrite (docs_send ctx _ s1).
    assert (private_store s1 = v) as -> by exact (docs_save RPrivate (set_private_store v s)).
    destruct R as [[_ R]|(_ & -> & _)]; [|done]. rewrite R, decide_False; [done|]. intros ->. by apply Hk.
Qed.

Lemma docs_routes stanza r s :
  private_inv (private_store s) -> short 31 (username (client_of s ctx)) -> r ∈ router ->
  others_docs (username (client_of s ctx)) s (snd (rt_handler r ctx stanza s)).
Proof.
  intros Hi Hu Hr. destruct (docs_fixed stanza) as (F1 & F2 & F3 & F4 & F5 & F6).
  destruct (docs_disco stanza) as [D1 D2]. destruct (docs_muc stanza) as (M1 & M2 & M3).
  assert (forall m : M unit, within (same private_store) m -> others_docs (username (client_of s ctx)) s (snd (m s))) as Hm
    by (intros m Hm key _; by rewrite (Hm s)).
  unfold router in Hr. repeat (apply elem_of_cons in Hr as [-> |Hr]; [cbn [rt_handler]|]);
    [exact (Hm _ (docs_bind stanza))|exact (Hm _ F6)|exact (Hm _ (docs_roster stanza))|exact (Hm _ D1)|exact (Hm _ D2)|
     exact (Hm _ M3)|exact (Hm _ M2)|exact (docs_private stanza s Hi Hu)|exact (Hm _ M1)|
     exact (Hm _ F1)|exact (Hm _ F5)|exact (Hm _ F2)|exact (Hm _ F3)|exact (Hm _ F4)|]. by apply elem_of_nil in Hr.
Qed.

Lemma docs_route k s :
  private_inv (private_store s) -> short 31 (username (client_of s ctx)) ->
  others_docs (username (client_of s ctx)) s (snd (xmpp_route_stanza ctx k s)).
Proof.
  intros Hi Hu. unfold xmpp_route_stanza. run. rewrite client_eq. cbn [fst snd]. run. set (t := snd (when _ _ s)).
  assert (private_store t = private_store s /\ client_registry t = client_registry s) as [Ep Er]
    by (unfold t; by destruct (negb _)).
  assert (client_of t ctx = client_of s ctx) as Ec by (unfold client_of; by rewrite Er). clearbody t.
  intros key Hk. rewrite <- Ep. rewrite <- Ep in Hi. rewrite <- Ec in Hu, Hk. clear Ep Er Ec. revert key Hk.
  change (others_docs (username (client_of t ctx)) t (snd ((stanza ← gets (fun s => stanza_of s k);
    if negb (deref (st_xmlns stanza) =? 0) && is_Some_b (strstr (st_xmlns stanza) (str "stream")) then
      handle_handshake_logic ctx
    else match find_route (st_xmlns stanza) with
         | Some r => dispatch ctx stanza r | None => route_by_type ctx stanza end) t))).
  assert (forall m : M unit, within (same private_store) m -> others_docs (username (client_of t ctx)) t (snd (m t))) as Hm
    by (intros m Hm key _; by rewrite (Hm t)).
  run. rewrite gets_eq. cbn [fst snd]. set (stanza := stanza_of t k). destruct (_ && _); [apply Hm, docs_negotiate|].
  destruct (find_route _) as [r|] eqn:Ef; [|apply Hm, docs_by_type]. unfold dispatch. run. rewrite client_eq.
  cbn [fst snd]. destruct (state_lt _ _); [apply Hm; within_auto|]. apply docs_routes; [done|done|by eapply find_route_in].
Qed.

End documents.

(** ** A life, for the witnesses *)

Definition bind_request : list Z :=
  str "<iq type='set' id='b1'><bind xmlns='urn:ietf:params:xml:ns:xmpp-bind'/></iq>".

Definition roster_request : list Z :=
  str "<iq type='set' id='r1'><query xmlns='jabber:iq:roster'><item jid='user2@angelic.local'/></query></iq>".

(** The disk and TLS work; what the calls of [mbedtls_ssl_read] decrypt, by the
    number of the call. *)
Definition life_text (n : nat) : list Z :=
  match n with
  | 9%nat => stream_open | 12%nat => plain_login | 15%nat => stream_open
  | 18%nat => bind_request | 21%nat => roster_request
  | _ => []
  end.

Definition life_env : Env :=
  {| ssl_write := fun _ _ d => Z.of_nat (length d); disk_result := fun _ => 0;
     disk_torn := fun _ d => d; tls_setup := fun _ => 0; ssl_pulls := fun _ => [];
     ssl_pushes := fun _ => []; tcp_write_result := fun _ => 0; ssl_handshake := fun _ => 0;
     ssl_read := fun n =>
       (if (0 <? length (life_text n))%nat then Z.of_nat (length (life_text n)) else MBEDTLS_ERR_SSL_WANT_READ,
        life_text n);
     rng_addr := 4096; uninit := zeros; cpuid_ecx := 2 ^ 20 |}.

Lemma life_env_sound : sound life_env.
Proof. split; [done|]. intros n. apply length_replicate. Qed.

(** A blank disk. *)
Definition first_start : nat * srv := (O, snd (xmpp_init_server (H := life_env) 0 (globals0 (zeros DISK_SIZE) []))).

Lemma first_lifetime : lifetime first_start.
Proof.
  apply (life_first life_env); [apply life_env_sound|unfold zeros; by rewrite length_replicate|].
  lazy. reflexivity.
Qed.

(** One connection: STARTTLS, login, binding, and a contact for the roster. *)
Definition life_run : list stimulus :=
  Accept 7 :: map (fun d => Receive 0 7 (Some [d]))
    [stream_open; str "<starttls/>"; [1]; [1]; [1]; [1]; [1]; [1]].

Definition contact_of (w : nat * srv) : option (list Z) :=
  roster_get (roster_store (snd w)) (roster_key (str "user1") (str "user2@angelic.local")).

#[local] Strategy transparent [snprintf snprintf_into].

Lemma life_contact : play (H := life_env) life_run first_start ≫= contact_of = Some (str "<item jid='user2@angelic.local'/>").
Proof. lazy. reflexivity. Qed.

Lemma life_lived :
  exists w, lifetime w /\ contact_of w = Some (str "<item jid='user2@angelic.local'/>").
Proof.
  pose proof life_contact as R. destruct (play life_run first_start) as [w|] eqn:E; [|done].
  exists w. split; [|exact R]. exact (play_lifetime life_run _ w life_env_sound first_lifetime E).
Qed.

(** * Properties *)

(** C3: durability of the whole server: at any moment between two callbacks of a
    server whose disk works, through any number of reboots, the disk holds all
    five stores as they are in memory: a start from that disk restores every
    roster entry, private document, stored message and pending request, and
    every room but for its occupants. *)
Theorem server_durable (w : nat * srv) (E : Env) (boot : srv) :
  lifetime w -> (forall n, disk_result n = 0) -> disk boot = disk (snd w) ->
  restored (snd w) (snd (xmpp_persist_load_all boot)).
Proof.
  intros [_ Hd Hs]%lifetime_clean HE Hb. apply load_all_saved; [done|by apply data_stores_ok|by rewrite Hb].
Qed.

(** A contact entered before a reboot is there after it. *)
Lemma server_durable_witness :
  exists w, contact_of w = Some (str "<item jid='user2@angelic.local'/>") /\
    let s' := snd (xmpp_persist_load_all (H := life_env) (globals0 (disk (snd w)) [])) in
    restored (snd w) s' /\ contact_of (O, s') = Some (str "<item jid='user2@angelic.local'/>").
Proof.
  destruct life_lived as (w & Hw & Hc). exists w. split; [exact Hc|].
  pose proof (server_durable w life_env (globals0 (disk (snd w)) []) Hw (so_disk _ life_env_sound) eq_refl) as R.
  split; [exact R|]. destruct R as (_ & R & _). unfold contact_of in *. cbn [snd]. by rewrite R.
Defined.

(** C8: the stores stay well formed for the whole life of the server: every
    array has the size of its C declaration and its region of the disk has
    room for it; no user has a contact twice, no document is stored twice under
    one name space, no subscription request waits twice, no two rooms have the
    same name, and in a room no two occupants share a nick or an address. *)
Theorem server_stores_well_formed (w : nat * srv) :
  lifetime w ->
  let s := snd w in
  stores_ok s /\ (forall r, (length (image r s) <= sectors r * SECTOR)%nat) /\
  unique (roster_store s) /\ unique (private_store s) /\ unique (pending_subs s) /\ unique (rooms s) /\
  Forall occupants_ok (rooms s).
Proof.
  intros [_ Hd _]%lifetime_clean s. pose proof (data_stores_ok _ Hd) as Hok.
  destruct Hd as [[_ P] [_ R] [[M1 _] M2] O [_ Q]].
  split_and!; [done|by intros r; apply image_fits|done|done|done|done|].
  eapply Forall_impl; [exact M1|]. by intros r [].
Qed.

Lemma server_stores_well_formed_witness :
  exists w, contact_of w = Some (str "<item jid='user2@angelic.local'/>") /\
    unique (roster_store (snd w)) /\ Forall occupants_ok (rooms (snd w)).
Proof.
  destruct life_lived as (w & Hw & Hc). exists w. split; [exact Hc|].
  destruct (server_stores_well_formed w Hw) as (_ & _ & R & _ & _ & _ & M). by split.
Defined.

(** C9: private documents are private: at any time in the life of the server,
    routing any stanza of a client leaves every document stored for another
    user as it is, whatever the stanza says. *)
Theorem private_documents_isolated (E : Env) (w : nat * srv) (ctx k : nat) (key : list Z * list Z) :
  lifetime w -> fst key <> take 32 (cstr (username (client_of (snd w) ctx))) ->
  private_get (private_store (snd (xmpp_route_stanza ctx k (snd w)))) key = private_get (private_store (snd w)) key.
Proof.
  intros [Hn Hd _]%lifetime_clean Hk. apply docs_route; [apply Hd|apply Hn|done].
Qed.

Lemma private_documents_isolated_witness :
  exists w, lifetime w /\
    let key := private_key (str "user2") (str "storage:bookmarks") in
    private_get (private_store (snd (xmpp_route_stanza (H := life_env) 0 0 (snd w)))) key =
    private_get (private_store (snd w)) key.
Proof.
  exists first_start. split; [apply first_lifetime|].
  apply (private_documents_isolated life_env first_start 0 0); [apply first_lifetime|]. lazy. discriminate.
Defined.
