(* ===== verification/Wire.v ===== *)
(** What leaves the machine in plain.

    Before STARTTLS the server and a client talk in plain TCP; afterwards all
    that is said goes through mbedTLS.  In every run, whatever the server itself
    gives to [tcp_write] on an open connection is one of the fixed texts of the
    stream negotiation; everything else it writes are the records that the TLS
    library handed to its send callback. *)

From Stdlib Require Import ZArith Lia String Ascii Bool.
From stdpp Require Import base list numbers option sets relations.
From S2P Require Import Prelude.
From S2P Require Import Libc.
From S2P Require Import SlotMap.
From S2P Require Import XmppCore.
From S2P Require Import StanzaParse.
From S2P Require Import RxBuffer.
From S2P Require Import Persist.
From S2P Require Import Logic.
From S2P Require Import Store.
From S2P Require Import Tls.
From S2P Require Import Sasl.
From S2P Require Import Sm.
From S2P Require Import Iq.
From S2P Require Import Muc.
From S2P Require Import Message.
From S2P Require Import MucPresence.
From S2P Require Import Presence.
From S2P Require Import Frame.
From S2P Require Import Router.
From S2P Require Import Server.
From S2P Require Import Reach.

Open Scope Z_scope.

#[local] Strategy opaque [snprintf snprintf_into].

(** * The texts of the negotiation *)

Definition fixed_texts : list (list Z) :=
  [close_tag; plain_policy_violation; resource_constraint_err; proceed; tls_failure; host_unknown;
   stream_error (str "invalid-namespace"); stream_error (str "unsupported-version"); conflict_err;
   sasl_aborted; sasl_failure (str "<encryption-required/>"); str "<r xmlns='" ++ SM_NS ++ str "'/>"].

(** The attribute of the header that repeats the address a client gave. *)
Definition to_text (from : list Z) : list Z :=
  if negb (deref from =? 0) then snprintf 96 (str " to='%s'") [S_ from] else [].

(** One of them, or the header of a stream that offers STARTTLS and nothing
    else; what varies in it are the stream's number and the address that
    [open_stream] took from the client's own header. *)
Definition negotiation (d : list Z) : Prop :=
  d ∈ fixed_texts \/
  exists from id, d = cstr (stream_header starttls_features (to_text from) id).

(** An event that gives away nothing: no write, a write without a connection, a
    text of the negotiation, or a record of the TLS library. *)
Definition quiet `{Env} (e : event) : Prop :=
  match e with
  | EvTcp (Some _) d => negotiation d \/ exists n, d ∈ ssl_pushes n
  | _ => True
  end.

Definition discreet `{Env} (s s' : srv) : Prop := exists evs, trace s' = trace s ++ evs /\ Forall quiet evs.

#[export] Instance discreet_preorder `{Env} : PreOrder discreet.
Proof.
  split.
  - intros s. exists []. by rewrite app_nil_r.
  - intros s1 s2 s3 (e1 & E1 & F1) (e2 & E2 & F2). exists (e1 ++ e2). rewrite E2, E1, app_assoc. split; [done|].
    by apply Forall_app.
Qed.

(** Nobody can read along: there is no connection or it has a TLS session. *)
Definition covered (c : xmpp_client_ctx_t) : Prop := pcb c = None \/ tls_established c <> 0.

Section wire.
Context `{Env}.

Lemma discreet_same {A} (m : M A) : within (same trace) m -> within discreet m.
Proof. intros Hm s. exists []. rewrite app_nil_r. by split; [apply Hm|]. Qed.

Lemma discreet_emit e : quiet e -> within discreet (emit e).
Proof. intros He s. exists [e]. split; [done|]. by constructor. Qed.

Lemma discreet_upd i f : within discreet (upd_client i f).
Proof. by apply discreet_same. Qed.

Lemma discreet_call : within discreet call.
Proof. by apply discreet_same. Qed.

Lemma trace_random : within (same trace) random_u32.
Proof. intros s. unfold random_u32, same. by destruct (secure_random_u32 _ _ _) as [[? ?] ?]. Qed.

Lemma discreet_random : within discreet random_u32.
Proof. apply discreet_same, trace_random. Qed.

Lemma discreet_private i s s' : private i s s' -> discreet s s'.
Proof.
  intros (evs & E & F). exists evs. split; [done|]. eapply Forall_impl; [exact F|]. by intros [].
Qed.

Lemma discreet_output i : within discreet (output i).
Proof. intros s. apply (discreet_private i), private_output. Qed.

Lemma discreet_ssl_write i d : within discreet (ssl_write_call i d).
Proof. intros s. apply (discreet_private i), private_ssl_write. Qed.

Lemma discreet_say p d : negotiation d -> within discreet (tcp_say p d).
Proof.
  intros Hd. unfold tcp_say. apply within_bind; [typeclasses eauto|apply discreet_emit|intros _; by apply discreet_emit].
  destruct p; [by left|done].
Qed.

Hint Resolve discreet_upd discreet_call : handlers.

(** In plain, to a connection that may read it. *)
Lemma discreet_send_plain i d : negotiation (cstr d) -> within discreet (send_raw i d).
Proof.
  intros Hd. pose proof (discreet_output i). unfold send_raw, xmpp_sm_on_stanza_sent. within_auto.
  - intros s. apply (discreet_private i), private_tls_send.
  - apply discreet_emit. destruct (pcb _); [by left|done].
  - by apply discreet_emit.
Qed.

Lemma discreet_send i d s : covered (client_of s i) -> discreet s (snd (send_raw i d s)).
Proof.
  intros [Hp|Ht]; [|by apply (discreet_private i), private_send].
  unfold send_raw. run. rewrite client_eq. cbn [fst snd]. rewrite Hp. as_within. pose proof (discreet_output i).
  unfold xmpp_sm_on_stanza_sent. within_auto; [|by apply discreet_emit..].
  intros t. apply (discreet_private i), private_tls_send.
Qed.

End wire.

#[export] Hint Resolve discreet_upd discreet_call discreet_random discreet_output discreet_ssl_write : handlers.
#[export] Hint Extern 1 (within discreet (emit _)) => apply discreet_emit; exact I : handlers.
#[export] Hint Extern 1 (within discreet (modify _)) => apply discreet_same; by intros ? : handlers.

Lemma fixed_negotiation d : d ∈ fixed_texts -> negotiation d.
Proof. by left. Qed.

#[export] Hint Extern 1 (within discreet (tcp_say _ _)) =>
  apply discreet_say, fixed_negotiation; unfold fixed_texts; repeat constructor : handlers.

(** * The network side *)

Section network.
Context `{Env} (ctx : nat).

Lemma discreet_net_send n buf : buf ∈ ssl_pushes n -> within discreet (tls_net_send ctx buf).
Proof.
  intros Hb. unfold tls_net_send. within_auto. apply discreet_emit. destruct (pcb _); [right; by exists n|done].
Qed.

Lemma discreet_pushes n l :
  (forall buf, buf ∈ l -> buf ∈ ssl_pushes n) -> within discreet (foldr (fun buf k => tls_net_send ctx buf ;; k) skip l).
Proof.
  induction l as [|b l IH]; intros Hl; cbn [foldr]; [within_auto|].
  apply within_bind; [typeclasses eauto|apply (discreet_net_send n), Hl; left|intros _].
  apply IH. intros buf Hb. apply Hl. by right.
Qed.

Lemma discreet_callbacks n : within discreet (ssl_callbacks ctx n).
Proof.
  unfold ssl_callbacks. apply within_bind; [typeclasses eauto|unfold tls_net_recv; within_auto|intros _].
  by apply (discreet_pushes n).
Qed.

Lemma discreet_close_pcb : within discreet (close_pcb ctx).
Proof. unfold close_pcb. within_auto. Qed.

Hint Resolve discreet_callbacks discreet_close_pcb : handlers.

Lemma discreet_client_init : within discreet (xmpp_tls_client_init ctx).
Proof. unfold xmpp_tls_client_init. within_auto. Qed.

Lemma discreet_client_free : within discreet (xmpp_tls_client_free ctx).
Proof. unfold xmpp_tls_client_free. within_auto. Qed.

Lemma discreet_handshake_step data : within discreet (xmpp_tls_handshake_step ctx data).
Proof. unfold xmpp_tls_handshake_step, tls_staging_compact. within_auto. Qed.

Lemma discreet_decrypt_loop fuel : within discreet (decrypt_loop fuel ctx).
Proof. induction fuel as [|fuel IH]; cbn [decrypt_loop]; unfold tls_staging_compact; within_auto. Qed.

Lemma discreet_decrypt data : within discreet (xmpp_tls_decrypt ctx data).
Proof. pose proof discreet_decrypt_loop. unfold xmpp_tls_decrypt, tls_staging_compact. within_auto. Qed.

Lemma discreet_say_close : within discreet (tls_say_close ctx).
Proof. unfold tls_say_close. within_auto. Qed.

Hint Resolve discreet_client_init discreet_client_free discreet_say_close : handlers.

Lemma discreet_close_and_free : within discreet (send_stream_close_and_free ctx).
Proof. unfold send_stream_close_and_free. within_auto. Qed.

Lemma discreet_start_tls : within discreet (start_tls ctx).
Proof. unfold start_tls. within_auto. Qed.

Lemma discreet_close_stream : within discreet (close_stream ctx).
Proof. unfold close_stream. within_auto. Qed.

Lemma discreet_abort : within discreet (abort_login ctx).
Proof.
  assert (within discreet (send_raw ctx sasl_aborted)).
  { apply discreet_send_plain, fixed_negotiation. change (cstr sasl_aborted) with sasl_aborted.
    unfold fixed_texts. repeat constructor. }
  unfold abort_login. within_auto.
Qed.

Lemma discreet_feed f bufs : (forall q, within discreet (f q)) -> within discreet (feed f ctx bufs).
Proof. intros Hf. induction bufs as [|q bufs IH]; cbn [feed]; within_auto. Qed.

Lemma discreet_copy_plain bufs : within discreet (copy_plain ctx bufs).
Proof. induction bufs as [|q bufs IH]; cbn [copy_plain]; within_auto. Qed.

Lemma discreet_ack : within discreet (xmpp_sm_request_ack ctx).
Proof.
  assert (within discreet (send_raw ctx (str "<r xmlns='" ++ SM_NS ++ str "'/>"))).
  { apply discreet_send_plain, fixed_negotiation. change (cstr (str "<r xmlns='" ++ SM_NS ++ str "'/>"))
      with (str "<r xmlns='" ++ SM_NS ++ str "'/>"). unfold fixed_texts. repeat constructor. }
  unfold xmpp_sm_request_ack. within_auto.
Qed.

(** ** The stream header *)

(** A client that has logged in, or has a TLS session, gets its header through
    it; the others are offered STARTTLS. *)
Lemma discreet_negotiate s : secure (client_of s ctx) -> discreet s (snd (handle_handshake_logic ctx s)).
Proof.
  intros [_ Hs]. unfold handle_handshake_logic. run. set (s1 := snd (random_u32 s)).
  assert (client_of s1 ctx = client_of s ctx) as Ec
    by (unfold s1, random_u32; by destruct (secure_random_u32 _ _ _) as [[? ?] ?]).
  transitivity s1; [apply discreet_random|]. run. rewrite client_eq. cbn [fst snd]. rewrite Ec. run.
  set (s2 := snd (when _ _ s1)). set (text := if truth _ then _ else _).
  assert (discreet s1 s2 /\ covered (client_of s2 ctx) = covered (client_of s ctx)) as [D2 E2].
  { unfold s2. destruct (truth _) eqn:Ea; cbn [when].
    - split; [apply discreet_upd|]. cbn [snd upd_client modify]. rewrite client_of_alter.
      case_decide; unfold covered; cbn [pcb tls_established set_state]; by rewrite Ec.
    - split; [reflexivity|]. change (snd (skip s1)) with s1. by rewrite Ec. }
  transitivity s2; [exact D2|]. run. transitivity (snd (send_raw ctx text s2)).
  - destruct (pcb (client_of s ctx)) as [p|] eqn:Ep; [|apply discreet_send; rewrite E2; by left].
    destruct (Hs ltac:(done)) as [_ Ha].
    destruct (truth (authenticated (client_of s ctx))) eqn:Eu.
    { apply discreet_send. rewrite E2. right. by apply Ha, truth_spec. }
    destruct (truth (tls_established (client_of s ctx))) eqn:Et.
    { apply discreet_send. rewrite E2. right. by apply truth_spec. }
    assert (exists a b, text = stream_header starttls_features (to_text a) b) as (a & b & Etext)
      by (unfold text, to_text; rewrite ?Eu, ?Et; do 2 eexists; reflexivity).
    rewrite Etext. apply discreet_send_plain. right. exists a, b. reflexivity.
  - as_within. within_auto.
Qed.

Lemma discreet_open_stream s : secure (client_of s ctx) -> discreet s (snd (open_stream ctx s)).
Proof.
  intros Hs. unfold open_stream. run. rewrite client_eq. cbn [fst snd]. destruct (is_Some_b _); [|reflexivity].
  run. set (s1 := snd (upd_client ctx _ s)).
  assert (secure (client_of s1 ctx)) as Hs1.
  { unfold s1. cbn [snd upd_client modify]. rewrite client_of_alter. by case_decide. }
  transitivity s1; [apply discreet_upd|]. cbv zeta. destruct (_ && _); [as_within; within_auto|].
  destruct (bad_namespace _); [as_within; unfold refuse_stream; within_auto|].
  destruct (bad_version _); [as_within; unfold refuse_stream; within_auto|].
  run. etransitivity; [by apply discreet_negotiate|]. as_within. within_auto.
Qed.

End network.

(** * The handlers *)

Definition all_ok (s : srv) : Prop := forall i, conn_ok (client_of s i).

(** A handler for a client that nobody overhears: it keeps the connections in
    order and says nothing in plain. *)
Definition modest `{Env} (ctx : nat) (s s' : srv) : Prop :=
  gentle ctx s s' /\ (all_ok s -> covered (client_of s ctx) -> discreet s s').

Lemma gentle_all_ok ctx s s' : gentle ctx s s' -> all_ok s -> all_ok s'.
Proof.
  intros (_ & _ & C) Hs i. destruct (C i) as [Ci|[_ Ci]]; [by eapply conn_ok_calm|by apply calm0_ok].
Qed.

Lemma gentle_covered ctx s s' : gentle ctx s s' -> covered (client_of s ctx) -> covered (client_of s' ctx).
Proof.
  intros (_ & _ & C). destruct (C ctx) as [[V _]|[N _]]; [|done]. unfold conn_view in V.
  injection V as E1 _ _ _ _ _ _ E2 _ _. unfold covered. by rewrite E1, E2.
Qed.

#[export] Instance modest_preorder `{Env} ctx : PreOrder (modest ctx).
Proof.
  split.
  - intros s. split; [reflexivity|]. by intros.
  - intros s1 s2 s3 [G1 D1] [G2 D2]. split; [by etransitivity|]. intros Hs Hc.
    transitivity s2; [auto|]. apply D2; [by eapply gentle_all_ok|by eapply gentle_covered].
Qed.

Lemma live_covered c : secure c -> live c = true -> covered c.
Proof.
  intros [_ Hs] Hl. unfold live in Hl. apply andb_prop in Hl as [Hp Hst]. right.
  destruct (pcb c) as [p|] eqn:Ep; [|done]. destruct (Hs ltac:(done)) as [Ht _]. apply Ht.
  by destruct (state c).
Qed.

Section modest.
Context `{Env} (ctx : nat).

Lemma modest_silent {A} (m : M A) : within (gentle ctx) m -> within (same trace) m -> within (modest ctx) m.
Proof. intros Hg Ht s. split; [apply Hg|]. intros _ _. by apply discreet_same. Qed.

Lemma modest_discreet {A} (m : M A) : within (gentle ctx) m -> within discreet m -> within (modest ctx) m.
Proof. intros Hg Ht s. split; [apply Hg|]. intros _ _. apply Ht. Qed.

Lemma modest_send d : within (modest ctx) (send_raw ctx d).
Proof. intros s. split; [apply gentle_send|]. intros _ Hc. by apply discreet_send. Qed.

Lemma modest_send_live i d s : live (client_of s i) = true -> modest ctx s (snd (send_raw i d s)).
Proof.
  intros Hl. split; [apply gentle_send|]. intros Hs _. apply discreet_send, live_covered; [apply Hs|done].
Qed.

Lemma modest_save r : within (modest ctx) (save_region r).
Proof. apply modest_silent; [apply gentle_save|by apply within_save_region]. Qed.

(** A session found by its address. *)
Lemma found_live p s i :
  first_index p (client_registry s) = Some i -> (forall c, p c = true -> live c = true) -> live (client_of s i) = true.
Proof. intros (c & Hc & Hp & _)%first_index_Some Hl. unfold client_of. rewrite Hc. by apply Hl. Qed.

Lemma has_bare_live b c : has_bare b c = true -> live c = true.
Proof. by intros [? _]%andb_prop. Qed.

Lemma has_jid_live j c : client_has_jid j c = true -> live c = true.
Proof. by intros [? _]%andb_prop. Qed.

Lemma modest_to_jid j t : within (modest ctx) (send_to_jid j t).
Proof.
  intros s. unfold send_to_jid. run. rewrite gets_eq. cbn [fst snd].
  destruct (find_client_by_jid _ _) as [i|] eqn:E; [|reflexivity].
  apply modest_send_live, (found_live _ _ _ E). apply has_jid_live.
Qed.

End modest.

#[export] Hint Resolve modest_send modest_to_jid : handlers.
#[export] Hint Extern 1 (within (modest _) (modify _)) => apply modest_silent; [apply gentle_modify; intros ?; reflexivity|intros ?; reflexivity] : handlers.
#[export] Hint Extern 1 (within (modest _) (upd_client _ _)) =>
  apply modest_silent; [solve [eauto with handlers]|intros ?; reflexivity] : handlers.
#[export] Hint Extern 1 (within (modest _) random_u32) =>
  apply modest_silent; [apply gentle_random|apply trace_random] : handlers.
#[export] Hint Extern 1 (within (modest _) xmpp_persist_save_private) => apply (modest_save _ RPrivate) : handlers.
#[export] Hint Extern 1 (within (modest _) xmpp_persist_save_roster) => apply (modest_save _ RRoster) : handlers.
#[export] Hint Extern 1 (within (modest _) xmpp_persist_save_rooms) => apply (modest_save _ RRooms) : handlers.
#[export] Hint Extern 1 (within (modest _) xmpp_persist_save_offline) => apply (modest_save _ ROffline) : handlers.
#[export] Hint Extern 1 (within (modest _) xmpp_persist_save_pending_subs) => apply (modest_save _ RPending) : handlers.

(** The body of a loop that sends to the session it has just found live. *)
Ltac live_body :=
  let s := fresh "s" in
  intros s;
  repeat (rewrite bind_eq; rewrite ?client_eq, ?gets_eq; cbn [fst snd]);
  repeat match goal with
  | |- context [if negb (live ?c) then _ else _] => let E := fresh "El" in destruct (live c) eqn:E; cbn [negb]
  | |- context [if has_bare ?b ?c then _ else _] =>
      let E := fresh "El" in destruct (has_bare b c) eqn:E; [apply has_bare_live in E|]
  | |- context [if ?b then _ else _] => destruct b
  end;
  repeat (rewrite bind_eq; cbn [fst snd]);
  first [reflexivity | apply modest_send_live; assumption | idtac].

Section handlers.
Context `{Env} (ctx : nat).

Lemma modest_push stanza : within (modest ctx) (roster_push ctx stanza).
Proof. unfold roster_push. apply within_loop; [typeclasses eauto|intros i]. live_body. Qed.

Lemma modest_announce : within (modest ctx) (announce_presence ctx).
Proof. unfold announce_presence. apply within_loop; [typeclasses eauto|intros i]. live_body. Qed.

Lemma modest_probe_all : within (modest ctx) (probe_presence ctx).
Proof. unfold probe_presence. within_auto. Qed.

Lemma modest_pending_drain : within (modest ctx) (pending_sub_drain ctx).
Proof. unfold pending_sub_drain. within_auto. Qed.

Lemma modest_drain : within (modest ctx) (offline_msg_drain ctx).
Proof. unfold offline_msg_drain. within_auto. Qed.

Lemma modest_enqueue a b c d : within (modest ctx) (offline_msg_enqueue a b c d).
Proof. unfold offline_msg_enqueue. within_auto. Qed.

Lemma modest_pending_enqueue a b c : within (modest ctx) (pending_sub_enqueue a b c).
Proof. unfold pending_sub_enqueue. within_auto. Qed.

Hint Resolve modest_push modest_announce modest_probe_all modest_pending_drain modest_drain modest_enqueue
  modest_pending_enqueue : handlers.

Lemma modest_private stanza : within (modest ctx) (handle_private_storage ctx stanza).
Proof. unfold handle_private_storage, private_set. within_auto. Qed.

Lemma modest_roster stanza : within (modest ctx) (handle_roster_request ctx stanza).
Proof. unfold handle_roster_request, roster_store_set_from_payload. within_auto. Qed.

Lemma modest_initial stanza : within (modest ctx) (handle_initial_presence ctx stanza).
Proof.
  unfold handle_initial_presence. within_auto.
Qed.

Lemma modest_fixed stanza :
  within (modest ctx) (handle_blocklist ctx stanza) /\ within (modest ctx) (handle_version ctx stanza) /\
  within (modest ctx) (handle_last ctx stanza) /\ within (modest ctx) (handle_ping ctx stanza) /\
  within (modest ctx) (handle_general_success ctx stanza).
Proof.
  unfold handle_blocklist, handle_version, handle_last, handle_ping, handle_general_success.
  split_and!; within_auto.
Qed.

Lemma modest_forward stanza : within (modest ctx) (forward_caps ctx stanza).
Proof.
  intros s. unfold forward_caps. run. rewrite gets_eq. cbn [fst snd]. unfold id.
  destruct (first_index _ _) as [i|] eqn:E; [|apply modest_send].
  apply modest_send_live, (found_live _ _ _ E), has_bare_live.
Qed.

Hint Resolve modest_forward : handlers.

Lemma modest_disco stanza :
  within (modest ctx) (handle_disco_info ctx stanza) /\ within (modest ctx) (handle_disco_items ctx stanza).
Proof. unfold handle_disco_info, handle_disco_items. split; within_auto. Qed.

Lemma modest_muc_admin stanza : within (modest ctx) (handle_muc_admin ctx stanza).
Proof. unfold handle_muc_admin, kick, tell_others, upd_room. within_auto. Qed.

Lemma modest_muc_owner stanza : within (modest ctx) (handle_muc_owner ctx stanza).
Proof. unfold handle_muc_owner, destroy_room, upd_room. within_auto. Qed.

Lemma modest_muc_presence stanza : within (modest ctx) (handle_muc_presence ctx stanza).
Proof.
  unfold handle_muc_presence, muc_presence_in, get_room, muc_leave, muc_available, muc_rename, muc_join,
    muc_welcome, tell_all, tell_others, upd_room. within_auto.
Qed.

(** ** Messages *)

Lemma modest_deliver bare text : within (modest ctx) (deliver bare text).
Proof. unfold deliver. apply within_loop_acc; [typeclasses eauto|intros i b]. live_body. Qed.

Lemma modest_pm i stanza slash : within (modest ctx) (private_message ctx i stanza slash).
Proof.
  intros s. unfold private_message. run. rewrite gets_eq. cbn [fst snd]. unfold id. destruct (has_either _ _ _); [apply modest_send|].
  destruct (match first_index _ _ with Some _ => _ | None => _ end) as [t|] eqn:E; [|apply modest_send].
  destruct (vsnprintf _ _ _) as [out written]. destruct (_ && _); [|reflexivity]. apply modest_send_live.
  destruct (first_index _ (users _)); [|done]. apply (found_live _ _ _ E), has_jid_live.
Qed.

Lemma modest_group i stanza : within (modest ctx) (group_message ctx i stanza).
Proof.
  unfold group_message. apply within_bind; [typeclasses eauto|unfold set_room_subject, upd_room; within_auto|intros _].
  apply within_bind; [typeclasses eauto|within_auto|intros s0]. cbv zeta. apply within_loop; [typeclasses eauto|intros k].
  intros s. run. rewrite gets_eq. cbn [fst snd]. unfold id. destruct (_ =? 0); [reflexivity|].
  destruct (find_client_by_jid _ _) as [t|] eqn:E; [|reflexivity]. destruct (vsnprintf _ _ _) as [out written].
  destruct (_ || _); [reflexivity|]. apply modest_send_live, (found_live _ _ _ E), has_jid_live.
Qed.

Hint Resolve modest_deliver modest_pm modest_group : handlers.

Lemma modest_chat stanza : within (modest ctx) (handle_chat_message ctx stanza).
Proof. unfold handle_chat_message, room_message, user_message. within_auto. Qed.

(** ** Presence *)

Lemma modest_subscription a b c d : within (modest ctx) (subscription_update_roster a b c d).
Proof.
  unfold subscription_update_roster. apply within_bind; [typeclasses eauto|within_auto|intros v].
  destruct (sub_update _ _ _ _ _) as [[v' item]|]; [|within_auto].
  do 2 (apply within_bind; [typeclasses eauto|within_auto|intros _]).
  apply within_loop; [typeclasses eauto|intros i]. live_body.
Qed.

Hint Resolve modest_subscription : handlers.

Lemma modest_presence_subscription stanza : within (modest ctx) (presence_subscription ctx stanza).
Proof.
  unfold presence_subscription. apply within_bind; [typeclasses eauto|within_auto|intros c]. cbv zeta.
  apply within_bind; [typeclasses eauto| |intros b; within_auto].
  apply within_loop_acc; [typeclasses eauto|intros i b]. live_body.
Qed.

Lemma modest_presence_directed stanza : within (modest ctx) (presence_directed ctx stanza).
Proof. unfold presence_directed. apply within_loop; [typeclasses eauto|intros i]. live_body. Qed.

Lemma modest_presence_all stanza : within (modest ctx) (presence_all ctx stanza).
Proof.
  unfold presence_all. apply within_loop; [typeclasses eauto|intros i]. intros s. run. rewrite client_eq. cbn [fst snd].
  destruct (live _) eqn:El; [|reflexivity]. cbn [negb]. destruct (decide _).
  { run. rewrite client_eq. cbn [fst snd]. by apply modest_send_live. }
  run. set (s1 := snd (when _ _ s)).
  assert (modest ctx s s1 /\ live (client_of s1 i) = live (client_of s i)) as [M1 L1].
  { unfold s1. destruct (negb _); [|by split]. cbn [when]. split; [as_within; within_auto|].
    cbn [snd upd_client modify]. rewrite client_of_alter. case_decide as D; [|done]. by destruct D as [<- _]. }
  etransitivity; [exact M1|]. run. rewrite client_eq. cbn [fst snd]. apply modest_send_live. congruence.
Qed.

Hint Resolve modest_presence_subscription modest_presence_directed modest_presence_all : handlers.

Lemma modest_broadcast stanza : within (modest ctx) (handle_broadcast_presence ctx stanza).
Proof.
  intros s. pose proof (gentle_ready ctx s) as G. unfold handle_broadcast_presence.
  rewrite bind_eq in G |- *. rewrite client_eq in G |- *. cbn [fst snd] in G |- *. run.
  set (s1 := snd (when _ _ s)) in *. transitivity s1.
  - split; [exact G|]. intros _ _. unfold s1. destruct (_ && _); [apply discreet_upd|reflexivity].
  - as_within. unfold presence_probe. within_auto.
Qed.

End handlers.

(** * Talking to one client *)

(** Nobody overhears the client, before and after. *)
Definition hush `{Env} (ctx : nat) (s s' : srv) : Prop :=
  covered (client_of s ctx) -> covered (client_of s' ctx) /\ discreet s s'.

#[export] Instance hush_preorder `{Env} ctx : PreOrder (hush ctx).
Proof.
  split.
  - by intros s Hc.
  - intros s1 s2 s3 H1 H2 [C1 D1]%H1. destruct (H2 C1) as [C2 D2]. split; [done|by etransitivity].
Qed.

Section hush.
Context `{Env} (ctx : nat).

Lemma hush_upd f : (forall c, covered c -> covered (f c)) -> within (hush ctx) (upd_client ctx f).
Proof.
  intros Hf s Hc. split; [|apply discreet_upd]. cbn [snd upd_client modify]. rewrite client_of_alter.
  case_decide; auto.
Qed.

Lemma hush_send d : within (hush ctx) (send_raw ctx d).
Proof.
  intros s Hc. split; [|by apply discreet_send].
  assert (keeps covered s (snd (send_raw ctx d s))) as K by (by apply within_send).
  by rewrite (keeps_at _ _ _ ctx K).
Qed.

Lemma hush_emit e : quiet e -> within (hush ctx) (emit e).
Proof. intros He s Hc. split; [done|by apply discreet_emit]. Qed.

Lemma hush_random : within (hush ctx) random_u32.
Proof.
  intros s Hc. split; [|apply discreet_random]. revert Hc. unfold random_u32.
  by destruct (secure_random_u32 _ _ _) as [[? ?] ?].
Qed.

End hush.

#[export] Hint Resolve hush_send hush_random : handlers.
#[export] Hint Extern 1 (within (hush _) (emit _)) => apply hush_emit; exact I : handlers.
#[export] Hint Extern 1 (within (hush _) (upd_client _ _)) =>
  apply hush_upd; intros ? ?; first [assumption | left; reflexivity] : handlers.

Section server.
Context `{Env} (ctx : nat).

Lemma hush_sasl stanza : within (hush ctx) (handle_sasl ctx stanza).
Proof. unfold handle_sasl, sasl_refuse. within_auto. Qed.

(** A login without TLS is refused with a fixed text. *)
Lemma discreet_sasl stanza : within discreet (handle_sasl ctx stanza).
Proof.
  intros s. destruct (Z.eq_dec (tls_established (client_of s ctx)) 0) as [E|E].
  - unfold handle_sasl. run. rewrite client_eq. cbn [fst snd]. rewrite E. change (negb (truth 0)) with true. cbv iota.
    apply discreet_send_plain, fixed_negotiation. unfold fixed_texts.
    change (cstr (sasl_failure (str "<encryption-required/>"))) with (sasl_failure (str "<encryption-required/>")).
    repeat constructor.
  - apply (hush_sasl stanza s). by right.
Qed.

Lemma hush_sm_element : within (hush ctx) (xmpp_sm_handle_element ctx).
Proof. unfold xmpp_sm_handle_element, xmpp_sm_send_enabled, xmpp_sm_send_ack. within_auto. Qed.

Lemma hush_session stanza : within (hush ctx) (handle_core_session ctx stanza).
Proof. unfold handle_core_session. within_auto. Qed.

Lemma discreet_evict_others : within discreet (evict_others ctx).
Proof.
  assert (forall p, within discreet (emit (EvTcp p conflict_err))) as He.
  { intros p. apply discreet_emit. destruct p; [left|done]. apply fixed_negotiation. unfold fixed_texts. repeat constructor. }
  pose proof discreet_client_free. unfold evict_others, evict. within_auto.
Qed.

Lemma discreet_bind stanza s :
  length (client_registry s) = MAX_USERS -> (ctx < MAX_USERS)%nat -> covered (client_of s ctx) ->
  discreet s (snd (handle_core_bind ctx stanza s)).
Proof.
  intros Hl Hc Hcov. unfold handle_core_bind. run. rewrite client_eq. cbn [fst snd].
  destruct (bool_decide _); [|by apply discreet_send]. run. set (s1 := snd (random_u32 s)).
  assert (client_registry s1 = client_registry s) as E1
    by (unfold s1, random_u32; by destruct (secure_random_u32 _ _ _) as [[? ?] ?]).
  transitivity s1; [apply discreet_random|]. run. set (s2 := snd (upd_client ctx _ s1)).
  assert (length (client_registry s2) = MAX_USERS) as L2 by (unfold s2; by rewrite upd_length, E1).
  assert (covered (client_of s2 ctx)) as C2.
  { unfold s2. rewrite upd_at by (rewrite E1; lia). unfold client_of in *. by rewrite E1. }
  transitivity s2; [apply discreet_upd|]. run.
  destruct (evict_others_at ctx s2 ltac:(lia) L2) as (_ & Ec & _). set (s3 := snd (evict_others ctx s2)) in *.
  transitivity s3; [apply discreet_evict_others|]. run. rewrite client_eq. cbn [fst snd]. run.
  etransitivity; [apply discreet_send; by rewrite Ec|apply discreet_upd].
Qed.

(** ** The router *)

Context (Hctx : (ctx < MAX_USERS)%nat).

Lemma discreet_routes stanza r s :
  length (client_registry s) = MAX_USERS -> all_ok s -> covered (client_of s ctx) -> r ∈ router ->
  discreet s (snd (rt_handler r ctx stanza s)).
Proof.
  intros Hl Hs Hc Hr. destruct (modest_fixed ctx stanza) as (F1 & F2 & F3 & F4 & F5).
  destruct (modest_disco ctx stanza) as [D1 D2].
  assert (forall m : M unit, within (modest ctx) m -> discreet s (snd (m s))) as Hm by (intros m Hm; by apply Hm).
  unfold router in Hr. repeat (apply elem_of_cons in Hr as [-> |Hr]; [cbn [rt_handler]|]);
    [exact (discreet_bind stanza s Hl Hctx Hc)|exact (proj2 (hush_session stanza s Hc))|
     exact (Hm _ (modest_roster ctx stanza))|exact (Hm _ D1)|exact (Hm _ D2)|exact (Hm _ (modest_muc_presence ctx stanza))|
     exact (Hm _ (modest_muc_owner ctx stanza))|exact (Hm _ (modest_private ctx stanza))|
     exact (Hm _ (modest_muc_admin ctx stanza))|exact (Hm _ F1)|exact (Hm _ F5)|exact (Hm _ F2)|exact (Hm _ F3)|
     exact (Hm _ F4)|]. by apply elem_of_nil in Hr.
Qed.

Hint Resolve modest_chat modest_muc_presence modest_initial modest_broadcast modest_muc_owner : handlers.

Lemma modest_by_type stanza : within (modest ctx) (route_by_type ctx stanza).
Proof. unfold route_by_type, route_presence, route_unknown. within_auto. Qed.

Lemma discreet_route k s :
  length (client_registry s) = MAX_USERS -> all_ok s -> covered (client_of s ctx) ->
  discreet s (snd (xmpp_route_stanza ctx k s)).
Proof.
  intros Hl Hs Hc. unfold xmpp_route_stanza. run. rewrite client_eq. cbn [fst snd]. run. set (t := snd (when _ _ s)).
  assert (discreet s t /\ client_registry t = client_registry s) as [Dt Er].
  { unfold t. destruct (negb _); [|done]. cbn [when]. split; [as_within; unfold upd_stanza; within_auto|done]. }
  transitivity t; [exact Dt|]. assert (forall i, client_of t i = client_of s i) as Ec by (unfold client_of; by rewrite Er).
  clearbody t. run. rewrite gets_eq. cbn [fst snd]. set (stanza := stanza_of t k).
  assert (all_ok t) as Ht by (intros i; rewrite Ec; apply Hs).
  assert (covered (client_of t ctx)) as Hct by (by rewrite Ec).
  destruct (_ && _); [apply discreet_negotiate, (Ht ctx)|].
  destruct (find_route _) as [r|] eqn:Ef; [|by apply modest_by_type].
  unfold dispatch. run. rewrite client_eq. cbn [fst snd]. destruct (state_lt _ _).
  - destruct (is_request_iq _); cbn [when]; [by apply discreet_send|reflexivity].
  - apply discreet_routes; [by rewrite Er|done|done|by eapply find_route_in].
Qed.

(** Beyond the login nobody overhears. *)
Lemma state_covered c : secure c -> state_lt (state c) STATE_SASL = false -> covered c.
Proof.
  intros [_ Hs] Hst. destruct (pcb c) eqn:Ep; [|by left]. right.
  destruct (Hs ltac:(done)) as [Ht _]. by apply Ht.
Qed.

Lemma discreet_handle_stanza k s :
  length (client_registry s) = MAX_USERS -> all_ok s -> state (client_of s ctx) <> STATE_STARTTLS ->
  discreet s (snd (handle_stanza ctx k s)).
Proof.
  intros Hl Hs Hst. unfold handle_stanza. run. rewrite client_eq. cbn [fst snd]. destruct (_ || _) eqn:E.
  - run. rewrite gets_eq. cbn [fst snd]. destruct (_ =? 0); cbn [when]; [apply discreet_sasl|reflexivity].
  - apply orb_false_iff in E as [E1 E2]. apply bool_decide_eq_false in E1, E2. run.
    transitivity (snd (xmpp_route_stanza ctx k s)).
    + apply discreet_route; [done|done|]. apply state_covered; [apply (Hs ctx)|]. by destruct (state (client_of s ctx)).
    + as_within. unfold xmpp_sm_on_stanza_received. within_auto.
Qed.

Lemma discreet_next_stanza p s :
  length (client_registry s) = MAX_USERS -> all_ok s -> state (client_of s ctx) <> STATE_STARTTLS ->
  discreet s (snd (next_stanza ctx p s)).
Proof.
  intros Hl Hs Hst. unfold next_stanza. run. rewrite client_eq. cbn [fst snd]. run. rewrite gets_eq. cbn [fst snd].
  destruct (parse_xml_stream _ _ _ _) as [[[[k|[]] consumed] pool']|];
    [|first [reflexivity | as_within; within_auto]..].
  run. set (s1 := snd (modify _ s)). transitivity s1; [unfold s1; as_within; within_auto|]. run.
  etransitivity; [by apply (discreet_handle_stanza k)|]. as_within. within_auto.
Qed.

Lemma discreet_dispatch p s :
  sys_ok s -> state (client_of s ctx) <> STATE_STARTTLS -> discreet s (snd (rx_dispatch ctx p s)).
Proof.
  intros Hsys Hst. pose proof Hsys as [Hl Hs _]. unfold rx_dispatch. run. rewrite client_eq. cbn [fst snd].
  destruct (Z.eqb_spec (rx_pos (client_of s ctx)) 0) as [|Hp0]; [reflexivity|].
  assert (0 < rx_pos (client_of s ctx)) as Hp by (destruct (Hs ctx) as [[_ R _] _ _]; lia).
  destruct (_ && (strncmp _ _ 9 =? 0)); [apply discreet_start_tls|].
  destruct (is_stream_close _); [apply discreet_close_stream|].
  destruct (_ && is_stream_open _); [apply discreet_open_stream, (Hs ctx)|].
  destruct (_ && (strncmp _ _ 6 =? 0)); [apply discreet_abort|]. run.
  destruct (state_lt (state (client_of s ctx)) STATE_SESSION) eqn:E; cbn [negb].
  { cbn [fst snd mret M_ret]. change (negb (0 =? 0)) with false. cbv iota. by apply discreet_next_stanza. }
  assert (covered (client_of s ctx)) as Hc
    by (apply state_covered; [apply (Hs ctx)|by destruct (state (client_of s ctx))]).
  pose proof (proj2 (hush_sm_element s Hc)) as D. pose proof (sm_round ctx s Hsys Hp Hst) as Hsm.
  destruct (xmpp_sm_handle_element ctx s) as [r s1] eqn:Esm. cbn [fst snd] in *.
  destruct Hsm as [[-> ->]|(-> & _)]; [|exact D]. change (negb (0 =? 0)) with false. cbv iota.
  by apply discreet_next_stanza.
Qed.

Lemma discreet_round p s :
  sys_ok s -> 0 < rx_pos (client_of s ctx) -> state (client_of s ctx) <> STATE_STARTTLS ->
  discreet s (snd (rx_round ctx p s)).
Proof.
  intros Hs Hp Hst. pose proof (client_in ctx s Hs Hp) as Hin. unfold rx_round. run. rewrite client_eq. cbn [fst snd]. run.
  pose proof (space_prefix_bound (rx_data (client_of s ctx))) as Hb. set (shift := space_prefix _) in *.
  destruct (Z.ltb_spec 0 shift) as [Hsh|Hsh]; cbn [when]; [|by apply discreet_dispatch].
  destruct (consume_after ctx s s shift) as (O & _ & S); [apply Hs|done|done| |].
  { destruct (sy_conn s Hs ctx) as [[F1 F2 F3] _ _]. unfold rx_data in Hb. rewrite length_take in Hb. lia. }
  etransitivity; [apply discreet_upd|]. apply discreet_dispatch; [by eapply sys_okstep|congruence].
Qed.

Lemma discreet_rx_loop fuel p s :
  sys_ok s -> state (client_of s ctx) <> STATE_STARTTLS -> discreet s (snd (rx_loop fuel ctx p s)).
Proof.
  revert s; induction fuel as [|fuel IH]; intros s Hs Hst; cbn [rx_loop]; [reflexivity|]. run. rewrite client_eq.
  cbn [fst snd]. destruct (Z.leb_spec (rx_pos (client_of s ctx)) 0); [reflexivity|]. run.
  pose proof (discreet_round p s Hs ltac:(lia) Hst) as D.
  destruct (round_spec ctx p s Hs ltac:(lia) Hst) as (A & B & _ & _). destruct (rx_round ctx p s) as [r s1].
  cbn [fst snd] in *. transitivity s1; [exact D|]. destruct r; [|reflexivity..].
  destruct (B eq_refl) as [_ B3]. by apply IH.
Qed.

(** ** The callbacks *)

Lemma discreet_recv_data p bufs s : sys_ok s -> discreet s (snd (recv_data ctx p bufs s)).
Proof.
  intros Hs. unfold recv_data. run. rewrite client_eq. cbn [fst snd].
  destruct (bool_decide _) eqn:E.
  { as_within. pose proof (discreet_feed ctx (xmpp_tls_handshake_step ctx) bufs (discreet_handshake_step ctx)). within_auto. }
  apply bool_decide_eq_false in E. destruct (truth _).
  - do 2 run. set (s1 := snd (emit _ s)). transitivity s1; [exact (discreet_emit (EvRecved (Some p) (tot_len bufs)) I s)|].
    pose proof (okstep_feed ctx (xmpp_tls_decrypt ctx) bufs (okstep_decrypt ctx) s1) as O.
    pose proof (state_feed ctx _ bufs (state_decrypt ctx) s1) as K.
    pose proof (discreet_feed ctx _ bufs (discreet_decrypt ctx) s1) as D.
    set (s2 := snd (feed _ _ _ s1)) in *. transitivity s2; [exact D|]. run.
    etransitivity; [exact (discreet_emit EvPbufFree I s2)|]. apply discreet_rx_loop.
    + eapply (sys_okstep ctx); [apply upholds_emit|]. eapply (sys_okstep ctx); [exact O|]. eapply (sys_okstep ctx); [apply upholds_emit|exact Hs].
    + change (state (client_of s2 ctx) <> STATE_STARTTLS). by rewrite (keeps_at _ _ _ ctx K).
  - run. pose proof (okstep_copy_plain ctx bufs s) as O. pose proof (state_copy_plain ctx bufs s) as K.
    pose proof (discreet_copy_plain ctx bufs s) as D.
    destruct (copy_plain ctx bufs s) as [b s1]. cbn [fst snd] in *. transitivity s1; [exact D|].
    destruct b; [as_within; within_auto|]. run.
    etransitivity; [exact (discreet_emit (EvRecved (Some p) (tot_len bufs)) I s1)|]. run.
    etransitivity; [exact (discreet_emit EvPbufFree I _)|]. apply discreet_rx_loop.
    + do 2 (eapply (sys_okstep ctx); [apply upholds_emit|]). by eapply (sys_okstep ctx).
    + intros Es. apply E. rewrite <- (keeps_at _ _ _ ctx K). exact Es.
Qed.

Lemma discreet_recv p data s : sys_ok s -> discreet s (snd (xmpp_recv_callback ctx p data s)).
Proof.
  intros Hs. destruct data as [bufs|]; [by apply discreet_recv_data|]. cbn [xmpp_recv_callback]. as_within.
  pose proof (discreet_close_and_free ctx). within_auto.
Qed.

End server.

Lemma discreet_serve `{Env} : within discreet serve_connections.
Proof. pose proof discreet_handshake_step. pose proof discreet_ack. unfold serve_connections. within_auto. Qed.

Lemma step_discreet `{E : Env} w w' : world_ok w -> step w w' -> discreet (snd w) (snd w').
Proof.
  intros [Hi Hs] Hst. destruct Hst as [idx s p|idx s ctx p data s' Hc Er|idx s ctx Hc|idx s]; cbn [fst snd] in *.
  - as_within. pose proof (discreet_client_free idx). unfold xmpp_accept_callback. within_auto.
  - pose proof (discreet_recv ctx Hc p data s Hs) as D. by rewrite Er in D.
  - as_within. pose proof (discreet_client_free ctx). unfold xmpp_err_callback. within_auto.
  - apply discreet_serve.
Qed.

(** * Runs *)

Lemma trace_load_all `{Env} : within (same trace) xmpp_persist_load_all.
Proof.
  assert (forall lba n k, (forall b, within (same trace) (k b)) -> within (same trace) (read_or_fail lba n k)) as Hr.
  { intros lba n k Hk. unfold read_or_fail, disk_read_sectors. within_auto. by intros s. }
  assert (forall lba b, within (same trace) (disk_write_sectors lba b)) as Hw.
  { intros lba b. unfold disk_write_sectors. within_auto; by intros s. }
  assert (within (same trace) fresh_start) as Hf.
  { unfold fresh_start, write_header. within_auto; by intros s. }
  unfold xmpp_persist_load_all, try_load. within_auto; apply Hr; intros; within_auto.
  do 5 (apply Hr; intros). within_auto; by intros s.
Qed.

Lemma reachable_quiet `{E : Env} w : reachable w -> Forall quiet (trace (snd w)).
Proof.
  intros [d r w' Hr]. set (w0 := (O, snd (xmpp_init_server 0 (globals0 d r)))) in *.
  assert (trace (snd w0) = []) as E0.
  { unfold w0, xmpp_init_server. cbn [snd]. run. cbn [snd mret M_ret]. exact (trace_load_all (globals0 d r)). }
  enough (world_ok w' /\ Forall quiet (trace (snd w'))) as HQ by apply HQ.
  revert w' Hr. apply (rtc_ind_r (fun w' => world_ok w' /\ Forall quiet (trace (snd w')))).
  - split; [by apply reachable_ok, (reachable_from d r)|]. by rewrite E0.
  - intros y z _ Hst [Hy Fy]. split; [by eapply step_ok|]. destruct (step_discreet y z Hy Hst) as (evs & -> & Fe).
    by apply Forall_app.
Qed.

#[local] Strategy transparent [snprintf snprintf_into].

(** What the login of [Reach] says in plain: the header and the answer to
    STARTTLS. *)
Definition plain_texts (w : nat * srv) : list (list Z) :=
  flat_map (fun e => match e with EvTcp (Some _) d => [d] | _ => [] end) (trace (snd w)).

Lemma login_plain :
  tail <$> (plain_texts <$> play (H := login_env) login_run powered_on) = Some [proceed].
Proof. lazy. reflexivity. Qed.

Lemma plain_said w d : d ∈ plain_texts w -> exists p, EvTcp (Some p) d ∈ trace (snd w).
Proof.
  unfold plain_texts. intros (e & He & Hd)%list_elem_of_In%in_flat_map. destruct e as [|[p|]| | | | | |]; try done.
  destruct Hd as [<-|[]]. exists p. by apply list_elem_of_In.
Qed.

Lemma login_proceeds : exists w p, reachable (H := login_env) w /\ EvTcp (Some p) proceed ∈ trace (snd w).
Proof.
  pose proof login_plain as R. destruct (play login_run powered_on) as [w|] eqn:E; [|done].
  injection R as R. destruct (plain_said w proceed) as [p Hp].
  { destruct (plain_texts w) as [|x l]; [done|]. cbn [tail] in R. rewrite R. right. left. }
  exists w, p. split; [|exact Hp]. exact (play_reachable (H := login_env) login_run [] [] w E).
Qed.

(** * Properties *)


