(* ===== verification/Ledger.v ===== *)
(** The accounts of the receive path: no code, but what the receive callback owes
    to lwIP.  Each chain of buffers it is given must be freed once and its length
    returned to the window of the connection once; nothing else may be.  The
    file goes through everything the callback can run, like [Frame]. *)

From Stdlib Require Import ZArith Lia String Ascii Bool.
From stdpp Require Import base list numbers option sets.
From S2P Require Import Prelude.
From S2P Require Import Libc.
From S2P Require Import XmppCore.
From S2P Require Import Logic.
From S2P Require Import Persist.
From S2P Require Import Store.
From S2P Require Import Tls.
From S2P Require Import Sasl.
From S2P Require Import Sm.
From S2P Require Import Iq.
From S2P Require Import Muc.
From S2P Require Import Message.
From S2P Require Import MucPresence.
From S2P Require Import Presence.
From S2P Require Import Router.
From S2P Require Import Server.
From S2P Require Import Reach.

Open Scope Z_scope.

(** * The accounts *)

(** [tcp_recved] and [pbuf_free]. *)
Definition account (e : event) : bool :=
  match e with EvRecved _ _ | EvPbufFree => true | _ => false end.

(** The entries so far. *)
Definition ledger (s : srv) : list event := filter (fun e => account e = true) (trace s).

Lemma ledger_emit_eq e s : ledger (snd (emit e s)) = ledger s ++ (if account e then [e] else []).
Proof.
  unfold ledger. cbn [snd emit modify trace set_trace]. rewrite filter_app. f_equal.
  destruct (account e) eqn:E; [by rewrite filter_cons_True|by rewrite filter_cons_False by congruence].
Qed.

Lemma ledger_emit e : account e = false -> within (same ledger) (emit e).
Proof. intros He s. unfold same. by rewrite ledger_emit_eq, He, app_nil_r. Qed.

Lemma ledger_modify f : (forall s, trace (f s) = trace s) -> within (same ledger) (modify f).
Proof. intros Hf s. unfold same, ledger. cbn [snd modify]. by rewrite Hf. Qed.

Lemma ledger_upd i f : within (same ledger) (upd_client i f).
Proof. by apply ledger_modify. Qed.

Lemma ledger_call : within (same ledger) call.
Proof. by apply ledger_modify. Qed.

Lemma ledger_random `{Env} : within (same ledger) random_u32.
Proof. intros s. unfold random_u32, same. by destruct (secure_random_u32 _ _ _) as [[? ?] ?]. Qed.

Lemma ledger_save `{Env} r : within (same ledger) (save_region r).
Proof. intros s. by apply (within_save_region ledger). Qed.

#[export] Hint Resolve ledger_upd ledger_call ledger_random : handlers.
#[export] Hint Extern 1 (within (same ledger) (emit _)) => apply ledger_emit; reflexivity : handlers.
#[export] Hint Extern 1 (within (same ledger) (modify _)) => apply ledger_modify; done : handlers.
#[export] Hint Extern 1 (within (same ledger) xmpp_persist_save_private) => apply (ledger_save RPrivate) : handlers.
#[export] Hint Extern 1 (within (same ledger) xmpp_persist_save_roster) => apply (ledger_save RRoster) : handlers.
#[export] Hint Extern 1 (within (same ledger) xmpp_persist_save_rooms) => apply (ledger_save RRooms) : handlers.
#[export] Hint Extern 1 (within (same ledger) xmpp_persist_save_offline) => apply (ledger_save ROffline) : handlers.
#[export] Hint Extern 1 (within (same ledger) xmpp_persist_save_pending_subs) => apply (ledger_save RPending) : handlers.

(** * Everything else leaves them alone *)

Section sending.
Context `{Env}.

Lemma ledger_output i : within (same ledger) (output i).
Proof. unfold output. within_auto. Qed.

Lemma ledger_ssl_write i p : within (same ledger) (ssl_write_call i p).
Proof. unfold ssl_write_call. within_auto. Qed.

Hint Resolve ledger_output ledger_ssl_write : handlers.

Lemma ledger_tls_send fuel i p : within (same ledger) (tls_send fuel i p).
Proof. revert p; induction fuel as [|fuel IH]; intros [|b p]; simpl; within_auto. Qed.

Hint Resolve ledger_tls_send : handlers.

Lemma ledger_send i d : within (same ledger) (send_raw i d).
Proof. unfold send_raw, xmpp_sm_on_stanza_sent. within_auto. Qed.

Lemma ledger_say p d : within (same ledger) (tcp_say p d).
Proof. unfold tcp_say. within_auto. Qed.

End sending.

#[export] Hint Resolve ledger_output ledger_ssl_write ledger_send ledger_say : handlers.

Section connection.
Context `{Env} (ctx : nat).

Lemma ledger_callbacks n : within (same ledger) (ssl_callbacks ctx n).
Proof. unfold ssl_callbacks, tls_net_recv, tls_net_send. within_auto. Qed.

Lemma ledger_compact : within (same ledger) (tls_staging_compact ctx).
Proof. unfold tls_staging_compact. within_auto. Qed.

Lemma ledger_close_pcb : within (same ledger) (close_pcb ctx).
Proof. unfold close_pcb. within_auto. Qed.

Lemma ledger_client_free : within (same ledger) (xmpp_tls_client_free ctx).
Proof. unfold xmpp_tls_client_free. within_auto. Qed.

Hint Resolve ledger_callbacks ledger_compact ledger_close_pcb ledger_client_free : handlers.

Lemma ledger_handshake data : within (same ledger) (xmpp_tls_handshake_step ctx data).
Proof. unfold xmpp_tls_handshake_step. within_auto. Qed.

Lemma ledger_decrypt_loop fuel : within (same ledger) (decrypt_loop fuel ctx).
Proof. induction fuel as [|fuel IH]; cbn [decrypt_loop]; within_auto. Qed.

Hint Resolve ledger_decrypt_loop : handlers.

Lemma ledger_decrypt data : within (same ledger) (xmpp_tls_decrypt ctx data).
Proof. unfold xmpp_tls_decrypt. within_auto. Qed.

Lemma ledger_close_and_free : within (same ledger) (send_stream_close_and_free ctx).
Proof. unfold send_stream_close_and_free, tls_say_close. within_auto. Qed.

Lemma ledger_negotiate : within (same ledger) (handle_handshake_logic ctx).
Proof. unfold handle_handshake_logic. within_auto. Qed.

Hint Resolve ledger_negotiate : handlers.

Lemma ledger_stream :
  within (same ledger) (start_tls ctx) /\ within (same ledger) (close_stream ctx) /\
  within (same ledger) (open_stream ctx) /\ within (same ledger) (abort_login ctx).
Proof.
  unfold start_tls, xmpp_tls_client_init, close_stream, tls_say_close, open_stream, refuse_stream, abort_login.
  split_and!; within_auto.
Qed.

Lemma ledger_sm : within (same ledger) (xmpp_sm_handle_element ctx) /\ within (same ledger) (xmpp_sm_on_stanza_received ctx).
Proof.
  unfold xmpp_sm_handle_element, xmpp_sm_send_enabled, xmpp_sm_send_ack, xmpp_sm_on_stanza_received.
  split; within_auto.
Qed.

Lemma ledger_sasl stanza : within (same ledger) (handle_sasl ctx stanza).
Proof. unfold handle_sasl, sasl_refuse. within_auto. Qed.

Lemma ledger_feed f bufs : (forall q, within (same ledger) (f q)) -> within (same ledger) (feed f ctx bufs).
Proof. intros Hf. induction bufs as [|q bufs IH]; cbn [feed]; within_auto. Qed.

Lemma ledger_copy_plain bufs : within (same ledger) (copy_plain ctx bufs).
Proof. induction bufs as [|q bufs IH]; cbn [copy_plain]; within_auto. Qed.

End connection.

(** ** The stanza handlers *)

Section stanzas.
Context `{Env} (ctx : nat).

Lemma ledger_offline_enqueue a b c d : within (same ledger) (offline_msg_enqueue a b c d).
Proof. unfold offline_msg_enqueue. within_auto. Qed.

Lemma ledger_offline_drain : within (same ledger) (offline_msg_drain ctx).
Proof. unfold offline_msg_drain. within_auto. Qed.

Lemma ledger_pending_enqueue a b c : within (same ledger) (pending_sub_enqueue a b c).
Proof. unfold pending_sub_enqueue. within_auto. Qed.

Lemma ledger_pending_drain : within (same ledger) (pending_sub_drain ctx).
Proof. unfold pending_sub_drain. within_auto. Qed.

Lemma ledger_subscription a b c d : within (same ledger) (subscription_update_roster a b c d).
Proof. unfold subscription_update_roster. within_auto. Qed.

Hint Resolve ledger_offline_enqueue ledger_offline_drain ledger_pending_enqueue ledger_pending_drain
  ledger_subscription : handlers.

Lemma ledger_queries stanza :
  within (same ledger) (handle_private_storage ctx stanza) /\ within (same ledger) (handle_roster_request ctx stanza) /\
  within (same ledger) (handle_disco_info ctx stanza) /\ within (same ledger) (handle_disco_items ctx stanza).
Proof.
  unfold handle_private_storage, private_set, handle_roster_request, roster_push, roster_store_set_from_payload,
    handle_disco_info, forward_caps, handle_disco_items. split_and!; within_auto.
Qed.

Lemma ledger_fixed stanza :
  within (same ledger) (handle_blocklist ctx stanza) /\ within (same ledger) (handle_version ctx stanza) /\
  within (same ledger) (handle_last ctx stanza) /\ within (same ledger) (handle_ping ctx stanza) /\
  within (same ledger) (handle_general_success ctx stanza) /\ within (same ledger) (handle_core_session ctx stanza).
Proof.
  unfold handle_blocklist, handle_version, handle_last, handle_ping, handle_general_success, handle_core_session.
  split_and!; within_auto.
Qed.

Lemma ledger_bind stanza : within (same ledger) (handle_core_bind ctx stanza).
Proof. unfold handle_core_bind, evict_others, evict, xmpp_tls_client_free. within_auto. Qed.

Lemma ledger_muc stanza :
  within (same ledger) (handle_muc_admin ctx stanza) /\ within (same ledger) (handle_muc_owner ctx stanza) /\
  within (same ledger) (handle_muc_presence ctx stanza).
Proof.
  unfold handle_muc_admin, kick, handle_muc_owner, destroy_room, handle_muc_presence, muc_presence_in, get_room, muc_leave,
    muc_available, muc_rename, muc_join, muc_welcome, tell_all, tell_others, send_to_jid, upd_room.
  split_and!; within_auto.
Qed.

Lemma ledger_presence stanza :
  within (same ledger) (handle_initial_presence ctx stanza) /\ within (same ledger) (handle_broadcast_presence ctx stanza).
Proof.
  unfold handle_initial_presence, announce_presence, probe_presence, handle_broadcast_presence, presence_probe,
    presence_subscription, presence_directed, presence_all. split; within_auto.
Qed.

Lemma ledger_chat stanza : within (same ledger) (handle_chat_message ctx stanza).
Proof.
  unfold handle_chat_message, room_message, private_message, group_message, set_room_subject, user_message, deliver,
    send_to_jid, upd_room. within_auto.
Qed.

End stanzas.

(** ** The receive loop *)

Section loop.
Context `{Env} (ctx : nat).

Lemma ledger_routes stanza r : r ∈ router -> within (same ledger) (rt_handler r ctx stanza).
Proof.
  intros Hr. destruct (ledger_fixed ctx stanza) as (F1 & F2 & F3 & F4 & F5 & F6).
  destruct (ledger_queries ctx stanza) as (Q1 & Q2 & Q3 & Q4). destruct (ledger_muc ctx stanza) as (M1 & M2 & M3).
  unfold router in Hr. repeat (apply elem_of_cons in Hr as [-> |Hr]; [cbn [rt_handler]|]);
    [exact (ledger_bind ctx stanza)|exact F6|exact Q2|exact Q3|exact Q4|exact M3|exact M2|exact Q1|exact M1|
     exact F1|exact F5|exact F2|exact F3|exact F4|]. by apply elem_of_nil in Hr.
Qed.

Lemma ledger_by_type stanza : within (same ledger) (route_by_type ctx stanza).
Proof.
  destruct (ledger_muc ctx stanza) as (_ & M2 & M3). destruct (ledger_presence ctx stanza) as [P1 P2].
  pose proof (ledger_chat ctx stanza) as C.
  unfold route_by_type, route_presence, route_unknown. within_auto.
Qed.

Lemma ledger_route k : within (same ledger) (xmpp_route_stanza ctx k).
Proof.
  pose proof (ledger_negotiate ctx) as N. unfold xmpp_route_stanza, upd_stanza.
  do 3 (apply within_bind; [typeclasses eauto|within_auto|intros ?]). destruct (_ && _); [exact N|].
  destruct (find_route _) as [r|] eqn:Ef; [|apply ledger_by_type]. apply find_route_in in Ef.
  unfold dispatch. within_auto. by apply ledger_routes.
Qed.

Lemma ledger_handle_stanza k : within (same ledger) (handle_stanza ctx k).
Proof.
  destruct (ledger_sm ctx) as [_ R]. pose proof (ledger_route k) as Q. unfold handle_stanza. within_auto. apply ledger_sasl.
Qed.

Hint Resolve ledger_handle_stanza : handlers.

Lemma ledger_next_stanza p : within (same ledger) (next_stanza ctx p).
Proof. unfold next_stanza. within_auto. Qed.

Hint Resolve ledger_next_stanza : handlers.

Lemma ledger_rx_loop fuel p : within (same ledger) (rx_loop fuel ctx p).
Proof.
  destruct (ledger_stream ctx) as (S1 & S2 & S3 & S4). destruct (ledger_sm ctx) as [E _].
  assert (within (same ledger) (rx_round ctx p)) as R by (unfold rx_round, rx_dispatch; within_auto).
  clear S1 S2 S3 S4 E. induction fuel as [|fuel IH]; cbn [rx_loop]; within_auto.
Qed.

Lemma ledger_recv_data p bufs s :
  ledger (snd (recv_data ctx p bufs s)) = ledger s ++ [EvRecved (Some p) (tot_len bufs); EvPbufFree].
Proof.
  pose proof (ledger_feed ctx _ bufs (ledger_handshake ctx)) as F1. pose proof (ledger_feed ctx _ bufs (ledger_decrypt ctx)) as F2.
  pose proof (ledger_copy_plain ctx bufs s) as C. pose proof (fun p => ledger_rx_loop RX_BUFFER_SIZE p) as L.
  pose proof ledger_say as Y. unfold within, same in *.
  unfold recv_data. run. rewrite client_eq. cbn [fst snd]. destruct (bool_decide _); [|destruct (truth _)].
  - do 3 run. cbn [mret M_ret fst snd]. by rewrite ledger_emit_eq, F1, ledger_emit_eq, <- (assoc_L (++)).
  - do 3 run. by rewrite L, ledger_emit_eq, F2, ledger_emit_eq, <- (assoc_L (++)).
  - run. destruct (copy_plain ctx bufs s) as [b s1]. cbn [fst snd] in *. destruct b.
    + do 5 run. cbn [mret M_ret fst snd]. rewrite (ledger_upd ctx), ledger_emit_eq, Y, !ledger_emit_eq, C.
      cbn [account]. by rewrite app_nil_r, <- (assoc_L (++)).
    + do 2 run. by rewrite L, !ledger_emit_eq, C, <- (assoc_L (++)).
Qed.

End loop.

(** * The theorem *)

(** C7: the receive path keeps its accounts with lwIP: whatever a client sends,
    in whatever state of its connection and of the server, a call of the receive
    callback with data returns the whole length to the window of the connection
    exactly once and frees the chain of buffers exactly once, in this order, and
    does so for nothing else; the end of a stream, a new or failed connection
    and a round of the main loop free and return nothing.  So no buffer of the
    pool is lost or freed twice, and the window of a connection never shrinks. *)
Theorem recv_accounts (E : Env) (ctx p idx newpcb : nat) (bufs : list (list Z)) (s : srv) :
  ledger (snd (xmpp_recv_callback ctx p (Some bufs) s)) = ledger s ++ [EvRecved (Some p) (tot_len bufs); EvPbufFree] /\
  ledger (snd (xmpp_recv_callback ctx p None s)) = ledger s /\
  ledger (snd (xmpp_accept_callback idx newpcb s)) = ledger s /\
  ledger (snd (xmpp_err_callback ctx s)) = ledger s /\
  ledger (snd (serve_connections s)) = ledger s.
Proof.
  pose proof ledger_close_and_free as C. pose proof ledger_client_free as F. pose proof ledger_handshake as K.
  split_and!.
  - apply ledger_recv_data.
  - revert s. change (within (same ledger) (xmpp_recv_callback ctx p None)). unfold xmpp_recv_callback. within_auto.
  - revert s. change (within (same ledger) (xmpp_accept_callback idx newpcb)). unfold xmpp_accept_callback. within_auto.
  - revert s. change (within (same ledger) (xmpp_err_callback ctx)). unfold xmpp_err_callback. within_auto.
  - revert s. change (within (same ledger) serve_connections). unfold serve_connections, xmpp_sm_request_ack. within_auto.
Qed.
