(* ===== verification/Pmm.v ===== *)
(** The physical page allocator: src/mm/pmm.c.

    Physical memory is a map from the address of a 64-bit word to its value.
    The allocator hands out the pages of one segment of the firmware's memory
    map, in order, and never takes one back. *)

From Stdlib Require Import ZArith Lia Bool.
From stdpp Require Import base list numbers option.
From S2P Require Import Prelude.

Open Scope Z_scope.

Definition PAGE_SIZE : Z := 4096.

(** * Memory *)

Definition memory : Type := Z -> Z.

Definition poke (a v : Z) (m : memory) : memory := fun x => if x =? a then v else m x.

(** The kernel's memory management: the two bounds of the pool, the root of the
    page tables, and memory. *)
Record mm := mk_mm {
  free_memory_start : Z;
  free_memory_end : Z;
  kernel_pml4 : Z;
  mem : memory
}.

Definition set_mem (m : memory) (s : mm) : mm :=
  mk_mm (free_memory_start s) (free_memory_end s) (kernel_pml4 s) m.
Definition set_kernel_pml4 (p : Z) (s : mm) : mm :=
  mk_mm (free_memory_start s) (free_memory_end s) p (mem s).
Definition set_pool (a b : Z) (s : mm) : mm := mk_mm a b (kernel_pml4 s) (mem s).

(** * Operations *)

(** The fields of [EFI_MEMORY_DESCRIPTOR] the kernel reads. *)
Record memory_descriptor := mk_desc { Type_ : Z; PhysicalStart : Z; NumberOfPages : Z }.

(** The loop over the memory map, with [largest_free_segment]. *)
Fixpoint largest_segment (conventional : Z) (map : list memory_descriptor) (largest : Z) (s : mm) : mm :=
  match map with
  | [] => s
  | desc :: map' =>
      let size := u64 (NumberOfPages desc * PAGE_SIZE) in
      if (Type_ desc =? conventional) && (largest <? size) then
        largest_segment conventional map' size (set_pool (PhysicalStart desc) (u64 (PhysicalStart desc + size)) s)
      else largest_segment conventional map' largest s
  end.

(** [conventional] is the firmware's [EfiConventionalMemory]. *)
Definition pmm_init (conventional : Z) (map : list memory_descriptor) (s : mm) : mm :=
  let s := largest_segment conventional map 0 s in
  if free_memory_start s <? 0x200000 then set_pool 0x200000 (free_memory_end s) s else s.

(** [for (i = 0; i < 512; i++) p[i] = 0;] *)
Definition zero_page (p : Z) (m : memory) : memory :=
  foldl (fun m i => poke (p + 8 * Z.of_nat i) 0 m) m (seq 0 512).

(** The result 0 is [NULL]. *)
Definition pmm_alloc_page (s : mm) : Z * mm :=
  if free_memory_end s <=? u64 (free_memory_start s + PAGE_SIZE) then (0, s)
  else
    let alloc := free_memory_start s in
    (alloc, set_mem (zero_page alloc (mem s)) (set_pool (u64 (alloc + PAGE_SIZE)) (free_memory_end s) s)).

Definition pmm_free_page (address : Z) (s : mm) : mm := s.

(** * Facts *)

Lemma poke_eq a v m : poke a v m a = v.
Proof. unfold poke. by rewrite Z.eqb_refl. Qed.

Lemma poke_ne a v m x : x <> a -> poke a v m x = m x.
Proof. intros N. unfold poke. by rewrite (proj2 (Z.eqb_neq x a) N). Qed.

Lemma pokes_out p n k m x :
  (forall i, (k <= i < k + n)%nat -> x <> p + 8 * Z.of_nat i) ->
  foldl (fun m i => poke (p + 8 * Z.of_nat i) 0 m) m (seq k n) x = m x.
Proof.
  revert k m; induction n as [|n IH]; intros k m Hx; cbn [seq foldl]; [done|].
  rewrite IH by (intros i Hi; apply Hx; lia). apply poke_ne, Hx. lia.
Qed.

Lemma pokes_in p n k m i :
  (k <= i < k + n)%nat -> foldl (fun m i => poke (p + 8 * Z.of_nat i) 0 m) m (seq k n) (p + 8 * Z.of_nat i) = 0.
Proof.
  revert k m; induction n as [|n IH]; intros k m Hi; cbn [seq foldl]; [lia|].
  destruct (decide (i = k)) as [->|N]; [|apply IH; lia].
  rewrite pokes_out by (intros j Hj; lia). apply poke_eq.
Qed.

(** The page at [p]. *)
Definition in_page (p x : Z) : Prop := p <= x < p + PAGE_SIZE.

Lemma zero_page_in p m i : 0 <= i < 512 -> zero_page p m (p + 8 * i) = 0.
Proof. intros Hi. unfold zero_page. rewrite <- (Z2Nat.id i) by lia. apply pokes_in. lia. Qed.

Lemma zero_page_out p m x : ~ in_page p x -> zero_page p m x = m x.
Proof. intros Hx. apply pokes_out. intros i Hi E. apply Hx. unfold in_page, PAGE_SIZE. lia. Qed.

(** The invariant of the pool. *)
Record pool_ok (s : mm) : Prop := {
  po_aligned : free_memory_start s mod PAGE_SIZE = 0;
  po_low : 0 < free_memory_start s;
  po_high : free_memory_end s <= 2 ^ 64 - PAGE_SIZE;
  po_order : free_memory_start s < 2 ^ 64 - PAGE_SIZE
}.

(** One more page can be had. *)
Definition has_page (s : mm) : Prop := free_memory_start s + PAGE_SIZE < free_memory_end s.

Lemma page_next p : p mod PAGE_SIZE = 0 -> (p + PAGE_SIZE) mod PAGE_SIZE = 0.
Proof.
  intros Hp. change PAGE_SIZE with 4096 in *. rewrite Z.add_mod, Hp by lia. reflexivity.
Qed.

Lemma pmm_alloc_some s :
  pool_ok s -> has_page s ->
  pmm_alloc_page s =
    (free_memory_start s,
     mk_mm (free_memory_start s + PAGE_SIZE) (free_memory_end s) (kernel_pml4 s)
       (zero_page (free_memory_start s) (mem s))).
Proof.
  intros [P1 P2 P3 P4] Hp. unfold has_page, PAGE_SIZE in *. unfold pmm_alloc_page, PAGE_SIZE, u64.
  rewrite Z.mod_small by lia. destruct (Z.leb_spec (free_memory_end s) (free_memory_start s + 4096)); [lia|].
  done.
Qed.

Lemma pmm_alloc_none s : pool_ok s -> ~ has_page s -> pmm_alloc_page s = (0, s).
Proof.
  intros [P1 P2 P3 P4] Hp. unfold has_page, PAGE_SIZE in *. unfold pmm_alloc_page, PAGE_SIZE, u64.
  rewrite Z.mod_small by lia. by destruct (Z.leb_spec (free_memory_end s) (free_memory_start s + 4096)); [|lia].
Qed.

Lemma alloc_pool_ok s : pool_ok s -> pool_ok (snd (pmm_alloc_page s)).
Proof.
  intros Hs. destruct (decide (free_memory_start s + PAGE_SIZE < free_memory_end s)) as [Hp|Hp].
  - rewrite pmm_alloc_some by done. unfold has_page, PAGE_SIZE in *. destruct Hs as [P1 P2 P3 P4].
    split; cbn [fst snd free_memory_start free_memory_end]; unfold PAGE_SIZE in *; [by apply page_next|lia..].
  - by rewrite pmm_alloc_none.
Qed.

(** ** Many pages *)

Fixpoint allocs (n : nat) (s : mm) : list Z * mm :=
  match n with
  | O => ([], s)
  | S n' => let '(p, s) := pmm_alloc_page s in let '(ps, s) := allocs n' s in (p :: ps, s)
  end.

(** How many pages the pool still has: the last one is never given out. *)
Definition capacity (s : mm) : nat := Z.to_nat ((free_memory_end s - free_memory_start s - 1) / PAGE_SIZE).

Lemma capacity_S s : pool_ok s -> has_page s -> capacity s = S (capacity (snd (pmm_alloc_page s))).
Proof.
  intros Hs Hp. rewrite pmm_alloc_some by done. unfold capacity, has_page, PAGE_SIZE in *.
  cbn [snd free_memory_start free_memory_end].
  replace (free_memory_end s - free_memory_start s - 1) with
    (free_memory_end s - (free_memory_start s + 4096) - 1 + 1 * 4096) by lia.
  rewrite Z.div_add by lia. rewrite Z2Nat.inj_add by (try apply Z.div_pos; lia). lia.
Qed.

Lemma capacity_0 s : ~ has_page s -> capacity s = O.
Proof.
  unfold capacity, has_page, PAGE_SIZE. intros Hp.
  assert ((free_memory_end s - free_memory_start s - 1) / 4096 < 1) by (apply Z.div_lt_upper_bound; lia). lia.
Qed.

(** The [i]-th page of the pool. *)
Definition page_of (s : mm) (i : nat) : Z := free_memory_start s + PAGE_SIZE * Z.of_nat i.

Lemma page_of_alloc s i :
  pool_ok s -> has_page s -> page_of (snd (pmm_alloc_page s)) i = page_of s (S i).
Proof. intros Hs Hp. rewrite pmm_alloc_some by done. unfold page_of. cbn [snd free_memory_start]. lia. Qed.

Lemma allocs_spec n s :
  pool_ok s ->
  let k := Nat.min n (capacity s) in
  let '(ps, s') := allocs n s in
  ps = map (page_of s) (seq 0 k) ++ replicate (n - k) 0 /\ pool_ok s' /\
  (forall i w, (i < k)%nat -> 0 <= w < 512 -> mem s' (page_of s i + 8 * w) = 0) /\
  (forall x, (forall i, (i < k)%nat -> ~ in_page (page_of s i) x) -> mem s' x = mem s x).
Proof.
  revert s; induction n as [|n IH]; intros s Hs; cbn [allocs].
  { split_and!; [done|done|intros; lia|done]. }
  destruct (decide (free_memory_start s + PAGE_SIZE < free_memory_end s)) as [Hp|Hp].
  - pose proof (capacity_S s Hs Hp) as Ec. pose proof (alloc_pool_ok s Hs) as Hs1. pose proof (page_of_alloc s) as Hpg.
    pose proof (pmm_alloc_some s Hs Hp) as Ea. destruct (pmm_alloc_page s) as [p s1] eqn:E. cbn [fst snd] in *.
    specialize (IH s1 Hs1). rewrite Ec. cbn [Nat.min]. destruct (allocs n s1) as [ps s2].
    set (k := Nat.min n (capacity s1)) in *. destruct IH as (-> & H2 & H3 & H4). injection Ea as -> Es1.
    assert (forall i, page_of s1 i = page_of s (S i)) as Hq by (intros i; by apply Hpg).
    assert (page_of s 0 = free_memory_start s) as H0 by (unfold page_of; lia).
    split_and!; [|done| |].
    + cbn [seq map]. rewrite H0. cbn [app Nat.sub]. do 2 f_equal. rewrite <- seq_shift, map_map. by apply map_ext.
    + intros [|i] w Hi Hw; [|rewrite <- Hq; apply H3; [lia|done]].
      rewrite H4, H0, Es1 by (intros i Hk; rewrite Hq; unfold in_page, page_of, PAGE_SIZE; lia).
      by apply zero_page_in.
    + intros x Hx. rewrite H4 by (intros i Hi; rewrite Hq; apply Hx; lia). rewrite Es1. cbn [mem].
      apply zero_page_out. rewrite <- H0. apply Hx. lia.
  - rewrite pmm_alloc_none by done. specialize (IH s Hs). rewrite (capacity_0 s Hp) in *.
    rewrite Nat.min_0_r in IH. destruct (allocs n s) as [ps s2].
    destruct IH as (-> & H2 & H3 & H4). rewrite Nat.min_0_r. cbn [seq map app Nat.sub].
    rewrite Nat.sub_0_r. by split_and!.
Qed.

(** ** The memory map *)

(** What the firmware promises of its usable segments. *)
Definition segment_ok (d : memory_descriptor) : Prop :=
  0 <= PhysicalStart d /\ PhysicalStart d mod PAGE_SIZE = 0 /\ 0 <= NumberOfPages d /\
  PhysicalStart d + NumberOfPages d * PAGE_SIZE <= 2 ^ 64 - PAGE_SIZE.

(** [d] is the pool of [s]. *)
Definition pool_is (d : memory_descriptor) (s : mm) : Prop :=
  free_memory_start s = PhysicalStart d /\ free_memory_end s = PhysicalStart d + NumberOfPages d * PAGE_SIZE.

Lemma largest_segment_spec conventional map best s :
  Forall (fun d => Type_ d = conventional -> segment_ok d) map -> segment_ok best -> pool_is best s ->
  exists d, pool_is d (largest_segment conventional map (NumberOfPages best * PAGE_SIZE) s) /\ segment_ok d /\
    (d = best \/ (d ∈ map /\ Type_ d = conventional)) /\ NumberOfPages best <= NumberOfPages d /\
    (forall d', d' ∈ map -> Type_ d' = conventional -> NumberOfPages d' <= NumberOfPages d).
Proof.
  revert best s; induction map as [|x map IH]; intros best s Hm Hb Hp; cbn [largest_segment].
  { exists best. split_and!; [done|done|by left|lia|]. intros d' H. by apply not_elem_of_nil in H. }
  inversion Hm as [|? ? Hx Hm']; subst.
  destruct (Z.eqb_spec (Type_ x) conventional) as [Et|Nt]; cbn [andb].
  - pose proof (Hx Et) as (X1 & X2 & X3 & X4). assert (u64 (NumberOfPages x * PAGE_SIZE) = NumberOfPages x * PAGE_SIZE) as Eu.
    { apply Z.mod_small. unfold PAGE_SIZE in *. lia. }
    rewrite Eu. destruct (Z.ltb_spec (NumberOfPages best * PAGE_SIZE) (NumberOfPages x * PAGE_SIZE)) as [Hlt|Hge].
    + destruct (IH x (set_pool (PhysicalStart x) (u64 (PhysicalStart x + NumberOfPages x * PAGE_SIZE)) s)) as (d & D1 & D2 & D3 & D4 & D5);
        [done|by apply Hx| |].
      { split; [done|]. cbn [free_memory_end set_pool]. apply Z.mod_small. unfold PAGE_SIZE in *. lia. }
      exists d. unfold PAGE_SIZE in Hlt. split_and!; [done|done| |lia|].
      * right. destruct D3 as [->|[D3 D3']]; [split; [left|done]|split; [by right|done]].
      * intros d' [->|H]%elem_of_cons; [lia|auto].
    + destruct (IH best s) as (d & D1 & D2 & D3 & D4 & D5); [done..|].
      exists d. unfold PAGE_SIZE in Hge. split_and!; [done|done| |done|].
      * destruct D3 as [->|[D3 D3']]; [by left|right; split; [by right|done]].
      * intros d' [->|H]%elem_of_cons; [lia|auto].
  - destruct (IH best s) as (d & D1 & D2 & D3 & D4 & D5); [done..|].
    exists d. split_and!; [done|done| |done|].
    + destruct D3 as [->|[D3 D3']]; [by left|right; split; [by right|done]].
    + intros d' [->|H]%elem_of_cons; [done|auto].
Qed.

(** The state before [pmm_init]. *)
Definition mm0 (m : memory) : mm := mk_mm 0 0 0 m.

(** What [pmm_init] makes of a memory map. *)
Lemma pmm_init_pool conventional map m :
  Forall (fun d => Type_ d = conventional -> segment_ok d) map ->
  Exists (fun d => Type_ d = conventional /\ 0 < NumberOfPages d) map ->
  let s := pmm_init conventional map (mm0 m) in
  pool_ok s /\ mem s = m /\
  exists d, d ∈ map /\ Type_ d = conventional /\
     (forall d', d' ∈ map -> Type_ d' = conventional -> NumberOfPages d' <= NumberOfPages d) /\
     free_memory_start s = Z.max (PhysicalStart d) 0x200000 /\
     free_memory_end s = PhysicalStart d + NumberOfPages d * PAGE_SIZE.
Proof.
  intros Hm He. destruct (largest_segment_spec conventional map (mk_desc conventional 0 0) (mm0 m)) as (d & [D1 D1'] & D2 & D3 & D4 & D5); [done| |done|].
  { repeat split; unfold PAGE_SIZE; cbn; lia. }
  cbn [NumberOfPages] in *. rewrite Z.mul_0_l in *. set (s0 := largest_segment conventional map 0 (mm0 m)) in *.
  apply Exists_exists in He as (d1 & Hd1%list_elem_of_In & Et1 & Hn1). specialize (D5 d1 Hd1 Et1) as Hpos.
  assert (d ∈ map /\ Type_ d = conventional) as [Hin Ety].
  { destruct D3 as [->|?]; [cbn in Hpos; lia|done]. }
  assert (mem s0 = m) as Em.
  { unfold s0. clear. generalize 0 at 1. assert (mem (mm0 m) = m) as E0 by done. revert E0. generalize (mm0 m).
    induction map as [|x map IH]; intros s E z; cbn [largest_segment]; [done|]. destruct (_ && _); by apply IH. }
  destruct D2 as (S1 & S2 & S3 & S4). cbv zeta. unfold pmm_init. fold s0.
  set (s := if _ <? _ then _ else s0). assert (pool_ok s /\ free_memory_start s = Z.max (PhysicalStart d) 0x200000 /\
    free_memory_end s = PhysicalStart d + NumberOfPages d * PAGE_SIZE /\ mem s = m) as (Hok & P1 & P2 & P3).
  { unfold s. unfold PAGE_SIZE in *. destruct (Z.ltb_spec (free_memory_start s0) 0x200000);
      (split_and!; [split|..]; unfold PAGE_SIZE; cbn [free_memory_start free_memory_end set_pool mem] in *; try done; try lia; congruence). }
  split_and!; [done|done|]. by exists d.
Qed.

(** * Properties *)

(** C34: the allocator is correct from boot on.  Of a memory map whose usable
    segments are aligned and inside the address space, [pmm_init] takes a
    largest one, less what lies below 2 MiB.  Asked for [n] pages, the allocator
    then gives the pages of the pool one after the other, as many as the pool
    has but the last, and [NULL] from then on; every page given out is zero and
    no other memory has changed. *)
Theorem pmm_allocates_pool conventional map m n :
  Forall (fun d => Type_ d = conventional -> segment_ok d) map ->
  Exists (fun d => Type_ d = conventional /\ 0 < NumberOfPages d) map ->
  let s := pmm_init conventional map (mm0 m) in
  let k := Nat.min n (capacity s) in
  let '(ps, s') := allocs n s in
  (exists d, d ∈ map /\ Type_ d = conventional /\
     (forall d', d' ∈ map -> Type_ d' = conventional -> NumberOfPages d' <= NumberOfPages d) /\
     free_memory_start s = Z.max (PhysicalStart d) 0x200000 /\
     free_memory_end s = PhysicalStart d + NumberOfPages d * PAGE_SIZE) /\
  ps = List.map (page_of s) (seq 0 k) ++ replicate (n - k) 0 /\
  (forall i w, (i < k)%nat -> 0 <= w < 512 -> mem s' (page_of s i + 8 * w) = 0) /\
  (forall x, (forall i, (i < k)%nat -> ~ in_page (page_of s i) x) -> mem s' x = m x).
Proof.
  intros Hm He. destruct (pmm_init_pool conventional map m Hm He) as (Hok & P3 & d & Hd). cbv zeta. set (s := pmm_init conventional map (mm0 m)) in *.
  pose proof (allocs_spec n s Hok) as A. cbv zeta in A. destruct (allocs n s) as [ps s'].
  destruct A as (A1 & A2 & A3 & A4). rewrite P3 in A4. split_and!; [|done..]. by exists d.
Qed.

Lemma pmm_allocates_pool_witness :
  let s := pmm_init 7 [mk_desc 7 0 160; mk_desc 7 0x200000 4; mk_desc 2 0x300000 9999; mk_desc 7 0x400000 200] (mm0 (fun _ => 1)) in
  fst (allocs 2 s) = [0x400000; 0x401000] /\ mem (snd (allocs 2 s)) 0x401ff8 = 0 /\ mem (snd (allocs 2 s)) 0x402000 = 1.
Proof.
  intros s.
  pose proof (pmm_allocates_pool 7 [mk_desc 7 0 160; mk_desc 7 0x200000 4; mk_desc 2 0x300000 9999; mk_desc 7 0x400000 200]
    (fun _ => 1) 2) as W. cbv zeta in W. fold s in W.
  assert (Nat.min 2 (capacity s) = 2%nat) as Ek by reflexivity. rewrite Ek in W.
  destruct (allocs 2 s) as [ps s']. destruct W as (_ & -> & W1 & W2).
  - repeat constructor; intros E; try discriminate E; vm_compute; intuition congruence.
  - constructor. split; [reflexivity|]. cbn. lia.
  - split_and!; [reflexivity|exact (W1 1%nat 511 ltac:(lia) ltac:(lia))|]. apply W2. intros i Hi.
    assert (i = 0 \/ i = 1)%nat as [-> | ->] by lia; vm_compute; intuition congruence.
Defined.
