(* ===== verification/Vmm.v ===== *)
(** Virtual memory: src/mm/vmm.c, and the page-table part of
    src/mpk_diagnostic.c.

    The tables are four levels of pages in physical memory, taken from the page
    allocator and identity-mapped, so that the kernel reads them at their
    physical addresses.  The abstract view of the tables is a map from the path
    of indices that leads to a table to the page that holds it. *)

From Stdlib Require Import ZArith Lia Bool.
From stdpp Require Import base list numbers option gmap.
From S2P Require Import Prelude.
From S2P Require Import Pmm.

Open Scope Z_scope.

(** * Entries *)

Definition PTE_PRESENT : Z := 1.
Definition PTE_WRITE : Z := 2.
Definition PTE_USER : Z := 4.
Definition PTE_PKEY (k : Z) : Z := u64 (Z.shiftl k 59).

Definition PML4_INDEX (x : Z) : Z := Z.land (Z.shiftr x 39) 0x1FF.
Definition PDP_INDEX (x : Z) : Z := Z.land (Z.shiftr x 30) 0x1FF.
Definition PD_INDEX (x : Z) : Z := Z.land (Z.shiftr x 21) 0x1FF.
Definition PT_INDEX (x : Z) : Z := Z.land (Z.shiftr x 12) 0x1FF.

(** [e & ~0xFFFull] *)
Definition table_of (e : Z) : Z := Z.land e 0xFFFFFFFFFFFFF000.

Definition present (e : Z) : bool := negb (Z.land e PTE_PRESENT =? 0).

(** * Operations *)

(** [&table[idx]] *)
Definition entry (table idx : Z) : Z := table + 8 * idx.

(** The three steps of [vmm_map_page]: the table an entry points to, allocated
    when there is none. *)
Definition next_table (table idx : Z) (s : mm) : Z * mm :=
  let a := entry table idx in
  let s :=
    if present (mem s a) then s
    else
      let '(p, s) := pmm_alloc_page s in
      set_mem (poke a (Z.lor (Z.lor (Z.lor p PTE_PRESENT) PTE_WRITE) PTE_USER) (mem s)) s in
  (table_of (mem s a), s).

Definition vmm_map_page (virt phys flags : Z) (s : mm) : mm :=
  let '(pdp, s) := next_table (kernel_pml4 s) (PML4_INDEX virt) s in
  let '(pd, s) := next_table pdp (PDP_INDEX virt) s in
  let '(pt, s) := next_table pd (PD_INDEX virt) s in
  set_mem (poke (entry pt (PT_INDEX virt)) (Z.lor phys flags) (mem s)) s.

(** The pages of the identity map. *)
Fixpoint map_pages (n : nat) (addr : Z) (s : mm) : mm :=
  match n with
  | O => s
  | S n' => map_pages n' (addr + PAGE_SIZE) (vmm_map_page addr addr (Z.lor (Z.lor PTE_PRESENT PTE_WRITE) PTE_USER) s)
  end.

Definition IDENTITY_LIMIT : Z := 0x100000000.

Definition vmm_init (s : mm) : mm :=
  let '(p, s) := pmm_alloc_page s in
  map_pages (Z.to_nat (IDENTITY_LIMIT / PAGE_SIZE)) 0 (set_kernel_pml4 p s).

(** The address of the last-level entry, without a look at the present bits. *)
Definition pte_addr (virt : Z) (s : mm) : Z :=
  let pdp := table_of (mem s (entry (kernel_pml4 s) (PML4_INDEX virt))) in
  let pd := table_of (mem s (entry pdp (PDP_INDEX virt))) in
  let pt := table_of (mem s (entry pd (PD_INDEX virt))) in
  entry pt (PT_INDEX virt).

(** [*pte &= ~(0xFULL << 59); *pte |= PTE_PKEY(pkey); *pte |= PTE_USER;] *)
Definition with_pkey (pkey pte : Z) : Z :=
  Z.lor (Z.lor (Z.land pte (2 ^ 64 - 1 - Z.shiftl 0xF 59)) (PTE_PKEY pkey)) PTE_USER.

Definition vmm_set_pkey (virt pkey : Z) (s : mm) : mm :=
  let pte := pte_addr virt s in set_mem (poke pte (with_pkey pkey (mem s pte)) (mem s)) s.

(** [for (addr = start; addr < end; addr += PAGE_SIZE) vmm_set_pkey(addr, 1);],
    with the number of rounds. *)
Fixpoint set_pkeys (n : nat) (addr : Z) (s : mm) : mm :=
  match n with
  | O => s
  | S n' => set_pkeys n' (addr + PAGE_SIZE) (vmm_set_pkey addr 1 s)
  end.

Definition rounds (start stop : Z) : nat := Z.to_nat ((stop - start + PAGE_SIZE - 1) / PAGE_SIZE).

(** The four bounds are the linker's. *)
Definition vmm_protect_driver (code_start code_end data_start data_end : Z) (s : mm) : mm :=
  let s := set_pkeys (rounds code_start code_end) code_start s in
  set_pkeys (rounds data_start data_end) data_start s.

(** ** The diagnostic *)

Definition read_pte_pkey (virt : Z) (s : mm) : Z :=
  if kernel_pml4 s =? 0 then -1
  else
    let e := mem s (entry (kernel_pml4 s) (PML4_INDEX virt)) in
    if negb (present e) then -1
    else
      let e := mem s (entry (table_of e) (PDP_INDEX virt)) in
      if negb (present e) then -1
      else
        let e := mem s (entry (table_of e) (PD_INDEX virt)) in
        if negb (present e) then -1
        else
          let pte := mem s (entry (table_of e) (PT_INDEX virt)) in
          if negb (present pte) then -1 else Z.land (Z.shiftr pte 59) 0xF.

(** [pages_ok], [pages_wrong] and [pages_unmapped]. *)
Fixpoint count_keys (n : nat) (addr expected_key : Z) (acc : Z * Z * Z) (s : mm) : Z * Z * Z :=
  match n with
  | O => acc
  | S n' =>
      let '(pages_ok, pages_wrong, pages_unmapped) := acc in
      let key := read_pte_pkey addr s in
      count_keys n' (addr + PAGE_SIZE) expected_key
        (if key <? 0 then (pages_ok, pages_wrong, pages_unmapped + 1)
         else if key =? expected_key then (pages_ok + 1, pages_wrong, pages_unmapped)
         else (pages_ok, pages_wrong + 1, pages_unmapped)) s
  end.

(** What [verify_pte_keys] reports. *)
Inductive verdict := EmptyRange | AllTagged | NoneTagged | Incomplete.

Definition verify_pte_keys (start stop expected_key : Z) (s : mm) : verdict :=
  if stop <=? start then EmptyRange
  else
    let '(pages_ok, pages_wrong, pages_unmapped) := count_keys (rounds start stop) start expected_key (0, 0, 0) s in
    if (pages_wrong =? 0) && (pages_unmapped =? 0) && (0 <? pages_ok) then AllTagged
    else if (pages_ok =? 0) && (pages_wrong =? 0) then NoneTagged
    else Incomplete.

(** What [verify_pkru] reports of the register. *)
Inductive pkru_verdict := Locked | Inactive | WriteOnly | Unexpected.

Definition verify_pkru (pkru : Z) : pkru_verdict :=
  if pkru =? 0xC then Locked else if pkru =? 0 then Inactive
  else if Z.land pkru 0xC =? 0x4 then WriteOnly else Unexpected.

(** * Facts *)

(** ** Bits *)

Definition aligned (p : Z) : Prop := p mod PAGE_SIZE = 0.

Lemma aligned_low p i : aligned p -> 0 <= i < 12 -> Z.testbit p i = false.
Proof.
  unfold aligned, PAGE_SIZE. intros Hp Hi. rewrite <- (Z.mod_pow2_bits_low p 12 i) by lia.
  change (2 ^ 12) with 4096. rewrite Hp. apply Z.bits_0.
Qed.

Lemma small_high p i : 0 <= p < 2 ^ 64 -> 64 <= i -> Z.testbit p i = false.
Proof.
  intros Hp Hi. destruct (decide (p = 0)) as [->|N]; [apply Z.bits_0|].
  apply Z.bits_above_log2; [lia|]. apply Z.log2_lt_pow2; [lia|].
  eapply Z.lt_le_trans; [apply Hp|]. apply Z.pow_le_mono_r; lia.
Qed.

Lemma table_mask i : 0 <= i -> Z.testbit 0xFFFFFFFFFFFFF000 i = (12 <=? i) && (i <? 64).
Proof.
  intros Hi. change 0xFFFFFFFFFFFFF000 with (Z.shiftl (Z.ones 52) 12).
  rewrite Z.shiftl_spec by lia. destruct (Z.leb_spec 12 i); cbn [andb].
  - destruct (Z.ltb_spec i 64); [apply Z.ones_spec_low; lia|apply Z.ones_spec_high; lia].
  - apply Z.testbit_neg_r. lia.
Qed.

(** A page with flags below 4096 gives the page back. *)
Lemma table_of_lor p f : aligned p -> 0 <= p < 2 ^ 64 -> 0 <= f < 4096 -> table_of (Z.lor p f) = p.
Proof.
  intros Ha Hp Hf. unfold table_of. apply Z.bits_inj'. intros i Hi.
  rewrite Z.land_spec, Z.lor_spec, table_mask by lia.
  destruct (Z.leb_spec 12 i); cbn [andb].
  - assert (Z.testbit f i = false) as ->.
    { destruct (decide (f = 0)) as [->|N]; [apply Z.bits_0|]. apply Z.bits_above_log2; [lia|].
      apply Z.log2_lt_pow2; [lia|]. eapply Z.lt_le_trans; [apply Hf|]. change 4096 with (2 ^ 12).
      apply Z.pow_le_mono_r; lia. }
    rewrite orb_false_r. destruct (Z.ltb_spec i 64); [by rewrite andb_true_r|].
    rewrite small_high by lia. done.
  - rewrite andb_false_r. symmetry. by apply aligned_low.
Qed.

Lemma present_lor p f : present (Z.lor p f) = present p || present f.
Proof.
  unfold present, PTE_PRESENT. rewrite Z.land_lor_distr_l.
  destruct (Z.eqb_spec (Z.land p 1) 0) as [->|N1]; [by rewrite Z.lor_0_l|].
  destruct (Z.eqb_spec (Z.lor (Z.land p 1) (Z.land f 1)) 0) as [E|]; [|done].
  apply Z.lor_eq_0_iff in E. tauto.
Qed.

Lemma present_bit e : present e = Z.testbit e 0.
Proof.
  unfold present, PTE_PRESENT. change 1 with (Z.ones 1). rewrite Z.land_ones by lia. change (2 ^ 1) with 2.
  rewrite Zmod_odd, <- Z.bit0_odd. by destruct (Z.testbit e 0).
Qed.

Lemma entry_flags p :
  Z.lor (Z.lor (Z.lor p PTE_PRESENT) PTE_WRITE) PTE_USER = Z.lor p 7.
Proof. rewrite <- !Z.lor_assoc. reflexivity. Qed.

Lemma index_bound x k : 0 <= Z.land (Z.shiftr x k) 0x1FF < 512.
Proof. change 0x1FF with (Z.ones 9). rewrite Z.land_ones by lia. change (2 ^ 9) with 512. by apply Z.mod_pos_bound. Qed.

Lemma pml4_bound x : 0 <= PML4_INDEX x < 512.
Proof. apply index_bound. Qed.

Lemma pdp_bound x : 0 <= PDP_INDEX x < 512.
Proof. apply index_bound. Qed.

Lemma pd_bound x : 0 <= PD_INDEX x < 512.
Proof. apply index_bound. Qed.

Lemma pt_bound x : 0 <= PT_INDEX x < 512.
Proof. apply index_bound. Qed.

Lemma entry_inj p p' i j :
  aligned p -> aligned p' -> 0 <= i < 512 -> 0 <= j < 512 -> entry p i = entry p' j -> p = p' /\ i = j.
Proof.
  unfold aligned, entry, PAGE_SIZE. intros Hp Hp' Hi Hj E.
  Z.to_euclidean_division_equations. lia.
Qed.

(** ** The walk of the processor *)

Definition walk (s : mm) (virt : Z) : option Z :=
  let e := mem s (entry (kernel_pml4 s) (PML4_INDEX virt)) in
  if negb (present e) then None
  else
    let e := mem s (entry (table_of e) (PDP_INDEX virt)) in
    if negb (present e) then None
    else
      let e := mem s (entry (table_of e) (PD_INDEX virt)) in
      if negb (present e) then None
      else
        let pte := mem s (entry (table_of e) (PT_INDEX virt)) in
        if negb (present pte) then None else Some pte.

(** The diagnostic walks like the processor. *)
Lemma read_pte_pkey_walk virt s :
  kernel_pml4 s <> 0 ->
  read_pte_pkey virt s = match walk s virt with Some pte => Z.land (Z.shiftr pte 59) 0xF | None => -1 end.
Proof.
  intros Hr. unfold read_pte_pkey, walk. apply Z.eqb_neq in Hr. rewrite Hr. cbv zeta.
  by repeat (destruct (negb _); [done|]).
Qed.

(** ** Tables as a map from paths to pages *)

(** The path of the last-level table of an address, deepest index first. *)
Definition vpath (virt : Z) : list Z := [PD_INDEX virt; PDP_INDEX virt; PML4_INDEX virt].

Record tables_ok (lo : Z) (T : gmap (list Z) Z) (s : mm) : Prop := {
  to_root : T !! [] = Some (kernel_pml4 s);
  to_pages : forall k p, T !! k = Some p -> lo <= p /\ p + PAGE_SIZE <= free_memory_start s /\ aligned p;
  to_inj : forall k k' p, T !! k = Some p -> T !! k' = Some p -> k = k';
  to_parent : forall i k p, T !! (i :: k) = Some p -> is_Some (T !! k);
  to_depth : forall k p, T !! k = Some p -> (length k <= 3)%nat;
  to_entry : forall k p i, T !! k = Some p -> (length k < 3)%nat -> 0 <= i < 512 ->
    mem s (entry p i) = match T !! (i :: k) with Some q => Z.lor q 7 | None => 0 end;
  to_pool : pool_ok s;
  to_low : 0 < lo
}.

(** What the tables say of an address. *)
Definition lookup_page (T : gmap (list Z) Z) (s : mm) (virt : Z) : option Z :=
  p ← T !! vpath virt;
  let pte := mem s (entry p (PT_INDEX virt)) in
  if present pte then Some pte else None.

Section tables.
Context (lo : Z) (T : gmap (list Z) Z) (s : mm) (Hok : tables_ok lo T s).

Lemma table_range k p : T !! k = Some p -> aligned p /\ 0 <= p < 2 ^ 64.
Proof.
  intros Hk. destruct (to_pages _ _ _ Hok k p Hk) as (A & B & C). pose proof (to_low _ _ _ Hok).
  destruct (to_pool _ _ _ Hok) as [P1 P2 P3 P4]. unfold PAGE_SIZE in *. split; [done|lia].
Qed.

(** An upper entry leads to the table of the longer path. *)
Lemma entry_some k p i q :
  T !! k = Some p -> (length k < 3)%nat -> 0 <= i < 512 -> T !! (i :: k) = Some q ->
  present (mem s (entry p i)) = true /\ table_of (mem s (entry p i)) = q.
Proof.
  intros Hk Hl Hi Hq. rewrite (to_entry _ _ _ Hok k p i Hk Hl Hi), Hq. destruct (table_range _ _ Hq) as [A B].
  split; [by rewrite present_lor, orb_true_r|]. apply table_of_lor; [done|done|lia].
Qed.

Lemma entry_none k p i :
  T !! k = Some p -> (length k < 3)%nat -> 0 <= i < 512 -> T !! (i :: k) = None ->
  present (mem s (entry p i)) = false.
Proof. intros Hk Hl Hi Hq. by rewrite (to_entry _ _ _ Hok k p i Hk Hl Hi), Hq. Qed.

Lemma no_child i k : T !! k = None -> T !! (i :: k) = None.
Proof.
  intros Hk. destruct (T !! (i :: k)) as [q|] eqn:E; [|done].
  destruct (to_parent _ _ _ Hok i k q E) as [p Hp]. congruence.
Qed.

Lemma walk_lookup virt : walk s virt = lookup_page T s virt.
Proof.
  unfold walk, lookup_page, vpath. pose proof (to_root _ _ _ Hok) as R. cbv zeta.
  destruct (T !! [PML4_INDEX virt]) as [p3|] eqn:E3.
  2: { rewrite (entry_none [] _ _ R ltac:(simpl; lia) (pml4_bound _) E3).
       by rewrite (no_child _ _ (no_child _ _ E3)). }
  destruct (entry_some [] _ _ p3 R ltac:(simpl; lia) (pml4_bound _) E3) as [-> ->].
  destruct (T !! [PDP_INDEX virt; PML4_INDEX virt]) as [p2|] eqn:E2.
  2: { rewrite (entry_none _ _ _ E3 ltac:(simpl; lia) (pdp_bound _) E2). by rewrite (no_child _ _ E2). }
  destruct (entry_some _ _ _ p2 E3 ltac:(simpl; lia) (pdp_bound _) E2) as [-> ->].
  destruct (T !! [PD_INDEX virt; PDP_INDEX virt; PML4_INDEX virt]) as [p1|] eqn:E1.
  2: { by rewrite (entry_none _ _ _ E2 ltac:(simpl; lia) (pd_bound _) E1). }
  destruct (entry_some _ _ _ p1 E2 ltac:(simpl; lia) (pd_bound _) E1) as [-> ->].
  cbn [negb mbind option_bind]. by destruct (present _).
Qed.

(** Without a look at the present bits, the walk finds the same entry. *)
Lemma pte_addr_lookup virt p : T !! vpath virt = Some p -> pte_addr virt s = entry p (PT_INDEX virt).
Proof.
  intros E1. unfold pte_addr, vpath in *. pose proof (to_root _ _ _ Hok) as R. cbv zeta.
  destruct (to_parent _ _ _ Hok _ _ _ E1) as [p2 E2]. destruct (to_parent _ _ _ Hok _ _ _ E2) as [p3 E3].
  destruct (entry_some [] _ _ p3 R ltac:(simpl; lia) (pml4_bound _) E3) as [_ ->].
  destruct (entry_some _ _ _ p2 E3 ltac:(simpl; lia) (pdp_bound _) E2) as [_ ->].
  by destruct (entry_some _ _ _ p E2 ltac:(simpl; lia) (pd_bound _) E1) as [_ ->].
Qed.

(** Writing a last-level entry. *)
Lemma leaf_store k p i v :
  T !! k = Some p -> length k = 3%nat -> 0 <= i < 512 ->
  tables_ok lo T (set_mem (poke (entry p i) v (mem s)) s).
Proof.
  intros Hk Hl Hi. destruct Hok as [H1 H2 H3 H4 H5 H6 H7 H8]. split; try done.
  - intros k' p' j Hk' Hl' Hj. cbn [mem set_mem]. rewrite poke_ne; [by apply H6|]. intros E.
    apply entry_inj in E as [-> _]; [|apply (H2 k' _ Hk')|apply (H2 k _ Hk)|done|done].
    rewrite (H3 _ _ _ Hk Hk') in Hl. lia.
  - by destruct H7.
Qed.

End tables.

(** ** Growing the tables *)

(** The paths after the table of path [k] was asked for in [s]. *)
Definition grow (k : list Z) (s : mm) (T : gmap (list Z) Z) : gmap (list Z) Z :=
  match T !! k with Some _ => T | None => <[k := free_memory_start s]> T end.

Definition cost (k : list Z) (T : gmap (list Z) Z) : Z := match T !! k with Some _ => 0 | None => PAGE_SIZE end.

(** What a step leaves alone: the last-level tables, the bounds, the root, and
    memory outside the tables. *)
Record extends (lo : Z) (T : gmap (list Z) Z) (s s' : mm) : Prop := {
  ex_leaf : forall k p i, T !! k = Some p -> length k = 3%nat -> 0 <= i < 512 -> mem s' (entry p i) = mem s (entry p i);
  ex_end : free_memory_end s' = free_memory_end s;
  ex_root : kernel_pml4 s' = kernel_pml4 s;
  ex_out : forall x, ~ (lo <= x < free_memory_start s') -> mem s' x = mem s x
}.

(** A fresh page joins the tables. *)
Lemma fresh_table lo T s k p i :
  tables_ok lo T s -> T !! k = Some p -> (length k < 3)%nat -> 0 <= i < 512 -> T !! (i :: k) = None -> has_page s ->
  let q := free_memory_start s in
  let m' := poke (entry p i) (Z.lor q 7) (zero_page q (mem s)) in
  let s' := mk_mm (q + PAGE_SIZE) (free_memory_end s) (kernel_pml4 s) m' in
  tables_ok lo (<[i :: k := q]> T) s' /\ extends lo T s s' /\ (forall j, 0 <= j < 512 -> m' (entry q j) = 0).
Proof.
  intros Hok Hk Hl Hi Hn Hp q m' s'. pose proof Hok as [H1 H2 H3 H4 H5 H6 H7 H8].
  assert (forall k' p', T !! k' = Some p' -> p' + PAGE_SIZE <= q /\ aligned p') as Hold by (intros k' p' Hk'; apply (H2 _ _ Hk')).
  assert (aligned q) as Hq by apply H7.
  (* words of the old tables, and of the new one *)
  assert (forall k' p' j, T !! k' = Some p' -> 0 <= j < 512 -> p' <> p \/ j <> i -> m' (entry p' j) = mem s (entry p' j)) as Eold.
  { intros k' p' j Hk' Hj Hne. destruct (Hold _ _ Hk') as [B A]. unfold m'. rewrite poke_ne.
    - apply zero_page_out. unfold in_page, entry, PAGE_SIZE in *. lia.
    - intros E. apply entry_inj in E; [|done|apply (Hold _ _ Hk)|done|done]. tauto. }
  assert (forall j, 0 <= j < 512 -> m' (entry q j) = 0) as Enew.
  { intros j Hj. destruct (Hold _ _ Hk) as [B A]. unfold m'. rewrite poke_ne; [by apply zero_page_in|].
    unfold entry, PAGE_SIZE in *. lia. }
  assert (forall k' p', T !! k' = Some p' -> p' <> q) as Hne.
  { intros k' p' Hk' ->. destruct (Hold _ _ Hk'). unfold PAGE_SIZE in *. lia. }
  split_and!; [split| split |done]; cbn [free_memory_start free_memory_end kernel_pml4 mem s'].
  - by rewrite lookup_insert_ne.
  - intros k' p' [[<- <-]|[N Hk']]%lookup_insert_Some; [|destruct (H2 _ _ Hk') as (A & B & C); unfold PAGE_SIZE in *; split_and!; [lia|lia|done]].
    split_and!; [|lia|done]. destruct (H2 _ _ Hk) as (A & B & C). unfold q, PAGE_SIZE in *. lia.
  - intros k1 k2 p' [[<- E1]|[N1 E1]]%lookup_insert_Some [[<- E2]|[N2 E2]]%lookup_insert_Some; [done|subst; by edestruct Hne..|by eapply H3].
  - intros j k' p' [[[= -> ->] _]|[N E1]]%lookup_insert_Some.
    + rewrite lookup_insert_ne by (intros E; apply (f_equal length) in E; simpl in E; lia). by eexists.
    + destruct (H4 _ _ _ E1) as [x Hx]. destruct (decide (i :: k = k')) as [<-|N']; [by rewrite Hn in Hx|].
      rewrite lookup_insert_ne by done. by eexists.
  - intros k' p' [[<- _]|[N E1]]%lookup_insert_Some; [simpl; lia|by eapply H5].
  - intros k' p' j [[<- <-]|[N E1]]%lookup_insert_Some Hl' Hj.
    + rewrite Enew by done. rewrite lookup_insert_ne by (intros E; apply (f_equal length) in E; simpl in E; lia).
      destruct (T !! (j :: i :: k)) as [x|] eqn:E; [|done]. destruct (H4 _ _ _ E) as [y Hy]. congruence.
    + destruct (decide (i :: k = j :: k')) as [E|N'].
      * injection E as <- <-. rewrite E1 in Hk. injection Hk as ->. rewrite lookup_insert_eq. apply poke_eq.
      * rewrite lookup_insert_ne by done. assert (p' <> p \/ j <> i) as Hd.
        { destruct (decide (p' = p)) as [->|]; [right; intros ->|by left]. apply N'. by rewrite (H3 _ _ _ Hk E1). }
        rewrite (Eold k' p' j E1 Hj Hd).
        by apply H6.
  - destruct H7 as [P1 P2 P3 P4]. unfold has_page, PAGE_SIZE in *. unfold s', q in *. split; cbn [free_memory_start free_memory_end]; unfold PAGE_SIZE; [by apply page_next|lia..].
  - done.
  - intros k' p' j Hk' Hl' Hj. apply (Eold k'); [done|done|]. left. intros ->. rewrite (H3 _ _ _ Hk' Hk) in Hl'. lia.
  - done.
  - done.
  - intros x Hx. destruct (H2 _ _ Hk) as (A & B & C). unfold m'. rewrite poke_ne, zero_page_out; [done|..];
      unfold in_page, entry, q, PAGE_SIZE in *; lia.
Qed.

Lemma next_table_ok lo T s k p i :
  tables_ok lo T s -> T !! k = Some p -> (length k < 3)%nat -> 0 <= i < 512 ->
  (T !! (i :: k) = None -> has_page s) ->
  let '(q, s') := next_table p i s in
  let T' := grow (i :: k) s T in
  T' !! (i :: k) = Some q /\ tables_ok lo T' s' /\ extends lo T s s' /\
  free_memory_start s' = free_memory_start s + cost (i :: k) T /\
  (T !! (i :: k) = None -> forall j, 0 <= j < 512 -> mem s' (entry q j) = 0).
Proof.
  intros Hok Hk Hl Hi Hp. unfold next_table, grow, cost. destruct (T !! (i :: k)) as [q|] eqn:E.
  - destruct (entry_some lo T s Hok k p i q Hk Hl Hi E) as [-> ->].
    split_and!; [done|done|by split|lia|done].
  - rewrite (entry_none lo T s Hok k p i Hk Hl Hi E).
    destruct (fresh_table lo T s k p i Hok Hk Hl Hi E (Hp eq_refl)) as (A & B & C).
    rewrite (pmm_alloc_some s (to_pool _ _ _ Hok) (Hp eq_refl)). cbn [fst snd]. cbv beta iota zeta. cbn [mem set_mem].
    rewrite entry_flags, poke_eq. rewrite table_of_lor; [|apply (to_pool _ _ _ Hok)| |lia].
    2: { destruct (to_pool _ _ _ Hok) as [P1 P2 P3 P4]. unfold PAGE_SIZE in *. lia. }
    split_and!; [by rewrite lookup_insert_eq|exact A|exact B|done|]. intros _. exact C.
Qed.

Lemma grow_mono k s T k' p : T !! k' = Some p -> grow k s T !! k' = Some p.
Proof.
  intros Hk. unfold grow. destruct (T !! k) as [q|] eqn:E; [done|]. rewrite lookup_insert_ne; [done|]. intros ->. congruence.
Qed.

Lemma grow_ne k s T k' : k <> k' -> grow k s T !! k' = T !! k'.
Proof. intros N. unfold grow. destruct (T !! k); [done|]. by rewrite lookup_insert_ne. Qed.

(** The tables an address needs, and their price. *)
Definition map_cost (virt : Z) (T : gmap (list Z) Z) : Z :=
  cost [PML4_INDEX virt] T + cost [PDP_INDEX virt; PML4_INDEX virt] T + cost (vpath virt) T.

Lemma cost_bound k T : 0 <= cost k T <= PAGE_SIZE.
Proof. unfold cost, PAGE_SIZE. destruct (T !! k); lia. Qed.

Lemma grow_some k s T k' : is_Some (grow k s T !! k') <-> is_Some (T !! k') \/ k' = k.
Proof.
  unfold grow. destruct (T !! k) as [q|] eqn:E.
  - split; [by left|]. intros [?| ->]; [done|by eexists].
  - rewrite lookup_insert_is_Some'. split; [intros [->|?]; auto|intros [?|<-]; auto].
Qed.

Lemma cost_ne k k' s T : k <> k' -> cost k' (grow k s T) = cost k' T.
Proof. intros N. unfold cost. by rewrite grow_ne. Qed.

Lemma cost_none k T : T !! k = None -> cost k T = PAGE_SIZE.
Proof. intros E. unfold cost. by rewrite E. Qed.

Lemma extends_trans lo T T1 s s1 s2 :
  (forall k p, T !! k = Some p -> T1 !! k = Some p) -> free_memory_start s1 <= free_memory_start s2 ->
  extends lo T s s1 -> extends lo T1 s1 s2 -> extends lo T s s2.
Proof.
  intros Hs Hf [L1 E1 R1 O1] [L2 E2 R2 O2]. split; [|congruence..|].
  - intros k p i Hk Hl Hi. rewrite (L2 k p i) by auto. by apply (L1 k).
  - intros x Hx. rewrite O2, O1 by lia. done.
Qed.

(** Whether the pool can pay for the tables of an address. *)
Definition affordable (virt : Z) (T : gmap (list Z) Z) (s : mm) : Prop :=
  map_cost virt T = 0 \/ free_memory_start s + map_cost virt T < free_memory_end s.

(** The way to the last-level table. *)
Lemma path_ok lo T s virt :
  tables_ok lo T s -> affordable virt T s ->
  exists pt s' T',
    (forall phys flags, vmm_map_page virt phys flags s =
       set_mem (poke (entry pt (PT_INDEX virt)) (Z.lor phys flags) (mem s')) s') /\
    tables_ok lo T' s' /\ T' !! vpath virt = Some pt /\ (forall k p, T !! k = Some p -> T' !! k = Some p) /\
    (forall k, is_Some (T' !! k) <->
       is_Some (T !! k) \/ k = [PML4_INDEX virt] \/ k = [PDP_INDEX virt; PML4_INDEX virt] \/ k = vpath virt) /\
    extends lo T s s' /\ free_memory_start s' = free_memory_start s + map_cost virt T /\
    (T !! vpath virt = None -> forall j, 0 <= j < 512 -> mem s' (entry pt j) = 0).
Proof.
  intros Hok Ha. unfold affordable, map_cost in *. set (k1 := [PML4_INDEX virt]) in *. set (k2 := PDP_INDEX virt :: k1) in *.
  change (vpath virt) with (PD_INDEX virt :: k2) in *. set (k3 := PD_INDEX virt :: k2) in *.
  pose proof (cost_bound k1 T). pose proof (cost_bound k2 T). pose proof (cost_bound k3 T).
  assert (k1 <> k2 /\ k1 <> k3 /\ k2 <> k3) as (N1 & N2 & N3) by done.
  pose proof (next_table_ok lo T s [] _ (PML4_INDEX virt) Hok (to_root _ _ _ Hok) ltac:(simpl; lia) (pml4_bound _)) as S1.
  unfold vmm_map_page. change [PML4_INDEX virt] with k1 in S1.
  destruct (next_table (kernel_pml4 s) (PML4_INDEX virt) s) as [p1 s1].
  destruct S1 as (A1 & B1 & C1 & D1 & _); [intros E; apply cost_none in E; unfold has_page, PAGE_SIZE in *; lia|].
  set (T1 := grow k1 s T) in *.
  pose proof (next_table_ok lo T1 s1 k1 p1 (PDP_INDEX virt) B1 A1 ltac:(simpl; lia) (pdp_bound _)) as S2.
  change (PDP_INDEX virt :: k1) with k2 in S2. pose proof (ex_end _ _ _ _ C1).
  assert (cost k2 T1 = cost k2 T) as Q2 by (by apply cost_ne).
  destruct (next_table p1 (PDP_INDEX virt) s1) as [p2 s2].
  destruct S2 as (A2 & B2 & C2 & D2 & _); [intros E; apply cost_none in E; unfold has_page, PAGE_SIZE in *; lia|].
  set (T2 := grow k2 s1 T1) in *.
  pose proof (next_table_ok lo T2 s2 k2 p2 (PD_INDEX virt) B2 A2 ltac:(simpl; lia) (pd_bound _)) as S3.
  change (PD_INDEX virt :: k2) with k3 in S3. pose proof (ex_end _ _ _ _ C2).
  assert (cost k3 T2 = cost k3 T) as Q3 by (unfold T2; rewrite cost_ne by done; by apply cost_ne).
  destruct (next_table p2 (PD_INDEX virt) s2) as [pt s3].
  destruct S3 as (A3 & B3 & C3 & D3 & Z3); [intros E; apply cost_none in E; unfold has_page, PAGE_SIZE in *; lia|].
  exists pt, s3, (grow k3 s2 T2). split_and!; [done|done|done| | | |lia|].
  - intros k p Hk. by do 3 apply grow_mono.
  - intros k. unfold T2, T1. rewrite !grow_some. tauto.
  - apply (extends_trans lo T T1 s s1); [intros; by apply grow_mono|lia|done|].
    apply (extends_trans lo T1 T2 s1 s2); [intros; by apply grow_mono|lia|done|done].
  - intros E. apply Z3. unfold T2, T1. by rewrite !grow_ne.
Qed.

(** Mapping a page: the tables grow along the path, the page has the entry
    asked for, and every other address looks as before. *)
Lemma map_page_ok lo T s virt phys flags :
  tables_ok lo T s -> affordable virt T s ->
  let s' := vmm_map_page virt phys flags s in
  exists T', tables_ok lo T' s' /\
    (forall k, is_Some (T' !! k) <->
       is_Some (T !! k) \/ k = [PML4_INDEX virt] \/ k = [PDP_INDEX virt; PML4_INDEX virt] \/ k = vpath virt) /\
    free_memory_start s' = free_memory_start s + map_cost virt T /\ free_memory_end s' = free_memory_end s /\
    (forall x, ~ (lo <= x < free_memory_start s') -> mem s' x = mem s x) /\
    (forall v, lookup_page T' s' v =
       if decide (vpath v = vpath virt /\ PT_INDEX v = PT_INDEX virt)
       then (if present (Z.lor phys flags) then Some (Z.lor phys flags) else None) else lookup_page T s v).
Proof.
  intros Hok Ha. destruct (path_ok lo T s virt Hok Ha) as (pt & s3 & T3 & E & H1 & H2 & H3 & H4 & [X1 X2 X3 X4] & H5 & H6).
  cbv zeta. rewrite E. exists T3. destruct (to_pages _ _ _ H1 _ _ H2) as (B1 & B2 & B3). pose proof (pt_bound virt) as Hb.
  split_and!; [by apply (leaf_store lo T3 s3 H1 (vpath virt))|done|done|done| |].
  - intros x Hx. cbn [mem set_mem free_memory_start] in *. rewrite poke_ne; [by apply X4|].
    unfold entry, PAGE_SIZE in *. lia.
  - intros v. unfold lookup_page. pose proof (pt_bound v) as Hv. destruct (decide (vpath v = vpath virt)) as [Ev|Nv].
    + rewrite Ev, H2. cbn [mbind option_bind mem set_mem]. case_decide as D.
      { destruct D as [_ ->]. by rewrite poke_eq. }
      rewrite poke_ne by (intros Ee; apply entry_inj in Ee as [_ Ee]; [tauto|done..]).
      destruct (T !! vpath virt) as [p|] eqn:ET; cbn [mbind option_bind].
      * assert (p = pt) as -> by (apply H3 in ET; congruence). by rewrite (X1 (vpath virt)).
      * by rewrite H6.
    + rewrite decide_False by tauto. destruct (T !! vpath v) as [p|] eqn:ET.
      * pose proof (H3 _ _ ET) as ET3. rewrite ET3. cbn [mbind option_bind mem set_mem].
        rewrite poke_ne; [by rewrite (X1 (vpath v))|]. intros Ee.
        apply entry_inj in Ee as [-> _]; [|apply (to_pages _ _ _ H1 _ _ ET3)|done|done|done].
        by destruct Nv; apply (to_inj _ _ _ H1 _ _ pt).
      * assert (T3 !! vpath v = None) as ->; [|done]. apply eq_None_not_Some. rewrite H4, ET.
        intros [[? ?]|[?|[?|?]]]; done.
Qed.

(** ** Paths and page numbers *)

Definition VIRT_LIMIT : Z := 2 ^ 48.

Lemma index_eq x k : 0 <= k -> Z.land (Z.shiftr x k) 0x1FF = x / 2 ^ k mod 512.
Proof. intros Hk. change 0x1FF with (Z.ones 9). rewrite Z.land_ones, Z.shiftr_div_pow2 by lia. done. Qed.

(** One more index tells one more bit field apart. *)
Lemma split_index a v w :
  0 <= a -> v / 2 ^ a = w / 2 ^ a <-> v / 2 ^ a mod 512 = w / 2 ^ a mod 512 /\ v / 2 ^ (a + 9) = w / 2 ^ (a + 9).
Proof.
  intros Ha. rewrite Z.pow_add_r, <- !Z.div_div by lia. change (2 ^ 9) with 512.
  generalize (v / 2 ^ a) (w / 2 ^ a). intros x y. Z.to_euclidean_division_equations. lia.
Qed.

Section paths.
Context (v w : Z) (Hv : 0 <= v < VIRT_LIMIT) (Hw : 0 <= w < VIRT_LIMIT).

Lemma top_index u : 0 <= u < VIRT_LIMIT -> u / 2 ^ 39 mod 512 = u / 2 ^ 39.
Proof.
  intros Hu. apply Z.mod_small. split; [apply Z.div_pos; lia|]. apply Z.div_lt_upper_bound; [lia|].
  unfold VIRT_LIMIT in Hu. lia.
Qed.

Lemma path3_eq : [PML4_INDEX v] = [PML4_INDEX w] <-> v / 2 ^ 39 = w / 2 ^ 39.
Proof.
  unfold PML4_INDEX. rewrite !index_eq, !top_index by (lia || done). split; [by intros [=]|by intros ->].
Qed.

Lemma path2_eq : [PDP_INDEX v; PML4_INDEX v] = [PDP_INDEX w; PML4_INDEX w] <-> v / 2 ^ 30 = w / 2 ^ 30.
Proof.
  rewrite (split_index 30) by lia. change (30 + 9) with 39. rewrite <- path3_eq.
  unfold PDP_INDEX. rewrite !index_eq by lia. split; [by intros [= -> ->]|by intros [-> [= ->]]].
Qed.

Lemma path1_eq : vpath v = vpath w <-> v / 2 ^ 21 = w / 2 ^ 21.
Proof.
  rewrite (split_index 21) by lia. change (21 + 9) with 30. rewrite <- path2_eq.
  unfold vpath, PD_INDEX. rewrite !index_eq by lia. split; [by intros [= -> -> ->]|by intros [-> [= -> ->]]].
Qed.

Lemma page_eq : vpath v = vpath w /\ PT_INDEX v = PT_INDEX w <-> v / PAGE_SIZE = w / PAGE_SIZE.
Proof.
  change PAGE_SIZE with (2 ^ 12). rewrite (split_index 12) by lia. change (12 + 9) with 21. rewrite <- path1_eq.
  unfold PT_INDEX. rewrite !index_eq by lia. tauto.
Qed.

End paths.

(** * The identity map *)

(** After the pages below [k] have been mapped, the table that covers [v] and
    [c] pages is there. *)
Definition covered (c k v : Z) : Prop := v / (PAGE_SIZE * c) * c < k.

Definition cdiv (k c : Z) : Z := (k + c - 1) / c.

Lemma covered_S c k v :
  0 < c -> covered c (k + 1) v <-> covered c k v \/ v / (PAGE_SIZE * c) = (PAGE_SIZE * k) / (PAGE_SIZE * c).
Proof.
  intros Hc. unfold covered. rewrite Z.div_mul_cancel_l by (unfold PAGE_SIZE; lia).
  generalize (v / (PAGE_SIZE * c)). intros q. split.
  - intros H. destruct (decide (q * c < k)); [by left|right]. assert (k = q * c) as -> by lia. by rewrite Z.div_mul by lia.
  - intros [H| ->]; [lia|]. pose proof (Z.mul_div_le k c Hc). lia.
Qed.

Lemma covered_self c k : 0 < c -> covered c k (PAGE_SIZE * k) <-> k mod c <> 0.
Proof.
  intros Hc. unfold covered. rewrite Z.div_mul_cancel_l by (unfold PAGE_SIZE; lia).
  pose proof (Z.div_mod k c). pose proof (Z.mod_pos_bound k c Hc). nia.
Qed.

Lemma cdiv_S k c : 0 < c -> cdiv (k + 1) c = cdiv k c + (if decide (k mod c = 0) then 1 else 0).
Proof.
  intros Hc. unfold cdiv. replace (k + 1 + c - 1) with (k + 1 * c) by lia. rewrite Z.div_add by lia.
  pose proof (Z.div_mod k c ltac:(lia)) as E. pose proof (Z.mod_pos_bound k c Hc) as B. case_decide as D.
  - rewrite <- (Z.div_unique_pos (k + c - 1) c (k / c) (c - 1)); lia.
  - rewrite <- (Z.div_unique_pos (k + c - 1) c (k / c + 1) (k mod c - 1)); lia.
Qed.

Lemma cdiv_mono k k' c : 0 < c -> k <= k' -> cdiv k c <= cdiv k' c.
Proof. intros Hc Hk. apply Z.div_le_mono; lia. Qed.

(** The pages the tables of [k] pages take. *)
Definition table_pages (k : Z) : Z := 1 + cdiv k (2 ^ 27) + cdiv k (2 ^ 18) + cdiv k (2 ^ 9).

(** The state after [k] pages; the root is the page at [base]. *)
Record identity_ok (base : Z) (m0 : memory) (k : Z) (T : gmap (list Z) Z) (s : mm) : Prop := {
  id_tables : tables_ok base T s;
  id_cov3 : forall v, 0 <= v < VIRT_LIMIT -> is_Some (T !! [PML4_INDEX v]) <-> covered (2 ^ 27) k v;
  id_cov2 : forall v, 0 <= v < VIRT_LIMIT -> is_Some (T !! [PDP_INDEX v; PML4_INDEX v]) <-> covered (2 ^ 18) k v;
  id_cov1 : forall v, 0 <= v < VIRT_LIMIT -> is_Some (T !! vpath v) <-> covered (2 ^ 9) k v;
  id_pages : free_memory_start s = base + PAGE_SIZE * table_pages k;
  id_lookup : forall v, 0 <= v < VIRT_LIMIT ->
    lookup_page T s v = if decide (v / PAGE_SIZE < k) then Some (Z.lor (v / PAGE_SIZE * PAGE_SIZE) 7) else None;
  id_out : forall x, ~ (base <= x < free_memory_start s) -> mem s x = m0 x
}.

Lemma table_pages_mono k k' : k <= k' -> table_pages k <= table_pages k'.
Proof.
  intros Hk. unfold table_pages. pose proof (cdiv_mono k k' (2 ^ 27) ltac:(lia) Hk).
  pose proof (cdiv_mono k k' (2 ^ 18) ltac:(lia) Hk). pose proof (cdiv_mono k k' (2 ^ 9) ltac:(lia) Hk). lia.
Qed.

Section identity.
Context (base : Z) (m0 : memory).

Lemma cost_covered (k c : Z) (key : list Z) T :
  0 < c -> is_Some (T !! key) <-> covered c k (PAGE_SIZE * k) ->
  cost key T = PAGE_SIZE * (cdiv (k + 1) c - cdiv k c).
Proof.
  intros Hc Hi. rewrite cdiv_S, covered_self in * by done. unfold cost. destruct (T !! key) as [q|].
  - rewrite decide_False by (apply Hi; by eexists). lia.
  - rewrite decide_True; [lia|]. destruct (decide (k mod c = 0)) as [|N]; [done|]. apply Hi in N as [? ?]. done.
Qed.

Lemma identity_cost k T s :
  0 <= k < 2 ^ 36 -> identity_ok base m0 k T s ->
  map_cost (PAGE_SIZE * k) T = PAGE_SIZE * (table_pages (k + 1) - table_pages k).
Proof.
  intros Hk [H1 H2 H3 H4 H5 H6 H7].
  assert (0 <= PAGE_SIZE * k < VIRT_LIMIT) as Hb by (unfold PAGE_SIZE, VIRT_LIMIT; lia).
  unfold map_cost, table_pages.
  rewrite (cost_covered k (2 ^ 27)), (cost_covered k (2 ^ 18)), (cost_covered k (2 ^ 9)) by (lia || auto). lia.
Qed.

Lemma identity_step k T s :
  0 <= k < 2 ^ 36 -> identity_ok base m0 k T s ->
  free_memory_start s + PAGE_SIZE * (table_pages (k + 1) - table_pages k) < free_memory_end s ->
  let s' := vmm_map_page (PAGE_SIZE * k) (PAGE_SIZE * k) 7 s in
  exists T', identity_ok base m0 (k + 1) T' s' /\ free_memory_end s' = free_memory_end s.
Proof.
  intros Hk Hid Hroom. pose proof (identity_cost k T s Hk Hid) as Hc. destruct Hid as [H1 H2 H3 H4 H5 H6 H7].
  assert (0 <= PAGE_SIZE * k < VIRT_LIMIT) as Hb by (unfold PAGE_SIZE, VIRT_LIMIT; lia).
  destruct (map_page_ok base T s (PAGE_SIZE * k) (PAGE_SIZE * k) 7 H1) as (T' & A1 & A2 & A3 & A4 & A5 & A6).
  { right. by rewrite Hc. }
  cbv zeta in *. set (s' := vmm_map_page _ _ _ s) in *. exists T'. split; [|done].
  split; [done|..].
  - intros v Hv. rewrite A2, H2, covered_S by (lia || done). change (PAGE_SIZE * 2 ^ 27) with (2 ^ 39).
    rewrite <- path3_eq by done. split; [intros [?|[?|[?|?]]]; by auto|intros [?|?]; auto].
  - intros v Hv. rewrite A2, H3, covered_S by (lia || done). change (PAGE_SIZE * 2 ^ 18) with (2 ^ 30).
    rewrite <- path2_eq by done. split; [intros [?|[?|[?|?]]]; by auto|intros [?|?]; auto].
  - intros v Hv. rewrite A2, H4, covered_S by (lia || done). change (PAGE_SIZE * 2 ^ 9) with (2 ^ 21).
    rewrite <- path1_eq by done. split; [intros [?|[?|[?|?]]]; by auto|intros [?|?]; auto].
  - rewrite A3, H5, Hc. lia.
  - intros v Hv. rewrite A6, H6 by done. rewrite (decide_ext _ _ _ _ (page_eq v (PAGE_SIZE * k) Hv Hb)).
    rewrite (Z.mul_comm PAGE_SIZE k), Z.div_mul by done. rewrite present_lor, orb_true_r.
    destruct (decide (v / PAGE_SIZE = k)) as [->|N]; [by rewrite decide_True by lia|].
    destruct (decide (v / PAGE_SIZE < k)); [by rewrite decide_True by lia|by rewrite decide_False by lia].
  - intros x Hx. rewrite A5, H7; [done| |done]. rewrite A3, Hc in Hx.
    pose proof (table_pages_mono k (k + 1)). unfold PAGE_SIZE in *. lia.
Qed.

Lemma identity_loop n k T s :
  0 <= k -> k + Z.of_nat n <= 2 ^ 36 -> identity_ok base m0 k T s ->
  base + PAGE_SIZE * table_pages (k + Z.of_nat n) < free_memory_end s ->
  exists T', identity_ok base m0 (k + Z.of_nat n) T' (map_pages n (PAGE_SIZE * k) s).
Proof.
  revert k T s; induction n as [|n IH]; intros k T s Hk Hn Hid Hroom; cbn [map_pages].
  { exists T. by rewrite Z.add_0_r. }
  replace (k + Z.of_nat (S n)) with (k + 1 + Z.of_nat n) in * by lia.
  pose proof (table_pages_mono (k + 1) (k + 1 + Z.of_nat n)) as Hm.
  change (Z.lor (Z.lor PTE_PRESENT PTE_WRITE) PTE_USER) with 7.
  destruct (identity_step k T s) as (T1 & Hid1 & He); [lia|done|rewrite (id_pages _ _ _ _ _ Hid); unfold PAGE_SIZE in *; lia|].
  replace (PAGE_SIZE * k + PAGE_SIZE) with (PAGE_SIZE * (k + 1)) by lia.
  apply (IH (k + 1) T1); [lia|lia|exact Hid1|by rewrite He].
Qed.

(** The root alone. *)
Lemma identity_start s :
  pool_ok s -> has_page s -> free_memory_start s = base -> mem s = m0 ->
  let '(p, s') := pmm_alloc_page s in identity_ok base m0 0 {[ [] := base ]} (set_kernel_pml4 p s').
Proof.
  intros Hok Hp Hb Hm. pose proof (alloc_pool_ok s Hok) as Hok'. rewrite pmm_alloc_some in * by done. rewrite Hb, Hm in *.
  destruct Hok as [P1 P2 P3 P4]. rewrite Hb in *. cbn [snd] in Hok'.
  assert (forall c v, 0 < c -> 0 <= v -> ~ covered c 0 v) as Hcov.
  { intros c v Hc Hv. unfold covered. assert (0 <= v / (PAGE_SIZE * c)) by (apply Z.div_pos; unfold PAGE_SIZE; lia). nia. }
  assert (forall i k, ({[ [] := base ]} : gmap (list Z) Z) !! (i :: k) = None) as Hne by (intros; by rewrite lookup_singleton_ne).
  split; cbn [free_memory_start free_memory_end set_kernel_pml4 kernel_pml4 mem].
  - split; cbn [free_memory_start free_memory_end set_kernel_pml4 kernel_pml4 mem].
    + by rewrite lookup_singleton_eq.
    + intros k p [<- <-]%lookup_singleton_Some. split_and!; [lia|unfold PAGE_SIZE; lia|done].
    + intros k k' p [<- _]%lookup_singleton_Some [<- _]%lookup_singleton_Some. done.
    + intros i k p E. by rewrite Hne in E.
    + intros k p [<- _]%lookup_singleton_Some. simpl. lia.
    + intros k p i [<- <-]%lookup_singleton_Some _ Hi. rewrite Hne. by apply zero_page_in.
    + by destruct Hok'.
    + lia.
  - intros v Hv. rewrite Hne, is_Some_alt. split; [done|]. intros C. exfalso. revert C. apply Hcov; lia.
  - intros v Hv. rewrite Hne, is_Some_alt. split; [done|]. intros C. exfalso. revert C. apply Hcov; lia.
  - intros v Hv. unfold vpath. rewrite Hne, is_Some_alt. split; [done|]. intros C. exfalso. revert C. apply Hcov; lia.
  - reflexivity.
  - intros v Hv. unfold lookup_page, vpath. rewrite Hne. rewrite decide_False; [done|].
    assert (0 <= v / PAGE_SIZE) by (apply Z.div_pos; unfold PAGE_SIZE; lia). lia.
  - intros x Hx. apply zero_page_out. exact Hx.
Qed.

End identity.

(** * Protection keys *)

Lemma pkey_bits k i : 0 <= k < 16 -> 0 <= i -> Z.testbit (PTE_PKEY k) i = (59 <=? i) && (i <? 63) && Z.testbit k (i - 59).
Proof.
  intros Hk Hi. unfold PTE_PKEY, u64. rewrite Z.mod_small.
  2: { rewrite Z.shiftl_mul_pow2 by lia. lia. }
  rewrite Z.shiftl_spec by lia. destruct (Z.leb_spec 59 i); cbn [andb]; [|apply Z.testbit_neg_r; lia].
  destruct (Z.ltb_spec i 63); cbn [andb]; [done|]. destruct (decide (k = 0)) as [->|N]; [apply Z.bits_0|].
  apply Z.bits_above_log2; [lia|]. apply Z.log2_lt_pow2; [lia|].
  apply Z.lt_le_trans with (2 ^ 4); [lia|]. apply Z.pow_le_mono_r; lia.
Qed.

Lemma pkey_mask i : 0 <= i -> Z.testbit (2 ^ 64 - 1 - Z.shiftl 0xF 59) i = (i <? 59) || (i =? 63).
Proof.
  intros Hi. change (2 ^ 64 - 1 - Z.shiftl 0xF 59) with (Z.lor (Z.ones 59) (2 ^ 63)).
  rewrite Z.lor_spec, Z.pow2_bits_eqb by lia. f_equal; [|lia].
  destruct (Z.ltb_spec i 59); [apply Z.ones_spec_low; lia|apply Z.ones_spec_high; lia].
Qed.

(** The bits of a tagged entry. *)
Lemma with_pkey_bits k pte i :
  0 <= k < 16 -> 0 <= i ->
  Z.testbit (with_pkey k pte) i =
    if decide (59 <= i < 63) then Z.testbit k (i - 59) else (Z.testbit pte i && (i <? 64)) || (i =? 2).
Proof.
  intros Hk Hi. unfold with_pkey, PTE_USER. change 4 with (2 ^ 2) at 1.
  rewrite !Z.lor_spec, Z.land_spec, pkey_mask, pkey_bits, Z.pow2_bits_eqb by lia.
  rewrite (Z.eqb_sym 2 i). case_decide as D.
  - assert ((i <? 59) = false) as -> by lia. assert ((i =? 63) = false) as -> by lia.
    assert ((i =? 2) = false) as -> by lia. assert ((59 <=? i) = true) as -> by lia.
    assert ((i <? 63) = true) as -> by lia. by rewrite andb_false_r, orb_false_r.
  - assert ((59 <=? i) && (i <? 63) = false) as -> by lia. cbn [andb]. rewrite orb_false_r. f_equal. f_equal. lia.
Qed.

Lemma with_pkey_present k pte : 0 <= k < 16 -> present (with_pkey k pte) = present pte.
Proof. intros Hk. rewrite !present_bit, with_pkey_bits by lia. cbn. by rewrite andb_true_r, orb_false_r. Qed.

(** The key comes back. *)
Lemma with_pkey_key k pte : 0 <= k < 16 -> Z.land (Z.shiftr (with_pkey k pte) 59) 0xF = k.
Proof.
  intros Hk. apply Z.bits_inj'. intros i Hi. change 0xF with (Z.ones 4). rewrite Z.land_spec, Z.shiftr_spec, with_pkey_bits by lia.
  destruct (decide (i < 4)).
  - rewrite decide_True, Z.ones_spec_low by lia. rewrite andb_true_r. f_equal. lia.
  - rewrite (Z.ones_spec_high 4 i) by lia. rewrite andb_false_r. symmetry. destruct (decide (k = 0)) as [->|N]; [apply Z.bits_0|].
    apply Z.bits_above_log2; [lia|]. apply Z.log2_lt_pow2; [lia|]. apply Z.lt_le_trans with (2 ^ 4); [lia|]. apply Z.pow_le_mono_r; lia.
Qed.

(** Tagging one page. *)
Lemma set_pkey_ok lo T s virt k :
  0 <= k < 16 -> tables_ok lo T s -> is_Some (lookup_page T s virt) ->
  tables_ok lo T (vmm_set_pkey virt k s) /\ free_memory_start (vmm_set_pkey virt k s) = free_memory_start s /\
  (forall v, lookup_page T (vmm_set_pkey virt k s) v =
     if decide (vpath v = vpath virt /\ PT_INDEX v = PT_INDEX virt) then with_pkey k <$> lookup_page T s v
     else lookup_page T s v) /\
  (forall x, ~ (lo <= x < free_memory_start s) -> mem (vmm_set_pkey virt k s) x = mem s x).
Proof.
  intros Hk Hok [pte Hp]. unfold lookup_page in Hp. destruct (T !! vpath virt) as [p|] eqn:ET; [|done].
  unfold vmm_set_pkey. rewrite (pte_addr_lookup lo T s Hok virt p ET). cbv zeta.
  destruct (to_pages _ _ _ Hok _ _ ET) as (B1 & B2 & B3). pose proof (pt_bound virt) as Hb.
  split_and!; [by apply (leaf_store lo T s Hok (vpath virt))|done| |].
  - intros v. unfold lookup_page. pose proof (pt_bound v) as Hv. case_decide as D.
    + destruct D as [D1 D2]. rewrite D1, ET. cbn [mbind option_bind mem set_mem]. rewrite D2, poke_eq, with_pkey_present by done.
      by destruct (present _).
    + destruct (T !! vpath v) as [q|] eqn:EV; [|done]. cbn [mbind option_bind mem set_mem]. rewrite poke_ne; [done|].
      intros Ee. apply entry_inj in Ee as [-> E2]; [|apply (to_pages _ _ _ Hok _ _ EV)|done|done|done].
      apply D. split; [|done]. by apply (to_inj _ _ _ Hok _ _ p).
  - intros x Hx. cbn [mem set_mem]. rewrite poke_ne; [done|]. unfold entry, PAGE_SIZE in *. lia.
Qed.

(** Tagging a run of pages. *)
Definition in_run (first n : Z) (v : Z) : Prop := first <= v / PAGE_SIZE < first + n.

#[export] Instance in_run_dec first n v : Decision (in_run first n v).
Proof. unfold in_run. apply _. Defined.

Lemma set_pkeys_ok lo T n addr s :
  tables_ok lo T s -> 0 <= addr -> addr + PAGE_SIZE * Z.of_nat n <= VIRT_LIMIT ->
  (forall v, 0 <= v < VIRT_LIMIT -> in_run (addr / PAGE_SIZE) (Z.of_nat n) v -> is_Some (lookup_page T s v)) ->
  let s' := set_pkeys n addr s in
  tables_ok lo T s' /\ free_memory_start s' = free_memory_start s /\
  (forall v, 0 <= v < VIRT_LIMIT -> lookup_page T s' v =
     if decide (in_run (addr / PAGE_SIZE) (Z.of_nat n) v) then with_pkey 1 <$> lookup_page T s v else lookup_page T s v) /\
  (forall x, ~ (lo <= x < free_memory_start s) -> mem s' x = mem s x).
Proof.
  revert addr s; induction n as [|n IH]; intros addr s Hok Ha Hn Hm; cbn [set_pkeys].
  { split_and!; [done|done| |done]. intros v Hv. rewrite decide_False; [done|]. unfold in_run. lia. }
  assert (0 <= addr < VIRT_LIMIT) as Hv0 by (unfold PAGE_SIZE in *; lia).
  assert ((addr + PAGE_SIZE) / PAGE_SIZE = addr / PAGE_SIZE + 1) as Eq.
  { replace (addr + PAGE_SIZE) with (addr + 1 * PAGE_SIZE) by lia. by apply Z.div_add. }
  destruct (set_pkey_ok lo T s addr 1) as (A1 & A2 & A3 & A4); [lia|done|apply Hm; [done|unfold in_run; lia]|].
  assert (forall v, 0 <= v < VIRT_LIMIT -> lookup_page T (vmm_set_pkey addr 1 s) v =
    if decide (v / PAGE_SIZE = addr / PAGE_SIZE) then with_pkey 1 <$> lookup_page T s v else lookup_page T s v) as A3'.
  { intros v Hv. rewrite A3. by rewrite (decide_ext _ _ _ _ (page_eq v addr Hv Hv0)). }
  destruct (IH (addr + PAGE_SIZE) (vmm_set_pkey addr 1 s)) as (B1 & B2 & B3 & B4);
    [done|unfold PAGE_SIZE; lia|lia| |].
  { intros v Hv Hr. rewrite A3' by done. rewrite Eq in Hr. rewrite decide_False by (unfold in_run in Hr; lia).
    apply Hm; [done|]. unfold in_run in *. lia. }
  cbv zeta in *. set (s2 := set_pkeys n _ _) in *. split_and!; [done|congruence| |].
  - intros v Hv. rewrite B3, A3', Eq by done. unfold in_run.
    destruct (decide (v / PAGE_SIZE = addr / PAGE_SIZE)).
    + rewrite decide_False, decide_True by lia. done.
    + by apply decide_ext; lia.
  - intros x Hx. rewrite B4, A4; [done|done|by rewrite A2].
Qed.

(** * Starting up *)

(** The pages of the tables: the root, one of the second level, four of the
    third, and 2048 of the last. *)
Definition INIT_PAGES : Z := 2054.

(** [n] stays abstract: the number of pages is too large to compute with. *)
Lemma init_tables n s :
  Z.of_nat n = IDENTITY_LIMIT / PAGE_SIZE ->
  pool_ok s -> free_memory_start s + PAGE_SIZE * INIT_PAGES < free_memory_end s ->
  let '(p, s1) := pmm_alloc_page s in
  exists T, identity_ok (free_memory_start s) (mem s) (2 ^ 20) T (map_pages n 0 (set_kernel_pml4 p s1)).
Proof.
  intros En Hok Hroom. assert (has_page s) as Hp by (unfold has_page, PAGE_SIZE, INIT_PAGES in *; lia).
  pose proof (identity_start (free_memory_start s) (mem s) s Hok Hp eq_refl eq_refl) as Hid.
  rewrite pmm_alloc_some in * by done. change (IDENTITY_LIMIT / PAGE_SIZE) with (2 ^ 20) in En.
  destruct (identity_loop _ _ n 0 _ _ ltac:(lia) ltac:(lia) Hid) as [T HT]; [by rewrite Z.add_0_l, En|].
  rewrite Z.add_0_l, En, Z.mul_0_r in HT. by exists T.
Qed.

Lemma vmm_init_tables s :
  pool_ok s -> free_memory_start s + PAGE_SIZE * INIT_PAGES < free_memory_end s ->
  exists T, identity_ok (free_memory_start s) (mem s) (2 ^ 20) T (vmm_init s).
Proof.
  intros Hok Hroom. assert (0 <= IDENTITY_LIMIT / PAGE_SIZE) as Hp by (vm_compute; congruence).
  pose proof (init_tables (Z.to_nat (IDENTITY_LIMIT / PAGE_SIZE)) s (Z2Nat.id _ Hp) Hok Hroom) as H.
  unfold vmm_init. by destruct (pmm_alloc_page s).
Qed.

Lemma identity_walk base m0 k T s v :
  identity_ok base m0 k T s -> 0 <= v < VIRT_LIMIT ->
  walk s v = if decide (v / PAGE_SIZE < k) then Some (Z.lor (v / PAGE_SIZE * PAGE_SIZE) 7) else None.
Proof. intros Hid Hv. rewrite (walk_lookup _ _ _ (id_tables _ _ _ _ _ Hid)). by apply (id_lookup _ _ _ _ _ Hid). Qed.

Lemma below_limit v : v / PAGE_SIZE < 2 ^ 20 <-> v < IDENTITY_LIMIT.
Proof.
  unfold IDENTITY_LIMIT, PAGE_SIZE. split; intros Hv.
  - destruct (decide (v < 0x100000000)) as [|N]; [done|]. assert (0x100000000 / 4096 <= v / 4096) by (apply Z.div_le_mono; lia).
    change (0x100000000 / 4096) with (2 ^ 20) in *. lia.
  - apply Z.div_lt_upper_bound; lia.
Qed.

(** A power-on state whose pool has room for the tables. *)
Definition booted_mm : mm := mk_mm 0x200000 0x10000000 0 (fun _ => 1).

Lemma booted_mm_ok : pool_ok booted_mm /\ free_memory_start booted_mm + PAGE_SIZE * INIT_PAGES < free_memory_end booted_mm.
Proof. split; [split; reflexivity || (vm_compute; congruence)|reflexivity]. Qed.

(** ** The driver's pages *)

(** An entry of the identity map has no key; tagging it adds one. *)
Lemma with_pkey_identity n :
  0 <= n < 2 ^ 20 -> with_pkey 1 (Z.lor (n * PAGE_SIZE) 7) = Z.lor (Z.lor (n * PAGE_SIZE) 7) (PTE_PKEY 1).
Proof.
  intros Hn. apply Z.bits_inj'. intros i Hi. rewrite with_pkey_bits, !Z.lor_spec, pkey_bits by lia.
  assert (Z.testbit 7 2 = true) as H7 by reflexivity.
  assert (forall i, 59 <= i -> Z.testbit (n * PAGE_SIZE) i || Z.testbit 7 i = false) as Hh.
  { intros j Hj. rewrite <- Z.lor_spec. destruct (decide (n * PAGE_SIZE = 0)) as [->|N].
    - apply Z.bits_above_log2; [done|]. change (Z.log2 (Z.lor 0 7)) with 2. lia.
    - apply Z.bits_above_log2; [apply Z.lor_nonneg; unfold PAGE_SIZE; lia|]. rewrite Z.log2_lor by (unfold PAGE_SIZE; lia).
      apply Z.max_lub_lt; [|change (Z.log2 7) with 2; lia]. apply Z.log2_lt_pow2; [unfold PAGE_SIZE in *; lia|].
      apply Z.lt_le_trans with (2 ^ 32); [unfold PAGE_SIZE; lia|]. apply Z.pow_le_mono_r; lia. }
  destruct (decide (59 <= i)) as [H|H].
  - rewrite Hh by done. cbn [andb orb]. assert ((i =? 2) = false) as -> by lia. assert ((59 <=? i) = true) as -> by lia. cbn [andb].
    case_decide; [by assert ((i <? 63) = true) as -> by lia|by assert ((i <? 63) = false) as -> by lia].
  - rewrite decide_False by lia. assert ((59 <=? i) = false) as -> by lia. assert ((i <? 64) = true) as -> by lia.
    cbn [andb]. rewrite andb_true_r, orb_false_r. destruct (Z.eqb_spec i 2) as [->|N]; [by rewrite H7, !orb_true_r|by rewrite orb_false_r].
Qed.

Lemma identity_key n k :
  0 <= n < 2 ^ 20 -> k = 0 \/ k = 1 -> Z.land (Z.shiftr (Z.lor (Z.lor (n * PAGE_SIZE) 7) (PTE_PKEY k)) 59) 0xF = k.
Proof.
  intros Hn [-> | ->].
  - change (PTE_PKEY 0) with 0. rewrite Z.lor_0_r, Z.shiftr_lor. change (Z.shiftr 7 59) with 0. rewrite Z.lor_0_r.
    rewrite Z.shiftr_div_pow2, Z.div_small by (unfold PAGE_SIZE; lia). done.
  - rewrite <- with_pkey_identity by done. by apply with_pkey_key.
Qed.

Lemma count_keys_all n addr key acc s :
  0 <= key -> (forall j, (j < n)%nat -> read_pte_pkey (addr + PAGE_SIZE * Z.of_nat j) s = key) ->
  count_keys n addr key acc s = let '(a, b, c) := acc in (a + Z.of_nat n, b, c).
Proof.
  intros Hkey. revert addr acc; induction n as [|n IH]; intros addr [[a b] c] Hr; cbn [count_keys]; [by rewrite Z.add_0_r|].
  pose proof (Hr O ltac:(lia)) as H0. rewrite Z.mul_0_r, Z.add_0_r in H0. rewrite H0.
  destruct (Z.ltb_spec key 0); [lia|]. rewrite Z.eqb_refl.
  rewrite IH by (intros j Hj; rewrite <- (Hr (S j)) by lia; f_equal; lia). do 2 f_equal. lia.
Qed.

Lemma rounds_aligned a b : aligned a -> aligned b -> a <= b -> PAGE_SIZE * Z.of_nat (rounds a b) = b - a.
Proof.
  unfold aligned, rounds, PAGE_SIZE. intros Ha Hb Hab. rewrite Z2Nat.id by (apply Z.div_pos; lia).
  Z.to_euclidean_division_equations. lia.
Qed.

Lemma run_range a b v : aligned a -> aligned b -> a <= b -> in_run (a / PAGE_SIZE) (Z.of_nat (rounds a b)) v <-> a <= v < b.
Proof.
  intros Ha Hb Hab. pose proof (rounds_aligned a b Ha Hb Hab) as Hr. unfold in_run, aligned, PAGE_SIZE in *.
  generalize dependent (Z.of_nat (rounds a b)). intros n Hn. Z.to_euclidean_division_equations. lia.
Qed.

(** The key an address has once the driver is locked. *)
Definition driver_key (cs ce ds de v : Z) : Z := if decide (cs <= v < ce \/ ds <= v < de) then 1 else 0.

Lemma protect_range lo T s a b :
  tables_ok lo T s -> aligned a -> aligned b -> 0 <= a <= b -> b <= IDENTITY_LIMIT ->
  (forall v, 0 <= v < IDENTITY_LIMIT -> is_Some (lookup_page T s v)) ->
  let s' := set_pkeys (rounds a b) a s in
  tables_ok lo T s' /\
  (forall v, 0 <= v < IDENTITY_LIMIT ->
     lookup_page T s' v = if decide (a <= v < b) then with_pkey 1 <$> lookup_page T s v else lookup_page T s v).
Proof.
  intros Hok Ha Hb Hab Hl Hm. destruct (set_pkeys_ok lo T (rounds a b) a s) as (A1 & _ & A3 & _); [done|lia| | |].
  - rewrite rounds_aligned by (done || lia). unfold VIRT_LIMIT, IDENTITY_LIMIT in *. lia.
  - intros v Hv Hr. rewrite run_range in Hr by (done || lia). apply Hm. lia.
  - split; [done|]. intros v Hv. rewrite A3 by (unfold VIRT_LIMIT, IDENTITY_LIMIT in *; lia).
    apply decide_ext, run_range; [done|done|lia].
Qed.

(** The first 4 GiB are mapped to themselves. *)
Definition identity_mapped (T : gmap (list Z) Z) (s : mm) : Prop :=
  forall v, 0 <= v < IDENTITY_LIMIT -> lookup_page T s v = Some (Z.lor (v / PAGE_SIZE * PAGE_SIZE) 7).

Lemma identity_ok_mapped base m0 T s : identity_ok base m0 (2 ^ 20) T s -> identity_mapped T s.
Proof.
  intros Hid v Hv. rewrite (id_lookup _ _ _ _ _ Hid) by (unfold VIRT_LIMIT, IDENTITY_LIMIT in *; lia).
  by rewrite decide_True by (apply below_limit; lia).
Qed.

(** A page given to someone else leaves the tables alone. *)
Lemma alloc_tables lo T s :
  tables_ok lo T s -> identity_mapped T s ->
  let s' := snd (pmm_alloc_page s) in tables_ok lo T s' /\ identity_mapped T s' /\ free_memory_end s' = free_memory_end s.
Proof.
  intros Hok HL. pose proof Hok as [H1 H2 H3 H4 H5 H6 H7 H8].
  destruct (decide (free_memory_start s + PAGE_SIZE < free_memory_end s)) as [Hp|Hp]; [|by rewrite pmm_alloc_none].
  pose proof (alloc_pool_ok s H7) as Hpool. rewrite pmm_alloc_some in * by done. cbn [snd] in *. cbv zeta.
  assert (forall k p i, T !! k = Some p -> 0 <= i < 512 ->
    zero_page (free_memory_start s) (mem s) (entry p i) = mem s (entry p i)) as Hkeep.
  { intros k p i Hk Hi. destruct (H2 k p Hk) as (A & B & C). apply zero_page_out. unfold in_page, entry, PAGE_SIZE in *. lia. }
  split_and!; [split|..]; cbn [kernel_pml4 free_memory_start free_memory_end mem]; try done.
  - intros k p Hk. destruct (H2 k p Hk) as (A & B & C). unfold PAGE_SIZE in *. split_and!; [lia|lia|done].
  - intros k p i Hk Hl Hi. rewrite (Hkeep k) by done. by apply H6.
  - intros v Hv. rewrite <- (HL v Hv). unfold lookup_page. destruct (T !! vpath v) as [p|] eqn:E; [|done].
    cbn [mbind option_bind mem]. by rewrite (Hkeep _ _ _ E (pt_bound v)).
Qed.

(** The tables after both sections are tagged. *)
Lemma protect_tables base T s cs ce ds de :
  tables_ok base T s -> identity_mapped T s ->
  aligned cs -> aligned ce -> aligned ds -> aligned de -> 0 <= cs <= ce -> ce <= ds <= de -> de <= IDENTITY_LIMIT ->
  let s' := vmm_protect_driver cs ce ds de s in
  tables_ok base T s' /\
  forall v, 0 <= v < IDENTITY_LIMIT ->
    walk s' v = Some (Z.lor (Z.lor (v / PAGE_SIZE * PAGE_SIZE) 7) (PTE_PKEY (driver_key cs ce ds de v))).
Proof.
  intros Hid HL A1 A2 A3 A4 H1 H2 H3 s'. unfold identity_mapped in HL.
  destruct (protect_range base T s cs ce Hid) as [B1 B2]; [done|done|lia|lia|intros v Hv; rewrite HL by done; by eexists|].
  cbv zeta in *. set (s1 := set_pkeys (rounds cs ce) cs s) in *.
  destruct (protect_range base T s1 ds de B1) as [C1 C2]; [done|done|lia|lia| |].
  { intros v Hv. rewrite B2, HL by done. case_decide; by eexists. }
  split; [done|]. intros v Hv. rewrite (walk_lookup base T _ C1). cbv zeta in C2. unfold s', vmm_protect_driver. fold s1.
  assert (0 <= v / PAGE_SIZE < 2 ^ 20) as Hn by (split; [apply Z.div_pos; unfold PAGE_SIZE; lia|apply below_limit; lia]).
  rewrite C2, B2, HL by done. unfold driver_key. destruct (decide (ds <= v < de)).
  - rewrite decide_False, decide_True by lia. cbn. by rewrite with_pkey_identity.
  - destruct (decide (cs <= v < ce)); [rewrite decide_True by lia; cbn; by rewrite with_pkey_identity|].
    rewrite decide_False by lia. change (PTE_PKEY 0) with 0. by rewrite Z.lor_0_r.
Qed.

(** The diagnostic on a section whose pages all carry key 1. *)
Lemma verify_tagged a b s :
  aligned a -> aligned b -> a < b -> (forall v, a <= v < b -> read_pte_pkey v s = 1) -> verify_pte_keys a b 1 s = AllTagged.
Proof.
  intros Ha Hb Hab Hr. pose proof (rounds_aligned a b Ha Hb ltac:(lia)) as Hn. unfold verify_pte_keys.
  destruct (Z.leb_spec b a); [lia|]. rewrite count_keys_all; [|lia|intros j Hj; apply Hr; unfold PAGE_SIZE in *; lia].
  rewrite Z.add_0_l. cbn [Z.eqb andb]. destruct (Z.ltb_spec 0 (Z.of_nat (rounds a b))); [done|]. unfold PAGE_SIZE in *. lia.
Qed.

Lemma protect_spec base T s cs ce ds de :
  tables_ok base T s -> identity_mapped T s ->
  aligned cs -> aligned ce -> aligned ds -> aligned de -> 0 <= cs <= ce -> ce <= ds <= de -> de <= IDENTITY_LIMIT ->
  let s' := vmm_protect_driver cs ce ds de s in
  (forall v, 0 <= v < IDENTITY_LIMIT ->
     walk s' v = Some (Z.lor (Z.lor (v / PAGE_SIZE * PAGE_SIZE) 7) (PTE_PKEY (driver_key cs ce ds de v))) /\
     read_pte_pkey v s' = driver_key cs ce ds de v) /\
  (cs < ce -> verify_pte_keys cs ce 1 s' = AllTagged) /\ (ds < de -> verify_pte_keys ds de 1 s' = AllTagged).
Proof.
  intros Hid HL A1 A2 A3 A4 H1 H2 H3 s'.
  destruct (protect_tables _ T _ cs ce ds de Hid HL A1 A2 A3 A4 H1 H2 H3) as [Ht Hw].
  fold s' in Ht, Hw. assert (kernel_pml4 s' <> 0) as Hr.
  { pose proof (to_pages _ _ _ Ht _ _ (to_root _ _ _ Ht)). pose proof (to_low _ _ _ Ht). lia. }
  assert (forall v, 0 <= v < IDENTITY_LIMIT -> read_pte_pkey v s' = driver_key cs ce ds de v) as Hk.
  { intros v Hv. rewrite read_pte_pkey_walk, Hw by done. apply identity_key.
    - split; [apply Z.div_pos; unfold PAGE_SIZE; lia|apply below_limit; lia].
    - unfold driver_key. case_decide; auto. }
  split_and!; [auto|..]; intros Hne; (apply verify_tagged; [done|done|done|]); intros v Hv; rewrite Hk by lia;
    unfold driver_key; by rewrite decide_True by lia.
Qed.

(** * Properties *)

(** [vmm_init] builds the identity map of the first 4 GiB and nothing else.
    From a pool with more than 2054 pages, every address below the limit
    translates to itself, present, writable and open to user mode; no other
    address of the 48-bit space is mapped; the tables take exactly 2054 pages,
    and no memory outside them has changed. *)
Theorem vmm_init_identity s :
  pool_ok s -> free_memory_start s + PAGE_SIZE * INIT_PAGES < free_memory_end s ->
  let s' := vmm_init s in
  (forall v, 0 <= v < VIRT_LIMIT ->
     walk s' v = if decide (v < IDENTITY_LIMIT) then Some (Z.lor (v / PAGE_SIZE * PAGE_SIZE) 7) else None) /\
  free_memory_start s' = free_memory_start s + PAGE_SIZE * INIT_PAGES /\
  (forall x, ~ (free_memory_start s <= x < free_memory_start s') -> mem s' x = mem s x).
Proof.
  intros Hok Hroom. destruct (vmm_init_tables s Hok Hroom) as [T Hid]. cbv zeta. split_and!.
  - intros v Hv. rewrite (identity_walk _ _ _ _ _ _ Hid Hv). apply decide_ext, below_limit.
  - exact (id_pages _ _ _ _ _ Hid).
  - exact (id_out _ _ _ _ _ Hid).
Qed.

Lemma vmm_init_identity_witness :
  walk (vmm_init booted_mm) 0xB8123 = Some 0xB8007 /\ walk (vmm_init booted_mm) 0x100000000 = None.
Proof.
  destruct booted_mm_ok as [Hok Hroom]. destruct (vmm_init_identity booted_mm Hok Hroom) as (W & _).
  split; (rewrite W; [reflexivity|split; [discriminate|reflexivity]]).
Defined.

(** C33: mapping a page is a map update.  In tables that satisfy the invariant,
    with pages left for the tables that are missing, [vmm_map_page] keeps the
    invariant; the page then has the entry asked for, the translation of every
    address of another page is what it was, and memory outside the tables is
    untouched. *)
Theorem map_page_is_update lo T s virt phys flags :
  tables_ok lo T s -> affordable virt T s -> 0 <= virt < VIRT_LIMIT -> present flags = true ->
  let s' := vmm_map_page virt phys flags s in
  (exists T', tables_ok lo T' s') /\
  (forall v, 0 <= v < VIRT_LIMIT ->
     walk s' v = if decide (v / PAGE_SIZE = virt / PAGE_SIZE) then Some (Z.lor phys flags) else walk s v) /\
  (forall x, ~ (lo <= x < free_memory_start s') -> mem s' x = mem s x).
Proof.
  intros Hok Ha Hv Hf. destruct (map_page_ok lo T s virt phys flags Hok Ha) as (T' & A1 & _ & _ & _ & A5 & A6).
  cbv zeta in *. split_and!; [by exists T'| |done]. intros v Hv'.
  rewrite (walk_lookup _ _ _ A1), (walk_lookup _ _ _ Hok), A6, present_lor, Hf, orb_true_r.
  apply decide_ext. by apply page_eq.
Qed.

(** The tables right after the allocation of the root. *)
Definition rooted_mm : mm := set_kernel_pml4 (fst (pmm_alloc_page booted_mm)) (snd (pmm_alloc_page booted_mm)).

Lemma map_page_is_update_witness :
  walk (vmm_map_page 0x7fff12345678 0xfee00000 3 rooted_mm) 0x7fff12345fff = Some 0xfee00003 /\
  walk (vmm_map_page 0x7fff12345678 0xfee00000 3 rooted_mm) 0x7fff12346000 = None.
Proof.
  destruct booted_mm_ok as [Hok _].
  pose proof (identity_start 0x200000 (fun _ => 1) booted_mm Hok ltac:(reflexivity) eq_refl eq_refl) as Hid.
  destruct (pmm_alloc_page booted_mm) as [p s1] eqn:E. apply id_tables in Hid. unfold rooted_mm. rewrite E. cbn [fst snd].
  destruct (map_page_is_update _ _ _ 0x7fff12345678 0xfee00000 3 Hid) as (_ & W & _).
  - right. rewrite pmm_alloc_some in E by (done || reflexivity). injection E as <- <-. reflexivity.
  - by split.
  - reflexivity.
  - split; (rewrite W; [|by split]); [reflexivity|]. rewrite decide_False by done.
    rewrite pmm_alloc_some in E by (done || reflexivity). injection E as <- <-. reflexivity.
Defined.

(** C12: the driver ends up locked, and nothing but the driver.  After
    [vmm_init] and [vmm_protect_driver], with the page-aligned bounds the linker
    script gives, every address below 4 GiB still translates to itself with the
    same rights; the pages of the driver's code and data carry protection key 1
    and all other pages key 0; and the diagnostic finds every page of both
    sections tagged. *)
Theorem driver_protected s cs ce ds de :
  pool_ok s -> free_memory_start s + PAGE_SIZE * INIT_PAGES < free_memory_end s ->
  aligned cs -> aligned ce -> aligned ds -> aligned de -> 0 <= cs <= ce -> ce <= ds <= de -> de <= IDENTITY_LIMIT ->
  let s' := vmm_protect_driver cs ce ds de (vmm_init s) in
  (forall v, 0 <= v < IDENTITY_LIMIT ->
     walk s' v = Some (Z.lor (Z.lor (v / PAGE_SIZE * PAGE_SIZE) 7) (PTE_PKEY (driver_key cs ce ds de v))) /\
     read_pte_pkey v s' = driver_key cs ce ds de v) /\
  (cs < ce -> verify_pte_keys cs ce 1 s' = AllTagged) /\ (ds < de -> verify_pte_keys ds de 1 s' = AllTagged).
Proof.
  intros Hok Hroom A1 A2 A3 A4 H1 H2 H3 s'. destruct (vmm_init_tables s Hok Hroom) as [T Hid].
  exact (protect_spec _ T _ cs ce ds de (id_tables _ _ _ _ _ Hid) (identity_ok_mapped _ _ _ _ Hid) A1 A2 A3 A4 H1 H2 H3).
Qed.

Lemma driver_protected_witness :
  let s' := vmm_protect_driver 0x401000 0x403000 0x500000 0x501000 (vmm_init booted_mm) in
  read_pte_pkey 0x402abc s' = 1 /\ read_pte_pkey 0x403000 s' = 0 /\ verify_pte_keys 0x401000 0x403000 1 s' = AllTagged.
Proof.
  intros s'. destruct booted_mm_ok as [Hok Hroom].
  destruct (driver_protected booted_mm 0x401000 0x403000 0x500000 0x501000 Hok Hroom
    eq_refl eq_refl eq_refl eq_refl ltac:(split; discriminate) ltac:(split; discriminate) ltac:(discriminate)) as (W1 & W2 & _).
  split_and!; [| |by apply W2]; (etransitivity; [apply W1; by split|reflexivity]).
Defined.

(** The diagnostic's third answer is about the wrong bit: it says that reads
    of key 1 are still allowed, but it is given exactly when the bit that
    disables all access is set and the one that disables writes is not. *)
Theorem pkru_verdict_swapped pkru :
  verify_pkru pkru = WriteOnly -> Z.testbit pkru (2 * 1) = true /\ Z.testbit pkru (2 * 1 + 1) = false.
Proof.
  unfold verify_pkru. destruct (pkru =? 0xC); [done|]. destruct (pkru =? 0); [done|].
  destruct (Z.eqb_spec (Z.land pkru 0xC) 0x4) as [E|]; [|done]. intros _.
  pose proof (Z.land_spec pkru 0xC 2) as B2. pose proof (Z.land_spec pkru 0xC 3) as B3. rewrite E in B2, B3.
  change (Z.testbit 4 2) with true in B2. change (Z.testbit 4 3) with false in B3.
  change (Z.testbit 12 2) with true in B2. change (Z.testbit 12 3) with true in B3.
  rewrite andb_true_r in B2, B3. by split.
Qed.

(** With the pool empty, the [NULL] of the allocator becomes a table: the entry
    points to page 0, present and writable, and the walk goes on there. *)
Theorem null_becomes_table table idx s :
  pool_ok s -> ~ has_page s -> present (mem s (entry table idx)) = false ->
  fst (next_table table idx s) = 0 /\ mem (snd (next_table table idx s)) (entry table idx) = 7.
Proof.
  intros Hok Hp Ha. unfold next_table. rewrite Ha, pmm_alloc_none by done. cbn [fst snd mem set_mem]. by rewrite poke_eq.
Qed.
