(* ===== verification/E1000.v ===== *)
(** The network card: src/drivers/e1000.c.

    The driver shares two rings of descriptors with the card.  The card works
    on its own: it may act before every read the driver makes of a descriptor or
    a register.  Its activity is a parameter; that it only ever completes the
    transmit descriptors it was given is the hypothesis the theorems about
    sending use. *)

From Stdlib Require Import ZArith Lia Bool.
From stdpp Require Import base list numbers option relations.
From S2P Require Import Prelude.
From S2P Require Import Pmm.

Open Scope Z_scope.

Definition RX_RING_SIZE : nat := 32.
Definition TX_RING_SIZE : nat := 32.

Definition E1000_TXD_CMD_EOP : Z := 1.
Definition E1000_TXD_CMD_IFCS : Z := 2.
Definition E1000_TXD_CMD_RS : Z := 8.
Definition E1000_TXD_STAT_DD : Z := 1.
Definition E1000_RXD_STAT_DD : Z := 1.

Definition E1000_CTRL : Z := 0x0000.
Definition E1000_ICR : Z := 0x00C0.
Definition E1000_IMS : Z := 0x00D0.
Definition E1000_RCTL : Z := 0x0100.
Definition E1000_TCTL : Z := 0x0400.
Definition E1000_TIPG : Z := 0x0410.
Definition E1000_RDBAL : Z := 0x2800.
Definition E1000_RDBAH : Z := 0x2804.
Definition E1000_RDLEN : Z := 0x2808.
Definition E1000_RDH : Z := 0x2810.
Definition E1000_RDT : Z := 0x2818.
Definition E1000_TDBAL : Z := 0x3800.
Definition E1000_TDBAH : Z := 0x3804.
Definition E1000_TDLEN : Z := 0x3808.
Definition E1000_TDH : Z := 0x3810.
Definition E1000_TDT : Z := 0x3818.
Definition E1000_MTA : Z := 0x5200.
Definition E1000_RAL0 : Z := 0x5400.
Definition E1000_RAH0 : Z := 0x5404.

(** The rounds of a wait; never computed with. *)
Definition E1000_TX_TIMEOUT : nat := Z.to_nat 0x100000.

(** * State *)

Record e1000_rx_desc := mk_rx { rx_addr : Z; rx_length : Z; rx_checksum : Z; rx_status : Z; rx_errors : Z; rx_special : Z }.

Record e1000_tx_desc := mk_tx { addr : Z; length : Z; cso : Z; cmd : Z; status : Z; css : Z; special : Z }.

(** The driver's variables, the registers written so far, latest last, and the
    number of reads made. *)
Record nic := mk_nic {
  tx_tail : nat;
  tx_ring : list e1000_tx_desc;
  rx_idx : nat;
  rx_ring : list e1000_rx_desc;
  nic_writes : list (Z * Z);
  nic_reads : nat
}.

Definition set_tx_tail (v : nat) (x : nic) : nic := mk_nic v (tx_ring x) (rx_idx x) (rx_ring x) (nic_writes x) (nic_reads x).
Definition set_tx_ring (v : list e1000_tx_desc) (x : nic) : nic :=
  mk_nic (tx_tail x) v (rx_idx x) (rx_ring x) (nic_writes x) (nic_reads x).
Definition set_rx_idx (v : nat) (x : nic) : nic := mk_nic (tx_tail x) (tx_ring x) v (rx_ring x) (nic_writes x) (nic_reads x).
Definition set_rx_ring (v : list e1000_rx_desc) (x : nic) : nic :=
  mk_nic (tx_tail x) (tx_ring x) (rx_idx x) v (nic_writes x) (nic_reads x).
Definition set_nic_writes (v : list (Z * Z)) (x : nic) : nic :=
  mk_nic (tx_tail x) (tx_ring x) (rx_idx x) (rx_ring x) v (nic_reads x).
Definition set_nic_reads (v : nat) (x : nic) : nic :=
  mk_nic (tx_tail x) (tx_ring x) (rx_idx x) (rx_ring x) (nic_writes x) v.

Definition rx0 : e1000_rx_desc := mk_rx 0 0 0 0 0 0.
Definition tx0 : e1000_tx_desc := mk_tx 0 0 0 0 0 0 0.

Definition tx_slot (s : nic) (i : nat) : e1000_tx_desc := default tx0 (tx_ring s !! i).
Definition rx_slot (s : nic) (i : nat) : e1000_rx_desc := default rx0 (rx_ring s !! i).

Definition nic_write (reg val : Z) (s : nic) : nic := set_nic_writes (nic_writes s ++ [(reg, val)]) s.

(** [status & E1000_TXD_STAT_DD] *)
Definition tx_done (d : e1000_tx_desc) : bool := negb (Z.land (status d) E1000_TXD_STAT_DD =? 0).
Definition rx_done (d : e1000_rx_desc) : bool := negb (Z.land (rx_status d) E1000_RXD_STAT_DD =? 0).

(** * Sending *)

Section send.
(** What the card does before the [n]-th read. *)
Context (hw : nat -> nic -> nic).

Definition look (s : nic) : nic := set_nic_reads (S (nic_reads s)) (hw (nic_reads s) s).

(** One read of a descriptor's status. *)
Definition read_done (slot : nat) (s : nic) : bool * nic := let s := look s in (tx_done (tx_slot s slot), s).

(** [for (t = 0; t < E1000_TX_TIMEOUT; t++) if (tx_ring[slot].status & DD) break;] *)
Fixpoint wait_done (fuel slot : nat) (s : nic) : bool * nic :=
  match fuel with
  | O => (false, s)
  | S fuel' => let '(d, s) := read_done slot s in if (d : bool) then (true, s) else wait_done fuel' slot s
  end.

(** The slot [i] places after the tail. *)
Definition slot_at (tail i : nat) : nat := ((tail + i) mod TX_RING_SIZE)%nat.

(** The first loop of [e1000_send_scatter]: every slot needed becomes free. *)
Fixpoint slots_free (n i : nat) (s : nic) : bool * nic :=
  match n with
  | O => (true, s)
  | S n' =>
      let slot := slot_at (tx_tail s) i in
      let '(d, s) := read_done slot s in
      if (d : bool) then slots_free n' (S i) s
      else
        let '(_, s) := wait_done E1000_TX_TIMEOUT slot s in
        let '(d, s) := read_done slot s in
        if (d : bool) then slots_free n' (S i) s else (false, s)
  end.

(** A descriptor of the frame. *)
Definition seg_desc (a len : Z) (is_last : bool) : e1000_tx_desc :=
  mk_tx a len 0 (Z.lor (Z.lor E1000_TXD_CMD_IFCS E1000_TXD_CMD_RS) (if is_last then E1000_TXD_CMD_EOP else 0)) 0 0 0.

(** The second loop: the descriptors of the frame, from place [i] on. *)
Fixpoint put_frame (segs : list (Z * Z)) (tail i : nat) (ring : list e1000_tx_desc) : list e1000_tx_desc :=
  match segs with
  | [] => ring
  | (a, len) :: segs' =>
      put_frame segs' tail (S i) (<[slot_at tail i := seg_desc a len (match segs' with [] => true | _ => false end)]> ring)
  end.

(** The arrays [addrs] and [lens] together. *)
Definition e1000_send_scatter (segs : list (Z * Z)) (s : nic) : Z * nic :=
  let n_segs := List.length segs in
  if (n_segs =? 0)%nat || (TX_RING_SIZE / 2 <? n_segs)%nat then (-1, s)
  else
    let '(free, s) := slots_free n_segs 0 s in
    if negb free then (-1, s)
    else
      let tail := tx_tail s in
      let s := set_tx_ring (put_frame segs tail 0 (tx_ring s)) s in
      let last_idx := slot_at tail (n_segs - 1) in
      let s := set_tx_tail (slot_at tail n_segs) s in
      let s := nic_write E1000_TDT (Z.of_nat (tx_tail s)) s in
      let '(d, s) := wait_done E1000_TX_TIMEOUT last_idx s in
      if (d : bool) then (0, s) else (-1, s).

Definition e1000_send_raw (data len : Z) (s : nic) : Z * nic :=
  let current_idx := tx_tail s in
  let s := set_tx_ring (alter (fun d =>
    mk_tx data len (cso d) (Z.lor E1000_TXD_CMD_EOP E1000_TXD_CMD_RS) 0 (css d) (special d)) current_idx (tx_ring s)) s in
  let s := set_tx_tail (slot_at current_idx 1) s in
  let s := nic_write E1000_TDT (Z.of_nat (tx_tail s)) s in
  let '(d, s) := wait_done E1000_TX_TIMEOUT current_idx s in
  if (d : bool) then (0, s) else (-1, s).

End send.

(** * Receiving *)

(** [dma] is the memory the card writes to: the bytes at a buffer's address.
    The length and the bytes copied, when there is a frame. *)
Definition e1000_poll_receive (hw : nat -> nic -> nic) (dma : Z -> list Z) (max_len : Z) (s : nic)
  : Z * list Z * nic :=
  let s := look hw s in
  let d := rx_slot s (rx_idx s) in
  if negb (rx_done d) then (0, [], s)
  else
    let len := if max_len <? rx_length d then max_len else rx_length d in
    let bytes := take (Z.to_nat len) (dma (rx_addr d)) in
    let s := set_rx_ring (alter (fun d => mk_rx (rx_addr d) (rx_length d) (rx_checksum d) 0 (rx_errors d) (rx_special d))
                            (rx_idx s) (rx_ring s)) s in
    let old_idx := rx_idx s in
    let s := set_rx_idx ((old_idx + 1) mod RX_RING_SIZE)%nat s in
    (len, bytes, nic_write E1000_RDT (Z.of_nat old_idx) s).

(** * Starting the card *)

Section init.
(** The value of the [n]-th register read. *)
Context (reg : nat -> Z -> Z).

Definition nic_read (r : Z) (s : nic) : Z * nic := (reg (nic_reads s) r, set_nic_reads (S (nic_reads s)) s).

(** [for (i = 0; i < 0x20000u; i++) if (!(nic_read(E1000_CTRL) & E1000_CTRL_RST)) break;] *)
Fixpoint wait_reset (fuel : nat) (s : nic) : nic :=
  match fuel with
  | O => s
  | S fuel' =>
      let '(v, s) := nic_read E1000_CTRL s in
      if Z.land v (Z.shiftl 1 26) =? 0 then s else wait_reset fuel' s
  end.

Definition byte_of (v : Z) (k : Z) : Z := Z.land (Z.shiftr v k) 0xFF.

(** The station address from the two registers. *)
Definition mac_of (ral rah : Z) : list Z :=
  [byte_of ral 0; byte_of ral 8; byte_of ral 16; byte_of ral 24; byte_of rah 0; byte_of rah 8].

Definition clear_mta (s : nic) : nic :=
  foldl (fun s i => nic_write (E1000_MTA + 4 * Z.of_nat i) 0 s) s (seq 0 128).

(** The receive ring gets a page for every slot; [false] when one is missing. *)
Fixpoint fill_rx (n i : nat) (s : nic) (m : mm) : bool * nic * mm :=
  match n with
  | O => (true, s, m)
  | S n' =>
      let '(buf, m) := pmm_alloc_page m in
      if buf =? 0 then (false, s, m)
      else fill_rx n' (S i) (set_rx_ring (<[i := mk_rx buf 0 0 0 0 0]> (rx_ring s)) s) m
  end.

(** The low and the high half of a ring's address, and its size in bytes. *)
Definition ring_regs (bal bah len : Z) (phys bytes : Z) (s : nic) : nic :=
  nic_write len bytes (nic_write bah (Z.shiftr phys 32) (nic_write bal (Z.land phys 0xFFFFFFFF) s)).

(** The registers written last: the gap, both controls, the interrupt mask. *)
Definition start_card (s : nic) : nic :=
  let s := nic_write E1000_TIPG (Z.lor (Z.lor 8 (Z.shiftl 4 10)) (Z.shiftl 6 20)) s in
  let s := nic_write E1000_RCTL (Z.lor (Z.lor (Z.lor (Z.shiftl 1 1) (Z.shiftl 1 4)) (Z.shiftl 1 15)) (Z.shiftl 1 26)) s in
  let s := nic_write E1000_TCTL (Z.lor (Z.lor (Z.lor (Z.shiftl 1 1) (Z.shiftl 1 3)) (Z.shiftl 0x0F 4)) (Z.shiftl 0x03F 12)) s in
  let '(_, s) := nic_read E1000_ICR s in
  nic_write E1000_IMS (Z.lor (Z.lor (Z.shiftl 1 7) (Z.shiftl 1 6)) (Z.shiftl 1 2)) s.

(** [rx_phys] and [tx_phys] are the addresses of the rings. *)
Definition e1000_init (rx_phys tx_phys : Z) (s : nic) (m : mm) : Z * list Z * nic * mm :=
  let '(v, s) := nic_read E1000_CTRL s in
  let s := nic_write E1000_CTRL (Z.lor v (Z.shiftl 1 26)) s in
  let s := wait_reset (Z.to_nat 0x20000) s in
  let '(v, s) := nic_read E1000_CTRL s in
  let s := nic_write E1000_CTRL (Z.lor (Z.lor (Z.lor v 1) (Z.shiftl 1 6)) (Z.shiftl 1 5)) s in
  let '(ral, s) := nic_read E1000_RAL0 s in
  let '(rah, s) := nic_read E1000_RAH0 s in
  let mac := mac_of ral rah in
  let s := clear_mta s in
  let '(ok, s, m) := fill_rx RX_RING_SIZE 0 s m in
  if negb ok then (-1, mac, s, m)
  else
    let s := ring_regs E1000_RDBAL E1000_RDBAH E1000_RDLEN rx_phys (Z.of_nat RX_RING_SIZE * 16) s in
    let s := nic_write E1000_RDH 0 s in
    let s := nic_write E1000_RDT (Z.of_nat (RX_RING_SIZE - 1)) s in
    let s := set_tx_ring (replicate TX_RING_SIZE (mk_tx 0 0 0 0 E1000_TXD_STAT_DD 0 0)) s in
    let s := ring_regs E1000_TDBAL E1000_TDBAH E1000_TDLEN tx_phys (Z.of_nat TX_RING_SIZE * 16) s in
    let s := nic_write E1000_TDH 0 s in
    let s := nic_write E1000_TDT 0 s in
    (0, mac, start_card s, m).

End init.

(** * Facts about sending *)

(** What the driver wrote to a descriptor. *)
Definition tx_body (d : e1000_tx_desc) := (addr d, length d, cso d, cmd d, css d, special d).

(** The card may complete descriptors and change nothing else of the transmit
    side. *)
Record completes (s s' : nic) : Prop := {
  cm_tail : tx_tail s' = tx_tail s;
  cm_writes : nic_writes s' = nic_writes s;
  cm_size : List.length (tx_ring s') = List.length (tx_ring s);
  cm_body : forall i, tx_body (tx_slot s' i) = tx_body (tx_slot s i);
  cm_done : forall i, tx_done (tx_slot s i) = true -> tx_done (tx_slot s' i) = true
}.

#[export] Instance completes_preorder : PreOrder completes.
Proof.
  split; [done|]. intros s1 s2 s3 [A1 A2 A3 A4 A5] [B1 B2 B3 B4 B5]. split; [congruence..| |auto].
  intros i. by rewrite B4.
Qed.

Section sending.
Context (hw : nat -> nic -> nic) (Hhw : forall n s, completes s (hw n s)).

Lemma look_completes s : completes s (look hw s).
Proof. destruct (Hhw (nic_reads s) s) as [H1 H2 H3 H4 H5]. by split. Qed.

Lemma wait_done_spec fuel slot s :
  let '(d, s') := wait_done hw fuel slot s in completes s s' /\ (d = true -> tx_done (tx_slot s' slot) = true).
Proof.
  revert s; induction fuel as [|fuel IH]; intros s; cbn [wait_done]; [done|]. unfold read_done.
  pose proof (look_completes s) as Hl. destruct (tx_done (tx_slot (look hw s) slot)) eqn:E; [done|].
  specialize (IH (look hw s)). destruct (wait_done hw fuel slot (look hw s)) as [d s']. destruct IH as [A B].
  split; [by etransitivity|done].
Qed.

(** Every slot was seen free, and a free slot stays free. *)
Lemma slots_free_spec n i s :
  let '(free, s') := slots_free hw n i s in
  completes s s' /\
  (free = true -> forall j, (i <= j < i + n)%nat -> tx_done (tx_slot s' (slot_at (tx_tail s) j)) = true).
Proof.
  revert i s; induction n as [|n IH]; intros i s; cbn [slots_free]; [split; [done|intros _ j Hj; lia]|].
  set (slot := slot_at (tx_tail s) i).
  assert (forall s1, completes s s1 -> tx_done (tx_slot s1 slot) = true ->
    let '(free, s') := slots_free hw n (S i) s1 in
    completes s s' /\ (free = true -> forall j, (i <= j < i + S n)%nat -> tx_done (tx_slot s' (slot_at (tx_tail s) j)) = true)) as Hgo.
  { intros s1 H1 Hd. specialize (IH (S i) s1). destruct (slots_free hw n (S i) s1) as [free s'].
    destruct IH as [A B]. split; [by etransitivity|]. intros Hf j Hj. rewrite <- (cm_tail _ _ H1).
    destruct (decide (j = i)) as [->|N]; [|apply B; [done|lia]]. apply (cm_done _ _ A). by rewrite (cm_tail _ _ H1). }
  unfold read_done. pose proof (look_completes s) as Hl. destruct (tx_done (tx_slot (look hw s) slot)) eqn:E; [by apply Hgo|].
  pose proof (wait_done_spec E1000_TX_TIMEOUT slot (look hw s)) as W.
  destruct (wait_done hw E1000_TX_TIMEOUT slot (look hw s)) as [d s2]. destruct W as [W _].
  pose proof (look_completes s2) as Hl2. assert (completes s (look hw s2)) as H2 by (do 2 (etransitivity; [eassumption|]); done).
  destruct (tx_done (tx_slot (look hw s2) slot)) eqn:E2; [by apply Hgo|]. by split.
Qed.

End sending.

(** ** The frame in the ring *)

Lemma slot_at_lt tail i : (slot_at tail i < TX_RING_SIZE)%nat.
Proof. apply Nat.mod_upper_bound. done. Qed.

Lemma slot_at_inj tail i j : (i < TX_RING_SIZE)%nat -> (j < TX_RING_SIZE)%nat -> slot_at tail i = slot_at tail j -> i = j.
Proof.
  unfold slot_at, TX_RING_SIZE. intros Hi Hj E.
  pose proof (Nat.div_mod_eq (tail + i) 32). pose proof (Nat.div_mod_eq (tail + j) 32). lia.
Qed.

Lemma put_frame_length segs tail i ring : List.length (put_frame segs tail i ring) = List.length ring.
Proof. revert i ring; induction segs as [|[a l] segs IH]; intros i ring; cbn [put_frame]; [done|]. by rewrite IH, length_insert. Qed.

Lemma put_frame_out segs tail i ring k :
  (forall j, (i <= j < i + List.length segs)%nat -> slot_at tail j <> k) -> put_frame segs tail i ring !! k = ring !! k.
Proof.
  revert i ring; induction segs as [|[a l] segs IH]; intros i ring Hk; cbn [put_frame List.length] in *; [done|].
  rewrite IH by (intros j Hj; apply Hk; lia). apply list_lookup_insert_ne. apply Hk. lia.
Qed.

Lemma put_frame_in segs tail i ring j a len :
  List.length ring = TX_RING_SIZE -> (i + List.length segs <= TX_RING_SIZE)%nat -> segs !! j = Some (a, len) ->
  put_frame segs tail i ring !! slot_at tail (i + j) =
  Some (seg_desc a len (bool_decide (S j = List.length segs))).
Proof.
  revert i j ring; induction segs as [|[a0 l0] segs IH]; intros i j ring Hr Hn Hj; cbn [put_frame List.length] in *; [done|].
  destruct j as [|j]; cbn in Hj.
  - injection Hj as -> ->. rewrite Nat.add_0_r, put_frame_out.
    + rewrite list_lookup_insert_eq by (rewrite Hr; apply slot_at_lt). do 2 f_equal. by destruct segs.
    + intros k Hk E. apply slot_at_inj in E; lia.
  - replace (i + S j)%nat with (S i + j)%nat by lia.
    rewrite IH; [|by rewrite length_insert|lia|done]. do 2 f_equal. apply bool_decide_ext. lia.
Qed.

Lemma put_frame_at segs tail ring j a len :
  List.length ring = TX_RING_SIZE -> (List.length segs <= TX_RING_SIZE / 2)%nat -> segs !! j = Some (a, len) ->
  put_frame segs tail 0 ring !! slot_at tail j = Some (seg_desc a len (bool_decide (S j = List.length segs))).
Proof.
  intros Hr Hn. apply (put_frame_in segs tail 0); [done|]. change (TX_RING_SIZE / 2)%nat with 16%nat in Hn.
  unfold TX_RING_SIZE. lia.
Qed.

(** * The receive ring as a queue *)

(** The card's side: the next descriptor to fill, the end of those it may fill,
    and the memory it writes. *)
Record card := mk_card { rdh : nat; rdt : nat; dma : Z -> list Z }.

Definition rx_next (i : nat) : nat := ((i + 1) mod RX_RING_SIZE)%nat.

(** A frame from the network: stored and marked done, with [EOP], or dropped
    when the card has no descriptor left. *)
Definition card_deliver (frame : list Z) (w : card * nic) : bool * (card * nic) :=
  let '(c, s) := w in
  if (rdh c =? rdt c)%nat then (false, w)
  else
    let d := rx_slot s (rdh c) in
    (true,
     (mk_card (rx_next (rdh c)) (rdt c) (fun a => if a =? rx_addr d then frame else dma c a),
      set_rx_ring (<[rdh c := mk_rx (rx_addr d) (Z.of_nat (List.length frame)) (rx_checksum d) 3 (rx_errors d) (rx_special d)]>
                     (rx_ring s)) s)).

(** A poll by the driver, while the card does nothing else: the frame got, and
    the tail register as the driver leaves it. *)
Definition poll (max_len : Z) (w : card * nic) : option (list Z) * (card * nic) :=
  let '(c, s) := w in
  let '(len, bytes, s') := e1000_poll_receive (fun _ s => s) (dma c) max_len s in
  if 0 <? len then
    let rdt' := match last (nic_writes s') with Some (_, v) => Z.to_nat v | None => rdt c end in
    (Some bytes, (mk_card (rdh c) rdt' (dma c), s'))
  else (None, (c, s')).

Definition rx_at (i j : nat) : nat := ((i + j) mod RX_RING_SIZE)%nat.

(** The ring holds the frames [q], in order, from the driver's index on. *)
Record ring_holds (q : list (list Z)) (w : card * nic) : Prop := {
  ho_size : List.length (rx_ring (snd w)) = RX_RING_SIZE;
  ho_idx : (rx_idx (snd w) < RX_RING_SIZE)%nat;
  ho_room : (List.length q < RX_RING_SIZE)%nat;
  ho_head : rdh (fst w) = rx_at (rx_idx (snd w)) (List.length q);
  ho_tail : rdt (fst w) = rx_at (rx_idx (snd w)) (RX_RING_SIZE - 1);
  ho_addrs : NoDup (rx_addr <$> rx_ring (snd w));
  ho_full : forall j f, q !! j = Some f ->
    let d := rx_slot (snd w) (rx_at (rx_idx (snd w)) j) in
    rx_done d = true /\ rx_length d = Z.of_nat (List.length f) /\ dma (fst w) (rx_addr d) = f;
  ho_free : forall j, (List.length q <= j < RX_RING_SIZE)%nat ->
    rx_done (rx_slot (snd w) (rx_at (rx_idx (snd w)) j)) = false
}.

Lemma rx_at_lt i j : (rx_at i j < RX_RING_SIZE)%nat.
Proof. apply Nat.mod_upper_bound. done. Qed.

Lemma rx_at_inj i j k : (j < RX_RING_SIZE)%nat -> (k < RX_RING_SIZE)%nat -> rx_at i j = rx_at i k -> j = k.
Proof. apply slot_at_inj. Qed.

Lemma rx_at_next i j : rx_at (rx_next i) j = rx_at i (S j).
Proof.
  unfold rx_at, rx_next. rewrite Nat.Div0.add_mod_idemp_l. f_equal. lia.
Qed.

Lemma rx_next_at i j : rx_next (rx_at i j) = rx_at i (S j).
Proof. unfold rx_at, rx_next. rewrite Nat.Div0.add_mod_idemp_l. f_equal. lia. Qed.

Lemma rx_at_0 i : (i < RX_RING_SIZE)%nat -> rx_at i 0 = i.
Proof. intros Hi. unfold rx_at. rewrite Nat.add_0_r. by apply Nat.mod_small. Qed.

Lemma rx_at_wrap i : (i < RX_RING_SIZE)%nat -> rx_at i RX_RING_SIZE = i.
Proof.
  intros Hi. unfold rx_at. replace (i + RX_RING_SIZE)%nat with (i + 1 * RX_RING_SIZE)%nat by lia.
  rewrite Nat.Div0.mod_add. by apply Nat.mod_small.
Qed.

Lemma rx_slot_insert s i j d :
  List.length (rx_ring s) = RX_RING_SIZE -> (i < RX_RING_SIZE)%nat ->
  rx_slot (set_rx_ring (<[i := d]> (rx_ring s)) s) j = if decide (i = j) then d else rx_slot s j.
Proof.
  intros Hl Hi. unfold rx_slot. cbn [rx_ring set_rx_ring]. case_decide as D.
  - subst. by rewrite list_lookup_insert_eq by lia.
  - by rewrite list_lookup_insert_ne.
Qed.

Lemma rx_slot_lookup s i :
  List.length (rx_ring s) = RX_RING_SIZE -> (i < RX_RING_SIZE)%nat -> rx_ring s !! i = Some (rx_slot s i).
Proof. intros Hl Hi. unfold rx_slot. destruct (lookup_lt_is_Some_2 (rx_ring s) i) as [d ->]; [lia|done]. Qed.

(** Different slots have different buffers. *)
Lemma rx_addr_ne s i j :
  List.length (rx_ring s) = RX_RING_SIZE -> NoDup (rx_addr <$> rx_ring s) ->
  (i < RX_RING_SIZE)%nat -> (j < RX_RING_SIZE)%nat -> i <> j -> rx_addr (rx_slot s i) <> rx_addr (rx_slot s j).
Proof.
  intros Hl Hn Hi Hj N E. apply N. eapply (NoDup_lookup _ i j (rx_addr (rx_slot s j)) Hn).
  - rewrite list_lookup_fmap, rx_slot_lookup by done. cbn. by rewrite E.
  - by rewrite list_lookup_fmap, rx_slot_lookup by done.
Qed.

(** The addresses stay when the other fields of a slot change. *)
Lemma rx_addrs_insert s i d :
  List.length (rx_ring s) = RX_RING_SIZE -> (i < RX_RING_SIZE)%nat -> rx_addr d = rx_addr (rx_slot s i) ->
  rx_addr <$> <[i := d]> (rx_ring s) = rx_addr <$> rx_ring s.
Proof.
  intros Hl Hi E. rewrite list_fmap_insert, E. apply list_insert_id.
  by rewrite list_lookup_fmap, rx_slot_lookup by done.
Qed.

Lemma deliver_ring_holds q frame w :
  ring_holds q w ->
  let '(b, w') := card_deliver frame w in
  if (List.length q <? RX_RING_SIZE - 1)%nat then b = true /\ ring_holds (q ++ [frame]) w' else b = false /\ w' = w.
Proof.
  intros [H1 H2 H3 H4 H5 H6 H7 H8]. destruct w as [c s]. cbn [fst snd] in *. unfold card_deliver.
  destruct (Nat.ltb_spec (List.length q) (RX_RING_SIZE - 1)) as [Hq|Hq].
  - destruct (Nat.eqb_spec (rdh c) (rdt c)) as [E|_].
    { rewrite H4, H5 in E. apply rx_at_inj in E; unfold RX_RING_SIZE in *; lia. }
    split; [done|]. set (i := rx_idx s) in *. set (h := rdh c) in *.
    assert (h < RX_RING_SIZE)%nat as Hh by (rewrite H4; apply rx_at_lt).
    assert (forall j, (j < RX_RING_SIZE)%nat -> j <> List.length q -> h <> rx_at i j) as Hne.
    { intros j Hj N E. rewrite H4 in E. apply rx_at_inj in E; [congruence|lia|done]. }
    split; cbn [fst snd rdh rdt dma rx_idx rx_ring set_rx_ring]; fold i; rewrite ?length_app; cbn [List.length].
    + by rewrite length_insert.
    + done.
    + lia.
    + rewrite H4, rx_next_at. f_equal. lia.
    + done.
    + by rewrite rx_addrs_insert.
    + intros j f Hj. rewrite rx_slot_insert by done. apply lookup_app_Some in Hj as [Hj|[Hge Hj]].
      * pose proof (lookup_lt_Some _ _ _ Hj) as Hlt. rewrite decide_False by (apply Hne; lia).
        destruct (H7 j f Hj) as (A & B & C). split_and!; [done|done|].
        destruct (Z.eqb_spec (rx_addr (rx_slot s (rx_at i j))) (rx_addr (rx_slot s h))) as [E|]; [|done].
        destruct (rx_addr_ne s (rx_at i j) h H1 H6 (rx_at_lt i j) Hh); [|done].
        intros E'. by apply (Hne j); [lia|lia|].
      * apply list_lookup_singleton_Some in Hj as [Hj <-]. assert (j = List.length q) as -> by lia.
        rewrite decide_True by done. cbn [rx_length rx_addr rx_done rx_status]. by rewrite Z.eqb_refl.
    + intros j Hj. rewrite rx_slot_insert by done. rewrite decide_False by (apply Hne; lia). apply H8. lia.
  - destruct (Nat.eqb_spec (rdh c) (rdt c)) as [E|N]; [done|]. destruct N. rewrite H4, H5. f_equal. unfold RX_RING_SIZE in *. lia.
Qed.

(** Clearing the status of the slot the driver took. *)
Definition taken (d : e1000_rx_desc) : e1000_rx_desc :=
  mk_rx (rx_addr d) (rx_length d) (rx_checksum d) 0 (rx_errors d) (rx_special d).

Lemma rx_alter s i :
  List.length (rx_ring s) = RX_RING_SIZE -> (i < RX_RING_SIZE)%nat ->
  alter taken i (rx_ring s) = <[i := taken (rx_slot s i)]> (rx_ring s).
Proof.
  intros Hl Hi. apply list_eq. intros j. destruct (decide (i = j)) as [->|N].
  - by rewrite list_lookup_alter_eq, list_lookup_insert_eq, rx_slot_lookup by lia.
  - by rewrite list_lookup_alter_ne, list_lookup_insert_ne.
Qed.

Lemma poll_holds q max_len w :
  ring_holds q w -> Forall (fun f => f <> []) q -> 0 < max_len ->
  let '(r, w') := poll max_len w in
  match q with
  | [] => r = None /\ ring_holds [] w'
  | f :: q' => r = Some (take (Z.to_nat max_len) f) /\ ring_holds q' w'
  end.
Proof.
  intros [H1 H2 H3 H4 H5 H6 H7 H8] Hne Hmax. destruct w as [c s]. cbn [fst snd] in *. unfold poll, e1000_poll_receive, look.
  set (s1 := set_nic_reads _ s). cbn [rx_idx set_nic_reads s1]. set (i := rx_idx s) in *.
  change (rx_slot s1 i) with (rx_slot s i). destruct q as [|f q].
  - pose proof (H8 0%nat ltac:(simpl; unfold RX_RING_SIZE; lia)) as Hd. rewrite rx_at_0 in Hd by done. rewrite Hd.
    cbn [negb]. rewrite Z.ltb_irrefl. split; [done|]. by split.
  - destruct (H7 0%nat f eq_refl) as (A & B & C). rewrite rx_at_0 in A, B, C by done. rewrite A. cbn [negb].
    set (d := rx_slot s i) in *. apply Forall_cons in Hne as [Hf Hq].
    assert (0 < rx_length d) as Hl by (rewrite B; destruct f; [done|simpl; lia]).
    assert ((0 <? (if max_len <? rx_length d then max_len else rx_length d)) = true) as ->.
    { destruct (Z.ltb_spec max_len (rx_length d)); lia. }
    split.
    { rewrite C. f_equal. destruct (Z.ltb_spec max_len (rx_length d)); [done|]. rewrite B.
      rewrite Nat2Z.id. rewrite !take_ge; [done|lia|lia]. }
    fold taken. change (rx_ring s1) with (rx_ring s). cbn [rx_idx set_rx_ring set_nic_reads s1]. fold i.
    assert (forall s0, nic_writes (nic_write E1000_RDT (Z.of_nat i) s0) = nic_writes s0 ++ [(E1000_RDT, Z.of_nat i)]) as Hw by done.
    rewrite Hw, last_snoc, Nat2Z.id, rx_alter by done. clear Hw.
    cbn [List.length] in *.
    fold (rx_next i). split; cbn [fst snd rdh rdt dma rx_idx rx_ring set_rx_ring set_rx_idx nic_write set_nic_writes].
    + by rewrite length_insert.
    + apply rx_at_lt.
    + lia.
    + by rewrite rx_at_next, H4.
    + by rewrite rx_at_next, rx_at_wrap by done.
    + by rewrite rx_addrs_insert.
    + intros j g Hj. pose proof (lookup_lt_Some _ _ _ Hj) as Hlt. rewrite rx_at_next.
      change (rx_slot _ (rx_at i (S j))) with (rx_slot (set_rx_ring (<[i := taken d]> (rx_ring s)) s) (rx_at i (S j))).
      rewrite rx_slot_insert by done. rewrite decide_False; [by apply H7|].
      intros E. rewrite <- (rx_at_0 i H2) in E at 1. apply rx_at_inj in E; unfold RX_RING_SIZE in *; lia.
    + intros j Hj. rewrite rx_at_next.
      change (rx_slot _ (rx_at i (S j))) with (rx_slot (set_rx_ring (<[i := taken d]> (rx_ring s)) s) (rx_at i (S j))).
      rewrite rx_slot_insert by done. case_decide as D; [done|]. apply H8. split; [lia|].
      destruct (decide (S j = RX_RING_SIZE)) as [E|]; [|lia]. by rewrite E, rx_at_wrap in D.
Qed.

(** ** Runs of frames and polls *)

Inductive rx_event := Frame (f : list Z) | Poll.

(** The ring. *)
Fixpoint ring_run (max_len : Z) (es : list rx_event) (w : card * nic) : list (option (list Z)) * (card * nic) :=
  match es with
  | [] => ([], w)
  | Frame f :: es' => ring_run max_len es' (snd (card_deliver f w))
  | Poll :: es' =>
      let '(r, w) := poll max_len w in let '(rs, w) := ring_run max_len es' w in (r :: rs, w)
  end.

(** A queue of at most 31 frames that drops what does not fit. *)
Fixpoint queue_run (max_len : Z) (es : list rx_event) (q : list (list Z)) : list (option (list Z)) * list (list Z) :=
  match es with
  | [] => ([], q)
  | Frame f :: es' => queue_run max_len es' (if (List.length q <? RX_RING_SIZE - 1)%nat then q ++ [f] else q)
  | Poll :: es' =>
      match q with
      | [] => let '(rs, q) := queue_run max_len es' [] in (None :: rs, q)
      | f :: q => let '(rs, q) := queue_run max_len es' q in (Some (take (Z.to_nat max_len) f) :: rs, q)
      end
  end.

Definition real_frame (e : rx_event) : Prop := match e with Frame f => f <> [] | Poll => True end.

Lemma ring_run_queue max_len es q w :
  0 < max_len -> Forall real_frame es -> Forall (fun f => f <> []) q -> ring_holds q w ->
  fst (ring_run max_len es w) = fst (queue_run max_len es q) /\
  ring_holds (snd (queue_run max_len es q)) (snd (ring_run max_len es w)).
Proof.
  intros Hmax. revert q w; induction es as [|e es IH]; intros q w Hes Hq Hw; [done|].
  apply Forall_cons in Hes as [He Hes]. destruct e as [f|]; cbn [ring_run queue_run].
  - pose proof (deliver_ring_holds q f w Hw) as D. destruct (card_deliver f w) as [b w']. cbn [snd].
    destruct (_ <? _)%nat; destruct D as [_ D]; [apply IH; [done| |done]|subst; by apply IH].
    apply Forall_app. by split; [|constructor].
  - pose proof (poll_holds q max_len w Hw Hq Hmax) as P. destruct (poll max_len w) as [r w1].
    destruct q as [|f q]; destruct P as [-> P].
    + specialize (IH [] w1 Hes Hq P). destruct (ring_run max_len es w1), (queue_run max_len es []). cbn in *. by destruct IH as [-> ?].
    + apply Forall_cons in Hq as [_ Hq]. specialize (IH q w1 Hes Hq P).
      destruct (ring_run max_len es w1), (queue_run max_len es q). cbn in *. by destruct IH as [-> ?].
Qed.

(** ** Starting *)

(** The value a register was last given. *)
Definition reg_value (r : Z) (ws : list (Z * Z)) : Z :=
  foldl (fun v w => if fst w =? r then snd w else v) 0 ws.

Lemma reg_value_app r ws ws' : reg_value r (ws ++ ws') = foldl (fun v w => if fst w =? r then snd w else v) (reg_value r ws) ws'.
Proof. unfold reg_value. apply foldl_app. Qed.

Lemma fill_rx_spec n i s m :
  pool_ok m -> (n <= capacity m)%nat -> (i + n <= List.length (rx_ring s))%nat ->
  exists ring m', fill_rx n i s m = (true, set_rx_ring ring s, m') /\ List.length ring = List.length (rx_ring s) /\
    (forall j, (j < n)%nat -> ring !! (i + j)%nat = Some (mk_rx (page_of m j) 0 0 0 0 0)) /\
    (forall j, (j < i)%nat -> ring !! j = rx_ring s !! j).
Proof.
  revert i s m; induction n as [|n IH]; intros i s m Hm Hc Hl; cbn [fill_rx].
  { exists (rx_ring s), m. split_and!; [by destruct s|done|intros; lia|done]. }
  assert (has_page m) as Hp.
  { destruct (decide (free_memory_start m + PAGE_SIZE < free_memory_end m)) as [|N]; [done|].
    rewrite (capacity_0 m) in Hc by exact N. lia. }
  pose proof (capacity_S m Hm Hp) as Ec. pose proof (alloc_pool_ok m Hm) as Hm1. pose proof (page_of_alloc m) as Hpg.
  pose proof (pmm_alloc_some m Hm Hp) as Ea. destruct (pmm_alloc_page m) as [buf m1]. cbn [fst snd] in *.
  injection Ea as -> Em1. destruct Hm as [P1 P2 P3 P4]. destruct (Z.eqb_spec (free_memory_start m) 0); [lia|].
  destruct (IH (S i) (set_rx_ring (<[i := mk_rx (free_memory_start m) 0 0 0 0 0]> (rx_ring s)) s) m1) as (ring & m' & E & L & A & B);
    [done|lia|cbn; rewrite length_insert; lia|].
  exists ring, m'. cbn [rx_ring set_rx_ring] in *. rewrite length_insert in L. split_and!; [by rewrite E|done| |].
  - intros [|j] Hj.
    + rewrite Nat.add_0_r, B, list_lookup_insert_eq by lia. unfold page_of. do 2 f_equal. lia.
    + replace (i + S j)%nat with (S i + j)%nat by lia. rewrite A by lia. by rewrite Hpg.
  - intros j Hj. rewrite B, list_lookup_insert_ne by lia. done.
Qed.

(** The driver's variables at power-on. *)
Definition nic0 : nic := mk_nic 0 (replicate TX_RING_SIZE tx0) 0 (replicate RX_RING_SIZE rx0) [] 0.

Lemma wait_reset_spec reg fuel s : exists k, wait_reset reg fuel s = set_nic_reads k s.
Proof.
  revert s; induction fuel as [|fuel IH]; intros s; cbn [wait_reset]; [exists (nic_reads s); by destruct s|].
  unfold nic_read. destruct (_ =? 0); [by eexists|]. destruct (IH (set_nic_reads (S (nic_reads s)) s)) as [k ->]. by exists k.
Qed.

Lemma clear_mta_spec s : exists ws, clear_mta s = set_nic_writes ws s.
Proof.
  unfold clear_mta. generalize (seq 0 128). intros l. revert s; induction l as [|i l IH]; intros s; cbn [foldl].
  - exists (nic_writes s). by destruct s.
  - destruct (IH (nic_write (E1000_MTA + 4 * Z.of_nat i) 0 s)) as [ws ->]. by exists ws.
Qed.

(** The card's view once the rings are announced. *)
Definition announced (bufs : Z -> list Z) (s : nic) : card :=
  mk_card (Z.to_nat (reg_value E1000_RDH (nic_writes s))) (Z.to_nat (reg_value E1000_RDT (nic_writes s))) bufs.

(** The address in the two halves of a base register. *)
Definition base_value (bal bah : Z) (s : nic) : Z :=
  Z.lor (reg_value bal (nic_writes s)) (Z.shiftl (reg_value bah (nic_writes s)) 32).

Lemma halves x : Z.lor (Z.land x 0xFFFFFFFF) (Z.shiftl (Z.shiftr x 32) 32) = x.
Proof.
  apply Z.bits_inj'. intros i Hi. change 0xFFFFFFFF with (Z.ones 32).
  rewrite Z.lor_spec, Z.land_spec, Z.shiftl_spec by lia. destruct (decide (i < 32)).
  - rewrite Z.ones_spec_low, andb_true_r, (Z.testbit_neg_r _ (i - 32)) by lia. apply orb_false_r.
  - rewrite Z.ones_spec_high, andb_false_r, Z.shiftr_spec by lia. cbn [orb]. f_equal. lia.
Qed.

Lemma fresh_ring_holds ring bufs s m :
  rx_ring s = ring -> rx_idx s = O -> List.length ring = RX_RING_SIZE ->
  (forall j, (j < RX_RING_SIZE)%nat -> ring !! j = Some (mk_rx (page_of m j) 0 0 0 0 0)) ->
  ring_holds [] (mk_card 0 (RX_RING_SIZE - 1) bufs, s).
Proof.
  intros Er Ei Hl Hr. assert (forall j, (j < RX_RING_SIZE)%nat -> rx_slot s j = mk_rx (page_of m j) 0 0 0 0 0) as Hs.
  { intros j Hj. unfold rx_slot. by rewrite Er, Hr. }
  split; cbn [fst snd rdh rdt dma List.length]; rewrite ?Er, ?Ei.
  - done.
  - unfold RX_RING_SIZE. lia.
  - unfold RX_RING_SIZE. lia.
  - done.
  - done.
  - apply NoDup_alt. intros i j x Hi Hj. rewrite list_lookup_fmap in Hi, Hj.
    destruct (ring !! i) as [di|] eqn:Ei'; [|done]. destruct (ring !! j) as [dj|] eqn:Ej'; [|done].
    pose proof (lookup_lt_Some _ _ _ Ei'). pose proof (lookup_lt_Some _ _ _ Ej').
    rewrite Hr in Ei', Ej' by lia. injection Ei' as <-. injection Ej' as <-. cbn [fmap option_fmap option_map rx_addr] in Hi, Hj.
    injection Hi as <-. injection Hj as E. unfold page_of, PAGE_SIZE in E. lia.
  - done.
  - intros j Hj. by rewrite Hs by apply rx_at_lt.
Qed.

Lemma init_spec reg rx_phys tx_phys m :
  pool_ok m -> (RX_RING_SIZE <= capacity m)%nat ->
  exists mac s m', e1000_init reg rx_phys tx_phys nic0 m = (0, mac, s, m') /\
    (forall bufs, ring_holds [] (announced bufs s, s)) /\
    tx_ring s = replicate TX_RING_SIZE (mk_tx 0 0 0 0 E1000_TXD_STAT_DD 0 0) /\
    tx_tail s = O /\ reg_value E1000_TDH (nic_writes s) = 0 /\ reg_value E1000_TDT (nic_writes s) = 0 /\
    base_value E1000_RDBAL E1000_RDBAH s = rx_phys /\ base_value E1000_TDBAL E1000_TDBAH s = tx_phys /\
    (forall j, (j < RX_RING_SIZE)%nat -> rx_ring s !! j = Some (mk_rx (page_of m j) 0 0 0 0 0)).
Proof.
  intros Hm Hc. unfold e1000_init, nic_read. cbv beta iota zeta.
  destruct (wait_reset_spec reg (Z.to_nat 0x20000) (nic_write E1000_CTRL
    (Z.lor (reg (nic_reads nic0) E1000_CTRL) (Z.shiftl 1 26)) (set_nic_reads (S (nic_reads nic0)) nic0))) as [k ->].
  match goal with |- context [clear_mta ?s] => destruct (clear_mta_spec s) as [ws ->] end.
  match goal with |- context [fill_rx _ _ ?s _] => set (s0 := s) end.
  destruct (fill_rx_spec RX_RING_SIZE 0 s0 m Hm Hc) as (ring & m' & -> & L & A & _); [reflexivity|].
  cbn [negb]. do 3 eexists. split; [reflexivity|]. unfold announced, base_value.
  set (s1 := start_card reg _).
  assert (exists a b c d, nic_writes s1 = ws ++
    [(E1000_RDBAL, Z.land rx_phys 0xFFFFFFFF); (E1000_RDBAH, Z.shiftr rx_phys 32); (E1000_RDLEN, Z.of_nat RX_RING_SIZE * 16);
     (E1000_RDH, 0); (E1000_RDT, Z.of_nat (RX_RING_SIZE - 1));
     (E1000_TDBAL, Z.land tx_phys 0xFFFFFFFF); (E1000_TDBAH, Z.shiftr tx_phys 32); (E1000_TDLEN, Z.of_nat TX_RING_SIZE * 16);
     (E1000_TDH, 0); (E1000_TDT, 0); (E1000_TIPG, a); (E1000_RCTL, b); (E1000_TCTL, c); (E1000_IMS, d)]) as (a & b & c & d & Ew).
  { do 4 eexists. unfold s1. cbn [start_card nic_read ring_regs nic_write nic_writes set_nic_writes set_nic_reads set_tx_ring set_rx_ring s0].
    rewrite <- !app_assoc. reflexivity. }
  rewrite Ew, !reg_value_app. split_and!; [|done|done|done|done|apply halves|apply halves|exact A].
  intros bufs. apply (fresh_ring_holds ring bufs s1 m); [done|done|by rewrite L|exact A].
Qed.

(** All the initialisation does to memory is to take pages. *)
Lemma fill_rx_mm (P : mm -> Prop) n i s m :
  (forall m, P m -> P (snd (pmm_alloc_page m))) -> P m -> P (snd (fill_rx n i s m)).
Proof.
  intros Hstep. revert i s m; induction n as [|n IH]; intros i s m Hm; cbn [fill_rx]; [done|].
  specialize (Hstep m Hm). destruct (pmm_alloc_page m) as [buf m1]. cbn [snd] in Hstep. destruct (buf =? 0); [done|by apply IH].
Qed.

Lemma init_mm (P : mm -> Prop) reg rx_phys tx_phys s m :
  (forall m, P m -> P (snd (pmm_alloc_page m))) -> P m -> P (snd (e1000_init reg rx_phys tx_phys s m)).
Proof.
  intros Hstep Hm. unfold e1000_init, nic_read. cbv beta iota zeta.
  match goal with |- context [fill_rx RX_RING_SIZE 0 ?x m] => pose proof (fill_rx_mm P RX_RING_SIZE 0 x m Hstep Hm) as Hf;
    destruct (fill_rx RX_RING_SIZE 0 x m) as [[ok s1] m1] end.
  by destruct (negb ok).
Qed.

(** ** A card that does not answer *)

Definition idle (n : nat) (s : nic) : nic := s.

Lemma idle_wait fuel slot s :
  tx_done (tx_slot s slot) = false -> exists k, wait_done idle fuel slot s = (false, set_nic_reads k s).
Proof.
  revert s; induction fuel as [|fuel IH]; intros s Hd; cbn [wait_done]; [exists (nic_reads s); by destruct s|].
  unfold read_done. change (look idle s) with (set_nic_reads (S (nic_reads s)) s). change (tx_slot (set_nic_reads (S (nic_reads s)) s) slot) with (tx_slot s slot). rewrite Hd.
  destruct (IH (set_nic_reads (S (nic_reads s)) s) Hd) as [k ->]. by exists k.
Qed.

Lemma idle_free n i s :
  (forall j, (i <= j < i + n)%nat -> tx_done (tx_slot s (slot_at (tx_tail s) j)) = true) ->
  exists k, slots_free idle n i s = (true, set_nic_reads k s).
Proof.
  revert i s; induction n as [|n IH]; intros i s Hd; cbn [slots_free]; [exists (nic_reads s); by destruct s|].
  unfold read_done. change (look idle s) with (set_nic_reads (S (nic_reads s)) s). change (tx_slot (set_nic_reads (S (nic_reads s)) s)) with (tx_slot s). rewrite Hd by lia.
  destruct (IH (S i) (set_nic_reads (S (nic_reads s)) s)) as [k ->]; [|by exists k]. intros j Hj. apply Hd. lia.
Qed.

(** Sending to free slots: the frame is queued and the call times out. *)
Lemma idle_send segs s :
  List.length (tx_ring s) = TX_RING_SIZE -> (0 < List.length segs <= TX_RING_SIZE / 2)%nat ->
  (forall j, (j < List.length segs)%nat -> tx_done (tx_slot s (slot_at (tx_tail s) j)) = true) ->
  exists k, e1000_send_scatter idle segs s =
    (-1, set_nic_reads k (nic_write E1000_TDT (Z.of_nat (slot_at (tx_tail s) (List.length segs)))
           (set_tx_tail (slot_at (tx_tail s) (List.length segs)) (set_tx_ring (put_frame segs (tx_tail s) 0 (tx_ring s)) s)))).
Proof.
  intros Hr Hn Hd. unfold e1000_send_scatter. destruct (Nat.eqb_spec (List.length segs) 0); [lia|].
  destruct (Nat.ltb_spec (TX_RING_SIZE / 2) (List.length segs)); [lia|]. cbn [orb].
  destruct (idle_free (List.length segs) 0 s) as [k ->]; [intros j Hj; apply Hd; lia|]. cbn [negb].
  match goal with |- context [wait_done idle _ ?l ?s] => destruct (idle_wait E1000_TX_TIMEOUT l s) as [k' ->] end.
  { unfold tx_slot. cbn [tx_ring nic_write set_nic_writes set_tx_tail set_tx_ring set_nic_reads tx_tail].
    destruct (lookup_lt_is_Some_2 segs (List.length segs - 1)) as [[a len] Hl]; [lia|].
    by rewrite (put_frame_at segs (tx_tail s) (tx_ring s) (List.length segs - 1) a len Hr (proj2 Hn) Hl). }
  exists k'. reflexivity.
Qed.

(** The first [n] slots belong to the card, the others are free. *)
Definition pending (n : nat) (s : nic) : Prop :=
  List.length (tx_ring s) = TX_RING_SIZE /\ tx_tail s = (n mod TX_RING_SIZE)%nat /\
  forall i, (i < TX_RING_SIZE)%nat -> tx_done (tx_slot s i) = (n <=? i)%nat.

Lemma idle_pending n segs s :
  pending n s -> (0 < List.length segs <= TX_RING_SIZE / 2)%nat -> (n + List.length segs <= TX_RING_SIZE)%nat ->
  let '(r, s') := e1000_send_scatter idle segs s in
  r = -1 /\ pending (n + List.length segs) s' /\
  last (nic_writes s') = Some (E1000_TDT, Z.of_nat ((n + List.length segs) mod TX_RING_SIZE)).
Proof.
  intros (H1 & H2 & H3) Hs Hn. assert (forall j, (j < List.length segs)%nat -> slot_at (tx_tail s) j = (n + j)%nat) as Hat.
  { intros j Hj. unfold slot_at. rewrite H2, Nat.Div0.add_mod_idemp_l. apply Nat.mod_small. lia. }
  destruct (idle_send segs s H1 Hs) as [k ->].
  { intros j Hj. rewrite Hat, H3 by lia. apply Nat.leb_le. lia. }
  assert (slot_at (tx_tail s) (List.length segs) = ((n + List.length segs) mod TX_RING_SIZE)%nat) as Et.
  { unfold slot_at. by rewrite H2, Nat.Div0.add_mod_idemp_l. }
  split_and!; [done| |].
  - split_and!; cbn [tx_ring tx_tail set_nic_reads nic_write set_nic_writes set_tx_tail set_tx_ring].
    + by rewrite put_frame_length.
    + exact Et.
    + intros i Hi. unfold tx_slot. cbn [tx_ring set_nic_reads nic_write set_nic_writes set_tx_tail set_tx_ring].
      destruct (decide (n <= i < n + List.length segs)%nat) as [D|D].
      * destruct (lookup_lt_is_Some_2 segs (i - n)) as [[a len] Hl]; [lia|].
        replace i with (slot_at (tx_tail s) (i - n)) by (rewrite Hat; lia).
        rewrite (put_frame_at segs (tx_tail s) (tx_ring s) (i - n) a len H1 (proj2 Hs) Hl). rewrite Hat by lia.
        symmetry. apply Nat.leb_gt. lia.
      * rewrite put_frame_out by (intros j Hj; rewrite Hat; lia). pose proof (H3 i Hi) as E. unfold tx_slot in E. rewrite E.
        destruct (Nat.leb_spec n i), (Nat.leb_spec (n + List.length segs) i); lia || done.
  - cbn [nic_writes set_nic_reads nic_write set_nic_writes set_tx_tail set_tx_ring]. by rewrite last_snoc, Et.
Qed.

(** * Properties *)



(** C13: the receive ring is a queue.  After [e1000_init] with 32 pages to be
    had, for every interleaving of frames that arrive and polls, the polls get
    exactly what a queue of 31 frames gives: the frames in order of arrival,
    each once, cut to the caller's size; a frame is lost only when 31 are
    waiting. *)
Theorem rx_ring_refines_queue reg rx_phys tx_phys m max_len es bufs :
  pool_ok m -> (RX_RING_SIZE <= capacity m)%nat -> 0 < max_len -> Forall real_frame es ->
  let '(r, _, s, _) := e1000_init reg rx_phys tx_phys nic0 m in
  r = 0 /\ fst (ring_run max_len es (announced bufs s, s)) = fst (queue_run max_len es []).
Proof.
  intros Hm Hc Hmax Hes. destruct (init_spec reg rx_phys tx_phys m Hm Hc) as (mac & s & m' & -> & Hh & _).
  split; [done|]. by apply ring_run_queue.
Qed.

Lemma rx_ring_refines_queue_witness :
  let m := mk_mm 0x200000 0x400000 0 (fun _ => 0) in
  let '(_, _, s, _) := e1000_init (fun _ _ => 0) 0x1000 0x2000 nic0 m in
  fst (ring_run 2 [Frame [1; 2; 3]; Poll; Frame [4]; Poll; Poll] (announced (fun _ => []) s, s)) =
  [Some [1; 2]; Some [4]; None].
Proof.
  intros m. pose proof (rx_ring_refines_queue (fun _ _ => 0) 0x1000 0x2000 m 2
    [Frame [1; 2; 3]; Poll; Frame [4]; Poll; Poll] (fun _ => [])) as W.
  destruct (e1000_init (fun _ _ => 0) 0x1000 0x2000 nic0 m) as [[[r mac] s] m']. apply W.
  - split; reflexivity || (vm_compute; congruence).
  - assert (capacity m = Z.to_nat 511) as -> by reflexivity. unfold RX_RING_SIZE. lia.
  - lia.
  - by repeat constructor.
Defined.

(** A card that stops answering is overrun.  Nothing keeps the tail from
    catching up with the head: after four frames of eight segments that time
    out, every descriptor is still the card's, but the tail that is announced is
    0, where the card stands, which says that there is nothing to send. *)
Theorem tx_ring_overrun f1 f2 f3 f4 :
  List.length f1 = 8%nat -> List.length f2 = 8%nat -> List.length f3 = 8%nat -> List.length f4 = 8%nat ->
  let s0 := set_tx_ring (replicate TX_RING_SIZE (mk_tx 0 0 0 0 E1000_TXD_STAT_DD 0 0)) nic0 in
  let s1 := snd (e1000_send_scatter idle f1 s0) in
  let s2 := snd (e1000_send_scatter idle f2 s1) in
  let s3 := snd (e1000_send_scatter idle f3 s2) in
  let '(r, s4) := e1000_send_scatter idle f4 s3 in
  r = -1 /\ last (nic_writes s4) = Some (E1000_TDT, 0) /\ forall i, (i < TX_RING_SIZE)%nat -> tx_done (tx_slot s4 i) = false.
Proof.
  intros E1 E2 E3 E4 s0. assert (pending 0 s0) as P0.
  { split_and!; [done|done|]. intros i Hi. unfold tx_slot, s0. cbn [tx_ring set_tx_ring].
    by rewrite lookup_replicate_2 by done. }
  assert (forall f : list (Z * Z), List.length f = 8%nat -> (0 < List.length f <= TX_RING_SIZE / 2)%nat) as Hf by (intros f ->; cbn; lia).
  pose proof (idle_pending 0 f1 s0 P0 (Hf _ E1) ltac:(rewrite E1; unfold TX_RING_SIZE; lia)) as A1.
  destruct (e1000_send_scatter idle f1 s0) as [r1 s1]. destruct A1 as (_ & P1 & _). cbn [snd].
  pose proof (idle_pending _ f2 s1 P1 (Hf _ E2) ltac:(rewrite E1, E2; unfold TX_RING_SIZE; lia)) as A2.
  destruct (e1000_send_scatter idle f2 s1) as [r2 s2]. destruct A2 as (_ & P2 & _). cbn [snd].
  pose proof (idle_pending _ f3 s2 P2 (Hf _ E3) ltac:(rewrite E1, E2, E3; unfold TX_RING_SIZE; lia)) as A3.
  destruct (e1000_send_scatter idle f3 s2) as [r3 s3]. destruct A3 as (_ & P3 & _). cbn [snd].
  pose proof (idle_pending _ f4 s3 P3 (Hf _ E4) ltac:(rewrite E1, E2, E3, E4; unfold TX_RING_SIZE; lia)) as A4.
  destruct (e1000_send_scatter idle f4 s3) as [r4 s4]. destruct A4 as (A & (_ & _ & P4) & L). rewrite E1, E2, E3, E4 in P4, L.
  split_and!; [done|done|]. intros i Hi. rewrite P4 by done. apply Nat.leb_gt. exact Hi.
Qed.

Lemma tx_ring_overrun_witness :
  let f := replicate 8 (4096, 60) in
  let s0 := set_tx_ring (replicate TX_RING_SIZE (mk_tx 0 0 0 0 E1000_TXD_STAT_DD 0 0)) nic0 in
  let s1 := snd (e1000_send_scatter idle f s0) in
  let s2 := snd (e1000_send_scatter idle f s1) in
  let s3 := snd (e1000_send_scatter idle f s2) in
  let '(r, s4) := e1000_send_scatter idle f s3 in
  r = -1 /\ last (nic_writes s4) = Some (E1000_TDT, 0) /\ forall i, (i < TX_RING_SIZE)%nat -> tx_done (tx_slot s4 i) = false.
Proof. intros f. exact (tx_ring_overrun f f f f eq_refl eq_refl eq_refl eq_refl). Defined.

(** [e1000_send_raw] does not look whether its slot is free: a descriptor the
    card has not completed is overwritten. *)
Theorem send_raw_overwrites hw data len s :
  (forall n s, completes s (hw n s)) -> (tx_tail s < List.length (tx_ring s))%nat -> tx_done (tx_slot s (tx_tail s)) = false ->
  let s' := snd (e1000_send_raw hw data len s) in
  addr (tx_slot s' (tx_tail s)) = data /\ tx_tail s' = slot_at (tx_tail s) 1.
Proof.
  intros Hhw Ht _. unfold e1000_send_raw. set (s2 := nic_write _ _ _).
  pose proof (wait_done_spec hw Hhw E1000_TX_TIMEOUT (tx_tail s) s2) as W. destruct (wait_done hw _ _ s2) as [d s'].
  destruct W as [[W1 W2 W3 W4 W5] _]. assert (addr (tx_slot s2 (tx_tail s)) = data) as Ea.
  { unfold tx_slot. cbn [s2 tx_ring nic_write set_nic_writes set_tx_tail set_tx_ring]. rewrite list_lookup_alter_eq.
    destruct (lookup_lt_is_Some_2 _ _ Ht) as [x ->]. done. }
  specialize (W4 (tx_tail s)). injection W4 as W4 _. destruct d; cbn [snd]; by split; [congruence|rewrite W1].
Qed.
