(* ===== verification/Idt.v ===== *)
(** Interrupts: src/arch/idt.c.

    The descriptor table, the two interrupt controllers as far as the kernel
    programs them, and the handler all vectors lead to. *)

From Stdlib Require Import ZArith Lia Bool.
From stdpp Require Import base list numbers option.
From S2P Require Import Prelude.

Open Scope Z_scope.

(** * Data *)

Record idt_entry_t := mk_gate {
  isr_low : Z; kernel_cs : Z; ist : Z; attributes : Z; isr_mid : Z; isr_high : Z; reserved : Z
}.

(** The part of [registers_t] the handler reads or writes. *)
Record registers_t := mk_regs { int_no : Z; err_code : Z; rip : Z }.

(** An 8259 controller: where it is in its initialisation (0 when ready, then
    the number of the next initialisation word), the first vector, the line of
    the other controller, the mode, the mask, and the ends of interrupt it got. *)
Record pic := mk_pic { icw : nat; vector : Z; cascade : Z; mode : Z; mask : Z; eois : nat }.

(** The word 0x11 starts the initialisation with all four words, 0x20 ends an
    interrupt. *)
Definition pic_command (val : Z) (p : pic) : pic :=
  if val =? 0x11 then mk_pic 2 (vector p) (cascade p) (mode p) (mask p) (eois p)
  else if val =? 0x20 then mk_pic (icw p) (vector p) (cascade p) (mode p) (mask p) (S (eois p))
  else p.

Definition pic_data (val : Z) (p : pic) : pic :=
  match icw p with
  | 2%nat => mk_pic 3 val (cascade p) (mode p) (mask p) (eois p)
  | 3%nat => mk_pic 4 (vector p) val (mode p) (mask p) (eois p)
  | 4%nat => mk_pic 0 (vector p) (cascade p) val (mask p) (eois p)
  | _ => mk_pic (icw p) (vector p) (cascade p) (mode p) val (eois p)
  end.

Record irq_state := mk_irq {
  pic1 : pic;
  pic2 : pic;
  idt : list idt_entry_t;
  packet_pending : Z;
  mpk_test_in_progress : Z;
  mpk_test_fault_occurred : Z
}.

Definition set_pics (a b : pic) (s : irq_state) : irq_state :=
  mk_irq a b (idt s) (packet_pending s) (mpk_test_in_progress s) (mpk_test_fault_occurred s).
Definition set_idt (v : list idt_entry_t) (s : irq_state) : irq_state :=
  mk_irq (pic1 s) (pic2 s) v (packet_pending s) (mpk_test_in_progress s) (mpk_test_fault_occurred s).
Definition set_packet_pending (v : Z) (s : irq_state) : irq_state :=
  mk_irq (pic1 s) (pic2 s) (idt s) v (mpk_test_in_progress s) (mpk_test_fault_occurred s).
Definition set_mpk_test (progress fault : Z) (s : irq_state) : irq_state :=
  mk_irq (pic1 s) (pic2 s) (idt s) (packet_pending s) progress fault.

Definition PIC1_COMMAND : Z := 0x20.
Definition PIC1_DATA : Z := 0x21.
Definition PIC2_COMMAND : Z := 0xA0.
Definition PIC2_DATA : Z := 0xA1.

(** The ports of the two controllers; a byte is written. *)
Definition outb (port val : Z) (s : irq_state) : irq_state :=
  let val := val mod 256 in
  if port =? PIC1_COMMAND then set_pics (pic_command val (pic1 s)) (pic2 s) s
  else if port =? PIC1_DATA then set_pics (pic_data val (pic1 s)) (pic2 s) s
  else if port =? PIC2_COMMAND then set_pics (pic1 s) (pic_command val (pic2 s)) s
  else if port =? PIC2_DATA then set_pics (pic1 s) (pic_data val (pic2 s)) s
  else s.

(** Reading a data port gives the mask. *)
Definition inb (port : Z) (s : irq_state) : Z := if port =? PIC1_DATA then mask (pic1 s) else mask (pic2 s).

(** * Operations *)

Definition pic_remap (offset1 offset2 : Z) (s : irq_state) : irq_state :=
  let a1 := inb PIC1_DATA s in
  let a2 := inb PIC2_DATA s in
  let s := outb PIC2_COMMAND 0x11 (outb PIC1_COMMAND 0x11 s) in
  let s := outb PIC2_DATA offset2 (outb PIC1_DATA offset1 s) in
  let s := outb PIC2_DATA 2 (outb PIC1_DATA 4 s) in
  let s := outb PIC2_DATA 0x01 (outb PIC1_DATA 0x01 s) in
  outb PIC2_DATA a2 (outb PIC1_DATA a1 s).

Definition pic_send_eoi (irq : Z) (s : irq_state) : irq_state :=
  let s := if 8 <=? irq then outb PIC2_COMMAND 0x20 s else s in
  outb PIC1_COMMAND 0x20 s.

Definition gate (isr : Z) : idt_entry_t :=
  mk_gate (Z.land isr 0xFFFF) 0x38 0 0x8E (Z.land (Z.shiftr isr 16) 0xFFFF) (Z.land (Z.shiftr isr 32) 0xFFFFFFFF) 0.

Definition idt_set_gate (vector : nat) (isr : Z) (s : irq_state) : irq_state := set_idt (<[vector := gate isr]> (idt s)) s.

(** [isr_stub_table] is the table of the assembler file. *)
Definition init_idt (isr_stub_table : nat -> Z) (s : irq_state) : irq_state :=
  let s := pic_remap 32 40 s in
  let s := outb PIC2_DATA 0x00 (outb PIC1_DATA 0x00 s) in
  foldl (fun s i => idt_set_gate i (isr_stub_table i) s) s (seq 0 48).

(** The handler returns to the interrupted program, or halts the machine. *)
Inductive handled := Resume (regs : registers_t) | Halt.

Definition interrupt_handler (regs : registers_t) (s : irq_state) : handled * irq_state :=
  if (int_no regs =? 14) && negb (mpk_test_in_progress s =? 0) then
    (Resume (mk_regs (int_no regs) (err_code regs) ((rip regs + 2) mod 2 ^ 64)), set_mpk_test 0 1 s)
  else if (32 <=? int_no regs) && (int_no regs <? 48) then
    (Resume regs, pic_send_eoi ((int_no regs - 32) mod 256) (set_packet_pending 1 s))
  else (Halt, s).

(** * Facts *)

(** The address the processor finds in a gate. *)
Definition gate_target (g : idt_entry_t) : Z := Z.lor (isr_low g) (Z.lor (Z.shiftl (isr_mid g) 16) (Z.shiftl (isr_high g) 32)).

Lemma gate_roundtrip isr : 0 <= isr < 2 ^ 64 -> gate_target (gate isr) = isr.
Proof.
  intros Hi. unfold gate_target, gate. cbn [isr_low isr_mid isr_high].
  apply Z.bits_inj'. intros i Hi0. rewrite !Z.lor_spec, !Z.shiftl_spec, !Z.land_spec by lia.
  change 0xFFFF with (Z.ones 16). change 0xFFFFFFFF with (Z.ones 32).
  destruct (decide (i < 16)); [|destruct (decide (i < 32)); [|destruct (decide (i < 64))]].
  - rewrite Z.ones_spec_low, !(Z.testbit_neg_r _ (i - 16)), !(Z.testbit_neg_r _ (i - 32)) by lia. by rewrite andb_true_r, !orb_false_r.
  - rewrite (Z.ones_spec_high 16 i), !(Z.testbit_neg_r _ (i - 32)), Z.ones_spec_low, Z.shiftr_spec by lia.
    rewrite andb_false_r, andb_true_r, orb_false_r. cbn [orb]. f_equal. lia.
  - rewrite (Z.ones_spec_high 16 i), (Z.ones_spec_high 16 (i - 16)), Z.ones_spec_low, (Z.shiftr_spec _ 32) by lia.
    rewrite !andb_false_r, andb_true_r. cbn [orb]. f_equal. lia.
  - rewrite (Z.ones_spec_high 16 i), (Z.ones_spec_high 16 (i - 16)), (Z.ones_spec_high 32) by lia.
    rewrite !andb_false_r. cbn [orb]. symmetry. destruct (decide (isr = 0)) as [->|N]; [apply Z.bits_0|].
    apply Z.bits_above_log2; [lia|]. apply Z.log2_lt_pow2; [lia|]. eapply Z.lt_le_trans; [apply Hi|]. apply Z.pow_le_mono_r; lia.
Qed.

Lemma set_gates_spec f n k s :
  let s' := foldl (fun s i => idt_set_gate i (f i) s) s (seq k n) in
  (k + n <= length (idt s))%nat ->
  length (idt s') = length (idt s) /\ pic1 s' = pic1 s /\ pic2 s' = pic2 s /\
  (forall i, idt s' !! i = if decide (k <= i < k + n)%nat then Some (gate (f i)) else idt s !! i).
Proof.
  revert k s; induction n as [|n IH]; intros k s s' Hl.
  { split_and!; [done..|]. intros i. by rewrite decide_False by lia. }
  destruct (IH (S k) (idt_set_gate k (f k) s)) as (A & B & C & D); [cbn; rewrite length_insert; lia|].
  change (foldl _ _ (seq (S k) n)) with s' in A, B, C, D. cbn [idt pic1 pic2 idt_set_gate set_idt] in *. rewrite length_insert in A.
  split_and!; [done..|]. intros i. rewrite D. destruct (decide (i = k)) as [->|N].
  - rewrite decide_False, decide_True by lia. apply list_lookup_insert_eq. lia.
  - rewrite list_lookup_insert_ne by done. apply decide_ext. lia.
Qed.

(** * Properties *)

(** Interrupts are set up right: after [init_idt], from whatever state the
    controllers were in, the gate of each of the 48 vectors leads the processor
    to its stub, as an interrupt gate of the kernel's code segment, and the
    other gates are untouched; the controllers are initialised, send vectors 32
    to 47, are cascaded over line 2, and mask nothing. *)
Theorem init_idt_ready isr_stub_table s :
  length (idt s) = 256%nat -> (forall i, 0 <= isr_stub_table i < 2 ^ 64) ->
  let s' := init_idt isr_stub_table s in
  (forall v, (v < 48)%nat -> exists g, idt s' !! v = Some g /\
     gate_target g = isr_stub_table v /\ kernel_cs g = 0x38 /\ attributes g = 0x8E) /\
  (forall v, (48 <= v)%nat -> idt s' !! v = idt s !! v) /\
  (icw (pic1 s'), vector (pic1 s'), cascade (pic1 s'), mask (pic1 s')) = (O, 32, 4, 0) /\
  (icw (pic2 s'), vector (pic2 s'), cascade (pic2 s'), mask (pic2 s')) = (O, 40, 2, 0).
Proof.
  intros Hl Hi. unfold init_idt. set (s1 := outb PIC2_DATA 0 _).
  destruct (set_gates_spec isr_stub_table 48 0 s1) as (A & B & C & D); [change (idt s1) with (idt s); lia|].
  cbv zeta. set (s' := foldl _ s1 _) in *. split_and!.
  - intros v Hv. exists (gate (isr_stub_table v)). rewrite D, decide_True by lia. split_and!; [done| |done|done]. by apply gate_roundtrip.
  - intros v Hv. by rewrite D, decide_False by lia.
  - rewrite B. reflexivity.
  - rewrite C. reflexivity.
Qed.

Definition irq0 : irq_state := mk_irq (mk_pic 3 0 0 0 255 0) (mk_pic 0 0 0 0 255 0) (replicate 256 (mk_gate 0 0 0 0 0 0 0)) 0 0 0.

Lemma init_idt_ready_witness :
  let s' := init_idt (fun i => 0xFFFF800000100000 + 16 * Z.of_nat i mod 4096) irq0 in
  (exists g, idt s' !! 33%nat = Some g /\ gate_target g = 0xFFFF800000100210) /\ vector (pic1 s') = 32.
Proof.
  destruct (init_idt_ready (fun i => 0xFFFF800000100000 + 16 * Z.of_nat i mod 4096) irq0) as (W1 & _ & W3 & _).
  - reflexivity.
  - intros i. pose proof (Z.mod_pos_bound (16 * Z.of_nat i) 4096 ltac:(lia)). lia.
  - split; [|exact (f_equal (fun x => snd (fst (fst x))) W3)]. destruct (W1 33%nat ltac:(lia)) as (g & Hg & Ht & _). exists g. by split.
Defined.

(** The handler: a hardware interrupt marks the network as pending, is ended on
    the controllers it came through, the second one first, and resumes where it
    was; the fault the self-test provokes is noted and skipped; everything else
    halts the machine and changes nothing. *)
Theorem interrupt_handler_spec regs s :
  let '(r, s') := interrupt_handler regs s in
  if (int_no regs =? 14) && negb (mpk_test_in_progress s =? 0) then
    r = Resume (mk_regs (int_no regs) (err_code regs) ((rip regs + 2) mod 2 ^ 64)) /\
    mpk_test_in_progress s' = 0 /\ mpk_test_fault_occurred s' = 1
  else if bool_decide (32 <= int_no regs < 48) then
    r = Resume regs /\ packet_pending s' = 1 /\ eois (pic1 s') = S (eois (pic1 s)) /\
    eois (pic2 s') = (if bool_decide (40 <= int_no regs) then S (eois (pic2 s)) else eois (pic2 s))
  else r = Halt /\ s' = s.
Proof.
  unfold interrupt_handler. destruct (_ && negb _); [done|].
  destruct (Z.leb_spec 32 (int_no regs)), (Z.ltb_spec (int_no regs) 48); cbn [andb];
    [rewrite bool_decide_true by lia|rewrite bool_decide_false by lia; done..].
  rewrite Z.mod_small by lia. unfold pic_send_eoi. destruct (Z.leb_spec 8 (int_no regs - 32)).
  - by rewrite bool_decide_true by lia.
  - by rewrite bool_decide_false by lia.
Qed.
