(* ===== verification/Pci.v ===== *)
(** The PCI bus: src/drivers/pci.c.

    Configuration space is reached through two ports: an address is latched,
    then the register at the address is read or written. *)

From Stdlib Require Import ZArith Lia Bool.
From stdpp Require Import base list numbers option.
From S2P Require Import Prelude.

Open Scope Z_scope.

Definition PCI_CFG_ADDR_PORT : Z := 0x0CF8.
Definition PCI_CFG_DATA_PORT : Z := 0x0CFC.
Definition PCI_CFG_VENDOR_ID : Z := 0x00.
Definition PCI_CFG_COMMAND : Z := 0x04.
Definition PCI_CFG_HEADER_TYPE : Z := 0x0C.
Definition PCI_CFG_BAR0 : Z := 0x10.
Definition PCI_CFG_BAR1 : Z := 0x14.

Definition ANGELIC_NIC_VENDOR : Z := 0x8086.

(** With the terminating zero. *)
Definition ANGELIC_NIC_IDS : list Z := [0x100E; 0x1076; 0x100F; 0x1079; 0x107C; 0x1010; 0x1011; 0x1026; 0].

(** * The bus *)

(** The latched address and the registers by address. *)
Record pci_bus := mk_bus { latch : Z; space : Z -> Z }.

Definition pci_outl (port val : Z) (s : pci_bus) : pci_bus :=
  if port =? PCI_CFG_ADDR_PORT then mk_bus val (space s)
  else if port =? PCI_CFG_DATA_PORT then mk_bus (latch s) (fun a => if a =? latch s then val else space s a)
  else s.

Definition pci_inl (port : Z) (s : pci_bus) : Z := if port =? PCI_CFG_DATA_PORT then space s (latch s) else latch s.

(** * Operations *)

Definition cfg_addr (bus dev fn off : Z) : Z :=
  Z.lor (Z.lor (Z.lor (Z.lor (Z.shiftl 1 31) (Z.shiftl bus 16)) (Z.shiftl dev 11)) (Z.shiftl fn 8)) (Z.land off 0xFC).

Definition pci_cfg_read32 (bus dev fn off : Z) (s : pci_bus) : Z * pci_bus :=
  let s := pci_outl PCI_CFG_ADDR_PORT (cfg_addr bus dev fn off) s in (pci_inl PCI_CFG_DATA_PORT s, s).

Definition pci_cfg_write32 (bus dev fn off val : Z) (s : pci_bus) : pci_bus :=
  let s := pci_outl PCI_CFG_ADDR_PORT (cfg_addr bus dev fn off) s in pci_outl PCI_CFG_DATA_PORT val s.

(** Memory space and bus mastering on. *)
Definition pci_enable_device (bus dev fn : Z) (s : pci_bus) : pci_bus :=
  let '(cmd, s) := pci_cfg_read32 bus dev fn PCI_CFG_COMMAND s in
  pci_cfg_write32 bus dev fn PCI_CFG_COMMAND (Z.lor cmd (Z.lor (Z.shiftl 1 1) (Z.shiftl 1 2))) s.

(** The scan of the array up to its zero. *)
Fixpoint id_in (did : Z) (ids : list Z) : bool :=
  match ids with
  | [] => false
  | x :: ids' => if x =? 0 then false else if x =? did then true else id_in did ids'
  end.

Definition device_id_matches (vid did : Z) : bool :=
  if negb (vid =? ANGELIC_NIC_VENDOR) then false else id_in did ANGELIC_NIC_IDS.

(** How the body of the innermost loop ends. *)
Inductive probed := Break | Next | Return (base : Z).

(** The address in the base registers, after the device is enabled. *)
Definition read_bar (bus dev fn : Z) (s : pci_bus) : Z * pci_bus :=
  let '(bar0, s) := pci_cfg_read32 bus dev fn PCI_CFG_BAR0 s in
  if negb (Z.land bar0 1 =? 0) then (0, s)
  else
    let base := Z.land bar0 0xFFFFFFF0 in
    if Z.land bar0 (Z.shiftl 3 1) =? Z.shiftl 2 1 then
      let '(bar1, s) := pci_cfg_read32 bus dev fn PCI_CFG_BAR1 s in (Z.lor base (Z.shiftl bar1 32), s)
    else (base, s).

Definition probe (vendor_id device_id bus dev fn : Z) (s : pci_bus) : probed * pci_bus :=
  let '(id, s) := pci_cfg_read32 bus dev fn PCI_CFG_VENDOR_ID s in
  if Z.land id 0xFFFF =? 0xFFFF then (if fn =? 0 then Break else Next, s)
  else
    let vid := Z.land id 0xFFFF in
    let did := Z.land (Z.shiftr id 16) 0xFFFF in
    if negb (vid =? vendor_id) || negb (did =? device_id) then
      if fn =? 0 then
        let '(hdr, s) := pci_cfg_read32 bus dev 0 PCI_CFG_HEADER_TYPE s in
        (if Z.land (Z.shiftr hdr 16) (Z.shiftl 1 7) =? 0 then Break else Next, s)
      else (Next, s)
    else
      let s := pci_enable_device bus dev fn s in
      let '(base, s) := read_bar bus dev fn s in (Return base, s).

(** The three loops, with the rounds left. *)
Fixpoint scan_fns (vendor_id device_id : Z) (n : nat) (bus dev fn : Z) (s : pci_bus) : option Z * pci_bus :=
  match n with
  | O => (None, s)
  | S n' =>
      match probe vendor_id device_id bus dev fn s with
      | (Break, s) => (None, s)
      | (Next, s) => scan_fns vendor_id device_id n' bus dev (fn + 1) s
      | (Return base, s) => (Some base, s)
      end
  end.

Fixpoint scan_devs (vendor_id device_id : Z) (n : nat) (bus dev : Z) (s : pci_bus) : option Z * pci_bus :=
  match n with
  | O => (None, s)
  | S n' =>
      match scan_fns vendor_id device_id 8 bus dev 0 s with
      | (Some base, s) => (Some base, s)
      | (None, s) => scan_devs vendor_id device_id n' bus (dev + 1) s
      end
  end.

Fixpoint scan_buses (vendor_id device_id : Z) (n : nat) (bus : Z) (s : pci_bus) : option Z * pci_bus :=
  match n with
  | O => (None, s)
  | S n' =>
      match scan_devs vendor_id device_id 32 bus 0 s with
      | (Some base, s) => (Some base, s)
      | (None, s) => scan_buses vendor_id device_id n' (bus + 1) s
      end
  end.

Definition pci_get_bar (vendor_id device_id : Z) (s : pci_bus) : Z * pci_bus :=
  let '(r, s) := scan_buses vendor_id device_id 256 0 s in (default 0 r, s).

(** The base address and the device that matched. *)
Fixpoint find_nic (ids : list Z) (s : pci_bus) : Z * Z * pci_bus :=
  match ids with
  | [] => (0, 0, s)
  | did :: ids' =>
      if did =? 0 then (0, 0, s)
      else
        let '(bar, s) := pci_get_bar ANGELIC_NIC_VENDOR did s in
        if negb (bar =? 0) then (bar, did, s) else find_nic ids' s
  end.

Definition pci_find_nic (s : pci_bus) : Z * Z * pci_bus := find_nic ANGELIC_NIC_IDS s.

(** * The search it performs *)

Section reference.
Context (vendor_id device_id : Z) (cfg : Z -> Z).

Definition absent (bus dev fn : Z) : bool := Z.land (cfg (cfg_addr bus dev fn PCI_CFG_VENDOR_ID)) 0xFFFF =? 0xFFFF.

Definition matches (bus dev fn : Z) : bool :=
  let id := cfg (cfg_addr bus dev fn PCI_CFG_VENDOR_ID) in
  (Z.land id 0xFFFF =? vendor_id) && (Z.land (Z.shiftr id 16) 0xFFFF =? device_id).

Definition multifunction (bus dev : Z) : bool :=
  negb (Z.land (Z.shiftr (cfg (cfg_addr bus dev 0 PCI_CFG_HEADER_TYPE)) 16) (Z.shiftl 1 7) =? 0).

(** The functions of a device: none, the first, or all of them. *)
Definition functions (bus dev : Z) : list Z :=
  if absent bus dev 0 then [] else if multifunction bus dev then [0; 1; 2; 3; 4; 5; 6; 7] else [0].

Definition wanted (f : Z * Z * Z) : bool :=
  let '(bus, dev, fn) := f in negb (absent bus dev fn) && matches bus dev fn.

Definition zseq (n : nat) (a : Z) : list Z := (fun i => a + Z.of_nat i) <$> seq 0 n.

Definition device_functions (bus dev : Z) : list (Z * Z * Z) := (fun fn => (bus, dev, fn)) <$> functions bus dev.

Definition bus_functions (bus : Z) (n : nat) (dev : Z) : list (Z * Z * Z) := zseq n dev ≫= device_functions bus.

(** Every function of every bus, in order. *)
Definition all_functions (n : nat) (bus : Z) : list (Z * Z * Z) := zseq n bus ≫= fun b => bus_functions b 32 0.

(** What the base registers of a function say. *)
Definition bar_of (f : Z * Z * Z) : Z :=
  let '(bus, dev, fn) := f in
  let bar0 := cfg (cfg_addr bus dev fn PCI_CFG_BAR0) in
  if negb (Z.land bar0 1 =? 0) then 0
  else if Z.land bar0 6 =? 4 then
    Z.lor (Z.land bar0 0xFFFFFFF0) (Z.shiftl (cfg (cfg_addr bus dev fn PCI_CFG_BAR1)) 32)
  else Z.land bar0 0xFFFFFFF0.

(** The space with the function's command register switched on. *)
Definition enabled (f : Z * Z * Z) : Z -> Z :=
  let '(bus, dev, fn) := f in
  let c := cfg_addr bus dev fn PCI_CFG_COMMAND in
  fun a => if a =? c then Z.lor (cfg c) 6 else cfg a.

Definition reference_scan (fs : list (Z * Z * Z)) : option Z * (Z -> Z) :=
  match List.find wanted fs with
  | Some f => (Some (bar_of f), enabled f)
  | None => (None, cfg)
  end.

End reference.

(** * Facts *)

Lemma zseq_S n a : zseq (S n) a = a :: zseq n (a + 1).
Proof.
  unfold zseq. cbn [seq fmap list_fmap]. f_equal; [lia|]. rewrite <- seq_shift, <- list_fmap_compose.
  apply list_fmap_ext. intros _ i _. cbn. lia.
Qed.

(** Addresses of registers of one function differ when the registers do. *)
Lemma cfg_addr_ne bus dev fn off : Z.testbit off 4 = true -> cfg_addr bus dev fn off <> cfg_addr bus dev fn PCI_CFG_COMMAND.
Proof.
  intros Ho E. apply (f_equal (fun x => Z.testbit x 4)) in E. unfold cfg_addr in E.
  rewrite !Z.lor_spec, !Z.land_spec, !Z.shiftl_spec in E by lia. rewrite Ho in E.
  rewrite (Z.testbit_neg_r 1 (4 - 31)), (Z.testbit_neg_r bus (4 - 16)), (Z.testbit_neg_r dev (4 - 11)),
    (Z.testbit_neg_r fn (4 - 8)) in E by lia.
  discriminate E.
Qed.

Section scan.
Context (vendor_id device_id : Z) (cfg : Z -> Z).

(** The result of a scan that started with the registers [cfg]. *)
Definition agrees (x : option Z * pci_bus) (fs : list (Z * Z * Z)) : Prop :=
  fst x = fst (reference_scan vendor_id device_id cfg fs) /\ space (snd x) = snd (reference_scan vendor_id device_id cfg fs).

Lemma agrees_cons_no x f fs : wanted vendor_id device_id cfg f = false -> agrees x fs -> agrees x (f :: fs).
Proof. intros Hf. unfold agrees, reference_scan. cbn [List.find]. by rewrite Hf. Qed.

Lemma agrees_nil s : space s = cfg -> agrees (None, s) [].
Proof. by split. Qed.

Lemma agrees_found f fs s :
  wanted vendor_id device_id cfg f = true -> space s = enabled cfg f -> agrees (Some (bar_of cfg f), s) (f :: fs).
Proof. intros Hf Hs. unfold agrees, reference_scan. cbn [List.find]. by rewrite Hf. Qed.

Lemma find_app {A} (P : A -> bool) l k :
  List.find P (l ++ k) = match List.find P l with Some x => Some x | None => List.find P k end.
Proof. induction l as [|a l IH]; cbn; [done|]. by destruct (P a). Qed.

(** A scan in two parts. *)
Lemma agrees_app x fs gs (k : pci_bus -> option Z * pci_bus) :
  agrees x fs -> (forall s, space s = cfg -> agrees (k s) gs) ->
  agrees (match x with (Some b, s) => (Some b, s) | (None, s) => k s end) (fs ++ gs).
Proof.
  intros Hx Hk. unfold agrees, reference_scan in *. rewrite find_app. destruct x as [[b|] s]; cbn [fst snd] in *.
  - destruct (List.find _ fs); destruct Hx as [E1 E2]; [by split|done].
  - destruct (List.find _ fs); destruct Hx as [E1 E2]; [done|by apply Hk].
Qed.

(** The body of the innermost loop. *)
Lemma probe_spec bus dev fn s :
  space s = cfg ->
  let '(r, s') := probe vendor_id device_id bus dev fn s in
  if wanted vendor_id device_id cfg (bus, dev, fn) then
    r = Return (bar_of cfg (bus, dev, fn)) /\ space s' = enabled cfg (bus, dev, fn)
  else
    space s' = cfg /\
    r = (if (fn =? 0) && (absent cfg bus dev fn || negb (multifunction cfg bus dev)) then Break else Next).
Proof.
  intros <-. unfold probe, wanted, matches, absent, pci_cfg_read32, pci_outl, pci_inl. cbn [latch space].
  set (id := space s (cfg_addr bus dev fn PCI_CFG_VENDOR_ID)).
  change (PCI_CFG_ADDR_PORT =? PCI_CFG_ADDR_PORT) with true. change (PCI_CFG_DATA_PORT =? PCI_CFG_DATA_PORT) with true. cbv iota.
  cbn [latch space]. fold id.
  destruct (Z.land id 0xFFFF =? 0xFFFF) eqn:Ea; cbn [negb andb orb].
  { split; [done|]. by rewrite andb_true_r. }
  destruct (Z.land id 0xFFFF =? vendor_id); [destruct (Z.land (Z.shiftr id 16) 0xFFFF =? device_id)|]; cbn [negb orb andb].
  2, 3: destruct (fn =? 0); cbn [andb]; [|done]; split; [done|]; unfold multifunction; rewrite negb_involutive; done.
  unfold pci_enable_device, read_bar, pci_cfg_write32, pci_cfg_read32, pci_outl, pci_inl, bar_of.
  change (PCI_CFG_ADDR_PORT =? PCI_CFG_ADDR_PORT) with true. change (PCI_CFG_DATA_PORT =? PCI_CFG_DATA_PORT) with true.
  change (PCI_CFG_DATA_PORT =? PCI_CFG_ADDR_PORT) with false. cbv iota. cbn [latch space].
  rewrite (proj2 (Z.eqb_neq _ _) (cfg_addr_ne bus dev fn PCI_CFG_BAR0 eq_refl)).
  change (Z.shiftl 3 1) with 6. change (Z.shiftl 2 1) with 4.
  destruct (negb _); [done|]. destruct (_ =? 4); [|done]. cbn [latch space].
  rewrite (proj2 (Z.eqb_neq _ _) (cfg_addr_ne bus dev fn PCI_CFG_BAR1 eq_refl)). done.
Qed.

(** The functions after the first. *)
Lemma scan_fns_rest n bus dev fn s :
  0 < fn -> space s = cfg -> agrees (scan_fns vendor_id device_id n bus dev fn s) ((fun f => (bus, dev, f)) <$> zseq n fn).
Proof.
  revert fn s; induction n as [|n IH]; intros fn s Hfn Hs; cbn [scan_fns]; [by apply agrees_nil|].
  rewrite zseq_S. cbn [fmap list_fmap]. pose proof (probe_spec bus dev fn s Hs) as P.
  destruct (probe vendor_id device_id bus dev fn s) as [r s']. destruct (wanted _ _ cfg (bus, dev, fn)) eqn:Ew.
  - destruct P as [-> P]. by apply agrees_found.
  - destruct P as [P ->]. assert ((fn =? 0) = false) as -> by lia. cbn [andb]. apply agrees_cons_no; [done|]. apply IH; [lia|done].
Qed.

Lemma scan_fns_spec bus dev s :
  space s = cfg -> agrees (scan_fns vendor_id device_id 8 bus dev 0 s) (device_functions cfg bus dev).
Proof.
  intros Hs. change (scan_fns vendor_id device_id 8 bus dev 0 s) with
    (match probe vendor_id device_id bus dev 0 s with
     | (Break, s) => (None, s)
     | (Next, s) => scan_fns vendor_id device_id 7 bus dev (0 + 1) s
     | (Return base, s) => (Some base, s)
     end).
  pose proof (probe_spec bus dev 0 s Hs) as P. unfold device_functions, functions.
  destruct (probe vendor_id device_id bus dev 0 s) as [r s']. destruct (wanted _ _ cfg (bus, dev, 0)) eqn:Ew.
  - destruct P as [-> P]. assert (absent cfg bus dev 0 = false) as ->.
    { unfold wanted in Ew. by destruct (absent cfg bus dev 0). }
    destruct (multifunction cfg bus dev); by apply agrees_found.
  - destruct P as [P ->]. rewrite Z.eqb_refl. cbn [andb]. destruct (absent cfg bus dev 0); [by apply agrees_nil|].
    destruct (multifunction cfg bus dev); cbn [orb negb].
    + apply agrees_cons_no; [done|]. apply (scan_fns_rest 7 bus dev 1); [lia|done].
    + apply agrees_cons_no; [done|]. by apply agrees_nil.
Qed.

Lemma scan_devs_spec n bus dev s :
  space s = cfg -> agrees (scan_devs vendor_id device_id n bus dev s) (bus_functions cfg bus n dev).
Proof.
  revert dev s; induction n as [|n IH]; intros dev s Hs; cbn [scan_devs]; [by apply agrees_nil|].
  unfold bus_functions. rewrite zseq_S. cbn [mbind list_bind]. apply agrees_app; [by apply scan_fns_spec|]. intros s1 Hs1. by apply IH.
Qed.

Lemma scan_buses_spec n bus s :
  space s = cfg -> agrees (scan_buses vendor_id device_id n bus s) (all_functions cfg n bus).
Proof.
  revert bus s; induction n as [|n IH]; intros bus s Hs; cbn [scan_buses]; [by apply agrees_nil|].
  unfold all_functions. rewrite zseq_S. cbn [mbind list_bind]. apply agrees_app; [by apply scan_devs_spec|]. intros s1 Hs1. by apply IH.
Qed.

End scan.

(** * Properties *)

(** The scan of the bus finds the right device.  [pci_get_bar] returns what
    the base registers say of the first function, by bus, device and function,
    that is there and has the wanted identity, the functions of a device being
    all eight when its header says so and the first otherwise; 0 when there is
    none.  It switches on memory and bus mastering of that function and writes
    no other register. *)
Theorem pci_scan_is_search vendor_id device_id s :
  let '(r, s') := pci_get_bar vendor_id device_id s in
  match List.find (wanted vendor_id device_id (space s)) (all_functions (space s) 256 0) with
  | Some f => r = bar_of (space s) f /\ space s' = enabled (space s) f
  | None => r = 0 /\ space s' = space s
  end.
Proof.
  unfold pci_get_bar. pose proof (scan_buses_spec vendor_id device_id (space s) 256 0 s eq_refl) as A.
  destruct (scan_buses vendor_id device_id 256 0 s) as [r s']. unfold agrees, reference_scan in A.
  destruct (List.find _ _) as [f|]; destruct A as [A1 A2]; cbn [fst snd] in *; by subst.
Qed.

(** A bus with a bridge and, on device 3, a network card with a 64-bit base. *)
Definition demo_space (a : Z) : Z :=
  if a =? cfg_addr 0 0 0 0 then 0x12378086
  else if a =? cfg_addr 0 3 0 0 then 0x100E8086
  else if a =? cfg_addr 0 3 0 4 then 0x00000001
  else if a =? cfg_addr 0 3 0 0x10 then 0xFEB80004
  else if a =? cfg_addr 0 3 0 0x14 then 0x00000001
  else if Z.land a 0xFC =? 0 then 0xFFFFFFFF else 0.

Example pci_demo :
  let '(base, did, s') := pci_find_nic (mk_bus 0 demo_space) in
  (base, did, space s' (cfg_addr 0 3 0 4)) = (0x1FEB80000, 0x100E, 7).
Proof. vm_compute. reflexivity. Qed.
