(* ===== verification/NetGlue.v ===== *)
(** Between lwIP and the network card: src/net/lwip_glue.c, and the part of the
    main loop of src/kernel.c that polls the card.

    lwIP's side, the allocation of packet buffers and the input function of the
    interface, is a parameter. *)

From Stdlib Require Import ZArith Lia Bool.
From stdpp Require Import base list numbers option.
From S2P Require Import Prelude.
From S2P Require Import Pmm.
From S2P Require Import E1000.

Open Scope Z_scope.

Definition ERR_OK : Z := 0.
Definition MAX_TX_SEGS : nat := 8.
Definition FRAME_MAX : Z := 1514.

(** A link of a packet buffer: the address of its payload and its bytes. *)
Record pbuf := mk_pbuf { payload : Z; bytes : list Z }.

Definition pbuf_len (q : pbuf) : Z := Z.of_nat (List.length (bytes q)).

(** * Sending *)

(** The copy loop: the fallback buffer and the bytes in it. *)
Fixpoint copy_chain (p : list pbuf) (buf : list Z) (len : nat) : list Z * nat :=
  match p with
  | [] => (buf, len)
  | q :: p' =>
      if FRAME_MAX <? Z.of_nat len + pbuf_len q then (buf, len)
      else
        copy_chain p' (take len buf ++ bytes q ++ drop (len + List.length (bytes q)) buf) (len + List.length (bytes q))
  end.

(** [buf_addr] and [buf] are the address and the contents of
    [tx_buffer_fallback]. *)
Definition low_level_output_zerocopy (hw : nat -> nic -> nic) (buf_addr : Z) (p : list pbuf) (buf : list Z) (s : nic)
  : Z * list Z * nic :=
  let n_segs := List.length p in
  if (n_segs =? 0)%nat then (ERR_OK, buf, s)
  else if (n_segs <=? MAX_TX_SEGS)%nat then
    let segs := (fun q => (payload q, pbuf_len q mod 2 ^ 16)) <$> p in
    let '(_, s) := e1000_send_scatter hw segs s in (ERR_OK, buf, s)
  else
    let '(buf, len) := copy_chain p buf 0 in
    let '(_, s) := e1000_send_raw hw buf_addr (Z.of_nat len mod 2 ^ 16) s in (ERR_OK, buf, s).

(** * Receiving *)

(** What happens to a frame: no buffer for it, taken by lwIP, or refused and
    its buffer freed. *)
Inductive net_event := NoBuffer (frame : list Z) | Accepted (frame : list Z) | Refused (frame : list Z).

Section receive.
(** Whether [pbuf_alloc] succeeds and what the interface's input function
    answers, by the number of the frame. *)
Context (pbuf_alloc : nat -> bool) (netif_input : nat -> list Z -> Z).

Definition hand_over (n : nat) (frame : list Z) : net_event :=
  if pbuf_alloc n then (if netif_input n frame =? ERR_OK then Accepted frame else Refused frame) else NoBuffer frame.

(** The events so far are numbered. *)
Definition angelic_netif_poll (w : card * nic) (evs : list net_event) : (card * nic) * list net_event :=
  let '(r, w) := poll FRAME_MAX w in
  match r with
  | Some frame => (w, evs ++ [hand_over (List.length evs) frame])
  | None => (w, evs)
  end.

(** [for (i = 0; i < 4; i++) angelic_netif_poll();] *)
Fixpoint netif_polls (n : nat) (w : card * nic) (evs : list net_event) : (card * nic) * list net_event :=
  match n with
  | O => (w, evs)
  | S n' => let '(w, evs) := angelic_netif_poll w evs in netif_polls n' w evs
  end.

(** The first part of a round of the main loop. *)
Definition poll_network (packet_pending : Z) (w : card * nic) (evs : list net_event) : Z * (card * nic) * list net_event :=
  if negb (packet_pending =? 0) then let '(w, evs) := netif_polls 4 w evs in (0, w, evs)
  else (packet_pending, w, evs).

(** * Facts *)

(** Frames are handed over in order, numbered from [n] on. *)
Fixpoint hand_all (n : nat) (frames : list (list Z)) : list net_event :=
  match frames with
  | [] => []
  | f :: fs => hand_over n (take (Z.to_nat FRAME_MAX) f) :: hand_all (S n) fs
  end.

Lemma netif_polls_spec n q w evs :
  ring_holds q w -> Forall (fun f => f <> []) q ->
  let '(w', evs') := netif_polls n w evs in
  ring_holds (drop n q) w' /\ evs' = evs ++ hand_all (List.length evs) (take n q).
Proof.
  revert q w evs; induction n as [|n IH]; intros q w evs Hw Hq; cbn [netif_polls].
  { split; [by rewrite drop_0|by rewrite app_nil_r]. }
  unfold angelic_netif_poll. pose proof (poll_holds q FRAME_MAX w Hw Hq ltac:(done)) as P.
  destruct (poll FRAME_MAX w) as [r w1]. destruct q as [|f q]; destruct P as [-> P].
  - specialize (IH [] w1 evs P Hq). destruct (netif_polls n w1 evs) as [w' evs']. rewrite take_nil, drop_nil in IH. exact IH.
  - apply Forall_inv_tail in Hq. specialize (IH q w1 (evs ++ [hand_over (List.length evs) (take (Z.to_nat FRAME_MAX) f)]) P Hq).
    destruct (netif_polls n w1 _) as [w' evs']. cbn [take drop hand_all]. destruct IH as [A ->]. split; [done|].
    rewrite <- app_assoc, length_app. cbn [List.length app]. by rewrite Nat.add_1_r.
Qed.

End receive.

(** The longest run of whole links that fits after [len] bytes. *)
Fixpoint fitting (p : list pbuf) (len : Z) : list Z :=
  match p with
  | [] => []
  | q :: p' => if FRAME_MAX <? len + pbuf_len q then [] else bytes q ++ fitting p' (len + pbuf_len q)
  end.

Lemma copy_chain_spec p buf len :
  List.length buf = Z.to_nat FRAME_MAX -> (len <= List.length buf)%nat ->
  let '(buf', len') := copy_chain p buf len in
  List.length buf' = List.length buf /\ (len' <= List.length buf)%nat /\
  take len' buf' = take len buf ++ fitting p (Z.of_nat len).
Proof.
  revert buf len; induction p as [|q p IH]; intros buf len Hb Hl; cbn [copy_chain fitting].
  { by rewrite app_nil_r. }
  unfold pbuf_len. destruct (Z.ltb_spec FRAME_MAX (Z.of_nat len + Z.of_nat (List.length (bytes q)))) as [H|H].
  { by rewrite app_nil_r. }
  assert (len + List.length (bytes q) <= List.length buf)%nat as Hfit by (unfold FRAME_MAX in *; lia).
  set (buf1 := take len buf ++ bytes q ++ drop (len + List.length (bytes q)) buf).
  assert (List.length buf1 = List.length buf) as L1 by (unfold buf1; rewrite !length_app, length_take, length_drop; lia).
  specialize (IH buf1 (len + List.length (bytes q))%nat). destruct (copy_chain p buf1 _) as [buf' len'].
  destruct IH as (A & B & C); [congruence|lia|]. rewrite L1 in *. split_and!; [done|done|]. rewrite C.
  unfold buf1 at 1. rewrite app_assoc, take_app_length' by (rewrite length_app, length_take; lia).
  rewrite <- app_assoc. do 2 f_equal. by rewrite Nat2Z.inj_add.
Qed.

(** * Properties *)

(** A burst is served four frames at a time.  With [q] frames waiting in the
    receive ring, a round of the main loop that finds the flag of the interrupt
    handler set clears it and hands the first four frames to lwIP, in order,
    each once and cut to 1514 bytes; the frames after the fourth stay in the
    ring although the flag is down, until the next interrupt. *)
Theorem network_round pbuf_alloc netif_input packet_pending q w evs :
  ring_holds q w -> Forall (fun f => f <> []) q ->
  let '(pending', w', evs') := poll_network pbuf_alloc netif_input packet_pending w evs in
  pending' = 0 /\
  (packet_pending <> 0 -> ring_holds (drop 4 q) w' /\
     evs' = evs ++ hand_all pbuf_alloc netif_input (List.length evs) (take 4 q)) /\
  (packet_pending = 0 -> w' = w /\ evs' = evs).
Proof.
  intros Hw Hq. unfold poll_network. destruct (Z.eqb_spec packet_pending 0) as [->|N]; cbn [negb]; [by split_and!|].
  pose proof (netif_polls_spec pbuf_alloc netif_input 4 q w evs Hw Hq) as P.
  destruct (netif_polls pbuf_alloc netif_input 4 w evs) as [w' evs']. by split_and!.
Qed.

(** Two frames in the ring. *)
Definition two_frames : card * nic :=
  snd (card_deliver [4; 5] (snd (card_deliver [1; 2; 3]
    (mk_card 0 31 (fun _ => []),
     set_rx_ring ((fun i => mk_rx (4096 * Z.of_nat i) 0 0 0 0 0) <$> seq 0 32) nic0)))).

Lemma two_frames_hold : ring_holds [[1; 2; 3]; [4; 5]] two_frames.
Proof.
  assert (ring_holds [] (mk_card 0 31 (fun _ => []),
    set_rx_ring ((fun i => mk_rx (4096 * Z.of_nat i) 0 0 0 0 0) <$> seq 0 32) nic0)) as H0.
  { apply (fresh_ring_holds ((fun i => mk_rx (4096 * Z.of_nat i) 0 0 0 0 0) <$> seq 0 32) (fun _ => []) _
      (mk_mm 0 0 0 (fun _ => 0))); [reflexivity|reflexivity|reflexivity|].
    intros j Hj. rewrite list_lookup_fmap, lookup_seq_lt by done. reflexivity. }
  pose proof (deliver_ring_holds [] [1; 2; 3] _ H0) as [_ H1].
  exact (proj2 (deliver_ring_holds [[1; 2; 3]] [4; 5] _ H1)).
Qed.

Lemma network_round_witness :
  snd (poll_network (fun _ => true) (fun _ _ => 0) 1 two_frames []) = [Accepted [1; 2; 3]; Accepted [4; 5]].
Proof.
  pose proof (network_round (fun _ => true) (fun _ _ => 0) 1 [[1; 2; 3]; [4; 5]] two_frames []
    two_frames_hold ltac:(by repeat constructor)) as W.
  destruct (poll_network _ _ 1 two_frames []) as [[p w'] evs']. destruct W as (_ & W & _). by apply W.
Defined.

(** A frame in more links than the card takes at once is copied whole: when it
    fits in an Ethernet frame, the fallback buffer starts with its bytes, in
    order, and that is what is sent. *)
Theorem fallback_copies_frame hw buf_addr p buf s :
  (MAX_TX_SEGS < List.length p)%nat -> List.length buf = Z.to_nat FRAME_MAX ->
  Z.of_nat (List.length (p ≫= bytes)) <= FRAME_MAX ->
  let '(r, buf', s') := low_level_output_zerocopy hw buf_addr p buf s in
  take (List.length (p ≫= bytes)) buf' = p ≫= bytes /\
  s' = snd (e1000_send_raw hw buf_addr (Z.of_nat (List.length (p ≫= bytes))) s).
Proof.
  intros Hn Hb Hf. unfold low_level_output_zerocopy. destruct (Nat.eqb_spec (List.length p) 0); [lia|].
  destruct (Nat.leb_spec (List.length p) MAX_TX_SEGS); [lia|].
  pose proof (copy_chain_spec p buf 0 Hb ltac:(lia)) as C. destruct (copy_chain p buf 0) as [buf' len'].
  destruct C as (C1 & C2 & C3). rewrite take_0 in C3. cbn [app] in C3.
  assert (forall p len, 0 <= len -> len + Z.of_nat (List.length (p ≫= bytes)) <= FRAME_MAX -> fitting p len = p ≫= bytes) as Hfit.
  { clear. induction p as [|q p IH]; intros len Hl Hs; cbn [fitting mbind list_bind] in *; [done|].
    rewrite length_app in Hs. unfold pbuf_len. destruct (Z.ltb_spec FRAME_MAX (len + Z.of_nat (List.length (bytes q)))); [lia|].
    rewrite IH by (cbn [mbind]; lia). done. }
  rewrite Hfit in C3 by lia. assert (len' = List.length (p ≫= bytes)) as ->.
  { rewrite <- C3, length_take. lia. }
  rewrite Z.mod_small by (unfold FRAME_MAX in *; lia). by destruct (e1000_send_raw _ _ _ s).
Qed.
