(* ===== verification/Timers.v ===== *)
(** The timers of lwIP and the clock they run on: src/lwip/src/core/timeouts.c,
    as the options of include/lwipopts.h compile it, over [sys_now] of
    src/net/lwip_glue.c, called from the main loop of src/kernel.c.

    Three timers exist in this build: the timer of TCP, started on demand, and
    the cyclic timers of IP reassembly and of ARP.  The file shows that the list
    of timeouts is a queue ordered by due time, also where 32-bit time wraps
    around, that one call runs what is due and ends, and that with the clock the
    kernel supplies the cyclic timers stop after two rounds. *)

From Stdlib Require Import ZArith Lia Bool.
From stdpp Require Import base list numbers option sorting relations.
From S2P Require Import Prelude.

Local Open Scope Z_scope.

(** * Data *)

(** The functions this build puts on the list. *)
Inductive sys_timeout_handler := Tcpip_tcp_timer | Lwip_cyclic_timer.

#[export] Instance sys_timeout_handler_eq_dec : EqDecision sys_timeout_handler.
Proof. solve_decision. Defined.

(** What the stack runs on a timer. *)
Inductive stack_timer := Tcp_tmr | Ip_reass_tmr | Etharp_tmr.

#[export] Instance stack_timer_eq_dec : EqDecision stack_timer.
Proof. solve_decision. Defined.

(** [arg] is NULL or points to an entry of [lwip_cyclic_timers]. *)
Record sys_timeo := mk_timeo { time : Z; h : sys_timeout_handler; arg : option nat }.

Record lwip_cyclic_timer_t := mk_cyclic { interval_ms : Z; handler : stack_timer }.

Definition TCP_TMR_INTERVAL : Z := 250.
Definition IP_TMR_INTERVAL : Z := 1000.
Definition ARP_TMR_INTERVAL : Z := 1000.
Definition LWIP_MAX_TIMEOUT : Z := 0x7fffffff.
Definition LWIP_UINT32_MAX : Z := 0xffffffff.
Definition SYS_TIMEOUTS_SLEEPTIME_INFINITE : Z := 0xFFFFFFFF.

(** One for TCP, one for reassembly, one for ARP. *)
Definition MEMP_NUM_SYS_TIMEOUT : nat := 3.

Definition lwip_cyclic_timers : list lwip_cyclic_timer_t :=
  [mk_cyclic TCP_TMR_INTERVAL Tcp_tmr; mk_cyclic IP_TMR_INTERVAL Ip_reass_tmr; mk_cyclic ARP_TMR_INTERVAL Etharp_tmr].

Definition cyclic_of (i : option nat) : lwip_cyclic_timer_t :=
  default (mk_cyclic 0 Tcp_tmr) (i ≫= fun i => lwip_cyclic_timers !! i).

Definition TIME_LESS_THAN (t compare_to : Z) : bool := LWIP_MAX_TIMEOUT <? u32 (t - compare_to).

(** The globals of timeouts.c, the free elements of the pool, how often the
    clock and the list of connections have been looked at, and the timer
    functions run so far, the latest first. *)
Record timers := mk_timers {
  next_timeout : list sys_timeo;
  pool : nat;
  current_timeout_due_time : Z;
  tcpip_tcp_timer_active : Z;
  reads : nat;
  looks : nat;
  calls : list stack_timer }.

Definition set_next_timeout l s := mk_timers l (pool s) (current_timeout_due_time s) (tcpip_tcp_timer_active s) (reads s) (looks s) (calls s).
Definition set_pool n s := mk_timers (next_timeout s) n (current_timeout_due_time s) (tcpip_tcp_timer_active s) (reads s) (looks s) (calls s).
Definition set_due d s := mk_timers (next_timeout s) (pool s) d (tcpip_tcp_timer_active s) (reads s) (looks s) (calls s).
Definition set_active a s := mk_timers (next_timeout s) (pool s) (current_timeout_due_time s) a (reads s) (looks s) (calls s).
Definition tick s := mk_timers (next_timeout s) (pool s) (current_timeout_due_time s) (tcpip_tcp_timer_active s) (S (reads s)) (looks s) (calls s).
Definition look s := mk_timers (next_timeout s) (pool s) (current_timeout_due_time s) (tcpip_tcp_timer_active s) (reads s) (S (looks s)) (calls s).
Definition ran f s := mk_timers (next_timeout s) (pool s) (current_timeout_due_time s) (tcpip_tcp_timer_active s) (reads s) (looks s) (f :: calls s).

(** The state the loader leaves: the globals are zero, the pool is full. *)
Definition timers0 : timers := mk_timers [] MEMP_NUM_SYS_TIMEOUT 0 0 0 0 [].

(** * Operations

    [rdtsc n] is the time stamp counter at the [n]-th reading of the clock and
    [pcbs n] tells whether TCP has connections at the [n]-th look at them.  A
    failed assertion prints and loops for ever: [None]. *)
Section operations.
Context (rdtsc : nat -> Z) (pcbs : nat -> bool).

Definition sys_now (s : timers) : Z * timers := (u32 (rdtsc (reads s)) / 2000000, tick s).

(** The place of a new timeout in the rest of the list, after its head. *)
Fixpoint insert_after (timeout : sys_timeo) (l : list sys_timeo) : list sys_timeo :=
  match l with
  | [] => []
  | t :: next =>
      match next with
      | [] => [t; timeout]
      | t' :: _ => if TIME_LESS_THAN (time timeout) (time t') then t :: timeout :: next
                   else t :: insert_after timeout next
      end
  end.

Definition enqueue (timeout : sys_timeo) (l : list sys_timeo) : list sys_timeo :=
  match l with
  | [] => [timeout]
  | t :: _ => if TIME_LESS_THAN (time timeout) (time t) then timeout :: l else insert_after timeout l
  end.

Definition sys_timeout_abs (abs_time : Z) (handler : sys_timeout_handler) (arg : option nat) (s : timers)
  : option timers :=
  match pool s with
  | O => None
  | S n => Some (set_next_timeout (enqueue (mk_timeo abs_time handler arg) (next_timeout s)) (set_pool n s))
  end.

Definition sys_timeout (msecs : Z) (handler : sys_timeout_handler) (arg : option nat) (s : timers) : option timers :=
  if negb (msecs <=? LWIP_UINT32_MAX / 4) then None
  else let '(now, s) := sys_now s in
       let next_timeout_time := u32 (now + msecs) in
       sys_timeout_abs next_timeout_time handler arg s.

Definition lwip_cyclic_timer (arg : option nat) (s : timers) : option timers :=
  let cyclic := cyclic_of arg in
  let s := ran (handler cyclic) s in
  let '(now, s) := sys_now s in
  let next_timeout_time := u32 (current_timeout_due_time s + interval_ms cyclic) in
  if TIME_LESS_THAN next_timeout_time now
  then sys_timeout_abs (u32 (now + interval_ms cyclic)) Lwip_cyclic_timer arg s
  else sys_timeout_abs next_timeout_time Lwip_cyclic_timer arg s.

Definition tcpip_tcp_timer (s : timers) : option timers :=
  let s := ran Tcp_tmr s in
  if pcbs (looks s) then sys_timeout TCP_TMR_INTERVAL Tcpip_tcp_timer None (look s)
  else Some (set_active 0 (look s)).

Definition tcp_timer_needed (s : timers) : option timers :=
  if negb (tcpip_tcp_timer_active s =? 0) then Some s
  else if pcbs (looks s) then sys_timeout TCP_TMR_INTERVAL Tcpip_tcp_timer None (set_active 1 (look s))
  else Some (look s).

Fixpoint start_from (i n : nat) (s : timers) : option timers :=
  match n with
  | O => Some s
  | S n' => s ← sys_timeout (interval_ms (cyclic_of (Some i))) Lwip_cyclic_timer (Some i) s; start_from (S i) n' s
  end.

(** The timer of TCP at index 0 is not started here. *)
Definition sys_timeouts_init (s : timers) : option timers := start_from 1 (length lwip_cyclic_timers - 1) s.

Fixpoint unlink (handler : sys_timeout_handler) (a : option nat) (l : list sys_timeo) : option (list sys_timeo) :=
  match l with
  | [] => None
  | t :: next =>
      if bool_decide (h t = handler) && bool_decide (arg t = a) then Some next
      else cons t <$> unlink handler a next
  end.

Definition sys_untimeout (handler : sys_timeout_handler) (arg : option nat) (s : timers) : timers :=
  match unlink handler arg (next_timeout s) with
  | Some l => set_next_timeout l (set_pool (S (pool s)) s)
  | None => s
  end.

Definition call (h : sys_timeout_handler) (arg : option nat) (s : timers) : option timers :=
  match h with
  | Tcpip_tcp_timer => tcpip_tcp_timer s
  | Lwip_cyclic_timer => lwip_cyclic_timer arg s
  end.

(** At most [n] rounds of the loop; the flag tells whether it has returned. *)
Fixpoint check_loop (n : nat) (now : Z) (s : timers) : option (bool * timers) :=
  match n with
  | O => Some (false, s)
  | S n' =>
      match next_timeout s with
      | [] => Some (true, s)
      | tmptimeout :: next =>
          if TIME_LESS_THAN now (time tmptimeout) then Some (true, s)
          else
            let s := set_due (time tmptimeout) (set_next_timeout next s) in
            let s := set_pool (S (pool s)) s in
            s ← call (h tmptimeout) (arg tmptimeout) s;
            check_loop n' now s
      end
  end.

Definition sys_check_timeouts (fuel : nat) (s : timers) : option (bool * timers) :=
  let '(now, s) := sys_now s in check_loop fuel now s.

Definition sys_restart_timeouts (s : timers) : timers :=
  match next_timeout s with
  | [] => s
  | t :: _ =>
      let '(now, s) := sys_now s in
      let base := time t in
      set_next_timeout (map (fun t => mk_timeo (u32 (u32 (time t - base) + now)) (h t) (arg t)) (next_timeout s)) s
  end.

Definition sys_timeouts_sleeptime (s : timers) : option (Z * timers) :=
  match next_timeout s with
  | [] => Some (SYS_TIMEOUTS_SLEEPTIME_INFINITE, s)
  | t :: _ =>
      let '(now, s) := sys_now s in
      if TIME_LESS_THAN (time t) now then Some (0, s)
      else let ret := u32 (time t - now) in
           if negb (ret <=? LWIP_MAX_TIMEOUT) then None else Some (ret, s)
  end.
End operations.

(** * The list as a queue *)

(** Times are compared relative to a moment [b]: what lies in the half of the
    32-bit circle that starts there is ordered by its distance from [b]. *)
Definition since (b t : Z) : Z := u32 (t - b).

Definition ahead (b t : Z) : Prop := since b t <= LWIP_MAX_TIMEOUT.

Definition due_le (b : Z) (t t' : sys_timeo) : Prop := since b (time t) <= since b (time t').

#[export] Instance due_le_dec b t t' : Decision (due_le b t t').
Proof. unfold due_le. apply _. Defined.

Lemma time_less_since b t t' : ahead b t -> ahead b t' -> TIME_LESS_THAN t t' = (since b t <? since b t').
Proof.
  unfold ahead, TIME_LESS_THAN, since, LWIP_MAX_TIMEOUT, u32. intros H H'.
  pose proof (Z.mod_pos_bound (t - b) (2 ^ 32) ltac:(lia)). pose proof (Z.mod_pos_bound (t' - b) (2 ^ 32) ltac:(lia)).
  replace (t - t') with ((t - b) - (t' - b)) by lia. rewrite Zminus_mod.
  set (x := (t - b) mod 2 ^ 32) in *. set (y := (t' - b) mod 2 ^ 32) in *.
  destruct (Z.ltb_spec x y).
  - rewrite <-(Z_mod_plus_full _ 1), Z.mod_small by lia. apply Z.ltb_lt. lia.
  - rewrite Z.mod_small by lia. apply Z.ltb_ge. lia.
Qed.

(** A new timeout goes before the first one that is due after it. *)
Lemma insert_after_split x t l :
  TIME_LESS_THAN (time t) (time x) = false ->
  exists l1 l2, x :: l = l1 ++ l2 /\ insert_after t (x :: l) = l1 ++ t :: l2 /\
    Forall (fun y => TIME_LESS_THAN (time t) (time y) = false) l1 /\
    (forall y, head l2 = Some y -> TIME_LESS_THAN (time t) (time y) = true).
Proof.
  revert x. induction l as [|y l IH]; intros x Hx.
  - exists [x], []. split_and!; [done..|by repeat constructor|done].
  - change (insert_after t (x :: y :: l)) with
      (if TIME_LESS_THAN (time t) (time y) then x :: t :: y :: l else x :: insert_after t (y :: l)).
    destruct (TIME_LESS_THAN (time t) (time y)) eqn:Hy.
    + exists [x], (y :: l). split_and!; [done..|by repeat constructor|]. by intros ? [= <-].
    + destruct (IH y Hy) as (l1 & l2 & E & I & F & G). exists (x :: l1), l2.
      split_and!; [by rewrite E|by rewrite I|by constructor|done].
Qed.

Lemma enqueue_split t l :
  exists l1 l2, l = l1 ++ l2 /\ enqueue t l = l1 ++ t :: l2 /\
    Forall (fun y => TIME_LESS_THAN (time t) (time y) = false) l1 /\
    (forall y, head l2 = Some y -> TIME_LESS_THAN (time t) (time y) = true).
Proof.
  destruct l as [|x l]; cbn [enqueue].
  - by exists [], [].
  - destruct (TIME_LESS_THAN (time t) (time x)) eqn:E; [|by apply insert_after_split].
    exists [], (x :: l). split_and!; [done..|]. by intros ? [= <-].
Qed.

Lemma enqueue_perm t l : enqueue t l ≡ₚ t :: l.
Proof. destruct (enqueue_split t l) as (l1 & l2 & -> & -> & _). by rewrite Permutation_middle. Qed.

Lemma filter_all {A} (P : A -> Prop) `{!forall x, Decision (P x)} (l : list A) : Forall P l -> filter P l = l.
Proof. induction 1; [done|]. rewrite filter_cons_True by done. by f_equal. Qed.

Lemma filter_none {A} (P : A -> Prop) `{!forall x, Decision (P x)} (l : list A) : Forall (fun x => ~ P x) l -> filter P l = [].
Proof. induction 1; [done|]. by rewrite filter_cons_False. Qed.

(** Against a reference: the timeouts due no later, then the new one, then the
    others. *)
Lemma enqueue_filter b t l :
  ahead b (time t) -> Forall (fun x => ahead b (time x)) l -> StronglySorted (due_le b) l ->
  enqueue t l = filter (fun x => due_le b x t) l ++ t :: filter (fun x => ~ due_le b x t) l.
Proof.
  intros Ht Hl Hs. destruct (enqueue_split t l) as (l1 & l2 & -> & -> & F & G).
  apply Forall_app in Hl as [A1 A2]. apply StronglySorted_app in Hs as (_ & _ & S2).
  assert (L1 : Forall (fun x => due_le b x t) l1).
  { rewrite Forall_forall in F, A1. rewrite Forall_forall. intros x Hx. specialize (F x Hx). specialize (A1 x Hx).
    rewrite (time_less_since b) in F by done. unfold due_le. lia. }
  assert (L2 : Forall (fun x => ~ due_le b x t) l2).
  { destruct l2 as [|y l2]; [done|]. specialize (G y eq_refl).
    inversion A2; subst. rewrite (time_less_since b) in G by done.
    inversion S2 as [|? ? _ Hy]; subst. constructor; [unfold due_le; lia|].
    eapply Forall_impl; [exact Hy|]. unfold due_le. intros z Hz. lia. }
  rewrite !filter_app, (filter_all _ l1), (filter_none _ l2), app_nil_r by done.
  rewrite (filter_none _ l1), (filter_all _ l2) by (first [exact L2 | eapply Forall_impl; [exact L1|]; intros z Hz Hn; by apply Hn]).
  done.
Qed.

Lemma sorted_filter {A} (R : relation A) (P : A -> Prop) `{!forall x, Decision (P x)} (l : list A) :
  StronglySorted R l -> StronglySorted R (filter P l).
Proof.
  induction 1 as [|x l Hl IH Hx]; [constructor|]. destruct (decide (P x)).
  - rewrite filter_cons_True by done. constructor; [done|]. rewrite Forall_forall in Hx. apply Forall_forall.
    intros y [_ Hy]%list_elem_of_filter. by apply Hx.
  - by rewrite filter_cons_False.
Qed.

Lemma enqueue_sorted b t l :
  ahead b (time t) -> Forall (fun x => ahead b (time x)) l -> StronglySorted (due_le b) l ->
  StronglySorted (due_le b) (enqueue t l).
Proof.
  intros Ht Hl Hs. rewrite (enqueue_filter b) by done. apply StronglySorted_app. split_and!.
  - intros x y [Hx _]%list_elem_of_filter [->|[Hy _]%list_elem_of_filter]%elem_of_cons; [done|]. unfold due_le in *. lia.
  - by apply sorted_filter.
  - constructor; [by apply sorted_filter|]. apply Forall_forall. intros y [Hy _]%list_elem_of_filter.
    unfold due_le in *. lia.
Qed.

(** Removing a timeout takes out the first with that handler and argument and
    gives its element back; nothing happens when there is none. *)
Lemma untimeout_spec f a s :
  let s' := sys_untimeout f a s in
  (exists t, h t = f /\ arg t = a /\ next_timeout s ≡ₚ t :: next_timeout s' /\ pool s' = S (pool s)) \/
  (s' = s /\ Forall (fun t => ~ (h t = f /\ arg t = a)) (next_timeout s)).
Proof.
  cbn zeta. unfold sys_untimeout. set (l := next_timeout s).
  assert (H : (exists t l', unlink f a l = Some l' /\ h t = f /\ arg t = a /\ l ≡ₚ t :: l') \/
              (unlink f a l = None /\ Forall (fun t => ~ (h t = f /\ arg t = a)) l)).
  { clearbody l. induction l as [|x l IH]; [by right|]. cbn [unlink].
    destruct (bool_decide_reflect (h x = f)), (bool_decide_reflect (arg x = a)); cbn [andb];
      [left; by exists x, l|..];
      (destruct IH as [(t & l' & -> & ? & ? & P)|[-> F]];
        [left; exists t, (x :: l'); split_and!; [done..|rewrite P; apply Permutation_swap]
        |right; split; [done|constructor; [naive_solver|done]]]). }
  destruct H as [(t & l' & -> & ? & ? & P)|[-> F]]; [left; by exists t|by right].
Qed.

(** Moving the list to another moment keeps the distances. *)
Lemma since_rebased b t now : since now (u32 (u32 (t - b) + now)) = since b t.
Proof.
  unfold since, u32. rewrite Zminus_mod_idemp_l. replace ((t - b) mod 2 ^ 32 + now - now) with ((t - b) mod 2 ^ 32) by lia.
  by rewrite Z.mod_mod by lia.
Qed.

Lemma restart_keeps_order rdtsc t next s :
  next_timeout s = t :: next -> StronglySorted (due_le (time t)) (next_timeout s) ->
  let now := fst (sys_now rdtsc s) in
  let s' := sys_restart_timeouts rdtsc s in
  StronglySorted (due_le now) (next_timeout s') /\ since now <$> (time <$> next_timeout s') = since (time t) <$> (time <$> next_timeout s).
Proof.
  intros E S. cbn zeta. unfold sys_restart_timeouts. rewrite E. cbn [sys_now fst tick next_timeout set_next_timeout].
  rewrite E in *. set (c := u32 (rdtsc (reads s)) / 2000000). set (l := t :: next) in *. clear E. clearbody l. split.
  - induction S as [|x l' _ IH F]; [constructor|]. cbn [map]. constructor; [exact IH|].
    apply Forall_forall. intros y (z & -> & Hz)%list_elem_of_fmap. rewrite Forall_forall in F.
    unfold due_le in *. cbn [time]. rewrite !since_rebased. by apply F.
  - clear S. induction l as [|x l IH]; [done|]. cbn [map fmap list_fmap time]. rewrite since_rebased. f_equal. exact IH.
Qed.

(** * The life of the timers *)

(** The timer function a timeout runs. *)
Definition timer_fn (t : sys_timeo) : stack_timer :=
  match h t with Tcpip_tcp_timer => Tcp_tmr | Lwip_cyclic_timer => handler (cyclic_of (arg t)) end.

Definition runs (f : stack_timer) (s : timers) : Z := Z.of_nat (length (filter (fun g => g = f) (calls s))).

(** What the rest of the kernel does with the timers after the start: TCP
    registers a connection, or the main loop checks for timeouts; a check may
    be seen after any number of its rounds. *)
Inductive timer_step (rdtsc : nat -> Z) (pcbs : nat -> bool) : relation timers :=
  | step_needed s s' : tcp_timer_needed rdtsc pcbs s = Some s' -> timer_step rdtsc pcbs s s'
  | step_check n b s s' : sys_check_timeouts rdtsc pcbs n s = Some (b, s') -> timer_step rdtsc pcbs s s'.

Definition timer_life (rdtsc : nat -> Z) (pcbs : nat -> bool) (s : timers) : Prop :=
  exists s0, sys_timeouts_init rdtsc timers0 = Some s0 /\ rtc (timer_step rdtsc pcbs) s0 s.

(** The highest value of the clock, and the longest interval after it. *)
Definition CLOCK_MAX : Z := 2147.

Lemma sys_now_range rdtsc s : 0 <= fst (sys_now rdtsc s) <= CLOCK_MAX.
Proof.
  unfold sys_now, u32, CLOCK_MAX. cbn [fst]. pose proof (Z.mod_pos_bound (rdtsc (reads s)) (2 ^ 32) ltac:(lia)).
  split; [apply Z.div_pos; lia|]. apply Z.lt_succ_r, Z.div_lt_upper_bound; lia.
Qed.

Definition cyc (i : nat) (t : Z) : sys_timeo := mk_timeo t Lwip_cyclic_timer (Some i).
Definition tcp (t : Z) : sys_timeo := mk_timeo t Tcpip_tcp_timer None.

Definition entries (t1 t2 : Z) (t0 : option Z) : list sys_timeo :=
  cyc 1 t1 :: cyc 2 t2 :: match t0 with Some t => [tcp t] | None => [] end.

(** The list holds each cyclic timer once, and the timer of TCP if it is active;
    every round of a cyclic timer moves it on by a second at least. *)
Record timers_at (t1 t2 : Z) (t0 : option Z) (s : timers) : Prop := {
  at_list : next_timeout s ≡ₚ entries t1 t2 t0;
  at_sorted : StronglySorted (due_le 0) (next_timeout s);
  at_pool : (pool s + length (next_timeout s) = MEMP_NUM_SYS_TIMEOUT)%nat;
  at_active : tcpip_tcp_timer_active s = if t0 then 1 else 0;
  at_1 : 1000 * (1 + runs Ip_reass_tmr s) <= t1 <= CLOCK_MAX + 1000;
  at_2 : 1000 * (1 + runs Etharp_tmr s) <= t2 <= CLOCK_MAX + 1000;
  at_0 : forall t, t0 = Some t -> 250 <= t <= CLOCK_MAX + 250 }.

Definition timers_ok (s : timers) : Prop := exists t1 t2 t0, timers_at t1 t2 t0 s.

Lemma u32_time t : 0 <= t <= CLOCK_MAX + 1000 -> u32 t = t.
Proof. unfold u32, CLOCK_MAX. intros. apply Z.mod_small. lia. Qed.

Lemma since_0 t : 0 <= t <= CLOCK_MAX + 1000 -> since 0 t = t.
Proof. intros. unfold since. rewrite Z.sub_0_r. by apply u32_time. Qed.

Lemma ahead_0 t : 0 <= t <= CLOCK_MAX + 1000 -> ahead 0 t.
Proof. intros. unfold ahead. rewrite since_0 by done. unfold LWIP_MAX_TIMEOUT, CLOCK_MAX in *. lia. Qed.

Lemma time_less_small t t' : 0 <= t <= CLOCK_MAX + 1000 -> 0 <= t' <= CLOCK_MAX + 1000 -> TIME_LESS_THAN t t' = (t <? t').
Proof. intros. rewrite (time_less_since 0) by (by apply ahead_0). by rewrite !since_0. Qed.

Lemma runs_nonneg f s : 0 <= runs f s.
Proof. unfold runs. lia. Qed.

Lemma timers_times t1 t2 t0 s : timers_at t1 t2 t0 s -> Forall (fun t => 0 <= time t <= CLOCK_MAX + 1000) (next_timeout s).
Proof.
  intros [P _ _ _ H1 H2 H0]. rewrite P. pose proof (runs_nonneg Ip_reass_tmr s). pose proof (runs_nonneg Etharp_tmr s).
  repeat constructor; cbn; [lia..|]. destruct t0 as [t|]; [|done]. specialize (H0 t eq_refl).
  repeat constructor; cbn; lia.
Qed.

(** ** One round *)

#[local] Arguments TIME_LESS_THAN : simpl never.
#[local] Arguments enqueue : simpl never.
#[local] Arguments u32 : simpl never.

Section rounds.
Context (rdtsc : nat -> Z) (pcbs : nat -> bool).

(** The clock at the next reading. *)
Definition clock (s : timers) : Z := fst (sys_now rdtsc s).

(** When a cyclic timer of a second, due at [d] and run at [c], is due again. *)
Definition again (d c : Z) : Z := if d + 1000 <? c then c + 1000 else d + 1000.

Lemma again_range d c : 0 <= d <= CLOCK_MAX -> 0 <= c <= CLOCK_MAX -> d + 1000 <= again d c <= CLOCK_MAX + 1000.
Proof. unfold again. intros. destruct (Z.ltb_spec (d + 1000) c); lia. Qed.

Definition pop (t : sys_timeo) (next : list sys_timeo) (s : timers) : timers :=
  set_pool (S (pool s)) (set_due (time t) (set_next_timeout next s)).

Lemma call_cyclic i f d next s :
  lwip_cyclic_timers !! i = Some (mk_cyclic 1000 f) -> 0 <= d <= CLOCK_MAX ->
  call rdtsc pcbs Lwip_cyclic_timer (Some i) (pop (cyc i d) next s) =
  Some (mk_timers (enqueue (cyc i (again d (clock s))) next) (pool s) d (tcpip_tcp_timer_active s)
    (S (reads s)) (looks s) (f :: calls s)).
Proof.
  intros Hi Hd. unfold call, lwip_cyclic_timer, cyclic_of. cbn [mbind option_bind]. rewrite Hi. cbn [default interval_ms handler].
  pose proof (sys_now_range rdtsc s) as Hc. unfold clock. unfold sys_now in *. cbn in *.
  set (c := u32 (rdtsc (reads s)) / 2000000) in *. rewrite (u32_time (d + 1000)), (u32_time (c + 1000)) by lia.
  rewrite time_less_small by (unfold CLOCK_MAX in *; lia). unfold again. by destruct (d + 1000 <? c).
Qed.

Lemma call_tcp d next s :
  call rdtsc pcbs Tcpip_tcp_timer None (pop (tcp d) next s) =
  Some (if pcbs (looks s)
        then mk_timers (enqueue (tcp (clock s + 250)) next) (pool s) d (tcpip_tcp_timer_active s)
               (S (reads s)) (S (looks s)) (Tcp_tmr :: calls s)
        else mk_timers next (S (pool s)) d 0 (reads s) (S (looks s)) (Tcp_tmr :: calls s)).
Proof.
  unfold call, tcpip_tcp_timer. cbn. destruct (pcbs (looks s)); [|done].
  pose proof (sys_now_range rdtsc s) as Hc. unfold clock. unfold sys_timeout, sys_now in *. cbn in *.
  by rewrite u32_time by (unfold TCP_TMR_INTERVAL; lia).
Qed.

Lemma runs_cons f g s s' : calls s' = g :: calls s -> runs f s' = runs f s + if decide (g = f) then 1 else 0.
Proof.
  unfold runs. intros ->. destruct (decide (g = f)).
  - rewrite filter_cons_True by done. cbn. lia.
  - rewrite filter_cons_False by done. lia.
Qed.

Lemma enqueue_times b t l :
  b <= time t <= CLOCK_MAX + 1000 -> Forall (fun t => b <= time t <= CLOCK_MAX + 1000) l ->
  Forall (fun t => b <= time t <= CLOCK_MAX + 1000) (enqueue t l).
Proof. intros Ht Hl. rewrite enqueue_perm. by constructor. Qed.

Lemma enqueue_ordered t l :
  0 <= time t <= CLOCK_MAX + 1000 -> Forall (fun t => 0 <= time t <= CLOCK_MAX + 1000) l ->
  StronglySorted (due_le 0) l -> StronglySorted (due_le 0) (enqueue t l).
Proof.
  intros Ht Hl. apply enqueue_sorted; [by apply ahead_0|]. eapply Forall_impl; [exact Hl|]. intros x Hx. by apply ahead_0.
Qed.

(** Which timer is at the head, and what is left. *)
Lemma head_cases t1 t2 t0 s t next :
  timers_at t1 t2 t0 s -> next_timeout s = t :: next ->
  (t = cyc 1 t1 /\ next ≡ₚ cyc 2 t2 :: match t0 with Some d => [tcp d] | None => [] end) \/
  (t = cyc 2 t2 /\ next ≡ₚ cyc 1 t1 :: match t0 with Some d => [tcp d] | None => [] end) \/
  (exists d, t0 = Some d /\ t = tcp d /\ next ≡ₚ [cyc 1 t1; cyc 2 t2]).
Proof.
  intros A E. pose proof (at_list _ _ _ _ A) as P. rewrite E in P. unfold entries in P.
  assert (Ht : t ∈ cyc 1 t1 :: cyc 2 t2 :: match t0 with Some d => [tcp d] | None => [] end) by (rewrite <-P; left).
  apply elem_of_cons in Ht as [->|Ht]; [left; split; [done|]; by apply Permutation_cons_inv in P|].
  apply elem_of_cons in Ht as [->|Ht].
  - right; left. split; [done|]. rewrite (Permutation_swap (cyc 2 t2) (cyc 1 t1)) in P. by apply Permutation_cons_inv in P.
  - destruct t0 as [d|]; [|by apply elem_of_nil in Ht]. apply list_elem_of_singleton in Ht as ->.
    right; right. exists d. split_and!; [done..|].
    assert (Q : tcp d :: next ≡ₚ tcp d :: [cyc 1 t1; cyc 2 t2]).
    { rewrite P. change [cyc 1 t1; cyc 2 t2; tcp d] with ([cyc 1 t1; cyc 2 t2] ++ [tcp d]). by rewrite Permutation_app_comm. }
    by apply Permutation_cons_inv in Q.
Qed.

(** The timeout a timer puts back when it is run at [c]. *)
Definition rearmed (c : Z) (t t' : sys_timeo) : Prop :=
  timer_fn t' = timer_fn t /\ h t' = h t /\
  time t' = match h t with Lwip_cyclic_timer => again (time t) c | Tcpip_tcp_timer => c + 250 end.

Lemma at_tail t1 t2 t0 s t next :
  timers_at t1 t2 t0 s -> next_timeout s = t :: next ->
  0 <= time t /\ Forall (fun t => 0 <= time t <= CLOCK_MAX + 1000) next /\ StronglySorted (due_le 0) next /\
  (pool s + S (length next) = MEMP_NUM_SYS_TIMEOUT)%nat.
Proof.
  intros A E. pose proof (timers_times _ _ _ _ A) as F. destruct A as [_ S P _ _ _ _]. rewrite E in *.
  inversion F; subst. inversion S; subst. split_and!; [lia|done..].
Qed.

(** A timer that has run is back in the list. *)
Lemma at_rearm t1 t2 t0 s t next t' s1 u1 u2 (u0 : option Z) :
  timers_at t1 t2 t0 s -> next_timeout s = t :: next -> 0 <= time t' <= CLOCK_MAX + 1000 ->
  next_timeout s1 = enqueue t' next -> pool s1 = pool s -> tcpip_tcp_timer_active s1 = (if u0 then 1 else 0) ->
  t' :: next ≡ₚ entries u1 u2 u0 ->
  1000 * (1 + runs Ip_reass_tmr s1) <= u1 <= CLOCK_MAX + 1000 ->
  1000 * (1 + runs Etharp_tmr s1) <= u2 <= CLOCK_MAX + 1000 ->
  (forall t, u0 = Some t -> 250 <= t <= CLOCK_MAX + 250) ->
  timers_at u1 u2 u0 s1.
Proof.
  intros A E Ht L P Ha Q H1 H2 H0. destruct (at_tail _ _ _ _ _ _ A E) as (_ & F & S & N).
  constructor; [|..|done|done|done|done].
  - by rewrite L, enqueue_perm.
  - rewrite L. by apply enqueue_ordered.
  - rewrite L, P, enqueue_perm. cbn. lia.
Qed.

Ltac run_counts :=
  repeat match goal with
  | |- context [runs ?f (mk_timers _ _ _ _ _ _ (?g :: calls ?s))] => rewrite (runs_cons f g s) by done
  end; repeat (rewrite decide_True by done); repeat (rewrite decide_False by done).

Lemma timer_round_spec t1 t2 t0 s t next :
  timers_at t1 t2 t0 s -> next_timeout s = t :: next -> time t <= CLOCK_MAX ->
  exists s1 new, call rdtsc pcbs (h t) (arg t) (pop t next s) = Some s1 /\ timers_ok s1 /\
    calls s1 = timer_fn t :: calls s /\ (reads s <= reads s1 <= S (reads s))%nat /\
    next_timeout s1 ≡ₚ new ++ next /\ (length new <= 1)%nat /\ Forall (rearmed (clock s) t) new.
Proof.
  intros A E Ht. destruct (at_tail _ _ _ _ _ _ A E) as (T & F & S & N). pose proof (sys_now_range rdtsc s) as C.
  fold (clock s) in C. pose proof A as [_ _ _ Ha H1 H2 H0]. pose proof (again_range (time t) (clock s) ltac:(lia) C) as G.
  destruct (head_cases _ _ _ _ _ _ A E) as [[-> P]|[[-> P]|(d & -> & -> & P)]]; cbn [time h arg cyc tcp] in *.
  - eexists _, [cyc 1 (again t1 (clock s))]. split_and!; [by apply (call_cyclic 1 Ip_reass_tmr)| |done|cbn; lia|cbn; lia| |by cbn|by repeat constructor].
    + exists (again t1 (clock s)), t2, t0. eapply (at_rearm _ _ _ _ _ _ (cyc 1 (again t1 (clock s)))); try done; cbn [time cyc]; [lia|by rewrite P|run_counts; lia..].
    + cbn. apply enqueue_perm.
  - eexists _, [cyc 2 (again t2 (clock s))]. split_and!; [by apply (call_cyclic 2 Etharp_tmr)| |done|cbn; lia|cbn; lia| |by cbn|by repeat constructor].
    + exists t1, (again t2 (clock s)), t0. eapply (at_rearm _ _ _ _ _ _ (cyc 2 (again t2 (clock s)))); try done; cbn [time cyc]; [lia| |run_counts; lia..].
      rewrite P. apply Permutation_swap.
    + cbn. apply enqueue_perm.
  - rewrite call_tcp. destruct (pcbs (looks s)).
    + eexists _, [tcp (clock s + 250)]. split_and!; [done| |done|cbn; lia|cbn; lia| |by cbn|by repeat constructor].
      * exists t1, t2, (Some (clock s + 250)). eapply (at_rearm _ _ _ _ _ _ (tcp (clock s + 250))); try done; cbn [time tcp]; [lia| |run_counts; lia..|].
        -- rewrite P. apply (Permutation_cons_append [cyc 1 t1; cyc 2 t2]).
        -- intros ? [= <-]. lia.
      * cbn. apply enqueue_perm.
    + eexists _, []. split_and!; [done| |done|cbn; lia|cbn; lia|done|by cbn; lia|done].
      exists t1, t2, None. constructor; try done; cbn [next_timeout pool]; [lia|run_counts; lia..].
Qed.
(** A round of the loop. *)
Lemma check_loop_S n now s t next :
  next_timeout s = t :: next ->
  check_loop rdtsc pcbs (S n) now s =
  if TIME_LESS_THAN now (time t) then Some (true, s)
  else s1 ← call rdtsc pcbs (h t) (arg t) (pop t next s); check_loop rdtsc pcbs n now s1.
Proof. intros E. cbn [check_loop]. by rewrite E. Qed.

Lemma head_due t1 t2 t0 s t next now :
  timers_at t1 t2 t0 s -> next_timeout s = t :: next -> 0 <= now <= CLOCK_MAX ->
  TIME_LESS_THAN now (time t) = (now <? time t).
Proof.
  intros A%timers_times E Hn. rewrite E in A. inversion A; subst. apply time_less_small; lia.
Qed.

Lemma check_loop_ok n now s :
  0 <= now <= CLOCK_MAX -> timers_ok s ->
  exists b s', check_loop rdtsc pcbs n now s = Some (b, s') /\ timers_ok s'.
Proof.
  intros Hn. revert s. induction n as [|n IH]; intros s Hs; [by exists false, s|].
  destruct (next_timeout s) as [|t next] eqn:E.
  { exists true, s. cbn [check_loop]. by rewrite E. }
  rewrite (check_loop_S _ _ _ _ _ E). destruct Hs as (t1 & t2 & t0 & A). rewrite (head_due _ _ _ _ _ _ _ A E Hn).
  destruct (Z.ltb_spec now (time t)) as [|Hd]; [exists true, s; split; [done|by exists t1, t2, t0]|].
  destruct (timer_round_spec _ _ _ _ _ _ A E ltac:(lia)) as (s1 & new & -> & O1 & _). cbn [mbind option_bind]. by apply IH.
Qed.

Lemma timers_ok_tick s : timers_ok s -> timers_ok (tick s).
Proof. intros (t1 & t2 & t0 & [? ? ? ? ? ? ?]). exists t1, t2, t0. by constructor. Qed.

Lemma timers_ok_look s : timers_ok s -> timers_ok (look s).
Proof. intros (t1 & t2 & t0 & [? ? ? ? ? ? ?]). exists t1, t2, t0. by constructor. Qed.

Lemma check_timeouts_ok n s :
  timers_ok s -> exists b s', sys_check_timeouts rdtsc pcbs n s = Some (b, s') /\ timers_ok s'.
Proof. intros Hs. apply check_loop_ok; [apply (sys_now_range rdtsc s)|by apply timers_ok_tick]. Qed.

Lemma sys_timeout_armed msecs f a s n :
  0 <= msecs <= 1000 -> pool s = S n ->
  sys_timeout rdtsc msecs f a s =
  Some (set_next_timeout (enqueue (mk_timeo (clock s + msecs) f a) (next_timeout s)) (set_pool n (tick s))).
Proof.
  intros Hm Hp. unfold sys_timeout. destruct (Z.leb_spec msecs (LWIP_UINT32_MAX / 4)) as [_|L]; [|change (LWIP_UINT32_MAX / 4) with 1073741823 in L; lia].
  cbn [negb]. pose proof (sys_now_range rdtsc s) as C. fold (clock s) in C. rewrite (surjective_pairing (sys_now rdtsc s)).
  fold (clock s). unfold sys_timeout_abs. cbn [snd sys_now tick pool]. rewrite Hp. by rewrite (u32_time (clock s + msecs)) by lia.
Qed.

Lemma timer_needed_ok s : timers_ok s -> exists s', tcp_timer_needed rdtsc pcbs s = Some s' /\ timers_ok s'.
Proof.
  intros Hs. unfold tcp_timer_needed. pose proof Hs as (t1 & t2 & t0 & A).
  pose proof A as [P S N Ha H1 H2 H0]. destruct t0 as [d|]; rewrite Ha; cbn [Z.eqb negb]; [by exists s|].
  destruct (pcbs (looks s)); [|exists (look s); split; [done|by apply timers_ok_look]].
  rewrite P in N. cbn in N. unfold MEMP_NUM_SYS_TIMEOUT in N.
  rewrite (sys_timeout_armed _ _ _ _ 0) by (first [done | cbn; lia]).
  pose proof (sys_now_range rdtsc (set_active 1 (look s))) as C. fold (clock (set_active 1 (look s))) in C.
  set (c := clock (set_active 1 (look s))) in *.
  eexists. split; [done|]. exists t1, t2, (Some (c + 250)).
  constructor; [..|done|done|done|]; cbn [next_timeout set_next_timeout set_pool tick look set_active pool].
  - rewrite enqueue_perm, P. apply (Permutation_cons_append [cyc 1 t1; cyc 2 t2]).
  - apply enqueue_ordered; [unfold TCP_TMR_INTERVAL; cbn [time]; lia|by eapply timers_times|done].
  - by rewrite enqueue_perm, P.
  - intros ? [= <-]. lia.
Qed.

Lemma timers_init_ok : exists s, sys_timeouts_init rdtsc timers0 = Some s /\ timers_ok s.
Proof.
  unfold sys_timeouts_init. cbn [length lwip_cyclic_timers Nat.sub start_from].
  rewrite (sys_timeout_armed _ _ _ timers0 2) by done. cbn [mbind option_bind].
  set (s1 := set_next_timeout _ _). rewrite (sys_timeout_armed _ _ _ s1 1) by done. cbn [mbind option_bind].
  pose proof (sys_now_range rdtsc timers0) as C0. pose proof (sys_now_range rdtsc s1) as C1.
  fold (clock timers0) in C0. fold (clock s1) in C1. set (c1 := clock s1) in *. subst s1. set (c0 := clock timers0) in *.
  change (interval_ms (cyclic_of (Some 2%nat))) with 1000. change (interval_ms (cyclic_of (Some 1%nat))) with 1000.
  eexists. split; [done|].
  exists (c0 + 1000), (c1 + 1000), None.
  constructor; [| |by cbn; rewrite enqueue_perm|done|change (runs _ _) with 0; lia|change (runs _ _) with 0; lia|done];
    cbn [next_timeout set_next_timeout set_pool timers0 tick enqueue].
  - rewrite enqueue_perm. apply Permutation_swap.
  - apply enqueue_ordered; [cbn [time]; lia|repeat constructor; cbn [time]; lia|repeat constructor].
Qed.

Lemma timer_step_ok s s' : timers_ok s -> timer_step rdtsc pcbs s s' -> timers_ok s'.
Proof.
  intros Hs T. destruct T as [s s' E|n b s s' E].
  - destruct (timer_needed_ok _ Hs) as (s1 & E' & H1). rewrite E in E'. by injection E' as <-.
  - destruct (check_timeouts_ok n _ Hs) as (b1 & s1 & E' & H1). rewrite E in E'. by injection E' as _ <-.
Qed.

Lemma timer_life_ok s : timer_life rdtsc pcbs s -> timers_ok s.
Proof.
  intros (s0 & E & R). destruct timers_init_ok as (s1 & E' & H0). rewrite E in E'. injection E' as <-. clear E.
  induction R as [|? ? ? R1 _ IH]; [done|]. apply IH. by eapply timer_step_ok.
Qed.

(** ** What one check does *)

(** The rounds a timeout can still take in a check at [now]: a cyclic timer can
    be due again at the very moment of the check, but not twice. *)
Definition weight (now : Z) (t : sys_timeo) : nat :=
  if now <? time t then 0
  else match h t with Tcpip_tcp_timer => 1 | Lwip_cyclic_timer => if time t =? now then 1 else 2 end.

Definition weights (now : Z) (l : list sys_timeo) : nat := sum_list_with (weight now) l.

#[export] Instance weights_proper now : Proper ((≡ₚ) ==> eq) (weights now).
Proof. intros l l' P. unfold weights. by rewrite P. Qed.

Lemma weight_rearmed now c t t' :
  now <= c -> time t <= now -> rearmed c t t' -> (weight now t' < weight now t)%nat.
Proof.
  intros Hc Ht (_ & Eh & Et). unfold weight. rewrite Eh, Et. destruct (Z.ltb_spec now (time t)); [lia|].
  destruct (h t).
  - destruct (Z.ltb_spec now (c + 250)); lia.
  - unfold again. destruct (Z.ltb_spec (time t + 1000) c).
    + destruct (Z.ltb_spec now (c + 1000)); [destruct (_ =? _); lia|lia].
    + destruct (Z.ltb_spec now (time t + 1000)); [destruct (_ =? _); lia|].
      destruct (Z.eqb_spec (time t) now), (Z.eqb_spec (time t + 1000) now); lia.
Qed.

Lemma weight_due now t : time t <= now -> (0 < weight now t)%nat.
Proof. intros. unfold weight. destruct (Z.ltb_spec now (time t)); [lia|]. destruct (h t); [lia|]. destruct (_ =? _); lia. Qed.

(** The list is ordered: when its head is not due, nothing is. *)
Lemma later_all t1 t2 t0 s t next now :
  timers_at t1 t2 t0 s -> next_timeout s = t :: next -> now < time t -> Forall (fun t => now < time t) (next_timeout s).
Proof.
  intros A E Hl. pose proof (timers_times _ _ _ _ A) as F. destruct A as [_ S _ _ _ _ _]. rewrite E in *.
  inversion F as [|? ? Ft Fn]; subst. inversion S as [|? ? _ Sn]; subst. constructor; [done|].
  rewrite Forall_forall in Fn, Sn. apply Forall_forall. intros x Hx. specialize (Fn x Hx). specialize (Sn x Hx).
  unfold due_le in Sn. rewrite !since_0 in Sn by done. lia.
Qed.

Lemma check_loop_runs n now s :
  0 <= now <= CLOCK_MAX -> timers_ok s ->
  (forall k, (reads s <= k < reads s + n)%nat -> now <= u32 (rdtsc k) / 2000000) ->
  (weights now (next_timeout s) < n)%nat ->
  exists s' new, check_loop rdtsc pcbs n now s = Some (true, s') /\
    Forall (fun t => now < time t) (next_timeout s') /\ calls s' = new ++ calls s /\
    forall f, f ∈ new <-> exists t, t ∈ next_timeout s /\ time t <= now /\ timer_fn t = f.
Proof.
  intros Hn. revert s. induction n as [|n IH]; intros s Hs Hc Hw; [lia|].
  destruct (next_timeout s) as [|t next] eqn:E.
  { exists s, []. cbn [check_loop]. rewrite E. split_and!; [done..|]. intros f. split; [by intros ?%elem_of_nil|].
    by intros (? & ?%elem_of_nil & _). }
  rewrite (check_loop_S _ _ _ _ _ E). destruct Hs as (t1 & t2 & t0 & A). rewrite (head_due _ _ _ _ _ _ _ A E Hn).
  destruct (Z.ltb_spec now (time t)) as [Hl|Hd].
  - assert (F : Forall (fun t => now < time t) (next_timeout s)) by (by eapply later_all).
    exists s, []. split_and!; [done|done|done|]. intros f. split; [by intros ?%elem_of_nil|].
    intros (t' & Ht & Hd & _). rewrite Forall_forall in F. rewrite <-E in Ht. specialize (F _ Ht). lia.
  - destruct (timer_round_spec _ _ _ _ _ _ A E ltac:(lia)) as (s1 & new1 & -> & O1 & C1 & R1 & L1 & N1 & F1). cbn [mbind option_bind].
    assert (Hk : now <= clock s) by (apply (Hc (reads s)); lia).
    destruct (IH s1) as (s' & new & -> & F & C & I); [done| | |].
    { intros k Hk'. apply Hc. lia. }
    { rewrite L1. unfold weights in *. rewrite sum_list_with_app. cbn in Hw.
      destruct new1 as [|t' [|? ?]]; cbn in N1 |- *; [pose proof (weight_due now t Hd); lia| |lia].
      inversion F1; subst. pose proof (weight_rearmed now (clock s) t t' Hk ltac:(lia) ltac:(done)). lia. }
    exists s', (new ++ [timer_fn t]). split_and!; [done|done|by rewrite C, C1, <-(assoc_L (++))|].
    intros f. rewrite elem_of_app, list_elem_of_singleton, I. split.
    + intros [(t' & Ht & Hd' & <-)| ->]; [|exists t; split_and!; [left|lia|done]].
      rewrite L1, elem_of_app in Ht. destruct Ht as [Ht|Ht].
      * rewrite Forall_forall in F1. destruct (F1 _ Ht) as (-> & _). exists t. split_and!; [left|lia|done].
      * exists t'. split_and!; [by right|done|done].
    + intros (t' & [->|Ht]%elem_of_cons & Hd' & <-); [by right|]. left. exists t'.
      split_and!; [rewrite L1; by apply elem_of_app; right|done|done].
Qed.

(** ** The end of the clock *)

(** The timer of TCP is set for a moment the clock never shows. *)
Definition lost (d : Z) (s : timers) : Prop := timers_ok s /\ tcp d ∈ next_timeout s /\ CLOCK_MAX < d.

Lemma round_lost d s t next now :
  lost d s -> next_timeout s = t :: next -> 0 <= now <= CLOCK_MAX -> time t <= now ->
  exists s1, call rdtsc pcbs (h t) (arg t) (pop t next s) = Some s1 /\ lost d s1 /\ runs Tcp_tmr s1 = runs Tcp_tmr s.
Proof.
  intros ((t1 & t2 & t0 & A) & Hd & L) E Hn Ht.
  assert (Hx : tcp d ∈ next). { rewrite E in Hd. apply elem_of_cons in Hd as [<-|]; [cbn in Ht; lia|done]. }
  assert (Hf : timer_fn t <> Tcp_tmr).
  { destruct (head_cases _ _ _ _ _ _ A E) as [[-> _]|[[-> _]|(d' & _ & -> & P)]]; [done|done|].
    rewrite P in Hx. by repeat apply elem_of_cons in Hx as [|Hx]; [..|apply elem_of_nil in Hx]. }
  destruct (timer_round_spec _ _ _ _ _ _ A E ltac:(lia)) as (s1 & new & -> & O1 & C1 & _ & L1 & _).
  exists s1. split_and!; [done| |].
  - split_and!; [done| |done]. rewrite L1. apply elem_of_app. by right.
  - rewrite (runs_cons _ _ _ _ C1), decide_False by done. lia.
Qed.

Lemma check_loop_lost d n now s b s' :
  0 <= now <= CLOCK_MAX -> lost d s -> check_loop rdtsc pcbs n now s = Some (b, s') ->
  lost d s' /\ runs Tcp_tmr s' = runs Tcp_tmr s.
Proof.
  intros Hn. revert s. induction n as [|n IH]; intros s Hs E; [by injection E as _ <-|].
  destruct (next_timeout s) as [|t next] eqn:El.
  { cbn [check_loop] in E. rewrite El in E. by injection E as _ <-. }
  rewrite (check_loop_S _ _ _ _ _ El) in E. pose proof Hs as ((t1 & t2 & t0 & A) & _).
  rewrite (head_due _ _ _ _ _ _ _ A El Hn) in E. destruct (Z.ltb_spec now (time t)) as [|Hd]; [by injection E as _ <-|].
  destruct (round_lost d s t next now Hs El Hn Hd) as (s1 & E1 & H1 & R1). rewrite E1 in E. cbn [mbind option_bind] in E.
  destruct (IH s1 H1 E) as [? ->]. done.
Qed.

Lemma timer_step_lost d s s' :
  lost d s -> timer_step rdtsc pcbs s s' -> lost d s' /\ runs Tcp_tmr s' = runs Tcp_tmr s.
Proof.
  intros Hs T. destruct T as [s s' E|n b s s' E].
  - pose proof Hs as ((t1 & t2 & t0 & A) & Hd & _). pose proof A as [P _ _ Ha _ _ _]. unfold tcp_timer_needed in E.
    destruct t0; [rewrite Ha in E; cbn in E; by injection E as <-|].
    rewrite P in Hd. by repeat apply elem_of_cons in Hd as [|Hd]; [..|apply elem_of_nil in Hd].
  - apply (check_loop_lost d) in E; [done|apply (sys_now_range rdtsc s)|].
    destruct Hs as (Hs & Hd & L). split_and!; [by apply timers_ok_tick|done|done].
Qed.

Lemma timer_steps_lost d s s' :
  lost d s -> rtc (timer_step rdtsc pcbs) s s' -> lost d s' /\ runs Tcp_tmr s' = runs Tcp_tmr s.
Proof.
  intros Hs R. induction R as [|s1 s2 s3 R1 _ IH]; [done|].
  destruct (timer_step_lost d _ _ Hs R1) as [H1 E1]. destruct (IH H1) as [H2 E2]. split; [done|]. by rewrite E2.
Qed.
End rounds.

(** * Theorems *)

(** The list of timeouts is a queue ordered by due time that survives the
    wrap-around of 32-bit time: whenever all times lie within half the circle
    after some moment, a new timeout is put after every timeout due no later
    and before the others, so that the list stays ordered and timeouts due at
    the same time run in the order they were set. *)
Theorem timeout_queue_ordered (b abs_time : Z) (f : sys_timeout_handler) (a : option nat) (s s' : timers) :
  ahead b abs_time -> Forall (fun t => ahead b (time t)) (next_timeout s) ->
  StronglySorted (due_le b) (next_timeout s) ->
  sys_timeout_abs abs_time f a s = Some s' ->
  let t := mk_timeo abs_time f a in
  next_timeout s' = filter (fun x => due_le b x t) (next_timeout s) ++ t :: filter (fun x => ~ due_le b x t) (next_timeout s) /\
  StronglySorted (due_le b) (next_timeout s').
Proof.
  intros Ha Hl Hs E t. unfold sys_timeout_abs in E. destruct (pool s); [done|]. injection E as <-. cbn [next_timeout set_next_timeout].
  split; [by apply enqueue_filter|by apply enqueue_sorted].
Qed.

(** Just before the clock wraps around. *)
Lemma timeout_queue_ordered_witness :
  let s := mk_timers [mk_timeo 0xfffffff0 Lwip_cyclic_timer (Some 1%nat); mk_timeo 0x300 Lwip_cyclic_timer (Some 2%nat)] 1 0 0 0 0 [] in
  exists s', sys_timeout_abs 0x100 Tcpip_tcp_timer None s = Some s' /\
    map time (next_timeout s') = [0xfffffff0; 0x100; 0x300] /\ StronglySorted (due_le 0xffffff00) (next_timeout s').
Proof.
  intros s. eexists. split; [reflexivity|]. split; [reflexivity|].
  refine (proj2 (timeout_queue_ordered 0xffffff00 0x100 Tcpip_tcp_timer None s _ _ _ _ eq_refl)).
  - vm_compute. discriminate.
  - repeat first [constructor | vm_compute; discriminate].
  - repeat first [constructor | vm_compute; discriminate].
Defined.

(** C32: the timers of the stack never run out of their pool and never get lost:
    from the start on, whatever the clock shows and whatever connections come
    and go, no assertion of the timer code fails; the list is ordered and holds
    the timers of reassembly and of ARP once each, and that of TCP exactly when
    it is marked active; together with the free elements it makes up the pool. *)
Theorem timers_invariant (rdtsc : nat -> Z) (pcbs : nat -> bool) (s : timers) :
  timer_life rdtsc pcbs s ->
  (pool s + length (next_timeout s) = MEMP_NUM_SYS_TIMEOUT)%nat /\
  StronglySorted (due_le 0) (next_timeout s) /\
  (exists t1 t2, next_timeout s ≡ₚ cyc 1 t1 :: cyc 2 t2 :: filter (fun t => h t = Tcpip_tcp_timer) (next_timeout s)) /\
  length (filter (fun t => h t = Tcpip_tcp_timer) (next_timeout s)) = Z.to_nat (tcpip_tcp_timer_active s) /\
  (forall n, is_Some (sys_check_timeouts rdtsc pcbs n s)) /\ is_Some (tcp_timer_needed rdtsc pcbs s).
Proof.
  intros Hs%timer_life_ok. pose proof Hs as (t1 & t2 & t0 & [P S N Ha _ _ _]).
  assert (Q : filter (fun t => h t = Tcpip_tcp_timer) (next_timeout s) ≡ₚ match t0 with Some t => [tcp t] | None => [] end).
  { rewrite P. by destruct t0. }
  split_and!; [done|done| | | |].
  - exists t1, t2. by rewrite Q.
  - rewrite Q, Ha. by destruct t0.
  - intros n. destruct (check_timeouts_ok rdtsc pcbs n s Hs) as (b & s' & -> & _). done.
  - destruct (timer_needed_ok rdtsc pcbs s Hs) as (s' & -> & _). done.
Qed.

(** C31: a check of the timers is complete and ends: in every state of the timers,
    if the clock does not wrap around during the check, [sys_check_timeouts]
    returns within six rounds, has run exactly the timers that were due when it
    was called, and leaves none that is due. *)
Theorem check_runs_due (rdtsc : nat -> Z) (pcbs : nat -> bool) (s : timers) :
  timer_life rdtsc pcbs s ->
  let now := fst (sys_now rdtsc s) in
  (forall k, (reads s < k <= reads s + 6)%nat -> now <= u32 (rdtsc k) / 2000000) ->
  exists s' new, sys_check_timeouts rdtsc pcbs 6 s = Some (true, s') /\
    Forall (fun t => now < time t) (next_timeout s') /\ calls s' = new ++ calls s /\
    forall f, f ∈ new <-> exists t, t ∈ next_timeout s /\ time t <= now /\ timer_fn t = f.
Proof.
  intros Hs%timer_life_ok now Hk. unfold sys_check_timeouts. cbn [sys_now].
  apply (check_loop_runs rdtsc pcbs 6 now (tick s)); [apply sys_now_range|by apply timers_ok_tick| |].
  - intros k Hk'. cbn in Hk'. apply Hk. lia.
  - destruct Hs as (t1 & t2 & t0 & [P _ _ _ _ _ _]). cbn [next_timeout tick]. rewrite P.
    destruct t0; unfold weights, entries, weight; cbn; repeat case_match; lia.
Qed.

(** C30: the timers stop.  The clock the kernel gives to lwIP divides the lower
    half of the time stamp counter, so it never shows more than 2147; lwIP
    expects it to run through all 32 bits.  As a consequence the timers of IP
    reassembly and of ARP run at most twice in the whole life of the kernel,
    however long it runs, and once the timer of TCP is set for a moment after
    2147 it never runs again and is never started again. *)
Theorem timers_stop (rdtsc : nat -> Z) (pcbs : nat -> bool) (s : timers) :
  timer_life rdtsc pcbs s ->
  runs Ip_reass_tmr s <= 2 /\ runs Etharp_tmr s <= 2 /\
  forall t s', tcp t ∈ next_timeout s -> CLOCK_MAX < t -> rtc (timer_step rdtsc pcbs) s s' ->
    tcp t ∈ next_timeout s' /\ runs Tcp_tmr s' = runs Tcp_tmr s.
Proof.
  intros Hs%timer_life_ok. pose proof Hs as (t1 & t2 & t0 & [_ _ _ _ H1 H2 _]). unfold CLOCK_MAX in H1, H2.
  split_and!; [lia|lia|]. intros t s' Ht L R.
  destruct (timer_steps_lost rdtsc pcbs t s s') as [(_ & ? & _) ?]; [by split_and!|done|done].
Qed.

(** ** A run *)

(** The start, a connection, and a number of rounds of the main loop. *)
Section main_loop.
Context (rdtsc : nat -> Z) (pcbs : nat -> bool).

Definition loop_check (o : option timers) : option timers :=
  s ← o; snd <$> sys_check_timeouts rdtsc pcbs 6 s.

Fixpoint loop_rounds (n : nat) : option timers :=
  match n with
  | O => s ← sys_timeouts_init rdtsc timers0; tcp_timer_needed rdtsc pcbs s
  | S n' => loop_check (loop_rounds n')
  end.

Lemma loop_rounds_life n s : loop_rounds n = Some s -> timer_life rdtsc pcbs s.
Proof.
  revert s. induction n as [|n IH]; intros s E; cbn [loop_rounds] in E.
  - destruct (sys_timeouts_init rdtsc timers0) as [s0|] eqn:E0; [|done]. cbn [mbind option_bind] in E.
    exists s0. split; [done|]. eapply rtc_l; [by apply step_needed|done].
  - unfold loop_check in E. destruct (loop_rounds n) as [s1|]; [|done]. cbn [mbind option_bind] in E.
    destruct (IH s1 eq_refl) as (s0 & E0 & R).
    destruct (sys_check_timeouts rdtsc pcbs 6 s1) as [[b s2]|] eqn:E2; [|done]. injection E as <-.
    exists s0. split; [done|]. eapply rtc_r; [exact R|by eapply step_check].
Qed.
End main_loop.

(** A machine whose counter runs at 2 GHz, read every 100 milliseconds, with a
    connection that stays. *)
Definition demo_tsc (n : nat) : Z := Z.of_nat n * 200000000.
Definition demo_pcbs (_ : nat) : bool := true.
Definition demo : nat -> option timers := loop_rounds demo_tsc demo_pcbs.

(** Half a second after the start. *)
Lemma timers_invariant_witness :
  exists s, demo 5 = Some s /\ tcpip_tcp_timer_active s = 1 /\ (pool s + length (next_timeout s) = MEMP_NUM_SYS_TIMEOUT)%nat.
Proof.
  eexists. split; [vm_compute; reflexivity|]. split; [reflexivity|].
  refine (proj1 (timers_invariant demo_tsc demo_pcbs _ _)). apply (loop_rounds_life demo_tsc demo_pcbs 5). vm_compute. reflexivity.
Defined.

(** After a second the timers of reassembly and of ARP are due. *)
Lemma check_runs_due_witness :
  exists s s' new, demo 6 = Some s /\ sys_check_timeouts demo_tsc demo_pcbs 6 s = Some (true, s') /\
    calls s' = new ++ calls s /\ Ip_reass_tmr ∈ new /\ Etharp_tmr ∈ new /\ Tcp_tmr ∉ new.
Proof.
  eexists. edestruct (check_runs_due demo_tsc demo_pcbs) as (s' & new & E & _ & C & I); cycle 2.
  - exists s', new. split; [vm_compute; reflexivity|]. split; [exact E|]. split; [exact C|]. rewrite !I. split_and!.
    + exists (cyc 1 1000). split; [left|]. split; [vm_compute; discriminate|reflexivity].
    + exists (cyc 2 1100). split; [right; left|]. split; [vm_compute; discriminate|reflexivity].
    + intros (t & Ht & Hl & Hf). repeat apply elem_of_cons in Ht as [->|Ht]; [..|by apply elem_of_nil in Ht];
        first [discriminate Hf | vm_compute in Hl; by apply Hl].
  - apply (loop_rounds_life demo_tsc demo_pcbs 6). vm_compute. reflexivity.
  - cbn [reads]. intros k Hk. do 18 (destruct k as [|k]; [first [lia | vm_compute; discriminate]|]). lia.
Defined.

(** After two seconds and a half the timer of TCP has run for the last time. *)
Lemma timers_stop_witness :
  exists s, demo 20 = Some s /\ runs Ip_reass_tmr s <= 2 /\
    forall s', rtc (timer_step demo_tsc demo_pcbs) s s' -> runs Tcp_tmr s' = 4.
Proof.
  eexists. split; [vm_compute; reflexivity|].
  match goal with |- runs _ ?s <= 2 /\ _ =>
    destruct (timers_stop demo_tsc demo_pcbs s) as (H1 & _ & H3); [apply (loop_rounds_life demo_tsc demo_pcbs 20); vm_compute; reflexivity|] end.
  split; [exact H1|]. intros s' R. refine (proj2 (H3 2150 s' _ _ R)).
  - right. left.
  - reflexivity.
Defined.
