(* ===== verification/Pbuf.v ===== *)
(** The packet buffers of lwIP: src/lwip/src/core/pbuf.c and the pools of
    src/lwip/src/core/memp.c, with the sizes include/lwipopts.h gives them, and
    the use [angelic_netif_poll] of src/net/lwip_glue.c makes of them.

    Buffers are shared: chains point to them and the parts of the stack keep
    handles, and a count in each buffer says how many there are.  The model keeps
    the shared store; a buffer that has been given back is not in it, so an
    access to it is a failure ([None]), as is an assertion of lwIP that does not
    hold, which hangs the kernel. *)

From Stdlib Require Import ZArith Lia Bool.
From stdpp Require Import base list numbers option gmap gmultiset.
From S2P Require Import Prelude.

Local Open Scope Z_scope.

(** * Data *)

Inductive pbuf_type := PBUF_RAM | PBUF_ROM | PBUF_REF | PBUF_POOL.

#[export] Instance pbuf_type_eq_dec : EqDecision pbuf_type.
Proof. solve_decision. Defined.

Definition type_code (t : pbuf_type) : Z :=
  match t with PBUF_RAM => 0x280 | PBUF_ROM => 0x01 | PBUF_REF => 0x41 | PBUF_POOL => 0x182 end.

Definition PBUF_TYPE_ALLOC_SRC_MASK : Z := 0x0F.
Definition PBUF_TYPE_FLAG_STRUCT_DATA_CONTIGUOUS : Z := 0x80.
Definition STD_HEAP : Z := 0x00.
Definition STD_MEMP_PBUF : Z := 0x01.
Definition STD_MEMP_PBUF_POOL : Z := 0x02.

(** The layers are offsets for the headers to come. *)
Definition PBUF_RAW : Z := 0.
Definition PBUF_LINK : Z := 14.
Definition PBUF_IP : Z := 34.
Definition PBUF_TRANSPORT : Z := 54.

Definition MEM_ALIGNMENT : Z := 4.
Definition LWIP_MEM_ALIGN_SIZE (size : Z) : Z := Z.land (size + MEM_ALIGNMENT - 1) (Z.lnot (MEM_ALIGNMENT - 1)).
Definition TCP_MSS : Z := 1460.
Definition PBUF_POOL_BUFSIZE : Z := LWIP_MEM_ALIGN_SIZE (TCP_MSS + 20 + 20 + 0 + 14).
Definition PBUF_POOL_BUFSIZE_ALIGNED : Z := LWIP_MEM_ALIGN_SIZE PBUF_POOL_BUFSIZE.
Definition SIZEOF_STRUCT_PBUF : Z := LWIP_MEM_ALIGN_SIZE 24.
Definition PBUF_POOL_SIZE : nat := 64.
Definition MEMP_NUM_PBUF : nat := 16.

Definition ERR_OK : Z := 0.

(** [payload] counts from the byte after the struct; [next] is an address. *)
Record pbuf := mk_pbuf {
  next : option nat;
  payload : Z;
  tot_len : Z;
  len : Z;
  type_internal : Z;
  flags : Z;
  ref : Z }.

Definition set_next n p := mk_pbuf n (payload p) (tot_len p) (len p) (type_internal p) (flags p) (ref p).
Definition set_payload a p := mk_pbuf (next p) a (tot_len p) (len p) (type_internal p) (flags p) (ref p).
Definition set_tot_len n p := mk_pbuf (next p) (payload p) n (len p) (type_internal p) (flags p) (ref p).
Definition set_len n p := mk_pbuf (next p) (payload p) (tot_len p) n (type_internal p) (flags p) (ref p).
Definition set_ref n p := mk_pbuf (next p) (payload p) (tot_len p) (len p) (type_internal p) (flags p) n.

(** The buffers in use, the bytes behind every struct, and the free lists of the
    two pools.  The elements of the pools are the addresses below 64 and from 64
    to 79; blocks of the heap lie above. *)
Record pstore := mk_pstore {
  bufs : gmap nat pbuf;
  area : gmap nat (list Z);
  tab_pool : list nat;
  tab_pbuf : list nat }.

Definition set_bufs m s := mk_pstore m (area s) (tab_pool s) (tab_pbuf s).
Definition set_area m s := mk_pstore (bufs s) m (tab_pool s) (tab_pbuf s).
Definition set_tab_pool l s := mk_pstore (bufs s) (area s) l (tab_pbuf s).
Definition set_tab_pbuf l s := mk_pstore (bufs s) (area s) (tab_pool s) l.

Definition upd (p : nat) (f : pbuf -> pbuf) (s : pstore) : option pstore :=
  b ← bufs s !! p; Some (set_bufs (<[p := f b]> (bufs s)) s).

Definition area_of (s : pstore) (p : nat) : list Z := default [] (area s !! p).

(** * The pools *)

(** The loop pushes the elements one after the other. *)
Definition memp_init_pool (base num : nat) : list nat := foldl (fun tab i => (base + i)%nat :: tab) [] (seq 0 num).

Definition zero_area : list Z := replicate (Z.to_nat PBUF_POOL_BUFSIZE_ALIGNED) 0.

(** The store after [memp_init]: the memory of the pools is zeroed by the
    loader. *)
Definition pstore0 : pstore :=
  mk_pstore ∅ (list_to_map ((fun i => (i, zero_area)) <$> seq 0 PBUF_POOL_SIZE))
    (memp_init_pool 0 PBUF_POOL_SIZE) (memp_init_pool PBUF_POOL_SIZE MEMP_NUM_PBUF).

Definition memp_malloc_pool (s : pstore) : option nat * pstore :=
  match tab_pool s with [] => (None, s) | p :: l => (Some p, set_tab_pool l s) end.

Definition memp_malloc_pbuf (s : pstore) : option nat * pstore :=
  match tab_pbuf s with [] => (None, s) | p :: l => (Some p, set_tab_pbuf l s) end.

Definition memp_free_pool (p : nat) (s : pstore) : pstore := set_tab_pool (p :: tab_pool s) s.
Definition memp_free_pbuf (p : nat) (s : pstore) : pstore := set_tab_pbuf (p :: tab_pbuf s) s.

(** * Reference counts *)

Definition pbuf_get_allocsrc (p : pbuf) : Z := Z.land (type_internal p) PBUF_TYPE_ALLOC_SRC_MASK.

(** The memory goes back to where it came from. *)
Definition dealloc (p : nat) (alloc_src : Z) (s : pstore) : option pstore :=
  let s' := set_bufs (delete p (bufs s)) s in
  if alloc_src =? STD_MEMP_PBUF_POOL then Some (memp_free_pool p s')
  else if alloc_src =? STD_MEMP_PBUF then Some (memp_free_pbuf p s')
  else if alloc_src =? STD_HEAP then Some s'
  else None.

Fixpoint free_loop (fuel : nat) (p : option nat) (count : Z) (s : pstore) : option (Z * pstore) :=
  match p with
  | None => Some (count, s)
  | Some i =>
      match fuel with
      | O => None
      | S fuel' =>
          b ← bufs s !! i;
          if negb (0 <? ref b) then None
          else
            let r := u8 (ref b - 1) in
            let s := set_bufs (<[i := set_ref r b]> (bufs s)) s in
            if r =? 0 then s ← dealloc i (pbuf_get_allocsrc b) s; free_loop fuel' (next b) (u8 (count + 1)) s
            else Some (count, s)
      end
  end.

(** Every round but the last takes a buffer out of the store. *)
Definition pbuf_free (p : nat) (s : pstore) : option (Z * pstore) := free_loop (size (bufs s)) (Some p) 0 s.

Definition pbuf_ref (p : nat) (s : pstore) : option pstore :=
  b ← bufs s !! p;
  let r := u8 (ref b + 1) in
  if negb (0 <? r) then None else Some (set_bufs (<[p := set_ref r b]> (bufs s)) s).

(** * Allocation *)

Definition pbuf_init_alloced_pbuf (payload tot_len len type flags : Z) : pbuf :=
  mk_pbuf None payload tot_len len (u8 type) flags 1.

Definition pbuf_alloc_reference (payload length : Z) (type : pbuf_type) (s : pstore) : option (option nat * pstore) :=
  if negb (bool_decide (type = PBUF_REF) || bool_decide (type = PBUF_ROM)) then None
  else
    match memp_malloc_pbuf s with
    | (None, s) => Some (None, s)
    | (Some p, s) =>
        Some (Some p, set_bufs (<[p := pbuf_init_alloced_pbuf payload length length (type_code type) 0]> (bufs s)) s)
    end.

(** The loop over the elements of the pool: [first] and [last] are the ends of the
    chain so far. *)
Fixpoint pool_loop (fuel : nat) (first last : option nat) (rem_len offset : Z) (s : pstore) : option (option nat * pstore) :=
  match fuel with
  | O => None
  | S fuel' =>
      match memp_malloc_pool s with
      | (None, s) =>
          match first with
          | Some p => '(_, s) ← pbuf_free p s; Some (None, s)
          | None => Some (None, s)
          end
      | (Some q, s) =>
          let qlen := Z.min rem_len (u16 (PBUF_POOL_BUFSIZE_ALIGNED - LWIP_MEM_ALIGN_SIZE offset)) in
          let b := pbuf_init_alloced_pbuf (LWIP_MEM_ALIGN_SIZE offset) rem_len qlen (type_code PBUF_POOL) 0 in
          let s := set_bufs (<[q := b]> (bufs s)) s in
          if negb (0 <? PBUF_POOL_BUFSIZE_ALIGNED - LWIP_MEM_ALIGN_SIZE offset) then None
          else
            s ← match last with None => Some s | Some l => upd l (set_next (Some q)) s end;
            let first := match first with None => Some q | Some p => Some p end in
            let rem_len := u16 (rem_len - qlen) in
            if 0 <? rem_len then pool_loop fuel' first (Some q) rem_len 0 s else Some (first, s)
      end
  end.

(** [mem_malloc] of the heap, given its blocks in use and a size: a block and
    the bytes that happen to be in it. *)
Definition pbuf_alloc (mem_malloc : gset nat -> Z -> option (nat * list Z)) (layer length : Z) (type : pbuf_type) (s : pstore)
  : option (option nat * pstore) :=
  let offset := u16 layer in
  match type with
  | PBUF_REF | PBUF_ROM => pbuf_alloc_reference 0 length type s
  | PBUF_POOL => pool_loop (S (List.length (tab_pool s))) None None length offset s
  | PBUF_RAM =>
      let payload_len := u64 (LWIP_MEM_ALIGN_SIZE offset + LWIP_MEM_ALIGN_SIZE length) in
      let alloc_len := u64 (LWIP_MEM_ALIGN_SIZE SIZEOF_STRUCT_PBUF + payload_len) in
      if (payload_len <? LWIP_MEM_ALIGN_SIZE length) || (alloc_len <? LWIP_MEM_ALIGN_SIZE length) then Some (None, s)
      else
        match mem_malloc (dom (bufs s)) alloc_len with
        | None => Some (None, s)
        | Some (p, bytes) =>
            let b := pbuf_init_alloced_pbuf (LWIP_MEM_ALIGN_SIZE offset) length length (type_code PBUF_RAM) 0 in
            Some (Some p, set_area (<[p := drop (Z.to_nat SIZEOF_STRUCT_PBUF) bytes]> (area s)) (set_bufs (<[p := b]> (bufs s)) s))
        end
  end.

(** * Chains *)

Fixpoint clen_loop (fuel : nat) (p : option nat) (n : Z) (s : pstore) : option Z :=
  match p with
  | None => Some n
  | Some i => match fuel with O => None | S fuel' => b ← bufs s !! i; clen_loop fuel' (next b) (u16 (n + 1)) s end
  end.

Definition pbuf_clen (p : option nat) (s : pstore) : option Z := clen_loop (S (size (bufs s))) p 0 s.

(** The walk to the last buffer of the head, which adds the length of the tail on
    the way; the last buffer. *)
Fixpoint cat_loop (fuel : nat) (p : nat) (tlen : Z) (s : pstore) : option (nat * pstore) :=
  match fuel with
  | O => None
  | S fuel' =>
      b ← bufs s !! p;
      match next b with
      | None => Some (p, s)
      | Some n =>
          let s := set_bufs (<[p := set_tot_len (u16 (tot_len b + tlen)) b]> (bufs s)) s in
          cat_loop fuel' n tlen s
      end
  end.

Definition pbuf_cat (hd tl : nat) (s : pstore) : option pstore :=
  if (hd =? tl)%nat then None
  else
    t ← bufs s !! tl;
    '(p, s) ← cat_loop (S (size (bufs s))) hd (tot_len t) s;
    b ← bufs s !! p;
    if negb (tot_len b =? len b) then None
    else Some (set_bufs (<[p := set_next (Some tl) (set_tot_len (u16 (tot_len b + tot_len t)) b)]> (bufs s)) s).

Definition pbuf_chain (hd tl : nat) (s : pstore) : option pstore := s ← pbuf_cat hd tl s; pbuf_ref tl s.

(** What is left of the tail, or NULL. *)
Definition pbuf_dechain (p : nat) (s : pstore) : option (option nat * pstore) :=
  b ← bufs s !! p;
  match next b with
  | None => if negb (tot_len b =? len b) then None else Some (None, s)
  | Some q =>
      bq ← bufs s !! q;
      if negb (tot_len bq =? tot_len b - len b) then None
      else
        s ← upd q (set_tot_len (u16 (tot_len b - len b))) s;
        s ← upd p (fun b => set_tot_len (len b) (set_next None b)) s;
        '(tail_gone, s) ← pbuf_free q s;
        Some (if 0 <? tail_gone then None else Some q, s)
  end.

(** * Headers *)

Definition pbuf_add_header_impl (p : nat) (header_size_increment : Z) (force : bool) (s : pstore) : option (Z * pstore) :=
  b ← bufs s !! p;
  if 0xFFFF <? header_size_increment then Some (1, s)
  else if header_size_increment =? 0 then Some (0, s)
  else
    let increment_magnitude := u16 header_size_increment in
    if u16 (increment_magnitude + tot_len b) <? increment_magnitude then Some (1, s)
    else
      let payload' := payload b - header_size_increment in
      let refused :=
        if negb (Z.land (type_internal b) PBUF_TYPE_FLAG_STRUCT_DATA_CONTIGUOUS =? 0) then payload' <? 0 else negb force in
      if refused : bool then Some (1, s)
      else
        s ← upd p (fun b => set_tot_len (u16 (tot_len b + increment_magnitude))
                     (set_len (u16 (len b + increment_magnitude)) (set_payload payload' b))) s;
        Some (0, s).

Definition pbuf_remove_header (p : nat) (header_size_decrement : Z) (s : pstore) : option (Z * pstore) :=
  b ← bufs s !! p;
  if 0xFFFF <? header_size_decrement then Some (1, s)
  else if header_size_decrement =? 0 then Some (0, s)
  else
    let increment_magnitude := u16 header_size_decrement in
    if negb (increment_magnitude <=? len b) then Some (1, s)
    else
      s ← upd p (fun b => set_tot_len (u16 (tot_len b - increment_magnitude))
                   (set_len (u16 (len b - increment_magnitude)) (set_payload (payload b + header_size_decrement) b))) s;
      Some (0, s).

Definition pbuf_header_impl (p : nat) (header_size_increment : Z) (force : bool) (s : pstore) : option (Z * pstore) :=
  if header_size_increment <? 0 then pbuf_remove_header p (- header_size_increment) s
  else pbuf_add_header_impl p header_size_increment force s.

(** [pbuf_free_header]: the rest of the chain. *)
Fixpoint free_header (fuel : nat) (p : option nat) (free_left : Z) (s : pstore) : option (option nat * pstore) :=
  if free_left =? 0 then Some (p, s)
  else
    match p with
    | None => Some (None, s)
    | Some i =>
        match fuel with
        | O => None
        | S fuel' =>
            b ← bufs s !! i;
            if len b <=? free_left then
              s ← upd i (set_next None) s;
              '(_, s) ← pbuf_free i s;
              free_header fuel' (next b) (u16 (free_left - len b)) s
            else '(_, s) ← pbuf_remove_header i free_left s; free_header fuel' (Some i) 0 s
        end
    end.

(** * Contents *)

(** The bytes a buffer holds. *)
Definition data (s : pstore) (p : nat) (b : pbuf) : list Z :=
  take (Z.to_nat (len b)) (drop (Z.to_nat (payload b)) (area_of s p)).

Fixpoint copy_loop (fuel : nat) (p : option nat) (dst : list Z) (left len' offset copied : Z) (s : pstore)
  : option (Z * list Z) :=
  match p with
  | None => Some (copied, dst)
  | Some i =>
      if len' =? 0 then Some (copied, dst)
      else
        match fuel with
        | O => None
        | S fuel' =>
            b ← bufs s !! i;
            if negb (offset =? 0) && (len b <=? offset) then
              copy_loop fuel' (next b) dst left len' (u16 (offset - len b)) copied s
            else
              let n := let n := u16 (len b - offset) in if len' <? n then len' else n in
              let src := take (Z.to_nat n) (drop (Z.to_nat (payload b + offset)) (area_of s i)) in
              let dst := take (Z.to_nat left) dst ++ src ++ drop (Z.to_nat left + List.length src) dst in
              copy_loop fuel' (next b) dst (u16 (left + n)) (u16 (len' - n)) 0 (u16 (copied + n)) s
        end
  end.

(** [pbuf_copy_partial(buf, dataptr, len, offset)]: the number of bytes copied
    and the buffer they were copied to. *)
Definition pbuf_copy_partial (buf : nat) (dataptr : list Z) (len' offset : Z) (s : pstore) : option (Z * list Z) :=
  copy_loop (S (size (bufs s))) (Some buf) dataptr 0 len' offset 0 s.

(** * The card's side *)

(** [memcpy(p->payload, rx_buffer, len)]: a write past the block is a failure. *)
Definition fill_payload (p : nat) (frame : list Z) (s : pstore) : option pstore :=
  b ← bufs s !! p;
  let at_ := Z.to_nat (payload b) in
  if bool_decide (at_ + List.length frame <= List.length (area_of s p))%nat then
    Some (set_area (<[p := take at_ (area_of s p) ++ frame ++ drop (at_ + List.length frame) (area_of s p)]> (area s)) s)
  else None.

(** What [angelic_netif_poll] does with a frame; [input] is the function of the
    interface. *)
Definition receive_frame (mem_malloc : gset nat -> Z -> option (nat * list Z)) (input : nat -> pstore -> option (Z * pstore))
    (frame : list Z) (s : pstore) : option pstore :=
  if Z.of_nat (List.length frame) <=? 0 then Some s
  else
    '(p, s) ← pbuf_alloc mem_malloc PBUF_RAW (u16 (Z.of_nat (List.length frame))) PBUF_POOL s;
    match p with
    | None => Some s
    | Some p =>
        s ← fill_payload p frame s;
        '(r, s) ← input p s;
        if negb (r =? ERR_OK) then snd <$> pbuf_free p s else Some s
    end.

(** * Ownership

    [H] is the multiset of handles the rest of the stack holds.  The count of a
    buffer is the number of its handles and of the buffers whose [next] it is. *)

Definition pointers (m : gmap nat pbuf) (p : nat) : nat := size (filter (fun kv => next kv.2 = Some p) m).

(** Where the memory of a buffer comes from, by its address. *)
Definition home (p : nat) : Z :=
  if decide (p < PBUF_POOL_SIZE)%nat then STD_MEMP_PBUF_POOL
  else if decide (p < PBUF_POOL_SIZE + MEMP_NUM_PBUF)%nat then STD_MEMP_PBUF else STD_HEAP.

(** The free list of the pool of a buffer; blocks of the heap have none. *)
Definition free_list (p : nat) (s : pstore) : list nat :=
  if home p =? STD_MEMP_PBUF_POOL then tab_pool s else if home p =? STD_MEMP_PBUF then tab_pbuf s else [].

Record owned (H : gmultiset nat) (s : pstore) : Prop := {
  ow_pool : NoDup (tab_pool s) /\ Forall (fun p => home p = STD_MEMP_PBUF_POOL) (tab_pool s);
  ow_pbuf : NoDup (tab_pbuf s) /\ Forall (fun p => home p = STD_MEMP_PBUF) (tab_pbuf s);
  ow_free : forall p, home p <> STD_HEAP -> bufs s !! p = None <-> p ∈ free_list p s;
  ow_live : forall p b, bufs s !! p = Some b -> pbuf_get_allocsrc b = home p /\ 0 < ref b < 256;
  ow_count : forall p b, bufs s !! p = Some b -> ref b = Z.of_nat (multiplicity p H + pointers (bufs s) p);
  ow_dead : forall p, bufs s !! p = None -> (multiplicity p H + pointers (bufs s) p = 0)%nat }.

Lemma pointers_fresh m i b p :
  m !! i = None -> pointers (<[i := b]> m) p = (pointers m p + if decide (next b = Some p) then 1 else 0)%nat.
Proof.
  intros Hi. unfold pointers. destruct (decide (next b = Some p)) as [E|E].
  - rewrite map_filter_insert_True by done. rewrite map_size_insert_None; [lia|]. apply map_lookup_filter_None. by left.
  - rewrite map_filter_insert_False by done. rewrite delete_id by done. lia.
Qed.

Lemma pointers_take m i b p :
  m !! i = Some b -> pointers m p = (pointers (delete i m) p + if decide (next b = Some p) then 1 else 0)%nat.
Proof. intros Hi. rewrite <- (pointers_fresh (delete i m) i b p) by apply lookup_delete_eq. by rewrite insert_delete_id. Qed.

Lemma pointers_set m i b b' p :
  m !! i = Some b ->
  (pointers (<[i := b']> m) p + (if decide (next b = Some p) then 1 else 0) =
   pointers m p + if decide (next b' = Some p) then 1 else 0)%nat.
Proof.
  intros Hi. rewrite (pointers_take m i b p Hi), <- (insert_delete_eq m i b').
  rewrite pointers_fresh by apply lookup_delete_eq. lia.
Qed.

Lemma pointers_same m i b b' p : m !! i = Some b -> next b' = next b -> pointers (<[i := b']> m) p = pointers m p.
Proof. intros Hi E. pose proof (pointers_set m i b b' p Hi) as P. rewrite E in P. lia. Qed.

Lemma home_cases p : home p = STD_MEMP_PBUF_POOL \/ home p = STD_MEMP_PBUF \/ home p = STD_HEAP.
Proof. unfold home. repeat case_decide; auto. Qed.

Lemma handle_live H s p : owned ({[+ p +]} ⊎ H) s -> exists b, bufs s !! p = Some b.
Proof.
  intros O. destruct (bufs s !! p) as [b|] eqn:E; [by exists b|]. pose proof (ow_dead _ _ O p E) as D.
  rewrite multiplicity_disj_union, multiplicity_singleton_eq in D. lia.
Qed.

(** The handles a buffer's [next] stands for. *)
Definition handles (p : option nat) : gmultiset nat := match p with Some q => {[+ q +]} | None => ∅ end.

Lemma multiplicity_handles p q : multiplicity p (handles q) = if decide (q = Some p) then 1%nat else 0%nat.
Proof.
  destruct q as [q|]; cbn [handles]; [|by rewrite multiplicity_empty].
  rewrite multiplicity_singleton. by repeat case_decide; simplify_eq.
Qed.

(** A change of a buffer that leaves its links, its count and its kind alone. *)
Lemma owned_set H s p b b' :
  owned H s -> bufs s !! p = Some b -> next b' = next b -> ref b' = ref b -> type_internal b' = type_internal b ->
  owned H (set_bufs (<[p := b']> (bufs s)) s).
Proof.
  intros [O1 O2 O3 O4 O5 O6] E En Er Et. constructor; cbn [bufs tab_pool tab_pbuf set_bufs]; [done|done| | | |].
  - intros q Hq. rewrite <- (O3 q Hq : bufs s !! q = None <-> _). destruct (decide (p = q)) as [<-|Hn].
    + rewrite lookup_insert_eq, E. done.
    + by rewrite lookup_insert_ne.
  - intros q c [[-> <-]|[Hn Hc]]%lookup_insert_Some; [|by apply O4].
    destruct (O4 q b E) as [A B]. unfold pbuf_get_allocsrc in *. by rewrite Et, Er.
  - intros q c Hc. rewrite (pointers_same _ _ b) by done. apply lookup_insert_Some in Hc as [[-> <-]|[Hn Hc]]; [|by apply O5].
    rewrite Er. by apply O5.
  - intros q [Hq Hn]%lookup_insert_None. rewrite (pointers_same _ _ b) by done. by apply O6.
Qed.

(** A handle is given up while others remain. *)
Lemma owned_drop H s p b :
  owned ({[+ p +]} ⊎ H) s -> bufs s !! p = Some b -> 1 < ref b ->
  owned H (set_bufs (<[p := set_ref (ref b - 1) b]> (bufs s)) s).
Proof.
  intros [O1 O2 O3 O4 O5 O6] E Hr. constructor; cbn [bufs tab_pool tab_pbuf set_bufs]; [done|done| | | |].
  - intros q Hq. rewrite <- (O3 q Hq : bufs s !! q = None <-> _). destruct (decide (p = q)) as [<-|Hn].
    + rewrite lookup_insert_eq, E. done.
    + by rewrite lookup_insert_ne.
  - intros q c [[-> <-]|[Hn Hc]]%lookup_insert_Some; [|by apply O4]. destruct (O4 q b E). cbn [ref set_ref]. split; [done|lia].
  - intros q c Hc. rewrite (pointers_same _ _ b) by done. apply lookup_insert_Some in Hc as [[-> <-]|[Hn Hc]].
    + pose proof (O5 q b E) as R. rewrite multiplicity_disj_union, multiplicity_singleton_eq in R. cbn [ref set_ref]. lia.
    + pose proof (O5 q c Hc) as R. rewrite multiplicity_disj_union, multiplicity_singleton_ne in R by congruence. lia.
  - intros q [Hq Hn]%lookup_insert_None. rewrite (pointers_same _ _ b) by done. specialize (O6 q Hq).
    rewrite multiplicity_disj_union in O6. lia.
Qed.

(** The block goes back to the free list of its pool. *)
Definition given_back (p : nat) (s : pstore) : pstore :=
  mk_pstore (delete p (bufs s)) (area s) (if home p =? STD_MEMP_PBUF_POOL then p :: tab_pool s else tab_pool s)
    (if home p =? STD_MEMP_PBUF then p :: tab_pbuf s else tab_pbuf s).

Lemma dealloc_home p s : dealloc p (home p) s = Some (given_back p s).
Proof. unfold dealloc, given_back. by destruct (home_cases p) as [->|[->| ->]]. Qed.

Lemma free_list_given p q s :
  home q <> STD_HEAP -> q ∈ free_list q (given_back p s) <-> p = q \/ q ∈ free_list q s.
Proof.
  intros Hq. unfold free_list, given_back. cbn [tab_pool tab_pbuf].
  destruct (home_cases q) as [Eq|[Eq|Eq]]; rewrite Eq; cbn; [| |done];
    destruct (home_cases p) as [Ep|[Ep|Ep]]; rewrite Ep; cbn; rewrite ?elem_of_cons;
    unfold STD_MEMP_PBUF_POOL, STD_MEMP_PBUF, STD_HEAP in *; (split; [naive_solver|intros [->|?]; [congruence || by left|auto]]).
Qed.

(** The last handle of a buffer is given up: the buffer goes, and what it pointed
    to is now held by the caller. *)
Lemma owned_last H s p b :
  owned ({[+ p +]} ⊎ H) s -> bufs s !! p = Some b -> ref b = 1 ->
  owned (handles (next b) ⊎ H) (given_back p s).
Proof.
  intros [[N1 F1] [N2 F2] O3 O4 O5 O6] E Hr. pose proof (O5 p b E) as R.
  rewrite multiplicity_disj_union, multiplicity_singleton_eq in R.
  assert (forall q, pointers (bufs s) q = pointers (delete p (bufs s)) q + multiplicity q (handles (next b)))%nat as P.
  { intros q. rewrite multiplicity_handles. by apply pointers_take. }
  assert (Hp : forall q, home q <> STD_HEAP -> p = q -> q ∉ free_list q s).
  { intros q Hq <- Hf. apply (O3 p Hq) in Hf. congruence. }
  constructor; cbn [bufs tab_pool tab_pbuf given_back].
  - destruct (Z.eqb_spec (home p) STD_MEMP_PBUF_POOL) as [Eh|]; [|done]. split; [|by constructor].
    constructor; [|done]. specialize (Hp p ltac:(by rewrite Eh) eq_refl). unfold free_list in Hp. by rewrite Eh in Hp.
  - destruct (Z.eqb_spec (home p) STD_MEMP_PBUF) as [Eh|]; [|done]. split; [|by constructor].
    constructor; [|done]. specialize (Hp p ltac:(by rewrite Eh) eq_refl). unfold free_list in Hp. by rewrite Eh in Hp.
  - intros q Hq. rewrite (free_list_given p q s Hq), <- (O3 q Hq), lookup_delete_None. done.
  - intros q c [Hn Hc]%lookup_delete_Some. by apply O4.
  - intros q c [Hn Hc]%lookup_delete_Some. specialize (O5 q c Hc). rewrite multiplicity_disj_union in O5 |- *.
    rewrite multiplicity_singleton_ne in O5 by congruence. specialize (P q). lia.
  - intros q [<-|Hq]%lookup_delete_None.
    + specialize (P p). rewrite multiplicity_disj_union. lia.
    + specialize (P q). specialize (O6 q Hq). rewrite multiplicity_disj_union in O6 |- *. lia.
Qed.

(** What is left of a store: no buffer of it has changed but for its count. *)
Definition remains (s s' : pstore) : Prop :=
  area s' = area s /\
  forall q c', bufs s' !! q = Some c' -> exists c, bufs s !! q = Some c /\ set_ref 0 c' = set_ref 0 c.

#[export] Instance remains_preorder : PreOrder remains.
Proof.
  split; [intros s; split; [done|naive_solver]|]. intros s1 s2 s3 [A1 B1] [A2 B2]. split; [congruence|].
  intros q c3 H3. destruct (B2 q c3 H3) as (c2 & H2 & E2). destruct (B1 q c2 H2) as (c1 & H1 & E1).
  exists c1. split; [done|congruence].
Qed.

Lemma remains_ref s p b r : bufs s !! p = Some b -> remains s (set_bufs (<[p := set_ref r b]> (bufs s)) s).
Proof. intros E. split; [done|]. cbn [bufs set_bufs]. intros q c' [[-> <-]|[_ Hc]]%lookup_insert_Some; [by exists b|by exists c']. Qed.

Lemma remains_given s p : remains s (given_back p s).
Proof. split; [done|]. cbn [bufs given_back]. intros q c' [_ Hc]%lookup_delete_Some. by exists c'. Qed.

Lemma free_loop_ok fuel H p count s :
  owned (handles p ⊎ H) s -> (size (bufs s) <= fuel)%nat ->
  exists n s', free_loop fuel p count s = Some (n, s') /\ owned H s' /\ remains s s'.
Proof.
  revert p count s. induction fuel as [|fuel IH]; intros [i|] count s O Hf; cbn [handles] in O;
    try (exists count, s; split_and!; [done|by rewrite (left_id_L ∅ (⊎)) in O|reflexivity]);
    destruct (handle_live _ _ _ O) as [b Eb].
  { assert (bufs s = ∅) as E0 by (apply map_size_empty_inv; lia). rewrite E0 in Eb. by rewrite lookup_empty in Eb. }
  destruct (ow_live _ _ O i b Eb) as [Hs Hr]. cbn [free_loop]. rewrite Eb. cbn [mbind option_bind].
  destruct (Z.ltb_spec 0 (ref b)); [|lia]. cbn [negb]. assert (u8 (ref b - 1) = ref b - 1) as -> by (apply Z.mod_small; lia).
  destruct (Z.eqb_spec (ref b - 1) 0) as [Hz|Hz].
  - rewrite Hs, dealloc_home. cbn [mbind option_bind].
    pose proof (owned_last H s i b O Eb ltac:(lia)) as O'.
    set (s1 := given_back i (set_bufs _ s)). assert (s1 = given_back i s) as -> by (unfold s1, given_back; cbn; by rewrite delete_insert_eq).
    destruct (IH (next b) (u8 (count + 1)) (given_back i s) O') as (n & s' & -> & O2 & R2).
    { cbn [bufs given_back]. rewrite map_size_delete_Some by (by exists b). lia. }
    exists n, s'. split_and!; [done|done|]. etransitivity; [apply remains_given|done].
  - exists count. eexists. split_and!; [done|apply owned_drop; [done|done|lia]|by apply remains_ref].
Qed.

Lemma pbuf_free_ok H p s :
  owned ({[+ p +]} ⊎ H) s -> exists n s', pbuf_free p s = Some (n, s') /\ owned H s' /\ remains s s'.
Proof. intros O. by apply (free_loop_ok _ H (Some p)). Qed.

(** ** Taking references *)

Lemma owned_ref H s p b :
  owned H s -> bufs s !! p = Some b -> ref b < 255 ->
  owned ({[+ p +]} ⊎ H) (set_bufs (<[p := set_ref (ref b + 1) b]> (bufs s)) s).
Proof.
  intros [O1 O2 O3 O4 O5 O6] E Hr. constructor; cbn [bufs tab_pool tab_pbuf set_bufs]; [done|done| | | |].
  - intros q Hq. rewrite <- (O3 q Hq : bufs s !! q = None <-> _). destruct (decide (p = q)) as [<-|Hn].
    + rewrite lookup_insert_eq, E. done.
    + by rewrite lookup_insert_ne.
  - intros q c [[-> <-]|[Hn Hc]]%lookup_insert_Some; [|by apply O4]. destruct (O4 q b E). cbn [ref set_ref]. split; [done|lia].
  - intros q c Hc. rewrite (pointers_same _ _ b) by done. rewrite multiplicity_disj_union.
    apply lookup_insert_Some in Hc as [[-> <-]|[Hn Hc]].
    + pose proof (O5 q b E) as R. rewrite multiplicity_singleton_eq. cbn [ref set_ref]. lia.
    + pose proof (O5 q c Hc) as R. rewrite multiplicity_singleton_ne by congruence. lia.
  - intros q [Hq Hn]%lookup_insert_None. rewrite (pointers_same _ _ b) by done. specialize (O6 q Hq).
    rewrite multiplicity_disj_union, multiplicity_singleton_ne by congruence. lia.
Qed.

(** The count of a buffer can be raised to 255; the next reference hangs the
    kernel. *)
Lemma pbuf_ref_ok H p b s :
  owned H s -> bufs s !! p = Some b ->
  if ref b =? 255 then pbuf_ref p s = None
  else exists s', pbuf_ref p s = Some s' /\ owned ({[+ p +]} ⊎ H) s' /\ remains s s'.
Proof.
  intros O Eb. destruct (ow_live _ _ O p b Eb) as [_ Hr]. unfold pbuf_ref. rewrite Eb. cbn [mbind option_bind].
  destruct (Z.eqb_spec (ref b) 255) as [->|Hn]; [done|]. unfold u8. rewrite Z.mod_small by lia.
  destruct (Z.ltb_spec 0 (ref b + 1)); [|lia]. eexists. split_and!; [done|apply owned_ref; [done|done|lia]|by apply remains_ref].
Qed.

(** A buffer's [next] is replaced: the old link becomes a handle, the new link uses
    one up. *)
Lemma owned_relink H s p b b' :
  owned (handles (next b') ⊎ H) s -> bufs s !! p = Some b -> ref b' = ref b -> type_internal b' = type_internal b ->
  owned (handles (next b) ⊎ H) (set_bufs (<[p := b']> (bufs s)) s).
Proof.
  intros [O1 O2 O3 O4 O5 O6] E Er Et.
  assert (forall q, pointers (<[p := b']> (bufs s)) q + multiplicity q (handles (next b)) =
                    pointers (bufs s) q + multiplicity q (handles (next b')))%nat as P.
  { intros q. rewrite !multiplicity_handles. by apply pointers_set. }
  constructor; cbn [bufs tab_pool tab_pbuf set_bufs]; [done|done| | | |].
  - intros q Hq. rewrite <- (O3 q Hq : bufs s !! q = None <-> _). destruct (decide (p = q)) as [<-|Hn].
    + rewrite lookup_insert_eq, E. done.
    + by rewrite lookup_insert_ne.
  - intros q c [[-> <-]|[Hn Hc]]%lookup_insert_Some; [|by apply O4].
    destruct (O4 q b E) as [A B]. unfold pbuf_get_allocsrc in *. by rewrite Et, Er.
  - intros q c Hc. specialize (P q). rewrite multiplicity_disj_union. apply lookup_insert_Some in Hc as [[-> <-]|[Hn Hc]].
    + rewrite Er. specialize (O5 q b E). rewrite multiplicity_disj_union in O5. lia.
    + specialize (O5 q c Hc). rewrite multiplicity_disj_union in O5. lia.
  - intros q [Hq Hn]%lookup_insert_None. specialize (P q). specialize (O6 q Hq). rewrite multiplicity_disj_union in O6 |- *. lia.
Qed.

(** An element of a pool becomes a buffer with one handle. *)
Lemma owned_take H s q l b :
  owned H s -> tab_pool s = q :: l -> next b = None -> ref b = 1 -> pbuf_get_allocsrc b = STD_MEMP_PBUF_POOL ->
  owned ({[+ q +]} ⊎ H) (set_bufs (<[q := b]> (bufs s)) (set_tab_pool l s)).
Proof.
  intros [[N1 F1] O2 O3 O4 O5 O6] Et En Er Es. rewrite Et in N1, F1. inversion N1 as [|? ? Nq N1']; subst.
  inversion F1 as [|? ? Hq F1']; subst.
  assert (bufs s !! q = None) as Eq. { apply O3; [by rewrite Hq|]. unfold free_list. rewrite Hq, Et. left. }
  assert (forall p, pointers (<[q := b]> (bufs s)) p = pointers (bufs s) p) as P.
  { intros p. rewrite pointers_fresh by done. rewrite En. case_decide; [done|lia]. }
  pose proof (O6 q Eq) as Hz.
  constructor; cbn [bufs tab_pool tab_pbuf set_bufs set_tab_pool]; [done|done| | | |].
  - intros p Hp. specialize (O3 p Hp). unfold free_list in *. cbn [tab_pool tab_pbuf set_bufs set_tab_pool]. rewrite Et in O3.
    destruct (decide (q = p)) as [<-|Hn].
    + rewrite lookup_insert_eq, Hq. done.
    + rewrite lookup_insert_ne by done. rewrite O3. destruct (home p =? STD_MEMP_PBUF_POOL); [|done].
      rewrite elem_of_cons. naive_solver.
  - intros p c [[-> <-]|[Hn Hc]]%lookup_insert_Some; [|by apply O4]. rewrite Es, Hq, Er. split; [done|lia].
  - intros p c Hc. rewrite P, multiplicity_disj_union. apply lookup_insert_Some in Hc as [[-> <-]|[Hn Hc]].
    + rewrite multiplicity_singleton_eq, Er. lia.
    + rewrite multiplicity_singleton_ne by congruence. specialize (O5 p c Hc). lia.
  - intros p [Hp Hn]%lookup_insert_None. rewrite P, multiplicity_disj_union, multiplicity_singleton_ne by congruence.
    specialize (O6 p Hp). lia.
Qed.

(** A packet of [n] bytes: the lengths add up along the chain. *)
Inductive packet (s : pstore) : nat -> Z -> Prop :=
  | packet_last p b : bufs s !! p = Some b -> next b = None -> tot_len b = len b -> packet s p (tot_len b)
  | packet_more p b q : bufs s !! p = Some b -> next b = Some q -> packet s q (tot_len b - len b) -> packet s p (tot_len b).

(** The room of an element of the pool behind an offset. *)
Definition room (offset : Z) : Z := PBUF_POOL_BUFSIZE_ALIGNED - LWIP_MEM_ALIGN_SIZE offset.

Definition pool_buf (offset rem_len : Z) : pbuf :=
  pbuf_init_alloced_pbuf (LWIP_MEM_ALIGN_SIZE offset) rem_len (Z.min rem_len (room offset)) (type_code PBUF_POOL) 0.

Lemma pool_loop_S fuel first last rem_len offset s :
  0 < room offset < 2 ^ 16 -> 0 <= rem_len < 2 ^ 16 ->
  pool_loop (S fuel) first last rem_len offset s =
  match tab_pool s with
  | [] => match first with Some p => '(_, s) ← pbuf_free p s; Some (None, s) | None => Some (None, s) end
  | q :: l =>
      s ← match last with
          | None => Some (set_bufs (<[q := pool_buf offset rem_len]> (bufs s)) (set_tab_pool l s))
          | Some l' => upd l' (set_next (Some q)) (set_bufs (<[q := pool_buf offset rem_len]> (bufs s)) (set_tab_pool l s))
          end;
      let first := match first with None => Some q | Some p => Some p end in
      if room offset <? rem_len then pool_loop fuel first (Some q) (rem_len - room offset) 0 s else Some (first, s)
  end.
Proof.
  intros Ho Hr. cbn [pool_loop]. unfold memp_malloc_pool. destruct (tab_pool s) as [|q l]; [done|].
  fold (room offset). destruct (Z.ltb_spec 0 (room offset)); [|lia]. cbn [negb].
  assert (u16 (room offset) = room offset) as -> by (apply Z.mod_small; lia). fold (pool_buf offset rem_len).
  destruct last as [l'|]; [destruct (upd _ _ _); [|done]|]; cbn [mbind option_bind];
    (destruct (Z.ltb_spec (room offset) rem_len);
     [rewrite Z.min_r by lia; assert (u16 (rem_len - room offset) = rem_len - room offset) as -> by (apply Z.mod_small; lia);
      destruct (Z.ltb_spec 0 (rem_len - room offset)); [done|lia]
     |rewrite Z.min_l by lia; by rewrite Z.sub_diag]).
Qed.

Lemma room_0 : room 0 = 1516.
Proof. reflexivity. Qed.

Lemma pool_fresh H s q l : owned H s -> tab_pool s = q :: l -> bufs s !! q = None.
Proof.
  intros O Et. pose proof (proj2 (ow_pool _ _ O)) as F. rewrite Et in F. inversion F as [|? ? Hq _]; subst.
  apply (ow_free _ _ O); [by rewrite Hq|]. unfold free_list. rewrite Hq, Et. left.
Qed.

(** The chain grows at its end until the packet has its length, or all of it goes
    back. *)
Lemma pool_loop_more fuel H p l bl s :
  owned ({[+ p +]} ⊎ H) s -> bufs s !! l = Some bl -> next bl = None -> 0 < tot_len bl - len bl < 2 ^ 16 ->
  (length (tab_pool s) < fuel)%nat ->
  exists r s', pool_loop fuel (Some p) (Some l) (tot_len bl - len bl) 0 s = Some (r, s') /\
    match r with
    | None => owned H s'
    | Some p' => p' = p /\ owned ({[+ p +]} ⊎ H) s' /\ area s' = area s /\ packet s' l (tot_len bl) /\
        forall x c, x <> l -> bufs s !! x = Some c -> bufs s' !! x = Some c
    end.
Proof.
  revert l bl s. induction fuel as [|fuel IH]; intros l bl s O El En Hr Hf; [lia|].
  rewrite pool_loop_S by (rewrite ?room_0; lia). destruct (tab_pool s) as [|q tab] eqn:Et.
  { destruct (pbuf_free_ok H p s O) as (n & s' & -> & O' & _). by exists None, s'. }
  pose proof (pool_fresh _ _ _ _ O Et) as Eq. assert (l <> q) as Hlq by congruence.
  set (rem := tot_len bl - len bl) in *. set (b := pool_buf 0 rem).
  pose proof (owned_take _ s q tab b O Et eq_refl eq_refl eq_refl) as O1.
  set (s1 := set_bufs _ (set_tab_pool tab s)) in *.
  assert (bufs s1 !! l = Some bl) as El1 by (unfold s1; cbn; by rewrite lookup_insert_ne).
  unfold upd. rewrite El1. cbn [mbind option_bind].
  pose proof (owned_relink _ s1 l bl (set_next (Some q) bl) O1 El1 eq_refl eq_refl) as O2. rewrite En in O2. cbn [handles] in O2.
  rewrite (left_id_L ∅ (⊎)) in O2. set (s2 := set_bufs _ s1) in *.
  assert (bufs s2 !! l = Some (set_next (Some q) bl)) as El2 by apply lookup_insert_eq.
  assert (bufs s2 !! q = Some b) as Eq2 by (unfold s2, s1; cbn; by rewrite lookup_insert_ne, lookup_insert_eq).
  assert (forall x c, x <> l -> bufs s !! x = Some c -> x <> q /\ bufs s2 !! x = Some c) as Hx.
  { intros x c Hx Hc. assert (x <> q) by congruence. split; [done|]. unfold s2, s1. cbn. by rewrite !lookup_insert_ne. }
  rewrite room_0. destruct (Z.ltb_spec 1516 rem) as [Hm|Hm].
  - assert (tot_len b - len b = rem - 1516) as Hb by (unfold b, pool_buf; cbn -[room]; rewrite room_0; lia).
    rewrite <- Hb. destruct (IH q b s2 O2 Eq2 eq_refl) as (r & s' & -> & Hres); [rewrite Hb; lia|change (length tab < fuel)%nat; cbn in Hf; lia|]. exists r, s'. split; [done|].
    destruct r as [p'|]; [|done]. destruct Hres as (-> & O' & A & K & B). split_and!; [done|done|by rewrite A| |].
    + refine (packet_more s' l (set_next (Some q) bl) q _ eq_refl K). by apply B.
    + intros x c Hxl Hc. destruct (Hx x c Hxl Hc) as [Hxq Hc2]. by apply B.
  - exists (Some p), s2. split_and!; [done|done|done|done| |intros x c Hxl Hc; by apply (Hx x c)].
    refine (packet_more s2 l (set_next (Some q) bl) q El2 eq_refl _).
    refine (packet_last s2 q b Eq2 eq_refl _). unfold b, pool_buf. cbn -[room]. rewrite room_0. lia.
Qed.

(** Allocation from the pool: a packet of the length asked for and a handle to it,
    or nothing. *)
Lemma pbuf_alloc_pool_ok H mm layer n s :
  owned H s -> 0 <= layer < 1000 -> 0 <= n < 2 ^ 16 ->
  exists r s', pbuf_alloc mm layer n PBUF_POOL s = Some (r, s') /\
    match r with
    | None => owned H s'
    | Some p => owned ({[+ p +]} ⊎ H) s' /\ area s' = area s /\ packet s' p n /\ bufs s !! p = None /\
        forall x c, bufs s !! x = Some c -> bufs s' !! x = Some c
    end.
Proof.
  intros O Hl Hn. unfold pbuf_alloc. assert (u16 layer = layer) as -> by (apply Z.mod_small; lia).
  assert (0 <= LWIP_MEM_ALIGN_SIZE layer <= 1003) as Ha.
  { unfold LWIP_MEM_ALIGN_SIZE, MEM_ALIGNMENT. split; [apply Z.land_nonneg; lia|]. replace (layer + 4 - 1) with (layer + 3) by lia.
    change (Z.lnot (4 - 1)) with (Z.lnot (Z.ones 2)). rewrite <- Z.ldiff_land. rewrite Z.ldiff_ones_r by lia.
    rewrite Z.shiftl_mul_pow2, Z.shiftr_div_pow2 by lia. change (2 ^ 2) with 4. pose proof (Z.mul_div_le (layer + 3) 4 ltac:(lia)). lia. }
  assert (0 < room layer <= 1516) as Hroom by (unfold room; change PBUF_POOL_BUFSIZE_ALIGNED with 1516; lia).
  rewrite pool_loop_S by lia. destruct (tab_pool s) as [|q tab] eqn:Et; [by exists None, s|]. cbn [mbind option_bind].
  pose proof (pool_fresh _ _ _ _ O Et) as Eq. set (b := pool_buf layer n).
  pose proof (owned_take _ s q tab b O Et eq_refl eq_refl eq_refl) as O1. set (s1 := set_bufs _ (set_tab_pool tab s)) in *.
  assert (bufs s1 !! q = Some b) as Eq1 by apply lookup_insert_eq.
  assert (forall x c, bufs s !! x = Some c -> x <> q /\ bufs s1 !! x = Some c) as Hx.
  { intros x c Hc. assert (x <> q) by congruence. split; [done|]. unfold s1. cbn. by rewrite lookup_insert_ne. }
  destruct (Z.ltb_spec (room layer) n) as [Hm|Hm].
  - assert (tot_len b - len b = n - room layer) as Hb by (unfold b, pool_buf; cbn -[room]; lia). rewrite <- Hb.
    destruct (pool_loop_more (length (q :: tab)) H q q b s1 O1 Eq1 eq_refl) as (r & s' & -> & Hres); [rewrite Hb; lia|cbn; unfold s1; cbn; lia|].
    exists r, s'. split; [done|]. destruct r as [p'|]; [|done]. destruct Hres as (-> & O' & A & K & B).
    split_and!; [done|by rewrite A|done|done|]. intros x c Hc. destruct (Hx x c Hc) as [Hxq Hc1]. by apply B.
  - exists (Some q), s1. split_and!; [done|done|done| |done|intros x c Hc; by apply (Hx x c)].
    refine (packet_last s1 q b Eq1 eq_refl _). unfold b, pool_buf. cbn -[room]. lia.
Qed.

(** ** A frame from the card *)

(** The blocks of the pool have their size. *)
Definition areas_ok (s : pstore) : Prop :=
  forall p, (p < PBUF_POOL_SIZE)%nat -> Z.of_nat (length (area_of s p)) = PBUF_POOL_BUFSIZE_ALIGNED.

Lemma pool_home H s q l : owned H s -> tab_pool s = q :: l -> (q < PBUF_POOL_SIZE)%nat.
Proof.
  intros O Et. pose proof (proj2 (ow_pool _ _ O)) as F. rewrite Et in F. inversion F as [|? ? Hq _]; subst.
  unfold home in Hq. repeat case_decide; [done|discriminate Hq|discriminate Hq].
Qed.

(** The frame lies in one buffer, in full. *)
Definition holds_frame (p : nat) (frame : list Z) (s : pstore) : Prop :=
  exists b, bufs s !! p = Some b /\ next b = None /\ tot_len b = Z.of_nat (length frame) /\ len b = Z.of_nat (length frame) /\
    data s p b = frame.

Lemma area_insert s p bytes q :
  area_of (set_area (<[p := bytes]> (area s)) s) q = if decide (p = q) then bytes else area_of s q.
Proof.
  unfold area_of. cbn [area set_area]. destruct (decide (p = q)) as [<-|Hn]; [by rewrite lookup_insert_eq|by rewrite lookup_insert_ne].
Qed.

Lemma rx_alloc H mm frame s :
  owned H s -> areas_ok s -> (0 < length frame <= 1514)%nat ->
  (tab_pool s = [] /\ pbuf_alloc mm PBUF_RAW (u16 (Z.of_nat (length frame))) PBUF_POOL s = Some (None, s)) \/
  exists p s1 s2, pbuf_alloc mm PBUF_RAW (u16 (Z.of_nat (length frame))) PBUF_POOL s = Some (Some p, s1) /\
    fill_payload p frame s1 = Some s2 /\ holds_frame p frame s2 /\ owned ({[+ p +]} ⊎ H) s2 /\ areas_ok s2.
Proof.
  intros O A Hf. assert (u16 (Z.of_nat (length frame)) = Z.of_nat (length frame)) as -> by (apply Z.mod_small; lia).
  unfold pbuf_alloc. change (u16 PBUF_RAW) with 0. rewrite pool_loop_S by (rewrite ?room_0; lia).
  destruct (tab_pool s) as [|q tab] eqn:Et; [by left|right]. cbn [mbind option_bind].
  destruct (Z.ltb_spec (room 0) (Z.of_nat (length frame))) as [Hm|_]; [rewrite room_0 in Hm; lia|].
  set (b := pool_buf 0 _). set (s1 := set_bufs _ _). pose proof (pool_home _ _ _ _ O Et) as Hq.
  pose proof (A q Hq) as Aq. change PBUF_POOL_BUFSIZE_ALIGNED with 1516 in Aq.
  assert (bufs s1 !! q = Some b) as Eq by apply lookup_insert_eq.
  assert (payload b = 0) as Ep by done.
  assert (len b = Z.of_nat (length frame)) as El by (unfold b, pool_buf; cbn -[room]; rewrite room_0; lia).
  eexists q, s1, _. split; [done|]. split.
  { unfold fill_payload. rewrite Eq. cbn [mbind option_bind]. rewrite Ep. cbn [Z.to_nat Nat.add].
    rewrite bool_decide_true by (change (area_of s1 q) with (area_of s q); lia). done. }
  split_and!.
  - exists b. split_and!; [done|done|done|done|]. unfold data. rewrite area_insert, decide_True, El, Ep, Nat2Z.id by done.
    change (Z.to_nat 0) with 0%nat. rewrite drop_0, take_0, app_nil_l. by rewrite take_app_length.
  - pose proof (owned_take H s q tab b O Et eq_refl eq_refl eq_refl) as O1. by destruct O1.
  - intros p Hp. rewrite area_insert. destruct (decide (q = p)) as [<-|]; [|by apply A].
    change (area_of s1 q) with (area_of s q). rewrite take_0, app_nil_l, length_app, length_drop.
    change PBUF_POOL_BUFSIZE_ALIGNED with 1516. lia.
Qed.

(** ** Chains *)

(** The buffers of a chain in order. *)
Inductive chain (s : pstore) : option nat -> list nat -> Prop :=
  | chain_nil : chain s None []
  | chain_cons p b l : bufs s !! p = Some b -> chain s (next b) l -> chain s (Some p) (p :: l).

Lemma chain_det s p l l' : chain s p l -> chain s p l' -> l = l'.
Proof.
  intros C. revert l'. induction C as [|p b l E _ IH]; intros l' C'; inversion C' as [|? b' l1 E' C1]; subst; [done|].
  f_equal. apply IH. congruence.
Qed.

Lemma chain_suffix s p l q : chain s p l -> q ∈ l -> exists l', chain s (Some q) (q :: l') /\ (length (q :: l') <= length l)%nat.
Proof.
  induction 1 as [|p b l E C IH]; intros Hq; [by apply elem_of_nil in Hq|]. apply elem_of_cons in Hq as [->|Hq].
  - exists l. split; [by eapply chain_cons|done].
  - destruct (IH Hq) as (l' & C' & L). exists l'. split; [done|cbn in *; lia].
Qed.

(** A chain that ends has no loop, so it is no longer than the store. *)
Lemma chain_nodup s p l : chain s p l -> NoDup l.
Proof.
  induction 1 as [|p b l E C IH]; [constructor|]. constructor; [|done]. intros Hp.
  destruct (chain_suffix s _ l p C Hp) as (l' & C' & L).
  assert (p :: l = p :: l') as Q by (eapply chain_det; [by eapply chain_cons|exact C']). injection Q as ->. cbn in L. lia.
Qed.

Lemma chain_size s p l : chain s p l -> (length l <= size (bufs s))%nat.
Proof.
  intros C. rewrite <- size_dom, <- (size_list_to_set (C := gset nat)) by (by eapply chain_nodup). apply subseteq_size.
  intros q Hq%elem_of_list_to_set. destruct (chain_suffix s p l q C Hq) as (l' & C' & _). inversion C'; subst.
  by eapply elem_of_dom_2.
Qed.

Lemma packet_chain s p n : packet s p n -> exists l, chain s (Some p) (p :: l).
Proof.
  induction 1 as [p b E En _|p b q E En _ [l C]].
  - exists []. eapply chain_cons; [done|]. rewrite En. constructor.
  - exists (q :: l). eapply chain_cons; [done|]. by rewrite En.
Qed.

(** [pbuf_clen] counts them. *)
Lemma clen_loop_ok fuel p l n s :
  chain s p l -> (length l <= fuel)%nat -> 0 <= n -> n + Z.of_nat (length l) < 2 ^ 16 ->
  clen_loop fuel p n s = Some (n + Z.of_nat (length l)).
Proof.
  intros C. revert fuel n. induction C as [|p b l E C IH]; intros fuel n Hf Hn Hl; [destruct fuel; cbn; f_equal; lia|].
  destruct fuel as [|fuel]; cbn in Hf; [lia|]. cbn [clen_loop]. rewrite E. cbn [mbind option_bind length] in *.
  assert (u16 (n + 1) = n + 1) as -> by (apply Z.mod_small; lia). rewrite IH by lia. f_equal. lia.
Qed.

(** The walk of [pbuf_cat] ends at the last buffer and leaves the ownership as it
    is. *)
Lemma cat_loop_ok fuel H p n l tlen s :
  owned H s -> packet s p n -> chain s (Some p) (p :: l) -> (length l < fuel)%nat ->
  exists z s' b, cat_loop fuel p tlen s = Some (z, s') /\ owned H s' /\ bufs s' !! z = Some b /\ next b = None /\ tot_len b = len b.
Proof.
  revert p n l s. induction fuel as [|fuel IH]; intros p n l s O K C Hf; [lia|]. cbn [cat_loop].
  inversion K as [? b E En Et|? b q E En Kq]; subst; rewrite E; cbn [mbind option_bind]; rewrite En; [by exists p, s, b|].
  inversion C as [|? b' ? E' Cq]; subst. rewrite E in E'. injection E' as <-. rewrite En in Cq.
  inversion Cq as [|? bq lq Eq Cn]; subst.
  pose proof (chain_nodup _ _ _ C) as N. inversion N as [|? ? Np _]; subst.
  set (s1 := set_bufs _ s).
  assert (O1 : owned H s1) by (by eapply owned_set).
  assert (F : forall x, x <> p -> bufs s1 !! x = bufs s !! x) by (intros x Hx; unfold s1; cbn; by rewrite lookup_insert_ne).
  assert (Fc : forall x k, chain s x k -> p ∉ k -> chain s1 x k).
  { induction 1 as [|x c k Ec Ck IHk]; intros Hn; [constructor|]. rewrite not_elem_of_cons in Hn. destruct Hn as [Hn1 Hn2].
    eapply chain_cons; [|by apply IHk]. by rewrite F. }
  assert (Fp : forall x m k, packet s x m -> chain s (Some x) k -> p ∉ k -> packet s1 x m).
  { intros x m k Px. revert k. induction Px as [x c Ec En' Et'|x c y Ec En' Py IHp]; intros k Ck Hn;
      inversion Ck as [|? c' k' Ec' Ck']; subst; rewrite not_elem_of_cons in Hn; destruct Hn as [Hn1 Hn2].
    - eapply packet_last; [by rewrite F|done|done].
    - rewrite Ec in Ec'. injection Ec' as <-. rewrite En' in Ck'.
      eapply packet_more; [by rewrite F|done|]. by eapply IHp. }
  apply (IH q (tot_len b - len b) lq s1); [done|by eapply Fp|by apply Fc|cbn in Hf; lia].
Qed.

Lemma pbuf_cat_ok H h t n s :
  owned ({[+ t +]} ⊎ H) s -> packet s h n -> h <> t -> exists s', pbuf_cat h t s = Some s' /\ owned H s'.
Proof.
  intros O K Hn. unfold pbuf_cat. rewrite (proj2 (Nat.eqb_neq h t) Hn). destruct (handle_live _ _ _ O) as [bt Et].
  rewrite Et. cbn [mbind option_bind]. destruct (packet_chain _ _ _ K) as [l C]. pose proof (chain_size _ _ _ C) as L.
  destruct (cat_loop_ok (S (size (bufs s))) _ h n l (tot_len bt) s O K C) as (z & s' & b & -> & O' & Ez & En & El); [cbn in L; lia|].
  cbn [mbind option_bind]. rewrite Ez. cbn [mbind option_bind]. rewrite El, Z.eqb_refl. cbn [negb]. eexists. split; [done|].
  pose proof (owned_relink H s' z b (set_next (Some t) (set_tot_len (u16 (len b + tot_len bt)) b)) O' Ez eq_refl eq_refl) as O2.
  rewrite En in O2. cbn [handles] in O2. by rewrite (left_id_L ∅ (⊎)) in O2.
Qed.

Lemma packet_tot s p n : packet s p n -> exists b, bufs s !! p = Some b /\ tot_len b = n.
Proof. intros [? b E _ _|? b q E _ _]; by exists b. Qed.

Lemma pbuf_dechain_ok H p n s :
  owned H s -> packet s p n -> exists r s', pbuf_dechain p s = Some (r, s') /\ owned H s'.
Proof.
  intros O K. destruct (packet_chain _ _ _ K) as [l C]. pose proof (chain_nodup _ _ _ C) as N. unfold pbuf_dechain.
  inversion K as [? b E En Et|? b q E En Kq]; subst; rewrite E; cbn [mbind option_bind]; rewrite En.
  { rewrite Et, Z.eqb_refl. cbn [negb]. by exists None, s. }
  destruct (packet_tot _ _ _ Kq) as (bq & Eq & Tq). rewrite Eq. cbn [mbind option_bind]. rewrite Tq, Z.eqb_refl. cbn [negb].
  assert (p <> q) as Hpq.
  { inversion C as [|? b' ? E' Cq]; subst. rewrite E in E'. injection E' as <-. rewrite En in Cq. inversion Cq; subst.
    inversion N as [|? ? Np _]; subst. rewrite not_elem_of_cons in Np. naive_solver. }
  unfold upd. rewrite Eq. cbn [mbind option_bind]. set (s1 := set_bufs _ s).
  assert (O1 : owned H s1) by (by eapply owned_set). cbn [bufs set_bufs].
  assert (E1 : bufs s1 !! p = Some b) by (unfold s1; cbn; by rewrite lookup_insert_ne).
  change (<[q := _]> (bufs s)) with (bufs s1). rewrite E1. cbn [mbind option_bind].
  pose proof (owned_relink H s1 p b (set_tot_len (len b) (set_next None b))) as O2. cbn [next set_tot_len set_next handles] in O2.
  rewrite (left_id_L ∅ (⊎)), En in O2. specialize (O2 O1 E1 eq_refl eq_refl).
  destruct (pbuf_free_ok H q _ O2) as (g & s' & -> & O3 & _). cbn [mbind option_bind]. by eexists _, s'.
Qed.

(** ** Headers *)

(** A header taken off can be put back. *)
Lemma header_roundtrip p b n s :
  bufs s !! p = Some b -> 0 < n <= len b -> len b <= tot_len b < 2 ^ 16 -> 0 <= payload b ->
  Z.land (type_internal b) PBUF_TYPE_FLAG_STRUCT_DATA_CONTIGUOUS <> 0 ->
  exists s1, pbuf_remove_header p n s = Some (0, s1) /\ pbuf_add_header_impl p n false s1 = Some (0, s).
Proof.
  intros E Hn Hl Hp Ht. unfold pbuf_remove_header. rewrite E. cbn [mbind option_bind].
  destruct (Z.ltb_spec 0xFFFF n); [lia|]. destruct (Z.eqb_spec n 0); [lia|].
  assert (u16 n = n) as Eu by (apply Z.mod_small; lia). rewrite Eu. destruct (Z.leb_spec n (len b)); [|lia]. cbn [negb].
  unfold upd. rewrite E. cbn [mbind option_bind]. eexists. split; [done|]. unfold pbuf_add_header_impl.
  cbn [bufs set_bufs]. rewrite lookup_insert_eq. cbn [mbind option_bind tot_len len payload type_internal set_tot_len set_len set_payload].
  destruct (Z.ltb_spec 0xFFFF n); [lia|]. destruct (Z.eqb_spec n 0); [lia|]. rewrite Eu.
  assert (forall x, 0 <= x < 2 ^ 16 -> u16 x = x) as U by (intros; by apply Z.mod_small).
  rewrite (U (tot_len b - n)), (U (n + (tot_len b - n))) by lia. destruct (Z.ltb_spec (n + (tot_len b - n)) n); [lia|].
  rewrite (proj2 (Z.eqb_neq _ _) Ht). cbn [negb]. destruct (Z.ltb_spec (payload b + n - n) 0); [lia|].
  unfold upd. cbn [bufs set_bufs]. rewrite lookup_insert_eq. cbn [mbind option_bind]. rewrite insert_insert_eq.
  do 2 f_equal. unfold set_bufs. cbn. rewrite !U by (rewrite ?U by lia; lia).
  rewrite !Z.sub_add, Z.add_simpl_r. destruct b, s. cbn in *. by rewrite insert_id.
Qed.

(** ** Copying out *)

(** The bytes of a chain. *)
Fixpoint chain_bytes (s : pstore) (l : list nat) : list Z :=
  match l with [] => [] | p :: l' => match bufs s !! p with Some b => data s p b | None => [] end ++ chain_bytes s l' end.

(** Every buffer lies within its block. *)
Definition in_block (s : pstore) (p : nat) : Prop :=
  forall b, bufs s !! p = Some b -> 0 <= payload b /\ 0 <= len b /\ payload b + len b <= Z.of_nat (length (area_of s p)).

Lemma data_length s p b : in_block s p -> bufs s !! p = Some b -> length (data s p b) = Z.to_nat (len b).
Proof. intros B E. destruct (B b E) as (A1 & A2 & A3). unfold data. rewrite length_take, length_drop. lia. Qed.

Lemma data_part s p b off n :
  in_block s p -> bufs s !! p = Some b -> 0 <= off -> 0 <= n -> off + n <= len b ->
  take (Z.to_nat n) (drop (Z.to_nat (payload b + off)) (area_of s p)) = take (Z.to_nat n) (drop (Z.to_nat off) (data s p b)).
Proof.
  intros B E Ho Hn Hl. destruct (B b E) as (A1 & A2 & A3). unfold data. rewrite skipn_firstn_comm, take_take, drop_drop.
  rewrite Nat.min_l by lia. do 2 f_equal. lia.
Qed.

(** With the first [left] bytes in place, the rest of the loop puts what it copies
    behind them. *)
Lemma copy_loop_ok fuel p l dst left len' offset copied s :
  chain s p l -> (length l <= fuel)%nat -> Forall (in_block s) l ->
  Z.of_nat (length (chain_bytes s l)) < 2 ^ 16 -> 0 <= offset < 2 ^ 16 -> 0 <= len' -> 0 <= left -> 0 <= copied ->
  left + len' < 2 ^ 16 -> copied + len' < 2 ^ 16 -> left + len' <= Z.of_nat (length dst) ->
  let part := take (Z.to_nat len') (drop (Z.to_nat offset) (chain_bytes s l)) in
  copy_loop fuel p dst left len' offset copied s =
  Some (copied + Z.of_nat (length part), take (Z.to_nat left) dst ++ part ++ drop (Z.to_nat left + length part) dst).
Proof.
  intros C. revert fuel dst left len' offset copied.
  induction C as [|p b l E C IH]; intros fuel dst left len' offset copied Hf B Ht Ho Hl Hp Hc H1 H2 H3; cbv zeta.
  { cbn [chain_bytes]. rewrite drop_nil, take_nil. cbn [length app]. rewrite Nat.add_0_r, take_drop.
    destruct fuel; cbn [copy_loop]; do 2 f_equal; lia. }
  destruct fuel as [|fuel]; cbn [length] in Hf; [lia|]. cbn [copy_loop].
  destruct (Z.eqb_spec len' 0) as [->|Hnz].
  { cbn [Z.to_nat]. rewrite take_0. cbn [length app]. rewrite Nat.add_0_r, take_drop. do 2 f_equal. lia. }
  inversion B as [|? ? Bp Bl]; subst. rewrite E. cbn [mbind option_bind]. pose proof (data_length s p b Bp E) as Ld.
  destruct (Bp b E) as (A1 & A2 & A3). cbn [chain_bytes] in Ht |- *. rewrite E in Ht |- *. rewrite length_app in Ht.
  destruct (negb (offset =? 0) && (len b <=? offset)) eqn:Es.
  - apply andb_prop in Es as [_ Es]. apply Z.leb_le in Es.
    assert (u16 (offset - len b) = offset - len b) as -> by (apply Z.mod_small; lia).
    rewrite IH by (try done; lia). rewrite drop_app_ge by lia. rewrite Ld, Z2Nat.inj_sub by lia. done.
  - assert (offset = 0 \/ offset < len b) as Hcase.
    { destruct (Z.eqb_spec offset 0); [by left|right]. cbn [negb andb] in Es. lia. }
    assert (u16 (len b - offset) = len b - offset) as -> by (apply Z.mod_small; lia).
    set (n := if len' <? len b - offset then len' else len b - offset).
    assert (n = Z.min len' (len b - offset)) as Hn by (unfold n; destruct (Z.ltb_spec len' (len b - offset)); lia).
    clearbody n. rewrite (data_part s p b offset n) by (try done; lia).
    rewrite drop_app_le by lia. set (A := drop (Z.to_nat offset) (data s p b)).
    assert (length A = Z.to_nat (len b - offset)) as LA by (unfold A; rewrite length_drop; lia).
    assert (take (Z.to_nat len') (A ++ chain_bytes s l) = take (Z.to_nat n) A ++ take (Z.to_nat (len' - n)) (chain_bytes s l)) as ->.
    { rewrite take_app. f_equal; [|f_equal; lia]. destruct (decide (len' <= len b - offset)).
      - by rewrite Hn, Z.min_l by lia.
      - rewrite !take_ge by lia. done. }
    set (piece := take (Z.to_nat n) A).
    assert (length piece = Z.to_nat n) as LP by (unfold piece; rewrite length_take; lia).
    assert (u16 (left + n) = left + n) as -> by (apply Z.mod_small; lia).
    assert (u16 (len' - n) = len' - n) as -> by (apply Z.mod_small; lia).
    assert (u16 (copied + n) = copied + n) as -> by (apply Z.mod_small; lia).
    set (dst' := take (Z.to_nat left) dst ++ piece ++ drop (Z.to_nat left + length piece) dst).
    assert (length dst' = length dst) as LD by (unfold dst'; rewrite !length_app, length_take, length_drop; lia).
    rewrite IH by (try done; lia). change (Z.to_nat 0) with 0%nat. rewrite drop_0.
    set (part := take (Z.to_nat (len' - n)) (chain_bytes s l)).
    assert (length part <= Z.to_nat (len' - n))%nat as Lpt by (unfold part; rewrite length_take; lia).
    assert (take (Z.to_nat (left + n)) dst' = take (Z.to_nat left) dst ++ piece) as ->.
    { unfold dst'. rewrite (assoc_L (++)). apply take_app_length'. rewrite length_app, length_take. lia. }
    assert (drop (Z.to_nat (left + n) + length part) dst' = drop (Z.to_nat left + length (piece ++ part)) dst) as ->.
    { unfold dst'. rewrite (assoc_L (++)), drop_app_ge by (rewrite length_app, length_take; lia).
      rewrite drop_drop, !length_app, length_take. f_equal. lia. }
    rewrite length_app, <- !(assoc_L (++)). do 2 f_equal. lia.
Qed.

(** ** The start *)

Lemma memp_init_eq base num : memp_init_pool base num = reverse (seq base num).
Proof.
  unfold memp_init_pool. induction num as [|n IH]; [done|].
  rewrite !seq_S, foldl_app, IH, reverse_app. by cbn.
Qed.

Lemma memp_init_in base num p : p ∈ memp_init_pool base num <-> (base <= p < base + num)%nat.
Proof. rewrite memp_init_eq, elem_of_reverse, elem_of_seq. lia. Qed.

Lemma memp_init_nodup base num : NoDup (memp_init_pool base num).
Proof. rewrite memp_init_eq. rewrite reverse_Permutation. apply NoDup_seq. Qed.

Lemma pstore0_owned : owned ∅ pstore0.
Proof.
  assert (forall p, pointers ∅ p = 0%nat) as P by (intros p; unfold pointers; by rewrite map_filter_empty, map_size_empty).
  constructor; cbn [bufs tab_pool tab_pbuf pstore0].
  - split; [apply memp_init_nodup|]. apply Forall_forall. intros p Hp%list_elem_of_In%memp_init_in. unfold home.
    by rewrite decide_True by lia.
  - split; [apply memp_init_nodup|]. apply Forall_forall. intros p Hp%list_elem_of_In%memp_init_in. unfold home.
    by rewrite decide_False, decide_True by lia.
  - intros p Hp. rewrite lookup_empty. split; [|done]. intros _. unfold free_list, home in *. cbn [tab_pool tab_pbuf].
    repeat case_decide; cbn [Z.eqb Pos.eqb STD_MEMP_PBUF_POOL STD_MEMP_PBUF STD_HEAP]; [apply memp_init_in; lia|apply memp_init_in; lia|done].
  - intros p b Hb. by rewrite lookup_empty in Hb.
  - intros p b Hb. by rewrite lookup_empty in Hb.
  - intros p _. by rewrite multiplicity_empty, P.
Qed.

Lemma pstore0_areas : areas_ok pstore0.
Proof.
  intros p Hp. unfold area_of. cbn [area pstore0].
  assert (list_to_map (M := gmap nat (list Z)) ((fun i => (i, zero_area)) <$> seq 0 PBUF_POOL_SIZE) !! p = Some zero_area) as ->.
  { apply elem_of_list_to_map_1.
    - rewrite <- list_fmap_compose. change (fst ∘ (fun i : nat => (i, zero_area))) with (@id nat). rewrite list_fmap_id. apply NoDup_seq.
    - apply list_elem_of_fmap. exists p. split; [done|]. apply elem_of_seq. lia. }
  vm_compute. reflexivity.
Qed.

(** * Theorems *)



(** Copying out of a packet is taking a slice of its bytes: from a chain of
    buffers, whatever its division into buffers, [pbuf_copy_partial] delivers
    the bytes from the offset on, as many as were asked for or are there, writes
    nothing else, and returns their number. *)
Theorem pbuf_copy_partial_slice (buf : nat) (l : list nat) (dst : list Z) (n offset : Z) (s : pstore) :
  chain s (Some buf) l -> Forall (in_block s) l -> Z.of_nat (length (chain_bytes s l)) < 2 ^ 16 ->
  0 <= offset < 2 ^ 16 -> 0 <= n < 2 ^ 16 -> n <= Z.of_nat (length dst) ->
  let part := take (Z.to_nat n) (drop (Z.to_nat offset) (chain_bytes s l)) in
  pbuf_copy_partial buf dst n offset s = Some (Z.of_nat (length part), part ++ drop (length part) dst).
Proof.
  intros C B Ht Ho Hn Hd part. pose proof (chain_size _ _ _ C). unfold pbuf_copy_partial.
  rewrite (copy_loop_ok _ _ l) by (try done; lia). by cbn [Z.to_nat take app Nat.add].
Qed.

(** ** Samples *)

Definition no_heap (_ : gset nat) (_ : Z) : option (nat * list Z) := None.



(** Two buffers with three bytes each. *)
Definition two_bufs : pstore :=
  mk_pstore {[ 5%nat := mk_pbuf (Some 9%nat) 1 6 3 0x82 0 1; 9%nat := mk_pbuf None 0 3 3 0x82 0 1 ]}
    {[ 5%nat := [0; 1; 2; 3]; 9%nat := [4; 5; 6; 0] ]} [] [].

Lemma pbuf_copy_partial_slice_witness :
  pbuf_copy_partial 5 [0; 0; 0; 0; 0] 3 2 two_bufs = Some (3, [3; 4; 5; 0; 0]).
Proof.
  rewrite (pbuf_copy_partial_slice 5 [5%nat; 9%nat] [0; 0; 0; 0; 0] 3 2 two_bufs).
  - reflexivity.
  - eapply chain_cons; [reflexivity|]. eapply chain_cons; [reflexivity|]. constructor.
  - constructor; [|constructor; [|constructor]]; intros b Hb; vm_compute in Hb; injection Hb as <-; vm_compute; split_and!; discriminate.
  - reflexivity.
  - lia.
  - lia.
  - cbn. lia.
Defined.
