(* ===== verification/PbufData.v ===== *)
(** Access to the bytes of packets: the rest of src/lwip/src/core/pbuf.c that
    reads and writes through a chain of buffers, over the store of [Pbuf].

    A position in a packet is found by walking the chain.  The theorems say that
    the division into buffers does not matter: writing is splicing into the bytes
    of the packet, reading is a slice, searching is searching in a list. *)

From Stdlib Require Import ZArith Lia Bool.
From stdpp Require Import base list gmap numbers option.
From S2P Require Import Prelude Pbuf.

Local Open Scope Z_scope.

(** * Definitions *)

Definition ERR_MEM : Z := -1.
Definition ERR_ARG : Z := -16.

(** [memcpy] to the payload of a buffer; outside the block it is a failure. *)
Definition write_payload (p : nat) (at_ : Z) (bytes : list Z) (s : pstore) : option pstore :=
  b ← bufs s !! p;
  let k := Z.to_nat (payload b + at_) in
  if bool_decide (k + List.length bytes <= List.length (area_of s p))%nat then
    Some (set_area (<[p := take k (area_of s p) ++ bytes ++ drop (k + List.length bytes) (area_of s p)]> (area s)) s)
  else None.

(** The bytes that are copied; reading past the source is a failure. *)
Definition read_source (at_ n : Z) (src : list Z) : option (list Z) :=
  if bool_decide (at_ + n <= Z.of_nat (List.length src)) then Some (take (Z.to_nat n) (drop (Z.to_nat at_) src)) else None.

Fixpoint skip_loop (fuel : nat) (q : option nat) (offset_left : Z) (s : pstore) : option (option nat * Z) :=
  match q with
  | None => Some (None, offset_left)
  | Some i =>
      b ← bufs s !! i;
      if len b <=? offset_left then
        match fuel with O => None | S fuel' => skip_loop fuel' (next b) (u16 (offset_left - len b)) s end
      else Some (Some i, offset_left)
  end.

(** The buffer and the offset in it. *)
Definition pbuf_skip_const (inp : option nat) (in_offset : Z) (s : pstore) : option (option nat * Z) :=
  skip_loop (size (bufs s)) inp in_offset s.

Definition pbuf_skip (inp : option nat) (in_offset : Z) (s : pstore) : option (option nat * Z) := pbuf_skip_const inp in_offset s.

Definition pbuf_try_get_at (p : option nat) (offset : Z) (s : pstore) : option Z :=
  '(q, q_idx) ← pbuf_skip_const p offset s;
  match q with
  | Some i => b ← bufs s !! i; if q_idx <? len b then area_of s i !! Z.to_nat (payload b + q_idx) else Some (-1)
  | None => Some (-1)
  end.

Definition pbuf_get_at (p : option nat) (offset : Z) (s : pstore) : option Z :=
  ret ← pbuf_try_get_at p offset s; Some (if 0 <=? ret then u8 ret else 0).

Definition pbuf_put_at (p : option nat) (offset byte : Z) (s : pstore) : option pstore :=
  '(q, q_idx) ← pbuf_skip p offset s;
  match q with
  | Some i => b ← bufs s !! i; if q_idx <? len b then write_payload i q_idx [byte] s else Some s
  | None => Some s
  end.

(** A missing buffer while bytes are left is an assertion. *)
Fixpoint take_loop (fuel : nat) (p : option nat) (total_copy_len copied_total : Z) (dataptr : list Z) (s : pstore) : option pstore :=
  if total_copy_len =? 0 then Some s
  else
    match p, fuel with
    | Some i, S fuel' =>
        b ← bufs s !! i;
        let buf_copy_len := if len b <? total_copy_len then len b else total_copy_len in
        bytes ← read_source copied_total buf_copy_len dataptr;
        s ← write_payload i 0 bytes s;
        take_loop fuel' (next b) (total_copy_len - buf_copy_len) (copied_total + buf_copy_len) dataptr s
    | _, _ => None
    end.

Definition pbuf_take (buf : option nat) (dataptr : list Z) (len' : Z) (s : pstore) : option (Z * pstore) :=
  match buf with
  | None => Some (ERR_ARG, s)
  | Some p =>
      b ← bufs s !! p;
      if tot_len b <? len' then Some (ERR_MEM, s)
      else s ← take_loop (size (bufs s)) buf len' 0 dataptr s; Some (ERR_OK, s)
  end.

Definition pbuf_take_at (buf : option nat) (dataptr : list Z) (len' offset : Z) (s : pstore) : option (Z * pstore) :=
  '(q, target_offset) ← pbuf_skip buf offset s;
  match q with
  | None => Some (ERR_MEM, s)
  | Some i =>
      b ← bufs s !! i;
      if tot_len b <? target_offset + len' then Some (ERR_MEM, s)
      else if negb (target_offset <? len b) then None
      else
        let first_copy_len := u16 (Z.min (len b - target_offset) len') in
        bytes ← read_source 0 first_copy_len dataptr;
        s ← write_payload i target_offset bytes s;
        let remaining_len := u16 (len' - first_copy_len) in
        if 0 <? remaining_len then pbuf_take (next b) (drop (Z.to_nat first_copy_len) dataptr) remaining_len s
        else Some (ERR_OK, s)
  end.

Fixpoint cmp_loop (k : nat) (i : Z) (q : option nat) (start : Z) (s2 : list Z) (s : pstore) : option Z :=
  match k with
  | O => Some 0
  | S k' =>
      a ← pbuf_get_at q (u16 (start + i)) s;
      b ← s2 !! Z.to_nat i;
      if negb (a =? b) then Some (u16 (Z.min (i + 1) 0xFFFF)) else cmp_loop k' (i + 1) q start s2 s
  end.

Definition pbuf_memcmp (p : nat) (offset : Z) (s2 : list Z) (n : Z) (s : pstore) : option Z :=
  b ← bufs s !! p;
  if tot_len b <? offset + n then Some 0xffff
  else '(q, start) ← skip_loop (size (bufs s)) (Some p) offset s; cmp_loop (Z.to_nat n) 0 q start s2 s.

Fixpoint find_loop (fuel : nat) (i max_cmp_start : Z) (p : nat) (mem : list Z) (mem_len : Z) (s : pstore) : option Z :=
  if i <=? max_cmp_start then
    match fuel with
    | O => None
    | S fuel' =>
        plus ← pbuf_memcmp p i mem mem_len s;
        if plus =? 0 then Some i else find_loop fuel' (u16 (i + 1)) max_cmp_start p mem mem_len s
    end
  else Some 0xFFFF.

Definition pbuf_memfind (p : nat) (mem : list Z) (mem_len start_offset : Z) (s : pstore) : option Z :=
  b ← bufs s !! p;
  let max_cmp_start := u16 (tot_len b - mem_len) in
  if mem_len + start_offset <=? tot_len b then
    find_loop (S (Z.to_nat (max_cmp_start - start_offset))) start_offset max_cmp_start p mem mem_len s
  else Some 0xFFFF.

(** The string without its terminator. *)
Definition pbuf_strstr (p : nat) (substr : list Z) (s : pstore) : option Z :=
  b ← bufs s !! p;
  if bool_decide (substr = []) || (tot_len b =? 0xFFFF) then Some 0xFFFF
  else
    let substr_len := Z.of_nat (List.length substr) in
    if 0xFFFF <=? substr_len then Some 0xFFFF else pbuf_memfind p substr (u16 substr_len) 0 s.

(** What a pointer to contiguous memory points to. *)
Inductive contiguous := NULL | IN_PBUF (i : nat) (at_ : Z) | IN_BUFFER (bytes : list Z).

Definition pbuf_get_contiguous (p : nat) (buffer : option (list Z)) (bufsize len' offset : Z) (s : pstore) : option contiguous :=
  if match buffer with Some _ => bufsize <? len' | None => false end then Some NULL
  else
    '(q, out_offset) ← pbuf_skip_const (Some p) offset s;
    match q with
    | None => Some NULL
    | Some i =>
        b ← bufs s !! i;
        if out_offset + len' <=? len b then Some (IN_PBUF i (payload b + out_offset))
        else
          match buffer with
          | None => Some NULL
          | Some buf =>
              '(n, buf) ← pbuf_copy_partial i buf len' out_offset s;
              Some (if negb (n =? len') then NULL else IN_BUFFER buf)
          end
    end.

(** * Walking the chain *)

Lemma chain_bytes_app s l1 l2 : chain_bytes s (l1 ++ l2) = chain_bytes s l1 ++ chain_bytes s l2.
Proof. induction l1 as [|i l1 IH]; [done|]. cbn [app chain_bytes]. by rewrite IH, (assoc_L (++)). Qed.

Lemma skip_loop_ok fuel s p l off :
  chain s p l -> Forall (in_block s) l -> (length l <= fuel)%nat -> 0 <= off < 2 ^ 16 ->
  exists l1 l2 q o, skip_loop fuel p off s = Some (q, o) /\ l = l1 ++ l2 /\ chain s q l2 /\ 0 <= o /\
    off = Z.of_nat (length (chain_bytes s l1)) + o /\
    match l2 with [] => q = None | i :: _ => exists b, q = Some i /\ bufs s !! i = Some b /\ o < len b end.
Proof.
  intros C. revert fuel off. induction C as [|i b l E C IH]; intros fuel off B Hf Ho.
  - exists [], [], None, off. split_and!; [by destruct fuel|done|apply chain_nil|lia|cbn; lia|done].
  - inversion B as [|? ? Bi Bl]; subst. destruct (Bi b E) as (_ & H0 & _). cbn [length] in Hf. destruct fuel as [|fuel]; [lia|].
    cbn [skip_loop]. rewrite E. cbn [mbind option_bind]. destruct (Z.leb_spec (len b) off) as [Hle|Hlt].
    + assert (u16 (off - len b) = off - len b) as -> by (apply Z.mod_small; lia).
      destruct (IH fuel (off - len b) Bl ltac:(lia) ltac:(lia)) as (l1 & l2 & q & o & -> & -> & Cq & H1 & H2 & H3).
      exists (i :: l1), l2, q, o. split_and!; try done. cbn [chain_bytes]. rewrite E, length_app, (data_length s i b Bi E). lia.
    + exists [], (i :: l), (Some i), off. split_and!; [done|done|by eapply chain_cons|lia|cbn; lia|]. by exists b.
Qed.

Lemma skip_here fuel s i b o : bufs s !! i = Some b -> o < len b -> skip_loop fuel (Some i) o s = Some (Some i, o).
Proof.
  intros E Ho. destruct fuel; cbn [skip_loop]; rewrite E; cbn [mbind option_bind]; by rewrite (proj2 (Z.leb_gt _ _) Ho).
Qed.

(** The byte at a position. *)
Lemma try_get_ok s p l off :
  chain s p l -> Forall (in_block s) l -> 0 <= off < 2 ^ 16 ->
  pbuf_try_get_at p off s = Some (default (-1) (chain_bytes s l !! Z.to_nat off)).
Proof.
  intros C B Ho. unfold pbuf_try_get_at, pbuf_skip_const. pose proof (chain_size _ _ _ C) as Hs.
  destruct (skip_loop_ok _ s p l off C B Hs Ho) as (l1 & l2 & q & o & -> & -> & Cq & H1 & -> & H3). cbn [mbind option_bind].
  rewrite chain_bytes_app, lookup_app_r by lia. replace (Z.to_nat _ - length (chain_bytes s l1))%nat with (Z.to_nat o) by lia.
  destruct l2 as [|i l2]; [by subst q|]. destruct H3 as (b & -> & E & Hlt). rewrite E. cbn [mbind option_bind].
  rewrite (proj2 (Z.ltb_lt _ _) Hlt). apply Forall_app in B as [_ B]. inversion B as [|? ? Bi _]; subst. destruct (Bi b E) as (A1 & A2 & A3).
  cbn [chain_bytes]. rewrite E. pose proof (data_length s i b Bi E) as Ld. rewrite lookup_app_l by lia. unfold data.
  rewrite lookup_take_lt by lia. rewrite lookup_drop. replace (Z.to_nat (payload b) + Z.to_nat o)%nat with (Z.to_nat (payload b + o)) by lia.
  destruct (lookup_lt_is_Some_2 (area_of s i) (Z.to_nat (payload b + o))) as [x ->]; [lia|done].
Qed.

Lemma get_ok s p l off :
  chain s p l -> Forall (in_block s) l -> 0 <= off < 2 ^ 16 -> Forall (fun x => 0 <= x < 256) (chain_bytes s l) ->
  pbuf_get_at p off s = Some (default 0 (chain_bytes s l !! Z.to_nat off)).
Proof.
  intros C B Ho Hb. unfold pbuf_get_at. rewrite (try_get_ok s p l off C B Ho). cbn [mbind option_bind].
  destruct (chain_bytes s l !! Z.to_nat off) as [x|] eqn:E; [|done]. cbn [default]. rewrite Forall_lookup in Hb. specialize (Hb _ _ E).
  cbn in Hb |- *. destruct (Z.leb_spec 0 x); [|lia]. unfold u8. by rewrite Z.mod_small by lia.
Qed.

(** * Writing *)

(** Only the contents have changed. *)
Definition same_shape (s s' : pstore) : Prop :=
  bufs s' = bufs s /\ tab_pool s' = tab_pool s /\ tab_pbuf s' = tab_pbuf s /\ forall i, length (area_of s' i) = length (area_of s i).

#[export] Instance same_shape_preorder : PreOrder same_shape.
Proof.
  split; [done|]. intros s1 s2 s3 (A1 & B1 & C1 & D1) (A2 & B2 & C2 & D2). split_and!; [congruence..|]. intros i. by rewrite D2.
Qed.

Lemma shape_chain s s' p l : same_shape s s' -> chain s p l -> chain s' p l.
Proof. intros (E & _). induction 1 as [|i b l Ei C IH]; [constructor|]. eapply chain_cons; [by rewrite E|done]. Qed.

Lemma shape_block s s' l : same_shape s s' -> Forall (in_block s) l -> Forall (in_block s') l.
Proof. intros (E & _ & _ & D) B. eapply Forall_impl; [|exact B]. intros i Bi b. rewrite E, D. apply Bi. Qed.

Lemma chain_bytes_same s s' l : bufs s' = bufs s -> (forall i, i ∈ l -> area_of s' i = area_of s i) -> chain_bytes s' l = chain_bytes s l.
Proof.
  intros E A. induction l as [|i l IH]; [done|]. cbn [chain_bytes]. rewrite E, IH by (intros j Hj; apply A; by right).
  unfold data. by rewrite A by left.
Qed.

(** A splice in the area is one in the window of it. *)
Lemma splice_window (P a n : nat) (A bytes : list Z) :
  (a + length bytes <= n)%nat -> (P + n <= length A)%nat ->
  take n (drop P (take (P + a) A ++ bytes ++ drop (P + a + length bytes) A)) =
  take a (take n (drop P A)) ++ bytes ++ drop (a + length bytes) (take n (drop P A)).
Proof.
  intros H1 H2. rewrite drop_app_le by (rewrite length_take; lia). rewrite <- take_drop_commute.
  replace (drop (P + a + length bytes) A) with (drop (a + length bytes) (drop P A)) by (rewrite drop_drop; f_equal; lia).
  assert (length (drop P A) = length A - P)%nat as LY by (by rewrite length_drop). set (Y := drop P A) in *. clearbody Y.
  rewrite take_take, Nat.min_l by lia. rewrite !take_app, !length_take, Nat.min_l by lia.
  rewrite (take_ge (take a Y)) by (rewrite length_take; lia). rewrite (take_ge bytes) by lia.
  f_equal. f_equal. rewrite take_drop_commute. f_equal. f_equal. lia.
Qed.

Lemma write_ok s i b at_ bytes :
  in_block s i -> bufs s !! i = Some b -> 0 <= at_ -> at_ + Z.of_nat (length bytes) <= len b ->
  exists s', write_payload i at_ bytes s = Some s' /\ same_shape s s' /\ (forall j, j <> i -> area_of s' j = area_of s j) /\
    data s' i b = take (Z.to_nat at_) (data s i b) ++ bytes ++ drop (Z.to_nat at_ + length bytes) (data s i b).
Proof.
  intros B E H0 Hl. destruct (B b E) as (A1 & A2 & A3). unfold write_payload. rewrite E. cbn [mbind option_bind].
  rewrite bool_decide_true by lia. eexists. split; [done|]. set (k := Z.to_nat (payload b + at_)). set (area' := take k _ ++ _).
  assert (length area' = length (area_of s i)) as La.
  { unfold area'. rewrite !length_app, length_take, length_drop. lia. }
  split_and!.
  - split_and!; try done. intros j. rewrite area_insert. by destruct (decide (i = j)) as [<-|].
  - intros j Hj. rewrite area_insert. by rewrite decide_False by done.
  - unfold data at 1. rewrite area_insert, decide_True by done. unfold area'.
    replace k with (Z.to_nat (payload b) + Z.to_nat at_)%nat by lia. apply splice_window; lia.
Qed.

(** [pbuf_take] from the buffer [p] on. *)
Lemma take_loop_ok fuel s p l total copied src :
  chain s p l -> Forall (in_block s) l -> (length l <= fuel)%nat -> 0 <= total -> 0 <= copied ->
  total <= Z.of_nat (length (chain_bytes s l)) -> copied + total = Z.of_nat (length src) ->
  exists s', take_loop fuel p total copied src s = Some s' /\ same_shape s s' /\ (forall j, j ∉ l -> area_of s' j = area_of s j) /\
    chain_bytes s' l = drop (Z.to_nat copied) src ++ drop (Z.to_nat total) (chain_bytes s l).
Proof.
  revert s p fuel total copied. induction l as [|i l IH]; intros s p fuel total copied C B Hf Ht Hc Hle Hsrc.
  { inversion C; subst. cbn in Hle. assert (total = 0) as -> by lia. exists s. split_and!; [by destruct fuel|done|done|].
    rewrite (drop_ge src) by lia. cbn [chain_bytes]. by rewrite drop_nil. }
  destruct (Z.eq_dec total 0) as [->|Hnz].
  { exists s. split_and!; [by destruct fuel|done|done|]. rewrite drop_ge by lia. by rewrite drop_0. }
  pose proof (chain_nodup _ _ _ C) as N. inversion N as [|? ? Ni _]; subst. inversion C as [|? b ? E Cn]; subst.
  inversion B as [|? ? Bi Bl]; subst. destruct (Bi b E) as (_ & H0 & _). pose proof (data_length s i b Bi E) as Ld.
  destruct fuel as [|fuel]; [cbn in Hf; lia|]. cbn [take_loop]. rewrite (proj2 (Z.eqb_neq _ _) Hnz), E. cbn [mbind option_bind].
  set (n := if len b <? total then len b else total).
  assert (n = Z.min (len b) total) as Hn by (unfold n; destruct (Z.ltb_spec (len b) total); lia). clearbody n.
  unfold read_source. rewrite bool_decide_true by lia. cbn [mbind option_bind]. set (bytes := take _ (drop _ src)).
  assert (length bytes = Z.to_nat n) as Lb by (unfold bytes; rewrite length_take, length_drop; lia).
  destruct (write_ok s i b 0 bytes Bi E ltac:(lia) ltac:(lia)) as (s1 & -> & Sh & O & D). cbn [mbind option_bind].
  assert (chain_bytes s1 l = chain_bytes s l) as E1.
  { apply chain_bytes_same; [apply Sh|]. intros j Hj. apply O. by intros ->. }
  cbn [chain_bytes] in Hle |- *. rewrite E in Hle |- *. rewrite length_app in Hle.
  destruct (IH s1 (next b) fuel (total - n) (copied + n)) as (s' & -> & Sh' & O' & D');
    [by eapply shape_chain|by eapply shape_block|cbn in Hf; lia|lia|lia|rewrite E1; lia|lia|].
  exists s'. split_and!; [done|by etransitivity| |].
  - intros j Hj. rewrite not_elem_of_cons in Hj. destruct Hj. by rewrite O', O.
  - rewrite (proj1 Sh'), (proj1 Sh), E, D', E1. unfold data in D |- *. rewrite O' by done. rewrite D. clear D D'. fold (data s i b).
    rewrite Lb. change (Z.to_nat 0) with 0%nat. rewrite take_0, Nat.add_0_l. cbn [app]. rewrite drop_app, Ld. unfold bytes.
    replace (drop (Z.to_nat (copied + n)) src) with (drop (Z.to_nat n) (drop (Z.to_nat copied) src)) by (rewrite drop_drop; f_equal; lia).
    rewrite <- !(assoc_L (++)).
    assert (drop (Z.to_nat n) (data s i b) = drop (Z.to_nat total) (data s i b) /\ (n < total -> drop (Z.to_nat n) (data s i b) = []) /\
      (n = total -> drop (Z.to_nat n) (drop (Z.to_nat copied) src) = [])) as (Q1 & Q2 & Q3).
    { destruct (Z.min_spec (len b) total) as [[? Em]|[? Em]]; rewrite Em in Hn; subst n.
      - split_and!; [rewrite !drop_ge by lia; done|intros _; by rewrite drop_ge by lia|lia].
      - split_and!; [done|lia|]. intros _. apply drop_ge. rewrite length_drop. lia. }
    set (X := drop (Z.to_nat copied) src) in *. destruct (Z.eq_dec n total) as [->|Hne].
    + rewrite Q3 by done. rewrite <- (take_drop (Z.to_nat total) X) at 2. rewrite Q3, app_nil_r by done. cbn [app].
      rewrite Z.sub_diag. cbn [Z.to_nat]. rewrite drop_0. by replace (Z.to_nat total - Z.to_nat (len b))%nat with 0%nat by lia.
    + rewrite <- Q1, Q2 by lia. cbn [app]. rewrite (assoc_L (++)), take_drop. f_equal. f_equal. lia.
Qed.

(** The total lengths along a chain are right. *)
Fixpoint totals (s : pstore) (l : list nat) : Prop :=
  match l with
  | [] => True
  | i :: l' => (forall b, bufs s !! i = Some b -> tot_len b = Z.of_nat (length (chain_bytes s l))) /\ totals s l'
  end.

Record packet_of (s : pstore) (p : option nat) (l : list nat) : Prop := {
  po_chain : chain s p l;
  po_block : Forall (in_block s) l;
  po_totals : totals s l;
  po_small : Z.of_nat (length (chain_bytes s l)) < 2 ^ 16 }.

Lemma totals_app s l1 l2 : totals s (l1 ++ l2) -> totals s l2.
Proof. induction l1 as [|i l1 IH]; [done|]. intros [_ T]. by apply IH. Qed.

Lemma shape_length s s' l : same_shape s s' -> length (chain_bytes s' l) = length (chain_bytes s l).
Proof.
  intros (E & _ & _ & D). induction l as [|i l IH]; [done|]. cbn [chain_bytes]. rewrite E, !length_app, IH. f_equal.
  destruct (bufs s !! i); [|done]. unfold data. by rewrite !length_take, !length_drop, D.
Qed.

Lemma shape_packet s s' p l : same_shape s s' -> packet_of s p l -> packet_of s' p l.
Proof.
  intros Sh [C B T Hs]. constructor; [by eapply shape_chain|by eapply shape_block| |by rewrite (shape_length s s')].
  clear -Sh T. induction l as [|i l IH]; [done|]. destruct T as [T1 T2]. split; [|by apply IH]. intros b.
  rewrite (shape_length s s') by done. rewrite (proj1 Sh). apply T1.
Qed.

(** The packet from its second buffer on. *)
Lemma pbuf_take_ok s p l src :
  packet_of s p l -> (0 < length src)%nat -> (length src <= length (chain_bytes s l))%nat ->
  exists s', pbuf_take p src (Z.of_nat (length src)) s = Some (ERR_OK, s') /\ same_shape s s' /\
    (forall j, j ∉ l -> area_of s' j = area_of s j) /\ chain_bytes s' l = src ++ drop (length src) (chain_bytes s l).
Proof.
  intros [C B T _] H0 Hl. destruct l as [|i l]; [cbn in Hl; lia|]. inversion C as [|? b ? E _]; subst. destruct T as [T _].
  unfold pbuf_take. rewrite E. cbn [mbind option_bind]. rewrite (T b E).
  destruct (Z.ltb_spec (Z.of_nat (length (chain_bytes s (i :: l)))) (Z.of_nat (length src))); [lia|].
  destruct (take_loop_ok (size (bufs s)) s (Some i) (i :: l) (Z.of_nat (length src)) 0 src C B (chain_size _ _ _ C)) as (s' & -> & Sh & O & D);
    [lia|lia|lia|lia|].
  cbn [mbind option_bind]. exists s'. split_and!; try done. rewrite Nat2Z.id in D. by rewrite D.
Qed.

Lemma splice_first (D R src : list Z) (o : nat) :
  (o + length src <= length D)%nat ->
  (take o D ++ src ++ drop (o + length src) D) ++ R = take o (D ++ R) ++ src ++ drop (o + length src) (D ++ R).
Proof. intros H. rewrite take_app_le, drop_app_le by lia. by rewrite <- !(assoc_L (++)). Qed.

Lemma splice_across (D R src : list Z) (o f : nat) :
  f = (length D - o)%nat -> (o <= length D)%nat -> (f <= length src)%nat ->
  (take o D ++ take f src ++ drop (o + f) D) ++ drop f src ++ drop (length src - f) R =
  take o (D ++ R) ++ src ++ drop (o + length src) (D ++ R).
Proof.
  intros -> H1 H2. rewrite take_app_le, drop_app_ge by lia.
  rewrite (drop_ge D) by lia. rewrite app_nil_r, <- !(assoc_L (++)). f_equal. rewrite (assoc_L (++)), take_drop. do 2 f_equal. lia.
Qed.

(** Writing from the offset [o] of the first buffer on. *)
Lemma take_from_ok s i b l src o :
  packet_of s (Some i) (i :: l) -> bufs s !! i = Some b -> 0 <= o < len b -> Z.of_nat (length src) < 2 ^ 16 ->
  o + Z.of_nat (length src) <= Z.of_nat (length (chain_bytes s (i :: l))) ->
  exists s', pbuf_take_at (Some i) src (Z.of_nat (length src)) o s = Some (ERR_OK, s') /\ same_shape s s' /\
    (forall j, j ∉ i :: l -> area_of s' j = area_of s j) /\
    chain_bytes s' (i :: l) = take (Z.to_nat o) (chain_bytes s (i :: l)) ++ src ++ drop (Z.to_nat o + length src) (chain_bytes s (i :: l)).
Proof.
  intros P E Ho Hn Hfit. pose proof P as [C B T Hs]. pose proof (chain_nodup _ _ _ C) as N. inversion N as [|? ? Ni _]; subst.
  inversion B as [|? ? Bi Bl]; subst. pose proof (data_length s i b Bi E) as Ld. inversion C as [|? b' ? E' Cn]; subst.
  rewrite E in E'. injection E' as <-. destruct T as [Tb T]. specialize (Tb b E). cbn [chain_bytes] in *. rewrite E in *. rewrite length_app in *.
  unfold pbuf_take_at, pbuf_skip, pbuf_skip_const.
  rewrite (skip_here _ s i b o E) by lia. cbn [mbind option_bind]. rewrite E. cbn [mbind option_bind]. rewrite Tb.
  destruct (Z.ltb_spec (Z.of_nat (length (data s i b) + length (chain_bytes s l))) (o + Z.of_nat (length src))); [lia|].
  destruct (Z.ltb_spec o (len b)); [|lia]. cbn [negb]. set (f := u16 (Z.min (len b - o) (Z.of_nat (length src)))).
  assert (f = Z.min (len b - o) (Z.of_nat (length src))) as Hf by (apply Z.mod_small; lia). clearbody f.
  unfold read_source. rewrite bool_decide_true by lia. change (Z.to_nat 0) with 0%nat. rewrite drop_0. cbn [mbind option_bind].
  assert (length (take (Z.to_nat f) src) = Z.to_nat f) as Lf by (rewrite length_take; lia).
  destruct (write_ok s i b o (take (Z.to_nat f) src) Bi E ltac:(lia) ltac:(lia)) as (s1 & -> & Sh & O & D). cbn [mbind option_bind].
  assert (chain_bytes s1 l = chain_bytes s l) as E1.
  { apply chain_bytes_same; [apply Sh|]. intros j Hj. apply O. by intros ->. }
  assert (u16 (Z.of_nat (length src) - f) = Z.of_nat (length (drop (Z.to_nat f) src))) as ->.
  { rewrite length_drop. unfold u16. rewrite Z.mod_small by lia. lia. }
  destruct (Z.ltb_spec 0 (Z.of_nat (length (drop (Z.to_nat f) src)))) as [Hr|Hr]; rewrite length_drop in Hr.
  - assert (packet_of s1 (next b) l) as P1.
    { eapply shape_packet; [exact Sh|]. constructor; [done|done|done|lia]. }
    destruct (pbuf_take_ok s1 (next b) l (drop (Z.to_nat f) src) P1) as (s' & E2 & Sh' & O' & D'); [rewrite length_drop; lia|rewrite length_drop, E1; lia|].
    exists s'. split_and!; [exact E2|by etransitivity| |].
    + intros j Hj. rewrite not_elem_of_cons in Hj. destruct Hj. by rewrite O', O.
    + rewrite (proj1 Sh'), (proj1 Sh), E, D', E1. unfold data in D |- *. rewrite O' by done. rewrite D. fold (data s i b).
      rewrite Lf, length_drop. apply splice_across; lia.
  - exists s1. split_and!; [done|done| |].
    + intros j Hj. rewrite not_elem_of_cons in Hj. destruct Hj. by apply O.
    + rewrite (proj1 Sh), E, D, E1. rewrite (take_ge src) by lia. apply splice_first. lia.
Qed.

Lemma take_at_ok s p l src off :
  packet_of s p l -> 0 <= off < 2 ^ 16 -> Z.of_nat (length src) < 2 ^ 16 ->
  let bytes := chain_bytes s l in
  let n := Z.of_nat (length src) in
  if bool_decide (off < Z.of_nat (length bytes) /\ off + n <= Z.of_nat (length bytes)) then
    exists s', pbuf_take_at p src n off s = Some (ERR_OK, s') /\ same_shape s s' /\
      chain_bytes s' l = take (Z.to_nat off) bytes ++ src ++ drop (Z.to_nat off + length src) bytes
  else pbuf_take_at p src n off s = Some (ERR_MEM, s).
Proof.
  intros P Ho Hn bytes n. pose proof P as [C B T Hs]. pose proof (chain_nodup _ _ _ C) as N.
  destruct (skip_loop_ok _ s p l off C B (chain_size _ _ _ C) Ho) as (l1 & l2 & q & o & Ek & -> & Cq & H1 & -> & H3).
  assert (pbuf_take_at p src n (Z.of_nat (length (chain_bytes s l1)) + o) s =
    match l2 with [] => Some (ERR_MEM, s) | i :: _ => pbuf_take_at (Some i) src n o s end) as ->.
  { unfold pbuf_take_at at 1, pbuf_skip, pbuf_skip_const. rewrite Ek. cbn [mbind option_bind]. destruct l2 as [|i l2]; [by subst q|].
    destruct H3 as (b & -> & E & Hlt). unfold pbuf_take_at, pbuf_skip, pbuf_skip_const.
    by rewrite (skip_here _ s i b o E). }
  unfold bytes. rewrite chain_bytes_app, length_app in *. destruct l2 as [|i l2].
  { cbn [chain_bytes length]. rewrite bool_decide_false by lia. done. }
  destruct H3 as (b & -> & E & Hlt). apply Forall_app in B as [_ B2].
  assert (packet_of s (Some i) (i :: l2)) as P2 by (constructor; [done|done|by eapply totals_app|lia]).
  inversion B2 as [|? ? Bi _]; subst. pose proof (data_length s i b Bi E) as Ld. pose proof (proj1 (po_totals _ _ _ P2) b E) as Tb.
  assert (length (chain_bytes s (i :: l2)) = length (data s i b) + length (chain_bytes s l2))%nat as L2
    by (cbn [chain_bytes]; rewrite E, length_app; lia).
  case_bool_decide as Hc.
  - destruct (take_from_ok s i b l2 src o P2 E ltac:(lia) Hn ltac:(lia)) as (s' & E2 & Sh & O & D). exists s'. split_and!; [done|done|].
    rewrite chain_bytes_app, D. rewrite (chain_bytes_same s s' l1); [|apply Sh|].
    + replace (Z.to_nat (Z.of_nat (length (chain_bytes s l1)) + o)) with (length (chain_bytes s l1) + Z.to_nat o)%nat by lia.
      rewrite take_app_add, <- Nat.add_assoc, drop_app_add. by rewrite <- (assoc_L (++)).
    + intros j Hj. apply O. apply list.NoDup_app in N as (_ & Nd & _). by apply Nd.
  - unfold pbuf_take_at, pbuf_skip, pbuf_skip_const.
    rewrite (skip_here _ s i b o E) by done. cbn [mbind option_bind]. rewrite E. cbn [mbind option_bind]. rewrite Tb.
    destruct (Z.ltb_spec (Z.of_nat (length (chain_bytes s (i :: l2)))) (o + n)); [done|lia].
Qed.

(** * Comparing and searching *)

Definition bytes_ok (l : list Z) : Prop := Forall (fun x => 0 <= x < 256) l.

Lemma cmp_loop_ok k i s q l o s2 :
  chain s q l -> Forall (in_block s) l -> bytes_ok (chain_bytes s l) -> 0 <= i -> 0 <= o ->
  (i + Z.of_nat k = Z.of_nat (length s2)) -> i + Z.of_nat k < 2 ^ 16 -> o + i + Z.of_nat k <= Z.of_nat (length (chain_bytes s l)) < 2 ^ 16 ->
  exists r, cmp_loop k i q o s2 s = Some r /\ (r = 0 <-> take k (drop (Z.to_nat (o + i)) (chain_bytes s l)) = drop (Z.to_nat i) s2).
Proof.
  intros C B Hb. revert i. induction k as [|k IH]; intros i Hi Ho Hs Hn Hl.
  { exists 0. split; [done|]. rewrite take_0, drop_ge by lia. done. }
  cbn [cmp_loop]. assert (u16 (o + i) = o + i) as -> by (apply Z.mod_small; lia). rewrite (get_ok s q l (o + i) C B ltac:(lia) Hb). cbn [mbind option_bind].
  destruct (lookup_lt_is_Some_2 (chain_bytes s l) (Z.to_nat (o + i))) as [x Ex]; [lia|].
  destruct (lookup_lt_is_Some_2 s2 (Z.to_nat i)) as [y Ey]; [lia|]. rewrite Ex, Ey. change (default 0 (Some x)) with x. cbn [mbind option_bind].
  rewrite (drop_S _ _ _ Ex), (drop_S _ _ _ Ey). cbn [take]. destruct (Z.eqb_spec x y) as [->|Hne]; cbn [negb].
  - destruct (IH (i + 1) ltac:(lia) Ho ltac:(lia) ltac:(lia) ltac:(lia)) as (r & -> & Hr). exists r. split; [done|]. rewrite Hr.
    replace (Z.to_nat (o + (i + 1))) with (S (Z.to_nat (o + i))) by lia. replace (Z.to_nat (i + 1)) with (S (Z.to_nat i)) by lia.
    split; [by intros ->|by intros [= ->]].
  - eexists. split; [done|]. unfold u16. rewrite Z.mod_small by lia. split; [lia|]. congruence.
Qed.

(** The bytes [mem] are at the position [j]. *)
Definition occurs (mem bytes : list Z) (j : Z) : Prop :=
  j + Z.of_nat (length mem) <= Z.of_nat (length bytes) /\ take (length mem) (drop (Z.to_nat j) bytes) = mem.

Lemma memcmp_ok s p l off mem :
  packet_of s (Some p) l -> bytes_ok (chain_bytes s l) -> 0 <= off < 2 ^ 16 -> Z.of_nat (length mem) < 2 ^ 16 ->
  exists r, pbuf_memcmp p off mem (Z.of_nat (length mem)) s = Some r /\ (r = 0 <-> occurs mem (chain_bytes s l) off).
Proof.
  intros [C B T Hs] Hb Ho Hn. unfold pbuf_memcmp. inversion C as [|? b l' E _]; subst. rewrite E. cbn [mbind option_bind]. rewrite (proj1 T b E).
  unfold occurs. destruct (Z.ltb_spec (Z.of_nat (length (chain_bytes s (p :: l')))) (off + Z.of_nat (length mem))) as [Hlt|Hge].
  { eexists. split; [done|]. split; [done|]. lia. }
  destruct (skip_loop_ok _ s (Some p) (p :: l') off C B (chain_size _ _ _ C) Ho) as (l1 & l2 & q & o & -> & El & Cq & H1 & Eo & _).
  cbn [mbind option_bind]. rewrite El, chain_bytes_app in *. rewrite length_app in *. apply Forall_app in B as [_ B2]. apply Forall_app in Hb as [_ Hb2].
  destruct (cmp_loop_ok (length mem) 0 s q l2 o mem Cq B2 Hb2 ltac:(lia) H1 ltac:(lia) ltac:(lia) ltac:(lia)) as (r & Er & Hr).
  rewrite Nat2Z.id, Er. exists r. split; [done|]. rewrite Hr, Z.add_0_r. change (Z.to_nat 0) with 0%nat. rewrite drop_0.
  replace (Z.to_nat off) with (length (chain_bytes s l1) + Z.to_nat o)%nat by lia. rewrite drop_app_add. split; [intros H; split; [lia|done]|by intros [_ H]].
Qed.

Lemma find_loop_ok fuel s p l mem i max :
  packet_of s (Some p) l -> bytes_ok (chain_bytes s l) -> Z.of_nat (length mem) < 2 ^ 16 -> 0 <= i -> i <= max + 1 -> max < 0xFFFF ->
  max + 1 - i <= Z.of_nat fuel ->
  exists r, find_loop fuel i max p mem (Z.of_nat (length mem)) s = Some r /\
    (r = 0xFFFF /\ (forall j, i <= j <= max -> ~ occurs mem (chain_bytes s l) j) \/
     i <= r <= max /\ occurs mem (chain_bytes s l) r /\ (forall j, i <= j < r -> ~ occurs mem (chain_bytes s l) j)).
Proof.
  intros P Hb Hn. revert i. induction fuel as [|fuel IH]; intros i Hi Hm Hx Hf; cbn [find_loop]; destruct (Z.leb_spec i max) as [Hle|Hgt];
    [lia|exists 0xFFFF; split; [done|left; split; [done|lia]]| |exists 0xFFFF; split; [done|left; split; [done|lia]]].
  destruct (memcmp_ok s p l i mem P Hb ltac:(lia) Hn) as (r & -> & Hr). cbn [mbind option_bind]. destruct (Z.eqb_spec r 0) as [Hz|Hz].
  - exists i. split; [done|]. right. split_and!; [lia|lia|by apply Hr|lia].
  - assert (u16 (i + 1) = i + 1) as -> by (apply Z.mod_small; lia).
    destruct (IH (i + 1) ltac:(lia) ltac:(lia) Hx ltac:(lia)) as (r' & -> & Hr'). exists r'. split; [done|].
    assert (forall j, i <= j -> i + 1 <= j \/ j = i) as Step by lia. rewrite Hr in Hz.
    destruct Hr' as [[-> N]|(H1 & H2 & N)]; [left|right].
    + split; [done|]. intros j Hj. destruct (Step j ltac:(lia)) as [?| ->]; [apply N; lia|done].
    + split_and!; [lia|lia|done|]. intros j Hj. destruct (Step j ltac:(lia)) as [?| ->]; [apply N; lia|done].
Qed.

Lemma memfind_ok s p l mem start :
  packet_of s (Some p) l -> bytes_ok (chain_bytes s l) -> Z.of_nat (length mem) < 2 ^ 16 -> 0 <= start < 2 ^ 16 ->
  Z.of_nat (length (chain_bytes s l)) < 0xFFFF ->
  exists r, pbuf_memfind p mem (Z.of_nat (length mem)) start s = Some r /\
    (r = 0xFFFF /\ (forall j, start <= j -> ~ occurs mem (chain_bytes s l) j) \/
     start <= r < 0xFFFF /\ occurs mem (chain_bytes s l) r /\ (forall j, start <= j < r -> ~ occurs mem (chain_bytes s l) j)).
Proof.
  intros P Hb Hn Hst Ht. unfold pbuf_memfind. pose proof P as [C _ T _]. inversion C as [|? b l' E _]; subst. rewrite E. cbn [mbind option_bind].
  rewrite (proj1 T b E). destruct (Z.leb_spec (Z.of_nat (length mem) + start) (Z.of_nat (length (chain_bytes s (p :: l'))))) as [Hle|Hgt].
  2:{ exists 0xFFFF. split; [done|]. left. split; [done|]. intros j Hj [H _]. lia. }
  set (max := u16 _). assert (max = Z.of_nat (length (chain_bytes s (p :: l'))) - Z.of_nat (length mem)) as Em by (apply Z.mod_small; lia). clearbody max.
  destruct (find_loop_ok (S (Z.to_nat (max - start))) s p (p :: l') mem start max P Hb Hn ltac:(lia) ltac:(lia) ltac:(lia) ltac:(lia)) as (r & -> & Hr).
  exists r. split; [done|]. destruct Hr as [[-> N]|(H1 & H2 & N)]; [left|right].
  - split; [done|]. intros j Hj O. destruct (Z.le_gt_cases j max); [by apply (N j)|]. destruct O. lia.
  - split_and!; [lia|lia|done|done].
Qed.

(** ** Single bytes and contiguous memory *)

Lemma put_ok s p l off byte :
  packet_of s p l -> 0 <= off < 2 ^ 16 ->
  exists s', pbuf_put_at p off byte s = Some s' /\ same_shape s s' /\ chain_bytes s' l = <[Z.to_nat off := byte]> (chain_bytes s l).
Proof.
  intros [C B T Hs] Ho. pose proof (chain_nodup _ _ _ C) as N. unfold pbuf_put_at, pbuf_skip, pbuf_skip_const.
  destruct (skip_loop_ok _ s p l off C B (chain_size _ _ _ C) Ho) as (l1 & l2 & q & o & -> & -> & Cq & H1 & -> & H3). cbn [mbind option_bind].
  rewrite chain_bytes_app. destruct l2 as [|i l2].
  { subst q. exists s. split_and!; [done|done|]. rewrite chain_bytes_app. cbn [chain_bytes]. by rewrite list_insert_ge by (rewrite app_nil_r; lia). }
  destruct H3 as (b & -> & E & Hlt). rewrite E. cbn [mbind option_bind]. rewrite (proj2 (Z.ltb_lt _ _) Hlt). apply Forall_app in B as [_ B2].
  inversion B2 as [|? ? Bi _]; subst. destruct (write_ok s i b o [byte] Bi E H1) as (s' & -> & Sh & O & D); [cbn; lia|]. exists s'. split_and!; [done|done|].
  apply list.NoDup_app in N as (_ & Nd & N2). inversion N2 as [|? ? Ni _]; subst. rewrite chain_bytes_app. cbn [chain_bytes]. rewrite (proj1 Sh), E.
  rewrite (chain_bytes_same s s' l1), (chain_bytes_same s s' l2), D; [|apply Sh|intros j Hj; apply O; by intros ->|apply Sh|].
  2:{ intros j Hj. apply O. intros ->. apply (Nd i Hj). left. }
  pose proof (data_length s i b Bi E) as Ld. replace (Z.to_nat (Z.of_nat (length (chain_bytes s l1)) + o)) with (length (chain_bytes s l1) + Z.to_nat o)%nat by lia.
  rewrite insert_app_r, insert_app_l by lia. f_equal. f_equal. symmetry. rewrite insert_take_drop by lia. cbn [length app]. by rewrite Nat.add_1_r.
Qed.

(** What is at the end of the pointer. *)
Definition pointed (s : pstore) (c : contiguous) (n : nat) : list Z :=
  match c with NULL => [] | IN_PBUF i at_ => take n (drop (Z.to_nat at_) (area_of s i)) | IN_BUFFER bytes => take n bytes end.

(** With a buffer that is large enough, a pointer to the bytes is always found when
    they are in the packet. *)
Lemma get_contiguous_ok s p l buf n off :
  packet_of s (Some p) l -> 0 <= off < 2 ^ 16 -> 0 <= n <= Z.of_nat (length buf) -> n < 2 ^ 16 ->
  off < Z.of_nat (length (chain_bytes s l)) -> off + n <= Z.of_nat (length (chain_bytes s l)) ->
  exists c, pbuf_get_contiguous p (Some buf) (Z.of_nat (length buf)) n off s = Some c /\ c <> NULL /\
    pointed s c (Z.to_nat n) = take (Z.to_nat n) (drop (Z.to_nat off) (chain_bytes s l)).
Proof.
  intros [C B T Hs] Ho Hn Hn' Hoff Hfit. unfold pbuf_get_contiguous, pbuf_skip_const. destruct (Z.ltb_spec (Z.of_nat (length buf)) n); [lia|].
  destruct (skip_loop_ok _ s (Some p) l off C B (chain_size _ _ _ C) Ho) as (l1 & l2 & q & o & -> & -> & Cq & H1 & -> & H3). cbn [mbind option_bind].
  rewrite chain_bytes_app, length_app in *. destruct l2 as [|i l2]; [cbn in *; lia|]. destruct H3 as (b & -> & E & Hlt). rewrite E. cbn [mbind option_bind].
  apply Forall_app in B as [_ B2]. inversion B2 as [|? ? Bi _]; subst. pose proof (data_length s i b Bi E) as Ld.
  replace (Z.to_nat (Z.of_nat (length (chain_bytes s l1)) + o)) with (length (chain_bytes s l1) + Z.to_nat o)%nat by lia. rewrite drop_app_add.
  destruct (Z.leb_spec (o + n) (len b)) as [Hin|Hout].
  - eexists. split; [done|]. split; [done|]. cbn [pointed]. rewrite (data_part s i b o n Bi E) by lia. cbn [chain_bytes]. rewrite E.
    rewrite drop_app_le by lia. rewrite take_app_le by (rewrite length_drop; lia). done.
  - rewrite (pbuf_copy_partial_slice i (i :: l2) buf n o s Cq B2) by lia. cbn [mbind option_bind]. set (part := take _ _).
    assert (Z.of_nat (length part) = n) as Lp by (unfold part; rewrite length_take, length_drop; lia). rewrite Lp, Z.eqb_refl. cbn [negb].
    eexists. split; [done|]. split; [done|]. cbn [pointed]. rewrite take_app_le by lia. by rewrite take_ge by lia.
Qed.

(** * Theorems *)

(** What was written into a packet is read back, wherever the buffers are divided:
    [pbuf_take_at] replaces exactly the bytes from the offset on, keeps the chain,
    its lengths and its counts, and [pbuf_copy_partial] returns them; bytes that
    do not fit are refused and nothing is written. *)
Theorem take_at_roundtrip (s : pstore) (buf : nat) (l : list nat) (src dst : list Z) (off : Z) :
  packet_of s (Some buf) l -> 0 <= off < 2 ^ 16 -> Z.of_nat (length src) < 2 ^ 16 -> length dst = length src ->
  let n := Z.of_nat (length src) in
  if bool_decide (off < Z.of_nat (length (chain_bytes s l)) /\ off + n <= Z.of_nat (length (chain_bytes s l))) then
    exists s', pbuf_take_at (Some buf) src n off s = Some (ERR_OK, s') /\ packet_of s' (Some buf) l /\ bufs s' = bufs s /\
      chain_bytes s' l = take (Z.to_nat off) (chain_bytes s l) ++ src ++ drop (Z.to_nat off + length src) (chain_bytes s l) /\
      pbuf_copy_partial buf dst n off s' = Some (n, src)
  else pbuf_take_at (Some buf) src n off s = Some (ERR_MEM, s).
Proof.
  intros P Ho Hn Hd n. pose proof (take_at_ok s (Some buf) l src off P Ho Hn) as T. cbv zeta in T. fold n in T.
  case_bool_decide as Hc; [|exact T].
  destruct T as (s' & E & Sh & D). exists s'. pose proof (shape_packet _ _ _ _ Sh P) as P'. split_and!; [done|done|apply Sh|done|].
  pose proof P' as [C B _ Hs]. rewrite (pbuf_copy_partial_slice buf l dst n off s' C B) by lia.
  assert (take (Z.to_nat n) (drop (Z.to_nat off) (chain_bytes s' l)) = src) as ->.
  { rewrite D, drop_app_length' by (rewrite length_take; lia). unfold n. by rewrite Nat2Z.id, take_app_length. }
  by rewrite drop_ge, app_nil_r by lia.
Qed.

(** Searching a packet is searching its bytes: [pbuf_memfind] returns the first
    position from the start offset on where the bytes occur, and 0xFFFF exactly
    when they do not, for packets below the length the comment asks for. *)
Theorem memfind_first (s : pstore) (p : nat) (l : list nat) (mem : list Z) (start : Z) :
  packet_of s (Some p) l -> bytes_ok (chain_bytes s l) -> Z.of_nat (length mem) < 2 ^ 16 -> 0 <= start < 2 ^ 16 ->
  Z.of_nat (length (chain_bytes s l)) < 0xFFFF ->
  exists r, pbuf_memfind p mem (Z.of_nat (length mem)) start s = Some r /\
    (r = 0xFFFF /\ (forall j, start <= j -> ~ occurs mem (chain_bytes s l) j) \/
     start <= r < 0xFFFF /\ occurs mem (chain_bytes s l) r /\ (forall j, start <= j < r -> ~ occurs mem (chain_bytes s l) j)).
Proof. apply memfind_ok. Qed.

(** A string is found like its bytes. *)
Corollary strstr_first (s : pstore) (p : nat) (l : list nat) (substr : list Z) :
  packet_of s (Some p) l -> bytes_ok (chain_bytes s l) -> substr <> [] -> Z.of_nat (length substr) < 0xFFFF ->
  Z.of_nat (length (chain_bytes s l)) < 0xFFFF -> pbuf_strstr p substr s = pbuf_memfind p substr (Z.of_nat (length substr)) 0 s.
Proof.
  intros P Hb Hne Hn Ht. unfold pbuf_strstr. pose proof P as [C _ T _]. inversion C as [|? b l' E _]; subst. rewrite E. cbn [mbind option_bind].
  rewrite (proj1 T b E), bool_decide_false by done. cbn [orb]. destruct (Z.eqb_spec (Z.of_nat (length (chain_bytes s (p :: l')))) 0xFFFF); [lia|].
  destruct (Z.leb_spec 0xFFFF (Z.of_nat (length substr))); [lia|]. unfold u16. by rewrite Z.mod_small by lia.
Qed.

(** Two buffers; the bytes lie across their border. *)
Example take_find_sample :
  ('(_, s) ← pbuf_take_at (Some 5%nat) [7; 8; 9] 3 2 two_bufs; pbuf_memfind 5 [8; 9] 2 0 s) = Some 3 /\
  pbuf_strstr 5 [3; 4] two_bufs = Some 2 /\ pbuf_strstr 5 [4; 3] two_bufs = Some 0xFFFF.
Proof. vm_compute. done. Qed.
