(* ===== verification/Chksum.v ===== *)
(** The Internet checksum of lwIP: src/lwip/src/core/inet_chksum.c, the version
    the build uses.  Every packet the kernel sends or accepts passes through it:
    include/lwipopts.h turns all checksums on.

    The code sums 16-bit words of the machine's byte order, starting at an even
    address, and mends the result where a buffer starts at an odd one.  The file
    shows that the result depends on the bytes alone, not on where the buffers
    lie or how a packet is divided into them. *)

From Stdlib Require Import ZArith Lia Bool.
From stdpp Require Import base list numbers option.
From S2P Require Import Prelude.

Local Open Scope Z_scope.

(** * Definitions *)

Definition FOLD_U32T (u : Z) : Z := u32 (Z.shiftr u 16 + Z.land u 0x0000ffff).
Definition SWAP_BYTES_IN_WORD (w : Z) : Z := Z.lor (Z.shiftl (Z.land w 0xff) 8) (Z.shiftr (Z.land w 0xff00) 8).
Definition lwip_htons (n : Z) : Z := u16 (Z.lor (Z.shiftl (Z.land n 0x00ff) 8) (Z.shiftr (Z.land n 0xff00) 8)).

(** The loop over the words; what is left is at most one byte. *)
Fixpoint add_words (pb : list Z) (sum : Z) : Z * list Z :=
  match pb with
  | b0 :: b1 :: pb' => add_words pb' (u32 (sum + (b0 + 256 * b1)))
  | _ => (sum, pb)
  end.

(** The bytes [pb] lie at the address [dataptr]. *)
Definition lwip_standard_chksum (dataptr : Z) (pb : list Z) : Z :=
  let odd := Z.land dataptr 1 in
  let '(t, pb) :=
    match pb with
    | b :: pb' => if negb (odd =? 0) then (256 * b, pb') else (0, pb)
    | [] => (0, pb)
    end in
  let '(sum, rest) := add_words pb 0 in
  let t := match rest with b :: _ => t + b | [] => t end in
  let sum := u32 (sum + t) in
  let sum := FOLD_U32T sum in
  let sum := FOLD_U32T sum in
  let sum := if negb (odd =? 0) then SWAP_BYTES_IN_WORD sum else sum in
  u16 sum.

(** A buffer of a packet: where its payload lies and what it holds. *)
Definition piece : Type := Z * list Z.

(** The loop over the buffers: the sum and whether it is swapped. *)
Fixpoint pbuf_sum (p : list piece) (acc : Z) (swapped : bool) : Z * bool :=
  match p with
  | [] => (acc, swapped)
  | (addr, bytes) :: p' =>
      let acc := u32 (acc + lwip_standard_chksum addr bytes) in
      let acc := FOLD_U32T acc in
      if negb (Z.of_nat (length bytes) mod 2 =? 0) then pbuf_sum p' (SWAP_BYTES_IN_WORD acc) (negb swapped)
      else pbuf_sum p' acc swapped
  end.

Definition inet_cksum_pseudo_base (p : list piece) (proto proto_len acc : Z) : Z :=
  let '(acc, swapped) := pbuf_sum p acc false in
  let acc := if swapped then SWAP_BYTES_IN_WORD acc else acc in
  let acc := u32 (acc + lwip_htons proto) in
  let acc := u32 (acc + lwip_htons proto_len) in
  let acc := FOLD_U32T acc in
  let acc := FOLD_U32T acc in
  u16 (Z.lnot (Z.land acc 0xffff)).

(** The addresses are in network order, as 32-bit words of the machine. *)
Definition inet_chksum_pseudo (p : list piece) (proto proto_len src dest : Z) : Z :=
  let acc := Z.land src 0xffff in
  let acc := u32 (acc + Z.land (Z.shiftr src 16) 0xffff) in
  let acc := u32 (acc + Z.land dest 0xffff) in
  let acc := u32 (acc + Z.land (Z.shiftr dest 16) 0xffff) in
  let acc := FOLD_U32T acc in
  let acc := FOLD_U32T acc in
  inet_cksum_pseudo_base p proto proto_len acc.

Definition ip_chksum_pseudo (p : list piece) (proto proto_len src dest : Z) : Z := inet_chksum_pseudo p proto proto_len src dest.

Definition inet_chksum (dataptr : Z) (bytes : list Z) : Z := u16 (Z.lnot (lwip_standard_chksum dataptr bytes)).

Definition inet_chksum_pbuf (p : list piece) : Z :=
  let '(acc, swapped) := pbuf_sum p 0 false in
  let acc := if swapped then SWAP_BYTES_IN_WORD acc else acc in
  u16 (Z.lnot (Z.land acc 0xffff)).

(** * The reference: sums modulo 65535 *)

(** The bytes with their weights 1 and 256 in turn, beginning with [w]. *)
Fixpoint weigh (w : Z) (l : list Z) : Z :=
  match l with [] => 0 | b :: l' => w * b + weigh (257 - w) l' end.

(** The ones' complement sum: the number from 1 to 65535 congruent to [x], or
    zero for zero. *)
Definition ones (x : Z) : Z := if x =? 0 then 0 else (x - 1) mod 65535 + 1.

(** [r] stands for the sum [x]. *)
Definition stands (r x : Z) : Prop := 0 <= r <= 65535 /\ 0 <= x /\ r mod 65535 = x mod 65535 /\ (r = 0 <-> x = 0).

Lemma stands_ones r x : stands r x -> r = ones x.
Proof.
  intros (Hr & Hx & Hm & Hz). unfold ones. destruct (Z.eqb_spec x 0) as [->|Hn]; [by apply Hz|].
  assert (r <> 0) by (rewrite Hz; done).
  assert ((x - 1) mod 65535 = r - 1) as ->; [|lia].
  pose proof (Z.div_mod x 65535 ltac:(lia)). pose proof (Z.div_mod r 65535 ltac:(lia)).
  symmetry. apply (Z.mod_unique_pos _ _ (x / 65535 - r / 65535)); lia.
Qed.

Lemma stands_refl x : 0 <= x <= 65535 -> stands x x.
Proof. intros. unfold stands. repeat split; lia || done. Qed.

(** Equal sums for the purposes of a checksum. *)
Definition same_sum (x y : Z) : Prop := 0 <= x /\ 0 <= y /\ x mod 65535 = y mod 65535 /\ (x = 0 <-> y = 0).

Lemma stands_same r x y : stands r x -> same_sum x y -> stands r y.
Proof. unfold stands, same_sum. intros (A & B & C & D) (E & F & G & I). repeat split; try lia; try congruence; tauto. Qed.

Lemma same_sum_add x x' y y' : same_sum x x' -> same_sum y y' -> same_sum (x + y) (x' + y').
Proof.
  unfold same_sum. intros (A & B & C & D) (E & F & G & I). split_and!; [lia|lia| |lia].
  rewrite Z.add_mod, C, G, <- Z.add_mod by lia. done.
Qed.

Lemma same_sum_refl x : 0 <= x -> same_sum x x.
Proof. intros. by unfold same_sum. Qed.

Lemma same_sum_trans x y z : same_sum x y -> same_sum y z -> same_sum x z.
Proof. unfold same_sum. intros (A & B & C & D) (E & F & G & I). split_and!; [lia|lia|congruence|tauto]. Qed.

Lemma stands_sum r x : stands r x -> same_sum r x.
Proof. unfold stands, same_sum. intros (A & B & C & D). split_and!; [lia|lia|done|tauto]. Qed.

(** ** Folding and swapping *)

Lemma fold_eq u : 0 <= u < 2 ^ 32 -> FOLD_U32T u = u / 65536 + u mod 65536.
Proof.
  intros Hu. unfold FOLD_U32T. change 0x0000ffff with (Z.ones 16). rewrite Z.land_ones, Z.shiftr_div_pow2 by lia.
  change (2 ^ 16) with 65536. pose proof (Z.mod_pos_bound u 65536 ltac:(lia)).
  assert (0 <= u / 65536 < 65536) by (split; [apply Z.div_pos; lia|apply Z.div_lt_upper_bound; lia]).
  apply Z.mod_small. lia.
Qed.

Lemma fold_same u : 0 <= u < 2 ^ 32 -> same_sum (FOLD_U32T u) u.
Proof.
  intros Hu. rewrite fold_eq by done. pose proof (Z.div_mod u 65536 ltac:(lia)) as D. pose proof (Z.mod_pos_bound u 65536 ltac:(lia)).
  assert (0 <= u / 65536) by (apply Z.div_pos; lia). unfold same_sum. split_and!; [lia|lia| |lia].
  set (h := u / 65536) in *. set (l := u mod 65536) in *. replace u with (h + l + h * 65535) by lia. by rewrite Z.mod_add.
Qed.

Lemma fold_bound u : 0 <= u <= 131070 -> 0 <= FOLD_U32T u <= 65535.
Proof.
  intros Hu. rewrite fold_eq by lia. pose proof (Z.div_mod u 65536 ltac:(lia)). pose proof (Z.mod_pos_bound u 65536 ltac:(lia)).
  assert (0 <= u / 65536) by (apply Z.div_pos; lia). assert (u / 65536 < 2) by (apply Z.div_lt_upper_bound; lia). lia.
Qed.

Lemma same_stands r x : 0 <= r <= 65535 -> same_sum r x -> stands r x.
Proof. unfold stands, same_sum. intros A (B & C & D & E). repeat split; first [lia | done | tauto]. Qed.

Lemma stands_fold u : 0 <= u <= 131070 -> stands (FOLD_U32T u) u.
Proof. intros Hu. apply same_stands; [by apply fold_bound|apply fold_same; lia]. Qed.

Lemma stands_fold2 u : 0 <= u < 2 ^ 32 -> stands (FOLD_U32T (FOLD_U32T u)) u.
Proof.
  intros Hu. assert (0 <= FOLD_U32T u <= 131070) as Hf.
  { rewrite fold_eq by done. pose proof (Z.mod_pos_bound u 65536 ltac:(lia)).
    assert (0 <= u / 65536 < 65536) by (split; [apply Z.div_pos; lia|apply Z.div_lt_upper_bound; lia]). lia. }
  eapply stands_same; [by apply stands_fold|by apply fold_same].
Qed.

Lemma lor_byte a b : 0 <= b < 256 -> Z.lor (a * 256) b = a * 256 + b.
Proof.
  intros Hb. assert (Z.land (a * 256) b = 0) as D.
  { rewrite <- (Z.mod_small b (2 ^ 8)) by done. rewrite <- Z.land_ones by lia. change 256 with (2 ^ 8).
    rewrite <- Z.shiftl_mul_pow2 by lia. apply Z.bits_inj'. intros n Hn. rewrite !Z.land_spec, Z.bits_0.
    destruct (Z.ltb_spec n 8); [by rewrite Z.shiftl_spec_low by lia|]. by rewrite (Z.ones_spec_high 8), !andb_false_r by lia. }
  by rewrite <- Z.lxor_lor, <- Z.add_nocarry_lxor by done.
Qed.

Lemma swap_eq w : 0 <= w <= 65535 -> SWAP_BYTES_IN_WORD w = 256 * (w mod 256) + w / 256.
Proof.
  intros Hw. unfold SWAP_BYTES_IN_WORD. change 0xff with (Z.ones 8). rewrite Z.land_ones by lia. change 0xff00 with (Z.shiftl (Z.ones 8) 8).
  assert (Z.shiftr (Z.land w (Z.shiftl (Z.ones 8) 8)) 8 = w / 256) as ->.
  { rewrite Z.shiftr_land, Z.shiftr_shiftl_l by lia. change (8 - 8) with 0. rewrite Z.shiftl_0_r, Z.land_ones, Z.shiftr_div_pow2 by lia.
    change (2 ^ 8) with 256. apply Z.mod_small. split; [apply Z.div_pos; lia|apply Z.div_lt_upper_bound; lia]. }
  rewrite Z.shiftl_mul_pow2 by lia. change (2 ^ 8) with 256.
  assert (0 <= w / 256 < 256) by (split; [apply Z.div_pos; lia|apply Z.div_lt_upper_bound; lia]).
  rewrite lor_byte by done. lia.
Qed.

Lemma swap_stands r x : stands r x -> stands (SWAP_BYTES_IN_WORD r) (256 * x).
Proof.
  intros (Hr & Hx & Hm & Hz). rewrite swap_eq by done. pose proof (Z.div_mod r 256 ltac:(lia)) as D. pose proof (Z.mod_pos_bound r 256 ltac:(lia)).
  assert (0 <= r / 256 < 256) by (split; [apply Z.div_pos; lia|apply Z.div_lt_upper_bound; lia]).
  assert ((256 * (r mod 256) + r / 256) mod 65535 = (256 * x) mod 65535) as M.
  { rewrite Z.mul_mod, <- Hm, <- Z.mul_mod by lia. rewrite D at 3.
    replace (256 * (256 * (r / 256) + r mod 256)) with (256 * (r mod 256) + r / 256 + (r / 256) * 65535) by lia. by rewrite Z.mod_add. }
  unfold stands. split_and!; [lia|lia|lia|done|]. split; intros; [apply Z.eq_mul_0; right; apply Hz; lia|].
  assert (r = 0) by (apply Hz; lia). lia.
Qed.

(** 256 twice is 1. *)
Lemma twice_same x : 0 <= x -> same_sum (256 * (256 * x)) x.
Proof.
  intros Hx. unfold same_sum. split_and!; [lia|lia| |lia]. replace (256 * (256 * x)) with (x + x * 65535) by lia. by rewrite Z.mod_add.
Qed.

(** ** Weighing bytes *)

Definition bytes_ok (l : list Z) : Prop := Forall (fun b => 0 <= b < 256) l.

Lemma weigh_range l : bytes_ok l ->
  0 <= weigh 1 l <= 65280 * Z.of_nat (length l) /\ 0 <= weigh 256 l <= 65280 * Z.of_nat (length l) /\ (weigh 1 l = 0 <-> weigh 256 l = 0).
Proof.
  induction 1 as [|b l Hb _ IH]; [cbn; lia|]. cbn [weigh length]. change (257 - 1) with 256. change (257 - 256) with 1. lia.
Qed.

Lemma weigh_swap l :
  exists k k', 256 * weigh 1 l = weigh 256 l + k * 65535 /\ 256 * weigh 256 l = weigh 1 l + k' * 65535.
Proof.
  induction l as [|b l (k & k' & E & E')]; [by exists 0, 0|]. cbn [weigh]. change (257 - 1) with 256. change (257 - 256) with 1.
  exists k', (b + k). lia.
Qed.

Lemma weigh_same l : bytes_ok l -> same_sum (256 * weigh 1 l) (weigh 256 l) /\ same_sum (256 * weigh 256 l) (weigh 1 l).
Proof.
  intros Hl. destruct (weigh_range l Hl) as (R1 & R2 & Z). destruct (weigh_swap l) as (k & k' & E & E'). unfold same_sum.
  split_and!; try lia; [by rewrite E, Z.mod_add|by rewrite E', Z.mod_add].
Qed.

(** The weight a part begins with. *)
Definition K (swapped : bool) : Z := if swapped then 256 else 1.

Definition odd_length (l : list Z) : bool := negb (Z.of_nat (length l) mod 2 =? 0).

Lemma weigh_app sw l1 l2 : weigh (K sw) (l1 ++ l2) = weigh (K sw) l1 + weigh (K (xorb sw (odd_length l1))) l2.
Proof.
  revert sw. induction l1 as [|b l1 IH]; intros sw; cbn [app weigh]; [by destruct sw|].
  replace (257 - K sw) with (K (negb sw)) by (by destruct sw). rewrite IH.
  assert (xorb (negb sw) (odd_length l1) = xorb sw (odd_length (b :: l1))) as ->; [|lia].
  unfold odd_length. cbn [length]. replace (Z.of_nat (S (length l1))) with (Z.of_nat (length l1) + 1) by lia.
  pose proof (Z.mod_pos_bound (Z.of_nat (length l1)) 2 ltac:(lia)) as B. rewrite Z.add_mod by lia.
  assert (Z.of_nat (length l1) mod 2 = 0 \/ Z.of_nat (length l1) mod 2 = 1) as [->| ->] by lia; by destruct sw.
Qed.

(** ** One buffer *)

Definition left_over (l : list Z) : Z := match l with b :: _ => b | [] => 0 end.

Lemma add_words_spec l sum :
  bytes_ok l -> 0 <= sum -> sum + weigh 1 l < 2 ^ 32 ->
  0 <= fst (add_words l sum) /\ fst (add_words l sum) + left_over (snd (add_words l sum)) = sum + weigh 1 l /\
  0 <= left_over (snd (add_words l sum)) < 256.
Proof.
  revert sum. induction l as [l IH] using (induction_ltof1 _ (@length Z)). intros sum Hl Hs Hb.
  destruct l as [|b0 [|b1 l]].
  - cbn. lia.
  - inversion Hl; subst. cbn. lia.
  - inversion Hl as [|? ? H0 Hl1]; subst. inversion Hl1 as [|? ? H1 Hl2]; subst.
    cbn [weigh] in Hb |- *. change (257 - 1) with 256 in *. change (257 - 256) with 1 in *. pose proof (weigh_range l Hl2).
    cbn [add_words]. assert (u32 (sum + (b0 + 256 * b1)) = sum + (b0 + 256 * b1)) as -> by (apply Z.mod_small; lia).
    destruct (IH l ltac:(unfold ltof; cbn; lia) (sum + (b0 + 256 * b1)) Hl2) as (A & B & C); lia.
Qed.

(** The sum of a buffer, wherever it lies. *)
Lemma standard_chksum_stands addr l :
  bytes_ok l -> Z.of_nat (length l) < 2 ^ 16 -> stands (lwip_standard_chksum addr l) (weigh 1 l).
Proof.
  intros Hl Hn. destruct (weigh_range l Hl) as (R1 & R2 & RZ). unfold lwip_standard_chksum.
  assert (forall x r, stands r x -> u16 r = r) as U by (intros x r [Hr _]; apply Z.mod_small; lia).
  destruct (Z.eqb_spec (Z.land addr 1) 0) as [Ho|Ho]; cbn [negb].
  - replace (match l with [] => (0, l) | _ :: _ => (0, l) end) with (0, l) by (by destruct l).
    destruct (add_words_spec l 0 Hl) as (A & B & C); [lia|lia|]. destruct (add_words l 0) as [sum rest]. cbn [fst snd] in *.
    assert ((match rest with b :: _ => 0 + b | [] => 0 end) = left_over rest) as -> by (by destruct rest).
    assert (u32 (sum + left_over rest) = weigh 1 l) as -> by (rewrite B; apply Z.mod_small; lia).
    pose proof (stands_fold2 (weigh 1 l) ltac:(lia)) as F. by rewrite (U _ _ F).
  - destruct l as [|b l]; [reflexivity || (cbn; apply stands_refl; lia)|]. inversion Hl as [|? ? Hb Hl']; subst.
    cbn [weigh] in R1, R2, RZ |- *. change (257 - 1) with 256 in *. change (257 - 256) with 1 in *. cbn [length] in *.
    destruct (add_words_spec l 0 Hl') as (A & B & C); [lia|destruct (weigh_range l Hl'); lia|].
    destruct (add_words l 0) as [sum rest]. cbn [fst snd] in *.
    assert ((match rest with b0 :: _ => 256 * b + b0 | [] => 256 * b end) = 256 * b + left_over rest) as -> by (destruct rest; cbn; lia).
    assert (u32 (sum + (256 * b + left_over rest)) = 256 * b + weigh 1 l) as -> by (unfold u32; rewrite Z.mod_small; lia).
    pose proof (swap_stands _ _ (stands_fold2 (256 * b + weigh 1 l) ltac:(lia))) as F. rewrite (U _ _ F).
    eapply stands_same; [exact F|]. destruct (weigh_same (b :: l) Hl) as [_ W]. exact W.
Qed.

(** ** A packet *)

(** The bytes of a packet in order. *)
Definition flat (p : list piece) : list Z := concat (map snd p).

Definition packet_ok (p : list piece) : Prop := Forall (fun q => bytes_ok q.2 /\ Z.of_nat (length q.2) < 2 ^ 16) p.

Lemma flat_ok p : packet_ok p -> bytes_ok (flat p).
Proof. induction 1 as [|q p [Hq _] _ IH]; cbn; [constructor|]. by apply Forall_app. Qed.

(** Adding a buffer to a sum that may be swapped. *)
Lemma piece_same sw S l :
  0 <= S -> bytes_ok l -> same_sum (K sw * S + weigh 1 l) (K sw * (S + weigh (K sw) l)).
Proof.
  intros HS Hl. destruct (weigh_range l Hl) as (R1 & R2 & _). destruct (weigh_same l Hl) as [_ W]. destruct sw; cbn [K].
  - rewrite Z.mul_add_distr_l. apply same_sum_add; [apply same_sum_refl; lia|].
    destruct W as (W1 & W2 & W3 & W4). unfold same_sum. split_and!; [lia|lia|done|tauto].
  - rewrite !Z.mul_1_l. apply same_sum_refl. lia.
Qed.

Lemma swap_same sw x : 0 <= x -> same_sum (256 * (K sw * x)) (K (negb sw) * x).
Proof. intros Hx. destruct sw; cbn [K negb]; [rewrite Z.mul_1_l; by apply twice_same|rewrite Z.mul_1_l; apply same_sum_refl; lia]. Qed.

Lemma weigh_K_nonneg sw l : bytes_ok l -> 0 <= weigh (K sw) l.
Proof. intros Hl. destruct (weigh_range l Hl) as (R1 & R2 & _). destruct sw; cbn [K]; lia. Qed.

Lemma pbuf_sum_stands p acc sw S :
  packet_ok p -> 0 <= S -> stands acc (K sw * S) ->
  let '(acc', sw') := pbuf_sum p acc sw in stands acc' (K sw' * (S + weigh (K sw) (flat p))).
Proof.
  intros Hp. revert acc sw S. induction Hp as [|[addr l] p [Hl Hn] Hp IH]; intros acc sw S HS Ha; cbn [pbuf_sum].
  { cbn [flat map concat weigh]. by rewrite Z.add_0_r. }
  cbn [snd] in Hl, Hn. pose proof (standard_chksum_stands addr l Hl Hn) as C. pose proof (proj1 Ha) as B1. pose proof (proj1 C) as B2.
  assert (u32 (acc + lwip_standard_chksum addr l) = acc + lwip_standard_chksum addr l) as -> by (apply Z.mod_small; lia).
  pose proof (weigh_K_nonneg sw l Hl) as Wn.
  assert (stands (FOLD_U32T (acc + lwip_standard_chksum addr l)) (K sw * (S + weigh (K sw) l))) as F.
  { eapply stands_same; [apply stands_fold; lia|]. eapply same_sum_trans; [|by apply piece_same].
    apply same_sum_add; by apply stands_sum. }
  change (flat ((addr, l) :: p)) with (l ++ flat p). rewrite weigh_app, Z.add_assoc. unfold odd_length.
  destruct (negb _); rewrite ?xorb_true_r, ?xorb_false_r.
  - apply IH; [lia|]. eapply stands_same; [by apply swap_stands|apply swap_same; lia].
  - apply IH; [lia|done].
Qed.

(** The sum is turned back at the end. *)
Lemma pbuf_sum_unswapped p acc S :
  packet_ok p -> 0 <= S -> stands acc S ->
  let '(acc', sw') := pbuf_sum p acc false in
  stands (if sw' then SWAP_BYTES_IN_WORD acc' else acc') (S + weigh 1 (flat p)).
Proof.
  intros Hp HS Ha. pose proof (pbuf_sum_stands p acc false S Hp HS) as Q. cbn [K] in Q. rewrite Z.mul_1_l in Q. specialize (Q Ha).
  pose proof (weigh_K_nonneg false (flat p) (flat_ok p Hp)) as Wn. cbn [K] in Wn.
  destruct (pbuf_sum p acc false) as [acc' [|]]; cbn [K] in Q; [|by rewrite Z.mul_1_l in Q].
  eapply stands_same; [by apply swap_stands|apply twice_same; lia].
Qed.

Lemma lnot_16 x : 0 <= x <= 65535 -> u16 (Z.lnot (Z.land x 0xffff)) = 65535 - x.
Proof.
  intros Hx. pose proof (Z.land_ones x 16 ltac:(lia)) as E. change (Z.ones 16) with 0xffff in E.
  rewrite E, Z.mod_small by lia. unfold Z.lnot, u16.
  replace (Z.pred (- x)) with (65535 - x + (-1) * 2 ^ 16) by lia. rewrite Z.mod_add by lia. apply Z.mod_small. lia.
Qed.

(** The halves of an address. *)
Definition addr_sum (a : Z) : Z := Z.land a 0xffff + Z.land (Z.shiftr a 16) 0xffff.

Lemma low_16 x : 0 <= Z.land x 0xffff <= 65535.
Proof.
  pose proof (Z.land_ones x 16 ltac:(lia)) as E. change (Z.ones 16) with 0xffff in E. rewrite E.
  pose proof (Z.mod_pos_bound x (2 ^ 16) ltac:(lia)). lia.
Qed.

Lemma htons_range n : 0 <= lwip_htons n <= 65535.
Proof. unfold lwip_htons, u16. pose proof (Z.mod_pos_bound (Z.lor (Z.shiftl (Z.land n 0x00ff) 8) (Z.shiftr (Z.land n 0xff00) 8)) (2 ^ 16) ltac:(lia)). lia. Qed.

(** The sum of the pseudo header. *)
Definition pseudo_sum (proto proto_len src dest : Z) : Z :=
  addr_sum src + addr_sum dest + (lwip_htons proto + lwip_htons proto_len).

Lemma pseudo_spec p proto proto_len src dest :
  packet_ok p ->
  inet_chksum_pseudo p proto proto_len src dest = 65535 - ones (pseudo_sum proto proto_len src dest + weigh 1 (flat p)).
Proof.
  intros Hp. unfold inet_chksum_pseudo, pseudo_sum, addr_sum.
  pose proof (low_16 src). pose proof (low_16 (Z.shiftr src 16)). pose proof (low_16 dest). pose proof (low_16 (Z.shiftr dest 16)).
  set (a := Z.land src 0xffff) in *. set (b := Z.land (Z.shiftr src 16) 0xffff) in *. set (c := Z.land dest 0xffff) in *.
  set (d := Z.land (Z.shiftr dest 16) 0xffff) in *.
  assert (forall x, 0 <= x < 2 ^ 32 -> u32 x = x) as U by (intros; by apply Z.mod_small).
  rewrite (U (a + b)), (U (a + b + c)), (U (a + b + c + d)) by lia.
  pose proof (stands_fold2 (a + b + c + d) ltac:(lia)) as F. unfold inet_cksum_pseudo_base.
  pose proof (pbuf_sum_unswapped p (FOLD_U32T (FOLD_U32T (a + b + c + d))) (a + b + c + d) Hp ltac:(lia) F) as Q. destruct (pbuf_sum p _ false) as [acc sw].
  set (acc' := if sw then _ else _) in *. pose proof (proj1 Q) as B. pose proof (htons_range proto). pose proof (htons_range proto_len).
  rewrite (U (acc' + lwip_htons proto)), (U (acc' + lwip_htons proto + lwip_htons proto_len)) by lia.
  pose proof (stands_fold2 (acc' + lwip_htons proto + lwip_htons proto_len) ltac:(lia)) as G. rewrite lnot_16 by (destruct G; lia).
  f_equal. apply stands_ones. eapply stands_same; [exact G|].
  pose proof (weigh_K_nonneg false (flat p) (flat_ok p Hp)) as Wn. cbn [K] in Wn.
  replace (a + b + (c + d) + (lwip_htons proto + lwip_htons proto_len) + weigh 1 (flat p))
    with ((a + b + c + d + weigh 1 (flat p)) + lwip_htons proto + lwip_htons proto_len) by lia.
  apply same_sum_add; [apply same_sum_add; [by apply stands_sum|]|]; apply same_sum_refl; lia.
Qed.

Lemma ones_range x : 0 <= x -> 0 <= ones x <= 65535.
Proof. intros Hx. unfold ones. destruct (x =? 0); [lia|]. pose proof (Z.mod_pos_bound (x - 1) 65535 ltac:(lia)). lia. Qed.

(** A sum with its own complement added is 65535. *)
Lemma ones_complement x : 0 <= x -> ones (x + (65535 - ones x)) = 65535.
Proof.
  intros Hx. pose proof (ones_range x Hx). symmetry. apply stands_ones. unfold stands. split; [lia|]. split; [lia|]. split.
  - unfold ones. destruct (Z.eqb_spec x 0) as [->|Hn]; [done|].
    pose proof (Z.div_mod (x - 1) 65535 ltac:(lia)) as D. set (q := (x - 1) / 65535) in *. set (r := (x - 1) mod 65535) in *.
    replace (x + (65535 - (r + 1))) with (65535 + q * 65535) by lia. by rewrite Z.mod_add.
  - split; [done|]. destruct (Z.eq_dec x 0) as [->|Hn]; [done|]. lia.
Qed.

Lemma weigh_field pre c post :
  odd_length pre = false -> 0 <= c <= 65535 ->
  weigh 1 (pre ++ [c mod 256; c / 256] ++ post) = weigh 1 (pre ++ [0; 0] ++ post) + c.
Proof.
  intros Ho Hc. change 1 with (K false) at 1 2. rewrite !(weigh_app false pre), Ho. cbn [xorb K app weigh].
  change (257 - 1) with 256. change (257 - 256) with 1. pose proof (Z.div_mod c 256 ltac:(lia)). lia.
Qed.

(** * Theorems *)

(** C17: the checksum lwIP computes over a packet and its pseudo header is the
    Internet checksum: the complement of the ones' complement sum of all 16-bit
    words, whatever the number, the lengths and the alignment of the buffers the
    packet is spread over; the byte swapping and folding of the code never shows
    in the result. *)
Theorem chksum_pseudo_correct (p : list piece) (proto proto_len src dest : Z) :
  packet_ok p ->
  ip_chksum_pseudo p proto proto_len src dest = 65535 - ones (pseudo_sum proto proto_len src dest + weigh 1 (flat p)).
Proof. apply pseudo_spec. Qed.

(** Four bytes in three buffers, two of them at odd addresses. *)
Lemma chksum_pseudo_correct_witness :
  ip_chksum_pseudo [(1001, [0x45]); (2000, [0x00; 0x12]); (3003, [0x34])] 6 4 0x0100000A 0x0200000A =
  ip_chksum_pseudo [(4000, [0x45; 0x00; 0x12; 0x34])] 6 4 0x0100000A 0x0200000A.
Proof.
  rewrite (chksum_pseudo_correct [(1001, [0x45]); (2000, [0x00; 0x12]); (3003, [0x34])]), (chksum_pseudo_correct [(4000, [0x45; 0x00; 0x12; 0x34])]).
  - reflexivity.
  - repeat constructor; cbn; lia.
  - repeat constructor; cbn; lia.
Defined.

(** A packet that carries its checksum is accepted: when the field at an even
    place is filled with the checksum of the packet with the field zero, the
    receiver's sum is zero, however the receiver's buffers divide the packet. *)
Theorem chksum_accepted (p p' : list piece) (pre post : list Z) (proto proto_len src dest : Z) :
  packet_ok p -> packet_ok p' -> odd_length pre = false ->
  flat p = pre ++ [0; 0] ++ post ->
  let c := ip_chksum_pseudo p proto proto_len src dest in
  flat p' = pre ++ [c mod 256; c / 256] ++ post ->
  ip_chksum_pseudo p' proto proto_len src dest = 0.
Proof.
  intros Hp Hp' Ho Ef c Ef'. pose proof (pseudo_spec p proto proto_len src dest Hp) as Ec. fold (ip_chksum_pseudo p proto proto_len src dest) in Ec.
  fold c in Ec. pose proof (pseudo_spec p' proto proto_len src dest Hp') as Ec'. unfold ip_chksum_pseudo. rewrite Ec', Ef'.
  pose proof (weigh_K_nonneg false (flat p) (flat_ok p Hp)) as Wn. cbn [K] in Wn.
  assert (0 <= pseudo_sum proto proto_len src dest) as Sn.
  { unfold pseudo_sum, addr_sum. pose proof (low_16 src). pose proof (low_16 (Z.shiftr src 16)). pose proof (low_16 dest).
    pose proof (low_16 (Z.shiftr dest 16)). pose proof (htons_range proto). pose proof (htons_range proto_len). lia. }
  set (x := pseudo_sum proto proto_len src dest + weigh 1 (flat p)) in *. pose proof (ones_range x ltac:(lia)) as R.
  rewrite weigh_field by (done || lia). rewrite <- Ef, Z.add_assoc. fold x. rewrite Ec, ones_complement by lia. lia.
Qed.
