(* ===== verification/Heap.v ===== *)
(** The heap of lwIP: src/lwip/src/core/mem.c, with the options of
    include/lwipopts.h.  Outgoing packets live in it.

    The heap is 128 KiB in a row, cut into blocks.  A block begins with a struct
    that knows the index of the next and of the previous block and whether it is
    used.  The specification is a list of blocks; allocation takes the first that
    is large enough, freeing joins neighbours. *)

From Stdlib Require Import ZArith Lia Bool.
From stdpp Require Import base list gmap numbers option.
From S2P Require Import Prelude.

Local Open Scope Z_scope.

(** * Data *)

Definition MEM_ALIGNMENT : Z := 4.
Definition MEM_SIZE : Z := 128 * 1024.
Definition MIN_SIZE : Z := 12.

(** The arithmetic of [unsigned int]. *)
Definition align (size : Z) : Z := Z.land (u32 (size + MEM_ALIGNMENT - 1)) (u32 (Z.lnot (MEM_ALIGNMENT - 1))).
Definition MIN_SIZE_ALIGNED : Z := align MIN_SIZE.
Definition SIZEOF_STRUCT_MEM : Z := align 12.
Definition MEM_SIZE_ALIGNED : Z := align MEM_SIZE.

Record mem := mk_mem { next : Z; prev : Z; used : Z }.

Definition set_next v m := mk_mem v (prev m) (used m).
Definition set_prev v m := mk_mem (next m) v (used m).
Definition set_used v m := mk_mem (next m) (prev m) v.

Record stats_mem := mk_stats { st_err : Z; st_used : Z; st_max : Z }.

(** [ram] has the structs by their index; what is left of structs that have been
    joined to others stays there until somebody writes over it. *)
Record heap := mk_heap { ram : gmap Z mem; lfree : Z; stats : stats_mem }.

Definition set_ram r h := mk_heap r (lfree h) (stats h).
Definition set_lfree p h := mk_heap (ram h) p (stats h).
Definition set_stats s h := mk_heap (ram h) (lfree h) s.

Definition upd (i : Z) (f : mem -> mem) (h : heap) : option heap :=
  m ← ram h !! i; Some (set_ram (<[i := f m]> (ram h)) h).

Definition STATS_INC_USED (y : Z) (h : heap) : heap :=
  let s := stats h in
  let u := u32 (st_used s + y) in
  set_stats (mk_stats (st_err s) u (if st_max s <? u then u else st_max s)) h.

Definition MEM_STATS_DEC_USED (y : Z) (h : heap) : heap :=
  set_stats (mk_stats (st_err (stats h)) (u32 (st_used (stats h) - y)) (st_max (stats h))) h.

Definition MEM_STATS_INC_err (h : heap) : heap :=
  set_stats (mk_stats (u16 (st_err (stats h) + 1)) (st_used (stats h)) (st_max (stats h))) h.

(** * Operations *)

Definition mem_init : heap :=
  mk_heap {[ 0 := mk_mem MEM_SIZE_ALIGNED 0 0; MEM_SIZE_ALIGNED := mk_mem MEM_SIZE_ALIGNED MEM_SIZE_ALIGNED 1 ]} 0 (mk_stats 0 0 0).

(** The block behind [p] learns where the one before it is, unless it is the
    end. *)
Definition link_back (p ptr : Z) (h : heap) : option heap :=
  if negb (p =? MEM_SIZE_ALIGNED) then upd p (set_prev ptr) h else Some h.

Definition plug_forward (mem : Z) (h : heap) : option heap :=
  m ← ram h !! mem;
  let nmem := next m in
  n ← ram h !! nmem;
  if negb (mem =? nmem) && (used n =? 0) && negb (nmem =? MEM_SIZE_ALIGNED) then
    let h := if lfree h =? nmem then set_lfree mem h else h in
    h ← upd mem (set_next (next n)) h;
    link_back (next n) mem h
  else Some h.

Definition plug_backward (mem : Z) (h : heap) : option heap :=
  m ← ram h !! mem;
  let pmem := prev m in
  p ← ram h !! pmem;
  if negb (pmem =? mem) && (used p =? 0) then
    let h := if lfree h =? mem then set_lfree pmem h else h in
    h ← upd pmem (set_next (next m)) h;
    link_back (next m) pmem h
  else Some h.

Definition plug_holes (mem : Z) (h : heap) : option heap :=
  m ← ram h !! mem;
  if negb (0 <=? mem) || negb (mem <? MEM_SIZE_ALIGNED) || negb (used m =? 0) || negb (next m <=? MEM_SIZE_ALIGNED) then None
  else h ← plug_forward mem h; plug_backward mem h.

Definition mem_link_valid (mem : Z) (h : heap) : option bool :=
  m ← ram h !! mem;
  if (MEM_SIZE_ALIGNED <? next m) || (MEM_SIZE_ALIGNED <? prev m) then Some false
  else
    p ← ram h !! prev m;
    if negb (prev m =? mem) && negb (next p =? mem) then Some false
    else
      n ← ram h !! next m;
      Some (negb (negb (next m =? MEM_SIZE_ALIGNED) && negb (prev n =? mem))).

(** An illegal pointer is an assertion, which hangs the kernel. *)
Definition mem_free (rmem : option Z) (h : heap) : option heap :=
  match rmem with
  | None => Some h
  | Some rmem =>
      if negb (Z.land rmem (MEM_ALIGNMENT - 1) =? 0) then None
      else
        let mem := rmem - SIZEOF_STRUCT_MEM in
        if (mem <? 0) || (MEM_SIZE_ALIGNED <? rmem + MIN_SIZE_ALIGNED) then None
        else
          m ← ram h !! mem;
          if used m =? 0 then None
          else
            ok ← mem_link_valid mem h;
            if negb ok then None
            else
              h ← upd mem (set_used 0) h;
              let h := if mem <? lfree h then set_lfree mem h else h in
              let h := MEM_STATS_DEC_USED (u32 (next m - mem)) h in
              plug_holes mem h
  end.

(** The size that is really taken for a request. *)
Definition data_size (size_in : Z) : Z :=
  let size := align size_in in if size <? MIN_SIZE_ALIGNED then MIN_SIZE_ALIGNED else size.

(** The struct that is moved or made behind the shrunk block. *)
Definition cut (ptr ptr2 next' : Z) (h : heap) : option heap :=
  let h := set_ram (<[ptr2 := mk_mem next' ptr 0]> (ram h)) h in
  h ← upd ptr (set_next ptr2) h;
  link_back next' ptr2 h.

Definition mem_trim (rmem new_size : Z) (h : heap) : option (option Z * heap) :=
  let newsize := data_size new_size in
  if (MEM_SIZE_ALIGNED <? newsize) || (newsize <? new_size) then Some (None, h)
  else if negb ((0 <=? rmem) && (rmem <? MEM_SIZE_ALIGNED)) then None
  else
    let ptr := rmem - SIZEOF_STRUCT_MEM in
    m ← ram h !! ptr;
    let size := u32 (u32 (next m - ptr) - SIZEOF_STRUCT_MEM) in
    if negb (newsize <=? size) then None
    else if newsize =? size then Some (Some rmem, h)
    else
      let mem2 := next m in
      m2 ← ram h !! mem2;
      let ptr2 := u32 (ptr + SIZEOF_STRUCT_MEM + newsize) in
      if used m2 =? 0 then
        if next m =? MEM_SIZE_ALIGNED then None
        else
          let h := if lfree h =? mem2 then set_lfree ptr2 h else h in
          h ← cut ptr ptr2 (next m2) h;
          Some (Some rmem, MEM_STATS_DEC_USED (u32 (size - newsize)) h)
      else if newsize + SIZEOF_STRUCT_MEM + MIN_SIZE_ALIGNED <=? size then
        if next m =? MEM_SIZE_ALIGNED then None
        else
          let h := if ptr2 <? lfree h then set_lfree ptr2 h else h in
          h ← cut ptr ptr2 (next m) h;
          Some (Some rmem, MEM_STATS_DEC_USED (u32 (size - newsize)) h)
      else Some (Some rmem, h).

(** More rounds than there can be blocks. *)
Definition rounds : nat := Z.to_nat 5462.

Fixpoint adjust_loop (fuel : nat) (cur : Z) (h : heap) : option Z :=
  m ← ram h !! cur;
  if negb (used m =? 0) && negb (cur =? MEM_SIZE_ALIGNED) then
    match fuel with O => None | S fuel' => adjust_loop fuel' (next m) h end
  else Some cur.

(** The block at [ptr] is taken. *)
Definition take_block (ptr size : Z) (m : mem) (h : heap) : option heap :=
  if size + SIZEOF_STRUCT_MEM + MIN_SIZE_ALIGNED <=? u32 (next m - (ptr + SIZEOF_STRUCT_MEM)) then
    let ptr2 := u32 (ptr + SIZEOF_STRUCT_MEM + size) in
    if ptr2 =? MEM_SIZE_ALIGNED then None
    else
      let h := set_ram (<[ptr2 := mk_mem (next m) ptr 0]> (ram h)) h in
      h ← upd ptr (fun m => set_used 1 (set_next ptr2 m)) h;
      h ← link_back (next m) ptr2 h;
      Some (STATS_INC_USED (size + SIZEOF_STRUCT_MEM) h)
  else
    h ← upd ptr (set_used 1) h;
    Some (STATS_INC_USED (u32 (next m - ptr)) h).

Fixpoint search_loop (fuel : nat) (ptr size : Z) (h : heap) : option (option Z * heap) :=
  if negb (ptr <? u32 (MEM_SIZE_ALIGNED - size)) then Some (None, MEM_STATS_INC_err h)
  else
    match fuel with
    | O => None
    | S fuel' =>
        m ← ram h !! ptr;
        if (used m =? 0) && (size <=? u32 (next m - (ptr + SIZEOF_STRUCT_MEM))) then
          h ← take_block ptr size m h;
          h ← (if ptr =? lfree h then cur ← adjust_loop rounds (lfree h) h; Some (set_lfree cur h) else Some h);
          if negb (ptr + SIZEOF_STRUCT_MEM + size <=? MEM_SIZE_ALIGNED) || negb ((ptr + SIZEOF_STRUCT_MEM) mod MEM_ALIGNMENT =? 0) then None
          else Some (Some (ptr + SIZEOF_STRUCT_MEM), h)
        else search_loop fuel' (next m) size h
    end.

Definition mem_malloc (size_in : Z) (h : heap) : option (option Z * heap) :=
  if size_in =? 0 then Some (None, h)
  else
    let size := data_size size_in in
    if (MEM_SIZE_ALIGNED <? size) || (size <? size_in) then Some (None, h)
    else search_loop rounds (lfree h) size h.

(** * Specification: a list of blocks *)

(** The bytes of a block with its struct, and whether it is used. *)
Definition block : Type := Z * bool.

Definition ext (bs : list block) : Z := foldr (fun b n => b.1 + n) 0 bs.

(** The bytes in use. *)
Definition used_ext (bs : list block) : Z := foldr (fun (b : block) n => (if b.2 then b.1 else 0) + n) 0 bs.

(** The first block that is free and has room for [size] bytes is taken; what is
    left of it becomes a block of its own when it can hold something. *)
Fixpoint place (size : Z) (bs : list block) : option (Z * list block) :=
  match bs with
  | [] => None
  | (n, u) :: bs' =>
      if negb u && (size + 12 <=? n) then
        Some (0, if size + 36 <=? n then (size + 12, true) :: (n - (size + 12), false) :: bs' else (n, true) :: bs')
      else '(p, bs'') ← place size bs'; Some (n + p, (n, u) :: bs'')
  end.

(** Free neighbours become one block. *)
Fixpoint join (bs : list block) : list block :=
  match bs with
  | [] => []
  | (n, true) :: bs' => (n, true) :: join bs'
  | (n, false) :: bs' => match join bs' with (n2, false) :: r => (n + n2, false) :: r | r => (n, false) :: r end
  end.

(** The block at the index [p] is free. *)
Fixpoint mark (p : Z) (bs : list block) : list block :=
  match bs with
  | [] => []
  | (n, u) :: bs' => if p =? 0 then (n, false) :: bs' else (n, u) :: mark (p - n) bs'
  end.

Definition release (p : Z) (bs : list block) : list block := join (mark p bs).

(** The block at [p] is cut down to [size] bytes: the rest goes to the free block
    behind it, or becomes a block when it can hold something. *)
Fixpoint shrink (p size : Z) (bs : list block) : list block :=
  match bs with
  | [] => []
  | (n, u) :: bs' =>
      if p =? 0 then
        match bs' with
        | (n2, false) :: r => (size + 12, u) :: (n2 + (n - (size + 12)), false) :: r
        | _ => if size + 36 <=? n then (size + 12, u) :: (n - (size + 12), false) :: bs' else bs
        end
      else (n, u) :: shrink (p - n) size bs'
  end.

(** A block at [p] of [n] bytes. *)
Definition at_index (bs : list block) (p n : Z) (u : bool) : Prop := exists l r, bs = l ++ (n, u) :: r /\ ext l = p.

(** No two free blocks in a row. *)
Fixpoint spaced (bs : list block) : Prop :=
  match bs with
  | [] => True
  | (_, u) :: bs' => match bs' with [] => True | (_, u') :: _ => u || u' = true end /\ spaced bs'
  end.

(** The index of the first free block, or of the end. *)
Fixpoint first_free (at_ : Z) (bs : list block) : Z :=
  match bs with [] => at_ | (n, u) :: bs' => if u then first_free (at_ + n) bs' else at_ end.

Definition block_ok (b : block) : Prop := 24 <= b.1 /\ b.1 mod 4 = 0.

(** * Representation *)

Definition flag (u : bool) : Z := if u then 1 else 0.

(** The structs of the blocks [bs] from the index [at_] on; [pv] is the index of
    the block before. *)
Fixpoint seg (m : gmap Z mem) (pv at_ : Z) (bs : list block) : Prop :=
  match bs with
  | [] => True
  | (n, u) :: bs' => m !! at_ = Some (mk_mem (at_ + n) pv (flag u)) /\ seg m at_ (at_ + n) bs'
  end.

Record linked (h : heap) (bs : list block) : Prop := {
  li_seg : seg (ram h) 0 0 bs;
  li_ext : ext bs = MEM_SIZE_ALIGNED;
  li_end : ram h !! MEM_SIZE_ALIGNED = Some (mk_mem MEM_SIZE_ALIGNED MEM_SIZE_ALIGNED 1);
  li_ok : Forall block_ok bs;
  li_free : lfree h = first_free 0 bs;
  li_used : st_used (stats h) = used_ext bs /\ st_used (stats h) <= st_max (stats h) <= MEM_SIZE_ALIGNED }.

Definition rep (h : heap) (bs : list block) : Prop := linked h bs /\ spaced bs.

(** ** Lists of blocks *)

Lemma ext_app l r : ext (l ++ r) = ext l + ext r.
Proof. induction l as [|[n u] l IH]; cbn; [done|]. fold (ext (l ++ r)) (ext l). lia. Qed.

Lemma used_ext_app l r : used_ext (l ++ r) = used_ext l + used_ext r.
Proof. induction l as [|[n u] l IH]; cbn; [done|]. fold (used_ext (l ++ r)) (used_ext l). lia. Qed.

Lemma ext_nonneg bs : Forall block_ok bs -> 0 <= ext bs.
Proof. induction 1 as [|[n u] bs [Hn _] _ IH]; cbn in *; [lia|]. fold (ext bs). lia. Qed.

Lemma used_ext_range bs : Forall block_ok bs -> 0 <= used_ext bs <= ext bs.
Proof. induction 1 as [|[n u] bs [Hn _] _ IH]; cbn in *; [lia|]. fold (ext bs) (used_ext bs). destruct u; lia. Qed.

Lemma ext_aligned bs : Forall block_ok bs -> ext bs mod 4 = 0.
Proof.
  induction 1 as [|[n u] bs [_ Hn] _ IH]; [done|]. cbn. fold (ext bs). cbn in Hn.
  rewrite Z.add_mod, Hn, IH by lia. done.
Qed.

(** There are not so many blocks. *)
Lemma ext_length bs : Forall block_ok bs -> 24 * Z.of_nat (length bs) <= ext bs.
Proof. induction 1 as [|[n u] bs [Hn _] _ IH]; cbn in *; [lia|]. fold (ext bs). lia. Qed.

Lemma first_free_app at_ l r :
  first_free at_ (l ++ r) = if bool_decide (Forall (fun b : block => b.2 = true) l) then first_free (at_ + ext l) r else first_free at_ l.
Proof.
  revert at_. induction l as [|[n u] l IH]; intros at_; cbn; [f_equal; lia|]. fold (ext l). destruct u.
  - rewrite IH. destruct (decide (Forall (fun b : block => b.2 = true) l)).
    + rewrite !bool_decide_true by (try done; by constructor). f_equal. lia.
    + rewrite !bool_decide_false; [done| |done]. intros F. by inversion F.
  - rewrite bool_decide_false; [done|]. intros F. by inversion F.
Qed.

Lemma first_free_range at_ bs : Forall block_ok bs -> at_ <= first_free at_ bs <= at_ + ext bs.
Proof.
  intros F. revert at_. induction F as [|[n u] bs [Hn _] F IH]; intros at_; cbn in *; [lia|]. fold (ext bs).
  pose proof (ext_nonneg _ F). destruct u; [specialize (IH (at_ + n))|]; lia.
Qed.

(** A free block is not below the first. *)
Lemma first_free_le at_ l n r : Forall block_ok l -> first_free at_ (l ++ (n, false) :: r) <= at_ + ext l.
Proof.
  intros F. rewrite first_free_app. case_bool_decide as B; cbn; [lia|]. by apply first_free_range.
Qed.

(** ** Segments *)

(** The index of the last block of [l], or [pv]. *)
Fixpoint last_at (pv at_ : Z) (l : list block) : Z :=
  match l with [] => pv | (n, _) :: l' => last_at at_ (at_ + n) l' end.

Lemma last_at_snoc pv at_ l n u : last_at pv at_ (l ++ [(n, u)]) = at_ + ext l.
Proof. revert pv at_. induction l as [|[k v] l IH]; intros pv at_; cbn; [lia|]. rewrite IH. fold (ext l). lia. Qed.

Lemma last_at_range l : Forall block_ok l -> 0 <= last_at 0 0 l <= ext l.
Proof.
  intros F. destruct l as [|[n u] l _] using rev_ind; [done|]. rewrite last_at_snoc, ext_app. apply Forall_app in F as [F G].
  pose proof (ext_nonneg _ F). inversion G as [|? ? [Hn _] _]; subst. cbn in *. lia.
Qed.

Lemma seg_app m pv at_ l r : seg m pv at_ (l ++ r) <-> seg m pv at_ l /\ seg m (last_at pv at_ l) (at_ + ext l) r.
Proof.
  revert pv at_. induction l as [|[n u] l IH]; intros pv at_; cbn [app seg last_at ext foldr].
  - rewrite Z.add_0_r. tauto.
  - rewrite IH. cbn [fst]. fold (ext l). rewrite Z.add_assoc. tauto.
Qed.

Lemma seg_frame m m' pv at_ l :
  Forall block_ok l -> (forall i, at_ <= i < at_ + ext l -> m' !! i = m !! i) -> seg m pv at_ l -> seg m' pv at_ l.
Proof.
  intros F. revert pv at_. induction F as [|[n u] l [Hn _] F IH]; intros pv at_ Hm; cbn in *; [done|].
  fold (ext l) in Hm. pose proof (ext_nonneg _ F). intros [E S]. split; [by rewrite Hm by lia|].
  apply IH; [|done]. intros i Hi. apply Hm. lia.
Qed.

(** Blocks in the middle are replaced. *)
Lemma seg_rebuild m m' l mid mid' r :
  Forall block_ok (l ++ mid ++ r) -> seg m 0 0 (l ++ mid ++ r) -> (forall i, 0 <= i < ext l -> m' !! i = m !! i) ->
  seg m' (last_at 0 0 l) (ext l) mid' -> seg m' (last_at (last_at 0 0 l) (ext l) mid') (ext l + ext mid') r ->
  seg m' 0 0 (l ++ mid' ++ r).
Proof.
  intros F S Hm Sm Sr. apply Forall_app in F as [Fl _]. apply seg_app in S as [Sl _]. apply seg_app. split.
  - by eapply seg_frame; [done| |done].
  - apply seg_app. by rewrite Z.add_0_l.
Qed.

Lemma MEM_end : MEM_SIZE_ALIGNED = 131072.
Proof. reflexivity. Qed.

(** What an operation that does not touch it leaves alone. *)
Definition rest_same (h h' : heap) : Prop := lfree h' = lfree h /\ stats h' = stats h.

Lemma link_back_ok h pv q ptr r :
  seg (ram h) pv q r -> q + ext r = MEM_SIZE_ALIGNED -> Forall block_ok r ->
  exists h', link_back q ptr h = Some h' /\ seg (ram h') ptr q r /\ rest_same h h' /\
    (forall i, i <> q -> ram h' !! i = ram h !! i) /\ ram h' !! MEM_SIZE_ALIGNED = ram h !! MEM_SIZE_ALIGNED.
Proof.
  intros S Hq F. unfold link_back. destruct F as [|[n u] r [Hn _] F]; cbn in Hq, S.
  - rewrite Z.add_0_r in Hq. rewrite Hq, Z.eqb_refl. by exists h.
  - fold (ext r) in Hq. pose proof (ext_nonneg _ F). cbn in Hn. destruct (Z.eqb_spec q MEM_SIZE_ALIGNED); [lia|]. cbn [negb].
    destruct S as [E S]. unfold upd. rewrite E. cbn [mbind option_bind]. eexists. split; [done|]. cbn [ram set_ram seg].
    split_and!; [by rewrite lookup_insert_eq| |done| |].
    + eapply seg_frame; [done| |done]. intros i Hi. by rewrite lookup_insert_ne by lia.
    + intros i Hi. by rewrite lookup_insert_ne.
    + by rewrite lookup_insert_ne by lia.
Qed.

(** The end of a list of blocks is not before any of its blocks. *)
Lemma linked_parts h l b r :
  linked h (l ++ b :: r) ->
  0 <= ext l /\ ext l mod 4 = 0 /\ block_ok b /\ 0 <= ext r /\ ext l + b.1 + ext r = MEM_SIZE_ALIGNED /\
  Forall block_ok l /\ Forall block_ok r /\
  ram h !! ext l = Some (mk_mem (ext l + b.1) (last_at 0 0 l) (flag b.2)) /\ seg (ram h) (ext l) (ext l + b.1) r.
Proof.
  intros [S E _ F _ _]. rewrite ext_app in E. destruct b as [n u]. cbn [ext foldr fst] in E. fold (ext r) in E.
  apply Forall_app in F as [Fl Fr]. inversion Fr as [|? ? Hb Fr']; subst. apply seg_app in S as [_ [S1 S2]].
  rewrite Z.add_0_l in S1, S2. pose proof (ext_nonneg _ Fl). pose proof (ext_nonneg _ Fr'). pose proof (ext_aligned _ Fl).
  split_and!; cbn [fst snd] in *; try done; lia.
Qed.

(** ** Joining *)

Lemma spaced_cons n u bs : spaced ((n, u) :: bs) -> spaced bs.
Proof. by intros [_ H]. Qed.

Lemma spaced_app l r : spaced (l ++ r) -> spaced l /\ spaced r.
Proof.
  induction l as [|[n u] l IH]; cbn [app]; [done|]. intros [H S]. destruct (IH S) as [Sl Sr]. split; [|done].
  split; [|done]. by destruct l as [|[]].
Qed.

Lemma spaced_join bs : spaced (join bs).
Proof.
  induction bs as [|[n u] bs IH]; [done|]. destruct u; cbn [join].
  - split; [|done]. by destruct (join bs) as [|[]].
  - destruct (join bs) as [|[n2 u2] r]; [done|]. destruct u2; [done|]. split; [|by eapply spaced_cons]. by destruct IH as [H _].
Qed.

Lemma join_spaced bs : spaced bs -> join bs = bs.
Proof.
  induction bs as [|[n u] bs IH]; [done|]. intros [H S]. specialize (IH S). destruct u; cbn [join]; rewrite IH; [done|].
  destruct bs as [|[n2 u2] r]; [done|]. by destruct u2.
Qed.

(** The last block of [l], if any, is used. *)
Definition shut (l : list block) : Prop := match list.last l with Some (_, false) => False | _ => True end.

Lemma join_app l r : spaced l -> shut l -> join (l ++ r) = l ++ join r.
Proof.
  induction l as [|[n u] l IH]; [done|]. intros [H S] C. cbn [app].
  assert (l <> [] -> shut l) as Cl by (by destruct l). destruct u; cbn [join].
  - destruct l as [|b l]; [done|]. by rewrite IH by (try done; by apply Cl).
  - destruct l as [|[n2 u2] l]; [done|]. rewrite IH by (try done; by apply Cl). cbn [app] in *. by destruct u2.
Qed.

Definition forward (n : Z) (r : list block) : list block :=
  match r with (n2, false) :: r' => (n + n2, false) :: r' | _ => (n, false) :: r end.

Lemma join_forward n r : spaced r -> join ((n, false) :: r) = forward n r.
Proof. intros S. cbn [join]. rewrite (join_spaced r S). by destruct r as [|[n2 []] r]. Qed.

Lemma forward_head n r : exists k r', forward n r = (k, false) :: r'.
Proof. destruct r as [|[n2 [|]] r]; cbn; eauto. Qed.

Lemma mark_at l n u r : Forall block_ok l -> mark (ext l) (l ++ (n, u) :: r) = l ++ (n, false) :: r.
Proof.
  induction 1 as [|[k v] l [Hk _] F IH]; [done|]. cbn in Hk. pose proof (ext_nonneg _ F). cbn [app mark ext foldr fst].
  fold (ext l). destruct (Z.eqb_spec (k + ext l) 0); [lia|]. by rewrite Z.add_simpl_l, IH.
Qed.

(** ** Freeing *)

Lemma first_free_merge l a b r : first_free 0 (l ++ (a + b, false) :: r) = first_free 0 (l ++ (a, false) :: (b, false) :: r).
Proof. by rewrite !first_free_app. Qed.

Lemma merge_ok h l a b r :
  linked h (l ++ (a, false) :: (b, false) :: r) ->
  exists h', (h1 ← upd (ext l) (set_next (ext l + a + b)) h; link_back (ext l + a + b) (ext l) h1) = Some h' /\
    linked h' (l ++ (a + b, false) :: r).
Proof.
  intros L. destruct (linked_parts _ _ _ _ L) as (Hl & Ha & Hb & Hr & He & Fl & Fr & E1 & S1). cbn [fst snd] in *.
  inversion Fr as [|? ? Hb2 Fr2]; subst. cbn [ext foldr fst] in He, Hr. fold (ext r) in He, Hr. destruct S1 as [E2 S2].
  pose proof (ext_nonneg _ Fr2). destruct Hb as [Hb1 Hb1']. destruct Hb2 as [Hb2 Hb2']. cbn in *.
  unfold upd at 1. rewrite E1. cbn [mbind option_bind]. set (h1 := set_ram _ h).
  assert (seg (ram h1) (ext l + a) (ext l + a + b) r) as S3.
  { eapply seg_frame; [done| |exact S2]. intros i Hi. unfold h1. cbn [ram set_ram]. by rewrite lookup_insert_ne by lia. }
  destruct (link_back_ok h1 _ _ (ext l) r S3 ltac:(lia) Fr2) as (h' & -> & S4 & [Rf Rs] & O & Oe).
  exists h'. split; [done|]. destruct L as [S E En F Lf U]. constructor.
  - apply (seg_rebuild (ram h) (ram h') l [(a, false); (b, false)] [(a + b, false)] r F S).
    + intros i Hi. rewrite O by lia. unfold h1. cbn [ram set_ram]. by rewrite lookup_insert_ne by lia.
    + split; [|done]. rewrite O by lia. unfold h1. cbn [ram set_ram]. rewrite lookup_insert_eq. unfold set_next. cbn. do 2 f_equal. lia.
    + cbn [last_at ext foldr fst]. replace (ext l + (a + b + 0)) with (ext l + a + b) by lia. done.
  - rewrite ext_app in E |- *. cbn in E |- *. fold (ext r) in E |- *. lia.
  - rewrite Oe. unfold h1. cbn [ram set_ram]. by rewrite lookup_insert_ne by lia.
  - apply Forall_app. split; [done|]. constructor; [|done]. split; cbn; [lia|]. rewrite Z.add_mod, Hb1', Hb2' by lia. done.
  - rewrite Rf, first_free_merge. exact Lf.
  - rewrite Rs. unfold h1. cbn [stats set_ram]. rewrite used_ext_app in U |- *. exact U.
Qed.

Lemma plug_forward_ok h l n r :
  linked h (l ++ (n, false) :: r) -> exists h', plug_forward (ext l) h = Some h' /\ linked h' (l ++ forward n r).
Proof.
  intros L. destruct (linked_parts _ _ _ _ L) as (Hl & Ha & [Hn _] & Hr & He & Fl & Fr & E1 & S1). cbn [fst snd] in *.
  unfold plug_forward. rewrite E1. cbn [mbind option_bind next]. destruct (Z.eqb_spec (ext l) (ext l + n)); [lia|]. cbn [negb andb].
  destruct r as [|[n2 u2] r].
  { cbn in He. rewrite Z.add_0_r in He. rewrite He, (li_end _ _ L). cbn. by exists h. }
  destruct S1 as [E2 _]. rewrite E2. cbn [mbind option_bind next used]. destruct u2; cbn [flag Z.eqb negb andb forward]; [by exists h|].
  cbn [ext foldr fst] in He. fold (ext r) in He. inversion Fr as [|? ? [Hn2 _] Fr2]; subst. cbn in Hn2. pose proof (ext_nonneg _ Fr2).
  destruct (Z.eqb_spec (ext l + n) MEM_SIZE_ALIGNED); [lia|]. cbn [negb].
  assert (lfree h <= ext l) as Hf by (rewrite (li_free _ _ L); by apply (first_free_le 0)).
  destruct (Z.eqb_spec (lfree h) (ext l + n)); [lia|]. by apply merge_ok.
Qed.

Lemma plug_backward_ok h l n r :
  linked h (l ++ (n, false) :: r) ->
  exists h', plug_backward (ext l) h = Some h' /\
    linked h' match list.last l with
              | Some (n0, false) => removelast l ++ (n0 + n, false) :: r
              | _ => l ++ (n, false) :: r
              end.
Proof.
  intros L. destruct (linked_parts _ _ _ _ L) as (Hl & Ha & [Hn _] & Hr & He & Fl & Fr & E1 & S1). cbn [fst snd] in *.
  unfold plug_backward. rewrite E1. cbn [mbind option_bind prev next].
  destruct l as [|[n0 u0] l _] using rev_ind.
  { change (ext []) with 0 in *. cbn [last_at list.last]. rewrite E1. cbn. by exists h. }
  rewrite last_snoc, removelast_last, last_at_snoc, Z.add_0_l. rewrite <- (assoc_L (++)) in L. cbn [app] in L.
  destruct (linked_parts _ _ _ _ L) as (_ & _ & [Hn0 _] & _ & _ & Fl0 & _ & E0 & _). cbn [fst snd] in *. rewrite E0. cbn [mbind option_bind used].
  rewrite ext_app in *. cbn [ext foldr fst] in *. fold (ext l) in *. rewrite Z.add_0_r in *.
  destruct (Z.eqb_spec (ext l) (ext l + n0)); [lia|]. cbn [negb andb]. destruct u0; cbn [flag Z.eqb].
  { exists h. by rewrite <- (assoc_L (++)). }
  assert (lfree h <= ext l) as Hf by (rewrite (li_free _ _ L); by apply (first_free_le 0)).
  destruct (Z.eqb_spec (lfree h) (ext l + n0)); [lia|]. by apply merge_ok.
Qed.

Lemma shut_before l n r : spaced (l ++ (n, false) :: r) -> shut l.
Proof.
  unfold shut. destruct l as [|[k v] l _] using rev_ind; [done|]. rewrite last_snoc, <- (assoc_L (++)). intros S.
  apply spaced_app in S as [_ [H _]]. by destruct v.
Qed.

(** What the two rounds of [plug_holes] make of the list. *)
Lemma join_plugged l n k r r' :
  spaced l -> spaced r -> forward n r = (k, false) :: r' ->
  join (l ++ (n, false) :: r) =
  match list.last l with Some (n0, false) => removelast l ++ (n0 + k, false) :: r' | _ => l ++ (k, false) :: r' end.
Proof.
  intros Sl Sr E. pose proof (join_forward n r Sr) as J. rewrite E in J.
  assert (forall l, spaced l -> shut l -> join (l ++ (n, false) :: r) = l ++ (k, false) :: r') as P
    by (intros l' S C; by rewrite join_app, J).
  destruct l as [|[n0 u0] l _] using rev_ind; [by apply (P [])|]. rewrite last_snoc, removelast_last. destruct u0.
  - apply P; [done|]. unfold shut. by rewrite last_snoc.
  - rewrite <- (assoc_L (++)). cbn [app]. rewrite join_app; [|by apply spaced_app in Sl as []|by eapply shut_before].
    f_equal. change (join ((n0, false) :: (n, false) :: r)) with
      (match join ((n, false) :: r) with (n2, false) :: r => (n0 + n2, false) :: r | r => (n0, false) :: r end). by rewrite J.
Qed.

Lemma first_free_lt at_ l :
  Forall block_ok l -> ~ Forall (fun b : block => b.2 = true) l -> first_free at_ l < at_ + ext l.
Proof.
  intros F. revert at_. induction F as [|[n u] l [Hn _] F IH]; intros at_ H; [by destruct H|]. cbn in *. fold (ext l).
  pose proof (ext_nonneg _ F). destruct u; [|lia]. specialize (IH (at_ + n)). rewrite Z.add_assoc. apply IH. intros G. apply H. by constructor.
Qed.

Lemma small_32 x : 0 <= x <= MEM_SIZE_ALIGNED -> u32 x = x.
Proof. rewrite MEM_end. intros. apply Z.mod_small. lia. Qed.

(** The block is marked and the counters follow. *)
Lemma unuse_ok h l n r :
  linked h (l ++ (n, true) :: r) ->
  exists h1, upd (ext l) (set_used 0) h = Some h1 /\
    linked (MEM_STATS_DEC_USED (u32 (ext l + n - ext l)) (if ext l <? lfree h1 then set_lfree (ext l) h1 else h1)) (l ++ (n, false) :: r).
Proof.
  intros L. destruct (linked_parts _ _ _ _ L) as (Hl & Ha & Hb & Hr & He & Fl & Fr & E1 & S1). destruct Hb as [Hn Hn']. cbn [fst snd] in *.
  unfold upd. rewrite E1. cbn [mbind option_bind]. set (h1 := set_ram _ h). exists h1. split; [done|].
  assert (forall i, i <> ext l -> ram h1 !! i = ram h !! i) as O by (intros i Hi; unfold h1; cbn [ram set_ram]; by rewrite lookup_insert_ne).
  destruct L as [S E En F Lf [U Um]]. pose proof (used_ext_range _ F) as Ur. rewrite E in Ur. set (h2 := if ext l <? lfree h1 then set_lfree (ext l) h1 else h1).
  assert (ram h2 = ram h1 /\ stats h2 = stats h /\ lfree h2 = first_free 0 (l ++ (n, false) :: r)) as (R2 & T2 & F2).
  { unfold h2. change (lfree h1) with (lfree h). rewrite Lf, !first_free_app. case_bool_decide as B; cbn [first_free].
    - pose proof (first_free_range (0 + ext l + n) r Fr). destruct (Z.ltb_spec (ext l) (first_free (0 + ext l + n) r)); [|lia].
      split_and!; [done|done|]. cbn. lia.
    - pose proof (first_free_lt 0 l Fl B). destruct (Z.ltb_spec (ext l) (first_free 0 l)); [lia|]. split_and!; [done|done|].
      cbn. rewrite Lf, first_free_app. by rewrite bool_decide_false. }
  rewrite used_ext_app in U, Ur. cbn in U, Ur. fold (used_ext r) in U, Ur.
  pose proof (used_ext_range _ Fl). pose proof (used_ext_range _ Fr).
  constructor; cbn [ram set_stats MEM_STATS_DEC_USED lfree stats st_used st_max].
  - rewrite R2. apply (seg_rebuild (ram h) (ram h1) l [(n, true)] [(n, false)] r F S).
    + intros i Hi. apply O. lia.
    + split; [|done]. unfold h1. cbn [ram set_ram]. by rewrite lookup_insert_eq.
    + cbn [last_at ext foldr fst]. rewrite Z.add_0_r. eapply seg_frame; [done| |exact S1]. intros i Hi. apply O. lia.
  - rewrite ext_app in E |- *. exact E.
  - rewrite R2, O by lia. done.
  - apply Forall_app in F as [F1 F2']. apply Forall_app. split; [done|]. inversion F2'; subst. by constructor.
  - exact F2.
  - rewrite T2, used_ext_app, U. cbn. fold (used_ext r). rewrite (small_32 (ext l + n - ext l)), small_32 by lia. lia.
Qed.

Lemma land_3 x : Z.land x (MEM_ALIGNMENT - 1) = x mod 4.
Proof. change (MEM_ALIGNMENT - 1) with (Z.ones 2). by rewrite Z.land_ones. Qed.

Lemma link_valid_ok h l n u r : linked h (l ++ (n, u) :: r) -> mem_link_valid (ext l) h = Some true.
Proof.
  intros L. destruct (linked_parts _ _ _ _ L) as (Hl & Ha & [Hn _] & Hr & He & Fl & Fr & E1 & S1). cbn [fst snd] in *.
  pose proof (last_at_range l Fl) as Hp. unfold mem_link_valid. rewrite E1. cbn [mbind option_bind next prev].
  destruct (Z.ltb_spec MEM_SIZE_ALIGNED (ext l + n)); [lia|]. destruct (Z.ltb_spec MEM_SIZE_ALIGNED (last_at 0 0 l)); [lia|]. cbn [orb].
  assert (exists p : mem, ram h !! last_at 0 0 l = Some p /\ negb (last_at 0 0 l =? ext l) && negb (next p =? ext l) = false) as (p & -> & Hp2).
  { destruct l as [|[k v] l _] using rev_ind; [by eexists|]. rewrite <- (assoc_L (++)) in L.
    destruct (linked_parts _ _ _ _ L) as (_ & _ & _ & _ & _ & _ & _ & E0 & _). cbn [fst] in E0.
    rewrite last_at_snoc, Z.add_0_l. eexists. split; [exact E0|]. cbn [next]. rewrite ext_app. cbn.
    rewrite Z.add_0_r, Z.eqb_refl. by rewrite andb_false_r. }
  cbn [mbind option_bind]. rewrite Hp2.
  assert (exists q : mem, ram h !! (ext l + n) = Some q /\ negb (ext l + n =? MEM_SIZE_ALIGNED) && negb (prev q =? ext l) = false) as (q & -> & Hq2).
  { destruct r as [|[k v] r].
    - cbn in He. rewrite Z.add_0_r in He. rewrite He, (li_end _ _ L), Z.eqb_refl. by eexists.
    - destruct S1 as [E2 _]. rewrite E2. eexists. split; [done|]. cbn [prev]. rewrite Z.eqb_refl. by rewrite andb_false_r. }
  cbn [mbind option_bind]. by rewrite Hq2.
Qed.

Lemma mem_free_ok h bs p n :
  rep h bs -> at_index bs p n true -> exists h', mem_free (Some (p + SIZEOF_STRUCT_MEM)) h = Some h' /\ rep h' (release p bs).
Proof.
  intros [L Sp] (l & r & -> & <-). destruct (linked_parts _ _ _ _ L) as (Hl & Ha & [Hn Hn'] & Hr & He & Fl & Fr & E1 & S1). cbn [fst snd] in *.
  change SIZEOF_STRUCT_MEM with 12. unfold mem_free. rewrite land_3. change SIZEOF_STRUCT_MEM with 12. change MIN_SIZE_ALIGNED with 12.
  rewrite Z.add_mod, Ha by lia. cbn [Z.modulo Z.add Z.eqb negb]. change ((0 + 12 mod 4) mod 4 =? 0) with true. cbn [negb].
  rewrite Z.add_simpl_r. destruct (Z.ltb_spec (ext l) 0); [lia|]. destruct (Z.ltb_spec MEM_SIZE_ALIGNED (ext l + 12 + 12)); [lia|]. cbn [orb].
  rewrite E1. cbn [mbind option_bind used flag Z.eqb next]. rewrite (link_valid_ok _ _ _ _ _ L). cbn [mbind option_bind negb].
  destruct (unuse_ok _ _ _ _ L) as (h1 & -> & L1). cbn [mbind option_bind]. set (h2 := MEM_STATS_DEC_USED _ _) in *.
  destruct (linked_parts _ _ _ _ L1) as (_ & _ & _ & _ & _ & _ & _ & E2 & _). cbn [fst snd flag] in E2.
  unfold plug_holes. rewrite E2. cbn [mbind option_bind used next]. destruct (Z.leb_spec 0 (ext l)); [|lia].
  destruct (Z.ltb_spec (ext l) MEM_SIZE_ALIGNED); [|lia]. destruct (Z.leb_spec (ext l + n) MEM_SIZE_ALIGNED); [|lia]. cbn [negb orb Z.eqb].
  destruct (plug_forward_ok _ _ _ _ L1) as (h3 & -> & L3). cbn [mbind option_bind].
  destruct (forward_head n r) as (k & r' & Ek). rewrite Ek in L3. destruct (plug_backward_ok _ _ _ _ L3) as (h4 & -> & L4).
  exists h4. split; [done|]. unfold release. rewrite mark_at by done. split; [|apply spaced_join].
  apply spaced_app in Sp as [Sl Sr]. apply spaced_cons in Sr. by rewrite (join_plugged l n k r r' Sl Sr Ek).
Qed.

(** ** Allocating *)

Lemma align_round x : 0 <= x <= 2 ^ 32 - 4 -> align x = (x + 3) / 4 * 4.
Proof.
  intros Hx. unfold align. change MEM_ALIGNMENT with 4. unfold u32 at 1. rewrite Z.mod_small by lia.
  replace (x + 4 - 1) with (x + 3) by lia. set (y := x + 3). change (u32 (Z.lnot (4 - 1))) with (Z.ldiff (Z.ones 32) (Z.ones 2)).
  assert (Z.land y (Z.ldiff (Z.ones 32) (Z.ones 2)) = Z.ldiff (Z.land y (Z.ones 32)) (Z.ones 2)) as ->.
  { apply Z.bits_inj'. intros i Hi. rewrite !Z.land_spec, !Z.ldiff_spec, Z.land_spec. by rewrite andb_assoc. }
  rewrite Z.land_ones, Z.mod_small by lia. rewrite Z.ldiff_ones_r by lia. by rewrite Z.shiftl_mul_pow2, Z.shiftr_div_pow2 by lia.
Qed.

Lemma data_size_spec x :
  0 < x < 2 ^ 32 -> x <= data_size x <= MEM_SIZE_ALIGNED ->
  data_size x = Z.max 12 ((x + 3) / 4 * 4) /\ data_size x mod 4 = 0 /\ 12 <= data_size x.
Proof.
  rewrite MEM_end. intros Hx Hd. assert (x <= 2 ^ 32 - 4) by lia.
  assert (data_size x = Z.max 12 ((x + 3) / 4 * 4)) as E.
  { unfold data_size. rewrite align_round by lia. change MIN_SIZE_ALIGNED with 12. destruct (Z.ltb_spec ((x + 3) / 4 * 4) 12); lia. }
  split_and!; [done| |lia]. rewrite E. destruct (Z.max_spec 12 ((x + 3) / 4 * 4)) as [[_ ->]|[_ ->]]; [by rewrite Z.mod_mul|done].
Qed.

(** A request that cannot be met wraps around or exceeds the heap. *)
Lemma data_size_large x : MEM_SIZE_ALIGNED < x < 2 ^ 32 -> data_size x < x \/ MEM_SIZE_ALIGNED < data_size x.
Proof.
  rewrite MEM_end. intros Hx. destruct (decide (x <= 2 ^ 32 - 4)).
  - right. unfold data_size. rewrite align_round by lia. change MIN_SIZE_ALIGNED with 12.
    pose proof (Z.div_mod (x + 3) 4 ltac:(lia)). pose proof (Z.mod_pos_bound (x + 3) 4 ltac:(lia)).
    destruct (Z.ltb_spec ((x + 3) / 4 * 4) 12); lia.
  - left. assert (x = 4294967293 \/ x = 4294967294 \/ x = 4294967295) as [->|[->| ->]] by lia; reflexivity.
Qed.

Lemma spaced_app_used l n r : spaced l -> spaced ((n, true) :: r) -> spaced (l ++ (n, true) :: r).
Proof.
  intros Sl Sr. induction l as [|[k v] l IH]; [done|]. destruct Sl as [H Sl]. cbn [app]. split; [|by apply IH].
  destruct l as [|[k2 v2] l]; cbn [app]; [by rewrite orb_true_r|done].
Qed.

Lemma place_small size bs : Forall block_ok bs -> ext bs < size + 12 -> place size bs = None.
Proof.
  induction 1 as [|[n u] bs [Hn _] F IH]; intros He; [done|]. cbn in *. fold (ext bs) in He. pose proof (ext_nonneg _ F).
  destruct (Z.leb_spec (size + 12) n); [lia|]. rewrite andb_false_r. by rewrite IH by lia.
Qed.

Lemma place_app size l r : place size l = None -> place size (l ++ r) = '(p, r') ← place size r; Some (ext l + p, l ++ r').
Proof.
  induction l as [|[n u] l IH]; cbn [place app].
  - intros _. destruct (place size r) as [[p r']|]; done.
  - destruct (negb u && (size + 12 <=? n)); [done|]. destruct (place size l) as [[]|]; [done|]. intros _. rewrite IH by done.
    destruct (place size r) as [[p r']|]; cbn [mbind option_bind]; [|done]. cbn [ext foldr fst]. fold (ext l). by rewrite Z.add_assoc.
Qed.

Lemma place_used size l : Forall (fun b : block => b.2 = true) l -> place size l = None.
Proof. induction 1 as [|[n u] l Hu F IH]; [done|]. cbn in *. subst u. cbn [negb andb]. by rewrite IH. Qed.

Lemma adjust_loop_ok fuel h pv at_ bs :
  seg (ram h) pv at_ bs -> at_ + ext bs = MEM_SIZE_ALIGNED -> Forall block_ok bs ->
  ram h !! MEM_SIZE_ALIGNED = Some (mk_mem MEM_SIZE_ALIGNED MEM_SIZE_ALIGNED 1) -> (length bs <= fuel)%nat ->
  adjust_loop fuel at_ h = Some (first_free at_ bs).
Proof.
  intros S He F En. revert fuel pv at_ S He. induction F as [|[n u] bs [Hn _] F IH]; intros fuel pv at_ S He Hf.
  - cbn in He. rewrite Z.add_0_r in He. subst at_. destruct fuel; cbn [adjust_loop]; rewrite En; cbn [mbind option_bind used Z.eqb negb];
      by rewrite Z.eqb_refl.
  - destruct S as [E S]. cbn in Hn, He. fold (ext bs) in He. pose proof (ext_nonneg _ F). destruct fuel as [|fuel]; [cbn in Hf; lia|].
    cbn [adjust_loop]. rewrite E. cbn [mbind option_bind used next first_free]. destruct u; cbn [flag Z.eqb negb andb]; [|done].
    destruct (Z.eqb_spec at_ MEM_SIZE_ALIGNED); [lia|]. cbn [negb]. eapply IH; [exact S|lia|cbn in Hf; lia].
Qed.

Lemma linked_lfree h bs : linked h bs -> set_lfree (first_free 0 bs) h = h.
Proof. intros L. destruct h. by rewrite <- (li_free _ _ L). Qed.

(** A new block is cut off behind the one at [ext l]; this is common to taking and
    to shrinking. *)
Lemma cut_ok h l n v mid r a b u f :
  linked h (l ++ (n, v) :: mid ++ r) -> 24 <= a -> 24 <= b -> a + b = n + ext mid ->
  f (mk_mem (ext l + n) (last_at 0 0 l) (flag v)) = mk_mem (ext l + a) (last_at 0 0 l) (flag u) ->
  exists h', (h1 ← upd (ext l) f (set_ram (<[ext l + a := mk_mem (ext l + n + ext mid) (ext l) 0]> (ram h)) h);
              link_back (ext l + n + ext mid) (ext l + a) h1) = Some h' /\ rest_same h h' /\
    seg (ram h') 0 0 (l ++ (a, u) :: (b, false) :: r) /\ ram h' !! MEM_SIZE_ALIGNED = ram h !! MEM_SIZE_ALIGNED.
Proof.
  intros L Ha Hb Hab Hf.
  destruct (linked_parts _ _ _ _ L) as (Hl & _ & [Hn _] & Hr & He & Fl & Fr & E1 & S1). cbn [fst snd] in *.
  apply Forall_app in Fr as [Fm Fr]. apply seg_app in S1 as [_ S2]. rewrite ext_app in He.
  pose proof (ext_nonneg _ Fm). pose proof (ext_nonneg _ Fr).
  unfold upd. cbn [ram set_ram]. rewrite lookup_insert_ne by lia. rewrite E1. cbn [mbind option_bind].
  rewrite Hf. set (h1 := set_ram _ _).
  assert (seg (ram h1) (last_at (ext l) (ext l + n) mid) (ext l + n + ext mid) r) as S3.
  { eapply seg_frame; [done| |exact S2]. intros i Hi. unfold h1. cbn [ram set_ram]. by rewrite !lookup_insert_ne by lia. }
  destruct (link_back_ok h1 _ _ (ext l + a) r S3 ltac:(lia) Fr) as (h' & -> & S4 & Rs & O & Oe).
  exists h'. split; [done|]. split; [exact Rs|]. split.
  - apply (seg_rebuild (ram h) (ram h') l ((n, v) :: mid) [(a, u); (b, false)] r (li_ok _ _ L) (li_seg _ _ L)).
    + intros i Hi. rewrite O by lia. unfold h1. cbn [ram set_ram]. by rewrite !lookup_insert_ne by lia.
    + cbn [seg]. rewrite !O by lia. unfold h1. cbn [ram set_ram]. rewrite lookup_insert_eq, lookup_insert_ne, lookup_insert_eq by lia.
      split_and!; [done| |done]. do 2 f_equal. lia.
    + cbn [last_at ext foldr fst]. replace (ext l + (a + (b + 0))) with (ext l + n + ext mid) by lia. done.
  - rewrite Oe. unfold h1. cbn [ram set_ram]. by rewrite !lookup_insert_ne by lia.
Qed.

Definition taken (n size : Z) : list block :=
  if size + 36 <=? n then [(size + 12, true); (n - (size + 12), false)] else [(n, true)].

Lemma taken_ext n size : ext (taken n size) = n.
Proof. unfold taken. destruct (size + 36 <=? n); cbn; lia. Qed.

Lemma taken_ok n size : block_ok (n, false) -> 12 <= size -> size mod 4 = 0 -> Forall block_ok (taken n size).
Proof.
  intros [Hn Hn'] Hs Hs'. cbn in *. unfold taken. destruct (Z.leb_spec (size + 36) n); [|by repeat constructor].
  assert ((size + 12) mod 4 = 0) by (by rewrite Z.add_mod, Hs' by lia).
  repeat constructor; cbn; [lia|done|lia|]. by rewrite Zminus_mod, Hn', H0.
Qed.

Lemma inc_used h bs y :
  0 <= y -> st_used (stats h) <= st_max (stats h) <= MEM_SIZE_ALIGNED -> 0 <= st_used (stats h) ->
  st_used (stats h) + y = used_ext bs -> Forall block_ok bs -> ext bs = MEM_SIZE_ALIGNED ->
  let s := stats (STATS_INC_USED y h) in st_used s = used_ext bs /\ st_used s <= st_max s <= MEM_SIZE_ALIGNED.
Proof.
  intros Hy Hm H0 Hu F He. pose proof (used_ext_range _ F). cbn. rewrite (small_32 (st_used (stats h) + y)) by lia.
  split; [done|]. destruct (Z.ltb_spec (st_max (stats h)) (st_used (stats h) + y)); lia.
Qed.

Lemma take_block_ok h l n r size :
  linked h (l ++ (n, false) :: r) -> 12 <= size -> size mod 4 = 0 -> size + 12 <= n ->
  let bs := l ++ taken n size ++ r in
  exists h', take_block (ext l) size (mk_mem (ext l + n) (last_at 0 0 l) 0) h = Some h' /\ lfree h' = lfree h /\
    linked (set_lfree (first_free 0 bs) h') bs.
Proof.
  intros L Hs Hs' Hn bs. destruct (linked_parts _ _ _ _ L) as (Hl & Ha & Hb & Hr & He & Fl & Fr & E1 & S1). cbn [fst snd] in *.
  assert (Forall block_ok bs) as Fb by (apply Forall_app; split; [done|]; apply Forall_app; split; [by apply taken_ok|done]).
  assert (ext bs = MEM_SIZE_ALIGNED) as Eb by (unfold bs; rewrite !ext_app, taken_ext; lia).
  assert (used_ext bs = used_ext l + used_ext r + (if size + 36 <=? n then size + 12 else n)) as Ub.
  { unfold bs, taken. rewrite !used_ext_app. destruct (size + 36 <=? n); cbn; lia. }
  destruct (li_used _ _ L) as [U Um]. rewrite used_ext_app in U. cbn in U. fold (used_ext r) in U.
  pose proof (used_ext_range _ Fl). pose proof (used_ext_range _ Fr).
  unfold take_block. cbn [next]. change SIZEOF_STRUCT_MEM with 12. change MIN_SIZE_ALIGNED with 12.
  replace (ext l + n - (ext l + 12)) with (n - 12) by lia. rewrite (small_32 (n - 12)) by lia.
  replace (size + 12 + 12 <=? n - 12) with (size + 36 <=? n) by (destruct (Z.leb_spec (size + 36) n), (Z.leb_spec (size + 12 + 12) (n - 12)); lia).
  unfold taken in *. destruct (Z.leb_spec (size + 36) n) as [Hc|Hc].
  - replace (ext l + 12 + size) with (ext l + (size + 12)) by lia. rewrite (small_32 (ext l + (size + 12))) by lia.
    destruct (Z.eqb_spec (ext l + (size + 12)) MEM_SIZE_ALIGNED); [lia|].
    destruct (cut_ok h l n false [] r (size + 12) (n - (size + 12)) true (fun m => set_used 1 (set_next (ext l + (size + 12)) m)) L)
      as (h' & E & [Rf Rs] & S & En); [lia|lia|cbn; lia|done|].
    change (ext l + n + ext []) with (ext l + n + 0) in E. rewrite Z.add_0_r in E.
    destruct (upd (ext l) _ _) as [h1|]; [|done]. cbn [mbind option_bind] in E |- *. rewrite E. cbn [mbind option_bind].
    eexists. split; [done|]. split; [exact Rf|]. constructor; cbn [ram lfree stats set_lfree]; [exact S|done| |done|done|].
    + cbn [ram STATS_INC_USED set_stats]. by rewrite En, (li_end _ _ L).
    + apply inc_used; rewrite ?Rs; try done; lia.
  - unfold upd. rewrite E1. cbn [mbind option_bind]. rewrite Z.add_simpl_l, (small_32 n) by lia.
    eexists. split; [done|]. split; [done|]. constructor; cbn [ram lfree stats set_lfree STATS_INC_USED set_stats set_ram]; [|done| |done|done|].
    + apply (seg_rebuild (ram h) _ l [(n, false)] [(n, true)] r (li_ok _ _ L) (li_seg _ _ L)).
      * intros i Hi. by rewrite lookup_insert_ne by lia.
      * split; [|done]. by rewrite lookup_insert_eq.
      * cbn [last_at ext foldr fst]. rewrite Z.add_0_r. eapply seg_frame; [done| |exact S1]. intros i Hi. by rewrite lookup_insert_ne by lia.
    + rewrite lookup_insert_ne by lia. apply (li_end _ _ L).
    + apply (inc_used h bs n); try done; lia.
Qed.

(** The pointer to the first free block follows. *)
Lemma adjust_ok h h' (l : list block) n (mid r : list block) :
  linked h (l ++ (n, false) :: r) -> lfree h' = lfree h -> linked (set_lfree (first_free 0 (l ++ mid ++ r)) h') (l ++ mid ++ r) ->
  (if ext l =? lfree h' then cur ← adjust_loop rounds (lfree h') h'; Some (set_lfree cur h') else Some h') =
  Some (set_lfree (first_free 0 (l ++ mid ++ r)) h').
Proof.
  intros L Ef L'. destruct (linked_parts _ _ _ _ L) as (Hl & _ & _ & _ & _ & Fl & _). rewrite Ef, (li_free _ _ L).
  rewrite (first_free_app 0 l (mid ++ r)), first_free_app. case_bool_decide as B; cbn [first_free].
  - rewrite Z.add_0_l, Z.eqb_refl. pose proof (li_ok _ _ L') as F. pose proof (li_ext _ _ L') as E. pose proof (ext_length _ F) as Hlen.
    rewrite E, MEM_end, length_app in Hlen. apply Forall_app in F as [_ F]. rewrite ext_app in E.
    pose proof (li_seg _ _ L') as S. apply seg_app in S as [_ S].
    erewrite (adjust_loop_ok rounds h'); [done|rewrite Z.add_0_l in S; exact S|exact E|exact F|exact (li_end _ _ L')|]. unfold rounds. lia.
  - pose proof (first_free_lt 0 l Fl B) as Hlt. destruct (Z.eqb_spec (ext l) (first_free 0 l)); [lia|]. f_equal.
    destruct h' as [rm lf st]. unfold set_lfree. cbn in *. f_equal. rewrite Ef, (li_free _ _ L), first_free_app. by rewrite bool_decide_false.
Qed.

Lemma spaced_taken l n r size : spaced (l ++ (n, false) :: r) -> spaced (l ++ taken n size ++ r).
Proof.
  intros S. apply spaced_app in S as [Sl [H Sr]]. unfold taken. destruct (size + 36 <=? n); cbn [app]; apply spaced_app_used; try done.
  split; [by destruct r as [|[]]|done].
Qed.

Lemma rep_err h bs : rep h bs -> rep (MEM_STATS_INC_err h) bs.
Proof. intros [[S E En F Lf U] Sp]. split; [by constructor|done]. Qed.

Lemma search_loop_ok fuel h (l r : list block) size :
  rep h (l ++ r) -> place size l = None -> 12 <= size <= MEM_SIZE_ALIGNED -> size mod 4 = 0 -> (length r <= fuel)%nat ->
  exists h', search_loop fuel (ext l) size h = Some ((fun x : Z * list block => ext l + x.1 + 12) <$> place size r, h') /\
    rep h' (l ++ default r (snd <$> place size r)).
Proof.
  revert h l r. induction fuel as [|fuel IH]; intros h l r [L Sp] Hp Hs Hs' Hf.
  { destruct r; [|cbn in Hf; lia]. pose proof (li_ext _ _ L) as E. rewrite app_nil_r in E. cbn [search_loop]. rewrite (small_32 (MEM_SIZE_ALIGNED - size)) by lia.
    destruct (Z.ltb_spec (ext l) (MEM_SIZE_ALIGNED - size)); [lia|]. eexists. split; [done|]. by apply rep_err. }
  pose proof (li_ext _ _ L) as E. rewrite ext_app in E. pose proof (li_ok _ _ L) as F. apply Forall_app in F as [Fl Fr].
  cbn [search_loop]. rewrite (small_32 (MEM_SIZE_ALIGNED - size)) by lia.
  destruct (Z.ltb_spec (ext l) (MEM_SIZE_ALIGNED - size)) as [Hg|Hg]; cbn [negb].
  2:{ rewrite (place_small size r Fr) by lia. eexists. split; [done|]. by apply rep_err. }
  destruct r as [|[n u] r]; [cbn in E; lia|].
  destruct (linked_parts _ _ _ _ L) as (Hl & Ha & [Hn Hn'] & Hr & He & _ & _ & E1 & _). cbn [fst snd] in *. rewrite E1. cbn [mbind option_bind used next].
  change SIZEOF_STRUCT_MEM with 12. replace (ext l + n - (ext l + 12)) with (n - 12) by lia. rewrite (small_32 (n - 12)) by lia.
  replace (flag u =? 0) with (negb u) by (by destruct u). replace (size <=? n - 12) with (size + 12 <=? n) by lia.
  cbn [place]. destruct (negb u && (size + 12 <=? n)) eqn:Hfit.
  - apply andb_prop in Hfit as [Hu Hfit]. apply negb_true_iff in Hu. subst u. apply Z.leb_le in Hfit.
    destruct (take_block_ok h l n r size L ltac:(lia) Hs' Hfit) as (h' & E2 & Ef & L'). cbn [flag] in *. rewrite E2. cbn [mbind option_bind].
    rewrite (adjust_ok h h' l n (taken n size) r L Ef L'). cbn [mbind option_bind]. change MEM_ALIGNMENT with 4.
    rewrite Z.add_mod, Ha by lia. change ((0 + 12 mod 4) mod 4 =? 0) with true.
    destruct (Z.leb_spec (ext l + 12 + size) MEM_SIZE_ALIGNED); [|lia]. cbn [negb orb]. eexists. split.
    + cbn [fmap option_fmap option_map fst]. do 3 f_equal. lia.
    + cbn [fmap option_fmap option_map snd default]. pose proof (spaced_taken l n r size Sp) as Sp'. unfold taken in L', Sp' |- *.
      destruct (size + 36 <=? n); by split.
  - assert (place size (l ++ [(n, u)]) = None) as Hp'.
    { rewrite (place_app size l [(n, u)] Hp). cbn [place]. by rewrite Hfit. }
    rewrite cons_middle, (assoc_L (++)) in L, Sp. destruct (IH h (l ++ [(n, u)]) r (conj L Sp) Hp' Hs Hs') as (h' & E3 & R'); [cbn in Hf; lia|].
    rewrite ext_app in E3. cbn [ext foldr fst] in E3. rewrite Z.add_0_r in E3. rewrite E3. exists h'.
    destruct (place size r) as [[p r']|]; cbn [fmap option_fmap option_map mbind option_bind fst snd default] in *.
    + split; [do 3 f_equal; lia|]. by rewrite <- (assoc_L (++)) in R'.
    + split; [done|]. by rewrite <- (assoc_L (++)) in R'.
Qed.

Lemma first_free_split (bs : list block) :
  exists l r, bs = l ++ r /\ Forall (fun b : block => b.2 = true) l /\ forall at_, first_free at_ bs = at_ + ext l.
Proof.
  induction bs as [|[n u] bs (l & r & E & F & H)].
  - exists [], []. split_and!; [done|done|]. intros. cbn. lia.
  - destruct u.
    + exists ((n, true) :: l), r. split_and!; [by rewrite E|by constructor|]. intros at_. cbn. fold (ext l). rewrite H. lia.
    + exists [], ((n, false) :: bs). split_and!; [done|done|]. intros. cbn. lia.
Qed.

(** The specification of a request for [x] bytes. *)
Definition allocate (x : Z) (bs : list block) : option (Z * list block) :=
  if (x =? 0) || (MEM_SIZE_ALIGNED <? x) then None else place (Z.max 12 ((x + 3) / 4 * 4)) bs.

Lemma mem_malloc_ok h bs x :
  rep h bs -> 0 <= x < 2 ^ 32 ->
  exists h', mem_malloc x h = Some ((fun r : Z * list block => r.1 + SIZEOF_STRUCT_MEM) <$> allocate x bs, h') /\
    rep h' (default bs (snd <$> allocate x bs)).
Proof.
  intros R Hx. unfold mem_malloc, allocate. destruct (Z.eqb_spec x 0) as [->|H0]; [by exists h|]. cbn [orb].
  destruct (Z.ltb_spec MEM_SIZE_ALIGNED x) as [Hb|Hb].
  { destruct (data_size_large x ltac:(lia)).
    - destruct (Z.ltb_spec (data_size x) x); [|lia]. rewrite orb_true_r. by exists h.
    - destruct (Z.ltb_spec MEM_SIZE_ALIGNED (data_size x)); [|lia]. by exists h. }
  assert (x <= data_size x <= MEM_SIZE_ALIGNED) as Hd.
  { rewrite MEM_end in *. unfold data_size. rewrite align_round by lia. change MIN_SIZE_ALIGNED with 12.
    pose proof (Z.div_mod (x + 3) 4 ltac:(lia)). pose proof (Z.mod_pos_bound (x + 3) 4 ltac:(lia)).
    destruct (Z.ltb_spec ((x + 3) / 4 * 4) 12); lia. }
  destruct (data_size_spec x ltac:(lia) Hd) as (Ed & Hm & H12). rewrite <- Ed.
  destruct (Z.ltb_spec MEM_SIZE_ALIGNED (data_size x)); [lia|]. destruct (Z.ltb_spec (data_size x) x); [lia|]. cbn [orb].
  destruct (first_free_split bs) as (l & r & -> & Fu & Hff). pose proof R as [L _]. rewrite (li_free _ _ L), Hff, Z.add_0_l.
  pose proof (ext_length _ (li_ok _ _ L)) as Hlen. rewrite (li_ext _ _ L), MEM_end, length_app in Hlen.
  destruct (search_loop_ok rounds h l r (data_size x) R (place_used _ _ Fu) ltac:(lia) Hm ltac:(unfold rounds; lia)) as (h' & -> & R').
  exists h'. rewrite (place_app _ l r (place_used _ _ Fu)). destruct (place (data_size x) r) as [[p r']|]; split; done.
Qed.

(** ** Shrinking *)

Lemma cut_lfree ptr ptr2 q f h : cut ptr ptr2 q (set_lfree f h) = set_lfree f <$> cut ptr ptr2 q h.
Proof.
  unfold cut, upd, link_back. cbn [ram set_ram set_lfree]. destruct (<[_ := _]> (ram h) !! ptr); cbn [mbind option_bind]; [|done].
  destruct (negb (q =? MEM_SIZE_ALIGNED)); [|done]. unfold upd. cbn [ram set_ram set_lfree].
  by destruct (<[_ := _]> _ !! q).
Qed.

(** The used block in the middle keeps [a] bytes; the rest and the free block
    behind it, if there is one, are a free block. *)
Lemma trim_cut_ok h (l : list block) n (mid r : list block) a :
  let b := n + ext mid - a in
  let bs := l ++ (a, true) :: (b, false) :: r in
  linked h (l ++ (n, true) :: mid ++ r) -> used_ext mid = 0 -> 24 <= a <= n -> a mod 4 = 0 -> 24 <= b ->
  exists h', cut (ext l) (ext l + a) (ext l + n + ext mid) (set_lfree (first_free 0 bs) h) = Some h' /\
    linked (MEM_STATS_DEC_USED (u32 (n - a)) h') bs.
Proof.
  intros b bs L Hm Ha Ha' Hb. rewrite cut_lfree.
  destruct (cut_ok h l n true mid r a b true (set_next (ext l + a)) L) as (h' & E & [Rf Rs] & S & En); [lia|lia|unfold b; lia|done|].
  unfold cut. rewrite E. eexists. split; [done|].
  destruct (linked_parts _ _ _ _ L) as (Hl & _ & [Hn Hn'] & _ & He & Fl & Fr & _). cbn [fst snd] in *.
  rewrite ext_app in He. apply Forall_app in Fr as [Fm Fr].
  destruct (li_used _ _ L) as [U Um]. rewrite used_ext_app in U. cbn in U. fold (used_ext (mid ++ r)) in U. rewrite used_ext_app, Hm in U.
  pose proof (used_ext_range _ Fl). pose proof (used_ext_range _ Fr). pose proof (ext_nonneg _ Fm). pose proof (ext_nonneg _ Fr).
  constructor; cbn [ram lfree stats set_lfree MEM_STATS_DEC_USED set_stats st_used st_max]; [exact S| | | |done|].
  - unfold bs. rewrite ext_app. cbn. fold (ext r). unfold b. lia.
  - by rewrite En, (li_end _ _ L).
  - unfold bs. apply Forall_app. split; [done|]. constructor; [by split; cbn; [lia|]|]. constructor; [|done]. split; cbn; [lia|].
    unfold b. rewrite Zminus_mod, Z.add_mod, Hn', (ext_aligned _ Fm), Ha' by lia. done.
  - rewrite Rs. unfold bs. rewrite used_ext_app. cbn. fold (used_ext r). rewrite (small_32 (n - a)) by lia. rewrite small_32 by lia. lia.
Qed.

Lemma shrink_at (l : list block) n u (r : list block) size :
  Forall block_ok l -> shrink (ext l) size (l ++ (n, u) :: r) = l ++ shrink 0 size ((n, u) :: r).
Proof.
  induction 1 as [|[k v] l [Hk _] F IH]; [done|]. cbn in Hk. pose proof (ext_nonneg _ F).
  change (ext ((k, v) :: l)) with (k + ext l). cbn [app]. cbn [shrink] in *.
  destruct (Z.eqb_spec (k + ext l) 0); [lia|]. rewrite Z.add_simpl_l. by rewrite IH.
Qed.

(** How the pointer to the first free block is mended. *)
Lemma lfree_lowered h (l : list block) n n2 (r r' : list block) a b :
  linked h (l ++ (n, true) :: (n2, true) :: r) -> 0 <= a <= n ->
  (if ext l + a <? lfree h then set_lfree (ext l + a) h else h) = set_lfree (first_free 0 (l ++ (a, true) :: (b, false) :: r')) h.
Proof.
  intros L Ha. destruct (linked_parts _ _ _ _ L) as (_ & _ & _ & _ & _ & Fl & Fr & _). inversion Fr as [|? ? [Hn2 _] Fr2]; subst. cbn in Hn2.
  pose proof (li_free _ _ L) as Hff. rewrite !first_free_app in Hff |- *. case_bool_decide as B; cbn [first_free] in *.
  - pose proof (first_free_range (0 + ext l + n + n2) r Fr2). destruct (Z.ltb_spec (ext l + a) (lfree h)); [f_equal; lia|lia].
  - pose proof (first_free_lt 0 l Fl B). destruct (Z.ltb_spec (ext l + a) (lfree h)); [lia|]. destruct h. unfold set_lfree. by f_equal.
Qed.

Lemma lfree_moved h (l : list block) n n2 (r r' : list block) a b :
  linked h (l ++ (n, true) :: (n2, false) :: r) ->
  (if lfree h =? ext l + n then set_lfree (ext l + a) h else h) = set_lfree (first_free 0 (l ++ (a, true) :: (b, false) :: r')) h.
Proof.
  intros L. destruct (linked_parts _ _ _ _ L) as (_ & _ & [Hn _] & _ & _ & Fl & _). cbn in Hn.
  pose proof (li_free _ _ L) as Hff. rewrite !first_free_app in Hff |- *. case_bool_decide as B; cbn [first_free] in *.
  - destruct (Z.eqb_spec (lfree h) (ext l + n)); [f_equal; lia|lia].
  - pose proof (first_free_lt 0 l Fl B). destruct (Z.eqb_spec (lfree h) (ext l + n)); [lia|]. destruct h. unfold set_lfree. by f_equal.
Qed.

(** The size the allocator keeps for [x] bytes. *)
Definition kept (x : Z) : Z := Z.max 12 ((x + 3) / 4 * 4).

Lemma kept_spec x : 0 <= x <= MEM_SIZE_ALIGNED -> data_size x = kept x /\ x <= kept x <= MEM_SIZE_ALIGNED /\ 12 <= kept x /\ kept x mod 4 = 0.
Proof.
  rewrite MEM_end. intros Hx. pose proof (Z.div_mod (x + 3) 4 ltac:(lia)). pose proof (Z.mod_pos_bound (x + 3) 4 ltac:(lia)).
  unfold data_size, kept. rewrite align_round by lia. change MIN_SIZE_ALIGNED with 12.
  split_and!; try lia; [destruct (Z.ltb_spec ((x + 3) / 4 * 4) 12); lia|].
  destruct (Z.max_spec 12 ((x + 3) / 4 * 4)) as [[_ ->]|[_ ->]]; [by rewrite Z.mod_mul|done].
Qed.

(** The last block of the heap cannot be cut: an assertion forbids it. *)
Definition trim_hangs (p n x : Z) : bool := (p + n =? MEM_SIZE_ALIGNED) && (kept x + 36 <=? n).

(** The list when nothing is cut. *)
Lemma shrink_same n r s : 12 <= s -> s + 12 = n \/ n < s + 36 /\ (forall n2 r', r <> (n2, false) :: r') -> shrink 0 s ((n, true) :: r) = (n, true) :: r.
Proof.
  intros Hs C. cbn [shrink Z.eqb]. destruct C as [C|[C D]].
  - destruct (Z.leb_spec (s + 36) n); [lia|]. destruct r as [|[n2 [|]] r]; [done|done|]. do 2 f_equal; [f_equal; lia|]. f_equal. f_equal. lia.
  - destruct (Z.leb_spec (s + 36) n); [lia|]. destruct r as [|[n2 [|]] r]; [done|done|]. by destruct (D n2 r).
Qed.

Lemma mem_trim_ok h bs p n x :
  rep h bs -> at_index bs p n true -> 0 <= x -> kept x + 12 <= n ->
  if trim_hangs p n x then mem_trim (p + SIZEOF_STRUCT_MEM) x h = None
  else exists h', mem_trim (p + SIZEOF_STRUCT_MEM) x h = Some (Some (p + SIZEOF_STRUCT_MEM), h') /\ rep h' (shrink p (kept x) bs).
Proof.
  intros [L Sp] (l & r & -> & <-) Hx Hk. destruct (linked_parts _ _ _ _ L) as (Hl & Ha & [Hn Hn'] & Hr & He & Fl & Fr & E1 & S1). cbn [fst snd] in *.
  assert (x <= kept x) as Hxk.
  { unfold kept. pose proof (Z.div_mod (x + 3) 4 ltac:(lia)). pose proof (Z.mod_pos_bound (x + 3) 4 ltac:(lia)). lia. }
  destruct (kept_spec x ltac:(lia)) as (Ed & Hd & H12 & H4). unfold trim_hangs. set (s := kept x) in *.
  assert ((s + 12) mod 4 = 0) as H4' by (by rewrite Z.add_mod, H4 by lia).
  change SIZEOF_STRUCT_MEM with 12. unfold mem_trim. rewrite Ed. change SIZEOF_STRUCT_MEM with 12. change MIN_SIZE_ALIGNED with 12.
  destruct (Z.ltb_spec MEM_SIZE_ALIGNED s); [lia|]. destruct (Z.ltb_spec s x); [lia|]. cbn [orb].
  destruct (Z.leb_spec 0 (ext l + 12)); [|lia]. destruct (Z.ltb_spec (ext l + 12) MEM_SIZE_ALIGNED); [|lia]. cbn [negb andb].
  rewrite Z.add_simpl_r, E1. cbn [mbind option_bind next]. rewrite Z.add_simpl_l, (small_32 n), (small_32 (n - 12)) by lia.
  destruct (Z.leb_spec s (n - 12)); [|lia]. cbn [negb]. rewrite (small_32 (ext l + 12 + s)) by lia.
  replace (ext l + 12 + s) with (ext l + (s + 12)) by lia. rewrite shrink_at by done.
  replace (s + 12 + 12 <=? n - 12) with (s + 36 <=? n) by lia.
  destruct (Z.eqb_spec s (n - 12)) as [Es|Es].
  { destruct (Z.leb_spec (s + 36) n); [lia|]. rewrite andb_false_r. exists h. split; [done|]. rewrite shrink_same by (try done; lia). by split. }
  assert (n < s + 36 -> (forall n2 r', r <> (n2, false) :: r') -> rep h (l ++ shrink 0 s ((n, true) :: r))) as Same.
  { intros Hc Hd'. rewrite shrink_same by (try done; right; done). by split. }
  rewrite (small_32 (n - 12 - s)) by lia. destruct r as [|[n2 u2] r].
  { cbn in He. rewrite Z.add_0_r in He. rewrite He, Z.eqb_refl, (li_end _ _ L). cbn [mbind option_bind used Z.eqb andb].
    destruct (Z.leb_spec (s + 36) n); [done|]. exists h. split; [done|]. by apply Same. }
  inversion Fr as [|? ? [Hn2 _] Fr2]; subst. cbn [ext foldr fst] in He, Hn2. fold (ext r) in He. pose proof (ext_nonneg _ Fr2).
  destruct (Z.eqb_spec (ext l + n) MEM_SIZE_ALIGNED); [lia|]. cbn [andb]. destruct S1 as [E2 S2]. rewrite E2. cbn [mbind option_bind used next].
  pose proof (proj2 (spaced_app _ _ Sp)) as [_ Sr]. apply spaced_app in Sp as [Sl _].
  destruct u2; cbn [flag Z.eqb].
  - destruct (Z.leb_spec (s + 36) n) as [Hc|Hc]; [|exists h; split; [done|by apply Same]].
    destruct (trim_cut_ok h l n [] ((n2, true) :: r) (s + 12) L eq_refl ltac:(lia) H4' ltac:(cbn; lia)) as (h' & E & L').
    cbn [ext foldr] in E, L'. rewrite !Z.add_0_r in E, L'. rewrite <- (lfree_lowered h l n n2 r _ _ _ L) in E by lia.
    rewrite E. cbn [mbind option_bind]. eexists. split; [done|]. cbn [shrink Z.eqb]. rewrite (proj2 (Z.leb_le _ _) Hc).
    replace (n - 12 - s) with (n - (s + 12)) in * by lia. rewrite (small_32 (n - (s + 12))) in L' by lia. split; [exact L'|].
    apply spaced_app_used; [done|]. split; [done|]. by split.
  - destruct (trim_cut_ok h l n [(n2, false)] r (s + 12) L eq_refl ltac:(lia) H4' ltac:(cbn; lia)) as (h' & E & L').
    cbn [ext foldr fst] in E, L'. rewrite !Z.add_0_r in E, L'. rewrite <- (lfree_moved h l n n2 r _ _ _ L) in E.
    rewrite E. cbn [mbind option_bind]. eexists. split; [done|]. cbn [shrink Z.eqb].
    replace (n - 12 - s) with (n - (s + 12)) in * by lia. rewrite (small_32 (n - (s + 12))) in L' by lia.
    replace (n2 + (n - (s + 12))) with (n + n2 - (s + 12)) by lia. split; [exact L'|].
    apply spaced_app_used; [done|]. destruct Sr as [Hs Sr]. split; [done|]. by split.
Qed.

(** ** The blocks in use *)

Fixpoint in_use (at_ : Z) (bs : list block) : list (Z * Z) :=
  match bs with [] => [] | (n, u) :: bs' => (if u then [(at_, n)] else []) ++ in_use (at_ + n) bs' end.

Fixpoint starts (at_ : Z) (bs : list block) : list Z :=
  match bs with [] => [] | (n, _) :: bs' => at_ :: starts (at_ + n) bs' end.

Lemma in_use_app at_ l r : in_use at_ (l ++ r) = in_use at_ l ++ in_use (at_ + ext l) r.
Proof.
  revert at_. induction l as [|[n u] l IH]; intros at_; cbn [app in_use ext foldr fst]; [by rewrite Z.add_0_r|].
  fold (ext l). by rewrite IH, <- (assoc_L (++)), Z.add_assoc.
Qed.

Lemma in_use_at bs p n at_ : (p, n) ∈ in_use at_ bs -> at_index bs (p - at_) n true.
Proof.
  revert at_. induction bs as [|[k u] bs IH]; intros at_ H; [by apply elem_of_nil in H|]. cbn [in_use] in H.
  apply elem_of_app in H as [H|H].
  - destruct u; [|by apply elem_of_nil in H]. apply list_elem_of_singleton in H. injection H as -> ->. exists [], bs. cbn. split; [done|lia].
  - destruct (IH _ H) as (l & r & -> & E). exists ((k, u) :: l), r. split; [done|]. cbn. fold (ext l). lia.
Qed.

Lemma in_use_range bs p n at_ : Forall block_ok bs -> (p, n) ∈ in_use at_ bs -> at_ <= p /\ p + n <= at_ + ext bs /\ 24 <= n /\ (at_ mod 4 = 0 -> p mod 4 = 0).
Proof.
  intros F H. destruct (in_use_at _ _ _ _ H) as (l & r & -> & E). apply Forall_app in F as [Fl Fr]. inversion Fr as [|? ? [Hn _] Fr2]; subst.
  rewrite ext_app. cbn in *. fold (ext r). pose proof (ext_nonneg _ Fl). pose proof (ext_nonneg _ Fr2). pose proof (ext_aligned _ Fl) as A.
  split_and!; try lia. intros A'. replace p with (at_ + ext l) by lia. by rewrite Z.add_mod, A, A' by lia.
Qed.

(** A struct does not lie in a block that is in use. *)
Lemma starts_outside bs at_ i p n :
  Forall block_ok bs -> i ∈ starts at_ bs -> (p, n) ∈ in_use at_ bs -> i <= p \/ p + n <= i.
Proof.
  intros F. revert at_. induction F as [|[k u] bs [Hk _] F IH]; intros at_ Hi Hp; [by apply elem_of_nil in Hi|]. cbn in Hk.
  cbn [starts in_use] in *. assert (forall i, i ∈ starts (at_ + k) bs -> at_ + k <= i) as G.
  { clear -F. revert k. induction F as [|[m v] bs [Hm _] F IH]; intros k i Hi; [by apply elem_of_nil in Hi|]. cbn in *.
    apply elem_of_cons in Hi as [->|Hi]; [lia|]. specialize (IH (k + m) i). rewrite Z.add_assoc in IH. specialize (IH Hi). lia. }
  apply elem_of_app in Hp as [Hp|Hp].
  - destruct u; [|by apply elem_of_nil in Hp]. apply list_elem_of_singleton in Hp. injection Hp as -> ->.
    apply elem_of_cons in Hi as [->|Hi]; [by left; lia|]. right. by apply G.
  - apply elem_of_cons in Hi as [->|Hi]; [|by eapply IH]. left. pose proof (in_use_range _ _ _ _ F Hp). lia.
Qed.

Lemma in_use_start bs at_ p n : (p, n) ∈ in_use at_ bs -> p ∈ starts at_ bs.
Proof.
  revert at_. induction bs as [|[k u] bs IH]; intros at_ H; [by apply elem_of_nil in H|]. cbn [in_use starts] in *.
  apply elem_of_app in H as [H|H]; [|right; by apply IH].
  destruct u; [|by apply elem_of_nil in H]. apply list_elem_of_singleton in H. injection H as -> ->. left.
Qed.

(** So blocks in use do not overlap. *)
Lemma in_use_disjoint bs p n q m :
  Forall block_ok bs -> (p, n) ∈ in_use 0 bs -> (q, m) ∈ in_use 0 bs -> p = q /\ n = m \/ p + n <= q \/ q + m <= p.
Proof.
  intros F Hp Hq. destruct (starts_outside bs 0 p q m F (in_use_start _ _ _ _ Hp) Hq) as [H1|H1]; [|by right; right].
  destruct (starts_outside bs 0 q p n F (in_use_start _ _ _ _ Hq) Hp) as [H2|H2]; [|by right; left]. left. assert (p = q) as -> by lia.
  split; [done|]. clear H1 H2. revert Hp Hq. generalize 0. induction F as [|[k u] bs [Hk _] F IH]; intros at_ Hp Hq; [by apply elem_of_nil in Hp|].
  cbn [in_use] in *. cbn in Hk. apply elem_of_app in Hp as [Hp|Hp], Hq as [Hq|Hq]; [|exfalso|exfalso|by eapply IH].
  - destruct u; [|by apply elem_of_nil in Hp]. apply list_elem_of_singleton in Hp, Hq. congruence.
  - destruct u; [|by apply elem_of_nil in Hp]. apply list_elem_of_singleton in Hp. pose proof (in_use_range _ _ _ _ F Hq). simplify_eq. lia.
  - destruct u; [|by apply elem_of_nil in Hq]. apply list_elem_of_singleton in Hq. pose proof (in_use_range _ _ _ _ F Hp). simplify_eq. lia.
Qed.

Lemma in_use_join bs at_ : in_use at_ (join bs) = in_use at_ bs.
Proof.
  revert at_. induction bs as [|[n u] bs IH]; intros at_; [done|]. destruct u; cbn [join in_use]; [by rewrite IH|].
  rewrite <- IH. destruct (join bs) as [|[n2 u2] r]; [done|]. destruct u2; cbn [in_use app]; [done|]. by rewrite Z.add_assoc.
Qed.

Lemma in_use_release l n r at_ :
  Forall block_ok l -> in_use at_ (release (ext l) (l ++ (n, true) :: r)) = in_use at_ l ++ in_use (at_ + ext l + n) r.
Proof. intros F. unfold release. rewrite in_use_join, mark_at by done. by rewrite in_use_app. Qed.

Lemma place_split size bs p bs' :
  place size bs = Some (p, bs') -> exists l n r, bs = l ++ (n, false) :: r /\ p = ext l /\ size + 12 <= n /\ bs' = l ++ taken n size ++ r.
Proof.
  revert p bs'. induction bs as [|[n u] bs IH]; intros p bs'; cbn [place]; [done|]. destruct (negb u && (size + 12 <=? n)) eqn:E.
  - apply andb_prop in E as [Hu E]. apply negb_true_iff in Hu. subst u. apply Z.leb_le in E. intros [= <- <-]. exists [], n, bs.
    split_and!; [done|done|done|]. unfold taken. by destruct (size + 36 <=? n).
  - destruct (place size bs) as [[q bs'']|]; [|done]. cbn [mbind option_bind]. intros [= <- <-].
    destruct (IH q bs'' eq_refl) as (l & m & r & -> & -> & Hs & ->). exists ((n, u) :: l), m, r. done.
Qed.

Lemma in_use_taken n size at_ : exists k, in_use at_ (taken n size) = [(at_, k)] /\ (size + 12 <= n -> size + 12 <= k).
Proof. unfold taken. destruct (size + 36 <=? n); cbn; eexists; split; try done; lia. Qed.

Lemma shrink_split (l : list block) n (r : list block) size :
  Forall block_ok l -> size + 12 <= n ->
  exists k (mid : list block), shrink (ext l) size (l ++ (n, true) :: r) = l ++ (k, true) :: mid /\ size + 12 <= k /\
    in_use (ext l + k) mid = in_use (ext l + n) r.
Proof.
  intros F Hs. rewrite shrink_at by done. cbn [shrink Z.eqb]. destruct r as [|[n2 [|]] r].
  - destruct (size + 36 <=? n); eexists _, _; split_and!; done || lia.
  - destruct (size + 36 <=? n); eexists _, _; split_and!; try (done || lia).
    cbn [in_use app]. by replace (ext l + (size + 12) + (n - (size + 12))) with (ext l + n) by lia.
  - eexists _, _. split_and!; try (done || lia). cbn [in_use app]. f_equal. lia.
Qed.

Lemma in_use_split (bs : list block) p n : (p, n) ∈ in_use 0 bs -> exists l r : list block, bs = l ++ (n, true) :: r /\ ext l = p.
Proof. intros H. destruct (in_use_at _ _ _ _ H) as (l & r & E & Ep). exists l, r. split; [done|lia]. Qed.

Lemma in_use_middle l n r : in_use 0 (l ++ (n, true) :: r) = in_use 0 l ++ (ext l, n) :: in_use (ext l + n) r.
Proof. rewrite in_use_app. cbn [in_use app]. by rewrite Z.add_0_l. Qed.

(** The neighbours of a block have other addresses. *)
Lemma in_use_other l n r p m :
  Forall block_ok l -> Forall block_ok r -> 24 <= n -> (p, m) ∈ in_use 0 l ++ in_use (ext l + n) r -> p <> ext l.
Proof.
  intros Fl Fr Hn [H|H]%elem_of_app.
  - pose proof (in_use_range _ _ _ _ Fl H). lia.
  - pose proof (in_use_range _ _ _ _ Fr H). lia.
Qed.

(** ** Clients *)

(** What the rest of lwIP does with the heap: it asks for memory, gives back or
    shrinks what it was given, and writes into it.  [live] has the sizes that were
    asked for.  A write may change anything but the structs that do not overlap
    the memory of a client. *)
Inductive hstep : heap * gmap Z Z -> heap * gmap Z Z -> Prop :=
  | hs_malloc x p h h' live : 0 <= x < 2 ^ 32 -> mem_malloc x h = Some (Some p, h') -> hstep (h, live) (h', <[p := x]> live)
  | hs_refused x h h' live : 0 <= x < 2 ^ 32 -> mem_malloc x h = Some (None, h') -> hstep (h, live) (h', live)
  | hs_free p x h h' live : live !! p = Some x -> mem_free (Some p) h = Some h' -> hstep (h, live) (h', delete p live)
  | hs_trim p x y h h' live :
      live !! p = Some x -> 0 <= y <= x -> mem_trim p y h = Some (Some p, h') -> hstep (h, live) (h', <[p := y]> live)
  | hs_write h m live :
      (forall i, (forall p x, live !! p = Some x -> i + SIZEOF_STRUCT_MEM <= p \/ p + x <= i) -> m !! i = ram h !! i) ->
      hstep (h, live) (set_ram m h, live).

(** The blocks in use are those of the clients. *)
Record serves (h : heap) (live : gmap Z Z) (bs : list block) : Prop := {
  se_rep : rep h bs;
  se_live : forall p x, live !! p = Some x -> 0 <= x /\ exists n, (p - 12, n) ∈ in_use 0 bs /\ kept x + 12 <= n;
  se_used : forall p n, (p, n) ∈ in_use 0 bs -> is_Some (live !! (p + 12)) }.

Lemma kept_le x : 0 <= x -> x <= kept x.
Proof. intros. unfold kept. pose proof (Z.div_mod (x + 3) 4 ltac:(lia)). pose proof (Z.mod_pos_bound (x + 3) 4 ltac:(lia)). lia. Qed.

Lemma kept_mono x y : x <= y -> kept x <= kept y.
Proof. intros. unfold kept. pose proof (Z.div_le_mono (x + 3) (y + 3) 4 ltac:(lia) ltac:(lia)). lia. Qed.

(** The list when the block at [ext l] has become one of [k] bytes, in use for a
    request of [x]. *)
Lemma serves_set h h' live (l : list block) n (r : list block) k (mid : list block) x u :
  serves h live (l ++ (n, u) :: r) -> rep h' (l ++ (k, true) :: mid) -> in_use (ext l + k) mid = in_use (ext l + n) r ->
  0 <= x -> kept x + 12 <= k -> serves h' (<[ext l + 12 := x]> live) (l ++ (k, true) :: mid).
Proof.
  intros [[L _] Sl Su] R E Hx Hk. destruct (linked_parts _ _ _ _ L) as (_ & _ & [Hn _] & _ & _ & Fl & Fr & _). cbn in Hn.
  assert (forall q m, (q, m) ∈ in_use 0 l ++ in_use (ext l + n) r -> (q, m) ∈ in_use 0 (l ++ (n, u) :: r)) as Old.
  { intros q m. rewrite in_use_app, Z.add_0_l. cbn [in_use]. rewrite !elem_of_app. tauto. }
  assert (forall q m, (q, m) ∈ in_use 0 (l ++ (n, u) :: r) -> q <> ext l -> (q, m) ∈ in_use 0 l ++ in_use (ext l + n) r) as Old'.
  { intros q m. rewrite in_use_app, Z.add_0_l. cbn [in_use]. rewrite !elem_of_app. intros [H|[H|H]] Hq; [tauto| |tauto].
    destruct u; [|by apply elem_of_nil in H]. apply list_elem_of_singleton in H. congruence. }
  constructor; [done| |].
  - intros p y [[<- <-]|[Hp Hy]]%lookup_insert_Some.
    + split; [done|]. exists k. split; [|done]. rewrite in_use_middle, elem_of_app, elem_of_cons. right. left. f_equal. lia.
    + destruct (Sl p y Hy) as (Hy0 & m & Hm & Hk'). split; [done|]. exists m. split; [|done].
      apply Old' in Hm; [|lia]. rewrite in_use_middle, E, elem_of_app, elem_of_cons. apply elem_of_app in Hm. tauto.
  - intros p m. rewrite in_use_middle, E, elem_of_app, elem_of_cons. intros H.
    destruct (decide (p = ext l)) as [->|Hn']; [by rewrite lookup_insert_eq|]. rewrite lookup_insert_ne by lia. apply (Su p m), Old, elem_of_app.
    destruct H as [H|[H|H]]; [tauto| |tauto]. congruence.
Qed.

Lemma serves_free h h' live (l : list block) n (r : list block) :
  serves h live (l ++ (n, true) :: r) -> rep h' (release (ext l) (l ++ (n, true) :: r)) ->
  serves h' (delete (ext l + 12) live) (release (ext l) (l ++ (n, true) :: r)).
Proof.
  intros [[L _] Sl Su] R. destruct (linked_parts _ _ _ _ L) as (_ & _ & [Hn _] & _ & _ & Fl & Fr & _). cbn in Hn.
  constructor; [done| |]; rewrite (in_use_release l n r 0 Fl), Z.add_0_l.
  - intros p x [Hp Hx]%lookup_delete_Some. destruct (Sl p x Hx) as (H0 & m & Hm & Hk). split; [done|]. exists m. split; [|done].
    rewrite in_use_middle, elem_of_app, elem_of_cons in Hm. rewrite elem_of_app. destruct Hm as [H|[H|H]]; [tauto| |tauto].
    injection H as H _. lia.
  - intros p m H. pose proof (in_use_other l n r p m Fl Fr ltac:(lia) H) as Hne. rewrite lookup_delete_ne by lia.
    apply (Su p m). rewrite in_use_middle, elem_of_app, elem_of_cons. apply elem_of_app in H. tauto.
Qed.

Lemma seg_starts m m' pv at_ bs : (forall i, i ∈ starts at_ bs -> m' !! i = m !! i) -> seg m pv at_ bs -> seg m' pv at_ bs.
Proof.
  revert pv at_. induction bs as [|[n u] bs IH]; intros pv at_ H; [done|]. cbn [seg starts] in *. intros [E S].
  split; [rewrite H by left; done|]. apply IH; [|done]. intros i Hi. apply H. by right.
Qed.

Lemma starts_range bs at_ i : Forall block_ok bs -> i ∈ starts at_ bs -> at_ <= i.
Proof.
  intros F. revert at_. induction F as [|[n u] bs [Hn _] F IH]; intros at_ H; [by apply elem_of_nil in H|]. cbn in *.
  apply elem_of_cons in H as [->|H]; [lia|]. specialize (IH _ H). lia.
Qed.

Lemma serves_write h m live bs :
  serves h live bs ->
  (forall i, (forall p x, live !! p = Some x -> i + SIZEOF_STRUCT_MEM <= p \/ p + x <= i) -> m !! i = ram h !! i) ->
  serves (set_ram m h) live bs.
Proof.
  intros [[L Sp] Sl Su] Hm. change SIZEOF_STRUCT_MEM with 12 in Hm. pose proof (li_ok _ _ L) as F.
  assert (forall i, i ∈ starts 0 bs -> m !! i = ram h !! i) as Hs.
  { intros i Hi. apply Hm. intros p x Hx. destruct (Sl p x Hx) as (H0 & n & Hn & Hk). pose proof (kept_le x H0).
    destruct (starts_outside bs 0 i (p - 12) n F Hi Hn); lia. }
  assert (m !! MEM_SIZE_ALIGNED = ram h !! MEM_SIZE_ALIGNED) as He.
  { apply Hm. intros p x Hx. right. destruct (Sl p x Hx) as (H0 & n & Hn & Hk). pose proof (kept_le x H0).
    pose proof (in_use_range _ _ _ _ F Hn) as (_ & H1 & _). rewrite (li_ext _ _ L) in H1. lia. }
  destruct L as [S E En _ Lf U]. constructor; [|done|done]. split; [|done]. constructor; cbn [ram lfree stats set_ram]; try done.
  - by eapply seg_starts.
  - by rewrite He.
Qed.

Lemma hstep_serves h live h' live' bs :
  serves h live bs -> hstep (h, live) (h', live') -> exists bs', serves h' live' bs'.
Proof.
  intros V St. inversion St; subst.
  - destruct (mem_malloc_ok h bs x (se_rep _ _ _ V) ltac:(done)) as (h1 & E & R). rewrite E in *. simplify_eq.
    destruct (allocate x bs) as [[q bs']|] eqn:Ea; cbn [fmap option_fmap option_map fst snd default] in *; [|done]. simplify_eq.
    unfold allocate in Ea. destruct ((x =? 0) || (MEM_SIZE_ALIGNED <? x)); [done|]. fold (kept x) in Ea.
    destruct (place_split _ _ _ _ Ea) as (l & n & r & -> & -> & Hn & ->).
    change SIZEOF_STRUCT_MEM with 12. unfold taken in *.
    destruct (kept x + 36 <=? n); cbn [app] in R; (eexists; eapply serves_set; [exact V|exact R| |lia|lia]); cbn [in_use app]; [f_equal; lia|done].
  - destruct (mem_malloc_ok h bs x (se_rep _ _ _ V) ltac:(done)) as (h1 & E & R). rewrite E in *. simplify_eq.
    destruct (allocate x bs) as [[]|]; [done|]. cbn in R. exists bs. by destruct V.
  - destruct (se_live _ _ _ V p x ltac:(done)) as (_ & n & Hn & _). destruct (in_use_split _ _ _ Hn) as (l & r & -> & El).
    destruct (mem_free_ok h _ (ext l) n (se_rep _ _ _ V) ltac:(by exists l, r)) as (h1 & E & R).
    replace (ext l + SIZEOF_STRUCT_MEM) with p in E by (change SIZEOF_STRUCT_MEM with 12; lia). rewrite E in *. simplify_eq.
    eexists. replace p with (ext l + 12) by lia. by eapply serves_free.
  - destruct (se_live _ _ _ V p x ltac:(done)) as (H0 & n & Hn & Hk). destruct (in_use_split _ _ _ Hn) as (l & r & -> & El).
    pose proof (kept_mono y x ltac:(lia)) as Hm.
    pose proof (mem_trim_ok h _ (ext l) n y (se_rep _ _ _ V) ltac:(by exists l, r) ltac:(lia) ltac:(lia)) as T.
    replace (ext l + SIZEOF_STRUCT_MEM) with p in T by (change SIZEOF_STRUCT_MEM with 12; lia).
    destruct (trim_hangs (ext l) n y); [congruence|]. destruct T as (h1 & E & R). rewrite E in *. simplify_eq.
    destruct (linked_parts _ _ _ _ (proj1 (se_rep _ _ _ V))) as (_ & _ & _ & _ & _ & Fl & _).
    destruct (shrink_split l n r (kept y) Fl ltac:(lia)) as (k & mid & Es & Hk' & Ei). rewrite Es in R. eexists.
    replace p with (ext l + 12) by lia. eapply serves_set; [done|exact R|done|lia|done].
  - exists bs. by apply serves_write.
Qed.

Lemma init_rep : rep mem_init [(MEM_SIZE_ALIGNED, false)].
Proof.
  split; [|done]. constructor; try done. by repeat constructor.
Qed.

Lemma init_serves : serves mem_init ∅ [(MEM_SIZE_ALIGNED, false)].
Proof.
  constructor; [exact init_rep|intros p x H; by rewrite lookup_empty in H|]. cbn. intros p n H. by apply elem_of_nil in H.
Qed.

(** What a client may see. *)
Definition reachable (h : heap) (live : gmap Z Z) : Prop := rtc hstep (mem_init, ∅) (h, live).

Lemma reachable_serves h live : reachable h live -> exists bs, serves h live bs.
Proof.
  assert (forall c c', rtc hstep c c' -> (exists bs, serves c.1 c.2 bs) -> exists bs, serves c'.1 c'.2 bs) as G.
  { induction 1 as [|[h1 v1] [h2 v2] c St _ IH]; [done|]. intros [bs V]. apply IH. by eapply hstep_serves. }
  intros R. apply (G _ _ R). eexists. exact init_serves.
Qed.

(** When nothing is in use, the heap is one block. *)
Lemma idle_one bs : Forall block_ok bs -> spaced bs -> ext bs = MEM_SIZE_ALIGNED -> in_use 0 bs = [] -> bs = [(MEM_SIZE_ALIGNED, false)].
Proof.
  intros F S E U. destruct bs as [|[n u] bs]; [done|]. destruct u; [done|]. destruct bs as [|[n2 u2] bs].
  - cbn in E. do 2 f_equal. lia.
  - destruct S as [S _]. cbn in S. by destruct u2.
Qed.

Lemma malloc_fresh h live bs x :
  serves h live bs -> 0 <= x < 2 ^ 32 ->
  exists r h', mem_malloc x h = Some (r, h') /\ forall p, r = Some p -> live !! p = None.
Proof.
  intros V Hx. destruct (mem_malloc_ok h bs x (se_rep _ _ _ V) Hx) as (h' & E & _). eexists _, h'. split; [exact E|]. intros p.
  unfold allocate. destruct ((x =? 0) || (MEM_SIZE_ALIGNED <? x)); [done|]. destruct (place _ bs) as [[q bs']|] eqn:Ep; [|done].
  cbn. change SIZEOF_STRUCT_MEM with 12. intros [= <-]. destruct (place_split _ _ _ _ Ep) as (l & n & r & -> & -> & _).
  destruct (linked_parts _ _ _ _ (proj1 (se_rep _ _ _ V))) as (_ & _ & [Hn _] & _ & _ & Fl & Fr & _). cbn in Hn.
  destruct (live !! (ext l + 12)) as [y|] eqn:Ey; [|done]. destruct (se_live _ _ _ V _ _ Ey) as (_ & m & Hm & _).
  rewrite Z.add_simpl_r, in_use_app, Z.add_0_l in Hm. by destruct (in_use_other l n r _ m Fl Fr ltac:(lia) Hm).
Qed.

Lemma live_apart h live bs p x q y :
  serves h live bs -> live !! p = Some x -> live !! q = Some y -> p <> q -> p + x + 12 <= q \/ q + y + 12 <= p.
Proof.
  intros V Hp Hq Hn. destruct (se_live _ _ _ V _ _ Hp) as (H0 & n & In & Kn). destruct (se_live _ _ _ V _ _ Hq) as (H1 & m & Im & Km).
  pose proof (kept_le x H0). pose proof (kept_le y H1).
  destruct (in_use_disjoint bs _ _ _ _ (li_ok _ _ (proj1 (se_rep _ _ _ V))) In Im) as [[E _]|[|]]; lia.
Qed.

Lemma idle_malloc h bs x :
  rep h bs -> in_use 0 bs = [] -> 0 < x <= MEM_SIZE_ALIGNED - 12 -> exists h', mem_malloc x h = Some (Some 12, h').
Proof.
  intros R U Hx. pose proof R as [L S]. pose proof (idle_one bs (li_ok _ _ L) S (li_ext _ _ L) U) as ->.
  destruct (mem_malloc_ok h _ x R ltac:(rewrite MEM_end in *; lia)) as (h' & E & _). exists h'. rewrite E. unfold allocate.
  destruct (Z.eqb_spec x 0); [lia|]. destruct (Z.ltb_spec MEM_SIZE_ALIGNED x); [lia|]. cbn [orb place negb andb]. fold (kept x).
  assert (kept x + 12 <= MEM_SIZE_ALIGNED) as Hk.
  { rewrite MEM_end in *. unfold kept. pose proof (Z.div_mod (x + 3) 4 ltac:(lia)). pose proof (Z.mod_pos_bound (x + 3) 4 ltac:(lia)). lia. }
  by rewrite (proj2 (Z.leb_le _ _) Hk).
Qed.

(** * Theorems *)

(** C16: the heap of lwIP implements its specification, a row of blocks that fill
    it, and hits no assertion on the way: a request takes the first free block
    that is large enough, rounded up, and is refused exactly when there is none;
    freeing joins the block with free neighbours; shrinking gives the rest to the
    free block behind, or makes one, except for a block at the very end of the
    heap, where an assertion hangs the kernel. *)
Theorem heap_refines_blocks (h : heap) (bs : list block) :
  rep mem_init [(MEM_SIZE_ALIGNED, false)] /\
  (rep h bs ->
   (forall x, 0 <= x < 2 ^ 32 ->
      exists h', mem_malloc x h = Some ((fun r : Z * list block => r.1 + SIZEOF_STRUCT_MEM) <$> allocate x bs, h') /\
        rep h' (default bs (snd <$> allocate x bs))) /\
   (forall p n, at_index bs p n true -> exists h', mem_free (Some (p + SIZEOF_STRUCT_MEM)) h = Some h' /\ rep h' (release p bs)) /\
   (forall p n x, at_index bs p n true -> 0 <= x -> kept x + SIZEOF_STRUCT_MEM <= n ->
      if trim_hangs p n x then mem_trim (p + SIZEOF_STRUCT_MEM) x h = None
      else exists h', mem_trim (p + SIZEOF_STRUCT_MEM) x h = Some (Some (p + SIZEOF_STRUCT_MEM), h') /\ rep h' (shrink p (kept x) bs))).
Proof.
  split; [exact init_rep|]. intros R. split_and!.
  - intros x Hx. by apply mem_malloc_ok.
  - intros p n A. by eapply mem_free_ok.
  - intros p n x A Hx Hk. by apply (mem_trim_ok h bs).
Qed.

(** From the start, three requests and a block given back between them. *)
Lemma heap_refines_blocks_witness :
  exists h1 h2, mem_malloc 100 mem_init = Some (Some 12, h1) /\ rep h1 [(112, true); (130960, false)] /\
    mem_free (Some 12) h1 = Some h2 /\ rep h2 [(131072, false)].
Proof.
  destruct (heap_refines_blocks mem_init [(MEM_SIZE_ALIGNED, false)]) as [R0 W]. destruct (W R0) as (A & _).
  destruct (A 100 ltac:(lia)) as (h1 & E1 & R1). cbn in E1, R1.
  destruct (heap_refines_blocks h1 [(112, true); (130960, false)]) as [_ W1]. destruct (W1 R1) as (_ & F & _).
  destruct (F 0 112) as (h2 & E2 & R2); [exists [], [(130960, false)]; split; reflexivity|].
  exists h1, h2. split_and!; [exact E1|exact R1|exact E2|exact R2].
Defined.

(** C15: the heap keeps its clients apart: however lwIP asks for memory, gives back,
    shrinks what it has and writes into it, every piece of memory in use lies
    inside the heap, aligned, with all the bytes that were asked for, and no two
    overlap; no request and no release hangs on an assertion; what is handed out
    was not in use; and when everything has been given back the heap is whole
    again, as after [mem_init], so that a request for nearly all of it succeeds. *)
Theorem heap_safe (h : heap) (live : gmap Z Z) :
  reachable h live ->
  (forall p x, live !! p = Some x -> SIZEOF_STRUCT_MEM <= p /\ p + x <= MEM_SIZE_ALIGNED /\ p mod MEM_ALIGNMENT = 0) /\
  (forall p x q y, live !! p = Some x -> live !! q = Some y -> p <> q ->
     p + x + SIZEOF_STRUCT_MEM <= q \/ q + y + SIZEOF_STRUCT_MEM <= p) /\
  (forall x, 0 <= x < 2 ^ 32 -> exists r h', mem_malloc x h = Some (r, h') /\ forall p, r = Some p -> live !! p = None) /\
  (forall p x, live !! p = Some x -> exists h', mem_free (Some p) h = Some h') /\
  (live = ∅ -> lfree h = 0 /\ ram h !! 0 = Some (mk_mem MEM_SIZE_ALIGNED 0 0) /\ st_used (stats h) = 0 /\
     forall x, 0 < x <= MEM_SIZE_ALIGNED - SIZEOF_STRUCT_MEM -> exists h', mem_malloc x h = Some (Some SIZEOF_STRUCT_MEM, h')).
Proof.
  intros R. destruct (reachable_serves h live R) as [bs V]. pose proof (se_rep _ _ _ V) as [L Sp].
  change SIZEOF_STRUCT_MEM with 12. change MEM_ALIGNMENT with 4. split_and!.
  - intros p x Hx. destruct (se_live _ _ _ V _ _ Hx) as (H0 & n & In & Kn). pose proof (kept_le x H0).
    destruct (in_use_range _ _ _ _ (li_ok _ _ L) In) as (H1 & H2 & _ & A). rewrite (li_ext _ _ L) in H2. split_and!; [lia|lia|].
    replace p with (p - 12 + 3 * 4) by lia. rewrite Z.mod_add by lia. by apply A.
  - intros. by eapply live_apart.
  - intros. by eapply malloc_fresh.
  - intros p x Hx. destruct (se_live _ _ _ V _ _ Hx) as (_ & n & In & _). destruct (in_use_split _ _ _ In) as (l & r & E & El).
    destruct (mem_free_ok h bs (p - 12) n (se_rep _ _ _ V)) as (h' & E' & _); [by exists l, r|].
    change SIZEOF_STRUCT_MEM with 12 in E'. rewrite Z.sub_add in E'. by exists h'.
  - intros ->. assert (in_use 0 bs = []) as U.
    { destruct (in_use 0 bs) as [|[p n] u] eqn:E; [done|]. destruct (se_used _ _ _ V p n) as [y Hy]; [rewrite E; left|].
      by rewrite lookup_empty in Hy. }
    split_and!; [..|intros x Hx; by eapply idle_malloc]; pose proof (idle_one bs (li_ok _ _ L) Sp (li_ext _ _ L) U) as ->.
    + by rewrite (li_free _ _ L).
    + by destruct (li_seg _ _ L).
    + by rewrite (proj1 (li_used _ _ L)).
Qed.

(** A block of the heap at work. *)
Lemma heap_safe_witness :
  exists h, mem_malloc 100 mem_init = Some (Some 12, h) /\ exists h', mem_free (Some 12) h = Some h'.
Proof.
  destruct (mem_malloc 100 mem_init) as [[r h]|] eqn:E; [|vm_compute in E; discriminate E].
  assert (r = Some 12) as -> by (vm_compute in E; congruence). exists h. split; [reflexivity|].
  assert (reachable h {[ 12 := 100 ]}) as R by (apply rtc_once, hs_malloc; [lia|exact E]).
  destruct (heap_safe h {[ 12 := 100 ]} R) as (_ & _ & _ & F & _). apply (F 12 100). reflexivity.
Defined.

(** Shrinking the only block of a full heap hangs the kernel. *)
Theorem trim_of_last_block_hangs :
  exists h, mem_malloc 131060 mem_init = Some (Some 12, h) /\ reachable h {[ 12 := 131060 ]} /\ mem_trim 12 100 h = None.
Proof.
  destruct (mem_malloc 131060 mem_init) as [[r h]|] eqn:E; [|vm_compute in E; discriminate E].
  assert (r = Some 12) as -> by (vm_compute in E; congruence). exists h. split_and!; [done|apply rtc_once, hs_malloc; [lia|exact E]|].
  vm_compute in E. injection E as <-. vm_compute. reflexivity.
Qed.
