(* ===== verification/Gate.v ===== *)
(** The protection-key gates: src/arch/mpk.asm and include/sys/mpk_gate.h.

    The gates are assembly, so the model is an interpreter for the instructions
    they use, on the registers, the stack, CR4 and PKRU.  The driver function
    that a gate calls is a parameter; what it must keep is the System V calling
    convention ([callee_ok]). *)

From Stdlib Require Import ZArith Lia Bool.
From stdpp Require Import base list numbers option.
From S2P Require Import Prelude.

Open Scope Z_scope.

(** * The processor *)

Inductive reg := RAX | RBX | RCX | RDX | RSI | RDI | RBP | RSP | R8 | R9 | R10 | R11 | R12 | R13 | R14 | R15.

#[export] Instance reg_eq_dec : EqDecision reg.
Proof. solve_decision. Defined.

Record regfile := mk_regs {
  rax : Z; rbx : Z; rcx : Z; rdx : Z; rsi : Z; rdi : Z; rbp : Z; rsp : Z;
  r8 : Z; r9 : Z; r10 : Z; r11 : Z; r12 : Z; r13 : Z; r14 : Z; r15 : Z
}.

Definition get (r : reg) (f : regfile) : Z :=
  match r with
  | RAX => rax f | RBX => rbx f | RCX => rcx f | RDX => rdx f | RSI => rsi f | RDI => rdi f | RBP => rbp f | RSP => rsp f
  | R8 => r8 f | R9 => r9 f | R10 => r10 f | R11 => r11 f | R12 => r12 f | R13 => r13 f | R14 => r14 f | R15 => r15 f
  end.

Definition put (r : reg) (v : Z) (f : regfile) : regfile :=
  let '(mk_regs a bx c d si di bp sp b8 b9 b10 b11 b12 b13 b14 b15) := f in
  match r with
  | RAX => mk_regs v bx c d si di bp sp b8 b9 b10 b11 b12 b13 b14 b15
  | RBX => mk_regs a v c d si di bp sp b8 b9 b10 b11 b12 b13 b14 b15
  | RCX => mk_regs a bx v d si di bp sp b8 b9 b10 b11 b12 b13 b14 b15
  | RDX => mk_regs a bx c v si di bp sp b8 b9 b10 b11 b12 b13 b14 b15
  | RSI => mk_regs a bx c d v di bp sp b8 b9 b10 b11 b12 b13 b14 b15
  | RDI => mk_regs a bx c d si v bp sp b8 b9 b10 b11 b12 b13 b14 b15
  | RBP => mk_regs a bx c d si di v sp b8 b9 b10 b11 b12 b13 b14 b15
  | RSP => mk_regs a bx c d si di bp v b8 b9 b10 b11 b12 b13 b14 b15
  | R8 => mk_regs a bx c d si di bp sp v b9 b10 b11 b12 b13 b14 b15
  | R9 => mk_regs a bx c d si di bp sp b8 v b10 b11 b12 b13 b14 b15
  | R10 => mk_regs a bx c d si di bp sp b8 b9 v b11 b12 b13 b14 b15
  | R11 => mk_regs a bx c d si di bp sp b8 b9 b10 v b12 b13 b14 b15
  | R12 => mk_regs a bx c d si di bp sp b8 b9 b10 b11 v b13 b14 b15
  | R13 => mk_regs a bx c d si di bp sp b8 b9 b10 b11 b12 v b14 b15
  | R14 => mk_regs a bx c d si di bp sp b8 b9 b10 b11 b12 b13 v b15
  | R15 => mk_regs a bx c d si di bp sp b8 b9 b10 b11 b12 b13 b14 v
  end.

Record cpu := mk_cpu { file : regfile; stack : Z -> Z; pkru : Z; cr4 : Z; rip : Z }.

Definition regs (c : cpu) (r : reg) : Z := get r (file c).

Definition set_reg (r : reg) (v : Z) (c : cpu) : cpu := mk_cpu (put r v (file c)) (stack c) (pkru c) (cr4 c) (rip c).
Definition set_stack (a v : Z) (c : cpu) : cpu :=
  mk_cpu (file c) (fun x => if x =? a then v else stack c x) (pkru c) (cr4 c) (rip c).
Definition set_pkru (v : Z) (c : cpu) : cpu := mk_cpu (file c) (stack c) v (cr4 c) (rip c).
Definition set_cr4 (v : Z) (c : cpu) : cpu := mk_cpu (file c) (stack c) (pkru c) v (rip c).
Definition set_rip (v : Z) (c : cpu) : cpu := mk_cpu (file c) (stack c) (pkru c) (cr4 c) v.

Definition CR4_PKE : Z := 22.

Inductive instr :=
  | Push (r : reg) | Pop (r : reg) | Mov (d s : reg) | Mov32 (d s : reg) | MovImm (d : reg) (v : Z)
  | XorSelf (r : reg) | FromCr4 (d : reg) | ToCr4 (s : reg) | Bts (d : reg) (n : Z) | Wrpkru | Call (f : reg).

Definition push (v : Z) (c : cpu) : cpu :=
  let a := u64 (regs c RSP - 8) in set_stack a v (set_reg RSP a c).

Definition pop (c : cpu) : Z * cpu := (stack c (regs c RSP), set_reg RSP (u64 (regs c RSP + 8)) c).

Section run.
(** The function at an address, from its first instruction to its return, and the
    address a call pushes. *)
Context (callee : Z -> cpu -> option cpu) (after_call : Z).

(** One instruction, or [None] for a fault.  [wrpkru] is undefined without
    CR4.PKE and faults unless ECX and EDX are zero. *)
Definition step (i : instr) (c : cpu) : option cpu :=
  match i with
  | Push r => Some (push (regs c r) c)
  | Pop r => let '(v, c) := pop c in Some (set_reg r v c)
  | Mov d s => Some (set_reg d (regs c s) c)
  | Mov32 d s => Some (set_reg d (u32 (regs c s)) c)
  | MovImm d v => Some (set_reg d v c)
  | XorSelf r => Some (set_reg r 0 c)
  | FromCr4 d => Some (set_reg d (cr4 c) c)
  | ToCr4 s => Some (set_cr4 (regs c s) c)
  | Bts d n => Some (set_reg d (Z.setbit (regs c d) n) c)
  | Wrpkru =>
      if Z.testbit (cr4 c) CR4_PKE && (u32 (regs c RCX) =? 0) && (u32 (regs c RDX) =? 0)
      then Some (set_pkru (u32 (regs c RAX)) c) else None
  | Call f => callee (regs c f) (push after_call c)
  end.

Fixpoint run (code : list instr) (c : cpu) : option cpu :=
  match code with [] => Some c | i :: code' => c ← step i c; run code' c end.

(** A routine: its instructions and the final [ret]. *)
Definition routine (code : list instr) (c : cpu) : option cpu :=
  c ← run code c; let '(ra, c) := pop c in Some (set_rip ra c).

(** * The routines *)

Definition mpk_enable : list instr := [FromCr4 RAX; Bts RAX 22; ToCr4 RAX].

Definition mpk_set_pkru : list instr := [Mov32 RAX RDI; XorSelf RCX; XorSelf RDX; Wrpkru].

Definition unlock : list instr := [XorSelf RCX; XorSelf RDX; XorSelf RAX; Wrpkru].

Definition lock : list instr := [Push RAX; XorSelf RCX; XorSelf RDX; MovImm RAX 0x0C; Wrpkru; Pop RAX].

Definition mpk_trampoline_0 : list instr :=
  [Push RBP; Mov RBP RSP; Push R12; Mov R12 RDI] ++ unlock ++ [Call R12] ++ lock ++ [Pop R12; Pop RBP].

Definition mpk_trampoline_1 : list instr :=
  [Push RBP; Mov RBP RSP; Push R12; Push R13; Mov R12 RDI; Mov R13 RSI] ++ unlock ++
  [Mov RDI R13; Call R12] ++ lock ++ [Pop R13; Pop R12; Pop RBP].

Definition mpk_trampoline_2 : list instr :=
  [Push RBP; Mov RBP RSP; Push R12; Push R13; Push R14; Mov R12 RDI; Mov R13 RSI; Mov R14 RDX] ++ unlock ++
  [Mov RDI R13; Mov RSI R14; Call R12] ++ lock ++ [Pop R14; Pop R13; Pop R12; Pop RBP].

Definition mpk_trampoline_3 : list instr :=
  [Push RBP; Mov RBP RSP; Push R12; Push R13; Push R14; Push R15;
   Mov R12 RDI; Mov R13 RSI; Mov R14 RDX; Mov R15 RCX] ++ unlock ++
  [Mov RDI R13; Mov RSI R14; Mov RDX R15; Call R12] ++ lock ++ [Pop R15; Pop R14; Pop R13; Pop R12; Pop RBP].

Definition mpk_trampoline_4 : list instr :=
  [Push RBP; Mov RBP RSP; Push R12; Push R13; Push R14; Push R15;
   Mov R12 RDI; Mov R13 RSI; Mov R14 RDX; Mov R15 RCX; Push R8] ++ unlock ++
  [Mov RDI R13; Mov RSI R14; Mov RDX R15; Pop RCX; Call R12] ++ lock ++ [Pop R15; Pop R14; Pop R13; Pop R12; Pop RBP].

Definition trampoline (k : nat) : list instr :=
  match k with
  | 0 => mpk_trampoline_0 | 1 => mpk_trampoline_1 | 2 => mpk_trampoline_2 | 3 => mpk_trampoline_3 | _ => mpk_trampoline_4
  end%nat.

(** * The calling convention *)

Definition callee_saved (r : reg) : bool :=
  match r with RBX | RBP | RSP | R12 | R13 | R14 | R15 => true | _ => false end.

(** A function returns to its caller: it takes its return address off the stack,
    restores the registers it must keep, and leaves what its callers have on the
    stack, and CR4, alone. *)
Record returns (c c' : cpu) : Prop := {
  rt_rsp : regs c' RSP = regs c RSP + 8;
  rt_saved : forall r, callee_saved r = true -> r <> RSP -> regs c' r = regs c r;
  rt_stack : forall a, regs c RSP + 8 <= a -> stack c' a = stack c a;
  rt_cr4 : cr4 c' = cr4 c
}.

Definition callee_ok (f : Z) : Prop := forall c, exists c', callee f c = Some c' /\ returns c c'.

(** The registers a gate takes its arguments from, and the function. *)
Definition gate_args : list reg := [RSI; RDX; RCX; R8].
Definition fn_args : list reg := [RDI; RSI; RDX; RCX].

(** How many words a gate has on the stack when it calls. *)
Definition gate_depth (k : nat) : Z := match k with 0%nat => 2 | 1%nat => 3 | 2%nat => 4 | _ => 5 end.

(** A routine in two parts. *)
Lemma run_app (code code' : list instr) (c : cpu) : run (code ++ code') c = run code c ≫= run code'.
Proof.
  revert c. induction code as [|i code IH]; intros c; [done|]. cbn [app run].
  destruct (step i c) as [c1|]; [apply IH|done].
Qed.

Ltac in_range := unfold u64; rewrite !Z.mod_small by lia.

(** Registers and stack of an explicit state. *)
Ltac symb :=
  cbv [run step mbind option_bind push pop regs set_reg set_stack set_pkru set_cr4 set_rip get put file stack pkru cr4 rip
       rax rbx rcx rdx rsi rdi rbp rsp r8 r9 r10 r11 r12 r13 r14 r15];
  change (u32 0) with 0; change (u32 0x0C) with 0x0C; change (0 =? 0) with true; cbv [andb].

(** Locking keeps the result and every register but two. *)
Lemma run_lock (c : cpu) :
  Z.testbit (cr4 c) CR4_PKE = true -> 8 <= regs c RSP < 2 ^ 64 - 8 ->
  run lock c = Some (mk_cpu (put RCX 0 (put RDX 0 (file c))) (stack (set_stack (regs c RSP - 8) (regs c RAX) c)) 0x0C (cr4 c) (rip c)).
Proof.
  destruct c as [[a bx b d si di bp sp b8 b9 b10 b11 b12 b13 b14 b15] st pk c4 ip]. cbn [regs get file cr4 rsp]. intros Hp Hsp.
  unfold lock. symb. rewrite Hp. in_range. rewrite Z.eqb_refl. by replace (sp - 8 + 8) with sp by lia.
Qed.

Lemma regs_set (r : reg) (v : Z) (c : cpu) (x : reg) : regs (set_reg r v c) x = if decide (x = r) then v else regs c x.
Proof. destruct c as [[] ????], r, x; done. Qed.

(** A sequence of pops. *)
Lemma run_pops (rs : list reg) (c : cpu) :
  NoDup rs -> RSP ∉ rs -> 0 <= regs c RSP -> regs c RSP + 8 * Z.of_nat (length rs) < 2 ^ 64 ->
  exists c', run (map Pop rs) c = Some c' /\ regs c' RSP = regs c RSP + 8 * Z.of_nat (length rs) /\
    (forall i r, rs !! i = Some r -> regs c' r = stack c (regs c RSP + 8 * Z.of_nat i)) /\
    (forall r, r ∉ rs -> r <> RSP -> regs c' r = regs c r) /\
    stack c' = stack c /\ pkru c' = pkru c /\ cr4 c' = cr4 c.
Proof.
  revert c. induction rs as [|r rs IH]; intros c Hnd Hsp H0 Hlen.
  { exists c. cbn. split_and!; [done|lia|done|done|done|done|done]. }
  inversion_clear Hnd as [|? ? Hr Hnd']. rename Hnd' into Hnd. apply not_elem_of_cons in Hsp as [Hne Hsp].
  cbn [map run step length] in *. unfold pop, u64. rewrite Z.mod_small by lia. cbn [mbind option_bind].
  set (c1 := set_reg r _ _).
  assert (regs c1 RSP = regs c RSP + 8) as E1 by (unfold c1; by rewrite !regs_set, decide_False, decide_True).
  destruct (IH c1 Hnd Hsp) as (c' & -> & Esp & Ein & Eout & Est & Epk & Ec4); [lia|rewrite E1; lia|].
  exists c'. split_and!; [done|rewrite Esp, E1; lia| | |by rewrite Est|by rewrite Epk|by rewrite Ec4].
  - intros [|i] x Hx; cbn in Hx.
    + injection Hx as <-. rewrite Eout by done. unfold c1. rewrite !regs_set, decide_True by done. f_equal. lia.
    + rewrite (Ein i x Hx), E1. change (stack c1) with (stack c). f_equal. lia.
  - intros x Hx Hxs. apply not_elem_of_cons in Hx as [Hx1 Hx2]. rewrite Eout by done.
    unfold c1. by rewrite !regs_set, !decide_False.
Qed.

(** What a gate does after its call: [c] is the state in which the gate was
    entered, [c1] the one in which the function was. *)
Lemma gate_finish (rs : list reg) (c c1 c2 : cpu) :
  NoDup rs -> RSP ∉ rs -> Forall (fun r => callee_saved r = true) rs ->
  64 <= regs c RSP < 2 ^ 64 - 8 -> (length rs <= 5)%nat ->
  regs c1 RSP = regs c RSP - 8 * Z.of_nat (length rs) - 8 ->
  (forall i r, rs !! i = Some r -> stack c1 (regs c1 RSP + 8 + 8 * Z.of_nat i) = regs c r) ->
  (forall a, regs c RSP <= a -> stack c1 a = stack c a) ->
  (forall r, callee_saved r = true -> r ∉ rs -> r <> RSP -> regs c1 r = regs c r) ->
  cr4 c1 = cr4 c -> Z.testbit (cr4 c) CR4_PKE = true -> returns c1 c2 ->
  exists c', (c3 ← run (lock ++ map Pop rs) c2; let '(ra, c4) := pop c3 in Some (set_rip ra c4)) = Some c' /\
    pkru c' = 0x0C /\ regs c' RAX = regs c2 RAX /\ rip c' = stack c (regs c RSP) /\ returns c c'.
Proof.
  intros Hnd Hsp Hsv Hr Hlen E1 Hstk Habove Hkeep Hc4 Hpke [Rsp Rsv Rst Rc4].
  assert (8 <= regs c2 RSP < 2 ^ 64 - 8) as Hr2 by (rewrite Rsp, E1; lia).
  rewrite run_app, run_lock by (by rewrite ?Rc4, ?Hc4). cbn [mbind option_bind]. set (c3 := mk_cpu _ _ _ _ _).
  assert (forall r, r <> RCX -> r <> RDX -> regs c3 r = regs c2 r) as E3
    by (intros r H1 H2; destruct c2 as [[] ????], r; done).
  assert (forall a, regs c2 RSP <= a -> stack c3 a = stack c2 a) as S3.
  { intros a Ha. change (stack c3 a) with (if a =? regs c2 RSP - 8 then regs c2 RAX else stack c2 a). destruct (Z.eqb_spec a (regs c2 RSP - 8)); [lia|done]. }
  destruct (run_pops rs c3 Hnd Hsp) as (c4 & -> & Esp & Ein & Eout & Est & Epk & Ecr);
    [rewrite E3 by done; lia|rewrite E3, Rsp, E1 by done; lia|].
  cbn [mbind option_bind]. unfold pop, u64. rewrite Esp, E3, Rsp, E1 by done.
  replace (regs c RSP - 8 * Z.of_nat (length rs) - 8 + 8 + 8 * Z.of_nat (length rs)) with (regs c RSP) by lia.
  rewrite Z.mod_small by lia. eexists. split; [done|]. split; [done|].
  assert (forall x, x <> RSP -> regs (set_rip (stack c4 (regs c RSP)) (set_reg RSP (regs c RSP + 8) c4)) x = regs c4 x) as E5
    by (intros x Hx; change (regs (set_reg RSP (regs c RSP + 8) c4) x = regs c4 x); by rewrite regs_set, decide_False).
  assert (stack c4 (regs c RSP) = stack c (regs c RSP)) as Era
    by (rewrite Est, S3, Rst, Habove by lia; done).
  split_and!.
  - rewrite E5, Eout, E3 by (done || (intros Hin; rewrite Forall_forall in Hsv; by apply list_elem_of_In, Hsv in Hin)). done.
  - exact Era.
  - split.
    + change (regs (set_reg RSP (regs c RSP + 8) c4) RSP = regs c RSP + 8). by rewrite regs_set, decide_True.
    + intros r Hs Hne. rewrite E5 by done. destruct (decide (r ∈ rs)) as [Hin|Hin].
      * apply list_elem_of_lookup in Hin as [i Hi]. rewrite (Ein i r Hi), E3, S3, Rst by (done || lia).
        rewrite <- (Hstk i r Hi). f_equal. lia.
      * rewrite Eout, E3, Rsv by (done || by destruct r). by apply Hkeep.
    + intros a Ha. change (stack c4 a = stack c a). rewrite Est, S3, Rst, Habove by lia. done.
    + change (cr4 c4 = cr4 c). rewrite Ecr. change (cr4 c2 = cr4 c). by rewrite Rc4.
Qed.

(** The parts of a gate: what it saves, in the order of its pops, and what it does
    before its call. *)
Definition saved (k : nat) : list reg :=
  match k with
  | 0 => [R12; RBP] | 1 => [R13; R12; RBP] | 2 => [R14; R13; R12; RBP] | _ => [R15; R14; R13; R12; RBP]
  end%nat.

Definition prologue (k : nat) : list instr :=
  match k with
  | 0 => [Push RBP; Mov RBP RSP; Push R12; Mov R12 RDI] ++ unlock
  | 1 => [Push RBP; Mov RBP RSP; Push R12; Push R13; Mov R12 RDI; Mov R13 RSI] ++ unlock ++ [Mov RDI R13]
  | 2 => [Push RBP; Mov RBP RSP; Push R12; Push R13; Push R14; Mov R12 RDI; Mov R13 RSI; Mov R14 RDX] ++ unlock ++
         [Mov RDI R13; Mov RSI R14]
  | 3 => [Push RBP; Mov RBP RSP; Push R12; Push R13; Push R14; Push R15; Mov R12 RDI; Mov R13 RSI; Mov R14 RDX; Mov R15 RCX] ++
         unlock ++ [Mov RDI R13; Mov RSI R14; Mov RDX R15]
  | _ => [Push RBP; Mov RBP RSP; Push R12; Push R13; Push R14; Push R15; Mov R12 RDI; Mov R13 RSI; Mov R14 RDX; Mov R15 RCX; Push R8] ++
         unlock ++ [Mov RDI R13; Mov RSI R14; Mov RDX R15; Pop RCX]
  end%nat.

Lemma trampoline_split (k : nat) : trampoline k = prologue k ++ Call R12 :: lock ++ map Pop (saved k).
Proof. by destruct k as [|[|[|[|k]]]]. Qed.

Ltac stack_pointer := repeat match goal with
  | |- context [u64 ?x] => replace (u64 x) with x by (unfold u64; rewrite Z.mod_small by lia; reflexivity) end.

(** Reads of the stack at distances from its pointer. *)
Ltac stack_reads := repeat match goal with
  | |- context [?a =? ?b] => first [rewrite (proj2 (Z.eqb_eq a b)) by lia|rewrite (proj2 (Z.eqb_neq a b)) by lia] end.

Lemma run_prologue (k : nat) (c : cpu) :
  (k <= 4)%nat -> Z.testbit (cr4 c) CR4_PKE = true -> 64 <= regs c RSP < 2 ^ 64 - 8 ->
  exists c0, run (prologue k) c = Some c0 /\ regs c0 R12 = regs c RDI /\ pkru c0 = 0 /\ cr4 c0 = cr4 c /\
    regs c0 RSP = regs c RSP - 8 * Z.of_nat (length (saved k)) /\
    take k (map (regs c0) fn_args) = take k (map (regs c) gate_args) /\
    (forall i r, saved k !! i = Some r -> stack c0 (regs c0 RSP + 8 * Z.of_nat i) = regs c r) /\
    (forall a, regs c RSP <= a -> stack c0 a = stack c a) /\
    (forall r, callee_saved r = true -> r ∉ saved k -> r <> RSP -> regs c0 r = regs c r).
Proof.
  destruct c as [[a bx b d si di bp sp b8 b9 b10 b11 b12 b13 b14 b15] st pk c4 ip]. cbn [regs get file cr4 rsp]. intros Hk Hp Hsp.
  destruct k as [|[|[|[|[|k]]]]]; [..|lia]; unfold prologue, unlock; cbn [app].
  all: eexists; split; [symb; rewrite Hp; reflexivity|]; symb; stack_pointer.
  all: split_and!; try done; try (cbn [length saved]; lia).
  all: try (intros x Hx; stack_reads; done).
  all: try (intros r Hs Hin Hne; destruct r; try done; exfalso; apply Hin; repeat (first [left|right]); done).
  all: try (intros i r Hi; repeat (destruct i as [|i]; [injection Hi as <-; stack_reads; done|]); destruct i; done).
  by rewrite Z.eqb_refl.
Qed.

Lemma saved_ok (k : nat) : NoDup (saved k) /\ RSP ∉ saved k /\ Forall (fun r => callee_saved r = true) (saved k) /\
  Z.of_nat (length (saved k)) = gate_depth k /\ (length (saved k) <= 5)%nat.
Proof.
  destruct k as [|[|[|k]]]; (split_and!; [apply (bool_decide_unpack _); reflexivity|apply (bool_decide_unpack _); reflexivity|
    repeat constructor|done|cbn; lia]).
Qed.

Lemma gate_run (k : nat) (f : Z) (c : cpu) :
  (k <= 4)%nat -> callee_ok f -> regs c RDI = f -> Z.testbit (cr4 c) CR4_PKE = true ->
  64 <= regs c RSP < 2 ^ 64 - 8 ->
  exists c1 c2 c', routine (trampoline k) c = Some c' /\ callee f c1 = Some c2 /\
    pkru c1 = 0 /\ regs c1 RSP = regs c RSP - 8 * gate_depth k - 8 /\
    take k (map (regs c1) fn_args) = take k (map (regs c) gate_args) /\
    pkru c' = 0x0C /\ regs c' RAX = regs c2 RAX /\ rip c' = stack c (regs c RSP) /\ returns c c'.
Proof.
  intros Hk Hf <- Hpke Hrsp. destruct (saved_ok k) as (Hnd & Hsp & Hsv & Hd & Hlen).
  destruct (run_prologue k c Hk Hpke Hrsp) as (c0 & E0 & Ef & Epk & Ec4 & Esp & Eargs & Estk & Eabove & Ekeep).
  unfold routine. rewrite trampoline_split, run_app, E0. cbn [mbind option_bind run step]. rewrite Ef.
  set (c1 := push after_call c0).
  assert (regs c1 RSP = regs c0 RSP - 8) as Ersp
    by (unfold c1, push, u64; rewrite Z.mod_small by lia; change (regs (set_reg RSP (regs c0 RSP - 8) c0) RSP = regs c0 RSP - 8);
        by rewrite regs_set, decide_True).
  assert (forall r, r <> RSP -> regs c1 r = regs c0 r) as Eregs
    by (intros r Hr; change (regs (set_reg RSP (u64 (regs c0 RSP - 8)) c0) r = regs c0 r); by rewrite regs_set, decide_False).
  assert (forall a, regs c0 RSP <= a -> stack c1 a = stack c0 a) as Est.
  { intros a Ha. unfold c1, push, u64. rewrite Z.mod_small by lia.
    change ((if a =? regs c0 RSP - 8 then after_call else stack c0 a) = stack c0 a).
    by rewrite (proj2 (Z.eqb_neq _ _)) by lia. }
  destruct (Hf c1) as (c2 & E2 & R2).
  destruct (gate_finish (saved k) c c1 c2 Hnd Hsp Hsv Hrsp Hlen) as (c' & E' & Hpk & Hrax & Hrip & R').
  - rewrite Ersp, Esp. lia.
  - intros i r Hi. rewrite Ersp, Est by lia. rewrite <- (Estk i r Hi). f_equal. lia.
  - intros a Ha. rewrite Est, Eabove by lia. done.
  - intros r Hs Hin Hne. rewrite Eregs by done. by apply Ekeep.
  - done.
  - done.
  - done.
  - exists c1, c2, c'. rewrite E2. cbn [mbind option_bind]. split_and!; try done.
    + rewrite Ersp, Esp, Hd. lia.
    + rewrite <- Eargs. f_equal. cbn [map fn_args]. by rewrite !Eregs.
Qed.

(** C11: a gate is a lock around one call.  Called with the address of a function and
    up to four arguments, a gate enters the function with these arguments and
    with every key unlocked; when the function returns, the gate returns to its
    caller with the function's result, with the access to key 1 locked again,
    and with stack and callee-saved registers as the caller left them. *)
Theorem gate_locks (k : nat) (f : Z) (c : cpu) :
  (k <= 4)%nat -> callee_ok f -> regs c RDI = f -> Z.testbit (cr4 c) CR4_PKE = true ->
  64 <= regs c RSP < 2 ^ 64 - 8 ->
  exists c1 c2 c', routine (trampoline k) c = Some c' /\ callee f c1 = Some c2 /\
    pkru c1 = 0 /\ take k (map (regs c1) fn_args) = take k (map (regs c) gate_args) /\
    pkru c' = 0x0C /\ regs c' RAX = regs c2 RAX /\ rip c' = stack c (regs c RSP) /\ returns c c'.
Proof.
  intros Hk Hf Hrdi Hpke Hrsp. destruct (gate_run k f c Hk Hf Hrdi Hpke Hrsp) as (c1 & c2 & c' & ? & ? & ? & _ & ?).
  by exists c1, c2, c'.
Qed.

(** The convention wants the stack at a multiple of 16 before a call, so at 8 more
    when a function is entered.  The gates with one, three and four arguments
    hand that on; the ones with none and with two, the gate of [e1000_init],
    enter their function with the stack off by 8. *)
Theorem gate_alignment (k : nat) (f : Z) (c : cpu) :
  (k <= 4)%nat -> callee_ok f -> regs c RDI = f -> Z.testbit (cr4 c) CR4_PKE = true ->
  64 <= regs c RSP < 2 ^ 64 - 8 -> regs c RSP mod 16 = 8 ->
  exists c1 c2 c', routine (trampoline k) c = Some c' /\ callee f c1 = Some c2 /\
    regs c1 RSP mod 16 = if decide (k = 0 \/ k = 2)%nat then 0 else 8.
Proof.
  intros Hk Hf Hrdi Hpke Hrsp Hal.
  destruct (gate_run k f c Hk Hf Hrdi Hpke Hrsp) as (c1 & c2 & c' & ? & ? & _ & E & _).
  exists c1, c2, c'. split_and!; [done|done|]. rewrite E.
  pose proof (Z.div_mod (regs c RSP) 16 ltac:(lia)) as Hq. rewrite Hal in Hq.
  generalize dependent (regs c RSP / 16). intros q Hq. rewrite Hq.
  destruct k as [|[|[|[|[|k]]]]]; [..|lia]; cbn [gate_depth]; first [rewrite decide_True by lia|rewrite decide_False by lia].
  - replace (16 * q + 8 - 8 * 2 - 8) with (0 + (q - 1) * 16) by lia. by rewrite Z.mod_add.
  - replace (16 * q + 8 - 8 * 3 - 8) with (8 + (q - 2) * 16) by lia. by rewrite Z.mod_add.
  - replace (16 * q + 8 - 8 * 4 - 8) with (0 + (q - 2) * 16) by lia. by rewrite Z.mod_add.
  - replace (16 * q + 8 - 8 * 5 - 8) with (8 + (q - 3) * 16) by lia. by rewrite Z.mod_add.
  - replace (16 * q + 8 - 8 * 5 - 8) with (8 + (q - 3) * 16) by lia. by rewrite Z.mod_add.
Qed.

(** Without CR4.PKE a gate faults before it calls anything. *)
Theorem gate_needs_pke (k : nat) (c : cpu) :
  (k <= 4)%nat -> Z.testbit (cr4 c) CR4_PKE = false -> routine (trampoline k) c = None.
Proof.
  intros Hk Hp. destruct c as [[a bx b d si di bp sp b8 b9 b10 b11 b12 b13 b14 b15] st pk c4 ip]. cbn [cr4] in Hp.
  unfold routine. destruct k as [|[|[|[|[|k]]]]]; [..|lia];
    unfold trampoline, mpk_trampoline_0, mpk_trampoline_1, mpk_trampoline_2, mpk_trampoline_3, mpk_trampoline_4, unlock; cbn [app];
    symb; by rewrite Hp.
Qed.

Lemma mpk_enable_ok (c : cpu) :
  exists c', run mpk_enable c = Some c' /\ cr4 c' = Z.setbit (cr4 c) 22 /\ pkru c' = pkru c /\ stack c' = stack c.
Proof. destruct c as [[a bx b d si di bp sp b8 b9 b10 b11 b12 b13 b14 b15] st pk c4 ip]. eexists. by split. Qed.

Lemma mpk_set_pkru_ok (c : cpu) :
  Z.testbit (cr4 c) CR4_PKE = true ->
  exists c', run mpk_set_pkru c = Some c' /\ pkru c' = u32 (u32 (regs c RDI)) /\ cr4 c' = cr4 c /\ stack c' = stack c /\ regs c' RSP = regs c RSP.
Proof.
  intros Hp. destruct c as [[a bx b d si di bp sp b8 b9 b10 b11 b12 b13 b14 b15] st pk c4 ip]. cbn [cr4] in Hp.
  eexists. split; [unfold mpk_set_pkru; symb; rewrite Hp; reflexivity|]. done.
Qed.

End run.

(** * What the keys allow *)

(** A data access to a user page with a key: the register has an access-disable
    and a write-disable bit per key.  (The kernel's pages are all user pages.) *)
Definition pkru_allows (v key : Z) (write : bool) : bool :=
  negb (Z.testbit v (2 * key)) && negb (write && Z.testbit v (2 * key + 1)).

(** Locked, nothing with key 1 can be read or written, and everything else can. *)
Lemma locked_keys (key : Z) (write : bool) : 0 <= key < 16 -> pkru_allows 0x0C key write = negb (key =? 1).
Proof.
  intros H. assert (exists n, (n < 16)%nat /\ key = Z.of_nat n) as (n & Hn & ->) by (exists (Z.to_nat key); lia).
  do 16 (destruct n as [|n]; [by destruct write|]). lia.
Qed.

Lemma unlocked_keys (key : Z) (write : bool) : pkru_allows 0 key write = true.
Proof. unfold pkru_allows. rewrite !Z.testbit_0_l. by destruct write. Qed.

(** * The calls through the gates *)

(** [mpk_e1000_init] and the like: the gate each uses and the values it passes. *)
Inductive gated := GateInit (mac_out : Z) | GateSendRaw (data len : Z) | GatePollReceive (buffer max_len : Z)
  | GateSendScatter (addrs lens n_segs : Z).

(** The number of arguments and the registers, the function first. *)
Definition gate_call (e1000_init e1000_send_raw e1000_poll_receive e1000_send_scatter mmio_base : Z) (g : gated) : nat * list Z :=
  match g with
  | GateInit mac_out => (2%nat, [e1000_init; mmio_base; mac_out])
  | GateSendRaw data len => (3%nat, [e1000_send_raw; mmio_base; data; u64 (u16 len)])
  | GatePollReceive buffer max_len => (3%nat, [e1000_poll_receive; mmio_base; buffer; u64 (u16 max_len)])
  | GateSendScatter addrs lens n_segs => (4%nat, [e1000_send_scatter; mmio_base; addrs; lens; u64 (u32 n_segs)])
  end.

(** The registers of a call by the convention. *)
Definition pass (args : list Z) (c : cpu) : cpu :=
  foldl (fun c '(r, v) => set_reg r v c) c (zip [RDI; RSI; RDX; RCX; R8] args).

(** The result of type [int] in the low half of RAX. *)
Definition int_result (c : cpu) : Z := s32 (u32 (regs c RAX)).

(** The call of a function with [k] arguments through the gate for [k]. *)
Lemma gated_run (callee : Z -> cpu -> option cpu) (after_call : Z) (k : nat) (f : Z) (args : list Z) (c : cpu) :
  (k <= 4)%nat -> length args = k -> callee_ok callee f -> Z.testbit (cr4 c) CR4_PKE = true -> 64 <= regs c RSP < 2 ^ 64 - 8 ->
  exists c1 c2 c', routine callee after_call (trampoline k) (pass (f :: args) c) = Some c' /\ callee f c1 = Some c2 /\
    pkru c1 = 0 /\ map (regs c1) (take k fn_args) = args /\ pkru c' = 0x0C /\ int_result c' = int_result c2.
Proof.
  intros Hk Hlen Hf Hp Hsp. set (cp := pass (f :: args) c).
  assert (regs cp RDI = f /\ cr4 cp = cr4 c /\ regs cp RSP = regs c RSP /\ take k (map (regs cp) gate_args) = args) as (E1 & E2 & E3 & E4).
  { destruct c as [[a bx b d si di bp sp b8 b9 b10 b11 b12 b13 b14 b15] st pk c4 ip].
    do 5 (destruct args as [|? args]; [subst k; done|]). cbn in Hlen. lia. }
  destruct (gate_run callee after_call k f cp Hk Hf E1) as (c1 & c2 & c' & R1 & R2 & R3 & _ & R5 & R6 & R7 & _ & _);
    [by rewrite E2|by rewrite E3|].
  exists c1, c2, c'. split_and!; [done|done|done| |done|unfold int_result; by rewrite R7].
  rewrite <- E4, <- R5. by rewrite <- firstn_map.
Qed.

(** Every call through a gate reaches the driver function it names, unlocked and
    with its arguments, and comes back locked with its result. *)
Theorem gated_call_reaches (callee : Z -> cpu -> option cpu) (after_call f1 f2 f3 f4 mmio_base : Z) (g : gated) (c : cpu) :
  callee_ok callee f1 -> callee_ok callee f2 -> callee_ok callee f3 -> callee_ok callee f4 ->
  Z.testbit (cr4 c) CR4_PKE = true -> 64 <= regs c RSP < 2 ^ 64 - 8 ->
  let '(k, args) := gate_call f1 f2 f3 f4 mmio_base g in
  exists f c1 c2 c', head args = Some f /\ f ∈ [f1; f2; f3; f4] /\
    routine callee after_call (trampoline k) (pass args c) = Some c' /\ callee f c1 = Some c2 /\
    pkru c1 = 0 /\ map (regs c1) (take k fn_args) = tail args /\
    pkru c' = 0x0C /\ int_result c' = int_result c2.
Proof.
  intros H1 H2 H3 H4 Hp Hsp.
  assert (forall k f args, (k <= 4)%nat -> length args = k -> callee_ok callee f -> f ∈ [f1; f2; f3; f4] ->
    exists f' c1 c2 c', head (f :: args) = Some f' /\ f' ∈ [f1; f2; f3; f4] /\
      routine callee after_call (trampoline k) (pass (f :: args) c) = Some c' /\ callee f' c1 = Some c2 /\
      pkru c1 = 0 /\ map (regs c1) (take k fn_args) = args /\ pkru c' = 0x0C /\ int_result c' = int_result c2) as Hgen.
  { intros k f args Hk Hlen Hf Hin.
    destruct (gated_run callee after_call k f args c Hk Hlen Hf Hp Hsp) as (c1 & c2 & c' & Hr).
    by exists f, c1, c2, c'. }
  destruct g; cbn [gate_call]; apply Hgen; (lia || done || (rewrite !elem_of_cons; tauto)).
Qed.

(** * A driver function *)

(** A function that adds its two arguments and returns. *)
Definition sample_callee (f : Z) (c : cpu) : option cpu :=
  Some (set_reg RAX (regs c RDI + regs c RSI) (set_reg RSP (regs c RSP + 8) c)).

Lemma sample_callee_ok f : callee_ok sample_callee f.
Proof.
  intros c. eexists. split; [done|]. split; try done.
  - by rewrite !regs_set, decide_False, decide_True.
  - intros r Hs Hr. rewrite !regs_set, !decide_False by (done || by intros ->). done.
Qed.

Definition sample_cpu : cpu :=
  mk_cpu (mk_regs 1 3 2 40 2 0x401000 6 0x9008 8 9 10 11 12 13 14 15) (fun a => if a =? 0x9008 then 0x400123 else a) 0x0C (Z.setbit 0 22) 0.

Lemma gate_locks_witness :
  exists c', routine sample_callee 0x400555 (trampoline 2) sample_cpu = Some c' /\
    pkru c' = 0x0C /\ regs c' RAX = 42 /\ rip c' = 0x400123 /\ regs c' R12 = 12.
Proof.
  destruct (gate_locks sample_callee 0x400555 2 0x401000 sample_cpu) as (c1 & c2 & c' & E1 & E2 & E3 & E4 & E5 & E6 & E7 & E8).
  - lia.
  - apply sample_callee_ok.
  - reflexivity.
  - reflexivity.
  - cbn. lia.
  - exists c'. split_and!; [done|done| |done|by apply (rt_saved _ _ E8)].
    injection E2 as <-. rewrite E6. cbn [map take fn_args gate_args] in E4. injection E4 as Ea Eb.
    rewrite regs_set, decide_True, Ea, Eb by done. reflexivity.
Defined.
