(* ===== verification/Isr.v ===== *)
(** Taking an interrupt: src/arch/interrupts.asm, with the descriptor table and the
    handler of [Idt] and the instructions of [Gate].

    The processor's part of an interrupt (the frame it pushes, [iretq]) is written
    out; the compiled code of the handler is a parameter that keeps the calling
    convention, and what it does to the frame and to the controllers is
    [Idt.interrupt_handler]. *)

From Stdlib Require Import ZArith Lia Bool.
From stdpp Require Import base list numbers option.
From S2P Require Import Prelude Gate Idt.

Open Scope Z_scope.

(** * The machine *)

(** The processor, its flags and segments, and what [Idt] has. *)
Record mach := mk_mach { core : cpu; rflags : Z; cs : Z; ss : Z; irqs : irq_state }.

Definition set_core (c : cpu) (m : mach) : mach := mk_mach c (rflags m) (cs m) (ss m) (irqs m).

(** The vectors for which the processor pushes an error code. *)
Definition hw_error (v : nat) : bool := bool_decide (v ∈ [8; 10; 11; 12; 13; 14; 17; 21; 29; 30]%nat).

(** An interrupt gate clears the flags IF and TF (and NT, RF). *)
Definition masked (f : Z) : Z := Z.clearbit (Z.clearbit (Z.clearbit (Z.clearbit f 9) 8) 14) 16.

(** The processor takes vector [v]: it aligns the stack, pushes the frame, and goes
    where the gate says.  [None] without a gate that is present. *)
Definition enter_gate (v : nat) (err : Z) (m : mach) : option mach :=
  g ← idt (irqs m) !! v;
  if Z.testbit (attributes g) 7 then
    let c := core m in
    let c1 := set_reg RSP (regs c RSP - regs c RSP mod 16) c in
    let c2 := push (Gate.rip c) (push (cs m) (push (rflags m) (push (regs c RSP) (push (ss m) c1)))) in
    let c3 := if hw_error v then push err c2 else c2 in
    Some (mk_mach (set_rip (gate_target g) c3) (masked (rflags m)) (kernel_cs g) (ss m) (irqs m))
  else None.

Definition iretq (m : mach) : mach :=
  let '(rip', c) := pop (core m) in
  let '(cs', c) := pop c in
  let '(rflags', c) := pop c in
  let '(rsp', c) := pop c in
  let '(ss', c) := pop c in
  mk_mach (set_rip rip' (set_reg RSP rsp' c)) rflags' cs' ss' (irqs m).

(** * The stubs *)

(** The vectors declared with [ISR_ERR]; the other ones of the 48 are [ISR_NOERR]. *)
Definition ISR_ERR (v : nat) : bool := bool_decide (v ∈ [8; 10; 11; 12; 13; 14; 17; 30]%nat).

Definition isr_stub (v : nat) (c : cpu) : cpu :=
  push (Z.of_nat v) (if ISR_ERR v then c else push 0 c).

(** The pushes of [isr_common], in their order. *)
Definition isr_pushes : list reg := [R15; R14; R13; R12; R11; R10; R9; R8; RBP; RDI; RSI; RDX; RCX; RBX; RAX].

(** The handler resumes the machine or halts it. *)
Inductive taken := Resumed (m : mach) | Halted (m : mach) | NoStub.

Section stubs.
(** The addresses of the stubs, the compiled code of the handler, and the address
    behind its call. *)
Context (isr_stub_table : nat -> Z) (compiled : cpu -> cpu) (after_call : Z).

(** [call interrupt_handler]: the pointer to the frame is in RDI; the numbers of the
    words are those of [registers_t]. *)
Definition call_handler (m : mach) : taken :=
  let c := push after_call (core m) in
  let p := regs c RDI in
  let frame := Idt.mk_regs (stack c (p + 8 * 15)) (stack c (p + 8 * 16)) (stack c (p + 8 * 17)) in
  match interrupt_handler frame (irqs m) with
  | (Resume frame', s) =>
      Resumed (mk_mach (compiled (set_stack (p + 8 * 17) (Idt.rip frame') c)) (rflags m) (cs m) (ss m) s)
  | (Halt, s) => Halted (mk_mach c (rflags m) (cs m) (ss m) s)
  end.

(** The instructions before the call are [Gate.run]'s; none of them can fault. *)
Definition exec (code : list instr) (c : cpu) : cpu := default c (run (fun _ _ => None) 0 code c).

Definition isr_common (m : mach) : taken :=
  let c := exec (map Push isr_pushes ++ [Mov RDI RSP]) (core m) in
  match call_handler (set_core c m) with
  | Resumed m' =>
      let c := exec (map Pop (rev isr_pushes)) (core m') in
      let c := set_reg RSP (u64 (regs c RSP + 16)) c in
      Resumed (iretq (set_core c m'))
  | r => r
  end.

(** The stub at an address, from the table. *)
Definition stub_at (a : Z) : option nat := fst <$> list_find (fun v => isr_stub_table v = a) (seq 0 48).

Definition take_interrupt (v : nat) (err : Z) (m : mach) : taken :=
  match enter_gate v err m with
  | Some m' =>
      match stub_at (Gate.rip (core m')) with
      | Some w => isr_common (set_core (isr_stub w (core m')) m')
      | None => NoStub
      end
  | None => NoStub
  end.

End stubs.

(** * Facts *)

(** Words pushed one after the other lie on the stack, the last one lowest. *)
Definition push_all (vs : list Z) (c : cpu) : cpu := foldl (fun c v => push v c) c vs.

Lemma push_all_spec (vs : list Z) (c : cpu) :
  8 * Z.of_nat (length vs) <= regs c RSP < 2 ^ 64 ->
  let c' := push_all vs c in
  regs c' RSP = regs c RSP - 8 * Z.of_nat (length vs) /\ (forall r, r <> RSP -> regs c' r = regs c r) /\
  (forall i v, rev vs !! i = Some v -> stack c' (regs c' RSP + 8 * Z.of_nat i) = v) /\
  (forall a, regs c RSP <= a -> stack c' a = stack c a) /\ pkru c' = pkru c /\ cr4 c' = cr4 c /\ Gate.rip c' = Gate.rip c.
Proof.
  revert c. induction vs as [|v vs IH]; intros c Hr.
  { cbn. split_and!; [lia|done..]. }
  cbn [push_all foldl length] in *. fold (push_all vs (push v c)). set (a := regs c RSP - 8).
  assert (push v c = set_stack a v (set_reg RSP a c)) as E0 by (unfold push, u64; by rewrite Z.mod_small by lia).
  assert (forall x, regs (push v c) x = if decide (x = RSP) then a else regs c x) as E1 by (intros x; rewrite E0; apply regs_set).
  destruct (IH (push v c)) as (Esp & Eregs & Estk & Eabove & Erest); [rewrite E1, decide_True by done; unfold a; lia|].
  rewrite E1, decide_True in Esp by done. set (c' := push_all vs (push v c)) in *.
  assert (forall x, a <= x -> stack c' x = if x =? a then v else stack c x) as Hx
    by (intros x Hx; rewrite Eabove by (by rewrite E1, decide_True); by rewrite E0).
  cbv zeta. rewrite E0 in Erest. split; [unfold a in *; lia|]. split_and!; [| | |exact (proj1 Erest)|exact (proj1 (proj2 Erest))|exact (proj2 (proj2 Erest))].
  - intros x Hxs. by rewrite Eregs, E1, decide_False.
  - intros i x Hi. cbn [rev] in Hi. apply lookup_app_Some in Hi as [Hi|[Hlen Hi]]; [by apply Estk|].
    rewrite length_rev in *. destruct (i - length vs)%nat as [|k] eqn:Ek; [|done]. injection Hi as <-.
    replace (Z.of_nat i) with (Z.of_nat (length vs)) by lia. rewrite Esp, Hx by lia.
    replace (a - 8 * Z.of_nat (length vs) + 8 * Z.of_nat (length vs)) with a by lia. by rewrite Z.eqb_refl.
  - intros x Hxs. rewrite Hx by (unfold a; lia). by rewrite (proj2 (Z.eqb_neq _ _)) by (unfold a; lia).
Qed.

Lemma run_pushes (callee : Z -> cpu -> option cpu) (ra : Z) (rs : list reg) (c : cpu) :
  RSP ∉ rs -> run callee ra (map Push rs) c = Some (push_all (map (regs c) rs) c).
Proof.
  revert c. induction rs as [|r rs IH]; intros c Hsp; [done|]. apply not_elem_of_cons in Hsp as [Hne Hsp].
  cbn [map run step mbind option_bind]. rewrite IH by done. change (push_all (regs c r :: map (regs c) rs) c) with (push_all (map (regs c) rs) (push (regs c r) c)).
  do 2 f_equal. apply map_ext_in. intros x Hx.
  etransitivity; [apply (regs_set RSP)|]. apply decide_False. intros ->. by apply Hsp, list_elem_of_In.
Qed.

Lemma iretq_spec (m : mach) :
  let c := core m in let sp := regs c RSP in
  0 <= sp -> sp + 40 < 2 ^ 64 ->
  iretq m = mk_mach (set_rip (stack c sp) (set_reg RSP (stack c (sp + 24)) c)) (stack c (sp + 16)) (stack c (sp + 8)) (stack c (sp + 32)) (irqs m).
Proof.
  destruct m as [[[a bx b d si di bp sp b8 b9 b10 b11 b12 b13 b14 b15] st pk c4 ip] fl k1 k2 s].
  intros c sp' H0 H1. change sp' with sp in *. unfold c. clear c sp'.
  unfold iretq, pop. cbv [core regs get file rsp set_reg put stack pkru cr4 Gate.rip set_rip rflags cs ss irqs].
  unfold u64. rewrite !(Z.mod_small (sp + 8)), !(Z.mod_small (sp + 8 + 8)), !(Z.mod_small (sp + 8 + 8 + 8)) by lia.
  replace (sp + 8 + 8 + 8 + 8) with (sp + 32) by lia. replace (sp + 8 + 8 + 8) with (sp + 24) by lia.
  replace (sp + 8 + 8) with (sp + 16) by lia. rewrite (Z.mod_small (sp + 32)) by lia. done.
Qed.

Section taking.
Context (isr_stub_table : nat -> Z) (compiled : cpu -> cpu) (after_call : Z).
(** The compiled handler returns as any function does, and leaves PKRU alone. *)
Context (Hcompiled : forall c, returns c (compiled c) /\ pkru (compiled c) = pkru c).

(** The frame of the handler, at the stack pointer when [isr_common] starts. *)
Definition frame_of (c : cpu) : registers_t :=
  Idt.mk_regs (stack c (regs c RSP)) (stack c (regs c RSP + 8)) (stack c (regs c RSP + 16)).

Lemma isr_pushes_ok : RSP ∉ isr_pushes /\ RSP ∉ rev isr_pushes /\ NoDup (rev isr_pushes) /\ (forall r, r <> RSP -> r ∈ rev isr_pushes).
Proof.
  split_and!; [apply (bool_decide_unpack _); reflexivity..|]. intros r Hr.
  destruct r; (apply (bool_decide_unpack _); reflexivity) || done.
Qed.

Lemma exec_mov (code : list instr) (d r : reg) (c c' : cpu) :
  run (fun _ _ => None) 0 code c = Some c' -> exec (code ++ [Mov d r]) c = set_reg d (regs c' r) c'.
Proof. intros E. unfold exec. by rewrite run_app, E. Qed.

(** The call: the registers are on the stack below the frame. *)
Lemma enter_facts (c c' : cpu) :
  run (fun _ _ => None) 0 (map Push isr_pushes) c = Some c' -> regs c' RSP = regs c RSP - 8 * Z.of_nat 15 ->
  (forall i v, map (regs c) (rev isr_pushes) !! i = Some v -> stack c' (regs c' RSP + 8 * Z.of_nat i) = v) ->
  (forall a, regs c RSP <= a -> stack c' a = stack c a) -> pkru c' = pkru c -> cr4 c' = cr4 c ->
  exists c1, exec (map Push isr_pushes ++ [Mov RDI RSP]) c = c1 /\ regs c1 RSP = regs c RSP - 120 /\ regs c1 RDI = regs c RSP - 120 /\
    (forall i r, rev isr_pushes !! i = Some r -> stack c1 (regs c1 RSP + 8 * Z.of_nat i) = regs c r) /\
    (forall a, regs c RSP <= a -> stack c1 a = stack c a) /\ pkru c1 = pkru c /\ cr4 c1 = cr4 c.
Proof.
  intros Erun Esp Estk Eabove Epk Ec4. exists (set_reg RDI (regs c' RSP) c'). split; [by apply exec_mov|].
  change (stack (set_reg RDI (regs c' RSP) c')) with (stack c').
  rewrite !regs_set, (decide_False (P := RSP = RDI)), (decide_True (P := RDI = RDI)) by done.
  split_and!; [lia|lia| |done|done|done].
  intros i r Hi. apply Estk. etransitivity; [apply list_lookup_fmap|by rewrite Hi].
Qed.

Lemma isr_enter (c : cpu) :
  256 <= regs c RSP < 2 ^ 64 ->
  exists c1, exec (map Push isr_pushes ++ [Mov RDI RSP]) c = c1 /\ regs c1 RSP = regs c RSP - 120 /\ regs c1 RDI = regs c RSP - 120 /\
    (forall i r, rev isr_pushes !! i = Some r -> stack c1 (regs c1 RSP + 8 * Z.of_nat i) = regs c r) /\
    (forall a, regs c RSP <= a -> stack c1 a = stack c a) /\ pkru c1 = pkru c /\ cr4 c1 = cr4 c.
Proof.
  intros Hr. destruct isr_pushes_ok as (Hn & _ & _ & _).
  assert (length (map (regs c) isr_pushes) = 15%nat) as Hlen by (by rewrite length_map).
  destruct (push_all_spec (map (regs c) isr_pushes) c) as (Esp & _ & Estk & Eabove & Epk & Ec4 & _); [rewrite Hlen; lia|].
  rewrite Hlen in Esp. rewrite <- map_rev in Estk.
  exact (enter_facts c _ (run_pushes _ _ isr_pushes c Hn) Esp Estk Eabove Epk Ec4).
Qed.

(** The way back: every register comes off the stack, and [iretq] takes the frame. *)
Lemma isr_leave (saved : reg -> Z) (m : mach) :
  let c := core m in
  (forall i r, rev isr_pushes !! i = Some r -> stack c (regs c RSP + 8 * Z.of_nat i) = saved r) ->
  0 <= regs c RSP -> regs c RSP + 256 < 2 ^ 64 ->
  let base := regs c RSP + 120 in
  let c1 := exec (map Pop (rev isr_pushes)) c in
  exists c', iretq (set_core (set_reg RSP (u64 (regs c1 RSP + 16)) c1) m) =
      mk_mach c' (stack c (base + 32)) (stack c (base + 24)) (stack c (base + 48)) (irqs m) /\
    (forall r, r <> RSP -> regs c' r = saved r) /\ regs c' RSP = stack c (base + 40) /\ Gate.rip c' = stack c (base + 16) /\
    stack c' = stack c /\ pkru c' = pkru c /\ cr4 c' = cr4 c.
Proof.
  intros c Hs H0 H1 base. destruct isr_pushes_ok as (_ & Hn & Hnd & Hall).
  assert (regs c RSP + 8 * Z.of_nat (length (rev isr_pushes)) = base) as Eb by (change (length (rev isr_pushes)) with 15%nat; unfold base; lia).
  destruct (run_pops (fun _ _ => None) 0 (rev isr_pushes) c Hnd Hn H0) as (c1 & E1 & Esp & Ein & _ & Est & Epk & Ec4);
    [rewrite Eb; unfold base; lia|]. rewrite Eb in Esp. cbv zeta. unfold exec. rewrite E1. change (default c (Some c1)) with c1.
  unfold u64. rewrite Esp, Z.mod_small by (unfold base; lia).
  set (m2 := set_core _ m). assert (regs (core m2) RSP = base + 16) as Em by (cbn [m2 set_core core]; by rewrite regs_set, decide_True).
  rewrite (iretq_spec m2) by (rewrite Em; unfold base; lia). rewrite Em.
  change (stack (core m2)) with (stack c1). rewrite Est. change (irqs m2) with (irqs m).
  replace (base + 16 + 16) with (base + 32) by lia. replace (base + 16 + 8) with (base + 24) by lia.
  replace (base + 16 + 32) with (base + 48) by lia. replace (base + 16 + 24) with (base + 40) by lia.
  eexists. split; [reflexivity|]. split_and!; [|exact (regs_set RSP (stack c (base + 40)) (core m2) RSP)|done|done|done|done].
  intros r Hr. specialize (Hall r Hr). apply list_elem_of_lookup in Hall as [i Hi].
  change (regs (set_reg RSP (stack c (base + 40)) (set_reg RSP (base + 16) c1)) r = saved r).
  rewrite !regs_set, !decide_False by done. rewrite (Ein i r Hi). by apply Hs.
Qed.

(** The whole stub after its own pushes. *)
Lemma isr_common_spec (m : mach) :
  let c := core m in let sp := regs c RSP in
  256 <= sp -> sp + 256 < 2 ^ 64 ->
  match interrupt_handler (frame_of c) (irqs m) with
  | (Resume f, s) => exists c', isr_common compiled after_call m =
        Resumed (mk_mach c' (stack c (sp + 32)) (stack c (sp + 24)) (stack c (sp + 48)) s) /\
      (forall r, r <> RSP -> regs c' r = regs c r) /\ regs c' RSP = stack c (sp + 40) /\ Gate.rip c' = Idt.rip f /\
      (forall a, sp + 24 <= a -> stack c' a = stack c a) /\ pkru c' = pkru c /\ cr4 c' = cr4 c
  | (Halt, s) => exists c', isr_common compiled after_call m = Halted (mk_mach c' (rflags m) (cs m) (ss m) s)
  end.
Proof.
  intros c sp H0 H1. destruct (isr_enter c) as (c1 & E1 & Esp & Erdi & Estk & Eabove & Epk & Ec4); [unfold sp in *; lia|].
  unfold isr_common. change (core m) with c. rewrite E1. unfold call_handler. cbv zeta. cbn [core set_core irqs rflags cs ss].
  set (c2 := push after_call c1).
  assert (regs c2 RSP = sp - 128 /\ regs c2 RDI = sp - 120) as [Es2 Ed2].
  { unfold c2, push, u64. rewrite Esp, Z.mod_small by (unfold sp in *; lia).
    change (regs (set_reg RSP (regs c RSP - 120 - 8) c1) RSP = sp - 128 /\ regs (set_reg RSP (regs c RSP - 120 - 8) c1) RDI = sp - 120).
    rewrite !regs_set, decide_True, decide_False, Erdi by done. unfold sp. split; lia. }
  assert (forall a, sp - 120 <= a -> stack c2 a = stack c1 a) as S2.
  { intros a Ha. unfold c2, push, u64. rewrite Esp, Z.mod_small by (unfold sp in *; lia).
    change ((if a =? regs c RSP - 120 - 8 then after_call else stack c1 a) = stack c1 a).
    by rewrite (proj2 (Z.eqb_neq _ _)) by (unfold sp in *; lia). }
  rewrite Ed2. change (sp - 120 + 8 * 15) with (sp - 120 + 120). change (8 * 16) with 128. change (8 * 17) with 136.
  assert (Idt.mk_regs (stack c2 (sp - 120 + 120)) (stack c2 (sp - 120 + 128)) (stack c2 (sp - 120 + 136)) = frame_of c) as ->.
  { unfold frame_of. change (regs c RSP) with sp. rewrite !S2, !Eabove by (unfold sp; lia). f_equal; f_equal; lia. }
  destruct (interrupt_handler (frame_of c) (irqs m)) as [[f|] s]; [|by eexists].
  set (c3 := set_stack (sp - 120 + 136) (Idt.rip f) c2). destruct (Hcompiled c3) as [[Rsp _ Rst Rc4] Rpk].
  change (regs c3 RSP) with (regs c2 RSP) in Rsp, Rst. rewrite Es2 in Rsp, Rst.
  assert (forall a, sp - 120 <= a -> stack (compiled c3) a = if a =? sp + 16 then Idt.rip f else stack c1 a) as S3.
  { intros a Ha. rewrite Rst by lia. change (stack c3 a) with (if a =? sp - 120 + 136 then Idt.rip f else stack c2 a).
    rewrite S2 by lia. by replace (sp - 120 + 136) with (sp + 16) by lia. }
  set (m3 := mk_mach (compiled c3) _ _ _ s). assert (regs (core m3) RSP = sp - 120) as Em by (cbn [m3 core]; lia).
  destruct (isr_leave (regs c) m3) as (c' & E' & Eregs & Ersp & Erip & Est & Epk' & Ec4').
  - intros i r Hi. rewrite Em. cbn [m3 core]. assert (i < 15)%nat by (apply lookup_lt_Some in Hi; exact Hi).
    rewrite S3 by lia. rewrite (proj2 (Z.eqb_neq _ _)) by lia. rewrite <- (Estk i r Hi), Esp. f_equal; unfold sp; lia.
  - rewrite Em. lia.
  - rewrite Em. lia.
  - rewrite Em in *. replace (sp - 120 + 120) with sp in * by lia. cbn [m3 core irqs] in *.
    assert (forall a, sp + 24 <= a -> stack (compiled c3) a = stack c a) as S4
      by (intros a Ha; rewrite S3 by lia; rewrite (proj2 (Z.eqb_neq _ _)) by lia; apply Eabove; unfold sp in *; lia).
    exists c'. split_and!.
    + rewrite E'. do 2 f_equal; apply S4; lia.
    + done.
    + rewrite Ersp. apply S4. lia.
    + rewrite Erip, S3 by lia. by rewrite Z.eqb_refl.
    + intros a Ha. rewrite Est. by apply S4.
    + rewrite Epk', Rpk. exact Epk.
    + rewrite Ec4', Rc4. exact Ec4.
Qed.

(** ** From the interrupted program and back *)

(** The table has a gate for each stub. *)
Definition idt_installed (s : irq_state) : Prop :=
  forall v, (v < 48)%nat -> exists g, idt s !! v = Some g /\ gate_target g = isr_stub_table v /\ kernel_cs g = 0x38 /\ attributes g = 0x8E.

Context (Hinj : forall v w, (v < 48)%nat -> (w < 48)%nat -> isr_stub_table v = isr_stub_table w -> v = w).

Lemma stub_found (v : nat) : (v < 48)%nat -> stub_at isr_stub_table (isr_stub_table v) = Some v.
Proof.
  intros Hv. unfold stub_at. replace (list_find _ _) with (Some (v, v)); [done|]. symmetry. apply list_find_Some.
  split_and!; [by apply lookup_seq|done|]. intros j y Hj Hlt E. apply lookup_seq in Hj as [-> Hj]. cbn in *.
  apply Hinj in E; lia.
Qed.

(** The words the processor and the stub push. *)
Definition hw_frame (v : nat) (err : Z) (m : mach) : list Z :=
  [ss m; regs (core m) RSP; rflags m; cs m; Gate.rip (core m); (if hw_error v then err else 0); Z.of_nat v].

Definition aligned_stack (c : cpu) : cpu := set_reg RSP (regs c RSP - regs c RSP mod 16) c.

Lemma push_set_rip (t x : Z) (c : cpu) : push x (set_rip t c) = set_rip t (push x c).
Proof. reflexivity. Qed.

Lemma deliver_pushes (v : nat) (err : Z) (m : mach) :
  (v < 48)%nat -> idt_installed (irqs m) -> hw_error v = ISR_ERR v ->
  exists m', enter_gate v err m = Some m' /\ Gate.rip (core m') = isr_stub_table v /\ irqs m' = irqs m /\
    isr_stub v (core m') = set_rip (isr_stub_table v) (push_all (hw_frame v err m) (aligned_stack (core m))).
Proof.
  intros Hv Hidt Herr. destruct (Hidt v Hv) as (g & Hg & Htgt & Hcs & Hat). unfold enter_gate. rewrite Hg.
  cbn [mbind option_bind]. rewrite Hat. change (Z.testbit 0x8E 7) with true. cbv iota zeta. rewrite Htgt.
  eexists. split; [reflexivity|]. cbn [core irqs]. split; [done|]. split; [done|].
  unfold isr_stub, hw_frame. fold (aligned_stack (core m)). rewrite <- Herr.
  destruct (hw_error v); cbn [push_all foldl]; by rewrite !push_set_rip.
Qed.

(** What is on the stack when [isr_common] starts. *)
Lemma frame_facts (v : nat) (err t : Z) (m : mach) :
  let c := core m in
  512 <= regs c RSP < 2 ^ 64 ->
  let c' := set_rip t (push_all (hw_frame v err m) (aligned_stack c)) in let sp := regs c' RSP in
  sp = regs c RSP - regs c RSP mod 16 - 56 /\ (forall r, r <> RSP -> regs c' r = regs c r) /\
  frame_of c' = Idt.mk_regs (Z.of_nat v) (if hw_error v then err else 0) (Gate.rip c) /\
  stack c' (sp + 24) = cs m /\ stack c' (sp + 32) = rflags m /\ stack c' (sp + 40) = regs c RSP /\ stack c' (sp + 48) = ss m /\
  (forall a, regs c RSP <= a -> stack c' a = stack c a) /\ pkru c' = pkru c /\ cr4 c' = cr4 c.
Proof.
  intros c Hsp. pose proof (Z.mod_pos_bound (regs c RSP) 16 ltac:(lia)) as Hm. set (vs := hw_frame v err m).
  assert (forall r, regs (aligned_stack c) r = if decide (r = RSP) then regs c RSP - regs c RSP mod 16 else regs c r) as E1
    by (intros r; apply regs_set).
  assert (regs (aligned_stack c) RSP = regs c RSP - regs c RSP mod 16) as E1' by (by rewrite E1, decide_True).
  destruct (push_all_spec vs (aligned_stack c)) as (Esp & Eregs & W & Eabove & Epk & Ec4 & _); [rewrite E1'; cbn [length vs hw_frame]; lia|].
  change (length vs) with 7%nat in Esp. generalize dependent (push_all vs (aligned_stack c)). intros c1 Esp Eregs W Eabove Epk Ec4.
  cbv zeta. change (regs (set_rip t c1)) with (regs c1). change (stack (set_rip t c1)) with (stack c1).
  split_and!; [lia| | |exact (W 3%nat _ eq_refl)|exact (W 4%nat _ eq_refl)|exact (W 5%nat _ eq_refl)|exact (W 6%nat _ eq_refl)| |exact Epk|exact Ec4].
  - intros r Hr. by rewrite Eregs, E1, decide_False.
  - unfold frame_of. change (regs (set_rip t c1)) with (regs c1). change (stack (set_rip t c1)) with (stack c1).
    f_equal; [|exact (W 1%nat _ eq_refl)|exact (W 2%nat _ eq_refl)].
    rewrite <- (Z.add_0_r (regs c1 RSP)). exact (W 0%nat _ eq_refl).
  - intros a Ha. rewrite Eabove by lia. done.
Qed.


(** The whole interrupt is what the handler makes of the frame. *)
Lemma take_interrupt_spec (v : nat) (err : Z) (m : mach) :
  (v < 48)%nat -> idt_installed (irqs m) -> hw_error v = ISR_ERR v -> 512 <= regs (core m) RSP < 2 ^ 64 - 512 ->
  let c := core m in
  match interrupt_handler (Idt.mk_regs (Z.of_nat v) (if hw_error v then err else 0) (Gate.rip c)) (irqs m) with
  | (Resume f, s) => exists c', take_interrupt isr_stub_table compiled after_call v err m =
        Resumed (mk_mach c' (rflags m) (cs m) (ss m) s) /\
      (forall r, regs c' r = regs c r) /\ Gate.rip c' = Idt.rip f /\
      (forall a, regs c RSP <= a -> stack c' a = stack c a) /\ pkru c' = pkru c /\ cr4 c' = cr4 c
  | (Halt, s) => exists m', take_interrupt isr_stub_table compiled after_call v err m = Halted m' /\ irqs m' = s
  end.
Proof.
  intros Hv Hidt Herr Hsp c. destruct (deliver_pushes v err m Hv Hidt Herr) as (m' & Ed & Erip & Eirq & Estub).
  unfold take_interrupt. rewrite Ed, Erip, stub_found, Estub by done.
  destruct (frame_facts v err (isr_stub_table v) m) as (Esp & Eregs & Ef & Ecs & Efl & Ersp & Ess & Eabove & Epk & Ec4); [lia|].
  unfold c in *. clear c. pose proof (Z.mod_pos_bound (regs (core m) RSP) 16 ltac:(lia)) as Hm. clear Estub.
  generalize dependent (set_rip (isr_stub_table v) (push_all (hw_frame v err m) (aligned_stack (core m)))).
  intros c1 Esp Eregs Ef Ecs Efl Ersp Ess Eabove Epk Ec4.
  pose proof (isr_common_spec (set_core c1 m')) as Hc. cbn [core set_core irqs rflags cs ss] in Hc.
  rewrite Ef, Eirq in Hc. specialize (Hc ltac:(lia) ltac:(lia)).
  destruct (interrupt_handler _ (irqs m)) as [[f|] s].
  - destruct Hc as (c' & -> & Hregs & Hrsp & Hrip & Hst & Hpk & Hc4). exists c'. rewrite Ecs, Efl, Ess. split; [done|].
    rewrite Ersp in Hrsp. split_and!; [|done| |congruence|congruence].
    + intros r. destruct (decide (r = RSP)) as [->|N]; [done|]. by rewrite Hregs, Eregs.
    + intros a Ha. rewrite Hst by lia. by apply Eabove.
  - destruct Hc as (c' & ->). by eexists.
Qed.

(** C27: a hardware interrupt is invisible to the program it interrupts, wherever it
    strikes, also inside a gate: the program goes on at the same instruction with
    every register, its flags, its segments, the protection keys and all of its
    stack as they were, and the network is marked as pending and the interrupt
    ended on the controllers. *)
Theorem interrupt_transparent (v : nat) (err : Z) (m : mach) :
  (32 <= v < 48)%nat -> idt_installed (irqs m) -> 512 <= regs (core m) RSP < 2 ^ 64 - 512 ->
  exists m', take_interrupt isr_stub_table compiled after_call v err m = Resumed m' /\
    (forall r, regs (core m') r = regs (core m) r) /\ Gate.rip (core m') = Gate.rip (core m) /\
    (rflags m', cs m', ss m', pkru (core m'), cr4 (core m')) = (rflags m, cs m, ss m, pkru (core m), cr4 (core m)) /\
    (forall a, regs (core m) RSP <= a -> stack (core m') a = stack (core m) a) /\
    irqs m' = pic_send_eoi (Z.of_nat v - 32) (set_packet_pending 1 (irqs m)).
Proof.
  intros Hv Hidt Hsp. assert (hw_error v = false /\ ISR_ERR v = false) as [H1 H2].
  { unfold hw_error, ISR_ERR. rewrite !bool_decide_false by (rewrite !elem_of_cons, elem_of_nil; lia). done. }
  pose proof (take_interrupt_spec v err m ltac:(lia) Hidt (eq_trans H1 (eq_sym H2)) Hsp) as Ht. cbv zeta in Ht.
  unfold interrupt_handler in Ht. cbn [int_no] in Ht.
  rewrite (proj2 (Z.eqb_neq (Z.of_nat v) 14)), (proj2 (Z.leb_le 32 (Z.of_nat v))), (proj2 (Z.ltb_lt (Z.of_nat v) 48)) in Ht by lia.
  rewrite (Z.mod_small (Z.of_nat v - 32)) in Ht by lia.
  cbn [andb] in Ht. destruct Ht as (c' & -> & Hregs & Hrip & Hst & Hpk & Hc4). eexists. split; [reflexivity|]. cbn.
  split_and!; [done|done|by rewrite Hpk, Hc4|done|done].
Qed.

(** Any other vector halts the machine, but for the fault of the self-test. *)
Lemma exception_halts (v : nat) (err : Z) (m : mach) :
  (v < 32)%nat -> hw_error v = ISR_ERR v -> (v <> 14%nat \/ mpk_test_in_progress (irqs m) = 0) ->
  idt_installed (irqs m) -> 512 <= regs (core m) RSP < 2 ^ 64 - 512 ->
  exists m', take_interrupt isr_stub_table compiled after_call v err m = Halted m' /\ irqs m' = irqs m.
Proof.
  intros Hv He Hp Hidt Hsp. pose proof (take_interrupt_spec v err m ltac:(lia) Hidt He Hsp) as Ht. cbv zeta in Ht.
  unfold interrupt_handler in Ht. cbn [int_no] in Ht.
  assert ((Z.of_nat v =? 14) && negb (mpk_test_in_progress (irqs m) =? 0) = false) as E.
  { destruct Hp as [Hp| ->]; [|by rewrite andb_false_r]. by rewrite (proj2 (Z.eqb_neq (Z.of_nat v) 14)) by lia. }
  rewrite E, (proj2 (Z.leb_gt 32 (Z.of_nat v))) in Ht by lia. exact Ht.
Qed.

(** The stubs and the processor agree on the error codes, but for two vectors that
    newer processors have. *)
Lemma stub_error_codes (v : nat) : (v < 48)%nat -> hw_error v = ISR_ERR v \/ v = 21%nat \/ v = 29%nat.
Proof. intros Hv. do 48 (destruct v as [|v]; [by (left; reflexivity) || (right; lia)|]). lia. Qed.

(** * The self-test of the diagnostic *)

(** A page fault that a protection key caused on a page that is present. *)
Definition PF_PROTECTION_KEY : Z := 0x21.

(** The instruction [mov (%1), %b0], two bytes long: it reads a byte of a page with
    the given key into the low byte of RAX, or faults. *)
Definition selftest_read (value key : Z) (m : mach) : taken :=
  let c := core m in
  if pkru_allows (pkru c) key false then
    Resumed (set_core (set_rip (u64 (Gate.rip c + 2)) (set_reg RAX (Z.lor (Z.land (regs c RAX) (2 ^ 64 - 256)) value) c)) m)
  else take_interrupt isr_stub_table compiled after_call 14 PF_PROTECTION_KEY m.

(** The messages of the test. *)
Inductive selftest := CannotTest | ViolationCaught | NotProtecting (value : Z) | TestHalted.

Definition violation_selftest (target value key : Z) (m : mach) : selftest * mach :=
  if target =? 0 then (CannotTest, m)
  else
    match selftest_read value key (mk_mach (core m) (rflags m) (cs m) (ss m) (set_mpk_test 1 0 (irqs m))) with
    | Resumed m' => (if negb (mpk_test_fault_occurred (irqs m') =? 0) then ViolationCaught else NotProtecting value, m')
    | Halted m' => (TestHalted, m')
    | NoStub => (TestHalted, m)
    end.

(** With key 1 locked the test catches the violation, and goes on behind the read
    with nothing of the machine changed. *)
Lemma selftest_catches (target value : Z) (m : mach) :
  target <> 0 -> pkru (core m) = 0x0C -> idt_installed (irqs m) -> 512 <= regs (core m) RSP < 2 ^ 64 - 512 ->
  exists m', violation_selftest target value 1 m = (ViolationCaught, m') /\
    (forall r, regs (core m') r = regs (core m) r) /\ Gate.rip (core m') = u64 (Gate.rip (core m) + 2) /\
    pkru (core m') = pkru (core m) /\ cr4 (core m') = cr4 (core m) /\ irqs m' = set_mpk_test 0 1 (irqs m).
Proof.
  intros Ht Hpk Hidt Hsp. unfold violation_selftest. rewrite (proj2 (Z.eqb_neq target 0)) by done.
  set (m1 := mk_mach _ _ _ _ _). unfold selftest_read. change (core m1) with (core m). rewrite Hpk, locked_keys by lia.
  change (negb (1 =? 1)) with false. cbv iota.
  destruct (take_interrupt_spec 14 PF_PROTECTION_KEY m1 ltac:(lia) Hidt eq_refl Hsp) as (c' & -> & Hregs & Hrip & _ & Hpk' & Hc4).
  eexists. split; [reflexivity|]. cbn [core irqs]. split_and!; [done|exact Hrip|by rewrite Hpk'|done|done].
Qed.

(** A test that finds no protection leaves its trap set: the next page fault, however
    real, does not halt the machine but is skipped by two bytes. *)
Theorem selftest_leaves_trap (target value key err : Z) (m : mach) :
  target <> 0 -> pkru_allows (pkru (core m)) key false = true -> idt_installed (irqs m) -> 512 <= regs (core m) RSP < 2 ^ 64 - 512 ->
  exists m1 m2, violation_selftest target value key m = (NotProtecting value, m1) /\
    take_interrupt isr_stub_table compiled after_call 14 err m1 = Resumed m2 /\
    Gate.rip (core m2) = u64 (Gate.rip (core m1) + 2).
Proof.
  intros Ht Hpk Hidt Hsp. unfold violation_selftest. rewrite (proj2 (Z.eqb_neq target 0)) by done.
  set (m0 := mk_mach _ _ _ _ _). unfold selftest_read. change (core m0) with (core m). rewrite Hpk.
  set (m1 := set_core _ m0). exists m1.
  destruct (take_interrupt_spec 14 err m1 ltac:(lia) Hidt eq_refl) as (c' & E & _ & Hrip & _).
  - change (core m1) with (set_rip (u64 (Gate.rip (core m) + 2)) (set_reg RAX (Z.lor (Z.land (regs (core m) RAX) (2 ^ 64 - 256)) value) (core m))).
    assert (forall t x c, regs (set_rip t (set_reg RAX x c)) RSP = regs c RSP) as -> by (intros t x c; exact (regs_set RAX x c RSP)). lia.
  - eexists. split; [reflexivity|]. split; [exact E|exact Hrip].
Qed.

End taking.

(** * A machine *)

Definition sample_table (v : nat) : Z := 0x401000 + 16 * (Z.of_nat v mod 64).

(** A function that only returns. *)
Definition sample_compiled (c : cpu) : cpu := set_reg RSP (regs c RSP + 8) c.

Lemma sample_compiled_ok (c : cpu) : returns c (sample_compiled c) /\ pkru (sample_compiled c) = pkru c.
Proof.
  split; [|done]. split; try done.
  - unfold sample_compiled. by rewrite regs_set, decide_True.
  - intros r _ Hr. unfold sample_compiled. by rewrite regs_set, decide_False.
Qed.

Definition sample_mach : mach := mk_mach sample_cpu 0x202 0x38 0x30 (init_idt sample_table irq0).

Lemma sample_installed : idt_installed sample_table (irqs sample_mach).
Proof.
  destruct (init_idt_ready sample_table irq0) as (H & _); [reflexivity| |exact H].
  intros i. unfold sample_table. pose proof (Z.mod_pos_bound (Z.of_nat i) 64). lia.
Qed.

Lemma interrupt_transparent_witness :
  exists m', take_interrupt sample_table sample_compiled 0x400600 43 0 sample_mach = Resumed m' /\
    regs (core m') RDX = 40 /\ regs (core m') RSP = 0x9008 /\ pkru (core m') = 0x0C /\
    packet_pending (irqs m') = 1 /\ eois (pic2 (irqs m')) = 1%nat.
Proof.
  destruct (interrupt_transparent sample_table sample_compiled 0x400600 sample_compiled_ok) with (v := 43%nat) (err := 0) (m := sample_mach)
    as (m' & E & Hregs & _ & Hrest & _ & Hirq).
  - intros v w Hv Hw. unfold sample_table. rewrite !Z.mod_small by lia. lia.
  - lia.
  - apply sample_installed.
  - cbn. lia.
  - exists m'. split; [exact E|]. rewrite !Hregs, Hirq. split_and!; [reflexivity|reflexivity| |reflexivity|reflexivity].
    exact (f_equal (fun x => snd (fst x)) Hrest).
Defined.
