(* ===== verification/Serial.v ===== *)
(** The console: the serial port and its printers in src/kernel.c, [putchar] and
    [printf] of src/net/libc_glue.c, src/xmpp/xmpp_log.c and the decimal printer of
    src/xmpp/mpk_benchmark.c.

    A printer takes the port from a state to a state; [None] stands for a write
    outside a buffer, for a read behind the end of a format, and for a wait that
    is longer than the fuel. *)

From Stdlib Require Import ZArith Lia String Ascii Bool.
From stdpp Require Import base list numbers option.
From S2P Require Import Prelude Libc.

Open Scope Z_scope.

(** * The port *)

(** The registers of the 16550 the code writes, the number of reads of the line
    status, and the bytes sent. *)
Record uart := mk_uart { dll : Z; dlm : Z; ier : Z; lcr : Z; fcr : Z; mcr : Z; lsr_reads : nat; sent : list Z }.

(** The bit of the line control register that gives access to the divisor. *)
Definition dlab (u : uart) : bool := Z.testbit (lcr u) 7.

Definition outb (port val : Z) (u : uart) : uart :=
  let '(mk_uart a b c d e f n s) := u in
  let v := u8 val in
  if port =? 0x3F8 then (if Z.testbit d 7 then mk_uart v b c d e f n s else mk_uart a b c d e f n (s ++ [v]))
  else if port =? 0x3F9 then (if Z.testbit d 7 then mk_uart a v c d e f n s else mk_uart a b v d e f n s)
  else if port =? 0x3FA then mk_uart a b c d v f n s
  else if port =? 0x3FB then mk_uart a b c v e f n s
  else if port =? 0x3FC then mk_uart a b c d e v n s
  else u.

Definition serial_init (u : uart) : uart :=
  let u := outb (0x3F8 + 1) 0x00 u in
  let u := outb (0x3F8 + 3) 0x80 u in
  let u := outb (0x3F8 + 0) 0x03 u in
  let u := outb (0x3F8 + 1) 0x00 u in
  let u := outb (0x3F8 + 3) 0x03 u in
  let u := outb (0x3F8 + 2) 0xC7 u in
  outb (0x3F8 + 4) 0x0B u.

Definition printer : Type := uart -> option uart.

Definition quiet : printer := Some.
Definition then_ (a b : printer) : printer := fun u => a u ≫= b.

#[local] Infix ";;;" := then_ (at level 60, right associativity).

(** [p[i] = v] in an array. *)
Definition store (i v : Z) (buf : list Z) : option (list Z) :=
  if (0 <=? i) && (i <? Z.of_nat (length buf)) then Some (<[Z.to_nat i := v]> buf) else None.

Section port.
(** The line status at each read, and the reads to wait at most. *)
Context (line_status : nat -> Z) (fuel : nat).

Definition inb_lsr (u : uart) : Z * uart :=
  let '(mk_uart a b c d e f n s) := u in (line_status n, mk_uart a b c d e f (S n) s).

(** [while ((inb(0x3F8 + 5) & 0x20) == 0);] *)
Fixpoint wait_thr (k : nat) (u : uart) : option uart :=
  match k with
  | O => None
  | S k' => let '(v, u) := inb_lsr u in if Z.land v 0x20 =? 0 then wait_thr k' u else Some u
  end.

Definition serial_putc (c : Z) : printer := fun u => u ← wait_thr fuel u; Some (outb 0x3F8 c u).

Fixpoint serial_print (s : list Z) : printer :=
  match s with
  | [] => quiet
  | c :: s' => if c =? 0 then quiet else serial_putc c ;;; serial_print s'
  end.

(** [for (i = 17; i >= 0; i--) { buf[i] = hex[n % 16]; n /= 16; }] *)
Fixpoint hex_loop (k : nat) (i n : Z) (buf : list Z) : option (list Z) :=
  match k with
  | O => Some buf
  | S k' => buf ← store i (at_ hex_digits (Z.to_nat (n mod 16))) buf; hex_loop k' (i - 1) (n / 16) buf
  end.

(** [junk] is what the local array held. *)
Definition serial_print_hex (junk : list Z) (n : Z) : printer := fun u =>
  buf ← store 18 0 junk; buf ← hex_loop 18 17 (u64 n) buf;
  (serial_print (str "0x") ;;; serial_print buf) u.

Definition print_mac_byte (i b : Z) : printer :=
  serial_print [at_ hex_digits (Z.to_nat (Z.land (Z.shiftr b 4) 0xF)); at_ hex_digits (Z.to_nat (Z.land b 0xF)); 0] ;;;
  (if i <? 5 then serial_print (str ":") else quiet).

Fixpoint print_mac_from (i : Z) (mac : list Z) : printer :=
  match mac with [] => quiet | b :: mac' => print_mac_byte i b ;;; print_mac_from (i + 1) mac' end.

Definition serial_print_mac (mac : list Z) : printer := print_mac_from 0 mac ;;; serial_print [10].

(** [while (n > 0 && i >= 0) { buf[i--] = '0' + n % 10; n /= 10; }] *)
Fixpoint dec_loop (k : nat) (i n : Z) (buf : list Z) : option (Z * list Z) :=
  if (0 <? n) && (0 <=? i) then
    match k with
    | O => None
    | S k' => buf ← store i (48 + n mod 10) buf; dec_loop k' (i - 1) (n / 10) buf
    end
  else Some (i, buf).

Definition mpk_print_decimal (junk : list Z) (n : Z) : printer := fun u =>
  buf ← store 21 0 junk;
  if n =? 0 then serial_print (str "0") u
  else '(i, buf) ← dec_loop 21 20 n buf; serial_print (drop (Z.to_nat (i + 1)) buf) u.

(** * The printers of the C library *)

Definition putchar (c : Z) : printer := serial_print [u8 c; 0].

(** [while (n > 0) { buffer[i++] = digit(n % base); n /= base; }] *)
Fixpoint up_loop (base : Z) (k : nat) (i n : Z) (buf : list Z) : option (Z * list Z) :=
  if 0 <? n then
    match k with
    | O => None
    | S k' => buf ← store i (at_ hex_digits (Z.to_nat (n mod base))) buf; up_loop base k' (i + 1) (n / base) buf
    end
  else Some (i, buf).

(** [while (i > 0) putchar(buffer[--i]);] *)
Fixpoint put_back (k : nat) (buf : list Z) : printer :=
  match k with O => quiet | S k' => putchar (at_ buf k') ;;; put_back k' buf end.

Definition print_int (junk : list Z) (n : Z) : printer :=
  if n =? 0 then putchar 48
  else fun u =>
    '(i, buf) ← up_loop 10 21 0 (if n <? 0 then - n else n) junk;
    ((if n <? 0 then putchar 45 else quiet) ;;; put_back (Z.to_nat i) buf) u.

Definition print_hex (junk : list Z) (n : Z) : printer :=
  if n =? 0 then putchar 48
  else fun u => '(i, buf) ← up_loop 16 16 0 n junk; put_back (Z.to_nat i) buf u.

Fixpoint print_str (s : list Z) : printer :=
  match s with [] => quiet | c :: s' => if c =? 0 then quiet else putchar c ;;; print_str s' end.

(** One conversion: the byte behind [%] and the argument. *)
Definition print_conv (jd jx : list Z) (c : Z) (a : option arg) : printer :=
  if c =? 100 then print_int jd (s32 (arg_int a))                      (* d *)
  else if c =? 117 then print_int jd (u32 (arg_int a))                 (* u *)
  else if c =? 120 then print_hex jx (u64 (arg_int a))                 (* x *)
  else if c =? 112 then print_str (str "0x") ;;; print_hex jx (u64 (arg_int a))   (* p *)
  else if c =? 115 then print_str (arg_str a)                          (* s *)
  else if c =? 99 then putchar (arg_int a)                             (* c *)
  else if c =? 37 then putchar 37                                      (* % *)
  else putchar 37 ;;; putchar c.

Definition vprintf_takes (c : Z) : bool := existsb (Z.eqb c) [100; 117; 120; 112; 115; 99].

(** The printed bytes and the number of rounds, the result. *)
Fixpoint vprintf (jd jx : list Z) (format : list Z) (args : list arg) : uart -> option (Z * uart) := fun u =>
  match format with
  | [] => Some (0, u)
  | f :: rest =>
      if f =? 0 then Some (0, u)
      else if f =? 37 then
        match rest with
        | [] => None
        | c :: rest' =>
            if c =? 0 then None
            else
              u ← print_conv jd jx c (head args) u;
              '(n, u) ← vprintf jd jx rest' (if vprintf_takes c then tail args else args) u; Some (n + 1, u)
        end
      else u ← putchar f u; '(n, u) ← vprintf jd jx rest args u; Some (n + 1, u)
  end.

Definition printf (jd jx : list Z) (format : list Z) (args : list arg) : printer := fun u => snd <$> vprintf jd jx format args u.

(** [for (i = 0; i < len; i++) putchar(data[i]);] *)
Definition put_all (data : list Z) : printer := foldr (fun c p => putchar c ;;; p) quiet data.

Definition xmpp_log (jd jx : list Z) (direction data : list Z) (len : nat) : printer :=
  printf jd jx (str "[%s] %d bytes:" ++ [10]) [AStr (Some direction); AInt (Z.of_nat len)] ;;;
  put_all (take len data) ;;;
  printf jd jx (10 :: str "--------------------------------------------------" ++ [10]) [].

End port.

(** * Facts *)

(** ** Digits *)

(** Exactly [k] digits, with leading zeros. *)
Fixpoint fixed (base : Z) (k : nat) (n : Z) : list Z :=
  match k with O => [] | S k' => fixed base k' (n / base) ++ [at_ hex_digits (Z.to_nat (n mod base))] end.

(** The value of a digit and of a numeral. *)
Definition digit_value (c : Z) : Z := if c <=? 57 then c - 48 else c - 55.

Definition numeral (base : Z) (ds : list Z) : Z := foldl (fun a c => a * base + digit_value c) 0 ds.

Lemma hex_digit (d : Z) :
  0 <= d < 16 -> digit_value (at_ hex_digits (Z.to_nat d)) = d /\ 48 <= at_ hex_digits (Z.to_nat d) < 128.
Proof.
  intros Hd. assert (exists n, (n < 16)%nat /\ d = Z.of_nat n) as (n & Hn & ->) by (exists (Z.to_nat d); lia).
  rewrite Nat2Z.id. do 16 (destruct n as [|n]; [done|]). lia.
Qed.

Section numerals.
Context (base : Z) (Hbase : 1 < base <= 16).

Lemma base_digit (n : Z) :
  digit_value (at_ hex_digits (Z.to_nat (n mod base))) = n mod base /\ 48 <= at_ hex_digits (Z.to_nat (n mod base)) < 128.
Proof. apply hex_digit. pose proof (Z.mod_pos_bound n base ltac:(lia)). lia. Qed.

Lemma numeral_snoc (ds : list Z) (n : Z) :
  numeral base (ds ++ [at_ hex_digits (Z.to_nat (n mod base))]) = numeral base ds * base + n mod base.
Proof. unfold numeral. rewrite foldl_app. cbn [foldl]. by rewrite (proj1 (base_digit n)). Qed.

Lemma numeral_fixed (k : nat) (n : Z) : 0 <= n < base ^ Z.of_nat k -> numeral base (fixed base k n) = n.
Proof.
  revert n. induction k as [|k IH]; intros n Hn; [cbn in *; lia|]. cbn [fixed]. rewrite numeral_snoc.
  rewrite Nat2Z.inj_succ, Z.pow_succ_r in Hn by lia. rewrite IH.
  - pose proof (Z.div_mod n base ltac:(lia)). lia.
  - split; [apply Z.div_pos; lia|apply Z.div_lt_upper_bound; lia].
Qed.

Lemma numeral_digits (k : nat) (n : Z) : 0 <= n < base ^ Z.of_nat k -> numeral base (digits base k n) = n.
Proof.
  revert n. induction k as [|k IH]; intros n Hn; [cbn in *; lia|]. cbn [digits]. rewrite numeral_snoc.
  rewrite Nat2Z.inj_succ, Z.pow_succ_r in Hn by lia. pose proof (Z.div_mod n base ltac:(lia)).
  destruct (Z.leb_spec base n).
  - rewrite IH; [lia|]. split; [apply Z.div_pos; lia|apply Z.div_lt_upper_bound; lia].
  - unfold numeral. cbn [foldl]. rewrite Z.mod_small by lia. lia.
Qed.

Definition digit_byte (c : Z) : Prop := 48 <= c < 128.

Lemma fixed_bytes (k : nat) (n : Z) : Forall digit_byte (fixed base k n).
Proof.
  revert n. induction k as [|k IH]; intros n; cbn [fixed]; [constructor|]. apply Forall_app_2; [apply IH|].
  constructor; [apply base_digit|constructor].
Qed.

Lemma digits_bytes (k : nat) (n : Z) : Forall digit_byte (digits base k n).
Proof.
  revert n. induction k as [|k IH]; intros n; cbn [digits]; [constructor|]. apply Forall_app_2.
  - destruct (base <=? n); [apply IH|constructor].
  - constructor; [apply base_digit|constructor].
Qed.

Lemma fixed_length (k : nat) (n : Z) : length (fixed base k n) = k.
Proof. revert n. induction k as [|k IH]; intros n; [done|]. cbn [fixed]. rewrite length_app, IH. cbn. lia. Qed.

Lemma digits_size (k : nat) (n : Z) : (0 < k)%nat -> (0 < length (digits base k n) <= k)%nat.
Proof.
  revert n. induction k as [|k IH]; intros n Hk; [lia|]. cbn [digits]. rewrite length_app. cbn [length].
  destruct (base <=? n); cbn [length]; [|lia]. destruct (decide (k = 0%nat)) as [->|]; [cbn; lia|].
  specialize (IH (n / base) ltac:(lia)). lia.
Qed.

(** Fuel that is enough for a number gives its digits. *)
Lemma digits_fuel (k k' : nat) (n : Z) :
  0 <= n < base ^ Z.of_nat k -> 0 <= n < base ^ Z.of_nat k' -> (0 < k)%nat -> (0 < k')%nat -> digits base k n = digits base k' n.
Proof.
  revert k' n. induction k as [|k IH]; intros [|k'] n H1 H2 K1 K2; [lia..|]. cbn [digits]. destruct (Z.leb_spec base n); [|done].
  f_equal. rewrite Nat2Z.inj_succ, Z.pow_succ_r in H1, H2 by lia.
  assert (0 <= n / base < base ^ Z.of_nat k /\ 0 <= n / base < base ^ Z.of_nat k') as [? ?]
    by (repeat split; try (apply Z.div_pos; lia); apply Z.div_lt_upper_bound; lia).
  apply IH; try done; [destruct k; [cbn in *; lia|lia]|destruct k'; [cbn in *; lia|lia]].
Qed.

End numerals.

Lemma digit_bytes_plain (ds : list Z) : Forall digit_byte ds -> nul_free ds /\ u8 <$> ds = ds.
Proof.
  unfold digit_byte, nul_free. induction 1 as [|c ds Hc _ [IH1 IH2]]; [done|]. split; [constructor; [lia|done]|].
  rewrite fmap_cons, IH2. unfold u8. by rewrite Z.mod_small by lia.
Qed.

(** ** The loops that fill a buffer *)

Lemma store_ok (i v : Z) (buf : list Z) :
  0 <= i < Z.of_nat (length buf) -> store i v buf = Some (take (Z.to_nat i) buf ++ v :: drop (S (Z.to_nat i)) buf).
Proof.
  intros Hi. unfold store. rewrite (proj2 (Z.leb_le 0 i)), (proj2 (Z.ltb_lt i _)) by lia. cbn [andb]. f_equal.
  apply insert_take_drop. lia.
Qed.

(** One more digit to the left of what is there. *)
Lemma splice_left (i : nat) (k : nat) (v : Z) (ds buf : list Z) :
  (k <= i)%nat -> (i < length buf)%nat -> length ds = k ->
  take (i - k) (take i buf ++ v :: drop (S i) buf) ++ ds ++ drop i (take i buf ++ v :: drop (S i) buf) =
  take (i - k) buf ++ (ds ++ [v]) ++ drop (S i) buf.
Proof.
  intros Hk Hi Hl. rewrite take_app_le, take_take by (rewrite length_take; lia). replace ((i - k) `min` i)%nat with (i - k)%nat by lia.
  rewrite drop_app_ge by (rewrite length_take; lia). rewrite length_take. replace (i - i `min` length buf)%nat with 0%nat by lia.
  rewrite drop_0, <- !app_assoc. done.
Qed.

Lemma hex_loop_spec (k : nat) (i n : Z) (buf : list Z) :
  Z.of_nat k <= i + 1 -> i < Z.of_nat (length buf) ->
  hex_loop k i n buf = Some (take (Z.to_nat (i + 1) - k) buf ++ fixed 16 k n ++ drop (Z.to_nat (i + 1)) buf).
Proof.
  revert i n buf. induction k as [|k IH]; intros i n buf Hk Hi; cbn [hex_loop].
  { by rewrite Nat.sub_0_r, app_nil_l, take_drop. }
  rewrite store_ok by lia. cbn [mbind option_bind]. rewrite IH.
  2: lia.
  2: { rewrite length_app, length_take. cbn [length]. rewrite length_drop. lia. }
  f_equal. cbn [fixed]. replace (i - 1 + 1) with i by lia. replace (Z.to_nat (i + 1)) with (S (Z.to_nat i)) by lia.
  rewrite Nat.sub_succ. apply splice_left; [lia|lia|apply fixed_length].
Qed.

Lemma dec_loop_spec (k : nat) (i n : Z) (buf : list Z) :
  0 < n < 10 ^ Z.of_nat k -> Z.of_nat k <= i + 1 -> i < Z.of_nat (length buf) ->
  let ds := digits 10 k n in
  dec_loop k i n buf = Some (i - Z.of_nat (length ds), take (Z.to_nat (i + 1) - length ds) buf ++ ds ++ drop (Z.to_nat (i + 1)) buf).
Proof.
  revert i n buf. induction k as [|k IH]; intros i n buf Hn Hk Hi ds; [cbn in Hn; lia|].
  cbn [dec_loop]. rewrite (proj2 (Z.ltb_lt 0 n)), (proj2 (Z.leb_le 0 i)) by lia. cbn [andb].
  rewrite store_ok by lia. cbn [mbind option_bind].
  replace (48 + n mod 10) with (at_ hex_digits (Z.to_nat (n mod 10))) by (rewrite digit_at by lia; lia).
  set (v := at_ hex_digits _). set (buf' := take _ buf ++ _).
  assert (length buf' = length buf) as Hl by (unfold buf'; rewrite length_app, length_take; cbn [length]; rewrite length_drop; lia).
  replace (Z.to_nat (i + 1)) with (S (Z.to_nat i)) by lia.
  unfold ds. cbn [digits]. fold v. destruct (Z.leb_spec 10 n).
  - rewrite Nat2Z.inj_succ, Z.pow_succ_r in Hn by lia. rewrite IH.
    2: { split; [apply Z.div_str_pos; lia|apply Z.div_lt_upper_bound; lia]. }
    2: lia.
    2: lia.
    pose proof (digits_size 10 k (n / 10)) as Hd. destruct (decide (k = 0%nat)) as [->|Hk0]; [cbn in Hn; lia|]. specialize (Hd ltac:(lia)).
    rewrite length_app. cbn [length]. f_equal. f_equal; [lia|]. replace (i - 1 + 1) with i by lia.
    replace (S (Z.to_nat i) - (length (digits 10 k (n / 10)) + 1))%nat with (Z.to_nat i - length (digits 10 k (n / 10)))%nat by lia.
    apply splice_left; [lia|lia|done].
  - rewrite (Z.div_small n 10) by lia. cbn [app length]. destruct k; cbn [dec_loop]; change (0 <? 0) with false; cbn [andb];
      (f_equal; f_equal; unfold buf'; rewrite Nat.sub_succ, Nat.sub_0_r; done).
Qed.

Lemma up_loop_spec (base : Z) (k : nat) (i n : Z) (buf : list Z) :
  1 < base <= 16 -> 0 < n < base ^ Z.of_nat k -> 0 <= i -> i + Z.of_nat k <= Z.of_nat (length buf) ->
  let ds := digits base k n in
  exists rest, up_loop base k i n buf = Some (i + Z.of_nat (length ds), take (Z.to_nat i) buf ++ rev ds ++ rest).
Proof.
  intros Hb. revert i n buf. induction k as [|k IH]; intros i n buf Hn Hi Hl ds; [cbn in Hn; lia|].
  cbn [up_loop]. rewrite (proj2 (Z.ltb_lt 0 n)) by lia. rewrite store_ok by lia. cbn [mbind option_bind].
  unfold ds. cbn [digits]. set (v := at_ hex_digits _). set (buf' := take _ buf ++ _).
  assert (length buf' = length buf) as Hl' by (unfold buf'; rewrite length_app, length_take; cbn [length]; rewrite length_drop; lia).
  destruct (Z.leb_spec base n).
  - rewrite Nat2Z.inj_succ, Z.pow_succ_r in Hn by lia. destruct (IH (i + 1) (n / base) buf') as (rest & ->).
    { split; [apply Z.div_str_pos; lia|apply Z.div_lt_upper_bound; lia]. }
    { lia. }
    { lia. }
    exists rest. rewrite length_app. cbn [length]. f_equal. f_equal; [lia|].
    replace (take (Z.to_nat (i + 1)) buf') with (take (Z.to_nat i) buf ++ [v]).
    2: { unfold buf'. rewrite take_app_ge by (rewrite length_take; lia). rewrite length_take. f_equal.
         replace (Z.to_nat (i + 1) - Z.to_nat i `min` length buf)%nat with 1%nat by lia. done. }
    rewrite rev_app_distr, <- !app_assoc. done.
  - rewrite (Z.div_small n base) by lia. exists (drop (S (Z.to_nat i)) buf).
    destruct k; cbn [up_loop]; change (0 <? 0) with false; cbn [app length rev]; (f_equal; f_equal; lia).
Qed.

(** ** What a printer prints *)

Section printing.
Context (line_status : nat -> Z) (fuel : nat).
(** The port becomes ready within [fuel] reads, whenever it is asked. *)
Context (Hready : forall n, exists k, (k < fuel)%nat /\ Z.land (line_status (n + k)%nat) 0x20 <> 0).

(** A printer on a port that is set up sends these bytes and leaves it set up. *)
Definition prints (p : printer) (out : list Z) : Prop :=
  forall u, dlab u = false -> exists u', p u = Some u' /\ sent u' = sent u ++ out /\ lcr u' = lcr u.

Lemma prints_quiet : prints quiet [].
Proof. intros u _. exists u. by rewrite app_nil_r. Qed.

Lemma prints_seq (p q : printer) (a b : list Z) : prints p a -> prints q b -> prints (then_ p q) (a ++ b).
Proof.
  intros Hp Hq u Hu. destruct (Hp u Hu) as (u1 & E1 & S1 & L1). destruct (Hq u1) as (u2 & E2 & S2 & L2); [unfold dlab; by rewrite L1|].
  exists u2. unfold then_. rewrite E1. cbn [mbind option_bind]. split_and!; [done| |congruence]. by rewrite S2, S1, app_assoc.
Qed.

Lemma prints_same (p : printer) (a b : list Z) : prints p a -> a = b -> prints p b.
Proof. by intros H <-. Qed.

Lemma wait_thr_ok (m : nat) (u : uart) :
  (exists k, (k < m)%nat /\ Z.land (line_status (lsr_reads u + k)%nat) 0x20 <> 0) ->
  exists u', wait_thr line_status m u = Some u' /\ sent u' = sent u /\ lcr u' = lcr u.
Proof.
  revert u. induction m as [|m IH]; intros u (k & Hk & Hr); [lia|]. destruct u as [a b c d e f n s]. cbn [wait_thr inb_lsr lsr_reads] in *.
  destruct (Z.eqb_spec (Z.land (line_status n) 0x20) 0) as [E|E]; [|by eexists].
  destruct k as [|k]; [by rewrite Nat.add_0_r in Hr|].
  destruct (IH (mk_uart a b c d e f (S n) s)) as (u' & ? & ? & ?); [exists k; split; [lia|cbn [lsr_reads]; by rewrite Nat.add_succ_comm]|].
  by exists u'.
Qed.

Lemma prints_putc (c : Z) : prints (serial_putc line_status fuel c) [u8 c].
Proof.
  intros u Hu. destruct (wait_thr_ok fuel u) as (u1 & E & S1 & L1); [apply Hready|].
  unfold serial_putc. rewrite E. cbn [mbind option_bind]. eexists. split; [done|].
  assert (Z.testbit (lcr u1) 7 = false) as H7 by (by rewrite L1). destruct u1 as [a b c0 d e f n s]. cbn [lcr] in *.
  cbn [outb]. change (0x3F8 =? 0x3F8) with true. cbv iota. rewrite H7. cbn [sent lcr] in *. by rewrite S1.
Qed.

Lemma prints_print (s : list Z) : prints (serial_print line_status fuel s) (u8 <$> cstr s).
Proof.
  induction s as [|c s IH]; [apply prints_quiet|]. cbn [serial_print cstr]. destruct (c =? 0); [apply prints_quiet|].
  rewrite fmap_cons. exact (prints_seq _ _ [u8 c] _ (prints_putc c) IH).
Qed.

Lemma prints_bytes (s t : list Z) : Forall digit_byte s -> prints (serial_print line_status fuel (s ++ 0 :: t)) s.
Proof.
  intros Hs. destruct (digit_bytes_plain s Hs) as [Hn Hu]. eapply prints_same; [apply prints_print|]. by rewrite cstr_app_nul.
Qed.

Lemma prints_digits (s : list Z) : Forall digit_byte s -> prints (serial_print line_status fuel s) s.
Proof.
  intros Hs. destruct (digit_bytes_plain s Hs) as [Hn Hu]. eapply prints_same; [apply prints_print|]. by rewrite cstr_id.
Qed.

Lemma prints_putchar (c : Z) : 0 < c < 256 -> prints (putchar line_status fuel c) [c].
Proof.
  intros Hc. eapply prints_same; [apply prints_print|]. unfold u8. rewrite (Z.mod_small c) by lia. cbn [cstr].
  rewrite (proj2 (Z.eqb_neq c 0)) by lia. cbn [fmap list_fmap]. unfold u8. by rewrite Z.mod_small by lia.
Qed.

(** [0x] and eighteen digits, two more than a number of 64 bits has. *)
Lemma prints_serial_hex (junk : list Z) (n : Z) :
  length junk = 19%nat -> 0 <= n < 2 ^ 64 -> prints (serial_print_hex line_status fuel junk n) (str "0x" ++ fixed 16 18 n).
Proof.
  intros Hj Hn u Hu. unfold serial_print_hex. rewrite store_ok by lia. cbn [mbind option_bind].
  set (buf := take _ junk ++ _).
  assert (length buf = 19%nat /\ drop 18 buf = [0]) as [Hl Hd].
  { unfold buf. rewrite length_app, length_take, drop_app_ge by (rewrite length_take; lia). rewrite length_take, Hj. cbn [length].
    rewrite (drop_ge junk) by lia. done. }
  rewrite hex_loop_spec by lia. cbn [mbind option_bind]. change (Z.to_nat (17 + 1)) with 18%nat. change (18 - 18)%nat with 0%nat.
  rewrite Hd. unfold u64. rewrite Z.mod_small by lia. cbn [take app].
  apply (prints_seq _ _ (str "0x") (fixed 16 18 n)); [apply prints_digits|apply prints_bytes, fixed_bytes; lia|done].
  repeat constructor; done.
Qed.

(** The decimal numeral, in the buffer of 22 bytes. *)
Lemma prints_decimal (junk : list Z) (n : Z) :
  length junk = 22%nat -> 0 <= n < 2 ^ 64 -> prints (mpk_print_decimal line_status fuel junk n) (digits 10 21 n).
Proof.
  intros Hj Hn u Hu. unfold mpk_print_decimal. rewrite store_ok by lia. cbn [mbind option_bind].
  destruct (Z.eqb_spec n 0) as [->|Hn0].
  { apply prints_digits; [repeat constructor; done|done]. }
  set (buf := take _ junk ++ _).
  assert (length buf = 22%nat /\ drop 21 buf = [0]) as [Hl Hd].
  { unfold buf. rewrite length_app, length_take, drop_app_ge by (rewrite length_take; lia). rewrite length_take, Hj. cbn [length].
    rewrite (drop_ge junk) by lia. done. }
  assert (10 ^ Z.of_nat 21 = 1000000000000000000000) as Hp by reflexivity.
  rewrite dec_loop_spec by lia. cbn [mbind option_bind]. change (Z.to_nat (20 + 1)) with 21%nat. rewrite Hd.
  pose proof (digits_size 10 21 n ltac:(lia)) as Hlen.
  rewrite drop_app_ge by (rewrite length_take; lia). rewrite length_take, Hl.
  replace (Z.to_nat (20 - Z.of_nat (length (digits 10 21 n)) + 1) - (21 - length (digits 10 21 n)) `min` 22)%nat with 0%nat by lia.
  apply prints_bytes; [apply digits_bytes; lia|done].
Qed.

Lemma prints_put_back (ds rest : list Z) : Forall digit_byte ds -> prints (put_back line_status fuel (length ds) (rev ds ++ rest)) ds.
Proof.
  intros Hd. revert rest. induction ds as [|c ds IH]; intros rest; [apply prints_quiet|].
  inversion_clear Hd as [|? ? Hc Hds]. cbn [length put_back rev]. rewrite <- app_assoc.
  assert (at_ (rev ds ++ [c] ++ rest) (length ds) = c) as ->.
  { unfold at_. rewrite drop_app_ge by (rewrite length_rev; lia). by rewrite length_rev, Nat.sub_diag. }
  apply (prints_seq _ _ [c] ds); [apply prints_putchar; unfold digit_byte in Hc; lia|by apply IH].
Qed.

Lemma up_prints (base : Z) (k : nat) (n : Z) (junk : list Z) :
  1 < base <= 16 -> 0 < n < base ^ Z.of_nat k -> (k <= length junk)%nat ->
  exists buf, up_loop base k 0 n junk = Some (Z.of_nat (length (digits base k n)), buf) /\
    prints (put_back line_status fuel (Z.to_nat (Z.of_nat (length (digits base k n)))) buf) (digits base k n).
Proof.
  intros Hb Hn Hl. destruct (up_loop_spec base k 0 n junk Hb Hn) as (rest & E); [lia|lia|].
  eexists. split; [rewrite E; done|]. rewrite Nat2Z.id. cbn [take app Z.to_nat]. apply prints_put_back, digits_bytes. lia.
Qed.

(** A signed number of 32 bits, or an unsigned one. *)
Lemma prints_int (junk : list Z) (n : Z) :
  length junk = 21%nat -> - 2 ^ 32 < n < 2 ^ 32 ->
  prints (print_int line_status fuel junk n) (if n <? 0 then 45 :: digits 10 21 (- n) else digits 10 21 n).
Proof.
  intros Hj Hn. unfold print_int. destruct (Z.eqb_spec n 0) as [->|N]; [apply prints_putchar; lia|].
  assert (10 ^ Z.of_nat 21 = 1000000000000000000000) as Hp by reflexivity.
  destruct (Z.ltb_spec n 0).
  - destruct (up_prints 10 21 (- n) junk) as (buf & -> & Hb); [lia|lia|lia|]. cbn [mbind option_bind].
    intros u Hu. exact (prints_seq _ _ [45] _ (prints_putchar 45 ltac:(lia)) Hb u Hu).
  - destruct (up_prints 10 21 n junk) as (buf & -> & Hb); [lia|lia|lia|]. cbn [mbind option_bind].
    intros u Hu. exact (prints_seq _ _ [] _ prints_quiet Hb u Hu).
Qed.

Lemma prints_hex (junk : list Z) (n : Z) :
  length junk = 16%nat -> 0 <= n < 2 ^ 64 -> prints (print_hex line_status fuel junk n) (digits 16 16 n).
Proof.
  intros Hj Hn. unfold print_hex. destruct (Z.eqb_spec n 0) as [->|N]; [apply prints_putchar; lia|].
  destruct (up_prints 16 16 n junk) as (buf & -> & Hb); [lia|change (16 ^ Z.of_nat 16) with (2 ^ 64); lia|lia|]. exact Hb.
Qed.

Definition char_byte (c : Z) : Prop := 0 <= c < 256.

Lemma prints_str (s : list Z) : Forall char_byte (cstr s) -> prints (print_str line_status fuel s) (cstr s).
Proof.
  induction s as [|c s IH]; intros Hs; [apply prints_quiet|]. cbn [print_str cstr] in *. destruct (Z.eqb_spec c 0); [apply prints_quiet|].
  inversion_clear Hs as [|? ? Hc Hs']. unfold char_byte in Hc. apply (prints_seq _ _ [c]); [apply prints_putchar; lia|by apply IH].
Qed.

(** ** [printf] *)

(** A conversion that both printers have, with an argument both print the same. *)
Definition conv_ok (c : Z) (a : option arg) : bool :=
  negb (existsb (Z.eqb c) [105; 88; 108; 122]) &&
  (if c =? 120 then (0 <=? arg_int a) && (arg_int a <? 2 ^ 32)
   else if c =? 115 then forallb (fun x => (0 <=? x) && (x <? 256)) (arg_str a)
   else if c =? 99 then negb (u8 (arg_int a) =? 0) else true).

(** A format that ends in no [%], and whose conversions are such. *)
Fixpoint format_ok (format : list Z) (args : list arg) : bool :=
  match format with
  | [] => true
  | f :: rest =>
      (0 <? f) && (f <? 256) &&
      if f =? 37 then
        match rest with
        | [] => false
        | c :: rest' => (0 <? c) && (c <? 256) && conv_ok c (head args) && format_ok rest' (if vprintf_takes c then tail args else args)
        end
      else format_ok rest args
  end.

Lemma conv_ok_spec (c : Z) (a : option arg) :
  conv_ok c a = true ->
  c <> 105 /\ c <> 88 /\ c <> 108 /\ c <> 122 /\
  (c = 120 -> 0 <= arg_int a < 2 ^ 32) /\ (c = 115 -> Forall char_byte (arg_str a)) /\ (c = 99 -> u8 (arg_int a) <> 0).
Proof.
  unfold conv_ok. intros [H1 H2]%andb_true_iff. apply negb_true_iff in H1. cbn [existsb] in H1. rewrite !orb_false_iff in H1.
  destruct H1 as (E1 & E2 & E3 & E4 & _). apply Z.eqb_neq in E1, E2, E3, E4. split_and!; [done..| | |].
  - intros ->. change (120 =? 120) with true in H2. cbv iota in H2. lia.
  - intros ->. change (115 =? 120) with false in H2. change (115 =? 115) with true in H2. cbv iota in H2.
    rewrite forallb_forall in H2. apply Forall_forall. intros x Hx. apply H2 in Hx. unfold char_byte. lia.
  - intros ->. change (99 =? 120) with false in H2. change (99 =? 115) with false in H2. change (99 =? 99) with true in H2. cbv iota in H2. lia.
Qed.

Lemma conv_prints (jd jx : list Z) (c : Z) (a : option arg) :
  length jd = 21%nat -> length jx = 16%nat -> 0 < c < 256 -> conv_ok c a = true -> prints (print_conv line_status fuel jd jx c a) (render1 0 c a).
Proof.
  intros Hd Hx Hc (N1 & N2 & N3 & N4 & Kx & Ks & Kc)%conv_ok_spec. unfold print_conv, render1.
  rewrite (proj2 (Z.eqb_neq c 105)), (proj2 (Z.eqb_neq c 88)), !orb_false_r by done.
  change (0 =? 108) with false. change (negb (0 =? 0)) with false. cbv iota.
  assert (forall x, 0 <= x < 2 ^ 33 -> digits 10 21 x = digits 10 20 x) as Hfuel by (intros x Hx'; apply digits_fuel; cbn; lia).
  assert (forall x, 0 <= u32 x < 2 ^ 32) as Hu32 by (intros x; apply Z.mod_pos_bound; lia).
  assert (forall x, 0 <= u64 x < 2 ^ 64) as Hu64 by (intros x; apply Z.mod_pos_bound; lia).
  destruct (c =? 100).
  { assert (- 2 ^ 31 <= s32 (arg_int a) < 2 ^ 31) as Hs by (unfold s32; pose proof (Z.mod_pos_bound (arg_int a + 2 ^ 31) (2 ^ 32)); lia).
    generalize dependent (s32 (arg_int a)). intros v Hs. eapply prints_same; [apply prints_int; [done|lia]|].
    assert (forall x, 0 <= x < 2 ^ 33 -> u64 x = x) as H64 by (intros x Hx'; unfold u64; apply Z.mod_small; lia).
    destruct (Z.ltb_spec v 0); rewrite H64, <- Hfuel by lia; reflexivity. }
  destruct (c =? 117).
  { specialize (Hu32 (arg_int a)). eapply prints_same; [apply prints_int; [done|lia]|].
    generalize dependent (u32 (arg_int a)). intros v Hv. rewrite (proj2 (Z.ltb_ge v 0)) by lia. apply Hfuel. lia. }
  destruct (Z.eqb_spec c 120) as [E|_].
  { specialize (Kx E). eapply prints_same; [apply prints_hex; [done|apply Hu64]|].
    unfold u64, u32. by rewrite !Z.mod_small by lia. }
  destruct (c =? 112).
  { apply prints_seq; [apply (prints_str (str "0x")); repeat constructor; done|by apply prints_hex]. }
  destruct (Z.eqb_spec c 115) as [E|_].
  { assert (cstr (arg_str a) = arg_str a) as Es by (destruct a as [[| | | | |[s|]]|]; try done; apply cstr_idemp).
    rewrite <- Es at 2. apply prints_str. rewrite Es. by apply Ks. }
  destruct (Z.eqb_spec c 99) as [E|_].
  { specialize (Kc E). pose proof (Z.mod_pos_bound (arg_int a) (2 ^ 8) ltac:(lia)) as Hb. unfold putchar.
    change (prints (serial_print line_status fuel [u8 (arg_int a); 0]) [u8 (arg_int a)]).
    eapply prints_same; [apply prints_print|]. cbn [cstr]. rewrite (proj2 (Z.eqb_neq _ 0)) by done. cbn [fmap list_fmap].
    f_equal. unfold u8 in *. by rewrite Z.mod_mod by lia. }
  destruct (c =? 37); [apply prints_putchar; lia|].
  exact (prints_seq _ _ [37] [c] (prints_putchar 37 ltac:(lia)) (prints_putchar c Hc)).
Qed.

Lemma takes_same (c : Z) (a : option arg) : conv_ok c a = true -> vprintf_takes c = takes_arg c.
Proof.
  intros (N1 & N2 & _)%conv_ok_spec. unfold vprintf_takes, takes_arg. cbn [existsb].
  rewrite (proj2 (Z.eqb_neq c 105)), (proj2 (Z.eqb_neq c 88)) by done. done.
Qed.

Lemma vprintf_prints (jd jx format : list Z) (args : list arg) :
  length jd = 21%nat -> length jx = 16%nat -> format_ok format args = true ->
  prints (printf line_status fuel jd jx format args) (render format args).
Proof.
  intros Hd Hx. unfold printf.
  assert (forall n format args, (length format <= n)%nat -> format_ok format args = true -> forall u, dlab u = false ->
    exists k u', vprintf line_status fuel jd jx format args u = Some (k, u') /\ sent u' = sent u ++ render format args /\ lcr u' = lcr u) as Hgen.
  { intros n. induction n as [|n IH]; intros [|f rest] args' Hn Hok u Hu; try (cbn in Hn; lia);
      try (exists 0, u; by rewrite app_nil_r).
    cbn [format_ok] in Hok. apply andb_true_iff in Hok as [Hf Hok]. assert (0 < f < 256) as Hf' by lia. cbn [vprintf render length] in *.
    rewrite (proj2 (Z.eqb_neq f 0)) by lia. destruct (Z.eqb_spec f 37) as [->|Nf]; cbn [negb].
    - destruct rest as [|c rest']; [done|]. rewrite !andb_true_iff in Hok. destruct Hok as ((Hc0 & Hconv) & Hok). assert (0 < c < 256) as Hc by lia. rewrite (proj2 (Z.eqb_neq c 0)) by lia.
      destruct (conv_prints jd jx c (head args') Hd Hx Hc Hconv u Hu) as (u1 & -> & S1 & L1). cbn [mbind option_bind].
      rewrite (takes_same c (head args')) in * by done. cbn [length] in Hn.
      destruct (IH rest' _ ltac:(lia) Hok u1) as (k & u2 & -> & S2 & L2); [unfold dlab; by rewrite L1|]. cbn [mbind option_bind].
      eexists _, u2. split; [done|]. apply conv_ok_spec in Hconv as (_ & _ & N3 & N4 & _).
      rewrite (proj2 (Z.eqb_neq c 108)), (proj2 (Z.eqb_neq c 122)) by done. cbn [orb]. split; [by rewrite S2, S1, app_assoc|congruence].
    - destruct (prints_putchar f Hf' u Hu) as (u1 & -> & S1 & L1). cbn [mbind option_bind].
      destruct (IH rest args' ltac:(lia) Hok u1) as (k & u2 & -> & S2 & L2); [unfold dlab; by rewrite L1|]. cbn [mbind option_bind].
      eexists _, u2. split; [done|]. split; [by rewrite S2, S1, <- app_assoc|congruence]. }
  intros Hok u Hu. destruct (Hgen (length format) format args (Nat.le_refl _) Hok u Hu) as (k & u' & -> & ? & ?). by exists u'.
Qed.

End printing.

(** * Properties *)

(** After [serial_init] the port sends 8 bits without parity at divisor 3, the
    divisor is out of the way of the data, and nothing was sent; its interrupts are
    off unless the firmware left the divisor accessible. *)
Lemma serial_init_ready (u : uart) :
  let u' := serial_init u in
  dlab u' = false /\ (dll u', dlm u', lcr u', fcr u', mcr u') = (3, 0, 3, 0xC7, 0x0B) /\ sent u' = sent u /\
  (dlab u = false -> ier u' = 0).
Proof.
  destruct u as [a b c d e f n s]. unfold serial_init, dlab. cbn [lcr].
  change (outb (0x3F8 + 1) 0 (mk_uart a b c d e f n s)) with
    (if Z.testbit d 7 then mk_uart a 0 c d e f n s else mk_uart a b 0 d e f n s).
  destruct (Z.testbit d 7); (split_and!; [reflexivity|reflexivity|reflexivity|]); intros H; [discriminate H|reflexivity].
Qed.

(** C29: the number printers of the console stay inside their buffers, of 19, 22, 21
    and 16 bytes, whatever these held, end, and print the number: the digits they
    send are read back as the number they were given, for every number of 64 bits
    and for every int and unsigned int. *)
Theorem number_printers_in_bounds (line_status : nat -> Z) (fuel : nat) (j19 j22 j21 j16 : list Z) (n : Z) :
  (forall m, exists k, (k < fuel)%nat /\ Z.land (line_status (m + k)%nat) 0x20 <> 0) ->
  length j19 = 19%nat -> length j22 = 22%nat -> length j21 = 21%nat -> length j16 = 16%nat -> - 2 ^ 31 <= n < 2 ^ 64 ->
  (0 <= n -> exists ds, prints (serial_print_hex line_status fuel j19 n) (str "0x" ++ ds) /\ length ds = 18%nat /\ numeral 16 ds = n) /\
  (0 <= n -> exists ds, prints (mpk_print_decimal line_status fuel j22 n) ds /\ (length ds <= 21)%nat /\ numeral 10 ds = n) /\
  (n < 2 ^ 32 -> exists ds, prints (print_int line_status fuel j21 n) ((if n <? 0 then [45] else []) ++ ds) /\
     (length ds <= 21)%nat /\ numeral 10 ds = Z.abs n) /\
  (0 <= n -> exists ds, prints (print_hex line_status fuel j16 n) ds /\ (length ds <= 16)%nat /\ numeral 16 ds = n).
Proof.
  intros Hready H19 H22 H21 H16 Hn. assert (10 ^ Z.of_nat 21 = 1000000000000000000000) as Hp by reflexivity.
  assert (16 ^ Z.of_nat 18 = 2 ^ 72) as Hp18 by reflexivity. assert (16 ^ Z.of_nat 16 = 2 ^ 64) as Hp16 by reflexivity. split_and!.
  - intros H0. exists (fixed 16 18 n). split_and!; [apply prints_serial_hex; [done|done|lia]|apply fixed_length; lia|apply numeral_fixed; lia].
  - intros H0. exists (digits 10 21 n). split_and!; [apply prints_decimal; [done|done|lia]|apply digits_size; lia|apply numeral_digits; lia].
  - intros H0. exists (digits 10 21 (Z.abs n)). split_and!; [|apply digits_size; lia|apply numeral_digits; lia].
    eapply prints_same; [apply prints_int; [done|done|lia]|]. destruct (Z.ltb_spec n 0); [by rewrite Z.abs_neq by lia|by rewrite Z.abs_eq by lia].
  - intros H0. exists (digits 16 16 n). split_and!; [apply prints_hex; [done|done|lia]|apply digits_size; lia|apply numeral_digits; lia].
Qed.

(** A port that is ready at every third read. *)
Definition sample_status (n : nat) : Z := if (n mod 3 =? 2)%nat then 0x60 else 0x40.

Lemma sample_status_ready (m : nat) : exists k, (k < 3)%nat /\ Z.land (sample_status (m + k)%nat) 0x20 <> 0.
Proof.
  exists (2 - m mod 3)%nat. pose proof (Nat.mod_upper_bound m 3 ltac:(lia)) as Hm. split; [lia|]. unfold sample_status.
  replace ((m + (2 - m mod 3)) mod 3)%nat with 2%nat; [done|].
  pose proof (Nat.div_mod_eq m 3). apply (Nat.mod_unique _ 3 (m / 3)); lia.
Qed.

Definition fresh_uart : uart := serial_init (mk_uart 12 0 1 0x80 0 0 0 []).

Lemma number_printers_in_bounds_witness :
  exists ds u', print_int sample_status 3 (replicate 21 255) (-2147483648) fresh_uart = Some u' /\
    sent u' = 45 :: ds /\ numeral 10 ds = 2147483648.
Proof.
  destruct (number_printers_in_bounds sample_status 3 (replicate 19 255) (replicate 22 255) (replicate 21 255) (replicate 16 255) (-2147483648)
    sample_status_ready eq_refl eq_refl eq_refl eq_refl ltac:(lia)) as (_ & _ & W & _).
  destruct (W ltac:(lia)) as (ds & Hp & _ & Hv). destruct (Hp fresh_uart eq_refl) as (u' & E & S & _).
  exists ds, u'. split_and!; [exact E|exact S|exact Hv].
Defined.

(** [printf] prints on the console what [snprintf] puts into a buffer that is
    large enough: for every format of their common conversions the bytes sent are
    those of the reference rendering, whatever the local buffers held. *)
Theorem printf_is_render (line_status : nat -> Z) (fuel : nat) (jd jx format : list Z) (args : list arg) :
  (forall m, exists k, (k < fuel)%nat /\ Z.land (line_status (m + k)%nat) 0x20 <> 0) ->
  length jd = 21%nat -> length jx = 16%nat -> format_ok format args = true ->
  prints (printf line_status fuel jd jx format args) (render format args).
Proof. intros Hready Hd Hx Hok. by apply vprintf_prints. Qed.

Definition sample_format : list Z := str "[%s] %d bytes at %p: %u%%, %c".
Definition sample_args : list arg := [AStr (Some (str "rx")); AInt (-12); APtr 0xdeadbeef; AUint 99; AInt 65].

Lemma sample_render : render sample_format sample_args = str "[rx] -12 bytes at 0xDEADBEEF: 99%, A".
Proof. vm_compute. reflexivity. Qed.

Lemma printf_is_render_witness :
  exists u', printf sample_status 3 (replicate 21 0) (replicate 16 0) sample_format sample_args fresh_uart = Some u' /\
    sent u' = str "[rx] -12 bytes at 0xDEADBEEF: 99%, A".
Proof.
  destruct (printf_is_render sample_status 3 (replicate 21 0) (replicate 16 0) sample_format sample_args sample_status_ready eq_refl eq_refl eq_refl)
    with (u := fresh_uart) as (u' & E & S & _).
  - reflexivity.
  - exists u'. split; [exact E|]. rewrite S, sample_render. reflexivity.
Defined.

(** The log of a packet: its direction, its length and its bytes, but for the NULs. *)
Lemma xmpp_log_prints (line_status : nat -> Z) (fuel : nat) (jd jx direction data : list Z) :
  (forall m, exists k, (k < fuel)%nat /\ Z.land (line_status (m + k)%nat) 0x20 <> 0) ->
  length jd = 21%nat -> length jx = 16%nat -> Forall char_byte (cstr direction) -> Forall char_byte data -> Z.of_nat (length data) < 2 ^ 31 ->
  prints (xmpp_log line_status fuel jd jx direction data (length data))
    (str "[" ++ cstr direction ++ str "] " ++ digits 10 20 (Z.of_nat (length data)) ++ str " bytes:" ++ [10] ++
     filter (fun c => c <> 0) data ++ [10] ++ str "--------------------------------------------------" ++ [10]).
Proof.
  intros Hr Hd Hx Hdir Hdata Hlen. unfold xmpp_log. rewrite firstn_all.
  assert (prints (put_all line_status fuel data) (filter (fun c => c <> 0) data)) as Hput.
  { clear Hlen. induction Hdata as [|c data Hc _ IH]; [apply prints_quiet|]. cbn [put_all foldr].
    destruct (decide (c <> 0)) as [N|N].
    - rewrite filter_cons_True by done. unfold char_byte in Hc. apply (prints_seq _ _ [c]); [by apply prints_putchar; [done|lia]|exact IH].
    - rewrite filter_cons_False by done. apply (prints_seq _ _ []); [|exact IH].
      assert (c = 0) as -> by lia. apply (prints_print _ _ Hr [0; 0]). }
  eapply prints_same; [apply prints_seq; [apply (vprintf_prints _ _ Hr); [done|done|]|apply prints_seq; [exact Hput|apply (vprintf_prints _ _ Hr); [done|done|]]]|].
  - assert (forallb (fun x => (0 <=? x) && (x <? 256)) (cstr direction) = true) as Hb.
    { apply forallb_forall. intros x Hin. rewrite Forall_forall in Hdir. apply Hdir in Hin. unfold char_byte in Hin. lia. }
    transitivity (forallb (fun x => (0 <=? x) && (x <? 256)) (cstr direction) && true); [reflexivity|by rewrite Hb].
  - reflexivity.
  - set (n := Z.of_nat (length data)) in *.
    assert (render1 0 100 (Some (AInt n)) = digits 10 20 n) as <-.
    { unfold render1. cbn [Z.eqb Pos.eqb orb arg_int]. assert (s32 n = n) as -> by (unfold s32; rewrite Z.mod_small by lia; lia).
      rewrite (proj2 (Z.ltb_ge n 0)) by lia. f_equal. apply Z.mod_small. lia. }
    assert (render (str "[%s] %d bytes:" ++ [10]) [AStr (Some direction); AInt n] =
            str "[" ++ cstr direction ++ str "] " ++ render1 0 100 (Some (AInt n)) ++ str " bytes:" ++ [10]) as -> by reflexivity.
    by rewrite <- !app_assoc.
Qed.
