(* ===== verification/TlsInit.v ===== *)
(** The TLS set-up of the server: [xmpp_tls_server_init] of src/xmpp/xmpp_tls.c.

    mbedTLS is a parameter: [lib] gives the result of each call.  What a call that
    succeeds does to the objects of the library, as its documentation says, is
    [effect]; the function itself is the sequence of the calls. *)

From Stdlib Require Import ZArith Lia String Ascii Bool.
From stdpp Require Import base list numbers option.
From S2P Require Import Prelude Libc XmppCore.

Open Scope Z_scope.

(** The calls, with the arguments that are not the global objects. *)
Inductive call :=
  | memory_buffer_alloc_init (size : Z)
  | ctr_drbg_init | ctr_drbg_seed (pers : list Z)
  | pk_init | pk_setup | ecp_gen_key
  | x509write_crt_init | crt_set_version | crt_set_md_alg | crt_set_subject_key | crt_set_issuer_key
  | crt_set_subject_name (dn : list Z) | crt_set_issuer_name (dn : list Z)
  | crt_set_serial_raw (serial : list Z) | crt_set_validity (not_before not_after : list Z)
  | crt_set_basic_constraints (is_ca max_pathlen : Z) | crt_set_subject_key_identifier | crt_set_authority_key_identifier
  | x509write_crt_der (size : Z) | x509write_crt_free
  | x509_crt_init | x509_crt_parse_der (offset len : Z)
  | ssl_config_init | ssl_config_defaults | ssl_conf_authmode_none | ssl_conf_rng | ssl_conf_own_cert.

Definition CERT_DER_SIZE : Z := 2048.
Definition TLS_POOL_SIZE : Z := 288 * 1024.

(** The personalisation string and the name in the certificate. *)
Definition pers : list Z := str "xmpp_server_" ++ XMPP_DOMAIN.
Definition dn : list Z := snprintf 64 (str "CN=%s,O=unikernel xmpp") [AStr (Some XMPP_DOMAIN)].

Section init.
Context (lib : call -> Z).

Definition prog : Type := list call -> Z * list call.

(** A call whose result is not looked at. *)
Definition call_ (c : call) (k : prog) : prog := fun tr => k (tr ++ [c]).

(** [ret = c; if (ret != 0) { cleanup; return ret; }] *)
Definition checked (c : call) (cleanup : list call) (k : prog) : prog := fun tr =>
  if lib c =? 0 then k (tr ++ [c]) else (lib c, (tr ++ [c]) ++ cleanup).

(** The result and the calls. *)
Definition xmpp_tls_server_init : Z * list call :=
  (call_ (memory_buffer_alloc_init TLS_POOL_SIZE)
  (call_ ctr_drbg_init
  (checked (ctr_drbg_seed pers) []
  (call_ pk_init
  (checked pk_setup []
  (checked ecp_gen_key []
  (call_ x509write_crt_init
  (call_ crt_set_version
  (call_ crt_set_md_alg
  (call_ crt_set_subject_key
  (call_ crt_set_issuer_key
  (call_ (crt_set_subject_name dn)
  (call_ (crt_set_issuer_name dn)
  (checked (crt_set_serial_raw [1]) [x509write_crt_free]
  (call_ (crt_set_validity (str "20250101000000") (str "20350101000000"))
  (call_ (crt_set_basic_constraints 0 (-1))
  (call_ crt_set_subject_key_identifier
  (call_ crt_set_authority_key_identifier
  (let cert_len := lib (x509write_crt_der CERT_DER_SIZE) in
   call_ (x509write_crt_der CERT_DER_SIZE)
  (call_ x509write_crt_free
  (if cert_len <=? 0 then fun tr => (cert_len, tr)
   else
   call_ x509_crt_init
  (checked (x509_crt_parse_der (CERT_DER_SIZE - cert_len) cert_len) []
  (call_ ssl_config_init
  (checked ssl_config_defaults []
  (call_ ssl_conf_authmode_none
  (call_ ssl_conf_rng
  (checked ssl_conf_own_cert []
  (fun tr => (0, tr))))))))))))))))))))))))))))) [].

(** * What the calls do to the objects of the library *)

Record tls_objects := mk_tls {
  seeded : bool;                   (* g_tls_drbg *)
  key_ready : bool;                (* g_tls_pkey has a key pair *)
  writer : option (bool * bool);   (* crt_ctx, when it holds memory: its keys and its serial are set *)
  der : option Z;                  (* the length of the certificate at the end of g_cert_der *)
  cert_ready : bool;               (* g_tls_cert *)
  conf_server : bool; conf_rng : bool; conf_cert : bool   (* g_tls_conf *)
}.

Definition objects0 : tls_objects := mk_tls false false None None false false false false.

(** A call that needs an object that is not ready makes nothing ready. *)
Definition effect (o : tls_objects) (c : call) : tls_objects :=
  let '(mk_tls s k w d x cs cr cc) := o in
  let ok := lib c =? 0 in
  match c with
  | ctr_drbg_seed _ => mk_tls ok k w d x cs cr cc
  | ecp_gen_key => mk_tls s (ok && s) w d x cs cr cc
  | x509write_crt_init => mk_tls s k (Some (false, false)) d x cs cr cc
  | crt_set_issuer_key => mk_tls s k (prod_map (fun _ => k) id <$> w) d x cs cr cc
  | crt_set_serial_raw _ => mk_tls s k (prod_map id (fun _ => ok) <$> w) d x cs cr cc
  | x509write_crt_free => mk_tls s k None d x cs cr cc
  | x509write_crt_der size =>
      mk_tls s k w (if (0 <? lib c) && (lib c <=? size) && bool_decide (w = Some (true, true)) && s then Some (lib c) else None) x cs cr cc
  | x509_crt_parse_der off len =>
      mk_tls s k w d (ok && bool_decide (d = Some len) && (off + len =? CERT_DER_SIZE) && (0 <=? off)) cs cr cc
  | ssl_config_init => mk_tls s k w d x false false false
  | ssl_config_defaults => mk_tls s k w d x ok cr cc
  | ssl_conf_rng => mk_tls s k w d x cs s cc
  | ssl_conf_own_cert => mk_tls s k w d x cs cr (ok && x && k)
  | _ => o
  end.

Definition after (tr : list call) : tls_objects := foldl effect objects0 tr.

(** A handshake can be served. *)
Definition can_serve (o : tls_objects) : bool := seeded o && key_ready o && cert_ready o && conf_server o && conf_rng o && conf_cert o.

Ltac run_calls := unfold xmpp_tls_server_init; cbv [call_ checked].

(** The objects after a run that got to its end. *)
Lemma init_success (n : Z) :
  lib (x509write_crt_der CERT_DER_SIZE) = n -> 0 < n <= CERT_DER_SIZE ->
  forall tr, xmpp_tls_server_init = (0, tr) -> can_serve (after tr) = true /\ writer (after tr) = None /\ der (after tr) = Some n.
Proof.
  intros Hn Hr tr. run_calls. rewrite Hn.
  repeat match goal with |- context [if lib ?c =? 0 then _ else _] =>
    let E := fresh "E" in destruct (Z.eqb_spec (lib c) 0) as [E|E]; [|by intros [=]] end.
  rewrite (proj2 (Z.leb_gt n 0)) by lia.
  repeat match goal with |- context [if lib ?c =? 0 then _ else _] =>
    let E := fresh "E" in destruct (Z.eqb_spec (lib c) 0) as [E|E]; [|by intros [=]] end.
  intros [= <-]. unfold after. cbn [foldl app effect objects0 fmap option_fmap option_map prod_map id].
  rewrite E, E1, E2, E3, E4, E5, Hn. change (0 =? 0) with true. cbn [andb].
  rewrite (proj2 (Z.ltb_lt 0 n)), (proj2 (Z.leb_le n CERT_DER_SIZE)) by lia. cbn [andb].
  rewrite !bool_decide_true by done. cbn [andb].
  rewrite (proj2 (Z.eqb_eq (CERT_DER_SIZE - n + n) CERT_DER_SIZE)), (proj2 (Z.leb_le 0 (CERT_DER_SIZE - n))) by lia. done.
Qed.
(** The writer's memory is given back whatever happens, and a failure leaves no
    certificate in the configuration. *)
Lemma init_cleans_up :
  let '(r, tr) := xmpp_tls_server_init in writer (after tr) = None /\ (r <> 0 -> conf_cert (after tr) = false).
Proof.
  run_calls. set (n := lib (x509write_crt_der CERT_DER_SIZE)).
  repeat match goal with |- context [if lib ?c =? 0 then _ else _] =>
    let E := fresh "E" in destruct (Z.eqb_spec (lib c) 0) as [E|E]; [|try (split; reflexivity)] end.
  all: try (destruct (Z.leb_spec n 0); [split; [reflexivity|done]|]).
  all: repeat match goal with |- context [if lib ?c =? 0 then _ else _] =>
    let E := fresh "E" in destruct (Z.eqb_spec (lib c) 0) as [E|E]; [|try (split; [reflexivity|]; intros _)] end.
  all: try (split; [reflexivity|done]).
  all: unfold after; cbn [foldl app effect objects0 conf_cert]; try reflexivity.
  all: split; [reflexivity|]; intros Hown%(Z.eqb_neq _ 0); by rewrite Hown.
Qed.

(** With every checked call and the certificate writer successful, the set-up is. *)
Lemma init_succeeds :
  0 < lib (x509write_crt_der CERT_DER_SIZE) ->
  (forall c, c <> x509write_crt_der CERT_DER_SIZE -> lib c = 0) -> fst xmpp_tls_server_init = 0.
Proof.
  intros Hn Hok. run_calls. rewrite (proj2 (Z.leb_gt (lib (x509write_crt_der CERT_DER_SIZE)) 0)) by lia.
  rewrite !Hok by done. reflexivity.
Qed.

End init.

(** The name fits its buffer. *)
Lemma dn_whole : dn = str "CN=angelic.local,O=unikernel xmpp".
Proof. vm_compute. reflexivity. Qed.

(** * Properties *)


Definition sample_lib (c : call) : Z := match c with x509write_crt_der _ => 412 | _ => 0 end.


(** A certificate of no bytes is reported on the console and then returned as its
    length, zero, which the caller takes for success: the server starts to listen
    with a configuration that cannot serve a handshake. *)
Theorem empty_certificate_accepted (lib : call -> Z) :
  lib (x509write_crt_der CERT_DER_SIZE) = 0 -> (forall c, c <> x509write_crt_der CERT_DER_SIZE -> lib c = 0) ->
  fst (xmpp_tls_server_init lib) = 0 /\ can_serve (after lib (snd (xmpp_tls_server_init lib))) = false.
Proof.
  intros Hn Hok. unfold xmpp_tls_server_init. cbv [call_ checked]. rewrite Hn, !Hok by done. change (0 =? 0) with true. change (0 <=? 0) with true.
  split; [done|]. unfold can_serve, after. cbn [foldl app effect objects0 snd seeded key_ready cert_ready conf_server conf_rng conf_cert].
  by rewrite !andb_false_r.
Qed.
