(* ===== verification/Block.v ===== *)
(** Sectors and block devices: what the disk drivers promise to the layers above.

    An image gives the contents of each sector.  [BlockDevice] is the contract of
    src/drivers/disk.h: a device that is ready reads the sectors it is asked for
    and a write changes these sectors only and makes them permanent.  The drivers
    of [Ata] and [Ahci] are its instances; [Disk] is its client. *)

From Stdlib Require Import ZArith Lia Bool.
From stdpp Require Import base list numbers option.
From S2P Require Import Prelude.

Open Scope Z_scope.

(** The contents of the [n] sectors from [a] on. *)
Fixpoint range {A} (f : Z -> list A) (a : Z) (n : nat) : list A :=
  match n with O => [] | S n' => f a ++ range f (a + 1) n' end.

Definition put_at {A} (f : Z -> list A) (a : Z) (ws : list A) : Z -> list A :=
  fun x => if x =? a then ws else f x.

(** [n] sectors of [k] units each replaced from [a] on by the contents of a buffer. *)
Definition put_range {A} (k : nat) (f : Z -> list A) (a : Z) (n : nat) (buf : list A) : Z -> list A :=
  fun x => if (a <=? x) && (x <? a + Z.of_nat n) then take k (drop (k * Z.to_nat (x - a)) buf) else f x.

Lemma range_ext {A} (f g : Z -> list A) (n : nat) (a : Z) :
  (forall x, a <= x < a + Z.of_nat n -> f x = g x) -> range f a n = range g a n.
Proof.
  revert a. induction n as [|n IH]; intros a H; [done|]. cbn [range].
  rewrite H by lia. f_equal. apply IH. intros x Hx. apply H. lia.
Qed.

Lemma range_length {A} (k : nat) (f : Z -> list A) (n : nat) (a : Z) :
  (forall x, length (f x) = k) -> length (range f a n) = (k * n)%nat.
Proof.
  intros H. revert a. induction n as [|n IH]; intros a; cbn [range]; [cbn; lia|].
  rewrite length_app, IH, H. lia.
Qed.

Lemma put_range_out {A} (k : nat) (f : Z -> list A) (a : Z) (n : nat) (buf : list A) (x : Z) :
  ~ (a <= x < a + Z.of_nat n) -> put_range k f a n buf x = f x.
Proof.
  intros H. unfold put_range.
  destruct (Z.leb_spec a x), (Z.ltb_spec x (a + Z.of_nat n)); cbn; try done. lia.
Qed.

Lemma put_range_in {A} (k : nat) (f : Z -> list A) (a : Z) (n : nat) (buf : list A) (x : Z) :
  a <= x < a + Z.of_nat n -> put_range k f a n buf x = take k (drop (k * Z.to_nat (x - a)) buf).
Proof.
  intros H. unfold put_range.
  destruct (Z.leb_spec a x), (Z.ltb_spec x (a + Z.of_nat n)); cbn; try done; lia.
Qed.

(** Writing the first sector and then the others is writing all of them. *)
Lemma put_range_step {A} (k : nat) (f : Z -> list A) (a : Z) (n : nat) (buf : list A) (x : Z) :
  put_range k (put_at f a (take k buf)) (a + 1) n (drop k buf) x = put_range k f a (S n) buf x.
Proof.
  destruct (decide (a + 1 <= x < a + 1 + Z.of_nat n)) as [H|H].
  - rewrite !put_range_in by lia. rewrite drop_drop. do 2 f_equal.
    replace (Z.to_nat (x - a)) with (S (Z.to_nat (x - (a + 1)))) by lia. lia.
  - rewrite put_range_out by lia. unfold put_at. destruct (Z.eqb_spec x a) as [->|Hx].
    + rewrite put_range_in by lia. rewrite Z.sub_diag. change (Z.to_nat 0) with 0%nat.
      by rewrite Nat.mul_0_r, drop_0.
    + by rewrite put_range_out by lia.
Qed.

(** What was written is read back. *)
Lemma range_put_range {A} (k : nat) (f : Z -> list A) (a : Z) (n : nat) (buf : list A) :
  length buf = (k * n)%nat -> range (put_range k f a n buf) a n = buf.
Proof.
  revert f a buf. induction n as [|n IH]; intros f a buf H; cbn [range].
  - destruct buf; [done|cbn in H; lia].
  - rewrite put_range_in by lia. rewrite Z.sub_diag. change (Z.to_nat 0) with 0%nat.
    rewrite Nat.mul_0_r, drop_0.
    rewrite <- (range_ext _ _ _ _ (fun x _ => put_range_step k f a n buf x)).
    rewrite IH by (rewrite length_drop; lia). apply take_drop.
Qed.

(** Writes to sectors that are not read make no difference. *)
Lemma range_put_other {A} (k : nat) (f : Z -> list A) (a b : Z) (n m : nat) (buf : list A) :
  a + Z.of_nat n <= b \/ b + Z.of_nat m <= a -> range (put_range k f a n buf) b m = range f b m.
Proof. intros H. apply range_ext. intros x Hx. apply put_range_out. lia. Qed.

Lemma put_range_length {A} (k : nat) (f : Z -> list A) (a : Z) (n : nat) (buf : list A) :
  length buf = (k * n)%nat -> (forall x, length (f x) = k) ->
  forall x, length (put_range k f a n buf x) = k.
Proof.
  intros Hb Hf x. destruct (decide (a <= x < a + Z.of_nat n)) as [H|H].
  - rewrite put_range_in, length_take, length_drop by done.
    assert (Z.to_nat (x - a) < n)%nat by lia. nia.
  - by rewrite put_range_out.
Qed.

Lemma put_range_ext {A} (k : nat) (f g : Z -> list A) (a : Z) (n : nat) (buf : list A) :
  (forall x, f x = g x) -> forall x, put_range k f a n buf x = put_range k g a n buf x.
Proof. intros H x. unfold put_range. by rewrite H. Qed.

(** * Words and bytes *)

Definition byte (x : Z) : Prop := 0 <= x < 256.
Definition word (x : Z) : Prop := 0 <= x < 65536.

(** A buffer of bytes seen through a [uint16_t *]. *)
Fixpoint le_words (bs : list Z) : list Z :=
  match bs with lo :: hi :: bs' => lo + 256 * hi :: le_words bs' | _ => [] end.

Fixpoint le_bytes (ws : list Z) : list Z :=
  match ws with [] => [] | w :: ws' => w mod 256 :: w / 256 :: le_bytes ws' end.

Lemma le_bytes_app ws ws' : le_bytes (ws ++ ws') = le_bytes ws ++ le_bytes ws'.
Proof. induction ws as [|w ws IH]; cbn; [done|by rewrite IH]. Qed.

Lemma le_bytes_length ws : length (le_bytes ws) = (2 * length ws)%nat.
Proof. induction ws as [|w ws IH]; cbn [le_bytes length]; [done|lia]. Qed.

(** Induction two bytes at a time. *)
Lemma pairs_ind (P : list Z -> Prop) :
  P [] -> (forall x, P [x]) -> (forall lo hi bs, P bs -> P (lo :: hi :: bs)) -> forall bs, P bs.
Proof.
  intros H0 H1 H2 bs. enough (P bs /\ forall x, P (x :: bs)) as [H _] by exact H.
  induction bs as [|y bs [IH1 IH2]]; split; auto.
Qed.

Lemma le_words_length bs : length (le_words bs) = (length bs / 2)%nat.
Proof.
  induction bs as [|x|lo hi bs IH] using pairs_ind; [done|done|]. cbn [le_words length]. rewrite IH.
  replace (S (S (length bs))) with (length bs + 1 * 2)%nat by lia. rewrite Nat.div_add by lia. lia.
Qed.

Lemma le_words_sectors bs (n : nat) : length bs = (512 * n)%nat -> length (le_words bs) = (256 * n)%nat.
Proof.
  intros H. rewrite le_words_length, H. replace (512 * n)%nat with (256 * n * 2)%nat by lia. by rewrite Nat.div_mul.
Qed.

Lemma le_bytes_words bs : Forall byte bs -> Nat.Even (length bs) -> le_bytes (le_words bs) = bs.
Proof.
  induction bs as [|x|lo hi bs IH] using pairs_ind; intros Hb Hev; [done| |].
  - destruct Hev as [m Hm]. cbn in Hm. lia.
  - apply Forall_cons_1 in Hb as [Hlo Hb]. apply Forall_cons_1 in Hb as [Hhi Hb]. unfold byte in *.
    cbn [le_words le_bytes]. rewrite IH; [|done|destruct Hev as [m Hm]; exists (pred m); cbn in Hm; lia].
    rewrite Z.mul_comm. rewrite Z.mod_add, Z.div_add, Z.mod_small, Z.div_small by lia. done.
Qed.

Lemma le_words_word bs : Forall byte bs -> Forall word (le_words bs).
Proof.
  induction bs as [|x|lo hi bs IH] using pairs_ind; intros Hb; [constructor|constructor|].
  apply Forall_cons_1 in Hb as [Hlo Hb]. apply Forall_cons_1 in Hb as [Hhi Hb].
  cbn [le_words]. constructor; [unfold byte, word in *; lia|auto].
Qed.

Lemma le_words_drop n bs : drop n (le_words bs) = le_words (drop (2 * n) bs).
Proof.
  revert bs. induction n as [|n IH]; intros bs; [done|].
  replace (2 * S n)%nat with (S (S (2 * n))) by lia.
  destruct bs as [|lo [|hi bs]]; cbn [le_words drop]; [done|done|apply IH].
Qed.

Lemma le_words_take n bs : take n (le_words bs) = le_words (take (2 * n) bs).
Proof.
  revert bs. induction n as [|n IH]; intros bs; [done|].
  replace (2 * S n)%nat with (S (S (2 * n))) by lia.
  destruct bs as [|lo [|hi bs]]; cbn [le_words take]; [done|done|by rewrite IH].
Qed.

Lemma le_bytes_range f (n : nat) (a : Z) : le_bytes (range f a n) = range (fun x => le_bytes (f x)) a n.
Proof. revert a. induction n as [|n IH]; intros a; cbn [range]; [done|]. by rewrite le_bytes_app, IH. Qed.

(** Writing the words of a buffer is writing its bytes. *)
Lemma le_bytes_put_range f (a : Z) (n : nat) (buf : list Z) (x : Z) :
  Forall byte buf -> length buf = (512 * n)%nat ->
  le_bytes (put_range 256 f a n (le_words buf) x) = put_range 512 (fun x => le_bytes (f x)) a n buf x.
Proof.
  intros Hb Hl. destruct (decide (a <= x < a + Z.of_nat n)) as [H|H].
  - rewrite !put_range_in by done. rewrite le_words_drop, le_words_take.
    replace (2 * (256 * Z.to_nat (x - a)))%nat with (512 * Z.to_nat (x - a))%nat by lia.
    apply le_bytes_words; [by apply Forall_take, Forall_drop|].
    exists 256%nat. rewrite length_take, length_drop. nia.
  - by rewrite !put_range_out.
Qed.

(** * The contract *)

Class BlockDevice (D : Type) := {
  (** the first address out of reach and the largest transfer *)
  bd_limit : Z;
  bd_max : Z;
  (** the device works *)
  bd_ready : D -> Prop;
  (** what reads see, and what survives a loss of power *)
  bd_image : D -> Z -> list Z;
  bd_stable : D -> Z -> list Z;
  (** the driver: its result, with the bytes it puts in the buffer *)
  bd_read : Z -> Z -> D -> Z * list Z * D;
  bd_write : Z -> Z -> list Z -> D -> Z * D;
  bd_sector : forall d a, bd_ready d -> length (bd_image d a) = 512%nat;
  bd_read_ok : forall lba count d,
    bd_ready d -> 0 <= lba -> 0 < count <= bd_max -> lba + count <= bd_limit ->
    exists d', bd_read lba count d = (0, range (bd_image d) lba (Z.to_nat count), d') /\
      bd_ready d' /\ (forall a, bd_image d' a = bd_image d a) /\ (forall a, bd_stable d' a = bd_stable d a);
  bd_write_ok : forall lba count buf d,
    bd_ready d -> 0 <= lba -> 0 < count <= bd_max -> lba + count <= bd_limit ->
    Forall byte buf -> length buf = (512 * Z.to_nat count)%nat ->
    exists d', bd_write lba count buf d = (0, d') /\ bd_ready d' /\
      (forall a, bd_image d' a = put_range 512 (bd_image d) lba (Z.to_nat count) buf a) /\
      (forall a, bd_stable d' a = bd_image d' a)
}.
