(* ===== verification/Ata.v ===== *)
(** The ATA disk driver: src/drivers/ata.c.

    The driver talks to the channel through ports.  The channel is a small
    machine that follows the PIO protocol of the ATA standard: registers, a data
    phase, and a drive that is busy for a while after each command and sector.
    How long it is busy and which sectors fail are parameters. *)

From Stdlib Require Import ZArith Lia Bool.
From stdpp Require Import base list numbers option.
From coqutil Require Z.prove_Zeq_bitwise.
From S2P Require Import Prelude Block.

Open Scope Z_scope.

Definition ATA_DATA : Z := 0x1F0.
Definition ATA_SECTOR_CNT : Z := 0x1F2.
Definition ATA_LBA_LO : Z := 0x1F3.
Definition ATA_LBA_MID : Z := 0x1F4.
Definition ATA_LBA_HI : Z := 0x1F5.
Definition ATA_DRIVE_HEAD : Z := 0x1F6.
Definition ATA_STATUS_CMD : Z := 0x1F7.
Definition ATA_ALT_STATUS : Z := 0x3F6.

Definition ATA_SR_BSY : Z := 0x80.
Definition ATA_SR_DRDY : Z := 0x40.
Definition ATA_SR_DRQ : Z := 0x08.
Definition ATA_SR_ERR : Z := 0x01.

Definition ATA_CMD_READ_SECTORS : Z := 0x20.
Definition ATA_CMD_WRITE_SECTORS : Z := 0x30.
Definition ATA_CMD_FLUSH_CACHE : Z := 0xE7.
Definition ATA_CMD_IDENTIFY : Z := 0xEC.

(** The rounds of a wait; never computed with. *)
Definition ATA_TIMEOUT : nat := Z.to_nat 0x10000000.

(** * The channel *)

(** The data phase: words to be read, or words written so far, of the sector at
    an address, with the sectors that follow it. *)
Inductive ata_phase := PIdle | PIn (lba : Z) (more : nat) (words : list Z) | POut (lba : Z) (more : nat) (words : list Z).

(** What is attached: nothing, a packet (ATAPI) device, or a disk with the words
    of its sectors as reads see them and as they are once the cache is lost. *)
Inductive ata_unit := NoDrive | Packet | Disk (now stable : Z -> list Z).

Record ata_dev := mk_ata {
  r_cnt : Z; r_lo : Z; r_mid : Z; r_hi : Z; r_head : Z;
  phase : ata_phase;
  busy : nat;
  failed : bool;
  periods : nat;
  units : nat -> ata_unit
}.

Definition set_phase (p : ata_phase) (d : ata_dev) : ata_dev :=
  mk_ata (r_cnt d) (r_lo d) (r_mid d) (r_hi d) (r_head d) p (busy d) (failed d) (periods d) (units d).
Definition set_busy (n : nat) (d : ata_dev) : ata_dev :=
  mk_ata (r_cnt d) (r_lo d) (r_mid d) (r_hi d) (r_head d) (phase d) n (failed d) (periods d) (units d).
Definition set_unit (i : nat) (u : ata_unit) (d : ata_dev) : ata_dev :=
  mk_ata (r_cnt d) (r_lo d) (r_mid d) (r_hi d) (r_head d) (phase d) (busy d) (failed d) (periods d)
    (fun j => if (j =? i)%nat then u else units d j).

(** The selected drive and the address in the registers. *)
Definition selected (d : ata_dev) : nat := Z.to_nat (Z.land (Z.shiftr (r_head d) 4) 1).

Definition r_lba (d : ata_dev) : Z :=
  Z.lor (r_lo d) (Z.lor (Z.shiftl (r_mid d) 8) (Z.lor (Z.shiftl (r_hi d) 16) (Z.shiftl (Z.land (r_head d) 0xF) 24))).

Definition r_count (d : ata_dev) : nat := if r_cnt d =? 0 then 256%nat else Z.to_nat (r_cnt d).

Definition sectors_of (u : ata_unit) : Z -> list Z := match u with Disk f _ => f | _ => fun _ => [] end.
Definition stable_of (u : ata_unit) : Z -> list Z := match u with Disk _ g => g | _ => fun _ => [] end.

Section channel.
(** How long the [n]-th busy period lasts, whether it ends in an error, and the
    words a drive identifies itself with. *)
Context (delay : nat -> nat) (fails : nat -> bool) (identity : nat -> list Z).

(** A busy period starts; after a failure there is no data phase. *)
Definition work (p : ata_phase) (d : ata_dev) : ata_dev :=
  mk_ata (r_cnt d) (r_lo d) (r_mid d) (r_hi d) (r_head d) (if fails (periods d) then PIdle else p)
    (delay (periods d)) (fails (periods d)) (S (periods d)) (units d).

(** A packet device refuses the commands of disks and leaves its signature. *)
Definition refuse (d : ata_dev) : ata_dev :=
  mk_ata (r_cnt d) (r_lo d) 0x14 0xEB (r_head d) PIdle (delay (periods d)) true (S (periods d)) (units d).

Definition command (cmd : Z) (d : ata_dev) : ata_dev :=
  match units d (selected d) with
  | NoDrive => d
  | Packet => refuse d
  | Disk f g =>
      if cmd =? ATA_CMD_READ_SECTORS then work (PIn (r_lba d) (r_count d - 1) (f (r_lba d))) d
      else if cmd =? ATA_CMD_WRITE_SECTORS then work (POut (r_lba d) (r_count d - 1) []) d
      else if cmd =? ATA_CMD_IDENTIFY then work (PIn 0 0 (identity (selected d))) d
      else if cmd =? ATA_CMD_FLUSH_CACHE then
        work PIdle (if fails (periods d) then d else set_unit (selected d) (Disk f f) d)
      else work PIdle d
  end.

Definition outb (port val : Z) (d : ata_dev) : ata_dev :=
  let val := val mod 256 in
  if port =? ATA_SECTOR_CNT then mk_ata val (r_lo d) (r_mid d) (r_hi d) (r_head d) (phase d) (busy d) (failed d) (periods d) (units d)
  else if port =? ATA_LBA_LO then mk_ata (r_cnt d) val (r_mid d) (r_hi d) (r_head d) (phase d) (busy d) (failed d) (periods d) (units d)
  else if port =? ATA_LBA_MID then mk_ata (r_cnt d) (r_lo d) val (r_hi d) (r_head d) (phase d) (busy d) (failed d) (periods d) (units d)
  else if port =? ATA_LBA_HI then mk_ata (r_cnt d) (r_lo d) (r_mid d) val (r_head d) (phase d) (busy d) (failed d) (periods d) (units d)
  else if port =? ATA_DRIVE_HEAD then mk_ata (r_cnt d) (r_lo d) (r_mid d) (r_hi d) val (phase d) (busy d) (failed d) (periods d) (units d)
  else if port =? ATA_STATUS_CMD then command val d
  else d.

Definition status (d : ata_dev) : Z :=
  match units d (selected d) with
  | NoDrive => 0
  | _ =>
      if (0 <? busy d)%nat then ATA_SR_BSY
      else Z.lor ATA_SR_DRDY (if failed d then ATA_SR_ERR else match phase d with PIdle => 0 | _ => ATA_SR_DRQ end)
  end.

(** Time passes between two reads of the status. *)
Definition inb (port : Z) (d : ata_dev) : Z * ata_dev :=
  if port =? ATA_STATUS_CMD then (status d, set_busy (pred (busy d)) d)
  else if port =? ATA_LBA_MID then (r_mid d, d)
  else if port =? ATA_LBA_HI then (r_hi d, d)
  else (status d, d).

Definition inw (d : ata_dev) : Z * ata_dev :=
  match phase d with
  | PIn lba more [w] =>
      (w, match more with O => set_phase PIdle d | S more' => work (PIn (lba + 1) more' (sectors_of (units d (selected d)) (lba + 1))) d end)
  | PIn lba more (w :: ws) => (w, set_phase (PIn lba more ws) d)
  | _ => (0xFFFF, d)
  end.

Definition put_sector (lba : Z) (ws : list Z) (d : ata_dev) : ata_dev :=
  match units d (selected d) with
  | Disk f g => set_unit (selected d) (Disk (put_at f lba ws) g) d
  | _ => d
  end.

(** The sector is stored in the cache when its last word arrives. *)
Definition outw (w : Z) (d : ata_dev) : ata_dev :=
  match phase d with
  | POut lba more ws =>
      let ws := ws ++ [w] in
      if (length ws =? 256)%nat then
        work (match more with O => PIdle | S more' => POut (lba + 1) more' [] end)
          (if fails (periods d) then d else put_sector lba ws d)
      else set_phase (POut lba more ws) d
  | _ => d
  end.

(** * The driver *)

Definition ata_400ns_delay (d : ata_dev) : ata_dev :=
  let '(_, d) := inb ATA_ALT_STATUS d in let '(_, d) := inb ATA_ALT_STATUS d in
  let '(_, d) := inb ATA_ALT_STATUS d in let '(_, d) := inb ATA_ALT_STATUS d in d.

Fixpoint wait_not_busy (fuel : nat) (d : ata_dev) : Z * ata_dev :=
  match fuel with
  | O => (-1, d)
  | S fuel' =>
      let '(s, d) := inb ATA_STATUS_CMD d in
      if Z.land s ATA_SR_BSY =? 0 then (0, d) else wait_not_busy fuel' d
  end.

Definition ata_wait_not_busy (d : ata_dev) : Z * ata_dev := wait_not_busy ATA_TIMEOUT d.

Fixpoint wait_drq (fuel : nat) (d : ata_dev) : Z * ata_dev :=
  match fuel with
  | O => (-1, d)
  | S fuel' =>
      let '(s, d) := inb ATA_STATUS_CMD d in
      if negb (Z.land s ATA_SR_ERR =? 0) then (-1, d)
      else if negb (Z.land s ATA_SR_DRQ =? 0) then (0, d)
      else wait_drq fuel' d
  end.

Definition ata_wait_drq (d : ata_dev) : Z * ata_dev := wait_drq ATA_TIMEOUT d.

Definition ata_select_drive (drive lba : Z) (d : ata_dev) : ata_dev :=
  outb ATA_DRIVE_HEAD (Z.lor (Z.lor 0xE0 (Z.shiftl (Z.land drive 1) 4)) (Z.land (Z.shiftr lba 24) 0x0F)) d.

(** The registers of a transfer, and its command. *)
Definition start_transfer (drive lba count cmd : Z) (d : ata_dev) : ata_dev :=
  let d := ata_400ns_delay (ata_select_drive drive lba d) in
  let d := outb ATA_SECTOR_CNT count d in
  let d := outb ATA_LBA_LO (Z.land lba 0xFF) d in
  let d := outb ATA_LBA_MID (Z.land (Z.shiftr lba 8) 0xFF) d in
  let d := outb ATA_LBA_HI (Z.land (Z.shiftr lba 16) 0xFF) d in
  ata_400ns_delay (outb ATA_STATUS_CMD cmd d).

(** [for (w = 0; w < 256; w++) *p++ = inw(ATA_DATA);] *)
Fixpoint read_words (n : nat) (d : ata_dev) : list Z * ata_dev :=
  match n with
  | O => ([], d)
  | S n' => let '(w, d) := inw d in let '(ws, d) := read_words n' d in (w :: ws, d)
  end.

(** The loop over the sectors; the words of the buffer so far on failure. *)
Fixpoint read_sectors (count : nat) (d : ata_dev) : Z * list Z * ata_dev :=
  match count with
  | O => (0, [], d)
  | S count' =>
      let '(r, d) := ata_wait_not_busy d in
      if negb (r =? 0) then (-1, [], d)
      else
        let '(r, d) := ata_wait_drq d in
        if negb (r =? 0) then (-1, [], d)
        else
          let '(ws, d) := read_words 256 d in
          let '(r, rest, d) := read_sectors count' (ata_400ns_delay d) in (r, ws ++ rest, d)
  end.

(** The bytes of the buffer that were filled, and the result. *)
Definition ata_read_sectors (drive lba count : Z) (d : ata_dev) : Z * list Z * ata_dev :=
  let '(r, d) := ata_wait_not_busy d in
  if negb (r =? 0) then (-1, [], d)
  else
    let '(r, ws, d) := read_sectors (Z.to_nat count) (start_transfer drive lba count ATA_CMD_READ_SECTORS d) in
    (r, le_bytes ws, d).

Fixpoint write_words (ws : list Z) (d : ata_dev) : ata_dev :=
  match ws with [] => d | w :: ws' => write_words ws' (outw w d) end.

Fixpoint write_sectors (count : nat) (buf : list Z) (d : ata_dev) : Z * ata_dev :=
  match count with
  | O => (0, d)
  | S count' =>
      let '(r, d) := ata_wait_not_busy d in
      if negb (r =? 0) then (-1, d)
      else
        let '(r, d) := ata_wait_drq d in
        if negb (r =? 0) then (-1, d)
        else write_sectors count' (drop 256 buf) (ata_400ns_delay (write_words (take 256 buf) d))
  end.

(** The buffer is a sequence of bytes that is sent as [uint16_t]. *)
Definition ata_write_sectors (drive lba count : Z) (buf : list Z) (d : ata_dev) : Z * ata_dev :=
  let '(r, d) := ata_wait_not_busy d in
  if negb (r =? 0) then (-1, d)
  else
    let '(r, d) := write_sectors (Z.to_nat count) (le_words buf) (start_transfer drive lba count ATA_CMD_WRITE_SECTORS d) in
    if negb (r =? 0) then (-1, d)
    else
      let '(r, d) := ata_wait_not_busy d in
      if negb (r =? 0) then (-1, d)
      else
        let d := ata_400ns_delay (ata_select_drive drive 0 d) in
        let d := ata_400ns_delay (outb ATA_STATUS_CMD ATA_CMD_FLUSH_CACHE d) in
        let '(r, d) := ata_wait_not_busy d in
        if negb (r =? 0) then (-1, d) else (0, d).

(** One drive of the probe: whether it is a disk.  (Its model name and size are
    only printed.) *)
Definition ata_probe (drive : Z) (d : ata_dev) : bool * ata_dev :=
  let d := ata_400ns_delay (ata_select_drive drive 0 d) in
  let d := outb ATA_LBA_HI 0 (outb ATA_LBA_MID 0 (outb ATA_LBA_LO 0 (outb ATA_SECTOR_CNT 0 d))) in
  let d := ata_400ns_delay (outb ATA_STATUS_CMD ATA_CMD_IDENTIFY d) in
  let '(s, d) := inb ATA_STATUS_CMD d in
  if s =? 0 then (false, d)
  else
    let '(r, d) := ata_wait_not_busy d in
    if negb (r =? 0) then (false, d)
    else
      let '(mid, d) := inb ATA_LBA_MID d in
      let '(hi, d) := inb ATA_LBA_HI d in
      if negb (mid =? 0) || negb (hi =? 0) then (false, d)
      else
        let '(r, d) := ata_wait_drq d in
        if negb (r =? 0) then (false, d) else let '(_, d) := read_words 256 d in (true, d).

Definition ata_init (d : ata_dev) : Z * ata_dev :=
  let '(master, d) := ata_probe 0 d in
  let '(slave, d) := ata_probe 1 d in
  (Z.lor (if master then 1 else 0) (if slave then 2 else 0), d).

(** * Registers *)

Lemma ata_delay_id (d : ata_dev) : ata_400ns_delay d = d.
Proof. reflexivity. Qed.

(** The device as a transfer finds it when the command arrives. *)
Definition programmed (drive lba count : Z) (d : ata_dev) : ata_dev :=
  mk_ata (count mod 256) (Z.land lba 0xFF mod 256) (Z.land (Z.shiftr lba 8) 0xFF mod 256)
    (Z.land (Z.shiftr lba 16) 0xFF mod 256)
    (Z.lor (Z.lor 0xE0 (Z.shiftl (Z.land drive 1) 4)) (Z.land (Z.shiftr lba 24) 0x0F) mod 256)
    (phase d) (busy d) (failed d) (periods d) (units d).

Lemma start_transfer_eq (drive lba count cmd : Z) (d : ata_dev) :
  start_transfer drive lba count cmd d = command (cmd mod 256) (programmed drive lba count d).
Proof. reflexivity. Qed.

Definition drive_index (drive : Z) : nat := Z.to_nat (Z.land drive 1).

(** The drive register holds the drive, whatever the address. *)
Lemma head_selects (drive x : Z) :
  Z.land (Z.shiftr (Z.lor (Z.lor 0xE0 (Z.shiftl (Z.land drive 1) 4)) (Z.land x 0x0F) mod 256) 4) 1 = Z.land drive 1.
Proof.
  change 256 with (2 ^ 8). rewrite <- Z.land_ones by lia. change 15 with (Z.ones 4). change 1 with (Z.ones 1).
  change 224 with (Z.shiftl (Z.ones 3) 5). prove_Zeq_bitwise.prove_Zeq_bitwise.
Qed.

Lemma selected_programmed (drive lba count : Z) (d : ata_dev) :
  selected (programmed drive lba count d) = drive_index drive.
Proof. unfold selected, programmed. cbn [r_head]. by rewrite head_selects. Qed.

(** The four address registers hold the low 28 bits of the address. *)
Lemma r_lba_programmed (drive lba count : Z) (d : ata_dev) :
  r_lba (programmed drive lba count d) = lba mod 2 ^ 28.
Proof.
  unfold r_lba, programmed. cbn [r_lo r_mid r_hi r_head]. change 256 with (2 ^ 8).
  rewrite <- !Z.land_ones by lia. change 255 with (Z.ones 8). change 15 with (Z.ones 4). change 1 with (Z.ones 1).
  change 224 with (Z.shiftl (Z.ones 3) 5). prove_Zeq_bitwise.prove_Zeq_bitwise.
Qed.

Lemma r_count_programmed (drive lba count : Z) (d : ata_dev) :
  0 < count < 256 -> r_count (programmed drive lba count d) = Z.to_nat count.
Proof.
  intros H. unfold r_count, programmed. cbn [r_cnt]. rewrite Z.mod_small by lia.
  destruct (Z.eqb_spec count 0); [lia|done].
Qed.

(** * Waiting *)

Lemma ATA_TIMEOUT_pos : (0 < ATA_TIMEOUT)%nat.
Proof. unfold ATA_TIMEOUT. lia. Qed.

#[local] Opaque ATA_TIMEOUT.

(** A wait changes nothing but how long the device stays busy. *)
Lemma wait_not_busy_shape (fuel : nat) (d : ata_dev) :
  exists r n, wait_not_busy fuel d = (r, set_busy n d) /\ (n <= busy d)%nat.
Proof.
  revert d. induction fuel as [|fuel IH]; intros d; cbn [wait_not_busy].
  - exists (-1), (busy d). by destruct d.
  - change (inb ATA_STATUS_CMD d) with (status d, set_busy (pred (busy d)) d). cbn iota.
    destruct (_ =? 0).
    + exists 0, (pred (busy d)). split; [done|lia].
    + destruct (IH (set_busy (pred (busy d)) d)) as (r & n & E & Hn). exists r, n.
      split; [exact E|cbn in Hn; lia].
Qed.

Lemma wait_not_busy_ok (fuel : nat) (d : ata_dev) :
  (busy d < fuel)%nat ->
  exists n, wait_not_busy fuel d = (0, set_busy n d) /\ (n <= busy d)%nat /\
    (units d (selected d) <> NoDrive -> n = 0%nat).
Proof.
  revert d. induction fuel as [|fuel IH]; intros d Hb; [lia|]. cbn [wait_not_busy].
  change (inb ATA_STATUS_CMD d) with (status d, set_busy (pred (busy d)) d). cbn iota.
  unfold status. destruct (units d (selected d)) as [| |f g] eqn:Eu.
  1: { exists (pred (busy d)). split; [done|split; [lia|done]]. }
  all: destruct (busy d) as [|b] eqn:Eb; cbn [Nat.ltb Nat.leb pred].
  1, 3: exists 0%nat; split; [|split; [lia|done]]; destruct (failed d), (phase d); done.
  all: destruct (IH (set_busy b d)) as (n & E & Hn & Hz); [cbn; lia|]; exists n;
    (split; [exact E|split; [cbn in Hn; lia|intros _; apply Hz; change (units d (selected d) <> NoDrive); by rewrite Eu]]).
Qed.

Lemma wait_drq_shape (fuel : nat) (d : ata_dev) :
  exists r n, wait_drq fuel d = (r, set_busy n d) /\ (n <= busy d)%nat.
Proof.
  revert d. induction fuel as [|fuel IH]; intros d; cbn [wait_drq].
  - exists (-1), (busy d). by destruct d.
  - change (inb ATA_STATUS_CMD d) with (status d, set_busy (pred (busy d)) d). cbn iota.
    destruct (negb _); [|destruct (negb _)].
    1, 2: eexists _, (pred (busy d)); split; [done|lia].
    destruct (IH (set_busy (pred (busy d)) d)) as (r & n & E & Hn). exists r, n.
    split; [exact E|cbn in Hn; lia].
Qed.

Lemma wait_drq_ok (fuel : nat) (d : ata_dev) :
  (0 < fuel)%nat -> busy d = 0%nat -> failed d = false -> phase d <> PIdle -> units d (selected d) <> NoDrive ->
  wait_drq fuel d = (0, set_busy 0 d).
Proof.
  intros Hf Hb He Hp Hu. destruct fuel as [|fuel]; [lia|]. cbn [wait_drq].
  change (inb ATA_STATUS_CMD d) with (status d, set_busy (pred (busy d)) d). cbn iota.
  unfold status. rewrite Hb, He. by destruct (units d (selected d)), (phase d).
Qed.

(** The drive reports an error as soon as it is no longer busy. *)
Lemma wait_drq_failed (fuel : nat) (d : ata_dev) :
  (0 < fuel)%nat -> busy d = 0%nat -> failed d = true -> units d (selected d) <> NoDrive ->
  wait_drq fuel d = (-1, set_busy 0 d).
Proof.
  intros Hf Hb He Hu. destruct fuel as [|fuel]; [lia|]. cbn [wait_drq].
  change (inb ATA_STATUS_CMD d) with (status d, set_busy (pred (busy d)) d). cbn iota.
  unfold status. rewrite Hb, He. by destruct (units d (selected d)).
Qed.

(** * Transfers *)

(** The data phase after the last word of a sector was read. *)
Definition next_in (lba : Z) (more : nat) (d : ata_dev) : ata_dev :=
  match more with
  | O => set_phase PIdle d
  | S more' => work (PIn (lba + 1) more' (sectors_of (units d (selected d)) (lba + 1))) d
  end.

Lemma read_words_in (ws : list Z) (lba : Z) (more : nat) (d : ata_dev) :
  ws <> [] -> phase d = PIn lba more ws -> read_words (length ws) d = (ws, next_in lba more d).
Proof.
  revert d. induction ws as [|w ws IH]; intros d Hne Hp; [done|]. cbn [length read_words].
  unfold inw. rewrite Hp. destruct ws as [|w' ws].
  - cbn [length read_words]. by destruct more.
  - rewrite IH by done. by destruct more.
Qed.

(** The data phase after the last word of a sector was written. *)
Definition next_out (lba : Z) (more : nat) (ws : list Z) (d : ata_dev) : ata_dev :=
  work (match more with O => PIdle | S more' => POut (lba + 1) more' [] end)
    (if fails (periods d) then d else put_sector lba ws d).

Lemma put_sector_phase (lba : Z) (ws : list Z) (p q : ata_phase) (d : ata_dev) :
  work q (put_sector lba ws (set_phase p d)) = work q (put_sector lba ws d).
Proof. unfold put_sector. cbn [units set_phase]. change (selected (set_phase p d)) with (selected d). by destruct (units d (selected d)). Qed.

Lemma write_words_out (ws ws0 : list Z) (lba : Z) (more : nat) (d : ata_dev) :
  ws <> [] -> phase d = POut lba more ws0 -> (length ws0 + length ws)%nat = 256%nat ->
  write_words ws d = next_out lba more (ws0 ++ ws) d.
Proof.
  revert ws0 d. induction ws as [|w ws IH]; intros ws0 d Hne Hp Hl; [done|]. cbn [write_words].
  unfold outw. rewrite Hp. rewrite length_app. cbn [length] in *. destruct ws as [|w' ws].
  - cbn [length write_words] in *. rewrite (proj2 (Nat.eqb_eq _ _)) by lia. done.
  - cbn [length] in Hl. rewrite (proj2 (Nat.eqb_neq _ _)) by lia.
    rewrite (IH (ws0 ++ [w])) by (done || (rewrite length_app; cbn [length]; lia)).
    unfold next_out. rewrite <- app_assoc. cbn [app periods set_phase].
    destruct (fails (periods d)); [done|apply put_sector_phase].
Qed.

(** Words sent outside a data phase are lost. *)
Lemma write_words_idle (ws : list Z) (d : ata_dev) :
  (forall lba more ws0, phase d <> POut lba more ws0) -> write_words ws d = d.
Proof.
  intros H. induction ws as [|w ws IH]; cbn [write_words]; [done|].
  unfold outw at 1. destruct (phase d); [done|done|]. by edestruct H.
Qed.

(** The device as a command on a disk leaves it. *)
Lemma started_read_eq (drive lba count : Z) (f g : Z -> list Z) (d : ata_dev) :
  units d (drive_index drive) = Disk f g -> 0 < count < 256 ->
  start_transfer drive lba count ATA_CMD_READ_SECTORS d =
  work (PIn (lba mod 2 ^ 28) (Z.to_nat count - 1) (f (lba mod 2 ^ 28))) (programmed drive lba count d).
Proof.
  intros Hu Hc. rewrite start_transfer_eq. unfold command.
  rewrite selected_programmed. cbn [units programmed]. rewrite Hu.
  change (ATA_CMD_READ_SECTORS mod 256 =? ATA_CMD_READ_SECTORS) with true. cbn iota.
  by rewrite r_lba_programmed, r_count_programmed.
Qed.

Lemma started_write_eq (drive lba count : Z) (f g : Z -> list Z) (d : ata_dev) :
  units d (drive_index drive) = Disk f g -> 0 < count < 256 ->
  start_transfer drive lba count ATA_CMD_WRITE_SECTORS d =
  work (POut (lba mod 2 ^ 28) (Z.to_nat count - 1) []) (programmed drive lba count d).
Proof.
  intros Hu Hc. rewrite start_transfer_eq. unfold command.
  rewrite selected_programmed. cbn [units programmed]. rewrite Hu.
  change (ATA_CMD_WRITE_SECTORS mod 256 =? ATA_CMD_READ_SECTORS) with false.
  change (ATA_CMD_WRITE_SECTORS mod 256 =? ATA_CMD_WRITE_SECTORS) with true. cbn iota.
  by rewrite r_lba_programmed, r_count_programmed.
Qed.

(** ** A device that answers in time *)

Section prompt.
Context (Hdelay : forall n, (delay n < ATA_TIMEOUT)%nat).

(** One sector of a read. *)
Lemma read_sectors_step (n more : nat) (lba : Z) (f g : Z -> list Z) (d : ata_dev) :
  units d (selected d) = Disk f g -> phase d = PIn lba more (f lba) -> length (f lba) = 256%nat ->
  failed d = false -> (busy d < ATA_TIMEOUT)%nat ->
  read_sectors (S n) d =
  (let '(r, ws, d') := read_sectors n (next_in lba more (set_busy 0 d)) in (r, f lba ++ ws, d')).
Proof.
  intros Hu Hp Hl He Hb. cbn [read_sectors]. unfold ata_wait_not_busy, ata_wait_drq.
  destruct (wait_not_busy_ok ATA_TIMEOUT d Hb) as (k & -> & _ & Hk). cbn [negb Z.eqb].
  rewrite Hk by by rewrite Hu.
  rewrite wait_drq_ok; [|apply ATA_TIMEOUT_pos|done|done|by cbn; rewrite Hp|by change (units d (selected d) <> NoDrive); rewrite Hu].
  cbn [negb Z.eqb]. rewrite <- Hl at 1.
  rewrite (read_words_in (f lba) lba more) by (done || (destruct (f lba); done)).
  rewrite ata_delay_id. change (set_busy 0 (set_busy 0 d)) with (set_busy 0 d).
  by destruct (read_sectors n _) as [[??]?].
Qed.

(** One sector of a write. *)
Lemma write_sectors_step (n more : nat) (lba : Z) (buf : list Z) (f g : Z -> list Z) (d : ata_dev) :
  units d (selected d) = Disk f g -> phase d = POut lba more [] -> (256 <= length buf)%nat ->
  failed d = false -> (busy d < ATA_TIMEOUT)%nat ->
  write_sectors (S n) buf d =
  write_sectors n (drop 256 buf) (next_out lba more (take 256 buf) (set_busy 0 d)).
Proof.
  intros Hu Hp Hl He Hb. cbn [write_sectors]. unfold ata_wait_not_busy, ata_wait_drq.
  destruct (wait_not_busy_ok ATA_TIMEOUT d Hb) as (k & -> & _ & Hk). cbn [negb Z.eqb].
  rewrite Hk by by rewrite Hu.
  rewrite wait_drq_ok; [|apply ATA_TIMEOUT_pos|done|done|by cbn; rewrite Hp|by change (units d (selected d) <> NoDrive); rewrite Hu].
  cbn [negb Z.eqb]. rewrite ata_delay_id. change (set_busy 0 (set_busy 0 d)) with (set_busy 0 d).
  assert (length (take 256 buf) = 256%nat) as Lt by (rewrite length_take; lia).
  rewrite (write_words_out _ [] lba more); [done| |done|by rewrite Lt].
  intros E. by rewrite E in Lt.
Qed.

Lemma next_out_selected (lba : Z) (more : nat) (ws : list Z) (d : ata_dev) :
  selected (next_out lba more ws d) = selected d.
Proof. unfold next_out, put_sector. destruct (fails _); [done|]. by destruct (units d (selected d)). Qed.

(** The device at a drive: a disk with whole sectors that will not keep the driver
    waiting too long. *)
Definition ata_ready (drive : Z) (d : ata_dev) : Prop :=
  (busy d < ATA_TIMEOUT)%nat /\
  exists f g, units d (drive_index drive) = Disk f g /\ forall a, length (f a) = 256%nat.

Definition ata_sectors (drive : Z) (d : ata_dev) : Z -> list Z := sectors_of (units d (drive_index drive)).
Definition ata_stable (drive : Z) (d : ata_dev) : Z -> list Z := stable_of (units d (drive_index drive)).

(** The last part of a write, in a name of its own. *)
Definition flush (drive : Z) (d : ata_dev) : Z * ata_dev :=
  let '(r, d) := ata_wait_not_busy d in
  if negb (r =? 0) then (-1, d)
  else
    let d := ata_400ns_delay (ata_select_drive drive 0 d) in
    let d := ata_400ns_delay (outb ATA_STATUS_CMD ATA_CMD_FLUSH_CACHE d) in
    let '(r, d) := ata_wait_not_busy d in
    if negb (r =? 0) then (-1, d) else (0, d).

Lemma ata_write_flush (drive lba count : Z) (buf : list Z) (d : ata_dev) :
  ata_write_sectors drive lba count buf d =
  (let '(r, d) := ata_wait_not_busy d in
   if negb (r =? 0) then (-1, d)
   else
     let '(r, d) := write_sectors (Z.to_nat count) (le_words buf) (start_transfer drive lba count ATA_CMD_WRITE_SECTORS d) in
     if negb (r =? 0) then (-1, d) else flush drive d).
Proof. reflexivity. Qed.

Lemma flush_any (drive : Z) (f g : Z -> list Z) (d : ata_dev) :
  (busy d < ATA_TIMEOUT)%nat -> units d (drive_index drive) = Disk f g ->
  exists d', flush drive d = (0, d') /\ (busy d' < ATA_TIMEOUT)%nat /\
    forall j, units d' j =
      if negb (fails (periods d)) && (j =? drive_index drive)%nat then Disk f f else units d j.
Proof.
  intros Hb Hu. unfold flush, ata_wait_not_busy.
  destruct (wait_not_busy_ok ATA_TIMEOUT d Hb) as (k & -> & _ & _). cbn [negb Z.eqb]. rewrite !ata_delay_id.
  set (d1 := ata_select_drive drive 0 (set_busy k d)).
  assert (selected d1 = drive_index drive) as Hs
    by (unfold selected; cbn [d1 r_head]; apply (f_equal Z.to_nat), (head_selects drive (Z.shiftr 0 24))).
  change (outb ATA_STATUS_CMD ATA_CMD_FLUSH_CACHE d1) with (command ATA_CMD_FLUSH_CACHE d1).
  unfold command. rewrite Hs. change (units d1 (drive_index drive)) with (units d (drive_index drive)). rewrite Hu.
  cbn [Z.eqb ATA_CMD_FLUSH_CACHE ATA_CMD_READ_SECTORS ATA_CMD_WRITE_SECTORS ATA_CMD_IDENTIFY Pos.eqb].
  change (periods d1) with (periods d). match goal with |- context [wait_not_busy _ ?d2] => set (d3 := d2) end.
  assert (busy d3 = delay (periods d)) as Hb3 by (unfold d3; by destruct (fails (periods d))).
  pose proof (Hdelay (periods d)) as Hlt.
  destruct (wait_not_busy_ok ATA_TIMEOUT d3 ltac:(by rewrite Hb3)) as (k' & -> & Hk' & _). cbn [negb Z.eqb].
  eexists. split; [done|]. split; [cbn [busy set_busy]; lia|]. intros j. unfold d3. by destruct (fails (periods d)).
Qed.

(** A read stops at the first sector that fails, with the sectors before it in the
    buffer. *)
Lemma read_sectors_error (k n : nat) (lba : Z) (f g : Z -> list Z) (d : ata_dev) :
  units d (selected d) = Disk f g -> (forall a, length (f a) = 256%nat) -> (busy d < ATA_TIMEOUT)%nat -> (k <= n)%nat ->
  (match k with
   | O => failed d = true
   | S k' => failed d = false /\ phase d = PIn lba n (f lba) /\
       (forall i, (i < k')%nat -> fails (periods d + i)%nat = false) /\ fails (periods d + k')%nat = true
   end) ->
  exists d', read_sectors (S n) d = (-1, range f lba k, d') /\ units d' = units d.
Proof.
  revert n lba d. induction k as [|k IH]; intros n lba d Hu Hl Hb Hk Hst.
  - cbn [read_sectors]. unfold ata_wait_not_busy, ata_wait_drq.
    destruct (wait_not_busy_ok ATA_TIMEOUT d Hb) as (m & -> & _ & Hm). cbn [negb Z.eqb]. rewrite Hm by by rewrite Hu.
    rewrite wait_drq_failed; [|apply ATA_TIMEOUT_pos|done|done|by change (units d (selected d) <> NoDrive); rewrite Hu].
    by eexists.
  - destruct Hst as (He & Hp & Hi & Hf). rewrite (read_sectors_step _ _ _ _ _ _ Hu Hp (Hl lba) He Hb).
    destruct n as [|n]; [lia|].
    destruct (IH n (lba + 1) (next_in lba (S n) (set_busy 0 d))) as (d' & -> & Hu'); [exact Hu|done|apply Hdelay|lia| |].
    + destruct k as [|k]; [by rewrite Nat.add_0_r in Hf|].
      assert (fails (periods d) = false) as Hf0 by (rewrite <- (Hi 0%nat) by lia; f_equal; lia).
      cbn [next_in work failed phase periods set_busy]. rewrite Hf0. split; [done|]. split.
      * cbn [units set_busy]. change (selected (set_busy 0 d)) with (selected d). by rewrite Hu.
      * split; [intros i Hik; rewrite <- (Hi (S i)) by lia; f_equal; lia|rewrite <- Hf; f_equal; lia].
    + exists d'. by rewrite Hu'.
Qed.

End prompt.

Section healthy.
Context (Hdelay : forall n, (delay n < ATA_TIMEOUT)%nat) (Hfails : forall n, fails n = false).

Lemma read_sectors_ok (n : nat) (lba : Z) (f g : Z -> list Z) (d : ata_dev) :
  units d (selected d) = Disk f g -> (forall a, length (f a) = 256%nat) ->
  phase d = PIn lba n (f lba) -> failed d = false -> (busy d < ATA_TIMEOUT)%nat ->
  exists d', read_sectors (S n) d = (0, range f lba (S n), d') /\ units d' = units d /\ (busy d' < ATA_TIMEOUT)%nat.
Proof.
  revert lba d. induction n as [|n IH]; intros lba d Hu Hl Hp He Hb;
    rewrite (read_sectors_step _ _ _ _ _ _ Hu Hp (Hl lba) He Hb).
  - eexists. split; [done|]. split; [done|apply ATA_TIMEOUT_pos].
  - destruct (IH (lba + 1) (next_in lba (S n) (set_busy 0 d))) as (d' & -> & Hu' & Hb').
    1: exact Hu. 1: done.
    1: { cbn [next_in work phase]. rewrite Hfails. cbn [units set_busy].
         change (selected (set_busy 0 d)) with (selected d). by rewrite Hu. }
    1: apply Hfails. 1: apply Hdelay.
    exists d'. done.
Qed.

Lemma next_out_units (lba : Z) (more : nat) (ws : list Z) (f g : Z -> list Z) (d : ata_dev) :
  units d (selected d) = Disk f g ->
  forall j, units (next_out lba more ws d) j = if (j =? selected d)%nat then Disk (put_at f lba ws) g else units d j.
Proof. intros Hu j. unfold next_out, put_sector. rewrite Hfails, Hu. done. Qed.

Lemma next_out_phase (lba : Z) (more : nat) (ws : list Z) (d : ata_dev) :
  phase (next_out lba more ws d) = match more with O => PIdle | S more' => POut (lba + 1) more' [] end.
Proof. unfold next_out. cbn [phase work]. by rewrite Hfails. Qed.

Lemma next_out_quiet (lba : Z) (more : nat) (ws : list Z) (d : ata_dev) :
  failed (next_out lba more ws d) = false /\ (busy (next_out lba more ws d) < ATA_TIMEOUT)%nat.
Proof. split; [apply Hfails|apply Hdelay]. Qed.

Lemma write_sectors_ok (n : nat) (lba : Z) (buf : list Z) (f g : Z -> list Z) (d : ata_dev) :
  units d (selected d) = Disk f g -> phase d = POut lba n [] -> length buf = (256 * S n)%nat ->
  failed d = false -> (busy d < ATA_TIMEOUT)%nat ->
  exists d' f', write_sectors (S n) buf d = (0, d') /\ selected d' = selected d /\ (busy d' < ATA_TIMEOUT)%nat /\
    (forall a, f' a = put_range 256 f lba (S n) buf a) /\
    forall j, units d' j = if (j =? selected d)%nat then Disk f' g else units d j.
Proof.
  revert lba buf f d. induction n as [|n IH]; intros lba buf f d Hu Hp Hl He Hb;
    assert (256 <= length buf)%nat as Hl1 by lia;
    rewrite (write_sectors_step _ _ _ _ _ _ _ Hu Hp Hl1 He Hb);
    set (d1 := next_out _ _ _ (set_busy 0 d));
    pose proof (next_out_units lba _ (take 256 buf) f g (set_busy 0 d) Hu : forall j, units d1 j = _) as Hu1;
    pose proof (next_out_selected _ _ _ _ : selected d1 = selected d) as Hs1;
    pose proof (next_out_quiet _ _ _ _ : failed d1 = false /\ (busy d1 < ATA_TIMEOUT)%nat) as [He1 Hb1];
    change (selected (set_busy 0 d)) with (selected d) in Hu1; cbn [units set_busy] in Hu1.
  - exists d1, (put_at f lba (take 256 buf)). split; [done|]. do 2 (split; [done|]). split; [|done].
    intros a. rewrite <- put_range_step, put_range_out by lia. done.
  - destruct (IH (lba + 1) (drop 256 buf) (put_at f lba (take 256 buf)) d1) as (d' & f' & -> & Hs & Hb' & Hf' & Hu').
    1: by rewrite Hu1, Hs1, Nat.eqb_refl. 1: apply next_out_phase. 1: rewrite length_drop; lia. 1, 2: done.
    exists d', f'. split; [done|]. split; [congruence|]. split; [done|]. split.
    + intros a. by rewrite Hf', put_range_step.
    + intros j. rewrite Hu', Hu1, Hs1. by destruct (j =? selected d)%nat.
Qed.

(** ** A device that works *)

(** The device as a command on a disk leaves it. *)
Lemma started_read (drive lba count : Z) (f g : Z -> list Z) (d : ata_dev) :
  units d (drive_index drive) = Disk f g -> 0 < count < 256 ->
  let d1 := start_transfer drive lba count ATA_CMD_READ_SECTORS d in
  selected d1 = drive_index drive /\ units d1 = units d /\ failed d1 = false /\ (busy d1 < ATA_TIMEOUT)%nat /\
  phase d1 = PIn (lba mod 2 ^ 28) (Z.to_nat count - 1) (f (lba mod 2 ^ 28)).
Proof.
  intros Hu Hc d1. unfold d1. rewrite (started_read_eq drive lba count f g d Hu Hc).
  split; [apply selected_programmed|]. split; [done|]. split; [apply Hfails|]. split; [apply Hdelay|].
  cbn [phase work]. by rewrite Hfails.
Qed.

Lemma started_write (drive lba count : Z) (f g : Z -> list Z) (d : ata_dev) :
  units d (drive_index drive) = Disk f g -> 0 < count < 256 ->
  let d1 := start_transfer drive lba count ATA_CMD_WRITE_SECTORS d in
  selected d1 = drive_index drive /\ units d1 = units d /\ failed d1 = false /\ (busy d1 < ATA_TIMEOUT)%nat /\
  phase d1 = POut (lba mod 2 ^ 28) (Z.to_nat count - 1) [].
Proof.
  intros Hu Hc d1. unfold d1. rewrite (started_write_eq drive lba count f g d Hu Hc).
  split; [apply selected_programmed|]. split; [done|]. split; [apply Hfails|]. split; [apply Hdelay|].
  cbn [phase work]. by rewrite Hfails.
Qed.

(** A read returns the sectors of the disk and changes none. *)
Lemma ata_read_ok (drive lba count : Z) (d : ata_dev) :
  ata_ready drive d -> 0 < count < 256 ->
  exists d', ata_read_sectors drive lba count d =
      (0, le_bytes (range (ata_sectors drive d) (lba mod 2 ^ 28) (Z.to_nat count)), d') /\
    ata_ready drive d' /\ units d' = units d.
Proof.
  intros [Hb (f & g & Hu & Hl)] Hc. unfold ata_read_sectors, ata_wait_not_busy at 1.
  destruct (wait_not_busy_ok ATA_TIMEOUT d Hb) as (k & -> & Hk & _). cbn [negb Z.eqb].
  destruct (started_read drive lba count f g (set_busy k d) Hu Hc) as (Hs1 & Hu1 & He1 & Hb1 & Hp1).
  set (d1 := start_transfer _ _ _ _ _) in *. replace (Z.to_nat count) with (S (Z.to_nat count - 1)) by lia.
  destruct (read_sectors_ok (Z.to_nat count - 1) (lba mod 2 ^ 28) f g d1) as (d' & -> & Hu' & Hb');
    [rewrite Hs1, Hu1; exact Hu|done|done|done|done|].
  exists d'. unfold ata_sectors, ata_ready. rewrite Hu', Hu1. cbn [units set_busy]. rewrite Hu. eauto 10.
Qed.

(** A write changes the sectors it names to the contents of the buffer, changes no
    other sector and no other drive, and leaves nothing in the cache. *)
Lemma ata_write_ok (drive lba count : Z) (buf : list Z) (d : ata_dev) :
  ata_ready drive d -> 0 < count < 256 -> length buf = (512 * Z.to_nat count)%nat ->
  exists d' f', ata_write_sectors drive lba count buf d = (0, d') /\ (busy d' < ATA_TIMEOUT)%nat /\
    (forall a, f' a = put_range 256 (ata_sectors drive d) (lba mod 2 ^ 28) (Z.to_nat count) (le_words buf) a) /\
    forall j, units d' j = if (j =? drive_index drive)%nat then Disk f' f' else units d j.
Proof.
  intros [Hb (f & g & Hu & Hl)] Hc Hlen. rewrite ata_write_flush. unfold ata_wait_not_busy at 1.
  destruct (wait_not_busy_ok ATA_TIMEOUT d Hb) as (k & -> & Hk & _). cbn [negb Z.eqb].
  destruct (started_write drive lba count f g (set_busy k d) Hu Hc) as (Hs1 & Hu1 & He1 & Hb1 & Hp1).
  set (d1 := start_transfer _ _ _ _ _) in *. replace (Z.to_nat count) with (S (Z.to_nat count - 1)) in * by lia.
  destruct (write_sectors_ok (Z.to_nat count - 1) (lba mod 2 ^ 28) (le_words buf) f g d1)
    as (d2 & f2 & -> & Hs2 & Hb2 & Hf2 & Hu2);
    [rewrite Hs1, Hu1; exact Hu|by rewrite Hp1, Nat.sub_succ, Nat.sub_0_r| |done|done|].
  1: by apply le_words_sectors.
  cbn [negb Z.eqb]. destruct (flush_any Hdelay drive f2 g d2 Hb2) as (d3 & -> & Hb3 & Hu3);
    [by rewrite Hu2, Hs1, Nat.eqb_refl|].
  exists d3, f2. split; [done|]. split; [done|]. split.
  - unfold ata_sectors. rewrite Hu. exact Hf2.
  - intros j. rewrite Hu3, Hfails, Hu2, Hs1, Hu1. by destruct (j =? drive_index drive)%nat.
Qed.

(** The driver of a disk keeps the contract of a block device. *)
#[export] Program Instance ata_block (drive : Z) : BlockDevice ata_dev := {
  bd_limit := 2 ^ 28;
  bd_max := 255;
  bd_ready := ata_ready drive;
  bd_image d a := le_bytes (ata_sectors drive d a);
  bd_stable d a := le_bytes (ata_stable drive d a);
  bd_read := ata_read_sectors drive;
  bd_write := ata_write_sectors drive
}.
Next Obligation.
  intros drive d a [_ (f & g & Hu & Hl)]. unfold ata_sectors. rewrite Hu. cbn [sectors_of].
  by rewrite le_bytes_length, Hl.
Qed.
Next Obligation.
  intros drive lba count d Hr H0 Hc Hlim. destruct (ata_read_ok drive lba count d) as (d' & -> & Hr' & Hu'); [done|lia|].
  exists d'. rewrite le_bytes_range, Z.mod_small by lia. unfold ata_sectors, ata_stable. by rewrite Hu'.
Qed.
Next Obligation.
  intros drive lba count buf d Hr H0 Hc Hlim Hbuf Hlen.
  destruct (ata_write_ok drive lba count buf d) as (d' & f' & -> & Hb' & Hf' & Hu'); [done|lia|done|].
  rewrite Z.mod_small in Hf' by lia. exists d'. split; [done|].
  unfold ata_ready, ata_sectors, ata_stable in *. rewrite !Hu', Nat.eqb_refl. cbn [sectors_of stable_of].
  split; [split; [done|exists f', f'; split; [done|]]|split; [|done]].
  - intros a. rewrite Hf'. destruct Hr as [_ (f & g & Hu & Hl)]. rewrite Hu. apply put_range_length; [by apply le_words_sectors|done].
  - intros a. rewrite Hf'. by apply le_bytes_put_range.
Qed.

End healthy.

(** ** Any device *)

(** [d'] has the sectors of [d] outside an interval of one drive. *)
Definition same_outside (i : nat) (lo hi : Z) (d d' : ata_dev) : Prop :=
  (forall j, j <> i -> units d' j = units d j) /\
  (forall a, a < lo \/ hi <= a -> sectors_of (units d' i) a = sectors_of (units d i) a).

#[local] Instance same_outside_preorder i lo hi : PreOrder (same_outside i lo hi).
Proof.
  split; [done|]. intros d1 d2 d3 [H1 H2] [H3 H4]. split.
  - intros j Hj. by rewrite H3, H1.
  - intros a Ha. by rewrite H4, H2.
Qed.

Lemma same_outside_units (i : nat) (lo hi : Z) (d d' : ata_dev) : units d' = units d -> same_outside i lo hi d d'.
Proof. intros H. split; intros; by rewrite H. Qed.

(** A data phase in which only sectors of an interval are written, with [n]
    sectors to come. *)
Definition inside (lo hi : Z) (n : nat) (d : ata_dev) : Prop :=
  match phase d with POut a _ ws => ws = [] /\ lo <= a /\ a + Z.of_nat n <= hi | _ => True end.

Lemma next_out_inside (lo hi lba : Z) (more n : nat) (ws : list Z) (d : ata_dev) :
  lo <= lba -> lba + Z.of_nat (S n) <= hi ->
  same_outside (selected d) lo hi d (next_out lba more ws d) /\ inside lo hi n (next_out lba more ws d).
Proof.
  intros Hlo Hhi. split.
  - unfold next_out. destruct (fails (periods d)); [done|]. unfold put_sector.
    destruct (units d (selected d)) as [| |f g] eqn:Hu; [done|done|]. split; cbn [work set_unit units].
    + intros j Hj. by rewrite (proj2 (Nat.eqb_neq _ _)).
    + intros a Ha. rewrite Nat.eqb_refl, Hu. cbn [sectors_of]. unfold put_at. destruct (Z.eqb_spec a lba); [lia|done].
  - unfold next_out, inside. cbn [work phase]. destruct (fails _); [done|]. destruct more; [done|]. split; [done|lia].
Qed.

Lemma write_sectors_inside (n : nat) (lo hi : Z) (buf : list Z) (d : ata_dev) :
  length buf = (256 * n)%nat -> inside lo hi n d ->
  same_outside (selected d) lo hi d (snd (write_sectors n buf d)) /\ selected (snd (write_sectors n buf d)) = selected d.
Proof.
  revert buf d. induction n as [|n IH]; intros buf d Hl Hin; [done|]. cbn [write_sectors].
  unfold ata_wait_not_busy, ata_wait_drq.
  destruct (wait_not_busy_shape ATA_TIMEOUT d) as (r & m & -> & _). destruct (negb (r =? 0)); [done|].
  destruct (wait_drq_shape ATA_TIMEOUT (set_busy m d)) as (r' & m' & -> & _). destruct (negb (r' =? 0)); [done|]. change (set_busy m' (set_busy m d)) with (set_busy m' d). rewrite ata_delay_id.
  assert (length (drop 256 buf) = (256 * n)%nat) as Hl' by (rewrite length_drop; lia).
  unfold inside in Hin. destruct (phase d) as [|a k ws|a k ws] eqn:Hp.
  1, 2: rewrite write_words_idle by (intros *; cbn; by rewrite Hp);
    apply (IH _ (set_busy m' d) Hl'); unfold inside; cbn [phase set_busy]; by rewrite Hp.
  destruct Hin as (-> & Hlo & Hhi).
  rewrite (write_words_out _ [] a k) by (first [done|rewrite length_take; cbn [length]; lia|by destruct buf]).
  cbn [app]. destruct (next_out_inside lo hi a k n (take 256 buf) (set_busy m' d) Hlo Hhi) as [Hs Hi].
  pose proof (next_out_selected a k (take 256 buf) (set_busy m' d)) as Hsel.
  destruct (IH _ _ Hl' Hi) as [Hs' Hsel']. rewrite Hsel in *. split; [|done].
  by etrans; [exact Hs|exact Hs'].
Qed.

Lemma flush_inside (drive lo hi : Z) (d : ata_dev) : same_outside (drive_index drive) lo hi d (snd (flush drive d)).
Proof.
  unfold flush, ata_wait_not_busy.
  destruct (wait_not_busy_shape ATA_TIMEOUT d) as (r & m & -> & _). destruct (negb _); [done|]. rewrite !ata_delay_id.
  set (d1 := ata_select_drive drive 0 (set_busy m d)).
  assert (selected d1 = drive_index drive) as Hs
    by (unfold selected; cbn [d1 r_head]; apply (f_equal Z.to_nat), (head_selects drive (Z.shiftr 0 24))).
  change (outb ATA_STATUS_CMD ATA_CMD_FLUSH_CACHE d1) with (command ATA_CMD_FLUSH_CACHE d1).
  assert (same_outside (drive_index drive) lo hi d (command ATA_CMD_FLUSH_CACHE d1)) as Hc.
  { unfold command. rewrite Hs. change (units d1 (drive_index drive)) with (units d (drive_index drive)).
    destruct (units d (drive_index drive)) as [| |f g] eqn:Hu; [done|done|].
    cbn [Z.eqb ATA_CMD_FLUSH_CACHE ATA_CMD_READ_SECTORS ATA_CMD_WRITE_SECTORS ATA_CMD_IDENTIFY Pos.eqb].
    destruct (fails _); [done|]. split; cbn [work set_unit units].
    - intros j Hj. by rewrite (proj2 (Nat.eqb_neq _ _)).
    - intros a Ha. by rewrite Nat.eqb_refl, Hu. }
  destruct (wait_not_busy_shape ATA_TIMEOUT (command ATA_CMD_FLUSH_CACHE d1)) as (r' & m' & -> & _).
  by destruct (negb _).
Qed.

(** A drive that is not there never asks for data. *)
Lemma wait_drq_absent (fuel : nat) (d : ata_dev) :
  units d (selected d) = NoDrive -> fst (wait_drq fuel d) = -1.
Proof.
  revert d. induction fuel as [|fuel IH]; intros d Hu; cbn [wait_drq]; [done|].
  change (inb ATA_STATUS_CMD d) with (status d, set_busy (pred (busy d)) d). cbn iota.
  unfold status. rewrite Hu. by apply IH.
Qed.

Lemma write_sectors_absent (n : nat) (buf : list Z) (d : ata_dev) :
  units d (selected d) = NoDrive ->
  units (snd (write_sectors n buf d)) = units d.
Proof.
  intros Hu. destruct n as [|n]; [done|]. cbn [write_sectors]. unfold ata_wait_not_busy, ata_wait_drq.
  destruct (wait_not_busy_shape ATA_TIMEOUT d) as (r & m & -> & _). destruct (negb (r =? 0)); [done|].
  pose proof (wait_drq_absent ATA_TIMEOUT (set_busy m d) Hu) as Ha.
  destruct (wait_drq_shape ATA_TIMEOUT (set_busy m d)) as (r' & m' & E & _). rewrite E in *. clear E.
  cbn [fst] in Ha. by subst r'.
Qed.

(** The device after the command of a write. *)
Lemma started_write_inside (drive lba count : Z) (d : ata_dev) :
  0 <= count < 256 ->
  let d1 := start_transfer drive lba count ATA_CMD_WRITE_SECTORS d in
  units d1 = units d /\ selected d1 = drive_index drive /\
  (units d (drive_index drive) = NoDrive \/
   inside (lba mod 2 ^ 28) (lba mod 2 ^ 28 + count) (Z.to_nat count) d1).
Proof.
  intros Hc d1. unfold d1. rewrite start_transfer_eq. unfold command. rewrite selected_programmed.
  cbn [units programmed]. destruct (units d (drive_index drive)) as [| |f g] eqn:Hu.
  1: { split; [done|]. split; [apply selected_programmed|by left]. }
  1: { split; [done|]. split; [apply selected_programmed|by right]. }
  change (ATA_CMD_WRITE_SECTORS mod 256 =? ATA_CMD_READ_SECTORS) with false.
  change (ATA_CMD_WRITE_SECTORS mod 256 =? ATA_CMD_WRITE_SECTORS) with true. cbn iota.
  split; [done|]. split; [apply selected_programmed|right].
  rewrite r_lba_programmed. unfold inside. cbn [phase work]. destruct (fails _); [done|]. split; [done|lia].
Qed.

(** A write never touches the sectors outside the range it was given, on any
    device: whatever the delays, whichever sectors fail, and even when the drive
    is missing or is a packet device. *)
Theorem ata_write_confined (drive lba count : Z) (buf : list Z) (d : ata_dev) :
  0 <= count < 256 -> length buf = (512 * Z.to_nat count)%nat ->
  same_outside (drive_index drive) (lba mod 2 ^ 28) (lba mod 2 ^ 28 + count) d
    (snd (ata_write_sectors drive lba count buf d)).
Proof.
  intros Hc Hl. rewrite ata_write_flush. unfold ata_wait_not_busy at 1.
  destruct (wait_not_busy_shape ATA_TIMEOUT d) as (r & m & -> & _). destruct (negb _); [done|].
  destruct (started_write_inside drive lba count (set_busy m d) Hc) as (Hu & Hs & Hin).
  set (d1 := start_transfer _ _ _ _ _) in *. set (lo := lba mod 2 ^ 28) in *.
  assert (same_outside (drive_index drive) lo (lo + count) d
            (snd (write_sectors (Z.to_nat count) (le_words buf) d1))) as Hw.
  { etrans; [by apply (same_outside_units _ _ _ _ d1)|]. destruct Hin as [Hn|Hin].
    - apply same_outside_units, write_sectors_absent. by rewrite Hs, Hu.
    - rewrite <- Hs. apply write_sectors_inside; [by apply le_words_sectors|done]. }
  destruct (write_sectors _ _ d1) as [r2 d2]. cbn [snd] in Hw. destruct (negb (r2 =? 0)); [done|].
  etrans; [exact Hw|apply flush_inside].
Qed.

(** A sector that cannot be read makes the read return -1, and the buffer holds
    the sectors before it. *)
Theorem ata_read_reports_error (drive lba count : Z) (k : nat) (d : ata_dev) :
  (forall n, (delay n < ATA_TIMEOUT)%nat) -> ata_ready drive d -> Z.of_nat k < count < 256 ->
  (forall i, (i < k)%nat -> fails (periods d + i)%nat = false) -> fails (periods d + k)%nat = true ->
  exists d', ata_read_sectors drive lba count d =
      (-1, le_bytes (range (ata_sectors drive d) (lba mod 2 ^ 28) k), d') /\ units d' = units d.
Proof.
  intros Hdelay [Hb (f & g & Hu & Hl)] Hk Hi Hf. unfold ata_read_sectors, ata_wait_not_busy at 1.
  destruct (wait_not_busy_ok ATA_TIMEOUT d Hb) as (m & -> & _ & _). cbn [negb Z.eqb].
  rewrite (started_read_eq drive lba count f g) by (exact Hu || lia).
  match goal with |- context [work ?p ?d0] => set (ph := p); set (d1 := d0) end.
  set (n := (Z.to_nat count - 1)%nat) in *. assert (Z.to_nat count = S n) as -> by lia.
  destruct (read_sectors_error Hdelay k n (lba mod 2 ^ 28) f g (work ph d1)) as (d' & -> & Hu').
  - change (selected (work ph d1)) with (selected d1). unfold d1. rewrite selected_programmed. exact Hu.
  - done.
  - apply Hdelay.
  - lia.
  - cbn [work failed phase periods d1 programmed set_busy]. destruct k as [|k].
    + by rewrite Nat.add_0_r in Hf.
    + assert (fails (periods d) = false) as Hf0 by (rewrite <- (Hi 0%nat) by lia; f_equal; lia).
      rewrite Hf0. split; [done|]. split; [done|].
      split; [intros i Hik; rewrite <- (Hi (S i)) by lia; f_equal; lia|rewrite <- Hf; f_equal; lia].
  - exists d'. unfold ata_sectors. by rewrite Hu.
Qed.

(** The status of the drive is not looked at after the last sector of a write:
    a write of one sector that the drive fails to store returns 0 and leaves the
    disk as it was. *)
Theorem ata_write_error_unseen (drive lba : Z) (buf : list Z) (d : ata_dev) :
  (forall n, (delay n < ATA_TIMEOUT)%nat) -> ata_ready drive d -> length buf = 512%nat ->
  fails (periods d) = false -> fails (S (periods d)) = true ->
  exists d', ata_write_sectors drive lba 1 buf d = (0, d') /\
    forall a, ata_sectors drive d' a = ata_sectors drive d a.
Proof.
  intros Hdelay [Hb (f & g & Hu & Hl)] Hlen Hf0 Hf1. rewrite ata_write_flush. unfold ata_wait_not_busy at 1.
  destruct (wait_not_busy_ok ATA_TIMEOUT d Hb) as (m & -> & _ & _). cbn [negb Z.eqb].
  rewrite (started_write_eq drive lba 1 f g) by (exact Hu || lia).
  match goal with |- context [work ?p ?d0] => set (ph := p); set (d1 := d0) end.
  assert (selected (work ph d1) = drive_index drive) as Hs by apply selected_programmed.
  change (Z.to_nat 1) with 1%nat.
  rewrite (write_sectors_step 0 0 (lba mod 2 ^ 28) (le_words buf) f g (work ph d1)).
  - cbn [write_sectors negb Z.eqb]. unfold next_out at 1. cbn [work periods set_busy d1 programmed]. rewrite Hf1.
    match goal with |- context [flush drive ?d3] => set (d2 := d3) end.
    destruct (flush_any Hdelay drive f g d2 (Hdelay _) Hu) as (d' & -> & _ & Hu').
    exists d'. split; [done|]. intros a. unfold ata_sectors. rewrite Hu', Hu.
    destruct (negb _ && _); [done|by rewrite (Hu : units d2 (drive_index drive) = _)].
  - rewrite Hs. exact Hu.
  - cbn [work phase d1 programmed periods set_busy]. by rewrite Hf0.
  - rewrite (le_words_sectors buf 1) by lia. lia.
  - exact Hf0.
  - apply Hdelay.
Qed.

(** The drives the probe counts: disks that identify themselves. *)
Definition is_disk (u : ata_unit) : bool := match u with Disk _ _ => true | _ => false end.

Lemma status_present (d : ata_dev) : units d (selected d) <> NoDrive -> (status d =? 0) = false.
Proof.
  intros Hu. unfold status. destruct (units d (selected d)); [done| |];
    destruct (busy d); [by destruct (failed d), (phase d)|done|by destruct (failed d), (phase d)|done].
Qed.

Lemma probe_ok (drive : Z) (d : ata_dev) :
  (forall n, (delay n < ATA_TIMEOUT)%nat) -> (forall n, fails n = false) -> (forall i, length (identity i) = 256%nat) ->
  exists d', ata_probe drive d = (is_disk (units d (drive_index drive)), d') /\ units d' = units d /\
    ((busy d < ATA_TIMEOUT)%nat -> (busy d' < ATA_TIMEOUT)%nat).
Proof.
  intros Hdelay Hfails Hid. unfold ata_probe, ata_wait_not_busy, ata_wait_drq. rewrite !ata_delay_id.
  match goal with |- context [outb ATA_STATUS_CMD ATA_CMD_IDENTIFY ?d0] => set (d1 := d0) end.
  assert (selected d1 = drive_index drive) as Hs
    by (unfold selected; cbn [d1 r_head]; apply (f_equal Z.to_nat), (head_selects drive (Z.shiftr 0 24))).
  change (outb ATA_STATUS_CMD ATA_CMD_IDENTIFY d1) with (command ATA_CMD_IDENTIFY d1).
  unfold command. rewrite Hs. change (units d1 (drive_index drive)) with (units d (drive_index drive)).
  destruct (units d (drive_index drive)) as [| |f g] eqn:Hu; cbn [is_disk];
    match goal with |- context [inb ATA_STATUS_CMD ?d0] => set (d2 := d0) end;
    change (inb ATA_STATUS_CMD d2) with (status d2, set_busy (pred (busy d2)) d2); cbn iota;
    assert (units d2 (selected d2) = units d (drive_index drive)) as Hu2
      by (change (selected d2) with (selected d1); by rewrite Hs);
    rewrite Hu in Hu2.
  1: { unfold status. rewrite Hu2. cbn [Z.eqb]. eexists. split; [done|]. split; [done|].
       change (busy (set_busy (pred (busy d2)) d2)) with (pred (busy d)). lia. }
  all: rewrite status_present by (by rewrite Hu2);
    destruct (wait_not_busy_ok ATA_TIMEOUT (set_busy (pred (busy d2)) d2)) as (k & -> & _ & Hk);
    [cbn [busy set_busy]; eapply Nat.le_lt_trans; [apply Nat.le_pred_l|apply Hdelay]|];
    rewrite Hk by (change (units d2 (selected d2) <> NoDrive); by rewrite Hu2); cbn [negb Z.eqb].
  1: eexists; split; [done|split; [done|intros _; apply ATA_TIMEOUT_pos]].
  change (set_busy 0 (set_busy (pred (busy d2)) d2)) with (set_busy 0 d2).
  change (inb ATA_LBA_MID (set_busy 0 d2)) with (0, set_busy 0 d2). cbn iota.
  change (inb ATA_LBA_HI (set_busy 0 d2)) with (0, set_busy 0 d2). cbn [negb Z.eqb orb].
  assert (phase d2 = PIn 0 0 (identity (drive_index drive))) as Hp
    by (unfold d2; cbn [Z.eqb Pos.eqb ATA_CMD_IDENTIFY ATA_CMD_READ_SECTORS ATA_CMD_WRITE_SECTORS work phase];
        by rewrite Hfails).
  rewrite wait_drq_ok; [|apply ATA_TIMEOUT_pos|done|apply Hfails|by cbn [phase set_busy]; rewrite Hp
    |by change (units d2 (selected d2) <> NoDrive); rewrite Hu2].
  cbn [negb Z.eqb]. rewrite <- (Hid (drive_index drive)).
  rewrite (read_words_in _ 0 0) by (exact Hp || (intros E; specialize (Hid (drive_index drive)); by rewrite E in Hid)).
  eexists. split; [done|]. split; [done|intros _; apply ATA_TIMEOUT_pos].
Qed.

(** The probe finds exactly the disks: bit 0 for the master and bit 1 for the
    slave; empty positions and packet devices are not counted. *)
Theorem ata_init_finds_disks (d : ata_dev) :
  (forall n, (delay n < ATA_TIMEOUT)%nat) -> (forall n, fails n = false) -> (forall i, length (identity i) = 256%nat) ->
  exists d', ata_init d =
    ((if is_disk (units d 0) then 1 else 0) + (if is_disk (units d 1) then 2 else 0), d') /\ units d' = units d /\
    ((busy d < ATA_TIMEOUT)%nat -> (busy d' < ATA_TIMEOUT)%nat).
Proof.
  intros Hdelay Hfails Hid. unfold ata_init.
  destruct (probe_ok 0 d Hdelay Hfails Hid) as (d1 & -> & Hu1 & Hb1).
  destruct (probe_ok 1 d1 Hdelay Hfails Hid) as (d2 & -> & Hu2 & Hb2).
  exists d2. rewrite Hu2, Hu1. split; [|by auto]. change (drive_index 0) with 0%nat. change (drive_index 1) with 1%nat.
  by destruct (is_disk (units d 0)), (is_disk (units d 1)).
Qed.

End channel.

(** * A channel with a disk as its slave *)

Definition sample_delay (n : nat) : nat := (n mod 3)%nat.

Lemma sample_prompt n : (sample_delay n < ATA_TIMEOUT)%nat.
Proof.
  unfold sample_delay. pose proof (Nat.mod_upper_bound n 3 ltac:(lia)).
  assert (3 < ATA_TIMEOUT)%nat by (unfold ATA_TIMEOUT; lia). lia.
Qed.

Definition sample_disk : Z -> list Z := fun a => replicate 256 (a mod 65536).

Definition sample_channel : ata_dev :=
  mk_ata 0 0 0 0 0 PIdle 0 false 0 (fun i => match i with 0%nat => Packet | _ => Disk sample_disk sample_disk end).

Lemma sample_ready : ata_ready 1 sample_channel.
Proof.
  split; [apply ATA_TIMEOUT_pos|]. exists sample_disk, sample_disk. split; [done|]. intros a. apply length_replicate.
Qed.

Lemma ata_write_confined_witness :
  same_outside 1 7 9 sample_channel
    (snd (ata_write_sectors sample_delay (fun n => (n =? 1)%nat) (fun _ => []) 1 7 2 (replicate 1024 5) sample_channel)).
Proof. apply (ata_write_confined sample_delay (fun n => (n =? 1)%nat) (fun _ => []) 1 7 2); [lia|reflexivity]. Defined.

Lemma ata_read_reports_error_witness :
  exists d', ata_read_sectors sample_delay (fun n => (n =? 2)%nat) (fun _ => []) 1 7 5 sample_channel =
    (-1, le_bytes (sample_disk 7 ++ sample_disk 8), d') /\ units d' = units sample_channel.
Proof.
  apply (ata_read_reports_error sample_delay (fun n => (n =? 2)%nat) (fun _ => []) 1 7 5 2 sample_channel).
  - apply sample_prompt.
  - apply sample_ready.
  - lia.
  - intros i Hi. destruct i as [|[|i]]; [done|done|lia].
  - reflexivity.
Defined.

Lemma ata_write_error_unseen_witness :
  exists d', ata_write_sectors sample_delay (fun n => (n =? 1)%nat) (fun _ => []) 1 7 1 (replicate 512 5) sample_channel = (0, d') /\
    forall a, ata_sectors 1 d' a = sample_disk a.
Proof.
  apply (ata_write_error_unseen sample_delay (fun n => (n =? 1)%nat) (fun _ => []) 1 7 (replicate 512 5) sample_channel);
    [apply sample_prompt|apply sample_ready|reflexivity|reflexivity|reflexivity].
Defined.

Lemma ata_init_finds_disks_witness :
  exists d', ata_init sample_delay (fun _ => false) (fun _ => replicate 256 0) sample_channel = (2, d') /\
    units d' = units sample_channel /\ ((0 < ATA_TIMEOUT)%nat -> (busy d' < ATA_TIMEOUT)%nat).
Proof.
  apply (ata_init_finds_disks sample_delay (fun _ => false) (fun _ => replicate 256 0) sample_channel);
    [apply sample_prompt|done|reflexivity].
Defined.
