(* ===== verification/Ahci.v ===== *)
(** The AHCI disk driver: src/drivers/ahci.c.

    The driver talks to the controller through memory-mapped registers and through
    structures in memory: a command list, a command table with the command and
    the place of the data, and a buffer.  The controller is a small machine that
    follows the AHCI specification: a write to a register starts an activity that
    ends some register reads later, and a command is carried out by fetching the
    structures from the addresses the driver gave.  How long activities take and
    which commands fail are parameters. *)

From Stdlib Require Import ZArith Lia Bool.
From stdpp Require Import base list numbers option.
From S2P Require Import Prelude Block Pci.

Open Scope Z_scope.

Definition HBA_CAP : Z := 0x00.
Definition HBA_GHC : Z := 0x04.
Definition HBA_PI : Z := 0x0C.
Definition HBA_CAP2 : Z := 0x24.
Definition HBA_BOHC : Z := 0x28.
Definition GHC_AE : Z := Z.shiftl 1 31.
Definition GHC_HR : Z := 1.
Definition CAP_SSS : Z := Z.shiftl 1 2.
Definition CAP2_BOH : Z := 1.
Definition BOHC_BOS : Z := 1.
Definition BOHC_OOS : Z := 2.
Definition BOHC_BB : Z := 16.

Definition PORT_CLB : Z := 0x00.
Definition PORT_CLBU : Z := 0x04.
Definition PORT_FB : Z := 0x08.
Definition PORT_FBU : Z := 0x0C.
Definition PORT_IS : Z := 0x10.
Definition PORT_CMD : Z := 0x18.
Definition PORT_TFD : Z := 0x20.
Definition PORT_SIG : Z := 0x24.
Definition PORT_SSTS : Z := 0x28.
Definition PORT_SCTL : Z := 0x2C.
Definition PORT_SERR : Z := 0x30.
Definition PORT_CI : Z := 0x38.

Definition PCMD_ST : Z := 1.
Definition PCMD_SUD : Z := 2.
Definition PCMD_POD : Z := 4.
Definition PCMD_FRE : Z := 16.
Definition PCMD_FR : Z := Z.shiftl 1 14.
Definition PCMD_CR : Z := Z.shiftl 1 15.
Definition TFD_ERR : Z := 0x01.
Definition TFD_DRQ : Z := 0x08.
Definition TFD_BSY : Z := 0x80.
Definition SSTS_DET_MASK : Z := 0x0F.
Definition SSTS_DET_PRESENT : Z := 0x03.
Definition SSTS_IPM_MASK : Z := 0xF00.
Definition SSTS_IPM_ACTIVE : Z := 0x100.
Definition SIG_ATA : Z := 0x00000101.
Definition PIS_TFES : Z := Z.shiftl 1 30.

Definition FIS_TYPE_H2D : Z := 0x27.
Definition FIS_FLAG_CMD : Z := 0x80.
Definition ATA_READ_DMA_EXT : Z := 0x25.
Definition ATA_WRITE_DMA_EXT : Z := 0x35.
Definition ATA_FLUSH_EXT : Z := 0xEA.
Definition AHCI_DMA_SECTORS : Z := 128.

(** The rounds of the waiting loops; never computed with. *)
Definition STOP_ROUNDS : nat := Z.to_nat 500000.
Definition SETTLE_ROUNDS : nat := Z.to_nat 20000.
Definition LINK_ROUNDS : nat := Z.to_nat 0x100000.
Definition SLOT_ROUNDS : nat := Z.to_nat 0x2000000.
Definition HANDOFF_ROUNDS : nat := Z.to_nat 0x200000.
Definition BB_ROUNDS : nat := Z.to_nat 0x800000.

(** * Structures in memory *)

Record hba_cmd_hdr_t := mk_hdr { flags : Z; prdtl : Z; prdbc : Z; ctba : Z; ctbau : Z }.
Record hba_prdt_t := mk_prdt { dba : Z; dbau : Z; dbc : Z }.
Record fis_h2d_t := mk_fis {
  fis_type : Z; fis_flags : Z; fis_command : Z; device : Z;
  lba0 : Z; lba1 : Z; lba2 : Z; lba3 : Z; lba4 : Z; lba5 : Z; countl : Z; counth : Z
}.
Record hba_cmd_tbl_t := mk_tbl { cfis : fis_h2d_t; prdt : hba_prdt_t }.

Definition hdr_zero : hba_cmd_hdr_t := mk_hdr 0 0 0 0 0.
Definition tbl_zero : hba_cmd_tbl_t := mk_tbl (mk_fis 0 0 0 0 0 0 0 0 0 0 0 0) (mk_prdt 0 0 0).

(** The static variables of the driver that the controller reads and writes. *)
Record ahci_mem := mk_mem { s_cmd_list : list hba_cmd_hdr_t; s_cmd_tbl : hba_cmd_tbl_t; s_dma_buf : list Z }.

(** * The controller *)

Inductive activity := Quiet | Resetting | HandingOver | Stopping (p : Z) | Unlisting (p : Z) | Linking (p : Z) | Executing (p : Z).

(** Registers by port and offset, with -1 for those of the controller itself; the
    activity under way and the reads until it ends; how many were started; ports
    that stopped after an error; the sectors of the disk as reads see them and as
    they are once its cache is lost. *)
Record hba := mk_hba {
  regs : Z -> Z -> Z;
  act : activity;
  wait : nat;
  acts : nat;
  halted : Z -> bool;
  now : Z -> list Z;
  stable : Z -> list Z
}.

Record ahci := mk_ahci { g_abar : Z; g_port : Z; mem : ahci_mem; dev : hba; pci : pci_bus }.

Definition set_mem (m : ahci_mem) (s : ahci) : ahci := mk_ahci (g_abar s) (g_port s) m (dev s) (pci s).
Definition set_dev (h : hba) (s : ahci) : ahci := mk_ahci (g_abar s) (g_port s) (mem s) h (pci s).
Definition set_abar (a : Z) (s : ahci) : ahci := mk_ahci a (g_port s) (mem s) (dev s) (pci s).
Definition set_port (p : Z) (s : ahci) : ahci := mk_ahci (g_abar s) p (mem s) (dev s) (pci s).
Definition set_pci (b : pci_bus) (s : ahci) : ahci := mk_ahci (g_abar s) (g_port s) (mem s) (dev s) b.

Definition set_reg (p r v : Z) (h : hba) : hba :=
  mk_hba (fun p' r' => if (p' =? p) && (r' =? r) then v else regs h p' r') (act h) (wait h) (acts h) (halted h) (now h) (stable h).
Definition set_act (a : activity) (n : nat) (h : hba) : hba :=
  mk_hba (regs h) a n (acts h) (halted h) (now h) (stable h).
Definition set_halted (p : Z) (b : bool) (h : hba) : hba :=
  mk_hba (regs h) (act h) (wait h) (acts h) (fun q => if q =? p then b else halted h q) (now h) (stable h).
Definition set_disk (f g : Z -> list Z) (h : hba) : hba :=
  mk_hba (regs h) (act h) (wait h) (acts h) (halted h) f g.

(** A 64-bit address from its halves. *)
Definition join (lo hi : Z) : Z := Z.lor lo (Z.shiftl hi 32).

Definition fis_lba (c : fis_h2d_t) : Z :=
  Z.lor (lba0 c) (Z.lor (Z.shiftl (lba1 c) 8) (Z.lor (Z.shiftl (lba2 c) 16)
    (Z.lor (Z.shiftl (lba3 c) 24) (Z.lor (Z.shiftl (lba4 c) 32) (Z.shiftl (lba5 c) 40))))).

Definition fis_count (c : fis_h2d_t) : Z :=
  let n := Z.lor (countl c) (Z.shiftl (counth c) 8) in if n =? 0 then 65536 else n.

(** The register an offset in the memory window stands for. *)
Definition decode (off : Z) : Z * Z := if off <? 0x100 then (-1, off) else ((off - 0x100) / 0x80, (off - 0x100) mod 0x80).

Section controller.
(** Where the window of the controller and the variables of the driver are, the
    port of the disk, how long the [n]-th activity takes and whether it fails. *)
Context (window a_list a_fis a_tbl a_dma : Z) (dport : Z) (delay : nat -> nat) (fails : nat -> bool).

(** ** What the controller does *)

(** A command on the structures in memory and the sectors of the disk, or [None]
    for a task file error. *)
Definition run_command (m : ahci_mem) (f g : Z -> list Z) : option (ahci_mem * (Z -> list Z) * (Z -> list Z)) :=
  let t := s_cmd_tbl m in
  let c := cfis t in
  hd ← s_cmd_list m !! 0%nat;
  if negb ((join (ctba hd) (ctbau hd) =? a_tbl) && (Z.land (flags hd) 0x1F =? 5) &&
           (fis_type c =? FIS_TYPE_H2D) && (Z.land (fis_flags c) FIS_FLAG_CMD =? FIS_FLAG_CMD)) then None
  else if fis_command c =? ATA_FLUSH_EXT then Some (m, f, f)
  else
    let n := fis_count c in
    let bytes := Z.to_nat (n * 512) in
    if negb ((prdtl hd =? 1) && (join (dba (prdt t)) (dbau (prdt t)) =? a_dma) && (dbc (prdt t) =? n * 512 - 1) &&
             (Z.land (device c) 0x40 =? 0x40)) then None
    else if (fis_command c =? ATA_READ_DMA_EXT) && (Z.land (flags hd) 0x40 =? 0) then
      Some (mk_mem (alter (fun hd => mk_hdr (flags hd) (prdtl hd) (n * 512) (ctba hd) (ctbau hd)) 0%nat (s_cmd_list m)) t
              (range f (fis_lba c) (Z.to_nat n) ++ drop bytes (s_dma_buf m)), f, g)
    else if (fis_command c =? ATA_WRITE_DMA_EXT) && (Z.land (flags hd) 0x40 =? 0x40) then
      Some (m, put_range 512 f (fis_lba c) (Z.to_nat n) (take bytes (s_dma_buf m)), g)
    else None.

(** The controller finds the structures through the registers of the port.  After
    an error the port stops until its start bit is cleared. *)
Definition execute (p : Z) (s : ahci) : ahci :=
  let h := dev s in
  match (if negb (fails (pred (acts h))) && (p =? dport) && (join (regs h p PORT_CLB) (regs h p PORT_CLBU) =? a_list)
         then run_command (mem s) (now h) (stable h) else None) with
  | Some (m, f, g) => set_mem m (set_dev (set_reg p PORT_CI 0 (set_reg p PORT_TFD 0x50 (set_disk f g h))) s)
  | None => set_dev (set_halted p true (set_reg p PORT_IS (Z.lor (regs h p PORT_IS) PIS_TFES) (set_reg p PORT_TFD 0x51 h))) s
  end.

(** A reset of the controller leaves the links up and everything else cleared. *)
Definition reset_regs (f : Z -> Z -> Z) (p r : Z) : Z :=
  if (p =? -1) && ((r =? HBA_GHC) || (r =? HBA_BOHC)) then 0
  else if (0 <=? p) && ((r =? PORT_CMD) || (r =? PORT_CI) || (r =? PORT_IS) || (r =? PORT_SCTL) || (r =? PORT_CLB) ||
                        (r =? PORT_CLBU) || (r =? PORT_FB) || (r =? PORT_FBU)) then 0
  else f p r.

Definition finish (a : activity) (s : ahci) : ahci :=
  let h := dev s in
  match a with
  | Quiet => s
  | Resetting => set_dev (mk_hba (reset_regs (regs h)) (act h) (wait h) (acts h) (fun _ => false) (now h) (stable h)) s
  | HandingOver => set_dev (set_reg (-1) HBA_BOHC BOHC_OOS h) s
  | Stopping p => set_dev (set_reg p PORT_CMD (Z.land (regs h p PORT_CMD) (Z.lnot PCMD_CR)) h) s
  | Unlisting p => set_dev (set_reg p PORT_CMD (Z.land (regs h p PORT_CMD) (Z.lnot PCMD_FR)) h) s
  | Linking p =>
      if p =? dport then set_dev (set_reg p PORT_SSTS 0x113 (set_reg p PORT_SIG SIG_ATA (set_reg p PORT_TFD 0x50 h))) s else s
  | Executing p => execute p s
  end.

Definition tick (s : ahci) : ahci :=
  match act (dev s) with
  | Quiet => s
  | a => match wait (dev s) with
         | O => finish a (set_dev (set_act Quiet 0 (dev s)) s)
         | S w => set_dev (set_act a w (dev s)) s
         end
  end.

Definition start (a : activity) (h : hba) : hba :=
  mk_hba (regs h) a (delay (acts h)) (S (acts h)) (halted h) (now h) (stable h).

Definition bit (v m : Z) : bool := negb (Z.land v m =? 0).

Definition write_cmd (p v : Z) (h : hba) : hba :=
  let old := regs h p PORT_CMD in
  let ro := Z.lor PCMD_CR PCMD_FR in
  let h := set_reg p PORT_CMD (Z.lor (Z.land v (Z.lnot ro))
             (Z.lor (Z.land old ro) (Z.lor (if bit v PCMD_ST then PCMD_CR else 0) (if bit v PCMD_FRE then PCMD_FR else 0)))) h in
  let h := if bit v PCMD_ST then h else set_halted p false (set_reg p PORT_CI 0 h) in
  if negb (bit v PCMD_ST) && bit old PCMD_CR then start (Stopping p) h
  else if negb (bit v PCMD_FRE) && bit old PCMD_FR then start (Unlisting p) h
  else h.

Definition write_reg (p r v : Z) (h : hba) : hba :=
  if p =? -1 then
    if r =? HBA_GHC then let h := set_reg p r v h in if bit v GHC_HR then start Resetting h else h
    else if r =? HBA_BOHC then let h := set_reg p r v h in if bit v BOHC_OOS then start HandingOver h else h
    else h
  else if r =? PORT_CMD then write_cmd p v h
  else if (r =? PORT_IS) || (r =? PORT_SERR) then set_reg p r (Z.land (regs h p r) (Z.lnot v)) h
  else if r =? PORT_SCTL then
    let old := regs h p r in
    let h := set_reg p r v h in
    if Z.land v 15 =? 1 then set_reg p PORT_SSTS 0 h else if Z.land old 15 =? 1 then start (Linking p) h else h
  else if r =? PORT_CI then
    let old := regs h p r in
    if bit (regs h p PORT_CMD) PCMD_ST then
      let h := set_reg p r (Z.lor old v) h in if bit v 1 && negb (halted h p) then start (Executing p) h else h
    else h
  else if (r =? PORT_CLB) || (r =? PORT_CLBU) || (r =? PORT_FB) || (r =? PORT_FBU) then set_reg p r v h
  else h.

(** ** The driver's view *)

Definition HM (A : Type) : Type := ahci -> A * ahci.
#[local] Instance HM_ret : MRet HM := fun A x s => (x, s).
#[local] Instance HM_bind : MBind HM := fun A B k m s => let '(x, s) := m s in k x s.

Definition gets {A} (f : ahci -> A) : HM A := fun s => (f s, s).
Definition modify (f : ahci -> ahci) : HM unit := fun s => (tt, f s).

(** Reads outside the window see no device. *)
Definition hba_read (off : Z) : HM Z := fun s =>
  if g_abar s =? window then
    let s := tick s in let '(p, r) := decode off in (regs (dev s) p r, s)
  else (0xFFFFFFFF, s).

Definition hba_write (off val : Z) : HM unit := fun s =>
  if g_abar s =? window then
    let '(p, r) := decode off in (tt, set_dev (write_reg p r (u32 val) (dev s)) s)
  else (tt, s).

Definition port_read (p off : Z) : HM Z := hba_read (u32 (0x100 + u32 p * 0x80 + off)).
Definition port_write (p off val : Z) : HM unit := hba_write (u32 (0x100 + u32 p * 0x80 + off)) val.

(** [for (i = 0; i < n; i++) if (test) break;] and whether it broke off. *)
Fixpoint poll (n : nat) (test : HM bool) : HM bool :=
  match n with
  | O => mret false
  | S n' => b ← test; if b : bool then mret true else poll n' test
  end.

(** A loop that only passes time. *)
Fixpoint repeat_read (n : nat) (m : HM Z) : HM unit :=
  match n with O => mret tt | S n' => m ;; repeat_read n' m end.

(** ** Ports *)

Definition port_clear (p off mask : Z) : HM unit := v ← port_read p off; port_write p off (Z.land v (Z.lnot mask)).
Definition port_set (p off mask : Z) : HM unit := v ← port_read p off; port_write p off (Z.lor v mask).
Definition port_quiet (p off mask : Z) : HM bool := v ← port_read p off; mret (Z.land v mask =? 0).

Definition port_stop_engine (p : Z) : HM unit :=
  port_clear p PORT_CMD PCMD_ST ;;
  poll STOP_ROUNDS (port_quiet p PORT_CMD PCMD_CR) ;;
  port_clear p PORT_CMD PCMD_FRE ;;
  poll STOP_ROUNDS (port_quiet p PORT_CMD PCMD_FR) ;; mret tt.

Definition port_start_engine (p : Z) : HM unit :=
  poll STOP_ROUNDS (port_quiet p PORT_CMD PCMD_CR) ;;
  port_set p PORT_CMD PCMD_FRE ;;
  port_set p PORT_CMD PCMD_ST.

(** The empty command list, whose first entry points to the table. *)
Definition fresh_list : list hba_cmd_hdr_t :=
  alter (fun hd => mk_hdr (flags hd) (prdtl hd) (prdbc hd) (Z.land a_tbl 0xFFFFFFFF) (Z.shiftr a_tbl 32)) 0%nat
    (replicate 32 hdr_zero).

(** The addresses of the command list and of the received area. *)
Definition port_bases (p : Z) : HM unit :=
  port_write p PORT_CLB (Z.land a_list 0xFFFFFFFF) ;;
  port_write p PORT_CLBU (Z.shiftr a_list 32) ;;
  port_write p PORT_FB (Z.land a_fis 0xFFFFFFFF) ;;
  port_write p PORT_FBU (Z.shiftr a_fis 32).

Definition port_init (p : Z) : HM Z :=
  ssts ← port_read p PORT_SSTS;
  if negb (Z.land ssts SSTS_DET_MASK =? SSTS_DET_PRESENT) then mret (-1)
  else if negb (Z.land ssts SSTS_IPM_MASK =? SSTS_IPM_ACTIVE) then mret (-1)
  else
    port_stop_engine p ;;
    port_bases p ;;
    modify (fun s => set_mem (mk_mem fresh_list tbl_zero (s_dma_buf (mem s))) s) ;;
    port_write p PORT_SERR 0xFFFFFFFF ;;
    port_write p PORT_IS 0xFFFFFFFF ;;
    cap ← hba_read HBA_CAP;
    (if negb (Z.land cap CAP_SSS =? 0) then port_set p PORT_CMD (Z.lor PCMD_SUD PCMD_POD) else mret tt) ;;
    sctl ← port_read p PORT_SCTL;
    port_write p PORT_SCTL (Z.lor (Z.land sctl (Z.lnot 0xF)) 1) ;;
    repeat_read SETTLE_ROUNDS (port_read p PORT_SCTL) ;;
    port_write p PORT_SCTL (Z.land sctl (Z.lnot 0xF)) ;;
    det_ok ← poll LINK_ROUNDS (v ← port_read p PORT_SSTS; mret (Z.land v SSTS_DET_MASK =? SSTS_DET_PRESENT));
    if negb det_ok then mret (-1)
    else
      sig ← port_read p PORT_SIG;
      if negb (sig =? SIG_ATA) then mret (-1)
      else
        port_start_engine p ;;
        poll LINK_ROUNDS (port_quiet p PORT_TFD (Z.lor TFD_BSY TFD_DRQ)) ;; mret 0.

(** ** Commands *)

Definition clear_errors (p : Z) : HM unit :=
  port_write p PORT_IS 0xFFFFFFFF ;; port_write p PORT_SERR 0xFFFFFFFF.

Fixpoint wait_slot0 (n : nat) : HM Z :=
  p ← gets g_port;
  match n with
  | O => clear_errors p ;; mret (-1)
  | S n' =>
      pis ← port_read p PORT_IS;
      if negb (Z.land pis PIS_TFES =? 0) then
        _ ← port_read p PORT_TFD; clear_errors p ;; mret (-1)
      else
        ci ← port_read p PORT_CI;
        if Z.land ci 1 =? 0 then mret 0 else wait_slot0 n'
  end.

Definition port_wait_slot0 : HM Z := wait_slot0 SLOT_ROUNDS.

Definition put_table (t : hba_cmd_tbl_t) : HM unit :=
  modify (fun s => set_mem (mk_mem (s_cmd_list (mem s)) t (s_dma_buf (mem s))) s).

Definition put_header (fl len : Z) : HM unit :=
  modify (fun s => set_mem (mk_mem (alter (fun hd => mk_hdr fl len 0 (ctba hd) (ctbau hd)) 0%nat (s_cmd_list (mem s)))
                              (s_cmd_tbl (mem s)) (s_dma_buf (mem s))) s).

(** The command in slot 0 is issued and waited for. *)
Definition issue : HM Z :=
  p ← gets g_port;
  clear_errors p ;; port_write p PORT_CI 1 ;; port_wait_slot0.

Definition wait_idle : HM unit :=
  p ← gets g_port; poll LINK_ROUNDS (port_quiet p PORT_TFD (Z.lor TFD_BSY TFD_DRQ)) ;; mret tt.

(** The command of a flush. *)
Definition flush_table : hba_cmd_tbl_t :=
  mk_tbl (mk_fis FIS_TYPE_H2D FIS_FLAG_CMD ATA_FLUSH_EXT (Z.shiftl 1 6) 0 0 0 0 0 0 0 0) (mk_prdt 0 0 0).

Definition port_flush : HM Z :=
  wait_idle ;;
  put_table flush_table ;;
  put_header 5 0 ;; issue.

(** The command of a transfer. *)
Definition transfer_fis (lba count : Z) (write : bool) : fis_h2d_t :=
  mk_fis FIS_TYPE_H2D FIS_FLAG_CMD (if write then ATA_WRITE_DMA_EXT else ATA_READ_DMA_EXT) (Z.shiftl 1 6)
    (Z.land lba 0xFF) (Z.land (Z.shiftr lba 8) 0xFF) (Z.land (Z.shiftr lba 16) 0xFF)
    (Z.land (Z.shiftr lba 24) 0xFF) (Z.land (Z.shiftr lba 32) 0xFF) (Z.land (Z.shiftr lba 40) 0xFF)
    (Z.land count 0xFF) (Z.land (Z.shiftr count 8) 0xFF).

(** The result, and the bytes a read puts in the buffer. *)
Definition port_transfer (lba count : Z) (buf : list Z) (write : bool) : HM (Z * list Z) :=
  if (count =? 0) || (AHCI_DMA_SECTORS <? count) then mret (-1, [])
  else
    wait_idle ;;
    let byte_count := count * 512 in
    let n := Z.to_nat byte_count in
    (if write then
       modify (fun s => set_mem (mk_mem (s_cmd_list (mem s)) (s_cmd_tbl (mem s)) (take n buf ++ drop n (s_dma_buf (mem s)))) s)
     else mret tt) ;;
    put_table (mk_tbl (transfer_fis lba count write)
      (mk_prdt (Z.land a_dma 0xFFFFFFFF) (Z.shiftr a_dma 32) (byte_count - 1))) ;;
    put_header (Z.lor 5 (if write then Z.shiftl 1 6 else 0)) 1 ;;
    r ← issue;
    if negb (r =? 0) then mret (-1, [])
    else if write then port_flush ;; mret (0, [])
    else buf ← gets (fun s => take n (s_dma_buf (mem s))); mret (0, buf).

(** ** Finding the controller *)

Definition with_pci {A} (f : pci_bus -> A * pci_bus) : HM A := fun s => let '(x, b) := f (pci s) in (x, set_pci b s).

(** The two functions of the same body as those of src/drivers/pci.c. *)
Definition pci_read32 (bus d fn off : Z) : HM Z := with_pci (pci_cfg_read32 bus d fn off).
Definition pci_write32 (bus d fn off val : Z) : HM unit := with_pci (fun b => (tt, pci_cfg_write32 bus d fn off val b)).

Definition is_ahci (cc : Z) : bool :=
  (Z.land (Z.shiftr cc 24) 0xFF =? 0x01) && (Z.land (Z.shiftr cc 16) 0xFF =? 0x06) && (Z.land (Z.shiftr cc 8) 0xFF =? 0x01).

Definition probe_fn (d fn : Z) : HM probed :=
  id ← pci_read32 0 d fn 0x00;
  if Z.land id 0xFFFF =? 0xFFFF then mret (if fn =? 0 then Break else Next)
  else
    cc ← pci_read32 0 d fn 0x08;
    if negb (is_ahci cc) then
      if fn =? 0 then
        ht ← pci_read32 0 d 0 0x0C;
        mret (if Z.land (Z.shiftr ht 16) 0x80 =? 0 then Break else Next)
      else mret Next
    else
      cmd_reg ← pci_read32 0 d fn 0x04;
      pci_write32 0 d fn 0x04 (Z.lor cmd_reg 0x06) ;;
      bar ← pci_read32 0 d fn 0x24; mret (Return (Z.land bar 0xFFFFFFF0)).

Fixpoint find_fn (n : nat) (d fn : Z) : HM (option Z) :=
  match n with
  | O => mret None
  | S n' => r ← probe_fn d fn;
            match r with Break => mret None | Next => find_fn n' d (fn + 1) | Return base => mret (Some base) end
  end.

Fixpoint find_dev (n : nat) (d : Z) : HM (option Z) :=
  match n with
  | O => mret None
  | S n' => r ← find_fn 8 d 0; match r with Some base => mret (Some base) | None => find_dev n' (d + 1) end
  end.

Definition pci_find_ahci_abar : HM Z := r ← find_dev 32 0; mret (default 0 r).

(** ** The interface *)

Definition handoff : HM unit :=
  v ← hba_read HBA_BOHC;
  hba_write HBA_BOHC (Z.lor v BOHC_OOS) ;;
  poll HANDOFF_ROUNDS (v ← hba_read HBA_BOHC; mret (Z.land v BOHC_BOS =? 0)) ;;
  v ← hba_read HBA_BOHC;
  if negb (Z.land v BOHC_BB =? 0) then
    poll BB_ROUNDS (v ← hba_read HBA_BOHC; mret (Z.land v BOHC_BB =? 0)) ;; mret tt
  else mret tt.

Definition hba_set (off mask : Z) : HM unit := v ← hba_read off; hba_write off (Z.lor v mask).

(** The first implemented port from [p] on that can be initialised. *)
Fixpoint try_ports (n : nat) (ports p : Z) : HM Z :=
  match n with
  | O => mret (-1)
  | S n' =>
      if Z.land ports (Z.shiftl 1 p) =? 0 then try_ports n' ports (p + 1)
      else
        _ ← port_read p PORT_SSTS;
        _ ← port_read p PORT_SIG;
        r ← port_init p;
        if r =? 0 then modify (set_port p) ;; mret 0 else try_ports n' ports (p + 1)
  end.

Definition ahci_init : HM Z :=
  abar ← pci_find_ahci_abar;
  if abar =? 0 then mret (-1)
  else
    modify (set_abar abar) ;;
    cap2 ← hba_read HBA_CAP2;
    (if negb (Z.land cap2 CAP2_BOH =? 0) then handoff else mret tt) ;;
    hba_set HBA_GHC GHC_AE ;;
    hba_set HBA_GHC GHC_HR ;;
    reset_ok ← poll LINK_ROUNDS (v ← hba_read HBA_GHC; mret (Z.land v GHC_HR =? 0));
    if negb reset_ok then mret (-1)
    else
      hba_set HBA_GHC GHC_AE ;;
      _ ← hba_read 0x10;
      _ ← hba_read HBA_PI;
      ports ← hba_read HBA_PI;
      try_ports 32 ports 0.

Definition ahci_read_sectors (lba count : Z) : HM (Z * list Z) :=
  p ← gets g_port; if p <? 0 then mret (-1, []) else port_transfer lba count [] false.

Definition ahci_write_sectors (lba count : Z) (buf : list Z) : HM Z :=
  p ← gets g_port; if p <? 0 then mret (-1) else r ← port_transfer lba count buf true; mret (fst r).

(** * Proofs *)

Lemma regs_set_eq (p r v : Z) (h : hba) : regs (set_reg p r v h) p r = v.
Proof. cbn. by rewrite !Z.eqb_refl. Qed.

Lemma regs_set_ne (p r v : Z) (h : hba) (p' r' : Z) : r' <> r -> regs (set_reg p r v h) p' r' = regs h p' r'.
Proof. intros H. cbn. by rewrite (proj2 (Z.eqb_neq _ _) H), andb_false_r. Qed.

Lemma regs_set_halted (p : Z) (b : bool) (h : hba) : regs (set_halted p b h) = regs h.
Proof. done. Qed.

Lemma regs_start (a : activity) (h : hba) : regs (start a h) = regs h.
Proof. done. Qed.

Lemma regs_set_act (a : activity) (n : nat) (h : hba) : regs (set_act a n h) = regs h.
Proof. done. Qed.

Lemma decode_port (p r : Z) : 0 <= p < 32 -> 0 <= r < 0x80 -> decode (u32 (0x100 + u32 p * 0x80 + r)) = (p, r).
Proof.
  intros Hp Hr. unfold u32. rewrite !Z.mod_small by (rewrite ?Z.mod_small; lia). unfold decode.
  destruct (Z.ltb_spec (256 + p * 128 + r) 256); [lia|].
  replace (256 + p * 128 + r - 256) with (r + p * 128) by lia.
  rewrite Z.div_add, Z.mod_add, Z.div_small, Z.mod_small by lia. done.
Qed.

Lemma port_read_eq (p r : Z) (s : ahci) :
  g_abar s = window -> 0 <= p < 32 -> 0 <= r < 0x80 -> port_read p r s = (regs (dev (tick s)) p r, tick s).
Proof. intros Hw Hp Hr. unfold port_read, hba_read. rewrite Hw, Z.eqb_refl. by rewrite decode_port. Qed.

Lemma hba_read_eq (r : Z) (s : ahci) :
  g_abar s = window -> r < 0x100 -> hba_read r s = (regs (dev (tick s)) (-1) r, tick s).
Proof.
  intros Hw Hr. unfold hba_read. rewrite Hw, Z.eqb_refl. unfold decode. by rewrite (proj2 (Z.ltb_lt _ _) Hr).
Qed.

Lemma port_write_eq (p r v : Z) (s : ahci) :
  g_abar s = window -> 0 <= p < 32 -> 0 <= r < 0x80 ->
  port_write p r v s = (tt, set_dev (write_reg p r (u32 v) (dev s)) s).
Proof. intros Hw Hp Hr. unfold port_write, hba_write. rewrite Hw, Z.eqb_refl. by rewrite decode_port. Qed.

Lemma tick_quiet (s : ahci) : act (dev s) = Quiet -> tick s = s.
Proof. intros H. unfold tick. by rewrite H. Qed.

Lemma tick_abar (s : ahci) : g_abar (tick s) = g_abar s.
Proof.
  unfold tick. destruct (act (dev s)), (wait (dev s)); try done; cbn [finish].
  - by destruct (_ =? dport).
  - unfold execute. by repeat case_match.
Qed.

(** A loop whose test holds at once. *)
Lemma poll_now (n : nat) (test : HM bool) (s s' : ahci) :
  (0 < n)%nat -> test s = (true, s') -> poll n test s = (true, s').
Proof. intros Hn Ht. destruct n; [lia|]. cbn [poll]. unfold mbind, HM_bind. by rewrite Ht. Qed.

Lemma rounds_pos : (0 < STOP_ROUNDS /\ STOP_ROUNDS < LINK_ROUNDS /\ LINK_ROUNDS < SLOT_ROUNDS)%nat.
Proof. unfold STOP_ROUNDS, LINK_ROUNDS, SLOT_ROUNDS. lia. Qed.

#[local] Opaque STOP_ROUNDS SETTLE_ROUNDS LINK_ROUNDS SLOT_ROUNDS HANDOFF_ROUNDS BB_ROUNDS.

(** ** One command *)

Context (Hdport : 0 <= dport < 32).

(** The port of the disk is ready for a command. *)
Record linked (s : ahci) : Prop := {
  l_abar : g_abar s = window;
  l_port : g_port s = dport;
  l_act : act (dev s) = Quiet;
  l_halted : halted (dev s) dport = false;
  l_st : bit (regs (dev s) dport PORT_CMD) PCMD_ST = true;
  l_ci : regs (dev s) dport PORT_CI = 0;
  l_tfd : Z.land (regs (dev s) dport PORT_TFD) (Z.lor TFD_BSY TFD_DRQ) = 0;
  l_clb : join (regs (dev s) dport PORT_CLB) (regs (dev s) dport PORT_CLBU) = a_list
}.

Lemma wait_idle_linked (s : ahci) : linked s -> wait_idle s = (tt, s).
Proof.
  intros L. unfold wait_idle, gets, mbind, HM_bind. rewrite (l_port s L).
  rewrite (poll_now _ _ s s); [done|pose proof rounds_pos; lia|].
  unfold port_quiet, mbind, HM_bind, mret, HM_ret.
  rewrite port_read_eq by (apply L || done). rewrite tick_quiet by apply L.
  by rewrite (l_tfd s L).
Qed.

Lemma tick_executing (s : ahci) :
  act (dev s) = Executing dport ->
  tick s = match wait (dev s) with
           | O => execute dport (set_dev (set_act Quiet 0 (dev s)) s)
           | S w => set_dev (set_act (Executing dport) w (dev s)) s
           end.
Proof. intros H. unfold tick. by rewrite H. Qed.

(** Waiting for the command in slot 0 to end without an error. *)
Lemma wait_slot0_ok (n : nat) (s s' : ahci) :
  g_abar s = window -> g_port s = dport -> act (dev s) = Executing dport ->
  Z.land (regs (dev s) dport PORT_IS) PIS_TFES = 0 -> Z.land (regs (dev s) dport PORT_CI) 1 <> 0 ->
  s' = execute dport (set_dev (set_act Quiet 0 (dev s)) s) ->
  g_abar s' = window -> act (dev s') = Quiet ->
  Z.land (regs (dev s') dport PORT_IS) PIS_TFES = 0 -> Z.land (regs (dev s') dport PORT_CI) 1 = 0 ->
  (S (wait (dev s)) < 2 * n)%nat ->
  wait_slot0 n s = (0, s').
Proof.
  revert s. induction n as [|n IH]; intros s Hw Hp Ha His Hci Es' Hw' Ha' His' Hci' Hn; [lia|].
  cbn [wait_slot0]. unfold gets, mbind, HM_bind. rewrite Hp, port_read_eq by done.
  rewrite (tick_executing s Ha). destruct (wait (dev s)) as [|[|w]] eqn:Ew.
  - rewrite <- Es'. rewrite His'. cbn [negb Z.eqb]. rewrite port_read_eq by done.
    rewrite tick_quiet by done. by rewrite Hci'.
  - cbn [dev set_dev set_act regs]. rewrite His. cbn [negb Z.eqb]. rewrite port_read_eq by done.
    rewrite tick_executing by done. cbn [wait dev set_dev set_act].
    change (set_dev (set_act Quiet 0 _) _) with (set_dev (set_act Quiet 0 (dev s)) s).
    rewrite <- Es'. by rewrite Hci'.
  - cbn [dev set_dev set_act regs]. rewrite His. cbn [negb Z.eqb]. rewrite port_read_eq by done.
    rewrite tick_executing by done. cbn [dev set_dev set_act wait regs].
    destruct (Z.eqb_spec (Z.land (regs (dev s) dport PORT_CI) 1) 0) as [|_]; [done|].
    apply IH; try done. cbn [dev set_dev set_act wait]. lia.
Qed.

(** Registers, memory and disk of a state after errors were cleared. *)
Lemma clear_errors_eq (p : Z) (s : ahci) :
  g_abar s = window -> 0 <= p < 32 ->
  clear_errors p s =
  (tt, set_dev (set_reg p PORT_SERR (Z.land (regs (dev s) p PORT_SERR) (Z.lnot 0xFFFFFFFF))
                 (set_reg p PORT_IS (Z.land (regs (dev s) p PORT_IS) (Z.lnot 0xFFFFFFFF)) (dev s))) s).
Proof.
  intros Hw Hp. unfold clear_errors, mbind, HM_bind.
  rewrite port_write_eq by done. rewrite port_write_eq by done. unfold write_reg.
  rewrite (proj2 (Z.eqb_neq p (-1))) by lia.
  change (PORT_IS =? PORT_CMD) with false. change ((PORT_IS =? PORT_IS) || (PORT_IS =? PORT_SERR)) with true.
  change (PORT_SERR =? PORT_CMD) with false. change ((PORT_SERR =? PORT_IS) || (PORT_SERR =? PORT_SERR)) with true.
  cbn iota. change (u32 4294967295) with 4294967295. cbn [dev set_dev]. rewrite regs_set_ne by done. done.
Qed.

(** Waiting for a command that fails. *)
Lemma wait_slot0_err (n : nat) (s s' : ahci) :
  g_abar s = window -> g_port s = dport -> act (dev s) = Executing dport ->
  Z.land (regs (dev s) dport PORT_IS) PIS_TFES = 0 -> Z.land (regs (dev s) dport PORT_CI) 1 <> 0 ->
  s' = execute dport (set_dev (set_act Quiet 0 (dev s)) s) ->
  g_abar s' = window -> g_port s' = dport -> act (dev s') = Quiet ->
  Z.land (regs (dev s') dport PORT_IS) PIS_TFES <> 0 -> Z.land (regs (dev s') dport PORT_CI) 1 <> 0 ->
  (S (wait (dev s)) < 2 * n)%nat ->
  wait_slot0 n s = (-1, snd (clear_errors dport s')).
Proof.
  assert (forall m, g_abar s' = window -> g_port s' = dport -> act (dev s') = Quiet ->
    Z.land (regs (dev s') dport PORT_IS) PIS_TFES <> 0 -> wait_slot0 (S m) s' = (-1, snd (clear_errors dport s'))) as Hend.
  { intros m Hw' Hp' Ha' His'. cbn [wait_slot0]. unfold gets, mbind, HM_bind. rewrite Hp', port_read_eq by done.
    rewrite tick_quiet by done. rewrite (proj2 (Z.eqb_neq _ _) His'). cbn [negb].
    rewrite port_read_eq by done. rewrite tick_quiet by done. by rewrite clear_errors_eq. }
  revert s. induction n as [|n IH]; intros s Hw Hp Ha His Hci Es' Hw' Hp' Ha' His' Hci' Hn; [lia|].
  cbn [wait_slot0]. unfold gets, mbind, HM_bind. rewrite Hp, port_read_eq by done.
  rewrite (tick_executing s Ha). destruct (wait (dev s)) as [|[|w]] eqn:Ew.
  - rewrite <- Es'. rewrite (proj2 (Z.eqb_neq _ _) His'). cbn [negb].
    rewrite port_read_eq by done. rewrite tick_quiet by done. by rewrite clear_errors_eq.
  - cbn [dev set_dev set_act regs]. rewrite His. cbn [negb Z.eqb]. rewrite port_read_eq by done.
    rewrite tick_executing by done. cbn [wait dev set_dev set_act].
    change (set_dev (set_act Quiet 0 _) _) with (set_dev (set_act Quiet 0 (dev s)) s).
    rewrite <- Es'. rewrite (proj2 (Z.eqb_neq _ _) Hci'). destruct n as [|n]; [lia|]. by apply Hend.
  - cbn [dev set_dev set_act regs]. rewrite His. cbn [negb Z.eqb]. rewrite port_read_eq by done.
    rewrite tick_executing by done. cbn [dev set_dev set_act wait regs].
    rewrite (proj2 (Z.eqb_neq _ _) Hci). apply IH; try done. cbn [dev set_dev set_act wait]. lia.
Qed.

Context (Hdelay : forall n, (delay n < STOP_ROUNDS)%nat) (Hdma : 0 <= a_dma < 2 ^ 64).

(** The state in which the command is carried out. *)
Definition issued (s : ahci) : ahci :=
  set_dev (start (Executing dport) (set_reg dport PORT_CI 1
    (set_reg dport PORT_SERR (Z.land (regs (dev s) dport PORT_SERR) (Z.lnot 0xFFFFFFFF))
      (set_reg dport PORT_IS (Z.land (regs (dev s) dport PORT_IS) (Z.lnot 0xFFFFFFFF)) (dev s))))) s.

Lemma issue_eq (s : ahci) : linked s -> issue s = port_wait_slot0 (issued s).
Proof.
  intros L. unfold issue, gets, mbind, HM_bind. rewrite (l_port s L).
  unfold issued. rewrite clear_errors_eq by (apply L || done).
  rewrite port_write_eq by (apply L || done). cbn [dev set_dev]. unfold write_reg.
  rewrite (proj2 (Z.eqb_neq dport (-1))) by lia.
  change (PORT_CI =? PORT_CMD) with false. change ((PORT_CI =? PORT_IS) || (PORT_CI =? PORT_SERR)) with false.
  change (PORT_CI =? PORT_SCTL) with false. change (PORT_CI =? PORT_CI) with true. cbn iota.
  rewrite !regs_set_ne by done. rewrite (l_st s L), (l_ci s L). change (u32 1) with 1.
  cbn [halted set_reg]. by rewrite (l_halted s L).
Qed.

Lemma no_tfes (x : Z) : Z.land (Z.land x (Z.lnot 0xFFFFFFFF)) PIS_TFES = 0.
Proof. rewrite <- Z.land_assoc. change (Z.land (Z.lnot 0xFFFFFFFF) PIS_TFES) with 0. apply Z.land_0_r. Qed.

Lemma issued_regs (s : ahci) (r : Z) :
  r <> PORT_CI -> r <> PORT_SERR -> r <> PORT_IS -> regs (dev (issued s)) dport r = regs (dev s) dport r.
Proof. intros H1 H2 H3. unfold issued. cbn [dev set_dev start regs]. by rewrite !regs_set_ne. Qed.

Lemma issued_is (s : ahci) : Z.land (regs (dev (issued s)) dport PORT_IS) PIS_TFES = 0.
Proof.
  unfold issued. cbn [dev set_dev start regs]. rewrite !regs_set_ne by done. rewrite regs_set_eq. apply no_tfes.
Qed.

Lemma issued_ci (s : ahci) : regs (dev (issued s)) dport PORT_CI = 1.
Proof. unfold issued. cbn [dev set_dev start regs]. by rewrite regs_set_eq. Qed.

Lemma issued_wait (s : ahci) : (S (wait (dev (issued s))) < 2 * SLOT_ROUNDS)%nat.
Proof. cbn [issued dev set_dev start wait set_reg acts]. pose proof (Hdelay (acts (dev s))). pose proof rounds_pos. lia. Qed.

(** What the controller fetches. *)
Lemma execute_issued (s : ahci) :
  linked s ->
  execute dport (set_dev (set_act Quiet 0 (dev (issued s))) (issued s)) =
  (let h := set_act Quiet 0 (dev (issued s)) in
   match (if fails (acts (dev s)) then None else run_command (mem s) (now (dev s)) (stable (dev s))) with
   | Some (m, f, g) =>
       set_mem m (set_dev (set_reg dport PORT_CI 0 (set_reg dport PORT_TFD 0x50 (set_disk f g h))) (issued s))
   | None =>
       set_dev (set_halted dport true (set_reg dport PORT_IS (Z.lor (regs h dport PORT_IS) PIS_TFES)
         (set_reg dport PORT_TFD 0x51 h))) (issued s)
   end).
Proof.
  intros L. unfold execute. cbn [dev set_dev regs set_act acts].
  rewrite !issued_regs by done. rewrite (l_clb s L), !Z.eqb_refl.
  change (pred (acts (dev (issued s)))) with (acts (dev s)). by destruct (fails (acts (dev s))).
Qed.

(** A command that succeeds has its effect on memory and disk. *)
Lemma issue_ok (s : ahci) (m : ahci_mem) (f g : Z -> list Z) :
  linked s -> fails (acts (dev s)) = false -> run_command (mem s) (now (dev s)) (stable (dev s)) = Some (m, f, g) ->
  exists s', issue s = (0, s') /\ linked s' /\ mem s' = m /\ now (dev s') = f /\ stable (dev s') = g /\
    acts (dev s') = S (acts (dev s)).
Proof.
  intros L Hf Hr. rewrite (issue_eq s L). pose proof (execute_issued s L) as E. rewrite Hf, Hr in E. cbn zeta in E.
  eexists. split.
  - apply (wait_slot0_ok SLOT_ROUNDS (issued s) _); [apply L|apply L|done|apply issued_is|by rewrite issued_ci|symmetry; exact E|..].
    + apply L.
    + done.
    + cbn [dev set_mem set_dev]. rewrite !regs_set_ne by done. apply issued_is.
    + cbn [dev set_mem set_dev]. by rewrite regs_set_eq.
    + apply issued_wait.
  - split; [|done]. destruct L. split; cbn [dev set_mem set_dev g_abar g_port]; try done.
    + rewrite !regs_set_ne by done. cbn [set_disk set_act regs]. by rewrite issued_regs.
    + by rewrite regs_set_eq.
    + rewrite regs_set_ne by done. by rewrite regs_set_eq.
    + rewrite !regs_set_ne by done. cbn [set_disk set_act regs]. by rewrite !issued_regs.
Qed.

(** A command that fails is reported and has no effect. *)
Lemma issue_err (s : ahci) :
  linked s -> fails (acts (dev s)) = true \/ run_command (mem s) (now (dev s)) (stable (dev s)) = None ->
  exists s', issue s = (-1, s') /\ mem s' = mem s /\ now (dev s') = now (dev s) /\ stable (dev s') = stable (dev s).
Proof.
  intros L Hf. rewrite (issue_eq s L). pose proof (execute_issued s L) as E.
  replace (if fails (acts (dev s)) then None else run_command (mem s) (now (dev s)) (stable (dev s)))
    with (@None (ahci_mem * (Z -> list Z) * (Z -> list Z))) in E
    by (destruct Hf as [->| ->]; [done|by destruct (fails _)]).
  cbn zeta in E. eexists. split.
  - eapply (wait_slot0_err SLOT_ROUNDS (issued s)); [apply L|apply L|done|apply issued_is|by rewrite issued_ci|symmetry; exact E|..].
    + apply L.
    + apply L.
    + done.
    + cbn [dev set_dev set_halted regs]. rewrite regs_set_eq. rewrite Z.land_lor_distr_l, Z.land_diag.
      intros H. apply Z.lor_eq_0_iff in H as [_ H]. done.
    + cbn [dev set_dev set_halted regs]. rewrite !regs_set_ne by done. cbn [regs set_act]. by rewrite issued_ci.
    + apply issued_wait.
  - rewrite clear_errors_eq by (apply L || done). done.
Qed.

(** ** Transfers *)

(** A number in pieces: [k] low bits and the [j] bits above them. *)
Lemma low_join (k j x : Z) :
  0 <= k -> 0 <= j ->
  Z.lor (Z.land x (Z.ones k)) (Z.shiftl (Z.land (Z.shiftr x k) (Z.ones j)) k) = Z.land x (Z.ones (k + j)).
Proof.
  intros Hk Hj. apply Z.bits_inj'. intros n Hn. rewrite Z.lor_spec, !Z.land_spec, Z.shiftl_spec by done.
  destruct (decide (n < k)).
  - rewrite !Z.ones_spec_low, (Z.testbit_neg_r _ (n - k)) by lia. by rewrite orb_false_r.
  - rewrite (Z.ones_spec_high k), andb_false_r, Z.land_spec, Z.shiftr_spec by lia.
    rewrite !Z.testbit_ones_nonneg by lia. cbn [orb]. replace (n - k + k) with n by lia. f_equal.
    destruct (Z.ltb_spec (n - k) j), (Z.ltb_spec n (k + j)); try done; lia.
Qed.

Lemma join_split (a : Z) : 0 <= a < 2 ^ 64 -> join (Z.land a 0xFFFFFFFF) (Z.shiftr a 32) = a.
Proof.
  intros Ha. unfold join. change 0xFFFFFFFF with (Z.ones 32).
  assert (0 <= Z.shiftr a 32 < 2 ^ 32) as Hs
    by (rewrite Z.shiftr_div_pow2 by lia; split; [apply Z.div_pos; lia|apply Z.div_lt_upper_bound; lia]).
  rewrite <- (Z.mod_small _ _ Hs), <- Z.land_ones by lia.
  rewrite low_join by lia. rewrite Z.land_ones by lia. by apply Z.mod_small.
Qed.

(** The command holds the low 48 bits of the address, and the count. *)
Lemma transfer_fis_lba (lba count : Z) (write : bool) : fis_lba (transfer_fis lba count write) = lba mod 2 ^ 48.
Proof.
  unfold fis_lba, transfer_fis. cbn [lba0 lba1 lba2 lba3 lba4 lba5]. rewrite <- Z.land_ones by lia.
  change 0xFF with (Z.ones 8). rewrite !Z.lor_assoc. by rewrite !low_join.
Qed.

Lemma transfer_fis_count (lba count : Z) (write : bool) :
  0 < count < 2 ^ 16 -> fis_count (transfer_fis lba count write) = count.
Proof.
  intros H. unfold fis_count, transfer_fis. cbn [countl counth]. change 0xFF with (Z.ones 8).
  rewrite low_join, Z.land_ones, Z.mod_small by lia. destruct (Z.eqb_spec count 0); [lia|done].
Qed.

Record mem_ok (m : ahci_mem) : Prop := {
  m_list : exists hd, s_cmd_list m !! 0%nat = Some hd /\ join (ctba hd) (ctbau hd) = a_tbl;
  m_buf : length (s_dma_buf m) = Z.to_nat (128 * 512)
}.

Definition ahci_ready (s : ahci) : Prop := linked s /\ mem_ok (mem s) /\ forall a, length (now (dev s) a) = 512%nat.

(** The memory of the driver when it issues a command. *)
Definition prepared (t : hba_cmd_tbl_t) (fl len : Z) (buf : list Z) (m : ahci_mem) : ahci_mem :=
  mk_mem (alter (fun hd => mk_hdr fl len 0 (ctba hd) (ctbau hd)) 0%nat (s_cmd_list m)) t buf.

Lemma prepared_ok t fl len buf m : mem_ok m -> length buf = Z.to_nat (128 * 512) -> mem_ok (prepared t fl len buf m).
Proof.
  intros [(hd & H0 & Hc) _] Hl. split; [|done]. cbn [prepared s_cmd_list].
  exists (mk_hdr fl len 0 (ctba hd) (ctbau hd)). by rewrite list_lookup_alter_eq, H0.
Qed.

Definition transfer_table (lba count : Z) (write : bool) : hba_cmd_tbl_t :=
  mk_tbl (transfer_fis lba count write) (mk_prdt (Z.land a_dma 0xFFFFFFFF) (Z.shiftr a_dma 32) (count * 512 - 1)).

Lemma run_read (lba count : Z) (m : ahci_mem) (f g : Z -> list Z) :
  0 < count <= AHCI_DMA_SECTORS -> mem_ok m -> (forall a, length (f a) = 512%nat) ->
  exists m', run_command (prepared (transfer_table lba count false) (Z.lor 5 0) 1 (s_dma_buf m) m) f g = Some (m', f, g) /\
    mem_ok m' /\ take (Z.to_nat (count * 512)) (s_dma_buf m') = range f (lba mod 2 ^ 48) (Z.to_nat count).
Proof.
  intros Hc [(hd & H0 & Ht) Hb] Hf. unfold AHCI_DMA_SECTORS in *. unfold run_command. cbn [prepared s_cmd_list s_cmd_tbl s_dma_buf].
  rewrite list_lookup_alter_eq, H0. cbn [fmap option_fmap option_map mbind option_bind transfer_table cfis prdt].
  rewrite transfer_fis_count, transfer_fis_lba by lia.
  cbn [ctba ctbau flags prdtl transfer_fis fis_type fis_flags fis_command device dba dbau dbc].
  rewrite Ht, (join_split _ Hdma), !Z.eqb_refl. cbn -[range drop Z.mul Z.to_nat take].
  assert (length (range f (lba mod 2 ^ 48) (Z.to_nat count)) = Z.to_nat (count * 512)) as Hr
    by (rewrite (range_length 512) by done; lia).
  eexists. split; [done|]. split.
  - split.
    + eexists. cbn [s_cmd_list]. by rewrite !list_lookup_alter_eq, H0.
    + cbn [s_dma_buf]. rewrite length_app, length_drop, Hr. lia.
  - cbn [s_dma_buf]. by rewrite <- Hr, take_app_length.
Qed.

Lemma run_write (lba count : Z) (buf : list Z) (m : ahci_mem) (f g : Z -> list Z) :
  0 < count <= AHCI_DMA_SECTORS -> mem_ok m -> length buf = Z.to_nat (count * 512) ->
  run_command (prepared (transfer_table lba count true) (Z.lor 5 (Z.shiftl 1 6)) 1
    (take (Z.to_nat (count * 512)) buf ++ drop (Z.to_nat (count * 512)) (s_dma_buf m)) m) f g =
  Some (prepared (transfer_table lba count true) (Z.lor 5 (Z.shiftl 1 6)) 1
    (take (Z.to_nat (count * 512)) buf ++ drop (Z.to_nat (count * 512)) (s_dma_buf m)) m,
    put_range 512 f (lba mod 2 ^ 48) (Z.to_nat count) buf, g).
Proof.
  intros Hc [(hd & H0 & Ht) Hb] Hl. unfold AHCI_DMA_SECTORS in *. unfold run_command. cbn [prepared s_cmd_list s_cmd_tbl s_dma_buf].
  rewrite list_lookup_alter_eq, H0. cbn [fmap option_fmap option_map mbind option_bind transfer_table cfis prdt].
  rewrite transfer_fis_count, transfer_fis_lba by lia.
  cbn [ctba ctbau flags prdtl transfer_fis fis_type fis_flags fis_command device dba dbau dbc].
  rewrite Ht, (join_split _ Hdma), !Z.eqb_refl. rewrite !(take_ge buf) by lia. rewrite take_app_length' by lia.
  cbn -[put_range drop Z.mul Z.to_nat take]. done.
Qed.

Lemma run_flush (m : ahci_mem) (f g : Z -> list Z) :
  mem_ok m ->
  run_command (prepared flush_table 5 0 (s_dma_buf m) m) f g = Some (prepared flush_table 5 0 (s_dma_buf m) m, f, f).
Proof.
  intros [(hd & H0 & Ht) Hb]. unfold run_command. cbn [prepared s_cmd_list s_cmd_tbl].
  rewrite list_lookup_alter_eq, H0. cbn [fmap option_fmap option_map mbind option_bind ctba ctbau].
  by rewrite Ht, Z.eqb_refl.
Qed.

Lemma linked_mem (m : ahci_mem) (s : ahci) : linked s -> linked (set_mem m s).
Proof. intros []. by split. Qed.

(** The driver up to the command of a transfer. *)
Lemma port_transfer_eq (lba count : Z) (buf : list Z) (write : bool) (s : ahci) :
  linked s -> 0 < count <= AHCI_DMA_SECTORS ->
  port_transfer lba count buf write s =
  (let n := Z.to_nat (count * 512) in
   let s1 := set_mem (prepared (transfer_table lba count write) (Z.lor 5 (if write then Z.shiftl 1 6 else 0)) 1
               (if write then take n buf ++ drop n (s_dma_buf (mem s)) else s_dma_buf (mem s)) (mem s)) s in
   let '(r, s2) := issue s1 in
   if negb (r =? 0) then ((-1, []), s2)
   else if write then ((0, []), snd (port_flush s2)) else ((0, take n (s_dma_buf (mem s2))), s2)).
Proof.
  intros L Hc. unfold port_transfer.
  destruct (Z.eqb_spec count 0), (Z.ltb_spec AHCI_DMA_SECTORS count); [lia|lia|lia|]. cbn [orb].
  unfold mbind, HM_bind, mret, HM_ret, put_table, put_header, modify, gets. rewrite (wait_idle_linked s L).
  destruct write.
  all: match goal with |- _ = (let '(_, _) := issue ?x in _) => set (s1 := x);
         match goal with |- context [issue ?y] => change y with s1 end end.
  all: destruct (issue s1) as [r s2]; destruct (negb (r =? 0)); [done|].
  1: by destruct (port_flush s2).
  done.
Qed.

Lemma port_flush_eq (s : ahci) :
  linked s ->
  port_flush s = issue (set_mem (prepared flush_table 5 0 (s_dma_buf (mem s)) (mem s)) s).
Proof.
  intros L. unfold port_flush, mbind, HM_bind, put_table, put_header, modify. by rewrite (wait_idle_linked s L).
Qed.

(** A flush makes the disk permanent, or reports that it could not. *)
Lemma port_flush_any (s : ahci) :
  ahci_ready s ->
  exists s', now (dev s') = now (dev s) /\
    if fails (acts (dev s)) then port_flush s = (-1, s') /\ stable (dev s') = stable (dev s)
    else port_flush s = (0, s') /\ ahci_ready s' /\ stable (dev s') = now (dev s).
Proof.
  intros (L & M & Hn). rewrite (port_flush_eq s L). match goal with |- context [issue ?x] => set (s1 := x) end.
  assert (linked s1) as L1 by by apply linked_mem. destruct (fails (acts (dev s))) eqn:Hf.
  - destruct (issue_err s1 L1) as (s' & -> & _ & E1 & E2); [by left|]. exists s'. by rewrite E1, E2.
  - destruct (issue_ok s1 _ _ _ L1 Hf (run_flush (mem s) (now (dev s)) (stable (dev s)) M))
      as (s' & -> & L' & E1 & E2 & E3 & _).
    exists s'. split; [done|]. split; [done|]. split; [|done]. split; [done|]. split; [|by rewrite E2].
    rewrite E1. by apply prepared_ok; [|apply M].
Qed.

Lemma port_transfer_read (lba count : Z) (s : ahci) :
  ahci_ready s -> 0 < count <= AHCI_DMA_SECTORS -> fails (acts (dev s)) = false ->
  exists s', port_transfer lba count [] false s = ((0, range (now (dev s)) (lba mod 2 ^ 48) (Z.to_nat count)), s') /\
    ahci_ready s' /\ now (dev s') = now (dev s) /\ stable (dev s') = stable (dev s).
Proof.
  intros (L & M & Hn) Hc Hf. rewrite (port_transfer_eq _ _ _ _ _ L Hc). cbn zeta iota.
  match goal with |- context [issue ?x] => set (s1 := x) end.
  assert (linked s1) as L1 by by apply linked_mem.
  destruct (run_read lba count (mem s) (now (dev s)) (stable (dev s)) Hc M Hn) as (m' & Hr & M' & Ht).
  destruct (issue_ok s1 _ _ _ L1 Hf Hr) as (s' & -> & L' & E1 & E2 & E3 & _). cbn [negb Z.eqb].
  exists s'. rewrite E1, Ht. split; [done|]. split; [|done]. split; [done|]. by rewrite E1, E2.
Qed.

(** The transfer of a write, before its flush. *)
Lemma port_transfer_write (lba count : Z) (buf : list Z) (s : ahci) :
  ahci_ready s -> 0 < count <= AHCI_DMA_SECTORS -> length buf = (512 * Z.to_nat count)%nat -> fails (acts (dev s)) = false ->
  exists s2, port_transfer lba count buf true s = ((0, []), snd (port_flush s2)) /\ ahci_ready s2 /\
    now (dev s2) = put_range 512 (now (dev s)) (lba mod 2 ^ 48) (Z.to_nat count) buf /\ stable (dev s2) = stable (dev s) /\
    acts (dev s2) = S (acts (dev s)).
Proof.
  intros (L & M & Hn) Hc Hl Hf. rewrite (port_transfer_eq _ _ _ _ _ L Hc). cbn zeta iota.
  match goal with |- context [issue ?x] => set (s1 := x) end.
  assert (linked s1) as L1 by by apply linked_mem.
  assert (length buf = Z.to_nat (count * 512)) as Hl' by lia.
  destruct (issue_ok s1 _ _ _ L1 Hf (run_write lba count buf (mem s) (now (dev s)) (stable (dev s)) Hc M Hl'))
    as (s2 & -> & L2 & E1 & E2 & E3 & E4). cbn [negb Z.eqb].
  exists s2. split; [done|]. split; [|done]. split; [done|]. rewrite E1, E2. split.
  - apply prepared_ok; [done|]. rewrite length_app, length_take, length_drop, (m_buf _ M), Hl'.
    unfold AHCI_DMA_SECTORS in Hc. lia.
  - by apply put_range_length.
Qed.

(** ** The operations *)

Lemma ahci_read_eq (lba count : Z) (s : ahci) :
  linked s -> ahci_read_sectors lba count s = port_transfer lba count [] false s.
Proof.
  intros L. unfold ahci_read_sectors, gets, mbind, HM_bind. rewrite (l_port s L).
  by rewrite (proj2 (Z.ltb_ge dport 0)) by lia.
Qed.

Lemma ahci_write_eq (lba count : Z) (buf : list Z) (s : ahci) :
  linked s -> ahci_write_sectors lba count buf s = (let '(r, s') := port_transfer lba count buf true s in (fst r, s')).
Proof.
  intros L. unfold ahci_write_sectors, gets, mbind, HM_bind. rewrite (l_port s L).
  by rewrite (proj2 (Z.ltb_ge dport 0)) by lia.
Qed.

(** A count of sectors the buffer cannot hold is refused without touching the
    disk, and a transfer before initialisation too. *)
Theorem ahci_refuses (lba count : Z) (buf : list Z) (s : ahci) :
  g_port s < 0 \/ count = 0 \/ AHCI_DMA_SECTORS < count ->
  ahci_read_sectors lba count s = ((-1, []), s) /\ ahci_write_sectors lba count buf s = (-1, s).
Proof.
  intros H. unfold ahci_read_sectors, ahci_write_sectors, gets, mbind, HM_bind, port_transfer.
  destruct (Z.ltb_spec (g_port s) 0); [done|].
  destruct (Z.eqb_spec count 0), (Z.ltb_spec AHCI_DMA_SECTORS count); cbn [orb]; try done; lia.
Qed.

(** The result of the flush is dropped: when the drive takes the data of a
    write but cannot flush its cache, the write still returns 0, while none of
    its data would survive a loss of power. *)
Theorem ahci_flush_ignored (lba count : Z) (buf : list Z) (s : ahci) :
  ahci_ready s -> 0 < count <= AHCI_DMA_SECTORS -> length buf = (512 * Z.to_nat count)%nat ->
  fails (acts (dev s)) = false -> fails (S (acts (dev s))) = true ->
  exists s', ahci_write_sectors lba count buf s = (0, s') /\ stable (dev s') = stable (dev s).
Proof.
  intros R Hc Hl Hf Hf1. rewrite ahci_write_eq by apply R.
  destruct (port_transfer_write lba count buf s R Hc Hl Hf) as (s2 & -> & R2 & _ & E2 & E3).
  destruct (port_flush_any s2 R2) as (s' & _ & H). rewrite E3, Hf1 in H. destruct H as [-> E4].
  exists s'. cbn [snd fst]. by rewrite E4, E2.
Qed.

(** The driver keeps the contract of a block device. *)
Section healthy.
Context (Hfails : forall n, fails n = false).

#[export] Program Instance ahci_block : BlockDevice ahci := {
  bd_limit := 2 ^ 48;
  bd_max := AHCI_DMA_SECTORS;
  bd_ready := ahci_ready;
  bd_image s := now (dev s);
  bd_stable s := stable (dev s);
  bd_read lba count s := ahci_read_sectors lba count s;
  bd_write := ahci_write_sectors
}.
Next Obligation. by intros s a (_ & _ & H). Qed.
Next Obligation.
  intros lba count s R H0 Hc Hlim. rewrite ahci_read_eq by apply R.
  destruct (port_transfer_read lba count s R Hc (Hfails _)) as (s' & -> & R' & E1 & E2).
  exists s'. rewrite Z.mod_small by lia. by rewrite E1, E2.
Qed.
Next Obligation.
  intros lba count buf s R H0 Hc Hlim _ Hl. rewrite ahci_write_eq by apply R.
  destruct (port_transfer_write lba count buf s R Hc Hl (Hfails _)) as (s2 & -> & R2 & E1 & _ & _).
  destruct (port_flush_any s2 R2) as (s' & E2 & H). rewrite Hfails in H. destruct H as (-> & R' & E3).
  exists s'. cbn [snd fst]. rewrite E3, E2, E1, Z.mod_small by lia. done.
Qed.
End healthy.

(** ** Initialisation *)

(** The port of the disk at rest, with its command, status and control registers. *)
Record port_state (cmd ssts sctl : Z) (s : ahci) : Prop := {
  ps_abar : g_abar s = window;
  ps_act : act (dev s) = Quiet;
  ps_halted : halted (dev s) dport = false;
  ps_cmd : regs (dev s) dport PORT_CMD = cmd;
  ps_ssts : regs (dev s) dport PORT_SSTS = ssts;
  ps_sctl : regs (dev s) dport PORT_SCTL = sctl;
  ps_ci : regs (dev s) dport PORT_CI = 0;
  ps_tfd : Z.land (regs (dev s) dport PORT_TFD) (Z.lor TFD_BSY TFD_DRQ) = 0;
  ps_sig : regs (dev s) dport PORT_SIG = SIG_ATA
}.

(** What a step leaves alone: memory, disk and the place of the command list. *)
Record untouched (s s' : ahci) : Prop := {
  ut_port : g_port s' = g_port s;
  ut_mem : mem s' = mem s;
  ut_now : now (dev s') = now (dev s);
  ut_stable : stable (dev s') = stable (dev s);
  ut_clb : regs (dev s') dport PORT_CLB = regs (dev s) dport PORT_CLB;
  ut_clbu : regs (dev s') dport PORT_CLBU = regs (dev s) dport PORT_CLBU
}.

#[local] Instance untouched_preorder : PreOrder untouched.
Proof. split; [by split|]. intros s1 s2 s3 [] []. split; congruence. Qed.

(** Looks a register up in a chain of writes. *)
Ltac look := cbn [dev set_dev set_reg set_halted start g_abar g_port act halted mem now stable];
  rewrite ?Z.eqb_refl; repeat first [rewrite regs_set_halted|rewrite regs_start|rewrite regs_set_act|rewrite regs_set_eq|rewrite regs_set_ne by done]; try done.

Lemma ps_read (cmd ssts sctl r : Z) (s : ahci) :
  port_state cmd ssts sctl s -> 0 <= r < 0x80 -> port_read dport r s = (regs (dev s) dport r, s).
Proof. intros P Hr. rewrite port_read_eq by (apply P || done). by rewrite tick_quiet by apply P. Qed.

Lemma ps_hba_read (cmd ssts sctl r : Z) (s : ahci) :
  port_state cmd ssts sctl s -> r < 0x100 -> hba_read r s = (regs (dev s) (-1) r, s).
Proof.
  intros P Hr. rewrite hba_read_eq by (apply P || done). by rewrite tick_quiet by apply P.
Qed.

(** A write to the command register that stops nothing. *)
Lemma ps_write_cmd (cmd ssts sctl v : Z) (s : ahci) :
  port_state cmd ssts sctl s -> 0 <= v < 2 ^ 32 ->
  bit v PCMD_ST || negb (bit cmd PCMD_CR) = true -> bit v PCMD_FRE || negb (bit cmd PCMD_FR) = true ->
  let ro := Z.lor PCMD_CR PCMD_FR in
  let cmd' := Z.lor (Z.land v (Z.lnot ro))
    (Z.lor (Z.land cmd ro) (Z.lor (if bit v PCMD_ST then PCMD_CR else 0) (if bit v PCMD_FRE then PCMD_FR else 0))) in
  exists s', port_write dport PORT_CMD v s = (tt, s') /\ port_state cmd' ssts sctl s' /\ untouched s s'.
Proof.
  intros P Hv H1 H2 ro cmd'. rewrite port_write_eq by (apply P || done). unfold write_reg.
  rewrite (proj2 (Z.eqb_neq dport (-1))) by lia. rewrite Z.eqb_refl.
  unfold u32. rewrite Z.mod_small by done. unfold write_cmd. rewrite (ps_cmd _ _ _ _ P).
  assert (negb (bit v PCMD_ST) && bit cmd PCMD_CR = false) as -> by (by destruct (bit v PCMD_ST), (bit cmd PCMD_CR)).
  assert (negb (bit v PCMD_FRE) && bit cmd PCMD_FR = false) as -> by (by destruct (bit v PCMD_FRE), (bit cmd PCMD_FR)).
  eexists. split; [done|]. destruct P. destruct (bit v PCMD_ST); split; try split; look.
Qed.

Lemma ps_write_clear (cmd ssts sctl r v : Z) (s : ahci) :
  port_state cmd ssts sctl s -> r = PORT_IS \/ r = PORT_SERR ->
  exists s', port_write dport r v s = (tt, s') /\ port_state cmd ssts sctl s' /\ untouched s s'.
Proof.
  intros P Hr. rewrite port_write_eq by (apply P || by destruct Hr as [-> | ->]). unfold write_reg.
  rewrite (proj2 (Z.eqb_neq dport (-1))) by lia. eexists. split; [done|].
  destruct P, Hr as [-> | ->]; cbn [Z.eqb Pos.eqb PORT_IS PORT_SERR PORT_CMD orb]; split; split; look.
Qed.

(** The command list and the received area. *)
Lemma ps_write_base (cmd ssts sctl r v : Z) (s : ahci) :
  port_state cmd ssts sctl s -> r = PORT_CLB \/ r = PORT_CLBU \/ r = PORT_FB \/ r = PORT_FBU ->
  exists s', port_write dport r v s = (tt, s') /\ port_state cmd ssts sctl s' /\
    g_port s' = g_port s /\ mem s' = mem s /\ now (dev s') = now (dev s) /\ stable (dev s') = stable (dev s) /\
    regs (dev s') dport r = u32 v /\ forall r', r' <> r -> regs (dev s') dport r' = regs (dev s) dport r'.
Proof.
  intros P Hr. rewrite port_write_eq by (apply P || by destruct Hr as [-> |[-> |[-> | ->]]]). unfold write_reg.
  rewrite (proj2 (Z.eqb_neq dport (-1))) by lia. eexists. split; [done|].
  assert (r <> PORT_CMD /\ r <> PORT_SSTS /\ r <> PORT_SCTL /\ r <> PORT_CI /\ r <> PORT_TFD /\ r <> PORT_SIG) as Hne
    by (by destruct Hr as [-> |[-> |[-> | ->]]]).
  assert ((r =? PORT_CMD) = false /\ (r =? PORT_IS) || (r =? PORT_SERR) = false /\ (r =? PORT_SCTL) = false /\
          (r =? PORT_CI) = false /\ (r =? PORT_CLB) || (r =? PORT_CLBU) || (r =? PORT_FB) || (r =? PORT_FBU) = true)
    as (-> & -> & -> & -> & ->) by (by destruct Hr as [-> |[-> |[-> | ->]]]).
  destruct P. split.
  - split; cbn [dev set_dev g_abar]; try done; rewrite regs_set_ne by (intros <-; by destruct Hne as (?&?&?&?&?&?)); done.
  - do 4 (split; [done|]). split; [by look|]. intros r' Hr'. cbn [dev set_dev]. by rewrite regs_set_ne.
Qed.

Lemma poll_step (n : nat) (read : HM Z) (f : Z -> bool) (s : ahci) :
  poll (S n) (v ← read; mret (f v)) s =
  (let '(v, s1) := read s in if f v then (true, s1) else poll n (v ← read; mret (f v)) s1).
Proof.
  cbn [poll]. unfold mbind, HM_bind, mret, HM_ret. destruct (read s) as [v s1]. by destruct (f v).
Qed.

(** A loop that waits for an activity to end. *)
Lemma poll_finish (n : nat) (a : activity) (p r : Z) (f : Z -> bool) (read : HM Z) (s s' : ahci) :
  (forall s, g_abar s = window -> read s = (regs (dev (tick s)) p r, tick s)) ->
  g_abar s = window -> act (dev s) = a -> a <> Quiet -> f (regs (dev s) p r) = false ->
  s' = finish a (set_dev (set_act Quiet 0 (dev s)) s) -> f (regs (dev s') p r) = true -> (wait (dev s) < n)%nat ->
  poll n (v ← read; mret (f v)) s = (true, s').
Proof.
  intros Hread. revert s. induction n as [|n IH]; intros s Hw Ha Hq Hf Es Hf' Hn; [lia|].
  rewrite poll_step, Hread by done.
  destruct (wait (dev s)) as [|w] eqn:Ew.
  - assert (tick s = s') as -> by (rewrite Es; unfold tick; rewrite Ha, Ew; by destruct a). by rewrite Hf'.
  - assert (tick s = set_dev (set_act a w (dev s)) s) as -> by (unfold tick; rewrite Ha, Ew; by destruct a).
    cbn [dev set_dev set_act regs]. rewrite Hf. apply IH; try done. cbn [dev set_dev set_act wait]. lia.
Qed.

Lemma repeat_read_quiet (n : nat) (m : HM Z) (v : Z) (s : ahci) : m s = (v, s) -> repeat_read n m s = (tt, s).
Proof. intros H. induction n as [|n IH]; [done|]. cbn [repeat_read]. unfold mbind, HM_bind. by rewrite H. Qed.

(** A link that is taken down and comes up again. *)
Lemma ps_sctl_down (cmd ssts : Z) (s : ahci) :
  port_state cmd ssts 0 s ->
  exists s', port_write dport PORT_SCTL 1 s = (tt, s') /\ port_state cmd 0 1 s' /\ untouched s s'.
Proof.
  intros P. rewrite port_write_eq by (apply P || done). unfold write_reg. rewrite (proj2 (Z.eqb_neq dport (-1))) by lia.
  eexists. split; [done|]. change (u32 1) with 1. destruct P.
  cbn [Z.eqb Pos.eqb PORT_SCTL PORT_CMD PORT_IS PORT_SERR orb Z.land Pos.land]. split; split; look.
Qed.

Lemma ps_sctl_up (cmd : Z) (s : ahci) :
  port_state cmd 0 1 s ->
  exists s1 s2, port_write dport PORT_SCTL 0 s = (tt, s1) /\
    poll LINK_ROUNDS (v ← port_read dport PORT_SSTS; mret (Z.land v SSTS_DET_MASK =? SSTS_DET_PRESENT)) s1 = (true, s2) /\
    port_state cmd 0x113 0 s2 /\ untouched s s2.
Proof.
  intros P. rewrite port_write_eq by (apply P || done). unfold write_reg. rewrite (proj2 (Z.eqb_neq dport (-1))) by lia.
  change (u32 0) with 0. rewrite (ps_sctl _ _ _ _ P).
  cbn [Z.eqb Pos.eqb PORT_SCTL PORT_CMD PORT_IS PORT_SERR orb Z.land Pos.land].
  set (s1 := set_dev (start (Linking dport) (set_reg dport PORT_SCTL 0 (dev s))) s).
  eexists s1, _. split; [done|]. split.
  - apply (poll_finish LINK_ROUNDS (Linking dport) dport PORT_SSTS (fun v => Z.land v SSTS_DET_MASK =? SSTS_DET_PRESENT) _ s1 _);
      [intros s2 Hw; by apply port_read_eq|apply P|done|done| |done| |].
    + unfold s1. look. by rewrite (ps_ssts _ _ _ _ P).
    + cbn [finish]. rewrite Z.eqb_refl. by look.
    + cbn [s1 dev set_dev start wait]. pose proof (Hdelay (acts (dev s))). pose proof rounds_pos. cbn [set_reg acts]. lia.
  - cbn [finish]. rewrite Z.eqb_refl. destruct P. unfold s1. split; split; look.
Qed.

Lemma ps_poll_quiet (cmd ssts sctl r mask : Z) (n : nat) (s : ahci) :
  port_state cmd ssts sctl s -> 0 <= r < 0x80 -> Z.land (regs (dev s) dport r) mask = 0 -> (0 < n)%nat ->
  poll n (port_quiet dport r mask) s = (true, s).
Proof.
  intros P Hr H Hn. apply poll_now; [done|]. unfold port_quiet, mbind, HM_bind, mret, HM_ret.
  rewrite (ps_read _ _ _ _ _ P Hr). by rewrite H.
Qed.

(** Reading the command register and writing it back with bits set or cleared. *)
Lemma ps_set (cmd cmd' ssts sctl mask : Z) (s : ahci) :
  port_state cmd ssts sctl s -> 0 <= Z.lor cmd mask < 2 ^ 32 ->
  (bit (Z.lor cmd mask) PCMD_ST || negb (bit cmd PCMD_CR)) && (bit (Z.lor cmd mask) PCMD_FRE || negb (bit cmd PCMD_FR)) = true ->
  cmd' = (let ro := Z.lor PCMD_CR PCMD_FR in let v := Z.lor cmd mask in
          Z.lor (Z.land v (Z.lnot ro)) (Z.lor (Z.land cmd ro)
            (Z.lor (if bit v PCMD_ST then PCMD_CR else 0) (if bit v PCMD_FRE then PCMD_FR else 0)))) ->
  exists s', port_set dport PORT_CMD mask s = (tt, s') /\ port_state cmd' ssts sctl s' /\ untouched s s'.
Proof.
  intros P Hv Hb ->. apply andb_prop in Hb as [H1 H2]. unfold port_set, mbind, HM_bind.
  rewrite (ps_read _ _ _ _ _ P) by done. rewrite (ps_cmd _ _ _ _ P).
  exact (ps_write_cmd cmd ssts sctl _ s P Hv H1 H2).
Qed.

Lemma ps_clear (ssts sctl mask : Z) (s : ahci) :
  port_state 0 ssts sctl s ->
  exists s', port_clear dport PORT_CMD mask s = (tt, s') /\ port_state 0 ssts sctl s' /\ untouched s s'.
Proof.
  intros P. unfold port_clear, mbind, HM_bind. rewrite (ps_read _ _ _ _ _ P) by done. rewrite (ps_cmd _ _ _ _ P).
  rewrite Z.land_0_l. by apply (ps_write_cmd 0 ssts sctl 0 s P).
Qed.

Lemma stop_engine_ok (ssts sctl : Z) (s : ahci) :
  port_state 0 ssts sctl s ->
  exists s', port_stop_engine dport s = (tt, s') /\ port_state 0 ssts sctl s' /\ untouched s s'.
Proof.
  intros P. pose proof rounds_pos as Hr. unfold port_stop_engine, mbind, HM_bind.
  destruct (ps_clear ssts sctl PCMD_ST s P) as (s1 & -> & P1 & U1).
  rewrite (ps_poll_quiet _ _ _ _ _ _ _ P1) by (done || lia || by rewrite (ps_cmd _ _ _ _ P1)).
  destruct (ps_clear ssts sctl PCMD_FRE s1 P1) as (s2 & -> & P2 & U2).
  rewrite (ps_poll_quiet _ _ _ _ _ _ _ P2) by (done || lia || by rewrite (ps_cmd _ _ _ _ P2)).
  exists s2. split; [done|]. split; [done|]. by etrans.
Qed.

Lemma start_engine_ok (cmd ssts sctl : Z) (s : ahci) :
  port_state cmd ssts sctl s -> cmd = 0 \/ cmd = 6 ->
  exists s' cmd', port_start_engine dport s = (tt, s') /\ port_state cmd' ssts sctl s' /\
    bit cmd' PCMD_ST = true /\ untouched s s'.
Proof.
  intros P Hc. pose proof rounds_pos as Hr. unfold port_start_engine, mbind, HM_bind.
  rewrite (ps_poll_quiet _ _ _ _ _ _ _ P) by (done || lia || (rewrite (ps_cmd _ _ _ _ P); by destruct Hc as [-> | ->])).
  destruct (ps_set cmd (cmd + 16 + PCMD_FR) ssts sctl PCMD_FRE s P) as (s1 & -> & P1 & U1);
    [by destruct Hc as [-> | ->]..|].
  destruct (ps_set _ (cmd + 17 + PCMD_FR + PCMD_CR) ssts sctl PCMD_ST s1 P1) as (s2 & -> & P2 & U2);
    [by destruct Hc as [-> | ->]..|].
  eexists s2, _. split; [done|]. split; [exact P2|]. split; [by destruct Hc as [-> | ->]|by etrans].
Qed.

Context (Hlist : 0 <= a_list < 2 ^ 64) (Htbl : 0 <= a_tbl < 2 ^ 64).

Lemma u32_low (a : Z) : u32 (Z.land a 0xFFFFFFFF) = Z.land a 0xFFFFFFFF.
Proof.
  unfold u32. change 0xFFFFFFFF with (Z.ones 32). rewrite Z.land_ones by lia. apply Z.mod_mod. lia.
Qed.

Lemma u32_high (a : Z) : 0 <= a < 2 ^ 64 -> u32 (Z.shiftr a 32) = Z.shiftr a 32.
Proof.
  intros Ha. unfold u32. apply Z.mod_small. rewrite Z.shiftr_div_pow2 by lia.
  split; [apply Z.div_pos; lia|apply Z.div_lt_upper_bound; lia].
Qed.

Lemma port_bases_ok (cmd ssts sctl : Z) (s : ahci) :
  port_state cmd ssts sctl s ->
  exists s', port_bases dport s = (tt, s') /\
    port_state cmd ssts sctl s' /\ g_port s' = g_port s /\ mem s' = mem s /\ now (dev s') = now (dev s) /\
    stable (dev s') = stable (dev s) /\ join (regs (dev s') dport PORT_CLB) (regs (dev s') dport PORT_CLBU) = a_list.
Proof.
  intros P. unfold port_bases, mbind, HM_bind.
  destruct (ps_write_base _ _ _ PORT_CLB (Z.land a_list 0xFFFFFFFF) s P) as (s1 & -> & P1 & G1 & M1 & N1 & S1 & V1 & O1); [by auto|].
  destruct (ps_write_base _ _ _ PORT_CLBU (Z.shiftr a_list 32) s1 P1) as (s2 & -> & P2 & G2 & M2 & N2 & S2 & V2 & O2); [by auto|].
  destruct (ps_write_base _ _ _ PORT_FB (Z.land a_fis 0xFFFFFFFF) s2 P2) as (s3 & -> & P3 & G3 & M3 & N3 & S3 & V3 & O3); [by auto|].
  destruct (ps_write_base _ _ _ PORT_FBU (Z.shiftr a_fis 32) s3 P3) as (s4 & -> & P4 & G4 & M4 & N4 & S4 & V4 & O4); [by auto|].
  exists s4. split; [done|]. split; [done|]. do 4 (split; [congruence|]).
  rewrite !O4, !O3 by done. rewrite V2, O2, V1 by done. by rewrite u32_low, u32_high, join_split.
Qed.

Lemma fresh_list_ok (buf : list Z) : length buf = Z.to_nat (128 * 512) -> mem_ok (mk_mem fresh_list tbl_zero buf).
Proof. intros Hl. split; [|done]. eexists. split; [done|]. by apply join_split. Qed.

Lemma port_state_mem (cmd ssts sctl : Z) (m : ahci_mem) (s : ahci) :
  port_state cmd ssts sctl s -> port_state cmd ssts sctl (set_mem m s).
Proof. intros []. by split. Qed.

(** A port with a disk is initialised and ready for transfers. *)
Lemma port_init_ok (s : ahci) :
  port_state 0 0x113 0 s -> length (s_dma_buf (mem s)) = Z.to_nat (128 * 512) ->
  (forall a, length (now (dev s) a) = 512%nat) ->
  exists s', port_init dport s = (0, s') /\ ahci_ready (set_port dport s') /\
    now (dev s') = now (dev s) /\ stable (dev s') = stable (dev s).
Proof.
  intros P Hb Hn. pose proof rounds_pos as Hr. unfold port_init, mbind at 1, HM_bind at 1.
  rewrite (ps_read _ _ _ _ _ P), (ps_ssts _ _ _ _ P) by done.
  change (Z.land 0x113 SSTS_DET_MASK =? SSTS_DET_PRESENT) with true.
  change (Z.land 0x113 SSTS_IPM_MASK =? SSTS_IPM_ACTIVE) with true. cbn [negb]. unfold mbind, HM_bind.
  destruct (stop_engine_ok _ _ s P) as (s1 & -> & P1 & U1).
  destruct (port_bases_ok _ _ _ s1 P1) as (s2 & -> & P2 & G2 & M2 & N2 & S2 & J2).
  unfold modify. set (s3 := set_mem _ s2).
  assert (port_state 0 0x113 0 s3) as P3 by by apply port_state_mem.
  destruct (ps_write_clear _ _ _ PORT_SERR 0xFFFFFFFF s3 P3) as (s4 & -> & P4 & U4); [by auto|].
  destruct (ps_write_clear _ _ _ PORT_IS 0xFFFFFFFF s4 P4) as (s5 & -> & P5 & U5); [by auto|].
  rewrite (ps_hba_read _ _ _ _ _ P5) by done.
  assert (exists s6 cmd, (if negb (Z.land (regs (dev s5) (-1) HBA_CAP) CAP_SSS =? 0)
    then port_set dport PORT_CMD (Z.lor PCMD_SUD PCMD_POD) else mret tt) s5 = (tt, s6) /\
    port_state cmd 0x113 0 s6 /\ (cmd = 0 \/ cmd = 6) /\ untouched s5 s6) as (s6 & cmd & -> & P6 & Hcmd & U6).
  { destruct (negb _); [|exists s5, 0; split; [done|split; [done|split; [by left|done]]]].
    destruct (ps_set 0 6 0x113 0 (Z.lor PCMD_SUD PCMD_POD) s5 P5) as (s6 & -> & P6 & U6); [done..|].
    exists s6, 6. split; [done|]. split; [done|]. split; [by right|done]. }
  rewrite (ps_read _ _ _ _ _ P6), (ps_sctl _ _ _ _ P6) by done.
  destruct (ps_sctl_down _ _ s6 P6) as (s7 & E7 & P7 & U7).
  change (Z.lor (Z.land 0 (Z.lnot 0xF)) 1) with 1. rewrite E7.
  rewrite (repeat_read_quiet _ _ _ _ (ps_read _ _ _ PORT_SCTL _ P7 ltac:(done))).
  change (Z.land 0 (Z.lnot 0xF)) with 0.
  destruct (ps_sctl_up _ s7 P7) as (s8 & s9 & -> & E9 & P9 & U9). unfold mbind, HM_bind in E9. rewrite E9. cbn [negb].
  rewrite (ps_read _ _ _ _ _ P9), (ps_sig _ _ _ _ P9), Z.eqb_refl by done. cbn [negb].
  destruct (start_engine_ok _ _ _ s9 P9 Hcmd) as (s10 & cmd' & -> & P10 & Hst & U10).
  rewrite (ps_poll_quiet _ _ _ _ _ _ _ P10) by (done || lia || apply P10).
  assert (untouched s3 s10) as U by (etrans; [exact U4|etrans; [exact U5|etrans; [exact U6|etrans; [exact U7|by etrans]]]]).
  exists s10. split; [done|].
  assert (now (dev s10) = now (dev s) /\ stable (dev s10) = stable (dev s)) as [En Es]
    by (destruct U, U1; unfold s3 in *; cbn [dev set_mem] in *; split; congruence).
  split; [|done]. split; [|split].
  - destruct P10. split; cbn [dev set_port g_abar g_port]; try done; [congruence|].
    destruct U as [_ _ _ _ -> ->]. exact J2.
  - cbn [mem set_port]. rewrite (ut_mem _ _ U). apply fresh_list_ok. rewrite M2, (ut_mem _ _ U1). done.
  - intros a. cbn [dev set_port]. by rewrite En.
Qed.

(** Computations that only use the PCI bus. *)
Definition pci_only {A} (m : HM A) : Prop := forall s, exists x b, m s = (x, set_pci b s).

Lemma pci_only_ret {A} (x : A) : pci_only (mret x).
Proof. intros s. exists x, (pci s). by destruct s. Qed.

Lemma pci_only_bind {A B} (m : HM A) (k : A -> HM B) : pci_only m -> (forall x, pci_only (k x)) -> pci_only (m ≫= k).
Proof.
  intros Hm Hk s. destruct (Hm s) as (x & b & E). unfold mbind, HM_bind. rewrite E.
  destruct (Hk x (set_pci b s)) as (y & b' & E'). exists y, b'. by rewrite E'.
Qed.

Lemma pci_only_with {A} (f : pci_bus -> A * pci_bus) : pci_only (with_pci f).
Proof. intros s. unfold with_pci. destruct (f (pci s)) as [x b]. by exists x, b. Qed.

Ltac pci := repeat first [apply pci_only_with|apply pci_only_ret|apply pci_only_bind; [|intros ?]|case_match].

Lemma probe_fn_pci (d fn : Z) : pci_only (probe_fn d fn).
Proof. unfold probe_fn, pci_read32, pci_write32. pci. Qed.

Lemma find_fn_pci (n : nat) (d fn : Z) : pci_only (find_fn n d fn).
Proof.
  revert fn. induction n as [|n IH]; intros fn; cbn [find_fn]; [pci|].
  apply pci_only_bind; [apply probe_fn_pci|]. intros []; [pci|done|pci].
Qed.

Lemma find_dev_pci (n : nat) (d : Z) : pci_only (find_dev n d).
Proof.
  revert d. induction n as [|n IH]; intros d; cbn [find_dev]; [pci|].
  apply pci_only_bind; [apply find_fn_pci|]. intros []; [pci|done].
Qed.

Lemma pci_find_pci : pci_only pci_find_ahci_abar.
Proof. apply pci_only_bind; [apply find_dev_pci|intros ?; pci]. Qed.

(** *** Up to the reset *)

(** What the steps before the reset keep; a handover may still be going on. *)
Record before_reset (s0 s : ahci) : Prop := {
  br_abar : g_abar s = window;
  br_act : act (dev s) = Quiet \/ act (dev s) = HandingOver;
  br_port : g_port s = g_port s0;
  br_mem : mem s = mem s0;
  br_now : now (dev s) = now (dev s0);
  br_stable : stable (dev s) = stable (dev s0);
  br_hr : Z.testbit (regs (dev s) (-1) HBA_GHC) 0 = false;
  br_regs : forall p r, p <> -1 \/ r <> HBA_GHC /\ r <> HBA_BOHC -> regs (dev s) p r = regs (dev s0) p r
}.

Definition keeps {A} (m : HM A) : Prop := forall s0 s, before_reset s0 s -> before_reset s0 (snd (m s)).

Lemma keeps_ret {A} (x : A) : keeps (mret x).
Proof. by intros s0 s H. Qed.

Lemma keeps_bind {A B} (m : HM A) (k : A -> HM B) : keeps m -> (forall x, keeps (k x)) -> keeps (m ≫= k).
Proof.
  intros Hm Hk s0 s H. unfold mbind, HM_bind. specialize (Hm s0 s H). destruct (m s) as [x s1]. by apply Hk.
Qed.

Lemma keeps_poll (n : nat) (m : HM bool) : keeps m -> keeps (poll n m).
Proof.
  intros Hm. induction n as [|n IH]; [apply keeps_ret|]. cbn [poll].
  apply keeps_bind; [done|]. intros []; [apply keeps_ret|done].
Qed.

Lemma regs_set_hba (r v : Z) (h : hba) (p q : Z) :
  r = HBA_BOHC \/ r = HBA_GHC -> p <> -1 \/ q <> HBA_GHC /\ q <> HBA_BOHC -> regs (set_reg (-1) r v h) p q = regs h p q.
Proof.
  intros Hr Hpq. cbn. destruct (Z.eqb_spec p (-1)), (Z.eqb_spec q r); cbn; try done.
  destruct Hpq as [|[??]]; [done|]. destruct Hr; congruence.
Qed.

Lemma keeps_tick (s0 s : ahci) : before_reset s0 s -> before_reset s0 (tick s).
Proof.
  intros H. unfold tick. destruct (br_act _ _ H) as [E|E]; rewrite E; [done|]. destruct H.
  destruct (wait (dev s)) as [|w]; cbn [finish]; split; cbn [dev set_dev g_abar g_port mem now stable act set_reg set_act]; auto.
  - intros p r Hpr. rewrite regs_set_hba, regs_set_act by auto. auto.
Qed.

Lemma keeps_read (off : Z) : keeps (hba_read off).
Proof.
  intros s0 s H. unfold hba_read. rewrite (br_abar _ _ H), Z.eqb_refl.
  destruct (decode off). by apply keeps_tick.
Qed.

Lemma bit_0 (v : Z) : bit v 1 = Z.testbit v 0.
Proof.
  unfold bit. change 1 with (Z.ones 1). rewrite Z.land_ones by lia. change (2 ^ 1) with 2.
  rewrite <- Z.bit0_mod. by destruct (Z.testbit v 0).
Qed.

Lemma u32_bit_0 (v : Z) : Z.testbit (u32 v) 0 = Z.testbit v 0.
Proof. unfold u32. apply Z.mod_pow2_bits_low. lia. Qed.

Lemma keeps_write (off v : Z) : off = HBA_BOHC \/ off = HBA_GHC /\ Z.testbit v 0 = false -> keeps (hba_write off v).
Proof.
  intros Hoff s0 s H. unfold hba_write. rewrite (br_abar _ _ H), Z.eqb_refl. destruct H.
  destruct Hoff as [-> |[-> Hb]]; unfold decode.
  - change (HBA_BOHC <? 256) with true. cbn [snd]. unfold write_reg. cbn [Z.eqb Pos.eqb HBA_BOHC HBA_GHC].
    destruct (bit (u32 v) BOHC_OOS); split; cbn [dev set_dev g_abar g_port mem act set_reg start now stable]; auto;
      intros p r Hpr; rewrite ?regs_start, regs_set_hba by auto; auto.
  - change (HBA_GHC <? 256) with true. cbn [snd]. unfold write_reg. cbn [Z.eqb Pos.eqb HBA_BOHC HBA_GHC].
    rewrite bit_0, u32_bit_0, Hb. split; cbn [dev set_dev g_abar g_port mem act set_reg start now stable]; auto.
    + rewrite regs_set_eq. by rewrite u32_bit_0.
    + intros p r Hpr. rewrite regs_set_hba by auto. auto.
Qed.

Lemma keeps_handoff : keeps handoff.
Proof.
  unfold handoff. apply keeps_bind; [apply keeps_read|]. intros v. apply keeps_bind; [apply keeps_write; by left|]. intros _.
  apply keeps_bind; [apply keeps_poll, keeps_bind; [apply keeps_read|intros ?; apply keeps_ret]|]. intros _.
  apply keeps_bind; [apply keeps_read|]. intros w. destruct (negb _); [|apply keeps_ret].
  apply keeps_bind; [apply keeps_poll, keeps_bind; [apply keeps_read|intros ?; apply keeps_ret]|intros _; apply keeps_ret].
Qed.

Lemma keeps_enable : keeps (hba_set HBA_GHC GHC_AE).
Proof.
  intros s0 s H. unfold hba_set, mbind, HM_bind. rewrite hba_read_eq by (apply H || done).
  pose proof (keeps_tick s0 s H) as H1. apply keeps_write; [|done]. right. split; [done|].
  by rewrite Z.lor_spec, (br_hr _ _ H1).
Qed.

(** *** The reset and the ports *)

(** The controller before it is initialised: at rest, with the disk on the first
    implemented port that has a device. *)
Record cold (s : ahci) : Prop := {
  c_act : act (dev s) = Quiet;
  c_hr : Z.testbit (regs (dev s) (-1) HBA_GHC) 0 = false;
  c_pi : Z.land (regs (dev s) (-1) HBA_PI) (Z.shiftl 1 dport) <> 0;
  c_first : forall p, 0 <= p < dport ->
    Z.land (regs (dev s) (-1) HBA_PI) (Z.shiftl 1 p) = 0 \/ Z.land (regs (dev s) p PORT_SSTS) SSTS_DET_MASK <> SSTS_DET_PRESENT;
  c_ssts : regs (dev s) dport PORT_SSTS = 0x113;
  c_sig : regs (dev s) dport PORT_SIG = SIG_ATA;
  c_tfd : Z.land (regs (dev s) dport PORT_TFD) (Z.lor TFD_BSY TFD_DRQ) = 0;
  c_buf : length (s_dma_buf (mem s)) = Z.to_nat (128 * 512);
  c_disk : forall a, length (now (dev s) a) = 512%nat
}.

Lemma try_ports_ok (n : nat) (ports p : Z) (s : ahci) :
  port_state 0 0x113 0 s -> length (s_dma_buf (mem s)) = Z.to_nat (128 * 512) -> (forall a, length (now (dev s) a) = 512%nat) ->
  Z.land ports (Z.shiftl 1 dport) <> 0 ->
  (forall q, 0 <= q < dport ->
    Z.land ports (Z.shiftl 1 q) = 0 \/ Z.land (regs (dev s) q PORT_SSTS) SSTS_DET_MASK <> SSTS_DET_PRESENT) ->
  0 <= p <= dport -> p + Z.of_nat n = 32 ->
  exists s', try_ports n ports p s = (0, s') /\ ahci_ready s' /\ now (dev s') = now (dev s) /\ stable (dev s') = stable (dev s).
Proof.
  intros P Hb Hn Hd Hfirst. revert p. induction n as [|n IH]; intros p Hp Hsum; [lia|]. cbn [try_ports].
  assert (forall q r, 0 <= q < 32 -> 0 <= r < 0x80 -> port_read q r s = (regs (dev s) q r, s)) as Hread
    by (intros q r Hq Hr; rewrite port_read_eq by (apply P || done); by rewrite tick_quiet by apply P).
  destruct (decide (p = dport)) as [->|Hne].
  - rewrite (proj2 (Z.eqb_neq _ _) Hd). unfold mbind, HM_bind. rewrite !Hread by done.
    destruct (port_init_ok s P Hb Hn) as (s' & -> & R & E1 & E2). by exists (set_port dport s').
  - destruct (Z.eqb_spec (Z.land ports (Z.shiftl 1 p)) 0) as [_|Hport]; [apply IH; lia|].
    destruct (Hfirst p ltac:(lia)) as [|Hdet]; [done|].
    unfold mbind, HM_bind. rewrite !Hread by (done || lia). unfold port_init, mbind at 1, HM_bind at 1.
    rewrite Hread by (done || lia). rewrite (proj2 (Z.eqb_neq _ _) Hdet). cbn [negb]. unfold mret, HM_ret.
    cbn [Z.eqb]. apply IH; lia.
Qed.

(** The controller after its reset: the links are up and everything else is at rest. *)
Record after_reset (s0 s : ahci) : Prop := {
  ar_abar : g_abar s = window;
  ar_act : act (dev s) = Quiet;
  ar_halted : halted (dev s) dport = false;
  ar_mem : mem s = mem s0;
  ar_now : now (dev s) = now (dev s0);
  ar_stable : stable (dev s) = stable (dev s0);
  ar_ghc : regs (dev s) (-1) HBA_GHC = 0 \/ regs (dev s) (-1) HBA_GHC = GHC_AE;
  ar_regs : forall p r, p <> -1 \/ r <> HBA_GHC /\ r <> HBA_BOHC -> regs (dev s) p r = reset_regs (regs (dev s0)) p r
}.

Lemma reset_regs_ext (f g : Z -> Z -> Z) (p r : Z) : f p r = g p r -> reset_regs f p r = reset_regs g p r.
Proof. intros H. unfold reset_regs. by rewrite H. Qed.

Lemma reset_ok (s0 s : ahci) :
  before_reset s0 s ->
  exists s1 s2, hba_set HBA_GHC GHC_HR s = (tt, s1) /\
    poll LINK_ROUNDS (v ← hba_read HBA_GHC; mret (Z.land v GHC_HR =? 0)) s1 = (true, s2) /\ after_reset s0 s2.
Proof.
  intros H. unfold hba_set. unfold mbind at 1, HM_bind at 1. rewrite hba_read_eq by (apply H || done).
  pose proof (keeps_tick s0 s H) as H1. set (t := tick s) in *. clearbody t. clear s H.
  set (v := Z.lor (regs (dev t) (-1) HBA_GHC) GHC_HR).
  assert (Z.testbit v 0 = true) as Hv by (unfold v; rewrite Z.lor_spec; apply orb_true_r).
  unfold hba_write. rewrite (br_abar _ _ H1), Z.eqb_refl. change (decode HBA_GHC) with (-1, HBA_GHC). cbn iota.
  unfold write_reg. cbn [Z.eqb Pos.eqb HBA_GHC]. fold HBA_GHC. rewrite bit_0, u32_bit_0, Hv.
  set (s1 := set_dev (start Resetting (set_reg (-1) HBA_GHC (u32 v) (dev t))) t).
  eexists s1, _. split; [done|]. split.
  - apply (poll_finish LINK_ROUNDS Resetting (-1) HBA_GHC (fun v => Z.land v GHC_HR =? 0) _ s1 _);
      [intros s2 Hw; by apply hba_read_eq|apply H1|done|done| |done|done|].
    + unfold s1. cbn [dev set_dev]. rewrite regs_start, regs_set_eq. pose proof (bit_0 (u32 v)) as Hb. unfold bit in Hb.
      rewrite u32_bit_0, Hv in Hb. by apply negb_true_iff in Hb.
    + cbn [s1 dev set_dev start wait]. pose proof (Hdelay (acts (dev t))). pose proof rounds_pos. cbn [set_reg acts]. lia.
  - destruct H1. split; cbn [finish dev set_dev g_abar mem act halted now stable set_act start s1 set_reg]; try done.
    + left. done.
    + intros p r Hpr. apply reset_regs_ext. rewrite <- (br_regs0 p r Hpr). apply (regs_set_hba _ _ (dev t)); auto.
Qed.

Lemma enable_ok (s0 s : ahci) :
  after_reset s0 s -> exists s', hba_set HBA_GHC GHC_AE s = (tt, s') /\ after_reset s0 s'.
Proof.
  intros A. unfold hba_set, mbind, HM_bind. rewrite hba_read_eq by (apply A || done). rewrite tick_quiet by apply A.
  unfold hba_write. rewrite (ar_abar _ _ A), Z.eqb_refl. change (decode HBA_GHC) with (-1, HBA_GHC). cbn iota.
  assert (Z.lor (regs (dev s) (-1) HBA_GHC) GHC_AE = GHC_AE) as -> by (by destruct (ar_ghc _ _ A) as [-> | ->]).
  eexists. split; [done|]. unfold write_reg. cbn [Z.eqb Pos.eqb HBA_GHC]. fold HBA_GHC.
  change (bit (u32 GHC_AE) GHC_HR) with false. change (u32 GHC_AE) with GHC_AE. destruct A.
  split; cbn [dev set_dev g_abar mem act halted now stable set_reg]; try done.
  - right. by rewrite regs_set_eq.
  - intros p r Hpr. rewrite regs_set_hba by auto. auto.
Qed.

(** On a machine whose first drive is a disk, the driver finds the controller on
    the PCI bus, takes it over, resets it, and leaves the port of the disk ready
    for transfers, with the contents of the disk as they were. *)
Theorem ahci_init_ready (s : ahci) :
  fst (pci_find_ahci_abar s) = window -> window <> 0 -> cold s ->
  exists s', ahci_init s = (0, s') /\ ahci_ready s' /\ now (dev s') = now (dev s) /\ stable (dev s') = stable (dev s).
Proof.
  intros Hpci Hw C. unfold ahci_init, mbind at 1, HM_bind at 1.
  destruct (pci_find_pci s) as (x & b & E). rewrite E in *. cbn [fst] in Hpci. subst x.
  rewrite (proj2 (Z.eqb_neq _ _) Hw). set (s1 := set_abar window (set_pci b s)).
  assert (before_reset s1 s1) as B1 by (destruct C; by split; [|left|..]).
  unfold mbind at 1, HM_bind at 1. change (modify (set_abar window) (set_pci b s)) with (tt, s1). cbn iota.
  unfold mbind at 1, HM_bind at 1. pose proof (keeps_read HBA_CAP2 s1 s1 B1) as B2.
  destruct (hba_read HBA_CAP2 s1) as [cap2 s2]. cbn [snd] in B2.
  unfold mbind at 1, HM_bind at 1.
  assert (keeps (if negb (Z.land cap2 CAP2_BOH =? 0) then handoff else mret tt)) as Kh
    by (destruct (negb _); [apply keeps_handoff|apply keeps_ret]).
  specialize (Kh s1 s2 B2). destruct ((if negb _ then handoff else mret tt) s2) as [[] s3]. cbn [snd] in Kh.
  unfold mbind at 1, HM_bind at 1. pose proof (keeps_enable s1 s3 Kh) as B4.
  destruct (hba_set HBA_GHC GHC_AE s3) as [[] s4]. cbn [snd] in B4.
  destruct (reset_ok s1 s4 B4) as (s5 & s6 & E5 & E6 & A6).
  unfold mbind at 1, HM_bind at 1. rewrite E5. unfold mbind at 1, HM_bind at 1. rewrite E6. cbn [negb].
  destruct (enable_ok s1 s6 A6) as (s7 & E7 & A7). unfold mbind at 1, HM_bind at 1. rewrite E7.
  assert (forall r, r < 0x100 -> hba_read r s7 = (regs (dev s7) (-1) r, s7)) as Hread
    by (intros r Hr; rewrite hba_read_eq by (apply A7 || done); by rewrite tick_quiet by apply A7).
  unfold mbind, HM_bind. rewrite !Hread by done.
  destruct C. assert (forall p r, 0 <= p -> r = PORT_SSTS \/ r = PORT_SIG \/ r = PORT_TFD -> regs (dev s7) p r = regs (dev s) p r) as Hkeep.
  { intros p r Hp Hr. rewrite (ar_regs _ _ A7) by (left; lia). unfold reset_regs. rewrite (proj2 (Z.eqb_neq p (-1))) by lia.
    cbn [andb]. destruct Hr as [-> |[-> | ->]]; by rewrite andb_false_r. }
  assert (forall r, r = PORT_CMD \/ r = PORT_SCTL \/ r = PORT_CI -> regs (dev s7) dport r = 0) as Hzero.
  { intros r Hr. rewrite (ar_regs _ _ A7) by (left; lia). unfold reset_regs. rewrite (proj2 (Z.eqb_neq dport (-1))) by lia.
    cbn [andb]. rewrite (proj2 (Z.leb_le 0 dport)) by lia. by destruct Hr as [-> |[-> | ->]]. }
  assert (regs (dev s7) (-1) HBA_PI = regs (dev s) (-1) HBA_PI) as Hpi by (by rewrite (ar_regs _ _ A7) by (right; done)).
  destruct (try_ports_ok 32 (regs (dev s7) (-1) HBA_PI) 0 s7) as (s8 & -> & R & E8 & E9).
  - split; try apply A7; try apply Hzero; rewrite ?Hkeep by (lia || auto); auto.
  - by rewrite (ar_mem _ _ A7).
  - by rewrite (ar_now _ _ A7).
  - by rewrite Hpi.
  - intros q Hq. rewrite Hpi, Hkeep by (lia || auto). auto.
  - lia.
  - done.
  - exists s8. split; [done|]. split; [done|]. by rewrite E8, E9, (ar_now _ _ A7), (ar_stable _ _ A7).
Qed.

End controller.

(** * A machine with a disk on port 2 *)

Definition sample_window : Z := 0xFEBF0000.

Definition sample_space (a : Z) : Z :=
  if a =? cfg_addr 0 4 0 0x00 then 0x29228086
  else if a =? cfg_addr 0 4 0 0x08 then 0x01060100
  else if a =? cfg_addr 0 4 0 0x24 then sample_window
  else if a =? cfg_addr 0 4 0 0x04 then 0
  else 0xFFFFFFFF.

Definition sample_cold_regs (p r : Z) : Z :=
  if p =? -1 then (if r =? HBA_PI then 0x3F else 0)
  else if p =? 2 then (if r =? PORT_SSTS then 0x113 else if r =? PORT_SIG then SIG_ATA else if r =? PORT_TFD then 0x50 else 0)
  else 0.

Definition sample_sectors (a : Z) : list Z := replicate 512 (a mod 256).

Definition sample_cold : ahci :=
  mk_ahci 0 (-1) (mk_mem [] tbl_zero (replicate (Z.to_nat (128 * 512)) 0))
    (mk_hba sample_cold_regs Quiet 0 0 (fun _ => false) sample_sectors sample_sectors) (mk_bus 0 sample_space).

Definition sample_pause (n : nat) : nat := (n mod 3)%nat.

Lemma sample_pause_short n : (sample_pause n < STOP_ROUNDS)%nat.
Proof.
  unfold sample_pause. pose proof (Nat.mod_upper_bound n 3 ltac:(lia)).
  assert (3 < STOP_ROUNDS)%nat by (unfold STOP_ROUNDS; lia). lia.
Qed.

Lemma sample_cold_ok : cold 2 sample_cold.
Proof.
  split; [done|done|done| |done|done|done| |].
  - intros p Hp. right. assert (p = 0 \/ p = 1) as [-> | ->] by lia; done.
  - apply length_replicate.
  - intros a. apply length_replicate.
Qed.

Lemma ahci_init_ready_witness :
  exists s', ahci_init sample_window 0x10000400 0x20000500 0x3000600000080 0x4000 2 sample_pause (fun _ => false) sample_cold = (0, s') /\
    ahci_ready sample_window 0x10000400 0x3000600000080 2 s' /\
    now (dev s') = sample_sectors /\ stable (dev s') = sample_sectors.
Proof.
  apply (ahci_init_ready sample_window 0x10000400 0x20000500 0x3000600000080 0x4000 2 sample_pause (fun _ => false));
    [lia|apply sample_pause_short|lia|lia|vm_compute; reflexivity|done|apply sample_cold_ok].
Defined.

(** The machine after its initialisation. *)
Definition sample_ready_regs (p r : Z) : Z :=
  if p =? 2 then
    if r =? PORT_CMD then 0xC011 else if r =? PORT_CLB then 0x10000400 else if r =? PORT_TFD then 0x50 else 0
  else 0.

Definition sample_ready_machine : ahci :=
  mk_ahci sample_window 2 (mk_mem [mk_hdr 0 0 0 0x600000 0] tbl_zero (replicate (Z.to_nat (128 * 512)) 0))
    (mk_hba sample_ready_regs Quiet 0 0 (fun _ => false) sample_sectors sample_sectors) (mk_bus 0 sample_space).

Lemma sample_machine_ready : ahci_ready sample_window 0x10000400 0x600000 2 sample_ready_machine.
Proof.
  split; [by split|]. split.
  - split; [by eexists|apply length_replicate].
  - intros a. apply length_replicate.
Qed.

Lemma ahci_refuses_witness :
  ahci_read_sectors sample_window 0x10000400 0x600000 0x4000 2 sample_pause (fun _ => false) 7 129 sample_ready_machine =
    ((-1, []), sample_ready_machine) /\
  ahci_write_sectors sample_window 0x10000400 0x600000 0x4000 2 sample_pause (fun _ => false) 7 129 [] sample_ready_machine =
    (-1, sample_ready_machine).
Proof. apply ahci_refuses. right. right. done. Defined.

Lemma ahci_flush_ignored_witness :
  exists s', ahci_write_sectors sample_window 0x10000400 0x600000 0x4000 2 sample_pause (fun n => (n =? 1)%nat) 7 2
      (replicate 1024 9) sample_ready_machine = (0, s') /\ stable (dev s') = sample_sectors.
Proof.
  apply (ahci_flush_ignored sample_window 0x10000400 0x600000 0x4000 2 sample_pause (fun n => (n =? 1)%nat));
    [lia|apply sample_pause_short|lia|apply sample_machine_ready|done|reflexivity|reflexivity|reflexivity].
Defined.
