(* ===== verification/Disk.v ===== *)
(** The disk as the server sees it: src/drivers/disk.c over the two drivers.

    [Persist] takes the disk to be a flat array of bytes.  Here that view is
    proved: a device that keeps the contract of [BlockDevice] refines the array,
    and so does the dispatcher, whichever driver it chose. *)

From Stdlib Require Import ZArith Lia Bool.
From stdpp Require Import base list numbers option.
From S2P Require Import Prelude Block Pci Ata Ahci Persist.

Open Scope Z_scope.

(** * The flat array *)

(** The first [n] sectors of an image as one array. *)
Definition represents (n : nat) (f : Z -> list Z) (d : list Z) : Prop := d = range f 0 n.

Lemma range_app {A} (f : Z -> list A) (a : Z) (n m : nat) :
  range f a (n + m) = range f a n ++ range f (a + Z.of_nat n) m.
Proof.
  revert a. induction n as [|n IH]; intros a; cbn [range Nat.add app].
  - f_equal. lia.
  - rewrite IH, <- app_assoc. do 3 f_equal. lia.
Qed.

(** The three parts of an array around a transfer. *)
Lemma range_split {A} (f : Z -> list A) (n l c : nat) :
  (l + c <= n)%nat ->
  range f 0 n = range f 0 l ++ range f (Z.of_nat l) c ++ range f (Z.of_nat (l + c)) (n - (l + c)).
Proof.
  intros H. replace n with (l + (c + (n - (l + c))))%nat at 1 by lia. rewrite !range_app. rewrite Z.add_0_l.
  do 3 f_equal. lia.
Qed.

Section device.
Context {D : Type} `{BlockDevice D}.

(** A read is a slice of the array. *)
Lemma represents_read (n : nat) (lba count : Z) (s : D) (d : list Z) :
  bd_ready s -> represents n (bd_image s) d -> 0 <= lba -> 0 <= count -> lba + count <= Z.of_nat n ->
  range (bd_image s) lba (Z.to_nat count) = field d (Z.to_nat lba * SECTOR) (Z.to_nat count * SECTOR).
Proof.
  intros R -> Hl Hc Hn. rewrite (range_split _ n (Z.to_nat lba) (Z.to_nat count)) by lia.
  unfold field, SECTOR. assert (forall a m, length (range (bd_image s) a m) = (512 * m)%nat) as Hlen
    by (intros a m; apply range_length; intros x; by apply bd_sector).
  rewrite drop_app_length' by (rewrite Hlen; lia). rewrite take_app_length' by (rewrite Hlen; lia). f_equal. lia.
Qed.

(** A write is a splice into the array. *)
Lemma represents_write (n : nat) (lba count : Z) (buf : list Z) (s : D) (f : Z -> list Z) (d : list Z) :
  bd_ready s -> represents n (bd_image s) d -> 0 <= lba -> 0 <= count -> lba + count <= Z.of_nat n ->
  length buf = (512 * Z.to_nat count)%nat ->
  (forall a, f a = put_range 512 (bd_image s) lba (Z.to_nat count) buf a) ->
  represents n f (splice (Z.to_nat lba * SECTOR) buf d).
Proof.
  intros R -> Hl Hc Hn Hb Hf. unfold represents.
  rewrite (range_ext f _ n 0 (fun x _ => Hf x)).
  rewrite !(range_split _ n (Z.to_nat lba) (Z.to_nat count)) by lia.
  assert (forall a m, length (range (bd_image s) a m) = (512 * m)%nat) as Hlen
    by (intros a m; apply range_length; intros x; by apply bd_sector).
  rewrite (range_put_other _ _ lba 0) by lia.
  rewrite Z2Nat.id by lia. rewrite range_put_range by done.
  rewrite (range_put_other _ _ lba (Z.of_nat (Z.to_nat lba + Z.to_nat count))) by lia.
  unfold splice, SECTOR. rewrite take_app_length' by (rewrite Hlen; lia). do 2 f_equal.
  rewrite app_assoc. rewrite drop_app_length'; [done|]. rewrite length_app, !Hlen. lia.
Qed.

End device.

(** * The dispatcher *)

Inductive disk_backend_t := DISK_NONE | DISK_ATA_PIO | DISK_AHCI.

Definition ATA_DATA_DRIVE : Z := 1.

(** The global and the two controllers. *)
Record disks := mk_disks { g_backend : disk_backend_t; hba_side : ahci; ata_side : ata_dev }.

#[local] Opaque ATA_TIMEOUT STOP_ROUNDS SETTLE_ROUNDS LINK_ROUNDS SLOT_ROUNDS HANDOFF_ROUNDS BB_ROUNDS.

Section dispatcher.
(** The machine: where things are, and how its controllers behave. *)
Context (window a_list a_fis a_tbl a_dma dport : Z) (pause : nat -> nat) (pfails : nat -> bool).
Context (delay : nat -> nat) (fails : nat -> bool) (identity : nat -> list Z).

Definition disk_init (m : disks) : disk_backend_t * disks :=
  let '(r, h) := ahci_init window a_list a_fis a_tbl a_dma dport pause pfails (hba_side m) in
  if r =? 0 then (DISK_AHCI, mk_disks DISK_AHCI h (ata_side m))
  else
    let '(ata_drives, a) := ata_init delay fails identity (ata_side m) in
    if negb (Z.land ata_drives (Z.shiftl 1 ATA_DATA_DRIVE) =? 0) then (DISK_ATA_PIO, mk_disks DISK_ATA_PIO h a)
    else (DISK_NONE, mk_disks (g_backend m) h a).

Definition disk_backend (m : disks) : disk_backend_t := g_backend m.

(** The result and the bytes put in the buffer. *)
Definition disk_read_sectors (lba count : Z) (m : disks) : Z * list Z * disks :=
  match g_backend m with
  | DISK_AHCI =>
      let '(r, bs, h) := ahci_read_sectors window a_list a_tbl a_dma dport pause pfails lba (u16 count) (hba_side m) in
      (r, bs, mk_disks (g_backend m) h (ata_side m))
  | DISK_ATA_PIO =>
      let '(r, bs, a) := ata_read_sectors delay fails identity ATA_DATA_DRIVE (u32 lba) count (ata_side m) in
      (r, bs, mk_disks (g_backend m) (hba_side m) a)
  | DISK_NONE => (-1, [], m)
  end.

Definition disk_write_sectors (lba count : Z) (buf : list Z) (m : disks) : Z * disks :=
  match g_backend m with
  | DISK_AHCI =>
      let '(r, h) := ahci_write_sectors window a_list a_tbl a_dma dport pause pfails lba (u16 count) buf (hba_side m) in
      (r, mk_disks (g_backend m) h (ata_side m))
  | DISK_ATA_PIO =>
      let '(r, a) := ata_write_sectors delay fails identity ATA_DATA_DRIVE (u32 lba) count buf (ata_side m) in
      (r, mk_disks (g_backend m) (hba_side m) a)
  | DISK_NONE => (-1, m)
  end.

(** * Sequences of transfers *)

Inductive transfer := TRead (lba count : Z) | TWrite (lba : Z) (buf : list Z).

(** The number of sectors of a buffer. *)
Definition sectors_in (buf : list Z) : Z := Z.of_nat (length buf / 512).

(** The results of the transfers and the data of the reads. *)
Fixpoint disk_run (ts : list transfer) (m : disks) : list (Z * list Z) * disks :=
  match ts with
  | [] => ([], m)
  | TRead lba count :: ts' =>
      let '(r, bs, m) := disk_read_sectors lba count m in
      let '(out, m) := disk_run ts' m in ((r, bs) :: out, m)
  | TWrite lba buf :: ts' =>
      let '(r, m) := disk_write_sectors lba (sectors_in buf) buf m in
      let '(out, m) := disk_run ts' m in ((r, []) :: out, m)
  end.

(** The same on a flat array, as [Persist] has it. *)
Fixpoint flat_run (ts : list transfer) (d : list Z) : list (Z * list Z) * list Z :=
  match ts with
  | [] => ([], d)
  | TRead lba count :: ts' =>
      let '(out, d') := flat_run ts' d in ((0, field d (Z.to_nat lba * SECTOR) (Z.to_nat count * SECTOR)) :: out, d')
  | TWrite lba buf :: ts' =>
      let '(out, d') := flat_run ts' (splice (Z.to_nat lba * SECTOR) buf d) in ((0, []) :: out, d')
  end.

(** A transfer within the first [n] sectors that both drivers can do. *)
Definition transfer_ok (n : nat) (t : transfer) : Prop :=
  match t with
  | TRead lba count => 0 <= lba /\ 0 < count <= 128 /\ lba + count <= Z.of_nat n
  | TWrite lba buf =>
      0 <= lba /\ Forall byte buf /\ (exists k, (0 < k <= 128)%nat /\ length buf = (512 * k)%nat /\ lba + Z.of_nat k <= Z.of_nat n)
  end.

Context (Hdport : 0 <= dport < 32) (Hpause : forall n, (pause n < STOP_ROUNDS)%nat) (Hdma : 0 <= a_dma < 2 ^ 64)
  (Hpfails : forall n, pfails n = false).
Context (Hdelay : forall n, (delay n < ATA_TIMEOUT)%nat) (Hfails : forall n, fails n = false).

#[local] Instance hba_device : BlockDevice ahci := ahci_block window a_list a_tbl a_dma dport pause pfails Hdport Hpause Hdma Hpfails.
#[local] Instance ata_device : BlockDevice ata_dev := ata_block delay fails identity Hdelay Hfails ATA_DATA_DRIVE.

Definition disk_ready (m : disks) : Prop :=
  match g_backend m with
  | DISK_AHCI => bd_ready (hba_side m)
  | DISK_ATA_PIO => bd_ready (ata_side m)
  | DISK_NONE => False
  end.

Definition disk_image (m : disks) : Z -> list Z :=
  match g_backend m with
  | DISK_AHCI => bd_image (hba_side m)
  | DISK_ATA_PIO => bd_image (ata_side m)
  | DISK_NONE => fun _ => []
  end.

Definition disk_stable (m : disks) : Z -> list Z :=
  match g_backend m with
  | DISK_AHCI => bd_stable (hba_side m)
  | DISK_ATA_PIO => bd_stable (ata_side m)
  | DISK_NONE => fun _ => []
  end.

Lemma disk_read_flat (n : nat) (lba count : Z) (m : disks) (d : list Z) :
  disk_ready m -> represents n (disk_image m) d -> Z.of_nat n <= 2 ^ 28 -> transfer_ok n (TRead lba count) ->
  exists m', disk_read_sectors lba count m = (0, field d (Z.to_nat lba * SECTOR) (Z.to_nat count * SECTOR), m') /\
    disk_ready m' /\ represents n (disk_image m') d.
Proof.
  intros R Hrep Hn (H0 & Hc & Hlim). unfold disk_ready, disk_image, disk_read_sectors in *.
  destruct (g_backend m) eqn:Eb; [done| |].
  - unfold u32. rewrite Z.mod_small by lia. rewrite <- (represents_read n lba count (ata_side m) d) by (done || lia).
    destruct (bd_read_ok lba count (ata_side m) R H0) as (a & E & R' & Ei & _); [cbn; lia|cbn; lia|].
    cbn [bd_read ata_device ata_block] in E. rewrite E. eexists. split; [done|]. cbn [g_backend ata_side]. split; [done|].
    unfold represents in *. rewrite Hrep. apply range_ext. intros x _. by rewrite Ei.
  - unfold u16. rewrite Z.mod_small by lia. rewrite <- (represents_read n lba count (hba_side m) d) by (done || lia).
    destruct (bd_read_ok lba count (hba_side m) R H0) as (a & E & R' & Ei & _); [cbn; unfold AHCI_DMA_SECTORS; lia|cbn; lia|].
    cbn [bd_read hba_device ahci_block] in E. rewrite E. eexists. split; [done|]. cbn [g_backend hba_side]. split; [done|].
    unfold represents in *. rewrite Hrep. apply range_ext. intros x _. by rewrite Ei.
Qed.

Lemma disk_write_flat (n : nat) (lba : Z) (buf : list Z) (m : disks) (d : list Z) :
  disk_ready m -> represents n (disk_image m) d -> Z.of_nat n <= 2 ^ 28 -> transfer_ok n (TWrite lba buf) ->
  exists m', disk_write_sectors lba (sectors_in buf) buf m = (0, m') /\ disk_ready m' /\
    represents n (disk_image m') (splice (Z.to_nat lba * SECTOR) buf d) /\
    forall a, disk_stable m' a = disk_image m' a.
Proof.
  intros R Hrep Hn (H0 & Hbuf & k & Hk & Hlen & Hlim).
  assert (sectors_in buf = Z.of_nat k) as -> by (unfold sectors_in; rewrite Hlen, Nat.mul_comm, Nat.div_mul by lia; done).
  unfold disk_ready, disk_image, disk_stable, disk_write_sectors in *. destruct (g_backend m) eqn:Eb; [done| |].
  - unfold u32. rewrite Z.mod_small by lia.
    destruct (bd_write_ok lba (Z.of_nat k) buf (ata_side m) R H0) as (a & E & R' & Ei & Es);
      [cbn; lia|cbn; lia|done|by rewrite Nat2Z.id|].
    cbn [bd_write ata_device ata_block] in E. rewrite E. eexists. split; [done|]. cbn [g_backend ata_side].
    split; [done|]. split; [|done].
    apply (represents_write n lba (Z.of_nat k) buf (ata_side m)); [done|done|lia|lia|lia|by rewrite Nat2Z.id|exact Ei].
  - unfold u16. rewrite Z.mod_small by lia.
    destruct (bd_write_ok lba (Z.of_nat k) buf (hba_side m) R H0) as (a & E & R' & Ei & Es);
      [cbn; unfold AHCI_DMA_SECTORS; lia|cbn; lia|done|by rewrite Nat2Z.id|].
    cbn [bd_write hba_device ahci_block] in E. rewrite E. eexists. split; [done|]. cbn [g_backend hba_side].
    split; [done|]. split; [|done].
    apply (represents_write n lba (Z.of_nat k) buf (hba_side m)); [done|done|lia|lia|lia|by rewrite Nat2Z.id|exact Ei].
Qed.


(** A write that returned has reached the medium: what survives a loss of power
    is the array after the write. *)
Theorem disk_write_durable (n : nat) (lba : Z) (buf : list Z) (m : disks) (d : list Z) :
  Z.of_nat n <= 2 ^ 28 -> disk_ready m -> represents n (disk_image m) d -> transfer_ok n (TWrite lba buf) ->
  exists m', disk_write_sectors lba (sectors_in buf) buf m = (0, m') /\
    represents n (disk_stable m') (splice (Z.to_nat lba * SECTOR) buf d).
Proof.
  intros Hn R Hrep Ht. destruct (disk_write_flat n lba buf m d R Hrep Hn Ht) as (m' & E & _ & Hrep' & Hs).
  exists m'. split; [done|]. unfold represents in *. rewrite Hrep'. apply range_ext. intros x _. by rewrite Hs.
Qed.

(** * The choice of the driver *)

Context (Hlist : 0 <= a_list < 2 ^ 64) (Htbl : 0 <= a_tbl < 2 ^ 64) (Hid : forall i, length (identity i) = 256%nat).

(** The machine before [disk_init]: either a controller with a disk on the PCI bus,
    or none; and an ATA channel whose disks have whole sectors. *)
Definition has_ahci (m : disks) : Prop :=
  fst (pci_find_ahci_abar (hba_side m)) = window /\ window <> 0 /\ cold dport (hba_side m).

Definition no_ahci (m : disks) : Prop := fst (pci_find_ahci_abar (hba_side m)) = 0.

Definition channel_ok (m : disks) : Prop :=
  (busy (ata_side m) < ATA_TIMEOUT)%nat /\ forall f g a, units (ata_side m) 1 = Disk f g -> length (f a) = 256%nat.

(** The AHCI disk is preferred; without a controller the slave of the ATA
    channel is used; without either the answer is that there is no disk.  The
    chosen driver is ready and the contents of its disk are untouched. *)
Theorem disk_init_chooses (m : disks) :
  has_ahci m \/ no_ahci m -> channel_ok m -> g_backend m = DISK_NONE ->
  exists b m', disk_init m = (b, m') /\ disk_backend m' = b /\
    match b with
    | DISK_AHCI => has_ahci m /\ disk_ready m' /\ disk_image m' = bd_image (hba_side m)
    | DISK_ATA_PIO => no_ahci m /\ disk_ready m' /\ (forall a, disk_image m' a = bd_image (ata_side m) a)
    | DISK_NONE => no_ahci m /\ is_disk (units (ata_side m) 1) = false
    end.
Proof.
  intros H [Hb Hsec] Hg. unfold disk_init. destruct H as [Ha|Ha].
  - destruct Ha as (Hw & Hnz & C).
    destruct (ahci_init_ready window a_list a_fis a_tbl a_dma dport pause pfails Hdport Hpause Hlist Htbl (hba_side m) Hw Hnz C)
      as (h & -> & R & En & _). cbn [Z.eqb]. do 2 eexists. split; [done|]. split; [done|].
    split; [done|]. split; [exact R|]. exact En.
  - assert (exists h, ahci_init window a_list a_fis a_tbl a_dma dport pause pfails (hba_side m) = (-1, h)) as (h & ->).
    { unfold ahci_init, mbind, HM_bind. unfold no_ahci in Ha. destruct (pci_find_ahci_abar (hba_side m)) as [x s1].
      cbn [fst] in Ha. subst x. by eexists. }
    cbn [Z.eqb]. destruct (ata_init_finds_disks delay fails identity (ata_side m) Hdelay Hfails Hid) as (a & -> & Hu & Hba).
    destruct (units (ata_side m) 1) as [| |f g] eqn:E1; cbn [is_disk].
    1, 2: exists DISK_NONE, (mk_disks (g_backend m) h a); rewrite Hg; split; [by destruct (is_disk _)|done].
    exists DISK_ATA_PIO, (mk_disks DISK_ATA_PIO h a). split; [by destruct (is_disk _)|]. split; [done|]. split; [done|].
    cbn [disk_ready disk_image g_backend ata_side bd_ready bd_image ata_device ata_block].
    split; [|intros x; unfold ata_sectors; by rewrite Hu].
    split; [by apply Hba|]. exists f, g. rewrite Hu. split; [exact E1|]. intros x. by apply (Hsec f g).
Qed.

End dispatcher.

(** * A machine with both kinds of disk *)

Definition sample_machine (b : disk_backend_t) (h : ahci) : disks := mk_disks b h sample_channel.

Definition sample_transfers : list transfer := [TWrite 3 (replicate 1024 7); TRead 2 3; TWrite 4 (replicate 512 9); TRead 3 2].

Lemma sample_write_ok (lba x : Z) (k : nat) :
  0 <= lba -> byte x -> (0 < k <= 2)%nat -> lba + Z.of_nat k <= 16 -> transfer_ok 16 (TWrite lba (replicate (512 * k) x)).
Proof.
  intros H0 Hx Hk Hl. split; [done|]. split; [by apply Forall_replicate|].
  exists k. rewrite length_replicate. lia.
Qed.

Lemma sample_transfers_ok : Forall (transfer_ok 16) sample_transfers.
Proof.
  unfold sample_transfers. apply Forall_cons_2; [apply (sample_write_ok 3 7 2); unfold byte; lia|].
  apply Forall_cons_2; [cbn; lia|]. apply Forall_cons_2; [apply (sample_write_ok 4 9 1); unfold byte; lia|].
  apply Forall_cons_2; [cbn; lia|]. constructor.
Qed.


Lemma disk_init_chooses_witness :
  exists m', disk_init sample_window 0x10000400 0x20000500 0x600000 0x4000 2 sample_pause (fun _ => false)
    sample_delay (fun _ => false) (fun _ => replicate 256 0) (sample_machine DISK_NONE sample_cold) = (DISK_AHCI, m').
Proof.
  assert (Hp : 0 <= 2 < 32) by lia. assert (Hd : 0 <= 0x4000 < 2 ^ 64) by lia.
  assert (Hl : 0 <= 0x10000400 < 2 ^ 64) by lia. assert (Ht : 0 <= 0x600000 < 2 ^ 64) by lia.
  assert (fst (pci_find_ahci_abar sample_cold) = sample_window) as Hw by (vm_compute; reflexivity).
  destruct (disk_init_chooses sample_window 0x10000400 0x20000500 0x600000 0x4000 2 sample_pause (fun _ => false)
    sample_delay (fun _ => false) (fun _ => replicate 256 0) Hp sample_pause_short Hd (fun _ => eq_refl)
    sample_prompt (fun _ => eq_refl) Hl Ht (fun _ => eq_refl) (sample_machine DISK_NONE sample_cold)) as (b & m' & E & _ & Hb).
  - left. split; [exact Hw|]. split; [done|apply sample_cold_ok].
  - split; [apply ATA_TIMEOUT_pos|]. intros f g a Hu. injection Hu as <- _. apply length_replicate.
  - done.
  - destruct b; [|destruct Hb as [Hb _]|by exists m'].
    1: destruct Hb as [Hb _]. all: unfold no_ahci in Hb; cbn [hba_side sample_machine] in Hb; by rewrite Hw in Hb.
Defined.
