(* ===== verification/Boot.v ===== *)
(** The start of the kernel: [efi_main] of src/kernel.c up to its main loop, with
    [init_network_stack] of src/net/lwip_glue.c, [mpk_diagnostic] of
    src/mpk_diagnostic.c and src/xmpp/mpk_benchmark.c.

    The components are those of the other files, put together in the order of the
    code.  The firmware is a parameter: its memory map may change with every call,
    and its calls may fail.  What the processor does is written out where the code
    depends on it: an access outside the identity map, a user page under SMEP or
    SMAP, and [CR4.PKE] on a processor without protection keys fault. *)

From Stdlib Require Import ZArith Lia String Ascii Bool.
From stdpp Require Import base list numbers option.
From S2P Require Import Prelude.
From S2P Require Import E1000 NetGlue Pci Ahci Ata.
From S2P Require Import XmppCore Persist Server Reach TlsInit.
From S2P Require Import Pmm Vmm Idt Gate Isr Disk.

Open Scope Z_scope.

(** * Leaving the firmware *)

Definition EFI_ERROR (status : Z) : bool := Z.testbit status 63.
Definition EFI_BUFFER_TOO_SMALL : Z := 2 ^ 63 + 5.
Definition EfiConventionalMemory : Z := 7.

(** The memory map at the [n]-th call of [GetMemoryMap], whose key is [n]; the size
    of a descriptor; the answers of [AllocatePool] and of the [n]-th call of
    [ExitBootServices] with a key. *)
Record firmware := mk_fw {
  fw_map : nat -> list memory_descriptor;
  fw_desc_size : Z;
  fw_pool : Z -> Z;
  fw_exit : nat -> nat -> Z
}.

(** The status, the size of the map, and the map, for a buffer of [size] bytes. *)
Definition GetMemoryMap (fw : firmware) (n : nat) (size : Z) : Z * Z * list memory_descriptor :=
  let need := Z.of_nat (List.length (fw_map fw n)) * fw_desc_size fw in
  if size <? need then (EFI_BUFFER_TOO_SMALL, need, []) else (0, need, fw_map fw n).

Inductive exited := ExReturned (status : Z) | ExHung | ExMap (map : list memory_descriptor).

Definition leave_firmware (fw : firmware) : exited :=
  let '(_, MapSize, _) := GetMemoryMap fw 0 0 in
  let MapSize := MapSize + 2 * fw_desc_size fw in
  let Status := fw_pool fw MapSize in
  if EFI_ERROR Status then ExReturned Status
  else
    let '(Status, MapSize, MemoryMap) := GetMemoryMap fw 1 MapSize in
    if EFI_ERROR Status then ExReturned Status
    else
      let Status := fw_exit fw 0 1 in
      if EFI_ERROR Status then
        let '(Status, _, MemoryMap) := GetMemoryMap fw 2 MapSize in
        if EFI_ERROR Status then ExHung
        else if EFI_ERROR (fw_exit fw 1 2) then ExHung else ExMap MemoryMap
      else ExMap MemoryMap.

(** * The processor *)

(** CR0 and CR4 after [enable_sse]. *)
Definition enable_sse (cr0 cr4 : Z) : Z * Z :=
  (Z.setbit (Z.clearbit cr0 2) 1, Z.setbit (Z.setbit cr4 9) 10).

(** Bit 3 of ECX of leaf 7. *)
Definition cpu_has_pku (ecx : Z) : bool := Z.testbit ecx 3.

(** With SMEP or SMAP the kernel cannot use pages that are open to user mode. *)
Definition user_pages_usable (cr4 : Z) : bool := negb (Z.testbit cr4 20) && negb (Z.testbit cr4 21).

(** * The network interface *)

Record netif := mk_netif {
  nif_name : list Z; hwaddr : list Z; hwaddr_len : Z; ip_addr : Z; netmask : Z; gw : Z; mtu : Z; nif_flags : Z;
  is_listed : bool; is_default : bool
}.

Definition netif0 : netif := mk_netif [0; 0] (replicate 6 0) 0 0 0 0 0 0 false false.

Definition NETIF_FLAG_UP : Z := 0x01.
Definition NETIF_FLAG_BROADCAST : Z := 0x02.
Definition NETIF_FLAG_LINK_UP : Z := 0x04.
Definition NETIF_FLAG_ETHARP : Z := 0x08.

(** [IP4_ADDR]: the address in network order. *)
Definition IP4_ADDR (a b c d : Z) : Z := Z.lor a (Z.lor (Z.shiftl b 8) (Z.lor (Z.shiftl c 16) (Z.shiftl d 24))).

Definition angelic_netif_init (n : netif) : netif :=
  mk_netif (str "e0") (hwaddr n) (hwaddr_len n) (ip_addr n) (netmask n) (gw n) 1500
    (Z.lor NETIF_FLAG_BROADCAST (Z.lor NETIF_FLAG_ETHARP NETIF_FLAG_LINK_UP)) (is_listed n) (is_default n).

(** [netif_add]: the configuration is reset and set, the driver's function called,
    and the interface put on the list. *)
Definition netif_add (ip nm g : Z) (init : netif -> netif) (n : netif) : netif :=
  let n := init (mk_netif (nif_name n) (hwaddr n) (hwaddr_len n) ip nm g 0 0 (is_listed n) (is_default n)) in
  mk_netif (nif_name n) (hwaddr n) (hwaddr_len n) (ip_addr n) (netmask n) (gw n) (mtu n) (nif_flags n) true (is_default n).

Definition netif_set_default (n : netif) : netif :=
  mk_netif (nif_name n) (hwaddr n) (hwaddr_len n) (ip_addr n) (netmask n) (gw n) (mtu n) (nif_flags n) (is_listed n) true.

Definition netif_set_up (n : netif) : netif :=
  mk_netif (nif_name n) (hwaddr n) (hwaddr_len n) (ip_addr n) (netmask n) (gw n) (mtu n)
    (Z.lor (nif_flags n) NETIF_FLAG_UP) (is_listed n) (is_default n).

Definition init_network_stack (mac : list Z) (n : netif) : netif :=
  let ip := IP4_ADDR 10 0 2 15 in
  let nm := IP4_ADDR 255 255 255 0 in
  let g := IP4_ADDR 10 0 2 2 in
  let n := mk_netif (nif_name n) mac 6 (ip_addr n) (netmask n) (gw n) (mtu n) (nif_flags n) (is_listed n) (is_default n) in
  netif_set_up (netif_set_default (netif_add ip nm g angelic_netif_init n)).

(** * The benchmark *)

Definition BENCH_ITERATIONS : Z := 1000000.
Definition WARM_UP_ITERS : Z := 100000.
Definition PKRU_UNLOCK : Z := 0.
Definition PKRU_LOCK : Z := 0x0C.

(** [wrpkru] without CR4.PKE is undefined. *)
Definition do_wrpkru (val : Z) (c : cpu) : option cpu :=
  if Z.testbit (cr4 c) CR4_PKE then Some (set_pkru (u32 val) c) else None.

(** [n] rounds of unlocking and locking. *)
Fixpoint wrpkru_pairs (n : nat) (c : cpu) : option cpu :=
  match n with
  | O => Some c
  | S n' => c ← do_wrpkru PKRU_UNLOCK c; c ← do_wrpkru PKRU_LOCK c; wrpkru_pairs n' c
  end.

(** [tsc i] is the time stamp at the [i]-th of the four readings. *)
Definition mpk_benchmark_run (tsc : nat -> Z) (c : cpu) : option (Z * cpu) :=
  c ← wrpkru_pairs (Z.to_nat WARM_UP_ITERS) c;
  let cal_ticks := u64 (tsc 1%nat - tsc 0%nat) in
  c ← wrpkru_pairs (Z.to_nat BENCH_ITERATIONS) c;
  let meas_ticks := u64 (tsc 3%nat - tsc 2%nat) in
  let net_ticks := if cal_ticks <? meas_ticks then meas_ticks - cal_ticks else 0 in
  Some (net_ticks / (2 * BENCH_ITERATIONS), c).

(** The number it prints last, and the registers. *)
Definition mpk_benchmark (tsc : nat -> Z) (c : cpu) : option (Z * cpu) :=
  '(cycles, c) ← mpk_benchmark_run tsc c; c ← do_wrpkru PKRU_LOCK c; Some (cycles, c).

(** * The diagnostic *)

Record diagnosis := mk_diag { d_pkru : pkru_verdict; d_code : verdict; d_data : verdict; d_test : selftest }.

Section boot.
(** The linker's bounds of the driver, and the addresses of its functions, of the
    buffer for the station address and of the transmit arrays. *)
Context (code_start code_end data_start data_end : Z).
Context (f_init f_send_raw f_poll f_scatter mac_buf addrs_buf lens_buf : Z).
(** The compiled code: functions behind the gates, the stubs, the handler. *)
Context (callee : Z -> cpu -> option cpu) (isr_stub_table : nat -> Z) (compiled : cpu -> cpu) (after_call : Z).
(** The hardware: the features, the card's registers and rings and its activity, the
    time stamps, the byte the self-test reads. *)
Context (cpuid_ecx : Z) (nic_reg : nat -> Z -> Z) (rx_phys tx_phys : Z) (card_hw : nat -> nic -> nic) (tsc : nat -> Z) (probed : Z).
(** The disks, for [disk_init]. *)
Context (window a_list a_fis a_tbl a_dma dport : Z) (pause : nat -> nat) (pfails : nat -> bool).
Context (delay : nat -> nat) (fails : nat -> bool) (identity : nat -> list Z).
(** The announcement lwIP sends when the interface comes up; mbedTLS. *)
Context (garp : pbuf) (tls_lib : call -> Z).
Context `{Env}.

Definition mpk_diagnostic (s : mm) (m : mach) : diagnosis * mach :=
  let '(t, m') := violation_selftest isr_stub_table compiled after_call data_start probed (read_pte_pkey data_start s) m in
  (mk_diag (verify_pkru (pkru (core m))) (verify_pte_keys code_start code_end 1 s) (verify_pte_keys data_start data_end 1 s) t, m').

(** A call of an assembly routine from C: the arguments, the return address, the
    routine.  Between such calls only the stack pointer, PKRU and CR4 matter. *)
Definition call_asm (code : list instr) (args : list Z) (c : cpu) : option cpu :=
  routine callee after_call code (push after_call (pass args c)).

Definition call_gate (g : gated) (mmio_base : Z) (c : cpu) : option cpu :=
  let '(k, args) := gate_call f_init f_send_raw f_poll f_scatter mmio_base g in call_asm (trampoline k) args c.

(** ** The machine when it serves *)

Record kernel := mk_kernel {
  k_mm : mm; k_nic : nic; k_mac : list Z; k_disks : disks; k_netif : netif; k_mach : mach;
  k_diag : diagnosis; k_cycles : Z; k_srv : srv
}.

Inductive boot_result := ReturnedToFirmware (status : Z) | Hung | Faulted | TlsFailed | Serving (k : kernel).

Definition or_fault {A} (x : option A) (k : A -> boot_result) : boot_result := match x with Some a => k a | None => Faulted end.

Definition guard_access (b : bool) (k : boot_result) : boot_result := if b then k else Faulted.

(** The registers of the card, and the pages for its buffers, are under the map. *)
Definition MMIO_SIZE : Z := 0x20000.

Definition card_reachable (mmio_base : Z) (s : mm) : bool :=
  (mmio_base + MMIO_SIZE <=? IDENTITY_LIMIT) &&
  forallb (fun i => page_of s i <? IDENTITY_LIMIT) (seq 0 (Nat.min RX_RING_SIZE (capacity s))).

(** The page tables, which lie one after the other from the root on. *)
Definition tables_reachable (s : mm) : bool := kernel_pml4 s + PAGE_SIZE * INIT_PAGES <=? IDENTITY_LIMIT.

(** ** [efi_main] *)

(** From [init_network_stack] to the main loop. *)
Definition start_services (mmio_base : Z) (mac : list Z) (n : nic) (s : mm) (d : disks) (m : mach) (srv0 : srv) : boot_result :=
  let nif := init_network_stack mac netif0 in
  or_fault (call_gate (GateSendScatter addrs_buf lens_buf 1) mmio_base (core m)) (fun c =>
  let '(_, _, n) := low_level_output_zerocopy card_hw 0 [garp] [] n in
  guard_access (tables_reachable s) (
  let s := vmm_protect_driver code_start code_end data_start data_end s in
  or_fault (call_asm mpk_set_pkru [0x0C] c) (fun c =>
  let '(diag, m) := mpk_diagnostic s (set_core c m) in
  or_fault (mpk_benchmark tsc (core m)) (fun '(cycles, c) =>
  let m := mk_mach c (Z.setbit (rflags m) 9) (cs m) (ss m) (irqs m) in
  let '(listening, sv) := xmpp_init_server (fst (xmpp_tls_server_init tls_lib)) srv0 in
  if (listening : bool) then Serving (mk_kernel s n mac d nif m diag cycles sv) else TlsFailed)))).

Definition efi_main (fw : firmware) (mem0 : memory) (mmio_base cr0 : Z) (d : disks) (m : mach) (srv0 : srv) : boot_result :=
  let '(_, cr4_sse) := enable_sse cr0 (cr4 (core m)) in
  let m := set_core (set_cr4 cr4_sse (core m)) m in
  match leave_firmware fw with
  | ExReturned status => ReturnedToFirmware status
  | ExHung => Hung
  | ExMap MemoryMap =>
      let s := vmm_init (pmm_init EfiConventionalMemory MemoryMap (mm0 mem0)) in
      guard_access (user_pages_usable (cr4 (core m))) (
      guard_access (cpu_has_pku cpuid_ecx) (
      or_fault (call_asm mpk_enable [] (core m)) (fun c =>
      let m := mk_mach c (rflags m) (cs m) (ss m) (init_idt isr_stub_table (irqs m)) in
      guard_access (card_reachable mmio_base s) (
      or_fault (call_gate (GateInit mac_buf) mmio_base c) (fun c =>
      let '(_, mac, n, s) := e1000_init nic_reg rx_phys tx_phys nic0 s in
      let '(_, d) := disk_init window a_list a_fis a_tbl a_dma dport pause pfails delay fails identity d in
      start_services mmio_base mac n s d (set_core c m) srv0)))))
  end.

(** * Facts *)

(** What no mapping of a page changes. *)
Definition fixed_part (s : mm) : Z * Z := (free_memory_end s, kernel_pml4 s).

Lemma next_table_fixed table idx s : fixed_part (snd (next_table table idx s)) = fixed_part s.
Proof. unfold next_table. destruct (present _); [done|]. unfold pmm_alloc_page. by destruct (_ <=? _). Qed.

Lemma vmm_map_page_fixed virt phys flags s : fixed_part (vmm_map_page virt phys flags s) = fixed_part s.
Proof.
  unfold vmm_map_page. pose proof (next_table_fixed (kernel_pml4 s) (PML4_INDEX virt) s) as E1.
  destruct (next_table (kernel_pml4 s) _ s) as [pdp s1]. pose proof (next_table_fixed pdp (PDP_INDEX virt) s1) as E2.
  destruct (next_table pdp _ s1) as [pd s2]. pose proof (next_table_fixed pd (PD_INDEX virt) s2) as E3.
  destruct (next_table pd _ s2) as [pt s3]. cbn [snd] in *. change (fixed_part s3 = fixed_part s). congruence.
Qed.

Lemma map_pages_fixed n addr s : fixed_part (map_pages n addr s) = fixed_part s.
Proof. revert addr s. induction n as [|n IH]; intros addr s; cbn [map_pages]; [done|]. by rewrite IH, vmm_map_page_fixed. Qed.

(** The root of the tables is the first page of the pool. *)
Lemma vmm_init_fixed s : pool_ok s -> has_page s -> fixed_part (vmm_init s) = (free_memory_end s, free_memory_start s).
Proof. intros Hok Hp. unfold vmm_init. by rewrite pmm_alloc_some, map_pages_fixed by done. Qed.

(** ** The calls *)

Lemma pass_keeps (args : list Z) (c : cpu) :
  (List.length args <= 5)%nat -> let c' := pass args c in regs c' RSP = regs c RSP /\ cr4 c' = cr4 c /\ pkru c' = pkru c /\ stack c' = stack c.
Proof.
  intros Hl. destruct c as [[a bx b di si d bp sp b8 b9 b10 b11 b12 b13 b14 b15] st pk c4 ip].
  do 6 (destruct args as [|? args]; [done|]). cbn in Hl. lia.
Qed.

Lemma pass_first (f : Z) (args : list Z) (c : cpu) : (List.length args <= 4)%nat -> regs (pass (f :: args) c) RDI = f.
Proof.
  intros Hl. destruct c as [[a bx b di si d bp sp b8 b9 b10 b11 b12 b13 b14 b15] st pk c4 ip].
  do 5 (destruct args as [|? args]; [done|]). cbn in Hl. lia.
Qed.

Lemma push_regs (v : Z) (c : cpu) (r : reg) : 8 <= regs c RSP < 2 ^ 64 -> regs (push v c) r = if decide (r = RSP) then regs c RSP - 8 else regs c r.
Proof. intros Hsp. unfold push, u64. rewrite Z.mod_small by lia. apply (regs_set RSP (regs c RSP - 8) c r). Qed.

(** A call through a gate ends locked, on the same stack. *)
Lemma call_gate_ok (g : gated) (mmio_base : Z) (c : cpu) :
  callee_ok callee f_init -> callee_ok callee f_send_raw -> callee_ok callee f_poll -> callee_ok callee f_scatter ->
  Z.testbit (cr4 c) CR4_PKE = true -> 128 <= regs c RSP < 2 ^ 64 - 8 ->
  exists c', call_gate g mmio_base c = Some c' /\ pkru c' = 0x0C /\ cr4 c' = cr4 c /\ regs c' RSP = regs c RSP.
Proof.
  intros H1 H2 H3 H4 Hp Hsp.
  assert (forall k f args, (k <= 4)%nat -> List.length args = k -> callee_ok callee f ->
    exists c', call_asm (trampoline k) (f :: args) c = Some c' /\ pkru c' = 0x0C /\ cr4 c' = cr4 c /\ regs c' RSP = regs c RSP) as Hgen.
  { intros k f args Hk Hl Hf. destruct (pass_keeps (f :: args) c ltac:(cbn; lia)) as (P1 & P2 & P3 & P4).
    pose proof (pass_first f args c ltac:(lia)) as P5. unfold call_asm. set (cp := pass (f :: args) c) in *.
    assert (regs (push after_call cp) RDI = f /\ regs (push after_call cp) RSP = regs c RSP - 8) as [Q1 Q2]
      by (rewrite !push_regs by lia; rewrite decide_False, decide_True by done; by rewrite P1).
    destruct (gate_run callee after_call k f (push after_call cp) Hk Hf Q1) as (c1 & c2 & c' & E & _ & _ & _ & _ & Epk & _ & _ & [Rsp _ _ Rc4]);
      [by change (cr4 (push after_call cp)) with (cr4 cp); rewrite P2|rewrite Q2; lia|].
    exists c'. split_and!; [done|done| |rewrite Rsp, Q2; lia]. rewrite Rc4. exact P2. }
  unfold call_gate. destruct g; cbn [gate_call]; apply Hgen; (lia || done).
Qed.

Lemma call_enable_ok (c : cpu) :
  8 <= regs c RSP < 2 ^ 64 ->
  exists c', call_asm mpk_enable [] c = Some c' /\ cr4 c' = Z.setbit (cr4 c) 22 /\ regs c' RSP = regs c RSP /\ pkru c' = pkru c.
Proof.
  destruct c as [[a bx b d si di bp sp b8 b9 b10 b11 b12 b13 b14 b15] st pk c4 ip]. intros Hsp.
  eexists. split; [reflexivity|]. change (8 <= sp < 2 ^ 64) in Hsp. split; [reflexivity|]. split; [|reflexivity].
  change (u64 (u64 (sp - 8) + 8) = sp). unfold u64. rewrite !(Z.mod_small (sp - 8)) by lia. rewrite Z.mod_small by lia. lia.
Qed.

Lemma call_set_pkru_ok (c : cpu) :
  Z.testbit (cr4 c) CR4_PKE = true -> 8 <= regs c RSP < 2 ^ 64 ->
  exists c', call_asm mpk_set_pkru [0x0C] c = Some c' /\ cr4 c' = cr4 c /\ regs c' RSP = regs c RSP /\ pkru c' = 0x0C.
Proof.
  destruct c as [[a bx b d si di bp sp b8 b9 b10 b11 b12 b13 b14 b15] st pk c4 ip]. intros Hp Hsp. change (Z.testbit c4 CR4_PKE = true) in Hp.
  change (8 <= sp < 2 ^ 64) in Hsp. unfold call_asm, routine.
  set (c := push after_call _). assert (cr4 c = c4) as Hc4 by reflexivity.
  destruct (mpk_set_pkru_ok callee after_call c) as (c1 & E & Epk & Ec4 & _ & Esp); [by rewrite Hc4|].
  change (regs c RSP) with (u64 (sp - 8)) in Esp.
  rewrite E. cbn [mbind option_bind pop]. eexists. split; [reflexivity|]. split; [by rewrite <- Hc4, <- Ec4|]. split; [|exact (eq_trans Epk eq_refl)].
  change (regs (set_reg RSP (u64 (regs c1 RSP + 8)) c1) RSP = sp). rewrite regs_set, decide_True, Esp by done.
  unfold u64. rewrite (Z.mod_small (sp - 8)) by lia. rewrite Z.mod_small by lia. lia.
Qed.

Lemma wrpkru_pairs_ok (n : nat) (c : cpu) :
  Z.testbit (cr4 c) CR4_PKE = true -> exists v, wrpkru_pairs n c = Some (set_pkru v c).
Proof.
  revert c. induction n as [|n IH]; intros c Hp; cbn [wrpkru_pairs]; [exists (pkru c); by destruct c|].
  unfold do_wrpkru. rewrite Hp. cbn [mbind option_bind]. change (cr4 (set_pkru (u32 PKRU_UNLOCK) c)) with (cr4 c). rewrite Hp. cbn [mbind option_bind].
  destruct (IH (set_pkru (u32 PKRU_LOCK) (set_pkru (u32 PKRU_UNLOCK) c))) as (v & E); [done|]. exists v. rewrite E. by destruct c.
Qed.

#[local] Opaque wrpkru_pairs.

(** The benchmark leaves the keys locked, and its subtraction never wraps. *)
Lemma mpk_benchmark_ok (c : cpu) :
  Z.testbit (cr4 c) CR4_PKE = true ->
  exists cycles, mpk_benchmark tsc c = Some (cycles, set_pkru 0x0C c) /\ 0 <= cycles < 2 ^ 64 / (2 * BENCH_ITERATIONS) + 1.
Proof.
  intros Hp. unfold mpk_benchmark, mpk_benchmark_run.
  destruct (wrpkru_pairs_ok (Z.to_nat WARM_UP_ITERS) c Hp) as (v1 & ->). cbn [mbind option_bind].
  destruct (wrpkru_pairs_ok (Z.to_nat BENCH_ITERATIONS) (set_pkru v1 c) Hp) as (v2 & ->). cbn [mbind option_bind].
  unfold do_wrpkru. change (cr4 (set_pkru v2 (set_pkru v1 c))) with (cr4 c). rewrite Hp. cbn [mbind option_bind].
  eexists. split; [by destruct c|].
  pose proof (Z.mod_pos_bound (tsc 1%nat - tsc 0%nat) (2 ^ 64) ltac:(lia)) as B1. pose proof (Z.mod_pos_bound (tsc 3%nat - tsc 2%nat) (2 ^ 64) ltac:(lia)) as B2.
  fold (u64 (tsc 1%nat - tsc 0%nat)) in B1. fold (u64 (tsc 3%nat - tsc 2%nat)) in B2.
  set (net := if _ <? _ then _ else _). assert (0 <= net < 2 ^ 64) as Hnet by (unfold net; destruct (Z.ltb_spec (u64 (tsc 1%nat - tsc 0%nat)) (u64 (tsc 3%nat - tsc 2%nat))); lia).
  unfold BENCH_ITERATIONS. split; [apply Z.div_pos; lia|]. apply Z.lt_succ_r. apply Z.div_le_mono; lia.
Qed.

(** ** What boot is about *)

(** The pages of the driver. *)
Definition in_driver (v : Z) : bool := bool_decide (code_start <= v < code_end \/ data_start <= v < data_end).

(** A data access of the kernel to an address under the map. *)
Definition may_access (k : kernel) (v : Z) (write : bool) : bool :=
  pkru_allows (pkru (core (k_mach k))) (read_pte_pkey v (k_mm k)) write.

Record secured (k : kernel) : Prop := {
  se_map : forall v, 0 <= v < IDENTITY_LIMIT ->
    walk (k_mm k) v = Some (Z.lor (Z.lor (v / PAGE_SIZE * PAGE_SIZE) 7) (PTE_PKEY (if in_driver v then 1 else 0)));
  se_access : forall v write, 0 <= v < IDENTITY_LIMIT -> may_access k v write = negb (in_driver v);
  se_diag : k_diag k = mk_diag Locked AllTagged AllTagged ViolationCaught;
  se_pke : Z.testbit (cr4 (core (k_mach k))) CR4_PKE = true;
  se_idt : idt_installed isr_stub_table (irqs (k_mach k));
  se_if : Z.testbit (rflags (k_mach k)) 9 = true;
  se_netif : (hwaddr (k_netif k), mtu (k_netif k), nif_flags (k_netif k), is_default (k_netif k)) = (k_mac k, 1500, 0x0F, true);
  se_server : reachable (O, k_srv k)
}.

(** The compiled code keeps the calling convention; the stubs are where they are. *)
Context (Hcompiled : forall c, returns c (compiled c) /\ pkru (compiled c) = pkru c).
Context (Hinj : forall v w, (v < 48)%nat -> (w < 48)%nat -> isr_stub_table v = isr_stub_table w -> v = w).
Context (Htable : forall i, 0 <= isr_stub_table i < 2 ^ 64).
Context (Hfuns : callee_ok callee f_init /\ callee_ok callee f_send_raw /\ callee_ok callee f_poll /\ callee_ok callee f_scatter).
(** The linker aligns the sections, below 4 GiB, and neither is empty. *)
Context (Ha : aligned code_start /\ aligned code_end /\ aligned data_start /\ aligned data_end).
Context (Hb : 0 <= code_start < code_end /\ code_end <= data_start < data_end /\ data_end <= IDENTITY_LIMIT).

Lemma diagnostic_ok (s : mm) (m : mach) :
  (forall v, 0 <= v < IDENTITY_LIMIT -> read_pte_pkey v s = driver_key code_start code_end data_start data_end v) ->
  verify_pte_keys code_start code_end 1 s = AllTagged -> verify_pte_keys data_start data_end 1 s = AllTagged ->
  pkru (core m) = 0x0C -> idt_installed isr_stub_table (irqs m) -> 512 <= regs (core m) RSP < 2 ^ 64 - 512 ->
  exists m', mpk_diagnostic s m = (mk_diag Locked AllTagged AllTagged ViolationCaught, m') /\
    pkru (core m') = 0x0C /\ cr4 (core m') = cr4 (core m) /\ idt_installed isr_stub_table (irqs m').
Proof.
  intros Hk Hv1 Hv2 Hpk Hidt Hsp. unfold mpk_diagnostic. rewrite Hk, Hv1, Hv2, Hpk by lia.
  assert (driver_key code_start code_end data_start data_end data_start = 1) as -> by (unfold driver_key; by rewrite decide_True by lia).
  destruct (selftest_catches isr_stub_table compiled after_call Hcompiled Hinj data_start probed m) as (m' & -> & _ & _ & Epk & Ec4 & Eirq);
    [lia|done|done|done|].
  exists m'. split_and!; [done|congruence|done|]. by rewrite Eirq.
Qed.

Lemma start_services_ok (mmio_base : Z) (mac : list Z) (n : nic) (base : Z) (T : gmap.gmap (list Z) Z) (s : mm) (d : disks) (m : mach) (image : list Z) (rd : Libc.rdrand) :
  tables_ok base T s -> identity_mapped T s -> tables_reachable s = true ->
  Z.testbit (cr4 (core m)) CR4_PKE = true -> 512 <= regs (core m) RSP < 2 ^ 64 - 512 -> idt_installed isr_stub_table (irqs m) ->
  fst (xmpp_tls_server_init tls_lib) = 0 ->
  exists k, start_services mmio_base mac n s d m (globals0 image rd) = Serving k /\ secured k /\ k_mac k = mac /\ k_disks k = d /\
    k_nic k = snd (low_level_output_zerocopy card_hw 0 [garp] [] n).
Proof.
  intros Ht HL Hreach Hpke Hsp Hidt Htls. destruct Hfuns as (F1 & F2 & F3 & F4). destruct Ha as (A1 & A2 & A3 & A4). unfold start_services.
  destruct (call_gate_ok (GateSendScatter addrs_buf lens_buf 1) mmio_base (core m) F1 F2 F3 F4 Hpke) as (c1 & -> & Epk1 & Ec41 & Esp1); [lia|].
  cbn [or_fault]. destruct (low_level_output_zerocopy card_hw 0 [garp] [] n) as [[r buf] n']. rewrite Hreach. cbn [guard_access].
  destruct (protect_spec base T s code_start code_end data_start data_end Ht HL A1 A2 A3 A4) as (Hw & Hv1 & Hv2); [lia|lia|lia|].
  set (s' := vmm_protect_driver code_start code_end data_start data_end s) in *.
  destruct (call_set_pkru_ok c1) as (c2 & -> & Ec42 & Esp2 & Epk2); [by rewrite Ec41|lia|]. cbn [or_fault].
  destruct (diagnostic_ok s' (set_core c2 m)) as (m3 & -> & Epk3 & Ec43 & Hidt3);
    [intros v Hv; apply Hw, Hv|apply Hv1; lia|apply Hv2; lia|done|done|cbn [core set_core]; lia|].
  cbn [core set_core] in Ec43.
  destruct (mpk_benchmark_ok (core m3)) as (cyc & -> & _); [by rewrite Ec43, Ec42, Ec41|]. cbn [or_fault].
  set (srv0 := globals0 image rd). destruct (xmpp_init_server (fst (xmpp_tls_server_init tls_lib)) srv0) as [lis sv] eqn:Esrv.
  assert (lis = true /\ sv = snd (xmpp_init_server 0 srv0)) as [-> Esv].
  { rewrite Htls in Esrv. rewrite Esrv. split; [|done]. unfold xmpp_init_server, mbind, M_bind in Esrv.
    destruct (xmpp_persist_load_all srv0) as [u s0]. by injection Esrv. }
  eexists. split; [reflexivity|]. split_and!; [|done|done|done].
  assert (forall v, driver_key code_start code_end data_start data_end v = if in_driver v then 1 else 0) as Hdk
    by (intros v; unfold driver_key, in_driver; case_decide; [by rewrite bool_decide_true|by rewrite bool_decide_false]).
  split; cbn [k_mm k_mach k_diag k_srv k_netif k_mac core cr4 rflags irqs set_pkru].
  - intros v Hv. rewrite <- Hdk. by apply Hw.
  - intros v w Hv. unfold may_access. cbn [k_mm k_mach core]. rewrite (proj2 (Hw v Hv)), Hdk. change (pkru (set_pkru 0x0C (core m3))) with 0x0C.
    rewrite locked_keys by (destruct (in_driver v); lia). by destruct (in_driver v).
  - done.
  - by rewrite Ec43, Ec42, Ec41.
  - done.
  - rewrite Z.setbit_eqb by lia. done.
  - done.
  - rewrite Esv. by apply (reachable_from image rd), relations.rtc_refl.
Qed.

(** What a boot needs: the firmware lets go with a memory map whose usable segments
    are sound and whose largest one has room, under 4 GiB, for the page tables and
    the receive buffers; a processor with protection keys and without SMEP and
    SMAP; the card's registers under 4 GiB; a stack. *)
Record bootable (fw : firmware) (MemoryMap : list memory_descriptor) (mem0 : memory) (mmio_base : Z) (m : mach) : Prop := {
  bo_exit : leave_firmware fw = ExMap MemoryMap;
  bo_segments : Forall (fun d => Type_ d = EfiConventionalMemory -> segment_ok d) MemoryMap;
  bo_memory : Exists (fun d => Type_ d = EfiConventionalMemory /\ 0 < NumberOfPages d) MemoryMap;
  bo_room : let p := pmm_init EfiConventionalMemory MemoryMap (mm0 mem0) in
    free_memory_start p + PAGE_SIZE * (INIT_PAGES + 33) < free_memory_end p /\
    free_memory_start p + PAGE_SIZE * (INIT_PAGES + 32) <= IDENTITY_LIMIT;
  bo_pku : cpu_has_pku cpuid_ecx = true;
  bo_user : user_pages_usable (cr4 (core m)) = true;
  bo_card : mmio_base + MMIO_SIZE <= IDENTITY_LIMIT;
  bo_stack : 512 <= regs (core m) RSP < 2 ^ 64 - 512;
  bo_idt : List.length (idt (irqs m)) = 256%nat
}.

(** The memory after [vmm_init], with the tables and the pages that are left. *)
Lemma boot_memory (fw : firmware) (MemoryMap : list memory_descriptor) (mem0 : memory) (mmio_base : Z) (m : mach) :
  bootable fw MemoryMap mem0 mmio_base m ->
  let p := pmm_init EfiConventionalMemory MemoryMap (mm0 mem0) in let s := vmm_init p in
  (exists T, tables_ok (free_memory_start p) T s /\ identity_mapped T s) /\
  (RX_RING_SIZE <= capacity s)%nat /\ pool_ok s /\ card_reachable mmio_base s = true /\
  free_memory_start s = free_memory_start p + PAGE_SIZE * INIT_PAGES /\ kernel_pml4 s = free_memory_start p.
Proof.
  intros [_ B2 B3 [R1 R2] _ _ B7 _ _] p s. destruct (pmm_init_pool EfiConventionalMemory MemoryMap mem0 B2 B3) as (Hok & _ & _).
  fold p in Hok, R1, R2. destruct (vmm_init_tables p Hok) as [T Hid]; [unfold PAGE_SIZE in *; lia|].
  assert (has_page p) as Hp by (unfold has_page, PAGE_SIZE, INIT_PAGES in *; lia).
  pose proof (vmm_init_fixed p Hok Hp) as Hf. unfold fixed_part in Hf. fold s in Hf, Hid. injection Hf as E1 E2.
  pose proof (id_pages _ _ _ _ _ Hid) as E3. change (table_pages (2 ^ 20)) with INIT_PAGES in E3.
  pose proof (to_pool _ _ _ (id_tables _ _ _ _ _ Hid)) as Hpool.
  assert (RX_RING_SIZE <= capacity s)%nat as Hcap.
  { unfold capacity. rewrite E1, E3. assert (32 <= (free_memory_end p - (free_memory_start p + PAGE_SIZE * INIT_PAGES) - 1) / PAGE_SIZE)
      by (apply Z.div_le_lower_bound; unfold PAGE_SIZE in *; lia). unfold RX_RING_SIZE. lia. }
  split_and!; [|done|done| |done|done].
  - exists T. split; [exact (id_tables _ _ _ _ _ Hid)|exact (identity_ok_mapped _ _ _ _ Hid)].
  - unfold card_reachable. rewrite (proj2 (Z.leb_le _ _) B7), Nat.min_l by done. cbn [andb]. apply forallb_forall.
    intros i Hi. apply in_seq in Hi. unfold page_of. rewrite E3. apply Z.ltb_lt. unfold RX_RING_SIZE, PAGE_SIZE in *. lia.
Qed.

(** Taking pages keeps the tables and their root. *)
Lemma e1000_keeps_tables (base : Z) (T : gmap.gmap (list Z) Z) (s : mm) :
  tables_ok base T s -> identity_mapped T s ->
  let s' := snd (e1000_init nic_reg rx_phys tx_phys nic0 s) in
  tables_ok base T s' /\ identity_mapped T s' /\ kernel_pml4 s' = kernel_pml4 s.
Proof.
  intros Ht HL. apply (init_mm (fun x => tables_ok base T x /\ identity_mapped T x /\ kernel_pml4 x = kernel_pml4 s)); [|done].
  intros x (H1 & H2 & H3). destruct (alloc_tables base T x H1 H2) as (? & ? & _). split_and!; [done|done|].
  rewrite <- H3. unfold pmm_alloc_page. by destruct (_ <=? _).
Qed.


(** ** When it does not boot *)

(** The check for protection keys is commented out: on a processor without them the
    kernel faults when it enables them, before it has a handler for the fault. *)
Lemma no_pku_faults (fw : firmware) (MemoryMap : list memory_descriptor) (mem0 : memory) (mmio_base cr0 : Z) (d : disks) (m : mach) (srv0 : srv) :
  leave_firmware fw = ExMap MemoryMap -> cpu_has_pku cpuid_ecx = false -> efi_main fw mem0 mmio_base cr0 d m srv0 = Faulted.
Proof. intros E Hp. unfold efi_main. cbn [enable_sse]. rewrite E, Hp. by destruct (user_pages_usable _). Qed.

(** With SMEP on, which the code means to warn about, the kernel does not live to see
    the warning: all of its pages are open to user mode. *)
Lemma smep_faults (fw : firmware) (MemoryMap : list memory_descriptor) (mem0 : memory) (mmio_base cr0 : Z) (d : disks) (m : mach) (srv0 : srv) :
  leave_firmware fw = ExMap MemoryMap -> Z.testbit (cr4 (core m)) 20 = true -> efi_main fw mem0 mmio_base cr0 d m srv0 = Faulted.
Proof.
  intros E Hs. unfold efi_main. cbn [enable_sse]. rewrite E. unfold user_pages_usable. cbn [core set_core cr4 set_cr4].
  by rewrite !(Z.setbit_neq _ _ 20), Hs by lia.
Qed.

(** The identity map ends at 4 GiB, but the registers of the card and the pages of
    the allocator need not be under it: then the driver faults. *)
Theorem high_card_faults (fw : firmware) (MemoryMap : list memory_descriptor) (mem0 : memory) (mmio_base cr0 : Z) (d : disks) (m : mach) (srv0 : srv) :
  leave_firmware fw = ExMap MemoryMap -> IDENTITY_LIMIT < mmio_base + MMIO_SIZE -> efi_main fw mem0 mmio_base cr0 d m srv0 = Faulted.
Proof.
  intros E Hc. unfold efi_main. cbn [enable_sse]. rewrite E. destruct (user_pages_usable _); [|done]. destruct (cpu_has_pku _); [|done].
  cbn [guard_access]. destruct (call_asm mpk_enable [] _) as [c|]; [|done]. cbn [or_fault]. unfold card_reachable.
  by rewrite (proj2 (Z.leb_gt (mmio_base + MMIO_SIZE) IDENTITY_LIMIT)) by lia.
Qed.

End boot.

(** ** The firmware *)

(** The firmware lets go at the first try when the map has grown by two descriptors
    at most since its size was asked for. *)
Lemma leaves_at_once (fw : firmware) :
  0 < fw_desc_size fw -> (List.length (fw_map fw 1) <= List.length (fw_map fw 0) + 2)%nat ->
  (forall n, EFI_ERROR (fw_pool fw n) = false) -> EFI_ERROR (fw_exit fw 0 1) = false ->
  leave_firmware fw = ExMap (fw_map fw 1).
Proof.
  intros Hd Hl Hp He. unfold leave_firmware, GetMemoryMap.
  destruct (0 <? _); rewrite Hp; (destruct (Z.ltb_spec (Z.of_nat (List.length (fw_map fw 0)) * fw_desc_size fw + 2 * fw_desc_size fw)
    (Z.of_nat (List.length (fw_map fw 1)) * fw_desc_size fw)); [nia|]); change (EFI_ERROR 0) with false; cbv iota; by rewrite He.
Qed.

(** The buffer has room for two more descriptors than the first map, but at the second
    try the size of the map is passed as the size of the buffer: when the map has
    grown by a single descriptor the kernel hangs, although the buffer could hold it. *)
Theorem retry_forgets_room (fw : firmware) :
  0 < fw_desc_size fw -> List.length (fw_map fw 1) = List.length (fw_map fw 0) ->
  List.length (fw_map fw 2) = S (List.length (fw_map fw 1)) -> (forall n, EFI_ERROR (fw_pool fw n) = false) ->
  EFI_ERROR (fw_exit fw 0 1) = true -> leave_firmware fw = ExHung.
Proof.
  intros Hd Hl1 Hl2 Hp He. unfold leave_firmware, GetMemoryMap. rewrite Hl2, Hl1.
  set (w := fw_desc_size fw) in *. set (l := Z.of_nat (List.length (fw_map fw 0))).
  replace (Z.of_nat (S (List.length (fw_map fw 0)))) with (l + 1) by lia.
  destruct (0 <? _); rewrite Hp; rewrite (proj2 (Z.ltb_ge (l * w + 2 * w) (l * w))) by nia; change (EFI_ERROR 0) with false; cbv iota;
    rewrite He; rewrite (proj2 (Z.ltb_lt (l * w) ((l + 1) * w))) by nia; done.
Qed.

(** * A boot *)

Definition sample_fw : firmware :=
  mk_fw (fun _ => [mk_desc 7 0 160; mk_desc 2 0x300000 512; mk_desc 7 0x1000000 100000; mk_desc 7 0x40000000 2000]) 48 (fun _ => 0) (fun _ _ => 0).

Lemma sample_bootable : bootable 8 sample_fw (fw_map sample_fw 1) (fun _ => 1) 0xFEB80000 sample_mach.
Proof.
  split; try reflexivity.
  - cbn [fw_map sample_fw]. repeat (apply List.Forall_cons; [intros _; repeat split; vm_compute; congruence|]). apply List.Forall_nil.
  - right. right. left. done.
  - split; reflexivity || (vm_compute; congruence).
  - vm_compute. congruence.
  - split; [vm_compute; congruence|reflexivity].
Qed.

Definition sample_boot : boot_result :=
  efi_main 0x401000 0x403000 0x500000 0x501000 0x401100 0x401200 0x401300 0x401400 0x8000 0x8100 0x8200
    sample_callee sample_table sample_compiled 0x400600 8 (fun _ _ => 0) 0x500000 0x500200 (fun _ s => s) (fun n => 1000 * Z.of_nat n) 0x5A
    sample_window 0x10000400 0x20000500 0x600000 0x4000 2 sample_pause (fun _ => false) sample_delay (fun _ => false) (fun _ => replicate 256 0)
    (mk_pbuf 0x700000 (replicate 42 0)) sample_lib (H := good_env)
    sample_fw (fun _ => 1) 0xFEB80000 0x80000033 (sample_machine DISK_NONE sample_cold) sample_mach (globals0 [] []).

